(* ===== verification/_CoqProject ===== *)
-Q . S2P
Prelude.v
Bytes.v
ItsUtils.v
ItsFlash.v
ItsMeta.v
ItsMblock.v
ItsFs.v
ItsState.v
ItsView.v
ItsCommit.v
ItsLayout.v
ItsStore.v
ItsInv.v
ItsLookup.v
ItsPhase.v
ItsFileData.v
ItsDelete.v
ItsWrite.v
ItsFileWrite.v
ItsOps.v
ItsModel.v
ItsDemo.v
ItsSpec.v
ItsService.v
ItsAssets.v
ItsRequests.v
ItsServiceSpec.v
PsTypes.v
PsCrypto.v
PsTable.v
PsObject.v
PsLaws.v
PsRules.v
PsStore.v
PsVolume.v
PsOps.v
PsCreate.v
PsBoot.v
PsDemo.v
PsSpec.v
PsWitness.v
SpmLists.v
SpmTypes.v
SpmIpc.v
SpmApi.v
SpmSystem.v
SpmDemo.v
SpmInv.v
SpmRules.v
SpmQueues.v
SpmSend.v
SpmVectors.v
SpmSchedule.v
SpmCalls.v
SpmClient.v
SpmRequests.v
SpmServe.v
SpmRun.v
SpmBoot.v
SpmStreams.v
SpmSpec.v
SpmWitness.v
CryptoService.v
CryptoClient.v
CryptoProof.v
CryptoExact.v
CryptoClaims.v
FwuManager.v
FwuSpec.v
FwuClaims.v
NsMailbox.v
SpeMailbox.v
MailboxSystem.v
MailboxProof.v
MailboxClaims.v
IfxHal.v
IfxIsolation.v
IfxSwitch.v
IfxProof.v
IfxClaims.v
