(* ===== verification/Prelude.v ===== *)
(** * Trusted Firmware-M (Infineon fork): a verification library

    Trusted Firmware-M is the secure firmware of Armv8-M microcontrollers: a
    partition manager (SPM) that runs isolated services, and the services
    themselves.  This library models six parts of it.  The storage services are
    modelled down to the flash driver, in the order in which they are built on
    each other, with what they promise to their clients, also when power is
    lost.  The partition manager is modelled as a system of partitions that
    call it in any order, with what it promises to all of them while they keep
    to its protocol.  The firmware update service is modelled down to the interface
    of the bootloader, with the state machine of the components.  On chips with two
    cores, the mailbox carries the calls of the non-secure core to the partition
    manager; its two sides are modelled as concurrent processes.  The
    crypto service is modelled with the client side of its API, over the library
    that implements the algorithms.  On Infineon devices, the platform side of the
    isolation is modelled: memory regions, peripherals, the memory check, and the
    changes of the boundary while the partition manager switches between
    partitions.  A client's request reaches
    a service through the partition manager; the service works on the message
    (type, client identifier, vectors) that both parts have as a record of
    their own.

    Paths below are relative to [src/src/secure_fw/partitions/].  [ITS] stands
    for [internal_trusted_storage/], [PS] for [protected_storage/].

    ** How code is modelled

    A C function that returns [psa_status_t] is a computation [M S A] over an
    explicit state [S] (this file): [Ok] with the out-parameters, or [Err] with
    the status; side effects made before an error stay.  Early returns are
    [check] and [fail], an overwritten status is [or_return], a status that is
    kept for later is [try].  Integers are [Z]; where C reduces a value to its
    type the model writes [u8], [u16] or [u32].  Buffers are lists of bytes
    (file [Bytes]).  [wp m Q E s] says how a computation ends; every rule of the
    library has that form.

    ** Internal trusted storage, file system ([ITS/flash_fs/])

    - [ItsUtils] ([ITS/its_utils.c]): bounds check, identifiers, alignment.
    - [ItsFlash] ([ITS/flash/its_flash_hal.h]): the table of driver operations as
      a class [FlashOps]; [FlashLaws] is what the file system may rely on of a
      driver that commits writes as they are made and whose power may fail at
      any operation (a write or erasure that is cut leaves each byte old or
      new), [FlashTotal] a driver that never fails.  The header also permits
      drivers that buffer writes until they are flushed, as the NAND driver
      does; what such a driver leaves after a loss of power is not modelled.
      The RAM driver ([ITS/flash/its_flash_ram.c]) is an instance of both classes;
      [ItsDemo] has a driver that loses power after a number of operations, and
      one whose writes only clear bits, like NOR flash.
    - [ItsMeta], [ItsMblock] ([its_flash_fs_mblock.c]), [ItsFs]
      ([its_flash_fs.c], [its_flash_fs_dblock.c]): the on-flash structures and
      every operation of the file system.  The build has no [ITS_ENCRYPTION]
      and a program unit of at most four bytes.  Loops over blocks and files
      run over [num_blocks] and [max_num_files], which is their fuel; a move
      between blocks has one unit of fuel per byte, more than the chunks it
      copies ([ItsSpec.block_to_block_move_copies]).
    - [ItsState], [ItsView]: rules for reads and writes over a symbolic state.
      [ItsLayout], [ItsStore]: the metadata as tables of blocks and files, and
      the finite map from identifiers to files that they stand for.  [ItsInv],
      [ItsCommit], [ItsPhase]: the invariant of the flash, the commit by the
      header of the other metadata block, and the phases of an update.
      [ItsLookup], [ItsFileData], [ItsDelete], [ItsWrite], [ItsFileWrite],
      [ItsOps]: one rule per operation.
    - [ItsModel]: the abstract store and [implements], the relation between a
      state of the code and a store.  [ItsSpec]: its properties among C1-C19.  A
      sequence of calls, mounts included, refines the abstract store as long as
      nothing is updated between a replacing write that was refused and the
      next mount ([remounts]; C1).  Without that condition data can be lost, and
      [refused_replacement_loses_data] is a run in which it is.  Whatever error
      a write or a deletion ends with, the next mount finds the store before or
      after it (C2); every operation does what it should (C4-C6, C10);
      metadata survives, and torn or corrupted metadata is not accepted; the
      file system works with the configurations that the check accepts (C17);
      the bounds check and the block move are exact (C18, C19).

    ** Internal trusted storage, service ([ITS/tfm_internal_trusted_storage.c],
       [ITS/tfm_its_req_mngr.c])

    - [ItsService]: file identifiers from client and uid, the two file systems
      (the second one belongs to protected storage), set, get, get_info,
      remove, chunked transfers through the buffer, requests, start-up.
    - [ItsAssets], [ItsRequests]: the rules.  [ItsServiceSpec]: C20-C23: requests
      of any clients and restarts refine a map of assets, under the condition
      that C1 has as well ([restarts]); clients are isolated, write-once assets
      are permanent, what is set is got, start-up mounts or formats.

    ** Protected storage ([PS/])

    - [PsTypes] (structures and their layout), [PsCrypto]
      ([crypto/ps_crypto_interface.c], [nv_counters/], [ps_encrypted_object.c]),
      [PsTable] ([ps_object_table.c]), [PsObject] ([ps_object_system.c],
      [tfm_protected_storage.c], [tfm_ps_req_mngr.c]).  The build has
      [PS_ENCRYPTION] and [PS_ROLLBACK_PROTECTION], and
      [PS_AES_KEY_USAGE_LIMIT] is 0.
    - [PsLaws]: what it relies on.  [PsPower]: a platform with internal trusted
      storage and three non-volatile counters, on which any operation that
      changes something may lose power, done or not, or fail with power on;
      after a failure with power on nothing is known of it.  [PsAlways]: no
      change fails.
      [PsAead]: decryption of an encryption succeeds, and a table that
      authenticates with one counter does not with another (the counter is in
      its associated data).  [PsDemo] has instances of all three; on one of them files do
      not fit at some point.
    - [PsRules], [PsStore], [PsVolume], [PsOps], [PsCreate], [PsBoot]: rules, the relation between table, files
      and assets, and what the disk looks like at each moment power can fail.
    - [PsSpec]: C25-C33: as long as no change of a file or a counter fails, set,
      get and remove are exact (C25, C27, C28), clients are isolated (C32) and a
      request that fits succeeds (C33); after a loss of power, start-up mounts
      the assets before the request or those after it (C26, C28, C32), as after a
      restart and at the first start; no table that was replaced is taken (C31).
      [holds True] says that the stored table belongs to the present counters;
      the guarantees after a loss of power need it, and a start that found an
      interrupted request does not give it.  An IV must not run over 96 bits
      during a request ([iv_room]).  [PsWitness] applies the theorems to concrete
      runs.  It also has runs of the code that lose assets, three of them after
      a failure or a second loss of power that the theorems exclude, or use an
      IV twice.

    ** Secure partition manager (SPM, [src/src/secure_fw/spm/])

    - The code: [SpmLists] ([include/lists.h], [core/tfm_pools.c]),
      [SpmTypes] ([core/spm.h], [include/load/]), [SpmIpc]
      ([core/spm_connection_pool.c], [core/spm_ipc.c], [core/backend_ipc.c],
      [core/thread.c], [ns_client_ext/tfm_spm_ns_ctx.c]), [SpmApi] (the files
      [core/psa_..._api.c], [core/mailbox_agent_api.c], [core/tfm_rpc.c],
      [core/interrupt.c]), [SpmSystem] ([core/rom_loader.c], [tfm_spm_init], and
      the running system: [step] is a call of the running partition with what
      [backend_abi_leaving_spm] does after it, an interrupt, a switch of the
      thread or the client, or a write of running code to memory).  The build
      has the IPC backend, connection-based services, MM-IOVEC, the doorbell and
      the mailbox agent API, and no assertions.  Structures of one type in memory
      are a function from addresses; a link field is such a function too, and a
      list is a [chain] of it.  Loops over lists have one unit of fuel more than
      the pool has connections, loops over threads as much as there are
      partitions; the invariant shows that both are enough.  A panic
      ([tfm_core_panic], a reset) is the only way a step ends with [Err].
    - The invariant: [SpmInv] states it ([inv]; [rom_ok] is what the firmware
      build guarantees).  [SpmRules], [SpmQueues] ([moved]: what an
      operation leaves alone), [SpmSend] are its rules.
    - The operations: [SpmVectors] (services), [SpmSchedule],
      [SpmCalls], [SpmClient], [SpmRequests] (clients), [SpmServe] ([psa_get],
      [psa_reply] and replies to agents) have one rule per function of the API.
    - The system: [SpmRun] defines the protocol ([polite]; it asks for more than
      the code and its documentation do) and proves that every
      step that keeps to it keeps the invariant ([step_ok]),
      and every run ([polite_run]); [SpmBoot] proves that start-up establishes the invariant, with
      the thread list in the order of priorities.  [SpmStreams] has the exact
      results of the calls of services, and the connections the pool hands out.
    - The properties are in [SpmSpec] (C34 to C36, C38 to C40: the invariant of every
      reachable state, memory safety, priority scheduling, the order of
      messages, the way of a reply to its client, vectors as streams, handles),
      applied in [SpmWitness] to the system of [SpmDemo].  C40 is about any use
      of the pool; the other theorems are about systems that keep to the
      protocol and that start with something else than the magic number behind
      the pool ([at_reset]).  [SpmWitness] also computes four defects.  They lie
      outside the protocol or the invariant: the protocol asks services to use
      only vectors that the message has and to answer only messages that they
      have got, because the SPM does not enforce it.

    ** Crypto service ([crypto/], [src/src/interface/src/tfm_crypto_api.c])

    - [CryptoService]: the table of multi-part operations ([crypto_alloc.c]), the
      scratch memory, the vectors and the dispatcher ([crypto_init.c]), and the
      layers of the service ([crypto_hash.c] and so on).  Pointers are the
      offsets in the scratch memory, so writes through one vector could reach
      another; the parameters of a call have their layout in bytes.  The library
      that implements PSA Crypto is the class [PsaCrypto]: its calls with what
      they read and how much they may write.  [serve] is one message.  The build
      has all modules and no MM-IOVEC.
    - [CryptoClient]: every function of the client library, and the
      specification: sessions with an owner, a type and a context ([vault]), what
      a function means ([means]), and [spec_call].
    - [CryptoProof]: [settled], the invariant between two messages, and the rule
      of any message ([serve_ok]); [PsaLaws] is what is relied on of the library
      (it reports no more than fits).  [CryptoExact]: the memory of a request as
      data of inputs and outputs ([view]), one rule per kind of call, and the
      loading of the vectors.
    - [CryptoClaims]: sequences of calls of any clients refine the specification
      (C8); whatever a client sends, the operations of the others stay and the
      library is called with keys of the sender only (C13); nothing of a request
      stays behind and answers fit (C37).  [Demo] is a small library with the
      concrete runs.

    ** Firmware update ([firmware_update/tfm_fwu_req_mngr.c])

    - [FwuManager]: the records of the components, all ten requests and their
      dispatch; the bootloader ([bootloader/tfm_bootloader_fwu_abstraction.h]) is
      the class [FwuBootloader].  The build reads vectors with [psa_read].  The
      loop of a write has one unit of fuel per byte and one more; the loops over
      components are structural.
    - [FwuSpec]: [fwu_move] is the state machine of the PSA specification,
      [FwuLaws] what is relied on of a bootloader (which running images it
      reports on trial), and one rule per request.  [FwuClaims]: components only
      move along the arrows of the request (C30), requests out of order are
      refused (C7), an installation passes exactly the candidates (C9), a write
      loads all bytes once and in order (C3).  C9 leaves out a
      component under update in TRIAL, for which the code and its comment say
      different things.  The file also has a bootloader and concrete runs.

    ** Mailbox between the cores ([interface/src/multi_core/],
       [ns_agent_mailbox/])

    - [NsMailbox] ([tfm_ns_mailbox.c], [tfm_multi_core_psa_ns_api.c]): the queue in
      shared memory, the call of a client cut at its critical sections and
      accesses to shared memory, the interrupt handler.  [SpeMailbox]
      ([tfm_spe_mailbox.c], [tfm_multi_core_client_id.c]): the agent's queue,
      messages, replies, client identifiers.  The build has an RTOS without a
      dedicated mailbox thread, and at most 32 slots.
    - [MailboxSystem]: [step], in which threads, the interrupt, the agent and the
      partition manager (which answers anything at any time) take turns, and
      [rpc_step], a remote procedure call for every thread.  [MailboxProof]:
      [related] ties the stage of each slot to the call of its owner, and is kept
      by every step.
    - [MailboxClaims]: the mailbox refines the remote procedure call (C24); the
      agent stands up to any contents of the shared memory (C12) and makes only
      well-formed requests (C14).  Executable schedules give the concrete runs,
      two of which show a request to close that is answered to nobody or to
      another thread; C24 is about threads that make no such request.

    ** Isolation on Infineon devices
       ([platform/ext/target/infineon/common/spe/protection/])

    - [IfxHal] ([protection_mpu.c]): the state of the platform, MPU registers by
      their fields, static and asset regions, verification.  [IfxIsolation]
      ([protection_ppc.c], [protection_tz.c], [protection_mpc_sw_policy.c],
      [tfm_hal_isolation.c]): peripherals, the assets of partitions, boundaries
      and the memory check.  [IfxSwitch]: what start-up, the scheduler, the
      supervisor calls of the API and first-level handlers do to the boundary
      ([core/spm_ipc.c], [core/backend_ipc.c], [core/tfm_svcalls.c],
      [core/interrupt.c]); [reached] are the states of a running system.  The
      build has no protection contexts; the isolation level is 2 or 3.
    - [IfxProof]: [mpu_table] (the regions of the MPU are exactly a list of
      configurations), [PpcLaws] and [TTLaws] (what is relied on of the vendor's
      driver and of the processor), [partitions_ok] (what the tool that generates
      the partitions' information guarantees), and [hal_inv], which binding and
      activation keep.
    - [IfxClaims]: what the memory check grants is in a region of the partition
      and in a block of the policy (C11; which bit of a block's attributes means
      reading and which writing is left open, since the code and its comments
      disagree), switched peripherals are open while their partition runs and
      only then (C15), the
      processor is unprivileged exactly in unprivileged partitions (C29), unless a
      first-level handler of the current domain interrupts the partition manager
      (C16: it then runs privileged).  Verification accepts what start-up writes.
      [Demo] is a device with three partitions.  The SPM's own model takes the
      result of the memory check as a parameter.

    ** What is not modelled, and why

    - Register contexts, stacks and exception entry of the SPM, and the drivers
      of [platform/]: state of the hardware.  The SFN backend of the SPM is
      another build.
    - Of the isolation, the security attribution unit, the master security
      controllers, protection contexts, and the driver of the memory protection
      controllers ([protection_mpc_hw_mpc.c]), whose [ifx_memory_config_t] is not
      in the repository; handlers that interrupt each other.
    - Mbed TLS, t_cose, QCBOR and MCUboot: not in the repository or vendored.
      Mbed TLS is a parameter of the crypto service; the attestation service
      is an encoder over t_cose.  Of the crypto service, the variant with MM-IOVEC,
      the table of built-in keys and the memory buffer of Mbed TLS are left out.
    - [ITS/flash/its_flash_nand.c], [its_flash_nor.c], [its_crypto_interface.c]:
      drivers over CMSIS and an optional build.
    - The bootloader backend of the firmware update service: it is written over
      MCUboot, which is not in the repository.
    - Of the mailbox, the build with a mailbox thread and cache maintenance. *)

From stdpp Require Import base list numbers option.
From Stdlib Require Import ZArith Lia.

#[export] Set Default Goal Selector "!".

Open Scope Z_scope.

(** ** Machine integers

    The firmware runs on 32-bit Arm cores: [size_t] and [uint32_t] are 32 bits
    wide.  A value of type [uintN_t] is a [Z]; the functions below write out
    the reduction that an assignment to the type performs. *)

Definition u8 (x : Z) : Z := x mod 2 ^ 8.
Definition u16 (x : Z) : Z := x mod 2 ^ 16.
Definition u32 (x : Z) : Z := x mod 2 ^ 32.

(** An [int32_t] from its 32 bits. *)
Definition to_s32 (x : Z) : Z := if u32 x <? 2147483648 then u32 x else u32 x - 4294967296.

Lemma u8_id x : 0 <= x < 256 -> u8 x = x.
Proof. intros; unfold u8; apply Z.mod_small; lia. Qed.

Lemma u16_id x : 0 <= x < 65536 -> u16 x = x.
Proof. intros; unfold u16; apply Z.mod_small; lia. Qed.

Lemma u32_id x : 0 <= x < 4294967296 -> u32 x = x.
Proof. intros; unfold u32; apply Z.mod_small; lia. Qed.

Lemma u8_range x : 0 <= u8 x < 256.
Proof. apply Z.mod_pos_bound; lia. Qed.

Lemma u16_range x : 0 <= u16 x < 65536.
Proof. apply Z.mod_pos_bound; lia. Qed.

Lemma u32_range x : 0 <= u32 x < 4294967296.
Proof. apply Z.mod_pos_bound; lia. Qed.

(** ** Status codes ([interface/include/psa/error.h]) *)

Definition psa_status_t : Type := Z.

Definition PSA_SUCCESS : psa_status_t := 0.
Definition PSA_ERROR_PROGRAMMER_ERROR : psa_status_t := -129.
Definition PSA_ERROR_CONNECTION_REFUSED : psa_status_t := -130.
Definition PSA_ERROR_CONNECTION_BUSY : psa_status_t := -131.
Definition PSA_ERROR_GENERIC_ERROR : psa_status_t := -132.
Definition PSA_ERROR_NOT_PERMITTED : psa_status_t := -133.
Definition PSA_ERROR_NOT_SUPPORTED : psa_status_t := -134.
Definition PSA_ERROR_INVALID_ARGUMENT : psa_status_t := -135.
Definition PSA_ERROR_INVALID_HANDLE : psa_status_t := -136.
Definition PSA_ERROR_BAD_STATE : psa_status_t := -137.
Definition PSA_ERROR_BUFFER_TOO_SMALL : psa_status_t := -138.
Definition PSA_ERROR_ALREADY_EXISTS : psa_status_t := -139.
Definition PSA_ERROR_DOES_NOT_EXIST : psa_status_t := -140.
Definition PSA_ERROR_INSUFFICIENT_MEMORY : psa_status_t := -141.
Definition PSA_ERROR_INSUFFICIENT_STORAGE : psa_status_t := -142.
Definition PSA_ERROR_INSUFFICIENT_DATA : psa_status_t := -143.
Definition PSA_ERROR_SERVICE_FAILURE : psa_status_t := -144.
Definition PSA_ERROR_COMMUNICATION_FAILURE : psa_status_t := -145.
Definition PSA_ERROR_STORAGE_FAILURE : psa_status_t := -146.
Definition PSA_ERROR_HARDWARE_FAILURE : psa_status_t := -147.
Definition PSA_ERROR_INVALID_SIGNATURE : psa_status_t := -149.
Definition PSA_ERROR_CORRUPTION_DETECTED : psa_status_t := -151.
Definition PSA_ERROR_DATA_CORRUPT : psa_status_t := -152.

(** ** Fallible stateful code

    A C function that returns a [psa_status_t] and writes its results through
    out-parameters is a computation over a state [S]: it ends either with
    [Ok] and the out-parameters or with [Err] and the status it returns; the
    state reached so far is kept in both cases, because a C function does not
    undo its side effects when it fails. *)

Inductive res (A : Type) : Type :=
| Ok (a : A)
| Err (e : psa_status_t).
Arguments Ok {A} _.
Arguments Err {A} _.

Definition M (S A : Type) : Type := S -> res A * S.

Definition ret {S A} (a : A) : M S A := fun s => (Ok a, s).
Definition fail {S A} (e : psa_status_t) : M S A := fun s => (Err e, s).
Definition get {S} : M S S := fun s => (Ok s, s).
Definition put {S} (s : S) : M S unit := fun _ => (Ok tt, s).
Definition gets {S A} (f : S -> A) : M S A := fun s => (Ok (f s), s).
Definition modify {S} (f : S -> S) : M S unit := fun s => (Ok tt, f s).

(** [err = f(...); if (err != PSA_SUCCESS) return err; ...] *)
Definition bind {S A B} (m : M S A) (k : A -> M S B) : M S B :=
  fun s => match m s with
           | (Ok a, s') => k a s'
           | (Err e, s') => (Err e, s')
           end.

(** [err = f(...); if (err != PSA_SUCCESS) return e;] *)
Definition or_return {S A} (m : M S A) (e : psa_status_t) : M S A :=
  fun s => match m s with
           | (Ok a, s') => (Ok a, s')
           | (Err _, s') => (Err e, s')
           end.

(** [err = f(...);] with the status kept for later use. *)
Definition try {S A} (m : M S A) : M S (res A) :=
  fun s => let '(r, s') := m s in (Ok r, s').

(** A check without side effects: [if (!b) return e;] *)
Definition check {S} (b : bool) (e : psa_status_t) : M S unit :=
  if b then ret tt else fail e.

(** A pure status. *)
Definition of_status {S} (e : psa_status_t) : M S unit :=
  if e =? PSA_SUCCESS then ret tt else fail e.

Definition status_of {A} (r : res A) : psa_status_t :=
  match r with Ok _ => PSA_SUCCESS | Err e => e end.

Declare Scope tfm_scope.
Delimit Scope tfm_scope with tfm.
Notation "'let*' x := m 'in' k" := (bind m (fun x => k))
  (at level 10, x binder, m at level 200, k at level 200)
  : tfm_scope.
Open Scope tfm_scope.

(** *** Weakest preconditions

    [wp m Q E s]: running [m] in [s] ends with [Ok a] in a state satisfying
    [Q a], or with [Err e] in a state satisfying [E e]. *)
Definition wp {S A} (m : M S A) (Q : A -> S -> Prop) (E : psa_status_t -> S -> Prop)
    (s : S) : Prop :=
  match m s with
  | (Ok a, s') => Q a s'
  | (Err e, s') => E e s'
  end.

Section wp.
Context {S : Type}.

Lemma wp_ret {A} (a : A) Q E (s : S) : Q a s -> wp (ret a) Q E s.
Proof. done. Qed.

Lemma wp_fail {A} e (Q : A -> S -> Prop) E s : E e s -> wp (fail e) Q E s.
Proof. done. Qed.

Lemma wp_gets {A} (f : S -> A) Q E s : Q (f s) s -> wp (gets f) Q E s.
Proof. done. Qed.

Lemma wp_modify (f : S -> S) Q E s : Q tt (f s) -> wp (modify f) Q E s.
Proof. done. Qed.

Lemma wp_bind {A B} (m : M S A) (k : A -> M S B) Q E s :
  wp m (fun a => wp (k a) Q E) E s -> wp (bind m k) Q E s.
Proof. unfold wp, bind. by destruct (m s) as [[a|e] s']. Qed.

Lemma wp_or_return {A} (m : M S A) e Q E s :
  wp m Q (fun _ => E e) s -> wp (or_return m e) Q E s.
Proof. unfold wp, or_return. by destruct (m s) as [[a|e'] s']. Qed.

Lemma wp_try {A} (m : M S A) Q E s :
  wp m (fun a => Q (Ok a)) (fun e => Q (Err e)) s -> wp (try m) Q E s.
Proof. unfold wp, try. by destruct (m s) as [[a|e'] s']. Qed.

Lemma wp_check b e Q E (s : S) :
  (b = true -> Q tt s) -> (b = false -> E e s) -> wp (check b e) Q E s.
Proof. destruct b; unfold wp; simpl; auto. Qed.

Lemma wp_of_status e Q E (s : S) :
  (e = PSA_SUCCESS -> Q tt s) -> (e <> PSA_SUCCESS -> E e s) ->
  wp (of_status e) Q E s.
Proof.
  unfold of_status. intros HQ HE.
  destruct (Z.eqb_spec e PSA_SUCCESS); unfold wp; simpl; auto.
Qed.

Lemma wp_mono {A} (m : M S A) (Q Q' : A -> S -> Prop) (E E' : psa_status_t -> S -> Prop) s :
  wp m Q E s -> (forall a s', Q a s' -> Q' a s') -> (forall e s', E e s' -> E' e s') ->
  wp m Q' E' s.
Proof. unfold wp. destruct (m s) as [[a|e] s']; auto. Qed.

Lemma wp_run {A} (m : M S A) (Q : A -> S -> Prop) E s r s' :
  wp m Q E s -> m s = (r, s') ->
  match r with Ok a => Q a s' | Err e => E e s' end.
Proof. unfold wp. intros H Hm. by rewrite Hm in H; destruct r. Qed.

Lemma wp_intro {A} (m : M S A) (Q : A -> S -> Prop) E s :
  (forall a s', m s = (Ok a, s') -> Q a s') ->
  (forall e s', m s = (Err e, s') -> E e s') ->
  wp m Q E s.
Proof. unfold wp. destruct (m s) as [[a|e] s']; auto. Qed.
End wp.

(** A result of a run is covered by its weakest precondition. *)
Lemma run_ok {S A} (m : M S A) Q E s a s' : wp m Q E s -> m s = (Ok a, s') -> Q a s'.
Proof. unfold wp. intros Hw Hm. by rewrite Hm in Hw. Qed.

Lemma run_err {S A} (m : M S A) Q E s e s' : wp m Q E s -> m s = (Err e, s') -> E e s'.
Proof. unfold wp. intros Hw Hm. by rewrite Hm in Hw. Qed.

Lemma run_total {S A} (m : M S A) Q s : wp m Q (fun _ _ => False) s -> exists a s', m s = (Ok a, s') /\ Q a s'.
Proof. unfold wp. destruct (m s) as [[a|e] s']; [eauto|done]. Qed.

Arguments wp : simpl never.
Arguments bind : simpl never.
Arguments or_return : simpl never.
Arguments try : simpl never.
Arguments ret : simpl never.
Arguments fail : simpl never.
Arguments gets : simpl never.
Arguments modify : simpl never.
Arguments check : simpl never.
Arguments of_status : simpl never.

Create HintDb wp discriminated.
#[export] Hint Resolve wp_ret wp_fail wp_gets wp_modify : wp.

(** One step of symbolic execution over the monad's own operations. *)
Ltac wp_step :=
  lazymatch goal with
  | |- wp (bind _ _) _ _ _ => apply wp_bind
  | |- wp (or_return _ _) _ _ _ => apply wp_or_return
  | |- wp (try _) _ _ _ => apply wp_try
  | |- wp (ret _) _ _ _ => apply wp_ret
  | |- wp (fail _) _ _ _ => apply wp_fail
  | |- wp (gets _) _ _ _ => apply wp_gets
  | |- wp (modify _) _ _ _ => apply wp_modify
  | |- wp (check _ _) _ _ _ => apply wp_check; intros
  | |- wp (of_status _) _ _ _ => apply wp_of_status; intros
  end; cbv beta.
Ltac wp_steps := repeat wp_step.
