(* ===== verification/Bytes.v ===== *)
(** * Byte buffers

    A C buffer is a list of bytes, a byte is a [Z] in [0, 256).  This file has
    the two accesses the firmware makes to a buffer (copy a range out, copy a
    range in), their algebra, and the little-endian layout of integers in a
    struct. *)

From S2P Require Import Prelude.
From stdpp Require Import base list numbers.
From Stdlib Require Import ZArith Lia.

Open Scope Z_scope.

(** Arrays of buffers *)

Lemma nth_insert_eq {A} i (l : list A) x d : (i < length l)%nat -> nth i (<[i:=x]> l) d = x.
Proof. intros. by rewrite nth_lookup, list_lookup_insert_eq. Qed.

Lemma nth_insert_ne {A} i j (l : list A) x d : i <> j -> nth j (<[i:=x]> l) d = nth j l d.
Proof. intros. by rewrite !nth_lookup, list_lookup_insert_ne. Qed.

(** The [len] bytes of [l] from offset [off] ([memcpy] out of a buffer). *)
Definition sub_bytes (off len : Z) (l : list Z) : list Z :=
  take (Z.to_nat len) (drop (Z.to_nat off) l).

(** The buffer [l] after [memcpy(l + off, d, length d)]. *)
Definition splice (off : Z) (d l : list Z) : list Z :=
  take (Z.to_nat off) l ++ d ++ drop (Z.to_nat off + length d) l.

(** [memset(_, v, len)] *)
Definition fill (len v : Z) : list Z := replicate (Z.to_nat len) v.

Definition zlen {A} (l : list A) : Z := Z.of_nat (length l).

Lemma zlen_nonneg {A} (l : list A) : 0 <= zlen l.
Proof. unfold zlen. lia. Qed.

Lemma zlen_app {A} (l k : list A) : zlen (l ++ k) = zlen l + zlen k.
Proof. unfold zlen. rewrite length_app. lia. Qed.

Lemma zlen_fill n v : 0 <= n -> zlen (fill n v) = n.
Proof. intros. unfold zlen, fill. rewrite length_replicate. lia. Qed.

Lemma zlen_sub_bytes off n l :
  0 <= off -> 0 <= n -> off + n <= zlen l -> zlen (sub_bytes off n l) = n.
Proof.
  unfold zlen, sub_bytes. intros. rewrite length_take, length_drop. lia.
Qed.

Lemma zlen_splice off d l :
  0 <= off -> off + zlen d <= zlen l -> zlen (splice off d l) = zlen l.
Proof.
  unfold zlen, splice. intros.
  rewrite !length_app, length_take, length_drop. lia.
Qed.

Lemma sub_bytes_lookup off n l i :
  0 <= off -> (i < Z.to_nat n)%nat ->
  sub_bytes off n l !! i = l !! (Z.to_nat off + i)%nat.
Proof.
  intros. unfold sub_bytes. rewrite lookup_take_lt by lia. by rewrite lookup_drop.
Qed.

Lemma sub_bytes_lookup_ge off n l i :
  (Z.to_nat n <= i)%nat -> sub_bytes off n l !! i = None.
Proof. intros. unfold sub_bytes. by apply lookup_take_ge. Qed.

Lemma splice_lookup_new off d l i :
  0 <= off -> off + zlen d <= zlen l ->
  (Z.to_nat off <= i < Z.to_nat off + length d)%nat ->
  splice off d l !! i = d !! (i - Z.to_nat off)%nat.
Proof.
  unfold zlen, splice. intros.
  assert (length (take (Z.to_nat off) l) = Z.to_nat off) by (rewrite length_take; lia).
  rewrite lookup_app_r by lia. rewrite lookup_app_l by lia. f_equal. lia.
Qed.

Lemma splice_lookup_old off d l i :
  0 <= off -> off + zlen d <= zlen l ->
  ~ (Z.to_nat off <= i < Z.to_nat off + length d)%nat ->
  splice off d l !! i = l !! i.
Proof.
  unfold zlen, splice. intros.
  assert (length (take (Z.to_nat off) l) = Z.to_nat off) by (rewrite length_take; lia).
  destruct (decide (i < Z.to_nat off)%nat).
  - rewrite lookup_app_l by lia. by apply lookup_take_lt.
  - rewrite !lookup_app_r by lia. rewrite lookup_drop. f_equal. lia.
Qed.

(** Two ranges agree as soon as they agree byte by byte. *)
Lemma sub_bytes_ext off off' n l l' :
  0 <= off -> 0 <= off' ->
  (forall i, (i < Z.to_nat n)%nat ->
     l !! (Z.to_nat off + i)%nat = l' !! (Z.to_nat off' + i)%nat) ->
  sub_bytes off n l = sub_bytes off' n l'.
Proof.
  intros H1 H2 H. apply list_eq. intros i.
  destruct (decide (i < Z.to_nat n)%nat).
  - rewrite !sub_bytes_lookup by lia. by apply H.
  - by rewrite !sub_bytes_lookup_ge by lia.
Qed.

Lemma sub_bytes_ext_lookup off off' n l l' i :
  0 <= off -> 0 <= off' ->
  sub_bytes off n l = sub_bytes off' n l' -> (i < Z.to_nat n)%nat ->
  l !! (Z.to_nat off + i)%nat = l' !! (Z.to_nat off' + i)%nat.
Proof.
  intros H1 H2 H Hi. rewrite <- !(sub_bytes_lookup _ n) by lia. by rewrite H.
Qed.

Lemma sub_bytes_0 off l : sub_bytes off 0 l = [].
Proof. done. Qed.

Lemma sub_bytes_all l : sub_bytes 0 (zlen l) l = l.
Proof. unfold sub_bytes, zlen. rewrite Nat2Z.id. simpl. by rewrite take_ge. Qed.

Lemma sub_bytes_splice_eq off n d l :
  0 <= off -> off + zlen d <= zlen l -> n = zlen d ->
  sub_bytes off n (splice off d l) = d.
Proof.
  intros ? ? ->. apply list_eq. intros i.
  destruct (decide (i < length d)%nat).
  - rewrite sub_bytes_lookup by (unfold zlen; lia).
    rewrite splice_lookup_new by lia. f_equal. lia.
  - rewrite sub_bytes_lookup_ge by (unfold zlen; lia).
    symmetry. apply lookup_ge_None_2. lia.
Qed.

Lemma sub_bytes_splice_in off n o d l :
  0 <= o -> o + zlen d <= zlen l -> o <= off -> off + n <= o + zlen d -> 0 <= n ->
  sub_bytes off n (splice o d l) = sub_bytes (off - o) n d.
Proof.
  intros. apply sub_bytes_ext; [lia|lia|]. intros i Hi. unfold zlen in *.
  rewrite splice_lookup_new by (unfold zlen; lia). f_equal. lia.
Qed.

Lemma sub_bytes_splice_disj off n o d l :
  0 <= off -> 0 <= o -> o + zlen d <= zlen l ->
  off + n <= o \/ o + zlen d <= off ->
  sub_bytes off n (splice o d l) = sub_bytes off n l.
Proof.
  intros. apply sub_bytes_ext; [lia|lia|]. intros i Hi. unfold zlen in *.
  apply splice_lookup_old; unfold zlen; lia.
Qed.

Lemma sub_bytes_sub_bytes o n off len l :
  0 <= o -> 0 <= n -> 0 <= off -> o + n <= len ->
  sub_bytes o n (sub_bytes off len l) = sub_bytes (off + o) n l.
Proof.
  intros. apply list_eq. intros i. destruct (decide (i < Z.to_nat n)%nat).
  - rewrite !sub_bytes_lookup by lia. f_equal. lia.
  - by rewrite !sub_bytes_lookup_ge by lia.
Qed.

(** Buffers that agree on a range agree on its parts. *)
Lemma sub_bytes_within o n o' n' X Y :
  sub_bytes o n X = sub_bytes o n Y -> 0 <= o -> o <= o' -> 0 <= n' -> o' + n' <= o + n ->
  sub_bytes o' n' X = sub_bytes o' n' Y.
Proof.
  intros Heq ? ? ? ?. replace o' with (o + (o' - o)) by lia.
  rewrite <- !(sub_bytes_sub_bytes (o' - o) n' o n) by lia. by rewrite Heq.
Qed.

Lemma sub_bytes_split off a b l :
  0 <= off -> 0 <= a -> 0 <= b ->
  sub_bytes off (a + b) l = sub_bytes off a l ++ sub_bytes (off + a) b l.
Proof.
  intros. unfold sub_bytes.
  rewrite !Z2Nat.inj_add by lia. rewrite <- drop_drop.
  by rewrite <- take_take_drop.
Qed.

Lemma sub_bytes_app_l off n a b :
  0 <= off -> 0 <= n -> off + n <= zlen a -> sub_bytes off n (a ++ b) = sub_bytes off n a.
Proof.
  intros. apply sub_bytes_ext; [lia|lia|]. intros i Hi. unfold zlen in *.
  apply lookup_app_l. lia.
Qed.

Lemma sub_bytes_app_r off n a b :
  zlen a <= off -> sub_bytes off n (a ++ b) = sub_bytes (off - zlen a) n b.
Proof.
  intros. apply sub_bytes_ext; unfold zlen in *; [lia|lia|]. intros i Hi.
  rewrite lookup_app_r by lia. f_equal. lia.
Qed.

Lemma sub_bytes_fill off n m v :
  0 <= off -> 0 <= n -> off + n <= m -> sub_bytes off n (fill m v) = fill n v.
Proof.
  intros. unfold sub_bytes, fill. rewrite drop_replicate, take_replicate.
  f_equal. lia.
Qed.

Lemma splice_nil off l : splice off [] l = l.
Proof. unfold splice. simpl. rewrite Nat.add_0_r. apply take_drop. Qed.

(** Two adjacent copies are one copy. *)
Lemma splice_splice_adj off d1 d2 l :
  0 <= off -> off + zlen d1 + zlen d2 <= zlen l ->
  splice (off + zlen d1) d2 (splice off d1 l) = splice off (d1 ++ d2) l.
Proof.
  intros. apply list_eq. intros i.
  pose proof (zlen_splice off d1 l). pose proof (zlen_nonneg d2). pose proof (zlen_nonneg d1).
  assert (zlen (splice off d1 l) = zlen l) by (apply zlen_splice; lia).
  unfold zlen in *.
  destruct (decide (Z.to_nat off <= i < Z.to_nat off + length (d1 ++ d2))%nat) as [Hin|Hout].
  - rewrite (splice_lookup_new off (d1 ++ d2)) by (unfold zlen; rewrite ?length_app in *; lia).
    rewrite length_app in Hin.
    destruct (decide (i < Z.to_nat off + length d1)%nat).
    + rewrite splice_lookup_old by (unfold zlen; lia).
      rewrite splice_lookup_new by (unfold zlen; lia).
      rewrite lookup_app_l by lia. done.
    + rewrite splice_lookup_new by (unfold zlen; lia).
      rewrite lookup_app_r by lia. f_equal. lia.
  - rewrite (splice_lookup_old off (d1 ++ d2)) by (unfold zlen; rewrite ?length_app in *; lia).
    rewrite length_app in Hout.
    rewrite !splice_lookup_old by (unfold zlen; lia). done.
Qed.

(** *** Little-endian integers *)

Fixpoint le_bytes (n : nat) (z : Z) : list Z :=
  match n with
  | O => []
  | S n => z mod 256 :: le_bytes n (z / 256)
  end.

Fixpoint le_val (l : list Z) : Z :=
  match l with
  | [] => 0
  | b :: l => b + 256 * le_val l
  end.

Lemma length_le_bytes n z : length (le_bytes n z) = n.
Proof. revert z; induction n; simpl; auto. Qed.

Lemma zlen_le_bytes n z : zlen (le_bytes n z) = Z.of_nat n.
Proof. unfold zlen. by rewrite length_le_bytes. Qed.

Lemma le_val_le_bytes n z : 0 <= z < 256 ^ Z.of_nat n -> le_val (le_bytes n z) = z.
Proof.
  revert z; induction n as [|n IH]; intros z Hz; simpl.
  - simpl in Hz. lia.
  - rewrite Nat2Z.inj_succ, Z.pow_succ_r in Hz by lia.
    rewrite IH.
    + rewrite (Z.div_mod z 256) at 3 by lia. lia.
    + split; [apply Z.div_pos; lia|apply Z.div_lt_upper_bound; lia].
Qed.

Lemma le_val_mod n z : le_val (le_bytes n z) = z mod 256 ^ Z.of_nat n.
Proof.
  revert z. induction n as [|n IH]; intros z; [by rewrite Z.mod_1_r|]. cbn [le_bytes le_val].
  rewrite IH, Nat2Z.inj_succ, Z.pow_succ_r by lia. rewrite (Z.rem_mul_r z) by (try apply Z.pow_pos_nonneg; lia). lia.
Qed.

Lemma le_val_app x y : le_val (x ++ y) = le_val x + 256 ^ zlen x * le_val y.
Proof.
  induction x as [|c x IH]; [cbn [app le_val zlen length]; change (256 ^ zlen []) with 1; lia|].
  cbn [app le_val]. rewrite IH. unfold zlen. cbn [length]. rewrite Nat2Z.inj_succ, Z.pow_succ_r by lia. ring.
Qed.

Lemma le_bytes_add n m z : le_bytes (n + m) z = le_bytes n z ++ le_bytes m (z / 256 ^ Z.of_nat n).
Proof.
  revert z. induction n as [|n IH]; intros z; [by rewrite Z.div_1_r|]. cbn [Nat.add le_bytes app]. rewrite IH.
  rewrite Nat2Z.inj_succ, Z.pow_succ_r, Z.div_div by (try apply Z.pow_pos_nonneg; lia). done.
Qed.

Lemma le_bytes_mod n z : le_bytes n (z mod 256 ^ Z.of_nat n) = le_bytes n z.
Proof.
  revert z. induction n as [|n IH]; intros z; [done|]. cbn [le_bytes]. rewrite Nat2Z.inj_succ, Z.pow_succ_r by lia.
  assert (0 < 256 ^ Z.of_nat n) by (apply Z.pow_pos_nonneg; lia).
  rewrite (Z.rem_mul_r z) by lia. f_equal.
  - rewrite (Z.mul_comm 256), Z.mod_add by lia. apply Z.mod_mod. lia.
  - rewrite (Z.mul_comm 256), Z.div_add by lia. rewrite (Z.div_small (z mod 256)) by (apply Z.mod_pos_bound; lia).
    by rewrite Z.add_0_l.
Qed.

Definition is_byte (b : Z) : Prop := 0 <= b < 256.

Lemma le_val_range l : Forall is_byte l -> 0 <= le_val l < 256 ^ zlen l.
Proof.
  unfold zlen. induction 1 as [|b l Hb Hl IH]; simpl; [lia|].
  unfold is_byte in Hb.
  change (length (b :: l)) with (S (length l)).
  rewrite Nat2Z.inj_succ, Z.pow_succ_r by lia. lia.
Qed.

Lemma le_bytes_le_val l : Forall is_byte l -> le_bytes (length l) (le_val l) = l.
Proof.
  induction 1 as [|b l Hb Hl IH]; simpl; [done|].
  unfold is_byte in Hb. f_equal.
  - rewrite Z.mul_comm, Z.mod_add by lia. apply Z.mod_small. lia.
  - rewrite Z.mul_comm, Z.div_add, Z.div_small by lia. by rewrite Z.add_0_l.
Qed.

Lemma le_bytes_is_byte n z : Forall is_byte (le_bytes n z).
Proof.
  revert z; induction n as [|n IH]; intros z; simpl; constructor; auto.
  apply Z.mod_pos_bound. lia.
Qed.

Lemma Forall_sub_bytes (P : Z -> Prop) off n l : Forall P l -> Forall P (sub_bytes off n l).
Proof. intros. unfold sub_bytes. by apply Forall_take, Forall_drop. Qed.

Lemma Forall_splice (P : Z -> Prop) off d l :
  Forall P d -> Forall P l -> Forall P (splice off d l).
Proof.
  intros. unfold splice. apply Forall_app; split; [by apply Forall_take|].
  apply Forall_app; split; [done|by apply Forall_drop].
Qed.

Lemma Forall_fill (P : Z -> Prop) n v : P v -> Forall P (fill n v).
Proof. intros. by apply Forall_replicate. Qed.

Create HintDb bytes discriminated.
#[export] Hint Resolve Forall_sub_bytes Forall_splice Forall_fill : bytes.
#[export] Hint Resolve zlen_nonneg le_bytes_is_byte u8_range u16_range u32_range : bytes.
