(* ===== verification/ItsUtils.v ===== *)
(** * ITS utilities ([internal_trusted_storage/its_utils.c], [its_utils.h])

    Bounds checks, file identifiers and alignment arithmetic shared by the
    file system and the service above it. *)

From S2P Require Import Prelude Bytes.
From stdpp Require Import base list numbers.
From Stdlib Require Import ZArith Lia.

Open Scope Z_scope.

Definition ITS_FILE_ID_SIZE : Z := 12.

(** [ITS_UTILS_MIN], [ITS_UTILS_MAX] *)
Definition ITS_UTILS_MIN (x y : Z) : Z := if x <? y then x else y.
Definition ITS_UTILS_MAX (x y : Z) : Z := if x >? y then x else y.

(** [(x + (a - 1)) & ~(a - 1)] at [size_t] width. *)
Definition ITS_UTILS_ALIGN (x a : Z) : Z := Z.land (u32 (x + (a - 1))) (Z.lnot (a - 1)).

(** [(x & (a - 1)) == 0] *)
Definition ITS_UTILS_IS_ALIGNED (x a : Z) : bool := Z.land x (a - 1) =? 0.

Definition its_utils_check_contained_in
    (superset_size subset_offset subset_size : Z) : psa_status_t :=
  if subset_offset >? superset_size then PSA_ERROR_INVALID_ARGUMENT
  else if subset_size >? u32 (superset_size - subset_offset) then PSA_ERROR_INVALID_ARGUMENT
  else PSA_SUCCESS.

(** The loop [while (fid_size--) if ( *fid++ ) return PSA_SUCCESS;]. *)
Fixpoint validate_fid_loop (fid_size : nat) (fid : list Z) : psa_status_t :=
  match fid_size, fid with
  | S n, b :: fid => if b =? 0 then validate_fid_loop n fid else PSA_SUCCESS
  | _, _ => PSA_ERROR_DOES_NOT_EXIST
  end.

Definition its_utils_validate_fid (fid : list Z) : psa_status_t :=
  validate_fid_loop (Z.to_nat ITS_FILE_ID_SIZE) fid.

(** Whether a file identifier is in use. *)
Definition fid_valid (fid : list Z) : bool := its_utils_validate_fid fid =? PSA_SUCCESS.

(** ** Properties *)

Lemma min_spec x y : ITS_UTILS_MIN x y = Z.min x y.
Proof. unfold ITS_UTILS_MIN. destruct (Z.ltb_spec x y); lia. Qed.

Lemma max_spec x y : ITS_UTILS_MAX x y = Z.max x y.
Proof. unfold ITS_UTILS_MAX. rewrite Z.gtb_ltb. destruct (Z.ltb_spec y x); lia. Qed.

(** The check is exactly containment: the subtraction cannot wrap. *)
Lemma check_contained_in_spec sup off size :
  0 <= sup < 4294967296 -> 0 <= off < 4294967296 -> 0 <= size < 4294967296 ->
  its_utils_check_contained_in sup off size =
    if decide (off + size <= sup) then PSA_SUCCESS else PSA_ERROR_INVALID_ARGUMENT.
Proof.
  intros Hs Ho Hz. unfold its_utils_check_contained_in. rewrite !Z.gtb_ltb.
  destruct (Z.ltb_spec sup off); [rewrite decide_False by lia; done|].
  rewrite u32_id by lia.
  destruct (Z.ltb_spec (sup - off) size); case_decide; done || lia.
Qed.

Lemma check_contained_in_ok sup off size :
  0 <= sup < 4294967296 -> 0 <= off ->
  its_utils_check_contained_in sup off size = PSA_SUCCESS -> off + size <= sup.
Proof.
  unfold its_utils_check_contained_in. intros Hs Ho. rewrite !Z.gtb_ltb.
  destruct (Z.ltb_spec sup off); [done|]. rewrite u32_id by lia.
  destruct (Z.ltb_spec (sup - off) size); [done|]. lia.
Qed.

Lemma validate_fid_loop_zero n : validate_fid_loop n (replicate n 0) = PSA_ERROR_DOES_NOT_EXIST.
Proof. induction n; simpl; auto. Qed.

Lemma validate_fid_loop_spec n fid :
  length fid = n ->
  validate_fid_loop n fid = PSA_SUCCESS <-> fid <> replicate n 0.
Proof.
  revert n; induction fid as [|b fid IH]; intros [|n] Hn; simpl in *; try done.
  destruct (Z.eqb_spec b 0) as [->|Hb].
  - rewrite IH by lia. split; intros H; contradict H; [congruence|by rewrite H].
  - split; [congruence|done].
Qed.

Lemma fid_valid_spec fid :
  zlen fid = ITS_FILE_ID_SIZE -> fid_valid fid = true <-> fid <> fill ITS_FILE_ID_SIZE 0.
Proof.
  intros Hl. unfold fid_valid, its_utils_validate_fid, zlen, fill in *.
  rewrite <- (validate_fid_loop_spec _ fid) by (unfold ITS_FILE_ID_SIZE in *; lia).
  apply Z.eqb_eq.
Qed.

Lemma validate_fid_cases fid :
  its_utils_validate_fid fid = PSA_SUCCESS \/
  its_utils_validate_fid fid = PSA_ERROR_DOES_NOT_EXIST.
Proof.
  unfold its_utils_validate_fid. generalize (Z.to_nat ITS_FILE_ID_SIZE).
  induction fid as [|b fid IH]; intros [|n]; simpl; auto. destruct (b =? 0); auto.
Qed.

Lemma fid_valid_zero : fid_valid (fill ITS_FILE_ID_SIZE 0) = false.
Proof. reflexivity. Qed.

(** Alignment to a power of two: the least multiple of [a] not below [x]. *)
Lemma align_pow2 x k :
  0 <= k < 16 -> 0 <= x -> x + (2 ^ k - 1) < 4294967296 ->
  ITS_UTILS_ALIGN x (2 ^ k) = (x + (2 ^ k - 1)) / 2 ^ k * 2 ^ k.
Proof.
  intros Hk Hx Hb. unfold ITS_UTILS_ALIGN.
  assert (0 < 2 ^ k) by (apply Z.pow_pos_nonneg; lia).
  rewrite u32_id by lia.
  replace (2 ^ k - 1) with (Z.ones k) by (rewrite Z.ones_equiv; lia).
  rewrite <- Z.ldiff_land, Z.ldiff_ones_r by lia.
  by rewrite Z.shiftl_mul_pow2, Z.shiftr_div_pow2 by lia.
Qed.

Lemma align_bounds x k :
  0 <= k < 16 -> 0 <= x -> x + (2 ^ k - 1) < 4294967296 ->
  x <= ITS_UTILS_ALIGN x (2 ^ k) < x + 2 ^ k.
Proof.
  intros Hk Hx Hb. rewrite align_pow2 by lia.
  assert (0 < 2 ^ k) by (apply Z.pow_pos_nonneg; lia).
  pose proof (Z.div_mod (x + (2 ^ k - 1)) (2 ^ k)).
  pose proof (Z.mod_pos_bound (x + (2 ^ k - 1)) (2 ^ k)). lia.
Qed.

Lemma is_aligned_pow2 x k :
  0 <= k -> ITS_UTILS_IS_ALIGNED x (2 ^ k) = (x mod 2 ^ k =? 0).
Proof.
  intros. unfold ITS_UTILS_IS_ALIGNED.
  replace (2 ^ k - 1) with (Z.ones k) by (rewrite Z.ones_equiv; lia).
  by rewrite Z.land_ones.
Qed.
