(* ===== verification/ItsFlash.v ===== *)
(** * The flash interface ([internal_trusted_storage/flash/its_flash_hal.h])

    [FlashOps] is [struct its_flash_ops_t], the table of driver functions;
    [FlashLaws] is what its documentation promises to the file system.  A
    driver is an instance of the first and, where its behaviour can be read in
    the repository, of the second. *)

From S2P Require Import Prelude Bytes.
From stdpp Require Import base list numbers.
From Stdlib Require Import ZArith Lia.

Open Scope Z_scope.

(** [struct its_flash_config_t]; its [context] is the driver's state. *)
Record its_flash_config_t : Type := FlashConfig {
  flash_area_addr : Z;   (* uint32_t *)
  block_size : Z;        (* uint32_t *)
  num_blocks : Z;        (* uint16_t *)
  program_unit : Z;      (* uint16_t *)
  erase_val : Z;         (* uint8_t *)
}.

Definition ITS_BLOCK_INVALID_ID : Z := 0xFFFFFFFF.

(** [struct its_flash_ops_t].  A read fills the caller's buffer with [size]
    bytes; a write takes the [size] bytes of the caller's buffer. *)
Class FlashOps (F : Type) : Type := {
  op_init : its_flash_config_t -> M F its_flash_config_t;
  op_read : its_flash_config_t -> F -> Z -> Z -> Z -> res (list Z);
  op_write : its_flash_config_t -> Z -> list Z -> Z -> M F unit;
  op_flush : its_flash_config_t -> Z -> M F unit;
  op_erase : its_flash_config_t -> Z -> M F unit;
}.

(** The bytes of block [b] from offset [off] are erased. *)
Definition erased (fc : its_flash_config_t) (off n : Z) (blk : list Z) : Prop :=
  sub_bytes off n blk = fill n (erase_val fc).

(** An erase of [blk] that was cut short: some of the bytes are erased. *)
Definition cut_erase (fc : its_flash_config_t) (blk blk' : list Z) : Prop :=
  zlen blk' = zlen blk /\
  forall i, blk' !! i = blk !! i \/ blk' !! i = Some (erase_val fc).

(** What the file system may rely on.  [fl_block f b] is the content of block
    [b] and [fl_ok] the driver's own invariant.  Locations are programmed at
    most once between erases, so the effect of a write is promised only on
    erased bytes; a write that reports an error may have been cut short after any
    of its bytes, an erase may have reached any of the bytes, and neither
    touches another block.

    [fl_block] is what a read returns and also what a loss of power leaves: a
    write is committed when it is made, and [op_flush] has nothing left to do,
    as in the RAM driver.  [its_flash_hal.h] lets a driver buffer writes until
    they are flushed, as the NAND driver does: the theorems about a loss of
    power are not about such a driver, and do not show that the file system
    flushes where it has to. *)
Class FlashLaws (F : Type) `{FlashOps F} (fc : its_flash_config_t) : Type := {
  fl_ok : F -> Prop;
  fl_block : F -> Z -> list Z;
  fl_len f b : fl_ok f -> 0 <= b < num_blocks fc -> zlen (fl_block f b) = block_size fc;
  fl_bytes f b : fl_ok f -> 0 <= b < num_blocks fc -> Forall is_byte (fl_block f b);
  fl_read f b off n d :
    fl_ok f -> 0 <= b < num_blocks fc -> 0 <= off -> 0 <= n -> off + n <= block_size fc ->
    op_read fc f b off n = Ok d -> d = sub_bytes off n (fl_block f b);
  fl_read_err f b off n e : op_read fc f b off n = Err e -> e <> PSA_SUCCESS;
  fl_write f b d off r f' :
    fl_ok f -> 0 <= b < num_blocks fc -> 0 <= off -> off + zlen d <= block_size fc ->
    Forall is_byte d -> op_write fc b d off f = (r, f') ->
    fl_ok f' /\
    (forall c, 0 <= c < num_blocks fc -> c <> b -> fl_block f' c = fl_block f c) /\
    (erased fc off (zlen d) (fl_block f b) ->
     match r with
     | Ok _ => fl_block f' b = splice off d (fl_block f b)
     | Err _ => exists k, 0 <= k <= zlen d /\
                  fl_block f' b = splice off (sub_bytes 0 k d) (fl_block f b)
     end) /\
    (forall e, r = Err e -> e <> PSA_SUCCESS);
  fl_flush f b r f' :
    fl_ok f -> 0 <= b < num_blocks fc -> op_flush fc b f = (r, f') ->
    fl_ok f' /\ (forall c, 0 <= c < num_blocks fc -> fl_block f' c = fl_block f c) /\
    (forall e, r = Err e -> e <> PSA_SUCCESS);
  fl_erase f b r f' :
    fl_ok f -> 0 <= b < num_blocks fc -> op_erase fc b f = (r, f') ->
    fl_ok f' /\
    (forall c, 0 <= c < num_blocks fc -> c <> b -> fl_block f' c = fl_block f c) /\
    match r with
    | Ok _ => fl_block f' b = fill (block_size fc) (erase_val fc)
    | Err _ => cut_erase fc (fl_block f b) (fl_block f' b)
    end /\
    (forall e, r = Err e -> e <> PSA_SUCCESS);
}.

(** A driver on working hardware: no operation within the area fails. *)
Class FlashTotal (F : Type) (fc : its_flash_config_t) `{FlashLaws F fc} : Prop := {
  ft_read f b off n :
    fl_ok f -> 0 <= b < num_blocks fc -> 0 <= off -> 0 < n -> off + n <= block_size fc ->
    exists d, op_read fc f b off n = Ok d;
  ft_write f b d off :
    fl_ok f -> 0 <= b < num_blocks fc -> 0 <= off -> 0 < zlen d -> off + zlen d <= block_size fc ->
    exists f', op_write fc b d off f = (Ok tt, f');
  ft_flush f b :
    fl_ok f -> 0 <= b < num_blocks fc -> exists f', op_flush fc b f = (Ok tt, f');
  ft_erase f b :
    fl_ok f -> 0 <= b < num_blocks fc -> exists f', op_erase fc b f = (Ok tt, f');
}.

(** The configurations the drivers accept. *)
Record flash_config_wf (fc : its_flash_config_t) : Prop := {
  fc_block_size : 0 < block_size fc;
  fc_num_blocks : 0 < num_blocks fc < 65536;
  fc_area : num_blocks fc * block_size fc < 4294967296;
  fc_erase_val : is_byte (erase_val fc);
}.

Lemma erased_mono fc off n off' n' blk :
  0 <= off -> off <= off' -> 0 <= n' -> off' + n' <= off + n ->
  erased fc off n blk -> erased fc off' n' blk.
Proof.
  unfold erased. intros. replace off' with (off + (off' - off)) by lia.
  rewrite <- (sub_bytes_sub_bytes (off' - off) n' off n) by lia.
  rewrite H3. apply sub_bytes_fill; lia.
Qed.

Lemma erased_splice fc off n o d blk :
  0 <= off -> 0 <= o -> o + zlen d <= zlen blk ->
  off + n <= o \/ o + zlen d <= off ->
  erased fc off n (splice o d blk) <-> erased fc off n blk.
Proof. intros. unfold erased. by rewrite sub_bytes_splice_disj by lia. Qed.

Lemma erased_fill fc off n m :
  0 <= off -> 0 <= n -> off + n <= m -> erased fc off n (fill m (erase_val fc)).
Proof. intros. unfold erased. apply sub_bytes_fill; lia. Qed.

(** * Flash emulated in RAM ([internal_trusted_storage/flash/its_flash_ram.c])

    The driver behind [ITS_RAM_FS]: one buffer, blocks at multiples of the
    block size. *)

(** [struct its_flash_ram_dev_t] *)
Record its_flash_ram_dev_t : Type := RamDev {
  buffer : list Z;
  size : Z;         (* uint32_t *)
}.

Definition get_phys_address (fc : its_flash_config_t) (block_id offset : Z) : Z :=
  u32 (u32 (block_id * block_size fc) + offset).

Definition its_flash_ram_init (fc : its_flash_config_t)
  : M its_flash_ram_dev_t its_flash_config_t :=
  let* dev := get in
  if (block_size fc >? size dev) || (size dev / block_size fc <? num_blocks fc)
  then fail PSA_ERROR_PROGRAMMER_ERROR
  else ret fc.

Definition its_flash_ram_read (fc : its_flash_config_t) (dev : its_flash_ram_dev_t)
    (block_id offset sz : Z) : res (list Z) :=
  let idx := get_phys_address fc block_id offset in
  if (idx >=? size dev) || (sz >? size dev) || (idx >? u32 (size dev - sz))
  then Err PSA_ERROR_PROGRAMMER_ERROR
  else Ok (sub_bytes idx sz (buffer dev)).

Definition its_flash_ram_write (fc : its_flash_config_t) (block_id : Z) (buff : list Z)
    (offset : Z) : M its_flash_ram_dev_t unit :=
  let* dev := get in
  let idx := get_phys_address fc block_id offset in
  let sz := zlen buff in
  if (idx >=? size dev) || (sz >? size dev) || (idx >? u32 (size dev - sz))
  then fail PSA_ERROR_PROGRAMMER_ERROR
  else put (RamDev (splice idx buff (buffer dev)) (size dev)).

Definition its_flash_ram_flush (fc : its_flash_config_t) (block_id : Z)
  : M its_flash_ram_dev_t unit := ret tt.

Definition its_flash_ram_erase (fc : its_flash_config_t) (block_id : Z)
  : M its_flash_ram_dev_t unit :=
  let* dev := get in
  let idx := get_phys_address fc block_id 0 in
  if (idx >=? size dev) || (idx >? u32 (size dev - block_size fc))
  then fail PSA_ERROR_PROGRAMMER_ERROR
  else put (RamDev (splice idx (fill (block_size fc) (erase_val fc)) (buffer dev)) (size dev)).

(** [its_flash_fs_ops_ram] *)
#[export] Instance its_flash_fs_ops_ram : FlashOps its_flash_ram_dev_t := {
  op_init := its_flash_ram_init;
  op_read := its_flash_ram_read;
  op_write := its_flash_ram_write;
  op_flush := its_flash_ram_flush;
  op_erase := its_flash_ram_erase;
}.

(** ** The driver satisfies the interface *)

Definition ram_ok (fc : its_flash_config_t) (dev : its_flash_ram_dev_t) : Prop :=
  zlen (buffer dev) = size dev /\ size dev < 4294967296 /\
  num_blocks fc * block_size fc <= size dev /\ Forall is_byte (buffer dev).

Definition ram_block (fc : its_flash_config_t) (dev : its_flash_ram_dev_t) (b : Z) : list Z :=
  sub_bytes (b * block_size fc) (block_size fc) (buffer dev).

Section ram.
Context (fc : its_flash_config_t) (Hfc : flash_config_wf fc).

Lemma ram_area b dev :
  ram_ok fc dev -> 0 <= b < num_blocks fc ->
  0 <= b * block_size fc /\ b * block_size fc + block_size fc <= size dev.
Proof. destruct Hfc. intros (Hb & Hs & Hn & _) ?. nia. Qed.

Lemma ram_addr b off dev :
  ram_ok fc dev -> 0 <= b < num_blocks fc -> 0 <= off <= block_size fc ->
  get_phys_address fc b off = b * block_size fc + off.
Proof.
  intros Hok Hb Ho. destruct (ram_area b dev Hok Hb). destruct Hok as (? & ? & ? & ?).
  destruct Hfc. unfold get_phys_address.
  rewrite (u32_id (b * block_size fc)) by lia. apply u32_id. lia.
Qed.

Lemma ram_block_splice b o d dev :
  ram_ok fc dev -> 0 <= b < num_blocks fc -> 0 <= o -> o + zlen d <= block_size fc ->
  let dev' := RamDev (splice (b * block_size fc + o) d (buffer dev)) (size dev) in
  ram_block fc dev' b = splice o d (ram_block fc dev b) /\
  (forall c, 0 <= c < num_blocks fc -> c <> b -> ram_block fc dev' c = ram_block fc dev c).
Proof.
  intros Hok Hb Ho Hd dev'. destruct (ram_area b dev Hok Hb).
  destruct Hok as (Hl & Hs & Hn & Hby). unfold ram_block, dev'; simpl.
  pose proof (zlen_nonneg d). split.
  - apply list_eq. intros i.
    assert (zlen (sub_bytes (b * block_size fc) (block_size fc) (buffer dev)) = block_size fc)
      as Hz by (apply zlen_sub_bytes; lia).
    destruct (decide (i < Z.to_nat (block_size fc))%nat) as [Hi|Hi].
    + rewrite sub_bytes_lookup by lia. unfold zlen in *.
      destruct (decide (Z.to_nat o <= i < Z.to_nat o + length d)%nat).
      * rewrite !splice_lookup_new by (unfold zlen; lia). f_equal. lia.
      * rewrite !splice_lookup_old by (unfold zlen; lia).
        by rewrite sub_bytes_lookup by lia.
    + rewrite sub_bytes_lookup_ge by lia. symmetry. apply lookup_ge_None_2.
      pose proof (zlen_splice o d _ Ho ltac:(rewrite Hz; lia)) as Hz'.
      unfold zlen in *. lia.
  - intros c Hc Hne. apply sub_bytes_splice_disj; [nia|lia|lia|].
    assert (c < b \/ b < c) as [] by lia; [left|right]; nia.
Qed.

Lemma ram_splice_ok b o d dev :
  ram_ok fc dev -> 0 <= b < num_blocks fc -> 0 <= o -> o + zlen d <= block_size fc ->
  Forall is_byte d ->
  ram_ok fc (RamDev (splice (b * block_size fc + o) d (buffer dev)) (size dev)).
Proof.
  intros Hok Hb Ho Hd Hdb. destruct (ram_area b dev Hok Hb).
  destruct Hok as (Hl & Hs & Hn & Hby). repeat split; simpl; auto with bytes.
  rewrite zlen_splice; lia.
Qed.

(** An in-range operation passes the driver's argument check. *)
Lemma ram_check b off n dev :
  ram_ok fc dev -> 0 <= b < num_blocks fc -> 0 <= off -> 0 < n -> off + n <= block_size fc ->
  (get_phys_address fc b off >=? size dev) || (n >? size dev)
    || (get_phys_address fc b off >? u32 (size dev - n)) = false.
Proof.
  intros Hok Hb Ho Hn Hs. destruct (ram_area b dev Hok Hb).
  rewrite (ram_addr b off dev Hok Hb) by lia.
  destruct Hok as (? & ? & ? & ?). rewrite u32_id by lia.
  rewrite !orb_false_iff, Z.geb_leb, !Z.gtb_ltb, Z.leb_gt, !Z.ltb_ge. lia.
Qed.

Lemma ram_erase_check b dev :
  ram_ok fc dev -> 0 <= b < num_blocks fc ->
  (get_phys_address fc b 0 >=? size dev)
    || (get_phys_address fc b 0 >? u32 (size dev - block_size fc)) = false.
Proof.
  intros Hok Hb. destruct (ram_area b dev Hok Hb). destruct Hfc.
  rewrite (ram_addr b 0 dev Hok Hb) by lia.
  destruct Hok as (? & ? & ? & ?). rewrite u32_id by lia.
  rewrite orb_false_iff, Z.geb_leb, Z.gtb_ltb, Z.leb_gt, Z.ltb_ge. lia.
Qed.

#[export] Program Instance ram_laws : FlashLaws its_flash_ram_dev_t fc := {
  fl_ok := ram_ok fc;
  fl_block := ram_block fc;
}.
Next Obligation.
  intros dev b Hok Hb. simpl. destruct (ram_area b dev Hok Hb). destruct Hfc.
  destruct Hok as (? & ? & ? & ?). unfold ram_block. apply zlen_sub_bytes; lia.
Qed.
Next Obligation.
  intros dev b (? & ? & ? & ?) Hb. simpl. unfold ram_block. auto with bytes.
Qed.
Next Obligation.
  intros dev b off n d Hok Hb Ho Hn Hs. cbn [op_read its_flash_fs_ops_ram].
  unfold its_flash_ram_read. destruct (ram_area b dev Hok Hb). destruct Hfc.
  rewrite (ram_addr b off dev Hok Hb) by lia.
  destruct (_ || _); [done|]. intros [= <-]. unfold ram_block.
  by rewrite sub_bytes_sub_bytes by lia.
Qed.
Next Obligation.
  intros dev b off n e. cbn [op_read its_flash_fs_ops_ram]. unfold its_flash_ram_read.
  destruct (_ || _); [|done]. by intros [= <-].
Qed.
Next Obligation.
  intros dev b d off r dev' Hok Hb Ho Hd Hdb.
  cbn [op_write its_flash_fs_ops_ram]. unfold its_flash_ram_write, bind, get, put, fail.
  rewrite (ram_addr b off dev Hok Hb) by (pose proof (zlen_nonneg d); lia).
  destruct (_ || _); intros [= <- <-].
  - split_and!; [done|done| |by intros ? [= <-]]. intros _. exists 0.
    rewrite sub_bytes_0, splice_nil. pose proof (zlen_nonneg d). split; [lia|done].
  - destruct (ram_block_splice b off d dev Hok Hb Ho Hd).
    split_and!; auto using ram_splice_ok.
Qed.
Next Obligation.
  intros dev b r dev' Hok Hb. cbn. by intros [= <- <-].
Qed.
Next Obligation.
  intros dev b r dev' Hok Hb. cbn [op_erase its_flash_fs_ops_ram].
  unfold its_flash_ram_erase, bind, get, put, fail.
  rewrite (ram_erase_check b dev Hok Hb). intros [= <- <-].
  destruct Hfc. rewrite (ram_addr b 0 dev Hok Hb) by lia.
  pose proof (zlen_fill (block_size fc) (erase_val fc)) as Hz.
  destruct (ram_block_splice b 0 (fill (block_size fc) (erase_val fc)) dev) as [Hs Ho];
    [done|done|lia|lia|].
  split_and!; [apply ram_splice_ok; auto with bytes; lia|done| |by intros ? [=]].
  rewrite Hs. pose proof (ram_laws_obligation_1 dev b Hok Hb) as Hl. simpl in Hl.
  unfold splice. rewrite drop_ge by (unfold zlen in *; lia). by rewrite app_nil_r.
Qed.

#[export] Instance ram_total : FlashTotal its_flash_ram_dev_t fc.
Proof.
  split; simpl; intros.
  - unfold its_flash_ram_read. rewrite ram_check by done. eauto.
  - unfold its_flash_ram_write, bind, get, put. rewrite ram_check by done. eauto.
  - eauto.
  - unfold its_flash_ram_erase, bind, get, put. rewrite ram_erase_check by done. eauto.
Qed.
End ram.
