(* ===== verification/ItsMeta.v ===== *)
(** * On-flash metadata of the ITS file system
    ([flash_fs/its_flash_fs.h], [flash_fs/its_flash_fs_mblock.h])

    The structures that are programmed to flash, with their layout in bytes
    (little endian, natural alignment, [ITS_FLASH_MAX_ALIGNMENT <= 4] so that
    no structure has a [roundup] member, no [ITS_ENCRYPTION]), and the file
    system context kept in RAM. *)

From S2P Require Import Prelude Bytes ItsUtils ItsFlash.
From stdpp Require Import base list numbers.
From Stdlib Require Import ZArith Lia.

Open Scope Z_scope.

Definition ITS_SUPPORTED_VERSION : Z := 0x02.
Definition ITS_BACKWARD_SUPPORTED_VERSION : Z := 0x01.
Definition ITS_METADATA_INVALID_INDEX : Z := 0xFFFF.
Definition ITS_LOGICAL_DBLOCK0 : Z := 0.
Definition ITS_DEFAULT_EMPTY_BUFF_VAL : Z := 0.

(** [struct its_metadata_block_header_t]: 7 bytes of members and one byte of
    padding, which is programmed and read back with them. *)
Record its_metadata_block_header_t : Type := Header {
  scratch_dblock : Z;      (* uint32_t *)
  fs_version : Z;          (* uint8_t *)
  metadata_xor : Z;        (* uint8_t *)
  active_swap_count : Z;   (* uint8_t *)
  header_pad : Z;
}.

(** [struct its_block_meta_t] *)
Record its_block_meta_t : Type := BlockMeta {
  phy_id : Z;       (* uint32_t *)
  data_start : Z;   (* size_t *)
  free_size : Z;    (* size_t *)
}.

(** [struct its_file_meta_t] *)
Record its_file_meta_t : Type := FileMeta {
  lblock : Z;       (* uint32_t *)
  data_idx : Z;     (* size_t *)
  cur_size : Z;     (* size_t *)
  max_size : Z;     (* size_t *)
  flags : Z;        (* uint32_t *)
  id : list Z;      (* uint8_t[ITS_FILE_ID_SIZE] *)
}.

(** [sizeof] of the three structures and of the header of file system
    version 1, [struct its_metadata_block_header_comp_t]. *)
Definition ITS_BLOCK_META_HEADER_SIZE : Z := 8.
Definition ITS_BLOCK_METADATA_SIZE : Z := 12.
Definition ITS_FILE_METADATA_SIZE : Z := 32.
Definition ITS_BLOCK_META_HEADER_COMP_SIZE : Z := 8.

Definition header_bytes (h : its_metadata_block_header_t) : list Z :=
  le_bytes 4 (scratch_dblock h) ++
  [fs_version h; metadata_xor h; active_swap_count h; header_pad h].

Definition header_of (l : list Z) : its_metadata_block_header_t :=
  {| scratch_dblock := le_val (sub_bytes 0 4 l);
     fs_version := le_val (sub_bytes 4 1 l);
     metadata_xor := le_val (sub_bytes 5 1 l);
     active_swap_count := le_val (sub_bytes 6 1 l);
     header_pad := le_val (sub_bytes 7 1 l) |}.

(** In version 1 the swap count directly follows the version, so reading a
    header through [its_metadata_block_header_comp_t] finds it where version 2
    has [metadata_xor]. *)
Definition comp_active_swap_count (h : its_metadata_block_header_t) : Z := metadata_xor h.

Definition block_meta_bytes (m : its_block_meta_t) : list Z :=
  le_bytes 4 (phy_id m) ++ le_bytes 4 (data_start m) ++ le_bytes 4 (free_size m).

Definition block_meta_of (l : list Z) : its_block_meta_t :=
  {| phy_id := le_val (sub_bytes 0 4 l);
     data_start := le_val (sub_bytes 4 4 l);
     free_size := le_val (sub_bytes 8 4 l) |}.

Definition file_meta_bytes (m : its_file_meta_t) : list Z :=
  le_bytes 4 (lblock m) ++ le_bytes 4 (data_idx m) ++ le_bytes 4 (cur_size m) ++
  le_bytes 4 (max_size m) ++ le_bytes 4 (flags m) ++ id m.

Definition file_meta_of (l : list Z) : its_file_meta_t :=
  {| lblock := le_val (sub_bytes 0 4 l);
     data_idx := le_val (sub_bytes 4 4 l);
     cur_size := le_val (sub_bytes 8 4 l);
     max_size := le_val (sub_bytes 12 4 l);
     flags := le_val (sub_bytes 16 4 l);
     id := sub_bytes 20 12 l |}.

(** [(struct its_file_meta_t){0}] *)
Definition file_meta_zero : its_file_meta_t := FileMeta 0 0 0 0 0 (fill ITS_FILE_ID_SIZE 0).

(** [struct its_flash_fs_config_t]; [ops] is the [FlashOps] instance. *)
Record its_flash_fs_config_t : Type := FsConfig {
  flash_cfg : its_flash_config_t;
  max_file_size : Z;   (* uint16_t *)
  max_num_files : Z;   (* uint16_t *)
}.

(** [struct its_flash_fs_ctx_t], without the pointer to the configuration. *)
Record its_flash_fs_ctx_t : Type := FsCtx {
  meta_block_header : its_metadata_block_header_t;
  active_metablock : Z;    (* uint32_t *)
  scratch_metablock : Z;   (* uint32_t *)
}.

(** The state a file system operation runs on: the flash device and the
    context. *)
Record fs_st (F : Type) : Type := FsSt {
  st_flash : F;
  st_ctx : its_flash_fs_ctx_t;
}.
Arguments FsSt {F} _ _.
Arguments st_flash {F} _.
Arguments st_ctx {F} _.

(** ** Ranges of the members *)

Definition is_u32 (x : Z) : Prop := 0 <= x < 4294967296.

Record header_wf (h : its_metadata_block_header_t) : Prop := {
  hw_scratch : is_u32 (scratch_dblock h);
  hw_version : is_byte (fs_version h);
  hw_xor : is_byte (metadata_xor h);
  hw_swap : is_byte (active_swap_count h);
  hw_pad : is_byte (header_pad h);
}.

Record block_meta_wf (m : its_block_meta_t) : Prop := {
  bw_phy : is_u32 (phy_id m);
  bw_start : is_u32 (data_start m);
  bw_free : is_u32 (free_size m);
}.

Record file_meta_wf (m : its_file_meta_t) : Prop := {
  fw_lblock : is_u32 (lblock m);
  fw_idx : is_u32 (data_idx m);
  fw_cur : is_u32 (cur_size m);
  fw_max : is_u32 (max_size m);
  fw_flags : is_u32 (flags m);
  fw_id_len : zlen (id m) = ITS_FILE_ID_SIZE;
  fw_id : Forall is_byte (id m);
}.

(** ** The layouts are lossless *)

Lemma le4 z : is_u32 z -> le_val (le_bytes 4 z) = z.
Proof. intros. apply le_val_le_bytes. exact H. Qed.

Lemma le1 b : is_byte b -> le_val [b] = b.
Proof. intros. simpl. lia. Qed.

Lemma le_val_u32 l : Forall is_byte l -> zlen l = 4 -> is_u32 (le_val l).
Proof. intros Hb Hl. pose proof (le_val_range l Hb) as H. rewrite Hl in H. exact H. Qed.

Lemma le_val_byte l : Forall is_byte l -> zlen l = 1 -> is_byte (le_val l).
Proof. intros Hb Hl. pose proof (le_val_range l Hb) as H. rewrite Hl in H. exact H. Qed.

Lemma zlen_header_bytes h : zlen (header_bytes h) = ITS_BLOCK_META_HEADER_SIZE.
Proof. reflexivity. Qed.

Lemma zlen_block_meta_bytes m : zlen (block_meta_bytes m) = ITS_BLOCK_METADATA_SIZE.
Proof. reflexivity. Qed.

Lemma zlen_file_meta_bytes m : file_meta_wf m -> zlen (file_meta_bytes m) = ITS_FILE_METADATA_SIZE.
Proof.
  intros [? ? ? ? ? Hid ?]. unfold file_meta_bytes. rewrite !zlen_app, !zlen_le_bytes, Hid.
  reflexivity.
Qed.

Lemma header_of_bytes h : header_wf h -> header_of (header_bytes h) = h.
Proof.
  intros [? ? ? ? ?]. destruct h as [s v x c p]. unfold header_of; simpl in *.
  f_equal; [apply (le4 s); done|..]; lia.
Qed.

Lemma block_meta_of_bytes m : block_meta_wf m -> block_meta_of (block_meta_bytes m) = m.
Proof.
  intros [? ? ?]. destruct m as [p d f]. unfold block_meta_of; simpl in *.
  f_equal; by apply le4.
Qed.

Lemma file_meta_of_bytes m : file_meta_wf m -> file_meta_of (file_meta_bytes m) = m.
Proof.
  intros [? ? ? ? ? Hid ?]. destruct m as [a b c d e i]. unfold file_meta_of; simpl in *.
  f_equal; [by apply le4..|].
  unfold sub_bytes, zlen, ITS_FILE_ID_SIZE in *. simpl.
  apply take_ge. lia.
Qed.

Lemma header_bytes_byte h : header_wf h -> Forall is_byte (header_bytes h).
Proof.
  intros [? ? ? ? ?]. unfold header_bytes. apply Forall_app; split; [apply le_bytes_is_byte|].
  do 4 (apply List.Forall_cons; [done|]). apply List.Forall_nil.
Qed.

Lemma block_meta_bytes_byte m : Forall is_byte (block_meta_bytes m).
Proof. unfold block_meta_bytes. rewrite !Forall_app. auto with bytes. Qed.

Lemma file_meta_bytes_byte m : file_meta_wf m -> Forall is_byte (file_meta_bytes m).
Proof. intros []. unfold file_meta_bytes. rewrite !Forall_app. auto 10 with bytes. Qed.

(** Reading any bytes back gives members in range. *)
Lemma header_of_wf l : Forall is_byte l -> zlen l = ITS_BLOCK_META_HEADER_SIZE -> header_wf (header_of l).
Proof.
  unfold ITS_BLOCK_META_HEADER_SIZE. intros Hb Hl.
  split; simpl; (apply le_val_u32 || apply le_val_byte); auto with bytes;
    apply zlen_sub_bytes; lia.
Qed.

Lemma block_meta_of_wf l : Forall is_byte l -> zlen l = ITS_BLOCK_METADATA_SIZE -> block_meta_wf (block_meta_of l).
Proof.
  unfold ITS_BLOCK_METADATA_SIZE. intros Hb Hl.
  split; simpl; apply le_val_u32; auto with bytes; apply zlen_sub_bytes; lia.
Qed.

Lemma file_meta_of_wf l : Forall is_byte l -> zlen l = ITS_FILE_METADATA_SIZE -> file_meta_wf (file_meta_of l).
Proof.
  unfold ITS_FILE_METADATA_SIZE. intros Hb Hl.
  split; simpl; try (apply le_val_u32); auto with bytes; apply zlen_sub_bytes;
    unfold ITS_FILE_ID_SIZE; lia.
Qed.

Lemma file_meta_zero_wf : file_meta_wf file_meta_zero.
Proof.
  split; simpl; try (unfold is_u32; lia); [reflexivity|].
  repeat constructor; unfold is_byte; lia.
Qed.

#[export] Hint Resolve header_bytes_byte block_meta_bytes_byte file_meta_bytes_byte
  file_meta_zero_wf : bytes.
