(* ===== verification/ItsMblock.v ===== *)
(** * Metadata blocks of the ITS file system
    ([flash_fs/its_flash_fs_mblock.c])

    The operations of the file, in the build where
    [ITS_VALIDATE_METADATA_FROM_FLASH] is 1 (the default of every profile).
    Two of the blocks are metadata blocks; one is active, the other is scratch
    and receives the next version of the metadata.  An update is committed by
    writing the scratch block's header. *)

From S2P Require Import Prelude Bytes ItsUtils ItsFlash ItsMeta.
From stdpp Require Import base list numbers.
From Stdlib Require Import ZArith Lia.

Open Scope Z_scope.
Open Scope tfm_scope.

Definition ITS_MAX_BLOCK_DATA_COPY : Z := 256.
Definition ITS_METADATA_BLOCK0 : Z := 0.
Definition ITS_METADATA_BLOCK1 : Z := 1.

Definition ITS_OTHER_META_BLOCK (metablock : Z) : Z :=
  if metablock =? ITS_METADATA_BLOCK0 then ITS_METADATA_BLOCK1 else ITS_METADATA_BLOCK0.

(** The bound of the fuel of [its_flash_fs_block_to_block_move]; the loop ends
    before it is used up ([ItsSpec.block_to_block_move_copies]). *)
Definition OUT_OF_FUEL : psa_status_t := 1.

Section mblock.
Context {F : Type} `{FlashOps F} (cfg : its_flash_fs_config_t).

Abbreviation FS := (M (fs_st F)).
Abbreviation fc := (flash_cfg cfg).

(** *** Calls through [fs_ctx->cfg->ops] *)

Definition ops_read (block_id offset size : Z) : FS (list Z) :=
  fun s => (op_read fc (st_flash s) block_id offset size, s).

Definition lift_flash {A} (m : M F A) : FS A :=
  fun s => let '(r, f) := m (st_flash s) in (r, FsSt f (st_ctx s)).

Definition ops_write (block_id : Z) (buff : list Z) (offset : Z) : FS unit :=
  lift_flash (op_write fc block_id buff offset).

Definition ops_flush (block_id : Z) : FS unit := lift_flash (op_flush fc block_id).
Definition ops_erase (block_id : Z) : FS unit := lift_flash (op_erase fc block_id).

Definition ctx : FS its_flash_fs_ctx_t := gets st_ctx.
Definition set_ctx (f : its_flash_fs_ctx_t -> its_flash_fs_ctx_t) : FS unit :=
  modify (fun s => FsSt (st_flash s) (f (st_ctx s))).

Definition set_header
    (f : its_metadata_block_header_t -> its_metadata_block_header_t) : FS unit :=
  set_ctx (fun c => FsCtx (f (meta_block_header c)) (active_metablock c) (scratch_metablock c)).

(** *** Geometry *)

Definition its_init_scratch_dblock : Z := if num_blocks fc =? 2 then 1 else 2.

Definition its_init_dblock_start : Z := if num_blocks fc =? 2 then 0 else 3.

Definition its_num_dedicated_dblocks : Z :=
  if num_blocks fc =? 2 then 0 else u32 (num_blocks fc - its_init_dblock_start).

Definition its_num_active_dblocks : Z := u32 (its_num_dedicated_dblocks + 1).

Definition its_mblock_block_meta_offset (lb : Z) : Z :=
  u32 (ITS_BLOCK_META_HEADER_SIZE + u32 (lb * ITS_BLOCK_METADATA_SIZE)).

Definition its_mblock_file_meta_offset (idx : Z) : Z :=
  u32 (u32 (ITS_BLOCK_META_HEADER_SIZE
            + u32 (its_num_active_dblocks * ITS_BLOCK_METADATA_SIZE))
       + u32 (idx * ITS_FILE_METADATA_SIZE)).

Definition its_mblock_swap_metablocks : FS unit :=
  set_ctx (fun c => FsCtx (meta_block_header c) (scratch_metablock c) (active_metablock c)).

(** *** Choosing and validating metadata *)

Definition its_mblock_latest_meta_block (h_meta0 h_meta1 : its_metadata_block_header_t) : Z :=
  let meta0_swap_count := active_swap_count h_meta0 in
  let meta1_swap_count := active_swap_count h_meta1 in
  let rollover_val := if erase_val fc =? 0 then 1 else 0 in
  if (meta1_swap_count =? rollover_val) && negb (meta0_swap_count =? rollover_val + 1)
  then ITS_METADATA_BLOCK1
  else if (meta0_swap_count =? rollover_val) && negb (meta1_swap_count =? rollover_val + 1)
  then ITS_METADATA_BLOCK0
  else if meta1_swap_count >? meta0_swap_count
  then ITS_METADATA_BLOCK1
  else ITS_METADATA_BLOCK0.

Definition its_mblock_validate_file_meta (file_meta : its_file_meta_t) : psa_status_t :=
  if lblock file_meta >=? its_num_active_dblocks then PSA_ERROR_DATA_CORRUPT
  else if its_utils_validate_fid (id file_meta) =? PSA_SUCCESS then
    if max_size file_meta >? max_file_size cfg then PSA_ERROR_DATA_CORRUPT
    else if cur_size file_meta >? max_size file_meta then PSA_ERROR_DATA_CORRUPT
    else if (lblock file_meta =? ITS_LOGICAL_DBLOCK0)
            && (data_idx file_meta <? its_mblock_file_meta_offset (max_num_files cfg))
    then PSA_ERROR_DATA_CORRUPT
    else if its_utils_check_contained_in (block_size fc) (data_idx file_meta)
              (max_size file_meta) =? PSA_SUCCESS
    then PSA_SUCCESS
    else PSA_ERROR_DATA_CORRUPT
  else PSA_SUCCESS.

(** The body shared by [its_mblock_validate_block_meta] and its
    compatibility variant, which differ in where the data of a metadata
    block starts. *)
Definition validate_block_meta_at (meta_end : Z) (block_meta : its_block_meta_t)
  : psa_status_t :=
  if phy_id block_meta >=? num_blocks fc then PSA_ERROR_DATA_CORRUPT
  else if negb (its_utils_check_contained_in (block_size fc) (data_start block_meta)
                  (free_size block_meta) =? PSA_SUCCESS)
  then PSA_ERROR_DATA_CORRUPT
  else
    let valid_data_start_value :=
      if (phy_id block_meta =? ITS_METADATA_BLOCK0) || (phy_id block_meta =? ITS_METADATA_BLOCK1)
      then meta_end else 0 in
    if negb (data_start block_meta =? valid_data_start_value) then PSA_ERROR_DATA_CORRUPT
    else PSA_SUCCESS.

Definition its_mblock_validate_block_meta (block_meta : its_block_meta_t) : psa_status_t :=
  validate_block_meta_at (its_mblock_file_meta_offset (max_num_files cfg)) block_meta.

Definition its_mblock_validate_block_meta_comp (block_meta : its_block_meta_t) : psa_status_t :=
  validate_block_meta_at
    (u32 (u32 (ITS_BLOCK_META_HEADER_COMP_SIZE
               + u32 (its_num_active_dblocks * ITS_BLOCK_METADATA_SIZE))
          + u32 (max_num_files cfg * ITS_FILE_METADATA_SIZE)))
    block_meta.

(** [for (j = 0; j < size; j++) xor_value_temp ^= metadata[j];] *)
Definition xor_bytes (xor_value : Z) (metadata : list Z) : Z := fold_left Z.lxor metadata xor_value.

(** One of the two loops of [its_mblock_calculate_metadata_xor]: [n] entries
    of [size] bytes from entry [i], located by [offset]. *)
Fixpoint xor_entries (block_id : Z) (offset : Z -> Z) (size : Z) (n : nat) (i xor_value : Z)
  : FS Z :=
  match n with
  | O => ret xor_value
  | S n =>
      let* metadata := ops_read block_id (offset i) size in
      xor_entries block_id offset size n (i + 1) (xor_bytes xor_value metadata)
  end.

Definition its_mblock_calculate_metadata_xor (block_id : Z) : FS Z :=
  if negb (block_id =? ITS_METADATA_BLOCK0) && negb (block_id =? ITS_METADATA_BLOCK1)
  then fail PSA_ERROR_INVALID_ARGUMENT
  else
    let* x := xor_entries block_id its_mblock_block_meta_offset ITS_BLOCK_METADATA_SIZE
                (Z.to_nat its_num_active_dblocks) 0 0 in
    xor_entries block_id its_mblock_file_meta_offset ITS_FILE_METADATA_SIZE
      (Z.to_nat (max_num_files cfg)) 0 x.

Definition its_mblock_validate_metadata_xor
    (h_meta : its_metadata_block_header_t) (block_id : Z) : FS unit :=
  let* xor_value := its_mblock_calculate_metadata_xor block_id in
  check (xor_value =? metadata_xor h_meta) PSA_ERROR_STORAGE_FAILURE.

Definition its_mblock_validate_swap_count (swap_count : Z) : psa_status_t :=
  if swap_count =? erase_val fc then PSA_ERROR_GENERIC_ERROR else PSA_SUCCESS.

(** Returns [*backward_comp]. *)
Definition its_mblock_validate_fs_version (version : Z) : FS bool :=
  if version =? ITS_BACKWARD_SUPPORTED_VERSION then ret true
  else if version =? ITS_SUPPORTED_VERSION then ret false
  else fail PSA_ERROR_GENERIC_ERROR.

Definition its_mblock_validate_header_meta
    (h_meta : its_metadata_block_header_t) (block_id : Z) : FS unit :=
  let* backward_compatible := its_mblock_validate_fs_version (fs_version h_meta) in
  if backward_compatible then
    of_status (its_mblock_validate_swap_count (comp_active_swap_count h_meta))
  else
    let* _ := of_status (its_mblock_validate_swap_count (active_swap_count h_meta)) in
    its_mblock_validate_metadata_xor h_meta block_id.

(** *** Reading metadata *)

Definition its_flash_fs_mblock_read_file_meta (idx : Z) : FS its_file_meta_t :=
  let* c := ctx in
  let* bytes := ops_read (active_metablock c) (its_mblock_file_meta_offset idx)
                  ITS_FILE_METADATA_SIZE in
  let file_meta := file_meta_of bytes in
  let* _ := of_status (its_mblock_validate_file_meta file_meta) in
  ret file_meta.

Definition its_flash_fs_mblock_read_block_metadata (lb : Z) : FS its_block_meta_t :=
  let* c := ctx in
  let* bytes := ops_read (active_metablock c) (its_mblock_block_meta_offset lb)
                  ITS_BLOCK_METADATA_SIZE in
  let block_meta := block_meta_of bytes in
  let* _ := of_status (its_mblock_validate_block_meta block_meta) in
  ret block_meta.

Definition its_flash_fs_mblock_read_block_metadata_comp (lb : Z) : FS its_block_meta_t :=
  let* c := ctx in
  let* bytes := ops_read (active_metablock c)
                  (u32 (ITS_BLOCK_META_HEADER_COMP_SIZE + u32 (lb * ITS_BLOCK_METADATA_SIZE)))
                  ITS_BLOCK_METADATA_SIZE in
  let block_meta := block_meta_of bytes in
  let* _ := of_status (its_mblock_validate_block_meta_comp block_meta) in
  ret block_meta.

(** The scan of [its_get_free_file_index] from entry [i]; an entry that
    cannot be read ends it with [ITS_METADATA_INVALID_INDEX]. *)
Fixpoint get_free_file_index_loop (n : nat) (i : Z) (use_spare : bool) : FS Z :=
  match n with
  | O => ret ITS_METADATA_INVALID_INDEX
  | S n =>
      let* r := try (its_flash_fs_mblock_read_file_meta i) in
      match r with
      | Err _ => ret ITS_METADATA_INVALID_INDEX
      | Ok tmp_metadata =>
          if fid_valid (id tmp_metadata) then get_free_file_index_loop n (i + 1) use_spare
          else if use_spare then ret i
          else get_free_file_index_loop n (i + 1) true
      end
  end.

Definition its_get_free_file_index (use_spare : bool) : FS Z :=
  get_free_file_index_loop (Z.to_nat (max_num_files cfg)) 0 use_spare.

Fixpoint get_file_idx_meta_loop (fid : list Z) (n : nat) (i : Z) : FS (Z * its_file_meta_t) :=
  match n with
  | O => fail PSA_ERROR_DOES_NOT_EXIST
  | S n =>
      let* tmp_metadata :=
        or_return (its_flash_fs_mblock_read_file_meta i) PSA_ERROR_GENERIC_ERROR in
      if decide (id tmp_metadata = fid) then ret (i, tmp_metadata)
      else get_file_idx_meta_loop fid n (i + 1)
  end.

Definition its_flash_fs_mblock_get_file_idx_meta (fid : list Z) : FS (Z * its_file_meta_t) :=
  get_file_idx_meta_loop fid (Z.to_nat (max_num_files cfg)) 0.

Fixpoint get_file_idx_flag_loop (flgs : Z) (n : nat) (i : Z) : FS Z :=
  match n with
  | O => fail PSA_ERROR_DOES_NOT_EXIST
  | S n =>
      let* tmp_metadata :=
        or_return (its_flash_fs_mblock_read_file_meta i) PSA_ERROR_GENERIC_ERROR in
      if negb (Z.land (flags tmp_metadata) flgs =? 0) then ret i
      else get_file_idx_flag_loop flgs n (i + 1)
  end.

Definition its_flash_fs_mblock_get_file_idx_flag (flgs : Z) : FS Z :=
  get_file_idx_flag_loop flgs (Z.to_nat (max_num_files cfg)) 0.

(** *** Moving data and writing the scratch block *)

Fixpoint block_to_block_move_loop (fuel : nat)
    (dst_block dst_offset src_block src_offset size : Z) : FS unit :=
  if size >? 0 then
    match fuel with
    | O => fail OUT_OF_FUEL
    | S fuel =>
        let bytes_to_move := ITS_UTILS_MIN size ITS_MAX_BLOCK_DATA_COPY in
        let* copy := ops_read src_block src_offset bytes_to_move in
        let* _ := ops_write dst_block copy dst_offset in
        block_to_block_move_loop fuel dst_block (u32 (dst_offset + bytes_to_move))
          src_block (u32 (src_offset + bytes_to_move)) (size - bytes_to_move)
    end
  else ret tt.

Definition its_flash_fs_block_to_block_move
    (dst_block dst_offset src_block src_offset size : Z) : FS unit :=
  block_to_block_move_loop (Z.to_nat size) dst_block dst_offset src_block src_offset size.

Definition its_flash_fs_mblock_cur_data_scratch_id (lb : Z) : FS Z :=
  let* c := ctx in
  if lb =? ITS_LOGICAL_DBLOCK0 then ret (scratch_metablock c)
  else ret (scratch_dblock (meta_block_header c)).

Definition its_mblock_erase_scratch_blocks : FS unit :=
  let* c := ctx in
  let* _ := ops_erase (scratch_metablock c) in
  if num_blocks fc >? 2 then
    let* scratch_datablock :=
      its_flash_fs_mblock_cur_data_scratch_id (ITS_LOGICAL_DBLOCK0 + 1) in
    ops_erase scratch_datablock
  else ret tt.

Definition its_mblock_update_scratch_block_meta (lb : Z) (block_meta : its_block_meta_t)
  : FS unit :=
  let* c := ctx in
  ops_write (scratch_metablock c) (block_meta_bytes block_meta)
    (its_mblock_block_meta_offset lb).

Definition its_mblock_copy_remaining_block_meta (lb : Z) : FS unit :=
  let* c := ctx in
  let scratch_block := scratch_metablock c in
  let meta_block := active_metablock c in
  let* _ :=
    if negb (lb =? ITS_LOGICAL_DBLOCK0) then
      let* block_meta :=
        or_return (its_flash_fs_mblock_read_block_metadata ITS_LOGICAL_DBLOCK0)
          PSA_ERROR_GENERIC_ERROR in
      let block_meta := BlockMeta scratch_block (data_start block_meta) (free_size block_meta) in
      let* _ :=
        or_return (its_mblock_update_scratch_block_meta ITS_LOGICAL_DBLOCK0 block_meta)
          PSA_ERROR_GENERIC_ERROR in
      if lb >? 1 then
        let pos := its_mblock_block_meta_offset (ITS_LOGICAL_DBLOCK0 + 1) in
        let size := u32 (its_mblock_block_meta_offset lb - pos) in
        its_flash_fs_block_to_block_move scratch_block pos meta_block pos size
      else ret tt
    else ret tt in
  let pos := its_mblock_block_meta_offset (u32 (lb + 1)) in
  let size := u32 (its_mblock_file_meta_offset 0 - pos) in
  its_flash_fs_block_to_block_move scratch_block pos meta_block pos size.

Definition its_flash_fs_mblock_update_scratch_block_meta (lb : Z)
    (block_meta : its_block_meta_t) : FS unit :=
  let* c := ctx in
  let block_meta :=
    if lb =? ITS_LOGICAL_DBLOCK0
    then BlockMeta (scratch_metablock c) (data_start block_meta) (free_size block_meta)
    else block_meta in
  let* _ := or_return (its_mblock_update_scratch_block_meta lb block_meta)
              PSA_ERROR_GENERIC_ERROR in
  its_mblock_copy_remaining_block_meta lb.

Definition its_flash_fs_mblock_update_scratch_file_meta (idx : Z) (file_meta : its_file_meta_t)
  : FS unit :=
  let* c := ctx in
  ops_write (scratch_metablock c) (file_meta_bytes file_meta) (its_mblock_file_meta_offset idx).

Definition its_flash_fs_mblock_cp_file_meta (idx_start idx_end : Z) : FS unit :=
  let* c := ctx in
  let pos_start := its_mblock_file_meta_offset idx_start in
  let pos_end := its_mblock_file_meta_offset idx_end in
  its_flash_fs_block_to_block_move (scratch_metablock c) pos_start (active_metablock c)
    pos_start (u32 (pos_end - pos_start)).

Definition its_flash_fs_mblock_migrate_lb0_data_to_scratch : FS unit :=
  let* block_meta := its_flash_fs_mblock_read_block_metadata ITS_LOGICAL_DBLOCK0 in
  let data_size := u32 (u32 (block_size fc - data_start block_meta) - free_size block_meta) in
  let* c := ctx in
  its_flash_fs_block_to_block_move (scratch_metablock c) (data_start block_meta)
    (active_metablock c) (data_start block_meta) data_size.

Definition its_flash_fs_mblock_set_data_scratch (phy lb : Z) : FS unit :=
  if negb (lb =? ITS_LOGICAL_DBLOCK0) then
    set_header (fun h => Header phy (fs_version h) (metadata_xor h) (active_swap_count h)
                           (header_pad h))
  else ret tt.

(** *** Committing an update *)

Definition inc_swap_count (h : its_metadata_block_header_t) : its_metadata_block_header_t :=
  Header (scratch_dblock h) (fs_version h) (metadata_xor h) (u8 (active_swap_count h + 1))
    (header_pad h).

Definition its_mblock_write_scratch_meta_header : FS unit :=
  let* _ := set_header inc_swap_count in
  let* c := ctx in
  let* _ :=
    if its_mblock_validate_swap_count (active_swap_count (meta_block_header c)) =? PSA_SUCCESS
    then ret tt
    else set_header inc_swap_count in
  let* x := its_mblock_calculate_metadata_xor (scratch_metablock c) in
  let* _ := set_header (fun h => Header (scratch_dblock h) (fs_version h) x
                                   (active_swap_count h) (header_pad h)) in
  let* c := ctx in
  ops_write (scratch_metablock c) (header_bytes (meta_block_header c)) 0.

Definition its_flash_fs_mblock_meta_update_finalize : FS unit :=
  let* _ := its_mblock_write_scratch_meta_header in
  let* c := ctx in
  let* _ := ops_flush (scratch_metablock c) in
  let* _ := its_mblock_swap_metablocks in
  its_mblock_erase_scratch_blocks.

(** *** Initialisation *)

Definition its_mblock_upgrade_meta_header : FS unit :=
  let* c := ctx in
  let* backward_compatible :=
    its_mblock_validate_fs_version (fs_version (meta_block_header c)) in
  if negb backward_compatible then ret tt
  else
    let* block_meta_0 := its_flash_fs_mblock_read_block_metadata_comp ITS_LOGICAL_DBLOCK0 in
    let number := u32 (u32 (block_size fc - free_size block_meta_0)
                       - ITS_BLOCK_META_HEADER_COMP_SIZE) in
    let* _ := its_flash_fs_block_to_block_move (scratch_metablock c)
                (its_mblock_block_meta_offset ITS_LOGICAL_DBLOCK0) (active_metablock c)
                ITS_BLOCK_META_HEADER_COMP_SIZE number in
    let* _ := set_header (fun h => Header (scratch_dblock h) ITS_SUPPORTED_VERSION
                                     (metadata_xor h) (comp_active_swap_count h)
                                     (header_pad h)) in
    its_flash_fs_mblock_meta_update_finalize.

Definition its_mblock_read_meta_header : FS unit :=
  let* c := ctx in
  let* bytes := ops_read (active_metablock c) 0 ITS_BLOCK_META_HEADER_SIZE in
  let* _ := set_header (fun _ => header_of bytes) in
  its_mblock_validate_header_meta (header_of bytes) (active_metablock c).

(** The header of a metadata block, when it can be read and is valid. *)
Definition read_valid_header (block_id : Z) : FS (option its_metadata_block_header_t) :=
  let* r := try (ops_read block_id 0 ITS_BLOCK_META_HEADER_SIZE) in
  match r with
  | Err _ => ret None
  | Ok bytes =>
      let* v := try (its_mblock_validate_header_meta (header_of bytes) block_id) in
      match v with
      | Ok _ => ret (Some (header_of bytes))
      | Err _ => ret None
      end
  end.

Definition its_init_get_active_metablock : FS unit :=
  let* h_meta0 := read_valid_header ITS_METADATA_BLOCK0 in
  let* h_meta1 := read_valid_header ITS_METADATA_BLOCK1 in
  let* cur_meta_block :=
    match h_meta0, h_meta1 with
    | Some h0, Some h1 => ret (its_mblock_latest_meta_block h0 h1)
    | Some _, None => ret ITS_METADATA_BLOCK0
    | None, Some _ => ret ITS_METADATA_BLOCK1
    | None, None => fail PSA_ERROR_GENERIC_ERROR
    end in
  set_ctx (fun c => FsCtx (meta_block_header c) cur_meta_block
                      (ITS_OTHER_META_BLOCK cur_meta_block)).

Definition its_flash_fs_mblock_init : FS unit :=
  let* _ := or_return its_init_get_active_metablock PSA_ERROR_GENERIC_ERROR in
  let* _ := or_return its_mblock_read_meta_header PSA_ERROR_GENERIC_ERROR in
  let* _ := or_return its_mblock_erase_scratch_blocks PSA_ERROR_GENERIC_ERROR in
  its_mblock_upgrade_meta_header.

(** *** Reserving space *)

Fixpoint reserve_file_loop (fid : list Z) (size flgs : Z) (n : nat) (i : Z)
  : FS (its_file_meta_t * its_block_meta_t) :=
  match n with
  | O => fail PSA_ERROR_INSUFFICIENT_STORAGE
  | S n =>
      let* block_meta :=
        or_return (its_flash_fs_mblock_read_block_metadata i) PSA_ERROR_GENERIC_ERROR in
      if free_size block_meta >=? size then
        ret (FileMeta i (u32 (block_size fc - free_size block_meta)) 0 size flgs fid,
             BlockMeta (phy_id block_meta) (data_start block_meta)
               (u32 (free_size block_meta - size)))
      else reserve_file_loop fid size flgs n (i + 1)
  end.

Definition its_mblock_reserve_file (fid : list Z) (size flgs : Z)
  : FS (its_file_meta_t * its_block_meta_t) :=
  reserve_file_loop fid size flgs (Z.to_nat its_num_active_dblocks) 0.

Definition its_flash_fs_mblock_reserve_file (fid : list Z) (use_spare : bool) (size flgs : Z)
  : FS (Z * its_file_meta_t * its_block_meta_t) :=
  let* r := try (its_mblock_reserve_file fid size flgs) in
  let* idx := its_get_free_file_index use_spare in
  match r with
  | Ok (file_meta, block_meta) =>
      if idx =? ITS_METADATA_INVALID_INDEX then fail PSA_ERROR_INSUFFICIENT_STORAGE
      else ret (idx, file_meta, block_meta)
  | Err _ => fail PSA_ERROR_INSUFFICIENT_STORAGE
  end.

(** *** Formatting *)

(** [err |= erase(i + its_init_dblock_start)] for every dedicated block. *)
Fixpoint erase_dblocks_loop (n : nat) (i : Z) (err : psa_status_t) : FS psa_status_t :=
  match n with
  | O => ret err
  | S n =>
      let* r := try (ops_erase (u32 (i + its_init_dblock_start))) in
      erase_dblocks_loop n (i + 1) (Z.lor err (status_of r))
  end.

Fixpoint reset_block_meta_loop (n : nat) (i : Z) : FS unit :=
  match n with
  | O => ret tt
  | S n =>
      let block_meta := BlockMeta (u32 (i + its_init_dblock_start)) 0 (block_size fc) in
      let* _ := or_return (its_mblock_update_scratch_block_meta (u32 (i + 1)) block_meta)
                  PSA_ERROR_GENERIC_ERROR in
      reset_block_meta_loop n (i + 1)
  end.

Fixpoint reset_file_meta_loop (n : nat) (i : Z) : FS unit :=
  match n with
  | O => ret tt
  | S n =>
      let* _ := or_return (its_flash_fs_mblock_update_scratch_file_meta i file_meta_zero)
                  PSA_ERROR_GENERIC_ERROR in
      reset_file_meta_loop n (i + 1)
  end.

Definition its_flash_fs_mblock_reset_metablock : FS unit :=
  let* r := try its_init_get_active_metablock in
  let* c := ctx in
  let metablock_to_erase_first :=
    match r with Ok _ => scratch_metablock c | Err _ => ITS_METADATA_BLOCK0 end in
  let* _ := ops_erase metablock_to_erase_first in
  let* _ := ops_erase (ITS_OTHER_META_BLOCK metablock_to_erase_first) in
  let* _ := set_ctx (fun c =>
    FsCtx (Header its_init_scratch_dblock ITS_SUPPORTED_VERSION
             (metadata_xor (meta_block_header c))
             (if erase_val fc =? 0 then 1 else 0)
             (header_pad (meta_block_header c)))
      ITS_METADATA_BLOCK0 ITS_METADATA_BLOCK1) in
  let* c := ctx in
  let start := its_mblock_file_meta_offset (max_num_files cfg) in
  let block_meta := BlockMeta (scratch_metablock c) start (u32 (block_size fc - start)) in
  let* _ := its_mblock_update_scratch_block_meta ITS_LOGICAL_DBLOCK0 block_meta in
  let* err := erase_dblocks_loop (Z.to_nat its_num_dedicated_dblocks) 0 PSA_SUCCESS in
  let* _ := check (err =? PSA_SUCCESS) PSA_ERROR_STORAGE_FAILURE in
  let* _ := reset_block_meta_loop (Z.to_nat its_num_dedicated_dblocks) 0 in
  let* _ := reset_file_meta_loop (Z.to_nat (max_num_files cfg)) 0 in
  let* _ := or_return its_mblock_write_scratch_meta_header PSA_ERROR_GENERIC_ERROR in
  let* c := ctx in
  let* _ := ops_flush (scratch_metablock c) in
  its_mblock_swap_metablocks.
End mblock.
