(* ===== verification/ItsFs.v ===== *)
(** * The ITS flash file system
    ([flash_fs/its_flash_fs_dblock.c], [flash_fs/its_flash_fs.c])

    Data blocks and the file operations: create, write, read, delete and the
    preparation of the file system after a reset. *)

From S2P Require Import Prelude Bytes ItsUtils ItsFlash ItsMeta ItsMblock.
From stdpp Require Import base list numbers.
From Stdlib Require Import ZArith Lia.

Open Scope Z_scope.
Open Scope tfm_scope.

Definition ITS_FLASH_FS_USER_FLAGS_MASK : Z := 2 ^ 16 - 1.
Definition ITS_FLASH_FS_FLAG_CREATE : Z := 2 ^ 16.
Definition ITS_FLASH_FS_FLAG_TRUNCATE : Z := 2 ^ 17.
Definition ITS_FLASH_FS_INTERNAL_FLAGS_MASK : Z := 2 ^ 32 - 1 - (2 ^ 24 - 1).
Definition ITS_FLASH_FS_FLAG_DELETE : Z := 2 ^ 24.

(** [if (flags & mask)] *)
Definition has_flag (flgs mask : Z) : bool := negb (Z.land flgs mask =? 0).

(** [struct its_flash_fs_file_info_t] *)
Record its_flash_fs_file_info_t : Type := FileInfo {
  size_current : Z;   (* size_t *)
  size_max : Z;       (* size_t *)
  info_flags : Z;     (* uint32_t *)
}.

Section fs.
Context {F : Type} `{FlashOps F} (cfg : its_flash_fs_config_t).

Abbreviation FS := (M (fs_st F)).
Abbreviation fc := (flash_cfg cfg).

(** ** Data blocks *)

Definition its_dblock_lo_to_phy (lb : Z) : FS Z :=
  let* r := try (its_flash_fs_mblock_read_block_metadata cfg lb) in
  match r with
  | Ok block_meta => ret (phy_id block_meta)
  | Err _ => ret ITS_BLOCK_INVALID_ID
  end.

Definition its_flash_fs_dblock_compact_block
    (lb fsize src_offset dst_offset size : Z) : FS unit :=
  let* block_meta := its_flash_fs_mblock_read_block_metadata cfg lb in
  let free := u32 (free_size block_meta + fsize) in
  let* scratch_id := its_flash_fs_mblock_cur_data_scratch_id lb in
  let* _ :=
    if size >? 0 then
      or_return (its_flash_fs_block_to_block_move cfg scratch_id dst_offset
                   (phy_id block_meta) src_offset size) PSA_ERROR_GENERIC_ERROR
    else ret tt in
  let* _ :=
    if dst_offset >? data_start block_meta then
      or_return (its_flash_fs_block_to_block_move cfg scratch_id (data_start block_meta)
                   (phy_id block_meta) (data_start block_meta)
                   (u32 (dst_offset - data_start block_meta))) PSA_ERROR_GENERIC_ERROR
    else ret tt in
  let flush_data := (size >? 0) || (dst_offset >? data_start block_meta) in
  let* _ := its_flash_fs_mblock_set_data_scratch (phy_id block_meta) lb in
  let* r := try (its_flash_fs_mblock_update_scratch_block_meta cfg lb
                   (BlockMeta scratch_id (data_start block_meta) free)) in
  match r with
  | Err err =>
      let* _ := its_flash_fs_mblock_set_data_scratch scratch_id lb in
      fail err
  | Ok _ =>
      if negb (lb =? ITS_LOGICAL_DBLOCK0) && flush_data then ops_flush cfg scratch_id
      else ret tt
  end.

Definition its_flash_fs_dblock_read_file (file_meta : its_file_meta_t) (offset size : Z)
  : FS (list Z) :=
  let* phys_block := its_dblock_lo_to_phy (lblock file_meta) in
  if phys_block =? ITS_BLOCK_INVALID_ID then fail PSA_ERROR_GENERIC_ERROR
  else ops_read cfg phys_block (u32 (data_idx file_meta + offset)) size.

Definition its_flash_fs_dblock_write_file (block_meta : its_block_meta_t)
    (file_meta : its_file_meta_t) (offset size : Z) (data : list Z) : FS unit :=
  let* scratch_id := its_flash_fs_mblock_cur_data_scratch_id (lblock file_meta) in
  let pos := u32 (data_idx file_meta + offset) in
  let* _ := its_flash_fs_block_to_block_move cfg scratch_id (data_start block_meta)
              (phy_id block_meta) (data_start block_meta)
              (u32 (pos - data_start block_meta)) in
  let* _ := ops_write cfg scratch_id (sub_bytes 0 size data) pos in
  let pos := u32 (data_idx file_meta + max_size file_meta) in
  let num_bytes := u32 (u32 (block_size fc - free_size block_meta) - pos) in
  let* _ := its_flash_fs_block_to_block_move cfg scratch_id pos (phy_id block_meta) pos
              num_bytes in
  if negb (lblock file_meta =? ITS_LOGICAL_DBLOCK0) then ops_flush cfg scratch_id
  else ret tt.

(** ** Files *)

Definition its_flash_fs_file_write_aligned_data (block_meta : its_block_meta_t)
    (file_meta : its_file_meta_t) (offset size : Z) (data : list Z) : FS unit :=
  if negb (ITS_UTILS_IS_ALIGNED offset (program_unit fc)) then fail PSA_ERROR_INVALID_ARGUMENT
  else
    let size := ITS_UTILS_ALIGN size (program_unit fc) in
    if offset >? cur_size file_meta then fail PSA_ERROR_INVALID_ARGUMENT
    else if negb (its_utils_check_contained_in (max_size file_meta) offset size =? PSA_SUCCESS)
    then fail PSA_ERROR_INVALID_ARGUMENT
    else its_flash_fs_dblock_write_file block_meta file_meta offset size data.

Definition its_flash_fs_num_active_dblocks : Z :=
  if num_blocks fc =? 2 then 1 else u32 (num_blocks fc - 2).

Definition its_flash_fs_all_metadata_size : Z :=
  u32 (u32 (ITS_BLOCK_META_HEADER_SIZE
            + u32 (its_flash_fs_num_active_dblocks * ITS_BLOCK_METADATA_SIZE))
       + u32 (max_num_files cfg * ITS_FILE_METADATA_SIZE)).

(** The checks are made in order and a later failure overwrites [ret]. *)
Definition its_flash_fs_validate_config : psa_status_t :=
  let r := PSA_SUCCESS in
  let r := if (num_blocks fc <? 2) || (num_blocks fc =? 3)
           then PSA_ERROR_INVALID_ARGUMENT else r in
  let r := if num_blocks fc =? 2
           then if max_file_size cfg >? u32 (block_size fc - its_flash_fs_all_metadata_size)
                then PSA_ERROR_INVALID_ARGUMENT else r
           else r in
  let r := if max_file_size cfg >? block_size fc then PSA_ERROR_INVALID_ARGUMENT else r in
  if its_flash_fs_all_metadata_size >? block_size fc then PSA_ERROR_INVALID_ARGUMENT else r.

Definition its_flash_fs_file_get_info (fid : list Z) : FS its_flash_fs_file_info_t :=
  let* r := or_return (its_flash_fs_mblock_get_file_idx_meta cfg fid)
              PSA_ERROR_DOES_NOT_EXIST in
  let tmp_metadata := snd r in
  ret (FileInfo (cur_size tmp_metadata) (max_size tmp_metadata)
         (Z.land (flags tmp_metadata) ITS_FLASH_FS_USER_FLAGS_MASK)).

(** The loop of [its_flash_fs_delete_idx] over the other files: a file behind
    the deleted one in its block moves down; returns [src_offset] and
    [nbr_bytes_to_move]. *)
Fixpoint delete_idx_loop (del_file_idx del_file_lblock del_file_data_idx del_file_max_size : Z)
    (n : nat) (idx src_offset nbr_bytes_to_move : Z) : FS (Z * Z) :=
  match n with
  | O => ret (src_offset, nbr_bytes_to_move)
  | S n =>
      if idx =? del_file_idx then
        delete_idx_loop del_file_idx del_file_lblock del_file_data_idx del_file_max_size
          n (idx + 1) src_offset nbr_bytes_to_move
      else
        let* file_meta := its_flash_fs_mblock_read_file_meta cfg idx in
        let behind := (lblock file_meta =? del_file_lblock) && fid_valid (id file_meta)
                      && (data_idx file_meta >? del_file_data_idx) in
        let src_offset' :=
          if behind && (src_offset >? data_idx file_meta) then data_idx file_meta
          else src_offset in
        let nbr' :=
          if behind then u32 (nbr_bytes_to_move + max_size file_meta) else nbr_bytes_to_move in
        let file_meta' :=
          if behind then
            FileMeta (lblock file_meta) (u32 (data_idx file_meta - del_file_max_size))
              (cur_size file_meta) (max_size file_meta) (flags file_meta) (id file_meta)
          else file_meta in
        let* _ := its_flash_fs_mblock_update_scratch_file_meta cfg idx file_meta' in
        delete_idx_loop del_file_idx del_file_lblock del_file_data_idx del_file_max_size
          n (idx + 1) src_offset' nbr'
  end.

Definition its_flash_fs_delete_idx (del_file_idx : Z) : FS unit :=
  let* file_meta := its_flash_fs_mblock_read_file_meta cfg del_file_idx in
  if negb (fid_valid (id file_meta)) then fail PSA_ERROR_DOES_NOT_EXIST
  else
    let del_file_lblock := lblock file_meta in
    let del_file_data_idx := data_idx file_meta in
    let del_file_max_size := max_size file_meta in
    let* _ := its_flash_fs_mblock_update_scratch_file_meta cfg del_file_idx file_meta_zero in
    let* r := delete_idx_loop del_file_idx del_file_lblock del_file_data_idx
                del_file_max_size (Z.to_nat (max_num_files cfg)) 0 (block_size fc) 0 in
    let* _ :=
      if del_file_max_size =? 0 then
        let* block_meta := its_flash_fs_mblock_read_block_metadata cfg ITS_LOGICAL_DBLOCK0 in
        its_flash_fs_mblock_update_scratch_block_meta cfg ITS_LOGICAL_DBLOCK0 block_meta
      else
        its_flash_fs_dblock_compact_block del_file_lblock del_file_max_size (fst r)
          del_file_data_idx (snd r) in
    let* _ :=
      if (negb (del_file_max_size =? 0) && negb (del_file_lblock =? ITS_LOGICAL_DBLOCK0))
         || (del_file_max_size =? 0)
      then or_return (its_flash_fs_mblock_migrate_lb0_data_to_scratch cfg)
             PSA_ERROR_GENERIC_ERROR
      else ret tt in
    its_flash_fs_mblock_meta_update_finalize cfg.

Definition its_flash_fs_file_delete (fid : list Z) : FS unit :=
  let* r := or_return (its_flash_fs_mblock_get_file_idx_meta cfg fid)
              PSA_ERROR_DOES_NOT_EXIST in
  its_flash_fs_delete_idx (fst r).

Definition its_flash_fs_file_read (fid : list Z) (size offset : Z) : FS (list Z) :=
  let* r := or_return (its_flash_fs_mblock_get_file_idx_meta cfg fid)
              PSA_ERROR_DOES_NOT_EXIST in
  let* _ := of_status (its_utils_check_contained_in (cur_size (snd r)) offset size) in
  or_return (its_flash_fs_dblock_read_file (snd r) offset size) PSA_ERROR_GENERIC_ERROR.

(** The first part of [its_flash_fs_file_write]: looks the file up, marks a
    file that is to be replaced for deletion in the scratch block, and
    reserves a new file or reads the block of the existing one.  Returns
    [old_idx], [new_idx], [file_meta] and [block_meta]. *)
Definition file_write_locate (fid : list Z) (finfo : its_flash_fs_file_info_t)
  : FS (Z * Z * its_file_meta_t * its_block_meta_t) :=
  let* r := try (its_flash_fs_mblock_get_file_idx_meta cfg fid) in
  let* p :=
    match r with
    | Ok (old_idx, file_meta) =>
        if has_flag (info_flags finfo) ITS_FLASH_FS_FLAG_TRUNCATE then
          if max_size file_meta =? size_max finfo then
            ret (old_idx, old_idx,
                 FileMeta (lblock file_meta) (data_idx file_meta) 0 (max_size file_meta)
                   (info_flags finfo) (id file_meta))
          else
            let file_meta :=
              FileMeta (lblock file_meta) (data_idx file_meta) (cur_size file_meta)
                (max_size file_meta) (Z.lor (flags file_meta) ITS_FLASH_FS_FLAG_DELETE)
                (id file_meta) in
            let* _ := or_return
                        (its_flash_fs_mblock_update_scratch_file_meta cfg old_idx file_meta)
                        PSA_ERROR_GENERIC_ERROR in
            ret (old_idx, ITS_METADATA_INVALID_INDEX, file_meta)
        else ret (old_idx, old_idx, file_meta)
    | Err err =>
        if err =? PSA_ERROR_DOES_NOT_EXIST then
          if has_flag (info_flags finfo) ITS_FLASH_FS_FLAG_CREATE
          then ret (ITS_METADATA_INVALID_INDEX, ITS_METADATA_INVALID_INDEX, file_meta_zero)
          else fail PSA_ERROR_DOES_NOT_EXIST
        else fail err
    end in
  let '(old_idx, new_idx, file_meta) := p in
  if new_idx =? ITS_METADATA_INVALID_INDEX then
    if size_max finfo >? max_file_size cfg then fail PSA_ERROR_INVALID_ARGUMENT
    else
      let use_spare := negb (old_idx =? ITS_METADATA_INVALID_INDEX) in
      let* q := its_flash_fs_mblock_reserve_file cfg fid use_spare (size_max finfo)
                  (info_flags finfo) in
      let '(new_idx, file_meta, block_meta) := q in
      ret (old_idx, new_idx, file_meta, block_meta)
  else
    let* block_meta :=
      or_return (its_flash_fs_mblock_read_block_metadata cfg (lblock file_meta))
        PSA_ERROR_GENERIC_ERROR in
    ret (old_idx, new_idx, file_meta, block_meta).

(** The second part: the data of the file goes to the scratch data block,
    which becomes the block of the file. *)
Definition file_write_data (file_meta : its_file_meta_t) (block_meta : its_block_meta_t)
    (data_size offset : Z) (data : list Z) : FS (its_file_meta_t * its_block_meta_t) :=
  if data_size =? 0 then ret (file_meta, block_meta)
  else
    let* _ := or_return (its_flash_fs_file_write_aligned_data block_meta file_meta offset
                           data_size data) PSA_ERROR_GENERIC_ERROR in
    let file_meta :=
      if u32 (offset + data_size) >? cur_size file_meta then
        FileMeta (lblock file_meta) (data_idx file_meta) (u32 (offset + data_size))
          (max_size file_meta) (flags file_meta) (id file_meta)
      else file_meta in
    let cur_phys_block := phy_id block_meta in
    let* scratch := its_flash_fs_mblock_cur_data_scratch_id (lblock file_meta) in
    let* _ := its_flash_fs_mblock_set_data_scratch cur_phys_block (lblock file_meta) in
    ret (file_meta, BlockMeta scratch (data_start block_meta) (free_size block_meta)).

(** The third part: the new metadata goes to the scratch metadata block,
    together with a copy of the metadata of the other files. *)
Definition file_write_meta (old_idx new_idx : Z) (file_meta : its_file_meta_t)
    (block_meta : its_block_meta_t) : FS unit :=
  let* _ := or_return (its_flash_fs_mblock_update_scratch_block_meta cfg (lblock file_meta)
                         block_meta) PSA_ERROR_GENERIC_ERROR in
  let* _ := or_return (its_flash_fs_mblock_update_scratch_file_meta cfg new_idx file_meta)
              PSA_ERROR_GENERIC_ERROR in
  let idx := ITS_UTILS_MIN new_idx old_idx in
  let* _ := or_return (its_flash_fs_mblock_cp_file_meta cfg 0 idx) PSA_ERROR_GENERIC_ERROR in
  let* idx :=
    if negb (old_idx =? ITS_METADATA_INVALID_INDEX) && negb (old_idx =? new_idx) then
      let* _ := or_return (its_flash_fs_mblock_cp_file_meta cfg (u32 (idx + 1))
                             (ITS_UTILS_MAX new_idx old_idx)) PSA_ERROR_GENERIC_ERROR in
      ret (ITS_UTILS_MAX new_idx old_idx)
    else ret idx in
  or_return (its_flash_fs_mblock_cp_file_meta cfg (u32 (idx + 1)) (max_num_files cfg))
    PSA_ERROR_GENERIC_ERROR.

(** [finfo->size_max] rounded up to the program unit. *)
Definition align_size_max (finfo : its_flash_fs_file_info_t) : its_flash_fs_file_info_t :=
  FileInfo (size_current finfo) (ITS_UTILS_ALIGN (size_max finfo) (program_unit fc))
    (info_flags finfo).

(** Returns the updated [*finfo]. *)
Definition its_flash_fs_file_write (fid : list Z) (finfo : its_flash_fs_file_info_t)
    (data_size offset : Z) (data : list Z) : FS its_flash_fs_file_info_t :=
  if has_flag (info_flags finfo) ITS_FLASH_FS_INTERNAL_FLAGS_MASK
  then fail PSA_ERROR_INVALID_ARGUMENT
  else
    let finfo := align_size_max finfo in
    let* p := file_write_locate fid finfo in
    let '(old_idx, new_idx, file_meta, block_meta) := p in
    let* q := file_write_data file_meta block_meta data_size offset data in
    let '(file_meta, block_meta) := q in
    let* _ := file_write_meta old_idx new_idx file_meta block_meta in
    let* _ :=
      if negb (lblock file_meta =? ITS_LOGICAL_DBLOCK0) || (data_size =? 0)
      then or_return (its_flash_fs_mblock_migrate_lb0_data_to_scratch cfg)
             PSA_ERROR_GENERIC_ERROR
      else ret tt in
    let* _ := its_flash_fs_mblock_meta_update_finalize cfg in
    let* _ :=
      if negb (old_idx =? ITS_METADATA_INVALID_INDEX) && negb (old_idx =? new_idx)
      then its_flash_fs_delete_idx old_idx
      else ret tt in
    ret finfo.

Definition its_flash_fs_prepare : FS unit :=
  let* _ := its_flash_fs_mblock_init cfg in
  let* r := try (its_flash_fs_mblock_get_file_idx_flag cfg ITS_FLASH_FS_FLAG_DELETE) in
  match r with
  | Ok idx => its_flash_fs_delete_idx idx
  | Err err => if err =? PSA_ERROR_DOES_NOT_EXIST then ret tt else fail err
  end.

Definition its_flash_fs_wipe_all : FS unit := its_flash_fs_mblock_reset_metablock cfg.
End fs.

Definition ctx_zero : its_flash_fs_ctx_t := FsCtx (Header 0 0 0 0 0) 0 0.

(** [its_flash_fs_init_ctx] on non-null arguments: initialises the driver,
    which may complete the flash configuration, checks the configuration and
    zeroes the context; returns the configuration the context points to. *)
Definition its_flash_fs_init_ctx {F} `{FlashOps F} (cfg : its_flash_fs_config_t)
  : M (fs_st F) its_flash_fs_config_t :=
  let* fc := lift_flash (op_init (flash_cfg cfg)) in
  let cfg := FsConfig fc (max_file_size cfg) (max_num_files cfg) in
  let* _ := of_status (its_flash_fs_validate_config cfg) in
  let* _ := set_ctx (fun _ => ctx_zero) in
  ret cfg.
