(* ===== verification/ItsState.v ===== *)
(** * Symbolic execution of file system code

    The state of the file system seen as the context plus the content of every
    block, the rule of each primitive operation over that view, and the
    geometry of the metadata without machine arithmetic. *)

From S2P Require Import Prelude Bytes ItsUtils ItsFlash ItsMeta ItsMblock ItsFs.
From stdpp Require Import base list numbers functions.
From Stdlib Require Import ZArith Lia.

Open Scope Z_scope.
Open Scope tfm_scope.

(** ** Configurations *)

(** Number of logical data blocks. *)
Definition nact (cfg : its_flash_fs_config_t) : Z :=
  if num_blocks (flash_cfg cfg) =? 2 then 1 else num_blocks (flash_cfg cfg) - 2.

(** Offsets of the metadata of block [lb] and of file [i], unbounded. *)
Definition boff (lb : Z) : Z := 8 + 12 * lb.
Definition foff (cfg : its_flash_fs_config_t) (i : Z) : Z := 8 + 12 * nact cfg + 32 * i.

(** End of the metadata: where the data of logical block 0 starts. *)
Definition meta_end (cfg : its_flash_fs_config_t) : Z := foff cfg (max_num_files cfg).

(** The members fit their C types and the driver accepts the geometry. *)
Record cfg_typed (cfg : its_flash_fs_config_t) : Prop := {
  ct_flash : flash_config_wf (flash_cfg cfg);
  ct_files : 0 < max_num_files cfg < 65536;
  ct_fsize : 0 <= max_file_size cfg < 65536;
  ct_unit : exists k, 0 <= k < 16 /\ program_unit (flash_cfg cfg) = 2 ^ k;
}.

(** What the file system needs of its configuration. *)
Record cfg_wf (cfg : its_flash_fs_config_t) : Prop := {
  cw_typed : cfg_typed cfg;
  cw_blocks : 2 <= num_blocks (flash_cfg cfg);
  cw_not3 : num_blocks (flash_cfg cfg) <> 3;
  cw_meta : meta_end cfg <= block_size (flash_cfg cfg);
  cw_fsize : max_file_size cfg <= block_size (flash_cfg cfg);
  cw_two : num_blocks (flash_cfg cfg) = 2 ->
           max_file_size cfg <= block_size (flash_cfg cfg) - meta_end cfg;
}.

(** The sums of [its_flash_fs_validate_config] do not wrap. *)
Lemma metadata_size_exact cfg :
  cfg_typed cfg -> 2 <= num_blocks (flash_cfg cfg) -> num_blocks (flash_cfg cfg) <> 3 ->
  its_flash_fs_all_metadata_size cfg = meta_end cfg /\ 0 < meta_end cfg < 4294967296.
Proof.
  intros Ht H2 H3. pose proof (ct_files _ Ht) as Hn. pose proof (fc_num_blocks _ (ct_flash _ Ht)) as Hb.
  unfold its_flash_fs_all_metadata_size, its_flash_fs_num_active_dblocks, meta_end, foff, nact,
    ITS_BLOCK_META_HEADER_SIZE, ITS_BLOCK_METADATA_SIZE, ITS_FILE_METADATA_SIZE.
  destruct (Z.eqb_spec (num_blocks (flash_cfg cfg)) 2).
  - rewrite (u32_id (1 * 12)) by lia. rewrite (u32_id (_ * 32)) by lia. rewrite (u32_id (8 + _)) by lia. rewrite u32_id by lia. lia.
  - rewrite (u32_id (num_blocks _ - 2)) by lia. rewrite (u32_id (_ * 12)) by lia.
    rewrite (u32_id (_ * 32)) by lia. rewrite (u32_id (8 + _)) by lia. rewrite u32_id by lia. lia.
Qed.

Lemma validate_config_ok cfg : cfg_wf cfg -> its_flash_fs_validate_config cfg = PSA_SUCCESS.
Proof.
  intros [Ht H2 H3 Hme Hfs Htwo]. pose proof (ct_fsize _ Ht) as Hf. pose proof (fc_area _ (ct_flash _ Ht)) as Ha.
  pose proof (fc_num_blocks _ (ct_flash _ Ht)) as Hb. pose proof (fc_block_size _ (ct_flash _ Ht)) as Hs.
  destruct (metadata_size_exact cfg Ht) as [Hm1 Hm2]; [lia|lia|].
  unfold its_flash_fs_validate_config. rewrite !Z.gtb_ltb, Hm1.
  rewrite (proj2 (Z.ltb_ge (block_size _) (meta_end cfg))) by lia.
  rewrite (proj2 (Z.ltb_ge (block_size _) (max_file_size cfg))) by lia.
  rewrite (proj2 (Z.ltb_ge (num_blocks _) 2)), (proj2 (Z.eqb_neq (num_blocks _) 3)) by lia. cbn [orb].
  destruct (Z.eqb_spec (num_blocks (flash_cfg cfg)) 2) as [E2|]; [|done]. specialize (Htwo E2).
  rewrite u32_id by nia. by rewrite (proj2 (Z.ltb_ge _ _)) by lia.
Qed.

Lemma cw_area cfg : cfg_wf cfg ->
  0 < block_size (flash_cfg cfg) < 2147483648 /\ 2 <= num_blocks (flash_cfg cfg) < 65536.
Proof. intros [[[]] ? ? ? ?]. nia. Qed.

Lemma nact_pos cfg : cfg_wf cfg -> 1 <= nact cfg < 65536.
Proof.
  intros H. destruct (cw_area cfg H). pose proof (cw_not3 cfg H). unfold nact.
  destruct (Z.eqb_spec (num_blocks (flash_cfg cfg)) 2); lia.
Qed.

(** [lia] with the bounds of the configuration in the context. *)
Ltac cfg_facts :=
  match goal with
  | H : cfg_wf ?cfg |- _ =>
      pose proof (cw_area cfg H); pose proof (nact_pos cfg H); pose proof (cw_meta cfg H);
      pose proof (ct_files cfg (cw_typed cfg H)); pose proof (ct_fsize cfg (cw_typed cfg H));
      pose proof (cw_fsize cfg H)
  end.
Ltac cfg_lia := cfg_facts; unfold meta_end, foff, boff in *; lia.

Section geometry.
Context (cfg : its_flash_fs_config_t) (Hcfg : cfg_wf cfg).

Lemma num_active_spec : its_num_active_dblocks cfg = nact cfg.
Proof.
  unfold its_num_active_dblocks, its_num_dedicated_dblocks, its_init_dblock_start, nact.
  cfg_facts. pose proof (cw_not3 cfg Hcfg).
  destruct (Z.eqb_spec (num_blocks (flash_cfg cfg)) 2); [done|].
  rewrite (u32_id (_ - _)) by lia. rewrite u32_id; lia.
Qed.

Lemma block_off_spec lb : 0 <= lb <= nact cfg -> its_mblock_block_meta_offset lb = boff lb.
Proof.
  intros. unfold its_mblock_block_meta_offset, boff, ITS_BLOCK_METADATA_SIZE,
    ITS_BLOCK_META_HEADER_SIZE. cfg_facts.
  rewrite (u32_id (lb * 12)) by lia. rewrite u32_id; lia.
Qed.

Lemma file_off_spec i : 0 <= i <= max_num_files cfg ->
  its_mblock_file_meta_offset cfg i = foff cfg i.
Proof.
  intros. unfold its_mblock_file_meta_offset, foff, ITS_BLOCK_METADATA_SIZE,
    ITS_BLOCK_META_HEADER_SIZE, ITS_FILE_METADATA_SIZE. rewrite num_active_spec. cfg_facts.
  unfold meta_end, foff in *.
  rewrite (u32_id (i * 32)), (u32_id (nact cfg * 12)), (u32_id (8 + nact cfg * 12)) by lia.
  rewrite u32_id; lia.
Qed.
End geometry.

(** ** The view of a state *)

Section view.
Context {F : Type} `{FlashOps F} (cfg : its_flash_fs_config_t).
Context `{!FlashLaws F (flash_cfg cfg)}.
Context (Hcfg : cfg_wf cfg).

Abbreviation FS := (M (fs_st F)).
Abbreviation fc := (flash_cfg cfg).

Definition in_flash (b : Z) : Prop := 0 <= b < num_blocks fc.

(** A phase of an operation may change block [b] from offset [P b] on; [B0] is
    the content of the blocks when it starts. *)
Context (P : Z -> Z) (B0 : Z -> list Z).

Definition kept (b : Z) (blk : list Z) : Prop :=
  sub_bytes 0 (P b) blk = sub_bytes 0 (P b) (B0 b).

Lemma kept_splice b o d blk :
  0 <= o -> P b <= o -> o + zlen d <= zlen blk -> kept b blk -> kept b (splice o d blk).
Proof. unfold kept. intros. by rewrite sub_bytes_splice_disj by lia. Qed.

Lemma kept_all b blk : P b <= 0 -> kept b blk.
Proof. unfold kept, sub_bytes. intros. by replace (Z.to_nat (P b)) with 0%nat by lia. Qed.

(** [s] has context [c] and block contents [B]. *)
Definition is_st (s : fs_st F) (c : its_flash_fs_ctx_t) (B : Z -> list Z) : Prop :=
  fl_ok (st_flash s) /\ st_ctx s = c /\
  (forall b, in_flash b -> fl_block (st_flash s) b = B b) /\
  (forall b, in_flash b -> kept b (B b)).

Lemma is_st_len s c B b : is_st s c B -> in_flash b -> zlen (B b) = block_size fc.
Proof. intros (Hok & _ & HB & _) Hb. rewrite <- HB by done. by apply fl_len. Qed.

Lemma is_st_bytes s c B b : is_st s c B -> in_flash b -> Forall is_byte (B b).
Proof. intros (Hok & _ & HB & _) Hb. rewrite <- HB by done. by apply fl_bytes. Qed.

Lemma is_st_ctx s c B : is_st s c B -> st_ctx s = c.
Proof. by intros (_ & ? & _). Qed.

(** What an operation may report when the flash fails.  With [strict] the
    driver is total and no operation reports an error. *)
Context (strict : bool) (Hstrict : strict = true -> FlashTotal F fc).

Definition io_error (e : psa_status_t) (s : fs_st F) : Prop :=
  strict = false /\ e <> PSA_SUCCESS /\ fl_ok (st_flash s) /\
  forall b, in_flash b -> kept b (fl_block (st_flash s) b).

Lemma wp_ctx Q E s c B : is_st s c B -> Q c s -> wp ctx Q E s.
Proof. intros Hs HQ. unfold ctx. apply wp_gets. by rewrite (is_st_ctx _ _ _ Hs). Qed.

Lemma wp_set_ctx f Q E s c B :
  is_st s c B -> (forall s', is_st s' (f c) B -> Q tt s') -> wp (set_ctx f) Q E s.
Proof.
  intros (Hok & Hc & HB & HW) HQ. unfold set_ctx. apply wp_modify. apply HQ.
  split_and!; simpl; [done|by rewrite Hc|done|done].
Qed.

Lemma wp_set_header f Q E s c B :
  is_st s c B ->
  (forall s', is_st s' (FsCtx (f (meta_block_header c)) (active_metablock c)
                          (scratch_metablock c)) B -> Q tt s') ->
  wp (set_header f) Q E s.
Proof. intros. unfold set_header. by eapply wp_set_ctx. Qed.

Lemma is_st_io e s c B : is_st s c B -> strict = false -> e <> PSA_SUCCESS -> io_error e s.
Proof.
  intros (Hok & Hc & HB & HW) Hst He. split_and!; [done|done|done|].
  intros b Hb. rewrite HB by done. by apply HW.
Qed.

(** A read changes nothing, also when it fails. *)
Lemma wp_ops_read_or b off n Q E s c B :
  is_st s c B -> in_flash b -> 0 <= off -> 0 < n -> off + n <= block_size fc ->
  Q (sub_bytes off n (B b)) s -> (forall e, strict = false -> e <> PSA_SUCCESS -> E e s) ->
  wp (ops_read cfg b off n) Q E s.
Proof.
  intros Hs Hb Ho Hn Hsz HQ HE. unfold wp, ops_read. pose proof Hs as (Hok & Hc & HB & HW).
  destruct (op_read fc (st_flash s) b off n) as [d|e] eqn:Hr.
  - rewrite (fl_read (st_flash s) b off n d Hok Hb Ho ltac:(lia) Hsz Hr), HB by done. done.
  - apply HE; [|by eapply fl_read_err].
    destruct strict eqn:Es; [|done]. destruct (Hstrict eq_refl) as [Hrd _ _ _].
    destruct (Hrd (st_flash s) b off n Hok Hb Ho Hn Hsz). congruence.
Qed.

Lemma wp_ops_read b off n Q s c B :
  is_st s c B -> in_flash b -> 0 <= off -> 0 < n -> off + n <= block_size fc ->
  Q (sub_bytes off n (B b)) s -> wp (ops_read cfg b off n) Q io_error s.
Proof. intros. eapply wp_ops_read_or; eauto using is_st_io. Qed.

(** A new content of block [b] that the phase allows. *)
Lemma is_st_insert s f' c B b X :
  is_st s c B -> in_flash b -> fl_ok f' -> fl_block f' b = X -> kept b X ->
  (forall b', in_flash b' -> b' <> b -> fl_block f' b' = fl_block (st_flash s) b') ->
  is_st (FsSt f' (st_ctx s)) c (<[b := X]> B).
Proof.
  intros (Hok & Hc & HB & HW) Hb Hok' HX HK Hoth.
  split_and!; [done|done|..]; intros b' Hb'; simpl; destruct (decide (b' = b)) as [->|Hne].
  - by rewrite fn_lookup_insert.
  - rewrite fn_lookup_insert_ne, Hoth by done. by apply HB.
  - by rewrite fn_lookup_insert.
  - rewrite fn_lookup_insert_ne by done. by apply HW.
Qed.

(** A write either is complete or stops after a prefix. *)
Lemma wp_ops_write_cut b d off Q E s c B :
  is_st s c B -> in_flash b -> P b <= off -> 0 <= off -> 0 < zlen d ->
  off + zlen d <= block_size fc -> Forall is_byte d -> erased fc off (zlen d) (B b) ->
  (forall s', is_st s' c (<[b := splice off d (B b)]> B) -> Q tt s') ->
  (forall e s' k, strict = false -> e <> PSA_SUCCESS -> 0 <= k <= zlen d ->
     is_st s' c (<[b := splice off (sub_bytes 0 k d) (B b)]> B) -> E e s') ->
  wp (ops_write cfg b d off) Q E s.
Proof.
  intros Hs Hb HWb Ho Hn Hsz Hd He HQ HE. unfold wp, ops_write, lift_flash.
  pose proof Hs as (Hok & Hc & HB & HW). pose proof (is_st_len _ _ _ _ Hs Hb) as Hl.
  destruct (op_write fc b d off (st_flash s)) as [r f'] eqn:Hw.
  destruct (fl_write _ _ _ _ _ _ Hok Hb Ho Hsz Hd Hw) as (Hok' & Hoth & Hcont & Herr).
  rewrite HB in Hcont by done. specialize (Hcont He).
  destruct r as [[]|e].
  - apply HQ. eapply is_st_insert; eauto. apply kept_splice; auto; lia.
  - destruct Hcont as (k & Hk & Hcont).
    assert (zlen (sub_bytes 0 k d) = k) as Hz by (apply zlen_sub_bytes; lia).
    apply (HE e _ k); [|by apply Herr|done|].
    + destruct strict eqn:Es; [|done]. destruct (Hstrict eq_refl) as [_ Hwr _ _].
      destruct (Hwr (st_flash s) b d off Hok Hb Ho Hn Hsz). congruence.
    + eapply is_st_insert; eauto. apply kept_splice; auto; lia.
Qed.

Lemma wp_ops_write b d off Q s c B :
  is_st s c B -> in_flash b -> P b <= off -> 0 <= off -> 0 < zlen d ->
  off + zlen d <= block_size fc -> Forall is_byte d -> erased fc off (zlen d) (B b) ->
  (forall s', is_st s' c (<[b := splice off d (B b)]> B) -> Q tt s') ->
  wp (ops_write cfg b d off) Q io_error s.
Proof. intros. eapply wp_ops_write_cut; eauto using is_st_io. Qed.

Lemma wp_ops_flush b Q s c B :
  is_st s c B -> in_flash b -> (forall s', is_st s' c B -> Q tt s') ->
  wp (ops_flush cfg b) Q io_error s.
Proof.
  intros Hs Hb HQ. unfold wp, ops_flush, lift_flash. pose proof Hs as (Hok & Hc & HB & HW).
  destruct (op_flush fc b (st_flash s)) as [r f'] eqn:Hf.
  destruct (fl_flush _ _ _ _ Hok Hb Hf) as (Hok' & Hoth & Herr).
  assert (is_st (FsSt f' (st_ctx s)) c B) as Hs'.
  { split_and!; [done|done| |done]. intros b' Hb'. simpl. rewrite Hoth by done. by apply HB. }
  destruct r as [[]|e]; [by apply HQ|]. eapply is_st_io; [done| |by apply Herr].
  destruct strict eqn:Es; [|done]. destruct (Hstrict eq_refl) as [_ _ Hfl _].
  destruct (Hfl (st_flash s) b Hok Hb). congruence.
Qed.

(** An erase either is complete or leaves some of the bytes. *)
Lemma wp_ops_erase_cut b Q E s c B :
  is_st s c B -> in_flash b -> P b <= 0 ->
  (forall s', is_st s' c (<[b := fill (block_size fc) (erase_val fc)]> B) -> Q tt s') ->
  (forall e s' X, strict = false -> e <> PSA_SUCCESS -> cut_erase fc (B b) X ->
     is_st s' c (<[b := X]> B) -> E e s') ->
  wp (ops_erase cfg b) Q E s.
Proof.
  intros Hs Hb HWb HQ HE. unfold wp, ops_erase, lift_flash. pose proof Hs as (Hok & Hc & HB & HW).
  destruct (op_erase fc b (st_flash s)) as [r f'] eqn:He.
  destruct (fl_erase _ _ _ _ Hok Hb He) as (Hok' & Hoth & Hcont & Herr). destruct r as [[]|e].
  - apply HQ. eapply is_st_insert; eauto. by apply kept_all.
  - apply (HE e _ (fl_block f' b)); [|by apply Herr|by rewrite <- HB|].
    + destruct strict eqn:Es; [|done]. destruct (Hstrict eq_refl) as [_ _ _ Her].
      destruct (Her (st_flash s) b Hok Hb). congruence.
    + eapply is_st_insert; eauto. by apply kept_all.
Qed.

Lemma wp_ops_erase b Q s c B :
  is_st s c B -> in_flash b -> P b <= 0 ->
  (forall s', is_st s' c (<[b := fill (block_size fc) (erase_val fc)]> B) -> Q tt s') ->
  wp (ops_erase cfg b) Q io_error s.
Proof. intros. eapply wp_ops_erase_cut; eauto using is_st_io. Qed.

(** A view may be replaced by an extensionally equal one. *)
Lemma is_st_ext s c B B' :
  is_st s c B -> (forall b, in_flash b -> B b = B' b) -> is_st s c B'.
Proof. intros (Hok & Hc & HB & HW) Heq. split_and!; [done|done|intros; by rewrite HB, Heq|].
  intros. rewrite <- Heq by done. by apply HW.
Qed.

(** ** Moving data between blocks *)

Lemma wp_move_loop fuel dst dof src sof size Q s c B :
  is_st s c B -> in_flash dst -> P dst <= dof -> in_flash src -> src <> dst ->
  0 <= dof -> 0 <= sof -> 0 <= size -> dof + size <= block_size fc ->
  sof + size <= block_size fc -> (Z.to_nat size <= fuel)%nat ->
  erased fc dof size (B dst) ->
  (forall s', is_st s' c (<[dst := splice dof (sub_bytes sof size (B src)) (B dst)]> B) ->
              Q tt s') ->
  wp (block_to_block_move_loop cfg fuel dst dof src sof size) Q io_error s.
Proof.
  revert dof sof size s B Q.
  induction fuel as [|fuel IH]; intros dof sof size s B Q Hs Hd HWd Hsrc Hne Hdof Hsof Hsz Hdb Hsb
    Hfuel Her HQ; simpl; rewrite Z.gtb_ltb.
  - destruct (Z.ltb_spec 0 size); [lia|]. apply wp_ret, HQ.
    replace size with 0 by lia. rewrite sub_bytes_0, splice_nil.
    eapply is_st_ext; [done|]. intros b Hb. destruct (decide (b = dst)) as [->|].
    + by rewrite fn_lookup_insert.
    + by rewrite fn_lookup_insert_ne.
  - destruct (Z.ltb_spec 0 size).
    2:{ apply wp_ret, HQ. replace size with 0 by lia. rewrite sub_bytes_0, splice_nil.
        eapply is_st_ext; [done|]. intros b Hb. destruct (decide (b = dst)) as [->|].
        - by rewrite fn_lookup_insert.
        - by rewrite fn_lookup_insert_ne. }
    rewrite min_spec. unfold ITS_MAX_BLOCK_DATA_COPY. set (n := Z.min size 256).
    destruct (cw_area cfg Hcfg).
    pose proof (is_st_len _ _ _ _ Hs Hsrc). pose proof (is_st_len _ _ _ _ Hs Hd).
    assert (zlen (sub_bytes sof n (B src)) = n) as Hzn by (apply zlen_sub_bytes; lia).
    apply wp_bind. eapply wp_ops_read; [done|done|lia|lia|lia|].
    apply wp_bind. eapply wp_ops_write; [done|done|done|lia|lia|lia| | |].
    { apply Forall_sub_bytes. by eapply is_st_bytes. }
    { rewrite Hzn. eapply erased_mono; [| | | |done]; lia. }
    intros s' Hs'. rewrite !u32_id by lia.
    eapply (IH _ _ _ _ _ _ Hs'); [done|lia|done|done|lia|lia|lia|lia|lia|lia| |].
    + rewrite fn_lookup_insert. apply erased_splice; [lia|lia|lia|lia|].
      eapply erased_mono; [| | | |done]; lia.
    + intros s'' Hs''. apply HQ. eapply is_st_ext; [done|]. intros b Hb.
      rewrite fn_lookup_insert, (fn_lookup_insert_ne B) by done.
      destruct (decide (b = dst)) as [->|].
      * rewrite !fn_lookup_insert. rewrite <- Hzn at 1.
        rewrite splice_splice_adj by (rewrite ?zlen_sub_bytes; lia).
        f_equal. rewrite <- sub_bytes_split by lia. f_equal. lia.
      * by rewrite !fn_lookup_insert_ne.
Qed.

Lemma wp_move dst dof src sof size Q s c B :
  is_st s c B -> in_flash dst -> P dst <= dof -> in_flash src -> src <> dst ->
  0 <= dof -> 0 <= sof -> 0 <= size -> dof + size <= block_size fc ->
  sof + size <= block_size fc ->
  erased fc dof size (B dst) ->
  (forall s', is_st s' c (<[dst := splice dof (sub_bytes sof size (B src)) (B dst)]> B) ->
              Q tt s') ->
  wp (its_flash_fs_block_to_block_move cfg dst dof src sof size) Q io_error s.
Proof. intros. unfold its_flash_fs_block_to_block_move. eapply wp_move_loop; eauto. Qed.
End view.

(** ** States without a phase *)

Section at_st.
Context {F : Type} `{FlashOps F} (cfg : its_flash_fs_config_t).
Context `{!FlashLaws F (flash_cfg cfg)}.

Abbreviation fc := (flash_cfg cfg).

Definition flash_is (f : F) (B : Z -> list Z) : Prop :=
  fl_ok f /\ forall b, in_flash cfg b -> fl_block f b = B b.

Definition at_st (s : fs_st F) (c : its_flash_fs_ctx_t) (B : Z -> list Z) : Prop :=
  flash_is (st_flash s) B /\ st_ctx s = c.

Lemma flash_is_ext f B B' :
  flash_is f B -> (forall b, in_flash cfg b -> B b = B' b) -> flash_is f B'.
Proof. intros [? Hb] Heq. split; [done|]. intros. by rewrite Hb, Heq. Qed.

Lemma at_st_len s c B b : at_st s c B -> in_flash cfg b -> zlen (B b) = block_size fc.
Proof. intros [[Hok HB] _] Hb. rewrite <- HB by done. by apply fl_len. Qed.

Lemma at_st_bytes s c B b : at_st s c B -> in_flash cfg b -> Forall is_byte (B b).
Proof. intros [[Hok HB] _] Hb. rewrite <- HB by done. by apply fl_bytes. Qed.

(** A phase starts from any state, whatever it is allowed to change. *)
Lemma at_is_st P s c B : at_st s c B -> is_st cfg P B s c B.
Proof. intros [[Hok HB] Hc]. by split_and!. Qed.

Lemma is_at_st P B0 s c B : is_st cfg P B0 s c B -> at_st s c B.
Proof. by intros (? & ? & ? & _). Qed.

(** An error in a phase that changes nothing. *)
Lemma io_error_same strict B e s c s0 :
  at_st s0 c B -> io_error cfg (fun _ => block_size fc) B strict e s ->
  flash_is (st_flash s) B /\ strict = false /\ e <> PSA_SUCCESS.
Proof.
  intros Hs0 (Hst & He & Hok & HB). split; [|done]. split; [done|]. intros b Hb.
  specialize (HB b Hb). unfold kept in HB. pose proof (fl_len _ b Hok Hb) as Hl.
  pose proof (at_st_len _ _ _ b Hs0 Hb) as Hl0.
  rewrite <- Hl in HB at 1. rewrite <- Hl0 in HB. by rewrite !sub_bytes_all in HB.
Qed.
End at_st.
