(* ===== verification/ItsView.v ===== *)
(** * Metadata operations over the view of the state

    Where each piece of metadata lives in a metadata block, and the rule of
    every operation of [its_flash_fs_mblock.c] that reads or writes metadata.
    A rule says which range of the scratch block changes and what is found
    there afterwards. *)

From S2P Require Import Prelude Bytes ItsUtils ItsFlash ItsMeta ItsMblock ItsFs ItsState.
From stdpp Require Import base list numbers functions.
From Stdlib Require Import ZArith Lia.

Open Scope Z_scope.
Open Scope tfm_scope.

Definition header_at (blk : list Z) : its_metadata_block_header_t := header_of (sub_bytes 0 8 blk).
Definition bmeta_at (blk : list Z) (lb : Z) : its_block_meta_t := block_meta_of (sub_bytes (boff lb) 12 blk).
Definition fmeta_at (cfg : its_flash_fs_config_t) (blk : list Z) (i : Z) : its_file_meta_t :=
  file_meta_of (sub_bytes (foff cfg i) 32 blk).

(** XOR of the metadata proper, which the header records. *)
Definition xor_at (cfg : its_flash_fs_config_t) (blk : list Z) : Z :=
  xor_bytes 0 (sub_bytes 8 (meta_end cfg - 8) blk).

(** [X'] differs from [X] at most in the [n] bytes from [o]. *)
Definition changed_in (o n : Z) (X X' : list Z) : Prop :=
  zlen X' = zlen X /\
  forall o' n', 0 <= o' -> 0 <= n' -> o' + n' <= o \/ o + n <= o' ->
    sub_bytes o' n' X' = sub_bytes o' n' X.

(** [B'] differs from [B] at most in the [n] bytes from [o] of block [b]. *)
Definition only (b o n : Z) (B B' : Z -> list Z) : Prop :=
  (forall b', b' <> b -> B' b' = B b') /\ changed_in o n (B b) (B' b).

Lemma changed_in_refl o n X : changed_in o n X X.
Proof. done. Qed.

Lemma changed_in_splice o d X :
  0 <= o -> o + zlen d <= zlen X -> changed_in o (zlen d) X (splice o d X).
Proof.
  intros. split; [by apply zlen_splice|]. intros. apply sub_bytes_splice_disj; lia.
Qed.

Lemma changed_in_trans o n o1 n1 o2 n2 X Y Z' :
  changed_in o1 n1 X Y -> changed_in o2 n2 Y Z' ->
  o <= o1 -> o1 + n1 <= o + n -> o <= o2 -> o2 + n2 <= o + n ->
  changed_in o n X Z'.
Proof.
  intros [L1 H1] [L2 H2] ? ? ? ?. split; [lia|]. intros. rewrite H2, H1; auto; lia.
Qed.

Lemma changed_in_erased fc o n X X' o' n' :
  changed_in o n X X' -> 0 <= o' -> 0 <= n' -> o' + n' <= o \/ o + n <= o' ->
  erased fc o' n' X -> erased fc o' n' X'.
Proof. unfold erased. intros [_ H] ? ? ? <-. by apply H. Qed.

Lemma changed_in_fmeta cfg o n X X' i :
  cfg_wf cfg -> changed_in o n X X' -> 0 <= i < max_num_files cfg ->
  foff cfg i + 32 <= o \/ o + n <= foff cfg i -> fmeta_at cfg X' i = fmeta_at cfg X i.
Proof. intros ? [_ H] ? ?. unfold fmeta_at. rewrite H; [done|cfg_lia|lia|lia]. Qed.

Lemma changed_in_bmeta o n X X' lb :
  changed_in o n X X' -> 0 <= lb ->
  boff lb + 12 <= o \/ o + n <= boff lb -> bmeta_at X' lb = bmeta_at X lb.
Proof. intros [_ H] ? ?. unfold bmeta_at. rewrite H; [done|unfold boff; lia|lia|lia]. Qed.

Lemma only_other b o n B B' b' : only b o n B B' -> b' <> b -> B' b' = B b'.
Proof. intros [H _]. apply H. Qed.

Lemma only_trans b o n o1 n1 o2 n2 B B1 B2 :
  only b o1 n1 B B1 -> only b o2 n2 B1 B2 ->
  o <= o1 -> o1 + n1 <= o + n -> o <= o2 -> o2 + n2 <= o + n ->
  only b o n B B2.
Proof.
  intros [O1 C1] [O2 C2] ? ? ? ?. split.
  - intros b' Hb'. by rewrite O2, O1.
  - by eapply changed_in_trans.
Qed.

Lemma only_weaken b o n o' n' B B' :
  only b o n B B' -> o' <= o -> o + n <= o' + n' -> only b o' n' B B'.
Proof. intros [Ho [Hl Hc]] ? ?. split; [done|]. split; [done|]. intros. apply Hc; lia. Qed.

Lemma only_splice b o d B :
  0 <= o -> o + zlen d <= zlen (B b) -> only b o (zlen d) B (<[b := splice o d (B b)]> B).
Proof.
  intros. split.
  - intros b' Hb'. by apply fn_lookup_insert_ne.
  - rewrite fn_lookup_insert. by apply changed_in_splice.
Qed.

(** The active and the scratch metadata block are blocks 0 and 1. *)
Definition ctx_ok (c : its_flash_fs_ctx_t) : Prop :=
  (active_metablock c = 0 /\ scratch_metablock c = 1) \/
  (active_metablock c = 1 /\ scratch_metablock c = 0).

Section ops.
Context {F : Type} `{FlashOps F} (cfg : its_flash_fs_config_t).
Context `{!FlashLaws F (flash_cfg cfg)}.
Context (Hcfg : cfg_wf cfg).
Context (P : Z -> Z) (B0 : Z -> list Z).
Context (strict : bool) (Hstrict : strict = true -> FlashTotal F (flash_cfg cfg)).

Abbreviation fc := (flash_cfg cfg).
Abbreviation is_st := (is_st cfg P B0).
Abbreviation io_error := (io_error cfg P B0 strict).
Abbreviation act c := (active_metablock c).
Abbreviation scr c := (scratch_metablock c).

Lemma act_in_flash c : ctx_ok c -> in_flash cfg (act c) /\ in_flash cfg (scr c) /\ act c <> scr c.
Proof. unfold ctx_ok, in_flash. intros. cfg_facts. lia. Qed.

Lemma io_recode e e' s : io_error e s -> e' <> PSA_SUCCESS -> io_error e' s.
Proof. intros (? & _ & ? & ?) ?. by split_and!. Qed.

(** Reporting an I/O error under another code. *)
Lemma wp_or_io {A} (m : M (fs_st F) A) e Q s :
  e <> PSA_SUCCESS -> wp m Q io_error s -> wp (or_return m e) Q io_error s.
Proof.
  intros He Hm. apply wp_or_return. eapply wp_mono; [exact Hm|done|].
  intros ? ? (? & _ & ? & ?). by split_and!.
Qed.

(** *** Reading *)

Lemma wp_read_file_meta i Q s c B :
  is_st s c B -> ctx_ok c -> 0 <= i < max_num_files cfg ->
  its_mblock_validate_file_meta cfg (fmeta_at cfg (B (act c)) i) = PSA_SUCCESS ->
  Q (fmeta_at cfg (B (act c)) i) s ->
  wp (its_flash_fs_mblock_read_file_meta cfg i) Q io_error s.
Proof.
  intros Hs Hc Hi Hv HQ. destruct (act_in_flash c Hc) as (Ha & _ & _).
  unfold its_flash_fs_mblock_read_file_meta. apply wp_bind. eapply wp_ctx; [done|].
  rewrite file_off_spec by (auto; lia). apply wp_bind.
  eapply wp_ops_read; [done|done|done|cfg_lia|done| |].
  { unfold ITS_FILE_METADATA_SIZE. cfg_lia. }
  apply wp_bind. apply wp_of_status; [|done]. intros _. by apply wp_ret.
Qed.

Lemma wp_read_block_meta lb Q s c B :
  is_st s c B -> ctx_ok c -> 0 <= lb < nact cfg ->
  its_mblock_validate_block_meta cfg (bmeta_at (B (act c)) lb) = PSA_SUCCESS ->
  Q (bmeta_at (B (act c)) lb) s ->
  wp (its_flash_fs_mblock_read_block_metadata cfg lb) Q io_error s.
Proof.
  intros Hs Hc Hi Hv HQ. destruct (act_in_flash c Hc) as (Ha & _ & _).
  unfold its_flash_fs_mblock_read_block_metadata. apply wp_bind. eapply wp_ctx; [done|].
  rewrite (block_off_spec cfg) by (auto; lia). apply wp_bind.
  eapply wp_ops_read; [done|done|done|cfg_lia|done| |].
  { unfold ITS_BLOCK_METADATA_SIZE. cfg_lia. }
  apply wp_bind. apply wp_of_status; [|done]. intros _. by apply wp_ret.
Qed.

(** *** Writing entries of the scratch metadata block *)

Lemma wp_write_scratch d off Q s c B :
  is_st s c B -> ctx_ok c -> P (scr c) <= off -> 0 <= off -> 0 < zlen d ->
  off + zlen d <= block_size fc -> Forall is_byte d ->
  erased fc off (zlen d) (B (scr c)) ->
  (forall s' B', is_st s' c B' -> only (scr c) off (zlen d) B B' ->
     sub_bytes off (zlen d) (B' (scr c)) = d -> Q tt s') ->
  wp (ops_write cfg (scr c) d off) Q io_error s.
Proof.
  intros Hs Hc HW Ho Hn Hsz Hd He HQ. destruct (act_in_flash c Hc) as (_ & Hb & _).
  pose proof (is_st_len _ _ _ _ _ _ _ Hs Hb) as Hl.
  eapply wp_ops_write; [done|done|done|done|done|done|done|done|done|].
  intros s' Hs'. eapply HQ; [done| |].
  - apply only_splice; lia.
  - rewrite fn_lookup_insert. apply sub_bytes_splice_eq; lia.
Qed.

Lemma wp_update_file_meta i m Q s c B :
  is_st s c B -> ctx_ok c -> P (scr c) <= 8 -> 0 <= i < max_num_files cfg -> file_meta_wf m ->
  erased fc (foff cfg i) 32 (B (scr c)) ->
  (forall s' B', is_st s' c B' -> only (scr c) (foff cfg i) 32 B B' ->
     fmeta_at cfg (B' (scr c)) i = m -> Q tt s') ->
  wp (its_flash_fs_mblock_update_scratch_file_meta cfg i m) Q io_error s.
Proof.
  intros Hs Hc HW Hi Hm He HQ.
  unfold its_flash_fs_mblock_update_scratch_file_meta. apply wp_bind. eapply wp_ctx; [done|].
  rewrite file_off_spec by (auto; lia).
  pose proof (zlen_file_meta_bytes m Hm) as Hz. unfold ITS_FILE_METADATA_SIZE in Hz.
  apply (wp_write_scratch (file_meta_bytes m) (foff cfg i) Q s c B); rewrite ?Hz;
    auto with bytes; [cfg_lia|cfg_lia|lia|cfg_lia|].
  intros s' B' Hs' Ho Hr. eapply HQ; [done|done|].
  unfold fmeta_at. rewrite Hr. by apply file_meta_of_bytes.
Qed.

Lemma wp_update_block_meta lb m Q s c B :
  is_st s c B -> ctx_ok c -> P (scr c) <= 8 -> 0 <= lb < nact cfg -> block_meta_wf m ->
  erased fc (boff lb) 12 (B (scr c)) ->
  (forall s' B', is_st s' c B' -> only (scr c) (boff lb) 12 B B' ->
     bmeta_at (B' (scr c)) lb = m -> Q tt s') ->
  wp (its_mblock_update_scratch_block_meta cfg lb m) Q io_error s.
Proof.
  intros Hs Hc HW Hi Hm He HQ.
  unfold its_mblock_update_scratch_block_meta. apply wp_bind. eapply wp_ctx; [done|].
  rewrite (block_off_spec cfg) by (auto; lia).
  pose proof (zlen_block_meta_bytes m) as Hz. unfold ITS_BLOCK_METADATA_SIZE in Hz.
  apply (wp_write_scratch (block_meta_bytes m) (boff lb) Q s c B); rewrite ?Hz;
    auto with bytes; [cfg_lia|cfg_lia|lia|cfg_lia|].
  intros s' B' Hs' Ho Hr. eapply HQ; [done|done|].
  unfold bmeta_at. rewrite Hr. by apply block_meta_of_bytes.
Qed.

(** A range copied from block [src] to a scratch block. *)
Lemma wp_copy dst src off n Q s c B :
  is_st s c B -> in_flash cfg dst -> P dst <= off -> in_flash cfg src -> src <> dst ->
  0 <= off -> 0 <= n -> off + n <= block_size fc -> erased fc off n (B dst) ->
  (forall s' B', is_st s' c B' -> only dst off n B B' ->
     sub_bytes off n (B' dst) = sub_bytes off n (B src) -> Q tt s') ->
  wp (its_flash_fs_block_to_block_move cfg dst off src off n) Q io_error s.
Proof.
  intros Hs Hd HWd Hsrc Hne Ho Hn Hsz He HQ.
  pose proof (is_st_len _ _ _ _ _ _ _ Hs Hd) as Hld.
  pose proof (is_st_len _ _ _ _ _ _ _ Hs Hsrc) as Hls.
  pose proof (zlen_sub_bytes off n (B src) Ho Hn ltac:(lia)) as Hz.
  eapply wp_move; [done|done|done|done|done|done|done|done|done|done|done|done|done|].
  intros s' Hs'. eapply HQ; [done| |].
  - rewrite <- Hz at 1. apply only_splice; lia.
  - rewrite fn_lookup_insert. apply sub_bytes_splice_eq; lia.
Qed.

(** [cp_file_meta a b]: the entries [a <= i < b] of the active block. *)
Lemma wp_cp_file_meta a b Q s c B :
  is_st s c B -> ctx_ok c -> P (scr c) <= 8 -> 0 <= a <= b -> b <= max_num_files cfg ->
  erased fc (foff cfg a) (foff cfg b - foff cfg a) (B (scr c)) ->
  (forall s' B', is_st s' c B' -> only (scr c) (foff cfg a) (foff cfg b - foff cfg a) B B' ->
     (forall i, a <= i < b -> fmeta_at cfg (B' (scr c)) i = fmeta_at cfg (B (act c)) i) ->
     Q tt s') ->
  wp (its_flash_fs_mblock_cp_file_meta cfg a b) Q io_error s.
Proof.
  intros Hs Hc HW Hab Hb He HQ. destruct (act_in_flash c Hc) as (Ha & Hsc & Hne).
  unfold its_flash_fs_mblock_cp_file_meta. apply wp_bind. eapply wp_ctx; [done|].
  rewrite !file_off_spec by (auto; lia).
  assert (0 <= foff cfg b - foff cfg a < 4294967296) by cfg_lia. rewrite u32_id by lia.
  eapply (wp_copy (scr c) (act c)); eauto; try cfg_lia.
  intros s' B' Hs' Ho Hr. eapply HQ; [done|done|]. intros i Hi. unfold fmeta_at. f_equal.
  pose proof (sub_bytes_sub_bytes (32 * (i - a)) 32 (foff cfg a) (foff cfg b - foff cfg a)) as Hss.
  replace (foff cfg i) with (foff cfg a + 32 * (i - a)) by (unfold foff; lia).
  rewrite <- !Hss by cfg_lia. by rewrite Hr.
Qed.

(** The block metadata entries [a <= j < b] of the active block. *)
Lemma wp_copy_bmetas a b Q s c B :
  is_st s c B -> ctx_ok c -> P (scr c) <= 8 -> 0 <= a <= b -> b <= nact cfg ->
  erased fc (boff a) (boff b - boff a) (B (scr c)) ->
  (forall s' B', is_st s' c B' -> only (scr c) (boff a) (boff b - boff a) B B' ->
     (forall j, a <= j < b -> bmeta_at (B' (scr c)) j = bmeta_at (B (act c)) j) -> Q tt s') ->
  wp (its_flash_fs_block_to_block_move cfg (scr c) (boff a) (act c) (boff a)
        (u32 (boff b - boff a))) Q io_error s.
Proof.
  intros Hs Hc HW Hab Hb He HQ. destruct (act_in_flash c Hc) as (Ha & Hsc & Hne).
  rewrite u32_id by cfg_lia.
  eapply (wp_copy (scr c) (act c)); eauto; try cfg_lia.
  intros s' B' Hs' Ho Hr. eapply HQ; [done|done|]. intros j Hj. unfold bmeta_at. f_equal.
  pose proof (sub_bytes_sub_bytes (12 * (j - a)) 12 (boff a) (boff b - boff a)) as Hss.
  replace (boff j) with (boff a + 12 * (j - a)) by (unfold boff; lia).
  rewrite <- !Hss by cfg_lia. by rewrite Hr.
Qed.

(** The block metadata of the next version: [m] for block [lb], the entries
    of the active block for the others, and the scratch metadata block as
    the place of logical block 0. *)
Definition next_bmeta (c : its_flash_fs_ctx_t) (A : list Z) (lb : Z) (m : its_block_meta_t)
    (j : Z) : its_block_meta_t :=
  let n := if decide (j = lb) then m else bmeta_at A j in
  if decide (j = 0) then BlockMeta (scr c) (data_start n) (free_size n) else n.

(** Entries written in the second half of an update leave the others alone. *)
Lemma only_bmeta b lb o n B B' j :
  only b o n B B' -> 0 <= j -> boff j + 12 <= o \/ o + n <= boff j -> lb = bmeta_at (B b) j ->
  bmeta_at (B' b) j = lb.
Proof. intros [_ Hc] Hj Hd ->. by eapply changed_in_bmeta. Qed.

Lemma only_erased b o n B B' o' n' :
  only b o n B B' -> erased fc o' n' (B b) -> 0 <= o' -> 0 <= n' ->
  o' + n' <= o \/ o + n <= o' -> erased fc o' n' (B' b).
Proof. intros [_ Hc] He Ho Hn Hd. by eapply changed_in_erased. Qed.

Lemma erased_sub o n o' n' X :
  erased fc o n X -> 0 <= o -> o <= o' -> 0 <= n' -> o' + n' <= o + n -> erased fc o' n' X.
Proof. intros. by apply (erased_mono fc o n). Qed.

Lemma bmeta_at_wf s c B b lb :
  is_st s c B -> in_flash cfg b -> 0 <= lb < nact cfg -> block_meta_wf (bmeta_at (B b) lb).
Proof.
  intros Hs Hb Hlb. pose proof (is_st_len _ _ _ _ _ _ _ Hs Hb).
  apply block_meta_of_wf; [apply Forall_sub_bytes; by eapply is_st_bytes|].
  unfold ITS_BLOCK_METADATA_SIZE. apply zlen_sub_bytes; cfg_lia.
Qed.

Lemma fmeta_at_wf s c B b i :
  is_st s c B -> in_flash cfg b -> 0 <= i < max_num_files cfg ->
  file_meta_wf (fmeta_at cfg (B b) i).
Proof.
  intros Hs Hb Hi. pose proof (is_st_len _ _ _ _ _ _ _ Hs Hb).
  apply file_meta_of_wf; [apply Forall_sub_bytes; by eapply is_st_bytes|].
  unfold ITS_FILE_METADATA_SIZE. apply zlen_sub_bytes; cfg_lia.
Qed.

Lemma scr_wf c m : ctx_ok c -> block_meta_wf m ->
  block_meta_wf (BlockMeta (scr c) (data_start m) (free_size m)).
Proof. intros Hc [? ? ?]. split; simpl; [|done|done]. unfold ctx_ok, is_u32 in *. lia. Qed.

Lemma wp_install_block_meta lb m Q s c B :
  is_st s c B -> ctx_ok c -> P (scr c) <= 8 -> 0 <= lb < nact cfg -> block_meta_wf m ->
  its_mblock_validate_block_meta cfg (bmeta_at (B (act c)) 0) = PSA_SUCCESS ->
  erased fc 8 (12 * nact cfg) (B (scr c)) ->
  (forall s' B', is_st s' c B' -> only (scr c) 8 (12 * nact cfg) B B' ->
     (forall j, 0 <= j < nact cfg ->
        bmeta_at (B' (scr c)) j = next_bmeta c (B (act c)) lb m j) -> Q tt s') ->
  wp (its_flash_fs_mblock_update_scratch_block_meta cfg lb m) Q io_error s.
Proof.
  intros Hs Hc HW Hlb Hm Hv He HQ. destruct (act_in_flash c Hc) as (Ha & Hsc & Hne).
  unfold its_flash_fs_mblock_update_scratch_block_meta.
  apply wp_bind. eapply wp_ctx; [done|]. set (m' := if lb =? _ then _ else m).
  assert (m' = next_bmeta c (B (act c)) lb m lb) as Hm'.
  { unfold m', next_bmeta, ITS_LOGICAL_DBLOCK0. 
    destruct (decide (lb = lb)); [|done].
    destruct (Z.eqb_spec lb 0), (decide (lb = 0)); done. }
  assert (block_meta_wf m') as Hwf by (unfold m'; destruct (lb =? _); auto using scr_wf).
  apply wp_bind, wp_or_io; [done|].
  eapply wp_update_block_meta; eauto; [eapply erased_sub; eauto; cfg_lia|].
  intros s1 B1 Hs1 Ho1 Hb1. unfold its_mblock_copy_remaining_block_meta.
  apply wp_bind. eapply wp_ctx; [done|]. apply wp_bind.
  assert (B1 (act c) = B (act c)) as HA1 by (by eapply only_other).
  eapply (wp_mono _ (fun _ s3 => exists B3, is_st s3 c B3 /\
    only (scr c) 8 (12 * (lb + 1)) B B3 /\
    forall j, 0 <= j <= lb -> bmeta_at (B3 (scr c)) j = next_bmeta c (B (act c)) lb m j));
    [|intros ? s3 (B3 & Hs3 & Ho3 & Hb3)|intros ? ? HX; exact HX].
  - unfold ITS_LOGICAL_DBLOCK0. destruct (Z.eqb_spec lb 0) as [->|Hlb0]; simpl.
    { apply wp_ret. exists B1. split_and!; [done|done|].
      intros j Hj. replace j with 0 by lia. by rewrite Hb1. }
    apply wp_bind, wp_or_io; [done|].
    eapply wp_read_block_meta; eauto; [lia|by rewrite HA1|]. rewrite HA1.
    apply wp_bind, wp_or_io; [done|].
    eapply (wp_update_block_meta 0); eauto; [lia| | |].
    { apply scr_wf; [done|]. eapply bmeta_at_wf; eauto. lia. }
    { eapply only_erased; eauto; [eapply erased_sub; eauto|..]; cfg_lia. }
    intros s2 B2 Hs2 Ho2 Hb2.
    assert (bmeta_at (B2 (scr c)) lb = m') as Hb2'
      by (eapply only_bmeta; [exact Ho2|lia|unfold boff; lia|congruence]).
    assert (only (scr c) 8 (12 * (lb + 1)) B B2) as Ho12.
    { eapply only_trans; [exact Ho1|exact Ho2|..]; unfold boff; lia. }
    assert (bmeta_at (B2 (scr c)) 0 = next_bmeta c (B (act c)) lb m 0) as Hb20.
    { unfold next_bmeta. destruct (decide (0 = lb)); [lia|]. by rewrite decide_True. }
    rewrite Z.gtb_ltb. destruct (Z.ltb_spec 1 lb).
    + rewrite !(block_off_spec cfg) by (auto; lia). change (0 + 1) with 1.
      eapply wp_copy_bmetas; eauto; [lia|lia| |].
      { eapply only_erased; [exact Ho2| |..]; [|cfg_lia..].
        eapply only_erased; [exact Ho1| |..]; [|cfg_lia..].
        eapply erased_sub; eauto; cfg_lia. }
      intros s3 B3 Hs3 Ho3 Hb3. exists B3.
      assert (B2 (act c) = B (act c)) as HA2 by (rewrite (only_other _ _ _ _ _ _ Ho12); done).
      split_and!; [done| |].
      { eapply only_trans; [exact Ho12|exact Ho3|..]; unfold boff; lia. }
      intros j Hj. destruct (decide (j = lb)) as [->|]; [|destruct (decide (j = 0)) as [->|]].
      * eapply only_bmeta; [exact Ho3|lia|unfold boff; lia|congruence].
      * eapply only_bmeta; [exact Ho3|lia|unfold boff; lia|congruence].
      * rewrite Hb3, HA2 by lia. unfold next_bmeta.
        destruct (decide (j = lb)), (decide (j = 0)); done.
    + apply wp_ret. exists B2. split_and!; [done|done|].
      intros j Hj. assert (j = 0 \/ j = lb) as [->| ->] by lia; congruence.
  - assert (B3 (act c) = B (act c)) as HA3 by (rewrite (only_other _ _ _ _ _ _ Ho3); done).
    rewrite (u32_id (lb + 1)) by cfg_lia.
    rewrite (block_off_spec cfg), file_off_spec by (auto; cfg_lia).
    replace (foff cfg 0) with (boff (nact cfg)) by (unfold foff, boff; lia).
    eapply wp_copy_bmetas; eauto; [lia|lia| |].
    { eapply only_erased; [exact Ho3| |..]; [|cfg_lia..]. eapply erased_sub; eauto; cfg_lia. }
    intros s4 B4 Hs4 Ho4 Hb4. eapply HQ; [done| |].
    + eapply only_trans; [exact Ho3|exact Ho4|..]; unfold boff; lia.
    + intros j Hj. destruct (decide (j <= lb)).
      * eapply only_bmeta; [exact Ho4|lia|unfold boff; lia|]. by rewrite Hb3 by lia.
      * rewrite Hb4, HA3 by lia. unfold next_bmeta.
        destruct (decide (j = lb)), (decide (j = 0)); done || lia.
Qed.
End ops.
