(* ===== verification/ItsCommit.v ===== *)
(** * Committing an update and finding the committed version

    The last step of every update writes the header of the scratch metadata
    block, and the first step after a reset picks the metadata block whose
    header is valid and most recent.  Both read the whole metadata to compute
    its XOR. *)

From S2P Require Import Prelude Bytes ItsUtils ItsFlash ItsMeta ItsMblock ItsFs ItsState ItsView.
From stdpp Require Import base list numbers functions.
From Stdlib Require Import ZArith Lia.

Open Scope Z_scope.
Open Scope tfm_scope.

(** The swap count of the next version. *)
Definition next_swap (ev c : Z) : Z :=
  let n := u8 (c + 1) in if n =? ev then u8 (n + 1) else n.

(** The header of the next version over metadata with XOR [x]. *)
Definition next_header (ev x : Z) (h : its_metadata_block_header_t) : its_metadata_block_header_t :=
  Header (scratch_dblock h) (fs_version h) x (next_swap ev (active_swap_count h)) (header_pad h).

(** The flash leaves [erase_val] in every erased byte; the file system relies
    on it not being a version number. *)
Definition ev_ok (fc : its_flash_config_t) : Prop := erase_val fc = 0 \/ erase_val fc = 255.

(** A metadata block with a header that [its_mblock_validate_header_meta]
    accepts. *)
Definition header_valid (cfg : its_flash_fs_config_t) (blk : list Z) : bool :=
  let h := header_at blk in
  let ev := erase_val (flash_cfg cfg) in
  if fs_version h =? ITS_BACKWARD_SUPPORTED_VERSION then negb (metadata_xor h =? ev)
  else if fs_version h =? ITS_SUPPORTED_VERSION then
    negb (active_swap_count h =? ev) && (xor_at cfg blk =? metadata_xor h)
  else false.

(** The metadata block [its_init_get_active_metablock] selects. *)
Definition mount (cfg : its_flash_fs_config_t) (B : Z -> list Z) : option Z :=
  match header_valid cfg (B 0), header_valid cfg (B 1) with
  | true, true => Some (its_mblock_latest_meta_block cfg (header_at (B 0)) (header_at (B 1)))
  | true, false => Some 0
  | false, true => Some 1
  | false, false => None
  end.

(** ** XOR bytes *)

Lemma xor_bytes_app x l k : xor_bytes x (l ++ k) = xor_bytes (xor_bytes x l) k.
Proof. apply fold_left_app. Qed.

Lemma lxor_byte a b : is_byte a -> is_byte b -> is_byte (Z.lxor a b).
Proof.
  unfold is_byte. intros Ha Hb.
  assert (0 <= Z.lxor a b) by (apply Z.lxor_nonneg; lia). split; [done|].
  destruct (Z.eq_dec (Z.lxor a b) 0) as [->|]; [lia|].
  apply (Z.log2_lt_pow2 _ 8); [lia|].
  pose proof (Z.log2_lxor a b ltac:(lia) ltac:(lia)).
  assert (Z.log2 a < 8) by (destruct (Z.eq_dec a 0) as [->|]; [done|apply Z.log2_lt_pow2; lia]).
  assert (Z.log2 b < 8) by (destruct (Z.eq_dec b 0) as [->|]; [done|apply Z.log2_lt_pow2; lia]).
  lia.
Qed.

Lemma xor_bytes_byte l x : Forall is_byte l -> is_byte x -> is_byte (xor_bytes x l).
Proof. intros Hl. revert x. induction Hl; simpl; auto using lxor_byte. Qed.

Lemma u8_byte x : is_byte (u8 x).
Proof. apply u8_range. Qed.

Lemma next_swap_byte ev c : is_byte (next_swap ev c).
Proof. unfold next_swap. destruct (_ =? _); apply u8_byte. Qed.

Lemma next_swap_ne ev c : is_byte ev -> next_swap ev c <> ev.
Proof.
  unfold next_swap. intros Hev. destruct (Z.eqb_spec (u8 (c + 1)) ev) as [->|]; [|done].
  unfold u8, is_byte in *. intros H.
  destruct (Z.eq_dec ev 255) as [->|]; [done|].
  rewrite Z.mod_small in H by lia. lia.
Qed.

(** *** The most recent header *)

(** The selection only looks at the swap counts and the erase value. *)
Definition latest_by_count (ev c0 c1 : Z) : Z :=
  its_mblock_latest_meta_block
    (FsConfig (FlashConfig 0 0 0 0 ev) 0 0) (Header 0 0 0 c0 0) (Header 0 0 0 c1 0).

Lemma latest_counts cfg h0 h1 :
  its_mblock_latest_meta_block cfg h0 h1 =
  latest_by_count (erase_val (flash_cfg cfg)) (active_swap_count h0) (active_swap_count h1).
Proof. reflexivity. Qed.

Definition latest_next_ok (ev c : Z) : bool :=
  (c =? ev) || ((latest_by_count ev c (next_swap ev c) =? 1)
                && (latest_by_count ev (next_swap ev c) c =? 0)).

Lemma latest_next_check :
  forallb (latest_next_ok 0) (seqZ 0 256) && forallb (latest_next_ok 255) (seqZ 0 256) = true.
Proof. vm_compute. reflexivity. Qed.

Lemma latest_next fc c :
  ev_ok fc -> is_byte c -> c <> erase_val fc -> latest_next_ok (erase_val fc) c = true.
Proof.
  intros Hev Hc Hne. pose proof latest_next_check as Hch. rewrite andb_true_iff in Hch.
  destruct Hch as [H0 H255]. rewrite !forallb_forall in *.
  assert (In c (seqZ 0 256)) as Hin
    by (apply list_elem_of_In, elem_of_seqZ; unfold is_byte in Hc; lia).
  destruct Hev as [->| ->]; auto.
Qed.

(** Of two headers the one written by an update on top of the other wins,
    whichever block it is in and across the roll-over of the count. *)
Lemma latest_is_next cfg h h' :
  ev_ok (flash_cfg cfg) -> is_byte (active_swap_count h) ->
  active_swap_count h <> erase_val (flash_cfg cfg) ->
  active_swap_count h' = next_swap (erase_val (flash_cfg cfg)) (active_swap_count h) ->
  its_mblock_latest_meta_block cfg h h' = 1 /\ its_mblock_latest_meta_block cfg h' h = 0.
Proof.
  intros Hev Hb Hne Hn. pose proof (latest_next _ _ Hev Hb Hne) as Hl.
  rewrite !latest_counts, Hn. unfold latest_next_ok in Hl.
  rewrite orb_true_iff, andb_true_iff, !Z.eqb_eq in Hl. tauto.
Qed.

(** *** A header cut short *)

Lemma torn_field o n k l v :
  0 <= o -> 0 < n -> o + n <= 8 -> 0 <= k <= 8 -> zlen l = 8 ->
  (o + n <= k -> sub_bytes o n (sub_bytes 0 k l ++ fill (8 - k) v) = sub_bytes o n l) /\
  (k <= o -> sub_bytes o n (sub_bytes 0 k l ++ fill (8 - k) v) = fill n v).
Proof.
  intros Ho Hn Hon Hk Hl. assert (zlen (sub_bytes 0 k l) = k) as Hz by (apply zlen_sub_bytes; lia).
  split; intros.
  - rewrite sub_bytes_app_l by lia. rewrite sub_bytes_sub_bytes by lia. by rewrite Z.add_0_l.
  - rewrite sub_bytes_app_r by lia. apply sub_bytes_fill; lia.
Qed.

Lemma header_fields h : header_wf h ->
  le_val (sub_bytes 0 4 (header_bytes h)) = scratch_dblock h /\
  le_val (sub_bytes 4 1 (header_bytes h)) = fs_version h /\
  le_val (sub_bytes 5 1 (header_bytes h)) = metadata_xor h /\
  le_val (sub_bytes 6 1 (header_bytes h)) = active_swap_count h.
Proof.
  intros Hh. pose proof (header_of_bytes h Hh) as Hrt. unfold header_of in Hrt.
  split_and!;
    [by apply (f_equal scratch_dblock) in Hrt|by apply (f_equal fs_version) in Hrt
    |by apply (f_equal metadata_xor) in Hrt|by apply (f_equal active_swap_count) in Hrt].
Qed.

(** A header of which the first [k] bytes were programmed over erased bytes
    is rejected until its swap count is there, and then it is complete up to
    the padding. *)
Lemma torn_header cfg h blk k :
  ev_ok (flash_cfg cfg) -> header_wf h -> fs_version h = ITS_SUPPORTED_VERSION ->
  active_swap_count h <> erase_val (flash_cfg cfg) -> xor_at cfg blk = metadata_xor h ->
  meta_end cfg <= zlen blk -> 8 <= meta_end cfg ->
  erased (flash_cfg cfg) 0 8 blk -> 0 <= k <= 8 ->
  let X := splice 0 (sub_bytes 0 k (header_bytes h)) blk in
  (k <= 6 -> header_valid cfg X = false) /\
  (7 <= k -> header_valid cfg X = true /\
             scratch_dblock (header_at X) = scratch_dblock h /\
             active_swap_count (header_at X) = active_swap_count h /\
             fs_version (header_at X) = fs_version h).
Proof.
  intros Hev Hwf Hver Hsw Hx Hme Hme8 He Hk X. set (ev := erase_val (flash_cfg cfg)) in *.
  assert (zlen (header_bytes h) = 8) as Hlh by apply zlen_header_bytes.
  assert (zlen (sub_bytes 0 k (header_bytes h)) = k) as Hz by (apply zlen_sub_bytes; lia).
  assert (xor_at cfg X = metadata_xor h) as HxX.
  { rewrite <- Hx. unfold xor_at, X. f_equal. apply sub_bytes_splice_disj; lia. }
  assert (sub_bytes 0 8 X = sub_bytes 0 k (header_bytes h) ++ fill (8 - k) ev) as H8.
  { replace 8 with (k + (8 - k)) at 1 by lia. rewrite sub_bytes_split by lia. f_equal.
    - unfold X. apply sub_bytes_splice_eq; lia.
    - unfold X. rewrite sub_bytes_splice_disj by lia.
      eapply (erased_mono _ 0 8) in He; [exact He|lia..]. }
  destruct (header_fields h Hwf) as (E0 & E4 & E5 & E6).
  assert (forall n, le_val (fill 1 n) = n) as Hf by (intros; simpl; lia).
  destruct (torn_field 0 4 k (header_bytes h) ev) as [T0 _]; [lia..|].
  destruct (torn_field 4 1 k (header_bytes h) ev) as [T4 U4]; [lia..|].
  destruct (torn_field 5 1 k (header_bytes h) ev) as [T5 U5]; [lia..|].
  destruct (torn_field 6 1 k (header_bytes h) ev) as [T6 U6]; [lia..|].
  unfold header_valid, header_at. rewrite HxX, H8. clear H8 HxX. fold ev.
  unfold header_of. cbn [fs_version metadata_xor active_swap_count scratch_dblock].
  split; intros Hk'.
  - destruct (decide (k <= 4)).
    + rewrite U4, Hf by lia. destruct Hev as [Hv|Hv]; fold ev in Hv; by rewrite Hv.
    + rewrite T4, E4, Hver by lia. simpl. rewrite U6, Hf by lia. by rewrite Z.eqb_refl.
  - rewrite T4, T5, T6, T0, E0, E4, E5, E6, Hver by lia. split_and!; try done. simpl.
    rewrite Z.eqb_refl. by destruct (Z.eqb_spec (active_swap_count h) ev).
Qed.

Section commit.
Context {F : Type} `{FlashOps F} (cfg : its_flash_fs_config_t).
Context `{!FlashLaws F (flash_cfg cfg)}.
Context (Hcfg : cfg_wf cfg).
Context (P : Z -> Z) (B0 : Z -> list Z).
Context (strict : bool) (Hstrict : strict = true -> FlashTotal F (flash_cfg cfg)).

Abbreviation fc := (flash_cfg cfg).
Abbreviation is_st := (is_st cfg P B0).
Abbreviation io_error := (io_error cfg P B0 strict).
Abbreviation act c := (active_metablock c).
Abbreviation scr c := (scratch_metablock c).

Lemma wp_xor_entries b off base size n i x Q s c B :
  is_st s c B -> in_flash cfg b -> 0 < size -> 0 <= base -> 0 <= i ->
  (forall j, i <= j < i + Z.of_nat n -> off j = base + size * j) ->
  base + size * (i + Z.of_nat n) <= block_size fc ->
  Q (xor_bytes x (sub_bytes (base + size * i) (size * Z.of_nat n) (B b))) s ->
  wp (xor_entries cfg b off size n i x) Q io_error s.
Proof.
  intros Hs Hb Hsz Hbase. revert i x.
  induction n as [|n IH]; intros i x Hi Hoff Hlen HQ; cbn [xor_entries].
  - apply wp_ret. rewrite Z.mul_0_r, sub_bytes_0 in HQ. exact HQ.
  - rewrite Hoff by lia. apply wp_bind.
    eapply wp_ops_read; [done|done|done|nia|lia|nia|]. apply IH; [lia|..].
    + intros. apply Hoff. lia.
    + lia.
    + rewrite <- xor_bytes_app.
      replace (base + size * (i + 1)) with (base + size * i + size) by lia.
      rewrite <- sub_bytes_split by nia.
      replace (size + size * Z.of_nat n) with (size * Z.of_nat (S n)) by lia. exact HQ.
Qed.

Lemma wp_metadata_xor b Q s c B :
  is_st s c B -> b = 0 \/ b = 1 -> Q (xor_at cfg (B b)) s ->
  wp (its_mblock_calculate_metadata_xor cfg b) Q io_error s.
Proof.
  intros Hs Hb HQ. unfold its_mblock_calculate_metadata_xor.
  assert (in_flash cfg b) by (unfold in_flash; cfg_lia).
  replace (negb (b =? ITS_METADATA_BLOCK0) && negb (b =? ITS_METADATA_BLOCK1)) with false
    by (destruct Hb as [->| ->]; done).
  rewrite num_active_spec by done. apply wp_bind.
  eapply (wp_xor_entries _ _ 8); [done|done|done|lia|lia| | |].
  { intros. rewrite (block_off_spec cfg) by (auto; cfg_lia). done. }
  { unfold ITS_BLOCK_METADATA_SIZE. cfg_lia. }
  eapply (wp_xor_entries _ _ (foff cfg 0)); [done|done|done|cfg_lia|lia| | |].
  { intros. rewrite file_off_spec by (auto; cfg_lia).
    unfold foff, ITS_FILE_METADATA_SIZE. lia. }
  { unfold ITS_FILE_METADATA_SIZE. cfg_lia. }
  rewrite <- xor_bytes_app. unfold ITS_BLOCK_METADATA_SIZE, ITS_FILE_METADATA_SIZE.
  rewrite !Z2Nat.id by cfg_lia. rewrite !Z.mul_0_r, !Z.add_0_r.
  replace (foff cfg 0) with (8 + 12 * nact cfg) by (unfold foff; lia).
  rewrite <- sub_bytes_split by cfg_lia.
  replace (12 * nact cfg + 32 * max_num_files cfg) with (meta_end cfg - 8)
    by (unfold meta_end, foff; lia). exact HQ.
Qed.
End commit.

Section finalize.
Context {F : Type} `{FlashOps F} (cfg : its_flash_fs_config_t).
Context `{!FlashLaws F (flash_cfg cfg)}.
Context (Hcfg : cfg_wf cfg).
Context (strict : bool) (Hstrict : strict = true -> FlashTotal F (flash_cfg cfg)).

Abbreviation fc := (flash_cfg cfg).
Abbreviation at_st := (at_st cfg).
Abbreviation flash_is := (flash_is cfg).
Abbreviation act c := (active_metablock c).
Abbreviation scr c := (scratch_metablock c).

(** [B] with the first [k] bytes of header [h] in block [b]. *)
Definition with_header (b k : Z) (h : its_metadata_block_header_t) (B : Z -> list Z) : Z -> list Z :=
  <[b := splice 0 (sub_bytes 0 k (header_bytes h)) (B b)]> B.

Lemma with_header_8 b h B : with_header b 8 h B = <[b := splice 0 (header_bytes h) (B b)]> B.
Proof.
  unfold with_header.
  change (sub_bytes 0 8 (header_bytes h)) with (sub_bytes 0 (zlen (header_bytes h)) (header_bytes h)).
  by rewrite sub_bytes_all.
Qed.

Lemma with_header_0 b h B b' : with_header b 0 h B b' = B b'.
Proof.
  unfold with_header. rewrite sub_bytes_0, splice_nil. destruct (decide (b' = b)) as [->|].
  - by rewrite fn_lookup_insert.
  - by rewrite fn_lookup_insert_ne.
Qed.

Lemma next_header_wf h X : header_wf h -> Forall is_byte X ->
  header_wf (next_header (erase_val fc) (xor_at cfg X) h).
Proof.
  intros [] HX. split; simpl; auto using next_swap_byte.
  apply xor_bytes_byte; [auto with bytes|unfold is_byte; lia].
Qed.

(** Writing the header: a failure leaves a prefix of it. *)
Lemma wp_write_header Q E s c B :
  at_st s c B -> ctx_ok c -> header_wf (meta_block_header c) -> erased fc 0 8 (B (scr c)) ->
  let h' := next_header (erase_val fc) (xor_at cfg (B (scr c))) (meta_block_header c) in
  (forall s', at_st s' (FsCtx h' (act c) (scr c)) (with_header (scr c) 8 h' B) -> Q tt s') ->
  (forall e s' k, strict = false -> e <> PSA_SUCCESS -> 0 <= k <= 8 ->
     flash_is (st_flash s') (with_header (scr c) k h' B) -> E e s') ->
  wp (its_mblock_write_scratch_meta_header cfg) Q E s.
Proof.
  intros Hs Hc Hh He h' HQ HE. destruct (act_in_flash cfg Hcfg c Hc) as (_ & Hsc & _).
  pose proof (next_header_wf _ _ Hh (at_st_bytes _ _ _ _ _ Hs Hsc)) as Hwf.
  unfold its_mblock_write_scratch_meta_header. set (h := meta_block_header c) in *.
  pose proof (at_is_st cfg (fun _ => block_size fc) _ _ _ Hs) as Hi. apply wp_bind.
  eapply wp_set_header; [done|]. intros s1 Hs1. apply wp_bind. eapply wp_ctx; [done|]. simpl.
  apply wp_bind.
  set (hn := Header (scratch_dblock h) (fs_version h) (metadata_xor h)
               (next_swap (erase_val fc) (active_swap_count h)) (header_pad h)).
  eapply (wp_mono _ (fun _ s2 => is_st cfg (fun _ => block_size fc) B s2 (FsCtx hn (act c) (scr c)) B)
            _ (fun _ _ => False)); [|intros _ s2 Hs2|done].
  { unfold its_mblock_validate_swap_count, hn, next_swap. fold h.
    destruct (Z.eqb_spec (u8 (active_swap_count h + 1)) (erase_val fc)); simpl.
    - eapply wp_set_header; [done|]. intros s2 Hs2. exact Hs2.
    - by apply wp_ret. }
  apply wp_bind.
  eapply wp_mono;
    [eapply (wp_metadata_xor cfg Hcfg (fun _ => block_size fc) B strict Hstrict (scr c)
               (fun x s3 => x = xor_at cfg (B (scr c)) /\ s3 = s2)); [exact Hs2|unfold ctx_ok in Hc; lia|done]
    |cbv beta; intros x ? [-> ->]|].
  2:{ intros e s3 Hio. destruct (io_error_same _ _ _ _ _ _ _ Hs Hio) as (Hf & Hst & Hne).
      apply (HE e s3 0 Hst Hne ltac:(lia)). eapply flash_is_ext; [done|]. intros.
      by rewrite with_header_0. }
  apply wp_bind. eapply wp_set_header; [done|]. intros s3 Hs3. simpl in Hs3.
  apply wp_bind. eapply wp_ctx; [done|]. simpl.
  change (Header _ _ _ _ _) with h' in Hs3 |- *.
  eapply (wp_ops_write_cut cfg (fun _ => 0) B strict Hstrict (scr c) (header_bytes h') 0 Q E s3);
    rewrite ?zlen_header_bytes; unfold ITS_BLOCK_META_HEADER_SIZE.
  - eapply at_is_st, is_at_st, Hs3.
  - done.
  - lia.
  - lia.
  - lia.
  - cfg_lia.
  - by apply header_bytes_byte.
  - exact He.
  - intros s4 Hs4. apply HQ. rewrite with_header_8. by eapply is_at_st.
  - intros e s4 k Hst Hne Hk Hs4. apply (HE e s4 k); [done..|]. by apply is_at_st in Hs4 as [? _].
Qed.

(** The scratch blocks of a context. *)
Definition is_scratch (c : its_flash_fs_ctx_t) (b : Z) : Prop :=
  b = scr c \/ (2 < num_blocks fc /\ b = scratch_dblock (meta_block_header c)).

#[export] Instance is_scratch_dec c b : Decision (is_scratch c b).
Proof. unfold is_scratch. apply _. Defined.

(** [B] with the scratch blocks erased. *)
Definition wiped (c : its_flash_fs_ctx_t) (B : Z -> list Z) (b : Z) : list Z :=
  if decide (is_scratch c b) then fill (block_size fc) (erase_val fc) else B b.

Definition sd_ok (h : its_metadata_block_header_t) : Prop :=
  2 < num_blocks fc -> 2 <= scratch_dblock h < num_blocks fc.

Lemma cut_erase_refl X : cut_erase fc X X.
Proof. split; auto. Qed.

Lemma cut_erase_fill X : zlen X = block_size fc -> cut_erase fc X (fill (block_size fc) (erase_val fc)).
Proof.
  cfg_facts. intros Hl. assert (zlen (fill (block_size fc) (erase_val fc)) = block_size fc) as Hz
    by (apply zlen_fill; lia). split; [lia|]. intros i.
  destruct (decide (i < Z.to_nat (block_size fc))%nat).
  - right. unfold fill. by apply lookup_replicate_2.
  - left. unfold zlen in *. rewrite !lookup_ge_None_2 by lia. done.
Qed.

(** Erasing the scratch blocks: a failure leaves the other blocks alone. *)
Lemma wp_erase_scratch Q E s c B :
  at_st s c B -> ctx_ok c -> sd_ok (meta_block_header c) ->
  (forall s', at_st s' c (wiped c B) -> Q tt s') ->
  (forall e s' B', strict = false -> e <> PSA_SUCCESS -> flash_is (st_flash s') B' ->
     cut_erase fc (B (scr c)) (B' (scr c)) ->
     (forall b, ~ is_scratch c b -> B' b = B b) -> E e s') ->
  wp (its_mblock_erase_scratch_blocks cfg) Q E s.
Proof.
  intros Hs Hc Hsd HQ HE. destruct (act_in_flash cfg Hcfg c Hc) as (_ & Hsc & _).
  unfold its_mblock_erase_scratch_blocks.
  pose proof (at_is_st cfg (fun _ => 0) _ _ _ Hs) as Hi.
  apply wp_bind. eapply wp_ctx; [done|]. apply wp_bind.
  eapply (wp_ops_erase_cut cfg _ B strict Hstrict); [exact Hi|done|lia| |].
  2:{ intros e s1 X Hst He HX Hs1%is_at_st. eapply (HE e s1 _ Hst He); [apply Hs1|..].
      - by rewrite fn_lookup_insert.
      - intros b Hb. apply fn_lookup_insert_ne. intros <-. apply Hb. by left. }
  intros s1 Hs1. rewrite Z.gtb_ltb. unfold sd_ok in Hsd.
  assert (cut_erase fc (B (scr c)) (fill (block_size fc) (erase_val fc))) as Hcut
    by (eapply cut_erase_fill, at_st_len; eauto).
  destruct (Z.ltb_spec 2 (num_blocks fc)) as [Hgt|].
  - specialize (Hsd Hgt). apply wp_bind. unfold its_flash_fs_mblock_cur_data_scratch_id.
    apply wp_bind. eapply wp_ctx; [done|]. simpl. apply wp_ret.
    set (sd := scratch_dblock _) in *.
    assert (sd <> scr c) as Hne by (unfold ctx_ok in Hc; lia).
    eapply (wp_ops_erase_cut cfg _ B strict Hstrict); [exact Hs1|unfold in_flash; lia|lia|..].
    + intros s2 Hs2%is_at_st. apply HQ. destruct Hs2 as [Hf Hx]. split; [|done].
      eapply flash_is_ext; [done|]. intros b Hb. unfold wiped, is_scratch. fold sd.
      destruct (decide (b = sd)) as [->|]; [|destruct (decide (b = scr c)) as [->|]].
      * by rewrite fn_lookup_insert, decide_True by auto.
      * by rewrite fn_lookup_insert_ne, fn_lookup_insert, decide_True by auto.
      * rewrite decide_False by tauto. by rewrite !fn_lookup_insert_ne by congruence.
    + intros e s2 X Hst He HX Hs2%is_at_st. eapply (HE e s2 _ Hst He); [apply Hs2|..].
      * by rewrite fn_lookup_insert_ne, fn_lookup_insert.
      * unfold is_scratch. fold sd. intros b Hb.
        assert (b <> scr c /\ b <> sd) as [? ?] by tauto.
        by rewrite !fn_lookup_insert_ne by congruence.
  - apply wp_ret, HQ. apply is_at_st in Hs1 as [Hf Hx]. split; [|done].
    eapply flash_is_ext; [done|]. intros b Hb. unfold wiped, is_scratch.
    destruct (decide (b = scr c)) as [->|].
    + by rewrite fn_lookup_insert, decide_True by auto.
    + rewrite decide_False by lia. by rewrite fn_lookup_insert_ne by congruence.
Qed.

(** Committing: before the header is complete only its bytes have changed,
    afterwards only the blocks that became scratch may. *)
Lemma wp_finalize Q E s c B :
  at_st s c B -> ctx_ok c -> header_wf (meta_block_header c) -> sd_ok (meta_block_header c) ->
  erased fc 0 8 (B (scr c)) ->
  let h' := next_header (erase_val fc) (xor_at cfg (B (scr c))) (meta_block_header c) in
  let c' := FsCtx h' (scr c) (act c) in
  let B' := with_header (scr c) 8 h' B in
  (forall s', at_st s' c' (wiped c' B') -> Q tt s') ->
  (forall e s' k, strict = false -> e <> PSA_SUCCESS -> 0 <= k <= 8 ->
     flash_is (st_flash s') (with_header (scr c) k h' B) -> E e s') ->
  (forall e s' B'', strict = false -> e <> PSA_SUCCESS -> flash_is (st_flash s') B'' ->
     cut_erase fc (B (act c)) (B'' (act c)) ->
     (forall b, ~ is_scratch c' b -> B'' b = B' b) -> E e s') ->
  wp (its_flash_fs_mblock_meta_update_finalize cfg) Q E s.
Proof.
  intros Hs Hc Hh Hsd He h' c' B' HQ HE1 HE2.
  destruct (act_in_flash cfg Hcfg c Hc) as (Ha & Hsc & Hne).
  assert (B' (act c) = B (act c)) as HBa by (unfold B', with_header; by rewrite fn_lookup_insert_ne).
  unfold its_flash_fs_mblock_meta_update_finalize. apply wp_bind.
  eapply wp_write_header; [done|done|done|done| |exact HE1]. intros s1 Hs1.
  pose proof (at_is_st cfg (fun _ => block_size fc) _ _ _ Hs1) as Hi1.
  apply wp_bind. eapply wp_ctx; [done|]. simpl. apply wp_bind.
  eapply wp_mono; [eapply (wp_ops_flush cfg _ _ strict Hstrict (scr c)
                             (fun _ s2 => at_st s2 (FsCtx h' (act c) (scr c)) B'));
                     [exact Hi1|done|by intros s2 Hs2%is_at_st]|cbv beta; intros _ s2 Hs2|].
  2:{ intros e s2 Hio. destruct (io_error_same _ _ _ _ _ _ _ Hs1 Hio) as (Hf & Hst & Hn).
      apply (HE2 e s2 B'); [done|done|exact Hf|rewrite HBa; apply cut_erase_refl|done]. }
  apply wp_bind. unfold its_mblock_swap_metablocks.
  eapply wp_set_ctx; [eapply (at_is_st cfg (fun _ => 0)), Hs2|]. simpl.
  intros s3 Hs3%is_at_st. fold c' in Hs3.
  eapply (wp_erase_scratch Q E s3 c' B'); [done|unfold ctx_ok in *; simpl; lia|done|exact HQ|].
  intros e s4 B4 Hst He4 Hf4 Hcut Hoth.
  apply (HE2 e s4 B4); [done|done|exact Hf4|rewrite <- HBa; exact Hcut|exact Hoth].
Qed.
End finalize.
