(* ===== verification/ItsLayout.v ===== *)
(** * The file system as tables of blocks and files

    The metadata of one version of the file system, decoded: a table of
    logical blocks [bm], a table of files [fm] and the contents [L] of the
    logical blocks.  This file has the well-formedness of the tables, the
    store of files they stand for, and how each kind of update changes it,
    without reference to flash. *)

From S2P Require Import Prelude Bytes ItsUtils ItsFlash ItsMeta ItsMblock ItsFs ItsState.
From stdpp Require Import base list numbers functions gmap.
From Stdlib Require Import ZArith Lia.

Open Scope Z_scope.

(** What a client of the file system sees of a file. *)
Record file : Type := File {
  f_data : list Z;
  f_max : Z;
  f_flags : Z;
}.

Definition live (m : its_file_meta_t) : bool := fid_valid (id m).
Definition deleted (m : its_file_meta_t) : bool := has_flag (flags m) ITS_FLASH_FS_FLAG_DELETE.
Definition visible (m : its_file_meta_t) : bool := live m && negb (deleted m).

(** ** Chains: the files of a block in the order of their data *)

Fixpoint chain (fm : Z -> its_file_meta_t) (l : list Z) (s e : Z) : Prop :=
  match l with
  | [] => s = e
  | i :: l => data_idx (fm i) = s /\ chain fm l (s + max_size (fm i)) e
  end.

Section chain.
Implicit Types (fm : Z -> its_file_meta_t) (l : list Z).

Lemma chain_app fm l1 l2 s e :
  chain fm (l1 ++ l2) s e <-> exists m, chain fm l1 s m /\ chain fm l2 m e.
Proof.
  revert s. induction l1 as [|i l1 IH]; intros s; simpl.
  - split; [by exists s|]. by intros (m & -> & ?).
  - rewrite IH. naive_solver.
Qed.

Lemma chain_ext fm fm' l s e :
  (forall i, i ∈ l -> data_idx (fm' i) = data_idx (fm i) /\ max_size (fm' i) = max_size (fm i)) ->
  chain fm l s e -> chain fm' l s e.
Proof.
  revert s. induction l as [|i l IH]; intros s Heq; simpl; [done|].
  destruct (Heq i) as [-> ->]; [set_solver|]. intros [? ?]. split; [done|].
  apply IH; [|done]. intros. apply Heq. set_solver.
Qed.

Lemma chain_shift fm fm' l s e k :
  (forall i, i ∈ l -> data_idx (fm' i) = data_idx (fm i) - k /\ max_size (fm' i) = max_size (fm i)) ->
  chain fm l s e -> chain fm' l (s - k) (e - k).
Proof.
  revert s. induction l as [|i l IH]; intros s Heq; simpl; [lia|].
  destruct (Heq i) as [-> ->]; [set_solver|]. intros [? ?]. split; [lia|].
  replace (s - k + max_size (fm i)) with (s + max_size (fm i) - k) by lia.
  apply IH; [|done]. intros. apply Heq. set_solver.
Qed.

Lemma chain_bounds fm l s e :
  (forall i, i ∈ l -> 0 <= max_size (fm i)) -> chain fm l s e ->
  s <= e /\ forall i, i ∈ l -> s <= data_idx (fm i) /\ data_idx (fm i) + max_size (fm i) <= e.
Proof.
  revert s. induction l as [|i l IH]; intros s Hpos; simpl.
  - intros ->. split; [lia|set_solver].
  - intros [Hi Hc]. pose proof (Hpos i ltac:(set_solver)).
    destruct (IH (s + max_size (fm i))) as [Hle Hall]; [set_solver|done|].
    split; [lia|]. intros j [->|Hj]%elem_of_cons; [lia|]. destruct (Hall j Hj). lia.
Qed.

Lemma chain_sum fm l s e :
  chain fm l s e -> e = s + foldr (fun i acc => max_size (fm i) + acc) 0 l.
Proof.
  revert s. induction l as [|i l IH]; intros s; simpl; [lia|].
  intros [_ ->%IH]. lia.
Qed.

(** Two files of a chain do not overlap. *)
Lemma chain_disjoint fm l s e i j :
  (forall i, i ∈ l -> 0 <= max_size (fm i)) -> chain fm l s e -> i ∈ l -> j ∈ l -> i <> j ->
  data_idx (fm i) + max_size (fm i) <= data_idx (fm j) \/
  data_idx (fm j) + max_size (fm j) <= data_idx (fm i).
Proof.
  revert s. induction l as [|k l IH]; intros s Hpos; simpl; [set_solver|].
  intros [Hk Hc] Hi Hj Hne.
  destruct (chain_bounds fm l _ _ ltac:(set_solver) Hc) as [_ Hall].
  apply elem_of_cons in Hi, Hj. destruct Hi as [->|Hi], Hj as [->|Hj].
  - done.
  - left. destruct (Hall j Hj). lia.
  - right. destruct (Hall i Hi). lia.
  - eapply IH; eauto. set_solver.
Qed.
End chain.

(** ** Slots: a table of keyed values as a map *)

Section slots.
Context {V : Type} (n : Z).
Implicit Types (slot : Z -> option (list Z * V)).

Definition slots_map slot : gmap (list Z) V := list_to_map (omap slot (seqZ 0 n)).

(** No key is in two slots. *)
Definition slots_uniq slot : Prop :=
  forall i j k v w, 0 <= i < n -> 0 <= j < n -> slot i = Some (k, v) -> slot j = Some (k, w) -> i = j.

Lemma slots_map_lookup slot k v :
  slots_uniq slot ->
  slots_map slot !! k = Some v <-> exists i, 0 <= i < n /\ slot i = Some (k, v).
Proof.
  intros Hu. unfold slots_map. split.
  - intros H%elem_of_list_to_map_2. apply list_elem_of_omap in H as (i & Hi & Hs).
    exists i. by rewrite elem_of_seqZ in Hi.
  - intros (i & Hi & Hs). apply elem_of_list_to_map_1'.
    + intros y Hy. apply list_elem_of_omap in Hy as (j & Hj & Hsj).
      rewrite elem_of_seqZ in Hj.
      assert (j = i) as -> by (eapply (Hu j i); eauto; lia). congruence.
    + apply list_elem_of_omap. exists i. by rewrite elem_of_seqZ.
Qed.

Lemma slots_map_None slot k :
  slots_uniq slot -> (forall i v, 0 <= i < n -> slot i <> Some (k, v)) -> slots_map slot !! k = None.
Proof.
  intros Hu Hno. destruct (slots_map slot !! k) as [v|] eqn:E; [|done].
  apply slots_map_lookup in E as (i & Hi & Hs); [|done]. by apply Hno in Hs.
Qed.

(** The slots of the keys other than [k] keep their values. *)
Definition same_but (k : list Z) slot slot' : Prop :=
  forall k' v, k' <> k ->
    (exists i, 0 <= i < n /\ slot i = Some (k', v)) <-> (exists i, 0 <= i < n /\ slot' i = Some (k', v)).

Lemma slots_insert slot slot' k v :
  slots_uniq slot -> slots_uniq slot' -> same_but k slot slot' ->
  (exists i, 0 <= i < n /\ slot' i = Some (k, v)) -> slots_map slot' = <[k:=v]> (slots_map slot).
Proof.
  intros Hu Hu' Hs Hi. apply map_eq. intros k'. apply option_eq. intros w.
  destruct (decide (k' = k)) as [->|Hne].
  - rewrite lookup_insert_eq. rewrite slots_map_lookup by done. split.
    + intros (j & Hj & Hsj). destruct Hi as (i & Hi & Hsi).
      assert (i = j) as -> by (eapply Hu'; eauto). congruence.
    + by intros [= <-].
  - rewrite lookup_insert_ne by done. rewrite !slots_map_lookup by done. symmetry. by apply Hs.
Qed.

Lemma slots_delete slot slot' k :
  slots_uniq slot -> slots_uniq slot' -> same_but k slot slot' ->
  (forall i v, 0 <= i < n -> slot' i <> Some (k, v)) -> slots_map slot' = delete k (slots_map slot).
Proof.
  intros Hu Hu' Hs Hno. apply map_eq. intros k'. apply option_eq. intros w.
  destruct (decide (k' = k)) as [->|Hne].
  - rewrite lookup_delete_eq, slots_map_None by done. done.
  - rewrite lookup_delete_ne by done. rewrite !slots_map_lookup by done. symmetry. by apply Hs.
Qed.

Lemma slots_map_ext slot slot' :
  (forall i, 0 <= i < n -> slot' i = slot i) -> slots_map slot' = slots_map slot.
Proof.
  intros Heq. unfold slots_map. f_equal. apply list_omap_ext, Forall2_same_length_lookup_2; [done|].
  intros i x y Hx Hy. assert (x = y) as -> by congruence. apply Heq.
  apply list_elem_of_lookup_2, elem_of_seqZ in Hy. lia.
Qed.
End slots.

(** ** Well-formed tables *)

Section tables.
Context (cfg : its_flash_fs_config_t).

Abbreviation fc := (flash_cfg cfg).
Abbreviation n := (max_num_files cfg).
Abbreviation bs := (block_size (flash_cfg cfg)).
Implicit Types (bm : Z -> its_block_meta_t) (fm : Z -> its_file_meta_t) (ue : Z -> Z)
  (L : Z -> list Z).

Definition lblock_ok (lb : Z) : Prop := 0 <= lb < nact cfg.
Definition file_idx_ok (i : Z) : Prop := 0 <= i < n.

(** Where the data of logical block [lb] starts and ends. *)
Definition start_of (lb : Z) : Z := if decide (lb = 0) then meta_end cfg else 0.
Definition used_end bm (lb : Z) : Z := bs - free_size (bm lb).

Record block_ok (a sd lb : Z) (m : its_block_meta_t) : Prop := {
  bo_wf : block_meta_wf m;
  bo_start : data_start m = start_of lb;
  bo_free : start_of lb + free_size m <= bs;
  bo_phy : if decide (lb = 0) then phy_id m = a
           else 2 <= phy_id m < num_blocks fc /\ phy_id m <> sd;
}.

(** [a] is the metadata block the tables are in, [sd] the scratch data
    block. *)
Record blocks_ok (a sd : Z) bm : Prop := {
  bk_a : a = 0 \/ a = 1;
  bk_sd : 2 < num_blocks fc -> 2 <= sd < num_blocks fc;
  bk_each lb : lblock_ok lb -> block_ok a sd lb (bm lb);
  bk_inj lb lb' : lblock_ok lb -> lblock_ok lb' -> phy_id (bm lb) = phy_id (bm lb') -> lb = lb';
}.

Record file_ok (m : its_file_meta_t) : Prop := {
  fk_wf : file_meta_wf m;
  fk_lblock : lblock_ok (lblock m);
  fk_max : live m = true -> max_size m <= max_file_size cfg;
  fk_cur : live m = true -> cur_size m <= max_size m;
  fk_deleted : deleted m = true -> live m = true;
}.

(** [l] lists the files of block [lb]. *)
Definition members fm (lb : Z) (l : list Z) : Prop :=
  NoDup l /\ forall i, i ∈ l <-> file_idx_ok i /\ live (fm i) = true /\ lblock (fm i) = lb.

(** The files of each block fill it from its start to [ue] without gaps, and
    no identifier is in use twice. *)
Record files_ok ue fm : Prop := {
  fs_each i : file_idx_ok i -> file_ok (fm i);
  fs_chain lb : lblock_ok lb -> exists l, members fm lb l /\ chain fm l (start_of lb) (ue lb);
  fs_uniq i j : file_idx_ok i -> file_idx_ok j -> visible (fm i) = true -> visible (fm j) = true ->
    id (fm i) = id (fm j) -> i = j;
}.

Lemma visible_live m : visible m = true -> live m = true.
Proof. unfold visible. rewrite andb_true_iff. tauto. Qed.

Lemma files_ok_ext ue ue' fm :
  (forall lb, lblock_ok lb -> ue' lb = ue lb) -> files_ok ue fm -> files_ok ue' fm.
Proof. intros Heq [He Hc Hu]. split; [done| |done]. intros lb Hlb. rewrite Heq by done. auto. Qed.

Lemma member_max_pos ue fm lb l i :
  files_ok ue fm -> members fm lb l -> i ∈ l -> 0 <= max_size (fm i).
Proof.
  intros Hf [_ Hm] Hi. apply Hm in Hi as (Hi & _ & _).
  destruct (fk_wf _ (fs_each _ _ Hf i Hi)) as [_ _ _ [? _] _ _ _]. done.
Qed.

(** Where a file lies in its block. *)
Lemma file_range ue fm i :
  files_ok ue fm -> file_idx_ok i -> live (fm i) = true ->
  start_of (lblock (fm i)) <= data_idx (fm i) /\
  data_idx (fm i) + max_size (fm i) <= ue (lblock (fm i)) /\ 0 <= cur_size (fm i) <= max_size (fm i).
Proof.
  intros Hf Hi Hl. pose proof (fs_each _ _ Hf i Hi) as Ho.
  destruct (fs_chain _ _ Hf _ (fk_lblock _ Ho)) as (l & Hm & Hc).
  destruct (chain_bounds fm l _ _ ltac:(intros; by eapply member_max_pos) Hc) as [_ Hb].
  destruct (Hb i) as [? ?]; [by apply Hm|]. pose proof (fk_cur _ Ho Hl).
  destruct (fk_wf _ Ho) as [_ _ [? _] _ _ _ _]. lia.
Qed.

Lemma ue_range ue fm lb : files_ok ue fm -> lblock_ok lb -> start_of lb <= ue lb.
Proof.
  intros Hf Hlb. destruct (fs_chain _ _ Hf _ Hlb) as (l & Hm & Hc).
  by destruct (chain_bounds fm l _ _ ltac:(intros; by eapply member_max_pos) Hc).
Qed.

Lemma files_disjoint ue fm i j :
  files_ok ue fm -> file_idx_ok i -> file_idx_ok j -> live (fm i) = true -> live (fm j) = true ->
  lblock (fm i) = lblock (fm j) -> i <> j ->
  data_idx (fm i) + max_size (fm i) <= data_idx (fm j) \/
  data_idx (fm j) + max_size (fm j) <= data_idx (fm i).
Proof.
  intros Hf Hi Hj Hli Hlj Heq Hne. pose proof (fs_each _ _ Hf i Hi) as Ho.
  destruct (fs_chain _ _ Hf _ (fk_lblock _ Ho)) as (l & Hm & Hc).
  eapply chain_disjoint; [|exact Hc|by apply Hm|by apply Hm|done].
  intros. by eapply member_max_pos.
Qed.

(** *** The code's validation accepts them *)

Lemma start_of_range lb : cfg_wf cfg -> 0 <= start_of lb <= bs.
Proof. intros. unfold start_of. destruct (decide _); cfg_lia. Qed.

Lemma blocks_validate a sd bm lb :
  cfg_wf cfg -> blocks_ok a sd bm -> lblock_ok lb ->
  its_mblock_validate_block_meta cfg (bm lb) = PSA_SUCCESS.
Proof.
  intros Hcfg Hb Hlb. destruct (bk_each _ _ _ Hb lb Hlb) as [[Hp Hd Hf] Hst Hfr Hph].
  pose proof (bk_a _ _ _ Hb). pose proof (start_of_range lb Hcfg).
  unfold its_mblock_validate_block_meta, validate_block_meta_at. rewrite Z.geb_leb.
  assert (phy_id (bm lb) < num_blocks fc) by (destruct (decide (lb = 0)); cfg_lia).
  destruct (Z.leb_spec (num_blocks fc) (phy_id (bm lb))); [lia|].
  unfold is_u32 in *. rewrite check_contained_in_spec by cfg_lia.
  rewrite decide_True by lia. simpl. rewrite file_off_spec by (auto; cfg_lia).
  rewrite Hst. unfold start_of, ITS_METADATA_BLOCK0, ITS_METADATA_BLOCK1.
  destruct (decide (lb = 0)).
  - rewrite Hph. replace ((a =? 0) || (a =? 1)) with true by (destruct H as [->| ->]; done).
    by rewrite Z.eqb_refl.
  - destruct (Z.eqb_spec (phy_id (bm lb)) 0), (Z.eqb_spec (phy_id (bm lb)) 1); done || lia.
Qed.

Lemma files_validate a sd bm fm i :
  cfg_wf cfg -> blocks_ok a sd bm -> files_ok (used_end bm) fm -> file_idx_ok i ->
  its_mblock_validate_file_meta cfg (fm i) = PSA_SUCCESS.
Proof.
  intros Hcfg Hb Hf Hi. pose proof (fs_each _ _ Hf i Hi) as Ho.
  destruct (fk_lblock _ Ho) as [? ?]. unfold its_mblock_validate_file_meta.
  rewrite num_active_spec, Z.geb_leb by done.
  destruct (Z.leb_spec (nact cfg) (lblock (fm i))); [lia|].
  destruct (its_utils_validate_fid (id (fm i)) =? PSA_SUCCESS) eqn:Hl; [|done].
  destruct (file_range _ _ _ Hf Hi Hl) as (Hs & He & Hc).
  pose proof (fk_max _ Ho Hl). rewrite !Z.gtb_ltb.
  destruct (Z.ltb_spec (max_file_size cfg) (max_size (fm i))); [lia|].
  destruct (Z.ltb_spec (max_size (fm i)) (cur_size (fm i))); [lia|].
  rewrite file_off_spec by (auto; cfg_lia). unfold ITS_LOGICAL_DBLOCK0.
  destruct (bk_each _ _ _ Hb _ (fk_lblock _ Ho)) as [[_ _ [? _]] _ _ _].
  destruct (fk_wf _ Ho) as [_ Hix _ Hmx _ _ _]. unfold used_end, is_u32 in *.
  rewrite check_contained_in_spec by cfg_lia. rewrite (decide_True (P := _ <= _)) by lia. simpl.
  destruct (Z.eqb_spec (lblock (fm i)) 0) as [Hz|]; [|done]. simpl.
  revert Hs. unfold start_of, meta_end. rewrite Hz. simpl. intros.
  by destruct (Z.ltb_spec (data_idx (fm i)) (foff cfg n)); [lia|].
Qed.

(** *** Changing an entry in place *)

(** [m'] takes the place of [m] without moving it. *)
Definition same_place (m m' : its_file_meta_t) : Prop :=
  lblock m' = lblock m /\ data_idx m' = data_idx m /\ max_size m' = max_size m /\ id m' = id m.

Lemma files_ok_set ue fm k m' :
  files_ok ue fm -> file_idx_ok k -> file_ok m' -> same_place (fm k) m' ->
  (visible m' = true -> visible (fm k) = true) -> files_ok ue (<[k := m']> fm).
Proof.
  intros Hf Hk Hm' (Hlb & Hix & Hmx & Hid) Hv.
  assert (forall i, lblock (<[k:=m']> fm i) = lblock (fm i) /\ data_idx (<[k:=m']> fm i) = data_idx (fm i)
    /\ max_size (<[k:=m']> fm i) = max_size (fm i) /\ id (<[k:=m']> fm i) = id (fm i)
    /\ (visible (<[k:=m']> fm i) = true -> visible (fm i) = true)) as Heq.
  { intros i. destruct (decide (i = k)) as [->|]; [by rewrite fn_lookup_insert|].
    by rewrite fn_lookup_insert_ne. }
  split.
  - intros i Hi. destruct (decide (i = k)) as [->|]; [by rewrite fn_lookup_insert|].
    rewrite fn_lookup_insert_ne by done. by apply (fs_each _ _ Hf).
  - intros lb Hl. destruct (fs_chain _ _ Hf lb Hl) as (l & [Hnd Hm] & Hc). exists l. split.
    + split; [done|]. intros i. rewrite Hm. destruct (Heq i) as (-> & _ & _ & Hi & _).
      unfold live. by rewrite Hi.
    + eapply chain_ext; [|done]. intros i _. destruct (Heq i) as (_ & -> & -> & _). done.
  - intros i j Hi Hj Hvi Hvj Hij. destruct (Heq i) as (_ & _ & _ & Hi' & Hvi').
    destruct (Heq j) as (_ & _ & _ & Hj' & Hvj'). apply (fs_uniq _ _ Hf); auto. congruence.
Qed.

(** *** Adding a file at the end of a block *)

Lemma files_ok_add ue fm k m' :
  files_ok ue fm -> file_idx_ok k -> live (fm k) = false -> file_ok m' -> live m' = true ->
  data_idx m' = ue (lblock m') ->
  (forall i, file_idx_ok i -> visible (fm i) = true -> id (fm i) <> id m') ->
  files_ok (<[lblock m' := ue (lblock m') + max_size m']> ue) (<[k := m']> fm).
Proof.
  intros Hf Hk Hfree Hm' Hlive Hix Hnew. split.
  - intros i Hi. destruct (decide (i = k)) as [->|]; [by rewrite fn_lookup_insert|].
    rewrite fn_lookup_insert_ne by done. by apply (fs_each _ _ Hf).
  - intros lb Hl. destruct (fs_chain _ _ Hf lb Hl) as (l & [Hnd Hm] & Hc).
    assert (~ k ∈ l) as Hkl by (intros [_ [? _]]%Hm; congruence).
    assert (chain (<[k:=m']> fm) l (start_of lb) (ue lb)) as Hc'.
    { eapply chain_ext; [|done]. intros i Hi. by rewrite fn_lookup_insert_ne by congruence. }
    destruct (decide (lb = lblock m')) as [->|Hne].
    + exists (l ++ [k]). split; [split|].
      * apply NoDup_app. split_and!; [done|set_solver|apply NoDup_singleton].
      * intros i. rewrite elem_of_app, list_elem_of_singleton, Hm.
        destruct (decide (i = k)) as [->|]; [rewrite fn_lookup_insert; naive_solver|].
        rewrite fn_lookup_insert_ne by done. naive_solver.
      * apply chain_app. exists (ue (lblock m')). split; [done|]. simpl.
        by rewrite !fn_lookup_insert.
    + exists l. rewrite (fn_lookup_insert_ne ue) by congruence. split; [split|done]; [done|].
      intros i. rewrite Hm. destruct (decide (i = k)) as [->|].
      * rewrite fn_lookup_insert. naive_solver congruence.
      * by rewrite fn_lookup_insert_ne.
  - assert (forall i, file_idx_ok i -> i <> k -> visible (<[k:=m']> fm i) = true ->
      id (<[k:=m']> fm i) <> id m') as Hother.
    { intros i Hi Hne. rewrite fn_lookup_insert_ne by done. by apply Hnew. }
    intros i j Hi Hj Hvi Hvj Hij.
    destruct (decide (i = k)) as [->|], (decide (j = k)) as [->|]; [done|..].
    + rewrite fn_lookup_insert in Hij. destruct (Hother j); congruence.
    + rewrite (fn_lookup_insert _ k) in Hij. destruct (Hother i); congruence.
    + rewrite !fn_lookup_insert_ne in * by done. by apply (fs_uniq _ _ Hf).
Qed.

(** *** Removing a file and closing the gap *)

(** File [j] lies behind file [d] in the same block. *)
Definition behind fm (d j : Z) : bool :=
  (lblock (fm j) =? lblock (fm d)) && live (fm j) && (data_idx (fm j) >? data_idx (fm d)).

Definition move_down (k : Z) (m : its_file_meta_t) : its_file_meta_t :=
  FileMeta (lblock m) (u32 (data_idx m - k)) (cur_size m) (max_size m) (flags m) (id m).

(** The table of files without file [d]. *)
Definition remove_file fm (d j : Z) : its_file_meta_t :=
  if decide (j = d) then file_meta_zero
  else if behind fm d j then move_down (max_size (fm d)) (fm j) else fm j.

Lemma live_zero : live file_meta_zero = false.
Proof. reflexivity. Qed.

(** The files of the block of [d]: those before it and those behind it. *)
Lemma members_split ue fm d :
  files_ok ue fm -> file_idx_ok d -> live (fm d) = true ->
  exists l1 l2, members fm (lblock (fm d)) (l1 ++ d :: l2) /\
    chain fm l1 (start_of (lblock (fm d))) (data_idx (fm d)) /\
    chain fm l2 (data_idx (fm d) + max_size (fm d)) (ue (lblock (fm d))).
Proof.
  intros Hf Hd Hl. pose proof (fk_lblock _ (fs_each _ _ Hf d Hd)) as Hlb.
  destruct (fs_chain _ _ Hf _ Hlb) as (l & Hm & Hc).
  assert (d ∈ l) as Hin by (by apply Hm). apply list_elem_of_split in Hin as (l1 & l2 & ->).
  exists l1, l2. split; [done|]. apply chain_app in Hc as (m & Hc1 & Hm' & Hc2). by subst m.
Qed.

Lemma remove_same fm d j : j <> d -> behind fm d j = false -> remove_file fm d j = fm j.
Proof. intros. unfold remove_file. rewrite decide_False by done. by rewrite H0. Qed.

(** Which files of the block lie behind. *)
Lemma behind_members ue fm d l1 l2 :
  files_ok ue fm -> members fm (lblock (fm d)) (l1 ++ d :: l2) -> 0 <= max_size (fm d) ->
  chain fm l1 (start_of (lblock (fm d))) (data_idx (fm d)) ->
  chain fm l2 (data_idx (fm d) + max_size (fm d)) (ue (lblock (fm d))) ->
  (forall j, j ∈ l1 -> behind fm d j = false) /\
  (0 < max_size (fm d) -> forall j, j ∈ l2 -> behind fm d j = true).
Proof.
  intros Hf Hm Hd Hc1 Hc2.
  assert (forall j, j ∈ l1 ++ d :: l2 -> 0 <= max_size (fm j)) as Hpos
    by (intros; by eapply member_max_pos).
  destruct (chain_bounds fm l1 _ _ ltac:(set_solver) Hc1) as [_ Hb1].
  destruct (chain_bounds fm l2 _ _ ltac:(set_solver) Hc2) as [_ Hb2].
  destruct Hm as [_ Hm]. unfold behind. split.
  - intros j Hj. destruct (Hb1 j Hj). pose proof (Hpos j ltac:(set_solver)).
    rewrite Z.gtb_ltb, (proj2 (Z.ltb_ge _ _)) by lia. apply andb_false_r.
  - intros Hgt j Hj. destruct (Hb2 j Hj). destruct (proj1 (Hm j) ltac:(set_solver)) as (_ & -> & ->).
    rewrite Z.eqb_refl, Z.gtb_ltb, (proj2 (Z.ltb_lt _ _)) by lia. done.
Qed.

Lemma remove_fields fm d j : j <> d ->
  lblock (remove_file fm d j) = lblock (fm j) /\ cur_size (remove_file fm d j) = cur_size (fm j) /\
  max_size (remove_file fm d j) = max_size (fm j) /\ flags (remove_file fm d j) = flags (fm j) /\
  id (remove_file fm d j) = id (fm j).
Proof. intros. unfold remove_file. rewrite decide_False by done. by destruct (behind fm d j). Qed.

Lemma remove_deleted fm d : remove_file fm d d = file_meta_zero.
Proof. unfold remove_file. by rewrite decide_True. Qed.

Lemma behind_pos ue fm d j :
  files_ok ue fm -> file_idx_ok d -> file_idx_ok j -> live (fm d) = true ->
  behind fm d j = true -> max_size (fm d) <= data_idx (fm j).
Proof.
  intros Hf Hd Hj Hl. unfold behind. rewrite !andb_true_iff, Z.eqb_eq, Z.gtb_ltb, Z.ltb_lt.
  intros [[Hlb Hlj] Hlt]. assert (d <> j) as Hne by (intros ->; lia).
  destruct (file_range _ _ _ Hf Hd Hl) as (? & _ & ?).
  destruct (file_range _ _ _ Hf Hj Hlj) as (_ & _ & ?).
  assert (0 <= start_of (lblock (fm d)) \/ start_of (lblock (fm d)) < 0) by lia.
  destruct (fk_wf _ (fs_each _ _ Hf d Hd)) as [_ [? _] _ _ _ _ _].
  destruct (files_disjoint _ _ _ _ Hf Hd Hj Hl Hlj ltac:(congruence) Hne); lia.
Qed.

Lemma remove_file_ok ue fm d j :
  cfg_wf cfg -> files_ok ue fm -> file_idx_ok d -> file_idx_ok j -> file_ok (remove_file fm d j).
Proof.
  intros Hcfg Hf Hd Hj. unfold remove_file. pose proof (fs_each _ _ Hf j Hj) as [[] ? ? ? ?].
  destruct (decide (j = d)).
  - split; simpl; try done; [apply file_meta_zero_wf|]. unfold lblock_ok. cfg_lia.
  - destruct (behind fm d j); split; done || split; try done. simpl. apply u32_range.
Qed.

Lemma remove_idx ue fm d l1 l2 :
  files_ok ue fm -> file_idx_ok d -> live (fm d) = true ->
  members fm (lblock (fm d)) (l1 ++ d :: l2) ->
  chain fm l1 (start_of (lblock (fm d))) (data_idx (fm d)) ->
  chain fm l2 (data_idx (fm d) + max_size (fm d)) (ue (lblock (fm d))) ->
  (forall j, j ∈ l1 -> data_idx (remove_file fm d j) = data_idx (fm j)) /\
  (forall j, j ∈ l2 -> data_idx (remove_file fm d j) = data_idx (fm j) - max_size (fm d)).
Proof.
  intros Hf Hd Hl Hm Hc1 Hc2.
  destruct (fk_wf _ (fs_each _ _ Hf d Hd)) as [_ _ _ [Hmx _] _ _ _].
  destruct (behind_members ue fm d l1 l2) as [Hb1 Hb2]; [done..|].
  destruct Hm as [(_ & Hn1 & Hn2)%NoDup_app Hm]. apply NoDup_cons in Hn2 as [Hn2 _].
  assert (forall j, j ∈ l1 ++ d :: l2 -> is_u32 (data_idx (fm j))) as Hwf.
  { intros j (Hj & _ & _)%Hm. by destruct (fk_wf _ (fs_each _ _ Hf j Hj)). }
  split; intros j Hj.
  - rewrite remove_same; [done| |auto]. intros ->. by apply (Hn1 d); [|set_solver].
  - assert (j <> d) as Hne by congruence. pose proof (Hwf j ltac:(set_solver)) as [??].
    unfold remove_file. rewrite decide_False by done.
    destruct (decide (0 < max_size (fm d))) as [Hgt|].
    + pose proof (Hb2 Hgt j Hj) as Hbj. rewrite Hbj. simpl. apply u32_id.
      pose proof (behind_pos ue fm d j Hf Hd) as Hp.
      destruct (proj1 (Hm j) ltac:(set_solver)) as (Hij & _ & _).
      specialize (Hp Hij Hl Hbj). lia.
    + replace (max_size (fm d)) with 0 by lia.
      destruct (behind fm d j); simpl; [rewrite Z.sub_0_r, u32_id; lia|lia].
Qed.

Lemma files_ok_remove ue fm d :
  cfg_wf cfg -> files_ok ue fm -> file_idx_ok d -> live (fm d) = true ->
  files_ok (<[lblock (fm d) := ue (lblock (fm d)) - max_size (fm d)]> ue) (remove_file fm d).
Proof.
  intros Hcfg Hf Hd Hl. split.
  - intros. by eapply remove_file_ok.
  - intros lb Hlb. destruct (decide (lb = lblock (fm d))) as [->|Hne].
    + destruct (members_split _ _ _ Hf Hd Hl) as (l1 & l2 & Hm & Hc1 & Hc2).
      destruct (remove_idx ue fm d l1 l2) as [H1 H2]; [done..|].
      destruct Hm as [(Hd1 & Hn1 & Hn2)%NoDup_app Hm]. apply NoDup_cons in Hn2 as [Hn2 Hd2].
      assert (forall j, j ∈ l1 ++ l2 -> j <> d) as Hnd.
      { intros j [Hj|Hj]%elem_of_app ->; [|done]. apply (Hn1 d); [done|set_solver]. }
      exists (l1 ++ l2). rewrite fn_lookup_insert. split; [split|].
      * apply NoDup_app. split_and!; [done| |done]. intros j Hj Hj2. apply (Hn1 j); set_solver.
      * intros j. split.
        -- intros Hj. pose proof (Hnd j Hj). destruct (remove_fields fm d j) as (-> & _ & _ & _ & Hid); [done|].
           unfold live. rewrite Hid. apply Hm. set_solver.
        -- destruct (decide (j = d)) as [->|Hjd]; [rewrite remove_deleted; by intros (_ & ? & _)|].
           destruct (remove_fields fm d j) as (-> & _ & _ & _ & Hid); [done|].
           unfold live. rewrite Hid. intros Hj. apply Hm in Hj. set_solver.
      * apply chain_app. exists (data_idx (fm d)). split.
        -- eapply chain_ext; [|done]. intros j Hj. rewrite H1 by done.
           by destruct (remove_fields fm d j) as (_ & _ & -> & _); [apply Hnd; set_solver|].
        -- replace (data_idx (fm d)) with (data_idx (fm d) + max_size (fm d) - max_size (fm d)) by lia.
           eapply chain_shift; [|done]. intros j Hj. rewrite H2 by done.
           by destruct (remove_fields fm d j) as (_ & _ & -> & _); [apply Hnd; set_solver|].
    + destruct (fs_chain _ _ Hf lb Hlb) as (l & [Hnd Hm] & Hc). exists l.
      rewrite (fn_lookup_insert_ne ue) by congruence.
      assert (forall j, j ∈ l -> remove_file fm d j = fm j) as Hsame.
      { intros j (_ & _ & Hj)%Hm. apply remove_same; [congruence|].
        unfold behind. by rewrite (proj2 (Z.eqb_neq _ _)) by congruence. }
      split; [split; [done|]|].
      * intros j. destruct (decide (j = d)) as [->|Hjd].
        -- rewrite remove_deleted, Hm. split; [naive_solver|by intros (_ & ? & _)].
        -- destruct (remove_fields fm d j) as (-> & _ & _ & _ & Hid); [done|].
           unfold live. rewrite Hid. apply Hm.
      * eapply chain_ext; [|done]. intros j Hj. by rewrite Hsame.
  - intros i j Hi Hj Hvi Hvj Hij.
    assert (forall j, visible (remove_file fm d j) = true -> j <> d /\ visible (fm j) = true /\
      id (remove_file fm d j) = id (fm j)) as Hv.
    { clear. intros j. destruct (decide (j = d)) as [->|]; [by rewrite remove_deleted|].
      destruct (remove_fields fm d j) as (_ & _ & _ & Hf & Hid); [done|].
      unfold visible, live, deleted. rewrite Hid, Hf. done. }
    destruct (Hv i Hvi) as (_ & ? & Hi'), (Hv j Hvj) as (_ & ? & Hj').
    apply (fs_uniq _ _ Hf); auto. congruence.
Qed.

(** *** What has to be moved to close the gap *)

Definition gap_member fm (d j : Z) : bool := negb (j =? d) && behind fm d j.

Definition gap_src fm (d : Z) (js : list Z) (src : Z) : Z :=
  fold_left (fun acc j => if gap_member fm d j && (acc >? data_idx (fm j)) then data_idx (fm j) else acc)
    js src.

Definition gap_nbr fm (d : Z) (js : list Z) (nbr : Z) : Z :=
  fold_left (fun acc j => if gap_member fm d j then u32 (acc + max_size (fm j)) else acc) js nbr.

Definition sumZ (f : Z -> Z) (l : list Z) : Z := foldr (fun i acc => f i + acc) 0 l.

Lemma sumZ_perm f l l' : l ≡ₚ l' -> sumZ f l = sumZ f l'.
Proof. induction 1; simpl in *; lia. Qed.

Lemma gap_nbr_sum fm d js nbr :
  nbr = u32 nbr ->
  gap_nbr fm d js nbr =
  u32 (nbr + sumZ (fun j => max_size (fm j)) (filter (fun j => gap_member fm d j = true) js)).
Proof.
  unfold gap_nbr. revert nbr. induction js as [|j js IH]; intros nbr Hn; simpl.
  { by rewrite Z.add_0_r. }
  destruct (gap_member fm d j) eqn:E.
  - rewrite filter_cons_True by done. simpl. rewrite IH.
    + unfold u32. rewrite Z.add_mod_idemp_l by lia. f_equal. lia.
    + unfold u32. by rewrite Z.mod_mod by lia.
  - rewrite filter_cons_False by congruence. by apply IH.
Qed.

Lemma gap_src_spec fm d js src :
  let r := gap_src fm d js src in
  r <= src /\ (forall j, j ∈ js -> gap_member fm d j = true -> r <= data_idx (fm j)) /\
  (r = src \/ exists j, j ∈ js /\ gap_member fm d j = true /\ r = data_idx (fm j)).
Proof.
  unfold gap_src. revert src. induction js as [|j js IH]; intros src; cbn [fold_left].
  - split_and!; [lia|set_solver|by left].
  - set (src' := if gap_member fm d j && (src >? data_idx (fm j)) then data_idx (fm j) else src).
    destruct (IH src') as (H1 & H2 & H3).
    assert (src' <= src /\ (gap_member fm d j = true -> src' <= data_idx (fm j)) /\
      (src' = src \/ gap_member fm d j = true /\ src' = data_idx (fm j))) as (S1 & S2 & S3).
    { unfold src'. rewrite Z.gtb_ltb. destruct (gap_member fm d j); simpl; [|lia || naive_solver lia].
      destruct (Z.ltb_spec (data_idx (fm j)) src); naive_solver lia. }
    split_and!; [lia| |].
    + intros k [->|Hk]%elem_of_cons Hg; [specialize (S2 Hg); lia|by apply H2].
    + destruct H3 as [H3|(k & Hk & Hg & H3)].
      * destruct S3 as [S3|[S3 S4]]; [left; lia|]. right. exists j.
        split_and!; [set_solver|done|lia].
      * right. exists k. split_and!; [set_solver|done|done].
Qed.

(** The files behind [d] form the rest of the block, and the scan finds
    where it starts and how long it is. *)
Lemma gap_spec ue fm d :
  files_ok ue fm -> file_idx_ok d -> live (fm d) = true -> 0 < max_size (fm d) ->
  let lb := lblock (fm d) in
  0 <= ue lb <= bs -> bs < 4294967296 ->
  let src := gap_src fm d (seqZ 0 n) bs in
  let nbr := gap_nbr fm d (seqZ 0 n) 0 in
  nbr = ue lb - (data_idx (fm d) + max_size (fm d)) /\
  (0 < nbr -> src = data_idx (fm d) + max_size (fm d)).
Proof.
  intros Hf Hd Hl Hgt lb Hue Hbs src nbr.
  destruct (members_split _ _ _ Hf Hd Hl) as (l1 & l2 & Hm & Hc1 & Hc2). fold lb in Hc2.
  destruct (behind_members ue fm d l1 l2) as [Hb1 Hb2]; [done|done|lia|done|done|].
  specialize (Hb2 Hgt).
  assert (forall j, j ∈ l1 ++ d :: l2 -> 0 <= max_size (fm j)) as Hpos
    by (intros; by eapply member_max_pos).
  destruct Hm as [(Hd1 & Hn1 & Hn2)%NoDup_app Hm]. apply NoDup_cons in Hn2 as [Hn2 Hd2].
  assert (forall j, file_idx_ok j -> gap_member fm d j = true <-> j ∈ l2) as Hgap.
  { intros j Hj. unfold gap_member. rewrite andb_true_iff, negb_true_iff, Z.eqb_neq. split.
    - intros [Hne Hb]. assert (j ∈ l1 ++ d :: l2) as Hin.
      { apply Hm. unfold behind in Hb. rewrite !andb_true_iff, Z.eqb_eq in Hb. tauto. }
      apply elem_of_app in Hin as [Hin|[->|Hin]%elem_of_cons]; [|done|done].
      apply Hb1 in Hin. congruence.
    - intros Hj2. split; [by intros ->|by apply Hb2]. }
  assert (filter (fun j => gap_member fm d j = true) (seqZ 0 n) ≡ₚ l2) as Hperm.
  { apply NoDup_Permutation; [apply NoDup_filter, NoDup_seqZ|done|]. intros j.
    rewrite list_elem_of_filter, elem_of_seqZ. split.
    - intros [Hg Hj]. apply Hgap; [unfold file_idx_ok; lia|done].
    - intros Hj. destruct (proj1 (Hm j) ltac:(set_solver)) as [Hij _].
      split; [by apply Hgap|unfold file_idx_ok in Hij; lia]. }
  assert (nbr = ue lb - (data_idx (fm d) + max_size (fm d))) as Hnbr.
  { unfold nbr. rewrite gap_nbr_sum, (sumZ_perm _ _ _ Hperm) by done.
    pose proof (chain_sum _ _ _ _ Hc2) as Hs. unfold sumZ.
    destruct (chain_bounds fm l2 _ _ ltac:(set_solver) Hc2) as [Hle _].
    destruct (fk_wf _ (fs_each _ _ Hf d Hd)) as [_ [? _] _ _ _ _ _].
    rewrite u32_id; lia. }
  split; [done|]. intros Hn. rewrite Hnbr in Hn.
  destruct l2 as [|j0 l2]; simpl in Hc2; [lia|]. destruct Hc2 as [Hj0 Hc2].
  destruct (proj1 (Hm j0) ltac:(set_solver)) as [Hi0 _].
  destruct (gap_src_spec fm d (seqZ 0 n) bs) as (_ & G2 & G3). fold src in G2, G3.
  specialize (G2 j0 ltac:(rewrite elem_of_seqZ; unfold file_idx_ok in Hi0; lia)).
  specialize (G2 ltac:(apply Hgap; [done|set_solver])).
  destruct G3 as [G3|(j & Hj & Hg & G3)]; [lia|].
  rewrite elem_of_seqZ in Hj. apply Hgap in Hg; [|unfold file_idx_ok; lia].
  destruct (chain_bounds fm l2 _ _ ltac:(intros i Hi; apply Hpos; set_solver) Hc2) as [_ Hb].
  apply elem_of_cons in Hg as [->|Hg]; [lia|]. destruct (Hb j Hg). pose proof (Hpos j0 ltac:(set_solver)). lia.
Qed.
End tables.
