(* ===== verification/ItsStore.v ===== *)
(** * The store of files that the tables stand for

    How each update of the tables of [ItsLayout] changes the map from file
    identifiers to files. *)

From S2P Require Import Prelude Bytes ItsUtils ItsFlash ItsMeta ItsMblock ItsFs ItsState ItsLayout.
From stdpp Require Import base list numbers functions gmap.
From Stdlib Require Import ZArith Lia.

Open Scope Z_scope.

Section store.
Context (cfg : its_flash_fs_config_t).

Abbreviation fc := (flash_cfg cfg).
Abbreviation n := (max_num_files cfg).
Abbreviation bs := (block_size (flash_cfg cfg)).
Implicit Types (bm : Z -> its_block_meta_t) (fm : Z -> its_file_meta_t) (ue : Z -> Z)
  (L : Z -> list Z).

(** *** Tables of blocks *)

(** The table of blocks of the next version, in metadata block [a']: [m] for
    block [lb], the old entries otherwise, and [a'] as the place of logical
    block 0. *)
Definition next_blocks (a' lb : Z) (m : its_block_meta_t) bm (j : Z) : its_block_meta_t :=
  let x := if decide (j = lb) then m else bm j in
  if decide (j = 0) then BlockMeta a' (data_start x) (free_size x) else x.

(** The block that becomes free when the data of [lb] moves to [sd]. *)
Definition next_sd (moved : bool) (lb sd : Z) bm : Z :=
  if moved && negb (lb =? 0) then phy_id (bm lb) else sd.

Lemma next_used_end a' lb m bm j :
  used_end cfg (next_blocks a' lb m bm) j = if decide (j = lb) then bs - free_size m else used_end cfg bm j.
Proof. unfold used_end, next_blocks. by destruct (decide (j = lb)), (decide (j = 0)). Qed.

Lemma blocks_ok_next a a' sd lb m bm (moved : bool) :
  cfg_wf cfg -> blocks_ok cfg a sd bm -> a' = 0 \/ a' = 1 -> lblock_ok cfg lb ->
  block_meta_wf m -> data_start m = start_of cfg lb -> start_of cfg lb + free_size m <= bs ->
  (lb <> 0 -> phy_id m = if moved then sd else phy_id (bm lb)) ->
  blocks_ok cfg a' (next_sd moved lb sd bm) (next_blocks a' lb m bm).
Proof.
  intros Hcfg [Ha Hsd He Hi] Ha' Hlb Hm Hst Hfr Hph.
  assert (forall j, lblock_ok cfg j -> j <> 0 -> 2 <= phy_id (bm j) < num_blocks fc /\ phy_id (bm j) <> sd) as Hp.
  { intros j Hj Hj0. destruct (He j Hj) as [_ _ _ Hpj]. by rewrite decide_False in Hpj. }
  assert (lb <> 0 -> 2 < num_blocks fc) as H2.
  { unfold lblock_ok, nact in Hlb. destruct (Z.eqb_spec (num_blocks fc) 2); cfg_lia. }
  assert (forall j, lblock_ok cfg j -> j <> 0 -> phy_id (next_blocks a' lb m bm j) =
    if decide (j = lb) then (if moved then sd else phy_id (bm lb)) else phy_id (bm j)) as Hn.
  { intros j Hj Hj0. unfold next_blocks. rewrite (decide_False (P := j = 0)) by done.
    destruct (decide (j = lb)) as [->|]; auto. }
  unfold next_sd. split; [done|..].
  - intros Hgt. destruct moved, (Z.eqb_spec lb 0); simpl; auto. apply Hp; auto.
  - intros j Hj. destruct (He j Hj) as [Hw Hs Hf Hpj].
    assert (block_meta_wf (next_blocks a' lb m bm j) /\
            data_start (next_blocks a' lb m bm j) = start_of cfg j /\
            start_of cfg j + free_size (next_blocks a' lb m bm j) <= bs) as (Hw' & Hs' & Hf').
    { set (x := if decide (j = lb) then m else bm j).
      assert (block_meta_wf x /\ data_start x = start_of cfg j /\ start_of cfg j + free_size x <= bs)
        as (Hx & Hxs & Hxf) by (unfold x; by destruct (decide (j = lb)) as [->|]).
      unfold next_blocks. fold x. destruct (decide (j = 0)); [|done]. split_and!; try done.
      destruct Hx. split; simpl; auto. unfold is_u32. lia. }
    split; [done..|]. destruct (decide (j = 0)) as [->|Hj0].
    + unfold next_blocks. by rewrite (decide_True (P := 0 = 0)).
    + rewrite Hn by done. pose proof (Hp j Hj Hj0). destruct (decide (j = lb)) as [->|Hjl].
      * rewrite (proj2 (Z.eqb_neq lb 0)) by done. destruct moved; simpl; [|done].
        specialize (Hsd (H2 Hj0)). split; [lia|]. intros Heq. by destruct H as [_ []].
      * split; [lia|]. destruct moved; [|tauto]. destruct (Z.eqb_spec lb 0); simpl; [tauto|].
        intros Heq. apply Hjl. by apply Hi.
  - intros j j' Hj Hj'. destruct (decide (j = 0)) as [->|Hj0], (decide (j' = 0)) as [->|Hj0']; [done|..].
    + rewrite (Hn j') by done. unfold next_blocks at 1. rewrite (decide_True (P := 0 = 0)) by done. simpl.
      pose proof (Hp j' Hj' Hj0'). destruct (decide (j' = lb)) as [->|]; [|lia].
      specialize (Hsd (H2 Hj0')). destruct moved; lia.
    + rewrite (Hn j) by done. unfold next_blocks. rewrite (decide_True (P := 0 = 0)) by done. simpl.
      pose proof (Hp j Hj Hj0). destruct (decide (j = lb)) as [->|]; [|lia].
      specialize (Hsd (H2 Hj0)). destruct moved; lia.
    + rewrite !Hn by done. pose proof (Hp j Hj Hj0). pose proof (Hp j' Hj' Hj0').
      destruct (decide (j = lb)) as [->|], (decide (j' = lb)) as [->|]; auto; destruct moved; auto; lia.
Qed.

(** *** The store *)

Definition file_of fm L (i : Z) : file :=
  File (sub_bytes (data_idx (fm i)) (cur_size (fm i)) (L (lblock (fm i)))) (max_size (fm i))
    (Z.land (flags (fm i)) ITS_FLASH_FS_USER_FLAGS_MASK).

Definition slot fm L (i : Z) : option (list Z * file) :=
  if visible (fm i) then Some (id (fm i), file_of fm L i) else None.

Definition store fm L : gmap (list Z) file := slots_map n (slot fm L).

Lemma slot_uniq ue fm L : files_ok cfg ue fm -> slots_uniq n (slot fm L).
Proof.
  intros Hf i j k v w Hi Hj. unfold slot.
  destruct (visible (fm i)) eqn:Ei, (visible (fm j)) eqn:Ej; try done.
  intros [= <- _] [= Hid _]. symmetry. by apply (fs_uniq _ _ _ Hf).
Qed.

Lemma store_lookup ue fm L i :
  files_ok cfg ue fm -> file_idx_ok cfg i -> visible (fm i) = true ->
  store fm L !! id (fm i) = Some (file_of fm L i).
Proof.
  intros Hf Hi Hv. apply slots_map_lookup; [by eapply slot_uniq|].
  exists i. split; [done|]. unfold slot. by rewrite Hv.
Qed.

Lemma store_lookup_None ue fm L fid :
  files_ok cfg ue fm -> (forall i, file_idx_ok cfg i -> visible (fm i) = true -> id (fm i) <> fid) ->
  store fm L !! fid = None.
Proof.
  intros Hf Hno. apply slots_map_None; [by eapply slot_uniq|].
  intros i v Hi. unfold slot. destruct (visible (fm i)) eqn:E; [|done].
  intros [= Hid _]. by apply (Hno i).
Qed.

(** Every slot keeps its value or only concerns [fid]. *)
Lemma same_but_slots fid fm fm' L L' :
  (forall i, file_idx_ok cfg i -> slot fm' L' i = slot fm L i \/
     ((forall k v, slot fm L i = Some (k, v) -> k = fid) /\
      (forall k v, slot fm' L' i = Some (k, v) -> k = fid))) ->
  same_but n fid (slot fm L) (slot fm' L').
Proof.
  intros Hs k v Hk. split; intros (i & Hi & Hsi); exists i; (split; [done|]);
    destruct (Hs i Hi) as [Heq|[H1 H2]]; try congruence; exfalso; eauto.
Qed.

Lemma slot_id fm L i k v : slot fm L i = Some (k, v) -> k = id (fm i).
Proof. unfold slot. destruct (visible (fm i)); [|done]. by intros [= <- _]. Qed.

Lemma slot_invisible fm L i : visible (fm i) = false -> slot fm L i = None.
Proof. unfold slot. by intros ->. Qed.

(** An entry that is changed only in the position of its data. *)
Definition moved_entry (m m' : its_file_meta_t) : Prop :=
  lblock m' = lblock m /\ cur_size m' = cur_size m /\ max_size m' = max_size m /\
  flags m' = flags m /\ id m' = id m.

Lemma slot_moved fm fm' L L' i :
  moved_entry (fm i) (fm' i) ->
  (visible (fm i) = true ->
   sub_bytes (data_idx (fm' i)) (cur_size (fm i)) (L' (lblock (fm i))) =
   sub_bytes (data_idx (fm i)) (cur_size (fm i)) (L (lblock (fm i)))) ->
  slot fm' L' i = slot fm L i.
Proof.
  intros (Hlb & Hc & Hm & Hfl & Hid) Hd. unfold slot, file_of, visible, live, deleted.
  rewrite Hlb, Hc, Hm, Hfl, Hid. destruct (_ && _) eqn:E; [|done]. by rewrite Hd.
Qed.

(** *** Effect of an update on the data *)

(** [L'] keeps the data of every file of [fm] but file [k]. *)
Record data_kept ue fm (k : Z) L L' : Prop := {
  dk_other lb : lblock_ok cfg lb -> lb <> lblock (fm k) ->
    sub_bytes (start_of cfg lb) (ue lb - start_of cfg lb) (L' lb) =
    sub_bytes (start_of cfg lb) (ue lb - start_of cfg lb) (L lb);
  dk_before : let lb := lblock (fm k) in
    sub_bytes (start_of cfg lb) (data_idx (fm k) - start_of cfg lb) (L' lb) =
    sub_bytes (start_of cfg lb) (data_idx (fm k) - start_of cfg lb) (L lb);
  dk_after : let lb := lblock (fm k) in let e := data_idx (fm k) + max_size (fm k) in
    sub_bytes e (ue lb - e) (L' lb) = sub_bytes e (ue lb - e) (L lb);
}.

Lemma start_nonneg lb : cfg_wf cfg -> 0 <= start_of cfg lb.
Proof. intros. destruct (start_of_range cfg lb H). done. Qed.

Lemma data_kept_file ue fm k L L' i :
  cfg_wf cfg -> files_ok cfg ue fm -> file_idx_ok cfg k -> live (fm k) = true ->
  data_kept ue fm k L L' -> file_idx_ok cfg i -> live (fm i) = true -> i <> k ->
  sub_bytes (data_idx (fm i)) (cur_size (fm i)) (L' (lblock (fm i))) =
  sub_bytes (data_idx (fm i)) (cur_size (fm i)) (L (lblock (fm i))).
Proof.
  intros Hcfg Hf Hk Hlk [Ho Hb Ha] Hi Hli Hne.
  pose proof (start_nonneg (lblock (fm i)) Hcfg).
  destruct (file_range _ _ _ _ Hf Hi Hli) as (Hs & He & Hc).
  destruct (file_range _ _ _ _ Hf Hk Hlk) as (Hsk & Hek & Hck).
  destruct (decide (lblock (fm i) = lblock (fm k))) as [Heq|Hneq].
  - destruct (files_disjoint _ _ _ _ _ Hf Hi Hk Hli Hlk Heq Hne) as [Hd|Hd]; rewrite Heq in *.
    + eapply sub_bytes_within; [exact Hb|lia..].
    + eapply sub_bytes_within; [exact Ha|lia..].
  - eapply sub_bytes_within; [apply Ho; [apply (fk_lblock _ _ (fs_each _ _ _ Hf i Hi))|done]|lia..].
Qed.

(** Writing file [k]: its entry and its data change, those of the others do
    not. *)
Theorem store_write ue ue' fm L L' k m' :
  cfg_wf cfg -> files_ok cfg ue fm -> files_ok cfg ue' (<[k := m']> fm) ->
  file_idx_ok cfg k -> visible m' = true ->
  (visible (fm k) = true -> id (fm k) = id m') ->
  data_kept ue' (<[k := m']> fm) k L L' ->
  store (<[k := m']> fm) L' =
  <[id m' := File (sub_bytes (data_idx m') (cur_size m') (L' (lblock m'))) (max_size m')
               (Z.land (flags m') ITS_FLASH_FS_USER_FLAGS_MASK)]> (store fm L).
Proof.
  intros Hcfg Hf Hf' Hk Hv Hid Hdk. set (fm' := <[k := m']> fm) in *.
  assert (fm' k = m') as Hfk by (unfold fm'; by rewrite fn_lookup_insert).
  apply slots_insert; [by eapply slot_uniq|by eapply slot_uniq| |].
  - apply same_but_slots. intros i Hi. destruct (decide (i = k)) as [->|Hne].
    + right. split; intros q v Hq.
      * unfold slot in Hq. destruct (visible (fm k)); [|done]. injection Hq as <- _. auto.
      * apply slot_id in Hq. by rewrite Hfk in Hq.
    + left. assert (fm' i = fm i) as Hfi by (unfold fm'; by rewrite fn_lookup_insert_ne).
      apply slot_moved; [by rewrite Hfi|]. intros Hvi. rewrite Hfi.
      pose proof (data_kept_file ue' fm' k L L' i Hcfg Hf' Hk) as Hd. rewrite Hfk, Hfi in Hd.
      apply Hd; auto using visible_live.
  - exists k. split; [done|]. unfold slot, file_of. by rewrite Hfk, Hv.
Qed.

(** Marking a file for deletion while its replacement is written. *)
Lemma slot_mark fm L o m' i :
  visible m' = false ->
  slot (<[o := m']> fm) L i = if decide (i = o) then None else slot fm L i.
Proof.
  intros Hv. destruct (decide (i = o)) as [->|Hne].
  - apply slot_invisible. by rewrite fn_lookup_insert.
  - unfold slot, file_of. by rewrite fn_lookup_insert_ne.
Qed.

Lemma store_hide ue fm L o m' :
  files_ok cfg ue fm -> files_ok cfg ue (<[o := m']> fm) -> file_idx_ok cfg o ->
  visible (fm o) = true -> visible m' = false ->
  store (<[o := m']> fm) L = delete (id (fm o)) (store fm L).
Proof.
  intros Hf Hf' Ho Hv Hv'. apply slots_delete; [by eapply slot_uniq|by eapply slot_uniq|..].
  - apply same_but_slots. intros i Hi. rewrite slot_mark by done.
    destruct (decide (i = o)) as [->|]; [|by left]. right. split; [|done].
    intros q v Hq. by apply slot_id in Hq.
  - intros i v Hi. rewrite slot_mark by done. destruct (decide (i = o)) as [->|Hne]; [done|].
    intros Hs. unfold slot in Hs. destruct (visible (fm i)) eqn:Hvi; [|done].
    injection Hs as Hid _. apply Hne. by apply (fs_uniq _ _ _ Hf).
Qed.

(** *** Removing a file *)

(** [L'] has the data behind file [d] of [fm] moved down. *)
Record gap_closed ue fm (d : Z) L L' : Prop := {
  gc_other lb : lblock_ok cfg lb -> lb <> lblock (fm d) ->
    sub_bytes (start_of cfg lb) (ue lb - start_of cfg lb) (L' lb) =
    sub_bytes (start_of cfg lb) (ue lb - start_of cfg lb) (L lb);
  gc_before : let lb := lblock (fm d) in
    sub_bytes (start_of cfg lb) (data_idx (fm d) - start_of cfg lb) (L' lb) =
    sub_bytes (start_of cfg lb) (data_idx (fm d) - start_of cfg lb) (L lb);
  gc_behind : let lb := lblock (fm d) in let e := data_idx (fm d) + max_size (fm d) in
    sub_bytes (data_idx (fm d)) (ue lb - e) (L' lb) = sub_bytes e (ue lb - e) (L lb);
}.

Lemma gap_closed_file ue fm d L L' j :
  cfg_wf cfg -> files_ok cfg ue fm -> file_idx_ok cfg d -> live (fm d) = true ->
  gap_closed ue fm d L L' -> file_idx_ok cfg j -> live (fm j) = true -> j <> d ->
  sub_bytes (data_idx (remove_file fm d j)) (cur_size (fm j)) (L' (lblock (fm j))) =
  sub_bytes (data_idx (fm j)) (cur_size (fm j)) (L (lblock (fm j))).
Proof.
  intros Hcfg Hf Hd Hld [Ho Hb Ha] Hj Hlj Hne.
  pose proof (start_nonneg (lblock (fm j)) Hcfg).
  destruct (file_range _ _ _ _ Hf Hj Hlj) as (Hs & He & Hc).
  destruct (file_range _ _ _ _ Hf Hd Hld) as (Hsd & Hed & Hcd).
  destruct (decide (lblock (fm j) = lblock (fm d))) as [Heq|Hneq].
  - destruct (members_split _ _ _ _ Hf Hd Hld) as (l1 & l2 & Hm & Hc1 & Hc2).
    destruct (remove_idx cfg ue fm d l1 l2) as [H1 H2]; [done..|]. rewrite Heq in *.
    assert (j ∈ l1 ++ d :: l2) as Hin by (by apply Hm).
    assert (forall j, j ∈ l1 ++ d :: l2 -> 0 <= max_size (fm j)) as Hpos
      by (intros; by eapply member_max_pos).
    apply elem_of_app in Hin as [Hin|[->|Hin]%elem_of_cons]; [|done|].
    + destruct (chain_bounds fm l1 _ _ ltac:(set_solver) Hc1) as [_ Hb1]. destruct (Hb1 j Hin).
      rewrite H1 by done. eapply sub_bytes_within; [exact Hb|lia..].
    + destruct (chain_bounds fm l2 _ _ ltac:(set_solver) Hc2) as [_ Hb2]. destruct (Hb2 j Hin).
      rewrite H2 by done. set (e := data_idx (fm d) + max_size (fm d)) in *.
      replace (data_idx (fm j) - max_size (fm d)) with (data_idx (fm d) + (data_idx (fm j) - e)) by lia.
      rewrite <- (sub_bytes_sub_bytes (data_idx (fm j) - e) _ _ (ue (lblock (fm d)) - e)) by lia.
      rewrite Ha. rewrite sub_bytes_sub_bytes by lia. f_equal. lia.
  - rewrite remove_same; [|done|unfold behind; by rewrite (proj2 (Z.eqb_neq _ _))].
    eapply sub_bytes_within; [apply Ho; [apply (fk_lblock _ _ (fs_each _ _ _ Hf j Hj))|done]|lia..].
Qed.

Lemma slot_remove ue fm d L L' j :
  cfg_wf cfg -> files_ok cfg ue fm -> file_idx_ok cfg d -> live (fm d) = true ->
  gap_closed ue fm d L L' -> file_idx_ok cfg j ->
  slot (remove_file fm d) L' j = if decide (j = d) then None else slot fm L j.
Proof.
  intros Hcfg Hf Hd Hld Hg Hj. destruct (decide (j = d)) as [->|Hne].
  - apply slot_invisible. by rewrite remove_deleted.
  - apply slot_moved; [by destruct (remove_fields fm d j Hne) as (? & ? & ? & ? & ?)|].
    intros Hv. by eapply gap_closed_file; eauto using visible_live.
Qed.

(** Deleting file [d] removes its identifier, unless a replacement of it is
    already in place. *)
Theorem store_remove ue ue' fm d L L' :
  cfg_wf cfg -> files_ok cfg ue fm -> files_ok cfg ue' (remove_file fm d) ->
  file_idx_ok cfg d -> live (fm d) = true -> gap_closed ue fm d L L' ->
  store (remove_file fm d) L' =
    if deleted (fm d) then store fm L else delete (id (fm d)) (store fm L).
Proof.
  intros Hcfg Hf Hf' Hd Hld Hg. destruct (deleted (fm d)) eqn:E.
  - apply slots_map_ext. intros j Hj. erewrite slot_remove by eauto.
    destruct (decide (j = d)) as [->|]; [|done]. symmetry. apply slot_invisible.
    unfold visible. by rewrite E, andb_false_r.
  - apply slots_delete; [by eapply slot_uniq|by eapply slot_uniq|..].
    + apply same_but_slots. intros i Hi. erewrite slot_remove by eauto.
      destruct (decide (i = d)) as [->|]; [|by left]. right. split; [|done].
      intros q v Hq. by apply slot_id in Hq.
    + intros i v Hi. erewrite slot_remove by eauto. destruct (decide (i = d)) as [->|Hne]; [done|].
      intros Hs. unfold slot in Hs. destruct (visible (fm i)) eqn:Hvi; [|done].
      injection Hs as Hid _. apply Hne. apply (fs_uniq _ _ _ Hf); auto.
      unfold visible. by rewrite Hld, E.
Qed.

(** *** Tables are only looked at within their bounds *)

Lemma files_ok_fm_ext ue fm fm' :
  (forall i, file_idx_ok cfg i -> fm' i = fm i) -> files_ok cfg ue fm -> files_ok cfg ue fm'.
Proof.
  intros Heq [He Hc Hu]. split.
  - intros i Hi. rewrite Heq by done. auto.
  - intros lb Hlb. destruct (Hc lb Hlb) as (l & [Hnd Hm] & Hch). exists l. split; [split; [done|]|].
    + intros i. rewrite Hm. split; intros (Hi & ?); by rewrite ?Heq in *.
    + eapply chain_ext; [|done]. intros i (Hi & _)%Hm. by rewrite Heq.
  - intros i j Hi Hj. rewrite !Heq by done. auto.
Qed.

Lemma blocks_ok_ext a sd bm bm' :
  (forall lb, lblock_ok cfg lb -> bm' lb = bm lb) -> blocks_ok cfg a sd bm -> blocks_ok cfg a sd bm'.
Proof.
  intros Heq [Ha Hs He Hi]. split; [done|done|..].
  - intros lb Hlb. rewrite Heq by done. auto.
  - intros lb lb' Hlb Hlb'. rewrite !Heq by done. auto.
Qed.

(** The store only depends on the used part of the blocks. *)
Lemma store_ext ue fm fm' L L' :
  cfg_wf cfg -> files_ok cfg ue fm -> (forall i, file_idx_ok cfg i -> fm' i = fm i) ->
  (forall lb, lblock_ok cfg lb ->
     sub_bytes (start_of cfg lb) (ue lb - start_of cfg lb) (L' lb) =
     sub_bytes (start_of cfg lb) (ue lb - start_of cfg lb) (L lb)) ->
  store fm' L' = store fm L.
Proof.
  intros Hcfg Hf Heq HL. apply slots_map_ext. intros i Hi. apply slot_moved; [by rewrite Heq|].
  rewrite Heq by done. intros Hv.
  destruct (file_range _ _ _ _ Hf Hi (visible_live _ Hv)) as (Hs & He & Hc).
  pose proof (start_nonneg (lblock (fm i)) Hcfg).
  eapply sub_bytes_within; [apply HL, (fk_lblock _ _ (fs_each _ _ _ Hf i Hi))|lia..].
Qed.
End store.
