(* ===== verification/ItsInv.v ===== *)
(** * The invariant of the file system on flash

    [disk_ok] describes a consistent file system with active metadata block
    [a]; [ready] adds what holds between two operations: the context agrees
    with the flash and the scratch blocks are erased.  [recoverable] is what
    remains true when an operation is cut short: [mount] still finds a
    consistent version. *)

From S2P Require Import Prelude Bytes ItsUtils ItsFlash ItsMeta ItsMblock ItsFs ItsState ItsView ItsCommit ItsLayout ItsStore.
From stdpp Require Import base list numbers functions gmap.
From Stdlib Require Import ZArith Lia.

Open Scope Z_scope.
Open Scope tfm_scope.

Section inv.
Context {F : Type} `{FlashOps F} (cfg : its_flash_fs_config_t).
Context `{!FlashLaws F (flash_cfg cfg)}.
Context (Hcfg : cfg_wf cfg) (Hev : ev_ok (flash_cfg cfg)).
Context (strict : bool) (Hstrict : strict = true -> FlashTotal F (flash_cfg cfg)).

Abbreviation fc := (flash_cfg cfg).
Abbreviation at_st := (at_st cfg).
Abbreviation flash_is := (flash_is cfg).
Abbreviation act c := (active_metablock c).
Abbreviation scr c := (scratch_metablock c).
Implicit Types (B : Z -> list Z) (bm : Z -> its_block_meta_t) (fm : Z -> its_file_meta_t).

(** The tables of the version in metadata block [a]. *)
Definition bm_of (a : Z) B (lb : Z) : its_block_meta_t := bmeta_at (B a) lb.
Definition fm_of (a : Z) B (i : Z) : its_file_meta_t := fmeta_at cfg (B a) i.
Definition blocks_of bm B (lb : Z) : list Z := B (phy_id (bm lb)).
Definition disk_store (a : Z) B : gmap (list Z) file := store cfg (fm_of a B) (blocks_of (bm_of a B) B).

Definition one_deleted fm : Prop := forall i j, file_idx_ok cfg i -> file_idx_ok cfg j ->
  deleted (fm i) = true -> deleted (fm j) = true -> i = j.
Definition none_deleted fm : Prop := forall i, file_idx_ok cfg i -> deleted (fm i) = false.

Record disk_ok (a : Z) B : Prop := {
  do_version : fs_version (header_at (B a)) = ITS_SUPPORTED_VERSION;
  do_swap : active_swap_count (header_at (B a)) <> erase_val fc;
  do_xor : xor_at cfg (B a) = metadata_xor (header_at (B a));
  do_blocks : blocks_ok cfg a (scratch_dblock (header_at (B a))) (bm_of a B);
  do_files : files_ok cfg (used_end cfg (bm_of a B)) (fm_of a B);
  do_deleted : one_deleted (fm_of a B);
}.

Record ready (c : its_flash_fs_ctx_t) B : Prop := {
  rd_ctx : ctx_ok c;
  rd_disk : disk_ok (act c) B;
  rd_header : meta_block_header c = header_at (B (act c));
  rd_erased b : in_flash cfg b -> is_scratch cfg c b -> B b = fill (block_size fc) (erase_val fc);
}.

Definition recoverable (f : F) (P : gmap (list Z) file -> Prop) : Prop :=
  exists a B, flash_is f B /\ mount cfg B = Some a /\ disk_ok a B /\ P (disk_store a B).

(** ** Mounting *)

Lemma disk_header_valid a B : disk_ok a B -> header_valid cfg (B a) = true.
Proof.
  intros [Hv Hs Hx _ _ _]. unfold header_valid. rewrite Hv. simpl.
  by rewrite Hx, Z.eqb_refl, (proj2 (Z.eqb_neq _ _)).
Qed.

Lemma header_valid_inv X : fs_version (header_at X) = ITS_SUPPORTED_VERSION ->
  header_valid cfg X = true ->
  active_swap_count (header_at X) <> erase_val fc /\ xor_at cfg X = metadata_xor (header_at X).
Proof.
  unfold header_valid. intros ->. simpl.
  rewrite andb_true_iff, negb_true_iff, Z.eqb_neq, Z.eqb_eq. tauto.
Qed.

Lemma mount_single a B :
  a = 0 \/ a = 1 -> header_valid cfg (B a) = true -> header_valid cfg (B (1 - a)) = false ->
  mount cfg B = Some a.
Proof.
  unfold mount. intros [->| ->]; [change (1 - 0) with 1|change (1 - 1) with 0]; by intros -> ->.
Qed.

(** The newer of two versions is selected. *)
Lemma mount_newer a B h :
  a = 0 \/ a = 1 -> header_valid cfg (B a) = true ->
  is_byte (active_swap_count h) -> active_swap_count h <> erase_val fc ->
  active_swap_count (header_at (B a)) = next_swap (erase_val fc) (active_swap_count h) ->
  (header_valid cfg (B (1 - a)) = true ->
   active_swap_count (header_at (B (1 - a))) = active_swap_count h) ->
  mount cfg B = Some a.
Proof.
  intros Ha Hva Hb Hne Hn Ho. destruct (header_valid cfg (B (1 - a))) eqn:Eo; [|by apply mount_single].
  specialize (Ho eq_refl).
  destruct (latest_is_next cfg (header_at (B (1 - a))) (header_at (B a))) as [H1 H0];
    rewrite ?Ho; try done.
  unfold mount. destruct Ha as [->| ->];
    [change (1 - 0) with 1 in *|change (1 - 1) with 0 in *]; rewrite Hva, Eo; congruence.
Qed.

(** ** A consistent version depends on its own blocks only *)

Lemma block_in_flash a sd bm lb :
  blocks_ok cfg a sd bm -> lblock_ok cfg lb -> in_flash cfg (phy_id (bm lb)) /\
  (if decide (lb = 0) then phy_id (bm lb) = a else 2 <= phy_id (bm lb) /\ phy_id (bm lb) <> sd).
Proof.
  intros Hb Hlb. pose proof (bk_a _ _ _ _ Hb). destruct (bk_each _ _ _ _ Hb lb Hlb) as [_ _ _ Hp].
  unfold in_flash. destruct (decide (lb = 0)); cfg_facts; [|lia]. rewrite Hp. split; [lia|done].
Qed.

Lemma disk_ok_ext a B B' :
  disk_ok a B ->
  (forall b, in_flash cfg b -> b = a \/ (2 <= b /\ b <> scratch_dblock (header_at (B a))) -> B' b = B b) ->
  disk_ok a B' /\ disk_store a B' = disk_store a B.
Proof.
  intros [Hv Hs Hx Hb Hf Hd] Heq. pose proof (bk_a _ _ _ _ Hb) as Ha.
  assert (B' a = B a) as HBa by (apply Heq; [unfold in_flash; cfg_lia|auto]).
  split; [split; unfold bm_of, fm_of; by rewrite HBa|].
  unfold disk_store. eapply store_ext; [done|exact Hf|unfold fm_of; by rewrite HBa|].
  intros lb Hlb. unfold blocks_of, bm_of. rewrite HBa. rewrite Heq; [done|..].
  - by destruct (block_in_flash _ _ _ _ Hb Hlb).
  - destruct (block_in_flash _ _ _ _ Hb Hlb) as [_ Hp]. destruct (decide (lb = 0)); auto.
Qed.

(** An erase that was cut short cannot make an old header look new. *)
Lemma sub_byte o X x : 0 <= o -> X !! Z.to_nat o = Some x -> le_val (sub_bytes o 1 X) = x.
Proof.
  intros Ho Hx. assert (sub_bytes o 1 X = [x]) as ->; [|simpl; lia].
  apply list_eq. intros [|i]; [|by rewrite sub_bytes_lookup_ge by lia].
  rewrite sub_bytes_lookup by lia. by rewrite Nat.add_0_r.
Qed.

Lemma cut_byte o X X' :
  0 <= o < zlen X -> cut_erase fc X X' ->
  le_val (sub_bytes o 1 X') = le_val (sub_bytes o 1 X) \/ le_val (sub_bytes o 1 X') = erase_val fc.
Proof.
  intros Ho [Hl Hc]. unfold zlen in *.
  destruct (lookup_lt_is_Some_2 X (Z.to_nat o) ltac:(lia)) as [x Hx].
  destruct (Hc (Z.to_nat o)) as [H1|H1]; [left|right].
  - rewrite Hx in H1. by rewrite !(sub_byte _ _ x) by (lia || done).
  - by apply sub_byte; [lia|].
Qed.

Lemma header_field o X : 0 <= o -> o + 1 <= 8 -> sub_bytes o 1 (sub_bytes 0 8 X) = sub_bytes o 1 X.
Proof. intros. rewrite sub_bytes_sub_bytes by lia. f_equal. Qed.

Lemma cut_erase_header X X' :
  8 <= zlen X -> cut_erase fc X X' -> fs_version (header_at X) = ITS_SUPPORTED_VERSION ->
  header_valid cfg X' = true -> active_swap_count (header_at X') = active_swap_count (header_at X).
Proof.
  intros Hl Hc Hv Hval. unfold header_at, header_of in *. cbn [fs_version active_swap_count] in *.
  rewrite !header_field in * by lia.
  destruct (cut_byte 4 X X' ltac:(lia) Hc) as [H4|H4], (cut_byte 6 X X' ltac:(lia) Hc) as [H6|H6];
    try done; exfalso; revert Hval; unfold header_valid, header_at, header_of;
    cbn [fs_version active_swap_count metadata_xor]; rewrite !header_field by lia; rewrite H4, ?Hv.
  - simpl. by rewrite H6, Z.eqb_refl.
  - by destruct Hev as [->| ->].
Qed.

(** ** Committing a version *)

(** The scratch blocks hold the next version but for its header: [B0] and
    [c] are the contents and the context before the operation, [B1] and [c1]
    the current ones, [bm'] and [fm'] the tables of the next version. *)
Record staged c B0 c1 B1 bm' fm' : Prop := {
  sg_ctx : ctx_ok c;
  sg_disk : disk_ok (act c) B0;
  sg_header : meta_block_header c = header_at (B0 (act c));
  sg_c1 : act c1 = act c /\ scr c1 = scr c;
  sg_h1 : fs_version (meta_block_header c1) = fs_version (meta_block_header c) /\
          active_swap_count (meta_block_header c1) = active_swap_count (meta_block_header c);
  sg_wf : header_wf (meta_block_header c1);
  sg_kept b : in_flash cfg b -> ~ is_scratch cfg c b -> B1 b = B0 b;
  sg_blank : erased fc 0 8 (B1 (scr c));
  sg_bm lb : lblock_ok cfg lb -> bmeta_at (B1 (scr c)) lb = bm' lb;
  sg_fm i : file_idx_ok cfg i -> fmeta_at cfg (B1 (scr c)) i = fm' i;
  sg_blocks : blocks_ok cfg (scr c) (scratch_dblock (meta_block_header c1)) bm';
  sg_files : files_ok cfg (used_end cfg bm') fm';
  sg_deleted : one_deleted fm';
}.

Lemma disk_swap_byte s c B a : at_st s c B -> in_flash cfg a ->
  is_byte (active_swap_count (header_at (B a))).
Proof.
  intros Hs Ha. destruct (header_of_wf (sub_bytes 0 8 (B a))); [| |done].
  - apply Forall_sub_bytes. by eapply at_st_bytes.
  - apply (zlen_sub_bytes 0 8); [lia|lia|]. rewrite (at_st_len _ _ _ _ _ Hs Ha). cfg_lia.
Qed.

(** Any contents with the staged metadata under a valid header. *)
Lemma new_disk c B0 c1 B1 bm' fm' d B2 :
  staged c B0 c1 B1 bm' fm' -> zlen (B1 (scr c)) = block_size fc -> zlen d <= 8 ->
  B2 (scr c) = splice 0 d (B1 (scr c)) ->
  fs_version (header_at (B2 (scr c))) = ITS_SUPPORTED_VERSION ->
  scratch_dblock (header_at (B2 (scr c))) = scratch_dblock (meta_block_header c1) ->
  header_valid cfg (B2 (scr c)) = true ->
  (forall b, in_flash cfg b -> 2 <= b -> b <> scratch_dblock (meta_block_header c1) -> B2 b = B1 b) ->
  disk_ok (scr c) B2 /\ disk_store (scr c) B2 = store cfg fm' (blocks_of bm' B1) /\
  (forall lb, lblock_ok cfg lb -> bm_of (scr c) B2 lb = bm' lb) /\
  (forall i, file_idx_ok cfg i -> fm_of (scr c) B2 i = fm' i).
Proof.
  intros [_ _ _ _ _ _ _ _ Hbm Hfm Hblk Hfl Hdel] Hlen Hd Hscr Hver Hsd Hval Hoth.
  pose proof (zlen_nonneg d) as Hd0.
  destruct (header_valid_inv _ Hver Hval) as [Hsw Hx].
  assert (forall lb, lblock_ok cfg lb -> bm_of (scr c) B2 lb = bm' lb) as Hbm'.
  { intros lb Hlb. rewrite <- Hbm by done. unfold bm_of, bmeta_at, lblock_ok in *.
    rewrite Hscr, sub_bytes_splice_disj by cfg_lia. done. }
  assert (forall i, file_idx_ok cfg i -> fm_of (scr c) B2 i = fm' i) as Hfm'.
  { intros i Hi. rewrite <- Hfm by done. unfold fm_of, fmeta_at, file_idx_ok in *.
    rewrite Hscr, sub_bytes_splice_disj by cfg_lia. done. }
  assert (forall lb, lblock_ok cfg lb -> used_end cfg (bm_of (scr c) B2) lb = used_end cfg bm' lb) as Hue
    by (intros lb Hlb; unfold used_end; by rewrite Hbm').
  split_and!; [|..|done|done].
  - split; [done..|rewrite Hsd; by eapply blocks_ok_ext| |].
    + eapply files_ok_ext; [|by eapply files_ok_fm_ext]. done.
    + intros i j Hi Hj. rewrite !Hfm' by done. auto.
  - eapply store_ext; [done|exact Hfl|done|]. intros lb Hlb. unfold blocks_of. rewrite Hbm' by done.
    destruct (block_in_flash _ _ _ _ Hblk Hlb) as [Hf Hp]. unfold start_of.
    destruct (decide (lb = 0)) as [->|].
    + rewrite Hp, Hscr. apply sub_bytes_splice_disj; cfg_lia.
    + by rewrite Hoth by tauto.
Qed.

(** The header being written over staged metadata. *)
Section commit.
Context (c c1 : its_flash_fs_ctx_t) (B0 B1 : Z -> list Z).
Context (bm' : Z -> its_block_meta_t) (fm' : Z -> its_file_meta_t).
Context (Hst : staged c B0 c1 B1 bm' fm').
Context (Hlen : forall b, in_flash cfg b -> zlen (B1 b) = block_size fc).
Context (Hswb : is_byte (active_swap_count (header_at (B0 (act c))))).

Let h' := next_header (erase_val fc) (xor_at cfg (B1 (scr c))) (meta_block_header c1).
Context (Hwf : header_wf h').

Lemma staged_act : B1 (act c) = B0 (act c) /\ in_flash cfg (scr c) /\ act c <> scr c /\
  scr c = 1 - act c /\ act c = 1 - scr c /\ (scr c = 0 \/ scr c = 1) /\ (act c = 0 \/ act c = 1).
Proof.
  pose proof (sg_ctx _ _ _ _ _ _ Hst) as Hc.
  destruct (act_in_flash cfg Hcfg c Hc) as (Ha & Hs & Hne).
  pose proof (do_blocks _ _ (sg_disk _ _ _ _ _ _ Hst)) as Hb.
  split_and!; [|done|done|unfold ctx_ok in Hc; lia..].
  apply (sg_kept _ _ _ _ _ _ Hst); [done|]. unfold is_scratch.
  rewrite (sg_header _ _ _ _ _ _ Hst). intros [?|[Hgt Heq]]; [congruence|].
  pose proof (bk_sd _ _ _ _ Hb Hgt). unfold ctx_ok in Hc. lia.
Qed.

Lemma h'_facts : fs_version h' = ITS_SUPPORTED_VERSION /\
  active_swap_count h' = next_swap (erase_val fc) (active_swap_count (header_at (B0 (act c)))) /\
  active_swap_count h' <> erase_val fc /\
  scratch_dblock h' = scratch_dblock (meta_block_header c1).
Proof.
  destruct (sg_h1 _ _ _ _ _ _ Hst) as [Hv Hsw]. pose proof (sg_header _ _ _ _ _ _ Hst) as Hh.
  unfold h', next_header; simpl. rewrite Hv, Hsw, Hh. split_and!; [|done| |done].
  - apply (do_version _ _ (sg_disk _ _ _ _ _ _ Hst)).
  - apply next_swap_ne. unfold is_byte. destruct Hev; lia.
Qed.

(** The first [k] bytes of the header are there. *)
Lemma torn_version k : 0 <= k <= 8 ->
  (k <= 6 -> header_valid cfg (with_header (scr c) k h' B1 (scr c)) = false) /\
  (7 <= k -> header_valid cfg (with_header (scr c) k h' B1 (scr c)) = true /\
     scratch_dblock (header_at (with_header (scr c) k h' B1 (scr c))) = scratch_dblock h' /\
     active_swap_count (header_at (with_header (scr c) k h' B1 (scr c))) = active_swap_count h' /\
     fs_version (header_at (with_header (scr c) k h' B1 (scr c))) = fs_version h').
Proof.
  intros Hk. destruct h'_facts as (Hv & _ & Hs & _), staged_act as (_ & Hf & _).
  unfold with_header. rewrite fn_lookup_insert.
  apply torn_header; auto; [rewrite (Hlen _ Hf); cfg_lia|cfg_lia|].
  apply (sg_blank _ _ _ _ _ _ Hst).
Qed.

Lemma with_header_other k b : b <> scr c -> with_header (scr c) k h' B1 b = B1 b.
Proof. intros. by apply fn_lookup_insert_ne. Qed.

(** Until the swap count is written the old version is mounted. *)
Lemma commit_old k : 0 <= k <= 6 ->
  let B := with_header (scr c) k h' B1 in
  mount cfg B = Some (act c) /\ disk_ok (act c) B /\ disk_store (act c) B = disk_store (act c) B0.
Proof.
  intros Hk B. destruct staged_act as (HBa & Hf & Hne & Hs1 & Ha1 & Hs01 & Ha01).
  destruct (torn_version k ltac:(lia)) as [Hinv _]. specialize (Hinv ltac:(lia)).
  destruct (disk_ok_ext (act c) B0 B (sg_disk _ _ _ _ _ _ Hst)) as [Hd Hs].
  { intros b Hb Hcase. assert (b <> scr c) as Hbs by (destruct Hcase; lia).
    unfold B. rewrite with_header_other by done.
    apply (sg_kept _ _ _ _ _ _ Hst); [done|]. unfold is_scratch.
    rewrite (sg_header _ _ _ _ _ _ Hst). intros [?|[Hgt Heq]]; [done|].
    destruct Hcase as [->|[? ?]]; [|done].
    pose proof (bk_sd _ _ _ _ (do_blocks _ _ (sg_disk _ _ _ _ _ _ Hst)) Hgt). lia. }
  split_and!; [|done|done]. apply mount_single; [done|by apply disk_header_valid|by rewrite <- Hs1].
Qed.

(** From then on the new one is, as long as the old header is not
    mistaken for a newer one. *)
Lemma commit_new k B : 7 <= k <= 8 ->
  B (scr c) = with_header (scr c) k h' B1 (scr c) ->
  (forall b, in_flash cfg b -> 2 <= b -> b <> scratch_dblock (meta_block_header c1) -> B b = B1 b) ->
  disk_ok (scr c) B /\ disk_store (scr c) B = store cfg fm' (blocks_of bm' B1) /\
  (forall lb, lblock_ok cfg lb -> bm_of (scr c) B lb = bm' lb) /\
  (forall i, file_idx_ok cfg i -> fm_of (scr c) B i = fm' i) /\
  (cut_erase fc (B1 (act c)) (B (act c)) -> mount cfg B = Some (scr c)).
Proof.
  intros Hk HBs Hoth. destruct staged_act as (HBa & Hf & Hne & Hs1 & Ha1 & Hs01 & Ha01).
  destruct (torn_version k ltac:(lia)) as [_ Hval]. destruct (Hval ltac:(lia)) as (V1 & V2 & V3 & V4).
  rewrite <- HBs in V1, V2, V3, V4. destruct h'_facts as (W1 & W2 & W3 & W4).
  assert (zlen (sub_bytes 0 k (header_bytes h')) = k) as Hz
    by (apply zlen_sub_bytes; rewrite ?zlen_header_bytes; unfold ITS_BLOCK_META_HEADER_SIZE; lia).
  unfold with_header in HBs. rewrite fn_lookup_insert in HBs.
  destruct (new_disk _ _ _ _ _ _ _ B Hst (Hlen _ Hf) ltac:(rewrite Hz; lia) HBs) as (D1 & D2 & D3 & D4);
    [congruence|congruence|done|done|].
  split_and!; [done..|]. intros Hcut. pose proof (sg_disk _ _ _ _ _ _ Hst) as Hd.
  apply (mount_newer _ _ (header_at (B0 (act c)))); [done|done|done|apply (do_swap _ _ Hd)|congruence|].
  rewrite <- Ha1. intros Hva. rewrite HBa in Hcut. eapply cut_erase_header; [|done|by destruct Hd|done].
  rewrite <- HBa, Hlen by (unfold in_flash; cfg_lia). cfg_lia.
Qed.
End commit.

(** Committing staged metadata: the new version is in place with clean
    scratch blocks, or the operation failed and a reset finds either the old
    version or the new one. *)
Lemma wp_commit Q E s c B0 c1 B1 bm' fm' :
  at_st s c1 B1 -> is_byte (active_swap_count (header_at (B0 (act c)))) ->
  staged c B0 c1 B1 bm' fm' ->
  (forall s' c' B', at_st s' c' B' -> ready c' B' -> act c' = scr c ->
     disk_store (act c') B' = store cfg fm' (blocks_of bm' B1) ->
     (forall lb, lblock_ok cfg lb -> bm_of (act c') B' lb = bm' lb) ->
     (forall i, file_idx_ok cfg i -> fm_of (act c') B' i = fm' i) -> Q tt s') ->
  (forall e s', strict = false -> e <> PSA_SUCCESS ->
     recoverable (st_flash s')
       (fun S => S = disk_store (act c) B0 \/ S = store cfg fm' (blocks_of bm' B1)) -> E e s') ->
  wp (its_flash_fs_mblock_meta_update_finalize cfg) Q E s.
Proof.
  intros Hs Hswb Hst HQ HE. assert (forall b, in_flash cfg b -> zlen (B1 b) = block_size fc) as Hlen
    by (intros; by eapply at_st_len).
  destruct (staged_act _ _ _ _ _ _ Hst) as (HBa & Hf & Hne & Hs1 & Ha1 & Hs01 & Ha01).
  destruct (sg_c1 _ _ _ _ _ _ Hst) as [Eact Escr]. pose proof (sg_wf _ _ _ _ _ _ Hst) as Hw1.
  pose proof (bk_sd _ _ _ _ (sg_blocks _ _ _ _ _ _ Hst)) as Hsd.
  set (h' := next_header (erase_val fc) (xor_at cfg (B1 (scr c))) (meta_block_header c1)) in *.
  assert (header_wf h') as Hwf by (eapply next_header_wf; [done|]; by eapply at_st_bytes).
  assert (scratch_dblock h' = scratch_dblock (meta_block_header c1)) as Hsd' by done.
  pose proof (commit_new c c1 B0 B1 bm' fm' Hst Hlen Hswb Hwf) as Hnew. fold h' in Hnew.
  eapply (wp_finalize cfg Hcfg strict Hstrict Q E s c1 B1); [done| |done|exact Hsd|by rewrite Escr; apply (sg_blank _ _ _ _ _ _ Hst)|..];
    rewrite ?Eact, ?Escr; fold h'.
  - unfold ctx_ok. lia.
  - intros s' Hs'. set (c' := FsCtx h' (scr c) (act c)) in *. set (B' := wiped _ _ _) in Hs'.
    assert (B' (scr c) = with_header (scr c) 8 h' B1 (scr c)) as HBs.
    { unfold B', wiped, is_scratch, c'. simpl. rewrite decide_False; [done|].
      intros [?|[Hgt ?]]; [congruence|]. specialize (Hsd Hgt). lia. }
    destruct (Hnew 8 B' ltac:(lia) HBs) as (D1 & D2 & D3 & D4 & _).
    { intros b Hb H2b Hbsd. unfold B', wiped, is_scratch, c'. simpl.
      rewrite decide_False by (intros [?|[_ ?]]; [lia|done]). by apply with_header_other; lia. }
    eapply HQ; [exact Hs'| |done|done|done|done]. split.
    + unfold ctx_ok, c'; simpl. lia.
    + done.
    + unfold c'; simpl. rewrite HBs, with_header_8, fn_lookup_insert. unfold header_at.
      rewrite sub_bytes_splice_eq; [by rewrite header_of_bytes|lia| |done].
      rewrite zlen_header_bytes, Hlen by done. unfold ITS_BLOCK_META_HEADER_SIZE. cfg_lia.
    + intros b Hb Hsb. unfold B', wiped. by rewrite decide_True.
  - intros e s' k Hstr He Hk Hfl. apply HE; [done|done|]. destruct (decide (k <= 6)).
    + destruct (commit_old c c1 B0 B1 bm' fm' Hst Hlen Hwf k ltac:(lia)) as (H1 & H2 & H3).
      eexists _, _. split_and!; [done|done|done|by left].
    + destruct (Hnew k _ ltac:(lia) eq_refl) as (H1 & H2 & _ & _ & H3).
      { intros. apply with_header_other. lia. }
      eexists _, _. split_and!; [done| |done|by right]. apply H3.
      rewrite (with_header_other c c1 B1 k) by done. apply cut_erase_refl.
  - intros e s' B'' Hstr He Hfl Hcut Hoth. apply HE; [done|done|].
    destruct (Hnew 8 B'' ltac:(lia)) as (H1 & H2 & _ & _ & H3).
    + apply Hoth. unfold is_scratch. simpl.
      intros [?|[Hgt ?]]; [congruence|]. specialize (Hsd Hgt). lia.
    + intros b Hb H2b Hbsd. rewrite Hoth; [by apply with_header_other; lia|].
      unfold is_scratch. simpl. intros [?|[_ ?]]; [lia|done].
    + eexists _, _. split_and!; [done|by apply H3|done|by right].
Qed.
End inv.
