(* ===== verification/ItsLookup.v ===== *)
(** * Looking files and free space up

    The operations that only read the active metadata block: finding a file,
    a free entry of the file table and a block with enough free space.  Their
    results are functions of the tables. *)

From S2P Require Import Prelude Bytes ItsUtils ItsFlash ItsMeta ItsMblock ItsFs ItsState ItsView ItsCommit ItsLayout ItsStore ItsInv.
From stdpp Require Import base list numbers functions gmap.
From Stdlib Require Import ZArith Lia.

Open Scope Z_scope.
Open Scope tfm_scope.

(** The entry [its_get_free_file_index] picks: the first free one, or the
    second when one has to be kept in reserve. *)
Fixpoint free_index (fm : Z -> its_file_meta_t) (n : nat) (i : Z) (use_spare : bool) : Z :=
  match n with
  | O => ITS_METADATA_INVALID_INDEX
  | S n =>
      if live (fm i) then free_index fm n (i + 1) use_spare
      else if use_spare then i else free_index fm n (i + 1) true
  end.

(** The first block with [size] free bytes. *)
Fixpoint free_block (bm : Z -> its_block_meta_t) (size : Z) (n : nat) (lb : Z) : option Z :=
  match n with
  | O => None
  | S n => if free_size (bm lb) >=? size then Some lb else free_block bm size n (lb + 1)
  end.

Lemma free_index_spec fm n i use_spare :
  let r := free_index fm n i use_spare in
  r = ITS_METADATA_INVALID_INDEX \/ (i <= r < i + Z.of_nat n /\ live (fm r) = false).
Proof.
  revert i use_spare. induction n as [|n IH]; intros i sp; simpl; [by left|].
  destruct (live (fm i)) eqn:E; [|destruct sp].
  - destruct (IH (i + 1) sp) as [?|[? ?]]; [by left|right; split; [lia|done]].
  - right. split; [lia|done].
  - destruct (IH (i + 1) true) as [?|[? ?]]; [by left|right; split; [lia|done]].
Qed.

Lemma free_block_spec bm size n lb r :
  free_block bm size n lb = Some r -> lb <= r < lb + Z.of_nat n /\ size <= free_size (bm r).
Proof.
  revert lb. induction n as [|n IH]; intros lb; simpl; [done|].
  rewrite Z.geb_leb. destruct (Z.leb_spec size (free_size (bm lb))).
  - intros [= <-]. split; [lia|done].
  - intros [? ?]%IH. split; [lia|done].
Qed.

Lemma free_block_None bm size n lb r :
  free_block bm size n lb = None -> lb <= r < lb + Z.of_nat n -> free_size (bm r) < size.
Proof.
  revert lb. induction n as [|n IH]; intros lb; simpl; [lia|].
  rewrite Z.geb_leb. destruct (Z.leb_spec size (free_size (bm lb))) as [|Hlt]; [done|].
  intros Hn Hr. destruct (decide (r = lb)) as [->|]; [done|]. apply (IH (lb + 1)); [done|lia].
Qed.

Section lookup.
Context {F : Type} `{FlashOps F} (cfg : its_flash_fs_config_t).
Context `{!FlashLaws F (flash_cfg cfg)}.
Context (Hcfg : cfg_wf cfg).
Context (P : Z -> Z) (B0 : Z -> list Z).
Context (strict : bool) (Hstrict : strict = true -> FlashTotal F (flash_cfg cfg)).

Abbreviation fc := (flash_cfg cfg).
Abbreviation n := (max_num_files cfg).
Abbreviation is_st := (is_st cfg P B0).
Abbreviation io_error := (io_error cfg P B0 strict).
Abbreviation act c := (active_metablock c).

(** Every entry of a metadata block passes validation. *)
Record meta_valid (A : list Z) : Prop := {
  mv_block lb : lblock_ok cfg lb -> its_mblock_validate_block_meta cfg (bmeta_at A lb) = PSA_SUCCESS;
  mv_file i : file_idx_ok cfg i -> its_mblock_validate_file_meta cfg (fmeta_at cfg A i) = PSA_SUCCESS;
}.

Lemma disk_ok_valid a B : disk_ok cfg a B -> meta_valid (B a).
Proof.
  intros [_ _ _ Hb Hf _]. split.
  - intros lb Hlb. apply (blocks_validate cfg _ _ (bm_of a B) lb Hcfg Hb Hlb).
  - intros i Hi. apply (files_validate cfg _ _ _ (fm_of cfg a B) i Hcfg Hb Hf Hi).
Qed.

(** Code that is executed in a state [s] that it leaves alone. *)
Context (s : fs_st F) (c : its_flash_fs_ctx_t) (B : Z -> list Z).
Context (Hs : is_st s c B) (Hc : ctx_ok c) (Hv : meta_valid (B (act c))).

Abbreviation fm := (fm_of cfg (act c) B).
Abbreviation bm := (bm_of (act c) B).

Lemma wp_read_fm i Q E : file_idx_ok cfg i -> Q (fm i) s ->
  (forall e, strict = false -> e <> PSA_SUCCESS -> E e s) ->
  wp (its_flash_fs_mblock_read_file_meta cfg i) Q E s.
Proof.
  intros Hi HQ HE. destruct (act_in_flash cfg Hcfg c Hc) as (Ha & _ & _). unfold file_idx_ok in Hi.
  unfold its_flash_fs_mblock_read_file_meta. apply wp_bind. eapply wp_ctx; [done|].
  rewrite file_off_spec by (auto; lia). apply wp_bind. unfold ITS_FILE_METADATA_SIZE.
  eapply wp_ops_read_or; [done|done|done|cfg_lia|lia|cfg_lia| |done].
  apply wp_bind. apply wp_of_status; [intros _; by apply wp_ret|].
  intros []. by apply (mv_file _ Hv i).
Qed.

Lemma wp_read_bm lb Q E : lblock_ok cfg lb -> Q (bm lb) s ->
  (forall e, strict = false -> e <> PSA_SUCCESS -> E e s) ->
  wp (its_flash_fs_mblock_read_block_metadata cfg lb) Q E s.
Proof.
  intros Hi HQ HE. destruct (act_in_flash cfg Hcfg c Hc) as (Ha & _ & _). unfold lblock_ok in Hi.
  unfold its_flash_fs_mblock_read_block_metadata. apply wp_bind. eapply wp_ctx; [done|].
  rewrite (block_off_spec cfg) by (auto; lia). apply wp_bind. unfold ITS_BLOCK_METADATA_SIZE.
  eapply wp_ops_read_or; [done|done|done|cfg_lia|lia|cfg_lia| |done].
  apply wp_bind. apply wp_of_status; [intros _; by apply wp_ret|].
  intros []. by apply (mv_block _ Hv lb).
Qed.

(** *** Finding a file *)

Lemma wp_get_idx_loop fid k i Q E :
  0 <= i -> i + Z.of_nat k = n ->
  (forall j, file_idx_ok cfg j -> j < i -> id (fm j) <> fid) ->
  (forall j, file_idx_ok cfg j -> id (fm j) = fid -> Q (j, fm j) s) ->
  ((forall j, file_idx_ok cfg j -> id (fm j) <> fid) -> E PSA_ERROR_DOES_NOT_EXIST s) ->
  (strict = false -> E PSA_ERROR_GENERIC_ERROR s) ->
  wp (get_file_idx_meta_loop cfg fid k i) Q E s.
Proof.
  intros Hi Hk Hno HQ HN HE. revert i Hi Hk Hno.
  induction k as [|k IH]; intros i Hi Hk Hno; cbn [get_file_idx_meta_loop].
  - apply wp_fail, HN. intros j Hj. apply Hno; [done|]. unfold file_idx_ok in Hj. lia.
  - assert (file_idx_ok cfg i) as Hi' by (unfold file_idx_ok; lia).
    apply wp_bind, wp_or_return.
    apply wp_read_fm; [done| |auto].
    destruct (decide (id (fm i) = fid)) as [Heq|Hne]; [by apply wp_ret; auto|].
    apply IH; [lia|lia|]. intros j Hj Hlt. destruct (decide (j = i)) as [->|]; [done|].
    apply Hno; [done|lia].
Qed.

Lemma wp_get_file_idx_meta fid Q E :
  (forall j, file_idx_ok cfg j -> id (fm j) = fid -> Q (j, fm j) s) ->
  ((forall j, file_idx_ok cfg j -> id (fm j) <> fid) -> E PSA_ERROR_DOES_NOT_EXIST s) ->
  (strict = false -> E PSA_ERROR_GENERIC_ERROR s) ->
  wp (its_flash_fs_mblock_get_file_idx_meta cfg fid) Q E s.
Proof.
  intros. unfold its_flash_fs_mblock_get_file_idx_meta. cfg_facts.
  apply wp_get_idx_loop; auto; [lia|lia|]. unfold file_idx_ok. lia.
Qed.

(** Finding an entry with a flag. *)
Lemma wp_get_idx_flag_loop flgs k i Q E :
  0 <= i -> i + Z.of_nat k = n ->
  (forall j, file_idx_ok cfg j -> j < i -> has_flag (flags (fm j)) flgs = false) ->
  (forall j, file_idx_ok cfg j -> has_flag (flags (fm j)) flgs = true -> Q j s) ->
  ((forall j, file_idx_ok cfg j -> has_flag (flags (fm j)) flgs = false) -> E PSA_ERROR_DOES_NOT_EXIST s) ->
  (strict = false -> E PSA_ERROR_GENERIC_ERROR s) ->
  wp (get_file_idx_flag_loop cfg flgs k i) Q E s.
Proof.
  intros Hi Hk Hno HQ HN HE. revert i Hi Hk Hno.
  induction k as [|k IH]; intros i Hi Hk Hno; cbn [get_file_idx_flag_loop].
  - apply wp_fail, HN. intros j Hj. apply Hno; [done|]. unfold file_idx_ok in Hj. lia.
  - assert (file_idx_ok cfg i) as Hi' by (unfold file_idx_ok; lia).
    apply wp_bind, wp_or_return.
    apply wp_read_fm; [done| |auto].
    fold (has_flag (flags (fm i)) flgs).
    destruct (has_flag (flags (fm i)) flgs) eqn:Hfl; [by apply wp_ret; auto|].
    apply IH; [lia|lia|]. intros j Hj Hlt. destruct (decide (j = i)) as [->|]; [done|].
    apply Hno; [done|lia].
Qed.

Lemma wp_get_file_idx_flag flgs Q E :
  (forall j, file_idx_ok cfg j -> has_flag (flags (fm j)) flgs = true -> Q j s) ->
  ((forall j, file_idx_ok cfg j -> has_flag (flags (fm j)) flgs = false) -> E PSA_ERROR_DOES_NOT_EXIST s) ->
  (strict = false -> E PSA_ERROR_GENERIC_ERROR s) ->
  wp (its_flash_fs_mblock_get_file_idx_flag cfg flgs) Q E s.
Proof.
  intros. unfold its_flash_fs_mblock_get_file_idx_flag. cfg_facts.
  apply wp_get_idx_flag_loop; auto; [lia|lia|]. unfold file_idx_ok. lia.
Qed.

(** *** Finding room for a file *)

Lemma wp_free_index_loop k i use_spare Q E :
  0 <= i -> i + Z.of_nat k = n ->
  Q (free_index fm k i use_spare) s ->
  (strict = false -> Q ITS_METADATA_INVALID_INDEX s) ->
  wp (get_free_file_index_loop cfg k i use_spare) Q E s.
Proof.
  intros Hi Hk HQ HE. revert i use_spare Hi Hk HQ.
  induction k as [|k IH]; intros i sp Hi Hk HQ; cbn [get_free_file_index_loop free_index] in *.
  - by apply wp_ret.
  - assert (file_idx_ok cfg i) as Hi' by (unfold file_idx_ok; lia).
    apply wp_bind, wp_try.
    apply wp_read_fm; [done|..].
    + fold (live (fm i)). destruct (live (fm i)); [|destruct sp].
      * apply IH; [lia|lia|done].
      * by apply wp_ret.
      * apply IH; [lia|lia|done].
    + intros e Hst He. by apply wp_ret, HE.
Qed.

Lemma wp_get_free_file_index use_spare Q E :
  Q (free_index fm (Z.to_nat n) 0 use_spare) s ->
  (strict = false -> Q ITS_METADATA_INVALID_INDEX s) ->
  wp (its_get_free_file_index cfg use_spare) Q E s.
Proof.
  intros. unfold its_get_free_file_index. cfg_facts. apply wp_free_index_loop; auto; lia.
Qed.

(** What the file system reserves for a file of [size] bytes in block [lb]. *)
Definition reserved_file (fid : list Z) (size flgs lb : Z) : its_file_meta_t :=
  FileMeta lb (used_end cfg bm lb) 0 size flgs fid.

Definition reserved_block (size lb : Z) : its_block_meta_t :=
  BlockMeta (phy_id (bm lb)) (data_start (bm lb)) (free_size (bm lb) - size).

Lemma bm_free_range lb : lblock_ok cfg lb -> 0 <= free_size (bm lb) <= block_size fc.
Proof.
  intros Hlb. pose proof (mv_block _ Hv lb Hlb) as Hval. fold (bm lb) in Hval.
  unfold its_mblock_validate_block_meta, validate_block_meta_at in Hval.
  destruct (act_in_flash cfg Hcfg c Hc) as (Ha & _ & _).
  destruct (bmeta_at_wf cfg Hcfg _ _ _ _ _ _ lb Hs Ha Hlb) as [_ [Hd0 _] [Hf0 _]].
  fold (bm lb) in Hd0, Hf0. split; [done|].
  destruct (phy_id (bm lb) >=? num_blocks fc); [done|].
  destruct (Z.eqb_spec (its_utils_check_contained_in (block_size fc) (data_start (bm lb))
              (free_size (bm lb))) PSA_SUCCESS) as [Hok|]; [|done].
  apply check_contained_in_ok in Hok; [lia|cfg_lia|done].
Qed.

Lemma wp_reserve_loop fid size flgs k lb Q E :
  0 <= size -> 0 <= lb -> lb + Z.of_nat k = nact cfg ->
  (forall r, free_block bm size k lb = Some r ->
     Q (reserved_file fid size flgs r, reserved_block size r) s) ->
  (free_block bm size k lb = None -> E PSA_ERROR_INSUFFICIENT_STORAGE s) ->
  (strict = false -> E PSA_ERROR_GENERIC_ERROR s) ->
  wp (reserve_file_loop cfg fid size flgs k lb) Q E s.
Proof.
  intros Hsz Hlb Hk HQ HN HE. revert lb Hlb Hk HQ HN.
  induction k as [|k IH]; intros lb Hlb Hk HQ HN; cbn [reserve_file_loop free_block] in *.
  - by apply wp_fail, HN.
  - assert (lblock_ok cfg lb) as Hlb' by (unfold lblock_ok; lia).
    apply wp_bind, wp_or_return.
    apply wp_read_bm; [done|..].
    + destruct (free_size (bm lb) >=? size) eqn:Hge.
      * apply wp_ret. rewrite Z.geb_leb, Z.leb_le in Hge. pose proof (bm_free_range lb Hlb').
        specialize (HQ lb eq_refl). unfold reserved_file, reserved_block, used_end in HQ.
        rewrite !u32_id by cfg_lia. exact HQ.
      * apply IH; [lia|lia|done|done].
    + auto.
Qed.

(** The answer of [its_flash_fs_mblock_reserve_file]. *)
Definition room (use_spare : bool) (size : Z) : option (Z * Z) :=
  match free_block bm size (Z.to_nat (nact cfg)) 0 with
  | Some lb =>
      let idx := free_index fm (Z.to_nat n) 0 use_spare in
      if idx =? ITS_METADATA_INVALID_INDEX then None else Some (idx, lb)
  | None => None
  end.

Lemma wp_reserve_file fid use_spare size flgs Q E :
  0 <= size ->
  (forall idx lb, room use_spare size = Some (idx, lb) ->
     Q (idx, reserved_file fid size flgs lb, reserved_block size lb) s) ->
  (room use_spare size = None -> E PSA_ERROR_INSUFFICIENT_STORAGE s) ->
  (strict = false -> E PSA_ERROR_INSUFFICIENT_STORAGE s) ->
  wp (its_flash_fs_mblock_reserve_file cfg fid use_spare size flgs) Q E s.
Proof.
  intros Hsz HQ HN HE. unfold its_flash_fs_mblock_reserve_file, its_mblock_reserve_file.
  rewrite num_active_spec by done. apply wp_bind, wp_try. unfold room in HQ, HN.
  apply wp_reserve_loop; [done|lia|cfg_lia|..].
  - intros lb Hlb. rewrite Hlb in HQ, HN. apply wp_bind.
    apply wp_get_free_file_index.
    + destruct (Z.eqb_spec (free_index fm (Z.to_nat n) 0 use_spare) ITS_METADATA_INVALID_INDEX).
      * by apply wp_fail, HN.
      * by apply wp_ret, HQ.
    + intros Hst. rewrite Z.eqb_refl. by apply wp_fail, HE.
  - intros Hno. rewrite Hno in HN. apply wp_bind. apply wp_get_free_file_index; intros; apply wp_fail; auto.
  - intros Hst. apply wp_bind. apply wp_get_free_file_index; intros; apply wp_fail; auto.
Qed.
End lookup.
