(* ===== verification/ItsPhase.v ===== *)
(** * Staging an update

    While an update is prepared only the scratch blocks change, and of the
    scratch metadata block not the header.  Such a phase may fail at any point:
    a reset then finds the version that was active. *)

From S2P Require Import Prelude Bytes ItsUtils ItsFlash ItsMeta ItsMblock ItsFs ItsState ItsView ItsCommit ItsLayout ItsStore ItsInv.
From stdpp Require Import base list numbers functions gmap.
From Stdlib Require Import ZArith Lia.

Open Scope Z_scope.
Open Scope tfm_scope.

Section phase.
Context {F : Type} `{FlashOps F} (cfg : its_flash_fs_config_t).
Context `{!FlashLaws F (flash_cfg cfg)}.
Context (Hcfg : cfg_wf cfg) (Hev : ev_ok (flash_cfg cfg)).
Context (strict : bool) (Hstrict : strict = true -> FlashTotal F (flash_cfg cfg)).

Abbreviation fc := (flash_cfg cfg).
Abbreviation bs := (block_size (flash_cfg cfg)).
Abbreviation act c := (active_metablock c).
Abbreviation scr c := (scratch_metablock c).

(** Up to where block [b] is protected. *)
Definition phase (c : its_flash_fs_ctx_t) (b : Z) : Z :=
  if decide (b = scr c) then 8 else if decide (is_scratch cfg c b) then 0 else bs.

Abbreviation staging c B0 := (is_st cfg (phase c) B0).
Abbreviation io_error c B0 := (io_error cfg (phase c) B0 strict).

Lemma phase_scr c : phase c (scr c) = 8.
Proof. unfold phase. by rewrite decide_True. Qed.

Lemma phase_scratch c b : is_scratch cfg c b -> b <> scr c -> phase c b = 0.
Proof. intros. unfold phase. rewrite decide_False by done. by rewrite decide_True. Qed.

(** The scratch block for the data of logical block [lb]. *)
Definition scratch_for (c : its_flash_fs_ctx_t) (lb : Z) : Z :=
  if lb =? ITS_LOGICAL_DBLOCK0 then scr c else scratch_dblock (meta_block_header c).

Lemma wp_scratch_for lb Q E s c1 B P B0 :
  is_st cfg P B0 s c1 B -> Q (scratch_for c1 lb) s ->
  wp (its_flash_fs_mblock_cur_data_scratch_id lb) Q E s.
Proof.
  intros Hs HQ. unfold its_flash_fs_mblock_cur_data_scratch_id. apply wp_bind.
  eapply wp_ctx; [done|]. unfold scratch_for in HQ. destruct (lb =? _); by apply wp_ret.
Qed.

Section ready.
Context (c : its_flash_fs_ctx_t) (B0 : Z -> list Z) (Hr : ready cfg c B0).
Context (Hlen : forall b, in_flash cfg b -> zlen (B0 b) = bs).

Let Hc : ctx_ok c := rd_ctx _ _ _ Hr.
Let Hd : disk_ok cfg (act c) B0 := rd_disk _ _ _ Hr.
Let Hb : blocks_ok cfg (act c) (scratch_dblock (header_at (B0 (act c)))) (bm_of (act c) B0) :=
  do_blocks _ _ _ Hd.

Lemma ready_sd : 2 < num_blocks fc -> 2 <= scratch_dblock (meta_block_header c) < num_blocks fc.
Proof. rewrite (rd_header _ _ _ Hr). apply (bk_sd _ _ _ _ Hb). Qed.

(** Where the data of logical block [lb] is read from and written to. *)
Lemma lb_blocks lb : lblock_ok cfg lb ->
  in_flash cfg (phy_id (bm_of (act c) B0 lb)) /\ in_flash cfg (scratch_for c lb) /\
  ~ is_scratch cfg c (phy_id (bm_of (act c) B0 lb)) /\ is_scratch cfg c (scratch_for c lb) /\
  phy_id (bm_of (act c) B0 lb) <> scratch_for c lb /\
  (lb = 0 -> phy_id (bm_of (act c) B0 lb) = act c /\ scratch_for c lb = scr c) /\
  (lb <> 0 -> scratch_for c lb <> scr c /\ scratch_for c lb = scratch_dblock (meta_block_header c) /\
              2 <= phy_id (bm_of (act c) B0 lb)) /\
  phase c (scratch_for c lb) <= start_of cfg lb.
Proof.
  intros Hlb. destruct (act_in_flash cfg Hcfg c Hc) as (Ha & Hs & Hne).
  destruct (block_in_flash cfg Hcfg _ _ _ _ Hb Hlb) as [Hf Hp].
  pose proof ready_sd as Hsd. rewrite <- (rd_header _ _ _ Hr) in Hp.
  assert (lb <> 0 -> 2 < num_blocks fc) as H2.
  { unfold lblock_ok, nact in Hlb. destruct (Z.eqb_spec (num_blocks fc) 2); cfg_lia. }
  pose proof Hc as Hc'. unfold ctx_ok in Hc'.
  set (p := phy_id (bm_of (act c) B0 lb)) in *. set (sd := scratch_dblock (meta_block_header c)) in *.
  unfold scratch_for, ITS_LOGICAL_DBLOCK0, start_of. fold sd.
  destruct (decide (lb = 0)) as [->|Hl0].
  - change (0 =? 0) with true. cbv match. rewrite Hp, phase_scr.
    assert (~ is_scratch cfg c (act c)) as Hns.
    { unfold is_scratch. fold sd. intros [?|[Hgt ?]]; [lia|]. specialize (Hsd Hgt). lia. }
    assert (is_scratch cfg c (scr c)) by (by left). split_and!; try done; cfg_lia.
  - rewrite (proj2 (Z.eqb_neq lb 0)) by done. specialize (H2 Hl0). specialize (Hsd H2).
    assert (is_scratch cfg c sd) as Hscr by (by right).
    rewrite phase_scratch by (done || lia). 
    assert (~ is_scratch cfg c p) by (unfold is_scratch; fold sd; intros [?|[? ?]]; lia).
    assert (in_flash cfg sd) by (unfold in_flash; lia). split_and!; done || lia.
Qed.

(** The rest of the flash stays as it was. *)
Lemma staging_kept s c1 B b :
  staging c B0 s c1 B -> in_flash cfg b -> ~ is_scratch cfg c b -> B b = B0 b.
Proof.
  intros Hs Hbf Hns. pose proof Hs as (_ & _ & _ & HK). specialize (HK b Hbf). unfold kept in HK.
  pose proof (is_st_len _ _ _ _ _ _ _ Hs Hbf) as Hl. unfold phase in HK.
  rewrite decide_False in HK by (intros ->; apply Hns; by left). rewrite decide_False in HK by done.
  rewrite <- Hl in HK at 1. rewrite <- (Hlen b Hbf) in HK. by rewrite !sub_bytes_all in HK.
Qed.

Lemma act_not_scratch : ~ is_scratch cfg c (act c).
Proof.
  pose proof ready_sd as Hsd. pose proof Hc as Hc'. unfold ctx_ok, is_scratch in *.
  intros [?|[? ?]]; [lia|]. specialize (Hsd ltac:(lia)). lia.
Qed.

Lemma staging_act s c1 B : staging c B0 s c1 B -> B (act c) = B0 (act c).
Proof.
  intros Hs. eapply staging_kept; [done| |apply act_not_scratch].
  by destruct (act_in_flash cfg Hcfg c Hc).
Qed.

Lemma staging_blank s c1 B : staging c B0 s c1 B -> erased fc 0 8 (B (scr c)).
Proof.
  intros (_ & _ & _ & HK). destruct (act_in_flash cfg Hcfg c Hc) as (_ & Hs & _).
  specialize (HK _ Hs). unfold kept in HK. rewrite phase_scr in HK. unfold erased. rewrite HK.
  rewrite (rd_erased _ _ _ Hr) by (done || by left). apply sub_bytes_fill; cfg_lia.
Qed.

(** A staging phase starts from the ready state. *)
Lemma staging_start s : at_st cfg s c B0 -> staging c B0 s c B0.
Proof. apply at_is_st. Qed.

(** A metadata block without a header is not mounted. *)
Lemma blank_invalid X : 8 <= zlen X -> erased fc 0 8 X -> header_valid cfg X = false.
Proof.
  intros Hl He. unfold header_valid, header_at, header_of. unfold erased in He. rewrite He. simpl.
  by destruct Hev as [->| ->].
Qed.

Lemma old_mounted B :
  (forall b, in_flash cfg b -> ~ is_scratch cfg c b -> B b = B0 b) ->
  zlen (B (scr c)) = bs -> erased fc 0 8 (B (scr c)) ->
  mount cfg B = Some (act c) /\ disk_ok cfg (act c) B /\
  disk_store cfg (act c) B = disk_store cfg (act c) B0.
Proof.
  intros Hk Hl He. pose proof Hc as Hc'. unfold ctx_ok in Hc'. pose proof ready_sd as Hsd.
  destruct (disk_ok_ext cfg Hcfg (act c) B0 B Hd) as [H1 H2].
  { intros b Hbf Hcase. apply Hk; [done|]. rewrite <- (rd_header _ _ _ Hr) in Hcase.
    unfold is_scratch. intros [?|[? ?]]; [lia|]. specialize (Hsd ltac:(lia)). lia. }
  split_and!; [|done|done]. apply mount_single; [lia|by apply disk_header_valid|].
  replace (1 - act c) with (scr c) by lia. apply blank_invalid; [rewrite Hl; cfg_lia|done].
Qed.

(** What a reset finds when the update is abandoned. *)
Lemma staging_recoverable s c1 B : staging c B0 s c1 B ->
  recoverable cfg (st_flash s) (fun S => S = disk_store cfg (act c) B0).
Proof.
  intros Hs. destruct (act_in_flash cfg Hcfg c Hc) as (_ & Hsc & _).
  destruct (old_mounted B) as (H1 & H2 & H3).
  - intros. by eapply staging_kept.
  - by eapply is_st_len.
  - by eapply staging_blank.
  - exists (act c), B. split_and!; try done. by apply is_at_st in Hs as [? _].
Qed.

Lemma io_recoverable e s : io_error c B0 e s ->
  recoverable cfg (st_flash s) (fun S => S = disk_store cfg (act c) B0).
Proof.
  intros (_ & _ & Hok & HK).
  eapply (staging_recoverable s (st_ctx s) (fl_block (st_flash s))). by split_and!.
Qed.
End ready.
End phase.
