(* ===== verification/ItsFileData.v ===== *)
(** * Staging the data of a file

    Writing and compacting a data block, and carrying the data of logical
    block 0 over to the scratch metadata block. *)

From S2P Require Import Prelude Bytes ItsUtils ItsFlash ItsMeta ItsMblock ItsFs ItsState ItsView ItsCommit ItsLayout ItsStore ItsInv ItsLookup ItsPhase.
From stdpp Require Import base list numbers functions gmap.
From Stdlib Require Import ZArith Lia.

Open Scope Z_scope.
Open Scope tfm_scope.

Section data.
Context {F : Type} `{FlashOps F} (cfg : its_flash_fs_config_t).
Context `{!FlashLaws F (flash_cfg cfg)}.
Context (Hcfg : cfg_wf cfg) (Hev : ev_ok (flash_cfg cfg)).
Context (strict : bool) (Hstrict : strict = true -> FlashTotal F (flash_cfg cfg)).
Context (c : its_flash_fs_ctx_t) (B0 : Z -> list Z) (Hr : ready cfg c B0).
Context (Hlen : forall b, in_flash cfg b -> zlen (B0 b) = block_size (flash_cfg cfg)).

Abbreviation fc := (flash_cfg cfg).
Abbreviation bs := (block_size (flash_cfg cfg)).
Abbreviation act c := (active_metablock c).
Abbreviation scr c := (scratch_metablock c).
Abbreviation staging := (is_st cfg (phase cfg c) B0).
Abbreviation io_error := (io_error cfg (phase cfg c) B0 strict).
Abbreviation bm0 := (bm_of (act c) B0).
Abbreviation src lb := (phy_id (bm_of (act c) B0 lb)).
Abbreviation dst lb := (scratch_for c lb).
Abbreviation start := (start_of cfg).

Lemma only_keeps b o n B B' o' n' :
  only b o n B B' -> 0 <= o' -> 0 <= n' -> o' + n' <= o \/ o + n <= o' ->
  sub_bytes o' n' (B' b) = sub_bytes o' n' (B b).
Proof. intros [_ [_ Hk]]. apply Hk. Qed.

(** [only] within the data area of the scratch block of [lb]. *)
Definition only_data (lb : Z) (B B' : Z -> list Z) : Prop :=
  only (dst lb) (start lb) (bs - start lb) B B'.

Lemma only_data_trans lb o n B B1 B2 :
  only_data lb B B1 -> only (dst lb) o n B1 B2 -> start lb <= o -> o + n <= bs -> only_data lb B B2.
Proof. intros H1 H2 ? ?. eapply only_trans; [exact H1|exact H2|lia..]. Qed.

Lemma only_data_refl lb B : only_data lb B B.
Proof. split; [done|apply changed_in_refl]. Qed.

(** Copying a range of the block of [lb] to its scratch block. *)
Lemma wp_stage_copy lb so d n Q s B :
  staging s c B -> lblock_ok cfg lb -> start lb <= d -> 0 <= so -> 0 <= n ->
  d + n <= bs -> so + n <= bs -> erased fc d n (B (dst lb)) ->
  (forall s' B', staging s' c B' -> only (dst lb) d n B B' ->
     sub_bytes d n (B' (dst lb)) = sub_bytes so n (B0 (src lb)) -> Q tt s') ->
  wp (its_flash_fs_block_to_block_move cfg (dst lb) d (src lb) so n) Q io_error s.
Proof.
  intros Hs Hlb Hd Hso Hn Hdb Hsb He HQ.
  destruct (lb_blocks cfg Hcfg c B0 Hr lb Hlb) as (F1 & F2 & F3 & F4 & F5 & _ & _ & F8).
  pose proof (start_nonneg cfg lb Hcfg).
  assert (B (src lb) = B0 (src lb)) as HB by (eapply staging_kept; eauto).
  pose proof (is_st_len _ _ _ _ _ _ _ Hs F2) as Hld. pose proof (Hlen _ F1) as Hls.
  pose proof (zlen_sub_bytes so n (B0 (src lb)) Hso Hn ltac:(lia)) as Hz.
  eapply wp_move; [done|done|done|done|lia|done|done|lia|done|done|done|done|done|].
  intros s' Hs'. rewrite HB in Hs'. eapply HQ; [done| |].
  - rewrite <- Hz at 1. apply only_splice; lia.
  - rewrite fn_lookup_insert. apply sub_bytes_splice_eq; lia.
Qed.

Lemma wp_dblock_write bmeta m off size data Q s B :
  let lb := lblock m in
  let pos := data_idx m + off in
  let e := data_idx m + max_size m in
  let ue := bs - free_size bmeta in
  staging s c B -> lblock_ok cfg lb -> phy_id bmeta = src lb -> data_start bmeta = start lb ->
  start lb <= data_idx m -> 0 <= off -> 0 < size -> off + size <= max_size m -> e <= ue ->
  0 <= free_size bmeta <= bs -> size <= zlen data -> Forall is_byte data ->
  erased fc (start lb) (bs - start lb) (B (dst lb)) ->
  (forall s' B', staging s' c B' -> only_data lb B B' ->
     sub_bytes (start lb) (pos - start lb) (B' (dst lb)) = sub_bytes (start lb) (pos - start lb) (B0 (src lb)) ->
     sub_bytes pos size (B' (dst lb)) = sub_bytes 0 size data ->
     erased fc (pos + size) (e - (pos + size)) (B' (dst lb)) ->
     sub_bytes e (ue - e) (B' (dst lb)) = sub_bytes e (ue - e) (B0 (src lb)) -> Q tt s') ->
  wp (its_flash_fs_dblock_write_file cfg bmeta m off size data) Q io_error s.
Proof.
  intros lb pos e ue Hs Hlb Hph Hst Hix Ho Hsz Hfit Hue Hfr Hdl Hdb He HQ.
  pose proof (start_nonneg cfg lb Hcfg). pose proof (cw_area cfg Hcfg) as [Hbs _].
  destruct (lb_blocks cfg Hcfg c B0 Hr lb Hlb) as (F1 & F2 & F3 & F4 & F5 & _ & _ & F8).
  unfold its_flash_fs_dblock_write_file. rewrite Hph, Hst. fold lb.
  apply wp_bind. eapply wp_scratch_for; [done|]. apply wp_bind.
  rewrite (u32_id (data_idx m + off)), (u32_id (data_idx m + max_size m)),
    (u32_id (bs - free_size bmeta)), !u32_id by lia. fold pos e ue.
  eapply wp_stage_copy; [done|done|lia|lia|lia|lia|lia| |].
  { eapply erased_sub; [done|lia..]. }
  intros s1 B1 Hs1 Ho1 Hc1. pose proof (is_st_len _ _ _ _ _ _ _ Hs1 F2) as Hl1.
  pose proof (zlen_sub_bytes 0 size data ltac:(lia) ltac:(lia) ltac:(lia)) as Hz.
  assert (only_data lb B B1) as Hod1 by (eapply only_data_trans; [apply only_data_refl|exact Ho1|lia|lia]).
  assert (forall o n, start lb + (pos - start lb) <= o -> 0 <= n -> o + n <= bs ->
    erased fc o n (B1 (dst lb))) as He1.
  { intros o n Hon Hn Hob. eapply only_erased; [exact Ho1| |lia|lia|lia]. eapply erased_sub; [done|lia..]. }
  apply wp_bind. eapply (wp_ops_write cfg _ _ strict Hstrict); rewrite ?Hz;
    [exact Hs1|done|lia|lia|lia|lia|by apply Forall_sub_bytes|apply He1; lia|].
  intros s2 Hs2. set (B2 := <[dst lb := _]> B1) in Hs2.
  assert (only (dst lb) pos size B1 B2) as Ho2 by (rewrite <- Hz at 1; apply only_splice; lia).
  assert (sub_bytes pos size (B2 (dst lb)) = sub_bytes 0 size data) as Hc2
    by (unfold B2; rewrite fn_lookup_insert; apply sub_bytes_splice_eq; lia).
  apply wp_bind. eapply wp_stage_copy; [exact Hs2|done|lia|lia|lia|lia|lia| |].
  { eapply only_erased; [exact Ho2|apply He1; lia|lia..]. }
  intros s3 B3 Hs3 Ho3 Hc3.
  assert (forall s', staging s' c B3 -> Q tt s') as HQ3.
  { intros s' Hs'. apply (HQ s' B3 Hs').
    - eapply only_data_trans; [|exact Ho3|lia|lia]. eapply only_data_trans; [exact Hod1|exact Ho2|lia|lia].
    - rewrite (only_keeps _ _ _ _ _ _ _ Ho3) by lia. rewrite (only_keeps _ _ _ _ _ _ _ Ho2) by lia. done.
    - by rewrite (only_keeps _ _ _ _ _ _ _ Ho3) by lia.
    - eapply only_erased; [exact Ho3| |lia|lia|lia]. eapply only_erased; [exact Ho2|apply He1; lia|lia..].
    - done. }
  destruct (negb _); [|by apply wp_ret, HQ3]. eapply wp_ops_flush; [exact Hstrict|exact Hs3|done|done].
Qed.

(** Carrying the data of logical block 0 over. *)
Lemma wp_migrate_lb0 Q s c1 B :
  staging s c1 B -> act c1 = act c -> scr c1 = scr c ->
  erased fc (start 0) (bs - start 0) (B (scr c)) ->
  (forall s' B', staging s' c1 B' -> only (scr c) (start 0) (bs - start 0) B B' ->
     sub_bytes (start 0) (used_end cfg bm0 0 - start 0) (B' (scr c)) =
     sub_bytes (start 0) (used_end cfg bm0 0 - start 0) (B0 (act c)) -> Q tt s') ->
  wp (its_flash_fs_mblock_migrate_lb0_data_to_scratch cfg) Q io_error s.
Proof.
  intros Hs Ha1 Hs1 He HQ.
  assert (lblock_ok cfg 0) as Hlb by (unfold lblock_ok; cfg_lia).
  destruct (lb_blocks cfg Hcfg c B0 Hr 0 Hlb) as (F1 & F2 & F3 & F4 & F5 & F6 & _ & F8).
  destruct (F6 eq_refl) as [F6a F6b]. rewrite F6b in *.
  pose proof (start_nonneg cfg 0 Hcfg). pose proof (cw_area cfg Hcfg) as [Hbs _].
  assert (B (act c) = B0 (act c)) as HBa by (eapply staging_act; eauto).
  destruct (bk_each _ _ _ _ (do_blocks _ _ _ (rd_disk _ _ _ Hr)) 0 Hlb) as [[_ _ Hfr] Hst Hfit _].
  assert (ctx_ok c1) as Hc1 by (unfold ctx_ok; rewrite Ha1, Hs1; apply (rd_ctx _ _ _ Hr)).
  unfold its_flash_fs_mblock_migrate_lb0_data_to_scratch. apply wp_bind.
  eapply (wp_read_block_meta cfg Hcfg); [exact Hstrict|exact Hs|done|done| |].
  { rewrite Ha1, HBa. apply (mv_block _ _ (disk_ok_valid cfg Hcfg _ _ (rd_disk _ _ _ Hr))), Hlb. }
  rewrite Ha1, HBa. change (bmeta_at (B0 (act c)) ITS_LOGICAL_DBLOCK0) with (bm0 0). apply wp_bind. eapply wp_ctx; [done|]. rewrite Ha1, Hs1, Hst.
  unfold is_u32 in Hfr. rewrite (u32_id (bs - start 0)), u32_id by lia.
  replace (bs - start 0 - free_size (bm0 0)) with (used_end cfg bm0 0 - start 0) by (unfold used_end; lia).
  destruct (act_in_flash cfg Hcfg c1 Hc1) as (G1 & G2 & G3). rewrite Ha1, Hs1 in *.
  eapply (wp_copy cfg Hcfg); [exact Hstrict|exact Hs|done|done|done|done|lia|unfold used_end; lia|
    unfold used_end; lia| |].
  { eapply erased_sub; [done|lia|lia|unfold used_end; lia|unfold used_end; lia]. }
  intros s2 B2 Hs2 Ho2 Hc2. rewrite HBa in Hc2. eapply HQ; [done| |done].
  eapply only_weaken; [exact Ho2|lia|unfold used_end; lia].
Qed.

(** *** Moving a logical block *)

(** The context after the data of [lb] has moved to its scratch block. *)
Definition moved_ctx (lb : Z) : its_flash_fs_ctx_t :=
  if lb =? ITS_LOGICAL_DBLOCK0 then c
  else let h := meta_block_header c in
       FsCtx (Header (src lb) (fs_version h) (metadata_xor h) (active_swap_count h) (header_pad h))
         (act c) (scr c).

Lemma moved_act lb : act (moved_ctx lb) = act c /\ scr (moved_ctx lb) = scr c /\ ctx_ok (moved_ctx lb).
Proof.
  pose proof (rd_ctx _ _ _ Hr) as Hc. unfold moved_ctx. by destruct (lb =? _).
Qed.

Lemma moved_header lb :
  fs_version (meta_block_header (moved_ctx lb)) = fs_version (meta_block_header c) /\
  active_swap_count (meta_block_header (moved_ctx lb)) = active_swap_count (meta_block_header c) /\
  scratch_dblock (meta_block_header (moved_ctx lb)) =
    next_sd true lb (scratch_dblock (meta_block_header c)) bm0.
Proof. unfold moved_ctx, next_sd, ITS_LOGICAL_DBLOCK0. by destruct (lb =? 0). Qed.

Lemma wp_set_data_scratch lb Q E s B :
  staging s c B -> (forall s', staging s' (moved_ctx lb) B -> Q tt s') ->
  wp (its_flash_fs_mblock_set_data_scratch (src lb) lb) Q E s.
Proof.
  intros Hs HQ. unfold its_flash_fs_mblock_set_data_scratch, moved_ctx in *.
  destruct (lb =? ITS_LOGICAL_DBLOCK0); [by apply wp_ret, HQ|]. eapply wp_set_header; [done|]. exact HQ.
Qed.

(** The block table of the next version is written. *)
Lemma wp_stage_blocks lb m Q s c1 B :
  staging s c1 B -> act c1 = act c -> scr c1 = scr c -> lblock_ok cfg lb -> block_meta_wf m ->
  erased fc 8 (12 * nact cfg) (B (scr c)) ->
  (forall s' B', staging s' c1 B' -> only (scr c) 8 (12 * nact cfg) B B' ->
     (forall j, lblock_ok cfg j -> bmeta_at (B' (scr c)) j = next_blocks (scr c) lb m bm0 j) -> Q tt s') ->
  wp (its_flash_fs_mblock_update_scratch_block_meta cfg lb m) Q io_error s.
Proof.
  intros Hs Ha1 Hs1 Hlb Hm He HQ.
  assert (ctx_ok c1) as Hc1 by (unfold ctx_ok; rewrite Ha1, Hs1; apply (rd_ctx _ _ _ Hr)).
  assert (B (act c) = B0 (act c)) as HBa by (eapply staging_act; eauto).
  eapply (wp_install_block_meta cfg Hcfg); rewrite ?Ha1, ?Hs1;
    [exact Hstrict|exact Hs|done|by rewrite phase_scr|done|done| |done|].
  - rewrite HBa. apply (mv_block _ _ (disk_ok_valid cfg Hcfg _ _ (rd_disk _ _ _ Hr))).
    unfold lblock_ok. cfg_lia.
  - intros s' B' Hs' Ho Hb. eapply HQ; [done|done|]. intros j Hj. rewrite Hb by done.
    unfold next_bmeta. rewrite HBa, Hs1. reflexivity.
Qed.

(** The bytes of the file table. *)
Definition entries_kept (B B' : Z -> list Z) : Prop :=
  forall i, file_idx_ok cfg i -> sub_bytes (foff cfg i) 32 (B' (scr c)) = sub_bytes (foff cfg i) 32 (B (scr c)).

Lemma data_entries_kept lb B B' : lblock_ok cfg lb -> only_data lb B B' -> entries_kept B B'.
Proof.
  intros Hlb Ho i Hi. unfold only_data in Ho.
  destruct (lb_blocks cfg Hcfg c B0 Hr lb Hlb) as (_ & _ & _ & _ & _ & F6 & F7 & _).
  unfold file_idx_ok in Hi. destruct (decide (lb = 0)) as [->|Hne].
  - destruct (F6 eq_refl) as [_ Fd]. rewrite Fd in Ho.
    apply (only_keeps _ _ _ _ _ _ _ Ho); unfold start_of; simpl; cfg_lia.
  - destruct (F7 Hne) as (Fd & _). by rewrite (only_other _ _ _ _ _ _ Ho) by done.
Qed.

Lemma blocks_entries_kept B B' : only (scr c) 8 (12 * nact cfg) B B' -> entries_kept B B'.
Proof.
  intros Ho i Hi. unfold file_idx_ok in Hi. apply (only_keeps _ _ _ _ _ _ _ Ho); cfg_lia.
Qed.

Lemma entries_kept_trans B B1 B2 : entries_kept B B1 -> entries_kept B1 B2 -> entries_kept B B2.
Proof. intros H1 H2 i Hi. by rewrite H2, H1. Qed.

(** Blocks table and data do not overlap. *)
Lemma blocks_data_kept lb B B' o n :
  only (scr c) 8 (12 * nact cfg) B B' -> lblock_ok cfg lb -> start lb <= o -> 0 <= n ->
  sub_bytes o n (B' (dst lb)) = sub_bytes o n (B (dst lb)).
Proof.
  intros Ho Hlb Hso Hn. pose proof (start_nonneg cfg lb Hcfg).
  destruct (lb_blocks cfg Hcfg c B0 Hr lb Hlb) as (_ & _ & _ & _ & _ & F6 & F7 & _).
  destruct (decide (lb = 0)) as [->|Hne].
  - destruct (F6 eq_refl) as [_ ->]. revert Hso. unfold start_of; simpl. intros Hso.
    apply (only_keeps _ _ _ _ _ _ _ Ho); cfg_lia.
  - destruct (F7 Hne) as (Fd & _). by rewrite (only_other _ _ _ _ _ _ Ho) by done.
Qed.

Lemma data_blocks_erased lb B B' :
  only_data lb B B' -> lblock_ok cfg lb -> erased fc 8 (12 * nact cfg) (B (scr c)) ->
  erased fc 8 (12 * nact cfg) (B' (scr c)).
Proof.
  intros Ho Hlb He.
  destruct (lb_blocks cfg Hcfg c B0 Hr lb Hlb) as (_ & _ & _ & _ & _ & F6 & F7 & _).
  unfold only_data in Ho. destruct (decide (lb = 0)) as [->|Hne].
  - destruct (F6 eq_refl) as [_ Fd]. rewrite Fd in Ho.
    eapply only_erased; [exact Ho|done|..]; unfold start_of; simpl; cfg_lia.
  - destruct (F7 Hne) as (Fd & _). by rewrite (only_other _ _ _ _ _ _ Ho) by done.
Qed.

(** [its_flash_fs_dblock_compact_block]: the data behind the gap of [fsize]
    bytes at [gap] moves down. *)
Lemma wp_compact lb fsize so gap size Q s B :
  let ue := used_end cfg bm0 lb in
  let m := BlockMeta (dst lb) (start lb) (free_size (bm0 lb) + fsize) in
  staging s c B -> lblock_ok cfg lb -> start lb <= gap -> 0 < fsize -> gap + fsize <= ue ->
  size = ue - (gap + fsize) -> (0 < size -> so = gap + fsize) ->
  erased fc (start lb) (bs - start lb) (B (dst lb)) ->
  erased fc 8 (12 * nact cfg) (B (scr c)) ->
  (forall s' B', staging s' (moved_ctx lb) B' -> entries_kept B B' ->
     (lb <> 0 -> sub_bytes (start 0) (bs - start 0) (B' (scr c)) =
                 sub_bytes (start 0) (bs - start 0) (B (scr c))) ->
     sub_bytes (start lb) (gap - start lb) (B' (dst lb)) = sub_bytes (start lb) (gap - start lb) (B0 (src lb)) ->
     sub_bytes gap size (B' (dst lb)) = sub_bytes (gap + fsize) size (B0 (src lb)) ->
     (forall j, lblock_ok cfg j -> bmeta_at (B' (scr c)) j = next_blocks (scr c) lb m bm0 j) ->
     Q tt s') ->
  wp (its_flash_fs_dblock_compact_block cfg lb fsize so gap size) Q io_error s.
Proof.
  intros ue m Hs Hlb Hgap Hfs Hfit Hsz Hso He Heb HQ.
  pose proof (start_nonneg cfg lb Hcfg). pose proof (cw_area cfg Hcfg) as [Hbs _].
  destruct (lb_blocks cfg Hcfg c B0 Hr lb Hlb) as (F1 & F2 & F3 & F4 & F5 & F6 & F7 & F8).
  destruct (bk_each _ _ _ _ (do_blocks _ _ _ (rd_disk _ _ _ Hr)) lb Hlb) as [[_ _ [Hf0 _]] Hst Hfr _].
  pose proof (rd_ctx _ _ _ Hr) as Hc. unfold used_end in ue.
  assert (B (act c) = B0 (act c)) as HBa by (eapply staging_act; eauto).
  unfold its_flash_fs_dblock_compact_block. apply wp_bind.
  eapply (wp_read_block_meta cfg Hcfg); [exact Hstrict|exact Hs|done|done| |]; rewrite HBa.
  { apply (mv_block _ _ (disk_ok_valid cfg Hcfg _ _ (rd_disk _ _ _ Hr))), Hlb. }
  change (bmeta_at (B0 (act c)) lb) with (bm0 lb). rewrite Hst, (u32_id (free_size _ + _)) by lia.
  apply wp_bind. eapply wp_scratch_for; [done|]. apply wp_bind.
  eapply (wp_mono _ (fun _ s1 => exists B1, staging s1 c B1 /\ only (dst lb) gap size B B1 /\
      sub_bytes gap size (B1 (dst lb)) = sub_bytes (gap + fsize) size (B0 (src lb)))
      _ io_error); [| |done].
  { rewrite Z.gtb_ltb. destruct (Z.ltb_spec 0 size) as [Hgt|].
    - specialize (Hso Hgt). subst so. apply (wp_or_io cfg); [done|].
      eapply wp_stage_copy; [done|done|lia|lia|lia|lia|lia| |eauto].
      eapply erased_sub; [done|lia..].
    - apply wp_ret. exists B. replace size with 0 by lia. split_and!; [done|by split; [|apply changed_in_refl]|done]. }
  intros _ s1 (B1 & Hs1 & Ho1 & Hc1). apply wp_bind.
  eapply (wp_mono _ (fun _ s2 => exists B2, staging s2 c B2 /\ only (dst lb) (start lb) (gap - start lb) B1 B2 /\
      sub_bytes (start lb) (gap - start lb) (B2 (dst lb)) = sub_bytes (start lb) (gap - start lb) (B0 (src lb)))
      _ io_error); [| |done].
  { rewrite Z.gtb_ltb. destruct (Z.ltb_spec (start lb) gap) as [Hgt|].
    - rewrite u32_id by lia. apply (wp_or_io cfg); [done|].
      eapply wp_stage_copy; [exact Hs1|done|lia|lia|lia|lia|lia| |eauto].
      eapply only_erased; [exact Ho1| |lia|lia|lia]. eapply erased_sub; [done|lia..].
    - apply wp_ret. exists B1. replace (gap - start lb) with 0 by lia.
      split_and!; [done|by split; [|apply changed_in_refl]|done]. }
  intros _ s2 (B2 & Hs2 & Ho2 & Hc2).
  assert (only_data lb B B2) as Hod.
  { eapply only_data_trans; [|exact Ho2|lia|lia].
    eapply only_data_trans; [apply only_data_refl|exact Ho1|lia|lia]. }
  assert (sub_bytes gap size (B2 (dst lb)) = sub_bytes (gap + fsize) size (B0 (src lb))) as Hc2'
    by (by rewrite (only_keeps _ _ _ _ _ _ _ Ho2) by lia).
  apply wp_bind. apply (wp_set_data_scratch lb _ _ _ _ Hs2). intros s3 Hs3.
  destruct (moved_act lb) as (Ma & Ms & _). apply wp_bind, wp_try.
  (* the error branch restores the scratch block of the context *)
  eapply wp_mono; [eapply (wp_stage_blocks lb m (fun _ s4 => exists B4, staging s4 (moved_ctx lb) B4 /\
      only (scr c) 8 (12 * nact cfg) B2 B4 /\
      forall j, lblock_ok cfg j -> bmeta_at (B4 (scr c)) j = next_blocks (scr c) lb m bm0 j));
      [exact Hs3|done|done|done| |by eapply data_blocks_erased|eauto]|cbv beta|].
  - unfold ue in Hfit. unfold in_flash in F2. split; unfold m, is_u32; cbn [phy_id data_start free_size]; cfg_lia.
  - intros _ s4 (B4 & Hs4 & Ho4 & Hb4).
    assert (forall s', staging s' (moved_ctx lb) B4 -> Q tt s') as HQ4.
    { intros s' Hs'. apply (HQ s' B4 Hs').
      - eapply entries_kept_trans; [by eapply data_entries_kept|by apply blocks_entries_kept].
      - intros Hne. destruct (F7 Hne) as (Fd & _). unfold start_of; simpl.
        rewrite (only_keeps _ _ _ _ _ _ _ Ho4) by cfg_lia. by rewrite (only_other _ _ _ _ _ _ Hod) by done.
      - by rewrite (blocks_data_kept lb _ _ _ _ Ho4) by (done || lia).
      - by rewrite (blocks_data_kept lb _ _ _ _ Ho4) by (done || lia).
      - done. }
    destruct (_ && _); [|by apply wp_ret, HQ4].
    eapply wp_ops_flush; [exact Hstrict|exact Hs4|done|done].
  - intros e s4 Hio. apply wp_bind. unfold its_flash_fs_mblock_set_data_scratch.
    destruct (negb _); [apply wp_modify|apply wp_ret]; by apply wp_fail.
Qed.

(** *** Ready to commit *)

Definition staged_ctx (moved : bool) (lb : Z) : its_flash_fs_ctx_t := if moved then moved_ctx lb else c.

Lemma staged_ctx_facts moved lb : let c1 := staged_ctx moved lb in
  act c1 = act c /\ scr c1 = scr c /\
  fs_version (meta_block_header c1) = fs_version (meta_block_header c) /\
  active_swap_count (meta_block_header c1) = active_swap_count (meta_block_header c) /\
  scratch_dblock (meta_block_header c1) = next_sd moved lb (scratch_dblock (meta_block_header c)) bm0.
Proof.
  destruct moved; simpl; [|done].
  destruct (moved_act lb) as (? & ? & ?), (moved_header lb) as (? & ? & ?). by split_and!.
Qed.

Lemma ready_header_wf s : at_st cfg s c B0 -> header_wf (meta_block_header c).
Proof.
  intros Hs. destruct (act_in_flash cfg Hcfg c (rd_ctx _ _ _ Hr)) as (Ha & _).
  rewrite (rd_header _ _ _ Hr). apply header_of_wf.
  - apply Forall_sub_bytes. by eapply at_st_bytes.
  - apply (zlen_sub_bytes 0 8); [lia|lia|]. rewrite Hlen by done. cfg_lia.
Qed.

Lemma staged_ctx_wf moved lb : header_wf (meta_block_header c) -> lblock_ok cfg lb ->
  header_wf (meta_block_header (staged_ctx moved lb)).
Proof.
  intros Hw Hlb. destruct moved; simpl; [|done]. unfold moved_ctx. destruct (lb =? _); [done|].
  destruct (lb_blocks cfg Hcfg c B0 Hr lb Hlb) as (F1 & _). unfold in_flash in F1.
  destruct Hw. split; cbn [meta_block_header scratch_dblock fs_version metadata_xor active_swap_count header_pad];
    try done. unfold is_u32. cfg_lia.
Qed.

Lemma staged_intro (moved : bool) lb m s B1 fm' :
  header_wf (meta_block_header c) ->
  staging s (staged_ctx moved lb) B1 -> lblock_ok cfg lb -> block_meta_wf m ->
  data_start m = start lb -> start lb + free_size m <= bs ->
  (lb <> 0 -> phy_id m = if moved then dst lb else src lb) ->
  (forall j, lblock_ok cfg j -> bmeta_at (B1 (scr c)) j = next_blocks (scr c) lb m bm0 j) ->
  (forall i, file_idx_ok cfg i -> fmeta_at cfg (B1 (scr c)) i = fm' i) ->
  files_ok cfg (used_end cfg (next_blocks (scr c) lb m bm0)) fm' -> one_deleted cfg fm' ->
  staged cfg c B0 (staged_ctx moved lb) B1 (next_blocks (scr c) lb m bm0) fm'.
Proof.
  intros Hw Hs Hlb Hm Hst Hfr Hph Hbm Hfm Hf Hdel.
  destruct (staged_ctx_facts moved lb) as (C1 & C2 & C3 & C4 & C5).
  pose proof (rd_ctx _ _ _ Hr) as Hc. pose proof (rd_disk _ _ _ Hr) as Hd.
  destruct (lb_blocks cfg Hcfg c B0 Hr lb Hlb) as (_ & _ & _ & _ & _ & _ & F7 & _).
  split; try done.
  - apply (rd_header _ _ _ Hr).
  - by apply staged_ctx_wf.
  - intros. by eapply staging_kept.
  - by eapply staging_blank.
  - rewrite C5. eapply blocks_ok_next; [done| |unfold ctx_ok in Hc; lia|done|done|done|done|].
    + rewrite (rd_header _ _ _ Hr). apply (do_blocks _ _ _ Hd).
    + intros Hne. rewrite Hph by done. destruct moved; [|done]. by destruct (F7 Hne) as (_ & -> & _).
Qed.

(** A logical block that was not staged is where it was. *)
Lemma unmoved_block moved lb m s B1 j :
  staging s (staged_ctx moved lb) B1 -> lblock_ok cfg j -> j <> 0 ->
  (j = lb -> phy_id m = src lb) -> blocks_of (next_blocks (scr c) lb m bm0) B1 j = B0 (src j).
Proof.
  intros Hs Hj Hj0 Hm. destruct (lb_blocks cfg Hcfg c B0 Hr j Hj) as (F1 & _ & F3 & _).
  unfold blocks_of, next_blocks. rewrite (decide_False (P := j = 0)) by done.
  assert (phy_id (if decide (j = lb) then m else bm0 j) = src j) as ->
    by (destruct (decide (j = lb)) as [->|]; [by rewrite Hm|done]).
  by eapply staging_kept.
Qed.

Lemma moved_block lb m B1 : phy_id m = dst lb \/ lb = 0 -> lblock_ok cfg lb ->
  blocks_of (next_blocks (scr c) lb m bm0) B1 lb = B1 (dst lb).
Proof.
  intros Hm Hlb. destruct (lb_blocks cfg Hcfg c B0 Hr lb Hlb) as (_ & _ & _ & _ & _ & F6 & _).
  unfold blocks_of, next_blocks. rewrite (decide_True (P := lb = lb)) by done.
  destruct (decide (lb = 0)) as [->|].
  - by destruct (F6 eq_refl) as [_ ->].
  - destruct Hm as [->|]; done.
Qed.

Lemma zero_block lb m B1 : blocks_of (next_blocks (scr c) lb m bm0) B1 0 = B1 (scr c).
Proof. unfold blocks_of, next_blocks. by rewrite (decide_True (P := 0 = 0)). Qed.
End data.
