(* ===== verification/ItsDelete.v ===== *)
(** * Deleting a file

    [its_flash_fs_delete_idx] takes a file out of the table, closes the gap it
    leaves in its block and commits the result. *)

From S2P Require Import Prelude Bytes ItsUtils ItsFlash ItsMeta ItsMblock ItsFs ItsState ItsView ItsCommit ItsLayout ItsStore ItsInv ItsLookup ItsPhase ItsFileData.
From stdpp Require Import base list numbers functions gmap.
From Stdlib Require Import ZArith Lia.

Open Scope Z_scope.
Open Scope tfm_scope.

Section delete.
Context {F : Type} `{FlashOps F} (cfg : its_flash_fs_config_t).
Context `{!FlashLaws F (flash_cfg cfg)}.
Context (Hcfg : cfg_wf cfg) (Hev : ev_ok (flash_cfg cfg)).
Context (strict : bool) (Hstrict : strict = true -> FlashTotal F (flash_cfg cfg)).
Context (c : its_flash_fs_ctx_t) (B0 : Z -> list Z) (Hr : ready cfg c B0).
Context (Hlen : forall b, in_flash cfg b -> zlen (B0 b) = block_size (flash_cfg cfg)).

Abbreviation fc := (flash_cfg cfg).
Abbreviation bs := (block_size (flash_cfg cfg)).
Abbreviation n := (max_num_files cfg).
Abbreviation act c := (active_metablock c).
Abbreviation scr c := (scratch_metablock c).
Abbreviation staging := (is_st cfg (phase cfg c) B0).
Abbreviation io_error := (io_error cfg (phase cfg c) B0 strict).
Abbreviation bm0 := (bm_of (act c) B0).
Abbreviation fm0 := (fm_of cfg (act c) B0).
Abbreviation dst lb := (scratch_for c lb).
Abbreviation src lb := (phy_id (bm_of (act c) B0 lb)).

Lemma staged_entry B i m :
  sub_bytes (foff cfg i) 32 (B (scr c)) = file_meta_bytes m -> file_meta_wf m ->
  fmeta_at cfg (B (scr c)) i = m.
Proof. intros Hb Hm. unfold fmeta_at. rewrite Hb. by apply file_meta_of_bytes. Qed.

(** An entry of the active table is read while the scratch one is written. *)
Lemma wp_stage_read i Q s c1 B :
  staging s c1 B -> act c1 = act c -> scr c1 = scr c -> file_idx_ok cfg i -> Q (fm0 i) s ->
  wp (its_flash_fs_mblock_read_file_meta cfg i) Q io_error s.
Proof.
  intros Hs Ha1 Hs1 Hi HQ.
  assert (ctx_ok c1) as Hc1 by (unfold ctx_ok; rewrite Ha1, Hs1; apply (rd_ctx _ _ _ Hr)).
  assert (B (act c) = B0 (act c)) as HBa by (eapply staging_act; eauto).
  eapply (wp_read_file_meta cfg Hcfg); [exact Hstrict|exact Hs|done|done| |]; rewrite Ha1, HBa; [|done].
  by apply (mv_file _ _ (disk_ok_valid cfg Hcfg _ _ (rd_disk _ _ _ Hr))).
Qed.

Lemma wp_stage_file i m Q s c1 B :
  staging s c1 B -> act c1 = act c -> scr c1 = scr c -> file_idx_ok cfg i -> file_meta_wf m ->
  erased fc (foff cfg i) 32 (B (scr c)) ->
  (forall s' B', staging s' c1 B' -> only (scr c) (foff cfg i) 32 B B' ->
     fmeta_at cfg (B' (scr c)) i = m -> Q tt s') ->
  wp (its_flash_fs_mblock_update_scratch_file_meta cfg i m) Q io_error s.
Proof.
  intros Hs Ha1 Hs1 Hi Hm He HQ.
  assert (ctx_ok c1) as Hc1 by (unfold ctx_ok; rewrite Ha1, Hs1; apply (rd_ctx _ _ _ Hr)).
  eapply (wp_update_file_meta cfg Hcfg); rewrite ?Hs1;
    [exact Hstrict|exact Hs|done|by rewrite phase_scr|done|done|done|done].
Qed.

(** Different entries do not overlap. *)
Lemma entry_other i j B B' :
  only (scr c) (foff cfg i) 32 B B' -> file_idx_ok cfg i -> file_idx_ok cfg j -> i <> j ->
  sub_bytes (foff cfg j) 32 (B' (scr c)) = sub_bytes (foff cfg j) 32 (B (scr c)).
Proof.
  intros Ho Hi Hj Hne. unfold file_idx_ok in *. apply (only_keeps _ _ _ _ _ _ _ Ho); cfg_lia.
Qed.

Lemma fm0_wf s i : at_st cfg s c B0 -> file_idx_ok cfg i -> file_meta_wf (fm0 i).
Proof. intros _ Hi. apply (fk_wf _ _ (fs_each _ _ _ (do_files _ _ _ (rd_disk _ _ _ Hr)) i Hi)). Qed.

Lemma gap_src_cons fm d i js so :
  gap_src fm d (i :: js) so =
  gap_src fm d js (if gap_member fm d i && (so >? data_idx (fm i)) then data_idx (fm i) else so).
Proof. reflexivity. Qed.

Lemma gap_nbr_cons fm d i js nbr :
  gap_nbr fm d (i :: js) nbr =
  gap_nbr fm d js (if gap_member fm d i then u32 (nbr + max_size (fm i)) else nbr).
Proof. reflexivity. Qed.

Lemma gap_member_self fm d : gap_member fm d d = false.
Proof. unfold gap_member. by rewrite Z.eqb_refl. Qed.

Lemma gap_member_other fm d i : i <> d -> gap_member fm d i = behind fm d i.
Proof. intros. unfold gap_member. by rewrite (proj2 (Z.eqb_neq i d)). Qed.

(** The table of the other files is written, and the gap is measured. *)
Lemma wp_delete_loop d k i so nbr Q s B :
  file_idx_ok cfg d -> live (fm0 d) = true -> 0 <= i -> i + Z.of_nat k = n ->
  staging s c B ->
  (forall j, file_idx_ok cfg j -> i <= j -> j <> d -> erased fc (foff cfg j) 32 (B (scr c))) ->
  (forall s' B', staging s' c B' -> only (scr c) (foff cfg 0) (32 * n) B B' ->
     (forall j, file_idx_ok cfg j -> i <= j -> j <> d ->
        fmeta_at cfg (B' (scr c)) j = remove_file fm0 d j) ->
     (forall j, file_idx_ok cfg j -> j < i \/ j = d ->
        sub_bytes (foff cfg j) 32 (B' (scr c)) = sub_bytes (foff cfg j) 32 (B (scr c))) ->
     Q (gap_src fm0 d (seqZ i (Z.of_nat k)) so, gap_nbr fm0 d (seqZ i (Z.of_nat k)) nbr) s') ->
  wp (delete_idx_loop cfg d (lblock (fm0 d)) (data_idx (fm0 d)) (max_size (fm0 d)) k i so nbr) Q io_error s.
Proof.
  intros Hd Hl. revert i so nbr s B Q.
  induction k as [|k IH]; intros i so nbr s B Q Hi Hk Hs He HQ.
  - cbn [delete_idx_loop]. apply wp_ret. apply (HQ s B Hs); [|intros j Hj ?..].
    + split; [done|apply changed_in_refl].
    + unfold file_idx_ok in Hj. lia.
    + done.
  - assert (file_idx_ok cfg i) as Hi' by (unfold file_idx_ok; lia).
    assert (seqZ i (Z.of_nat (S k)) = i :: seqZ (i + 1) (Z.of_nat k)) as Hseq
      by (rewrite seqZ_cons by lia; do 2 f_equal; lia).
    rewrite Hseq, gap_src_cons, gap_nbr_cons in HQ.
    cbn [delete_idx_loop]. destruct (Z.eqb_spec i d) as [->|Hne].
    + rewrite gap_member_self in HQ. cbn [andb] in HQ. apply (IH _ _ _ s B); [lia|lia|done|..].
      * intros j Hj Hij Hjd. apply He; [done|lia|done].
      * intros s' B' Hs' Ho Hm Hk'. apply (HQ s' B' Hs' Ho).
        -- intros j Hj Hij Hjd. apply Hm; [done|lia|done].
        -- intros j Hj Hjc. apply Hk'; [done|]. lia.
    + rewrite gap_member_other in HQ by done. apply wp_bind. eapply wp_stage_read; [exact Hs|done|done|done|].
      fold (live (fm0 i)). fold (behind fm0 d i). cbv zeta.
      set (m' := if behind fm0 d i then _ else fm0 i).
      assert (m' = remove_file fm0 d i) as Hm'.
      { unfold m', remove_file. rewrite decide_False by done. by destruct (behind fm0 d i). }
      assert (file_meta_wf m') as Hwf.
      { rewrite Hm'. eapply fk_wf, remove_file_ok; eauto. apply (do_files _ _ _ (rd_disk _ _ _ Hr)). }
      apply wp_bind. eapply wp_stage_file; [exact Hs|done|done|done|done|apply He; [done|lia|done]|].
      intros s1 B1 Hs1 Ho1 Hm1.
      eapply (IH _ _ _ s1 B1 _); [lia|lia|done|..].
      * intros j Hj Hij Hjd. unfold erased. rewrite (entry_other i j _ _ Ho1) by (done || lia).
        apply He; [done|lia|done].
      * intros s2 B2 Hs2 Ho2 Hm2 Hk2. apply (HQ s2 B2 Hs2).
        -- eapply only_trans; [exact Ho1|exact Ho2|..]; unfold file_idx_ok in Hi'; unfold foff; lia.
        -- intros j Hj Hij Hjd. destruct (decide (j = i)) as [->|]; [|apply Hm2; [done|lia|done]].
           unfold fmeta_at in *. rewrite Hk2 by (done || lia). by rewrite Hm1.
        -- intros j Hj Hjc. rewrite Hk2 by (done || lia). apply (entry_other i j _ _ Ho1); [done|done|lia].
Qed.

(** *** The two ways of closing the gap *)

(** The tables after the deletion of [d]. *)
Definition delete_lb (d : Z) : Z := if max_size (fm0 d) =? 0 then 0 else lblock (fm0 d).
Definition delete_block (d : Z) : its_block_meta_t :=
  let lb := delete_lb d in
  if max_size (fm0 d) =? 0 then bm0 lb
  else BlockMeta (dst lb) (start_of cfg lb) (free_size (bm0 lb) + max_size (fm0 d)).
Abbreviation bm' d := (next_blocks (scr c) (delete_lb d) (delete_block d) bm0).
Abbreviation moved d := (negb (max_size (fm0 d) =? 0)).

Let Hblk : blocks_ok cfg (act c) (scratch_dblock (header_at (B0 (act c)))) bm0 :=
  do_blocks _ _ _ (rd_disk _ _ _ Hr).
Let Hfil : files_ok cfg (used_end cfg bm0) fm0 := do_files _ _ _ (rd_disk _ _ _ Hr).

Lemma delete_lb_ok d : file_idx_ok cfg d -> lblock_ok cfg (delete_lb d).
Proof.
  intros Hd. unfold delete_lb. destruct (_ =? 0); [unfold lblock_ok; cfg_lia|].
  apply (fk_lblock _ _ (fs_each _ _ _ Hfil d Hd)).
Qed.

Lemma delete_files d : file_idx_ok cfg d -> live (fm0 d) = true ->
  files_ok cfg (used_end cfg (bm' d)) (remove_file fm0 d).
Proof.
  intros Hd Hl. eapply files_ok_ext; [|by apply files_ok_remove]. intros lb Hlb.
  rewrite next_used_end. unfold delete_block, delete_lb.
  destruct (Z.eqb_spec (max_size (fm0 d)) 0) as [Hz|Hz];
    (destruct (decide (lb = lblock (fm0 d))) as [->|Hne];
     [rewrite fn_lookup_insert|rewrite fn_lookup_insert_ne by congruence]).
  - rewrite Hz. destruct (decide _) as [->|]; unfold used_end; lia.
  - destruct (decide _) as [->|]; unfold used_end; lia.
  - unfold used_end. cbn [free_size]. lia.
  - done.
Qed.

Lemma delete_block_ok d : file_idx_ok cfg d -> live (fm0 d) = true ->
  block_meta_wf (delete_block d) /\ data_start (delete_block d) = start_of cfg (delete_lb d) /\
  start_of cfg (delete_lb d) + free_size (delete_block d) <= bs /\
  (delete_lb d <> 0 -> phy_id (delete_block d) = if moved d then dst (delete_lb d) else src (delete_lb d)).
Proof.
  intros Hd Hl. pose proof (delete_lb_ok d Hd) as Hlb.
  destruct (bk_each _ _ _ _ Hblk _ Hlb) as [[Hbp Hbs Hbf] Hst Hfr _]. unfold is_u32 in *.
  destruct (lb_blocks cfg Hcfg c B0 Hr _ Hlb) as (_ & F2 & _). unfold in_flash in F2.
  destruct (file_range _ _ _ _ Hfil Hd Hl) as (? & ? & ?).
  destruct (fk_wf _ _ (fs_each _ _ _ Hfil d Hd)) as [_ _ _ [? _] _ _ _].
  pose proof (cw_area cfg Hcfg) as [Harea Hnb]. pose proof (start_nonneg cfg (delete_lb d) Hcfg).
  unfold delete_block, delete_lb, used_end in *.
  destruct (Z.eqb_spec (max_size (fm0 d)) 0) as [Hz|Hz]; cbn [negb phy_id data_start free_size].
  - by split_and!.
  - split_and!; try done; [|lia]. split; unfold is_u32; cbn [phy_id data_start free_size]; lia.
Qed.

(** The scratch blocks hold everything but the header of the next version. *)
Record delete_staged (d : Z) (s : fs_st F) (B : Z -> list Z) : Prop := {
  ds_st : staging s (staged_ctx c B0 (moved d) (delete_lb d)) B;
  ds_bm j : lblock_ok cfg j -> bmeta_at (B (scr c)) j = bm' d j;
  ds_fm i : file_idx_ok cfg i -> fmeta_at cfg (B (scr c)) i = remove_file fm0 d i;
  ds_gap : gap_closed cfg (used_end cfg bm0) fm0 d (blocks_of bm0 B0) (blocks_of (bm' d) B);
}.

Lemma delete_staged_ok d s B : file_idx_ok cfg d -> live (fm0 d) = true ->
  (forall i, file_idx_ok cfg i -> deleted (fm0 i) = true -> i = d) ->
  header_wf (meta_block_header c) -> delete_staged d s B ->
  staged cfg c B0 (staged_ctx c B0 (moved d) (delete_lb d)) B (bm' d) (remove_file fm0 d) /\
  none_deleted cfg (remove_file fm0 d) /\
  store cfg (remove_file fm0 d) (blocks_of (bm' d) B) =
    (if deleted (fm0 d) then disk_store cfg (act c) B0
     else delete (id (fm0 d)) (disk_store cfg (act c) B0)).
Proof.
  intros Hd Hl Hdel Hw [Hs Hbm Hfm Hgap]. pose proof (delete_lb_ok d Hd) as Hlb.
  assert (none_deleted cfg (remove_file fm0 d)) as Hnd.
  { intros i Hi. destruct (decide (i = d)) as [->|Hne]; [by rewrite remove_deleted|].
    destruct (remove_fields fm0 d i Hne) as (_ & _ & _ & Hf & _). unfold deleted. rewrite Hf.
    destruct (deleted (fm0 i)) eqn:E; [|exact E]. by apply Hdel in E. }
  destruct (delete_block_ok d Hd Hl) as (D1 & D2 & D3 & D4).
  pose proof (delete_files d Hd Hl) as Hf. split_and!; [|done|].
  - apply (staged_intro cfg Hcfg c B0 Hr Hlen (moved d) (delete_lb d) (delete_block d) s B); try done.
    intros i j Hi _ Hdi. by rewrite Hnd in Hdi.
  - unfold disk_store. eapply store_remove; [done|exact Hfil|by apply delete_files|done|done|done].
Qed.

(** The state in which the table of files has been staged. *)
Definition entries_only (B : Z -> list Z) : Prop := only (scr c) (foff cfg 0) (32 * n) B0 B.

Lemma ready_erased lb o k : lblock_ok cfg lb -> 0 <= o -> 0 <= k -> o + k <= bs ->
  erased fc o k (B0 (dst lb)).
Proof.
  intros Hlb Ho Hk Hok. destruct (lb_blocks cfg Hcfg c B0 Hr lb Hlb) as (_ & F2 & _ & F4 & _).
  rewrite (rd_erased _ _ _ Hr) by done. by apply erased_fill.
Qed.

Lemma scr_dst : dst 0 = scr c.
Proof. reflexivity. Qed.

Lemma entries_blank B lb : entries_only B -> lblock_ok cfg lb ->
  erased fc (start_of cfg lb) (bs - start_of cfg lb) (B (dst lb)) /\
  erased fc 8 (12 * nact cfg) (B (scr c)).
Proof.
  intros Ho Hlb. assert (lblock_ok cfg 0) as Hlb0 by (unfold lblock_ok; cfg_lia).
  pose proof (start_of_range cfg lb Hcfg).
  split; [|eapply only_erased; [exact Ho|rewrite <- scr_dst; apply ready_erased; [done|cfg_lia..]|cfg_lia..]].
  destruct (lb_blocks cfg Hcfg c B0 Hr lb Hlb) as (_ & _ & _ & _ & _ & F6 & F7 & _).
  destruct (decide (lb = 0)) as [->|Hne].
  - rewrite scr_dst in *. eapply only_erased; [exact Ho|rewrite <- scr_dst; apply ready_erased; [done|lia..]|..];
      unfold start_of in *; simpl in *; cfg_lia.
  - destruct (F7 Hne) as (Fd & _). rewrite (only_other _ _ _ _ _ _ Ho) by done. apply ready_erased; [done|lia..].
Qed.

(** The gap is closed and the table of blocks staged. *)
Lemma wp_delete_gap d Q s B :
  file_idx_ok cfg d -> live (fm0 d) = true -> staging s c B -> entries_only B ->
  let lb := lblock (fm0 d) in
  let e := data_idx (fm0 d) + max_size (fm0 d) in
  let k := used_end cfg bm0 lb - e in
  (forall s' B', staging s' (staged_ctx c B0 (moved d) (delete_lb d)) B' -> entries_kept cfg c B B' ->
     (delete_lb d <> 0 \/ max_size (fm0 d) = 0 ->
        erased fc (start_of cfg 0) (bs - start_of cfg 0) (B' (scr c))) ->
     (forall j, lblock_ok cfg j -> bmeta_at (B' (scr c)) j = bm' d j) ->
     (max_size (fm0 d) <> 0 ->
        sub_bytes (start_of cfg lb) (data_idx (fm0 d) - start_of cfg lb) (B' (dst lb)) =
        sub_bytes (start_of cfg lb) (data_idx (fm0 d) - start_of cfg lb) (B0 (src lb)) /\
        sub_bytes (data_idx (fm0 d)) k (B' (dst lb)) = sub_bytes e k (B0 (src lb))) ->
     Q tt s') ->
  wp (if max_size (fm0 d) =? 0 then
        let* block_meta := its_flash_fs_mblock_read_block_metadata cfg ITS_LOGICAL_DBLOCK0 in
        its_flash_fs_mblock_update_scratch_block_meta cfg ITS_LOGICAL_DBLOCK0 block_meta
      else
        its_flash_fs_dblock_compact_block cfg (lblock (fm0 d)) (max_size (fm0 d))
          (gap_src fm0 d (seqZ 0 n) bs) (data_idx (fm0 d)) (gap_nbr fm0 d (seqZ 0 n) 0)) Q io_error s.
Proof.
  intros Hd Hl Hs Ho lb e k HQ. assert (lblock_ok cfg 0) as Hlb0 by (unfold lblock_ok; cfg_lia).
  pose proof (fk_lblock _ _ (fs_each _ _ _ Hfil d Hd)) as Hlb. fold lb in Hlb.
  destruct (entries_blank B 0 Ho Hlb0) as [He0 Heb]. rewrite scr_dst in He0.
  unfold delete_block, delete_lb in HQ. fold lb in HQ.
  destruct (Z.eqb_spec (max_size (fm0 d)) 0) as [Hz|Hz]; cbn [negb] in HQ.
  - assert (B (act c) = B0 (act c)) as HBa by (eapply staging_act; eauto).
    apply wp_bind. eapply (wp_read_block_meta cfg Hcfg); [exact Hstrict|exact Hs|apply (rd_ctx _ _ _ Hr)|done| |];
      rewrite HBa.
    { by apply (mv_block _ _ (disk_ok_valid cfg Hcfg _ _ (rd_disk _ _ _ Hr))). }
    change (bmeta_at (B0 (act c)) ITS_LOGICAL_DBLOCK0) with (bm0 0).
    eapply (wp_stage_blocks cfg Hcfg strict Hstrict c B0 Hr Hlen); [exact Hs|done|done|done| |done|].
    { apply (bo_wf _ _ _ _ _ (bk_each _ _ _ _ Hblk 0 Hlb0)). }
    intros s' B' Hs' Ho' Hb'. apply (HQ s' B' Hs').
    + by apply blocks_entries_kept.
    + intros _. eapply only_erased; [exact Ho'|done|..]; unfold start_of; simpl; cfg_lia.
    + done.
    + done.
  - destruct (entries_blank B lb Ho Hlb) as [Hel _].
    destruct (file_range _ _ _ _ Hfil Hd Hl) as (Hr1 & Hr2 & Hr3). fold lb in Hr1, Hr2.
    destruct (bk_each _ _ _ _ Hblk lb Hlb) as [[_ _ [Hf0 _]] Hst Hfr _]. pose proof (start_nonneg cfg lb Hcfg).
    pose proof (cw_area cfg Hcfg) as [Harea _].
    destruct (gap_spec cfg (used_end cfg bm0) fm0 d Hfil Hd Hl) as [Hnbr Hsrc]; fold lb; unfold used_end in *;
      [lia|lia|lia|]. fold lb e in Hnbr, Hsrc.
    eapply (wp_compact cfg Hcfg strict Hstrict c B0 Hr Hlen);
      [exact Hs|exact Hlb|lia|lia|unfold used_end; lia|exact Hnbr|exact Hsrc|exact Hel|exact Heb|].
    intros s' B' Hs' Hek Hz' Hc1 Hc2 Hb'. apply (HQ s' B' Hs' Hek).
    + intros [Hne|]; [|done]. unfold erased. rewrite Hz' by done. exact He0.
    + exact Hb'.
    + intros _. rewrite Hnbr in Hc2. done.
Qed.

(** What the logical blocks of the next version hold. *)
Definition gap_data (d : Z) (B : Z -> list Z) : Prop :=
  let lb := lblock (fm0 d) in
  let e := data_idx (fm0 d) + max_size (fm0 d) in
  let k := used_end cfg bm0 lb - e in
  max_size (fm0 d) <> 0 ->
  sub_bytes (start_of cfg lb) (data_idx (fm0 d) - start_of cfg lb) (B (dst lb)) =
  sub_bytes (start_of cfg lb) (data_idx (fm0 d) - start_of cfg lb) (B0 (src lb)) /\
  sub_bytes (data_idx (fm0 d)) k (B (dst lb)) = sub_bytes e k (B0 (src lb)).

Definition lb0_data (B : Z -> list Z) : Prop :=
  sub_bytes (start_of cfg 0) (used_end cfg bm0 0 - start_of cfg 0) (B (scr c)) =
  sub_bytes (start_of cfg 0) (used_end cfg bm0 0 - start_of cfg 0) (B0 (act c)).

Lemma delete_gap_closed d s B :
  file_idx_ok cfg d -> live (fm0 d) = true ->
  staging s (staged_ctx c B0 (moved d) (delete_lb d)) B ->
  gap_data d B -> (delete_lb d <> 0 \/ max_size (fm0 d) = 0 -> lb0_data B) ->
  gap_closed cfg (used_end cfg bm0) fm0 d (blocks_of bm0 B0) (blocks_of (bm' d) B).
Proof.
  intros Hd Hl Hs Hdata Hlb0.
  assert (lblock_ok cfg 0) as Hok0 by (unfold lblock_ok; cfg_lia).
  pose proof (fk_lblock _ _ (fs_each _ _ _ Hfil d Hd)) as Hlb.
  destruct (file_range _ _ _ _ Hfil Hd Hl) as (R1 & R2 & R3). pose proof (start_nonneg cfg (lblock (fm0 d)) Hcfg).
  destruct (lb_blocks cfg Hcfg c B0 Hr 0 Hok0) as (_ & _ & _ & _ & _ & F0 & _).
  destruct (F0 eq_refl) as [Fsrc _].
  assert (forall j, lblock_ok cfg j -> (j = lblock (fm0 d) -> max_size (fm0 d) = 0) ->
    sub_bytes (start_of cfg j) (used_end cfg bm0 j - start_of cfg j) (blocks_of (bm' d) B j) =
    sub_bytes (start_of cfg j) (used_end cfg bm0 j - start_of cfg j) (blocks_of bm0 B0 j)) as Hother.
  { intros j Hj Hjm. destruct (decide (j = 0)) as [->|Hj0].
    - rewrite zero_block. unfold blocks_of. rewrite Fsrc. apply Hlb0. unfold delete_lb.
      destruct (Z.eqb_spec (max_size (fm0 d)) 0) as [|Hz]; [by right|]. left. intros Heq. by apply Hz, Hjm.
    - f_equal. apply (unmoved_block cfg Hcfg c B0 Hr Hlen (moved d) _ _ s B j Hs Hj Hj0).
      unfold delete_block, delete_lb. destruct (Z.eqb_spec (max_size (fm0 d)) 0) as [|Hz]; [by intros ->|].
      intros ->. by destruct Hz; apply Hjm. }
  destruct (decide (max_size (fm0 d) = 0)) as [Hz|Hz].
  - split; [intros; by apply Hother|..]; cbv zeta; rewrite ?Hz, ?Z.add_0_r;
      (eapply sub_bytes_within; [by apply Hother|lia..]).
  - destruct (Hdata Hz) as [D1 D2].
    assert (blocks_of (bm' d) B (lblock (fm0 d)) = B (dst (lblock (fm0 d)))) as Hmv.
    { unfold delete_block, delete_lb. rewrite (proj2 (Z.eqb_neq _ _) Hz).
      apply (moved_block cfg Hcfg c B0 Hr); [by left|done]. }
    split; [intros; by apply Hother|..]; cbv zeta; by rewrite Hmv.
Qed.

(** The data of logical block 0, and with it everything, is staged. *)
Lemma wp_delete_migrate d Q s B1 B :
  file_idx_ok cfg d -> live (fm0 d) = true ->
  staging s (staged_ctx c B0 (moved d) (delete_lb d)) B -> entries_kept cfg c B1 B ->
  (forall i, file_idx_ok cfg i -> fmeta_at cfg (B1 (scr c)) i = remove_file fm0 d i) ->
  (delete_lb d <> 0 \/ max_size (fm0 d) = 0 ->
     erased fc (start_of cfg 0) (bs - start_of cfg 0) (B (scr c))) ->
  (forall j, lblock_ok cfg j -> bmeta_at (B (scr c)) j = bm' d j) ->
  gap_data d B -> (forall s' B', delete_staged d s' B' -> Q tt s') ->
  wp (if negb (max_size (fm0 d) =? 0) && negb (lblock (fm0 d) =? ITS_LOGICAL_DBLOCK0)
         || (max_size (fm0 d) =? 0)
      then or_return (its_flash_fs_mblock_migrate_lb0_data_to_scratch cfg) PSA_ERROR_GENERIC_ERROR
      else ret tt) Q io_error s.
Proof.
  intros Hd Hl Hs Hek Hfm He Hbm Hdata HQ.
  assert (lblock_ok cfg 0) as Hok0 by (unfold lblock_ok; cfg_lia).
  pose proof (fk_lblock _ _ (fs_each _ _ _ Hfil d Hd)) as Hlb.
  destruct (staged_ctx_facts cfg c B0 Hr (moved d) (delete_lb d)) as (C1 & C2 & _).
  assert (forall B', entries_kept cfg c B B' -> forall i, file_idx_ok cfg i ->
    fmeta_at cfg (B' (scr c)) i = remove_file fm0 d i) as Hfm'.
  { intros B' Hk i Hi. rewrite <- Hfm by done. unfold fmeta_at. by rewrite Hk, Hek. }
  set (b := _ || _). assert (b = true <-> delete_lb d <> 0 \/ max_size (fm0 d) = 0) as Hb.
  { unfold b, delete_lb, ITS_LOGICAL_DBLOCK0.
    destruct (Z.eqb_spec (max_size (fm0 d)) 0), (Z.eqb_spec (lblock (fm0 d)) 0); simpl; naive_solver. }
  destruct b.
  - apply (wp_or_io cfg); [done|].
    eapply (wp_migrate_lb0 cfg Hcfg strict Hstrict c B0 Hr Hlen); [exact Hs|done|done|by apply He, Hb|].
    intros s' B' Hs' Ho' H0'. apply (HQ s' B'). split; [exact Hs'|..].
    + intros j Hj. rewrite <- Hbm by done. unfold lblock_ok in Hj.
      eapply only_bmeta; [exact Ho'|lia|unfold start_of; simpl; cfg_lia|done].
    + apply Hfm'. by apply (data_entries_kept cfg Hcfg c B0 Hr 0).
    + apply (delete_gap_closed d s' B'); [done|done|exact Hs'| |by intros].
      intros Hz. destruct (Hdata Hz) as [D1 D2].
      destruct (proj1 Hb eq_refl) as [Hne|]; [|done]. unfold delete_lb in Hne.
      rewrite (proj2 (Z.eqb_neq _ _) Hz) in Hne.
      destruct (lb_blocks cfg Hcfg c B0 Hr _ Hlb) as (_ & _ & _ & _ & _ & _ & F7 & _).
      destruct (F7 Hne) as (Fd & _). by rewrite (only_other _ _ _ _ _ _ Ho') by done.
  - apply wp_ret, (HQ s B). split; [done|done|by apply Hfm'|].
    apply (delete_gap_closed d s B); [done|done|done|done|]. intros Hc. by apply Hb in Hc.
Qed.

(** [its_flash_fs_delete_idx] removes file [d]. *)
Lemma wp_delete_idx d Q E s :
  at_st cfg s c B0 -> file_idx_ok cfg d -> live (fm0 d) = true ->
  (forall i, file_idx_ok cfg i -> deleted (fm0 i) = true -> i = d) ->
  let S := disk_store cfg (act c) B0 in
  let S' := if deleted (fm0 d) then S else delete (id (fm0 d)) S in
  (forall s' c' B', at_st cfg s' c' B' -> ready cfg c' B' -> none_deleted cfg (fm_of cfg (act c') B') ->
     disk_store cfg (act c') B' = S' -> Q tt s') ->
  (forall e s', strict = false -> e <> PSA_SUCCESS ->
     recoverable cfg (st_flash s') (fun X => X = S \/ X = S') -> E e s') ->
  wp (its_flash_fs_delete_idx cfg d) Q E s.
Proof.
  intros Hat Hd Hl Hdel S S' HQ HE.
  pose proof (staging_start cfg c B0 s Hat) as Hs. pose proof (ready_header_wf cfg Hcfg c B0 Hr Hlen s Hat) as Hw.
  assert (forall e s', io_error e s' -> E e s') as HEio.
  { intros e s' Hio. pose proof Hio as (Hst & Hne & _). apply HE; [done|done|].
    destruct (io_recoverable cfg Hcfg Hev strict c B0 Hr Hlen e s' Hio) as (a & B & H1 & H2 & H3 & H4).
    exists a, B. split_and!; auto. }
  assert (lblock_ok cfg 0) as Hok0 by (unfold lblock_ok; cfg_lia).
  assert (forall j, file_idx_ok cfg j -> erased fc (foff cfg j) 32 (B0 (scr c))) as He0.
  { intros j Hj. unfold file_idx_ok in Hj. rewrite <- scr_dst. apply ready_erased; [done|cfg_lia..]. }
  unfold its_flash_fs_delete_idx. apply wp_bind.
  eapply wp_mono; [eapply (wp_stage_read d (fun m s' => m = fm0 d /\ s' = s)); [exact Hs|done|done|done|done]
    |cbv beta; intros ? ? [-> ->]|exact HEio].
  fold (live (fm0 d)). rewrite Hl. cbn [negb]. apply wp_bind.
  eapply wp_mono; [eapply (wp_stage_file d file_meta_zero (fun _ s1 => exists B1, staging s1 c B1 /\
      only (scr c) (foff cfg d) 32 B0 B1 /\ fmeta_at cfg (B1 (scr c)) d = file_meta_zero));
      [exact Hs|done|done|done|apply file_meta_zero_wf|by apply He0|eauto 10]
    |cbv beta; intros _ s1 (B1 & Hs1 & Ho1 & Hz1)|exact HEio].
  apply wp_bind.
  eapply wp_mono; [eapply (wp_delete_loop d (Z.to_nat n) 0 bs 0 (fun r s2 => r = (gap_src fm0 d (seqZ 0 n) bs,
      gap_nbr fm0 d (seqZ 0 n) 0) /\ exists B2, staging s2 c B2 /\ entries_only B2 /\
      forall i, file_idx_ok cfg i -> fmeta_at cfg (B2 (scr c)) i = remove_file fm0 d i));
      [done|done|lia|cfg_lia|exact Hs1|..]
    |cbv beta; intros r s2 (-> & B2 & Hs2 & Ho2 & Hm2)|exact HEio].
  { intros j Hj _ Hne. unfold erased. rewrite (entry_other d j _ _ Ho1) by (done || congruence). by apply He0. }
  { intros s2 B2 Hs2 Ho2 Hm2 Hk2. rewrite Z2Nat.id by cfg_lia. split; [done|]. exists B2. split_and!; [done|..].
    - unfold file_idx_ok in Hd. eapply only_trans; [exact Ho1|exact Ho2|..]; unfold foff; lia.
    - intros i Hi. destruct (decide (i = d)) as [->|Hne].
      + rewrite remove_deleted. unfold fmeta_at in *. by rewrite Hk2 by auto.
      + apply Hm2; [done| |done]. unfold file_idx_ok in Hi. lia. }
  cbn [fst snd]. apply wp_bind.
  eapply wp_mono; [eapply (wp_delete_gap d (fun _ s3 => exists B3,
      staging s3 (staged_ctx c B0 (moved d) (delete_lb d)) B3 /\ entries_kept cfg c B2 B3 /\
      (delete_lb d <> 0 \/ max_size (fm0 d) = 0 -> erased fc (start_of cfg 0) (bs - start_of cfg 0) (B3 (scr c))) /\
      (forall j, lblock_ok cfg j -> bmeta_at (B3 (scr c)) j = bm' d j) /\ gap_data d B3));
      [done|done|exact Hs2|exact Ho2|]
    |cbv beta; intros _ s3 (B3 & Hs3 & Hek & He3 & Hb3 & Hg3)|exact HEio].
  { cbv zeta. intros s3 B3 ? ? ? ? ?. exists B3. split_and!; done. }
  apply wp_bind.
  eapply wp_mono; [eapply (wp_delete_migrate d (fun _ s4 => exists B4, delete_staged d s4 B4));
      [done|done|exact Hs3|exact Hek|exact Hm2|exact He3|exact Hb3|exact Hg3|by eauto]
    |cbv beta; intros _ s4 (B4 & Hs4)|exact HEio].
  destruct (delete_staged_ok d s4 B4 Hd Hl Hdel Hw Hs4) as (Hstg & Hnd & Hstore).
  eapply (wp_commit cfg Hcfg Hev strict Hstrict Q E s4 c B0); [| |exact Hstg|..].
  - eapply is_at_st, (ds_st _ _ _ Hs4).
  - rewrite <- (rd_header _ _ _ Hr). apply Hw.
  - intros s' c' B' Hat' Hr' Ha' Hst' _ Hfm'. apply (HQ s' c' B' Hat' Hr').
    + intros i Hi. rewrite Hfm' by done. by apply Hnd.
    + by rewrite Hst', Hstore.
  - intros e s' Hst He Hrec. apply HE; [done|done|]. destruct Hrec as (a & B & H1 & H2 & H3 & H4).
    exists a, B. split_and!; try done. rewrite Hstore in H4. exact H4.
Qed.
End delete.
