(* ===== verification/ItsWrite.v ===== *)
(** * Creating and writing files

    [its_flash_fs_file_write]: what it does to the store, for every way a file
    can be found or created. *)

From S2P Require Import Prelude Bytes ItsUtils ItsFlash ItsMeta ItsMblock ItsFs ItsState ItsView ItsCommit ItsLayout ItsStore ItsInv ItsLookup ItsPhase ItsFileData ItsDelete.
From stdpp Require Import base list numbers functions gmap.
From Stdlib Require Import ZArith Lia.

Open Scope Z_scope.
Open Scope tfm_scope.

(** ** The intended effect *)

(** The [maxsz] bytes reserved for a file after [data] is written at [off]:
    the block is rewritten up to the end of the data, the rest of the file is
    left erased. *)
Definition write_image (ev : Z) (old : list Z) (maxsz off sz : Z) (data : list Z) : list Z :=
  sub_bytes 0 off old ++ sub_bytes 0 sz data ++ fill (maxsz - off - sz) ev.

Definition write_result (fc : its_flash_config_t) (base : file) (data_size offset : Z) (data : list Z) : file :=
  if data_size =? 0 then base
  else
    let sz := ITS_UTILS_ALIGN data_size (program_unit fc) in
    File (sub_bytes 0 (Z.max (zlen (f_data base)) (offset + data_size))
            (write_image (erase_val fc) (f_data base) (f_max base) offset sz data))
      (f_max base) (f_flags base).

(** The bytes of a file whose block was rewritten around [off]. *)
Lemma image_spec ev idx cur maxsz off sz X Y data :
  0 <= idx -> 0 <= off <= cur -> 0 <= sz -> off + sz <= maxsz ->
  sub_bytes idx off X = sub_bytes idx off Y ->
  sub_bytes (idx + off) sz X = sub_bytes 0 sz data ->
  sub_bytes (idx + off + sz) (maxsz - off - sz) X = fill (maxsz - off - sz) ev ->
  sub_bytes idx maxsz X = write_image ev (sub_bytes idx cur Y) maxsz off sz data.
Proof.
  intros Hi Ho Hs Hm H1 H2 H3. unfold write_image.
  replace maxsz with (off + (sz + (maxsz - off - sz))) at 1 by lia.
  rewrite !sub_bytes_split by lia. rewrite H1, H2, H3.
  rewrite sub_bytes_sub_bytes by lia. by rewrite Z.add_0_r.
Qed.

(** Writing [data_size] bytes at [offset] is possible. *)
Definition write_fits (fc : its_flash_config_t) (base : file) (data_size offset : Z) : Prop :=
  data_size = 0 \/
  (ITS_UTILS_IS_ALIGNED offset (program_unit fc) = true /\ offset <= zlen (f_data base) /\
   offset + ITS_UTILS_ALIGN data_size (program_unit fc) <= f_max base).

#[export] Instance write_fits_dec fc base sz off : Decision (write_fits fc base sz off).
Proof. unfold write_fits. apply _. Defined.

(** The arguments of a write: the sizes are far from the end of the integer
    range and the buffer holds the data and its padding. *)
Record write_args (fc : its_flash_config_t) (data_size offset : Z) (data : list Z) : Prop := {
  wa_size : 0 <= data_size < 2147483648;
  wa_offset : 0 <= offset < 4294967296;
  wa_data : ITS_UTILS_ALIGN data_size (program_unit fc) <= zlen data;
  wa_bytes : Forall is_byte data;
}.

Section write.
Context {F : Type} `{FlashOps F} (cfg : its_flash_fs_config_t).
Context `{!FlashLaws F (flash_cfg cfg)}.
Context (Hcfg : cfg_wf cfg) (Hev : ev_ok (flash_cfg cfg)).
Context (strict : bool) (Hstrict : strict = true -> FlashTotal F (flash_cfg cfg)).
Context (c : its_flash_fs_ctx_t) (B0 : Z -> list Z) (Hr : ready cfg c B0).
Context (Hlen : forall b, in_flash cfg b -> zlen (B0 b) = block_size (flash_cfg cfg)).

Abbreviation fc := (flash_cfg cfg).
Abbreviation bs := (block_size (flash_cfg cfg)).
Abbreviation n := (max_num_files cfg).
Abbreviation act c := (active_metablock c).
Abbreviation scr c := (scratch_metablock c).
Abbreviation staging := (is_st cfg (phase cfg c) B0).
Abbreviation io_error := (io_error cfg (phase cfg c) B0 strict).
Abbreviation bm0 := (bm_of (act c) B0).
Abbreviation fm0 := (fm_of cfg (act c) B0).
Abbreviation dst lb := (scratch_for c lb).
Abbreviation src lb := (phy_id (bm_of (act c) B0 lb)).
Abbreviation start := (start_of cfg).

Let Hblk : blocks_ok cfg (act c) (scratch_dblock (header_at (B0 (act c)))) bm0 :=
  do_blocks _ _ _ (rd_disk _ _ _ Hr).
Let Hfil : files_ok cfg (used_end cfg bm0) fm0 := do_files _ _ _ (rd_disk _ _ _ Hr).

(** *** The table of files *)

Lemma wp_stage_cp a b Q s c1 B :
  staging s c1 B -> act c1 = act c -> scr c1 = scr c -> 0 <= a <= b -> b <= n ->
  erased fc (foff cfg a) (foff cfg b - foff cfg a) (B (scr c)) ->
  (forall s' B', staging s' c1 B' -> only (scr c) (foff cfg a) (foff cfg b - foff cfg a) B B' ->
     (forall i, a <= i < b -> fmeta_at cfg (B' (scr c)) i = fm0 i) -> Q tt s') ->
  wp (its_flash_fs_mblock_cp_file_meta cfg a b) Q io_error s.
Proof.
  intros Hs Ha1 Hs1 Hab Hb He HQ.
  assert (ctx_ok c1) as Hc1 by (unfold ctx_ok; rewrite Ha1, Hs1; apply (rd_ctx _ _ _ Hr)).
  assert (B (act c) = B0 (act c)) as HBa by (eapply staging_act; eauto).
  eapply (wp_cp_file_meta cfg Hcfg); rewrite ?Hs1;
    [exact Hstrict|exact Hs|done|by rewrite phase_scr|done|done|done|].
  rewrite Ha1, HBa. intros s' B' Hs' Ho Hm. by eapply HQ.
Qed.

(** [old] is an entry that was staged beforehand. *)
Definition marked (old new : Z) : Prop := file_idx_ok cfg old /\ old <> new.

Definition blank (old new : Z) (B : Z -> list Z) : Prop :=
  forall o k, 8 <= o -> 0 <= k -> o + k <= meta_end cfg ->
    (marked old new -> o + k <= foff cfg old \/ foff cfg old + 32 <= o) -> erased fc o k (B (scr c)).

Lemma blank_only old new B B' o n' k m :
  blank old new B -> only (scr c) o n' B B' -> 8 <= k -> 0 <= m -> k + m <= meta_end cfg ->
  (marked old new -> k + m <= foff cfg old \/ foff cfg old + 32 <= k) ->
  k + m <= o \/ o + n' <= k -> erased fc k m (B' (scr c)).
Proof. intros Hb Ho ? ? ? Hm ?. eapply only_erased; [exact Ho|by apply Hb|lia..]. Qed.

(** The entries of the next table. *)
Definition next_entry (old new : Z) (mold m : its_file_meta_t) (j : Z) : its_file_meta_t :=
  if decide (j = new) then m else if decide (marked old new /\ j = old) then mold else fm0 j.

Lemma foff_bound i : 0 <= i <= n -> 8 <= foff cfg i /\ foff cfg i <= meta_end cfg.
Proof. intros. cfg_lia. Qed.

(** Two or three ranges of the table are copied around the new entries. *)
Lemma wp_copy_rest old new Q s c1 B :
  staging s c1 B -> act c1 = act c -> scr c1 = scr c -> file_idx_ok cfg new ->
  old = new \/ old = ITS_METADATA_INVALID_INDEX \/ marked old new ->
  (forall o k, foff cfg 0 <= o -> 0 <= k -> o + k <= meta_end cfg ->
     o + k <= foff cfg new \/ foff cfg new + 32 <= o ->
     (marked old new -> o + k <= foff cfg old \/ foff cfg old + 32 <= o) -> erased fc o k (B (scr c))) ->
  (forall s' B', staging s' c1 B' -> only (scr c) (foff cfg 0) (32 * n) B B' ->
     (forall j, file_idx_ok cfg j -> j <> new -> ~ (marked old new /\ j = old) ->
        fmeta_at cfg (B' (scr c)) j = fm0 j) ->
     (forall j, file_idx_ok cfg j -> j = new \/ (marked old new /\ j = old) ->
        fmeta_at cfg (B' (scr c)) j = fmeta_at cfg (B (scr c)) j) -> Q tt s') ->
  wp (let idx := ITS_UTILS_MIN new old in
      let* _ := or_return (its_flash_fs_mblock_cp_file_meta cfg 0 idx) PSA_ERROR_GENERIC_ERROR in
      let* idx :=
        if negb (old =? ITS_METADATA_INVALID_INDEX) && negb (old =? new) then
          let* _ := or_return (its_flash_fs_mblock_cp_file_meta cfg (u32 (idx + 1))
                                 (ITS_UTILS_MAX new old)) PSA_ERROR_GENERIC_ERROR in
          ret (ITS_UTILS_MAX new old)
        else ret idx in
      or_return (its_flash_fs_mblock_cp_file_meta cfg (u32 (idx + 1)) n) PSA_ERROR_GENERIC_ERROR)
    Q io_error s.
Proof.
  intros Hs Ha1 Hs1 Hnew Hold He HQ. pose proof Hnew as Hnew'. unfold file_idx_ok in Hnew'.
  pose proof (ct_files cfg (cw_typed cfg Hcfg)) as Hn.
  assert (forall j o m X Y, only (scr c) o m X Y -> file_idx_ok cfg j ->
    foff cfg j + 32 <= o \/ o + m <= foff cfg j ->
    fmeta_at cfg (Y (scr c)) j = fmeta_at cfg (X (scr c)) j) as Hkeep.
  { intros j o m X Y [_ Ho] Hj Hd. eapply changed_in_fmeta; eauto. }
  cbv zeta. rewrite min_spec, max_spec. set (lo := Z.min new old).
  assert (0 <= lo <= new) as Hlo by (unfold lo, marked, file_idx_ok, ITS_METADATA_INVALID_INDEX in *; lia).
  apply wp_bind, wp_or_io; [done|].
  eapply wp_stage_cp; [exact Hs|done|done|lia|lia| |].
  { apply He; [lia|unfold foff; lia|cfg_lia|unfold foff; lia|].
    intros [? ?]. left. unfold lo, foff. lia. }
  intros s1 B1 Hs1' Ho1 Hm1. apply wp_bind.
  set (b := negb _ && negb _). assert (b = true <-> marked old new) as Hb.
  { unfold b, marked, file_idx_ok, ITS_METADATA_INVALID_INDEX in *.
    rewrite andb_true_iff, !negb_true_iff, !Z.eqb_neq. lia. }
  destruct b.
  - assert (marked old new) as Hmk by (by apply Hb). pose proof Hmk as [Hold' Hne].
    unfold file_idx_ok in Hold'. set (hi := Z.max new old).
    apply wp_bind, wp_or_io; [done|]. rewrite u32_id by lia.
    eapply wp_stage_cp; [exact Hs1'|done|done|unfold lo, hi; lia|unfold hi; lia| |].
    { eapply only_erased; [exact Ho1|apply He|..]; try (lazymatch goal with |- marked _ _ -> _ => intros _ end); unfold lo, hi, foff; cfg_lia. }
    intros s2 B2 Hs2 Ho2 Hm2. apply wp_ret, wp_or_io; [done|]. rewrite u32_id by lia.
    eapply wp_stage_cp; [exact Hs2|done|done|unfold lo, hi; lia|lia| |].
    { eapply only_erased; [exact Ho2|eapply only_erased; [exact Ho1|apply He|..]|..];
        try (lazymatch goal with |- marked _ _ -> _ => intros _ end); unfold lo, hi, foff; cfg_lia. }
    intros s3 B3 Hs3 Ho3 Hm3. apply (HQ s3 B3 Hs3).
    + assert (only (scr c) (foff cfg 0) (32 * n) B B2) as Ho12
        by (eapply only_trans; [exact Ho1|exact Ho2|..]; unfold lo, hi, foff; cfg_lia).
      eapply only_trans; [exact Ho12|exact Ho3|..]; unfold lo, hi, foff; cfg_lia.
    + intros j Hj Hjn Hjo. unfold file_idx_ok in Hj.
      assert (j < lo \/ lo < j < hi \/ hi < j) as [Hc|[Hc|Hc]].
      { assert (j <> old) by tauto. unfold lo, hi. lia. }
      * rewrite (Hkeep j _ _ _ _ Ho3), (Hkeep j _ _ _ _ Ho2) by (try (done); unfold lo, hi, foff in *; lia).
        apply Hm1. lia.
      * rewrite (Hkeep j _ _ _ _ Ho3) by (try done; unfold lo, hi, foff in *; lia). apply Hm2. lia.
      * apply Hm3. lia.
    + intros j Hj Hjc. assert (j = new \/ j = old) as Hjc' by tauto.
      rewrite (Hkeep j _ _ _ _ Ho3), (Hkeep j _ _ _ _ Ho2), (Hkeep j _ _ _ _ Ho1);
        try done; unfold lo, hi, foff in *; lia.
  - assert (~ marked old new) as Hmk by (intros Hx; by apply Hb in Hx).
    assert (lo = new) as Hlo'.
    { unfold lo, ITS_METADATA_INVALID_INDEX in *. destruct Hold as [?|[?|?]]; [lia|lia|done]. }
    apply wp_ret, wp_or_io; [done|]. rewrite Hlo', u32_id by lia.
    eapply wp_stage_cp; [exact Hs1'|done|done|lia|lia| |].
    { eapply only_erased; [exact Ho1|apply He|..]; try done; rewrite ?Hlo'; unfold foff; cfg_lia. }
    intros s3 B3 Hs3 Ho3 Hm3. apply (HQ s3 B3 Hs3).
    + eapply only_trans; [exact Ho1|exact Ho3|..]; rewrite ?Hlo'; unfold foff; cfg_lia.
    + intros j Hj Hjn _. unfold file_idx_ok in Hj. assert (j < lo \/ new < j) as [Hc|Hc] by lia.
      * rewrite (Hkeep j _ _ _ _ Ho3) by (try done; unfold foff; lia). apply Hm1. lia.
      * apply Hm3. lia.
    + intros j Hj [->|[? _]]; [|done].
      rewrite (Hkeep new _ _ _ _ Ho3), (Hkeep new _ _ _ _ Ho1); try done; rewrite ?Hlo'; unfold foff; lia.
Qed.

Lemma wp_file_write_meta old new mold m mb Q s c1 B :
  staging s c1 B -> act c1 = act c -> scr c1 = scr c -> file_idx_ok cfg new ->
  old = new \/ old = ITS_METADATA_INVALID_INDEX \/ marked old new ->
  file_meta_wf m -> lblock_ok cfg (lblock m) -> block_meta_wf mb -> blank old new B ->
  (marked old new -> fmeta_at cfg (B (scr c)) old = mold) ->
  (forall s' B', staging s' c1 B' -> only (scr c) 8 (meta_end cfg - 8) B B' ->
     (forall j, lblock_ok cfg j -> bmeta_at (B' (scr c)) j = next_blocks (scr c) (lblock m) mb bm0 j) ->
     (forall j, file_idx_ok cfg j -> fmeta_at cfg (B' (scr c)) j = next_entry old new mold m j) -> Q tt s') ->
  wp (file_write_meta cfg old new m mb) Q io_error s.
Proof.
  intros Hs Ha1 Hs1 Hnew Hold Hm Hlb Hmb Hbl Hmo HQ. pose proof Hnew as Hnew'. unfold file_idx_ok in Hnew'.
  assert (forall j o k X Y, only (scr c) o k X Y -> file_idx_ok cfg j ->
    foff cfg j + 32 <= o \/ o + k <= foff cfg j ->
    fmeta_at cfg (Y (scr c)) j = fmeta_at cfg (X (scr c)) j) as Hkeep.
  { intros j o k X Y [_ Ho] Hj Hd. eapply changed_in_fmeta; eauto. }
  unfold file_write_meta. apply wp_bind, wp_or_io; [done|].
  eapply (wp_stage_blocks cfg Hcfg strict Hstrict c B0 Hr Hlen); [exact Hs|done|done|done|done| |].
  { apply Hbl; [lia|cfg_lia|cfg_lia|]. intros [Ho _]. unfold file_idx_ok in Ho. left. cfg_lia. }
  intros s1 B1 Hs1' Ho1 Hb1. apply wp_bind, wp_or_io; [done|].
  eapply (wp_stage_file cfg Hcfg strict Hstrict c B0 Hr); [exact Hs1'|done|done|done|done| |].
  { eapply blank_only; [exact Hbl|exact Ho1|..]; try cfg_lia.
    intros [Ho Hne]. unfold file_idx_ok in Ho. unfold foff. lia. }
  intros s2 B2 Hs2 Ho2 Hm2.
  eapply wp_copy_rest; [exact Hs2|done|done|done|done| |].
  { intros o k Ho Hk Hok Hdn Hdo.
    eapply only_erased; [exact Ho2|eapply only_erased; [exact Ho1|apply Hbl|..]|..]; try done; cfg_lia. }
  intros s3 B3 Hs3 Ho3 Hm3 Hk3.
  assert (only (scr c) 8 (meta_end cfg - 8) B B1) as Hw1 by (eapply only_weaken; [exact Ho1|lia|cfg_lia]).
  assert (only (scr c) 8 (meta_end cfg - 8) B B2) as Hw2 by (eapply only_trans; [exact Hw1|exact Ho2|..]; cfg_lia).
  apply (HQ s3 B3 Hs3).
  - eapply only_trans; [exact Hw2|exact Ho3|..]; cfg_lia.
  - intros j Hj. unfold lblock_ok in Hj.
    eapply only_bmeta; [exact Ho3|lia|cfg_lia|].
    symmetry. eapply only_bmeta; [exact Ho2|lia|cfg_lia|]. symmetry. by apply Hb1.
  - intros j Hj. unfold next_entry. destruct (decide (j = new)) as [->|Hjn]; [|destruct (decide _) as [[Hmk ->]|Hno]].
    + rewrite Hk3 by auto. done.
    + rewrite Hk3 by auto. destruct Hmk as [Ho Hne].
      rewrite (Hkeep old _ _ _ _ Ho2), (Hkeep old _ _ _ _ Ho1); try done; unfold file_idx_ok in *;
        [by apply Hmo| |]; cfg_lia.
    + by apply Hm3.
Qed.

(** *** The data of the file *)

Definition with_cur (m : its_file_meta_t) (k : Z) : its_file_meta_t :=
  FileMeta (lblock m) (data_idx m) k (max_size m) (flags m) (id m).

(** A file entry and its block entry as they are handed to the write: the
    file lies in its block, which is still where the active table says. *)
Record located (m : its_file_meta_t) (mb : its_block_meta_t) : Prop := {
  lc_wf : file_meta_wf m;
  lc_lblock : lblock_ok cfg (lblock m);
  lc_phy : phy_id mb = src (lblock m);
  lc_start : data_start mb = start (lblock m);
  lc_idx : start (lblock m) <= data_idx m;
  lc_end : data_idx m + max_size m <= bs - free_size mb;
  lc_free : 0 <= free_size mb <= bs;
  lc_cur : cur_size m <= max_size m;
  lc_max : max_size m <= max_file_size cfg;
}.

Lemma align_range x : 0 <= x < 2147483648 -> 0 < x ->
  0 < ITS_UTILS_ALIGN x (program_unit fc) < 4294967296 /\ x <= ITS_UTILS_ALIGN x (program_unit fc).
Proof.
  intros Hx Hpos. destruct (ct_unit cfg (cw_typed cfg Hcfg)) as (k & Hk & ->).
  assert (2 ^ k <= 2 ^ 15) by (apply Z.pow_le_mono_r; lia). change (2 ^ 15) with 32768 in *.
  assert (0 < 2 ^ k) by (apply Z.pow_pos_nonneg; lia).
  pose proof (align_bounds x k Hk ltac:(lia) ltac:(lia)). lia.
Qed.

Lemma wp_file_write_data m mb base data_size offset data Q E s B :
  let lb := lblock m in
  let pos := data_idx m + offset in
  let e := data_idx m + max_size m in
  let ue := bs - free_size mb in
  let sz := ITS_UTILS_ALIGN data_size (program_unit fc) in
  staging s c B -> located m mb -> zlen (f_data base) = cur_size m -> f_max base = max_size m ->
  write_args fc data_size offset data ->
  erased fc (start lb) (bs - start lb) (B (dst lb)) ->
  (data_size = 0 -> Q (m, mb) s) ->
  (data_size <> 0 -> write_fits fc base data_size offset ->
   forall s' B', staging s' (moved_ctx c B0 lb) B' -> only_data cfg c lb B B' ->
     sub_bytes (start lb) (pos - start lb) (B' (dst lb)) = sub_bytes (start lb) (pos - start lb) (B0 (src lb)) ->
     sub_bytes pos sz (B' (dst lb)) = sub_bytes 0 sz data ->
     erased fc (pos + sz) (e - (pos + sz)) (B' (dst lb)) ->
     sub_bytes e (ue - e) (B' (dst lb)) = sub_bytes e (ue - e) (B0 (src lb)) ->
     Q (with_cur m (Z.max (cur_size m) (offset + data_size)), BlockMeta (dst lb) (start lb) (free_size mb)) s') ->
  (~ write_fits fc base data_size offset -> E PSA_ERROR_GENERIC_ERROR s) ->
  (forall e' s', io_error e' s' -> E e' s') ->
  wp (file_write_data cfg m mb data_size offset data) Q E s.
Proof.
  intros lb pos e ue sz Hs [Lwf Llb Lph Lst Lix Le Lfr Lcu Lmx] Hbc Hbm [Wsz Wof Wda Wby] Her HQ0 HQ1 HQN HE.
  pose proof (cw_area cfg Hcfg) as [Harea _]. pose proof (ct_fsize cfg (cw_typed cfg Hcfg)) as Hfs.
  pose proof (start_nonneg cfg lb Hcfg). destruct Lwf as [_ [? _] [? _] [? _] _ _ _].
  unfold file_write_data. destruct (Z.eqb_spec data_size 0) as [Hz|Hz]; [by apply wp_ret, HQ0|].
  destruct (align_range data_size ltac:(lia) ltac:(lia)) as [Hsz Hge]. fold sz in Hsz, Hge, Wda.
  assert (write_fits fc base data_size offset <->
    ITS_UTILS_IS_ALIGNED offset (program_unit fc) = true /\ offset <= cur_size m /\ offset + sz <= max_size m) as Hfits.
  { unfold write_fits. fold sz. rewrite Hbc, Hbm. tauto. }
  apply wp_bind, wp_or_return. unfold its_flash_fs_file_write_aligned_data. fold sz. cbv zeta.
  destruct (ITS_UTILS_IS_ALIGNED offset (program_unit fc)) eqn:Hal; cbn [negb];
    [|apply wp_fail, HQN; rewrite Hfits; by intros (? & _)].
  rewrite Z.gtb_ltb. destruct (Z.ltb_spec (cur_size m) offset); [apply wp_fail, HQN; rewrite Hfits; lia|].
  rewrite check_contained_in_spec by lia.
  destruct (decide (offset + sz <= max_size m)) as [Hfit|Hnf]; cbn [negb Z.eqb];
    [|apply wp_fail, HQN; rewrite Hfits; tauto].
  assert (write_fits fc base data_size offset) as Hok by (by apply Hfits).
  change (negb (PSA_SUCCESS =? PSA_SUCCESS)) with false. cbv match.
  eapply wp_mono; [eapply (wp_dblock_write cfg Hcfg strict Hstrict c B0 Hr Hlen mb m offset sz data
      (fun _ s1 => exists B1, staging s1 c B1 /\ only_data cfg c lb B B1 /\
         sub_bytes (start lb) (pos - start lb) (B1 (dst lb)) = sub_bytes (start lb) (pos - start lb) (B0 (src lb)) /\
         sub_bytes pos sz (B1 (dst lb)) = sub_bytes 0 sz data /\
         erased fc (pos + sz) (e - (pos + sz)) (B1 (dst lb)) /\
         sub_bytes e (ue - e) (B1 (dst lb)) = sub_bytes e (ue - e) (B0 (src lb))));
      [exact Hs|done|done|done|done|lia|lia|lia|done|done|done|done|done|]
    |cbv beta; intros _ s1 (B1 & Hs1 & Ho1 & D1 & D2 & D3 & D4)|].
  { cbv zeta. intros s1 B1 ? ? ? ? ? ?. exists B1. by split_and!. }
  2:{ intros e' s' Hio. apply HE. by eapply io_recode. }
  assert ((if u32 (offset + data_size) >? cur_size m
           then FileMeta (lblock m) (data_idx m) (u32 (offset + data_size)) (max_size m) (flags m) (id m)
           else m) = with_cur m (Z.max (cur_size m) (offset + data_size))) as ->.
  { unfold with_cur. rewrite u32_id by lia. rewrite Z.gtb_ltb.
    destruct (Z.ltb_spec (cur_size m) (offset + data_size)).
    - by rewrite Z.max_r by lia.
    - rewrite Z.max_l by lia. by destruct m. }
  cbv zeta. cbn [lblock with_cur]. apply wp_bind. eapply wp_scratch_for; [exact Hs1|].
  rewrite Lph. fold lb. apply wp_bind. eapply wp_set_data_scratch; [exact Hs1|]. intros s2 Hs2.
  apply wp_ret. rewrite Lst. fold lb. by eapply HQ1.
Qed.

(** *** The next version *)

Section next_version.
(** The file and block entries as they were found or reserved, the entry
    they go to, and the one they replace. *)
Context (old new : Z) (mold m : its_file_meta_t) (mb : its_block_meta_t).
Context (data_size offset : Z) (data : list Z).
Abbreviation lb := (lblock m).
Abbreviation moved := (negb (data_size =? 0)).

Definition final_file : its_file_meta_t :=
  if data_size =? 0 then m else with_cur m (Z.max (cur_size m) (offset + data_size)).
Definition final_block : its_block_meta_t :=
  if data_size =? 0 then mb else BlockMeta (dst lb) (start lb) (free_size mb).
Abbreviation bm' := (next_blocks (scr c) lb final_block bm0).
Abbreviation fm' := (next_entry old new mold final_file).

(** The table with the old file marked. *)
Definition marked_table (j : Z) : its_file_meta_t :=
  if decide (marked old new /\ j = old) then mold else fm0 j.

Definition base_file : file :=
  File (sub_bytes (data_idx m) (cur_size m) (B0 (src lb))) (max_size m)
    (Z.land (flags m) ITS_FLASH_FS_USER_FLAGS_MASK).

Record placed : Prop := {
  pl_located : located m mb;
  pl_new : file_idx_ok cfg new;
  pl_old : old = new \/ old = ITS_METADATA_INVALID_INDEX \/ marked old new;
  pl_visible : visible m = true;
  pl_id : visible (marked_table new) = true -> id (marked_table new) = id m;
  pl_cur : data_idx m + cur_size m <= used_end cfg bm0 lb;
  pl_end : data_idx m + max_size m = bs - free_size mb \/ bs - free_size mb = used_end cfg bm0 lb;
  pl_before : files_ok cfg (used_end cfg bm0) marked_table;
  pl_after : files_ok cfg (used_end cfg (next_blocks (scr c) lb mb bm0)) (next_entry old new mold m);
  pl_deleted : one_deleted cfg (next_entry old new mold m);
}.

Context (Hpl : placed).

Lemma final_fields : lblock final_file = lb /\ data_idx final_file = data_idx m /\
  max_size final_file = max_size m /\ flags final_file = flags m /\ id final_file = id m.
Proof. unfold final_file. by destruct (data_size =? 0). Qed.

Lemma final_free : free_size final_block = free_size mb /\ data_start final_block = start lb.
Proof.
  unfold final_block. destruct (data_size =? 0); [|done]. split; [done|].
  apply (lc_start _ _ (pl_located Hpl)).
Qed.

Lemma final_used_end j :
  used_end cfg bm' j = used_end cfg (next_blocks (scr c) lb mb bm0) j.
Proof. rewrite !next_used_end. by destruct final_free as [-> _]. Qed.

Lemma base_len : zlen (f_data base_file) = cur_size m.
Proof.
  destruct (pl_located Hpl) as [[_ [? _] [? _] _ _ _ _] Llb _ _ _ Le Lf Lc _].
  destruct (lb_blocks cfg Hcfg c B0 Hr _ Llb) as (F1 & _).
  simpl. apply zlen_sub_bytes; [lia|lia|]. rewrite Hlen by done. lia.
Qed.

Context (Hfits : data_size <> 0 -> write_fits fc base_file data_size offset).
Context (Hargs : write_args fc data_size offset data).

Lemma final_cur : 0 <= cur_size final_file <= max_size m.
Proof.
  destruct (pl_located Hpl) as [[_ _ [? _] [? _] _ _ _] _ _ _ _ _ _ Lc _]. destruct Hargs as [? ? _ _].
  unfold final_file. destruct (Z.eqb_spec data_size 0) as [|Hz]; cbn [with_cur cur_size]; [lia|].
  destruct (Hfits Hz) as [|(_ & Hf1 & Hf2)]; [done|]. rewrite base_len in Hf1. cbn [base_file f_max] in Hf2.
  destruct (align_range data_size ltac:(lia) ltac:(lia)). lia.
Qed.

Lemma final_file_wf : file_meta_wf final_file.
Proof.
  pose proof final_cur as Hc. destruct (pl_located Hpl) as [[? ? ? Hm ? ? ?] _ _ _ _ _ _ _ Lm].
  unfold final_file in *. destruct (data_size =? 0); [done|]. split; simpl; try done.
  cbn [with_cur cur_size] in Hc. unfold is_u32 in *. lia.
Qed.

Lemma final_block_wf : block_meta_wf final_block.
Proof.
  destruct (pl_located Hpl) as [_ Llb Lp Ls _ _ Lf _ _].
  destruct (lb_blocks cfg Hcfg c B0 Hr _ Llb) as (F1 & F2 & _). unfold in_flash in *.
  pose proof (cw_area cfg Hcfg). pose proof (start_of_range cfg lb Hcfg).
  unfold final_block. destruct (data_size =? 0); split; unfold is_u32; cbn [phy_id data_start free_size]; lia.
Qed.

Lemma files_next : files_ok cfg (used_end cfg bm') fm' /\ one_deleted cfg fm'.
Proof.
  destruct final_fields as (E1 & E2 & E3 & E4 & E5). pose proof final_cur as Hc. pose proof (pl_after Hpl) as Ha.
  assert (forall i, fm' i = (<[new := final_file]> (next_entry old new mold m)) i) as Heq.
  { intros i. unfold next_entry. destruct (decide (i = new)) as [->|].
    - by rewrite fn_lookup_insert.
    - rewrite fn_lookup_insert_ne by done. by rewrite ?(decide_False (P := i = new)) by done. }
  assert (next_entry old new mold m new = m) as Hn by (unfold next_entry; by rewrite decide_True).
  pose proof (fs_each _ _ _ Ha new (pl_new Hpl)) as Hok. rewrite Hn in Hok. split.
  - eapply files_ok_ext; [by intros; apply final_used_end|].
    eapply files_ok_fm_ext; [intros; apply Heq|]. apply files_ok_set; [done|apply (pl_new Hpl)|..].
    + destruct Hok as [? ? ? ? ?]. split; rewrite ?E1, ?E3; unfold live, deleted; rewrite ?E4, ?E5; try done.
      * apply final_file_wf.
      * intros _. lia.
    + unfold same_place. by rewrite Hn, E1, E2, E3, E5.
    + intros _. rewrite Hn. apply (pl_visible Hpl).
  - assert (forall i, deleted (fm' i) = deleted (next_entry old new mold m i)) as Hd.
    { intros i. unfold next_entry. destruct (decide (i = new)); [|done]. unfold deleted. by rewrite E4. }
    intros i j Hi Hj. rewrite !Hd. by apply (pl_deleted Hpl).
Qed.

(** The scratch blocks hold everything but the header. *)
Record write_staged (s : fs_st F) (B : Z -> list Z) : Prop := {
  ws_st : staging s (staged_ctx c B0 moved lb) B;
  ws_bm j : lblock_ok cfg j -> bmeta_at (B (scr c)) j = bm' j;
  ws_fm i : file_idx_ok cfg i -> fmeta_at cfg (B (scr c)) i = fm' i;
  ws_kept : data_kept cfg (used_end cfg bm') (<[new := final_file]> marked_table) new
              (blocks_of bm0 B0) (blocks_of bm' B);
  ws_data : sub_bytes (data_idx m) (cur_size final_file) (blocks_of bm' B lb) =
            f_data (write_result fc base_file data_size offset data);
}.

Lemma fm'_marked i : fm' i = (<[new := final_file]> marked_table) i.
Proof.
  unfold next_entry, marked_table. destruct (decide (i = new)) as [->|].
  - by rewrite fn_lookup_insert.
  - by rewrite fn_lookup_insert_ne by done.
Qed.

Lemma write_staged_ok s B : header_wf (meta_block_header c) -> write_staged s B ->
  staged cfg c B0 (staged_ctx c B0 moved lb) B bm' fm' /\
  store cfg fm' (blocks_of bm' B) =
    <[id m := write_result fc base_file data_size offset data]> (store cfg marked_table (blocks_of bm0 B0)).
Proof.
  intros Hw [Hs Hbm Hfm Hk Hd]. destruct files_next as [Hf Hdel].
  destruct final_fields as (E1 & E2 & E3 & E4 & E5). destruct final_free as [Ef Es].
  pose proof (pl_located Hpl) as [_ Llb Lp Ls Li Le Lf _ _].
  assert (files_ok cfg (used_end cfg bm') (<[new := final_file]> marked_table)) as Hf'
    by (eapply files_ok_fm_ext; [|exact Hf]; intros; symmetry; apply fm'_marked).
  split.
  - apply (staged_intro cfg Hcfg c B0 Hr Hlen moved lb final_block s B); try done.
    + apply final_block_wf.
    + rewrite Ef. destruct (lc_wf _ _ (pl_located Hpl)) as [_ _ _ [? _] _ _ _]. lia.
    + intros _. unfold final_block. by destruct (data_size =? 0).
  - assert (store cfg fm' (blocks_of bm' B) = store cfg (<[new := final_file]> marked_table) (blocks_of bm' B))
      as ->.
    { apply slots_map_ext. intros i Hi. unfold slot, file_of. by rewrite fm'_marked. }
    rewrite (store_write cfg (used_end cfg bm0) (used_end cfg bm') _ (blocks_of bm0 B0)); try done.
    + rewrite E5, E1, E2, E3, E4, Hd. f_equal. unfold write_result. by destruct (data_size =? 0).
    + apply (pl_before Hpl).
    + apply (pl_new Hpl).
    + unfold visible, live, deleted. rewrite E4, E5. apply (pl_visible Hpl).
    + rewrite E5. apply (pl_id Hpl).
Qed.

(** What was staged for the data of the file. *)
Definition file_data_staged (B : Z -> list Z) : Prop :=
  let pos := data_idx m + offset in
  let e := data_idx m + max_size m in
  let ue := bs - free_size mb in
  let sz := ITS_UTILS_ALIGN data_size (program_unit fc) in
  data_size <> 0 ->
  sub_bytes (start lb) (pos - start lb) (B (dst lb)) = sub_bytes (start lb) (pos - start lb) (B0 (src lb)) /\
  sub_bytes pos sz (B (dst lb)) = sub_bytes 0 sz data /\
  erased fc (pos + sz) (e - (pos + sz)) (B (dst lb)) /\
  sub_bytes e (ue - e) (B (dst lb)) = sub_bytes e (ue - e) (B0 (src lb)).

Lemma write_kept s B :
  staging s (staged_ctx c B0 moved lb) B -> file_data_staged B ->
  (lb <> 0 \/ data_size = 0 ->
     sub_bytes (start 0) (used_end cfg bm0 0 - start 0) (B (scr c)) =
     sub_bytes (start 0) (used_end cfg bm0 0 - start 0) (B0 (act c))) ->
  data_kept cfg (used_end cfg bm') (<[new := final_file]> marked_table) new
    (blocks_of bm0 B0) (blocks_of bm' B) /\
  sub_bytes (data_idx m) (cur_size final_file) (blocks_of bm' B lb) =
    f_data (write_result fc base_file data_size offset data).
Proof.
  intros Hs Hdata H0. pose proof (pl_located Hpl) as [Lwf Llb Lp Ls Li Le Lf Lc _].
  assert (lblock_ok cfg 0) as Hok0 by (unfold lblock_ok; cfg_lia).
  pose proof (start_nonneg cfg lb Hcfg). pose proof final_cur as Hfc.
  pose proof (pl_cur Hpl) as Hcur. pose proof (pl_end Hpl) as Hend.
  destruct final_fields as (E1 & E2 & E3 & _ & _). destruct Lwf as [_ [? _] [? _] [? _] _ _ _].
  destruct (lb_blocks cfg Hcfg c B0 Hr 0 Hok0) as (_ & _ & _ & _ & _ & F0 & _).
  destruct (F0 eq_refl) as [Fsrc _].
  assert (used_end cfg bm' lb = bs - free_size mb) as Hue
    by (rewrite final_used_end, next_used_end; by rewrite decide_True).
  (* blocks that are where they were, or copied *)
  assert (forall j, lblock_ok cfg j -> (j = lb -> data_size = 0) ->
    sub_bytes (start j) (used_end cfg bm0 j - start j) (blocks_of bm' B j) =
    sub_bytes (start j) (used_end cfg bm0 j - start j) (blocks_of bm0 B0 j)) as Hsame.
  { intros j Hj Hjd. destruct (decide (j = 0)) as [->|Hj0].
    - rewrite zero_block. unfold blocks_of. rewrite Fsrc. apply H0.
      destruct (decide (lb = 0)) as [Hl0|]; [right; apply Hjd; congruence|by left].
    - f_equal. apply (unmoved_block cfg Hcfg c B0 Hr Hlen moved _ _ s B j Hs Hj Hj0).
      intros ->. unfold final_block. by rewrite (proj2 (Z.eqb_eq _ _)) by auto. }
  assert (forall j, lblock_ok cfg j -> j <> lb -> used_end cfg bm' j = used_end cfg bm0 j) as Hue'.
  { intros j Hj Hne. rewrite final_used_end, next_used_end. by rewrite decide_False. }
  destruct (Z.eq_dec data_size 0) as [Hz|Hz].
  - split; [split|]; rewrite ?fn_lookup_insert, ?E1, ?E2, ?E3; cbv zeta.
    + intros j Hj Hne. rewrite Hue' by done. by apply Hsame.
    + eapply sub_bytes_within; [by apply Hsame|lia..].
    + rewrite Hue. destruct Hend as [Hend|Hend].
      * replace (bs - free_size mb - (data_idx m + max_size m)) with 0 by lia. by rewrite !sub_bytes_0.
      * destruct (decide (bs - free_size mb <= data_idx m + max_size m)).
        { replace (bs - free_size mb - (data_idx m + max_size m)) with 0 by lia. by rewrite !sub_bytes_0. }
        eapply sub_bytes_within; [by apply Hsame|lia..].
    + unfold final_file, write_result. rewrite Hz. simpl.
      eapply sub_bytes_within; [by apply Hsame|lia..].
  - destruct (Hdata Hz) as (D1 & D2 & D3 & D4). destruct Hargs as [? ? _ _].
    destruct (Hfits Hz) as [|(_ & Hf1 & Hf2)]; [done|]. rewrite base_len in Hf1. cbn [base_file f_max] in Hf2.
    destruct (align_range data_size ltac:(lia) ltac:(lia)) as [Hsz1 Hsz2].
    assert (blocks_of bm' B lb = B (dst lb)) as Hmv.
    { apply (moved_block cfg Hcfg c B0 Hr); [|done]. left. unfold final_block.
      by rewrite (proj2 (Z.eqb_neq _ _) Hz). }
    split; [split|]; rewrite ?fn_lookup_insert, ?E1, ?E2, ?E3; cbv zeta.
    + intros j Hj Hne. rewrite Hue' by done. by apply Hsame.
    + rewrite Hmv. eapply sub_bytes_within; [exact D1|lia..].
    + by rewrite Hmv, Hue.
    + unfold write_result. rewrite (proj2 (Z.eqb_neq _ _) Hz). cbn [f_data].
      rewrite Hmv, base_len. set (k := Z.max _ _).
      assert (cur_size final_file = k) as ->
        by (unfold final_file; by rewrite (proj2 (Z.eqb_neq _ _) Hz)).
      rewrite <- (image_spec (erase_val fc) (data_idx m) (cur_size m) (max_size m) offset _ (B (dst lb)) (B0 (src lb)));
        try lia; [|eapply sub_bytes_within; [exact D1|lia..]|exact D2|].
      * rewrite sub_bytes_sub_bytes; [by rewrite Z.add_0_r|lia|lia|lia|].
        cbn [base_file f_max]. lia.
      * unfold erased in D3. cbn [base_file f_max].
        replace (max_size m - offset - ITS_UTILS_ALIGN data_size (program_unit fc)) with
          (data_idx m + max_size m - (data_idx m + offset + ITS_UTILS_ALIGN data_size (program_unit fc))) by lia.
        exact D3.
Qed.
End next_version.

(** *** From the located file to the committed version *)

Lemma blank_start old new B :
  entries_only cfg c B0 B -> (~ marked old new -> forall b, in_flash cfg b -> B b = B0 b) ->
  (marked old new -> only (scr c) (foff cfg old) 32 B0 B) -> blank old new B.
Proof.
  intros Ho Hn Hm o k Hok Hk Hend Hd.
  assert (lblock_ok cfg 0) as Hok0 by (unfold lblock_ok; cfg_lia).
  assert (erased fc o k (B0 (scr c))) as He.
  { rewrite <- scr_dst. apply (ready_erased cfg Hcfg c B0 Hr); [done|lia|lia|]. cfg_lia. }
  destruct (decide (marked old new)) as [Hmk|Hmk].
  - specialize (Hd Hmk). specialize (Hm Hmk). eapply only_erased; [exact Hm|exact He|lia..].
  - rewrite (Hn Hmk); [done|]. by destruct (act_in_flash cfg Hcfg c (rd_ctx _ _ _ Hr)) as (_ & ? & _).
Qed.

Section tail.
Context (old new : Z) (mold m : its_file_meta_t) (mb : its_block_meta_t).
Context (data_size offset : Z) (data : list Z).
Context (Hpl : placed old new mold m mb) (Hargs : write_args fc data_size offset data).
Abbreviation lb := (lblock m).
Abbreviation moved := (negb (data_size =? 0)).
Abbreviation mf := (final_file m data_size offset).
Abbreviation mbf := (final_block m mb data_size).
Abbreviation fits := (write_fits fc (base_file m) data_size offset).

Lemma wp_write_data Q E s B :
  staging s c B -> entries_only cfg c B0 B ->
  (forall s' B', staging s' (staged_ctx c B0 moved lb) B' ->
     (data_size = 0 \/ fits) -> (data_size = 0 -> B' = B) -> only_data cfg c lb B B' ->
     file_data_staged m mb data_size offset data B' -> Q (mf, mbf) s') ->
  (data_size <> 0 -> ~ fits -> E PSA_ERROR_GENERIC_ERROR s) -> (forall e' s', io_error e' s' -> E e' s') ->
  wp (file_write_data cfg m mb data_size offset data) Q E s.
Proof.
  intros Hs Ho HQ HN HE. pose proof (lc_lblock _ _ (pl_located _ _ _ _ _ Hpl)) as Llb.
  destruct (entries_blank cfg Hcfg c B0 Hr B lb Ho Llb) as [He _].
  destruct (Z.eq_dec data_size 0) as [Hz|Hz].
  - specialize (HQ s B). unfold file_write_data, final_file, final_block, staged_ctx in *. rewrite Hz in *.
    simpl in *. apply wp_ret, HQ; auto; [apply only_data_refl|]. by intros ?.
  - eapply (wp_file_write_data m mb (base_file m)); [exact Hs|apply (pl_located _ _ _ _ _ Hpl)| |done|done|done|done|..].
    + by apply (base_len old new mold m mb).
    + intros _ Hf s' B' Hs' Ho' D1 D2 D3 D4. unfold final_file, final_block, staged_ctx in *.
      rewrite (proj2 (Z.eqb_neq _ _) Hz) in *. apply (HQ s' B'); auto; [done|]. by intros _.
    + auto.
    + done.
Qed.

Lemma wp_write_stage Q E s B :
  staging s c B -> entries_only cfg c B0 B -> blank old new B ->
  (marked old new -> fmeta_at cfg (B (scr c)) old = mold) ->
  (forall s' B', write_staged old new mold m mb data_size offset data s' B' ->
     (data_size <> 0 -> fits) -> Q mf s') ->
  (data_size <> 0 -> ~ fits -> E PSA_ERROR_GENERIC_ERROR s) -> (forall e' s', io_error e' s' -> E e' s') ->
  wp (let* q := file_write_data cfg m mb data_size offset data in
      let '(file_meta, block_meta) := q in
      let* _ := file_write_meta cfg old new file_meta block_meta in
      let* _ :=
        if negb (lblock file_meta =? ITS_LOGICAL_DBLOCK0) || (data_size =? 0)
        then or_return (its_flash_fs_mblock_migrate_lb0_data_to_scratch cfg) PSA_ERROR_GENERIC_ERROR
        else ret tt in
      ret file_meta) Q E s.
Proof.
  intros Hs Ho Hbl Hmo HQ HN HE. pose proof (pl_located _ _ _ _ _ Hpl) as [Lwf Llb Lp Ls Li Le Lf Lc _].
  assert (lblock_ok cfg 0) as Hok0 by (unfold lblock_ok; cfg_lia).
  destruct (entries_blank cfg Hcfg c B0 Hr B 0 Ho Hok0) as [He0 _]. rewrite scr_dst in He0.
  apply wp_bind. eapply wp_write_data; [exact Hs|exact Ho| |exact HN|exact HE].
  intros s1 B1 Hs1 Hf Hsame Ho1 Hd1. assert (data_size <> 0 -> fits) as Hfits by tauto.
  destruct (staged_ctx_facts cfg c B0 Hr moved lb) as (C1 & C2 & _).
  destruct (final_fields m data_size offset) as (E1 & _).
  pose proof (data_entries_kept cfg Hcfg c B0 Hr lb B B1 Llb Ho1) as Hek.
  apply wp_bind.
  eapply wp_mono; [eapply (wp_file_write_meta old new mold mf mbf (fun _ s2 => exists B2,
      staging s2 (staged_ctx c B0 moved lb) B2 /\ only (scr c) 8 (meta_end cfg - 8) B1 B2 /\
      (forall j, lblock_ok cfg j -> bmeta_at (B2 (scr c)) j = next_blocks (scr c) lb mbf bm0 j) /\
      (forall j, file_idx_ok cfg j -> fmeta_at cfg (B2 (scr c)) j = next_entry old new mold mf j)));
      [exact Hs1|done|done|apply (pl_new _ _ _ _ _ Hpl)|apply (pl_old _ _ _ _ _ Hpl)|..]
    |cbv beta; intros _ s2 (B2 & Hs2 & Ho2 & Hb2 & Hm2)|exact HE].
  { by eapply final_file_wf. }
  { by rewrite E1. }
  { by eapply final_block_wf. }
  { intros o k Hok Hk Hend Hd. destruct (lb_blocks cfg Hcfg c B0 Hr lb Llb) as (_ & _ & _ & _ & _ & F6 & F7 & _).
    specialize (Hbl o k Hok Hk Hend Hd). unfold only_data in Ho1. destruct (decide (lb = 0)) as [Hl0|Hne].
    - destruct (F6 Hl0) as [_ Fd]. rewrite Fd, Hl0 in Ho1.
      eapply only_erased; [exact Ho1|exact Hbl|lia|lia|]. unfold start_of. simpl. lia.
    - destruct (F7 Hne) as (Fd & _). by rewrite (only_other _ _ _ _ _ _ Ho1) by done. }
  { intros Hmk. unfold fmeta_at in *. rewrite Hek by apply Hmk. by apply Hmo. }
  { intros s2 B2 ? ? Hb2 ?. rewrite E1 in Hb2. eauto 10. }
  (* the data survives the writing of the metadata *)
  assert (forall j o k, lblock_ok cfg j -> start j <= o -> 0 <= k ->
    sub_bytes o k (B2 (dst j)) = sub_bytes o k (B1 (dst j))) as Hkd.
  { intros j o k Hj Hso Hk. destruct (lb_blocks cfg Hcfg c B0 Hr j Hj) as (_ & _ & _ & _ & _ & F6 & F7 & _).
    destruct (decide (j = 0)) as [->|Hne].
    - rewrite scr_dst. apply (only_keeps _ _ _ _ _ _ _ Ho2); unfold start_of in Hso; simpl in Hso; cfg_lia.
    - destruct (F7 Hne) as (Fd & _). by rewrite (only_other _ _ _ _ _ _ Ho2) by done. }
  assert (file_data_staged m mb data_size offset data B2) as Hd2.
  { intros Hz. destruct (Hd1 Hz) as (D1 & D2 & D3 & D4). pose proof (start_nonneg cfg lb Hcfg).
    destruct Lwf as [_ [? _] [? _] [? _] _ _ _]. destruct Hargs as [? [? _] _ _].
    destruct (Hfits Hz) as [|(_ & Hf1 & Hf2)]; [done|]. rewrite (base_len old new mold m mb Hpl) in Hf1.
    cbn [base_file f_max] in Hf2. destruct (align_range data_size ltac:(lia) ltac:(lia)).
    unfold erased in *. split_and!.
    - destruct (decide (data_idx m + offset - start lb < 0)); [lia|]. by rewrite Hkd by (done || lia).
    - by rewrite Hkd by (done || lia).
    - by rewrite Hkd by (done || lia).
    - by rewrite Hkd by (done || lia). }
  rewrite E1. apply wp_bind. set (b := _ || _).
  assert (b = true <-> lb <> 0 \/ data_size = 0) as Hb.
  { unfold b, ITS_LOGICAL_DBLOCK0. rewrite orb_true_iff, negb_true_iff, Z.eqb_eq, Z.eqb_neq. tauto. }
  destruct b.
  - eapply wp_mono; [apply (wp_or_io cfg); [done|];
      eapply (wp_migrate_lb0 cfg Hcfg strict Hstrict c B0 Hr Hlen (fun _ s3 => wp (ret mf) Q E s3));
      [exact Hs2|done|done|..]|done|exact HE].
    + unfold erased. rewrite <- scr_dst. pose proof (start_of_range cfg 0 Hcfg).
      rewrite Hkd by (done || lia). rewrite scr_dst.
      destruct (proj1 Hb eq_refl) as [Hne|Hz]; [|by rewrite Hsame].
      destruct (lb_blocks cfg Hcfg c B0 Hr lb Llb) as (_ & _ & _ & _ & _ & _ & F7 & _).
      destruct (F7 Hne) as (Fd & _). unfold only_data in Ho1. by rewrite (only_other _ _ _ _ _ _ Ho1) by done.
    + intros s3 B3 Hs3 Ho3 H03. apply wp_ret. apply (HQ s3 B3); [|done].
      assert (file_data_staged m mb data_size offset data B3) as Hd3.
      { intros Hz. destruct (proj1 Hb eq_refl) as [Hne|]; [|done].
        destruct (lb_blocks cfg Hcfg c B0 Hr lb Llb) as (_ & _ & _ & _ & _ & _ & F7 & _).
        destruct (F7 Hne) as (Fd & _). rewrite !(only_other _ _ _ _ _ _ Ho3) by done. by apply Hd2. }
      destruct (write_kept old new mold m mb data_size offset data Hpl Hfits Hargs s3 B3 Hs3 Hd3) as [K1 K2];
        [by intros _|].
      split; try done.
      * intros j Hj. rewrite <- Hb2 by done. unfold lblock_ok in Hj.
        eapply only_bmeta; [exact Ho3|lia|unfold start_of; simpl; cfg_lia|done].
      * intros i Hi. rewrite <- Hm2 by done. unfold fmeta_at.
        rewrite (data_entries_kept cfg Hcfg c B0 Hr 0 B2 B3 Hok0 Ho3) by done. done.
  - apply wp_ret, wp_ret, (HQ s2 B2); [|done].
    destruct (write_kept old new mold m mb data_size offset data Hpl Hfits Hargs s2 B2 Hs2 Hd2) as [K1 K2].
    { intros Hc. by apply Hb in Hc. }
    by split.
Qed.
End tail.
End write.
