(* ===== verification/ItsFileWrite.v ===== *)
(** * [its_flash_fs_file_write]

    The four ways the file of a write is found: it exists and is written in
    place, it exists and is truncated in place, it does not exist, or it is
    replaced by a file of another size.  Each of them establishes what
    [ItsWrite] needs to stage the next version. *)

From S2P Require Import Prelude Bytes ItsUtils ItsFlash ItsMeta ItsMblock ItsFs ItsState ItsView ItsCommit ItsLayout ItsStore ItsInv ItsLookup ItsPhase ItsFileData ItsDelete ItsWrite.
From stdpp Require Import base list numbers functions gmap.
From Stdlib Require Import ZArith Lia.

Open Scope Z_scope.
Open Scope tfm_scope.

(** ** Flags *)

Lemma has_flag_sub x a b : Z.land a b = b -> has_flag x a = false -> has_flag x b = false.
Proof.
  unfold has_flag. rewrite !negb_false_iff, !Z.eqb_eq. intros Hab Hx.
  by rewrite <- Hab, Z.land_assoc, Hx, Z.land_0_l.
Qed.

Lemma no_internal_no_delete x :
  has_flag x ITS_FLASH_FS_INTERNAL_FLAGS_MASK = false -> has_flag x ITS_FLASH_FS_FLAG_DELETE = false.
Proof. by apply has_flag_sub. Qed.

Lemma has_flag_lor x b : b <> 0 -> has_flag (Z.lor x b) b = true.
Proof.
  unfold has_flag. intros Hb. rewrite negb_true_iff, Z.eqb_neq.
  rewrite Z.land_lor_distr_l, Z.land_diag. intros H%Z.lor_eq_0_iff. tauto.
Qed.

Lemma lor_u32 x b : is_u32 x -> is_u32 b -> is_u32 (Z.lor x b).
Proof.
  unfold is_u32. intros Hx Hb. assert (0 <= Z.lor x b) by (apply Z.lor_nonneg; lia). split; [done|].
  destruct (Z.eq_dec (Z.lor x b) 0) as [->|]; [lia|]. apply (Z.log2_lt_pow2 _ 32); [lia|].
  rewrite Z.log2_lor by lia.
  assert (forall y, 0 <= y < 4294967296 -> Z.log2 y < 32) as Hl.
  { intros y Hy. destruct (Z.eq_dec y 0) as [->|]; [simpl; lia|]. apply Z.log2_lt_pow2; lia. }
  pose proof (Hl x Hx). pose proof (Hl b Hb). lia.
Qed.

Lemma land_user_flags_lor x :
  Z.land (Z.lor x ITS_FLASH_FS_FLAG_DELETE) ITS_FLASH_FS_USER_FLAGS_MASK = Z.land x ITS_FLASH_FS_USER_FLAGS_MASK.
Proof. rewrite Z.land_lor_distr_l. by rewrite Z.lor_0_r. Qed.

(** ** Arguments *)

(** A file identifier the service can pass: [ITS_FILE_ID_SIZE] bytes, not all
    of them zero. *)
Record fid_ok (fid : list Z) : Prop := {
  fi_len : zlen fid = ITS_FILE_ID_SIZE;
  fi_bytes : Forall is_byte fid;
  fi_valid : fid_valid fid = true;
}.

Record finfo_ok (finfo : its_flash_fs_file_info_t) : Prop := {
  fo_flags : is_u32 (info_flags finfo);
  fo_internal : has_flag (info_flags finfo) ITS_FLASH_FS_INTERNAL_FLAGS_MASK = false;
}.

(** *** The outcome, in terms of the store *)

(** The file that the write starts from. *)
Definition write_base (S : gmap (list Z) file) (fid : list Z) (flgs cap : Z) : file :=
  match S !! fid with
  | Some f =>
      if has_flag flgs ITS_FLASH_FS_FLAG_TRUNCATE
      then File [] cap (Z.land flgs ITS_FLASH_FS_USER_FLAGS_MASK) else f
  | None => File [] cap (Z.land flgs ITS_FLASH_FS_USER_FLAGS_MASK)
  end.

(** Whether space for a new file is needed. *)
Definition needs_room (S : gmap (list Z) file) (fid : list Z) (flgs cap : Z) : bool :=
  match S !! fid with
  | Some f => has_flag flgs ITS_FLASH_FS_FLAG_TRUNCATE && negb (f_max f =? cap)
  | None => true
  end.

Definition is_replaced (S : gmap (list Z) file) (fid : list Z) (flgs cap : Z) : Prop :=
  is_Some (S !! fid) /\ needs_room S fid flgs cap = true.

Section file_write.
Context {F : Type} `{FlashOps F} (cfg : its_flash_fs_config_t).
Context `{!FlashLaws F (flash_cfg cfg)}.
Context (Hcfg : cfg_wf cfg) (Hev : ev_ok (flash_cfg cfg)).
Context (strict : bool) (Hstrict : strict = true -> FlashTotal F (flash_cfg cfg)).
Context (c : its_flash_fs_ctx_t) (B0 : Z -> list Z) (Hr : ready cfg c B0).
Context (Hlen : forall b, in_flash cfg b -> zlen (B0 b) = block_size (flash_cfg cfg)).
Context (Hnone : none_deleted cfg (fm_of cfg (active_metablock c) B0)).

Abbreviation fc := (flash_cfg cfg).
Abbreviation bs := (block_size (flash_cfg cfg)).
Abbreviation n := (max_num_files cfg).
Abbreviation act c := (active_metablock c).
Abbreviation scr c := (scratch_metablock c).
Abbreviation bm0 := (bm_of (act c) B0).
Abbreviation fm0 := (fm_of cfg (act c) B0).
Abbreviation src lb := (phy_id (bm_of (act c) B0 lb)).
Abbreviation start := (start_of cfg).
Abbreviation placed := (placed cfg c B0).

Let Hblk : blocks_ok cfg (act c) (scratch_dblock (header_at (B0 (act c)))) bm0 :=
  do_blocks _ _ _ (rd_disk _ _ _ Hr).
Let Hfil : files_ok cfg (used_end cfg bm0) fm0 := do_files _ _ _ (rd_disk _ _ _ Hr).

Lemma unmarked_table old new mold j : ~ marked cfg old new ->
  marked_table cfg c B0 old new mold j = fm0 j.
Proof. intros Hm. unfold marked_table. rewrite decide_False; [done|tauto]. Qed.

Lemma unmarked_next old new mold m j : ~ marked cfg old new ->
  next_entry cfg c B0 old new mold m j = (<[new := m]> fm0) j.
Proof.
  intros Hm. unfold next_entry. destruct (decide (j = new)) as [->|].
  - by rewrite fn_lookup_insert.
  - rewrite fn_lookup_insert_ne by done. rewrite decide_False; [done|tauto].
Qed.

Lemma marked_table_insert old new mold j : marked cfg old new ->
  marked_table cfg c B0 old new mold j = (<[old := mold]> fm0) j.
Proof.
  intros Hm. unfold marked_table. destruct (decide (j = old)) as [->|].
  - rewrite fn_lookup_insert. by rewrite decide_True.
  - rewrite fn_lookup_insert_ne by done. rewrite decide_False; [done|tauto].
Qed.

Lemma marked_next old new mold m j : marked cfg old new ->
  next_entry cfg c B0 old new mold m j = (<[new := m]> (<[old := mold]> fm0)) j.
Proof.
  intros Hm. unfold next_entry. destruct (decide (j = new)) as [->|].
  - by rewrite fn_lookup_insert.
  - rewrite fn_lookup_insert_ne by done. fold (marked_table cfg c B0 old new mold j).
    by apply marked_table_insert.
Qed.

Lemma invalid_unmarked new : ~ marked cfg ITS_METADATA_INVALID_INDEX new.
Proof. intros [Ho _]. unfold file_idx_ok, ITS_METADATA_INVALID_INDEX in Ho. cfg_lia. Qed.

Lemma self_unmarked i : ~ marked cfg i i.
Proof. by intros [_ ?]. Qed.

(** The block entry of logical block [lb] as it is. *)
Lemma located_block m :
  file_meta_wf m -> lblock_ok cfg (lblock m) -> start (lblock m) <= data_idx m ->
  data_idx m + max_size m <= used_end cfg bm0 (lblock m) -> cur_size m <= max_size m ->
  max_size m <= max_file_size cfg -> located cfg c B0 m (bm0 (lblock m)).
Proof.
  intros Hw Hlb Hi He Hc Hm. destruct (bk_each _ _ _ _ Hblk _ Hlb) as [[_ _ [Hf _]] Hst Hfr _].
  pose proof (start_nonneg cfg (lblock m) Hcfg). split; try done. lia.
Qed.

Lemma same_used_end lb j : used_end cfg (next_blocks (scr c) lb (bm0 lb) bm0) j = used_end cfg bm0 j.
Proof. rewrite next_used_end. by destruct (decide (j = lb)) as [->|]. Qed.

(** *** The file is kept in place *)

Lemma placed_in_place i m :
  file_idx_ok cfg i -> visible (fm0 i) = true -> same_place (fm0 i) m -> file_ok cfg m ->
  visible m = true -> cur_size m <= cur_size (fm0 i) ->
  placed i i m m (bm0 (lblock m)).
Proof.
  intros Hi Hv Hsp Hm Hvm Hcm. pose proof Hsp as (E1 & E2 & E3 & E4).
  destruct (file_range _ _ _ _ Hfil Hi (visible_live _ Hv)) as (R1 & R2 & R3).
  pose proof (visible_live _ Hvm) as Hl. destruct Hm as [Mw Ml Mm Mc Md].
  assert (files_ok cfg (used_end cfg bm0) (<[i := m]> fm0)) as Hf by (apply files_ok_set; auto; by split).
  split.
  - apply located_block; rewrite ?E1, ?E2, ?E3; auto; [by rewrite <- E1|by rewrite <- E3; auto|by rewrite <- E3; auto].
  - done.
  - by left.
  - done.
  - rewrite unmarked_table by apply self_unmarked. by rewrite E4.
  - rewrite E1, E2. lia.
  - right. done.
  - eapply files_ok_fm_ext; [|exact Hfil]. intros. by apply unmarked_table, self_unmarked.
  - eapply files_ok_ext; [intros; apply same_used_end|].
    eapply files_ok_fm_ext; [|exact Hf]. intros. by apply unmarked_next, self_unmarked.
  - intros j k Hj _ Hdj. rewrite unmarked_next in Hdj by apply self_unmarked.
    destruct (decide (j = i)) as [->|].
    + rewrite fn_lookup_insert in Hdj. unfold visible in Hvm. by rewrite Hdj, andb_false_r in Hvm.
    + rewrite fn_lookup_insert_ne in Hdj by done. by rewrite Hnone in Hdj.
Qed.

(** *** The file goes to a new entry at the end of a block *)

Lemma room_spec use_spare size idx lb :
  room cfg c B0 use_spare size = Some (idx, lb) ->
  file_idx_ok cfg idx /\ live (fm0 idx) = false /\ lblock_ok cfg lb /\ size <= free_size (bm0 lb).
Proof.
  unfold room. destruct (free_block _ _ _ _) as [lb'|] eqn:Hb; [|done].
  destruct (Z.eqb_spec (free_index fm0 (Z.to_nat n) 0 use_spare) ITS_METADATA_INVALID_INDEX) as [|Hne]; [done|].
  intros [= <- <-]. apply free_block_spec in Hb as [Hb1 Hb2].
  destruct (free_index_spec fm0 (Z.to_nat n) 0 use_spare) as [|[Hi1 Hi2]]; [done|].
  unfold file_idx_ok, lblock_ok. cfg_facts. split_and!; try done; lia.
Qed.

Section new_entry.
Context (old new lb size flgs : Z) (fid : list Z) (mold : its_file_meta_t).
Abbreviation m := (reserved_file cfg c B0 fid size flgs lb).
Abbreviation mb := (reserved_block c B0 size lb).
Abbreviation fm1 := (marked_table cfg c B0 old new mold).

Context (Hnew : file_idx_ok cfg new) (Hfree : live (fm0 new) = false).
Context (Hlb : lblock_ok cfg lb) (Hfit : size <= free_size (bm0 lb)).
Context (Hsz : 0 <= size <= max_file_size cfg) (Hfid : fid_ok fid).
Context (Hflg : is_u32 flgs) (Hnd : has_flag flgs ITS_FLASH_FS_FLAG_DELETE = false).
Context (Hold : old = ITS_METADATA_INVALID_INDEX \/ marked cfg old new).
Context (Hf1 : files_ok cfg (used_end cfg bm0) fm1).
Context (Hd1 : forall i, file_idx_ok cfg i -> deleted (fm1 i) = true -> i = old).
Context (Hno : forall i, file_idx_ok cfg i -> visible (fm1 i) = true -> id (fm1 i) <> fid).

Lemma reserved_ok : file_ok cfg m /\ live m = true /\ visible m = true /\ located cfg c B0 m mb.
Proof.
  destruct Hfid as [Fl Fb Fv]. destruct (bk_each _ _ _ _ Hblk _ Hlb) as [[_ _ [Hf _]] Hst Hfr _].
  pose proof (start_nonneg cfg lb Hcfg). pose proof (cw_area cfg Hcfg) as [Harea _].
  pose proof (ct_fsize cfg (cw_typed cfg Hcfg)).
  assert (file_meta_wf m) as Hw.
  { split; unfold reserved_file, used_end, is_u32, lblock_ok in *; cbn [lblock data_idx cur_size max_size flags id];
      try done; cfg_lia. }
  assert (live m = true) as Hl by done. assert (deleted m = false) as Hdm by done.
  split_and!; [split; try done; intros _; [apply Hsz|by apply Hsz]|done|unfold visible; by rewrite Hl, Hdm|].
  split; unfold reserved_file, reserved_block, used_end; cbn [lblock data_idx cur_size max_size phy_id data_start free_size];
    try done; lia.
Qed.

Lemma new_unfree : new <> old \/ old = ITS_METADATA_INVALID_INDEX.
Proof. destruct Hold as [|[_ ?]]; auto. Qed.

Lemma fm1_new : fm1 new = fm0 new.
Proof.
  unfold marked_table. rewrite decide_False; [done|]. intros [[_ Hne] Heq]. congruence.
Qed.

Lemma next_insert j : next_entry cfg c B0 old new mold m j = (<[new := m]> fm1) j.
Proof.
  unfold next_entry. destruct (decide (j = new)) as [->|].
  - by rewrite fn_lookup_insert.
  - by rewrite fn_lookup_insert_ne by done.
Qed.

Lemma placed_new : placed old new mold m mb.
Proof.
  destruct reserved_ok as (Hok & Hl & Hv & Hloc).
  assert (files_ok cfg (<[lb := used_end cfg bm0 lb + size]> (used_end cfg bm0)) (<[new := m]> fm1)) as Hf.
  { apply (files_ok_add cfg (used_end cfg bm0) fm1 new m); try done. by rewrite fm1_new. }
  split; try done.
  - by right.
  - rewrite fm1_new. intros Hvn. by apply visible_live in Hvn; rewrite Hfree in Hvn.
  - unfold reserved_file; cbn [data_idx cur_size lblock]. lia.
  - left. unfold reserved_file, reserved_block, used_end; cbn [data_idx max_size free_size]. lia.
  - eapply files_ok_ext; [|eapply files_ok_fm_ext; [intros; apply next_insert|exact Hf]].
    intros j Hj. rewrite next_used_end. unfold reserved_file, reserved_block, used_end; cbn [lblock free_size].
    destruct (decide (j = lb)) as [->|].
    + rewrite fn_lookup_insert. lia.
    + by rewrite fn_lookup_insert_ne by done.
  - assert (forall j, file_idx_ok cfg j -> deleted (next_entry cfg c B0 old new mold m j) = true -> j = old) as Hd.
    { intros j Hj. rewrite next_insert. destruct (decide (j = new)) as [->|].
      - rewrite fn_lookup_insert. intros Hdm. assert (deleted m = false) by done. congruence.
      - rewrite fn_lookup_insert_ne by done. by apply Hd1. }
    intros i j Hi Hj Hdi Hdj. rewrite (Hd i), (Hd j); done.
Qed.
End new_entry.

(** The mark of a file that is being replaced. *)
Definition mark (m : its_file_meta_t) : its_file_meta_t :=
  FileMeta (lblock m) (data_idx m) (cur_size m) (max_size m) (Z.lor (flags m) ITS_FLASH_FS_FLAG_DELETE) (id m).

Lemma mark_facts i : file_idx_ok cfg i -> live (fm0 i) = true ->
  same_place (fm0 i) (mark (fm0 i)) /\ file_ok cfg (mark (fm0 i)) /\ deleted (mark (fm0 i)) = true /\
  visible (mark (fm0 i)) = false.
Proof.
  intros Hi Hl. pose proof (fs_each _ _ _ Hfil i Hi) as [[] ? ? ? ?].
  assert (deleted (mark (fm0 i)) = true) as Hd by (unfold deleted, mark; simpl; by apply has_flag_lor).
  split_and!; [done| |done|unfold visible; by rewrite Hd, andb_false_r].
  split; unfold mark, live, deleted; cbn [lblock data_idx cur_size max_size flags id]; try done.
  split; cbn [lblock data_idx cur_size max_size flags id]; try done.
  apply lor_u32; [done|]. unfold is_u32, ITS_FLASH_FS_FLAG_DELETE. lia.
Qed.

Lemma placed_replace old new lb size flgs :
  file_idx_ok cfg old -> visible (fm0 old) = true -> file_idx_ok cfg new -> live (fm0 new) = false ->
  lblock_ok cfg lb -> size <= free_size (bm0 lb) -> 0 <= size <= max_file_size cfg -> fid_ok (id (fm0 old)) ->
  is_u32 flgs -> has_flag flgs ITS_FLASH_FS_FLAG_DELETE = false ->
  placed old new (mark (fm0 old)) (reserved_file cfg c B0 (id (fm0 old)) size flgs lb) (reserved_block c B0 size lb) /\
  store cfg (marked_table cfg c B0 old new (mark (fm0 old))) (blocks_of bm0 B0) =
    delete (id (fm0 old)) (disk_store cfg (act c) B0).
Proof.
  intros Ho Hv Hn Hfree Hlb Hfit Hsz Hfid Hflg Hnd. pose proof (visible_live _ Hv) as Hl.
  destruct (mark_facts old Ho Hl) as (M1 & M2 & M3 & M4).
  assert (marked cfg old new) as Hm by (split; [done|intros ->; congruence]).
  assert (files_ok cfg (used_end cfg bm0) (<[old := mark (fm0 old)]> fm0)) as Hf
    by (apply files_ok_set; auto; congruence).
  assert (files_ok cfg (used_end cfg bm0) (marked_table cfg c B0 old new (mark (fm0 old)))) as Hf1
    by (eapply files_ok_fm_ext; [|exact Hf]; intros; by apply marked_table_insert).
  split.
  - apply placed_new; try done; [by right|..].
    + intros i Hi. rewrite marked_table_insert by done. destruct (decide (i = old)) as [->|]; [done|].
      rewrite fn_lookup_insert_ne by done. by rewrite Hnone.
    + intros i Hi. rewrite marked_table_insert by done. destruct (decide (i = old)) as [->|Hne].
      * rewrite fn_lookup_insert. congruence.
      * rewrite fn_lookup_insert_ne by done. intros Hvi Hid. apply Hne. by apply (fs_uniq _ _ _ Hfil).
  - unfold disk_store. rewrite <- (store_hide cfg _ fm0 (blocks_of bm0 B0) old (mark (fm0 old)) Hfil Hf Ho Hv M4).
    apply slots_map_ext. intros i Hi. unfold slot, file_of. by rewrite marked_table_insert.
Qed.

(** *** From the located file to the end *)

(** Running the staging part on its own. *)
Lemma wp_stage_then {A} (D : M (fs_st F) (its_file_meta_t * its_block_meta_t)) (M1 : its_file_meta_t -> its_block_meta_t -> M (fs_st F) unit)
    (G : its_file_meta_t -> M (fs_st F) unit) (K : its_file_meta_t -> M (fs_st F) A) Q E s :
  wp (let* q := D in let '(fm, bm) := q in let* _ := M1 fm bm in let* _ := G fm in ret fm)
    (fun fm => wp (K fm) Q E) E s ->
  wp (let* q := D in let '(fm, bm) := q in let* _ := M1 fm bm in let* _ := G fm in K fm) Q E s.
Proof.
  unfold wp, bind, ret. destruct (D s) as [[[fm bm]|e] s1]; [|done].
  destruct (M1 fm bm s1) as [[[]|e] s2]; [|done]. by destruct (G fm s2) as [[[]|e] s3].
Qed.

Lemma wp_write_tail old new mold m mb data_size offset data (finfo : its_flash_fs_file_info_t)
    (Q : its_flash_fs_file_info_t -> fs_st F -> Prop) E s B :
  at_st cfg s c B -> is_st cfg (phase cfg c) B0 s c B -> header_wf (meta_block_header c) ->
  placed old new mold m mb -> write_args fc data_size offset data ->
  entries_only cfg c B0 B -> blank cfg c old new B ->
  (marked cfg old new -> fmeta_at cfg (B (scr c)) old = mold /\ deleted mold = true /\ live mold = true) ->
  (forall i, file_idx_ok cfg i -> deleted (next_entry cfg c B0 old new mold m i) = true -> marked cfg old new /\ i = old) ->
  let base := base_file c B0 m in
  let S' := <[id m := write_result fc base data_size offset data]>
              (store cfg (marked_table cfg c B0 old new mold) (blocks_of bm0 B0)) in
  (forall s' c' B', write_fits fc base data_size offset -> at_st cfg s' c' B' -> ready cfg c' B' -> none_deleted cfg (fm_of cfg (act c') B') ->
     disk_store cfg (act c') B' = S' -> Q finfo s') ->
  (data_size <> 0 -> ~ write_fits fc base data_size offset -> E PSA_ERROR_GENERIC_ERROR s) ->
  (forall e s', strict = false -> e <> PSA_SUCCESS ->
     recoverable cfg (st_flash s') (fun X => X = disk_store cfg (act c) B0 \/ X = S') -> E e s') ->
  wp (let* q := file_write_data cfg m mb data_size offset data in
      let '(file_meta, block_meta) := q in
      let* _ := file_write_meta cfg old new file_meta block_meta in
      let* _ :=
        if negb (lblock file_meta =? ITS_LOGICAL_DBLOCK0) || (data_size =? 0)
        then or_return (its_flash_fs_mblock_migrate_lb0_data_to_scratch cfg) PSA_ERROR_GENERIC_ERROR
        else ret tt in
      let* _ := its_flash_fs_mblock_meta_update_finalize cfg in
      let* _ :=
        if negb (old =? ITS_METADATA_INVALID_INDEX) && negb (old =? new)
        then its_flash_fs_delete_idx cfg old
        else ret tt in
      ret finfo) Q E s.
Proof.
  intros Hat Hs Hw Hpl Hargs Ho Hbl Hmk Hdel base S' HQ HN HE.
  pose proof (rd_disk _ _ _ Hr) as Hd.
  assert (forall e s', io_error cfg (phase cfg c) B0 strict e s' -> E e s') as HEio.
  { intros e s' Hio. pose proof Hio as (Hst & Hne & _). apply HE; [done|done|].
    destruct (io_recoverable cfg Hcfg Hev strict c B0 Hr Hlen e s' Hio) as (a & Bx & H1 & H2 & H3 & H4).
    exists a, Bx. split_and!; auto. }
  apply (wp_stage_then _ _ (fun fm => if negb (lblock fm =? ITS_LOGICAL_DBLOCK0) || (data_size =? 0)
    then or_return (its_flash_fs_mblock_migrate_lb0_data_to_scratch cfg) PSA_ERROR_GENERIC_ERROR else ret tt)).
  eapply (wp_write_stage cfg Hcfg strict Hstrict c B0 Hr Hlen old new mold m mb data_size offset data Hpl Hargs);
    [exact Hs|exact Ho|exact Hbl|intros Hm; by apply Hmk| |exact HN|exact HEio].
  intros s1 B1 Hw1 Hfits.
  assert (write_fits fc base data_size offset) as Hwf
    by (destruct (Z.eq_dec data_size 0); [by left|by apply Hfits]).
  destruct (write_staged_ok cfg Hcfg c B0 Hr Hlen old new mold m mb data_size offset data Hpl Hfits Hargs
    s1 B1 Hw Hw1) as [Hstg Hstore]. fold base S' in Hstore.
  destruct (final_fields m data_size offset) as (_ & _ & _ & E4 & E5).
  apply wp_bind. eapply (wp_commit cfg Hcfg Hev strict Hstrict _ E s1 c B0); [| |exact Hstg|..].
  - eapply is_at_st, (ws_st _ _ _ _ _ _ _ _ _ _ _ _ _ Hw1).
  - rewrite <- (rd_header _ _ _ Hr). apply Hw.
  - intros s2 c2 B2 Hat2 Hr2 Ha2 Hst2 _ Hfm2. rewrite Hstore in Hst2.
    assert (forall i, file_idx_ok cfg i -> deleted (fm_of cfg (act c2) B2 i) = true -> marked cfg old new /\ i = old) as Hd2.
    { intros i Hi. rewrite Hfm2 by done. intros Hdi. apply Hdel; [done|]. revert Hdi. unfold next_entry.
      destruct (decide (i = new)); [|done]. unfold deleted. by rewrite E4. }
    set (b := negb _ && negb _). assert (b = true <-> marked cfg old new) as Hb.
    { pose proof (pl_old _ _ _ _ _ _ _ _ Hpl) as Hold. unfold b. rewrite andb_true_iff, !negb_true_iff, !Z.eqb_neq.
      split; [tauto|]. intros Hm. split; [|apply Hm]. intros ->. by apply invalid_unmarked in Hm. }
    destruct b; cycle 1.
    { apply wp_bind, wp_ret, wp_ret. apply (HQ s2 c2 B2); try done.
      intros i Hi. apply not_true_is_false. intros Hdi. destruct (Hd2 i Hi Hdi) as [Hm _]. by apply Hb in Hm. }
    assert (marked cfg old new) as Hm by (by apply Hb). destruct (Hmk Hm) as (_ & Hmd & Hml).
    assert (fm_of cfg (act c2) B2 old = mold) as Hmo.
    { rewrite Hfm2 by apply Hm. unfold next_entry. rewrite (decide_False (P := old = new)) by apply Hm.
      by rewrite decide_True. }
    apply wp_bind.
    eapply (wp_delete_idx cfg Hcfg Hev strict Hstrict c2 B2 Hr2 (fun b => at_st_len cfg _ _ _ b Hat2) old);
      [exact Hat2|apply Hm|by rewrite Hmo|..].
    + intros i Hi Hdi. by apply Hd2 in Hdi as [_ ?].
    + rewrite Hmo, Hmd. intros s3 c3 B3 Hat3 Hr3 Hn3 Hst3. apply wp_ret. apply (HQ s3 c3 B3); try done. congruence.
    + rewrite Hmo, Hmd, Hst2. intros e s' Hstr Hne (a & Bx & G1 & G2 & G3 & G4). apply HE; [done|done|].
      exists a, Bx. split_and!; try done. right. tauto.
  - intros e s' Hstr Hne Hrec. apply HE; [done|done|]. by rewrite Hstore in Hrec.
Qed.

(** *** Finding the file *)

Abbreviation S0 := (disk_store cfg (act c) B0).

(** Why a write is refused before any data is written. *)
Inductive refusal (fid : list Z) (flgs cap : Z) : psa_status_t -> Prop :=
| refuse_missing :
    S0 !! fid = None -> has_flag flgs ITS_FLASH_FS_FLAG_CREATE = false ->
    refusal fid flgs cap PSA_ERROR_DOES_NOT_EXIST
| refuse_too_large :
    needs_room S0 fid flgs cap = true -> max_file_size cfg < cap ->
    refusal fid flgs cap PSA_ERROR_INVALID_ARGUMENT
| refuse_no_room :
    needs_room S0 fid flgs cap = true ->
    room cfg c B0 (bool_decide (is_Some (S0 !! fid))) cap = None ->
    refusal fid flgs cap PSA_ERROR_INSUFFICIENT_STORAGE.

(** The state in which a write is refused: nothing but the scratch blocks
    has changed, and not even they unless the file was being replaced. *)
Definition untouched (fid : list Z) (flgs cap : Z) (s : fs_st F) : Prop :=
  exists B, at_st cfg s c B /\ is_st cfg (phase cfg c) B0 s c B /\
    (~ is_replaced S0 fid flgs cap -> forall b, in_flash cfg b -> B b = B0 b).

Lemma store_found fid j : fid_ok fid -> file_idx_ok cfg j -> id (fm0 j) = fid ->
  visible (fm0 j) = true /\ S0 !! fid = Some (file_of fm0 (blocks_of bm0 B0) j).
Proof.
  intros [_ _ Hv] Hj Hid.
  assert (visible (fm0 j) = true) as Hvj by (unfold visible, live; by rewrite Hid, Hv, Hnone).
  split; [done|]. rewrite <- Hid. by eapply store_lookup.
Qed.

Lemma store_missing fid : (forall j, file_idx_ok cfg j -> id (fm0 j) <> fid) -> S0 !! fid = None.
Proof. intros Hno. eapply store_lookup_None; [exact Hfil|]. intros i Hi _. by apply Hno. Qed.

(** The file exists or may be created, and is not too large if it has to be
    allocated. *)
Definition admitted (fid : list Z) (flgs cap : Z) : Prop :=
  (S0 !! fid = None -> has_flag flgs ITS_FLASH_FS_FLAG_CREATE = true) /\
  (needs_room S0 fid flgs cap = true -> cap <= max_file_size cfg).

(** What [file_write_locate] hands to the rest of the write. *)
Record locate_post (fid : list Z) (flgs cap old new : Z) (m : its_file_meta_t) (mb : its_block_meta_t)
    (s : fs_st F) (mold : its_file_meta_t) (B : Z -> list Z) : Prop := {
  lp_at : at_st cfg s c B;
  lp_st : is_st cfg (phase cfg c) B0 s c B;
  lp_placed : placed old new mold m mb;
  lp_entries : entries_only cfg c B0 B;
  lp_blank : blank cfg c old new B;
  lp_mark : marked cfg old new ->
    fmeta_at cfg (B (scr c)) old = mold /\ deleted mold = true /\ live mold = true;
  lp_deleted i : file_idx_ok cfg i -> deleted (next_entry cfg c B0 old new mold m i) = true ->
    marked cfg old new /\ i = old;
  lp_id : id m = fid;
  lp_base : base_file c B0 m = write_base S0 fid flgs cap;
  lp_store f : <[fid := f]> (store cfg (marked_table cfg c B0 old new mold) (blocks_of bm0 B0)) = <[fid := f]> S0;
  lp_untouched : ~ is_replaced S0 fid flgs cap -> B = B0;
}.

(** A file that is kept in place. *)
Lemma locate_in_place fid flgs cap j m s :
  at_st cfg s c B0 -> fid_ok fid -> file_idx_ok cfg j -> id (fm0 j) = fid ->
  same_place (fm0 j) m -> file_ok cfg m -> visible m = true -> cur_size m <= cur_size (fm0 j) ->
  base_file c B0 m = write_base S0 fid flgs cap ->
  locate_post fid flgs cap j j m (bm0 (lblock m)) s m B0.
Proof.
  intros Hat Hfid Hj Hid Hsp Hm Hv Hcur Hbase. destruct (store_found fid j Hfid Hj Hid) as [Hvj Hlk].
  assert (entries_only cfg c B0 B0) as He by (split; [done|apply changed_in_refl]).
  pose proof (placed_in_place j m Hj Hvj Hsp Hm Hv Hcur) as Hpl. pose proof Hsp as (_ & _ & _ & E4).
  split; try done.
  - by apply staging_start.
  - apply (blank_start cfg Hcfg c B0 Hr); [done|done|]. by intros Hmk%self_unmarked.
  - by intros Hmk%self_unmarked.
  - intros i Hi. rewrite unmarked_next by apply self_unmarked. destruct (decide (i = j)) as [->|].
    + rewrite fn_lookup_insert. intros Hd. unfold visible in Hv. by rewrite Hd, andb_false_r in Hv.
    + rewrite fn_lookup_insert_ne by done. by rewrite Hnone.
  - by rewrite E4.
  - intros f. f_equal. apply slots_map_ext. intros i Hi. unfold slot, file_of.
    by rewrite unmarked_table by apply self_unmarked.
Qed.

(** A new file. *)
Lemma locate_new fid flgs cap idx lb s :
  at_st cfg s c B0 -> fid_ok fid -> is_u32 flgs -> has_flag flgs ITS_FLASH_FS_INTERNAL_FLAGS_MASK = false ->
  0 <= cap <= max_file_size cfg ->
  (forall j, file_idx_ok cfg j -> id (fm0 j) <> fid) -> room cfg c B0 false cap = Some (idx, lb) ->
  locate_post fid flgs cap ITS_METADATA_INVALID_INDEX idx (reserved_file cfg c B0 fid cap flgs lb)
    (reserved_block c B0 cap lb) s file_meta_zero B0.
Proof.
  intros Hat Hfid Hfl Hint Hcap Hno Hroom. destruct (room_spec _ _ _ _ Hroom) as (Hi & Hfree & Hlb & Hfit).
  pose proof (no_internal_no_delete _ Hint) as Hnd. pose proof (invalid_unmarked idx) as Hum.
  assert (entries_only cfg c B0 B0) as He by (split; [done|apply changed_in_refl]).
  assert (forall j, marked_table cfg c B0 ITS_METADATA_INVALID_INDEX idx file_meta_zero j = fm0 j) as Hmt
    by (intros; by apply unmarked_table).
  assert (files_ok cfg (used_end cfg bm0) (marked_table cfg c B0 ITS_METADATA_INVALID_INDEX idx file_meta_zero))
    as Hf1 by (eapply files_ok_fm_ext; [|exact Hfil]; intros; by apply Hmt).
  split; try done.
  - by apply staging_start.
  - apply placed_new; try done; [by left|..]; intros i Hix; rewrite Hmt; [by rewrite Hnone|auto].
  - by apply (blank_start cfg Hcfg c B0 Hr).
  - intros i Hix. rewrite unmarked_next by done. destruct (decide (i = idx)) as [->|].
    + rewrite fn_lookup_insert. intros Hd. unfold deleted, reserved_file in Hd. cbn [flags] in Hd. congruence.
    + rewrite fn_lookup_insert_ne by done. by rewrite Hnone.
  - unfold write_base. rewrite store_missing by done. unfold base_file, reserved_file.
    cbn [data_idx cur_size lblock max_size flags]. by rewrite sub_bytes_0.
  - intros f. f_equal. apply slots_map_ext. intros i Hix. unfold slot, file_of. by rewrite Hmt.
Qed.

(** A file that replaces another one. *)
Lemma locate_replace flgs cap old idx lb s B :
  let fid := id (fm0 old) in
  at_st cfg s c B -> is_st cfg (phase cfg c) B0 s c B -> fid_ok fid -> is_u32 flgs ->
  has_flag flgs ITS_FLASH_FS_INTERNAL_FLAGS_MASK = false ->
  has_flag flgs ITS_FLASH_FS_FLAG_TRUNCATE = true -> 0 <= cap <= max_file_size cfg ->
  file_idx_ok cfg old -> max_size (fm0 old) <> cap -> room cfg c B0 true cap = Some (idx, lb) ->
  only (scr c) (foff cfg old) 32 B0 B -> fmeta_at cfg (B (scr c)) old = mark (fm0 old) ->
  locate_post fid flgs cap old idx (reserved_file cfg c B0 fid cap flgs lb)
    (reserved_block c B0 cap lb) s (mark (fm0 old)) B.
Proof.
  intros fid Hat Hs Hfid Hfl Hint Htr Hcap Ho Hne Hroom Honly Hme.
  destruct (room_spec _ _ _ _ Hroom) as (Hi & Hfree & Hlb & Hfit).
  pose proof (no_internal_no_delete _ Hint) as Hnd. destruct (store_found fid old Hfid Ho eq_refl) as [Hv Hlk].
  pose proof (visible_live _ Hv) as Hl. destruct (mark_facts old Ho Hl) as (M1 & M2 & M3 & M4).
  assert (marked cfg old idx) as Hm by (split; [done|intros ->; congruence]).
  destruct (placed_replace old idx lb cap flgs Ho Hv Hi Hfree Hlb Hfit Hcap Hfid Hfl Hnd) as [Hpl Hst].
  split; try done.
  - unfold file_idx_ok in Ho. eapply only_weaken; [exact Honly|..]; unfold foff; lia.
  - apply (blank_start cfg Hcfg c B0 Hr); [|done|done].
    unfold file_idx_ok in Ho. eapply only_weaken; [exact Honly|..]; unfold foff; lia.
  - intros i Hix. rewrite marked_next by done. destruct (decide (i = idx)) as [->|].
    + rewrite fn_lookup_insert. intros Hd. unfold deleted, reserved_file in Hd. cbn [flags] in Hd. congruence.
    + rewrite fn_lookup_insert_ne by done. destruct (decide (i = old)) as [->|]; [done|].
      rewrite fn_lookup_insert_ne by done. by rewrite Hnone.
  - unfold write_base. rewrite Hlk, Htr. unfold base_file, reserved_file.
    cbn [data_idx cur_size lblock max_size flags]. by rewrite sub_bytes_0.
  - intros f. rewrite Hst. apply insert_delete_eq.
  - intros Hnr. exfalso. apply Hnr. split; [by eexists|]. unfold needs_room. rewrite Hlk, Htr.
    cbn [file_of f_max]. by rewrite (proj2 (Z.eqb_neq _ _)).
Qed.

Lemma idx_not_invalid i : file_idx_ok cfg i -> (i =? ITS_METADATA_INVALID_INDEX) = false.
Proof. unfold file_idx_ok, ITS_METADATA_INVALID_INDEX. intros. apply Z.eqb_neq. cfg_lia. Qed.

(** The second half of [file_write_locate], once it is known whether the
    file exists. *)
Definition locate_rest (fid : list Z) (finfo : its_flash_fs_file_info_t) (p : Z * Z * its_file_meta_t)
  : M (fs_st F) (Z * Z * its_file_meta_t * its_block_meta_t) :=
  let '(old_idx, new_idx, file_meta) := p in
  if new_idx =? ITS_METADATA_INVALID_INDEX then
    if size_max finfo >? max_file_size cfg then fail PSA_ERROR_INVALID_ARGUMENT
    else
      let use_spare := negb (old_idx =? ITS_METADATA_INVALID_INDEX) in
      let* q := its_flash_fs_mblock_reserve_file cfg fid use_spare (size_max finfo) (info_flags finfo) in
      let '(new_idx, file_meta, block_meta) := q in
      ret (old_idx, new_idx, file_meta, block_meta)
  else
    let* block_meta :=
      or_return (its_flash_fs_mblock_read_block_metadata cfg (lblock file_meta))
        PSA_ERROR_GENERIC_ERROR in
    ret (old_idx, new_idx, file_meta, block_meta).

Section locate.
Context (fid : list Z) (finfo : its_flash_fs_file_info_t).
Context (Hfid : fid_ok fid) (Hfi : finfo_ok finfo) (Hcap : 0 <= size_max finfo).
Abbreviation flgs := (info_flags finfo).
Abbreviation cap := (size_max finfo).
Context (Q : Z * Z * its_file_meta_t * its_block_meta_t -> fs_st F -> Prop).
Context (E : psa_status_t -> fs_st F -> Prop).
Context (HQ : forall old new m mb mold s' B, admitted fid flgs cap -> locate_post fid flgs cap old new m mb s' mold B ->
              Q (old, new, m, mb) s').
Context (HE : forall e s', refusal fid flgs cap e -> untouched fid flgs cap s' -> E e s').
Context (HEio : forall e s', io_error cfg (phase cfg c) B0 strict e s' -> E e s').

Lemma untouched_start s : at_st cfg s c B0 -> untouched fid flgs cap s.
Proof. intros Hat. exists B0. split_and!; [done|by apply staging_start|done]. Qed.

Let Hv : meta_valid cfg (B0 (act c)) := disk_ok_valid cfg Hcfg _ _ (rd_disk _ _ _ Hr).

Lemma wp_locate_in_place j m s :
  at_st cfg s c B0 -> file_idx_ok cfg j -> id (fm0 j) = fid -> same_place (fm0 j) m ->
  file_ok cfg m -> visible m = true -> cur_size m <= cur_size (fm0 j) ->
  base_file c B0 m = write_base S0 fid flgs cap -> needs_room S0 fid flgs cap = false ->
  wp (locate_rest fid finfo (j, j, m)) Q E s.
Proof.
  intros Hat Hj Hid Hsp Hm Hvm Hcur Hbase Hroom. unfold locate_rest. rewrite idx_not_invalid by done.
  pose proof (staging_start cfg c B0 s Hat) as Hs. apply wp_bind, wp_or_return.
  apply (wp_read_bm cfg Hcfg _ _ strict Hstrict s c B0 Hs (rd_ctx _ _ _ Hr) Hv); [apply Hm|..].
  - apply wp_ret, (HQ j j _ _ m s B0); [|by apply locate_in_place].
    destruct (store_found fid j Hfid Hj Hid) as [_ Hlk]. split; congruence.
  - intros e Hst He. apply HEio. by eapply is_st_io.
Qed.

Lemma wp_locate_new s :
  at_st cfg s c B0 -> (forall j, file_idx_ok cfg j -> id (fm0 j) <> fid) ->
  has_flag flgs ITS_FLASH_FS_FLAG_CREATE = true ->
  wp (locate_rest fid finfo (ITS_METADATA_INVALID_INDEX, ITS_METADATA_INVALID_INDEX, file_meta_zero)) Q E s.
Proof.
  intros Hat Hno Hcr. unfold locate_rest. rewrite !Z.eqb_refl. cbn [negb].
  pose proof (staging_start cfg c B0 s Hat) as Hs. pose proof (store_missing fid Hno) as Hmiss.
  assert (needs_room S0 fid flgs cap = true) as Hneed by (unfold needs_room; by rewrite Hmiss).
  rewrite Z.gtb_ltb. destruct (Z.ltb_spec (max_file_size cfg) cap).
  { apply wp_fail, HE; [by constructor|by apply untouched_start]. }
  apply wp_bind.
  apply (wp_reserve_file cfg Hcfg _ _ strict Hstrict s c B0 Hs (rd_ctx _ _ _ Hr) Hv); [done|..].
  - intros idx lb Hroom. apply wp_ret. eapply HQ; [by split|]. apply locate_new; try done; apply Hfi.
  - intros Hroom. apply HE; [|by apply untouched_start]. apply refuse_no_room; [done|].
    by rewrite Hmiss.
  - intros Hst. apply HEio. by eapply is_st_io.
Qed.

(** Replacing: the scratch block already holds the marked entry. *)
Lemma wp_locate_replace j s B :
  at_st cfg s c B -> is_st cfg (phase cfg c) B0 s c B -> file_idx_ok cfg j -> id (fm0 j) = fid ->
  has_flag flgs ITS_FLASH_FS_FLAG_TRUNCATE = true -> max_size (fm0 j) <> cap ->
  only (scr c) (foff cfg j) 32 B0 B -> fmeta_at cfg (B (scr c)) j = mark (fm0 j) ->
  wp (locate_rest fid finfo (j, ITS_METADATA_INVALID_INDEX, mark (fm0 j))) Q E s.
Proof.
  intros Hat Hs Hj Hid Htr Hne Ho Hm. unfold locate_rest. rewrite Z.eqb_refl, idx_not_invalid by done.
  cbn [negb]. destruct (store_found fid j Hfid Hj Hid) as [Hvj Hlk].
  assert (needs_room S0 fid flgs cap = true) as Hneed.
  { unfold needs_room. rewrite Hlk, Htr. cbn [file_of f_max]. by rewrite (proj2 (Z.eqb_neq _ _)). }
  assert (untouched fid flgs cap s) as Hut.
  { exists B. split_and!; [done|done|]. intros Hnr. exfalso. apply Hnr. split; [by eexists|done]. }
  rewrite Z.gtb_ltb. destruct (Z.ltb_spec (max_file_size cfg) cap).
  { apply wp_fail, HE; [by constructor|done]. }
  assert (B (act c) = B0 (act c)) as HBa by (eapply staging_act; eauto).
  assert (meta_valid cfg (B (act c))) as HvB by (by rewrite HBa).
  assert (forall sp sz, room cfg c B sp sz = room cfg c B0 sp sz) as Hroomeq
    by (intros; unfold room, bm_of, fm_of; by rewrite HBa).
  apply wp_bind.
  apply (wp_reserve_file cfg Hcfg _ _ strict Hstrict s c B Hs (rd_ctx _ _ _ Hr) HvB); [done|..].
  - intros idx lb Hroom. rewrite Hroomeq in Hroom. apply wp_ret. eapply HQ; [split; [congruence|done]|].
    assert (reserved_file cfg c B fid cap flgs lb = reserved_file cfg c B0 fid cap flgs lb) as ->
      by (unfold reserved_file, used_end, bm_of; by rewrite HBa).
    assert (reserved_block c B cap lb = reserved_block c B0 cap lb) as ->
      by (unfold reserved_block, bm_of; by rewrite HBa).
    subst fid. apply locate_replace; try done; apply Hfi.
  - rewrite Hroomeq. intros Hroom. apply HE; [|done]. apply refuse_no_room; [done|]. by rewrite Hlk.
  - intros Hst. apply HEio. by eapply is_st_io.
Qed.

Lemma wp_locate s : at_st cfg s c B0 -> wp (file_write_locate cfg fid finfo) Q E s.
Proof.
  intros Hat. pose proof (staging_start cfg c B0 s Hat) as Hs. unfold file_write_locate.
  assert (lblock_ok cfg 0) as Hok0 by (unfold lblock_ok; cfg_lia).
  apply wp_bind, wp_try.
  apply (wp_get_file_idx_meta cfg Hcfg _ _ strict Hstrict s c B0 Hs (rd_ctx _ _ _ Hr) Hv).
  - intros j Hj Hid. destruct (store_found fid j Hfid Hj Hid) as [Hvj Hlk].
    pose proof (fs_each _ _ _ Hfil j Hj) as Hokj. pose proof (visible_live _ Hvj) as Hlj.
    destruct (file_range _ _ _ _ Hfil Hj Hlj) as (R1 & R2 & R3). destruct Hfi as [Ff Fi].
    apply wp_bind. destruct (has_flag flgs ITS_FLASH_FS_FLAG_TRUNCATE) eqn:Htr.
    + destruct (Z.eqb_spec (max_size (fm0 j)) cap) as [Hcp|Hcp].
      * apply wp_ret. apply (wp_locate_in_place j); try done; cbn [cur_size]; try lia.
        -- pose proof (no_internal_no_delete _ Fi) as Hnd. destruct Hokj as [[] ? Hm ? ?].
           split; unfold live, deleted; cbn [lblock data_idx cur_size max_size flags id];
             [|done|done|intros; lia|congruence].
           split; cbn [lblock data_idx cur_size max_size flags id]; done.
        -- unfold visible, live, deleted. cbn [flags id].
           rewrite (no_internal_no_delete _ Fi). cbn [negb]. by rewrite andb_true_r.
        -- unfold write_base. rewrite Hlk, Htr. unfold base_file.
           cbn [data_idx cur_size lblock max_size flags]. by rewrite sub_bytes_0, Hcp.
        -- unfold needs_room. rewrite Hlk, Htr. cbn [file_of f_max]. by rewrite Hcp, Z.eqb_refl.
      * fold (mark (fm0 j)). destruct (mark_facts j Hj Hlj) as (_ & M2 & _). apply wp_bind, wp_or_return.
        eapply wp_mono; [eapply (wp_stage_file cfg Hcfg strict Hstrict c B0 Hr j (mark (fm0 j))
            (fun _ s1 => wp (locate_rest fid finfo (j, ITS_METADATA_INVALID_INDEX, mark (fm0 j))) Q E s1));
            [exact Hs|done|done|done|by apply M2| |]|cbv beta; intros _ s1 Hw; by apply wp_ret|].
        -- unfold file_idx_ok in Hj. rewrite <- scr_dst.
           apply (ready_erased cfg Hcfg c B0 Hr); [done|cfg_lia..].
        -- intros s1 B1 Hs1 Ho1 Hm1. apply (wp_locate_replace j s1 B1); try done. by eapply is_at_st.
        -- intros e s' Hio. apply HEio. by eapply io_recode.
    + apply wp_ret. apply (wp_locate_in_place j); try done.
      * unfold write_base. by rewrite Hlk, Htr.
      * unfold needs_room. by rewrite Hlk, Htr.
  - intros Hno. apply wp_bind. pose proof (store_missing fid Hno) as Hmiss.
    change (PSA_ERROR_DOES_NOT_EXIST =? PSA_ERROR_DOES_NOT_EXIST) with true. cbv match.
    destruct (has_flag flgs ITS_FLASH_FS_FLAG_CREATE) eqn:Hcr.
    + by apply wp_ret, wp_locate_new.
    + apply wp_fail, HE; [by constructor|by apply untouched_start].
  - intros Hst. apply wp_bind. apply wp_fail, HEio. by eapply is_st_io.
Qed.
End locate.

Lemma align_nonneg x : 0 <= ITS_UTILS_ALIGN x (program_unit fc).
Proof. unfold ITS_UTILS_ALIGN. apply Z.land_nonneg. left. apply u32_range. Qed.

(** The whole write. *)
Lemma wp_file_write fid finfo data_size offset data Q E s :
  at_st cfg s c B0 -> fid_ok fid -> finfo_ok finfo -> write_args fc data_size offset data ->
  let flgs := info_flags finfo in
  let cap := ITS_UTILS_ALIGN (size_max finfo) (program_unit fc) in
  let base := write_base S0 fid flgs cap in
  let S' := <[fid := write_result fc base data_size offset data]> S0 in
  (forall s' c' B', admitted fid flgs cap -> write_fits fc base data_size offset -> at_st cfg s' c' B' -> ready cfg c' B' -> none_deleted cfg (fm_of cfg (act c') B') ->
     disk_store cfg (act c') B' = S' -> Q (align_size_max cfg finfo) s') ->
  (forall e s', refusal fid flgs cap e \/
      (e = PSA_ERROR_GENERIC_ERROR /\ ~ write_fits fc base data_size offset) ->
     untouched fid flgs cap s' -> E e s') ->
  (forall e s', strict = false -> e <> PSA_SUCCESS ->
     recoverable cfg (st_flash s') (fun X => X = S0 \/ X = S') -> E e s') ->
  wp (its_flash_fs_file_write cfg fid finfo data_size offset data) Q E s.
Proof.
  intros Hat Hfid Hfi Hargs flgs cap base S' HQ HR HE.
  pose proof (ready_header_wf cfg Hcfg c B0 Hr Hlen s Hat) as Hw.
  unfold its_flash_fs_file_write. rewrite (fo_internal _ Hfi). cbv zeta. apply wp_bind.
  apply (wp_locate fid (align_size_max cfg finfo)); try done.
  - destruct Hfi. by split.
  - apply align_nonneg.
  - intros old new m mb mold s1 B1 Hadm [A1 A2 A3 A4 A5 A6 A7 A8 A9 A10 A11].
    unfold align_size_max in A9, A10, A11. cbn [info_flags size_max] in A9, A10, A11. fold flgs cap in A9, A10, A11.
    apply (wp_write_tail old new mold m mb data_size offset data (align_size_max cfg finfo) Q E s1 B1);
      try done; rewrite ?A8, ?A9, ?A10; try done.
    { intros s' c' B'. by apply HQ. }
    intros _ Hnf. apply HR; [by right|]. exists B1. split_and!; [done|done|].
    intros Hnr b Hb. by rewrite A11.
  - intros e s' Href Hut. apply HR; [by left|done].
  - intros e s' Hio. pose proof Hio as (Hst & Hne & _). apply HE; [done|done|].
    destruct (io_recoverable cfg Hcfg Hev strict c B0 Hr Hlen e s' Hio) as (a & Bx & H1 & H2 & H3 & H4).
    exists a, Bx. split_and!; auto.
Qed.
End file_write.
