(* ===== verification/ItsOps.v ===== *)
(** * Reading, deleting, mounting and formatting

    The remaining operations of [its_flash_fs.c] over the store. *)

From S2P Require Import Prelude Bytes ItsUtils ItsFlash ItsMeta ItsMblock ItsFs ItsState ItsView ItsCommit ItsLayout ItsStore ItsInv ItsLookup ItsPhase ItsFileData ItsDelete ItsWrite ItsFileWrite.
From stdpp Require Import base list numbers functions gmap.
From Stdlib Require Import ZArith Lia.

Open Scope Z_scope.
Open Scope tfm_scope.

Section ops.
Context {F : Type} `{FlashOps F} (cfg : its_flash_fs_config_t).
Context `{!FlashLaws F (flash_cfg cfg)}.
Context (Hcfg : cfg_wf cfg) (Hev : ev_ok (flash_cfg cfg)).
Context (strict : bool) (Hstrict : strict = true -> FlashTotal F (flash_cfg cfg)).
Context (c : its_flash_fs_ctx_t) (B0 : Z -> list Z) (Hr : ready cfg c B0).
Context (Hlen : forall b, in_flash cfg b -> zlen (B0 b) = block_size (flash_cfg cfg)).
Context (Hnone : none_deleted cfg (fm_of cfg (active_metablock c) B0)).

Abbreviation fc := (flash_cfg cfg).
Abbreviation bs := (block_size (flash_cfg cfg)).
Abbreviation n := (max_num_files cfg).
Abbreviation act c := (active_metablock c).
Abbreviation scr c := (scratch_metablock c).
Abbreviation bm0 := (bm_of (act c) B0).
Abbreviation fm0 := (fm_of cfg (act c) B0).
Abbreviation S0 := (disk_store cfg (act c) B0).
Abbreviation src lb := (phy_id (bm_of (act c) B0 lb)).

Let Hblk : blocks_ok cfg (act c) (scratch_dblock (header_at (B0 (act c)))) bm0 :=
  do_blocks _ _ _ (rd_disk _ _ _ Hr).
Let Hfil : files_ok cfg (used_end cfg bm0) fm0 := do_files _ _ _ (rd_disk _ _ _ Hr).
Let Hv : meta_valid cfg (B0 (act c)) := disk_ok_valid cfg Hcfg _ _ (rd_disk _ _ _ Hr).

(** While an update is staged the active metadata is read as before. *)
Lemma staging_meta s B : is_st cfg (phase cfg c) B0 s c B ->
  meta_valid cfg (B (act c)) /\ (forall i, fm_of cfg (act c) B i = fm0 i) /\
  (forall lb, bm_of (act c) B lb = bm0 lb).
Proof. intros Hs. unfold fm_of, bm_of. rewrite (staging_act cfg Hcfg c B0 Hr Hlen s c B Hs). by split_and!. Qed.

(** Looking up the entry of a file of the store. *)
Lemma wp_find fid Q E s B :
  is_st cfg (phase cfg c) B0 s c B -> fid_ok fid ->
  (forall j, file_idx_ok cfg j -> visible (fm0 j) = true -> id (fm0 j) = fid ->
     S0 !! fid = Some (file_of fm0 (blocks_of bm0 B0) j) -> Q (j, fm0 j) s) ->
  (S0 !! fid = None -> E PSA_ERROR_DOES_NOT_EXIST s) ->
  (strict = false -> E PSA_ERROR_DOES_NOT_EXIST s) ->
  wp (or_return (its_flash_fs_mblock_get_file_idx_meta cfg fid) PSA_ERROR_DOES_NOT_EXIST) Q E s.
Proof.
  intros Hs Hfid HQ HN HE. apply wp_or_return. destruct (staging_meta s B Hs) as (Hv1 & Hfm & _).
  apply (wp_get_file_idx_meta cfg Hcfg _ _ strict Hstrict s c B Hs (rd_ctx _ _ _ Hr) Hv1).
  - intros j Hj. rewrite Hfm. intros Hid. destruct (store_found cfg c B0 Hr Hnone fid j Hfid Hj Hid). by apply HQ.
  - intros Hno. apply HN, (store_missing cfg c B0 Hr). intros j Hj. rewrite <- Hfm. by apply Hno.
  - done.
Qed.

Lemma file_of_len j : file_idx_ok cfg j -> live (fm0 j) = true ->
  zlen (f_data (file_of fm0 (blocks_of bm0 B0) j)) = cur_size (fm0 j).
Proof.
  intros Hj Hl. pose proof (fk_lblock _ _ (fs_each _ _ _ Hfil j Hj)) as Hlb.
  destruct (file_range _ _ _ _ Hfil Hj Hl) as (R1 & R2 & R3). pose proof (start_nonneg cfg (lblock (fm0 j)) Hcfg).
  destruct (bk_each _ _ _ _ Hblk _ Hlb) as [[_ _ [Hf _]] _ Hfr _]. unfold used_end in R2.
  unfold file_of. cbn [f_data]. apply zlen_sub_bytes; [lia|lia|]. unfold blocks_of. rewrite Hlen; [lia|].
  by destruct (block_in_flash cfg Hcfg _ _ _ _ Hblk Hlb).
Qed.

Lemma wp_get_info fid Q E s B :
  is_st cfg (phase cfg c) B0 s c B -> fid_ok fid ->
  (forall f, S0 !! fid = Some f -> Q (FileInfo (zlen (f_data f)) (f_max f) (f_flags f)) s) ->
  (S0 !! fid = None -> E PSA_ERROR_DOES_NOT_EXIST s) ->
  (strict = false -> E PSA_ERROR_DOES_NOT_EXIST s) ->
  wp (its_flash_fs_file_get_info cfg fid) Q E s.
Proof.
  intros Hs Hfid HQ HN HE. unfold its_flash_fs_file_get_info. apply wp_bind.
  eapply wp_find; [exact Hs|done|..]; try done. intros j Hj Hvj Hid Hlk. apply wp_ret. cbn [snd].
  specialize (HQ _ Hlk). rewrite file_of_len in HQ by (auto using visible_live). exact HQ.
Qed.

(** A read of zero bytes may be refused by the driver. *)
Lemma wp_file_read fid size offset Q E s B :
  is_st cfg (phase cfg c) B0 s c B -> fid_ok fid -> is_u32 size -> is_u32 offset ->
  (forall f, S0 !! fid = Some f -> offset + size <= zlen (f_data f) ->
     Q (sub_bytes offset size (f_data f)) s) ->
  (S0 !! fid = None -> E PSA_ERROR_DOES_NOT_EXIST s) ->
  (forall f, S0 !! fid = Some f -> zlen (f_data f) < offset + size -> E PSA_ERROR_INVALID_ARGUMENT s) ->
  (forall e, strict = false -> e = PSA_ERROR_DOES_NOT_EXIST \/ e = PSA_ERROR_GENERIC_ERROR -> E e s) ->
  (size = 0 -> E PSA_ERROR_GENERIC_ERROR s) ->
  wp (its_flash_fs_file_read cfg fid size offset) Q E s.
Proof.
  intros Hs Hfid Hsz Hof HQ HN HI HE HE0. unfold is_u32 in *. unfold its_flash_fs_file_read.
  apply wp_bind. eapply wp_find; [exact Hs|done|..]; try done; [|by intros; apply HE; auto].
  intros j Hj Hvj Hid Hlk. cbn [snd]. pose proof (visible_live _ Hvj) as Hl.
  pose proof (fk_lblock _ _ (fs_each _ _ _ Hfil j Hj)) as Hlb. pose proof (file_of_len j Hj Hl) as Hcur.
  specialize (HQ _ Hlk). specialize (HI _ Hlk). rewrite Hcur in HQ, HI.
  destruct (file_range _ _ _ _ Hfil Hj Hl) as (R1 & R2 & R3). pose proof (start_nonneg cfg (lblock (fm0 j)) Hcfg).
  destruct (bk_each _ _ _ _ Hblk _ Hlb) as [[_ _ [Hf0 _]] _ Hfr _]. unfold used_end in R2.
  pose proof (cw_area cfg Hcfg) as [Harea Hnb].
  apply wp_bind. rewrite check_contained_in_spec by lia.
  destruct (decide (offset + size <= cur_size (fm0 j))) as [Hfit|Hnf]; [|by apply HI; lia].
  apply wp_of_status; [intros _|done]. apply wp_or_return. unfold its_flash_fs_dblock_read_file, its_dblock_lo_to_phy.
  apply wp_bind, wp_bind, wp_try.
  destruct (staging_meta s B Hs) as (Hv1 & _ & Hbm).
  apply (wp_read_bm cfg Hcfg _ _ strict Hstrict s c B Hs (rd_ctx _ _ _ Hr) Hv1); rewrite ?Hbm; [done|..].
  - destruct (lb_blocks cfg Hcfg c B0 Hr _ Hlb) as (_ & _ & Hns & _).
    apply wp_ret. destruct (block_in_flash cfg Hcfg _ _ _ _ Hblk Hlb) as [Hin _]. unfold in_flash in Hin.
    rewrite (proj2 (Z.eqb_neq _ _)) by (unfold ITS_BLOCK_INVALID_ID; lia).
    rewrite u32_id by lia.
    assert (B (src (lblock (fm0 j))) = B0 (src (lblock (fm0 j)))) as Hkept by (by eapply (staging_kept cfg)).
    assert (sub_bytes (data_idx (fm0 j) + offset) size (B (src (lblock (fm0 j)))) =
            sub_bytes offset size (f_data (file_of fm0 (blocks_of bm0 B0) j))) as Heq
      by (unfold file_of; cbn [f_data]; by rewrite Hkept, sub_bytes_sub_bytes by lia).
    destruct (Z.eq_dec size 0) as [Hz|Hz].
    + unfold wp, ops_read. destruct (op_read fc (st_flash s) _ _ size) as [d|e] eqn:Hop; [|by apply HE0].
      destruct Hs as (Hok & _ & HB & _).
      apply (fl_read (st_flash s)) in Hop; [|done|unfold in_flash; lia|lia|lia|lia].
      rewrite Hop, HB, Heq by done. by apply HQ.
    + eapply (wp_ops_read_or cfg _ _ strict Hstrict); [exact Hs|done|lia|lia|lia| |].
      * rewrite Heq. by apply HQ.
      * intros e Hst _. apply HE; auto.
  - intros e Hst He. apply wp_ret. rewrite Z.eqb_refl. apply wp_fail, HE; auto.
Qed.

Lemma wp_file_delete fid Q E s :
  at_st cfg s c B0 -> fid_ok fid ->
  (forall s' c' B', is_Some (S0 !! fid) -> at_st cfg s' c' B' -> ready cfg c' B' ->
     none_deleted cfg (fm_of cfg (act c') B') -> disk_store cfg (act c') B' = delete fid S0 -> Q tt s') ->
  (S0 !! fid = None -> E PSA_ERROR_DOES_NOT_EXIST s) ->
  (forall e s', strict = false -> e <> PSA_SUCCESS ->
     recoverable cfg (st_flash s') (fun X => X = S0 \/ X = delete fid S0) -> E e s') ->
  wp (its_flash_fs_file_delete cfg fid) Q E s.
Proof.
  intros Hat Hfid HQ HN HE. unfold its_flash_fs_file_delete. apply wp_bind.
  eapply wp_find; [by apply staging_start|done|..]; try done.
  - intros j Hj Hvj Hid Hlk. cbn [fst]. pose proof (Hnone j Hj) as Hnd.
    apply (wp_delete_idx cfg Hcfg Hev strict Hstrict c B0 Hr Hlen j); try done.
    + by apply visible_live.
    + intros i Hi Hdi. by rewrite Hnone in Hdi.
    + rewrite Hnd, Hid. intros s' c' B' H1 H2 H3 H4. eapply HQ; eauto.
    + rewrite Hnd, Hid. exact HE.
  - intros Hst. apply HE; [done|done|].
    destruct (staging_recoverable cfg Hcfg Hev c B0 Hr Hlen s c B0 (staging_start cfg c B0 s Hat))
      as (a & Bx & G1 & G2 & G3 & G4). exists a, Bx. split_and!; auto.
Qed.
End ops.

(** * Mounting

    [its_flash_fs_prepare] on the flash that a reset left behind. *)

Section mount.
Context {F : Type} `{FlashOps F} (cfg : its_flash_fs_config_t).
Context `{!FlashLaws F (flash_cfg cfg)} `{!FlashTotal F (flash_cfg cfg)}.
Context (Hcfg : cfg_wf cfg) (Hev : ev_ok (flash_cfg cfg)).

Abbreviation fc := (flash_cfg cfg).
Abbreviation bs := (block_size (flash_cfg cfg)).
Abbreviation act c := (active_metablock c).
Abbreviation scr c := (scratch_metablock c).
Abbreviation at_st := (at_st cfg).
Abbreviation io_error B := (io_error cfg (fun _ => block_size (flash_cfg cfg)) B true).

Let Htot : true = true -> FlashTotal F fc := fun _ => _.

(** The check of a header is [header_valid]. *)
Lemma wp_validate_header b Q E s c B :
  at_st s c B -> b = 0 \/ b = 1 ->
  (header_valid cfg (B b) = true -> Q tt s) ->
  (forall e, header_valid cfg (B b) = false -> E e s) ->
  wp (its_mblock_validate_header_meta cfg (header_at (B b)) b) Q E s.
Proof.
  intros Hs Hb HQ HE. pose proof (at_is_st cfg (fun _ => bs) s c B Hs) as Hi.
  unfold its_mblock_validate_header_meta, its_mblock_validate_fs_version, header_valid in *. cbv zeta in *.
  apply wp_bind. destruct (fs_version (header_at (B b)) =? ITS_BACKWARD_SUPPORTED_VERSION).
  - apply wp_ret. unfold its_mblock_validate_swap_count, comp_active_swap_count.
    apply wp_of_status; destruct (metadata_xor (header_at (B b)) =? erase_val fc); intros; try done; auto.
  - destruct (fs_version (header_at (B b)) =? ITS_SUPPORTED_VERSION); [|apply wp_fail; auto].
    apply wp_ret. apply wp_bind. unfold its_mblock_validate_swap_count.
    apply wp_of_status; destruct (active_swap_count (header_at (B b)) =? erase_val fc); intros; try done; auto.
    unfold its_mblock_validate_metadata_xor. apply wp_bind.
    eapply wp_mono; [eapply (wp_metadata_xor cfg Hcfg (fun _ => bs) B true Htot b
      (fun x s' => x = xor_at cfg (B b) /\ s' = s)); [exact Hi|done|done]|cbv beta; intros x s' [-> ->]|
      by intros e s' (? & _)].
    apply wp_check; intros Hx; rewrite Hx in *; auto.
Qed.

(** Reading a metadata block's header. *)
Lemma wp_read_valid_header b Q E s c B :
  at_st s c B -> b = 0 \/ b = 1 ->
  Q (if header_valid cfg (B b) then Some (header_at (B b)) else None) s ->
  wp (read_valid_header cfg b) Q E s.
Proof.
  intros Hs Hb HQ. pose proof (at_is_st cfg (fun _ => bs) s c B Hs) as Hi.
  assert (in_flash cfg b) as Hin by (unfold in_flash; cfg_lia).
  unfold read_valid_header. apply wp_bind, wp_try. unfold ITS_BLOCK_META_HEADER_SIZE.
  eapply (wp_ops_read_or cfg _ _ true Htot); [exact Hi|done|lia|lia|cfg_lia| |done].
  apply wp_bind, wp_try. fold (header_at (B b)).
  eapply wp_validate_header; [exact Hs|done|..].
  - intros Hv. rewrite Hv in HQ. by apply wp_ret.
  - intros e Hv. rewrite Hv in HQ. by apply wp_ret.
Qed.

Lemma other_block a : a = 0 \/ a = 1 -> ITS_OTHER_META_BLOCK a = 1 - a.
Proof. by intros [->| ->]. Qed.

Lemma mount_block a B : mount cfg B = Some a -> a = 0 \/ a = 1.
Proof.
  unfold mount, its_mblock_latest_meta_block, ITS_METADATA_BLOCK0, ITS_METADATA_BLOCK1. intros Hm.
  repeat case_match; simplify_eq; auto.
Qed.

Lemma wp_get_active Q E s c B :
  at_st s c B ->
  (forall a s', mount cfg B = Some a -> at_st s' (FsCtx (meta_block_header c) a (1 - a)) B -> Q tt s') ->
  (mount cfg B = None -> E PSA_ERROR_GENERIC_ERROR s) ->
  wp (its_init_get_active_metablock cfg) Q E s.
Proof.
  intros Hs HQ HE. unfold its_init_get_active_metablock.
  apply wp_bind. eapply wp_read_valid_header; [exact Hs|by left|].
  apply wp_bind. eapply wp_read_valid_header; [exact Hs|by right|].
  apply wp_bind. change ITS_METADATA_BLOCK0 with 0. change ITS_METADATA_BLOCK1 with 1.
  assert (forall a, mount cfg B = Some a ->
    wp (set_ctx (fun c => FsCtx (meta_block_header c) a (ITS_OTHER_META_BLOCK a))) Q E s) as Hset.
  { intros a Ha. rewrite other_block by (by eapply mount_block).
    eapply wp_set_ctx; [eapply (at_is_st cfg (fun _ => 0)), Hs|]. intros s' Hs'%is_at_st. by eapply HQ. }
  unfold mount in *. destruct (header_valid cfg (B 0)), (header_valid cfg (B 1));
    (apply wp_ret, Hset; done) || (by apply wp_fail, HE).
Qed.

(** [its_flash_fs_mblock_init] finds the active version and clears the
    scratch blocks. *)
Lemma wp_mblock_init Q E s c B a :
  at_st s c B -> mount cfg B = Some a -> disk_ok cfg a B ->
  (forall s' c' B', at_st s' c' B' -> ready cfg c' B' -> act c' = a ->
     disk_store cfg a B' = disk_store cfg a B -> B' a = B a -> Q tt s') ->
  wp (its_flash_fs_mblock_init cfg) Q E s.
Proof.
  intros Hs Hm Hd HQ. pose proof (mount_block _ _ Hm) as Ha. pose proof (do_blocks _ _ _ Hd) as Hblk.
  assert (in_flash cfg a) as Hin by (unfold in_flash; cfg_lia).
  unfold its_flash_fs_mblock_init. apply wp_bind, wp_or_return.
  eapply wp_get_active; [exact Hs| |congruence]. intros a' s1 Ha' Hs1.
  assert (a' = a) as -> by congruence. pose proof (at_is_st cfg (fun _ => bs) s1 _ B Hs1) as Hi1.
  apply wp_bind, wp_or_return. unfold its_mblock_read_meta_header.
  apply wp_bind. eapply wp_ctx; [exact Hi1|]. cbn [active_metablock]. apply wp_bind.
  unfold ITS_BLOCK_META_HEADER_SIZE.
  eapply (wp_ops_read_or cfg _ _ true Htot); [exact Hi1|done|lia|lia|cfg_lia| |done].
  fold (header_at (B a)). apply wp_bind. eapply wp_set_header; [exact Hi1|]. cbn [active_metablock scratch_metablock].
  intros s2 Hs2. set (c2 := FsCtx _ _ _) in Hs2. apply is_at_st in Hs2.
  eapply wp_validate_header; [exact Hs2|done| |].
  2:{ intros e Hv. by rewrite (disk_header_valid cfg a B Hd) in Hv. }
  intros _. apply wp_bind, wp_or_return.
  eapply (wp_erase_scratch cfg Hcfg true Htot _ _ s2 c2 B); [exact Hs2|unfold ctx_ok, c2; cbn [active_metablock scratch_metablock]; lia| | |done].
  { intros Hgt. apply (bk_sd _ _ _ _ Hblk Hgt). }
  intros s3 Hs3. set (B3 := wiped cfg c2 B) in Hs3.
  assert (forall b, ~ is_scratch cfg c2 b -> B3 b = B b) as Hk.
  { intros b Hb. unfold B3, wiped. by rewrite decide_False. }
  assert (~ is_scratch cfg c2 a) as Hna.
  { unfold is_scratch, c2. cbn [meta_block_header scratch_metablock]. intros [?|[Hgt ?]]; [lia|]. pose proof (bk_sd _ _ _ _ Hblk Hgt). lia. }
  destruct (disk_ok_ext cfg Hcfg a B B3 Hd) as [Hd3 Hst3].
  { intros b Hb Hc. apply Hk. unfold is_scratch, c2. cbn [meta_block_header scratch_metablock]. intros [?|[Hgt ?]]; [lia|].
    pose proof (bk_sd _ _ _ _ Hblk Hgt). lia. }
  assert (ready cfg c2 B3) as Hr3.
  { split; [unfold ctx_ok, c2; cbn [active_metablock scratch_metablock]; lia|done|by unfold c2; cbn [meta_block_header active_metablock]; rewrite Hk|].
    intros b Hb Hsb. unfold B3, wiped. by rewrite decide_True. }
  unfold its_mblock_upgrade_meta_header.
  pose proof (at_is_st cfg (fun _ => bs) s3 _ _ Hs3) as Hi3. apply wp_bind. eapply wp_ctx; [exact Hi3|].
  apply wp_bind. unfold its_mblock_validate_fs_version, c2. cbn [meta_block_header].
  rewrite (do_version _ _ _ Hd). apply wp_ret, wp_ret. apply (HQ s3 c2 B3); try done. by apply Hk.
Qed.

(** [its_flash_fs_prepare]: the store is what the flash holds, and a
    replacement that was interrupted is completed. *)
Lemma wp_prepare Q E s c B a :
  at_st s c B -> mount cfg B = Some a -> disk_ok cfg a B ->
  (forall s' c' B', at_st s' c' B' -> ready cfg c' B' -> none_deleted cfg (fm_of cfg (act c') B') ->
     disk_store cfg (act c') B' = disk_store cfg a B -> Q tt s') ->
  wp (its_flash_fs_prepare cfg) Q E s.
Proof.
  intros Hs Hm Hd HQ. unfold its_flash_fs_prepare. apply wp_bind.
  eapply wp_mblock_init; [exact Hs|exact Hm|exact Hd|].
  intros s1 c1 B1 Hs1 Hr1 Ha1 Hst1 HB1. pose proof (at_is_st cfg (fun _ => bs) s1 _ _ Hs1) as Hi1.
  assert (forall b, in_flash cfg b -> zlen (B1 b) = bs) as Hlen1 by (intros; by eapply at_st_len).
  pose proof (disk_ok_valid cfg Hcfg _ _ (rd_disk _ _ _ Hr1)) as Hv1.
  apply wp_bind, wp_try.
  apply (wp_get_file_idx_flag cfg Hcfg _ _ true Htot s1 c1 B1 Hi1 (rd_ctx _ _ _ Hr1) Hv1); [..|done].
  - intros j Hj Hfl. pose proof (do_files _ _ _ (rd_disk _ _ _ Hr1)) as Hf1.
    pose proof (fk_deleted _ _ (fs_each _ _ _ Hf1 j Hj) Hfl) as Hlj.
    apply (wp_delete_idx cfg Hcfg Hev true Htot c1 B1 Hr1 Hlen1 j); try done.
    + intros i Hi Hdi. by apply (do_deleted _ _ _ (rd_disk _ _ _ Hr1)).
    + change (deleted (fm_of cfg (act c1) B1 j)) with
        (has_flag (flags (fm_of cfg (act c1) B1 j)) ITS_FLASH_FS_FLAG_DELETE). rewrite Hfl.
      intros s2 c2 B2 Hs2 Hr2 Hn2 Hst2. apply (HQ s2 c2 B2); try done. rewrite Hst2, Ha1. done.
  - intros Hno. rewrite Z.eqb_refl. apply wp_ret. apply (HQ s1 c1 B1); try done. by rewrite Ha1.
Qed.
End mount.

(** * Formatting

    [its_flash_fs_wipe_all] makes an empty file system out of any flash
    contents. *)

Section format.
Context {F : Type} `{FlashOps F} (cfg : its_flash_fs_config_t).
Context `{!FlashLaws F (flash_cfg cfg)} `{!FlashTotal F (flash_cfg cfg)}.
Context (Hcfg : cfg_wf cfg) (Hev : ev_ok (flash_cfg cfg)).

Abbreviation fc := (flash_cfg cfg).
Abbreviation bs := (block_size (flash_cfg cfg)).
Abbreviation n := (max_num_files cfg).
Abbreviation at_st := (at_st cfg).
Abbreviation free_st := (is_st cfg (fun _ => 0)).
Abbreviation blank_block := (fill (block_size (flash_cfg cfg)) (erase_val (flash_cfg cfg))).

Let Htot : true = true -> FlashTotal F fc := fun _ => _.

(** The tables of an empty file system in metadata block 1. *)
Definition empty_bm (lb : Z) : its_block_meta_t :=
  if decide (lb = 0) then BlockMeta 1 (meta_end cfg) (bs - meta_end cfg) else BlockMeta (lb + 2) 0 bs.

Lemma dedicated_blocks lb : lblock_ok cfg lb -> lb <> 0 ->
  num_blocks fc <> 2 /\ 2 < num_blocks fc /\ 1 <= lb /\ lb + 2 < num_blocks fc.
Proof.
  unfold lblock_ok, nact. intros Hlb Hne. cfg_facts.
  destruct (Z.eqb_spec (num_blocks fc) 2); lia.
Qed.

Lemma dedicated_spec : its_num_dedicated_dblocks cfg = nact cfg - 1.
Proof.
  unfold its_num_dedicated_dblocks, its_init_dblock_start, nact. cfg_facts.
  destruct (Z.eqb_spec (num_blocks fc) 2); rewrite ?u32_id; lia.
Qed.

Lemma empty_blocks : blocks_ok cfg 1 (its_init_scratch_dblock cfg) empty_bm.
Proof.
  cfg_facts. split.
  - by right.
  - intros Hgt. unfold its_init_scratch_dblock. destruct (Z.eqb_spec (num_blocks fc) 2); lia.
  - intros lb Hlb. assert (8 <= meta_end cfg <= bs) by cfg_lia.
    unfold empty_bm. destruct (decide (lb = 0)) as [->|Hne].
    + split; unfold start_of; cbn [phy_id data_start free_size];
        rewrite ?(decide_True (P := 0 = 0)) by done; try lia.
      split; unfold is_u32; cbn [phy_id data_start free_size]; lia.
    + destruct (dedicated_blocks lb Hlb Hne) as (Hn2 & Hgt & Hl1 & Hlt).
      split; unfold start_of; cbn [phy_id data_start free_size];
        rewrite ?(decide_False (P := lb = 0)) by done; try lia.
      * split; unfold is_u32; cbn [phy_id data_start free_size]; lia.
      * unfold its_init_scratch_dblock. rewrite (proj2 (Z.eqb_neq _ _) Hn2). lia.
  - intros lb lb' Hlb Hlb'. unfold lblock_ok, empty_bm in *.
    destruct (decide (lb = 0)), (decide (lb' = 0)); cbn [phy_id]; lia.
Qed.

Lemma empty_files ue : (forall lb, lblock_ok cfg lb -> ue lb = start_of cfg lb) ->
  files_ok cfg ue (fun _ => file_meta_zero).
Proof.
  intros Hue. split.
  - intros i Hi. split; try done; [apply file_meta_zero_wf|].
    unfold lblock_ok. cbn [lblock file_meta_zero]. cfg_lia.
  - intros lb Hlb. exists []. split; [|simpl; by rewrite Hue].
    split; [apply NoDup_nil_2|]. intros i. split; [by intros ?%not_elem_of_nil|by intros (_ & ? & _)].
  - by intros.
Qed.

(** *** Single entries, on a driver that does not fail *)

Lemma wp_put_block_meta lb m Q E s c B :
  at_st s c B -> ctx_ok c -> lblock_ok cfg lb -> block_meta_wf m ->
  erased fc (boff lb) 12 (B (scratch_metablock c)) ->
  (forall s' B', at_st s' c B' -> only (scratch_metablock c) (boff lb) 12 B B' ->
     bmeta_at (B' (scratch_metablock c)) lb = m -> Q tt s') ->
  wp (its_mblock_update_scratch_block_meta cfg lb m) Q E s.
Proof.
  intros Hs Hc Hlb Hm He HQ.
  eapply wp_mono; [eapply (wp_update_block_meta cfg Hcfg (fun _ => 0) B true Htot lb m Q);
    [apply at_is_st; exact Hs|done|lia|exact Hlb|done|done|]|by intros []|by intros e s' (? & _)].
  intros s' B' Hs'%is_at_st. by apply HQ.
Qed.

Lemma wp_put_file_meta i m Q E s c B :
  at_st s c B -> ctx_ok c -> file_idx_ok cfg i -> file_meta_wf m ->
  erased fc (foff cfg i) 32 (B (scratch_metablock c)) ->
  (forall s' B', at_st s' c B' -> only (scratch_metablock c) (foff cfg i) 32 B B' ->
     fmeta_at cfg (B' (scratch_metablock c)) i = m -> Q tt s') ->
  wp (its_flash_fs_mblock_update_scratch_file_meta cfg i m) Q E s.
Proof.
  intros Hs Hc Hi Hm He HQ.
  eapply wp_mono; [eapply (wp_update_file_meta cfg Hcfg (fun _ => 0) B true Htot i m Q);
    [apply at_is_st; exact Hs|done|lia|exact Hi|done|done|]|by intros []|by intros e s' (? & _)].
  intros s' B' Hs'%is_at_st. by apply HQ.
Qed.

(** *** The loops *)

Lemma wp_erase_dblocks k i Q E s c B :
  at_st s c B -> 0 <= i -> (k <> O -> 2 < num_blocks fc) -> i + 3 + Z.of_nat k <= Z.max 3 (num_blocks fc) ->
  (forall s' B', at_st s' c B' -> (forall b, b < 3 -> B' b = B b) -> Q PSA_SUCCESS s') ->
  wp (erase_dblocks_loop cfg k i PSA_SUCCESS) Q E s.
Proof.
  revert i s B. induction k as [|k IH]; intros i s B Hs Hi Hk Hn HQ; cbn [erase_dblocks_loop].
  - apply wp_ret. by apply (HQ s B).
  - specialize (Hk ltac:(done)). unfold its_init_dblock_start.
    rewrite (proj2 (Z.eqb_neq (num_blocks fc) 2)) by lia. cfg_facts. rewrite u32_id by lia.
    apply wp_bind, wp_try.
    eapply (wp_ops_erase_cut cfg (fun _ => 0) _ true Htot);
      [apply at_is_st; exact Hs|unfold in_flash; lia|lia| |done].
    intros s1 Hs1%is_at_st. change (Z.lor PSA_SUCCESS (status_of (Ok tt))) with PSA_SUCCESS.
    eapply (IH (i + 1) s1); [exact Hs1|lia|lia|lia|].
    intros s' B' Hs' HB'. apply (HQ s' B' Hs'). intros b Hb. rewrite HB' by done.
    apply fn_lookup_insert_ne. lia.
Qed.

Lemma wp_reset_blocks k i Q E s c B :
  at_st s c B -> ctx_ok c -> 0 <= i -> i + 1 + Z.of_nat k = nact cfg ->
  erased fc (boff (i + 1)) (foff cfg 0 - boff (i + 1)) (B (scratch_metablock c)) ->
  (forall s' B', at_st s' c B' -> only (scratch_metablock c) (boff (i + 1)) (foff cfg 0 - boff (i + 1)) B B' ->
     (forall j, i + 1 <= j < nact cfg -> bmeta_at (B' (scratch_metablock c)) j = empty_bm j) -> Q tt s') ->
  wp (reset_block_meta_loop cfg k i) Q E s.
Proof.
  revert i s B. induction k as [|k IH]; intros i s B Hs Hc Hi Hk He HQ; cbn [reset_block_meta_loop].
  - apply wp_ret. apply (HQ s B Hs); [by split; [|apply changed_in_refl]|lia].
  - cfg_facts. assert (num_blocks fc <> 2) as Hn2.
    { intros E2. unfold nact in Hk. rewrite E2 in Hk. simpl in Hk. lia. }
    assert (nact cfg = num_blocks fc - 2) as Hna by (unfold nact; by rewrite (proj2 (Z.eqb_neq _ _) Hn2)).
    unfold its_init_dblock_start. rewrite (proj2 (Z.eqb_neq _ _) Hn2). rewrite !u32_id by lia.
    apply wp_bind, wp_or_return.
    eapply (wp_put_block_meta (i + 1) (BlockMeta (i + 3) 0 bs)); [exact Hs|done|unfold lblock_ok; lia| | |].
    { split; unfold is_u32; cbn [phy_id data_start free_size]; lia. }
    { eapply erased_sub; [exact He|cfg_lia..]. }
    intros s1 B1 Hs1 Ho1 Hb1.
    eapply (IH (i + 1) s1 B1); [exact Hs1|done|lia|lia|..].
    { eapply only_erased; [exact Ho1|eapply erased_sub; [exact He|..]|..]; cfg_lia. }
    intros s' B' Hs' Ho' Hb'. apply (HQ s' B' Hs').
    + eapply only_trans; [exact Ho1|exact Ho'|..]; cfg_lia.
    + intros j Hj. destruct (decide (j = i + 1)) as [->|]; [|apply Hb'; lia].
      eapply only_bmeta; [exact Ho'|lia|unfold boff; lia|]. rewrite Hb1. unfold empty_bm.
      rewrite decide_False by lia. f_equal. lia.
Qed.

Lemma wp_reset_files k i Q E s c B :
  at_st s c B -> ctx_ok c -> 0 <= i -> i + Z.of_nat k = n ->
  erased fc (foff cfg i) (meta_end cfg - foff cfg i) (B (scratch_metablock c)) ->
  (forall s' B', at_st s' c B' -> only (scratch_metablock c) (foff cfg i) (meta_end cfg - foff cfg i) B B' ->
     (forall j, i <= j < n -> fmeta_at cfg (B' (scratch_metablock c)) j = file_meta_zero) -> Q tt s') ->
  wp (reset_file_meta_loop cfg k i) Q E s.
Proof.
  revert i s B. induction k as [|k IH]; intros i s B Hs Hc Hi Hk He HQ; cbn [reset_file_meta_loop].
  - apply wp_ret. apply (HQ s B Hs); [by split; [|apply changed_in_refl]|lia].
  - apply wp_bind, wp_or_return.
    eapply (wp_put_file_meta i file_meta_zero); [exact Hs|done|unfold file_idx_ok; lia|apply file_meta_zero_wf| |].
    { eapply erased_sub; [exact He|cfg_lia..]. }
    intros s1 B1 Hs1 Ho1 Hb1.
    eapply (IH (i + 1) s1 B1); [exact Hs1|done|lia|lia|..].
    { eapply only_erased; [exact Ho1|eapply erased_sub; [exact He|..]|..]; cfg_lia. }
    intros s' B' Hs' Ho' Hb'. apply (HQ s' B' Hs').
    + eapply only_trans; [exact Ho1|exact Ho'|..]; cfg_lia.
    + intros j Hj. destruct (decide (j = i)) as [->|]; [|apply Hb'; lia].
      destruct Ho' as [_ Hch]. erewrite changed_in_fmeta; [exact Hb1|done|exact Hch|lia|unfold foff; lia].
Qed.

(** *** The whole operation *)

(** Metadata block 1 once the tables are written, and its header. *)
Lemma empty_disk B X h :
  B 0 = blank_block -> Forall is_byte X -> zlen X = bs -> erased fc 0 8 X ->
  (forall lb, lblock_ok cfg lb -> bmeta_at X lb = empty_bm lb) ->
  (forall i, file_idx_ok cfg i -> fmeta_at cfg X i = file_meta_zero) ->
  header_wf h -> scratch_dblock h = its_init_scratch_dblock cfg -> fs_version h = ITS_SUPPORTED_VERSION ->
  B 1 = splice 0 (header_bytes (next_header (erase_val fc) (xor_at cfg X) h)) X ->
  mount cfg B = Some 1 /\ disk_ok cfg 1 B /\ disk_store cfg 1 B = ∅.
Proof.
  intros HB0 Hby HlX He Hbm Hfm Hh Hsd Hv HB1. cfg_facts.
  set (h' := next_header _ _ _) in HB1.
  pose proof (next_header_wf cfg h X Hh Hby) as Hwf. fold h' in Hwf.
  assert (fs_version h' = ITS_SUPPORTED_VERSION) as Hv' by done.
  pose proof (zlen_header_bytes h') as Hz.
  destruct (torn_header cfg h' X 8 Hev Hwf Hv) as [_ Hval]; [|done|cfg_lia|cfg_lia|done|lia|].
  { apply next_swap_ne. unfold is_byte. destruct Hev; lia. }
  destruct (Hval ltac:(lia)) as (V1 & V2 & V3 & V4). clear Hval.
  change 8 with (ITS_BLOCK_META_HEADER_SIZE) in V1, V2, V3, V4 at 1.
  rewrite <- (zlen_header_bytes h'), sub_bytes_all, <- HB1 in V1, V2, V3, V4.
  unfold ITS_BLOCK_META_HEADER_SIZE in Hz.
  destruct (header_valid_inv cfg (B 1)) as [Hsw Hx]; [congruence|done|].
  assert (forall lb, lblock_ok cfg lb -> bm_of 1 B lb = empty_bm lb) as Hbm'.
  { intros lb Hlb. rewrite <- Hbm by done. unfold bm_of, bmeta_at, lblock_ok in *.
    rewrite HB1, sub_bytes_splice_disj by cfg_lia. done. }
  assert (forall i, file_idx_ok cfg i -> fm_of cfg 1 B i = file_meta_zero) as Hfm'.
  { intros i Hi. rewrite <- (Hfm i) by done. unfold fm_of, fmeta_at, file_idx_ok in *.
    rewrite HB1, sub_bytes_splice_disj by cfg_lia. done. }
  assert (files_ok cfg (used_end cfg (bm_of 1 B)) (fm_of cfg 1 B)) as Hf.
  { eapply files_ok_fm_ext; [|apply empty_files]; [done|]. intros lb Hlb. unfold used_end. rewrite Hbm' by done.
    unfold empty_bm, start_of. destruct (decide (lb = 0)); cbn [free_size]; lia. }
  assert (disk_ok cfg 1 B) as Hd.
  { split; [congruence|done|done| |done|].
    - rewrite V2. unfold h', next_header. cbn [scratch_dblock]. rewrite Hsd.
      eapply blocks_ok_ext; [exact Hbm'|apply empty_blocks].
    - intros i j Hi Hj. by rewrite Hfm' by done. }
  split_and!; [|done|].
  - apply mount_single; [by right|by apply disk_header_valid|]. change (1 - 1) with 0.
    rewrite HB0. apply blank_invalid; [done|rewrite zlen_fill by lia; cfg_lia|].
    apply erased_fill; cfg_lia.
  - unfold disk_store. apply map_eq. intros k. rewrite lookup_empty.
    eapply store_lookup_None; [exact Hf|]. intros i Hi. by rewrite Hfm'.
Qed.

(** Erasing both metadata blocks. *)
Lemma wp_erase_metablocks first K Q E s c B :
  at_st s c B -> first = 0 \/ first = 1 ->
  (forall s' B', at_st s' c B' -> B' 0 = blank_block -> B' 1 = blank_block -> wp K Q E s') ->
  wp (let* _ := ops_erase cfg first in let* _ := ops_erase cfg (ITS_OTHER_META_BLOCK first) in K)
    (Q : unit -> fs_st F -> Prop) E s.
Proof.
  intros Hs Hf HQ. rewrite other_block by done. cfg_facts. apply wp_bind.
  eapply (wp_ops_erase_cut cfg (fun _ => 0) _ true Htot);
    [apply at_is_st; exact Hs|unfold in_flash; lia|lia| |done].
  intros s1 Hs1%is_at_st. apply wp_bind.
  eapply (wp_ops_erase_cut cfg (fun _ => 0) _ true Htot);
    [apply at_is_st; exact Hs1|unfold in_flash; lia|lia| |done].
  intros s2 Hs2%is_at_st. eapply HQ; [exact Hs2|..];
    destruct Hf as [->| ->]; simpl; by rewrite ?fn_lookup_insert, ?(fn_lookup_insert_ne _ 0 1), ?(fn_lookup_insert_ne _ 1 0), ?fn_lookup_insert.
Qed.

(** The tables of an empty file system are written to metadata block 1. *)
Lemma wp_reset_tables h (K : M (fs_st F) unit) Q E s B :
  let c := FsCtx h 0 1 in
  at_st s c B -> B 0 = blank_block -> B 1 = blank_block ->
  (forall s' B', at_st s' c B' -> B' 0 = blank_block -> erased fc 0 8 (B' 1) ->
     (forall lb, lblock_ok cfg lb -> bmeta_at (B' 1) lb = empty_bm lb) ->
     (forall i, file_idx_ok cfg i -> fmeta_at cfg (B' 1) i = file_meta_zero) -> wp K Q E s') ->
  wp (let start := its_mblock_file_meta_offset cfg (max_num_files cfg) in
      let* _ := its_mblock_update_scratch_block_meta cfg ITS_LOGICAL_DBLOCK0
                  (BlockMeta 1 start (u32 (bs - start))) in
      let* err := erase_dblocks_loop cfg (Z.to_nat (its_num_dedicated_dblocks cfg)) 0 PSA_SUCCESS in
      let* _ := check (err =? PSA_SUCCESS) PSA_ERROR_STORAGE_FAILURE in
      let* _ := reset_block_meta_loop cfg (Z.to_nat (its_num_dedicated_dblocks cfg)) 0 in
      let* _ := reset_file_meta_loop cfg (Z.to_nat (max_num_files cfg)) 0 in K) Q E s.
Proof.
  intros c Hs H0 H1 HQ. cbv zeta. cfg_facts.
  assert (erased fc 8 (meta_end cfg - 8) (B 1)) as He by (rewrite H1; apply erased_fill; cfg_lia).
  assert (ctx_ok c) as Hc by (left; split; done).
  assert (Z.of_nat (Z.to_nat (its_num_dedicated_dblocks cfg)) = nact cfg - 1) as Hk.
  { rewrite dedicated_spec by done. lia. }
  assert (nact cfg = 1 \/ 2 < num_blocks fc /\ nact cfg = num_blocks fc - 2) as Hnact
    by (unfold nact; destruct (Z.eqb_spec (num_blocks fc) 2); lia).
  rewrite (file_off_spec cfg) by (auto; lia). change (foff cfg n) with (meta_end cfg). rewrite u32_id by cfg_lia.
  apply wp_bind. eapply (wp_put_block_meta 0 (empty_bm 0)); [exact Hs|done| | | |].
  { unfold lblock_ok. lia. }
  { split; unfold is_u32, empty_bm; rewrite decide_True by done; cbn [phy_id data_start free_size]; cfg_lia. }
  { eapply erased_sub; [exact He|cfg_lia..]. }
  intros s1 B1 Hs1 Ho1 Hb1. cbn [scratch_metablock c] in Ho1, Hb1.
  apply wp_bind. eapply wp_erase_dblocks; [exact Hs1|lia|lia|lia|]. intros s2 B2 Hs2 HB2.
  apply wp_bind, wp_check; intros; [|done].
  assert (B2 1 = B1 1) as HB21 by (apply HB2; lia).
  apply wp_bind. eapply wp_reset_blocks; [exact Hs2|done|lia|lia| |].
  { cbn [scratch_metablock c]. rewrite HB21. eapply only_erased; [exact Ho1|eapply erased_sub; [exact He|..]|..]; cfg_lia. }
  intros s3 B3 Hs3 Ho3 Hb3. cbn [scratch_metablock c] in Ho3, Hb3.
  apply wp_bind. eapply wp_reset_files; [exact Hs3|done|lia|lia| |].
  { cbn [scratch_metablock c]. eapply only_erased; [exact Ho3| |..]; [|cfg_lia..].
    rewrite HB21. eapply only_erased; [exact Ho1|eapply erased_sub; [exact He|..]|..]; cfg_lia. }
  intros s4 B4 Hs4 Ho4 Hf4. cbn [scratch_metablock c] in Ho4, Hf4.
  apply (HQ s4 B4 Hs4).
  - rewrite (only_other _ _ _ _ _ _ Ho4), (only_other _ _ _ _ _ _ Ho3), HB2, (only_other _ _ _ _ _ _ Ho1) by lia. done.
  - eapply only_erased; [exact Ho4| |..]; [|cfg_lia..]. eapply only_erased; [exact Ho3| |..]; [|cfg_lia..].
    rewrite HB21. eapply only_erased; [exact Ho1| |..]; [rewrite H1; apply erased_fill|..]; cfg_lia.
  - intros lb Hlb. unfold lblock_ok in Hlb. eapply only_bmeta; [exact Ho4|lia|cfg_lia|].
    destruct (decide (lb = 0)) as [->|]; [|symmetry; apply Hb3; lia].
    symmetry. eapply only_bmeta; [exact Ho3|lia|cfg_lia|]. by rewrite HB21.
  - intros i Hi. apply Hf4. exact Hi.
Qed.

(** [its_flash_fs_wipe_all], whatever is on the flash.  Only the header in
    the context has to be that of some call before, or zero. *)
Lemma wp_wipe_all Q E s c B :
  at_st s c B -> header_wf (meta_block_header c) -> (scratch_metablock c = 0 \/ scratch_metablock c = 1) ->
  (forall s' c' B', at_st s' c' B' -> header_wf (meta_block_header c') ->
     mount cfg B' = Some 1 -> disk_ok cfg 1 B' -> disk_store cfg 1 B' = ∅ -> Q tt s') ->
  wp (its_flash_fs_wipe_all cfg) Q E s.
Proof.
  intros Hs Hh Hscr HQ. unfold its_flash_fs_wipe_all, its_flash_fs_mblock_reset_metablock.
  apply wp_bind.
  eapply (wp_mono _ (fun _ s1 => exists c1, at_st s1 c1 B /\ meta_block_header c1 = meta_block_header c /\
    (scratch_metablock c1 = 0 \/ scratch_metablock c1 = 1)) _ (fun _ _ => False)); [| |done].
  { apply wp_try. eapply (wp_get_active cfg Hcfg); [exact Hs|intros a s1 Ha%mount_block Hs1|intros _; by exists c].
    eexists. split_and!; [exact Hs1|done|]. cbn [scratch_metablock]. lia. }
  intros r s1 (c1 & Hs1 & Hc1 & Hscr1). apply wp_bind.
  eapply wp_ctx; [eapply (at_is_st cfg (fun _ => 0)), Hs1|]. cbv zeta.
  eapply wp_erase_metablocks; [exact Hs1|destruct r; [done|by left]|]. intros s2 B2 Hs2 HB20 HB21.
  apply wp_bind.
  eapply wp_set_ctx; [eapply (at_is_st cfg (fun _ => 0)), Hs2|]. intros s3 Hs3%is_at_st.
  apply wp_bind. eapply wp_ctx; [eapply (at_is_st cfg (fun _ => 0)), Hs3|].
  cbn [scratch_metablock].
  eapply wp_reset_tables; [exact Hs3|done|done|]. intros s4 B4 Hs4 HB40 He4 Hbm4 Hfm4.
  rewrite Hc1 in Hs4. set (h := Header _ _ _ _ _) in Hs4.
  assert (header_wf h) as Hwf.
  { destruct Hh. split; unfold h; cbn [scratch_dblock fs_version metadata_xor active_swap_count header_pad]; try done.
    - unfold its_init_scratch_dblock, is_u32. destruct (num_blocks fc =? 2); lia.
    - unfold is_byte. destruct (erase_val fc =? 0); lia. }
  assert (in_flash cfg 1) as Hin by (unfold in_flash; cfg_lia).
  apply wp_bind, wp_or_return.
  eapply (wp_write_header cfg Hcfg true Htot); [exact Hs4|left; split; done|exact Hwf|exact He4| |done].
  cbn [active_metablock scratch_metablock meta_block_header]. set (h' := next_header _ _ _). intros s5 Hs5.
  destruct (empty_disk (with_header 1 8 h' B4) (B4 1) h) as (D1 & D2 & D3); try done.
  { by eapply at_st_bytes. } { by eapply at_st_len. }
  apply wp_bind. eapply wp_ctx; [eapply (at_is_st cfg (fun _ => 0)), Hs5|]. cbn [scratch_metablock].
  apply wp_bind.
  set (c5 := FsCtx h' 0 1) in *. set (B5 := with_header 1 8 h' B4) in *.
  eapply (wp_mono _ (fun _ s6 => at_st s6 c5 B5) _
    (io_error cfg (fun _ => 0) B5 true)); [| |by intros e s6 (? & _)].
  { eapply wp_ops_flush; [exact Htot|eapply (at_is_st cfg (fun _ => 0)), Hs5|done|].
    by intros s6 Hs6%is_at_st. }
  intros _ s6 Hs6. unfold its_mblock_swap_metablocks.
  eapply wp_set_ctx; [eapply (at_is_st cfg (fun _ => 0)), Hs6|]. intros s7 Hs7%is_at_st. eapply HQ; [exact Hs7| |done..].
  by apply next_header_wf; [|eapply at_st_bytes].
Qed.
End format.
