(* ===== verification/ItsModel.v ===== *)
(** * The file system as a store of files

    [implements s S]: the driver and the context in [s] hold the files [S].
    The operations of [its_flash_fs.h] are restated over this relation, and
    [spec_step] says what a client may see of them without mention of flash,
    blocks or metadata. *)

From S2P Require Import Prelude Bytes ItsUtils ItsFlash ItsMeta ItsMblock ItsFs ItsState ItsView ItsCommit ItsLayout ItsStore ItsInv ItsLookup ItsPhase ItsFileData ItsDelete ItsWrite ItsFileWrite ItsOps.
From stdpp Require Import base list numbers functions gmap.
From Stdlib Require Import ZArith Lia.

Open Scope Z_scope.
Open Scope tfm_scope.

Abbreviation filemap := (gmap (list Z) file).

Section model.
Context {F : Type} `{FlashOps F} (cfg : its_flash_fs_config_t) `{!FlashLaws F (flash_cfg cfg)}.
Implicit Types (fid data : list Z) (data_size size offset : Z) (finfo : its_flash_fs_file_info_t) (f : file) (S : filemap).

Definition implements (s : fs_st F) (S : filemap) : Prop :=
  exists c B, at_st cfg s c B /\ ready cfg c B /\ none_deleted cfg (fm_of cfg (active_metablock c) B) /\
    disk_store cfg (active_metablock c) B = S.

(** The files [S] can be read, but the scratch blocks may have been
    programmed: an update was abandoned and nothing has erased them since. *)
Definition readable (s : fs_st F) (S : filemap) : Prop :=
  exists c B0 B, is_st cfg (phase cfg c) B0 s c B /\ ready cfg c B0 /\
    (forall b, in_flash cfg b -> zlen (B0 b) = block_size (flash_cfg cfg)) /\
    none_deleted cfg (fm_of cfg (active_metablock c) B0) /\ disk_store cfg (active_metablock c) B0 = S.

(** What a reset finds on the flash. *)
Definition holds (f : F) (P : filemap -> Prop) : Prop := recoverable cfg f P.

Lemma holds_fl_ok (f : F) (P : filemap -> Prop) : holds f P -> fl_ok f.
Proof. by intros (a & B & [Hok _] & _). Qed.

Lemma holds_weaken (f : F) (P Q : filemap -> Prop) : (forall S, P S -> Q S) -> holds f P -> holds f Q.
Proof. intros HPQ (a & B & H1 & H2 & H3 & H4). exists a, B. split_and!; auto. Qed.

Context (Hcfg : cfg_wf cfg) (Hev : ev_ok (flash_cfg cfg)).

Lemma readable_holds s S : readable s S -> holds (st_flash s) (fun S' => S' = S).
Proof. intros (c & B0 & B & Hst & Hr & Hlen & _ & <-). by eapply (staging_recoverable cfg Hcfg Hev c B0 Hr Hlen). Qed.

Lemma implements_readable s S : implements s S -> readable s S.
Proof.
  intros (c & B & Hat & Hr & Hn & <-). exists c, B, B. split_and!; try done; [by apply staging_start|].
  intros. by eapply at_st_len.
Qed.

Lemma implements_holds s S : implements s S -> holds (st_flash s) (fun S' => S' = S).
Proof. intros Hs. by apply readable_holds, implements_readable. Qed.

Lemma implements_unfold s S : implements s S -> exists c B,
  at_st cfg s c B /\ ready cfg c B /\ (forall b, in_flash cfg b -> zlen (B b) = block_size (flash_cfg cfg)) /\
  none_deleted cfg (fm_of cfg (active_metablock c) B) /\ disk_store cfg (active_metablock c) B = S.
Proof.
  intros (c & B & Hat & ?). exists c, B. split_and!; try tauto. intros. by eapply at_st_len.
Qed.

(** *** What a write does to the store *)

Abbreviation cap_of finfo := (ITS_UTILS_ALIGN (size_max finfo) (program_unit (flash_cfg cfg))).

Definition base_of (S : filemap) fid finfo : file := write_base S fid (info_flags finfo) (cap_of finfo).

Definition written (S : filemap) fid finfo data_size offset data : filemap :=
  <[fid := write_result (flash_cfg cfg) (base_of S fid finfo) data_size offset data]> S.

(** The file exists and would have to be moved to get its new size. *)
Definition replaces (S : filemap) fid finfo : Prop := is_replaced S fid (info_flags finfo) (cap_of finfo).

(** What a write that succeeds needs: the file, or leave to create it; a size
    that a file may have, if one is allocated; and room in it for the data. *)
Definition write_admitted (S : filemap) fid finfo data_size offset : Prop :=
  (S !! fid = None -> has_flag (info_flags finfo) ITS_FLASH_FS_FLAG_CREATE = true) /\
  (needs_room S fid (info_flags finfo) (cap_of finfo) = true -> cap_of finfo <= max_file_size cfg) /\
  write_fits (flash_cfg cfg) (base_of S fid finfo) data_size offset.

(** The errors of a write that a working driver can lead to. *)
Inductive write_refused (S : filemap) fid finfo data_size offset : psa_status_t -> Prop :=
| wr_missing : S !! fid = None -> has_flag (info_flags finfo) ITS_FLASH_FS_FLAG_CREATE = false ->
    write_refused S fid finfo data_size offset PSA_ERROR_DOES_NOT_EXIST
| wr_too_large : needs_room S fid (info_flags finfo) (cap_of finfo) = true ->
    max_file_size cfg < cap_of finfo -> write_refused S fid finfo data_size offset PSA_ERROR_INVALID_ARGUMENT
| wr_no_room : needs_room S fid (info_flags finfo) (cap_of finfo) = true ->
    write_refused S fid finfo data_size offset PSA_ERROR_INSUFFICIENT_STORAGE
| wr_outside : ~ write_fits (flash_cfg cfg) (base_of S fid finfo) data_size offset ->
    write_refused S fid finfo data_size offset PSA_ERROR_GENERIC_ERROR.

Lemma untouched_same c B0 fid flgs cap s :
  ready cfg c B0 -> none_deleted cfg (fm_of cfg (active_metablock c) B0) ->
  untouched cfg c B0 fid flgs cap s ->
  ~ is_replaced (disk_store cfg (active_metablock c) B0) fid flgs cap ->
  implements s (disk_store cfg (active_metablock c) B0).
Proof.
  intros Hr Hn (B & [Hfl Hc] & _ & Hsame) Hnr. exists c, B0. split_and!; try done. split; [|done].
  eapply flash_is_ext; [exact Hfl|]. intros b Hb. by apply Hsame.
Qed.

Context (strict : bool) (Hstrict : strict = true -> FlashTotal F (flash_cfg cfg)).

Lemma model_write fid finfo data_size offset data s S :
  implements s S -> fid_ok fid -> finfo_ok finfo -> write_args (flash_cfg cfg) data_size offset data ->
  wp (its_flash_fs_file_write cfg fid finfo data_size offset data)
    (fun r s' => r = align_size_max cfg finfo /\
       write_admitted S fid finfo data_size offset /\ implements s' (written S fid finfo data_size offset data))
    (fun e s' =>
       (write_refused S fid finfo data_size offset e /\ (~ replaces S fid finfo -> implements s' S) /\
        readable s' S) \/
       (strict = false /\ e <> PSA_SUCCESS /\
        holds (st_flash s') (fun S' => S' = S \/ S' = written S fid finfo data_size offset data))) s.
Proof.
  intros (c & B & Hat & Hr & Hlen & Hn & <-)%implements_unfold Hfid Hfi Ha.
  apply (wp_file_write cfg Hcfg Hev strict Hstrict c B Hr Hlen Hn); try done.
  - intros s' c' B' [A1 A2] H0 H1 H2 H3 H4. split_and!; [done|by split_and!|]. by exists c', B'.
  - intros e s' Hcase Hut. left. split_and!.
    + destruct Hcase as [[]|[-> ?]]; [by apply wr_missing|by apply wr_too_large|by apply wr_no_room|by apply wr_outside].
    + by eapply untouched_same.
    + destruct Hut as (B1 & _ & Hst & _). by exists c, B, B1.
  - intros e s' Hs He Hrec. right. by split_and!.
Qed.

Lemma model_read fid size offset s S :
  readable s S -> fid_ok fid -> is_u32 size -> is_u32 offset ->
  wp (its_flash_fs_file_read cfg fid size offset)
    (fun d s' => s' = s /\ exists f, S !! fid = Some f /\ offset + size <= zlen (f_data f) /\
                 d = sub_bytes offset size (f_data f))
    (fun e s' => s' = s /\
       ((e = PSA_ERROR_DOES_NOT_EXIST /\ S !! fid = None) \/
        (e = PSA_ERROR_INVALID_ARGUMENT /\ exists f, S !! fid = Some f /\ zlen (f_data f) < offset + size) \/
        (e = PSA_ERROR_GENERIC_ERROR /\ size = 0) \/
        (strict = false /\ (e = PSA_ERROR_DOES_NOT_EXIST \/ e = PSA_ERROR_GENERIC_ERROR)))) s.
Proof.
  intros (c & B0 & B & Hst & Hr & Hlen & Hn & <-) Hfid Hsz Hoff.
  eapply (wp_file_read cfg Hcfg strict Hstrict c B0 Hr Hlen Hn); [exact Hst|..]; try done; intros; split; eauto 8.
Qed.

Lemma model_get_info fid s S :
  readable s S -> fid_ok fid ->
  wp (its_flash_fs_file_get_info cfg fid)
    (fun i s' => s' = s /\ exists f, S !! fid = Some f /\ i = FileInfo (zlen (f_data f)) (f_max f) (f_flags f))
    (fun e s' => s' = s /\ e = PSA_ERROR_DOES_NOT_EXIST /\ (S !! fid = None \/ strict = false)) s.
Proof.
  intros (c & B0 & B & Hst & Hr & Hlen & Hn & <-) Hfid.
  eapply (wp_get_info cfg Hcfg strict Hstrict c B0 Hr Hlen Hn); [exact Hst|..]; try done; intros; split; eauto.
Qed.

Lemma model_delete fid s S :
  implements s S -> fid_ok fid ->
  wp (its_flash_fs_file_delete cfg fid)
    (fun _ s' => is_Some (S !! fid) /\ implements s' (delete fid S))
    (fun e s' => (e = PSA_ERROR_DOES_NOT_EXIST /\ S !! fid = None /\ s' = s) \/
       (strict = false /\ e <> PSA_SUCCESS /\
        holds (st_flash s') (fun S' => S' = S \/ S' = delete fid S))) s.
Proof.
  intros (c & B & Hat & Hr & Hlen & Hn & <-)%implements_unfold Hfid.
  apply (wp_file_delete cfg Hcfg Hev strict Hstrict c B Hr Hlen Hn); try done.
  - intros s' c' B' H0 H1 H2 H3 H4. split; [done|]. by exists c', B'.
  - auto.
  - auto.
Qed.

(** Deleting a file that is not there needs no clean scratch block. *)
Lemma model_delete_missing fid s S :
  readable s S -> fid_ok fid -> S !! fid = None ->
  wp (its_flash_fs_file_delete cfg fid) (fun _ _ => False) (fun e s' => e = PSA_ERROR_DOES_NOT_EXIST /\ s' = s) s.
Proof.
  intros (c & B0 & B & Hst & Hr & Hlen & Hn & <-) Hfid Hno. unfold its_flash_fs_file_delete. apply wp_bind.
  eapply (wp_find cfg Hcfg strict Hstrict c B0 Hr Hlen Hn); [exact Hst|done|congruence|done|done].
Qed.
End model.

Section model_total.
Context {F : Type} `{FlashOps F} (cfg : its_flash_fs_config_t) `{!FlashLaws F (flash_cfg cfg)}.
Implicit Types (fid data : list Z) (data_size size offset : Z) (finfo : its_flash_fs_file_info_t) (f : file) (S : filemap).
Context `{!FlashTotal F (flash_cfg cfg)} (Hcfg : cfg_wf cfg) (Hev : ev_ok (flash_cfg cfg)).

Lemma model_prepare P s :
  holds cfg (st_flash s) P ->
  wp (its_flash_fs_prepare cfg) (fun _ s' => exists S, P S /\ implements cfg s' S) (fun _ _ => False) s.
Proof.
  intros (a & B & Hfl & Hm & Hd & HP). eapply (wp_prepare cfg Hcfg Hev _ _ s (st_ctx s) B a); [by split|done..|].
  intros s' c' B' H1 H2 H3 H4. eexists. split; [exact HP|]. exists c', B'. by rewrite H4.
Qed.

Lemma model_wipe s :
  fl_ok (st_flash s) -> header_wf (meta_block_header (st_ctx s)) ->
  scratch_metablock (st_ctx s) = 0 \/ scratch_metablock (st_ctx s) = 1 ->
  wp (its_flash_fs_wipe_all cfg) (fun _ s' => holds cfg (st_flash s') (fun S => S = ∅)) (fun _ _ => False) s.
Proof.
  intros Hok Hh Hsc. eapply (wp_wipe_all cfg Hcfg Hev _ _ s _ (fl_block (st_flash s))); [|exact Hh|exact Hsc|].
  - by split.
  - intros s' c' B' [Hfl _] _ Hm Hd Hst. by exists 1, B'.
Qed.
End model_total.

(** ** The first file *)

Section first_file.
Context {F : Type} `{FlashOps F} (cfg : its_flash_fs_config_t) `{!FlashLaws F (flash_cfg cfg)}.
Context (Hcfg : cfg_wf cfg) (Hev : ev_ok (flash_cfg cfg)).

(** In an empty store all of every block is free. *)
Lemma room_empty c B cap :
  ready cfg c B -> none_deleted cfg (fm_of cfg (active_metablock c) B) -> disk_store cfg (active_metablock c) B = ∅ ->
  2 <= max_num_files cfg -> 0 <= cap <= max_file_size cfg -> room cfg c B false cap <> None.
Proof.
  intros Hr Hnd He Hn Hcap. set (fm := fm_of cfg (active_metablock c) B) in *. set (bm := bm_of (active_metablock c) B).
  pose proof (do_blocks _ _ _ (rd_disk _ _ _ Hr)) as Hblk. pose proof (do_files _ _ _ (rd_disk _ _ _ Hr)) as Hfil. fold fm bm in Hblk, Hfil.
  assert (forall i, file_idx_ok cfg i -> live (fm i) = false) as Hdead.
  { intros i Hi. destruct (live (fm i)) eqn:Hl; [|done]. exfalso.
    assert (visible (fm i) = true) as Hv by (unfold visible; rewrite Hl, Hnd by done; done).
    pose proof (store_lookup cfg _ _ (blocks_of bm B) i Hfil Hi Hv) as Hs. unfold disk_store in He. fold fm bm in He. by rewrite He in Hs. }
  assert (forall lb, lblock_ok cfg lb -> free_size (bm lb) = block_size (flash_cfg cfg) - start_of cfg lb) as Hfree.
  { intros lb Hlb. destruct (fs_chain _ _ _ Hfil lb Hlb) as ([|i l] & [_ Hm] & Hc).
    - cbn [chain] in Hc. unfold used_end in Hc. lia.
    - destruct (proj1 (Hm i) ltac:(left)) as (Hi & Hl & _). by rewrite Hdead in Hl. }
  pose proof (cw_blocks _ Hcfg) as Hb2. pose proof (cw_not3 _ Hcfg) as Hb3. unfold room. fold fm bm.
  destruct (free_block bm cap (Z.to_nat (nact cfg)) 0) as [lb|] eqn:Hfb.
  - assert (exists k, Z.to_nat (max_num_files cfg) = S (S k)) as [k ->] by (exists (Z.to_nat (max_num_files cfg - 2)); lia).
    cbn [free_index]. rewrite !Hdead by (unfold file_idx_ok; lia). done.
  - exfalso. destruct (decide (num_blocks (flash_cfg cfg) = 2)) as [Htwo|Htwo].
    + assert (lblock_ok cfg 0) as Hlb by (unfold lblock_ok, nact; destruct (Z.eqb_spec (num_blocks (flash_cfg cfg)) 2); lia).
      pose proof (free_block_None _ _ _ _ 0 Hfb ltac:(unfold lblock_ok in Hlb; lia)) as Hlt.
      rewrite Hfree in Hlt by done. pose proof (cw_two _ Hcfg Htwo). change (start_of cfg 0) with (meta_end cfg) in Hlt. lia.
    + assert (lblock_ok cfg 1) as Hlb by (unfold lblock_ok, nact; destruct (Z.eqb_spec (num_blocks (flash_cfg cfg)) 2); lia).
      pose proof (free_block_None _ _ _ _ 1 Hfb ltac:(unfold lblock_ok in Hlb; lia)) as Hlt.
      rewrite Hfree in Hlt by done. pose proof (cw_fsize _ Hcfg). change (start_of cfg 1) with 0 in Hlt. lia.
Qed.

(** A file that the configuration allows can be written into it. *)
Lemma model_write_first `{!FlashTotal F (flash_cfg cfg)} fid finfo data_size data s :
  implements cfg s ∅ -> fid_ok fid -> finfo_ok finfo -> write_args (flash_cfg cfg) data_size 0 data ->
  2 <= max_num_files cfg -> write_admitted cfg ∅ fid finfo data_size 0 ->
  wp (its_flash_fs_file_write cfg fid finfo data_size 0 data)
    (fun r s' => r = align_size_max cfg finfo /\ implements cfg s' (written cfg ∅ fid finfo data_size 0 data))
    (fun _ _ => False) s.
Proof.
  intros (c & B & Hat & Hr & Hlen & Hn & He)%implements_unfold Hfid Hfi Ha Hnum (A1 & A2 & A3).
  apply (wp_file_write cfg Hcfg Hev true (fun _ => FlashTotal0) c B Hr Hlen Hn); try done.
  - intros s' c' B' _ _ H1 H2 H3 H4. split; [done|]. exists c', B'. split_and!; try done. by rewrite H4, He.
  - intros e s' Hcase _. rewrite He in Hcase. destruct Hcase as [Hcase|[_ Hno]]; [|by apply Hno].
    destruct Hcase as [Hm Hc|Hneed Hlt|Hneed Hroom]; rewrite He in *; [rewrite A1 in Hc; done|specialize (A2 Hneed); lia|].
    eapply (room_empty c B); [done..| |exact Hroom]. split; [apply align_nonneg|by apply A2].
Qed.
End first_file.

(** ** Sequences of calls *)

Inductive call : Type :=
| CallWrite (fid : list Z) (finfo : its_flash_fs_file_info_t) (data_size offset : Z) (data : list Z)
| CallRead (fid : list Z) (size offset : Z)
| CallGetInfo (fid : list Z)
| CallDelete (fid : list Z)
| CallPrepare.

Inductive reply : Type :=
| RInfo (finfo : its_flash_fs_file_info_t)
| RData (data : list Z)
| RDone.

Definition fmap_res {A B} (g : A -> B) (r : res A) : res B := match r with Ok a => Ok (g a) | Err e => Err e end.

Definition map_m {S A B} (g : A -> B) (m : M S A) : M S B := fun s => let '(r, s') := m s in (fmap_res g r, s').

Lemma wp_map {S A B} (g : A -> B) (m : M S A) Q E s :
  wp m (fun a => Q (g a)) E s -> wp (map_m g m) Q E s.
Proof. unfold wp, map_m. by destruct (m s) as [[a|e] s']. Qed.

Section calls.
Context {F : Type} `{FlashOps F} (cfg : its_flash_fs_config_t).

Definition run_call (k : call) : M (fs_st F) reply :=
  match k with
  | CallWrite fid finfo data_size offset data =>
      map_m RInfo (its_flash_fs_file_write cfg fid finfo data_size offset data)
  | CallRead fid size offset => map_m RData (its_flash_fs_file_read cfg fid size offset)
  | CallGetInfo fid => map_m RInfo (its_flash_fs_file_get_info cfg fid)
  | CallDelete fid => map_m (fun _ => RDone) (its_flash_fs_file_delete cfg fid)
  | CallPrepare => map_m (fun _ => RDone) (its_flash_fs_prepare cfg)
  end.

(** Every call is made, whatever the one before returned. *)
Fixpoint run_calls (ks : list call) : M (fs_st F) (list (res reply)) :=
  match ks with
  | [] => ret []
  | k :: ks =>
      let* r := try (run_call k) in
      let* rs := run_calls ks in
      ret (r :: rs)
  end.
End calls.

Section spec.
Context (cfg : its_flash_fs_config_t).

Definition call_ok (k : call) : Prop :=
  match k with
  | CallWrite fid finfo data_size offset data =>
      fid_ok fid /\ finfo_ok finfo /\ write_args (flash_cfg cfg) data_size offset data
  | CallRead fid size offset => fid_ok fid /\ is_u32 size /\ is_u32 offset
  | CallGetInfo fid | CallDelete fid => fid_ok fid
  | CallPrepare => True
  end.

(** The calls that start a block update. *)
Definition updates (S : filemap) (k : call) : Prop :=
  match k with
  | CallWrite _ _ _ _ _ => True
  | CallDelete fid => is_Some (S !! fid)
  | CallRead _ _ _ | CallGetInfo _ | CallPrepare => False
  end.

(** [spec_step d S k r d' S']: on the store [S] the call [k] may return [r] and
    leave the store [S'].  [d]: a write that had to replace a file was refused
    after the scratch metadata block had been programmed and the file system
    has not been mounted again; the rules for calls that update the flash then
    do not apply. *)
Inductive spec_step : bool -> filemap -> call -> res reply -> bool -> filemap -> Prop :=
| spec_write S fid finfo data_size offset data :
    write_admitted cfg S fid finfo data_size offset ->
    spec_step false S (CallWrite fid finfo data_size offset data) (Ok (RInfo (align_size_max cfg finfo)))
      false (written cfg S fid finfo data_size offset data)
| spec_write_refused S fid finfo data_size offset data e :
    write_refused cfg S fid finfo data_size offset e -> ~ replaces cfg S fid finfo ->
    spec_step false S (CallWrite fid finfo data_size offset data) (Err e) false S
| spec_replace_refused S fid finfo data_size offset data e :
    write_refused cfg S fid finfo data_size offset e -> replaces cfg S fid finfo ->
    spec_step false S (CallWrite fid finfo data_size offset data) (Err e) true S
| spec_read d S fid size offset f :
    S !! fid = Some f -> offset + size <= zlen (f_data f) ->
    spec_step d S (CallRead fid size offset) (Ok (RData (sub_bytes offset size (f_data f)))) d S
| spec_read_missing d S fid size offset :
    S !! fid = None -> spec_step d S (CallRead fid size offset) (Err PSA_ERROR_DOES_NOT_EXIST) d S
| spec_read_outside d S fid size offset f :
    S !! fid = Some f -> zlen (f_data f) < offset + size ->
    spec_step d S (CallRead fid size offset) (Err PSA_ERROR_INVALID_ARGUMENT) d S
| spec_read_nothing d S fid offset :
    spec_step d S (CallRead fid 0 offset) (Err PSA_ERROR_GENERIC_ERROR) d S
| spec_info d S fid f :
    S !! fid = Some f ->
    spec_step d S (CallGetInfo fid) (Ok (RInfo (FileInfo (zlen (f_data f)) (f_max f) (f_flags f)))) d S
| spec_info_missing d S fid :
    S !! fid = None -> spec_step d S (CallGetInfo fid) (Err PSA_ERROR_DOES_NOT_EXIST) d S
| spec_delete S fid :
    is_Some (S !! fid) -> spec_step false S (CallDelete fid) (Ok RDone) false (delete fid S)
| spec_delete_missing d S fid :
    S !! fid = None -> spec_step d S (CallDelete fid) (Err PSA_ERROR_DOES_NOT_EXIST) d S
| spec_prepare d S : spec_step d S CallPrepare (Ok RDone) false S.

Inductive spec_run : bool -> filemap -> list call -> list (res reply) -> bool -> filemap -> Prop :=
| run_nil d S : spec_run d S [] [] d S
| run_cons d S k ks r rs d1 S1 d2 S2 :
    spec_step d S k r d1 S1 -> spec_run d1 S1 ks rs d2 S2 -> spec_run d S (k :: ks) (r :: rs) d2 S2.

(** Between a refused replacement and the next mount no call updates the
    flash. *)
Definition remounts (d : bool) (S : filemap) (ks : list call) (rs : list (res reply)) : Prop :=
  forall ks1 k ks2 rs1 rs2 S1, ks = ks1 ++ k :: ks2 -> rs = rs1 ++ rs2 ->
    spec_run d S ks1 rs1 true S1 -> ~ updates S1 k.

Lemma remounts_nil d S rs : remounts d S [] rs.
Proof. intros [|k1 ks1] k ks2 rs1 rs2 S1 [=]. Qed.

Lemma remounts_cons d S k ks r rs :
  (d = true -> ~ updates S k) -> (forall d1 S1, spec_step d S k r d1 S1 -> remounts d1 S1 ks rs) ->
  remounts d S (k :: ks) (r :: rs).
Proof.
  intros Hk Htl [|k1 ks1] k2 ks2 rs1 rs2 S2 Hks Hrs Hrun; injection Hks as <- Hks.
  - inversion Hrun; subst. by apply Hk.
  - inversion Hrun as [|? ? ? ? r1 rs3 d1 S1 ? ? Hst Hr]; subst. injection Hrs as -> Hrs.
    by apply (Htl d1 S1 Hst ks1 k2 ks2 rs3 rs2 S2).
Qed.

(** A sufficient condition that can be computed: no write and no deletion
    between a write that returned an error and the next mount. *)
Fixpoint no_update_before_mount (d : bool) (ks : list call) (rs : list (res reply)) : bool :=
  match ks, rs with
  | CallWrite _ _ _ _ _ :: ks, r :: rs =>
      negb d && no_update_before_mount (match r with Ok _ => false | Err _ => true end) ks rs
  | CallDelete _ :: ks, _ :: rs => negb d && no_update_before_mount d ks rs
  | CallPrepare :: ks, _ :: rs => no_update_before_mount false ks rs
  | _ :: ks, _ :: rs => no_update_before_mount d ks rs
  | _, _ => true
  end.

Lemma no_update_remounts ks rs d d0 S :
  length rs = length ks -> no_update_before_mount d ks rs = true -> (d0 = true -> d = true) -> remounts d0 S ks rs.
Proof.
  revert rs d d0 S. induction ks as [|k ks IH]; intros [|r rs] d d0 S; [intros; by apply remounts_nil|done..|].
  intros [= Hl] Hn Hd. apply remounts_cons.
  - intros H0. specialize (Hd H0). subst d. destruct k; try done; cbn [updates]; by intros [].
  - intros d1 S1 Hst. destruct Hst; cbn in Hn; try apply andb_true_iff in Hn as [_ Hn]; (eapply IH; [done|exact Hn|]); naive_solver.
Qed.

Lemma remounts_head S k ks rs : remounts true S (k :: ks) rs -> ~ updates S k.
Proof. intros Hr. apply (Hr [] k ks [] rs S); [done|done|constructor]. Qed.

Lemma remounts_tail d S k ks r rs d1 S1 :
  spec_step d S k r d1 S1 -> remounts d S (k :: ks) (r :: rs) -> remounts d1 S1 ks rs.
Proof.
  intros Hst Hr ks1 k1 ks2 rs1 rs2 S2 -> -> Hrun. apply (Hr (k :: ks1) k1 ks2 (r :: rs1) rs2 S2); [done|done|].
  by econstructor.
Qed.
End spec.

Section simulation.
Context {F : Type} `{FlashOps F} (cfg : its_flash_fs_config_t) `{!FlashLaws F (flash_cfg cfg)}.
Context `{!FlashTotal F (flash_cfg cfg)} (Hcfg : cfg_wf cfg) (Hev : ev_ok (flash_cfg cfg)).

Lemma write_replaces_dec S fid finfo : Decision (replaces cfg S fid finfo).
Proof. unfold replaces, is_replaced. apply _. Defined.

(** The state of the file system that goes with a state of the specification. *)
Definition matches (s : fs_st F) (d : bool) (S : filemap) : Prop :=
  if d then readable cfg s S else implements cfg s S.

Lemma matches_readable s d S : matches s d S -> readable cfg s S.
Proof. destruct d; [done|apply implements_readable]. Qed.

Lemma updates_dec S k : Decision (updates S k).
Proof. destruct k; apply _. Defined.

Lemma run_call_step k s d S :
  matches s d S -> call_ok cfg k -> (d = true -> ~ updates S k) ->
  wp (try (run_call cfg k)) (fun r s' => exists d' S', spec_step cfg d S k r d' S' /\ matches s' d' S') (fun _ _ => False) s.
Proof.
  intros Hm Hk Hu. assert (true = true -> FlashTotal F (flash_cfg cfg)) as Hstr by auto.
  pose proof (matches_readable _ _ _ Hm) as Hrd. apply wp_try.
  destruct k as [fid finfo sz off dt|fid sz off|fid|fid|]; cbn [run_call call_ok updates] in *; apply wp_map.
  - destruct Hk as (? & ? & ?). destruct d; [by destruct Hu|].
    eapply wp_mono; [by eapply (model_write cfg Hcfg Hev true Hstr fid finfo sz off dt s S)| |]; cbv beta.
    + intros a s' (-> & Hadm & Hi). eexists false, _. split; [by constructor|done].
    + intros e s' [(Hr & Hi & Hd)|(? & _)]; [|done].
      destruct (write_replaces_dec S fid finfo) as [Hrep|Hrep].
      * exists true, S. split; [by constructor|done].
      * exists false, S. split; [by constructor|]. by apply Hi.
  - destruct Hk as (? & ? & ?).
    eapply wp_mono; [by eapply (model_read cfg Hcfg true Hstr fid sz off s S)| |]; cbv beta.
    + intros a s' (-> & f & Hf & Hle & ->). exists d, S. split; [by constructor|done].
    + intros e s' (-> & [(-> & ?)|[(-> & f & Hf & Hle)|[(-> & ->)|(? & _)]]]); [| | |done];
        exists d, S; (split; [|done]); by econstructor.
  - eapply wp_mono; [by eapply (model_get_info cfg Hcfg true Hstr fid s S)| |]; cbv beta.
    + intros a s' (-> & f & Hf & ->). exists d, S. split; [by constructor|done].
    + intros e s' (-> & -> & [?|?]); [|done]. exists d, S. split; [by constructor|done].
  - destruct (S !! fid) as [f|] eqn:Hf.
    + destruct d; [by destruct Hu|].
      eapply wp_mono; [by eapply (model_delete cfg Hcfg Hev true Hstr fid s S)| |]; cbv beta.
      * intros a s' (? & ?). eexists false, _. split; [by constructor|done].
      * intros e s' [(_ & ? & _)|(? & _)]; congruence.
    + eapply wp_mono; [by eapply (model_delete_missing cfg Hcfg true Hstr fid s S)|done|cbv beta].
      intros e s' (-> & ->). exists d, S. split; [by constructor|done].
  - eapply wp_mono; [apply (model_prepare cfg Hcfg Hev (fun S' => S' = S) s), readable_holds; [done..|exact Hrd]|cbv beta|done].
    intros [] s' (S' & -> & Hi). exists false, S. split; [by constructor|done].
Qed.

Lemma run_calls_total ks (s : fs_st F) : exists rs s', run_calls cfg ks s = (Ok rs, s').
Proof.
  revert s. induction ks as [|k ks IH]; intros s; cbn [run_calls]; [by eexists _, _|].
  unfold bind, try. destruct (run_call cfg k s) as [r s1]. destruct (IH s1) as (rs & s2 & ->). by eexists _, _.
Qed.

Lemma run_calls_length ks (s : fs_st F) rs s' : run_calls cfg ks s = (Ok rs, s') -> length rs = length ks.
Proof.
  revert s rs. induction ks as [|k ks IH]; intros s rs; cbn [run_calls]; [by intros [= <- _]|].
  unfold bind, try, ret. destruct (run_call cfg k s) as [r s1].
  destruct (run_calls cfg ks s1) as [[rs1|e] s2] eqn:E; [|done]. intros [= <- <-]. simpl. f_equal. by eapply IH.
Qed.

Lemma run_calls_refine ks s d S :
  matches s d S -> Forall (call_ok cfg) ks ->
  wp (run_calls cfg ks)
    (fun rs s' => remounts cfg d S ks rs -> exists d' S', spec_run cfg d S ks rs d' S' /\ matches s' d' S')
    (fun _ _ => False) s.
Proof.
  revert s d S. induction ks as [|k ks IH]; intros s d S Hs Hk.
  - apply wp_ret. intros _. eexists _, _. split; [constructor|done].
  - apply Forall_cons in Hk as [Hk Hks]. destruct (updates_dec S k) as [Hup|Hup]; [destruct d|].
    { destruct (run_calls_total (k :: ks) s) as (rs & s2 & Hrun). unfold wp. rewrite Hrun.
      intros Hno%remounts_head. by destruct Hno. }
    all: cbn [run_calls]; apply wp_bind; eapply wp_mono; [by apply run_call_step|cbv beta|done]; intros r s1 (d1 & S1 & Hst & Hm); apply wp_bind;
      (eapply wp_mono; [by apply (IH s1 d1 S1)|cbv beta|done]); intros rs s2 Hr; apply wp_ret; intros Hno;
      (destruct Hr as (d2 & S2 & Hr & Hm2); [by eapply remounts_tail|]); exists d2, S2; (split; [by econstructor|done]).
Qed.
End simulation.

(** ** The contents of a file after a write *)

Section contents.
Context {F : Type} `{FlashOps F} (cfg : its_flash_fs_config_t) `{!FlashLaws F (flash_cfg cfg)}.
Context (Hcfg : cfg_wf cfg).

(** A file does not outgrow its reservation. *)
Lemma readable_file s S fid f :
  readable cfg s S -> S !! fid = Some f -> zlen (f_data f) <= f_max f.
Proof.
  intros (c & B0 & B & Hst & Hr & Hlen & Hn & <-) Hf.
  pose proof (do_files _ _ _ (rd_disk _ _ _ Hr)) as Hfil.
  apply (slots_map_lookup _ _ _ _ (slot_uniq cfg _ _ _ Hfil)) in Hf as (i & Hi & Hs).
  unfold slot in Hs. destruct (visible _) eqn:Hv; [|done]. injection Hs as _ <-.
  destruct (file_range _ _ _ _ Hfil Hi (visible_live _ Hv)) as (_ & _ & Hc).
  unfold file_of. cbn [f_data f_max]. unfold zlen, sub_bytes. rewrite length_take. lia.
Qed.

Lemma implements_file s S fid f :
  implements cfg s S -> S !! fid = Some f -> zlen (f_data f) <= f_max f.
Proof. intros Hs. by eapply readable_file, implements_readable. Qed.

(** The data of a file are bytes of one block. *)
Lemma readable_block s S fid f : readable cfg s S -> S !! fid = Some f ->
  exists blk o k, f_data f = sub_bytes o k blk /\ Forall is_byte blk /\ zlen blk = block_size (flash_cfg cfg).
Proof.
  intros (c & B0 & B & Hst & Hr & Hlen & Hn & <-) Hf.
  pose proof (rd_disk _ _ _ Hr) as Hok. pose proof (do_files _ _ _ Hok) as Hfil.
  apply (slots_map_lookup _ _ _ _ (slot_uniq cfg _ _ _ Hfil)) in Hf as (i & Hi & Hs).
  unfold slot in Hs. destruct (visible _) eqn:Hv; [|done]. injection Hs as _ <-.
  eexists (blocks_of _ B0 _), _, _. split; [done|].
  destruct (lb_blocks cfg Hcfg c B0 Hr _ (fk_lblock _ _ (fs_each _ _ _ Hfil i Hi))) as (Hin & _ & Hns & _).
  split; [|by apply Hlen]. unfold blocks_of. rewrite <- (staging_kept cfg c B0 Hlen s c B _ Hst Hin Hns).
  eapply at_st_bytes; [by eapply is_at_st|done].
Qed.

Lemma readable_bytes s S fid f : readable cfg s S -> S !! fid = Some f -> Forall is_byte (f_data f).
Proof. intros Hs Hf. destruct (readable_block s S fid f Hs Hf) as (blk & o & k & -> & Hb & _). by apply Forall_sub_bytes. Qed.

Lemma readable_size s S fid f : readable cfg s S -> S !! fid = Some f -> zlen (f_data f) < 2147483648.
Proof.
  intros Hs Hf. destruct (readable_block s S fid f Hs Hf) as (blk & o & k & -> & _ & Hz).
  pose proof (cw_area cfg Hcfg). unfold zlen, sub_bytes in *. rewrite length_take, length_drop. lia.
Qed.

Lemma align_size data_size data offset :
  write_args (flash_cfg cfg) data_size offset data ->
  data_size <= ITS_UTILS_ALIGN data_size (program_unit (flash_cfg cfg)).
Proof.
  intros [Hs _ _ _]. destruct (ct_unit cfg (cw_typed cfg Hcfg)) as (k & Hk & ->).
  assert (2 ^ k <= 2 ^ 16) by (apply Z.pow_le_mono_r; lia). apply align_bounds; lia.
Qed.

(** The parts of the file: the old bytes up to [offset], then the data, then
    erased bytes. *)
Lemma write_result_parts base data_size offset data :
  write_args (flash_cfg cfg) data_size offset data -> 0 < data_size ->
  write_fits (flash_cfg cfg) base data_size offset -> zlen (f_data base) <= f_max base ->
  let sz := ITS_UTILS_ALIGN data_size (program_unit (flash_cfg cfg)) in
  let f := write_result (flash_cfg cfg) base data_size offset data in
  zlen (f_data f) = Z.max (zlen (f_data base)) (offset + data_size) /\
  sub_bytes 0 offset (f_data f) = sub_bytes 0 offset (f_data base) /\
  sub_bytes offset data_size (f_data f) = sub_bytes 0 data_size data /\
  sub_bytes (offset + sz) (zlen (f_data f) - (offset + sz)) (f_data f) =
    fill (zlen (f_data f) - (offset + sz)) (erase_val (flash_cfg cfg)).
Proof.
  intros Ha Hpos Hfit Hmax sz f. pose proof (align_size _ _ _ Ha) as Hsz. fold sz in Hsz.
  destruct Ha as [_ Ho Hd _]. fold sz in Hd. destruct Hfit as [?|(_ & Hol & Hom)]; [lia|]. fold sz in Hom.
  pose proof (zlen_nonneg (f_data base)). unfold f, write_result.
  rewrite (proj2 (Z.eqb_neq data_size 0)) by lia. fold sz. cbn [f_data].
  set (img := write_image _ _ _ _ _ _). set (len := Z.max _ _).
  assert (zlen (sub_bytes 0 offset (f_data base)) = offset) as Z1 by (apply zlen_sub_bytes; lia).
  assert (zlen (sub_bytes 0 sz data) = sz) as Z2 by (apply zlen_sub_bytes; lia).
  assert (zlen img = f_max base) as Hi.
  { unfold img, write_image. rewrite !zlen_app, zlen_fill, Z1, Z2 by lia. lia. }
  assert (zlen (sub_bytes 0 len img) = len) as Hl by (apply zlen_sub_bytes; lia).
  split_and!; [done|..]; rewrite ?Hl.
  - rewrite sub_bytes_sub_bytes by lia. rewrite Z.add_0_l. unfold img, write_image.
    rewrite sub_bytes_app_l by lia. rewrite sub_bytes_sub_bytes by lia. done.
  - rewrite sub_bytes_sub_bytes by lia. rewrite Z.add_0_l. unfold img, write_image.
    rewrite sub_bytes_app_r by lia. rewrite sub_bytes_app_l by lia. rewrite sub_bytes_sub_bytes by lia.
    f_equal. lia.
  - destruct (Z.le_gt_cases (len - (offset + sz)) 0) as [Hneg|Hgt].
    { unfold sub_bytes, fill. by replace (Z.to_nat (len - (offset + sz))) with 0%nat by lia. }
    rewrite sub_bytes_sub_bytes by lia. rewrite Z.add_0_l. unfold img, write_image.
    rewrite sub_bytes_app_r by lia. rewrite sub_bytes_app_r by lia. apply sub_bytes_fill; lia.
Qed.

Lemma base_of_bound s S fid finfo :
  implements cfg s S -> zlen (f_data (base_of cfg S fid finfo)) <= f_max (base_of cfg S fid finfo).
Proof.
  intros Hs. pose proof (align_nonneg cfg (size_max finfo)).
  unfold base_of, write_base. destruct (S !! fid) as [f|] eqn:Hf; [|done].
  destruct (has_flag _ _); [done|]. by eapply implements_file.
Qed.

Lemma write_ok_fits (Hev : ev_ok (flash_cfg cfg)) fid finfo data_size offset data s S r s' :
  implements cfg s S -> fid_ok fid -> finfo_ok finfo -> write_args (flash_cfg cfg) data_size offset data ->
  its_flash_fs_file_write cfg fid finfo data_size offset data s = (Ok r, s') ->
  implements cfg s' (written cfg S fid finfo data_size offset data) /\
  write_fits (flash_cfg cfg) (base_of cfg S fid finfo) data_size offset.
Proof.
  intros Hs Hfid Hfi Ha Hrun.
  pose proof (model_write cfg Hcfg Hev false ltac:(done) fid finfo data_size offset data s S Hs Hfid Hfi Ha) as Hw.
  unfold wp in Hw. rewrite Hrun in Hw. unfold write_admitted in Hw. tauto.
Qed.

Lemma model_read_ok `{!FlashTotal F (flash_cfg cfg)} s S fid f size offset :
  implements cfg s S -> fid_ok fid -> is_u32 size -> is_u32 offset -> 0 < size ->
  S !! fid = Some f -> offset + size <= zlen (f_data f) ->
  its_flash_fs_file_read cfg fid size offset s = (Ok (sub_bytes offset size (f_data f)), s).
Proof.
  intros Hs Hfid Hsz Ho Hpos Hf Hle.
  pose proof (model_read cfg Hcfg true (fun _ => FlashTotal0) fid size offset s S (implements_readable cfg _ _ Hs) Hfid Hsz Ho) as Hw.
  unfold wp in Hw. destruct (its_flash_fs_file_read cfg fid size offset s) as [[d|e] s1].
  - destruct Hw as (-> & f' & Hf' & _ & ->). congruence.
  - destruct Hw as (_ & [(_ & ?)|[(_ & f' & Hf' & ?)|[(_ & ?)|(? & _)]]]); try congruence; try lia.
    assert (f' = f) as -> by congruence. lia.
Qed.
End contents.
