(* ===== verification/ItsDemo.v ===== *)
(** * Concrete instances of the file system

    A configuration of five blocks, the RAM driver over it, and a driver that
    loses power after a number of operations: the concrete inputs at which the
    theorems are applied. *)

From S2P Require Import Prelude Bytes ItsUtils ItsFlash ItsMeta ItsMblock ItsFs ItsState ItsView ItsCommit ItsLayout ItsStore ItsInv ItsLookup ItsWrite ItsFileWrite ItsModel.
From stdpp Require Import base list numbers functions gmap.
From Stdlib Require Import ZArith Lia.

Open Scope Z_scope.
Open Scope tfm_scope.

(** ** The RAM driver, with power loss

    The driver counts down its writes and erases.  The one that finds the
    counter at zero is cut short and, as every later one, reports an error. *)

Record cut_dev : Type := CutDev { cut_ram : its_flash_ram_dev_t; cut_left : nat }.

Definition cut_lift {A} (m : M its_flash_ram_dev_t A) (part : M its_flash_ram_dev_t A) : M cut_dev A :=
  fun d => match cut_left d with
           | O => (Err PSA_ERROR_HARDWARE_FAILURE, CutDev (snd (part (cut_ram d))) 0)
           | S k => let '(r, d') := m (cut_ram d) in (r, CutDev d' k)
           end.

#[export] Instance cut_ops : FlashOps cut_dev := {
  op_init fc := fun d => let '(r, d') := its_flash_ram_init fc (cut_ram d) in (r, CutDev d' (cut_left d));
  op_read fc d := its_flash_ram_read fc (cut_ram d);
  op_write fc b d off :=
    cut_lift (its_flash_ram_write fc b d off) (its_flash_ram_write fc b (sub_bytes 0 (zlen d / 2) d) off);
  op_flush fc b := fun d => (Ok tt, d);
  op_erase fc b := cut_lift (its_flash_ram_erase fc b) (fun d => (Ok tt, d));
}.

Section cut.
Context (fc : its_flash_config_t) (Hfc : flash_config_wf fc).

#[local] Existing Instance ram_laws.

#[export] Program Instance cut_laws : FlashLaws cut_dev fc := {
  fl_ok d := ram_ok fc (cut_ram d);
  fl_block d := ram_block fc (cut_ram d);
}.
Next Obligation. intros d b. exact (fl_len (FlashLaws := ram_laws fc Hfc) (cut_ram d) b). Qed.
Next Obligation. intros d b. exact (fl_bytes (FlashLaws := ram_laws fc Hfc) (cut_ram d) b). Qed.
Next Obligation. intros d b. exact (fl_read (FlashLaws := ram_laws fc Hfc) (cut_ram d) b). Qed.
Next Obligation. intros d b. exact (fl_read_err (FlashLaws := ram_laws fc Hfc) (cut_ram d) b). Qed.
Next Obligation.
  intros d b dd off r d' Hok Hb Ho Hd Hby. cbn [op_write cut_ops]. unfold cut_lift.
  pose proof (zlen_nonneg dd). assert (0 <= zlen dd / 2 <= zlen dd) as Hh
    by (split; [apply Z.div_pos; lia|apply Z.div_le_upper_bound; lia]).
  destruct (cut_left d) as [|k].
  - intros [= <- <-]. cbn [cut_ram].
    destruct (its_flash_ram_write fc b (sub_bytes 0 (zlen dd / 2) dd) off (cut_ram d)) as [r1 d1] eqn:E1.
    assert (zlen (sub_bytes 0 (zlen dd / 2) dd) = zlen dd / 2) as Hz by (apply zlen_sub_bytes; lia).
    pose proof (fl_write (FlashLaws := ram_laws fc Hfc) (cut_ram d) b (sub_bytes 0 (zlen dd / 2) dd) off r1 d1 Hok Hb Ho) as Hw.
    destruct Hw as (H1 & H2 & H3 & H4); [lia|auto with bytes|done|].
    cbn [snd]. split_and!; [done|done| |by intros ? [= <-]].
    intros He. specialize (H3 ltac:(rewrite Hz; eapply erased_mono; [| | | |exact He]; lia)).
    destruct r1 as [[]|e].
    + exists (zlen dd / 2). by split.
    + destruct H3 as (k & Hk & H3). rewrite Hz in Hk. exists k. split; [lia|]. cbn [fl_block ram_laws] in H3. rewrite H3.
      by rewrite sub_bytes_sub_bytes by lia.
  - destruct (its_flash_ram_write fc b dd off (cut_ram d)) as [r1 d1] eqn:E1. intros [= <- <-]. cbn [cut_ram].
    exact (fl_write (FlashLaws := ram_laws fc Hfc) (cut_ram d) b dd off r1 d1 Hok Hb Ho Hd Hby E1).
Qed.
Next Obligation. intros d b r d' Hok Hb. cbn. by intros [= <- <-]. Qed.
Next Obligation.
  intros d b r d' Hok Hb. cbn [op_erase cut_ops]. unfold cut_lift. destruct (cut_left d) as [|k].
  - intros [= <- <-]. cbn [snd cut_ram]. split_and!; [done|done| |by intros ? [= <-]]. by split; [|left].
  - destruct (its_flash_ram_erase fc b (cut_ram d)) as [r1 d1] eqn:E1. intros [= <- <-].
    exact (fl_erase (FlashLaws := ram_laws fc Hfc) (cut_ram d) b r1 d1 Hok Hb E1).
Qed.
End cut.

(** ** A NOR flash

    Programming can only clear bits: what is programmed twice between erases is
    the conjunction of the two values.  On erased bytes the driver does what
    the RAM driver does. *)

Record nor_dev : Type := NorDev { nor_mem : its_flash_ram_dev_t }.

Definition nor_program (fc : its_flash_config_t) (b : Z) (d : list Z) (off : Z) (m : its_flash_ram_dev_t) : list Z :=
  zip_with Z.land d (sub_bytes off (zlen d) (ram_block fc m b)).

Definition nor_lift {A} (m : M its_flash_ram_dev_t A) : M nor_dev A :=
  fun d => let '(r, m') := m (nor_mem d) in (r, NorDev m').

#[export] Instance nor_ops : FlashOps nor_dev | 10 := {
  op_init fc := nor_lift (its_flash_ram_init fc);
  op_read fc d := its_flash_ram_read fc (nor_mem d);
  op_write fc b d off := nor_lift (fun m => its_flash_ram_write fc b (nor_program fc b d off m) off m);
  op_flush fc b := fun d => (Ok tt, d);
  op_erase fc b := nor_lift (its_flash_ram_erase fc b);
}.

Section nor.
Context (fc : its_flash_config_t) (Hfc : flash_config_wf fc) (Hev : erase_val fc = 255).

#[local] Existing Instance ram_laws.

Lemma nor_bytes d blk : Forall is_byte d -> Forall is_byte (zip_with Z.land d blk).
Proof.
  intros Hd. revert blk. induction Hd as [|x d Hx Hd IH]; intros [|y blk]; simpl; try constructor; [|apply IH].
  unfold is_byte in *. assert (x = Z.land x (Z.ones 8)) as -> by (rewrite Z.land_ones by lia; by rewrite Z.mod_small).
  rewrite <- Z.land_assoc, (Z.land_comm (Z.ones 8)), Z.land_assoc, Z.land_ones by lia. apply Z.mod_pos_bound. lia.
Qed.

Lemma nor_erased d : Forall is_byte d -> zip_with Z.land d (fill (zlen d) 255) = d.
Proof.
  unfold fill, zlen. rewrite Nat2Z.id. induction 1 as [|x d Hx Hd IH]; [done|]. simpl. rewrite IH. f_equal.
  change 255 with (Z.ones 8). rewrite Z.land_ones by lia. unfold is_byte in Hx. by apply Z.mod_small.
Qed.

Lemma nor_len b d off m : ram_ok fc m -> 0 <= b < num_blocks fc -> 0 <= off -> off + zlen d <= block_size fc ->
  zlen (nor_program fc b d off m) = zlen d.
Proof.
  intros Hok Hb Ho Hd. pose proof (fl_len (FlashLaws := ram_laws fc Hfc) m b Hok Hb) as Hl. cbn [fl_block ram_laws] in Hl.
  pose proof (zlen_nonneg d). assert (zlen (sub_bytes off (zlen d) (ram_block fc m b)) = zlen d) as Hz by (apply zlen_sub_bytes; lia).
  unfold nor_program, zlen in *. rewrite length_zip_with. lia.
Qed.

#[export] Program Instance nor_laws : FlashLaws nor_dev fc := {
  fl_ok d := ram_ok fc (nor_mem d);
  fl_block d := ram_block fc (nor_mem d);
}.
Next Obligation. intros d b. exact (fl_len (FlashLaws := ram_laws fc Hfc) (nor_mem d) b). Qed.
Next Obligation. intros d b. exact (fl_bytes (FlashLaws := ram_laws fc Hfc) (nor_mem d) b). Qed.
Next Obligation. intros d b. exact (fl_read (FlashLaws := ram_laws fc Hfc) (nor_mem d) b). Qed.
Next Obligation. intros d b. exact (fl_read_err (FlashLaws := ram_laws fc Hfc) (nor_mem d) b). Qed.
Next Obligation.
  intros f b d off r f' Hok Hb Ho Hd Hby. cbn [op_write nor_ops]. unfold nor_lift.
  destruct (its_flash_ram_write fc b (nor_program fc b d off (nor_mem f)) off (nor_mem f)) as [r1 m] eqn:E1.
  intros [= <- <-]. cbn [nor_mem]. pose proof (nor_len b d off (nor_mem f) Hok Hb Ho Hd) as Hz.
  destruct (fl_write (FlashLaws := ram_laws fc Hfc) (nor_mem f) b (nor_program fc b d off (nor_mem f)) off r1 m Hok Hb Ho)
    as (H1 & H2 & H3 & H4); [lia|by apply nor_bytes|exact E1|]. split_and!; [done|done| |done]. rewrite Hz in H3.
  intros He. specialize (H3 He). unfold erased in He. rewrite Hev in He. unfold nor_program in H3. cbn [fl_block ram_laws] in H3.
  by rewrite He, nor_erased in H3.
Qed.
Next Obligation. intros f b r f' Hok Hb. cbn. by intros [= <- <-]. Qed.
Next Obligation.
  intros f b r f' Hok Hb. cbn [op_erase nor_ops]. unfold nor_lift. destruct (its_flash_ram_erase fc b (nor_mem f)) as [r1 m] eqn:E1.
  intros [= <- <-]. exact (fl_erase (FlashLaws := ram_laws fc Hfc) (nor_mem f) b r1 m Hok Hb E1).
Qed.

#[export] Instance nor_total : FlashTotal nor_dev fc.
Proof.
  split; cbn [fl_ok nor_laws].
  - intros f. exact (ft_read (FlashTotal := ram_total fc Hfc) (nor_mem f)).
  - intros f b d off Hok Hb Ho Hp Hd. pose proof (nor_len b d off (nor_mem f) Hok Hb Ho Hd) as Hz.
    destruct (ft_write (FlashTotal := ram_total fc Hfc) (nor_mem f) b (nor_program fc b d off (nor_mem f)) off Hok Hb Ho)
      as (m & Hm); [lia..|]. exists (NorDev m). cbn [op_write nor_ops]. unfold nor_lift. cbn [op_write its_flash_fs_ops_ram] in Hm. by rewrite Hm.
  - intros f b _ _. by exists f.
  - intros f b Hok Hb. destruct (ft_erase (FlashTotal := ram_total fc Hfc) (nor_mem f) b Hok Hb) as (m & Hm).
    exists (NorDev m). cbn [op_erase nor_ops]. unfold nor_lift. cbn [op_erase its_flash_fs_ops_ram] in Hm. by rewrite Hm.
Qed.
End nor.

(** ** A small file system *)

Definition demo_fc : its_flash_config_t := FlashConfig 0 512 5 1 255.
Definition demo_cfg : its_flash_fs_config_t := FsConfig demo_fc 100 4.

Lemma demo_fc_wf : flash_config_wf demo_fc.
Proof. split; unfold is_byte; simpl; lia. Qed.

Lemma demo_cfg_wf : cfg_wf demo_cfg.
Proof.
  split; [split; [exact demo_fc_wf|..]|..]; try (vm_compute; intuition congruence).
  exists 0. split; [lia|done].
Qed.

Lemma demo_ev : ev_ok demo_fc.
Proof. by right. Qed.

#[export] Instance demo_laws : FlashLaws its_flash_ram_dev_t demo_fc := ram_laws demo_fc demo_fc_wf.
#[export] Instance demo_total : FlashTotal its_flash_ram_dev_t demo_fc := ram_total demo_fc demo_fc_wf.
#[export] Instance demo_cut_laws : FlashLaws cut_dev demo_fc := cut_laws demo_fc demo_fc_wf.
#[export] Instance demo_nor_laws : FlashLaws nor_dev demo_fc := nor_laws demo_fc demo_fc_wf eq_refl.
#[export] Instance demo_nor_total : FlashTotal nor_dev demo_fc := nor_total demo_fc demo_fc_wf eq_refl.

(** Flash full of garbage, then formatted and mounted. *)
Definition demo_dirty : fs_st its_flash_ram_dev_t := FsSt (RamDev (fill 2560 7) 2560) ctx_zero.
Definition demo_wiped : fs_st its_flash_ram_dev_t := snd (its_flash_fs_wipe_all demo_cfg demo_dirty).
Definition demo_empty : fs_st its_flash_ram_dev_t := snd (its_flash_fs_prepare demo_cfg demo_wiped).

Definition demo_fid : list Z := [1; 0; 0; 0; 5; 0; 0; 0; 0; 0; 0; 0].
Definition demo_info : its_flash_fs_file_info_t :=
  FileInfo 0 8 (Z.lor ITS_FLASH_FS_FLAG_CREATE ITS_FLASH_FS_FLAG_TRUNCATE).
Definition demo_data : list Z := [10; 20; 30; 40; 50].
Definition demo_write {F} `{FlashOps F} : M (fs_st F) its_flash_fs_file_info_t :=
  its_flash_fs_file_write demo_cfg demo_fid demo_info 5 0 demo_data.
Definition demo_file : fs_st its_flash_ram_dev_t := snd (demo_write demo_empty).

(** *** The demonstration states *)

Lemma demo_dirty_ok : fl_ok (st_flash demo_dirty).
Proof.
  split_and!; [reflexivity|reflexivity|by vm_compute|]. apply Forall_fill. unfold is_byte. lia.
Qed.

Lemma demo_wiped_ok : holds demo_cfg (st_flash demo_wiped) (fun S => S = ∅).
Proof.
  destruct (run_total _ _ _ (model_wipe demo_cfg demo_cfg_wf demo_ev demo_dirty demo_dirty_ok
    ltac:(split; vm_compute; intuition congruence) ltac:(by left))) as (a & s1 & H1 & Hw).
  unfold demo_wiped. by rewrite H1.
Qed.

Lemma demo_empty_ok : implements demo_cfg demo_empty ∅.
Proof.
  destruct (run_total _ _ _ (model_prepare demo_cfg demo_cfg_wf demo_ev _ demo_wiped demo_wiped_ok))
    as (a2 & s2 & H2 & S & -> & Hi).
  unfold demo_empty. by rewrite H2.
Qed.

Lemma demo_fid_ok : fid_ok demo_fid.
Proof. split; [reflexivity| |reflexivity]. repeat constructor; unfold is_byte; lia. Qed.

Lemma demo_info_ok : finfo_ok demo_info.
Proof. split; [by vm_compute|reflexivity]. Qed.

Lemma demo_args_ok : write_args demo_fc 5 0 demo_data.
Proof. split; [lia|lia|by vm_compute|]. repeat constructor; unfold is_byte; lia. Qed.

(** The same flash behind the NOR driver. *)
Definition demo_nor (s : fs_st its_flash_ram_dev_t) : fs_st nor_dev := FsSt (NorDev (st_flash s)) (st_ctx s).

Lemma demo_nor_ok s S : implements demo_cfg s S -> implements demo_cfg (demo_nor s) S.
Proof. intros (c & B & Hat & Hr & Hn & Hst). by exists c, B. Qed.
