(* ===== verification/ItsSpec.v ===== *)
(** * What the file system of the storage service guarantees

    The theorems about [its_flash_fs.c] and [its_flash_fs_mblock.c], with a
    concrete instance of each. *)

From S2P Require Import Prelude Bytes ItsUtils ItsFlash ItsMeta ItsMblock ItsFs ItsState ItsView ItsCommit ItsLayout ItsStore ItsInv ItsLookup ItsWrite ItsFileWrite ItsModel ItsDemo.
From stdpp Require Import base list numbers functions gmap.
From Stdlib Require Import ZArith Lia.

Open Scope Z_scope.
Open Scope tfm_scope.

(** ** Helpers *)

(** Two drivers whose blocks agree hold the same files. *)
Lemma holds_transfer {F F2} `{FlashOps F, FlashOps F2} cfg
    `{L1 : !FlashLaws F (flash_cfg cfg), L2 : !FlashLaws F2 (flash_cfg cfg)} (f : F) (f2 : F2) P :
  fl_ok f2 -> (forall b, 0 <= b < num_blocks (flash_cfg cfg) -> fl_block f2 b = fl_block f b) ->
  holds cfg f P -> holds cfg f2 P.
Proof.
  intros Hok Heq (a & B & [_ HB] & Hm & Hd & HP). exists a, B. split_and!; try done.
  split; [done|]. intros b Hb. by rewrite Heq, HB.
Qed.

(** ** The operations over the store *)

Section properties.
Context {F : Type} `{FlashOps F} (cfg : its_flash_fs_config_t) `{!FlashLaws F (flash_cfg cfg)}.
Context (Hcfg : cfg_wf cfg) (Hev : ev_ok (flash_cfg cfg)).

(** C1: on a working driver with an erase value of 0x00 or 0xFF every sequence
    of writes, reads, queries, deletions and mounts returns.  If, after a write that had to replace a file
    and was refused, no call updates the flash before the next mount, every
    reply is one the specification of the store allows, and the file system
    ends with the files the specification reaches.  Without that condition a
    write may lose its data ([refused_replacement_loses_data]). *)
Theorem calls_refine_spec `{!FlashTotal F (flash_cfg cfg)} ks s S :
  implements cfg s S -> Forall (call_ok cfg) ks ->
  exists rs s', run_calls cfg ks s = (Ok rs, s') /\ length rs = length ks /\
    (remounts cfg false S ks rs -> exists d S', spec_run cfg false S ks rs d S' /\ matches cfg s' d S').
Proof.
  intros Hs Hks. destruct (run_total _ _ _ (run_calls_refine cfg Hcfg Hev ks s false S Hs Hks)) as (rs & s' & Hr & Hspec).
  exists rs, s'. split_and!; [done|by eapply run_calls_length|exact Hspec].
Qed.

(** C2: power loss during a write, on a driver that commits each write to the
    device as it is made, so that there is nothing left to flush.
    [its_flash_hal.h] also permits drivers that buffer writes until they are
    flushed, as the NAND driver does; for those nothing is stated.  Whatever
    error the write of [fid] ends with, the next mount by a working driver of
    the same kind over the same blocks succeeds and finds either the store
    before the write or the store after it. *)
Theorem write_interrupted_then_prepare {F2} `{FlashOps F2} `{!FlashLaws F2 (flash_cfg cfg)}
    `{!FlashTotal F2 (flash_cfg cfg)} fid finfo data_size offset data (s : fs_st F) S e (s' : fs_st F) (t : fs_st F2) :
  implements cfg s S -> fid_ok fid -> finfo_ok finfo -> write_args (flash_cfg cfg) data_size offset data ->
  its_flash_fs_file_write cfg fid finfo data_size offset data s = (Err e, s') ->
  fl_ok (st_flash t) ->
  (forall b, 0 <= b < num_blocks (flash_cfg cfg) -> fl_block (st_flash t) b = fl_block (st_flash s') b) ->
  exists t' S', its_flash_fs_prepare cfg t = (Ok tt, t') /\ implements cfg t' S' /\
    (S' = S \/ S' = written cfg S fid finfo data_size offset data).
Proof.
  intros Hs Hfid Hfi Ha Hrun Hok Heq.
  pose proof (run_err _ _ _ _ _ _ (model_write (F := F) cfg Hcfg Hev false ltac:(done) fid finfo data_size offset data s S Hs Hfid Hfi Ha) Hrun) as He.
  assert (holds cfg (st_flash s') (fun S' => S' = S \/ S' = written cfg S fid finfo data_size offset data)) as Hh.
  { destruct He as [(_ & _ & He%(readable_holds (F := F) cfg Hcfg Hev))|(_ & _ & He)]; [|done].
    eapply holds_weaken; [|exact He]. auto. }
  apply (holds_transfer cfg _ (st_flash t) _ Hok Heq) in Hh.
  destruct (run_total _ _ _ (model_prepare cfg Hcfg Hev _ t Hh)) as ([] & t' & Hp & S' & HP & Hi). eauto.
Qed.

(** The same for the deletion of a file. *)
Theorem delete_interrupted_then_prepare {F2} `{FlashOps F2} `{!FlashLaws F2 (flash_cfg cfg)}
    `{!FlashTotal F2 (flash_cfg cfg)} fid (s : fs_st F) S e (s' : fs_st F) (t : fs_st F2) :
  implements cfg s S -> fid_ok fid -> its_flash_fs_file_delete cfg fid s = (Err e, s') ->
  fl_ok (st_flash t) ->
  (forall b, 0 <= b < num_blocks (flash_cfg cfg) -> fl_block (st_flash t) b = fl_block (st_flash s') b) ->
  exists t' S', its_flash_fs_prepare cfg t = (Ok tt, t') /\ implements cfg t' S' /\
    (S' = S \/ S' = delete fid S).
Proof.
  intros Hs Hfid Hrun Hok Heq.
  pose proof (run_err _ _ _ _ _ _ (model_delete (F := F) cfg Hcfg Hev false ltac:(done) fid s S Hs Hfid) Hrun) as He.
  assert (holds cfg (st_flash s') (fun S' => S' = S \/ S' = delete fid S)) as Hh.
  { destruct He as [(_ & _ & ->)|(_ & _ & He)]; [|done].
    eapply holds_weaken; [|by apply (implements_holds (F := F))]. auto. }
  apply (holds_transfer cfg _ (st_flash t) _ Hok Heq) in Hh.
  destruct (run_total _ _ _ (model_prepare cfg Hcfg Hev _ t Hh)) as ([] & t' & Hp & S' & HP & Hi). eauto.
Qed.

(** C4: a write that succeeds changes the named file, as [write_result] says,
    and no other; on any driver. *)
Theorem file_write_refines fid finfo data_size offset data s S r s' :
  implements cfg s S -> fid_ok fid -> finfo_ok finfo -> write_args (flash_cfg cfg) data_size offset data ->
  its_flash_fs_file_write cfg fid finfo data_size offset data s = (Ok r, s') ->
  r = align_size_max cfg finfo /\ implements cfg s' (written cfg S fid finfo data_size offset data).
Proof.
  intros Hs Hfid Hfi Ha Hrun.
  by destruct (run_ok _ _ _ _ _ _ (model_write cfg Hcfg Hev false ltac:(done) fid finfo data_size offset data s S Hs Hfid Hfi Ha) Hrun)
    as (? & _ & ?).
Qed.

(** C5: what was written is read back: the data at its offset, and the
    bytes of the file before it. *)
Theorem read_after_write `{!FlashTotal F (flash_cfg cfg)} fid finfo data_size offset data s S r s' :
  implements cfg s S -> fid_ok fid -> finfo_ok finfo -> write_args (flash_cfg cfg) data_size offset data ->
  0 < data_size ->
  its_flash_fs_file_write cfg fid finfo data_size offset data s = (Ok r, s') ->
  its_flash_fs_file_read cfg fid data_size offset s' = (Ok (sub_bytes 0 data_size data), s') /\
  (0 < offset -> its_flash_fs_file_read cfg fid offset 0 s' =
                   (Ok (sub_bytes 0 offset (f_data (base_of cfg S fid finfo))), s')).
Proof.
  intros Hs Hfid Hfi Ha Hpos Hrun.
  destruct (write_ok_fits cfg Hcfg Hev _ _ _ _ _ _ _ _ _ Hs Hfid Hfi Ha Hrun) as [Hi Hfit].
  assert (zlen (f_data (base_of cfg S fid finfo)) <= f_max (base_of cfg S fid finfo)) as Hmax
    by (eapply base_of_bound; eauto).
  destruct (write_result_parts cfg Hcfg _ _ _ _ Ha Hpos Hfit Hmax) as (P1 & P2 & P3 & _).
  pose proof Ha as [Hsz Ho _ _]. split; [|intros Hop].
  - rewrite <- P3. apply (model_read_ok cfg Hcfg s' _ fid _ data_size offset Hi Hfid); unfold is_u32; try lia.
    by apply lookup_insert_eq.
  - rewrite <- P2. apply (model_read_ok cfg Hcfg s' _ fid _ offset 0 Hi Hfid); unfold is_u32; try lia.
    by apply lookup_insert_eq.
Qed.

(** C6: a read changes nothing and ends in one of three ways, on a working
    driver: with the bytes asked for, with [PSA_ERROR_DOES_NOT_EXIST] or with
    [PSA_ERROR_INVALID_ARGUMENT] when they are not all in the file. *)
Theorem file_read_spec `{!FlashTotal F (flash_cfg cfg)} fid size offset s S :
  implements cfg s S -> fid_ok fid -> is_u32 size -> is_u32 offset -> 0 < size ->
  its_flash_fs_file_read cfg fid size offset s =
    (match S !! fid with
     | None => Err PSA_ERROR_DOES_NOT_EXIST
     | Some f => if decide (offset + size <= zlen (f_data f)) then Ok (sub_bytes offset size (f_data f))
                 else Err PSA_ERROR_INVALID_ARGUMENT
     end, s).
Proof.
  intros Hs Hfid Hsz Ho Hpos.
  pose proof (model_read cfg Hcfg true (fun _ => FlashTotal0) fid size offset s S (implements_readable cfg _ _ Hs) Hfid Hsz Ho) as Hw.
  unfold wp in Hw. destruct (its_flash_fs_file_read cfg fid size offset s) as [[d|e] s1].
  - destruct Hw as (-> & f & -> & Hle & ->). by rewrite decide_True.
  - destruct Hw as (-> & [(-> & ->)|[(-> & f & -> & Hlt)|[(_ & ?)|(? & _)]]]); [done| |lia|done].
    by rewrite decide_False by lia.
Qed.

(** The information returned about a file is its size, capacity and
    user flags; nothing changes. *)
Theorem file_get_info_spec `{!FlashTotal F (flash_cfg cfg)} fid s S :
  implements cfg s S -> fid_ok fid ->
  its_flash_fs_file_get_info cfg fid s =
    (match S !! fid with
     | None => Err PSA_ERROR_DOES_NOT_EXIST
     | Some f => Ok (FileInfo (zlen (f_data f)) (f_max f) (f_flags f))
     end, s).
Proof.
  intros Hs Hfid. pose proof (model_get_info cfg Hcfg true (fun _ => FlashTotal0) fid s S (implements_readable cfg _ _ Hs) Hfid) as Hw.
  unfold wp in Hw. destruct (its_flash_fs_file_get_info cfg fid s) as [[d|e] s1].
  - by destruct Hw as (-> & f & -> & ->).
  - by destruct Hw as (-> & -> & [->|?]).
Qed.

(** Deleting a file of the store succeeds and removes exactly it;
    deleting another is refused and changes nothing. *)
Theorem file_delete_spec `{!FlashTotal F (flash_cfg cfg)} fid s S :
  implements cfg s S -> fid_ok fid ->
  (S !! fid = None /\ its_flash_fs_file_delete cfg fid s = (Err PSA_ERROR_DOES_NOT_EXIST, s)) \/
  (is_Some (S !! fid) /\
   exists s', its_flash_fs_file_delete cfg fid s = (Ok tt, s') /\ implements cfg s' (delete fid S)).
Proof.
  intros Hs Hfid. pose proof (model_delete cfg Hcfg Hev true (fun _ => FlashTotal0) fid s S Hs Hfid) as Hw.
  unfold wp in Hw. destruct (its_flash_fs_file_delete cfg fid s) as [[[]|e] s1].
  - destruct Hw as (? & ?). right. split; [done|]. by exists s1.
  - destruct Hw as [(-> & ? & ->)|(? & _)]; [by left|done].
Qed.

(** On a working driver a write to a file that exists, keeps its
    capacity and has the written range inside it, succeeds. *)
Theorem write_in_place_succeeds `{!FlashTotal F (flash_cfg cfg)} fid finfo data_size offset data s S f :
  implements cfg s S -> fid_ok fid -> finfo_ok finfo -> write_args (flash_cfg cfg) data_size offset data ->
  S !! fid = Some f ->
  has_flag (info_flags finfo) ITS_FLASH_FS_FLAG_TRUNCATE = false \/
    f_max f = ITS_UTILS_ALIGN (size_max finfo) (program_unit (flash_cfg cfg)) ->
  write_fits (flash_cfg cfg) (base_of cfg S fid finfo) data_size offset ->
  exists s', its_flash_fs_file_write cfg fid finfo data_size offset data s = (Ok (align_size_max cfg finfo), s') /\
    implements cfg s' (written cfg S fid finfo data_size offset data).
Proof.
  intros Hs Hfid Hfi Ha Hf Hkeep Hfit.
  pose proof (model_write cfg Hcfg Hev true (fun _ => FlashTotal0) fid finfo data_size offset data s S Hs Hfid Hfi Ha) as Hw.
  unfold wp in Hw. destruct (its_flash_fs_file_write cfg fid finfo data_size offset data s) as [[r|e] s1].
  - destruct Hw as (-> & _ & ?). by exists s1.
  - destruct Hw as [(Hr & _)|(? & _)]; [|done]. exfalso.
    assert (needs_room S fid (info_flags finfo) (ITS_UTILS_ALIGN (size_max finfo) (program_unit (flash_cfg cfg))) = false) as Hn.
    { unfold needs_room. rewrite Hf. destruct Hkeep as [->| ->]; [done|]. rewrite Z.eqb_refl. apply andb_false_r. }
    destruct Hr; congruence.
Qed.

(** C10: a write that is refused leaves the store as it was: the next mount
    finds it, and unless the file was to be replaced by one of another
    capacity it is still in place without one. *)
Theorem write_refused_keeps_store `{!FlashTotal F (flash_cfg cfg)} fid finfo data_size offset data s S e s' :
  implements cfg s S -> fid_ok fid -> finfo_ok finfo -> write_args (flash_cfg cfg) data_size offset data ->
  its_flash_fs_file_write cfg fid finfo data_size offset data s = (Err e, s') ->
  write_refused cfg S fid finfo data_size offset e /\
  (~ replaces cfg S fid finfo -> implements cfg s' S) /\
  exists t, its_flash_fs_prepare cfg s' = (Ok tt, t) /\ implements cfg t S.
Proof.
  intros Hs Hfid Hfi Ha Hrun.
  pose proof (run_err _ _ _ _ _ _ (model_write cfg Hcfg Hev true (fun _ => FlashTotal0) fid finfo data_size offset data s S Hs Hfid Hfi Ha) Hrun) as Hw.
  destruct Hw as [(Hr & Hi & Hh%(readable_holds cfg Hcfg Hev))|(? & _)]; [|done]. split_and!; [done|done|].
  destruct (run_total _ _ _ (model_prepare cfg Hcfg Hev _ s' Hh)) as ([] & t & Hp & S' & -> & Ht). eauto.
Qed.

(** Formatting any flash and mounting it gives the empty store. *)
Theorem wipe_then_prepare `{!FlashTotal F (flash_cfg cfg)} (f : F) :
  fl_ok f ->
  exists s1 s2, its_flash_fs_wipe_all cfg (FsSt f ctx_zero) = (Ok tt, s1) /\
    its_flash_fs_prepare cfg s1 = (Ok tt, s2) /\ implements cfg s2 ∅.
Proof.
  intros Hok.
  destruct (run_total _ _ _ (model_wipe cfg Hcfg Hev (FsSt f ctx_zero) Hok
    ltac:(split; vm_compute; intuition congruence) ltac:(by left))) as ([] & s1 & H1 & Hw).
  destruct (run_total _ _ _ (model_prepare cfg Hcfg Hev _ s1 Hw)) as ([] & s2 & H2 & S & -> & Hi). eauto.
Qed.

(** Writing into the middle of a file loses what follows: from the end
    of the written program units to the size of the file, which does not
    change, every byte is in the erased state. *)
Theorem overwrite_erases_tail fid finfo data_size offset data s S r s' :
  implements cfg s S -> fid_ok fid -> finfo_ok finfo -> write_args (flash_cfg cfg) data_size offset data ->
  0 < data_size ->
  its_flash_fs_file_write cfg fid finfo data_size offset data s = (Ok r, s') ->
  let old := base_of cfg S fid finfo in
  let e := offset + ITS_UTILS_ALIGN data_size (program_unit (flash_cfg cfg)) in
  e <= zlen (f_data old) ->
  exists f, written cfg S fid finfo data_size offset data !! fid = Some f /\
    implements cfg s' (written cfg S fid finfo data_size offset data) /\
    zlen (f_data f) = zlen (f_data old) /\
    sub_bytes e (zlen (f_data old) - e) (f_data f) = fill (zlen (f_data old) - e) (erase_val (flash_cfg cfg)).
Proof.
  intros Hs Hfid Hfi Ha Hpos Hrun old e He.
  destruct (write_ok_fits cfg Hcfg Hev _ _ _ _ _ _ _ _ _ Hs Hfid Hfi Ha Hrun) as [Hi Hfit].
  assert (zlen (f_data old) <= f_max old) as Hmax by (eapply base_of_bound; eauto).
  destruct (write_result_parts cfg Hcfg _ _ _ _ Ha Hpos Hfit Hmax) as (P1 & _ & _ & P4).
  pose proof (align_size cfg Hcfg _ _ _ Ha).
  eexists. split_and!; [by apply lookup_insert_eq|done|rewrite P1; unfold old, e in *; lia|].
  fold old e in P1, P4. by replace (zlen (f_data old)) with (zlen (f_data (write_result (flash_cfg cfg) old data_size offset data))) by lia.
Qed.
End properties.

(** ** Metadata *)

(** The metadata structures survive being written and read back. *)
Theorem metadata_roundtrip :
  (forall h, header_wf h -> header_of (header_bytes h) = h) /\
  (forall m, block_meta_wf m -> block_meta_of (block_meta_bytes m) = m) /\
  (forall m, file_meta_wf m -> file_meta_of (file_meta_bytes m) = m).
Proof. split_and!; auto using header_of_bytes, block_meta_of_bytes, file_meta_of_bytes. Qed.

(** Of a header and the header of the next update, the latter is selected
    whichever block it is in, also when the swap count rolls over or skips the
    erase value. *)
Theorem latest_meta_block_is_newest cfg h x :
  ev_ok (flash_cfg cfg) -> is_byte (active_swap_count h) ->
  active_swap_count h <> erase_val (flash_cfg cfg) ->
  let h' := next_header (erase_val (flash_cfg cfg)) x h in
  its_mblock_latest_meta_block cfg h h' = ITS_METADATA_BLOCK1 /\
  its_mblock_latest_meta_block cfg h' h = ITS_METADATA_BLOCK0.
Proof. intros. by apply latest_is_next. Qed.

(** A header is accepted only once its swap count is on flash: with fewer
    than seven bytes of it programmed the block is not mounted, with seven it
    is complete but for the padding. *)
Theorem torn_header_not_mounted cfg h blk k :
  ev_ok (flash_cfg cfg) -> header_wf h -> fs_version h = ITS_SUPPORTED_VERSION ->
  active_swap_count h <> erase_val (flash_cfg cfg) -> xor_at cfg blk = metadata_xor h ->
  meta_end cfg <= zlen blk -> 8 <= meta_end cfg -> erased (flash_cfg cfg) 0 8 blk -> 0 <= k <= 8 ->
  header_valid cfg (splice 0 (sub_bytes 0 k (header_bytes h)) blk) = (7 <=? k).
Proof.
  intros Hev Hh Hv Hs Hx Hl Hm He Hk.
  destruct (torn_header cfg h blk k Hev Hh Hv Hs Hx Hl Hm He Hk) as [Hlo Hhi].
  destruct (Z.leb_spec 7 k); [by apply Hhi|apply Hlo; lia].
Qed.

(** XOR of bytes, split at a byte. *)
Lemma xor_bytes_shift x l : xor_bytes x l = Z.lxor x (xor_bytes 0 l).
Proof.
  revert x. induction l as [|b l IH]; intros x; [by rewrite Z.lxor_0_r|].
  change (xor_bytes (Z.lxor x b) l = Z.lxor x (xor_bytes (Z.lxor 0 b) l)).
  rewrite (IH (Z.lxor x b)), (IH (Z.lxor 0 b)). by rewrite Z.lxor_assoc, Z.lxor_0_l.
Qed.

Lemma xor_bytes_middle l k a : xor_bytes 0 (l ++ a :: k) = Z.lxor a (Z.lxor (xor_bytes 0 l) (xor_bytes 0 k)).
Proof.
  rewrite xor_bytes_app. change (xor_bytes (Z.lxor (xor_bytes 0 l) a) k = Z.lxor a (Z.lxor (xor_bytes 0 l) (xor_bytes 0 k))).
  rewrite xor_bytes_shift, (Z.lxor_comm _ a). by rewrite Z.lxor_assoc.
Qed.

Lemma insert_sub_bytes o n i X b :
  0 <= o -> o <= i < o + n -> i < zlen X ->
  sub_bytes o n (<[Z.to_nat i := b]> X) = <[Z.to_nat (i - o) := b]> (sub_bytes o n X).
Proof.
  intros Ho Hi Hl. unfold zlen in Hl. apply list_eq. intros j. destruct (decide (j < Z.to_nat n)%nat) as [Hj|Hj].
  - rewrite sub_bytes_lookup by lia. destruct (decide (j = Z.to_nat (i - o))) as [->|Hne].
    + replace (Z.to_nat o + Z.to_nat (i - o))%nat with (Z.to_nat i) by lia.
      rewrite list_lookup_insert_eq by lia. rewrite list_lookup_insert_eq; [done|].
      apply lookup_lt_is_Some_1. rewrite sub_bytes_lookup by lia. apply lookup_lt_is_Some_2. lia.
    + rewrite !list_lookup_insert_ne by lia. by rewrite sub_bytes_lookup by lia.
  - rewrite sub_bytes_lookup_ge by lia. symmetry. apply lookup_ge_None_2. rewrite length_insert.
    unfold sub_bytes. rewrite length_take. lia.
Qed.

(** The change of any one byte of the metadata makes the block invalid. *)
Theorem metadata_corruption_detected cfg blk o a b :
  fs_version (header_at blk) = ITS_SUPPORTED_VERSION -> header_valid cfg blk = true ->
  8 <= o < meta_end cfg -> blk !! Z.to_nat o = Some a -> a <> b ->
  header_valid cfg (<[Z.to_nat o := b]> blk) = false.
Proof.
  intros Hv Hval Ho Ha Hab. pose proof (lookup_lt_Some _ _ _ Ha) as Hlt.
  assert (o < zlen blk) as Hl by (unfold zlen; lia).
  assert (header_at (<[Z.to_nat o := b]> blk) = header_at blk) as Hh.
  { unfold header_at. f_equal. apply list_eq. intros j. destruct (decide (j < 8)%nat).
    - rewrite !sub_bytes_lookup by lia. apply list_lookup_insert_ne. lia.
    - by rewrite !sub_bytes_lookup_ge by lia. }
  unfold header_valid in *. rewrite Hh, Hv in *. cbn in Hval |- *.
  apply andb_true_iff in Hval as [-> Hx]. apply Z.eqb_eq in Hx. cbn [andb]. apply Z.eqb_neq. rewrite <- Hx. unfold xor_at.
  rewrite insert_sub_bytes by lia. set (X := sub_bytes 8 _ blk).
  assert (X !! Z.to_nat (o - 8) = Some a) as HX.
  { unfold X. rewrite sub_bytes_lookup by lia. rewrite <- Ha. f_equal. lia. }
  rewrite <- (take_drop_middle _ _ _ HX) at 2. rewrite insert_take_drop by (by apply lookup_lt_Some in HX).
  rewrite !xor_bytes_middle. intros Heq. apply Hab.
  set (y := Z.lxor (xor_bytes 0 (take _ X)) _) in Heq.
  apply (f_equal (fun z => Z.lxor z y)) in Heq.
  by rewrite !Z.lxor_assoc, Z.lxor_nilpotent, !Z.lxor_0_r in Heq.
Qed.

(** ** Configuration, geometry and bounds *)

(** The inequalities [its_flash_fs_validate_config] tests, in the integers: its
    32-bit sums do not wrap. *)
Lemma validate_config_exact cfg :
  cfg_typed cfg -> its_flash_fs_validate_config cfg = PSA_SUCCESS <-> cfg_wf cfg.
Proof.
  intros Ht. split; [|apply validate_config_ok]. unfold its_flash_fs_validate_config. rewrite !Z.gtb_ltb.
  pose proof (ct_fsize _ Ht) as Hf. pose proof (fc_area _ (ct_flash _ Ht)) as Ha.
  pose proof (fc_num_blocks _ (ct_flash _ Ht)) as Hb. pose proof (fc_block_size _ (ct_flash _ Ht)) as Hs. intros Hok.
  destruct (Z.ltb_spec (block_size (flash_cfg cfg)) (its_flash_fs_all_metadata_size cfg)) as [|H1]; [done|].
  destruct (Z.ltb_spec (block_size (flash_cfg cfg)) (max_file_size cfg)) as [|H2]; [done|].
  destruct (Z.ltb_spec (num_blocks (flash_cfg cfg)) 2); cbn [orb] in Hok; [repeat case_match; done|].
  destruct (Z.eqb_spec (num_blocks (flash_cfg cfg)) 3); [repeat case_match; done|].
  destruct (metadata_size_exact cfg Ht) as [Hm1 Hm2]; [lia|lia|]. rewrite Hm1 in *.
  split; try done. intros E2. rewrite E2, Z.eqb_refl in Hok. rewrite u32_id in Hok by lia.
  destruct (Z.ltb_spec (block_size (flash_cfg cfg) - meta_end cfg) (max_file_size cfg)); done.
Qed.

(** C17: a configuration that [its_flash_fs_validate_config] accepts is one the
    file system works with.  On a working driver whose erase value is 0x00 or
    0xFF, any flash can be formatted and mounted, the store is empty then, and
    a file of any size up to the configured maximum, of at least two files, can
    be created in it and holds the data written.  (The check does not look at
    the erase value; 0x01, for one, is accepted and not covered.) *)
Theorem accepted_config_works {F} `{FlashOps F} cfg `{!FlashLaws F (flash_cfg cfg)} `{!FlashTotal F (flash_cfg cfg)} (f : F) :
  cfg_typed cfg -> ev_ok (flash_cfg cfg) -> its_flash_fs_validate_config cfg = PSA_SUCCESS -> fl_ok f ->
  exists s1 s2, its_flash_fs_wipe_all cfg (FsSt f ctx_zero) = (Ok tt, s1) /\
    its_flash_fs_prepare cfg s1 = (Ok tt, s2) /\ implements cfg s2 ∅ /\
    forall fid finfo data_size data,
      2 <= max_num_files cfg -> fid_ok fid -> finfo_ok finfo -> write_args (flash_cfg cfg) data_size 0 data ->
      has_flag (info_flags finfo) ITS_FLASH_FS_FLAG_CREATE = true ->
      ITS_UTILS_ALIGN data_size (program_unit (flash_cfg cfg)) <= ITS_UTILS_ALIGN (size_max finfo) (program_unit (flash_cfg cfg)) <=
        max_file_size cfg ->
      exists s3, its_flash_fs_file_write cfg fid finfo data_size 0 data s2 = (Ok (align_size_max cfg finfo), s3) /\
        implements cfg s3 (written cfg ∅ fid finfo data_size 0 data).
Proof.
  intros Ht Hev Hv Hok. apply validate_config_exact in Hv as Hcfg; [|done].
  destruct (wipe_then_prepare cfg Hcfg Hev f Hok) as (s1 & s2 & H1 & H2 & Hi). exists s1, s2. split_and!; try done.
  intros fid finfo data_size data Hn Hfid Hfi Ha Hcr [Hfit Hmax].
  assert (write_admitted cfg ∅ fid finfo data_size 0) as Hadm.
  { split; [done|split; [done|]]. right. unfold base_of, write_base. rewrite lookup_empty. cbn [f_data f_max].
    split_and!; [|done|done]. destruct (ct_unit _ Ht) as (k & Hk & ->). rewrite is_aligned_pow2 by lia. done. }
  destruct (run_total _ _ _ (model_write_first cfg Hcfg Hev fid finfo data_size data s2 Hi Hfid Hfi Ha Hn Hadm)) as (r & s3 & Hr & -> & Hi3).
  by exists s3.
Qed.

(** C18: the bounds check of the storage services is containment in the
    integers: its subtraction does not wrap. *)
Theorem check_contained_in_exact sup off size :
  is_u32 sup -> is_u32 off -> is_u32 size ->
  its_utils_check_contained_in sup off size = PSA_SUCCESS <-> off + size <= sup.
Proof.
  unfold is_u32. intros. rewrite check_contained_in_spec by lia. destruct (decide _); split; done || lia.
Qed.

(** C19: moving data between blocks ends within its fuel on a working driver
    and copies exactly the range, however many steps it takes. *)
Theorem block_to_block_move_copies {F} `{FlashOps F} cfg `{!FlashLaws F (flash_cfg cfg)}
    `{!FlashTotal F (flash_cfg cfg)} dst dof src sof size s c B :
  cfg_wf cfg -> at_st cfg s c B -> in_flash cfg dst -> in_flash cfg src -> src <> dst ->
  0 <= dof -> 0 <= sof -> 0 <= size -> dof + size <= block_size (flash_cfg cfg) ->
  sof + size <= block_size (flash_cfg cfg) -> erased (flash_cfg cfg) dof size (B dst) ->
  exists s', its_flash_fs_block_to_block_move cfg dst dof src sof size s = (Ok tt, s') /\
    at_st cfg s' c (<[dst := splice dof (sub_bytes sof size (B src)) (B dst)]> B).
Proof.
  intros Hcfg Hat Hd Hs Hne H1 H2 H3 H4 H5 He.
  destruct (run_total (its_flash_fs_block_to_block_move cfg dst dof src sof size)
    (fun _ s' => at_st cfg s' c (<[dst := splice dof (sub_bytes sof size (B src)) (B dst)]> B)) s) as ([] & s' & Hr & Ha).
  - eapply wp_mono; [eapply (wp_move cfg Hcfg (fun _ => 0) B true (fun _ => FlashTotal0) dst dof src sof size
      (fun _ s' => at_st cfg s' c (<[dst := splice dof (sub_bytes sof size (B src)) (B dst)]> B)));
      [by apply at_is_st|done..|]|done|by intros e s' (? & _)].
    intros s' Hs'. by eapply is_at_st.
  - eauto.
Qed.

(** ** Instances *)

(** The store of [demo_file], and the same flash behind the driver that loses
    power after [n] operations. *)
Definition demo_store : filemap := written demo_cfg ∅ demo_fid demo_info 5 0 demo_data.

Definition demo_cut (n : nat) (s : fs_st its_flash_ram_dev_t) : fs_st cut_dev :=
  FsSt (CutDev (st_flash s) n) (st_ctx s).

Lemma demo_cut_ok n s S : implements demo_cfg s S -> implements demo_cfg (demo_cut n s) S.
Proof. intros (c & B & Hat & Hr & Hn & Hst). by exists c, B. Qed.

Lemma demo_write_run :
  its_flash_fs_file_write demo_cfg demo_fid demo_info 5 0 demo_data demo_empty =
    (Ok (align_size_max demo_cfg demo_info), demo_file).
Proof. vm_compute. reflexivity. Qed.

Lemma demo_file_ok : implements demo_cfg demo_file demo_store.
Proof.
  exact (proj1 (write_ok_fits demo_cfg demo_cfg_wf demo_ev demo_fid demo_info 5 0 demo_data demo_empty ∅
    (align_size_max demo_cfg demo_info) demo_file demo_empty_ok demo_fid_ok
    demo_info_ok demo_args_ok demo_write_run)).
Qed.

(** The driver loses power while the new version is being written, and while
    the old one is being erased. *)
Definition demo_lost : fs_st cut_dev := snd (demo_write (demo_cut 6 demo_empty)).
Lemma demo_lost_run :
  its_flash_fs_file_write demo_cfg demo_fid demo_info 5 0 demo_data (demo_cut 6 demo_empty) =
    (Err PSA_ERROR_HARDWARE_FAILURE, demo_lost).
Proof. vm_compute. reflexivity. Qed.

Definition demo_lost2 : fs_st cut_dev := snd (its_flash_fs_file_delete demo_cfg demo_fid (demo_cut 3 demo_file)).
Lemma demo_lost2_run :
  its_flash_fs_file_delete demo_cfg demo_fid (demo_cut 3 demo_file) = (Err PSA_ERROR_HARDWARE_FAILURE, demo_lost2).
Proof. vm_compute. reflexivity. Qed.


(** The same flash with power back, the context forgotten. *)
Definition demo_back (s : fs_st cut_dev) : fs_st its_flash_ram_dev_t := FsSt (cut_ram (st_flash s)) ctx_zero.

Lemma demo_back_blocks s b : fl_block (FlashLaws := demo_laws) (st_flash (demo_back s)) b =
  fl_block (FlashLaws := demo_cut_laws) (st_flash s) b.
Proof. reflexivity. Qed.

Lemma demo_lost_ram_ok : ram_ok demo_fc (cut_ram (st_flash demo_lost)).
Proof. split_and!; [reflexivity|reflexivity|by vm_compute|]. apply (bool_decide_unpack _). vm_compute. exact I. Qed.

Lemma demo_lost2_ram_ok : ram_ok demo_fc (cut_ram (st_flash demo_lost2)).
Proof. split_and!; [reflexivity|reflexivity|by vm_compute|]. apply (bool_decide_unpack _). vm_compute. exact I. Qed.

(** A write; a write that asks for a larger file than there may be, which is
    refused with the old file marked for deletion on the scratch block; a mount;
    then the file is written again. *)
Definition big_info : its_flash_fs_file_info_t := FileInfo 0 200 (info_flags demo_info).
Definition demo_calls : list call :=
  [CallWrite demo_fid demo_info 5 0 demo_data; CallWrite demo_fid big_info 5 0 demo_data; CallRead demo_fid 3 1;
   CallPrepare; CallWrite demo_fid demo_info 2 0 demo_data; CallGetInfo demo_fid; CallDelete demo_fid;
   CallRead demo_fid 3 1].
Definition demo_replies : list (res reply) :=
  [Ok (RInfo demo_info); Err PSA_ERROR_INVALID_ARGUMENT; Ok (RData [20; 30; 40]); Ok RDone; Ok (RInfo demo_info);
   Ok (RInfo (FileInfo 2 8 0)); Ok RDone; Err PSA_ERROR_DOES_NOT_EXIST].

Lemma demo_write_ok finfo n : finfo_ok finfo -> 0 <= n <= 5 -> call_ok demo_cfg (CallWrite demo_fid finfo n 0 demo_data).
Proof.
  intros Hf Hn. split; [exact demo_fid_ok|split; [exact Hf|]]. destruct demo_args_ok as [_ _ _ Hb].
  assert (n = 0 \/ n = 1 \/ n = 2 \/ n = 3 \/ n = 4 \/ n = 5) as Hc by lia.
  repeat destruct Hc as [->|Hc]; [.. |subst n]; (split; [lia|lia|by vm_compute|exact Hb]).
Qed.

Lemma big_info_ok : finfo_ok big_info.
Proof. split; [by vm_compute|reflexivity]. Qed.

Lemma demo_calls_ok : Forall (call_ok demo_cfg) demo_calls.
Proof.
  repeat apply List.Forall_cons; try apply demo_write_ok; try exact demo_info_ok; try exact big_info_ok; try lia;
    cbn [call_ok]; unfold is_u32; try (split_and!; [exact demo_fid_ok|lia..]); try exact demo_fid_ok; done.
Qed.

Lemma demo_remounts : remounts demo_cfg false ∅ demo_calls demo_replies.
Proof.
  by apply (no_update_remounts _ _ _ false).
Qed.

Lemma calls_refine_spec_witness :
  exists s' d S', run_calls demo_cfg demo_calls demo_empty = (Ok demo_replies, s') /\
    spec_run demo_cfg false ∅ demo_calls demo_replies d S' /\ matches demo_cfg s' d S'.
Proof.
  destruct (calls_refine_spec demo_cfg demo_cfg_wf demo_ev demo_calls demo_empty ∅ demo_empty_ok demo_calls_ok)
    as (rs & s' & Hrun & _ & Hspec).
  assert (rs = demo_replies) as ->.
  { assert (fst (run_calls demo_cfg demo_calls demo_empty) = Ok demo_replies) as Hfst by (vm_compute; reflexivity).
    rewrite Hrun in Hfst. by injection Hfst. }
  destruct (Hspec demo_remounts) as (d & S' & Hsp & Hm). exists s', d, S'. exact (conj Hrun (conj Hsp Hm)).
Defined.

(** Without the mount: on a NOR flash, which is a working driver, the last write
    succeeds and its data are lost.  The entry of the file was programmed by
    the refused write and is programmed again: its size, 5, becomes 5 & 2. *)
Definition loss_calls : list call :=
  [CallWrite demo_fid demo_info 5 0 demo_data; CallWrite demo_fid big_info 5 0 demo_data;
   CallWrite demo_fid demo_info 2 0 demo_data; CallGetInfo demo_fid].

Theorem refused_replacement_loses_data :
  implements demo_cfg (demo_nor demo_empty) ∅ /\ Forall (call_ok demo_cfg) loss_calls /\
  fst (run_calls demo_cfg loss_calls (demo_nor demo_empty)) =
    Ok [Ok (RInfo demo_info); Err PSA_ERROR_INVALID_ARGUMENT; Ok (RInfo demo_info); Ok (RInfo (FileInfo 0 8 0))].
Proof.
  split_and!; [by apply demo_nor_ok, demo_empty_ok| |vm_compute; reflexivity].
  repeat apply List.Forall_cons; try apply demo_write_ok; try exact demo_info_ok; try exact big_info_ok; try lia;
    cbn [call_ok]; try exact demo_fid_ok; done.
Qed.

Lemma write_interrupted_then_prepare_witness :
  exists t' S', its_flash_fs_prepare demo_cfg (demo_back demo_lost) = (Ok tt, t') /\ implements demo_cfg t' S' /\
    (S' = ∅ \/ S' = demo_store).
Proof.
  exact (@write_interrupted_then_prepare cut_dev cut_ops demo_cfg demo_cut_laws demo_cfg_wf demo_ev
    its_flash_ram_dev_t its_flash_fs_ops_ram demo_laws demo_total demo_fid demo_info 5 0 demo_data
    (demo_cut 6 demo_empty) ∅ PSA_ERROR_HARDWARE_FAILURE demo_lost (demo_back demo_lost)
    (demo_cut_ok 6 demo_empty ∅ demo_empty_ok) demo_fid_ok demo_info_ok demo_args_ok demo_lost_run
    demo_lost_ram_ok (fun b _ => demo_back_blocks demo_lost b)).
Defined.

Lemma delete_interrupted_then_prepare_witness :
  exists t' S', its_flash_fs_prepare demo_cfg (demo_back demo_lost2) = (Ok tt, t') /\ implements demo_cfg t' S' /\
    (S' = demo_store \/ S' = delete demo_fid demo_store).
Proof.
  exact (@delete_interrupted_then_prepare cut_dev cut_ops demo_cfg demo_cut_laws demo_cfg_wf demo_ev
    its_flash_ram_dev_t its_flash_fs_ops_ram demo_laws demo_total demo_fid
    (demo_cut 3 demo_file) demo_store PSA_ERROR_HARDWARE_FAILURE demo_lost2 (demo_back demo_lost2)
    (demo_cut_ok 3 demo_file demo_store demo_file_ok) demo_fid_ok demo_lost2_run
    demo_lost2_ram_ok (fun b _ => demo_back_blocks demo_lost2 b)).
Defined.

Lemma file_write_refines_witness :
  align_size_max demo_cfg demo_info = align_size_max demo_cfg demo_info /\ implements demo_cfg demo_file demo_store.
Proof.
  exact (file_write_refines demo_cfg demo_cfg_wf demo_ev demo_fid demo_info 5 0 demo_data demo_empty ∅
    (align_size_max demo_cfg demo_info) demo_file demo_empty_ok demo_fid_ok demo_info_ok demo_args_ok demo_write_run).
Defined.

Lemma read_after_write_witness :
  its_flash_fs_file_read demo_cfg demo_fid 5 0 demo_file = (Ok demo_data, demo_file).
Proof.
  exact (proj1 (read_after_write demo_cfg demo_cfg_wf demo_ev demo_fid demo_info 5 0 demo_data demo_empty ∅
    (align_size_max demo_cfg demo_info) demo_file demo_empty_ok demo_fid_ok demo_info_ok demo_args_ok
    ltac:(lia) demo_write_run)).
Defined.

Lemma file_read_spec_witness :
  its_flash_fs_file_read demo_cfg demo_fid 3 1 demo_file =
    (match demo_store !! demo_fid with
     | None => Err PSA_ERROR_DOES_NOT_EXIST
     | Some f => if decide (1 + 3 <= zlen (f_data f)) then Ok (sub_bytes 1 3 (f_data f)) else Err PSA_ERROR_INVALID_ARGUMENT
     end, demo_file).
Proof.
  exact (file_read_spec demo_cfg demo_cfg_wf demo_fid 3 1 demo_file demo_store demo_file_ok demo_fid_ok
    ltac:(unfold is_u32; lia) ltac:(unfold is_u32; lia) ltac:(lia)).
Defined.

Lemma file_get_info_spec_witness :
  its_flash_fs_file_get_info demo_cfg demo_fid demo_file =
    (match demo_store !! demo_fid with
     | None => Err PSA_ERROR_DOES_NOT_EXIST
     | Some f => Ok (FileInfo (zlen (f_data f)) (f_max f) (f_flags f))
     end, demo_file).
Proof. exact (file_get_info_spec demo_cfg demo_cfg_wf demo_fid demo_file demo_store demo_file_ok demo_fid_ok). Defined.

Lemma file_delete_spec_witness :
  (demo_store !! demo_fid = None /\ its_flash_fs_file_delete demo_cfg demo_fid demo_file = (Err PSA_ERROR_DOES_NOT_EXIST, demo_file)) \/
  (is_Some (demo_store !! demo_fid) /\
   exists s', its_flash_fs_file_delete demo_cfg demo_fid demo_file = (Ok tt, s') /\ implements demo_cfg s' (delete demo_fid demo_store)).
Proof. exact (file_delete_spec demo_cfg demo_cfg_wf demo_ev demo_fid demo_file demo_store demo_file_ok demo_fid_ok). Defined.

(** *** Writes to the file of [demo_file] *)

(** Two bytes at its start, without changing its capacity. *)
Definition demo_patch_info : its_flash_fs_file_info_t := FileInfo 0 8 0.
Definition demo_patched : fs_st its_flash_ram_dev_t :=
  snd (its_flash_fs_file_write demo_cfg demo_fid demo_patch_info 2 0 [77; 78] demo_file).

Lemma demo_patch_run :
  its_flash_fs_file_write demo_cfg demo_fid demo_patch_info 2 0 [77; 78] demo_file =
    (Ok (align_size_max demo_cfg demo_patch_info), demo_patched).
Proof. vm_compute. reflexivity. Qed.

Lemma demo_patch_info_ok : finfo_ok demo_patch_info.
Proof. split; [by vm_compute|reflexivity]. Qed.

Lemma demo_patch_args_ok : write_args demo_fc 2 0 [77; 78].
Proof. split; [lia|lia|by vm_compute|]. repeat constructor; unfold is_byte; lia. Qed.

Lemma demo_store_lookup : demo_store !! demo_fid = Some (File demo_data 8 0).
Proof. vm_compute. reflexivity. Qed.

Lemma demo_patch_fits : write_fits demo_fc (base_of demo_cfg demo_store demo_fid demo_patch_info) 2 0.
Proof. right. vm_compute. intuition congruence. Qed.

Lemma write_in_place_succeeds_witness :
  exists s', its_flash_fs_file_write demo_cfg demo_fid demo_patch_info 2 0 [77; 78] demo_file =
      (Ok (align_size_max demo_cfg demo_patch_info), s') /\
    implements demo_cfg s' (written demo_cfg demo_store demo_fid demo_patch_info 2 0 [77; 78]).
Proof.
  exact (write_in_place_succeeds demo_cfg demo_cfg_wf demo_ev demo_fid demo_patch_info 2 0 [77; 78] demo_file
    demo_store (File demo_data 8 0) demo_file_ok demo_fid_ok demo_patch_info_ok demo_patch_args_ok demo_store_lookup
    (or_introl eq_refl) demo_patch_fits).
Defined.

Lemma overwrite_erases_tail_witness :
  exists f, written demo_cfg demo_store demo_fid demo_patch_info 2 0 [77; 78] !! demo_fid = Some f /\
    implements demo_cfg demo_patched (written demo_cfg demo_store demo_fid demo_patch_info 2 0 [77; 78]) /\
    zlen (f_data f) = zlen (f_data (base_of demo_cfg demo_store demo_fid demo_patch_info)) /\
    sub_bytes 2 3 (f_data f) = [255; 255; 255].
Proof.
  exact (overwrite_erases_tail demo_cfg demo_cfg_wf demo_ev demo_fid demo_patch_info 2 0 [77; 78] demo_file
    demo_store (align_size_max demo_cfg demo_patch_info) demo_patched demo_file_ok demo_fid_ok demo_patch_info_ok
    demo_patch_args_ok ltac:(lia) demo_patch_run ltac:(vm_compute; congruence)).
Defined.

(** A file that does not exist, without the flag to create it. *)
Definition demo_refused : fs_st its_flash_ram_dev_t :=
  snd (its_flash_fs_file_write demo_cfg demo_fid demo_patch_info 2 0 [77; 78] demo_empty).

Lemma demo_refused_run :
  its_flash_fs_file_write demo_cfg demo_fid demo_patch_info 2 0 [77; 78] demo_empty =
    (Err PSA_ERROR_DOES_NOT_EXIST, demo_refused).
Proof. vm_compute. reflexivity. Qed.

Lemma write_refused_keeps_store_witness :
  write_refused demo_cfg ∅ demo_fid demo_patch_info 2 0 PSA_ERROR_DOES_NOT_EXIST /\
  (~ replaces demo_cfg ∅ demo_fid demo_patch_info -> implements demo_cfg demo_refused ∅) /\
  exists t, its_flash_fs_prepare demo_cfg demo_refused = (Ok tt, t) /\ implements demo_cfg t ∅.
Proof.
  exact (write_refused_keeps_store demo_cfg demo_cfg_wf demo_ev demo_fid demo_patch_info 2 0 [77; 78] demo_empty ∅
    PSA_ERROR_DOES_NOT_EXIST demo_refused demo_empty_ok demo_fid_ok demo_patch_info_ok demo_patch_args_ok demo_refused_run).
Defined.

Lemma wipe_then_prepare_witness :
  exists s1 s2, its_flash_fs_wipe_all demo_cfg demo_dirty = (Ok tt, s1) /\
    its_flash_fs_prepare demo_cfg s1 = (Ok tt, s2) /\ implements demo_cfg s2 ∅.
Proof. exact (wipe_then_prepare demo_cfg demo_cfg_wf demo_ev (st_flash demo_dirty) demo_dirty_ok). Defined.

(** *** Metadata *)

Definition demo_header : its_metadata_block_header_t := Header 2 2 7 254 0.

Lemma latest_meta_block_is_newest_witness :
  let h' := next_header 255 9 demo_header in
  its_mblock_latest_meta_block demo_cfg demo_header h' = ITS_METADATA_BLOCK1 /\
  its_mblock_latest_meta_block demo_cfg h' demo_header = ITS_METADATA_BLOCK0.
Proof.
  exact (latest_meta_block_is_newest demo_cfg demo_header 9 demo_ev ltac:(split; vm_compute; congruence)
    ltac:(vm_compute; congruence)).
Defined.

Definition demo_blank : list Z := fill 512 255.

Lemma demo_header_wf : header_wf (Header 2 2 0 254 0).
Proof. split; vm_compute; intuition congruence. Qed.

Lemma torn_header_not_mounted_witness :
  header_valid demo_cfg (splice 0 (sub_bytes 0 6 (header_bytes (Header 2 2 0 254 0))) demo_blank) = (7 <=? 6).
Proof.
  apply (torn_header_not_mounted demo_cfg (Header 2 2 0 254 0) demo_blank 6 demo_ev demo_header_wf);
    vm_compute; try reflexivity; try congruence; intuition congruence.
Defined.

(** The first metadata block of [demo_file]. *)
Definition demo_block : list Z := ram_block demo_fc (st_flash demo_file) (active_metablock (st_ctx demo_file)).

Lemma metadata_corruption_detected_witness :
  header_valid demo_cfg (<[Z.to_nat 44 := 99]> demo_block) = false.
Proof.
  apply (metadata_corruption_detected demo_cfg demo_block 44 0 99); vm_compute; try reflexivity;
    try congruence; intuition congruence.
Defined.

(** *** Configuration, geometry and bounds *)

Lemma accepted_config_works_witness : exists s2 s3 : fs_st its_flash_ram_dev_t,
  implements demo_cfg s2 ∅ /\
  its_flash_fs_file_write demo_cfg demo_fid demo_info 5 0 demo_data s2 = (Ok (align_size_max demo_cfg demo_info), s3) /\
  implements demo_cfg s3 demo_store.
Proof.
  destruct (accepted_config_works demo_cfg (st_flash demo_dirty) (cw_typed demo_cfg demo_cfg_wf) demo_ev
    ltac:(vm_compute; reflexivity) demo_dirty_ok) as (s1 & s2 & _ & _ & Hi & Hw).
  destruct (Hw demo_fid demo_info 5 demo_data ltac:(vm_compute; discriminate) demo_fid_ok demo_info_ok demo_args_ok
    ltac:(vm_compute; reflexivity) ltac:(split; vm_compute; discriminate)) as (s3 & Hr & Hi3).
  exists s2, s3. exact (conj Hi (conj Hr Hi3)).
Defined.

Lemma check_contained_in_exact_witness :
  its_utils_check_contained_in 10 4294967290 8 = PSA_SUCCESS <-> 4294967290 + 8 <= 10.
Proof. apply check_contained_in_exact; unfold is_u32; lia. Defined.

Lemma demo_at (s : fs_st its_flash_ram_dev_t) S : implements demo_cfg s S -> at_st demo_cfg s (st_ctx s) (fl_block (st_flash s)).
Proof. intros (c & B & [[Hok _] _] & _). by split. Qed.

Definition demo_blocks : Z -> list Z := fl_block (st_flash demo_empty).

Lemma demo_blocks_erased : erased demo_fc 0 512 (demo_blocks 2).
Proof. vm_compute. reflexivity. Qed.

Lemma demo_in b : 0 <= b < 5 -> in_flash demo_cfg b.
Proof. done. Qed.

Lemma block_to_block_move_copies_witness :
  exists s', its_flash_fs_block_to_block_move demo_cfg 2 0 1 0 512 demo_empty = (Ok tt, s') /\
    at_st demo_cfg s' (st_ctx demo_empty)
      (<[2 := splice 0 (sub_bytes 0 512 (demo_blocks 1)) (demo_blocks 2)]> demo_blocks).
Proof.
  exact (block_to_block_move_copies (F := its_flash_ram_dev_t) demo_cfg 2 0 1 0 512 demo_empty (st_ctx demo_empty) demo_blocks demo_cfg_wf
    (demo_at demo_empty ∅ demo_empty_ok) (demo_in 2 ltac:(lia)) (demo_in 1 ltac:(lia)) ltac:(lia) ltac:(lia)
    ltac:(lia) ltac:(lia) (Z.le_refl 512) (Z.le_refl 512) demo_blocks_erased).
Defined.
