(* ===== verification/ItsService.v ===== *)
(** * The storage service
    ([tfm_internal_trusted_storage.c], [tfm_its_req_mngr.c])

    Assets of clients over the two file systems: request decoding, file
    identifiers, the write-once flag, and the transfer of data in chunks of the
    service's buffer.  The build modelled has both storage partitions, reads
    the caller's vectors with [psa_read] and [psa_write], and does not encrypt
    ([ITS_ENCRYPTION] is off). *)

From S2P Require Import Prelude Bytes ItsUtils ItsFlash ItsMeta ItsMblock ItsFs.
From stdpp Require Import base list numbers.
From Stdlib Require Import ZArith Lia.

Open Scope Z_scope.
Open Scope tfm_scope.

(** ** Constants ([tfm_its_defs.h], [psa/storage_common.h]) *)

Definition TFM_ITS_INVALID_UID : Z := 0.
Definition TFM_ITS_SET : Z := 1001.
Definition TFM_ITS_GET : Z := 1002.
Definition TFM_ITS_GET_INFO : Z := 1003.
Definition TFM_ITS_REMOVE : Z := 1004.
Definition PSA_STORAGE_FLAG_WRITE_ONCE : Z := 1.
Definition PSA_STORAGE_FLAG_NO_CONFIDENTIALITY : Z := 2.
Definition PSA_STORAGE_FLAG_NO_REPLAY_PROTECTION : Z := 4.

(** [struct psa_storage_info_t] *)
Record psa_storage_info_t : Type := StorageInfo {
  capacity : Z;
  size : Z;
  flags : Z;
}.

(** [psa_msg_t]: what the service sees of a call. *)
Record psa_msg_t : Type := Msg {
  msg_type : Z;
  msg_client_id : Z;
  in_size : list Z;
  out_size : list Z;
}.

(** The file-scope variables of the service, and the vectors of the call it
    serves: the unread bytes of each input vector, the bytes written to each
    output vector. *)
Record its_svc (F G : Type) : Type := ItsSvc {
  g_fid : list Z;
  g_file_info : its_flash_fs_file_info_t;
  asset_data : list Z;
  fs_cfg_its : its_flash_fs_config_t;
  fs_its : fs_st F;
  fs_cfg_ps : its_flash_fs_config_t;
  fs_ps : fs_st G;
  invec : list (list Z);
  outvec : list (list Z);
}.
Arguments ItsSvc {F G}.
Arguments g_fid {F G}.
Arguments g_file_info {F G}.
Arguments asset_data {F G}.
Arguments fs_cfg_its {F G}.
Arguments fs_its {F G}.
Arguments fs_cfg_ps {F G}.
Arguments fs_ps {F G}.
Arguments invec {F G}.
Arguments outvec {F G}.

Section service.
Context {F G : Type} `{FlashOps F} `{FlashOps G}.
Context (TFM_SP_PS : Z).

Abbreviation SVC := (M (its_svc F G)).

Definition set_fid (v : list Z) : SVC unit :=
  modify (fun s => ItsSvc v (g_file_info s) (asset_data s) (fs_cfg_its s) (fs_its s) (fs_cfg_ps s) (fs_ps s) (invec s) (outvec s)).
Definition set_info (v : its_flash_fs_file_info_t) : SVC unit :=
  modify (fun s => ItsSvc (g_fid s) v (asset_data s) (fs_cfg_its s) (fs_its s) (fs_cfg_ps s) (fs_ps s) (invec s) (outvec s)).
Definition set_asset (v : list Z) : SVC unit :=
  modify (fun s => ItsSvc (g_fid s) (g_file_info s) v (fs_cfg_its s) (fs_its s) (fs_cfg_ps s) (fs_ps s) (invec s) (outvec s)).
Definition set_cfg_its (v : its_flash_fs_config_t) : SVC unit :=
  modify (fun s => ItsSvc (g_fid s) (g_file_info s) (asset_data s) v (fs_its s) (fs_cfg_ps s) (fs_ps s) (invec s) (outvec s)).
Definition set_cfg_ps (v : its_flash_fs_config_t) : SVC unit :=
  modify (fun s => ItsSvc (g_fid s) (g_file_info s) (asset_data s) (fs_cfg_its s) (fs_its s) v (fs_ps s) (invec s) (outvec s)).

(** Running a file system operation on one of the two contexts. *)
Definition on_its {A} (m : its_flash_fs_config_t -> M (fs_st F) A) : SVC A :=
  fun s => let '(r, f) := m (fs_cfg_its s) (fs_its s) in
    (r, ItsSvc (g_fid s) (g_file_info s) (asset_data s) (fs_cfg_its s) f (fs_cfg_ps s) (fs_ps s) (invec s) (outvec s)).
Definition on_ps {A} (m : its_flash_fs_config_t -> M (fs_st G) A) : SVC A :=
  fun s => let '(r, f) := m (fs_cfg_ps s) (fs_ps s) in
    (r, ItsSvc (g_fid s) (g_file_info s) (asset_data s) (fs_cfg_its s) (fs_its s) (fs_cfg_ps s) f (invec s) (outvec s)).

(** [get_fs_ctx(client_id)] as the argument of an operation. *)
Definition get_fs_ctx {A} (client_id : Z)
    (m : forall X : Type, FlashOps X -> its_flash_fs_config_t -> M (fs_st X) A) : SVC A :=
  if client_id =? TFM_SP_PS then on_ps (m G _) else on_its (m F _).

(** *** The framework's calls *)

(** [psa_read(handle, i, buf, num)]: the bytes that were read. *)
Definition psa_read (i : nat) (num : Z) : SVC (list Z) :=
  let* s := get in
  let v := nth i (invec s) [] in
  let n := Z.min num (zlen v) in
  let* _ := put (ItsSvc (g_fid s) (g_file_info s) (asset_data s) (fs_cfg_its s) (fs_its s) (fs_cfg_ps s) (fs_ps s)
                   (<[i := sub_bytes n (zlen v - n) v]> (invec s)) (outvec s)) in
  ret (sub_bytes 0 n v).

(** [psa_write(handle, i, buf, num)] *)
Definition psa_write (i : nat) (d : list Z) : SVC unit :=
  modify (fun s => ItsSvc (g_fid s) (g_file_info s) (asset_data s) (fs_cfg_its s) (fs_its s) (fs_cfg_ps s) (fs_ps s)
                     (invec s) (<[i := nth i (outvec s) [] ++ d]> (outvec s))).

(** [its_req_mngr_read(asset_data, num_bytes)] *)
Definition its_req_mngr_read (num_bytes : Z) : SVC unit :=
  let* d := psa_read 1 num_bytes in
  let* a := gets asset_data in
  set_asset (splice 0 d a).

Definition its_req_mngr_write (d : list Z) : SVC unit := psa_write 0 d.

(** *** Initialisation *)

(** A HAL description of a flash area: address, size and block size, or an
    error. *)
Definition hal_fs_info : Type := option (Z * Z * Z).

Definition init_fs_cfg (cfg : its_flash_fs_config_t) (info : hal_fs_info) : psa_status_t + its_flash_fs_config_t :=
  match info with
  | None => inl PSA_ERROR_PROGRAMMER_ERROR
  | Some (addr, area, bs) =>
      if bs =? 0 then inl PSA_ERROR_PROGRAMMER_ERROR
      else
        let fc := flash_cfg cfg in
        inr (FsConfig (FlashConfig addr bs (u16 (area / bs)) (program_unit fc) (erase_val fc))
               (max_file_size cfg) (max_num_files cfg))
  end.

Definition init_its_fs_cfg (info : hal_fs_info) : SVC unit :=
  let* c := gets fs_cfg_its in
  match init_fs_cfg c info with
  | inl e => fail e
  | inr c => set_cfg_its c
  end.

Definition init_ps_fs_cfg (info : hal_fs_info) : SVC unit :=
  let* c := gets fs_cfg_ps in
  match init_fs_cfg c info with
  | inl e => fail e
  | inr c => set_cfg_ps c
  end.

(** Mounting one of the file systems, formatting it when [create] is set and
    it cannot be mounted. *)
Definition prepare_or_wipe {X} `{FlashOps X} (create : bool) (cfg : its_flash_fs_config_t) : M (fs_st X) unit :=
  let* r := try (its_flash_fs_prepare cfg) in
  match r with
  | Ok _ => ret tt
  | Err e =>
      if create then
        let* _ := its_flash_fs_wipe_all cfg in
        its_flash_fs_prepare cfg
      else fail e
  end.

Definition tfm_its_init (its_info ps_info : hal_fs_info) (its_create ps_create : bool) : SVC unit :=
  let* _ := init_its_fs_cfg its_info in
  let* c := on_its its_flash_fs_init_ctx in
  let* _ := set_cfg_its c in
  let* _ := on_its (prepare_or_wipe its_create) in
  let* _ := init_ps_fs_cfg ps_info in
  let* c := on_ps its_flash_fs_init_ctx in
  let* _ := set_cfg_ps c in
  on_ps (prepare_or_wipe ps_create).

(** *** Operations *)

Definition tfm_its_get_fid (client_id uid : Z) : list Z := le_bytes 4 client_id ++ le_bytes 8 uid.

Definition get_file_info (uid client_id : Z) : SVC unit :=
  let* _ := check (negb (uid =? TFM_ITS_INVALID_UID)) PSA_ERROR_INVALID_ARGUMENT in
  let* _ := set_fid (tfm_its_get_fid client_id uid) in
  let* fid := gets g_fid in
  let* info := get_fs_ctx client_id (fun X _ cfg => its_flash_fs_file_get_info cfg fid) in
  set_info info.

(** The file system rounds [finfo->size_max] up, in the caller's structure. *)
Definition tfm_its_write_data_to_fs (client_id data_size offset : Z) (data : list Z) : SVC unit :=
  let* fid := gets g_fid in
  let* finfo := gets g_file_info in
  let* s := get in
  let cfg := if client_id =? TFM_SP_PS then fs_cfg_ps s else fs_cfg_its s in
  let* r := try (get_fs_ctx client_id (fun X _ cfg => its_flash_fs_file_write cfg fid finfo data_size offset data)) in
  let* _ := if has_flag (info_flags finfo) ITS_FLASH_FS_INTERNAL_FLAGS_MASK then ret tt
            else set_info (align_size_max cfg finfo) in
  match r with
  | Ok _ => ret tt
  | Err e => fail e
  end.

Definition bic (x mask : Z) : Z := Z.land x (Z.lnot mask).

(** The loop that moves the caller's data to the file system; the body is
    executed at least once. *)
Fixpoint set_loop (fuel : nat) (client_id data_length offset : Z) : SVC unit :=
  match fuel with
  | O => fail OUT_OF_FUEL
  | S fuel =>
      let* s := get in
      let write_size := ITS_UTILS_MIN data_length (zlen (asset_data s)) in
      let* _ := its_req_mngr_read write_size in
      let* a := gets asset_data in
      let* _ := tfm_its_write_data_to_fs client_id write_size offset a in
      let* fi := gets g_file_info in
      let* _ := set_info (FileInfo (size_current fi) (size_max fi)
                  (bic (info_flags fi) (Z.lor ITS_FLASH_FS_FLAG_CREATE ITS_FLASH_FS_FLAG_TRUNCATE))) in
      let offset := u32 (offset + write_size) in
      let data_length := u32 (data_length - write_size) in
      if data_length >? 0 then set_loop fuel client_id data_length offset else ret tt
  end.

Definition tfm_its_set (client_id uid data_length create_flags : Z) : SVC unit :=
  let* _ := check (negb (uid =? TFM_ITS_INVALID_UID)) PSA_ERROR_INVALID_ARGUMENT in
  let* _ := check (bic create_flags (Z.lor PSA_STORAGE_FLAG_WRITE_ONCE
              (Z.lor PSA_STORAGE_FLAG_NO_CONFIDENTIALITY PSA_STORAGE_FLAG_NO_REPLAY_PROTECTION)) =? 0)
              PSA_ERROR_NOT_SUPPORTED in
  let* r := try (get_file_info uid client_id) in
  let* fi := gets g_file_info in
  let* _ :=
    match r with
    | Ok _ => check (negb (has_flag (info_flags fi) PSA_STORAGE_FLAG_WRITE_ONCE)) PSA_ERROR_NOT_PERMITTED
    | Err e => check (e =? PSA_ERROR_DOES_NOT_EXIST) e
    end in
  let* _ := set_info (FileInfo (size_current fi) data_length
              (Z.lor create_flags (Z.lor ITS_FLASH_FS_FLAG_CREATE ITS_FLASH_FS_FLAG_TRUNCATE))) in
  set_loop (S (Z.to_nat data_length)) client_id data_length 0.

Fixpoint get_loop (fuel : nat) (client_id data_size data_offset : Z) : SVC unit :=
  match fuel with
  | O => fail OUT_OF_FUEL
  | S fuel =>
      let* s := get in
      let read_size := ITS_UTILS_MIN data_size (zlen (asset_data s)) in
      let fid := g_fid s in
      let* d := get_fs_ctx client_id (fun X _ cfg => its_flash_fs_file_read cfg fid read_size data_offset) in
      let* a := gets asset_data in
      let* _ := set_asset (splice 0 d a) in
      let* _ := its_req_mngr_write d in
      let data_offset := u32 (data_offset + read_size) in
      let data_size := u32 (data_size - read_size) in
      if data_size >? 0 then get_loop fuel client_id data_size data_offset else ret tt
  end.

Definition tfm_its_get_plain (client_id data_offset data_size : Z) : SVC unit :=
  get_loop (S (Z.to_nat data_size)) client_id data_size data_offset.

(** Returns [*p_data_length]. *)
Definition tfm_its_get (client_id uid data_offset data_size : Z) : SVC Z :=
  let* _ := check (negb (uid =? TFM_ITS_INVALID_UID)) PSA_ERROR_INVALID_ARGUMENT in
  let* _ := get_file_info uid client_id in
  let* fi := gets g_file_info in
  let* _ := check (negb (data_offset >? size_current fi)) PSA_ERROR_INVALID_ARGUMENT in
  let data_size := ITS_UTILS_MIN data_size (u32 (size_current fi - data_offset)) in
  let* _ := tfm_its_get_plain client_id data_offset data_size in
  ret data_size.

Definition tfm_its_get_info (client_id uid : Z) : SVC psa_storage_info_t :=
  let* _ := get_file_info uid client_id in
  let* fi := gets g_file_info in
  ret (StorageInfo (size_current fi) (size_current fi) (info_flags fi)).

Definition tfm_its_remove (client_id uid : Z) : SVC unit :=
  let* _ := get_file_info uid client_id in
  let* fi := gets g_file_info in
  let* _ := check (negb (has_flag (info_flags fi) PSA_STORAGE_FLAG_WRITE_ONCE)) PSA_ERROR_NOT_PERMITTED in
  let* fid := gets g_fid in
  get_fs_ctx client_id (fun X _ cfg => its_flash_fs_file_delete cfg fid).

(** *** Requests *)

(** Reading an argument of [n] bytes from vector [i]. *)
Definition read_arg (i : nat) (n : Z) : SVC Z :=
  let* d := psa_read i n in
  let* _ := check (zlen d =? n) PSA_ERROR_PROGRAMMER_ERROR in
  ret (le_val d).

Definition size_is (l : list Z) (i : nat) (n : Z) : bool := nth i l 0 =? n.

Definition tfm_its_set_req (msg : psa_msg_t) : SVC unit :=
  let* _ := check (size_is (in_size msg) 0 8 && size_is (in_size msg) 2 4) PSA_ERROR_PROGRAMMER_ERROR in
  let* uid := read_arg 0 8 in
  let* create_flags := read_arg 2 4 in
  tfm_its_set (msg_client_id msg) uid (nth 1 (in_size msg) 0) create_flags.

Definition tfm_its_get_req (msg : psa_msg_t) : SVC unit :=
  let* _ := check (size_is (in_size msg) 0 8 && size_is (in_size msg) 1 4) PSA_ERROR_PROGRAMMER_ERROR in
  let* uid := read_arg 0 8 in
  let* data_offset := read_arg 1 4 in
  let* _ := tfm_its_get (msg_client_id msg) uid data_offset (nth 0 (out_size msg) 0) in
  ret tt.

Definition storage_info_bytes (i : psa_storage_info_t) : list Z :=
  le_bytes 4 (capacity i) ++ le_bytes 4 (size i) ++ le_bytes 4 (flags i).

Definition tfm_its_get_info_req (msg : psa_msg_t) : SVC unit :=
  let* _ := check (size_is (in_size msg) 0 8 && size_is (out_size msg) 0 12) PSA_ERROR_PROGRAMMER_ERROR in
  let* uid := read_arg 0 8 in
  let* info := tfm_its_get_info (msg_client_id msg) uid in
  psa_write 0 (storage_info_bytes info).

Definition tfm_its_remove_req (msg : psa_msg_t) : SVC unit :=
  let* _ := check (size_is (in_size msg) 0 8) PSA_ERROR_PROGRAMMER_ERROR in
  let* uid := read_arg 0 8 in
  tfm_its_remove (msg_client_id msg) uid.

Definition tfm_internal_trusted_storage_service_sfn (msg : psa_msg_t) : SVC unit :=
  if msg_type msg =? TFM_ITS_SET then tfm_its_set_req msg
  else if msg_type msg =? TFM_ITS_GET then tfm_its_get_req msg
  else if msg_type msg =? TFM_ITS_GET_INFO then tfm_its_get_info_req msg
  else if msg_type msg =? TFM_ITS_REMOVE then tfm_its_remove_req msg
  else fail PSA_ERROR_NOT_SUPPORTED.
End service.
