(* ===== verification/ItsAssets.v ===== *)
(** * Assets of clients

    The storage service over the stores of its two file systems: the rules of
    the file operations as the service uses them, and the loops over chunks. *)

From S2P Require Import Prelude Bytes ItsUtils ItsFlash ItsMeta ItsMblock ItsFs ItsState ItsView ItsCommit ItsLayout ItsStore ItsInv ItsLookup ItsWrite ItsFileWrite ItsModel ItsService.
From stdpp Require Import base list numbers functions gmap.
From Stdlib Require Import ZArith Lia.

Open Scope Z_scope.
Open Scope tfm_scope.

(** ** File identifiers *)

Lemma le_bytes_inj n x y : le_bytes n x = le_bytes n y -> x mod 256 ^ Z.of_nat n = y mod 256 ^ Z.of_nat n.
Proof.
  revert x y. induction n as [|n IH]; intros x y; [by rewrite !Z.mod_1_r|].
  cbn [le_bytes]. intros [= Hm Hd%IH]. rewrite Nat2Z.inj_succ, Z.pow_succ_r by lia.
  rewrite (Z.rem_mul_r x), (Z.rem_mul_r y) by (try apply Z.pow_pos_nonneg; lia). by rewrite Hm, Hd.
Qed.

Definition is_client (c : Z) : Prop := -2147483648 <= c < 2147483648.
Definition is_uid (u : Z) : Prop := 0 <= u < 18446744073709551616.

Lemma get_fid_inj c u c' u' : is_client c -> is_uid u -> is_client c' -> is_uid u' ->
  tfm_its_get_fid c u = tfm_its_get_fid c' u' -> c = c' /\ u = u'.
Proof.
  unfold is_client, is_uid, tfm_its_get_fid. intros Hc Hu Hc' Hu' [H1%le_bytes_inj H2%le_bytes_inj]%app_inj_1;
    [|by rewrite !length_le_bytes].
  change (256 ^ Z.of_nat 4) with 4294967296 in H1. change (256 ^ Z.of_nat 8) with 18446744073709551616 in H2.
  rewrite !(Z.mod_small u), !(Z.mod_small u') in H2 by lia. split; [|done].
  pose proof (Z.div_mod c 4294967296). pose proof (Z.div_mod c' 4294967296).
  pose proof (Z.mod_pos_bound c 4294967296). nia.
Qed.

Lemma get_fid_ok c u : is_uid u -> u <> TFM_ITS_INVALID_UID -> fid_ok (tfm_its_get_fid c u).
Proof.
  unfold is_uid, TFM_ITS_INVALID_UID. intros Hu Hne. unfold tfm_its_get_fid. split.
  - rewrite zlen_app, !zlen_le_bytes. done.
  - apply Forall_app. auto with bytes.
  - apply fid_valid_spec; [by rewrite zlen_app, !zlen_le_bytes|]. intros Hz.
    change (fill ITS_FILE_ID_SIZE 0) with (le_bytes 4 0 ++ le_bytes 8 0) in Hz.
    apply app_inj_1 in Hz as [_ Hz%le_bytes_inj]; [|by rewrite !length_le_bytes].
    change (256 ^ Z.of_nat 8) with 18446744073709551616 in Hz. rewrite !Z.mod_small in Hz by lia. done.
Qed.

(** ** Alignment of chunks *)

Section align.
Context (u : Z) (Hu : exists k, 0 <= k < 16 /\ u = 2 ^ k).

Lemma unit_pos : 0 < u <= 32768.
Proof.
  destruct Hu as (k & Hk & ->). assert (0 < 2 ^ k) by (apply Z.pow_pos_nonneg; lia).
  assert (2 ^ k <= 2 ^ 15) by (apply Z.pow_le_mono_r; lia). lia.
Qed.

Lemma align_spec x : 0 <= x < 4294901760 -> ITS_UTILS_ALIGN x u = (x + (u - 1)) / u * u.
Proof. intros Hx. pose proof unit_pos. destruct Hu as (k & Hk & ->). apply align_pow2; lia. Qed.

Lemma aligned_spec x : ITS_UTILS_IS_ALIGNED x u = true <-> x mod u = 0.
Proof. destruct Hu as (k & Hk & ->). rewrite is_aligned_pow2 by lia. apply Z.eqb_eq. Qed.

Lemma align_le x y : 0 <= x -> x <= y < 4294901760 -> y mod u = 0 -> ITS_UTILS_ALIGN x u <= y.
Proof.
  intros Hx Hy Hm. pose proof unit_pos. rewrite align_spec by lia.
  assert ((x + (u - 1)) / u * u <= (y + (u - 1)) / u * u) as Hle
    by (apply Z.mul_le_mono_nonneg_r; [lia|apply Z.div_le_mono; lia]).
  assert ((y + (u - 1)) / u * u = y); [|lia].
  rewrite (Z.div_mod y u) at 1 by lia. rewrite Hm, Z.add_0_r, (Z.mul_comm u), Z.add_comm, Z.div_add by lia.
  rewrite (Z.div_small (u - 1)) by lia. rewrite Z.mul_comm. pose proof (Z.div_mod y u). lia.
Qed.

Lemma align_offset off x y : 0 <= off -> 0 <= x -> off mod u = 0 -> off + x <= y < 4294901760 ->
  off + ITS_UTILS_ALIGN x u <= ITS_UTILS_ALIGN y u.
Proof.
  intros Ho Hx Hm Hy. pose proof unit_pos. rewrite !align_spec by lia.
  transitivity ((off + x + (u - 1)) / u * u).
  - rewrite (Z.div_mod off u) at 2 by lia. rewrite Hm, Z.add_0_r.
    replace (u * (off / u) + x + (u - 1)) with (x + (u - 1) + off / u * u) by ring.
    rewrite Z.div_add by lia. pose proof (Z.div_mod off u). lia.
  - apply Z.mul_le_mono_nonneg_r; [lia|apply Z.div_le_mono; lia].
Qed.

Lemma align_mult x : 0 <= x < 4294901760 -> ITS_UTILS_ALIGN x u mod u = 0.
Proof. intros Hx. pose proof unit_pos. rewrite align_spec by lia. apply Z.mod_mul. lia. Qed.

Lemma align_range_lt x : 0 <= x < 4294901760 -> x <= ITS_UTILS_ALIGN x u < x + u.
Proof. intros Hx. pose proof unit_pos. destruct Hu as (k & Hk & ->). apply align_bounds; lia. Qed.

Lemma align_idem x : 0 <= x < 4294868992 -> ITS_UTILS_ALIGN (ITS_UTILS_ALIGN x u) u = ITS_UTILS_ALIGN x u.
Proof.
  intros Hx. pose proof unit_pos. pose proof (align_range_lt x ltac:(lia)).
  pose proof (align_range_lt (ITS_UTILS_ALIGN x u) ltac:(lia)).
  pose proof (align_le (ITS_UTILS_ALIGN x u) (ITS_UTILS_ALIGN x u) ltac:(lia) ltac:(lia) (align_mult x ltac:(lia))). lia.
Qed.
End align.

(** ** Flags *)

Lemma land_bic x m k : Z.land (bic x m) k = Z.land x (Z.land (Z.lnot m) k).
Proof. unfold bic. by rewrite Z.land_assoc. Qed.

Lemma bic_u32 x m : is_u32 x -> is_u32 (bic x m).
Proof.
  unfold is_u32, bic. intros Hx.
  assert (x = Z.land x (Z.ones 32)) as -> by (rewrite Z.land_ones by lia; by rewrite Z.mod_small).
  rewrite <- Z.land_assoc, (Z.land_comm (Z.ones 32)), Z.land_assoc, Z.land_ones by lia.
  apply Z.mod_pos_bound. lia.
Qed.

Abbreviation first_chunk_flags := (Z.lor ITS_FLASH_FS_FLAG_CREATE ITS_FLASH_FS_FLAG_TRUNCATE).

Lemma flags_next fl :
  finfo_ok fl -> let fl' := bic (info_flags fl) first_chunk_flags in
  is_u32 fl' /\ has_flag fl' ITS_FLASH_FS_INTERNAL_FLAGS_MASK = false /\ has_flag fl' ITS_FLASH_FS_FLAG_TRUNCATE = false.
Proof.
  intros [Hu Hi] fl'. unfold fl', has_flag. rewrite !land_bic. split_and!; [by apply bic_u32|exact Hi|].
  change (Z.land (Z.lnot first_chunk_flags) ITS_FLASH_FS_FLAG_TRUNCATE) with 0. by rewrite Z.land_0_r.
Qed.

Section assets.
Context {F G : Type} `{FlashOps F} `{FlashOps G} (TFM_SP_PS : Z).
Context (ci cp : its_flash_fs_config_t).
Context `{!FlashLaws F (flash_cfg ci)} `{!FlashTotal F (flash_cfg ci)}.
Context `{!FlashLaws G (flash_cfg cp)} `{!FlashTotal G (flash_cfg cp)}.
Context (Hci : cfg_wf ci) (Hcp : cfg_wf cp) (Hei : ev_ok (flash_cfg ci)) (Hep : ev_ok (flash_cfg cp)).
Implicit Types (s : its_svc F G) (T : bool -> filemap) (fid data : list Z) (client uid : Z).

(** The file system that serves a client. *)
Definition side client : bool := client =? TFM_SP_PS.
Definition cfg_of (b : bool) : its_flash_fs_config_t := if b then cp else ci.

Definition svc_is s T : Prop :=
  fs_cfg_its s = ci /\ fs_cfg_ps s = cp /\ implements ci (fs_its s) (T false) /\ implements cp (fs_ps s) (T true).

(** What a reset finds: file system [b] holds [S], the other is as in [T]. *)
Definition svc_left s (b : bool) T : Prop :=
  fs_cfg_its s = ci /\ fs_cfg_ps s = cp /\
  (if b then holds cp (st_flash (fs_ps s)) (fun S => S = T true) /\ implements ci (fs_its s) (T false)
   else holds ci (st_flash (fs_its s)) (fun S => S = T false) /\ implements cp (fs_ps s) (T true)).

(** The same with some file systems in need of another mount: their files can
    be read, but a refused replacement has been left on the scratch block. *)
Definition svc_at (d : bool -> bool) s T : Prop :=
  fs_cfg_its s = ci /\ fs_cfg_ps s = cp /\ matches ci (fs_its s) (d false) (T false) /\ matches cp (fs_ps s) (d true) (T true).

Definition clean : bool -> bool := fun _ => false.
Definition mark (d : bool -> bool) (b : bool) : bool -> bool := fun b' => if Bool.eqb b' b then true else d b'.

Lemma svc_is_at s T : svc_is s T <-> svc_at clean s T.
Proof. done. Qed.

Lemma svc_at_mark d s b T : svc_at d s T -> svc_at (mark d b) s T.
Proof.
  intros (H1 & H2 & H3 & H4). destruct b; split_and!; try done; unfold mark; cbn [Bool.eqb]; by eapply matches_readable.
Qed.

Lemma svc_at_left s b T : svc_at (mark clean b) s T -> svc_left s b T.
Proof. intros (H1 & H2 & H3 & H4). destruct b; split_and!; try done; by apply readable_holds. Qed.

Lemma svc_is_left s b T : svc_is s T -> svc_left s b T.
Proof.
  intros (H1 & H2 & H3 & H4). split_and!; try done.
  destruct b; split; try done; by apply implements_holds.
Qed.

(** A file operation leaves the variables of the service alone. *)
Definition same_vars s s' : Prop :=
  g_fid s' = g_fid s /\ g_file_info s' = g_file_info s /\ asset_data s' = asset_data s /\
  invec s' = invec s /\ outvec s' = outvec s.

Definition upd T (b : bool) (S : filemap) : bool -> filemap := fun b' => if Bool.eqb b' b then S else T b'.

Lemma upd_same T b S : upd T b S b = S.
Proof. unfold upd. by rewrite Bool.eqb_reflx. Qed.

(** *** The rules

    [d] says which file systems are in need of a mount. *)
Context (d : bool -> bool).


Ltac open_svc s Hs :=
  let gf := fresh "gf" in let gi := fresh "gi" in let ad := fresh "ad" in let cfi := fresh "cfi" in
  let cfp := fresh "cfp" in let iv := fresh "iv" in let ov := fresh "ov" in
  destruct s as [gf gi ad cfi fi cfp fp iv ov]; destruct Hs as (C1 & C2 & C3 & C4);
  simpl in C1, C2, C3, C4; subst cfi cfp;
  unfold get_fs_ctx, side in *; destruct (_ =? TFM_SP_PS); cbn [cfg_of] in *; unfold wp, on_its, on_ps;
  cbn [fs_cfg_its fs_cfg_ps fs_its fs_ps g_fid g_file_info asset_data invec outvec].

Lemma wp_fs_write client fid finfo n off data Q E s T :
  d (side client) = false -> svc_at d s T -> fid_ok fid -> finfo_ok finfo -> write_args (flash_cfg (cfg_of (side client))) n off data ->
  (forall s', same_vars s s' -> svc_at d s' (upd T (side client) (written (cfg_of (side client)) (T (side client)) fid finfo n off data)) ->
     write_fits (flash_cfg (cfg_of (side client))) (base_of (cfg_of (side client)) (T (side client)) fid finfo) n off ->
     Q (align_size_max (cfg_of (side client)) finfo) s') ->
  (forall e s', same_vars s s' -> write_refused (cfg_of (side client)) (T (side client)) fid finfo n off e ->
     (~ replaces (cfg_of (side client)) (T (side client)) fid finfo -> svc_at d s' T) ->
     svc_at (mark d (side client)) s' T -> E e s') ->
  wp (get_fs_ctx TFM_SP_PS client (fun X _ cfg => its_flash_fs_file_write cfg fid finfo n off data)) Q E s.
Proof.
  intros Hd Hs Hfid Hfi Ha HQ HE. open_svc s Hs; rewrite Hd in *.
  - pose proof (model_write cp Hcp Hep true (fun _ => _) fid finfo n off data _ _ C4 Hfid Hfi Ha) as Hw. unfold wp in Hw.
    destruct (its_flash_fs_file_write cp fid finfo n off data fp) as [[r|e] f].
    + destruct Hw as (-> & (_ & _ & Hfit) & Hi). apply HQ; [done| |done]. split_and!; try done; by rewrite Hd.
    + destruct Hw as [(Hr & Hs & Hh)|(? & _)]; [|done].
      apply HE; [done|done|intros Hnr; specialize (Hs Hnr); split_and!; try done; by rewrite Hd|by split_and!].
  - pose proof (model_write ci Hci Hei true (fun _ => _) fid finfo n off data _ _ C3 Hfid Hfi Ha) as Hw. unfold wp in Hw.
    destruct (its_flash_fs_file_write ci fid finfo n off data fi) as [[r|e] f].
    + destruct Hw as (-> & (_ & _ & Hfit) & Hi). apply HQ; [done| |done]. split_and!; try done; by rewrite Hd.
    + destruct Hw as [(Hr & Hs & Hh)|(? & _)]; [|done].
      apply HE; [done|done|intros Hnr; specialize (Hs Hnr); split_and!; try done; by rewrite Hd|by split_and!].
Qed.

Lemma wp_fs_info client fid Q E s T :
  svc_at d s T -> fid_ok fid ->
  (forall f, T (side client) !! fid = Some f -> Q (FileInfo (zlen (f_data f)) (f_max f) (f_flags f)) s) ->
  (T (side client) !! fid = None -> E PSA_ERROR_DOES_NOT_EXIST s) ->
  wp (get_fs_ctx TFM_SP_PS client (fun X _ cfg => its_flash_fs_file_get_info cfg fid)) Q E s.
Proof.
  intros Hs Hfid HQ HE. open_svc s Hs.
  - pose proof (model_get_info cp Hcp true (fun _ => _) fid _ _ (matches_readable _ _ _ _ C4) Hfid) as Hw. unfold wp in Hw.
    destruct (its_flash_fs_file_get_info cp fid fp) as [[r|e] f].
    + destruct Hw as (-> & g & Hg & ->). by apply HQ.
    + destruct Hw as (-> & -> & [Hn|?]); [|done]. by apply HE.
  - pose proof (model_get_info ci Hci true (fun _ => _) fid _ _ (matches_readable _ _ _ _ C3) Hfid) as Hw. unfold wp in Hw.
    destruct (its_flash_fs_file_get_info ci fid fi) as [[r|e] f].
    + destruct Hw as (-> & g & Hg & ->). by apply HQ.
    + destruct Hw as (-> & -> & [Hn|?]); [|done]. by apply HE.
Qed.

Lemma wp_fs_read client fid n off Q E s T f :
  svc_at d s T -> fid_ok fid -> is_u32 n -> is_u32 off ->
  T (side client) !! fid = Some f -> off + n <= zlen (f_data f) ->
  Q (sub_bytes off n (f_data f)) s -> (n = 0 -> E PSA_ERROR_GENERIC_ERROR s) ->
  wp (get_fs_ctx TFM_SP_PS client (fun X _ cfg => its_flash_fs_file_read cfg fid n off)) Q E s.
Proof.
  intros Hs Hfid Hn Ho Hf Hle HQ HE. open_svc s Hs.
  - pose proof (model_read cp Hcp true (fun _ => _) fid n off _ _ (matches_readable _ _ _ _ C4) Hfid Hn Ho) as Hw. unfold wp in Hw.
    destruct (its_flash_fs_file_read cp fid n off fp) as [[r|e] x].
    + destruct Hw as (-> & g & Hg & _ & ->). assert (g = f) as -> by congruence. exact HQ.
    + destruct Hw as (-> & [(-> & ?)|[(-> & g & Hg & ?)|[(-> & ?)|(? & _)]]]); [congruence| |auto|done].
      assert (g = f) as -> by congruence. lia.
  - pose proof (model_read ci Hci true (fun _ => _) fid n off _ _ (matches_readable _ _ _ _ C3) Hfid Hn Ho) as Hw. unfold wp in Hw.
    destruct (its_flash_fs_file_read ci fid n off fi) as [[r|e] x].
    + destruct Hw as (-> & g & Hg & _ & ->). assert (g = f) as -> by congruence. exact HQ.
    + destruct Hw as (-> & [(-> & ?)|[(-> & g & Hg & ?)|[(-> & ?)|(? & _)]]]); [congruence| |auto|done].
      assert (g = f) as -> by congruence. lia.
Qed.

Lemma wp_fs_delete client fid Q E s T :
  d (side client) = false -> svc_at d s T -> fid_ok fid ->
  (forall s', same_vars s s' -> is_Some (T (side client) !! fid) ->
     svc_at d s' (upd T (side client) (delete fid (T (side client)))) -> Q tt s') ->
  (T (side client) !! fid = None -> E PSA_ERROR_DOES_NOT_EXIST s) ->
  wp (get_fs_ctx TFM_SP_PS client (fun X _ cfg => its_flash_fs_file_delete cfg fid)) Q E s.
Proof.
  intros Hd Hs Hfid HQ HE. open_svc s Hs; rewrite Hd in *.
  - pose proof (model_delete cp Hcp Hep true (fun _ => _) fid _ _ C4 Hfid) as Hw. unfold wp in Hw.
    destruct (its_flash_fs_file_delete cp fid fp) as [[[]|e] f].
    + destruct Hw as (? & ?). apply HQ; [done|done|]. split_and!; try done; by rewrite Hd.
    + destruct Hw as [(-> & ? & ->)|(? & _)]; [by apply HE|done].
  - pose proof (model_delete ci Hci Hei true (fun _ => _) fid _ _ C3 Hfid) as Hw. unfold wp in Hw.
    destruct (its_flash_fs_file_delete ci fid fi) as [[[]|e] f].
    + destruct Hw as (? & ?). apply HQ; [done|done|]. split_and!; try done; by rewrite Hd.
    + destruct Hw as [(-> & ? & ->)|(? & _)]; [by apply HE|done].
Qed.

(** *** The variables of the service *)

Definition vars s fid info (a : list Z) (iv ov : list (list Z)) : Prop :=
  g_fid s = fid /\ g_file_info s = info /\ asset_data s = a /\ invec s = iv /\ outvec s = ov.

Lemma same_vars_vars s s' fid info a iv ov : same_vars s s' -> vars s fid info a iv ov -> vars s' fid info a iv ov.
Proof. unfold vars. by intros (-> & -> & -> & -> & ->). Qed.

Lemma svc_at_ext s T T' : (forall b, T' b = T b) -> svc_at d s T -> svc_at d s T'.
Proof. intros He (H1 & H2 & H3 & H4). split_and!; try done; by rewrite He. Qed.

Lemma svc_at_set_info s T i : svc_at d s T -> wp (set_info i) (fun _ s' => svc_at d s' T /\
  vars s' (g_fid s) i (asset_data s) (invec s) (outvec s)) (fun _ _ => False) s.
Proof. intros Hs. by apply wp_modify. Qed.

Lemma wp_get_file_info client uid Q E s T a iv ov :
  let fid := tfm_its_get_fid client uid in
  svc_at d s T -> is_uid uid -> asset_data s = a -> invec s = iv -> outvec s = ov ->
  (uid = TFM_ITS_INVALID_UID -> E PSA_ERROR_INVALID_ARGUMENT s) ->
  (forall f s', uid <> TFM_ITS_INVALID_UID -> T (side client) !! fid = Some f -> svc_at d s' T ->
     vars s' fid (FileInfo (zlen (f_data f)) (f_max f) (f_flags f)) a iv ov -> Q tt s') ->
  (forall s', uid <> TFM_ITS_INVALID_UID -> T (side client) !! fid = None -> svc_at d s' T ->
     vars s' fid (g_file_info s) a iv ov -> E PSA_ERROR_DOES_NOT_EXIST s') ->
  wp (get_file_info TFM_SP_PS uid client) Q E s.
Proof.
  intros fid Hs Hu <- <- <- Hz HQ HE. unfold get_file_info. apply wp_bind, wp_check.
  2:{ rewrite negb_false_iff, Z.eqb_eq. exact Hz. }
  rewrite negb_true_iff, Z.eqb_neq. intros Hne. apply wp_bind, wp_modify, wp_bind, wp_gets, wp_bind.
  eapply (wp_fs_info client _ _ _ _ T); [exact Hs|by apply get_fid_ok|..]; cbn [g_fid].
  - intros f Hf. apply wp_modify. by apply (HQ f).
  - intros Hf. by apply HE.
Qed.

(** *** Storing an asset *)

(** The buffer of the service is a multiple of the program units of both file
    systems. *)
Definition buffer_ok (a : list Z) : Prop :=
  0 < zlen a < 2147483648 /\ Forall is_byte a /\ forall b, zlen a mod program_unit (flash_cfg (cfg_of b)) = 0.

Lemma cfg_of_wf b : cfg_wf (cfg_of b).
Proof. by destruct b. Qed.

Lemma unit_of b : exists k, 0 <= k < 16 /\ program_unit (flash_cfg (cfg_of b)) = 2 ^ k.
Proof. apply (ct_unit _ (cw_typed _ (cfg_of_wf b))). Qed.

Abbreviation unit_sz b := (program_unit (flash_cfg (cfg_of b))).
Abbreviation up b x := (ITS_UTILS_ALIGN x (unit_sz b)).

(** Appending to a file. *)
Lemma write_result_append b base D off ws data cap uf :
  base = File (sub_bytes 0 off D) cap uf ->
  0 <= off -> 0 <= ws -> off + ws <= zlen D -> ws <= up b ws -> off + up b ws <= cap -> up b ws <= zlen data ->
  sub_bytes 0 ws data = sub_bytes off ws D ->
  write_result (flash_cfg (cfg_of b)) base ws off data = File (sub_bytes 0 (off + ws) D) cap uf.
Proof.
  intros -> Ho Hw Hle Hup Hcap Hd Heq. unfold write_result. destruct (Z.eqb_spec ws 0) as [->|Hne].
  { by rewrite Z.add_0_r. }
  cbn [f_data f_max f_flags]. f_equal. rewrite zlen_sub_bytes by lia. rewrite Z.max_r by lia.
  unfold write_image. rewrite !sub_bytes_split by lia. rewrite !Z.add_0_l. f_equal.
  - rewrite sub_bytes_app_l by (rewrite ?zlen_sub_bytes by (rewrite ?zlen_sub_bytes; lia); lia).
    by rewrite !sub_bytes_sub_bytes by lia.
  - assert (zlen (sub_bytes 0 off (sub_bytes 0 off D)) = off) as Hz
      by (apply zlen_sub_bytes; rewrite ?zlen_sub_bytes; lia).
    rewrite sub_bytes_app_r by lia. rewrite Hz, Z.sub_diag.
    rewrite sub_bytes_app_l by (rewrite ?zlen_sub_bytes; lia).
    rewrite sub_bytes_sub_bytes by lia. exact Heq.
Qed.

Lemma wp_its_req_mngr_read n Q E s :
  let v := nth 1 (invec s) [] in
  0 <= n <= zlen v -> (1 < length (invec s))%nat ->
  (forall s', g_fid s' = g_fid s -> g_file_info s' = g_file_info s -> outvec s' = outvec s ->
     asset_data s' = splice 0 (sub_bytes 0 n v) (asset_data s) ->
     invec s' = <[1%nat := sub_bytes n (zlen v - n) v]> (invec s) ->
     (forall T, svc_at d s T -> svc_at d s' T) -> Q tt s') ->
  wp (its_req_mngr_read n) Q E s.
Proof.
  intros v Hn Hl HQ. unfold its_req_mngr_read, psa_read. apply wp_bind, wp_bind. unfold wp at 1, get. fold v.
  rewrite Z.min_l by lia. apply wp_bind. unfold wp at 1, put. apply wp_ret, wp_bind, wp_gets, wp_modify.
  by apply HQ.
Qed.

Lemma wp_tfm_write_data client n off data Q E s T :
  d (side client) = false -> svc_at d s T -> fid_ok (g_fid s) -> finfo_ok (g_file_info s) -> write_args (flash_cfg (cfg_of (side client))) n off data ->
  let b := side client in let fid := g_fid s in let fi := g_file_info s in
  (forall s', svc_at d s' (upd T b (written (cfg_of b) (T b) fid fi n off data)) ->
     write_fits (flash_cfg (cfg_of b)) (base_of (cfg_of b) (T b) fid fi) n off ->
     vars s' fid (align_size_max (cfg_of b) fi) (asset_data s) (invec s) (outvec s) -> Q tt s') ->
  (forall e s', write_refused (cfg_of b) (T b) fid fi n off e -> outvec s' = outvec s -> asset_data s' = asset_data s ->
     (~ replaces (cfg_of b) (T b) fid fi -> svc_at d s' T) -> svc_at (mark d b) s' T -> E e s') ->
  wp (tfm_its_write_data_to_fs TFM_SP_PS client n off data) Q E s.
Proof.
  intros Hd Hs Hfid Hfi Ha b fid fi HQ HE. unfold tfm_its_write_data_to_fs.
  apply wp_bind, wp_gets, wp_bind, wp_gets, wp_bind. unfold wp at 1, get. fold fid fi.
  assert ((if client =? TFM_SP_PS then fs_cfg_ps s else fs_cfg_its s) = cfg_of b) as ->.
  { destruct Hs as (H1 & H2 & _). unfold b, side. by destruct (client =? TFM_SP_PS). }
  rewrite (fo_internal fi Hfi). apply wp_bind, wp_try.
  eapply (wp_fs_write client fid fi n off data _ _ s T); [exact Hd|exact Hs|exact Hfid|exact Hfi|exact Ha|..]; fold b.
  - intros s' (Hv1 & Hv2 & Hv3 & Hv4 & Hv5) Hs' Hfit. apply wp_bind, wp_modify, wp_ret. apply HQ; [exact Hs'|exact Hfit|].
    by split_and!.
  - intros e s' (Hv1 & Hv2 & Hv3 & Hv4 & Hv5) Hr Hs' Hl. apply wp_bind, wp_modify, wp_fail.
    by apply HE.
Qed.

(** The state at the head of the loop of [tfm_its_set]: [off] bytes of [D]
    are stored, the others are still with the caller. *)
Record set_inv (b : bool) fid cap uf D ov off T s : Prop := {
  si_svc : svc_at d s T;
  si_fid : g_fid s = fid;
  si_info : finfo_ok (g_file_info s);
  si_cap : up b (size_max (g_file_info s)) = cap;
  si_max : 0 <= size_max (g_file_info s) < 2147516416;
  si_buf : buffer_ok (asset_data s);
  si_in : (1 < length (invec s))%nat /\ nth 1 (invec s) [] = sub_bytes off (zlen D - off) D;
  si_out : outvec s = ov;
  si_off : 0 <= off <= zlen D;
  si_align : off < zlen D -> off mod unit_sz b = 0;
  si_base : base_of (cfg_of b) (T b) fid (g_file_info s) = File (sub_bytes 0 off D) cap uf;
}.

Context (D : list Z) (HD : Forall is_byte D) (HDlen : zlen D < 2147483648).

Lemma set_chunk_args b a off ws :
  buffer_ok a -> 0 <= off <= zlen D -> 0 <= ws <= zlen a -> off + ws <= zlen D ->
  ws <= up b ws /\ up b ws <= zlen a /\ write_args (flash_cfg (cfg_of b)) ws off (splice 0 (sub_bytes off ws D) a) /\
  sub_bytes 0 ws (splice 0 (sub_bytes off ws D) a) = sub_bytes off ws D.
Proof.
  intros (Hz & Hb & Hm) Ho Hw Hle. pose proof (unit_of b) as Hu. pose proof (unit_pos _ Hu).
  assert (zlen (sub_bytes off ws D) = ws) as Hd by (apply zlen_sub_bytes; lia).
  assert (zlen (splice 0 (sub_bytes off ws D) a) = zlen a) as Hs by (apply zlen_splice; lia).
  pose proof (align_range_lt _ Hu ws ltac:(lia)).
  pose proof (align_le _ Hu ws (zlen a) ltac:(lia) ltac:(lia) (Hm b)).
  split_and!; [lia|lia| |].
  - split; [lia|lia|lia|]. apply Forall_splice; auto using Forall_sub_bytes.
  - apply sub_bytes_splice_eq; lia.
Qed.

Lemma splice_buffer x a : buffer_ok a -> Forall is_byte x -> zlen x <= zlen a -> buffer_ok (splice 0 x a).
Proof.
  intros (Hz & Hb & Hm) Hd Hle. unfold buffer_ok. rewrite zlen_splice by lia. auto using Forall_splice.
Qed.

Lemma wp_set_iter client fuel fid uf ov off T s Q E :
  let b := side client in let cap := up b (zlen D) in
  let ws := ITS_UTILS_MIN (zlen D - off) (zlen (asset_data s)) in
  let T' := upd T b (<[fid := File (sub_bytes 0 (off + ws) D) cap uf]> (T b)) in
  d b = false -> fid_ok fid -> set_inv b fid cap uf D ov off T s -> (off < zlen D \/ off = 0) ->
  (forall s', set_inv b fid cap uf D ov (off + ws) T' s' -> zlen (asset_data s') = zlen (asset_data s) ->
     has_flag (info_flags (g_file_info s')) ITS_FLASH_FS_FLAG_TRUNCATE = false ->
     (off + ws = zlen D -> Q tt s') /\
     (off < off + ws < zlen D -> wp (set_loop TFM_SP_PS fuel client (zlen D - (off + ws)) (off + ws)) Q E s')) ->
  (forall e s', write_refused (cfg_of b) (T b) fid (g_file_info s) ws off e ->
     write_fits (flash_cfg (cfg_of b)) (base_of (cfg_of b) (T b) fid (g_file_info s)) ws off ->
     outvec s' = ov -> buffer_ok (asset_data s') -> (~ replaces (cfg_of b) (T b) fid (g_file_info s) -> svc_at d s' T) -> svc_at (mark d b) s' T -> E e s') ->
  wp (set_loop TFM_SP_PS (S fuel) client (zlen D - off) off) Q E s.
Proof.
  intros b cap ws T' Hd Hfid [Hs Hf Hi Hc Hmx Hb [Hl Hin] Ho Hof Hal Hbase] Hfirst HQ HE.
  pose proof Hb as (Hz & Hby & Hm). pose proof (unit_of b) as Hu. pose proof (unit_pos _ Hu).
  assert (0 <= ws /\ ws <= zlen D - off /\ ws <= zlen (asset_data s) /\ (ws < zlen D - off -> ws = zlen (asset_data s)))
    as (W0 & W1 & W2 & W3) by (unfold ws, ITS_UTILS_MIN; destruct (_ <? _) eqn:?; lia).
  destruct (set_chunk_args b (asset_data s) off ws Hb Hof ltac:(lia) ltac:(lia)) as (U1 & U2 & Hargs & Hdat).
  assert (off + up b ws <= cap) as Hcap.
  { destruct Hfirst as [Hlt| ->]; [apply align_offset; auto; lia|].
    pose proof (align_offset _ Hu 0 ws (zlen D)). rewrite Z.mod_0_l in * by lia. lia. }
  cbn [set_loop]. apply wp_bind. unfold wp at 1, get. fold ws.
  apply wp_bind, wp_its_req_mngr_read; rewrite ?Hin, ?zlen_sub_bytes by lia; [lia|done|].
  intros s1 F1 F2 F3 F4 F5 F6. apply wp_bind, wp_gets, wp_bind.
  rewrite sub_bytes_sub_bytes in F4 by lia. rewrite Z.add_0_r in F4. rewrite sub_bytes_sub_bytes in F5 by lia.
  rewrite F4. specialize (F6 T Hs).
  eapply (wp_tfm_write_data client ws off _ _ _ s1 T); [exact Hd|exact F6|by rewrite F1, Hf|by rewrite F2|exact Hargs|..]; fold b; rewrite F1, F2, Hf.
  - intros s2 Hs2 Hfit (V1 & V2 & V3 & V4 & V5).
    apply wp_bind, wp_gets, wp_bind, wp_modify. rewrite V2. cbn [size_current size_max info_flags align_size_max].
    unfold written in Hs2. rewrite Hbase in Hs2.
    rewrite (write_result_append b _ D off ws _ cap uf eq_refl) in Hs2 by (rewrite ?zlen_splice; rewrite ?zlen_sub_bytes; lia || done).
    fold T' in Hs2.
    assert (zlen (splice 0 (sub_bytes off ws D) (asset_data s)) = zlen (asset_data s)) as A1
      by (apply zlen_splice; rewrite ?zlen_sub_bytes; lia).
    rewrite !u32_id by lia.
    replace (zlen D - off - ws) with (zlen D - (off + ws)) by lia.
    pose proof (flags_next _ Hi) as (N1 & N2 & N3).
    match goal with |- wp _ _ _ ?s3 => assert (set_inv b fid cap uf D ov (off + ws) T' s3) as Hinv end.
    { split; cbn [g_fid g_file_info asset_data invec outvec size_max info_flags]; [exact Hs2|done|by split| | | | |congruence|lia| |].
      - by rewrite align_idem by (done || lia).
      - pose proof (align_range_lt _ Hu (zlen D) ltac:(lia)). rewrite Hc. unfold cap. lia.
      - rewrite V3, F4. apply splice_buffer; [done|by apply Forall_sub_bytes|rewrite zlen_sub_bytes; lia].
      - rewrite V4, F5, length_insert. split; [done|].
        rewrite nth_insert_eq by done. f_equal. lia.
      - intros Hlt. assert (ws = zlen (asset_data s)) as -> by (apply W3; lia).
        rewrite Z.add_mod, Hal, Hm by lia. by rewrite Z.mod_0_l by lia.
      - unfold base_of, write_base, T'. rewrite upd_same, lookup_insert_eq. cbn [info_flags]. by rewrite N3. }
    destruct (HQ _ Hinv) as [Hq1 Hq2]; [cbn [asset_data]; by rewrite V3, F4, A1|exact N3|].
    destruct (Z.gtb_spec (zlen D - (off + ws)) 0) as [Hgt|Hle]; [apply Hq2|apply wp_ret, Hq1]; lia.
  - intros e s2 Hr E1 E2 E3 E4. apply HE; [done| |congruence|rewrite E2, F4; apply splice_buffer; [done|by apply Forall_sub_bytes|rewrite zlen_sub_bytes; lia]|done|done].
    destruct (Z.eq_dec ws 0); [by left|right]. rewrite Hbase. cbn [f_data f_max].
    rewrite aligned_spec by done. split_and!; [apply Hal; lia| |done]. rewrite zlen_sub_bytes; lia.
Qed.

Lemma upd_upd T b S1 S2 b' : upd (upd T b S1) b S2 b' = upd T b S2 b'.
Proof. unfold upd. by destruct (Bool.eqb b' b). Qed.

Lemma upd_upd_insert T b fid (f1 f2 : file) b' :
  upd (upd T b (<[fid := f1]> (T b))) b (<[fid := f2]> (upd T b (<[fid := f1]> (T b)) b)) b' =
  upd T b (<[fid := f2]> (T b)) b'.
Proof. rewrite upd_upd, upd_same, insert_insert_eq. done. Qed.

(** Once the file exists, a working driver stores the remaining chunks. *)
Lemma wp_set_rest client fid uf ov :
  let b := side client in
  d b = false -> fid_ok fid -> forall fuel off T s,
  set_inv b fid (up b (zlen D)) uf D ov off T s -> 0 < off < zlen D ->
  is_Some (T b !! fid) -> has_flag (info_flags (g_file_info s)) ITS_FLASH_FS_FLAG_TRUNCATE = false ->
  (Z.to_nat (zlen D - off) <= fuel)%nat ->
  wp (set_loop TFM_SP_PS fuel client (zlen D - off) off)
    (fun _ s' => svc_at d s' (upd T b (<[fid := File D (up b (zlen D)) uf]> (T b))) /\ outvec s' = ov /\ buffer_ok (asset_data s'))
    (fun _ _ => False) s.
Proof.
  intros b Hd Hfid. induction fuel as [|fuel IH]; intros off T s Hinv Hoff [f Hf] Htr Hfuel; [lia|].
  eapply (wp_set_iter client fuel fid uf ov off T s); [done|done|exact Hinv|lia|..]; fold b.
  - intros s' Hinv' Hbuf Htr'. set (ws := ITS_UTILS_MIN _ _) in *.
    set (f1 := File (sub_bytes 0 (off + ws) D) _ _) in *. split.
    + intros Hend. split; [|split; [apply (si_out _ _ _ _ _ _ _ _ _ Hinv')|apply (si_buf _ _ _ _ _ _ _ _ _ Hinv')]].
      pose proof (si_svc _ _ _ _ _ _ _ _ _ Hinv') as Hsv. unfold f1 in Hsv. by rewrite Hend, sub_bytes_all in Hsv.
    + intros Hlt. eapply wp_mono; [eapply (IH (off + ws) _ s' Hinv')|cbv beta|done].
      * lia.
      * rewrite upd_same, lookup_insert_eq. eauto.
      * exact Htr'.
      * enough (0 < ws) by lia. pose proof (si_buf _ _ _ _ _ _ _ _ _ Hinv) as ((? & ?) & _).
        unfold ws, ITS_UTILS_MIN. destruct (_ <? _); lia.
      * intros [] s2 [Hs2 Ho2]. split; [|done]. eapply svc_at_ext; [|exact Hs2]. intros b'. by rewrite upd_upd_insert.
  - intros e s' Hr Hfit _ _ _ _. destruct Hr as [Hn|Hn|Hn|Hn]; try congruence;
      unfold needs_room in Hn; by rewrite Hf, Htr in Hn.
Qed.

Lemma wp_set_loop client fid uf ov T s :
  let b := side client in let fi := g_file_info s in
  let ws := ITS_UTILS_MIN (zlen D) (zlen (asset_data s)) in
  d b = false -> fid_ok fid -> set_inv b fid (up b (zlen D)) uf D ov 0 T s ->
  wp (set_loop TFM_SP_PS (S (Z.to_nat (zlen D))) client (zlen D) 0)
    (fun _ s' => svc_at d s' (upd T b (<[fid := File D (up b (zlen D)) uf]> (T b))) /\ outvec s' = ov /\ buffer_ok (asset_data s'))
    (fun e s' => write_refused (cfg_of b) (T b) fid fi ws 0 e /\ write_fits (flash_cfg (cfg_of b)) (base_of (cfg_of b) (T b) fid fi) ws 0 /\
       outvec s' = ov /\ buffer_ok (asset_data s') /\ (~ replaces (cfg_of b) (T b) fid fi -> svc_at d s' T) /\ svc_at (mark d b) s' T) s.
Proof.
  intros b fi ws Hd Hfid Hinv. pose proof (zlen_nonneg D).
  pose proof (wp_set_iter client (Z.to_nat (zlen D)) fid uf ov 0 T s) as Hit. cbv zeta in Hit. fold b in Hit.
  rewrite Z.sub_0_r in Hit. apply Hit; [done|done|exact Hinv|by right| |by auto]. clear Hit. fold ws.
  intros s' Hinv' Hbuf Htr'. rewrite !Z.add_0_l in *. split.
  - intros Hend. split; [|split; [apply (si_out _ _ _ _ _ _ _ _ _ Hinv')|apply (si_buf _ _ _ _ _ _ _ _ _ Hinv')]].
    pose proof (si_svc _ _ _ _ _ _ _ _ _ Hinv') as Hsv. by rewrite Hend, sub_bytes_all in Hsv.
  - intros Hlt. eapply wp_mono; [eapply (wp_set_rest client fid uf ov Hd Hfid _ ws _ s' Hinv')|cbv beta|done].
    + lia.
    + fold b. rewrite upd_same, lookup_insert_eq. eauto.
    + exact Htr'.
    + lia.
    + fold b. intros [] s2 [Hs2 Ho2]. split; [|done]. eapply svc_at_ext; [|exact Hs2]. intros b'. by rewrite upd_upd_insert.
Qed.
End assets.
