(* ===== verification/ItsRequests.v ===== *)
(** * The storage service as a store of assets

    What a client sees of the service: [asset_step] says, without mention of
    file systems, buffers or chunks, what each request returns and how it
    changes the assets; the handlers of [tfm_its_req_mngr.c] and the functions
    of [tfm_internal_trusted_storage.c] they call implement it. *)

From S2P Require Import Prelude Bytes ItsUtils ItsFlash ItsMeta ItsMblock ItsFs ItsState ItsView ItsCommit ItsLayout ItsStore ItsInv ItsLookup ItsWrite ItsFileWrite ItsModel ItsService ItsAssets.
From stdpp Require Import base list numbers functions gmap.
From Stdlib Require Import ZArith Lia.

Open Scope Z_scope.
Open Scope tfm_scope.

(** A request, decoded from its vectors. *)
Inductive request : Type :=
| ReqSet (uid : Z) (data : list Z) (create_flags : Z)
| ReqGet (uid data_offset data_size : Z)
| ReqGetInfo (uid : Z)
| ReqRemove (uid : Z).

Section decode.
Context (msg : psa_msg_t) (iv : list (list Z)).
Abbreviation arg i := (le_val (nth i iv [])).

Definition decode_set : psa_status_t + request :=
  if size_is (in_size msg) 0 8 && size_is (in_size msg) 2 4
  then inr (ReqSet (arg 0) (nth 1 iv []) (arg 2)) else inl PSA_ERROR_PROGRAMMER_ERROR.

Definition decode_get : psa_status_t + request :=
  if size_is (in_size msg) 0 8 && size_is (in_size msg) 1 4
  then inr (ReqGet (arg 0) (arg 1) (nth 0 (out_size msg) 0)) else inl PSA_ERROR_PROGRAMMER_ERROR.

Definition decode_get_info : psa_status_t + request :=
  if size_is (in_size msg) 0 8 && size_is (out_size msg) 0 12
  then inr (ReqGetInfo (arg 0)) else inl PSA_ERROR_PROGRAMMER_ERROR.

Definition decode_remove : psa_status_t + request :=
  if size_is (in_size msg) 0 8 then inr (ReqRemove (arg 0)) else inl PSA_ERROR_PROGRAMMER_ERROR.

Definition decode_req : psa_status_t + request :=
  if msg_type msg =? TFM_ITS_SET then decode_set
  else if msg_type msg =? TFM_ITS_GET then decode_get
  else if msg_type msg =? TFM_ITS_GET_INFO then decode_get_info
  else if msg_type msg =? TFM_ITS_REMOVE then decode_remove
  else inl PSA_ERROR_NOT_SUPPORTED.
End decode.

Definition supported_flags : Z :=
  Z.lor PSA_STORAGE_FLAG_WRITE_ONCE (Z.lor PSA_STORAGE_FLAG_NO_CONFIDENTIALITY PSA_STORAGE_FLAG_NO_REPLAY_PROTECTION).

Lemma supported_spec fl : is_u32 fl -> bic fl supported_flags = 0 ->
  finfo_ok (FileInfo 0 0 (Z.lor fl first_chunk_flags)) /\
  Z.land (Z.lor fl first_chunk_flags) ITS_FLASH_FS_USER_FLAGS_MASK = fl.
Proof.
  intros Hu Hb. assert (fl = Z.land fl 7) as ->.
  { rewrite <- (Z.lor_ldiff_and fl 7) at 1. rewrite Z.ldiff_land. fold (bic fl supported_flags). unfold bic in Hb.
    change supported_flags with 7 in Hb. by rewrite Hb, Z.lor_0_l. }
  assert (0 <= Z.land fl 7 < 8) as Hr by (change 7 with (Z.ones 3); rewrite Z.land_ones by lia; apply Z.mod_pos_bound; lia).
  revert Hr. generalize (Z.land fl 7). intros x Hx.
  assert (x = 0 \/ x = 1 \/ x = 2 \/ x = 3 \/ x = 4 \/ x = 5 \/ x = 6 \/ x = 7) as Hc by lia.
  by repeat destruct Hc as [->|Hc]; [.. |subst x]; split; try (split; vm_compute; intuition congruence).
Qed.

Section requests.
Context {F G : Type} `{FlashOps F} `{FlashOps G} (TFM_SP_PS : Z).
Context (ci cp : its_flash_fs_config_t).
Implicit Types (s : its_svc F G) (T : bool -> filemap) (fid data : list Z) (client uid : Z).

Abbreviation side := (side TFM_SP_PS).
Abbreviation cfg_of := (cfg_of ci cp).
Abbreviation up b x := (ITS_UTILS_ALIGN x (program_unit (flash_cfg (cfg_of b)))).

(** The asset of a client. *)
Definition asset T client uid : option file := T (side client) !! tfm_its_get_fid client uid.

Definition set_asset_to T client uid (f : file) : bool -> filemap :=
  upd T (side client) (<[tfm_its_get_fid client uid := f]> (T (side client))).
Definition remove_asset T client uid : bool -> filemap :=
  upd T (side client) (delete (tfm_its_get_fid client uid) (T (side client))).

Definition write_once (f : file) : bool := has_flag (f_flags f) PSA_STORAGE_FLAG_WRITE_ONCE.

(** No room for [data]: it is larger than a file may be, or a file of its size
    would have to be allocated and cannot be. *)
Definition no_room T client uid data (e : psa_status_t) : Prop :=
  let cap := up (side client) (zlen data) in
  (forall f, asset T client uid = Some f -> f_max f <> cap) /\
  (e = PSA_ERROR_INVALID_ARGUMENT /\ max_file_size (cfg_of (side client)) < cap \/ e = PSA_ERROR_INSUFFICIENT_STORAGE).

(** [asset_step T client r o T']: request [r] of [client] may return [o] and
    change the assets from [T] to [T']. *)
Inductive asset_step T client : request -> res (list Z) -> (bool -> filemap) -> Prop :=
| as_no_uid_set data fl : asset_step T client (ReqSet 0 data fl) (Err PSA_ERROR_INVALID_ARGUMENT) T
| as_flags uid data fl : uid <> 0 -> bic fl supported_flags <> 0 ->
    asset_step T client (ReqSet uid data fl) (Err PSA_ERROR_NOT_SUPPORTED) T
| as_set_once uid data fl f : uid <> 0 -> asset T client uid = Some f -> write_once f = true ->
    asset_step T client (ReqSet uid data fl) (Err PSA_ERROR_NOT_PERMITTED) T
| as_no_room uid data fl e : uid <> 0 -> bic fl supported_flags = 0 ->
    (forall f, asset T client uid = Some f -> write_once f = false) -> no_room T client uid data e ->
    asset_step T client (ReqSet uid data fl) (Err e) T
| as_set uid data fl : uid <> 0 -> bic fl supported_flags = 0 ->
    (forall f, asset T client uid = Some f -> write_once f = false) ->
    asset_step T client (ReqSet uid data fl) (Ok [])
      (set_asset_to T client uid (File data (up (side client) (zlen data)) fl))
| as_no_uid_get off n : asset_step T client (ReqGet 0 off n) (Err PSA_ERROR_INVALID_ARGUMENT) T
| as_get_missing uid off n : uid <> 0 -> asset T client uid = None ->
    asset_step T client (ReqGet uid off n) (Err PSA_ERROR_DOES_NOT_EXIST) T
| as_get_outside uid off n f : uid <> 0 -> asset T client uid = Some f -> zlen (f_data f) < off ->
    asset_step T client (ReqGet uid off n) (Err PSA_ERROR_INVALID_ARGUMENT) T
| as_get uid off n f : uid <> 0 -> asset T client uid = Some f -> off <= zlen (f_data f) ->
    asset_step T client (ReqGet uid off n) (Ok (sub_bytes off (Z.min n (zlen (f_data f) - off)) (f_data f))) T
| as_get_nothing uid off n f : uid <> 0 -> asset T client uid = Some f -> off <= zlen (f_data f) ->
    Z.min n (zlen (f_data f) - off) = 0 ->
    asset_step T client (ReqGet uid off n) (Err PSA_ERROR_GENERIC_ERROR) T
| as_no_uid_info : asset_step T client (ReqGetInfo 0) (Err PSA_ERROR_INVALID_ARGUMENT) T
| as_info_missing uid : uid <> 0 -> asset T client uid = None ->
    asset_step T client (ReqGetInfo uid) (Err PSA_ERROR_DOES_NOT_EXIST) T
| as_info uid f : uid <> 0 -> asset T client uid = Some f ->
    asset_step T client (ReqGetInfo uid)
      (Ok (storage_info_bytes (StorageInfo (zlen (f_data f)) (zlen (f_data f)) (f_flags f)))) T
| as_no_uid_remove : asset_step T client (ReqRemove 0) (Err PSA_ERROR_INVALID_ARGUMENT) T
| as_remove_missing uid : uid <> 0 -> asset T client uid = None ->
    asset_step T client (ReqRemove uid) (Err PSA_ERROR_DOES_NOT_EXIST) T
| as_remove_once uid f : uid <> 0 -> asset T client uid = Some f -> write_once f = true ->
    asset_step T client (ReqRemove uid) (Err PSA_ERROR_NOT_PERMITTED) T
| as_remove uid f : uid <> 0 -> asset T client uid = Some f -> write_once f = false ->
    asset_step T client (ReqRemove uid) (Ok []) (remove_asset T client uid).

(** The asset a request names. *)
Definition req_uid (r : request) : Z :=
  match r with ReqSet u _ _ | ReqGet u _ _ | ReqGetInfo u | ReqRemove u => u end.

(** The requests that change an asset. *)
Definition updating (r : request) : bool := match r with ReqSet _ _ _ | ReqRemove _ => true | ReqGet _ _ _ | ReqGetInfo _ => false end.

(** A failed set may leave the file system in need of another mount. *)
Definition must_remount T client (r : request) (o : res (list Z)) : Prop :=
  match r, o with
  | ReqSet uid data _, Err e => is_Some (asset T client uid) /\ no_room T client uid data e
  | _, _ => False
  end.
End requests.

(** ** The functions of the service *)

Section service.
Context {F G : Type} `{FlashOps F} `{FlashOps G} (TFM_SP_PS : Z).
Context (ci cp : its_flash_fs_config_t).
Context `{!FlashLaws F (flash_cfg ci)} `{!FlashTotal F (flash_cfg ci)}.
Context `{!FlashLaws G (flash_cfg cp)} `{!FlashTotal G (flash_cfg cp)}.
Context (Hci : cfg_wf ci) (Hcp : cfg_wf cp) (Hei : ev_ok (flash_cfg ci)) (Hep : ev_ok (flash_cfg cp)).
Implicit Types (s : its_svc F G) (T : bool -> filemap) (fid data : list Z) (client uid : Z).

Abbreviation side := (side TFM_SP_PS).
Abbreviation cfg_of := (cfg_of ci cp).
Abbreviation step := (asset_step TFM_SP_PS ci cp).
Abbreviation svc_at := (svc_at ci cp).
Abbreviation buffer_ok := (buffer_ok ci cp).
Abbreviation must_remount := (must_remount TFM_SP_PS ci cp).

Context (d : bool -> bool).

(** The request was served: a step of the specification, its reply in the
    caller's vector, and a service ready for the next request unless it has to
    be mounted again. *)
Record served T client (r : request) (ov : list (list Z)) (o : res (list Z)) (T' : bool -> filemap) s : Prop := {
  sv_step : step T client r o T';
  sv_is : ~ must_remount T client r o -> svc_at d s T';
  sv_left : svc_at (mark d (side client)) s T';
  sv_buf : buffer_ok (asset_data s);
  sv_len : length (outvec s) = length ov;
  sv_out : nth 0 (outvec s) [] = nth 0 ov [] ++ match o with Ok x => x | Err _ => [] end;
}.

Definition replies T client r ov (_ : unit) s : Prop := exists x T', served T client r ov (Ok x) T' s.
Definition refuses T client r ov (e : psa_status_t) s : Prop := served T client r ov (Err e) T s.

Lemma refuses_intro T client r e s ov :
  step T client r (Err e) T -> svc_at d s T -> buffer_ok (asset_data s) -> outvec s = ov -> refuses T client r ov e s.
Proof. intros Hst Hs Hb <-. split; auto using svc_at_mark. by rewrite app_nil_r. Qed.

Lemma replies_intro T T' client r s ov :
  step T client r (Ok []) T' -> svc_at d s T' -> buffer_ok (asset_data s) -> outvec s = ov -> replies T client r ov tt s.
Proof. intros Hst Hs Hb <-. exists [], T'. split; auto using svc_at_mark. by rewrite app_nil_r. Qed.

Lemma first_base T client uid (f : its_flash_fs_file_info_t) fl D :
  is_u32 fl -> bic fl supported_flags = 0 -> zlen D < 2147483648 ->
  let b := side client in let fid := tfm_its_get_fid client uid in
  let fi := FileInfo (size_current f) (zlen D) (Z.lor fl first_chunk_flags) in
  let cap := ITS_UTILS_ALIGN (zlen D) (program_unit (flash_cfg (cfg_of b))) in
  base_of (cfg_of b) (T b) fid fi = File [] cap fl /\
  (forall ws e, write_refused (cfg_of b) (T b) fid fi ws 0 e -> write_fits (flash_cfg (cfg_of b)) (File [] cap fl) ws 0 ->
     no_room TFM_SP_PS ci cp T client uid D e) /\
  (replaces (cfg_of b) (T b) fid fi -> is_Some (asset TFM_SP_PS T client uid)).
Proof.
  intros Hu Hb HD b fid fi cap. pose proof (supported_spec fl Hu Hb) as [_ Hfl].
  assert (has_flag (info_flags fi) ITS_FLASH_FS_FLAG_TRUNCATE = true) as Htr.
  { unfold fi. cbn [info_flags]. rewrite Z.lor_assoc. by apply has_flag_lor. }
  assert (base_of (cfg_of b) (T b) fid fi = File [] cap fl) as Hbase.
  { unfold base_of, write_base. rewrite Htr. unfold fi. cbn [info_flags size_max]. rewrite Hfl. fold cap. by destruct (T b !! fid). }
  split_and!; [done| |by intros [? _]].
  assert (needs_room (T b) fid (info_flags fi) cap = true -> forall g, asset TFM_SP_PS T client uid = Some g -> f_max g <> cap) as Hnr.
  { unfold needs_room, asset. fold b fid. intros Hn g Hg. rewrite Hg, Htr in Hn. cbn [andb] in Hn. by apply negb_true_iff, Z.eqb_neq in Hn. }
  intros ws e [Hn Hc|Hn Hc|Hn|Hn] Hfit.
  - exfalso. unfold fi in Hc. cbn [info_flags] in Hc.
    rewrite (Z.lor_comm ITS_FLASH_FS_FLAG_CREATE), Z.lor_assoc, has_flag_lor in Hc by done. done.
  - split; [by apply Hnr|]. by left.
  - split; [by apply Hnr|]. by right.
  - by rewrite Hbase in Hn.
Qed.

(** The transfer of the data, once the request has been accepted. *)
Lemma wp_set_transfer client uid D fl s T i :
  d (side client) = false -> svc_at d s T -> buffer_ok (asset_data s) -> is_uid uid -> uid <> 0 -> is_u32 fl -> bic fl supported_flags = 0 ->
  (1 < length (invec s))%nat -> nth 1 (invec s) [] = D -> Forall is_byte D -> zlen D < 2147483648 ->
  g_fid s = tfm_its_get_fid client uid ->
  g_file_info s = FileInfo (size_current i) (zlen D) (Z.lor fl first_chunk_flags) ->
  (forall f, asset TFM_SP_PS T client uid = Some f -> write_once f = false) ->
  let r := ReqSet uid D fl in
  wp (set_loop TFM_SP_PS (S (Z.to_nat (zlen D))) client (zlen D) 0)
    (replies T client r (outvec s)) (refuses T client r (outvec s)) s.
Proof.
  intros Hcl Hs Hbuf Hu Hne Hfl Hsup Hl Hin HD HDl Hf Hi Hwo r. pose proof (zlen_nonneg D).
  destruct (first_base T client uid i fl D Hfl Hsup HDl) as (Hbase & Hroom & Hrep). cbv zeta in *.
  destruct (supported_spec fl Hfl Hsup) as [[K1 K2] _].
  eapply wp_mono; [eapply (wp_set_loop TFM_SP_PS ci cp Hci Hcp Hei Hep d D HD HDl client _ fl (outvec s) T s)|cbv beta..].
  - done.
  - by apply get_fid_ok.
  - split; try done; rewrite ?Hi; cbn [size_max info_flags]; try done; try lia.
    by rewrite Z.sub_0_r, sub_bytes_all, Hin.
  - intros [] s' (Hs' & Ho & Hb). eapply replies_intro; [|exact Hs'|done|done]. by constructor.
  - rewrite Hi. cbv zeta. rewrite Hbase. intros e s' (Hr & Hfit & Ho & Hb & Hsame & Hleft).
    specialize (Hroom _ _ Hr Hfit). split; try done.
    + by constructor.
    + intros Hno. apply Hsame. intros Hrp. apply Hno. split; [by apply Hrep|done].
    + by rewrite Ho.
    + by rewrite Ho, app_nil_r.
Qed.

Lemma wp_tfm_its_set client uid D fl s T :
  d (side client) = false -> svc_at d s T -> buffer_ok (asset_data s) -> is_uid uid -> is_u32 fl ->
  (1 < length (invec s))%nat -> nth 1 (invec s) [] = D -> Forall is_byte D -> zlen D < 2147483648 ->
  let r := ReqSet uid D fl in
  wp (tfm_its_set TFM_SP_PS client uid (zlen D) fl)
    (replies T client r (outvec s)) (refuses T client r (outvec s)) s.
Proof.
  intros Hcl Hs Hbuf Hu Hfl Hl Hin HD HDl r. pose proof (zlen_nonneg D). unfold tfm_its_set.
  apply wp_bind, wp_check; rewrite ?negb_true_iff, ?negb_false_iff, ?Z.eqb_neq, ?Z.eqb_eq; unfold TFM_ITS_INVALID_UID;
    [intros Hne|intros ->; apply refuses_intro; try done; constructor].
  apply wp_bind, wp_check; fold supported_flags; rewrite ?Z.eqb_neq, ?Z.eqb_eq;
    [intros Hsup|intros Hsup; apply refuses_intro; try done; by constructor].
  set (k := fun f => FileInfo (size_current f) (zlen D) (Z.lor fl first_chunk_flags)).
  assert (forall s1 i, svc_at d s1 T -> vars s1 (tfm_its_get_fid client uid) i (asset_data s) (invec s) (outvec s) ->
    (forall f, asset TFM_SP_PS T client uid = Some f -> write_once f = false) ->
    wp (let* _ := set_info (k i) in set_loop TFM_SP_PS (S (Z.to_nat (zlen D))) client (zlen D) 0)
      (replies T client r (outvec s)) (refuses T client r (outvec s)) s1) as Hloop.
  { intros s1 i Hs1 (V1 & V2 & V3 & V4 & V5) Hwo. apply wp_bind, wp_modify. rewrite <- V5.
    set (s2 := ItsSvc _ _ _ _ _ _ _ _ _). change (outvec s1) with (outvec s2).
    apply (wp_set_transfer client uid D fl s2 T i); try done; unfold s2; cbn [asset_data invec]; by rewrite ?V3, ?V4. }
  apply wp_bind, wp_try.
  eapply (wp_get_file_info TFM_SP_PS ci cp Hci Hcp d client uid _ _ s T); [done|done|reflexivity..|intros ->; done| |].
  - intros f s1 _ Hf Hs1 Hv. apply wp_bind, wp_gets, wp_bind. destruct Hv as (V1 & V2 & V3 & V4 & V5).
    apply wp_check; rewrite V2; cbn [info_flags]; fold (write_once f); rewrite ?negb_true_iff, ?negb_false_iff; intros Hwo.
    + rewrite <- V2. eapply Hloop; [done|by split_and!|]. unfold asset. intros g Hg. congruence.
    + apply refuses_intro; [by econstructor|done|by rewrite V3|done].
  - intros s1 _ Hf Hs1 Hv. apply wp_bind, wp_gets, wp_bind, wp_check; [|done]. intros _.
    pose proof Hv as (_ & V2 & _). rewrite V2. eapply Hloop; [done|exact Hv|]. unfold asset. intros g Hg. congruence.
Qed.

(** *** Reading *)

Lemma splice_data b T s fid n off f a :
  svc_at d s T -> buffer_ok a -> T b !! fid = Some f -> 0 <= off -> 0 <= n <= zlen a -> off + n <= zlen (f_data f) ->
  buffer_ok (splice 0 (sub_bytes off n (f_data f)) a).
Proof.
  intros (_ & _ & Hi & Hp) Hb Hf Ho Hn Hle. apply splice_buffer; [done| |rewrite zlen_sub_bytes; lia].
  apply Forall_sub_bytes. destruct b; [eapply (readable_bytes cp Hcp)|eapply (readable_bytes ci Hci)]; [by eapply matches_readable|exact Hf|by eapply matches_readable|exact Hf].
Qed.

(** A file is smaller than a block. *)
Lemma data_range b T s fid f : svc_at d s T -> T b !! fid = Some f -> zlen (f_data f) < 2147483648.
Proof.
  intros (_ & _ & Hi & Hp) Hf. destruct b; [eapply (readable_size cp Hcp)|eapply (readable_size ci Hci)]; [by eapply matches_readable|exact Hf|by eapply matches_readable|exact Hf].
Qed.

Lemma wp_get_loop client uid f fuel n off T s :
  let fid := tfm_its_get_fid client uid in
  svc_at d s T -> buffer_ok (asset_data s) -> is_uid uid -> uid <> 0 -> asset TFM_SP_PS T client uid = Some f ->
  g_fid s = fid -> 0 <= off -> 0 <= n -> off + n <= zlen (f_data f) -> (0 < length (outvec s))%nat ->
  (Z.to_nat n < fuel)%nat ->
  wp (get_loop TFM_SP_PS fuel client n off)
    (fun _ s' => svc_at d s' T /\ buffer_ok (asset_data s') /\
       outvec s' = <[0%nat := nth 0 (outvec s) [] ++ sub_bytes off n (f_data f)]> (outvec s))
    (fun e s' => e = PSA_ERROR_GENERIC_ERROR /\ n = 0 /\ svc_at d s' T /\ buffer_ok (asset_data s') /\ outvec s' = outvec s) s.
Proof.
  intros fid. revert n off s. induction fuel as [|fuel IH]; intros n off s Hs Hbuf Hu Hne Hf Hg Ho Hn Hle Hl Hfu; [lia|].
  pose proof (data_range _ _ _ _ _ Hs Hf) as Hd. cbn [get_loop]. apply wp_bind. unfold wp at 1, get.
  pose proof (proj1 Hbuf) as Hz. set (ws := ITS_UTILS_MIN n (zlen (asset_data s))).
  assert (0 <= ws /\ ws <= n /\ ws <= zlen (asset_data s) /\ (ws = n \/ ws = zlen (asset_data s)))
    as (W0 & W1 & W2 & W3) by (unfold ws, ITS_UTILS_MIN; destruct (_ <? _) eqn:?; lia).
  apply wp_bind. rewrite Hg. eapply (wp_fs_read TFM_SP_PS ci cp Hci Hcp d client fid ws off _ _ s T f);
    [done|by apply get_fid_ok|unfold is_u32; lia|unfold is_u32; lia|done|lia| |].
  - apply wp_bind, wp_gets, wp_bind, wp_modify, wp_bind, wp_modify. cbn [invec outvec g_fid g_file_info asset_data fs_cfg_its fs_its fs_cfg_ps fs_ps].
    rewrite !u32_id by lia. set (s2 := ItsSvc _ _ _ _ _ _ _ _ _).
    assert (svc_at d s2 T) as Hs2 by done.
    assert (buffer_ok (asset_data s2)) as Hb2 by (eapply splice_data; try done; lia).
    destruct (Z.gtb_spec (n - ws) 0) as [Hgt|Hend].
    + eapply wp_mono; [eapply (IH (n - ws) (off + ws) s2); try done; try lia|cbv beta..].
      * unfold s2. cbn [outvec]. by rewrite length_insert.
      * intros [] s3 (Hs3 & Hb3 & Ho3). split_and!; try done. rewrite Ho3. unfold s2. cbn [outvec].
        rewrite nth_insert_eq, list_insert_insert_eq, <- app_assoc by done. do 2 f_equal.
        rewrite <- sub_bytes_split by lia. f_equal. lia.
      * intros e s3 (_ & Hz3 & _). lia.
    + apply wp_ret. split_and!; try done. unfold s2. cbn [outvec]. by replace n with ws by lia.
  - intros Hw0. split_and!; try done. lia.
Qed.

Lemma wp_tfm_its_get client uid off n s T :
  svc_at d s T -> buffer_ok (asset_data s) -> is_uid uid -> 0 <= off -> 0 <= n -> (0 < length (outvec s))%nat ->
  let r := ReqGet uid off n in
  wp (tfm_its_get TFM_SP_PS client uid off n)
    (fun _ => replies T client r (outvec s) tt) (refuses T client r (outvec s)) s.
Proof.
  intros Hs Hbuf Hu Ho Hn Hl r. unfold tfm_its_get.
  apply wp_bind, wp_check; rewrite ?negb_true_iff, ?negb_false_iff, ?Z.eqb_neq, ?Z.eqb_eq; unfold TFM_ITS_INVALID_UID;
    [intros Hne|intros ->; apply refuses_intro; try done; constructor].
  apply wp_bind.
  eapply (wp_get_file_info TFM_SP_PS ci cp Hci Hcp d client uid _ _ s T); [done|done|reflexivity..|intros ->; done| |].
  2:{ intros s1 _ Hf Hs1 (V1 & V2 & V3 & V4 & V5). apply refuses_intro; [by constructor|done|by rewrite V3|done]. }
  intros f s1 _ Hf Hs1 (V1 & V2 & V3 & V4 & V5). apply wp_bind, wp_gets. rewrite V2. cbn [size_current].
  pose proof (zlen_nonneg (f_data f)). pose proof (data_range _ _ _ _ _ Hs Hf).
  apply wp_bind, wp_check; rewrite ?negb_true_iff, ?negb_false_iff; intros Hcmp.
  2:{ apply refuses_intro; [eapply as_get_outside; [done|exact Hf|lia]|done|by rewrite V3|done]. }
  assert (off <= zlen (f_data f)) by lia. rewrite u32_id by lia.
  assert (ITS_UTILS_MIN n (zlen (f_data f) - off) = Z.min n (zlen (f_data f) - off)) as ->
    by (unfold ITS_UTILS_MIN; destruct (_ <? _) eqn:?; lia).
  set (k := Z.min n (zlen (f_data f) - off)). apply wp_bind. unfold tfm_its_get_plain.
  eapply wp_mono; [eapply (wp_get_loop client uid f _ k off T s1); try done; rewrite ?V3, ?V5; try done; lia|cbv beta..].
  - intros [] s2 (Hs2 & Hb2 & Ho2). apply wp_ret. exists (sub_bytes off k (f_data f)), T. rewrite V5 in Ho2.
    split; auto using svc_at_mark; rewrite ?Ho2; [by eapply as_get|by rewrite length_insert|by rewrite nth_insert_eq].
  - intros e s2 (-> & Hz & Hs2 & Hb2 & Ho2). apply refuses_intro; [by eapply as_get_nothing|done|done|by rewrite Ho2].
Qed.

Lemma wp_tfm_its_get_info client uid s T :
  svc_at d s T -> buffer_ok (asset_data s) -> is_uid uid ->
  wp (tfm_its_get_info TFM_SP_PS client uid)
    (fun i s' => svc_at d s' T /\ buffer_ok (asset_data s') /\ outvec s' = outvec s /\
       step T client (ReqGetInfo uid) (Ok (storage_info_bytes i)) T)
    (refuses T client (ReqGetInfo uid) (outvec s)) s.
Proof.
  intros Hs Hbuf Hu. unfold tfm_its_get_info. apply wp_bind.
  eapply (wp_get_file_info TFM_SP_PS ci cp Hci Hcp d client uid _ _ s T); [done|done|reflexivity..| | |].
  - intros ->. apply refuses_intro; try done. constructor.
  - intros f s1 Hne Hf Hs1 (V1 & V2 & V3 & V4 & V5). apply wp_bind, wp_gets, wp_ret. rewrite V2, V3, V5.
    split_and!; try done. by constructor.
  - intros s1 Hne Hf Hs1 (V1 & V2 & V3 & V4 & V5). apply refuses_intro; [by constructor|done|by rewrite V3|done].
Qed.

Lemma wp_tfm_its_remove client uid s T :
  d (side client) = false -> svc_at d s T -> buffer_ok (asset_data s) -> is_uid uid ->
  let r := ReqRemove uid in
  wp (tfm_its_remove TFM_SP_PS client uid) (replies T client r (outvec s)) (refuses T client r (outvec s)) s.
Proof.
  intros Hcl Hs Hbuf Hu r. unfold tfm_its_remove. apply wp_bind.
  eapply (wp_get_file_info TFM_SP_PS ci cp Hci Hcp d client uid _ _ s T); [done|done|reflexivity..| | |].
  - intros ->. apply refuses_intro; try done. constructor.
  - intros f s1 Hne Hf Hs1 (V1 & V2 & V3 & V4 & V5). apply wp_bind, wp_gets, wp_bind, wp_check; rewrite V2; cbn [info_flags];
      fold (write_once f); rewrite ?negb_true_iff, ?negb_false_iff; intros Hwo.
    2:{ apply refuses_intro; [by econstructor|done|by rewrite V3|done]. }
    apply wp_bind, wp_gets. rewrite V1.
    eapply (wp_fs_delete TFM_SP_PS ci cp Hci Hcp Hei Hep d client _ _ _ s1 T); [done|done|by apply get_fid_ok|..].
    + intros s2 (W1 & W2 & W3 & W4 & W5) _ Hs2.
      eapply replies_intro; [by eapply as_remove|done|by rewrite W3, V3|by rewrite W5].
    + intros Hn. congruence.
  - intros s1 Hne Hf Hs1 (V1 & V2 & V3 & V4 & V5). apply refuses_intro; [by constructor|done|by rewrite V3|done].
Qed.

(** *** Handlers *)

(** What the framework hands over: the vectors have the sizes the message
    names, the output vectors are still empty. *)
Record msg_ok (msg : psa_msg_t) (iv : list (list Z)) : Prop := {
  mk_client : is_client (msg_client_id msg);
  mk_in : in_size msg = map (@zlen Z) iv;
  mk_len : length iv = 4%nat;
  mk_bytes : Forall (Forall is_byte) iv;
  mk_size : zlen (nth 1 iv []) < 2147483648;
  mk_out : length (out_size msg) = 4%nat /\ Forall is_u32 (out_size msg);
}.

Lemma wp_read_arg i n s T Q E :
  let v := nth i (invec s) [] in
  svc_at d s T -> buffer_ok (asset_data s) -> (i < length (invec s))%nat -> zlen v = n ->
  (forall s', svc_at d s' T -> buffer_ok (asset_data s') -> outvec s' = outvec s ->
     invec s' = <[i := []]> (invec s) -> Q (le_val v) s') ->
  wp (read_arg i n) Q E s.
Proof.
  intros v Hs Hb Hi Hn HQ. unfold read_arg, psa_read. apply wp_bind, wp_bind. unfold wp at 1, get. fold v.
  rewrite Hn, Z.min_id, Z.sub_diag. apply wp_bind. unfold wp at 1, put. apply wp_ret, wp_bind, wp_check.
  - intros _. rewrite <- Hn, sub_bytes_all. apply wp_ret. by apply HQ.
  - rewrite <- Hn, sub_bytes_all. rewrite Z.eqb_refl. done.
Qed.

Lemma nth_bytes iv i : Forall (Forall is_byte) iv -> Forall is_byte (nth i iv []).
Proof. intros Hb. rewrite nth_lookup. destruct (iv !! i) eqn:Hi; [by eapply Forall_lookup_1 in Hi|constructor]. Qed.

Lemma arg_range iv i n : Forall (Forall is_byte) iv -> zlen (nth i iv []) = n -> 0 <= le_val (nth i iv []) < 256 ^ n.
Proof.
  intros Hb <-. by apply le_val_range, nth_bytes. Qed.

Lemma size_is_spec iv i n : length iv = 4%nat -> (i < 4)%nat -> size_is (map (@zlen Z) iv) i n = true -> zlen (nth i iv []) = n.
Proof.
  unfold size_is. rewrite Z.eqb_eq. intros Hl Hi <-. symmetry. apply (map_nth (@zlen Z) iv []).
Qed.

Section handlers.
Context (msg : psa_msg_t) (s : its_svc F G) (T : bool -> filemap).
Context (Hs : svc_at d s T) (Hb : buffer_ok (asset_data s)) (Hm : msg_ok msg (invec s)) (Hov : length (outvec s) = 4%nat).

(** The answer to a request with decoding [q]. *)
Definition answers_ok (q : psa_status_t + request) (_ : unit) (s' : its_svc F G) : Prop :=
  exists r, q = inr r /\ replies T (msg_client_id msg) r (outvec s) tt s'.
Definition answers_err (q : psa_status_t + request) (e : psa_status_t) (s' : its_svc F G) : Prop :=
  match q with
  | inr r => refuses T (msg_client_id msg) r (outvec s) e s'
  | inl e' => e = e' /\ s' = s
  end.

Lemma wp_set_req :
  (forall r, decode_set msg (invec s) = inr r -> d (side (msg_client_id msg)) = false) ->
  wp (tfm_its_set_req TFM_SP_PS msg) (answers_ok (decode_set msg (invec s))) (answers_err (decode_set msg (invec s))) s.
Proof.
  destruct Hm as [Hc Hin Hl Hby Hsz _]. intros Hcl. revert Hcl. unfold tfm_its_set_req, decode_set. rewrite Hin.
  intros Hcl. apply wp_bind, wp_check; intros Hsize; rewrite Hsize in *; [|done]. specialize (Hcl _ eq_refl).
  apply andb_true_iff in Hsize as [S0%size_is_spec S2%size_is_spec]; try lia.
  apply wp_bind, (wp_read_arg 0 8 s T); try done; try lia. intros s1 Hs1 Hb1 Ho1 Hi1.
  apply wp_bind, (wp_read_arg 2 4 s1 T); rewrite ?Hi1, ?length_insert, ?nth_insert_ne by done; try done; try lia.
  intros s2 Hs2 Hb2 Ho2 Hi2. assert (outvec s = outvec s2) as Hov2 by congruence.
  rewrite (map_nth (@zlen Z) (invec s) [] 1 : nth 1 (map (@zlen Z) (invec s)) 0 = _).
  unfold answers_ok, answers_err. rewrite Hov2.
  eapply wp_mono; [eapply (wp_tfm_its_set _ _ _ _ s2 T)|cbv beta; by eauto|done]; try done.
  - apply (arg_range _ 0 8 Hby S0).
  - apply (arg_range _ 2 4 Hby S2).
  - rewrite Hi2, !length_insert. lia.
  - by rewrite Hi2, !nth_insert_ne by done.
  - by apply nth_bytes.
Qed.

Lemma wp_get_req : wp (tfm_its_get_req TFM_SP_PS msg) (answers_ok (decode_get msg (invec s))) (answers_err (decode_get msg (invec s))) s.
Proof.
  destruct Hm as [Hc Hin Hl Hby Hsz [Hol Ho]]. unfold tfm_its_get_req, decode_get. rewrite Hin.
  apply wp_bind, wp_check; intros Hsize; rewrite Hsize; [|done].
  apply andb_true_iff in Hsize as [S0%size_is_spec S1%size_is_spec]; try lia.
  apply wp_bind, (wp_read_arg 0 8 s T); try done; try lia. intros s1 Hs1 Hb1 Ho1 Hi1.
  apply wp_bind, (wp_read_arg 1 4 s1 T); rewrite ?Hi1, ?length_insert, ?nth_insert_ne by done; try done; try lia.
  intros s2 Hs2 Hb2 Ho2 Hi2. assert (outvec s = outvec s2) as Hov2 by congruence. apply wp_bind.
  unfold answers_ok, answers_err. rewrite Hov2.
  eapply wp_mono; [eapply (wp_tfm_its_get _ _ _ _ s2 T)|cbv beta; intros _ s3 H3; apply wp_ret; by eauto|done]; try done.
  - apply (arg_range _ 0 8 Hby S0).
  - apply (arg_range _ 1 4 Hby S1).
  - rewrite nth_lookup. destruct (out_size msg !! 0%nat) as [x|] eqn:Hx; [|done].
    eapply Forall_lookup_1 in Hx; [|exact Ho]. unfold is_u32 in Hx. simpl. lia.
  - rewrite Ho2, Ho1. lia.
Qed.

Lemma wp_get_info_req :
  wp (tfm_its_get_info_req TFM_SP_PS msg) (answers_ok (decode_get_info msg (invec s))) (answers_err (decode_get_info msg (invec s))) s.
Proof.
  destruct Hm as [Hc Hin Hl Hby Hsz _]. unfold tfm_its_get_info_req, decode_get_info. rewrite Hin.
  apply wp_bind, wp_check; intros Hsize; rewrite Hsize; [|done].
  apply andb_true_iff in Hsize as [S0%size_is_spec _]; try lia.
  apply wp_bind, (wp_read_arg 0 8 s T); try done; try lia. intros s1 Hs1 Hb1 Ho1 Hi1.
  assert (outvec s = outvec s1) as Hov1 by congruence. apply wp_bind. unfold answers_ok, answers_err. rewrite Hov1.
  eapply wp_mono; [eapply (wp_tfm_its_get_info _ _ s1 T)|cbv beta|done]; try done.
  - apply (arg_range _ 0 8 Hby S0).
  - intros i s2 (Hs2 & Hb2 & Ho2 & Hst). apply wp_modify. eexists. split; [done|].
    exists (storage_info_bytes i), T. split; cbn [outvec asset_data]; rewrite ?Ho2; auto using svc_at_mark.
    + by rewrite length_insert.
    + rewrite nth_insert_eq; [done|]. rewrite Ho1. lia.
Qed.

Lemma wp_remove_req :
  (forall r, decode_remove msg (invec s) = inr r -> d (side (msg_client_id msg)) = false) ->
  wp (tfm_its_remove_req TFM_SP_PS msg) (answers_ok (decode_remove msg (invec s))) (answers_err (decode_remove msg (invec s))) s.
Proof.
  destruct Hm as [Hc Hin Hl Hby Hsz _]. unfold tfm_its_remove_req, decode_remove. rewrite Hin.
  intros Hcl. apply wp_bind, wp_check; intros Hsize; rewrite Hsize in *; [|done]. specialize (Hcl _ eq_refl).
  apply size_is_spec in Hsize as S0; try lia.
  apply wp_bind, (wp_read_arg 0 8 s T); try done; try lia. intros s1 Hs1 Hb1 Ho1 Hi1.
  assert (outvec s = outvec s1) as Hov1 by congruence. unfold answers_ok, answers_err. rewrite Hov1.
  eapply wp_mono; [eapply (wp_tfm_its_remove _ _ s1 T)|cbv beta; by eauto|done]; try done.
  apply (arg_range _ 0 8 Hby S0).
Qed.

(** Every request is answered as its decoding says. *)
Lemma wp_service :
  (forall r, decode_req msg (invec s) = inr r -> updating r = true -> d (side (msg_client_id msg)) = false) ->
  wp (tfm_internal_trusted_storage_service_sfn TFM_SP_PS msg)
    (answers_ok (decode_req msg (invec s))) (answers_err (decode_req msg (invec s))) s.
Proof.
  unfold tfm_internal_trusted_storage_service_sfn, decode_req.
  destruct (_ =? TFM_ITS_SET); [intros Hcl; apply wp_set_req; intros r Hr; apply (Hcl r Hr)|].
  { unfold decode_set in Hr. case_match; [by injection Hr as <-|done]. }
  destruct (_ =? TFM_ITS_GET); [intros _; apply wp_get_req|]. destruct (_ =? TFM_ITS_GET_INFO); [intros _; apply wp_get_info_req|].
  destruct (_ =? TFM_ITS_REMOVE); [|done]. intros Hcl. apply wp_remove_req. intros r Hr. apply (Hcl r Hr).
  unfold decode_remove in Hr. case_match; [by injection Hr as <-|done].
Qed.
End handlers.
End service.
