(* ===== verification/ItsServiceSpec.v ===== *)
(** * What the storage service guarantees

    Requests one after the other, and the theorems about
    [tfm_internal_trusted_storage.c] and [tfm_its_req_mngr.c]. *)

From S2P Require Import Prelude Bytes ItsUtils ItsFlash ItsMeta ItsMblock ItsFs ItsState ItsView ItsCommit ItsLayout ItsStore ItsInv ItsLookup ItsWrite ItsFileWrite ItsOps ItsModel ItsDemo ItsService ItsAssets ItsRequests.
From stdpp Require Import base list numbers functions gmap.
From Stdlib Require Import ZArith Lia.

Open Scope Z_scope.
Open Scope tfm_scope.

(** ** Requests in sequence *)

(** The identifier a request names fits its 8 bytes. *)
Lemma decode_uid msg iv q : msg_ok msg iv -> decode_req msg iv = inr q -> is_uid (req_uid q).
Proof.
  intros [Hc Hin Hl Hby _ _]. unfold decode_req, decode_set, decode_get, decode_get_info, decode_remove. rewrite Hin. intros Hq.
  assert (size_is (map (@zlen Z) iv) 0 8 = true -> is_uid (le_val (nth 0 iv []))) as Hu.
  { intros Hs%size_is_spec; [|done|lia]. by apply (arg_range _ 0 8 Hby). }
  destruct (_ =? TFM_ITS_SET); [|destruct (_ =? TFM_ITS_GET); [|destruct (_ =? TFM_ITS_GET_INFO);
    [|destruct (_ =? TFM_ITS_REMOVE); [|done]]]];
    destruct (size_is _ 0 8); cbn [andb] in Hq; try done; repeat case_match; try done; injection Hq as <-; by apply Hu.
Qed.

Inductive svc_event : Type :=
| Request (x : psa_msg_t * list (list Z))
| Restart.

Section serve.
Context {F G : Type} `{FlashOps F} `{FlashOps G} (TFM_SP_PS : Z).

(** One call of the service: fresh vectors, the handler, the reply. *)
Definition serve (x : psa_msg_t * list (list Z)) : M (its_svc F G) (list Z) :=
  let* s := get in
  let* _ := put (ItsSvc (g_fid s) (g_file_info s) (asset_data s) (fs_cfg_its s) (fs_its s) (fs_cfg_ps s) (fs_ps s)
                   (snd x) [[]; []; []; []]) in
  let* _ := tfm_internal_trusted_storage_service_sfn TFM_SP_PS (fst x) in
  gets (fun s => nth 0 (outvec s) []).

(** The device is reset between two requests: the variables are zero again,
    the flash is not, and the partition is initialised. *)
Context (its_cfg0 ps_cfg0 : its_flash_fs_config_t) (its_info ps_info : hal_fs_info) (its_create ps_create : bool).

Definition restart : M (its_svc F G) (list Z) :=
  let* s := get in
  let* _ := put (ItsSvc (fill 12 0) (FileInfo 0 0 0) (fill (zlen (asset_data s)) 0)
                   its_cfg0 (FsSt (st_flash (fs_its s)) ctx_zero) ps_cfg0 (FsSt (st_flash (fs_ps s)) ctx_zero) [] []) in
  let* _ := tfm_its_init its_info ps_info its_create ps_create in
  ret [].

Definition serve_event (e : svc_event) : M (its_svc F G) (list Z) :=
  match e with Request x => serve x | Restart => restart end.

Fixpoint serve_all (es : list svc_event) : M (its_svc F G) (list (res (list Z))) :=
  match es with
  | [] => ret []
  | e :: es =>
      let* r := try (serve_event e) in
      let* rs := serve_all es in
      ret (r :: rs)
  end.
End serve.

Section spec.
Context (TFM_SP_PS : Z) (ci cp : its_flash_fs_config_t).
Implicit Types (T : bool -> filemap) (x : psa_msg_t * list (list Z)) (client uid : Z).

(** [serve_step d T e r d' T']: with the assets [T] the event [e] may be
    answered by [r] and leave the assets [T'].  [d] says on which side a set
    that had to replace an asset has been refused for lack of room since the
    last start-up; the rules for requests that update that side then do not
    apply. *)
Inductive serve_step : (bool -> bool) -> (bool -> filemap) -> svc_event -> res (list Z) -> (bool -> bool) -> (bool -> filemap) -> Prop :=
| ss_malformed d T x e : decode_req (fst x) (snd x) = inl e -> serve_step d T (Request x) (Err e) d T
| ss_served d T x r o T' : decode_req (fst x) (snd x) = inr r ->
    (updating r = true -> d (side TFM_SP_PS (msg_client_id (fst x))) = false) ->
    asset_step TFM_SP_PS ci cp T (msg_client_id (fst x)) r o T' ->
    ~ must_remount TFM_SP_PS ci cp T (msg_client_id (fst x)) r o -> serve_step d T (Request x) o d T'
| ss_refused d T x r o : decode_req (fst x) (snd x) = inr r -> d (side TFM_SP_PS (msg_client_id (fst x))) = false ->
    asset_step TFM_SP_PS ci cp T (msg_client_id (fst x)) r o T ->
    must_remount TFM_SP_PS ci cp T (msg_client_id (fst x)) r o ->
    serve_step d T (Request x) o (mark d (side TFM_SP_PS (msg_client_id (fst x)))) T
| ss_restart d T : serve_step d T Restart (Ok []) clean T.

Inductive serve_run : (bool -> bool) -> (bool -> filemap) -> list svc_event -> list (res (list Z)) ->
    (bool -> bool) -> (bool -> filemap) -> Prop :=
| sr_nil d T : serve_run d T [] [] d T
| sr_cons d T e es r rs d1 T1 d2 T2 :
    serve_step d T e r d1 T1 -> serve_run d1 T1 es rs d2 T2 -> serve_run d T (e :: es) (r :: rs) d2 T2.

(** Between a set that had to replace an asset and was refused for lack of
    room, and the next restart, no request sets or removes an asset on that
    side. *)
Definition restarts (d : bool -> bool) T (es : list svc_event) (rs : list (res (list Z))) : Prop :=
  forall es1 x es2 rs1 rs2 d1 T1 r, es = es1 ++ Request x :: es2 -> rs = rs1 ++ rs2 -> serve_run d T es1 rs1 d1 T1 ->
    decode_req (fst x) (snd x) = inr r -> updating r = true -> d1 (side TFM_SP_PS (msg_client_id (fst x))) = false.

Lemma restarts_nil d T rs : restarts d T [] rs.
Proof. intros [|e es1] x es2 rs1 rs2 d1 T1 r [=]. Qed.

Lemma restarts_head d T x es rs r : restarts d T (Request x :: es) rs -> decode_req (fst x) (snd x) = inr r ->
  updating r = true -> d (side TFM_SP_PS (msg_client_id (fst x))) = false.
Proof. intros Hr. apply (Hr [] x es [] rs d T r); [done|done|constructor]. Qed.

Lemma restarts_tail d T e es r rs d1 T1 :
  serve_step d T e r d1 T1 -> restarts d T (e :: es) (r :: rs) -> restarts d1 T1 es rs.
Proof.
  intros Hst Hr es1 x es2 rs1 rs2 d2 T2 q -> -> Hrun. apply (Hr (e :: es1) x es2 (r :: rs1) rs2 d2 T2 q); [done|done|].
  by econstructor.
Qed.

Lemma restarts_cons d T e es r rs :
  (forall x q, e = Request x -> decode_req (fst x) (snd x) = inr q -> updating q = true ->
     d (side TFM_SP_PS (msg_client_id (fst x))) = false) ->
  (forall d1 T1, serve_step d T e r d1 T1 -> restarts d1 T1 es rs) -> restarts d T (e :: es) (r :: rs).
Proof.
  intros He Htl [|e1 es1] x es2 rs1 rs2 d2 T2 q Hes Hrs Hrun; injection Hes as Heq Hes.
  - inversion Hrun; subst. by apply He.
  - subst e1. inversion Hrun as [|? ? ? ? r1 rs3 d1 T1 ? ? Hst Hr]; subst. injection Hrs as -> Hrs.
    by apply (Htl d1 T1 Hst es1 x es2 rs3 rs2 d2 T2 q).
Qed.

(** A sufficient condition that can be computed: no set and no remove between
    a set that returned an error and the next restart. *)
Fixpoint no_update_before_restart (b : bool) (es : list svc_event) (rs : list (res (list Z))) : bool :=
  match es, rs with
  | Request x :: es, r :: rs =>
      match decode_req (fst x) (snd x) with
      | inr q => negb (b && updating q) &&
          no_update_before_restart (b || (updating q && match r with Ok _ => false | Err _ => true end)) es rs
      | inl _ => no_update_before_restart b es rs
      end
  | Restart :: es, _ :: rs => no_update_before_restart false es rs
  | _, _ => true
  end.

Lemma no_update_restarts es rs b d T :
  length rs = length es -> no_update_before_restart b es rs = true -> (forall b', d b' = true -> b = true) -> restarts d T es rs.
Proof.
  revert rs b d T. induction es as [|e es IH]; intros [|r rs] b d T; [intros; by apply restarts_nil|done..|].
  intros [= Hl] Hn Hd. apply restarts_cons.
  - intros x q -> Hq Hu. cbn [no_update_before_restart] in Hn. rewrite Hq, Hu, andb_true_r in Hn.
    apply andb_true_iff in Hn as [Hb _]. apply negb_true_iff in Hb. subst b.
    destruct (d _) eqn:E; [|done]. by specialize (Hd _ E).
  - intros d1 T1 Hst. destruct Hst as [d T x e Hq|d T x q o T' Hq Hu Hst Hno|d T x q o Hq Hcl Hst Hm|d T];
      cbn [no_update_before_restart] in Hn; rewrite ?Hq in Hn.
    + by eapply IH.
    + apply andb_true_iff in Hn as [_ Hn]. eapply IH; [done|exact Hn|]. intros b' Hb. by rewrite (Hd b' Hb).
    + apply andb_true_iff in Hn as [_ Hn]. eapply IH; [done|exact Hn|]. intros b' _.
      destruct q, o; try done. by rewrite orb_true_r.
    + by eapply IH.
Qed.

(** A step concerns the asset the request names, and not if it is write-once. *)
Lemma step_other T client r o T' client' uid' :
  asset_step TFM_SP_PS ci cp T client r o T' ->
  tfm_its_get_fid client' uid' <> tfm_its_get_fid client (req_uid r) ->
  asset TFM_SP_PS T' client' uid' = asset TFM_SP_PS T client' uid'.
Proof.
  intros Hst Hne. unfold asset. destruct Hst; try done; cbn [req_uid] in Hne; unfold set_asset_to, remove_asset, upd;
    (destruct (Bool.eqb _ _) eqn:He; [apply eqb_prop in He; rewrite He|done]).
  - by rewrite lookup_insert_ne.
  - by rewrite lookup_delete_ne.
Qed.

Lemma step_once_reply T client q o T' f :
  asset_step TFM_SP_PS ci cp T client q o T' -> asset TFM_SP_PS T client (req_uid q) = Some f -> write_once f = true ->
  req_uid q <> 0 ->
  match q with
  | ReqRemove _ => o = Err PSA_ERROR_NOT_PERMITTED
  | ReqSet _ _ fl => bic fl supported_flags = 0 -> o = Err PSA_ERROR_NOT_PERMITTED
  | _ => True
  end.
Proof.
  intros Hst Hf Hw Hne. destruct Hst as [| | |uid data fl e H0 Hs Hno|uid data fl H0 Hs Hno| | | | | | | | | | | |uid g H0 Hg Hno];
    try done; cbn [req_uid] in Hf; try congruence; specialize (Hno _ Hf); congruence.
Qed.

(** The reply to a read of an asset that was just set. *)
Lemma get_reply T client uid off n f (d : list Z) T' :
  asset_step TFM_SP_PS ci cp (set_asset_to TFM_SP_PS T client uid f) client (ReqGet uid off n) (Ok d) T' ->
  d = sub_bytes off (Z.min n (zlen (f_data f) - off)) (f_data f).
Proof.
  intros Hst. inversion Hst as [| | | | | | | |? ? ? g Hne Hg Hle| | | | | | | |]; subst.
  unfold asset, set_asset_to in Hg. rewrite upd_same, lookup_insert_eq in Hg. by injection Hg as <-.
Qed.

Lemma get_reply_err T client uid off n f e T' : uid <> 0 ->
  0 <= off < zlen (f_data f) -> 0 < n ->
  asset_step TFM_SP_PS ci cp (set_asset_to TFM_SP_PS T client uid f) client (ReqGet uid off n) (Err e) T' -> False.
Proof.
  intros Hz Ho Hn Hst. assert (asset TFM_SP_PS (set_asset_to TFM_SP_PS T client uid f) client uid = Some f) as Hf
    by (unfold asset, set_asset_to; by rewrite upd_same, lookup_insert_eq).
  inversion Hst as [| | | | | |? ? ? Hne Hg|? ? ? g Hne Hg Hle| |? ? ? g Hne Hg Hle Hm| | | | | | |]; subst; try congruence;
    rewrite Hf in Hg; injection Hg as <-; lia.
Qed.

Lemma step_once T client r o T' f :
  asset_step TFM_SP_PS ci cp T client r o T' -> asset TFM_SP_PS T client (req_uid r) = Some f -> write_once f = true -> T' = T.
Proof.
  intros Hst Hf Hw. destruct Hst as [| | | |uid data fl Hne Hs Hno| | | | | | | | | | | |uid g Hne Hg Hno]; try done; cbn [req_uid] in Hf.
  - specialize (Hno _ Hf). congruence.
  - congruence.
Qed.
End spec.

(** ** Initialisation *)

Section boot.
Context {F : Type} `{FlashOps F} (cfg : its_flash_fs_config_t) `{!FlashLaws F (flash_cfg cfg)} `{!FlashTotal F (flash_cfg cfg)}.
Context (Hcfg : cfg_wf cfg) (Hev : ev_ok (flash_cfg cfg)).

(** Neither metadata block has a valid header. *)
Definition unmountable (f : F) : Prop := fl_ok f /\ mount cfg (fl_block f) = None.

(** What the flash must hold for the file system to come up with the files
    [S]: these files, or nothing that can be mounted if it may be formatted. *)
Definition boots (create : bool) (f : F) (S : filemap) : Prop :=
  holds cfg f (fun S' => S' = S) \/ (create = true /\ unmountable f /\ S = ∅).

Lemma wp_prepare_unmountable s : unmountable (st_flash s) ->
  wp (its_flash_fs_prepare cfg) (fun _ _ => False) (fun _ s' => s' = s) s.
Proof.
  intros [Hok Hm]. unfold its_flash_fs_prepare, its_flash_fs_mblock_init. apply wp_bind, wp_bind, wp_or_return.
  eapply (wp_get_active cfg Hcfg _ _ s (st_ctx s)); [by split|congruence|done].
Qed.

Lemma wp_prepare_or_wipe create s S :
  boots create (st_flash s) S -> st_ctx s = ctx_zero ->
  wp (prepare_or_wipe create cfg) (fun _ s' => implements cfg s' S) (fun _ _ => False) s.
Proof.
  intros [Hh|(-> & Hu & ->)] Hc; unfold prepare_or_wipe; apply wp_bind, wp_try.
  - eapply wp_mono; [by apply (model_prepare cfg Hcfg Hev _ s Hh)|cbv beta|done].
    intros [] s' (S' & -> & Hi). by apply wp_ret.
  - eapply wp_mono; [by apply wp_prepare_unmountable|done|cbv beta]. intros e s' ->. apply wp_bind.
    eapply wp_mono; [apply (model_wipe cfg Hcfg Hev s (proj1 Hu)); rewrite Hc|cbv beta|done].
    + split; vm_compute; intuition congruence.
    + by left.
    + intros [] s1 Hh. eapply wp_mono; [by apply (model_prepare cfg Hcfg Hev _ s1 Hh)|cbv beta|done].
      by intros [] s' (S' & -> & Hi).
Qed.
End boot.

Section service.
Context {F G : Type} `{FlashOps F} `{FlashOps G} (TFM_SP_PS : Z).
Context (ci cp : its_flash_fs_config_t).
Context `{!FlashLaws F (flash_cfg ci)} `{!FlashTotal F (flash_cfg ci)}.
Context `{!FlashLaws G (flash_cfg cp)} `{!FlashTotal G (flash_cfg cp)}.
Context (Hci : cfg_wf ci) (Hcp : cfg_wf cp) (Hei : ev_ok (flash_cfg ci)) (Hep : ev_ok (flash_cfg cp)).
Implicit Types (s : its_svc F G) (T : bool -> filemap) (x : psa_msg_t * list (list Z)) (client uid : Z).

Abbreviation svc_is := (svc_is ci cp).
Abbreviation svc_at := (svc_at ci cp).
Abbreviation svc_left := (svc_left ci cp).
Abbreviation buffer_ok := (buffer_ok ci cp).
Abbreviation asset := (asset TFM_SP_PS).
Abbreviation step := (asset_step TFM_SP_PS ci cp).

(** The service is up: both file systems are mounted and hold the assets [T]. *)
Definition up s T : Prop := svc_is s T /\ buffer_ok (asset_data s).

(** The same with file systems that need a mount, as [d] says. *)
Definition up_at (d : bool -> bool) s T : Prop := svc_at d s T /\ buffer_ok (asset_data s).

Lemma wp_serve_at d x s T :
  up_at d s T -> msg_ok (fst x) (snd x) ->
  (forall r, decode_req (fst x) (snd x) = inr r -> updating r = true -> d (side TFM_SP_PS (msg_client_id (fst x))) = false) ->
  wp (serve TFM_SP_PS x)
    (fun v s' => exists r T', decode_req (fst x) (snd x) = inr r /\ step T (msg_client_id (fst x)) r (Ok v) T' /\ up_at d s' T')
    (fun e s' => match decode_req (fst x) (snd x) with
       | inl e' => e = e' /\ up_at d s' T
       | inr r => step T (msg_client_id (fst x)) r (Err e) T /\ buffer_ok (asset_data s') /\
           svc_at (mark d (side TFM_SP_PS (msg_client_id (fst x)))) s' T /\
           (~ must_remount TFM_SP_PS ci cp T (msg_client_id (fst x)) r (Err e) -> svc_at d s' T)
       end) s.
Proof.
  intros [Hs Hb] Hm Hcl. unfold serve. apply wp_bind. unfold wp at 1, get. apply wp_bind. unfold wp at 1, put.
  set (s0 := ItsSvc _ _ _ _ _ _ _ _ _). assert (svc_at d s0 T) as Hs0 by done.
  apply wp_bind. eapply wp_mono; [eapply (wp_service TFM_SP_PS ci cp Hci Hcp Hei Hep d (fst x) s0 T)|cbv beta..]; try done.
  - intros [] s1 (r & Hr & v & T' & [Hst Hi Hl Hbuf _ Ho]). apply wp_gets. exists r, T'. change (nth 0 (outvec s0) [] ++ v) with v in Ho. rewrite Ho.
    split; [done|split; [done|split; [|done]]]. apply Hi. destruct r; intros [].
  - unfold answers_err. cbn [invec]. intros e s1 Hx. subst s0. cbn [invec] in Hx. destruct (decode_req (fst x) (snd x)) as [e'|r].
    + by destruct Hx as (-> & ->).
    + by destruct Hx.
Qed.

Lemma wp_serve x s T :
  up s T -> msg_ok (fst x) (snd x) ->
  wp (serve TFM_SP_PS x)
    (fun d s' => exists r T', decode_req (fst x) (snd x) = inr r /\ step T (msg_client_id (fst x)) r (Ok d) T' /\ up s' T')
    (fun e s' => match decode_req (fst x) (snd x) with
       | inl e' => e = e' /\ up s' T
       | inr r => step T (msg_client_id (fst x)) r (Err e) T /\ buffer_ok (asset_data s') /\
           svc_left s' (side TFM_SP_PS (msg_client_id (fst x))) T /\
           (~ must_remount TFM_SP_PS ci cp T (msg_client_id (fst x)) r (Err e) -> svc_is s' T)
       end) s.
Proof.
  intros Hs Hm. eapply wp_mono; [by apply (wp_serve_at clean x s T)|cbv beta; done|cbv beta]. intros e s' He.
  destruct (decode_req (fst x) (snd x)) as [e'|r]; [done|]. destruct He as (H1 & H2 & H3 & H4).
  split_and!; [done|done|by apply svc_at_left|done].
Qed.

#[local] Instance must_remount_dec T client r o : Decision (must_remount TFM_SP_PS ci cp T client r o).
Proof.
  destruct r as [uid data fl| | |], o as [d|e]; try (right; by intros []). unfold must_remount, no_room.
  apply and_dec; [apply _|]. destruct (asset T client uid) as [f|].
  - destruct (decide (f_max f <> ITS_UTILS_ALIGN (zlen data) (program_unit (flash_cfg (cfg_of ci cp (side TFM_SP_PS client))))));
      [|right; intros [Hf _]; by apply n, (Hf f)].
    destruct (decide (e = PSA_ERROR_INVALID_ARGUMENT /\
        max_file_size (cfg_of ci cp (side TFM_SP_PS client)) < ITS_UTILS_ALIGN (zlen data) (program_unit (flash_cfg (cfg_of ci cp (side TFM_SP_PS client)))) \/
        e = PSA_ERROR_INSUFFICIENT_STORAGE)); [left|right; tauto].
    split; [by intros g [= ->]|done].
  - apply and_dec; [by left|apply _].
Defined.

(** The static configuration, completed from the HAL's description of the
    flash area and by the driver's [init], is the configuration [cfg]; [init]
    leaves the flash alone. *)
Definition configures {X} `{FlashOps X} (c0 : its_flash_fs_config_t) (info : hal_fs_info) (cfg : its_flash_fs_config_t) (f : X) : Prop :=
  exists c1, init_fs_cfg c0 info = inr c1 /\ op_init (flash_cfg c1) f = (Ok (flash_cfg cfg), f) /\
    max_file_size c1 = max_file_size cfg /\ max_num_files c1 = max_num_files cfg.

Lemma wp_init_ctx {X} `{FlashOps X} (c1 cfg : its_flash_fs_config_t) (s : fs_st X) :
  cfg_wf cfg -> op_init (flash_cfg c1) (st_flash s) = (Ok (flash_cfg cfg), st_flash s) ->
  max_file_size c1 = max_file_size cfg -> max_num_files c1 = max_num_files cfg ->
  its_flash_fs_init_ctx c1 s = (Ok cfg, FsSt (st_flash s) ctx_zero).
Proof.
  intros Hwf Hin Hmf Hmn. unfold its_flash_fs_init_ctx, bind, lift_flash. rewrite Hin, Hmf, Hmn.
  assert (FsConfig (flash_cfg cfg) (max_file_size cfg) (max_num_files cfg) = cfg) as -> by (by destruct cfg).
  unfold of_status. by rewrite validate_config_ok.
Qed.

Lemma wp_its_init its_info ps_info its_create ps_create s T :
  configures (fs_cfg_its s) its_info ci (st_flash (fs_its s)) -> configures (fs_cfg_ps s) ps_info cp (st_flash (fs_ps s)) ->
  boots ci its_create (st_flash (fs_its s)) (T false) -> boots cp ps_create (st_flash (fs_ps s)) (T true) ->
  wp (tfm_its_init its_info ps_info its_create ps_create)
    (fun _ s' => svc_is s' T /\ asset_data s' = asset_data s) (fun _ _ => False) s.
Proof.
  destruct s as [gf gi ad cfi fi cfp fp iv ov]. cbn [fs_cfg_its fs_its fs_cfg_ps fs_ps].
  intros (c1 & I1 & I2 & I3 & I4) (c2 & J1 & J2 & J3 & J4) Hbi Hbp.
  unfold tfm_its_init, init_its_fs_cfg, init_ps_fs_cfg. apply wp_bind, wp_bind, wp_gets. cbn [fs_cfg_its].
  rewrite I1. apply wp_modify, wp_bind. unfold wp at 1, on_its at 1. cbn.
  rewrite (wp_init_ctx c1 ci) by done. apply wp_bind, wp_modify, wp_bind. cbn.
  pose proof (wp_prepare_or_wipe ci Hci Hei its_create (FsSt (st_flash fi) ctx_zero) (T false) Hbi eq_refl) as Hp1.
  unfold wp in Hp1. unfold wp at 1, on_its. cbn.
  destruct (prepare_or_wipe its_create ci _) as [[[]|e1] f1]; [|done].
  apply wp_bind, wp_bind, wp_gets. cbn. rewrite J1. apply wp_modify, wp_bind. unfold wp at 1, on_ps at 1. cbn.
  rewrite (wp_init_ctx c2 cp) by done. apply wp_bind, wp_modify. cbn.
  pose proof (wp_prepare_or_wipe cp Hcp Hep ps_create (FsSt (st_flash fp) ctx_zero) (T true) Hbp eq_refl) as Hp2.
  unfold wp in Hp2. unfold wp, on_ps. cbn. by destruct (prepare_or_wipe ps_create cp _) as [[[]|e2] f2].
Qed.

(** *** Sequences of requests and restarts *)

Section sequences.
Context (its_cfg0 ps_cfg0 : its_flash_fs_config_t) (its_info ps_info : hal_fs_info) (its_create ps_create : bool).
Context (Hini : forall f : F, fl_ok f -> configures its_cfg0 its_info ci f).
Context (Hinp : forall f : G, fl_ok f -> configures ps_cfg0 ps_info cp f).

Abbreviation serve_seq := (serve_all TFM_SP_PS its_cfg0 ps_cfg0 its_info ps_info its_create ps_create).

Definition event_ok (e : svc_event) : Prop := match e with Request x => msg_ok (fst x) (snd x) | Restart => True end.

Lemma serve_all_total es s : exists rs s', serve_seq es s = (Ok rs, s') /\ length rs = length es.
Proof.
  revert s. induction es as [|e es IH]; intros s; [by eexists [], s|].
  cbn [serve_all]. unfold bind, try. destruct (serve_event _ _ _ _ _ _ _ e s) as [r s1].
  destruct (IH s1) as (rs & s2 & -> & Hl). eexists _, _. split; [done|]. simpl. by f_equal.
Qed.

Lemma fill_buffer_ok a : buffer_ok a -> buffer_ok (fill (zlen a) 0).
Proof.
  intros (Hz & Hb & Hm). unfold ItsAssets.buffer_ok. rewrite zlen_fill by lia. split_and!; [lia|lia|apply Forall_fill; unfold is_byte; lia|done].
Qed.

Lemma readable_fl_ok {X} `{FlashOps X} (cfg : its_flash_fs_config_t) `{!FlashLaws X (flash_cfg cfg)} (f : fs_st X) S :
  readable cfg f S -> fl_ok (st_flash f).
Proof. by intros (c & B0 & B & (Hok & _) & _). Qed.

(** A restart finds the assets again. *)
Lemma wp_restart d s T : up_at d s T ->
  wp (restart its_cfg0 ps_cfg0 its_info ps_info its_create ps_create) (fun v s' => v = [] /\ up s' T) (fun _ _ => False) s.
Proof.
  intros [(_ & _ & Hi & Hp) Hb]. apply matches_readable in Hi, Hp. unfold restart. apply wp_bind. unfold wp at 1, get. apply wp_bind.
  unfold wp at 1, put. apply wp_bind. eapply wp_mono; [apply (wp_its_init its_info ps_info its_create ps_create _ T);
    cbn [fs_cfg_its fs_its fs_cfg_ps fs_ps st_flash]|cbv beta|done].
  - apply Hini. by eapply readable_fl_ok.
  - apply Hinp. by eapply readable_fl_ok.
  - left. by apply readable_holds.
  - left. by apply readable_holds.
  - intros [] s1 [Hs1 Ha]. apply wp_ret. split; [done|]. split; [done|]. rewrite Ha. cbn [asset_data]. by apply fill_buffer_ok.
Qed.

(** One event, unless it updates a side that is in need of a mount. *)
Lemma wp_event d e s T :
  up_at d s T -> event_ok e ->
  (forall x r, e = Request x -> decode_req (fst x) (snd x) = inr r -> updating r = true ->
     d (side TFM_SP_PS (msg_client_id (fst x))) = false) ->
  wp (try (serve_event TFM_SP_PS its_cfg0 ps_cfg0 its_info ps_info its_create ps_create e))
    (fun r s' => exists d1 T1, serve_step TFM_SP_PS ci cp d T e r d1 T1 /\ up_at d1 s' T1) (fun _ _ => False) s.
Proof.
  intros Hs He Hcl. apply wp_try. destruct e as [x|]; cbn [serve_event event_ok] in *.
  - eapply wp_mono; [eapply (wp_serve_at d x s T Hs He); intros r; by apply Hcl|cbv beta..].
    + intros v s1 (r & T1 & Hr & Hst & Hup). exists d, T1. split; [|done]. eapply ss_served; [done| |done|by destruct r; intros []].
      intros Hu. by eapply Hcl.
    + intros e s1 He1. destruct (decode_req (fst x) (snd x)) as [e'|r] eqn:Hr.
      { destruct He1 as (-> & Hup). exists d, T. split; [by constructor|done]. }
      destruct He1 as (Hst & Hb & Hmk & Hi).
      destruct (decide (must_remount TFM_SP_PS ci cp T (msg_client_id (fst x)) r (Err e))) as [Hmr|Hmr].
      * eexists _, T. split; [eapply ss_refused; [done| |done|done]|by split]. eapply Hcl; [done|done|by destruct r].
      * exists d, T. split; [eapply ss_served; [done| |done|done]; intros Hu; by eapply Hcl|]. split; [by apply Hi|done].
  - eapply wp_mono; [by apply (wp_restart d s T)|cbv beta|done]. intros v s1 [-> Hup]. exists clean, T. split; [constructor|done].
Qed.

Lemma event_applies d e :
  (forall x r, e = Request x -> decode_req (fst x) (snd x) = inr r -> updating r = true ->
     d (side TFM_SP_PS (msg_client_id (fst x))) = false) \/
  (exists x r, e = Request x /\ decode_req (fst x) (snd x) = inr r /\ updating r = true /\
     d (side TFM_SP_PS (msg_client_id (fst x))) = true).
Proof.
  destruct e as [x|]; [|by left].
  destruct (decode_req (fst x) (snd x)) as [e'|q] eqn:Hq; [left; intros y r [= <-]; congruence|].
  destruct (updating q) eqn:Hu; [|left; intros y r [= <-]; congruence].
  destruct (d (side TFM_SP_PS (msg_client_id (fst x)))) eqn:Hd; [right; by exists x, q|left; intros y r [= <-]; congruence].
Qed.

Lemma serve_all_refine es d s T :
  up_at d s T -> Forall event_ok es ->
  wp (serve_seq es)
    (fun rs s' => restarts TFM_SP_PS ci cp d T es rs -> exists d' T', serve_run TFM_SP_PS ci cp d T es rs d' T' /\ up_at d' s' T')
    (fun _ _ => False) s.
Proof.
  revert d s T. induction es as [|e es IH]; intros d s T Hs Hx.
  { apply wp_ret. intros _. eexists _, _. split; [constructor|done]. }
  apply Forall_cons in Hx as [Hx Hxs].
  destruct (event_applies d e) as [Hcl|(x & r & -> & Hr & Hu & Hd)]; swap 1 2.
  { destruct (serve_all_total (Request x :: es) s) as (rs & s2 & Hrun & _). unfold wp. rewrite Hrun.
    intros Hre. pose proof (restarts_head _ _ _ _ _ _ _ _ _ Hre Hr Hu). congruence. }
  cbn [serve_all]. apply wp_bind. eapply wp_mono; [apply (wp_event d e s T Hs Hx)|cbv beta|done].
  { exact Hcl. }
  intros r s1 (d1 & T1 & Hst & Hup). apply wp_bind. eapply wp_mono; [by apply (IH d1 s1 T1)|cbv beta|done].
  intros rs s2 Hrun. apply wp_ret. intros Hre. destruct Hrun as (d2 & T2 & Hrun & Hup2); [by eapply restarts_tail|].
  exists d2, T2. split; [by econstructor|done].
Qed.
End sequences.

(** ** The guarantees *)

(** C20: on working drivers, whose configurations start-up accepts, every
    sequence of requests, from any clients, and of restarts of the device is
    answered.  If, after a set that had to replace an asset and was
    refused for lack of room, no asset of that side is set or removed before
    the next restart, every answer is the one the store of assets gives, and
    the file systems hold the assets that store reaches: restarts lose
    nothing. *)
Theorem its_requests_refine its_cfg0 ps_cfg0 its_info ps_info its_create ps_create es s T :
  (forall f : F, fl_ok f -> configures its_cfg0 its_info ci f) -> (forall f : G, fl_ok f -> configures ps_cfg0 ps_info cp f) ->
  up s T -> Forall event_ok es ->
  exists rs s', serve_all TFM_SP_PS its_cfg0 ps_cfg0 its_info ps_info its_create ps_create es s = (Ok rs, s') /\
    length rs = length es /\
    (restarts TFM_SP_PS ci cp clean T es rs ->
     exists d T', serve_run TFM_SP_PS ci cp clean T es rs d T' /\ up_at d s' T').
Proof.
  intros Hini Hinp Hs Hx.
  pose proof (serve_all_refine its_cfg0 ps_cfg0 its_info ps_info its_create ps_create Hini Hinp es clean s T Hs Hx) as Hw. unfold wp in Hw.
  destruct (serve_all_total its_cfg0 ps_cfg0 its_info ps_info its_create ps_create es s) as (rs & s' & Hrun & Hl).
  rewrite Hrun in Hw. by exists rs, s'.
Qed.

(** C21: a request, well formed or not and whatever its outcome, leaves the
    assets of every other client as they were, on the flash as well. *)
Theorem its_client_isolation x s T r s' :
  up s T -> msg_ok (fst x) (snd x) -> serve TFM_SP_PS x s = (r, s') ->
  exists T', svc_left s' (side TFM_SP_PS (msg_client_id (fst x))) T' /\
    forall client uid, is_client client -> is_uid uid -> client <> msg_client_id (fst x) ->
      asset T' client uid = asset T client uid.
Proof.
  intros Hs Hm Hrun. pose proof (wp_run _ _ _ _ _ _ (wp_serve x s T Hs Hm) Hrun) as Hw.
  assert (forall q o T', decode_req (fst x) (snd x) = inr q -> step T (msg_client_id (fst x)) q o T' ->
    forall client uid, is_client client -> is_uid uid -> client <> msg_client_id (fst x) ->
      asset T' client uid = asset T client uid) as Hother.
  { intros q o T' Hq Hst client uid Hc Hu Hne. eapply step_other; [exact Hst|]. intros Hf.
    apply get_fid_inj in Hf as [? _]; try done; [apply Hm|by eapply decode_uid]. }
  destruct r as [d|e].
  - destruct Hw as (q & T' & Hq & Hst & Hup). exists T'. split; [by apply svc_is_left, Hup|by eapply Hother].
  - destruct (decode_req (fst x) (snd x)) as [e'|q] eqn:Hq.
    + destruct Hw as (_ & Hup). exists T. split; [by apply svc_is_left, Hup|done].
    + destruct Hw as (_ & _ & Hl & _). by exists T.
Qed.

(** C22: an asset created with the write-once flag is permanent: no request
    of any client changes or removes it, and its owner is told so. *)
Theorem its_write_once_permanent x s T r s' client uid f :
  up s T -> msg_ok (fst x) (snd x) -> is_client client -> is_uid uid ->
  asset T client uid = Some f -> write_once f = true -> serve TFM_SP_PS x s = (r, s') ->
  (exists T', svc_left s' (side TFM_SP_PS (msg_client_id (fst x))) T' /\ asset T' client uid = Some f) /\
  (forall q, decode_req (fst x) (snd x) = inr q -> msg_client_id (fst x) = client -> req_uid q = uid -> uid <> 0 ->
     match q with
     | ReqRemove _ => r = Err PSA_ERROR_NOT_PERMITTED
     | ReqSet _ _ fl => bic fl supported_flags = 0 -> r = Err PSA_ERROR_NOT_PERMITTED
     | _ => True
     end).
Proof.
  intros Hs Hm Hc Hu Hf Hw Hrun. pose proof (wp_run _ _ _ _ _ _ (wp_serve x s T Hs Hm) Hrun) as Hpost.
  assert (exists T', svc_left s' (side TFM_SP_PS (msg_client_id (fst x))) T' /\
    (forall q, decode_req (fst x) (snd x) = inr q -> step T (msg_client_id (fst x)) q r T')
    /\ (forall e, decode_req (fst x) (snd x) = inl e -> T' = T)) as (T' & Hl & Hst & Hbad).
  { destruct r as [d|e].
    - destruct Hpost as (q & T' & Hq & Hst & Hup). exists T'. rewrite Hq. split_and!; [by apply svc_is_left, Hup|by intros ? [= <-]|done].
    - exists T. destruct (decode_req (fst x) (snd x)) as [e'|q].
      + destruct Hpost as (_ & Hup). split_and!; [by apply svc_is_left, Hup|done|done].
      + destruct Hpost as (Hst & _ & Hl & _). split_and!; [done|by intros ? [= <-]|done]. }
  split.
  - exists T'. split; [done|]. destruct (decode_req (fst x) (snd x)) as [e|q] eqn:Hq; [by rewrite (Hbad e)|].
    specialize (Hst q eq_refl). destruct (decide (tfm_its_get_fid client uid = tfm_its_get_fid (msg_client_id (fst x)) (req_uid q))) as [He|He].
    + apply get_fid_inj in He as [He1 He2]; try done; [|apply Hm|by eapply decode_uid].
      rewrite He1, He2 in Hf |- *. by rewrite (step_once _ _ _ _ _ _ _ _ f Hst).
    + by erewrite step_other.
  - intros q Hq Hcl Hid Hne. specialize (Hst q Hq). rewrite Hcl in Hst. subst uid.
    by eapply step_once_reply.
Qed.

(** C23: what a client stores it reads back, from any offset, in as many
    chunks as the buffers take. *)
Theorem its_set_then_get client uid D fl off n s T s' :
  up s T -> is_uid uid -> is_u32 fl -> nth 1 (invec s) [] = D -> (1 < length (invec s))%nat -> (0 < length (outvec s))%nat ->
  Forall is_byte D -> zlen D < 2147483648 -> 0 <= off < zlen D -> 0 < n ->
  tfm_its_set TFM_SP_PS client uid (zlen D) fl s = (Ok tt, s') ->
  exists k s'', tfm_its_get TFM_SP_PS client uid off n s' = (Ok k, s'') /\
    nth 0 (outvec s'') [] = nth 0 (outvec s) [] ++ sub_bytes off (Z.min n (zlen D - off)) D.
Proof.
  intros [Hs Hb] Hu Hfl Hin Hl Hlo HD HDl Ho Hn Hrun.
  pose proof (wp_run _ _ _ _ _ _ (wp_tfm_its_set TFM_SP_PS ci cp Hci Hcp Hei Hep clean client uid D fl s T eq_refl Hs Hb Hu Hfl Hl Hin HD HDl) Hrun)
    as (d & T' & [Hst Hi _ Hb' Hlen Hout]).
  inversion Hst as [| | | |? ? ? Hne Hsup Hwo| | | | | | | | | | | |]; subst. rewrite app_nil_r in Hout.
  pose proof (Hi (fun fls => fls)) as Hs'.
  pose proof (wp_tfm_its_get TFM_SP_PS ci cp Hci Hcp clean client uid off n s' _ Hs' Hb' Hu ltac:(lia) ltac:(lia) ltac:(lia)) as Hg.
  unfold wp in Hg. destruct (tfm_its_get TFM_SP_PS client uid off n s') as [[k|e] s''].
  - exists k, s''. split; [done|]. destruct Hg as (d & T2 & [Hst2 _ _ _ _ Hout2]). rewrite Hout2, Hout. f_equal.
    exact (get_reply TFM_SP_PS ci cp _ _ _ _ _ (File _ _ _) _ _ Hst2).
  - exfalso. destruct Hg as [Hst2 _ _ _ _ _]. exact (get_reply_err TFM_SP_PS ci cp T client uid off n (File _ _ _) e _ Hne Ho Hn Hst2).
Qed.

(** At boot each file system is mounted, or formatted where that is
    enabled and there is nothing to mount, and the service is up. *)
Theorem its_init_mounts_or_formats its_info ps_info its_create ps_create s T :
  configures (fs_cfg_its s) its_info ci (st_flash (fs_its s)) -> configures (fs_cfg_ps s) ps_info cp (st_flash (fs_ps s)) ->
  boots ci its_create (st_flash (fs_its s)) (T false) -> boots cp ps_create (st_flash (fs_ps s)) (T true) ->
  buffer_ok (asset_data s) ->
  exists s', tfm_its_init its_info ps_info its_create ps_create s = (Ok tt, s') /\ up s' T.
Proof.
  intros Hc1 Hc2 Hb1 Hb2 Hbuf.
  pose proof (wp_its_init its_info ps_info its_create ps_create s T Hc1 Hc2 Hb1 Hb2) as Hw. unfold wp in Hw.
  destruct (tfm_its_init its_info ps_info its_create ps_create s) as [[[]|e] s']; [|done].
  destruct Hw as [Hs Ha]. exists s'. split; [done|]. split; [done|by rewrite Ha].
Qed.
End service.

(** ** Concrete instances *)

Definition demo_ps : Z := 100.
Definition demo_client : Z := 3.

(** Both file systems mounted and empty, and the buffer. *)
Definition demo_svc : its_svc its_flash_ram_dev_t its_flash_ram_dev_t :=
  ItsSvc (fill 12 0) (FileInfo 0 0 0) (fill 16 0) demo_cfg demo_empty demo_cfg demo_empty [] [].

Definition no_assets : bool -> filemap := fun _ => ∅.

Lemma demo_buffer : buffer_ok demo_cfg demo_cfg (fill 16 0).
Proof.
  split; [by vm_compute|split; [apply Forall_fill; unfold is_byte; lia|]]. intros b. by destruct b.
Qed.

Lemma demo_up : up demo_cfg demo_cfg demo_svc no_assets.
Proof. split; [|exact demo_buffer]. split_and!; try done; exact demo_empty_ok. Qed.

(** Requests: 40 bytes stored in three chunks, then read from offset 10, in
    write-once mode where [fl] is set. *)
Definition demo_asset : list Z := seqZ 0 40.
Definition set_msg (fl : Z) : psa_msg_t * list (list Z) :=
  (Msg TFM_ITS_SET demo_client [8; 40; 4; 0] [0; 0; 0; 0], [le_bytes 8 7; demo_asset; le_bytes 4 fl; []]).
Definition get_msg : psa_msg_t * list (list Z) :=
  (Msg TFM_ITS_GET demo_client [8; 4; 0; 0] [100; 0; 0; 0], [le_bytes 8 7; le_bytes 4 10; []; []]).
Definition remove_msg : psa_msg_t * list (list Z) :=
  (Msg TFM_ITS_REMOVE demo_client [8; 0; 0; 0] [0; 0; 0; 0], [le_bytes 8 7; []; []; []]).

Lemma demo_msgs_ok : Forall (fun x => msg_ok (fst x) (snd x)) [set_msg 1; get_msg; remove_msg].
Proof.
  repeat constructor; try (by vm_compute); vm_compute; intuition congruence.
Qed.

Lemma run_pair {S A} (m : M S A) s r : fst (m s) = r -> m s = (r, snd (m s)).
Proof. by destruct (m s); intros <-. Qed.

(** A set of more data than a file may hold, refused with the asset of 40 bytes
    marked for deletion on the scratch block. *)
Definition big_msg : psa_msg_t * list (list Z) :=
  (Msg TFM_ITS_SET demo_client [8; 120; 4; 0] [0; 0; 0; 0], [le_bytes 8 7; seqZ 0 120; le_bytes 4 0; []]).
Definition demo_events : list svc_event :=
  [Request (set_msg 0); Request big_msg; Request get_msg; Restart; Request get_msg; Request (set_msg 1); Request remove_msg].
Definition demo_answers : list (res (list Z)) :=
  [Ok []; Err PSA_ERROR_INVALID_ARGUMENT; Ok (seqZ 10 30); Ok []; Ok (seqZ 10 30); Ok []; Err PSA_ERROR_NOT_PERMITTED].

Definition demo_static : its_flash_fs_config_t := FsConfig (FlashConfig 0 0 0 1 255) 100 4.

(** The RAM driver accepts the geometry whatever the flash holds. *)
Lemma demo_configures (f : its_flash_ram_dev_t) : fl_ok (FlashLaws := demo_laws) f -> configures demo_static (Some (0, 2560, 512)) demo_cfg f.
Proof.
  intros (_ & _ & Hs & _). exists demo_cfg. split; [done|split; [|done]]. cbn. unfold its_flash_ram_init, bind, get.
  change (num_blocks demo_fc * block_size demo_fc) with 2560 in Hs. change (block_size demo_fc) with 512. change (num_blocks demo_fc) with 5.
  assert (5 <= ItsFlash.size f / 512) by (apply Z.div_le_lower_bound; lia).
  rewrite Z.gtb_ltb, (proj2 (Z.ltb_ge _ _)), (proj2 (Z.ltb_ge _ _)) by lia. done.
Qed.

Lemma demo_msg_ok fl : fl = 0 \/ fl = 1 -> msg_ok (fst (set_msg fl)) (snd (set_msg fl)).
Proof. intros [-> | ->]; repeat constructor; try (by vm_compute); vm_compute; intuition congruence. Qed.

Lemma demo_events_ok : Forall event_ok demo_events.
Proof.
  repeat apply List.Forall_cons; cbn [event_ok]; try (apply demo_msg_ok; auto); try exact I;
    repeat constructor; try (by vm_compute); vm_compute; intuition congruence.
Qed.

Lemma its_requests_refine_witness : exists s' d T',
  serve_all demo_ps demo_static demo_static (Some (0, 2560, 512)) (Some (0, 2560, 512)) false false demo_events demo_svc = (Ok demo_answers, s') /\
  serve_run demo_ps demo_cfg demo_cfg clean no_assets demo_events demo_answers d T' /\ up_at demo_cfg demo_cfg d s' T'.
Proof.
  destruct (its_requests_refine demo_ps demo_cfg demo_cfg demo_cfg_wf demo_cfg_wf demo_ev demo_ev demo_static demo_static
    (Some (0, 2560, 512)) (Some (0, 2560, 512)) false false demo_events demo_svc no_assets demo_configures demo_configures
    demo_up demo_events_ok) as (rs & s' & Hrun & Hl & Hspec).
  assert (rs = demo_answers) as ->.
  { assert (fst (serve_all demo_ps demo_static demo_static (Some (0, 2560, 512)) (Some (0, 2560, 512)) false false demo_events demo_svc) =
      Ok demo_answers) as Hfst by (vm_compute; reflexivity).
    rewrite Hrun in Hfst. by injection Hfst. }
  destruct Hspec as (d & T' & Hsr & Hup); [by apply (no_update_restarts _ _ _ _ _ false)|].
  exists s', d, T'. exact (conj Hrun (conj Hsr Hup)).
Defined.

(** Without the restart, on a NOR flash: the asset is set again, with the 40
    bytes it had; the set fails and the asset is empty. *)
Definition svc_nor : its_svc nor_dev nor_dev :=
  ItsSvc (fill 12 0) (FileInfo 0 0 0) (fill 16 0) demo_cfg (demo_nor demo_empty) demo_cfg (demo_nor demo_empty) [] [].
Definition info_msg : psa_msg_t * list (list Z) :=
  (Msg TFM_ITS_GET_INFO demo_client [8; 0; 0; 0] [12; 0; 0; 0], [le_bytes 8 7; []; []; []]).

Theorem refused_set_loses_asset :
  up demo_cfg demo_cfg svc_nor no_assets /\
  fst (serve_all demo_ps demo_static demo_static (Some (0, 2560, 512)) (Some (0, 2560, 512)) false false
         [Request (set_msg 0); Request big_msg; Request (set_msg 0); Request info_msg] svc_nor) =
    Ok [Ok []; Err PSA_ERROR_INVALID_ARGUMENT; Err PSA_ERROR_GENERIC_ERROR; Ok (fill 12 0)].
Proof.
  split; [|vm_compute; reflexivity]. split; [|exact demo_buffer]. split_and!; try done; exact (demo_nor_ok _ _ demo_empty_ok).
Qed.

Lemma its_client_isolation_witness : exists T',
  svc_left demo_cfg demo_cfg (snd (serve demo_ps (set_msg 0) demo_svc)) (side demo_ps demo_client) T' /\
  asset demo_ps T' 4 7 = asset demo_ps no_assets 4 7.
Proof.
  destruct (its_client_isolation demo_ps demo_cfg demo_cfg demo_cfg_wf demo_cfg_wf demo_ev demo_ev (set_msg 0) demo_svc no_assets _ _
    demo_up (demo_msg_ok 0 ltac:(by left)) (run_pair _ _ _ eq_refl)) as (T' & Hl & Ha).
  exists T'. split; [exact Hl|]. apply Ha; by vm_compute.
Defined.

(** After the write-once asset has been created. *)
Definition demo_once := snd (serve demo_ps (set_msg 1) demo_svc).

Lemma demo_once_up : exists T f, up demo_cfg demo_cfg demo_once T /\ asset demo_ps T demo_client 7 = Some f /\ write_once f = true.
Proof.
  assert (fst (serve demo_ps (set_msg 1) demo_svc) = Ok []) as Hr by (by vm_compute).
  pose proof (wp_run _ _ _ _ _ _ (wp_serve demo_ps demo_cfg demo_cfg demo_cfg_wf demo_cfg_wf demo_ev demo_ev (set_msg 1)
    demo_svc no_assets demo_up (demo_msg_ok 1 ltac:(by right))) (run_pair _ _ _ Hr)) as (r & T & Hq & Hst & Hup).
  assert (r = ReqSet 7 demo_asset 1) as -> by (revert Hq; vm_compute; congruence).
  inversion Hst as [| | | |? ? ? H1 H2 H3| | | | | | | | | | | |]; subst.
  eexists _, _. split; [exact Hup|]. unfold asset, set_asset_to. rewrite upd_same, lookup_insert_eq. by split.
Qed.

Lemma its_write_once_permanent_witness : exists T f T',
  asset demo_ps T demo_client 7 = Some f /\
  svc_left demo_cfg demo_cfg (snd (serve demo_ps (set_msg 0) demo_once)) (side demo_ps demo_client) T' /\
  asset demo_ps T' demo_client 7 = Some f.
Proof.
  destruct demo_once_up as (T & f & Hup & Hf & Hw).
  destruct (its_write_once_permanent demo_ps demo_cfg demo_cfg demo_cfg_wf demo_cfg_wf demo_ev demo_ev (set_msg 0) demo_once T _ _
    demo_client 7 f Hup (demo_msg_ok 0 ltac:(by left)) ltac:(by vm_compute) ltac:(by vm_compute) Hf Hw (run_pair _ _ _ eq_refl))
    as [(T' & Hl & Hf') _].
  exists T, f, T'. by split_and!.
Defined.

Definition demo_set : its_svc its_flash_ram_dev_t its_flash_ram_dev_t :=
  ItsSvc (fill 12 0) (FileInfo 0 0 0) (fill 16 0) demo_cfg demo_empty demo_cfg demo_empty [[]; demo_asset; []; []] [[]; []; []; []].

Lemma its_set_then_get_witness : exists k s'',
  tfm_its_get demo_ps demo_client 7 10 100 (snd (tfm_its_set demo_ps demo_client 7 40 0 demo_set)) = (Ok k, s'') /\
  nth 0 (outvec s'') [] = [] ++ sub_bytes 10 30 demo_asset.
Proof.
  apply (its_set_then_get demo_ps demo_cfg demo_cfg demo_cfg_wf demo_cfg_wf demo_ev demo_ev demo_client 7 demo_asset 0 10 100
    demo_set no_assets).
  - split; [|exact demo_buffer]. split_and!; try done; exact demo_empty_ok.
  - split; lia.
  - split; lia.
  - done.
  - simpl; lia.
  - simpl; lia.
  - apply Forall_forall. intros x Hx%elem_of_seqZ. unfold is_byte. lia.
  - by vm_compute.
  - by vm_compute.
  - lia.
  - apply run_pair. by vm_compute.
Defined.

(** Before initialisation: a formatted flash for one partition, garbage in the
    other, which may be formatted. *)
Definition demo_off : its_svc its_flash_ram_dev_t its_flash_ram_dev_t :=
  ItsSvc (fill 12 0) (FileInfo 0 0 0) (fill 16 0) demo_static demo_wiped demo_static demo_dirty [] [].

Lemma its_init_mounts_or_formats_witness : exists s',
  tfm_its_init (Some (0, 2560, 512)) (Some (0, 2560, 512)) false true demo_off = (Ok tt, s') /\ up demo_cfg demo_cfg s' no_assets.
Proof.
  apply (its_init_mounts_or_formats demo_cfg demo_cfg demo_cfg_wf demo_cfg_wf demo_ev demo_ev).
  - apply demo_configures. apply (holds_fl_ok demo_cfg _ _ demo_wiped_ok).
  - apply demo_configures. exact demo_dirty_ok.
  - left. exact demo_wiped_ok.
  - right. split; [done|split; [split; [exact demo_dirty_ok|by vm_compute]|done]].
  - exact demo_buffer.
Defined.
