(* ===== verification/PsTypes.v ===== *)
(** * Protected storage: data and platform

    The structures of the protected storage partition, their layout in files,
    and the interfaces it is built on: internal trusted storage, non-volatile
    counters and the crypto service.  The build modelled has encryption and
    rollback protection and no key usage limit ([PS_ENCRYPTION],
    [PS_ROLLBACK_PROTECTION], [PS_AES_KEY_USAGE_LIMIT] = 0), the default. *)

From S2P Require Import Prelude Bytes.
From stdpp Require Import base list numbers.
From Stdlib Require Import ZArith Lia.

Open Scope Z_scope.
Open Scope tfm_scope.

(** ** Constants *)

Definition PS_TAG_LEN_BYTES : Z := 16.
Definition PS_IV_LEN_BYTES : Z := 12.
Definition TFM_PS_INVALID_UID : Z := 0.
Definition PS_OBJECT_SYSTEM_VERSION : Z := 1.
Definition PS_OBJ_TABLE_UID : Z := 0x4ee143e1df40bd00.
Definition PS_OBJ_TABLE_IDX_0 : Z := 0.
Definition PS_OBJ_TABLE_IDX_1 : Z := 1.
Definition PS_INVALID_NVC_VALUE : Z := 0.
Definition PS_INVALID_FID : Z := 0.

Definition PS_TABLE_FS_ID (idx : Z) : Z := u32 (idx + 1).
Definition PS_OBJECT_FS_ID (idx : Z) : Z := u32 (idx + 1 + PS_TABLE_FS_ID PS_OBJ_TABLE_IDX_1).
Definition PS_OBJECT_FS_ID_TO_IDX (fid : Z) : Z := u32 (fid - 1 - PS_TABLE_FS_ID PS_OBJ_TABLE_IDX_1).

Definition PS_UTILS_MIN (x y : Z) : Z := if x <? y then x else y.

Definition ps_utils_check_contained_in (superset_size subset_offset subset_size : Z) : psa_status_t :=
  if subset_offset >? superset_size then PSA_ERROR_INVALID_ARGUMENT
  else if subset_size >? u32 (superset_size - subset_offset) then PSA_ERROR_INVALID_ARGUMENT
  else PSA_SUCCESS.

(** An [int32_t] from its four bytes. *)
Definition s32 (x : Z) : Z := if x <? 2147483648 then x else x - 4294967296.

(** ** Crypto metadata ([union ps_crypto_t])

    40 bytes on the target: tag, uid, client, iv. *)

Record ps_crypto_t : Type := PsCrypto {
  tag : list Z;
  c_uid : Z;
  c_client_id : Z;
  iv : list Z;
}.

Definition PS_CRYPTO_SIZE : Z := 40.

Definition ser_crypto (c : ps_crypto_t) : list Z :=
  tag c ++ le_bytes 8 (c_uid c) ++ le_bytes 4 (c_client_id c) ++ iv c.

Definition parse_crypto (b : list Z) : ps_crypto_t :=
  PsCrypto (sub_bytes 0 16 b) (le_val (sub_bytes 16 8 b)) (s32 (le_val (sub_bytes 24 4 b))) (sub_bytes 28 12 b).

Definition crypto_zero : ps_crypto_t := PsCrypto (fill 16 0) 0 0 (fill 12 0).

(** ** Object table ([ps_object_table.c])

    An entry is 32 bytes with four bytes of padding at its end; the table has
    seven bytes of padding after its version. *)

Record ps_obj_table_entry_t : Type := Entry {
  e_tag : list Z;
  e_uid : Z;
  e_client_id : Z;
  e_pad : list Z;
}.

Record ps_obj_table_t : Type := Table {
  t_crypto : ps_crypto_t;
  t_version : Z;
  t_pad : list Z;
  obj_db : list ps_obj_table_entry_t;
}.

Definition PS_OBJECTS_TABLE_ENTRY_SIZE : Z := 32.

Definition entry_zero : ps_obj_table_entry_t := Entry (fill 16 0) 0 0 (fill 4 0).

Definition ser_entry (e : ps_obj_table_entry_t) : list Z :=
  e_tag e ++ le_bytes 8 (e_uid e) ++ le_bytes 4 (e_client_id e) ++ e_pad e.

Definition parse_entry (b : list Z) : ps_obj_table_entry_t :=
  Entry (sub_bytes 0 16 b) (le_val (sub_bytes 16 8 b)) (s32 (le_val (sub_bytes 24 4 b))) (sub_bytes 28 4 b).

(** The part of the table that is authenticated. *)
Definition ser_table_data (t : ps_obj_table_t) : list Z :=
  [t_version t] ++ t_pad t ++ concat (map ser_entry (obj_db t)).

Definition ser_table (t : ps_obj_table_t) : list Z := ser_crypto (t_crypto t) ++ ser_table_data t.

Fixpoint parse_entries (n : nat) (b : list Z) : list ps_obj_table_entry_t :=
  match n with
  | O => []
  | S n => parse_entry (sub_bytes 0 32 b) :: parse_entries n (sub_bytes 32 (zlen b - 32) b)
  end.

(** A table of [n] entries. *)
Definition parse_table (n : nat) (b : list Z) : ps_obj_table_t :=
  Table (parse_crypto (sub_bytes 0 40 b)) (nth 40 b 0) (sub_bytes 41 7 b)
    (parse_entries n (sub_bytes 48 (zlen b - 48) b)).

Definition table_zero (n : nat) : ps_obj_table_t := Table crypto_zero 0 (fill 7 0) (replicate n entry_zero).

(** ** Objects ([struct ps_object_t])

    [o_body] is the object from [header.info] to its end: current size,
    maximum size, create flags and four bytes of padding, then the data and
    room for a tag. *)

Record ps_object_t : Type := PsObject {
  o_crypto : ps_crypto_t;
  o_body : list Z;
}.

Definition INFO_SIZE : Z := 16.

Definition current_size (o : ps_object_t) : Z := le_val (sub_bytes 0 4 (o_body o)).
Definition max_size (o : ps_object_t) : Z := le_val (sub_bytes 4 4 (o_body o)).
Definition create_flags (o : ps_object_t) : Z := le_val (sub_bytes 8 4 (o_body o)).

Definition with_body (o : ps_object_t) (b : list Z) : ps_object_t := PsObject (o_crypto o) b.
Definition with_crypto (o : ps_object_t) (c : ps_crypto_t) : ps_object_t := PsObject c (o_body o).
Definition set_word (off v : Z) (o : ps_object_t) : ps_object_t := with_body o (splice off (le_bytes 4 v) (o_body o)).
Definition set_ref (uid client_id : Z) (c : ps_crypto_t) : ps_crypto_t := PsCrypto (tag c) uid client_id (iv c).
Definition set_tag (t : list Z) (c : ps_crypto_t) : ps_crypto_t := PsCrypto t (c_uid c) (c_client_id c) (iv c).
Definition set_iv (v : list Z) (c : ps_crypto_t) : ps_crypto_t := PsCrypto (tag c) (c_uid c) (c_client_id c) v.

(** ** Interfaces *)

Inductive tfm_nv_counter_t : Type := TFM_PS_NV_COUNTER_1 | TFM_PS_NV_COUNTER_2 | TFM_PS_NV_COUNTER_3.

#[export] Instance tfm_nv_counter_t_eq_dec : EqDecision tfm_nv_counter_t.
Proof. solve_decision. Defined.

(** What the partition calls: internal trusted storage ([psa_its_*] as client
    PS) and the platform's counters. *)
Class PsPlat (P : Type) : Type := {
  psa_its_set : Z -> list Z -> M P unit;
  psa_its_get : Z -> Z -> Z -> M P (list Z);
  psa_its_remove : Z -> M P unit;
  tfm_platform_nv_counter_read : tfm_nv_counter_t -> M P Z;
  tfm_platform_nv_counter_increment : tfm_nv_counter_t -> M P unit;
}.

(** The crypto service: the key that a label stands for, and AEAD with a tag
    of 16 bytes appended to the ciphertext. *)
Class PsCryptoOps (K : Type) : Type := {
  ps_crypto_setkey : list Z -> psa_status_t + K;
  psa_aead_encrypt : K -> list Z -> list Z -> list Z -> option (list Z);
  psa_aead_decrypt : K -> list Z -> list Z -> list Z -> option (list Z);
  psa_destroy_key : K -> psa_status_t;
}.

(** ** The partition's variables

    The object table and its two file indices, the object buffer, the file
    identifier of [g_obj_tbl_info] (its tag points into the object buffer), the
    IV counter, and the vectors of the message being served. *)

Record ps_st (P : Type) : Type := PsSt {
  plat : P;
  obj_table : ps_obj_table_t;
  active_table : Z;
  scratch_table : Z;
  g_ps_object : ps_object_t;
  g_fid : Z;
  ps_crypto_iv_buf : list Z;
  in_vec : list (list Z);
  out_vec : list (list Z);
}.
Arguments PsSt {P}.
Arguments plat {P}.
Arguments obj_table {P}.
Arguments active_table {P}.
Arguments scratch_table {P}.
Arguments g_ps_object {P}.
Arguments g_fid {P}.
Arguments ps_crypto_iv_buf {P}.
Arguments in_vec {P}.
Arguments out_vec {P}.

Section state.
Context {P : Type}.
Implicit Types (s : ps_st P).

Definition put_plat (v : P) s : ps_st P := PsSt v (obj_table s) (active_table s) (scratch_table s) (g_ps_object s) (g_fid s) (ps_crypto_iv_buf s) (in_vec s) (out_vec s).
Definition put_table (v : ps_obj_table_t) s : ps_st P := PsSt (plat s) v (active_table s) (scratch_table s) (g_ps_object s) (g_fid s) (ps_crypto_iv_buf s) (in_vec s) (out_vec s).
Definition put_tables (a c : Z) s : ps_st P := PsSt (plat s) (obj_table s) a c (g_ps_object s) (g_fid s) (ps_crypto_iv_buf s) (in_vec s) (out_vec s).
Definition put_obj (v : ps_object_t) s : ps_st P := PsSt (plat s) (obj_table s) (active_table s) (scratch_table s) v (g_fid s) (ps_crypto_iv_buf s) (in_vec s) (out_vec s).
Definition put_fid (v : Z) s : ps_st P := PsSt (plat s) (obj_table s) (active_table s) (scratch_table s) (g_ps_object s) v (ps_crypto_iv_buf s) (in_vec s) (out_vec s).
Definition put_iv (v : list Z) s : ps_st P := PsSt (plat s) (obj_table s) (active_table s) (scratch_table s) (g_ps_object s) (g_fid s) v (in_vec s) (out_vec s).
Definition put_in (v : list (list Z)) s : ps_st P := PsSt (plat s) (obj_table s) (active_table s) (scratch_table s) (g_ps_object s) (g_fid s) (ps_crypto_iv_buf s) v (out_vec s).
Definition put_out (v : list (list Z)) s : ps_st P := PsSt (plat s) (obj_table s) (active_table s) (scratch_table s) (g_ps_object s) (g_fid s) (ps_crypto_iv_buf s) (in_vec s) v.

Definition lift {A} (m : M P A) : M (ps_st P) A :=
  fun s => let '(r, p) := m (plat s) in (r, put_plat p s).

(** A statement whose status is ignored: [(void)f(...)]. *)
Definition ignore {A} (m : M (ps_st P) A) : M (ps_st P) unit := let* _ := try m in ret tt.
End state.
