(* ===== verification/PsCrypto.v ===== *)
(** * Protected storage: cryptography
    ([crypto/ps_crypto_interface.c], [ps_encrypted_object.c],
    [nv_counters/ps_nv_counters.c])

    Keys by label, IVs from a 96-bit counter, tags kept apart from the
    ciphertext, and objects encrypted in place. *)

From S2P Require Import Prelude Bytes PsTypes.
From stdpp Require Import base list numbers.
From Stdlib Require Import ZArith Lia.

Open Scope Z_scope.
Open Scope tfm_scope.

Definition ps_crypto_to_blocks (in_len : Z) : Z := u32 (1 + u32 (in_len + 15) / 16).

Definition fill_key_label (c : ps_crypto_t) : list Z := le_bytes 4 (c_client_id c) ++ le_bytes 8 (c_uid c).

(** Increment of the 12-byte counter: 8 low bytes, then 4 high bytes. *)
Definition next_iv (buf : list Z) : option (list Z) :=
  let iv_l := (le_val (sub_bytes 0 8 buf) + 1) mod 2 ^ 64 in
  let iv_h := le_val (sub_bytes 8 4 buf) in
  if iv_l =? 0 then
    let iv_h := u32 (iv_h + 1) in
    if iv_h =? 0 then None else Some (le_bytes 8 iv_l ++ le_bytes 4 iv_h)
  else Some (le_bytes 8 iv_l ++ le_bytes 4 iv_h).

Section crypto.
Context {P K : Type} `{PsPlat P} `{PsCryptoOps K}.
Abbreviation PS := (M (ps_st P)).

Definition ps_crypto_set_iv (c : ps_crypto_t) : PS unit := modify (put_iv (iv c)).

(** Returns [crypto->ref.iv]. *)
Definition ps_crypto_get_iv : PS (list Z) :=
  let* buf := gets ps_crypto_iv_buf in
  match next_iv buf with
  | None => fail PSA_ERROR_GENERIC_ERROR
  | Some v => let* _ := modify (put_iv v) in ret v
  end.

(** [psa_destroy_key], an error of which is reported as a generic one. *)
Definition destroy (k : K) : psa_status_t :=
  if psa_destroy_key k =? PSA_SUCCESS then PSA_SUCCESS else PSA_ERROR_GENERIC_ERROR.

(** The functions return what they wrote to their output buffers, if
    anything, and a status: an error of [psa_destroy_key] comes after the
    output. *)

(** Ciphertext and tag. *)
Definition ps_crypto_encrypt_and_tag (c : ps_crypto_t) (add inp : list Z) : option (list Z * list Z) * psa_status_t :=
  match ps_crypto_setkey (fill_key_label c) with
  | inl e => (None, e)
  | inr k =>
      match psa_aead_encrypt k (iv c) add inp with
      | None => (None, PSA_ERROR_GENERIC_ERROR)
      | Some out =>
          let out_len := u32 (zlen out - PS_TAG_LEN_BYTES) in
          (Some (sub_bytes 0 out_len out, sub_bytes out_len PS_TAG_LEN_BYTES out), destroy k)
      end
  end.

(** [inp] has the tag at its end. *)
Definition ps_crypto_auth_and_decrypt (c : ps_crypto_t) (add inp : list Z) : option (list Z) * psa_status_t :=
  match ps_crypto_setkey (fill_key_label c) with
  | inl e => (None, e)
  | inr k =>
      match psa_aead_decrypt k (iv c) add inp with
      | None => (None, PSA_ERROR_INVALID_SIGNATURE)
      | Some out => (Some out, destroy k)
      end
  end.

(** The tag of associated data alone. *)
Definition ps_crypto_generate_auth_tag (c : ps_crypto_t) (add : list Z) : option (list Z) * psa_status_t :=
  match ps_crypto_setkey (fill_key_label c) with
  | inl e => (None, e)
  | inr k =>
      match psa_aead_encrypt k (iv c) add [] with
      | None => (None, PSA_ERROR_GENERIC_ERROR)
      | Some out => (Some out, if zlen out =? PS_TAG_LEN_BYTES then destroy k else PSA_ERROR_GENERIC_ERROR)
      end
  end.

Definition ps_crypto_authenticate (c : ps_crypto_t) (add : list Z) : psa_status_t :=
  match ps_crypto_setkey (fill_key_label c) with
  | inl e => e
  | inr k =>
      match psa_aead_decrypt k (iv c) add (tag c) with
      | None => PSA_ERROR_INVALID_SIGNATURE
      | Some out => if zlen out =? 0 then destroy k else PSA_ERROR_INVALID_SIGNATURE
      end
  end.

(** *** Counters *)

Definition ps_read_nv_counter (c : tfm_nv_counter_t) : PS Z :=
  or_return (lift (tfm_platform_nv_counter_read c)) PSA_ERROR_GENERIC_ERROR.

Definition ps_increment_nv_counter (c : tfm_nv_counter_t) : PS unit :=
  or_return (lift (tfm_platform_nv_counter_increment c)) PSA_ERROR_GENERIC_ERROR.

(** *** Encrypted objects *)

Context (PS_MAX_ASSET_SIZE : Z).

Definition PS_ENCRYPT_SIZE (plaintext_size : Z) : Z := u32 (plaintext_size + INFO_SIZE).
Definition PS_MAX_ENCRYPTED_OBJ_SIZE : Z := PS_ENCRYPT_SIZE PS_MAX_ASSET_SIZE.
Definition STORED_HEADER_DATA_SIZE : Z := 12.

(** [auth_data_t] *)
Definition object_auth_data (fid : Z) : list Z := le_bytes 4 fid.

(** Memory from [header.crypto.ref.iv] to the end of the object. *)
Definition obj_mem (o : ps_object_t) : list Z := iv (o_crypto o) ++ o_body o.
Definition with_mem (o : ps_object_t) (m : list Z) : ps_object_t :=
  PsObject (set_iv (sub_bytes 0 12 m) (o_crypto o)) (sub_bytes 12 (zlen m - 12) m).

(** Decrypts [g_ps_object] in place.  The tag is copied behind the ciphertext
    first: at an address that wraps when the file was shorter than an IV. *)
Definition ps_object_auth_decrypt (fid cur_size : Z) : PS unit :=
  let* o := gets g_ps_object in
  let m := obj_mem o in
  let o := with_mem o (splice (u32 (STORED_HEADER_DATA_SIZE + cur_size)) (tag (o_crypto o)) m) in
  let* _ := modify (put_obj o) in
  let '(r, e) := ps_crypto_auth_and_decrypt (o_crypto o) (object_auth_data fid)
                  (sub_bytes 0 (u32 (cur_size + PS_TAG_LEN_BYTES)) (o_body o)) in
  let out := default [] r in
  let* _ := modify (put_obj (with_body o (splice 0 out (o_body o)))) in
  check ((e =? PSA_SUCCESS) && (zlen out =? cur_size)) PSA_ERROR_GENERIC_ERROR.

Definition ps_object_auth_encrypt (fid cur_size : Z) : PS unit :=
  let* v := ps_crypto_get_iv in
  let* o := gets g_ps_object in
  let o := with_crypto o (set_iv v (o_crypto o)) in
  let* _ := modify (put_obj o) in
  let '(r, e) := ps_crypto_encrypt_and_tag (o_crypto o) (object_auth_data fid) (sub_bytes 0 cur_size (o_body o)) in
  match r with
  | None => fail PSA_ERROR_GENERIC_ERROR
  | Some (out, t) =>
      let* _ := modify (put_obj (PsObject (set_tag t (o_crypto o)) (splice 0 (out ++ t) (o_body o)))) in
      check ((e =? PSA_SUCCESS) && (zlen out =? cur_size)) PSA_ERROR_GENERIC_ERROR
  end.

Definition ps_encrypted_object_read (fid : Z) : PS unit :=
  let* d := lift (psa_its_get fid 0 (PS_MAX_ENCRYPTED_OBJ_SIZE + STORED_HEADER_DATA_SIZE)) in
  let* _ := modify (fun s => put_obj (with_mem (g_ps_object s) (splice 0 d (obj_mem (g_ps_object s)))) s) in
  let decrypt_size := u32 (zlen d - STORED_HEADER_DATA_SIZE) in
  ps_object_auth_decrypt fid decrypt_size.

Definition ps_encrypted_object_blocks (size : Z) : Z := ps_crypto_to_blocks (PS_ENCRYPT_SIZE size).

Definition ps_encrypted_object_write (fid : Z) : PS unit :=
  let* o := gets g_ps_object in
  let wrt_size := PS_ENCRYPT_SIZE (current_size o) in
  let* _ := ps_object_auth_encrypt fid wrt_size in
  let* o := gets g_ps_object in
  let wrt_size := u32 (wrt_size + STORED_HEADER_DATA_SIZE) in
  lift (psa_its_set fid (sub_bytes 0 wrt_size (obj_mem o))).
End crypto.
