(* ===== verification/PsTable.v ===== *)
(** * Protected storage: the object table ([ps_object_table.c])

    The table is kept in two files used in turn; each copy is authenticated
    together with the value of counter 1.  Counters 2 and 3 follow counter 1
    once the new table is in the file system. *)

From S2P Require Import Prelude Bytes PsTypes PsCrypto.
From stdpp Require Import base list numbers.
From Stdlib Require Import ZArith Lia.

Open Scope Z_scope.
Open Scope tfm_scope.

Inductive ps_obj_table_state : Type :=
| PS_OBJ_TABLE_VALID
| PS_OBJ_TABLE_INVALID
| PS_OBJ_TABLE_NVC_1_VALID
| PS_OBJ_TABLE_NVC_3_VALID.

#[export] Instance ps_obj_table_state_eq_dec : EqDecision ps_obj_table_state.
Proof. solve_decision. Defined.

(** [struct ps_obj_table_init_ctx_t]: table 0 is the partition's own table,
    table 1 a temporary copy in the object buffer. *)
Record ps_obj_table_init_ctx_t : Type := InitCtx {
  p_table1 : ps_obj_table_t;
  table_state0 : ps_obj_table_state;
  table_state1 : ps_obj_table_state;
  nvc_1 : Z;
  nvc_3 : Z;
}.

Section table.
Context {P K : Type} `{PsPlat P} `{PsCryptoOps K}.
Context (TFM_SP_PS : Z) (PS_NUM_ASSETS : nat).
Abbreviation PS := (M (ps_st P)).

Definition PS_OBJ_TABLE_ENTRIES : nat := S PS_NUM_ASSETS.
Definition PS_OBJ_TABLE_SIZE : Z := 48 + 32 * Z.of_nat PS_OBJ_TABLE_ENTRIES.

(** *** Files *)

(** Reads a table over [old]: a short file leaves the rest as it was. *)
Definition read_table_file (idx : Z) (old : ps_obj_table_t) : PS ps_obj_table_t :=
  let* d := lift (psa_its_get (PS_TABLE_FS_ID idx) 0 PS_OBJ_TABLE_SIZE) in
  ret (parse_table PS_OBJ_TABLE_ENTRIES (splice 0 d (ser_table old))).

Definition ps_object_table_fs_read_table (c : ps_obj_table_init_ctx_t) : PS ps_obj_table_init_ctx_t :=
  let* old := gets obj_table in
  let* r0 := try (read_table_file PS_OBJ_TABLE_IDX_0 old) in
  let* st0 := match r0 with
              | Ok t => let* _ := modify (put_table t) in ret (table_state0 c)
              | Err _ => ret PS_OBJ_TABLE_INVALID
              end in
  let* r1 := try (read_table_file PS_OBJ_TABLE_IDX_1 (p_table1 c)) in
  match r1 with
  | Ok t => ret (InitCtx t st0 (table_state1 c) (nvc_1 c) (nvc_3 c))
  | Err _ => ret (InitCtx (p_table1 c) st0 PS_OBJ_TABLE_INVALID (nvc_1 c) (nvc_3 c))
  end.

Definition ps_object_table_fs_write_table : PS unit :=
  let* s := get in
  let* _ := lift (psa_its_set (PS_TABLE_FS_ID (scratch_table s)) (ser_table (obj_table s))) in
  modify (put_tables (scratch_table s) (active_table s)).

(** *** Counters *)

Fixpoint increment_loop (fuel : nat) (c : tfm_nv_counter_t) : PS unit :=
  match fuel with
  | O => ret tt
  | S fuel => let* _ := ps_increment_nv_counter c in increment_loop fuel c
  end.

(** [for (; nvc_x_val < nvc_1; nvc_x_val++)] runs [nvc_1 - nvc_x_val] times. *)
Definition align_counter (c : tfm_nv_counter_t) (n1 : Z) : PS unit :=
  let* x := or_return (ps_read_nv_counter c) PSA_ERROR_GENERIC_ERROR in
  increment_loop (Z.to_nat (n1 - x)) c.

Definition ps_object_table_align_nv_counters (n1 : Z) : PS unit :=
  let* _ := align_counter TFM_PS_NV_COUNTER_2 n1 in
  align_counter TFM_PS_NV_COUNTER_3 n1.

(** *** Authentication *)

(** [struct ps_crypto_assoc_data_t] *)
Definition assoc_data (t : ps_obj_table_t) (nv_counter : Z) : list Z := ser_table_data t ++ le_bytes 4 nv_counter.

Definition with_tcrypto (t : ps_obj_table_t) (c : ps_crypto_t) : ps_obj_table_t :=
  Table c (t_version t) (t_pad t) (obj_db t).

Definition ps_object_table_nvc_generate_auth_tag (n1 : Z) : PS unit :=
  let* v := ps_crypto_get_iv in
  let* t := gets obj_table in
  let t := with_tcrypto t (set_iv v (t_crypto t)) in
  let* _ := modify (put_table t) in
  let '(r, e) := ps_crypto_generate_auth_tag (t_crypto t) (assoc_data t n1) in
  let* _ := match r with
            | Some g => modify (put_table (with_tcrypto t (set_tag g (t_crypto t))))
            | None => ret tt
            end in
  of_status e.

Definition authenticates (t : ps_obj_table_t) (n : Z) : bool :=
  ps_crypto_authenticate (t_crypto t) (assoc_data t n) =? PSA_SUCCESS.

Definition ps_object_table_authenticate (t : ps_obj_table_t) (n1 n3 : Z) : ps_obj_table_state :=
  if authenticates t n1 then PS_OBJ_TABLE_NVC_1_VALID
  else if n3 =? PS_INVALID_NVC_VALUE then PS_OBJ_TABLE_INVALID
  else if authenticates t n3 then PS_OBJ_TABLE_NVC_3_VALID else PS_OBJ_TABLE_INVALID.

Definition ps_object_table_nvc_authenticate (c : ps_obj_table_init_ctx_t) : PS ps_obj_table_init_ctx_t :=
  let* n1 := ps_read_nv_counter TFM_PS_NV_COUNTER_1 in
  let* n2 := ps_read_nv_counter TFM_PS_NV_COUNTER_2 in
  let* n3 := ps_read_nv_counter TFM_PS_NV_COUNTER_3 in
  let n3 := if negb (n3 =? n2) then PS_INVALID_NVC_VALUE else n3 in
  let* t0 := gets obj_table in
  let auth t st := if decide (st = PS_OBJ_TABLE_INVALID) then st else ps_object_table_authenticate t n1 n3 in
  ret (InitCtx (p_table1 c) (auth t0 (table_state0 c)) (auth (p_table1 c) (table_state1 c)) n1 n3).

(** *** Saving *)

Definition ps_object_table_save_table : PS unit :=
  let* _ := ps_increment_nv_counter TFM_PS_NV_COUNTER_1 in
  let* n1 := ps_read_nv_counter TFM_PS_NV_COUNTER_1 in
  let* _ := ps_object_table_nvc_generate_auth_tag n1 in
  let* _ := ps_object_table_fs_write_table in
  ps_object_table_align_nv_counters n1.

(** *** Selecting the table at start-up *)

Definition ps_object_table_validate_version (c : ps_obj_table_init_ctx_t) : PS ps_obj_table_init_ctx_t :=
  let* t0 := gets obj_table in
  let valid t st := if t_version t =? PS_OBJECT_SYSTEM_VERSION then st else PS_OBJ_TABLE_INVALID in
  ret (InitCtx (p_table1 c) (valid t0 (table_state0 c)) (valid (p_table1 c) (table_state1 c)) (nvc_1 c) (nvc_3 c)).

Definition ps_set_active_object_table (c : ps_obj_table_init_ctx_t) : PS unit :=
  let use1 := let* _ := modify (put_tables PS_OBJ_TABLE_IDX_1 PS_OBJ_TABLE_IDX_0) in modify (put_table (p_table1 c)) in
  let use0 := modify (put_tables PS_OBJ_TABLE_IDX_0 PS_OBJ_TABLE_IDX_1) in
  if decide (table_state0 c = PS_OBJ_TABLE_INVALID) then
    if decide (table_state1 c = PS_OBJ_TABLE_INVALID) then fail PSA_ERROR_GENERIC_ERROR else use1
  else if decide (table_state1 c = PS_OBJ_TABLE_INVALID) then use0
  else if decide (table_state1 c = PS_OBJ_TABLE_NVC_1_VALID) then use1 else use0.

(** *** Entries *)

Fixpoint entry_idx_loop (uid client_id : Z) (db : list ps_obj_table_entry_t) (i : Z) : option Z :=
  match db with
  | [] => None
  | e :: db => if (e_uid e =? uid) && (e_client_id e =? client_id) then Some i else entry_idx_loop uid client_id db (i + 1)
  end.

Definition ps_get_object_entry_idx (uid client_id : Z) : PS Z :=
  let* t := gets obj_table in
  match entry_idx_loop uid client_id (obj_db t) 0 with
  | Some i => ret i
  | None => fail PSA_ERROR_DOES_NOT_EXIST
  end.

(** The index of the [idx_num]-th free entry. *)
Fixpoint free_idx_loop (idx_num : Z) (db : list ps_obj_table_entry_t) (i last_free : Z) : Z * Z :=
  match db with
  | [] => (idx_num, last_free)
  | e :: db =>
      if idx_num >? 0 then
        if e_uid e =? TFM_PS_INVALID_UID then free_idx_loop (idx_num - 1) db (i + 1) i
        else free_idx_loop idx_num db (i + 1) last_free
      else (idx_num, last_free)
  end.

Definition ps_table_free_idx (idx_num : Z) : PS Z :=
  let* _ := check (negb (idx_num =? 0)) PSA_ERROR_INVALID_ARGUMENT in
  let* t := gets obj_table in
  let '(n, last_free) := free_idx_loop idx_num (obj_db t) 0 0 in
  let* _ := check (n =? 0) PSA_ERROR_INSUFFICIENT_STORAGE in
  ret last_free.

Definition get_entry (t : ps_obj_table_t) (i : Z) : ps_obj_table_entry_t := nth (Z.to_nat i) (obj_db t) entry_zero.
Definition set_entry (i : Z) (e : ps_obj_table_entry_t) (t : ps_obj_table_t) : ps_obj_table_t :=
  Table (t_crypto t) (t_version t) (t_pad t) (<[Z.to_nat i := e]> (obj_db t)).

Definition put_entry (i : Z) (e : ps_obj_table_entry_t) : PS unit :=
  modify (fun s => put_table (set_entry i e (obj_table s)) s).

Definition ps_table_delete_entry (idx : Z) : PS unit := put_entry idx entry_zero.

(** *** Operations *)

Definition ps_object_table_create : PS unit :=
  let t := table_zero PS_OBJ_TABLE_ENTRIES in
  let* _ := modify (put_table (Table (set_ref PS_OBJ_TABLE_UID TFM_SP_PS (t_crypto t)) PS_OBJECT_SYSTEM_VERSION (t_pad t) (obj_db t))) in
  let* _ := modify (put_tables PS_OBJ_TABLE_IDX_1 PS_OBJ_TABLE_IDX_0) in
  ps_object_table_save_table.

(** Removing a file that need not exist. *)
Definition remove_if_exists (fid : Z) : PS unit :=
  let* r := try (lift (psa_its_remove fid)) in
  match r with
  | Ok _ => ret tt
  | Err e => check (e =? PSA_ERROR_DOES_NOT_EXIST) e
  end.

Definition with_ref (t : ps_obj_table_t) : ps_obj_table_t :=
  with_tcrypto t (set_ref PS_OBJ_TABLE_UID TFM_SP_PS (t_crypto t)).

(** [obj_data] is the data of the object buffer, where the temporary table is
    read to. *)
Definition ps_object_table_init : PS unit :=
  let* o := gets g_ps_object in
  let tmp := parse_table PS_OBJ_TABLE_ENTRIES (sub_bytes INFO_SIZE PS_OBJ_TABLE_SIZE (o_body o)) in
  let* c := ps_object_table_fs_read_table (InitCtx tmp PS_OBJ_TABLE_VALID PS_OBJ_TABLE_VALID 0 0) in
  let* _ := modify (fun s => put_table (with_ref (obj_table s)) s) in
  let c := InitCtx (with_ref (p_table1 c)) (table_state0 c) (table_state1 c) (nvc_1 c) (nvc_3 c) in
  let* _ := modify (put_obj (with_body o (splice INFO_SIZE (ser_table (p_table1 c)) (o_body o)))) in
  let* c := ps_object_table_nvc_authenticate c in
  let* c := ps_object_table_validate_version c in
  let* _ := ps_set_active_object_table c in
  let* s := get in
  let* _ := remove_if_exists (PS_TABLE_FS_ID (scratch_table s)) in
  let* _ := ps_object_table_align_nv_counters (nvc_1 c) in
  let* t := gets obj_table in
  ps_crypto_set_iv (t_crypto t).

Definition ps_object_table_obj_exist (uid client_id : Z) : PS unit :=
  let* _ := ps_get_object_entry_idx uid client_id in ret tt.

Definition ps_object_table_get_free_fid (fid_num : Z) : PS Z :=
  let* idx := ps_table_free_idx fid_num in
  let fid := PS_OBJECT_FS_ID idx in
  let* _ := remove_if_exists fid in
  ret fid.

(** [obj_tbl_info] is [g_obj_tbl_info]: the file identifier and, through a
    pointer, the tag of the object buffer. *)
Definition ps_object_table_set_obj_tbl_info (uid client_id : Z) : PS unit :=
  let* r := try (ps_get_object_entry_idx uid client_id) in
  let* t := gets obj_table in
  let backup := match r with Ok i => get_entry t i | Err _ => entry_zero end in
  let backup_idx := match r with Ok i => i | Err _ => 0 end in
  let* _ := match r with Ok i => ps_table_delete_entry i | Err _ => ret tt end in
  let* s := get in
  let idx := PS_OBJECT_FS_ID_TO_IDX (g_fid s) in
  let* _ := put_entry idx (Entry (tag (o_crypto (g_ps_object s))) uid client_id (e_pad (get_entry (obj_table s) idx))) in
  let* r := try ps_object_table_save_table in
  match r with
  | Ok _ => ret tt
  | Err e =>
      let* _ := if negb (e_uid backup =? TFM_PS_INVALID_UID) then put_entry backup_idx backup else ret tt in
      let* _ := ps_table_delete_entry idx in
      fail e
  end.

Definition ps_object_table_get_obj_tbl_info (uid client_id : Z) : PS unit :=
  let* idx := ps_get_object_entry_idx uid client_id in
  let* _ := modify (put_fid (PS_OBJECT_FS_ID idx)) in
  let* t := gets obj_table in
  modify (fun s => put_obj (with_crypto (g_ps_object s) (set_tag (e_tag (get_entry t idx)) (o_crypto (g_ps_object s)))) s).

Definition ps_object_table_delete_object (uid client_id : Z) : PS unit :=
  let* idx := ps_get_object_entry_idx uid client_id in
  let* t := gets obj_table in
  let backup := get_entry t idx in
  let* _ := ps_table_delete_entry idx in
  let* r := try ps_object_table_save_table in
  match r with
  | Ok _ => ret tt
  | Err e => let* _ := put_entry idx backup in fail e
  end.

Definition ps_object_table_delete_old_table : PS unit :=
  let* s := get in
  lift (psa_its_remove (PS_TABLE_FS_ID (scratch_table s))).
End table.
