(* ===== verification/PsObject.v ===== *)
(** * Protected storage: objects and service
    ([ps_object_system.c], [tfm_protected_storage.c], [tfm_ps_req_mngr.c])

    A changed object is written to a new file, the table that points to it is
    saved, and the old file is removed. *)

From S2P Require Import Prelude Bytes PsTypes PsCrypto PsTable.
From stdpp Require Import base list numbers.
From Stdlib Require Import ZArith Lia.

Open Scope Z_scope.
Open Scope tfm_scope.

Definition PS_FLAG_WRITE_ONCE : Z := 1.
Definition PS_FLAGS_SUPPORTED : Z := Z.lor 1 (Z.lor 2 4).

Definition TFM_PS_SET : Z := 1001.
Definition TFM_PS_GET : Z := 1002.
Definition TFM_PS_GET_INFO : Z := 1003.
Definition TFM_PS_REMOVE : Z := 1004.
Definition TFM_PS_GET_SUPPORT : Z := 1005.

Record ps_info_t : Type := PsInfo { info_size : Z; info_create_flags : Z }.

(** [psa_msg_t], as far as the service reads it. *)
Record ps_msg_t : Type := PsMsg {
  m_type : Z;
  m_client_id : Z;
  m_in_size : list Z;
  m_out_size : list Z;
}.

Section objects.
Context {P K : Type} `{PsPlat P} `{PsCryptoOps K}.
Context (TFM_SP_PS : Z) (PS_NUM_ASSETS : nat) (PS_MAX_ASSET_SIZE : Z).
Abbreviation PS := (M (ps_st P)).

Abbreviation set_obj_tbl_info := ps_object_table_set_obj_tbl_info.
Abbreviation object_read := (ps_encrypted_object_read PS_MAX_ASSET_SIZE).

(** [g_ps_object] after [memset(_, 0, PS_MAX_OBJECT_SIZE)] *)
Definition object_zero : ps_object_t := PsObject crypto_zero (fill (INFO_SIZE + PS_MAX_ASSET_SIZE + PS_TAG_LEN_BYTES) 0).

Definition clear_object : PS unit := modify (put_obj object_zero).

Definition ps_init_empty_object (uid client_id create_flags size : Z) : PS unit :=
  let o := with_crypto object_zero (set_ref uid client_id crypto_zero) in
  modify (put_obj (set_word 8 create_flags (set_word 4 size o))).

(** *** The framework's calls *)

Definition ps_req_mngr_read_asset_data (off size : Z) : PS unit :=
  let* s := get in
  let v := nth 1 (in_vec s) [] in
  let n := Z.min size (zlen v) in
  let* _ := modify (fun s => put_in (<[1%nat := sub_bytes n (zlen v - n) v]> (in_vec s))
                     (put_obj (with_body (g_ps_object s) (splice (INFO_SIZE + off) (sub_bytes 0 n v) (o_body (g_ps_object s)))) s)) in
  check (n =? size) PSA_ERROR_PROGRAMMER_ERROR.

Definition ps_req_mngr_write_asset_data (d : list Z) : PS unit :=
  modify (fun s => put_out (<[0%nat := nth 0 (out_vec s) [] ++ d]> (out_vec s)) s).

(** *** Objects *)

Definition ps_update_table (uid client_id : Z) : PS unit :=
  let* r := try (set_obj_tbl_info uid client_id) in
  match r with
  | Ok _ => ps_object_table_delete_old_table
  | Err e =>
      let* fid := gets g_fid in
      let* _ := ignore (lift (psa_its_remove fid)) in
      fail e
  end.

Definition ps_store_object : PS unit :=
  let* fid := gets g_fid in
  ps_encrypted_object_write fid.

Definition ps_system_prepare : PS unit := ps_object_table_init TFM_SP_PS PS_NUM_ASSETS.

Definition set_object_ref (uid client_id : Z) : PS unit :=
  modify (fun s => put_obj (with_crypto (g_ps_object s) (set_ref uid client_id (o_crypto (g_ps_object s)))) s).

(** Runs [m], clears the object buffer and returns the outcome of [m]. *)
Definition then_clear {A} (m : PS A) : PS A :=
  let* r := try m in
  let* _ := clear_object in
  match r with Ok a => ret a | Err e => fail e end.

(** Returns [*p_data_length]. *)
Definition ps_object_read (uid client_id offset size : Z) : PS Z :=
  let* _ := ps_object_table_get_obj_tbl_info uid client_id in
  then_clear (
    let* _ := set_object_ref uid client_id in
    let* fid := gets g_fid in
    let* _ := object_read fid in
    let* o := gets g_ps_object in
    let* _ := check (negb (offset >? current_size o)) PSA_ERROR_INVALID_ARGUMENT in
    let size := PS_UTILS_MIN size (u32 (current_size o - offset)) in
    let* _ := ps_req_mngr_write_asset_data (sub_bytes (INFO_SIZE + offset) size (o_body o)) in
    ret size).

Definition has_write_once (o : ps_object_t) : bool := negb (Z.land (create_flags o) PS_FLAG_WRITE_ONCE =? 0).

(** The part of [ps_object_create] before the new content is stored, for an
    object that exists: its old file. *)
Definition create_existing (uid client_id create_flags size : Z) : PS Z :=
  let* _ := set_object_ref uid client_id in
  let* fid := gets g_fid in
  let* _ := object_read fid in
  let* o := gets g_ps_object in
  let* _ := check (negb (has_write_once o)) PSA_ERROR_NOT_PERMITTED in
  let* _ := modify (fun s => put_obj (set_word 4 size (set_word 8 create_flags (g_ps_object s))) s) in
  gets g_fid.

(** Storing the object under a new file; the old one stays current when that
    fails. *)
Definition store_new (reserve old_fid : Z) (resize : ps_object_t -> ps_object_t) : PS unit :=
  let* fid := ps_object_table_get_free_fid reserve in
  let* _ := modify (put_fid fid) in
  let* _ := modify (fun s => put_obj (resize (g_ps_object s)) s) in
  let* r := try ps_store_object in
  match r with
  | Ok _ => ret tt
  | Err e =>
      let* _ := if negb (old_fid =? PS_INVALID_FID) then modify (put_fid old_fid) else ret tt in
      fail e
  end.

Definition ps_object_create (uid client_id create_flags size : Z) : PS unit :=
  let* _ := check (negb (size >? PS_MAX_ASSET_SIZE)) PSA_ERROR_INVALID_ARGUMENT in
  let* r := try (ps_object_table_get_obj_tbl_info uid client_id) in
  let* exists_ :=
    match r with
    | Ok _ => ret true
    | Err e => let* _ := check (e =? PSA_ERROR_DOES_NOT_EXIST) e in ret false
    end in
  then_clear (
    let* r := try (
      let* old_fid :=
        (if exists_ then create_existing uid client_id create_flags size
         else let* _ := ps_init_empty_object uid client_id create_flags size in ret PS_INVALID_FID) in
      let* _ := ps_req_mngr_read_asset_data 0 size in
      let* _ := store_new (if exists_ then 1 else 2) old_fid (set_word 0 size) in
      ret old_fid) in
    match r with
    | Ok old_fid =>
        let* _ := ps_update_table uid client_id in
        if negb (old_fid =? PS_INVALID_FID) then lift (psa_its_remove old_fid) else ret tt
    | Err e =>
        let* _ := if exists_ then ignore (ps_update_table uid client_id) else ret tt in
        fail e
    end).

Definition ps_object_write (uid client_id offset size : Z) : PS unit :=
  let* _ := ps_object_table_get_obj_tbl_info uid client_id in
  then_clear (
    let* r := try (
      let* _ := set_object_ref uid client_id in
      let* fid := gets g_fid in
      let* _ := object_read fid in
      let* o := gets g_ps_object in
      let* _ := check (negb (has_write_once o)) PSA_ERROR_NOT_PERMITTED in
      let* _ := check (negb (offset >? current_size o)) PSA_ERROR_INVALID_ARGUMENT in
      let* _ := of_status (ps_utils_check_contained_in (max_size o) offset size) in
      let* _ := ps_req_mngr_read_asset_data offset size in
      let* old_fid := gets g_fid in
      let grow o := if u32 (offset + size) >? current_size o then set_word 0 (u32 (offset + size)) o else o in
      let* _ := store_new 1 old_fid grow in
      ret old_fid) in
    match r with
    | Ok old_fid =>
        let* _ := ps_update_table uid client_id in
        lift (psa_its_remove old_fid)
    | Err e =>
        let* _ := ignore (ps_update_table uid client_id) in
        fail e
    end).

Definition ps_object_get_info (uid client_id : Z) : PS ps_info_t :=
  let* _ := ps_object_table_get_obj_tbl_info uid client_id in
  then_clear (
    let* _ := set_object_ref uid client_id in
    let* fid := gets g_fid in
    let* _ := object_read fid in
    let* o := gets g_ps_object in
    ret (PsInfo (current_size o) (create_flags o))).

Definition ps_object_delete (uid client_id : Z) : PS unit :=
  let* _ := ps_object_table_get_obj_tbl_info uid client_id in
  then_clear (
    let* _ := set_object_ref uid client_id in
    let* fid := gets g_fid in
    let* _ := object_read fid in
    let* o := gets g_ps_object in
    let* _ := check (negb (has_write_once o)) PSA_ERROR_NOT_PERMITTED in
    let* _ := ps_object_table_delete_object uid client_id in
    let* _ := ps_object_table_delete_old_table in
    let* fid := gets g_fid in
    lift (psa_its_remove fid)).

Definition ps_system_wipe_all : PS unit := ps_object_table_create TFM_SP_PS PS_NUM_ASSETS.

(** *** The service *)

(** [PS_CREATE_FLASH_LAYOUT] is [create]. *)
Definition tfm_ps_init (create : bool) : PS unit :=
  let* r := try ps_system_prepare in
  match r with
  | Ok _ => ret tt
  | Err e =>
      if create then
        let* _ := ps_system_wipe_all in
        ps_system_prepare
      else fail e
  end.

Definition tfm_ps_set (client_id uid data_length create_flags : Z) : PS unit :=
  let* _ := check (negb (uid =? TFM_PS_INVALID_UID)) PSA_ERROR_INVALID_ARGUMENT in
  let* _ := check (Z.land create_flags (Z.lnot PS_FLAGS_SUPPORTED) =? 0) PSA_ERROR_NOT_SUPPORTED in
  ps_object_create uid client_id create_flags data_length.

Definition tfm_ps_get (client_id uid data_offset data_size : Z) : PS Z :=
  let* _ := check (negb (uid =? TFM_PS_INVALID_UID)) PSA_ERROR_INVALID_ARGUMENT in
  ps_object_read uid client_id data_offset data_size.

Definition tfm_ps_get_info (client_id uid : Z) : PS ps_info_t :=
  let* _ := check (negb (uid =? TFM_PS_INVALID_UID)) PSA_ERROR_INVALID_ARGUMENT in
  ps_object_get_info uid client_id.

Definition tfm_ps_remove (client_id uid : Z) : PS unit :=
  let* _ := check (negb (uid =? TFM_PS_INVALID_UID)) PSA_ERROR_INVALID_ARGUMENT in
  let* r := try (ps_object_delete uid client_id) in
  match r with
  | Ok _ => ret tt
  | Err e => fail (if e =? PSA_ERROR_INVALID_SIGNATURE then PSA_ERROR_GENERIC_ERROR else e)
  end.

Definition tfm_ps_get_support : Z := 0.

(** *** Requests *)

Definition ps_read_arg (i : nat) (n : Z) : PS Z :=
  let* s := get in
  let v := nth i (in_vec s) [] in
  let k := Z.min n (zlen v) in
  let* _ := modify (put_in (<[i := sub_bytes k (zlen v - k) v]> (in_vec s))) in
  let* _ := check (k =? n) PSA_ERROR_PROGRAMMER_ERROR in
  ret (le_val (sub_bytes 0 k v)).

Definition sized (l : list Z) (i : nat) (n : Z) : bool := nth i l 0 =? n.

Definition tfm_ps_set_req (msg : ps_msg_t) : PS unit :=
  let* _ := check (sized (m_in_size msg) 0 8 && sized (m_in_size msg) 2 4) PSA_ERROR_PROGRAMMER_ERROR in
  let* uid := ps_read_arg 0 8 in
  let* create_flags := ps_read_arg 2 4 in
  tfm_ps_set (m_client_id msg) uid (nth 1 (m_in_size msg) 0) create_flags.

Definition tfm_ps_get_req (msg : ps_msg_t) : PS unit :=
  let* _ := check (sized (m_in_size msg) 0 8 && sized (m_in_size msg) 1 4) PSA_ERROR_PROGRAMMER_ERROR in
  let* uid := ps_read_arg 0 8 in
  let* data_offset := ps_read_arg 1 4 in
  let* _ := tfm_ps_get (m_client_id msg) uid data_offset (nth 0 (m_out_size msg) 0) in
  ret tt.

(** [info.capacity] is not set by the service. *)
Definition tfm_ps_get_info_req (stack_word : Z) (msg : ps_msg_t) : PS unit :=
  let* _ := check (sized (m_in_size msg) 0 8 && sized (m_out_size msg) 0 12) PSA_ERROR_PROGRAMMER_ERROR in
  let* uid := ps_read_arg 0 8 in
  let* i := tfm_ps_get_info (m_client_id msg) uid in
  ps_req_mngr_write_asset_data (le_bytes 4 stack_word ++ le_bytes 4 (info_size i) ++ le_bytes 4 (info_create_flags i)).

Definition tfm_ps_remove_req (msg : ps_msg_t) : PS unit :=
  let* _ := check (sized (m_in_size msg) 0 8) PSA_ERROR_PROGRAMMER_ERROR in
  let* uid := ps_read_arg 0 8 in
  tfm_ps_remove (m_client_id msg) uid.

Definition tfm_ps_get_support_req (msg : ps_msg_t) : PS unit :=
  let* _ := check (sized (m_out_size msg) 0 4) PSA_ERROR_PROGRAMMER_ERROR in
  ps_req_mngr_write_asset_data (le_bytes 4 tfm_ps_get_support).

Definition tfm_protected_storage_service_sfn (stack_word : Z) (msg : ps_msg_t) : PS unit :=
  if m_type msg =? TFM_PS_SET then tfm_ps_set_req msg
  else if m_type msg =? TFM_PS_GET then tfm_ps_get_req msg
  else if m_type msg =? TFM_PS_GET_INFO then tfm_ps_get_info_req stack_word msg
  else if m_type msg =? TFM_PS_REMOVE then tfm_ps_remove_req msg
  else if m_type msg =? TFM_PS_GET_SUPPORT then tfm_ps_get_support_req msg
  else fail PSA_ERROR_PROGRAMMER_ERROR.
End objects.
