(* ===== verification/PsLaws.v ===== *)
(** * Protected storage: what it relies on

    A platform that may lose power or fail at any change, a crypto service that
    works, and the layout of tables in files. *)

From S2P Require Import Prelude Bytes PsTypes PsCrypto PsTable PsObject.
From stdpp Require Import base list numbers gmap.
From Stdlib Require Import ZArith Lia.

Open Scope Z_scope.
Open Scope tfm_scope.

(** ** The platform

    [pl_files] and [pl_ctr] are what survives a reset.  A change of a file or
    a counter succeeds, or power is lost during it, and then it happened or did
    not happen; or it fails with power on, for lack of space, an error of the
    file system or a counter at its maximum: nothing is known of the platform
    after that.  Files that are there and counters can be read while nothing
    has failed. *)

Inductive ps_mode : Type :=
| Working
| PowerLost
| Faulted.

(** What a call does after one has failed: nothing that survives a reset, when
    power is off. *)
Definition after_failure {P : Type} (mode : P -> ps_mode) (files : P -> gmap Z (list Z)) (ctr : P -> tfm_nv_counter_t -> Z) (p p' : P) : Prop :=
  mode p <> Working -> mode p' = mode p /\ (mode p = PowerLost -> files p' = files p /\ ctr p' = ctr p).

Class PsPower (P : Type) `{PsPlat P} : Type := {
  pl_files : P -> gmap Z (list Z);
  pl_ctr : P -> tfm_nv_counter_t -> Z;
  pl_mode : P -> ps_mode;
  pw_get uid off n p r p' : pl_mode p = Working -> psa_its_get uid off n p = (r, p') ->
    p' = p /\ match r with
              | Ok d => exists f, pl_files p !! uid = Some f /\ off <= zlen f /\ d = sub_bytes off (Z.min n (zlen f - off)) f
              | Err e => e <> PSA_SUCCESS /\
                  (pl_files p !! uid = None /\ e = PSA_ERROR_DOES_NOT_EXIST \/
                   exists f, pl_files p !! uid = Some f /\ (zlen f < off \/ Z.min n (zlen f - off) = 0))
              end;
  pw_set uid d p r p' : pl_mode p = Working -> psa_its_set uid d p = (r, p') ->
    match r with
    | Ok _ => pl_mode p' = Working /\ pl_ctr p' = pl_ctr p /\ pl_files p' = <[uid := d]> (pl_files p)
    | Err e => pl_mode p' = Faulted \/
        pl_mode p' = PowerLost /\ pl_ctr p' = pl_ctr p /\ (pl_files p' = pl_files p \/ pl_files p' = <[uid := d]> (pl_files p))
    end;
  pw_remove uid p r p' : pl_mode p = Working -> psa_its_remove uid p = (r, p') ->
    match r with
    | Ok _ => is_Some (pl_files p !! uid) /\ pl_mode p' = Working /\ pl_ctr p' = pl_ctr p /\ pl_files p' = delete uid (pl_files p)
    | Err e =>
        e = PSA_ERROR_DOES_NOT_EXIST /\ pl_files p !! uid = None /\ p' = p \/
        e <> PSA_ERROR_DOES_NOT_EXIST /\
          (pl_mode p' = Faulted \/
           pl_mode p' = PowerLost /\ pl_ctr p' = pl_ctr p /\ (pl_files p' = pl_files p \/ pl_files p' = delete uid (pl_files p)))
    end;
  pw_read c p : pl_mode p = Working -> tfm_platform_nv_counter_read c p = (Ok (pl_ctr p c), p);
  pw_incr c p r p' : pl_mode p = Working -> tfm_platform_nv_counter_increment c p = (r, p') ->
    let others := pl_files p' = pl_files p /\ (forall d, d <> c -> pl_ctr p' d = pl_ctr p d) in
    match r with
    | Ok _ => pl_mode p' = Working /\ others /\ pl_ctr p' c = pl_ctr p c + 1
    | Err e => pl_mode p' = Faulted \/
        pl_mode p' = PowerLost /\ others /\ (pl_ctr p' c = pl_ctr p c \/ pl_ctr p' c = pl_ctr p c + 1)
    end;
  pw_after_get uid off n p : after_failure pl_mode pl_files pl_ctr p (snd (psa_its_get uid off n p));
  pw_after_set uid d p : after_failure pl_mode pl_files pl_ctr p (snd (psa_its_set uid d p));
  pw_after_remove uid p : after_failure pl_mode pl_files pl_ctr p (snd (psa_its_remove uid p));
  pw_after_read c p : after_failure pl_mode pl_files pl_ctr p (snd (tfm_platform_nv_counter_read c p));
  pw_after_incr c p : after_failure pl_mode pl_files pl_ctr p (snd (tfm_platform_nv_counter_increment c p));
}.

(** A platform none of whose changes fails. *)
Class PsAlways (P : Type) `{PsPower P} : Prop := {
  pa_set uid d p : pl_mode p = Working -> pl_mode (snd (psa_its_set uid d p)) = Working;
  pa_remove uid p : pl_mode p = Working -> pl_mode (snd (psa_its_remove uid p)) = Working;
  pa_incr c p : pl_mode p = Working -> pl_mode (snd (tfm_platform_nv_counter_increment c p)) = Working;
}.

(** ** The crypto service *)

Class PsAead (K : Type) `{PsCryptoOps K} : Prop := {
  ae_key l : exists k, ps_crypto_setkey l = inr k;
  ae_destroy k : psa_destroy_key k = PSA_SUCCESS;
  ae_enc k iv ad pt : Forall is_byte pt -> exists ct,
    psa_aead_encrypt k iv ad pt = Some ct /\ zlen ct = zlen pt + PS_TAG_LEN_BYTES /\ Forall is_byte ct;
  ae_dec k iv ad pt ct : psa_aead_encrypt k iv ad pt = Some ct -> psa_aead_decrypt k iv ad ct = Some pt;
  ae_dec_len k iv ad ct pt : psa_aead_decrypt k iv ad ct = Some pt -> zlen ct = zlen pt + PS_TAG_LEN_BYTES;
  (** Data that differ in their last word have different tags under one IV. *)
  ae_word k iv ad n m g pt : psa_aead_encrypt k iv (ad ++ le_bytes 4 n) [] = Some g ->
    psa_aead_decrypt k iv (ad ++ le_bytes 4 m) g = Some pt -> le_bytes 4 n = le_bytes 4 m;
}.

(** ** Runs after a failure *)

Section dead.
Context {P K : Type} `{PsPower P} `{PsCryptoOps K}.
Implicit Types (s : ps_st P).

(** [on]: no change has failed; [off]: one has; [cut]: power was lost. *)
Definition on s : Prop := pl_mode (plat s) = Working.
Definition off s : Prop := pl_mode (plat s) <> Working.
Definition cut s : Prop := pl_mode (plat s) = PowerLost.
Definition same_view s s' : Prop :=
  pl_files (plat s') = pl_files (plat s) /\ pl_ctr (plat s') = pl_ctr (plat s).

(** What a failure leaves. *)
Definition kept_view s s' : Prop := pl_mode (plat s') = pl_mode (plat s) /\ (cut s -> same_view s s').

Lemma kept_view_trans s1 s2 s3 : kept_view s1 s2 -> kept_view s2 s3 -> kept_view s1 s3.
Proof.
  intros [Hm Hv] [Hm' Hv']. split; [congruence|]. intros Hc. destruct (Hv Hc) as [Hf Hr].
  assert (cut s2) as Hc2 by (unfold cut in *; congruence). destruct (Hv' Hc2) as [Hf' Hr']. split; congruence.
Qed.

Lemma kept_view_off s s' : off s -> kept_view s s' -> off s'.
Proof. unfold off. intros Ho [-> _]. exact Ho. Qed.

(** A computation that cannot change what survives once a change has failed by
    a loss of power. *)
Definition dead {A} (m : M (ps_st P) A) : Prop := forall s, off s -> kept_view s (snd (m s)).

Lemma dead_ret {A} (a : A) : dead (ret a).
Proof. done. Qed.
Lemma dead_fail {A} e : dead (fail e : M (ps_st P) A).
Proof. done. Qed.
Lemma dead_gets {A} (f : ps_st P -> A) : dead (gets f).
Proof. done. Qed.
Lemma dead_get : dead get.
Proof. done. Qed.
Lemma dead_modify f : (forall s, plat (f s) = plat s) -> dead (modify f).
Proof. intros Hf s Hs. unfold kept_view, cut, same_view, modify. cbn [snd]. by rewrite Hf. Qed.

Lemma dead_bind {A B} (m : M (ps_st P) A) (k : A -> M (ps_st P) B) : dead m -> (forall a, dead (k a)) -> dead (bind m k).
Proof.
  intros Hm Hk s Hs. unfold bind. specialize (Hm s Hs). destruct (m s) as [[a|e] s1]; cbn [fst snd] in *; [|done].
  eapply kept_view_trans; [exact Hm|]. apply Hk. by eapply kept_view_off.
Qed.

Lemma dead_try {A} (m : M (ps_st P) A) : dead m -> dead (try m).
Proof. intros Hm s Hs. specialize (Hm s Hs). unfold try. by destruct (m s). Qed.
Lemma dead_or_return {A} (m : M (ps_st P) A) e : dead m -> dead (or_return m e).
Proof. intros Hm s Hs. specialize (Hm s Hs). unfold or_return. by destruct (m s) as [[]]. Qed.
Lemma dead_check b e : dead (check b e).
Proof. by destruct b. Qed.
Lemma dead_of_status e : dead (of_status e).
Proof. unfold of_status. by destruct (_ =? _). Qed.

(** The rest of a computation after a failure. *)
Lemma wp_dead {A} (m : M (ps_st P) A) (Q : A -> ps_st P -> Prop) (E : psa_status_t -> ps_st P -> Prop) s :
  dead m -> off s -> (forall a s', off s' -> kept_view s s' -> Q a s') -> (forall e s', off s' -> kept_view s s' -> E e s') ->
  wp m Q E s.
Proof.
  intros Hm Hs HQ HE. specialize (Hm s Hs). pose proof (kept_view_off _ _ Hs Hm). unfold wp.
  destruct (m s) as [[a|e] s']; cbn [snd] in *; auto.
Qed.

(** A computation that ends with an error. *)
Definition fails {A} (m : M (ps_st P) A) : Prop := forall s a s', m s <> (Ok a, s').

Lemma fails_fail {A} e : fails (fail e : M (ps_st P) A).
Proof. done. Qed.
Lemma fails_bind {A B} (m : M (ps_st P) A) (k : A -> M (ps_st P) B) : (forall a, fails (k a)) -> fails (bind m k).
Proof. intros Hk s b s'. unfold bind. destruct (m s) as [[a|e] s1]; [apply Hk|done]. Qed.

Lemma wp_dead_fails {A} (m : M (ps_st P) A) (Q : A -> ps_st P -> Prop) (E : psa_status_t -> ps_st P -> Prop) s :
  dead m -> fails m -> off s -> (forall e s', off s' -> kept_view s s' -> E e s') -> wp m Q E s.
Proof.
  intros Hm Hf Hs HE. specialize (Hm s Hs). pose proof (kept_view_off _ _ Hs Hm) as Ho. unfold wp.
  destruct (m s) as [[a|e] s'] eqn:Hr; cbn [snd] in *; [destruct (Hf s a s' Hr)|by apply HE].
Qed.

Lemma dead_lift {A} (m : M P A) : (forall p, after_failure pl_mode pl_files pl_ctr p (snd (m p))) -> dead (lift m).
Proof. intros Hm s Hs. specialize (Hm (plat s) Hs). unfold lift. by destruct (m (plat s)). Qed.
End dead.

Create HintDb dead discriminated.
#[export] Hint Resolve dead_ret dead_fail dead_gets dead_get dead_check dead_of_status fails_fail fails_bind : dead.

(** Walks through a computation. *)
Ltac dead_step :=
  lazymatch goal with
  | |- dead (bind _ _) => apply dead_bind; [|intros ?]
  | |- dead (try _) => apply dead_try
  | |- dead (or_return _ _) => apply dead_or_return
  | |- dead (modify _) => apply dead_modify; intros []; reflexivity
  | |- dead (lift (psa_its_get _ _ _)) => apply dead_lift; intros ?; apply pw_after_get
  | |- dead (lift (psa_its_set _ _)) => apply dead_lift; intros ?; apply pw_after_set
  | |- dead (lift (psa_its_remove _)) => apply dead_lift; intros ?; apply pw_after_remove
  | |- dead (lift (tfm_platform_nv_counter_read _)) => apply dead_lift; intros ?; apply pw_after_read
  | |- dead (lift (tfm_platform_nv_counter_increment _)) => apply dead_lift; intros ?; apply pw_after_incr
  | |- dead (let '(_, _) := ?x in _) => destruct x
  | |- dead (match ?x with _ => _ end) => destruct x
  | |- dead (if ?x then _ else _) => destruct x
  | |- _ => solve [auto with dead]
  end.
Ltac dead_auto := repeat dead_step.

Section dead_ops.
Context {P K : Type} `{PsPower P} `{PsCryptoOps K} (TFM_SP_PS : Z) (PS_NUM_ASSETS : nat) (PS_MAX_ASSET_SIZE : Z).

Lemma dead_increment_loop n c : dead (P := P) (increment_loop n c).
Proof. induction n as [|n IH]; cbn [increment_loop]; unfold ps_increment_nv_counter; dead_auto. Qed.
#[local] Hint Resolve dead_increment_loop : dead.

Lemma dead_align n : dead (P := P) (ps_object_table_align_nv_counters n).
Proof. unfold ps_object_table_align_nv_counters, align_counter, ps_read_nv_counter. dead_auto. Qed.
#[local] Hint Resolve dead_align : dead.

Lemma dead_save : dead (P := P) ps_object_table_save_table.
Proof.
  unfold ps_object_table_save_table, ps_increment_nv_counter, ps_read_nv_counter, ps_object_table_nvc_generate_auth_tag,
    ps_object_table_fs_write_table, ps_crypto_get_iv. dead_auto.
Qed.
#[local] Hint Resolve dead_save : dead.

Lemma dead_entry_idx u c : dead (P := P) (ps_get_object_entry_idx u c).
Proof. unfold ps_get_object_entry_idx. dead_auto. Qed.
#[local] Hint Resolve dead_entry_idx : dead.

Lemma dead_set_info u c : dead (P := P) (ps_object_table_set_obj_tbl_info u c).
Proof. unfold ps_object_table_set_obj_tbl_info, ps_table_delete_entry, put_entry. dead_auto. Qed.
#[local] Hint Resolve dead_set_info : dead.

Lemma dead_update u c : dead (P := P) (ps_update_table u c).
Proof. unfold ps_update_table, ps_object_table_delete_old_table, ignore. dead_auto. Qed.

Lemma dead_clear : dead (P := P) (clear_object PS_MAX_ASSET_SIZE).
Proof. unfold clear_object. dead_auto. Qed.
End dead_ops.
#[export] Hint Resolve dead_align dead_save dead_set_info dead_update dead_clear : dead.

(** ** Tables in files *)

Lemma s32_le_bytes c : -2147483648 <= c < 2147483648 -> s32 (le_val (le_bytes 4 c)) = c.
Proof.
  intros Hc. rewrite le_val_mod. change (256 ^ Z.of_nat 4) with 4294967296. unfold s32.
  destruct (Z.ltb_spec (c mod 4294967296) 2147483648) as [Hl|Hl]; pose proof (Z.div_mod c 4294967296);
    pose proof (Z.mod_pos_bound c 4294967296); nia.
Qed.

(** The parts of a concatenation. *)
Lemma sub_app_l n a b : zlen a = n -> sub_bytes 0 n (a ++ b) = a.
Proof. intros <-. pose proof (zlen_nonneg a). rewrite sub_bytes_app_l by lia. apply sub_bytes_all. Qed.

Lemma sub_app_r off n a b : zlen a <= off -> sub_bytes off n (a ++ b) = sub_bytes (off - zlen a) n b.
Proof. apply sub_bytes_app_r. Qed.

Lemma sub_app_tail n k a b : zlen a = n -> zlen b = k -> sub_bytes n k (a ++ b) = b.
Proof. intros <- <-. rewrite sub_bytes_app_r by lia. rewrite Z.sub_diag. apply sub_bytes_all. Qed.

Record crypto_wf (c : ps_crypto_t) : Prop := {
  cy_tag : zlen (tag c) = 16;
  cy_tag_b : Forall is_byte (tag c);
  cy_uid : 0 <= c_uid c < 18446744073709551616;
  cy_client : -2147483648 <= c_client_id c < 2147483648;
  cy_iv : zlen (iv c) = 12;
  cy_iv_b : Forall is_byte (iv c);
}.

Record entry_wf (e : ps_obj_table_entry_t) : Prop := {
  ew_tag : zlen (e_tag e) = 16;
  ew_tag_b : Forall is_byte (e_tag e);
  ew_uid : 0 <= e_uid e < 18446744073709551616;
  ew_client : -2147483648 <= e_client_id e < 2147483648;
  ew_pad : zlen (e_pad e) = 4;
  ew_pad_b : Forall is_byte (e_pad e);
}.

Lemma parse_ser_crypto c : crypto_wf c -> parse_crypto (ser_crypto c) = c.
Proof.
  intros [Ht _ Hu Hc Hi _]. unfold parse_crypto, ser_crypto.
  assert (zlen (le_bytes 8 (c_uid c)) = 8) as H8 by apply zlen_le_bytes.
  assert (zlen (le_bytes 4 (c_client_id c)) = 4) as H4 by apply zlen_le_bytes.
  rewrite (sub_app_l 16) by done. rewrite !(sub_app_r _ _ (tag c)) by lia. rewrite Ht.
  rewrite (sub_app_l 8) by done. rewrite !(sub_app_r _ _ (le_bytes 8 _)) by lia. rewrite H8.
  rewrite (sub_app_l 4) by done. rewrite (sub_app_tail 4 12) by done.
  rewrite le_val_le_bytes by (simpl; lia). rewrite s32_le_bytes by done. by destruct c.
Qed.

Lemma zlen_ser_crypto c : crypto_wf c -> zlen (ser_crypto c) = 40.
Proof. intros [Ht _ _ _ Hi _]. unfold ser_crypto. rewrite !zlen_app, !zlen_le_bytes. lia. Qed.

Lemma parse_ser_entry e : entry_wf e -> parse_entry (ser_entry e) = e.
Proof.
  intros [Ht _ Hu Hc Hi _]. unfold parse_entry, ser_entry.
  assert (zlen (le_bytes 8 (e_uid e)) = 8) as H8 by apply zlen_le_bytes.
  assert (zlen (le_bytes 4 (e_client_id e)) = 4) as H4 by apply zlen_le_bytes.
  rewrite (sub_app_l 16) by done. rewrite !(sub_app_r _ _ (e_tag e)) by lia. rewrite Ht.
  rewrite (sub_app_l 8) by done. rewrite !(sub_app_r _ _ (le_bytes 8 _)) by lia. rewrite H8.
  rewrite (sub_app_l 4) by done. rewrite (sub_app_tail 4 4) by done.
  rewrite le_val_le_bytes by (simpl; lia). rewrite s32_le_bytes by done. by destruct e.
Qed.

Lemma zlen_ser_entry e : entry_wf e -> zlen (ser_entry e) = 32.
Proof. intros [Ht _ _ _ Hi _]. unfold ser_entry. rewrite !zlen_app, !zlen_le_bytes. lia. Qed.

Lemma ser_entry_bytes e : entry_wf e -> Forall is_byte (ser_entry e).
Proof. intros [_ Ht _ _ _ Hp]. unfold ser_entry. repeat apply Forall_app_2; auto with bytes. Qed.

Lemma zlen_entries l : Forall entry_wf l -> zlen (concat (map ser_entry l)) = 32 * zlen l.
Proof.
  induction 1 as [|e l He Hl IH]; [done|]. cbn [map concat]. rewrite zlen_app, IH, zlen_ser_entry by done.
  unfold zlen. cbn [length]. lia.
Qed.

Lemma parse_ser_entries l : Forall entry_wf l -> parse_entries (length l) (concat (map ser_entry l)) = l.
Proof.
  induction 1 as [|e l He Hl IH]; [done|]. cbn [length parse_entries map concat].
  pose proof (zlen_ser_entry e He) as Hz. rewrite (sub_app_l 32) by done. rewrite parse_ser_entry by done. f_equal.
  rewrite (sub_app_tail 32) by (rewrite ?zlen_app; lia). exact IH.
Qed.

Record table_typed (n : nat) (t : ps_obj_table_t) : Prop := {
  tt_crypto : crypto_wf (t_crypto t);
  tt_version : is_byte (t_version t);
  tt_pad : zlen (t_pad t) = 7;
  tt_pad_b : Forall is_byte (t_pad t);
  tt_len : length (obj_db t) = n;
  tt_db : Forall entry_wf (obj_db t);
}.

Lemma zlen_ser_table n t : table_typed n t -> zlen (ser_table t) = 48 + 32 * Z.of_nat n.
Proof.
  intros [Hc _ Hp _ Hl Hd]. unfold ser_table, ser_table_data. rewrite !zlen_app, zlen_ser_crypto, zlen_entries by done.
  unfold zlen in *. cbn [length]. lia.
Qed.

Lemma parse_ser_table n t : table_typed n t -> parse_table n (ser_table t) = t.
Proof.
  intros Ht. pose proof (zlen_ser_table n t Ht) as Hz. destruct Ht as [Hc Hv Hp _ Hl Hd].
  pose proof (zlen_ser_crypto _ Hc) as H40. pose proof (zlen_entries _ Hd) as He.
  assert (zlen [t_version t] = 1) as H1 by done.
  unfold parse_table. rewrite Hz. unfold ser_table, ser_table_data.
  rewrite (sub_app_l 40) by done. rewrite parse_ser_crypto by done.
  assert (nth 40 (ser_crypto (t_crypto t) ++ [t_version t] ++ t_pad t ++ concat (map ser_entry (obj_db t))) 0 = t_version t) as ->.
  { rewrite app_nth2 by (unfold zlen in *; lia). by replace (40 - length (ser_crypto (t_crypto t)))%nat with 0%nat by (unfold zlen in *; lia). }
  rewrite !(sub_app_r _ _ (ser_crypto _)) by lia. rewrite H40. rewrite !(sub_app_r _ _ [t_version t]) by lia. rewrite H1.
  rewrite (sub_app_l 7) by done. rewrite (sub_app_tail 7) by (unfold zlen in *; lia).
  rewrite <- Hl, parse_ser_entries by done. by destruct t.
Qed.

Lemma ser_table_bytes n t : table_typed n t -> Forall is_byte (ser_table t).
Proof.
  intros [[_ Ht _ _ _ Hi] Hv _ Hp _ Hd]. unfold ser_table, ser_table_data, ser_crypto.
  repeat apply Forall_app_2; auto with bytes.
  clear -Hd. induction Hd as [|e l He Hd IH]; [constructor|]. cbn [map concat]. apply Forall_app_2; [by apply ser_entry_bytes|done].
Qed.

Lemma splice_all d l : zlen d = zlen l -> splice 0 d l = d.
Proof.
  intros Hz. unfold splice, zlen in *. simpl. rewrite drop_ge by lia. apply app_nil_r.
Qed.
