(* ===== verification/PsRules.v ===== *)
(** * Protected storage: rules for the table and for objects

    What each function of [ps_object_table.c] and [ps_encrypted_object.c] does
    to the files and counters, when it succeeds and when a change fails. *)

From S2P Require Import Prelude Bytes PsTypes PsCrypto PsTable PsObject PsLaws.
From stdpp Require Import base list numbers gmap.
From Stdlib Require Import ZArith Lia.

Open Scope Z_scope.
Open Scope tfm_scope.

Abbreviation files := (gmap Z (list Z)).

(** ** The IV counter *)

Lemma next_iv_spec buf : zlen buf = 12 -> Forall is_byte buf -> le_val buf + 1 < 2 ^ 96 ->
  next_iv buf = Some (le_bytes 12 (le_val buf + 1)).
Proof.
  intros Hz Hb Hlt.
  assert (buf = sub_bytes 0 8 buf ++ sub_bytes 8 4 buf) as Hsplit.
  { rewrite <- (sub_bytes_split 0 8 4) by lia. change (8 + 4) with 12. rewrite <- Hz. symmetry. apply sub_bytes_all. }
  set (a := sub_bytes 0 8 buf) in *. set (b := sub_bytes 8 4 buf) in *.
  assert (zlen a = 8 /\ zlen b = 4) as [Za Zb] by (split; apply zlen_sub_bytes; lia).
  assert (Forall is_byte a /\ Forall is_byte b) as [Ba Bb] by (split; by apply Forall_sub_bytes).
  pose proof (le_val_range a Ba) as Ra. pose proof (le_val_range b Bb) as Rb. rewrite Za in Ra. rewrite Zb in Rb.
  unfold next_iv. fold a b. rewrite Hsplit, le_val_app, Za in *.
  change (256 ^ 8) with 18446744073709551616 in *. change (256 ^ 4) with 4294967296 in *.
  change (2 ^ 64) with 18446744073709551616. change (2 ^ 96) with 79228162514264337593543950336 in Hlt.
  set (x := le_val a) in *. set (y := le_val b) in *.
  change 12%nat with (8 + 4)%nat. rewrite le_bytes_add. change (256 ^ Z.of_nat 8) with 18446744073709551616.
  rewrite <- (le_bytes_mod 8%nat (x + _ + 1)). change (256 ^ Z.of_nat 8) with 18446744073709551616.
  destruct (Z.eqb_spec ((x + 1) mod 18446744073709551616) 0) as [Hz0|Hnz].
  - assert (x + 1 = 18446744073709551616) as Hx by (pose proof (Z.div_mod (x + 1) 18446744073709551616); lia).
    rewrite u32_id by lia. rewrite (proj2 (Z.eqb_neq (y + 1) 0)) by lia.
    replace (x + 18446744073709551616 * y + 1) with ((y + 1) * 18446744073709551616) by lia.
    rewrite Z.mod_mul, Z.div_mul by lia. by rewrite Hz0.
  - assert (x + 1 < 18446744073709551616) as Hx.
    { destruct (Z.eq_dec (x + 1) 18446744073709551616) as [He|]; [|lia]. by rewrite He in Hnz. }
    replace (x + 18446744073709551616 * y + 1) with (x + 1 + y * 18446744073709551616) by lia.
    rewrite Z.mod_add, Z.div_add by lia. by rewrite Z.div_small, Z.add_0_l by lia.
Qed.

Section rules.
Context {P K : Type} `{PsPower P} `{PsCryptoOps K} `{!PsAead K} (TFM_SP_PS : Z) (PS_NUM_ASSETS : nat).
Implicit Types (s : ps_st P) (p : P) (F : files) (t : ps_obj_table_t) (o : ps_object_t).

(** ** Platform states *)

Definition ctrs p (c1 c2 c3 : Z) : Prop :=
  pl_ctr p TFM_PS_NV_COUNTER_1 = c1 /\ pl_ctr p TFM_PS_NV_COUNTER_2 = c2 /\ pl_ctr p TFM_PS_NV_COUNTER_3 = c3.

Definition live p F (c1 c2 c3 : Z) : Prop := pl_mode p = Working /\ pl_files p = F /\ ctrs p c1 c2 c3.

(** A change has failed; if by a loss of power, these files and counters are
    left. *)
Definition lost p F (c1 c2 c3 : Z) : Prop :=
  pl_mode p <> Working /\ (pl_mode p = PowerLost -> pl_files p = F /\ ctrs p c1 c2 c3).

Lemma live_lost p F c1 c2 c3 : pl_mode p = PowerLost -> pl_files p = F -> ctrs p c1 c2 c3 -> lost p F c1 c2 c3.
Proof. intros Hm HF Hc. split; [by rewrite Hm|done]. Qed.

Lemma faulted_lost p F c1 c2 c3 : pl_mode p = Faulted -> lost p F c1 c2 c3.
Proof. intros Hm. split; by rewrite Hm. Qed.

(** *** Primitive operations *)

Lemma wp_set_file uid d Q (E : psa_status_t -> ps_st P -> Prop) s F c1 c2 c3 :
  live (plat s) F c1 c2 c3 ->
  (forall p', live p' (<[uid := d]> F) c1 c2 c3 -> Q tt (put_plat p' s)) ->
  (forall e p' F', lost p' F' c1 c2 c3 -> F' = F \/ F' = <[uid := d]> F -> E e (put_plat p' s)) ->
  wp (lift (psa_its_set uid d)) Q E s.
Proof.
  intros (Ho & HF & Hc) HQ HE. unfold wp, lift. destruct (psa_its_set uid d (plat s)) as [r p'] eqn:Hr.
  pose proof (pw_set _ _ _ _ _ Ho Hr) as Hx. unfold ctrs in Hc. destruct r as [[]|e].
  - destruct Hx as (Hm & Hc' & Hf). apply HQ. unfold live, ctrs. by rewrite Hc', Hf, HF.
  - destruct Hx as [Hm|(Hm & Hc' & Hx)]; [apply (HE _ _ F); [by apply faulted_lost|by left]|].
    apply (HE _ _ (pl_files p')); [|by rewrite <- HF]. apply live_lost; [done|done|]. unfold ctrs. by rewrite Hc'.
Qed.

Lemma wp_remove_file uid Q (E : psa_status_t -> ps_st P -> Prop) s F c1 c2 c3 :
  live (plat s) F c1 c2 c3 ->
  (forall p', is_Some (F !! uid) -> live p' (delete uid F) c1 c2 c3 -> Q tt (put_plat p' s)) ->
  (F !! uid = None -> E PSA_ERROR_DOES_NOT_EXIST (put_plat (plat s) s)) ->
  (forall e p' F', e <> PSA_ERROR_DOES_NOT_EXIST -> lost p' F' c1 c2 c3 -> F' = F \/ F' = delete uid F -> E e (put_plat p' s)) ->
  wp (lift (psa_its_remove uid)) Q E s.
Proof.
  intros (Ho & HF & Hc) HQ HN HE. unfold wp, lift. destruct (psa_its_remove uid (plat s)) as [r p'] eqn:Hr.
  pose proof (pw_remove _ _ _ _ Ho Hr) as Hx. unfold ctrs in Hc. destruct r as [[]|e].
  - destruct Hx as (Hs & Hm & Hc' & Hf). rewrite HF in Hs. apply HQ; [done|]. unfold live, ctrs. by rewrite Hc', Hf, HF.
  - destruct Hx as [(-> & Hn & ->)|(Hne & [Hm|(Hm & Hc' & Hx)])]; [apply HN; by rewrite <- HF| |].
    + apply (HE _ _ F); [done|by apply faulted_lost|by left].
    + apply (HE _ _ (pl_files p')); [done| |by rewrite <- HF]. apply live_lost; [done|done|]. unfold ctrs. by rewrite Hc'.
Qed.

Lemma wp_get_file uid off n Q (E : psa_status_t -> ps_st P -> Prop) s F c1 c2 c3 :
  live (plat s) F c1 c2 c3 ->
  (forall f, F !! uid = Some f -> off <= zlen f -> Q (sub_bytes off (Z.min n (zlen f - off)) f) s) ->
  (forall e, F !! uid = None \/ (exists f, F !! uid = Some f /\ (zlen f < off \/ Z.min n (zlen f - off) = 0)) -> E e s) ->
  wp (lift (psa_its_get uid off n)) Q E s.
Proof.
  intros (Ho & HF & Hc) HQ HE. unfold wp, lift. destruct (psa_its_get uid off n (plat s)) as [r p'] eqn:Hr.
  destruct (pw_get _ _ _ _ _ _ Ho Hr) as [-> Hx]. rewrite <- HF in *.
  assert (put_plat (plat s) s = s) as -> by (by destruct s).
  destruct r as [d|e].
  - destruct Hx as (f & Hf & Hl & ->). by apply HQ.
  - destruct Hx as [_ [[? _]|Hx]]; apply HE; auto.
Qed.

Lemma wp_read_counter c Q (E : psa_status_t -> ps_st P -> Prop) s :
  on s -> Q (pl_ctr (plat s) c) s -> wp (ps_read_nv_counter c) Q E s.
Proof.
  intros Ho HQ. unfold ps_read_nv_counter. apply wp_or_return. unfold wp, lift. rewrite pw_read by done.
  by assert (put_plat (plat s) s = s) as -> by (by destruct s).
Qed.

(** The counters after one more increment of [c]. *)
Definition bump (c d : tfm_nv_counter_t) (v : Z) : Z := if decide (c = d) then v + 1 else v.

Lemma wp_incr_counter c Q (E : psa_status_t -> ps_st P -> Prop) s F c1 c2 c3 :
  live (plat s) F c1 c2 c3 ->
  (forall p', live p' F (bump c TFM_PS_NV_COUNTER_1 c1) (bump c TFM_PS_NV_COUNTER_2 c2) (bump c TFM_PS_NV_COUNTER_3 c3) ->
     Q tt (put_plat p' s)) ->
  (forall e p', lost p' F c1 c2 c3 \/
     lost p' F (bump c TFM_PS_NV_COUNTER_1 c1) (bump c TFM_PS_NV_COUNTER_2 c2) (bump c TFM_PS_NV_COUNTER_3 c3) ->
     E e (put_plat p' s)) ->
  wp (ps_increment_nv_counter c) Q E s.
Proof.
  intros (Ho & HF & C1 & C2 & C3) HQ HE. unfold ps_increment_nv_counter. apply wp_or_return. unfold wp, lift.
  destruct (tfm_platform_nv_counter_increment c (plat s)) as [r p'] eqn:Hr.
  pose proof (pw_incr _ _ _ _ Ho Hr) as Hx. cbv zeta in Hx.
  assert (forall d v, (forall d, d <> c -> pl_ctr p' d = pl_ctr (plat s) d) -> pl_ctr (plat s) d = v ->
    pl_ctr p' c = pl_ctr (plat s) c + 1 -> pl_ctr p' d = bump c d v) as Hup.
  { intros d v Hd <- Hc. unfold bump. destruct (decide (c = d)) as [<-|Hne]; [done|apply Hd; congruence]. }
  assert (forall d v, (forall d, d <> c -> pl_ctr p' d = pl_ctr (plat s) d) -> pl_ctr (plat s) d = v ->
    pl_ctr p' c = pl_ctr (plat s) c -> pl_ctr p' d = v) as Hsame.
  { intros d v Hd <- Hc. destruct (decide (c = d)) as [<-|Hne]; [done|apply Hd; congruence]. }
  destruct r as [[]|e].
  - destruct Hx as (Hm & (HF' & Hd) & Hx). apply HQ. unfold live, ctrs. rewrite HF', HF. split_and!; auto.
  - destruct Hx as [Hm|(Hm & (HF' & Hd) & [Hx|Hx])]; apply HE;
      [left; by apply faulted_lost|left|right]; (apply live_lost; [done|congruence|]); unfold ctrs; split_and!; auto.
Qed.

(** *** Aligning the counters *)

Lemma wp_increment_loop2 k Q (E : psa_status_t -> ps_st P -> Prop) s F c1 c2 c3 :
  live (plat s) F c1 c2 c3 ->
  (forall p', live p' F c1 (c2 + Z.of_nat k) c3 -> Q tt (put_plat p' s)) ->
  (forall e p' x, lost p' F c1 x c3 -> c2 <= x <= c2 + Z.of_nat k -> E e (put_plat p' s)) ->
  wp (increment_loop k TFM_PS_NV_COUNTER_2) Q E s.
Proof.
  revert s c2. induction k as [|k IH]; intros s c2 Hl HQ HE; cbn [increment_loop].
  { apply wp_ret. assert (put_plat (plat s) s = s) as <- by (by destruct s). apply HQ. by rewrite Z.add_0_r. }
  apply wp_bind. eapply wp_incr_counter; [exact Hl|intros p' Hl'|intros e p' Hl'].
  - eapply (IH _ (c2 + 1)); [exact Hl'|intros p2 Hl2|intros e p2 x Hl2 Hx].
    + apply (HQ p2). by replace (c2 + Z.of_nat (S k)) with (c2 + 1 + Z.of_nat k) by lia.
    + apply (HE e p2 x Hl2). lia.
  - destruct Hl' as [Hl'|Hl']; (eapply HE; [exact Hl'|]); unfold bump; rewrite ?decide_True by done; lia.
Qed.

Lemma wp_increment_loop3 k Q (E : psa_status_t -> ps_st P -> Prop) s F c1 c2 c3 :
  live (plat s) F c1 c2 c3 ->
  (forall p', live p' F c1 c2 (c3 + Z.of_nat k) -> Q tt (put_plat p' s)) ->
  (forall e p' x, lost p' F c1 c2 x -> c3 <= x <= c3 + Z.of_nat k -> E e (put_plat p' s)) ->
  wp (increment_loop k TFM_PS_NV_COUNTER_3) Q E s.
Proof.
  revert s c3. induction k as [|k IH]; intros s c3 Hl HQ HE; cbn [increment_loop].
  { apply wp_ret. assert (put_plat (plat s) s = s) as <- by (by destruct s). apply HQ. by rewrite Z.add_0_r. }
  apply wp_bind. eapply wp_incr_counter; [exact Hl|intros p' Hl'|intros e p' Hl'].
  - eapply (IH _ (c3 + 1)); [exact Hl'|intros p2 Hl2|intros e p2 x Hl2 Hx].
    + apply (HQ p2). by replace (c3 + Z.of_nat (S k)) with (c3 + 1 + Z.of_nat k) by lia.
    + apply (HE e p2 x Hl2). lia.
  - destruct Hl' as [Hl'|Hl']; (eapply HE; [exact Hl'|]); unfold bump; rewrite ?decide_True by done; lia.
Qed.

Lemma wp_align Q (E : psa_status_t -> ps_st P -> Prop) s F n c2 c3 :
  live (plat s) F n c2 c3 -> c2 <= n -> c3 <= n ->
  (forall p', live p' F n n n -> Q tt (put_plat p' s)) ->
  (forall e p' x y, lost p' F n x y -> c2 <= x <= n -> c3 <= y <= n -> (y = c3 \/ x = n) -> E e (put_plat p' s)) ->
  wp (ps_object_table_align_nv_counters n) Q E s.
Proof.
  intros Hl H2 H3 HQ HE. unfold ps_object_table_align_nv_counters, align_counter.
  apply wp_bind, wp_bind, wp_or_return, wp_read_counter; [apply Hl|]. pose proof Hl as (_ & _ & _ & -> & _).
  eapply wp_increment_loop2; [exact Hl|intros p1 Hl1|intros e p' x Hl' Hx].
  2:{ eapply HE; [exact Hl'|lia|lia|by left]. }
  replace (c2 + Z.of_nat (Z.to_nat (n - c2))) with n in Hl1 by lia.
  apply wp_bind, wp_or_return, wp_read_counter; [apply Hl1|]. pose proof Hl1 as (_ & _ & _ & _ & Hc3). cbn [plat put_plat].
  rewrite Hc3. eapply (wp_increment_loop3 _ _ _ (put_plat p1 s)); [exact Hl1|intros p2 Hl2|intros e p' x Hl' Hx].
  - replace (c3 + Z.of_nat (Z.to_nat (n - c3))) with n in Hl2 by lia. exact (HQ p2 Hl2).
  - eapply (HE e p'); [exact Hl'|lia|lia|by right].
Qed.

(** *** Authentication *)

(** The tag of the table was made with counter value [v]. *)
Definition sealed t (v : Z) : Prop := exists k, ps_crypto_setkey (fill_key_label (t_crypto t)) = inr k /\
  psa_aead_encrypt k (iv (t_crypto t)) (assoc_data t v) [] = Some (tag (t_crypto t)).

Lemma destroy_ok (k : K) : destroy k = PSA_SUCCESS.
Proof. unfold destroy. by rewrite ae_destroy. Qed.

Lemma sealed_auth t v : sealed t v -> authenticates t v = true.
Proof.
  intros (k & Hk & He). unfold authenticates, ps_crypto_authenticate. rewrite Hk, (ae_dec _ _ _ _ _ He).
  change (zlen [] =? 0) with true. cbv iota. by rewrite destroy_ok.
Qed.

Lemma sealed_only t v n : sealed t v -> le_bytes 4 v <> le_bytes 4 n -> authenticates t n = false.
Proof.
  intros (k & Hk & He) Hne. unfold authenticates, ps_crypto_authenticate. rewrite Hk.
  destruct (psa_aead_decrypt _ _ _ _) as [o|] eqn:Hd; [|done]. destruct Hne. by eapply ae_word.
Qed.

Lemma word_succ v : le_bytes 4 v <> le_bytes 4 (v + 1).
Proof.
  intros Heq. apply (f_equal le_val) in Heq. rewrite !le_val_mod in Heq. change (256 ^ Z.of_nat 4) with 4294967296 in Heq.
  pose proof (Z.div_mod v 4294967296). pose proof (Z.div_mod (v + 1) 4294967296).
  set (a := v / 4294967296) in *. set (b := (v + 1) / 4294967296) in *. lia.
Qed.

(** Tables that differ in their crypto metadata only. *)
Definition same_entries t t' : Prop :=
  t_version t' = t_version t /\ t_pad t' = t_pad t /\ obj_db t' = obj_db t /\
  c_uid (t_crypto t') = c_uid (t_crypto t) /\ c_client_id (t_crypto t') = c_client_id (t_crypto t).

Definition iv_ok (buf : list Z) : Prop := zlen buf = 12 /\ Forall is_byte buf.

Lemma wp_get_iv Q (E : psa_status_t -> ps_st P -> Prop) s :
  iv_ok (ps_crypto_iv_buf s) -> le_val (ps_crypto_iv_buf s) + 1 < 2 ^ 96 ->
  (forall v, iv_ok v -> le_val v = le_val (ps_crypto_iv_buf s) + 1 -> Q v (put_iv v s)) ->
  wp ps_crypto_get_iv Q E s.
Proof.
  intros [Hz Hb] Hlt HQ. unfold ps_crypto_get_iv. apply wp_bind, wp_gets. rewrite next_iv_spec by done.
  apply wp_bind, wp_modify, wp_ret. apply HQ.
  - split; [apply zlen_le_bytes|auto with bytes].
  - pose proof (le_val_range _ Hb). apply le_val_le_bytes. change (256 ^ Z.of_nat 12) with (2 ^ 96). lia.
Qed.

(** A table as the partition keeps it. *)
Record table_ok t : Prop := {
  tk_typed : table_typed (S PS_NUM_ASSETS) t;
  tk_version : t_version t = PS_OBJECT_SYSTEM_VERSION;
  tk_uid : c_uid (t_crypto t) = PS_OBJ_TABLE_UID;
  tk_client : c_client_id (t_crypto t) = TFM_SP_PS;
}.

Definition new_table t t' v : Prop := table_ok t' /\ same_entries t t' /\ sealed t' v.

Lemma wp_generate_tag n Q (E : psa_status_t -> ps_st P -> Prop) s :
  table_ok (obj_table s) -> iv_ok (ps_crypto_iv_buf s) -> le_val (ps_crypto_iv_buf s) + 1 < 2 ^ 96 ->
  (forall v t', iv_ok v -> le_val v = le_val (ps_crypto_iv_buf s) + 1 -> new_table (obj_table s) t' n -> iv (t_crypto t') = v ->
     Q tt (put_table t' (put_iv v s))) ->
  wp (ps_object_table_nvc_generate_auth_tag n) Q E s.
Proof.
  intros [[[] ?????] ???] Hiv Hlt HQ. unfold ps_object_table_nvc_generate_auth_tag. apply wp_bind, wp_get_iv; [done|done|].
  intros v Hv Hv1. apply wp_bind, wp_gets, wp_bind, wp_modify. cbn [obj_table put_iv].
  set (t1 := with_tcrypto _ _). unfold ps_crypto_generate_auth_tag.
  destruct (ae_key (fill_key_label (t_crypto t1))) as [k Hk]. rewrite Hk.
  destruct (ae_enc k (iv (t_crypto t1)) (assoc_data t1 n) []) as (g & Hg & Hz & Hb); [constructor|]. rewrite Hg, Hz.
  change (zlen [] + PS_TAG_LEN_BYTES =? PS_TAG_LEN_BYTES) with true. cbv iota. rewrite destroy_ok.
  apply wp_bind, wp_modify, wp_of_status; [intros _|done]. destruct Hv as [Hvz Hvb].
  apply (HQ v (with_tcrypto t1 (set_tag g (t_crypto t1)))); [by split|done| |done].
  split_and!; [|done|by exists k]. split; [|done|done|done]. split; [by split|done..].
Qed.

(** *** Saving the table *)

(** What a loss of power during [ps_object_table_save_table] leaves. *)
Definition save_cut p F (sc : Z) t (v : Z) : Prop :=
  lost p F v v v \/ lost p F (v + 1) v v \/
  exists t' x y, new_table t t' (v + 1) /\ lost p (<[sc := ser_table t']> F) (v + 1) x y /\
    v <= x <= v + 1 /\ v <= y <= v + 1 /\ (y = v \/ x = v + 1).

Lemma wp_save Q (E : psa_status_t -> ps_st P -> Prop) s F v :
  live (plat s) F v v v -> table_ok (obj_table s) -> iv_ok (ps_crypto_iv_buf s) -> le_val (ps_crypto_iv_buf s) + 1 < 2 ^ 96 ->
  (forall p' t' b, new_table (obj_table s) t' (v + 1) -> iv_ok b -> le_val b = le_val (ps_crypto_iv_buf s) + 1 ->
     iv (t_crypto t') = b -> live p' (<[PS_TABLE_FS_ID (scratch_table s) := ser_table t']> F) (v + 1) (v + 1) (v + 1) ->
     Q tt (put_tables (scratch_table s) (active_table s) (put_plat p' (put_table t' (put_iv b s))))) ->
  (forall e s', save_cut (plat s') F (PS_TABLE_FS_ID (scratch_table s)) (obj_table s) v -> E e s') ->
  wp ps_object_table_save_table Q E s.
Proof.
  intros Hl Ht Hiv Hlt HQ HE. unfold ps_object_table_save_table.
  apply wp_bind. eapply wp_incr_counter; [exact Hl|intros p1 Hl1|intros e p1 Hl1].
  2:{ apply HE. destruct Hl1 as [Hl1|Hl1]; [by left|right; left; exact Hl1]. }
  change (live p1 F (v + 1) v v) in Hl1.
  apply wp_bind, wp_read_counter; [apply Hl1|]. change (plat (put_plat p1 s)) with p1. pose proof Hl1 as (_ & _ & -> & _).
  apply wp_bind, wp_generate_tag; [done|done|done|]. intros b t' Hb Hbv Hnew Hti.
  apply wp_bind. unfold ps_object_table_fs_write_table. apply wp_bind. change (wp get) with (wp (S := ps_st P) (gets id)). apply wp_gets, wp_bind.
  eapply wp_set_file; [exact Hl1|intros p2 Hl2|intros e p2 F' Hl2 HF].
  2:{ apply HE. destruct HF as [->| ->]; [right; left; exact Hl2|]. right; right. exists t', v, v. split_and!; [done|exact Hl2|lia..|by left]. }
  apply wp_modify. change (live p2 (<[PS_TABLE_FS_ID (scratch_table s) := ser_table t']> F) (v + 1) v v) in Hl2.
  eapply wp_align; [exact Hl2|lia|lia|intros p3 Hl3|intros e p3 x y Hl3 Hx Hy Hxy].
  - exact (HQ p3 t' b Hnew Hb Hbv Hti Hl3).
  - apply HE. right; right. exists t', x, y. split_and!; [done|exact Hl3|lia..|exact Hxy].
Qed.
End rules.
