(* ===== verification/PsStore.v ===== *)
(** * Protected storage: what a table and its files stand for

    A table with the encrypted files of its entries represents a finite map
    from clients and identifiers to assets: their flags and their data. *)

From S2P Require Import Prelude Bytes PsTypes PsCrypto PsTable PsObject PsLaws PsRules.
From stdpp Require Import base list numbers gmap.
From Stdlib Require Import ZArith Lia.

Open Scope Z_scope.
Open Scope tfm_scope.

(** Flags and data. *)
Abbreviation asset := (Z * list Z)%type.
Abbreviation assets := (gmap (Z * Z) asset).

(** ** Searching the table *)

Lemma entry_idx_loop_Some uid c db i r : entry_idx_loop uid c db i = Some r ->
  exists n e, r = i + Z.of_nat n /\ db !! n = Some e /\ e_uid e = uid /\ e_client_id e = c.
Proof.
  revert i. induction db as [|e db IH]; intros i Hr; [done|]. cbn [entry_idx_loop] in Hr.
  destruct ((e_uid e =? uid) && (e_client_id e =? c)) eqn:He.
  - simplify_eq. apply andb_prop in He as [Hu Hc]. apply Z.eqb_eq in Hu, Hc. exists 0%nat, e. split_and!; try done. lia.
  - apply IH in Hr as (n & e' & -> & Hl & Hu). exists (S n), e'. split_and!; [lia|done|apply Hu..].
Qed.

Lemma entry_idx_loop_None uid c db i : entry_idx_loop uid c db i = None ->
  forall n e, db !! n = Some e -> ~ (e_uid e = uid /\ e_client_id e = c).
Proof.
  revert i. induction db as [|e db IH]; intros i Hr n e' Hl [Hu Hc]; [done|]. cbn [entry_idx_loop] in Hr.
  destruct n as [|n]; cbn in Hl.
  - simplify_eq. by rewrite !Z.eqb_refl in Hr.
  - destruct ((e_uid e =? uid) && (e_client_id e =? c)); [done|]. by eapply IH.
Qed.

Lemma free_idx_loop_spec n db i lf m l : free_idx_loop n db i lf = (m, l) -> 0 <= n ->
  m = 0 /\ n = 0 /\ l = lf \/ 0 < m \/
  m = 0 /\ exists k e, l = i + Z.of_nat k /\ db !! k = Some e /\ e_uid e = TFM_PS_INVALID_UID.
Proof.
  revert n i lf. induction db as [|e db IH]; intros n i lf Hr Hn; cbn [free_idx_loop] in Hr.
  - simplify_eq. destruct (Z.eq_dec m 0); [left|right; left]; try done. lia.
  - destruct (Z.gtb_spec n 0); [|simplify_eq; left; split_and!; [lia..|done]].
    destruct (Z.eqb_spec (e_uid e) TFM_PS_INVALID_UID) as [He|He].
    + apply IH in Hr as [(-> & ? & ->)|[?|(-> & k & e' & -> & Hk)]]; [|right; by left| |lia].
      * right; right. split; [done|]. exists 0%nat, e. split_and!; [lia|done|done].
      * right; right. split; [done|]. exists (S k), e'. split; [lia|exact Hk].
    + apply IH in Hr as [(? & ? & ?)|[?|(-> & k & e' & -> & Hk)]]; [lia|right; by left| |done].
      right; right. split; [done|]. exists (S k), e'. split; [lia|exact Hk].
Qed.

(** *** Counting *)

(** The key of an entry in use. *)
Definition entry_key e : option (Z * Z) := if decide (e_uid e = TFM_PS_INVALID_UID) then None else Some (e_client_id e, e_uid e).

Definition free_count (db : list ps_obj_table_entry_t) : nat := length db - length (omap entry_key db).

Lemma omap_keys_le db : (length (omap entry_key db) <= length db)%nat.
Proof. induction db as [|e db IH]; [done|]. cbn. destruct (entry_key e); cbn; lia. Qed.

Lemma free_idx_loop_count n db i lf m l : free_idx_loop n db i lf = (m, l) -> 0 <= n -> 0 < m -> Z.of_nat (free_count db) < n.
Proof.
  revert n i lf. induction db as [|e db IH]; intros n i lf Hr Hn Hm; cbn [free_idx_loop] in Hr.
  - simplify_eq. cbn. lia.
  - pose proof (omap_keys_le db) as Hle. destruct (Z.gtb_spec n 0); [|simplify_eq; lia].
    unfold free_count in *. cbn [omap list_omap length]. unfold entry_key at 1. unfold decide.
    destruct (Z.eqb_spec (e_uid e) TFM_PS_INVALID_UID) as [He|He].
    + apply IH in Hr; [|lia|done]. destruct (decide_rel _ _ _) as [_|Hne]; [|done]. fold (omap entry_key db). lia.
    + apply IH in Hr; [|lia|done]. destruct (decide_rel _ _ _) as [?|_]; [done|]. cbn [length]. lia.
Qed.

Lemma NoDup_omap_keys db :
  (forall i j e e' k, db !! i = Some e -> db !! j = Some e' -> entry_key e = Some k -> entry_key e' = Some k -> i = j) ->
  NoDup (omap entry_key db).
Proof.
  induction db as [|e db IH]; intros Hu; [constructor|]. cbn.
  assert (NoDup (omap entry_key db)) as Hnd.
  { apply IH. intros i j e1 e2 k Hi Hj H1 H2. by injection (Hu (S i) (S j) e1 e2 k Hi Hj H1 H2). }
  destruct (entry_key e) as [k|] eqn:Hk; [|done]. constructor; [|done]. intros Hin.
  apply list_elem_of_omap in Hin as (e' & He' & Hk'). apply list_elem_of_lookup in He' as [j Hj].
  by specialize (Hu 0%nat (S j) e e' k eq_refl Hj Hk Hk').
Qed.

Section store.
Context {K : Type} `{PsCryptoOps K} (PS_MAX_ASSET_SIZE : Z).
Implicit Types (F : files) (t : ps_obj_table_t) (e : ps_obj_table_entry_t) (a : asset) (A : assets) (b f : list Z).

(** ** Assets in files *)

(** An object from its information to its end. *)
Record body_of b a : Prop := {
  bo_len : zlen b = INFO_SIZE + zlen a.2;
  bo_max : zlen a.2 <= PS_MAX_ASSET_SIZE;
  bo_current : le_val (sub_bytes 0 4 b) = zlen a.2;
  bo_flags : le_val (sub_bytes 8 4 b) = a.1;
  bo_data : sub_bytes INFO_SIZE (zlen a.2) b = a.2;
  bo_bytes : Forall is_byte b;
}.

(** File [f] with identifier [fid] is an IV and the ciphertext of [b], whose
    tag is in entry [e]. *)
Definition decrypts e (fid : Z) f b : Prop := exists k,
  ps_crypto_setkey (fill_key_label (PsCrypto (e_tag e) (e_uid e) (e_client_id e) (sub_bytes 0 12 f))) = inr k /\
  STORED_HEADER_DATA_SIZE <= zlen f /\ Forall is_byte f /\
  psa_aead_decrypt k (sub_bytes 0 12 f) (object_auth_data fid) (sub_bytes 12 (zlen f - 12) f ++ e_tag e) = Some b.

Definition object_file (i : nat) : Z := PS_OBJECT_FS_ID (Z.of_nat i).

Definition holds_asset F (i : nat) e a : Prop := exists f b,
  F !! object_file i = Some f /\ decrypts e (object_file i) f b /\ body_of b a.

(** ** The assets of a table *)

Definition used e : Prop := e_uid e <> TFM_PS_INVALID_UID.

Record represents F t A : Prop := {
  rp_entry i e : obj_db t !! i = Some e -> used e -> exists a, holds_asset F i e a /\ A !! (e_client_id e, e_uid e) = Some a;
  rp_asset c u a : A !! (c, u) = Some a ->
    exists i e, obj_db t !! i = Some e /\ used e /\ e_client_id e = c /\ e_uid e = u;
  rp_unique i j e e' : obj_db t !! i = Some e -> obj_db t !! j = Some e' -> used e ->
    e_client_id e = e_client_id e' -> e_uid e = e_uid e' -> i = j;
}.

Lemma represents_same F t t' A : obj_db t' = obj_db t -> represents F t A -> represents F t' A.
Proof. intros Hd [H1 H2 H3]. split; rewrite Hd; auto. Qed.

Lemma represents_files F F' t A :
  (forall i e, obj_db t !! i = Some e -> used e -> F' !! object_file i = F !! object_file i) ->
  represents F t A -> represents F' t A.
Proof.
  intros Hf [H1 H2 H3]. split; [|done..]. intros i e Hi Hu. destruct (H1 i e Hi Hu) as (a & Ha & HA).
  exists a. split; [|done]. destruct Ha as (f & b & Hfi & Hb). exists f, b. by rewrite (Hf i e Hi Hu).
Qed.

Lemma represents_find F t A uid c i : represents F t A -> uid <> TFM_PS_INVALID_UID ->
  entry_idx_loop uid c (obj_db t) 0 = Some i ->
  exists n e a, i = Z.of_nat n /\ obj_db t !! n = Some e /\ e_uid e = uid /\ e_client_id e = c /\
    holds_asset F n e a /\ A !! (c, uid) = Some a.
Proof.
  intros [H1 _ _] Hu Hr. apply entry_idx_loop_Some in Hr as (n & e & -> & Hl & Hue & Hce).
  destruct (H1 n e Hl) as (a & Ha & HA); [unfold used; congruence|]. exists n, e, a. rewrite <- Hue, <- Hce. by split_and!.
Qed.

Lemma represents_absent F t A uid c : represents F t A ->
  entry_idx_loop uid c (obj_db t) 0 = None -> A !! (c, uid) = None.
Proof.
  intros [_ H2 _] Hr. destruct (A !! (c, uid)) as [a|] eqn:HA; [|done]. destruct (H2 _ _ _ HA) as (i & e & Hl & _ & Hc & Hu).
  by destruct (entry_idx_loop_None _ _ _ _ Hr i e Hl).
Qed.

(** As many entries are in use as there are assets. *)
Lemma represents_count F t A : represents F t A -> length (omap entry_key (obj_db t)) = size A.
Proof.
  intros [Hr1 Hr2 Hr3]. rewrite <- size_dom.
  assert (forall e k, entry_key e = Some k -> used e /\ k = (e_client_id e, e_uid e)) as Hkey.
  { intros e k. unfold entry_key, used. by destruct (decide _); intros; simplify_eq. }
  assert (list_to_set (omap entry_key (obj_db t)) =@{gset (Z * Z)} dom A) as <-.
  { apply set_eq. intros [c u]. rewrite elem_of_list_to_set, list_elem_of_omap, elem_of_dom. split.
    - intros (e & He & Hk). apply Hkey in Hk as [Hu [= -> ->]]. apply list_elem_of_lookup in He as [i Hi].
      destruct (Hr1 i e Hi Hu) as (a & _ & HA). by exists a.
    - intros [a HA]. destruct (Hr2 c u a HA) as (i & e & Hi & Hu & <- & <-). exists e. split; [by eapply list_elem_of_lookup_2|].
      unfold entry_key. by rewrite decide_False. }
  rewrite size_list_to_set; [done|]. apply NoDup_omap_keys. intros i j e e' k Hi Hj Hk Hk'.
  apply Hkey in Hk as [Hu ->]. apply Hkey in Hk' as [_ [= Hc He]]. by eapply Hr3.
Qed.

(** Removing an entry. *)
Lemma represents_delete F t A i e : represents F t A -> obj_db t !! i = Some e -> used e ->
  represents F (set_entry (Z.of_nat i) entry_zero t) (delete (e_client_id e, e_uid e) A).
Proof.
  intros [H1 H2 H3] Hi Hu. unfold set_entry. rewrite Nat2Z.id.
  assert (forall j e', <[i:=entry_zero]> (obj_db t) !! j = Some e' -> used e' -> j <> i /\ obj_db t !! j = Some e') as Hold.
  { intros j e' Hj Hu'. apply list_lookup_insert_Some in Hj as [(<- & <- & _)|[? ?]]; [by destruct Hu'|done]. }
  split; cbn [obj_db].
  - intros j e' Hj Hu'. destruct (Hold j e' Hj Hu') as [Hne Hj']. destruct (H1 j e' Hj' Hu') as (a & Ha & HA).
    exists a. split; [done|]. rewrite lookup_delete_ne; [done|]. intros Heq. simplify_eq. destruct Hne. by eapply H3.
  - intros c u a HA. apply lookup_delete_Some in HA as [Hne HA]. destruct (H2 c u a HA) as (j & e' & Hj & Hu' & <- & <-).
    exists j, e'. split_and!; try done. rewrite list_lookup_insert_ne; [done|]. intros <-. simplify_eq.
  - intros j k e' e'' Hj Hk Hu' Hc He. destruct (Hold j e' Hj Hu') as [_ Hj'].
    destruct (Hold k e'' Hk) as [_ Hk']; [unfold used in *; congruence|]. by eapply H3.
Qed.

(** Filling a free entry. *)
Lemma represents_put F t A i e0 e a : represents F t A -> obj_db t !! i = Some e0 -> ~ used e0 ->
  used e -> A !! (e_client_id e, e_uid e) = None -> holds_asset F i e a ->
  represents F (set_entry (Z.of_nat i) e t) (<[(e_client_id e, e_uid e) := a]> A).
Proof.
  intros [H1 H2 H3] Hi Hf Hu HN Ha. unfold set_entry. rewrite Nat2Z.id.
  assert (forall j e', <[i:=e]> (obj_db t) !! j = Some e' -> j = i /\ e' = e \/ j <> i /\ obj_db t !! j = Some e') as Hold.
  { intros j e' Hj. apply list_lookup_insert_Some in Hj as [(<- & <- & _)|[? ?]]; [by left|by right]. }
  assert (forall j e', obj_db t !! j = Some e' -> used e' -> (e_client_id e', e_uid e') <> (e_client_id e, e_uid e)) as Hnew.
  { intros j e' Hj Hu' Heq. destruct (H1 j e' Hj Hu') as (? & _ & HA). rewrite Heq in HA. congruence. }
  split; cbn [obj_db].
  - intros j e' Hj Hu'. destruct (Hold j e' Hj) as [[-> ->]|[Hne Hj']].
    + exists a. by rewrite lookup_insert_eq.
    + destruct (H1 j e' Hj' Hu') as (a' & Ha' & HA). exists a'. split; [done|].
      rewrite lookup_insert_ne; [done|]. intros Heq. by eapply Hnew.
  - intros c u a' HA. apply lookup_insert_Some in HA as [[Heq _]|[Hne HA]].
    + simplify_eq. exists i, e. split_and!; try done. apply list_lookup_insert_eq. by eapply lookup_lt_Some.
    + destruct (H2 c u a' HA) as (j & e' & Hj & Hu' & <- & <-). exists j, e'. split_and!; try done.
      rewrite list_lookup_insert_ne; [done|]. intros <-. simplify_eq.
  - intros j k e' e'' Hj Hk Hu' Hc He. destruct (Hold j e' Hj) as [[-> ->]|[Hjn Hj']], (Hold k e'' Hk) as [[-> ->]|[Hkn Hk']].
    + done.
    + exfalso. eapply (Hnew k e''); [done|unfold used in *; congruence|congruence].
    + exfalso. eapply (Hnew j e'); [done|done|congruence].
    + by eapply H3.
Qed.
End store.

(** * Protected storage: reading and writing encrypted objects

    The object buffer and its memory, and what [ps_encrypted_object_read] and
    [ps_encrypted_object_write] do to it and to the object's file. *)

(** ** Byte strings *)

Lemma splice_0 d l : splice 0 d l = d ++ drop (length d) l.
Proof. unfold splice. simpl. done. Qed.

(** The first part of a copy, and the rest behind it. *)
Lemma splice_app_head n d a l : zlen a = n -> n <= zlen d -> zlen d <= n + zlen l ->
  splice 0 d (a ++ l) = sub_bytes 0 n d ++ splice 0 (sub_bytes n (zlen d - n) d) l.
Proof.
  intros Ha Hn Hd. pose proof (zlen_nonneg a). rewrite !splice_0, app_assoc.
  rewrite <- (sub_bytes_split 0 n (zlen d - n)) by lia. replace (n + (zlen d - n)) with (zlen d) by lia.
  rewrite sub_bytes_all. f_equal. rewrite drop_app. rewrite drop_ge by (unfold zlen in *; lia). cbn [app]. f_equal.
  pose proof (zlen_sub_bytes n (zlen d - n) d). unfold zlen in *. lia.
Qed.

Lemma splice_app_tail n o d a l : zlen a = n -> 0 <= o -> splice (n + o) d (a ++ l) = a ++ splice o d l.
Proof.
  intros Ha Ho. pose proof (zlen_nonneg a). unfold splice, zlen in *. rewrite !Z2Nat.inj_add, <- Ha, Nat2Z.id by lia.
  rewrite take_app, drop_app. rewrite take_ge, drop_ge by lia. cbn [app]. rewrite <- app_assoc. do 2 f_equal.
  - f_equal. lia.
  - f_equal. f_equal. lia.
Qed.

Section objects.
Context {P K : Type} `{PsPower P} `{PsCryptoOps K} `{!PsAead K}.
Context (PS_MAX_ASSET_SIZE : Z).
Implicit Types (s : ps_st P) (p : P) (F : files) (o : ps_object_t) (e : ps_obj_table_entry_t).

(** The object buffer. *)
Record obj_wf o : Prop := {
  ob_tag : zlen (tag (o_crypto o)) = 16;
  ob_tag_b : Forall is_byte (tag (o_crypto o));
  ob_iv : iv_ok (iv (o_crypto o));
  ob_body : zlen (o_body o) = INFO_SIZE + PS_MAX_ASSET_SIZE + PS_TAG_LEN_BYTES;
  ob_body_b : Forall is_byte (o_body o);
}.

Lemma with_mem_head o d : zlen (iv (o_crypto o)) = 12 -> 12 <= zlen d -> zlen d <= 12 + zlen (o_body o) ->
  with_mem o (splice 0 d (obj_mem o)) =
  PsObject (set_iv (sub_bytes 0 12 d) (o_crypto o)) (splice 0 (sub_bytes 12 (zlen d - 12) d) (o_body o)).
Proof.
  intros Hi Hd Hb. unfold with_mem, obj_mem. rewrite (splice_app_head 12) by done.
  assert (zlen (sub_bytes 0 12 d) = 12) as H12 by (apply zlen_sub_bytes; lia).
  rewrite (sub_app_l 12) by done. rewrite (sub_app_tail 12); [done|done|]. rewrite zlen_app. lia.
Qed.

Lemma with_mem_tail o n d : zlen (iv (o_crypto o)) = 12 -> 0 <= n ->
  with_mem o (splice (12 + n) d (obj_mem o)) = PsObject (o_crypto o) (splice n d (o_body o)).
Proof.
  intros Hi Hn. unfold with_mem, obj_mem. rewrite (splice_app_tail 12) by done.
  rewrite (sub_app_l 12) by done. rewrite (sub_app_tail 12); [by destruct o as [[]]|done|]. rewrite zlen_app. lia.
Qed.

(** ** Reading *)

Context (Hmax : 0 <= PS_MAX_ASSET_SIZE < 2147483648).

Lemma decrypts_len e fid f b : decrypts e fid f b -> zlen (e_tag e) = 16 -> zlen f = 12 + zlen b.
Proof.
  intros (k & _ & Hf & _ & Hd) Ht. unfold STORED_HEADER_DATA_SIZE in Hf. apply ae_dec_len in Hd. rewrite zlen_app, Ht in Hd.
  rewrite zlen_sub_bytes in Hd by lia. unfold PS_TAG_LEN_BYTES in Hd. lia.
Qed.

Lemma body_range b a : body_of PS_MAX_ASSET_SIZE b a -> 16 <= zlen b <= 16 + PS_MAX_ASSET_SIZE.
Proof. intros [Hl Hm _ _ _ _]. unfold INFO_SIZE in *. pose proof (zlen_nonneg a.2). lia. Qed.

(** The decryption step, on a buffer that holds the ciphertext of [b]. *)
Lemma wp_auth_decrypt Q (E : psa_status_t -> ps_st P -> Prop) s fid e b a v ct k :
  let o := g_ps_object s in
  obj_wf o -> tag (o_crypto o) = e_tag e -> iv (o_crypto o) = v ->
  ps_crypto_setkey (fill_key_label (o_crypto o)) = inr k ->
  psa_aead_decrypt k v (object_auth_data fid) (ct ++ e_tag e) = Some b -> zlen ct = zlen b ->
  body_of PS_MAX_ASSET_SIZE b a -> sub_bytes 0 (zlen b) (o_body o) = ct ->
  (forall o', obj_wf o' -> o_crypto o' = o_crypto o -> sub_bytes 0 (zlen b) (o_body o') = b -> Q tt (put_obj o' s)) ->
  wp (ps_object_auth_decrypt fid (zlen b)) Q E s.
Proof.
  intros o Ho Ht Hv Hk Hd Hct Hb Hbody HQ. pose proof (body_range _ _ Hb) as Hr. destruct Ho as [Hot Hotb [Hoi Hoib] Hob Hobb].
  unfold INFO_SIZE, PS_TAG_LEN_BYTES in Hob.
  unfold ps_object_auth_decrypt. apply wp_bind, wp_gets. fold o. unfold STORED_HEADER_DATA_SIZE. rewrite u32_id by lia.
  rewrite with_mem_tail by (done || lia). apply wp_bind, wp_modify.
  unfold ps_crypto_auth_and_decrypt. cbn [o_crypto]. rewrite Hk, Hv. unfold PS_TAG_LEN_BYTES. rewrite u32_id by lia. cbn [o_body].
  assert (zlen (tag (o_crypto o)) = 16) as H16 by done.
  assert (sub_bytes 0 (zlen b + 16) (splice (zlen b) (tag (o_crypto o)) (o_body o)) = ct ++ e_tag e) as ->.
  { rewrite sub_bytes_split by lia. rewrite sub_bytes_splice_disj by lia. rewrite Z.add_0_l, sub_bytes_splice_eq by lia. by rewrite Hbody, Ht. }
  rewrite Hd. cbn [default]. change (id b) with b. rewrite destroy_ok. apply wp_bind, wp_modify. rewrite !Z.eqb_refl. cbn [andb check].
  assert (zlen (splice (zlen b) (tag (o_crypto o)) (o_body o)) = 16 + PS_MAX_ASSET_SIZE + 16) as Hz by (rewrite zlen_splice; lia).
  assert (Forall is_byte (splice (zlen b) (tag (o_crypto o)) (o_body o))) by auto with bytes. pose proof (bo_bytes _ _ _ Hb).
  eapply HQ.
  - split; cbn [o_crypto o_body with_body]; try done; [rewrite zlen_splice; unfold INFO_SIZE, PS_TAG_LEN_BYTES; lia|auto with bytes].
  - done.
  - cbn [o_body with_body]. rewrite sub_bytes_splice_eq by lia. done.
Qed.

Lemma wp_object_read Q (E : psa_status_t -> ps_st P -> Prop) s fid e f b a F c1 c2 c3 :
  let o := g_ps_object s in
  live (plat s) F c1 c2 c3 -> obj_wf o -> F !! fid = Some f -> decrypts e fid f b -> body_of PS_MAX_ASSET_SIZE b a ->
  tag (o_crypto o) = e_tag e -> c_uid (o_crypto o) = e_uid e -> c_client_id (o_crypto o) = e_client_id e ->
  (forall o', obj_wf o' -> tag (o_crypto o') = e_tag e -> c_uid (o_crypto o') = e_uid e -> c_client_id (o_crypto o') = e_client_id e ->
     sub_bytes 0 (zlen b) (o_body o') = b -> Q tt (put_obj o' s)) ->
  wp (ps_encrypted_object_read PS_MAX_ASSET_SIZE fid) Q E s.
Proof.
  intros o Hl Ho Hf Hd Hb Ht Hu Hc HQ. pose proof (body_range _ _ Hb) as Hr.
  pose proof (decrypts_len _ _ _ _ Hd) as Hfl. rewrite <- Ht in Hfl. specialize (Hfl (ob_tag _ Ho)).
  destruct Hd as (k & Hk & _ & Hfb & Hd). pose proof Ho as [Hot Hotb [Hoi Hoib] Hob Hobb]. unfold INFO_SIZE, PS_TAG_LEN_BYTES in Hob.
  unfold ps_encrypted_object_read, PS_MAX_ENCRYPTED_OBJ_SIZE, PS_ENCRYPT_SIZE, STORED_HEADER_DATA_SIZE, INFO_SIZE. rewrite u32_id by lia.
  apply wp_bind. eapply wp_get_file; [exact Hl|intros f' Hf' _|intros err Herr]; rewrite Hf in *.
  2:{ exfalso. destruct Herr as [?|(f' & ? & Herr)]; simplify_eq. lia. }
  simplify_eq. rewrite Z.sub_0_r, Z.min_r, sub_bytes_all by lia. apply wp_bind, wp_modify. fold o.
  rewrite u32_id by lia. replace (zlen f' - 12) with (zlen b) by lia. rewrite with_mem_head by lia.
  replace (zlen f' - 12) with (zlen b) in * by lia. set (ct := sub_bytes 12 (zlen b) f') in *.
  assert (zlen ct = zlen b) as Hct by (apply zlen_sub_bytes; lia).
  assert (zlen (sub_bytes 0 12 f') = 12) as H12 by (apply zlen_sub_bytes; lia).
  eapply (wp_auth_decrypt _ _ _ fid e b a (sub_bytes 0 12 f') ct k); cbn [g_ps_object put_obj o_crypto o_body]; try done.
  - split; cbn [o_crypto o_body set_iv tag iv]; try done.
    + split; [done|auto with bytes].
    + rewrite zlen_splice by lia. done.
    + unfold ct. auto with bytes.
  - rewrite <- Hk. unfold fill_key_label. cbn [c_client_id c_uid set_iv]. by rewrite Hu, Hc.
  - apply sub_bytes_splice_eq; lia.
  - intros o' Ho' Hoc Hob'. apply (HQ o' Ho'); rewrite ?Hoc; done.
Qed.

(** ** Writing *)

Lemma wp_auth_encrypt Q (E : psa_status_t -> ps_st P -> Prop) s fid n :
  let o := g_ps_object s in
  obj_wf o -> iv_ok (ps_crypto_iv_buf s) -> le_val (ps_crypto_iv_buf s) + 1 < 2 ^ 96 ->
  0 <= n -> n <= INFO_SIZE + PS_MAX_ASSET_SIZE ->
  (forall v o' k ct, iv_ok v -> le_val v = le_val (ps_crypto_iv_buf s) + 1 -> obj_wf o' ->
     o_crypto o' = set_tag (tag (o_crypto o')) (set_iv v (o_crypto o)) -> ps_crypto_setkey (fill_key_label (o_crypto o)) = inr k ->
     psa_aead_decrypt k v (object_auth_data fid) (ct ++ tag (o_crypto o')) = Some (sub_bytes 0 n (o_body o)) ->
     zlen ct = n -> Forall is_byte ct -> sub_bytes 0 n (o_body o') = ct -> Q tt (put_obj o' (put_iv v s))) ->
  wp (ps_object_auth_encrypt fid n) Q E s.
Proof.
  intros o Ho Hiv Hlt Hn0 Hn HQ. pose proof Ho as [Hot Hotb [Hoi Hoib] Hob Hobb]. unfold INFO_SIZE, PS_TAG_LEN_BYTES in Hob, Hn.
  unfold ps_object_auth_encrypt. apply wp_bind, wp_get_iv; [done|done|]. intros v Hv Hv1.
  apply wp_bind, wp_gets, wp_bind, wp_modify. change (g_ps_object (put_iv v s)) with o. cbn [o_crypto with_crypto o_body].
  unfold ps_crypto_encrypt_and_tag. change (fill_key_label (set_iv v (o_crypto o))) with (fill_key_label (o_crypto o)).
  destruct (ae_key (fill_key_label (o_crypto o))) as [k Hk]. rewrite Hk. change (iv (set_iv v (o_crypto o))) with v.
  destruct (ae_enc k v (object_auth_data fid) (sub_bytes 0 n (o_body o))) as (ct & Hct & Hz & Hb); [auto with bytes|].
  rewrite Hct. rewrite zlen_sub_bytes in Hz by lia. unfold PS_TAG_LEN_BYTES in *. rewrite u32_id by lia.
  replace (zlen ct - 16) with n by lia. rewrite destroy_ok, Z.eqb_refl. apply wp_bind, wp_modify.
  assert (zlen (sub_bytes 0 n ct) = n) as Hzn by (apply zlen_sub_bytes; lia). rewrite Hzn, Z.eqb_refl. cbn [andb].
  assert (sub_bytes 0 n ct ++ sub_bytes n 16 ct = ct) as Happ.
  { rewrite <- (sub_bytes_split 0 n 16) by lia. replace (n + 16) with (zlen ct) by lia. apply sub_bytes_all. }
  assert (zlen (sub_bytes n 16 ct) = 16) as Hzt by (apply zlen_sub_bytes; lia).
  apply wp_check; [intros _|done]. rewrite Happ.
  apply (HQ v (PsObject (set_tag (sub_bytes n 16 ct) (set_iv v (o_crypto o))) (splice 0 ct (o_body o))) k (sub_bytes 0 n ct)); try done.
  - split; cbn [o_crypto o_body set_tag set_iv tag iv]; try done; [auto with bytes|rewrite zlen_splice; unfold INFO_SIZE, PS_TAG_LEN_BYTES; lia|auto with bytes].
  - cbn [o_crypto set_tag set_iv tag iv]. rewrite Happ. by apply ae_dec.
  - auto with bytes.
  - cbn [o_body]. rewrite sub_bytes_splice_in by lia. done.
Qed.

Lemma wp_object_write Q (E : psa_status_t -> ps_st P -> Prop) s fid F c1 c2 c3 :
  let o := g_ps_object s in let n := INFO_SIZE + current_size o in
  live (plat s) F c1 c2 c3 -> obj_wf o -> current_size o <= PS_MAX_ASSET_SIZE ->
  iv_ok (ps_crypto_iv_buf s) -> le_val (ps_crypto_iv_buf s) + 1 < 2 ^ 96 ->
  (forall p' v o' f, live p' (<[fid := f]> F) c1 c2 c3 -> iv_ok v -> le_val v = le_val (ps_crypto_iv_buf s) + 1 -> obj_wf o' ->
     (forall e, e_tag e = tag (o_crypto o') -> e_uid e = c_uid (o_crypto o) -> e_client_id e = c_client_id (o_crypto o) ->
        decrypts e fid f (sub_bytes 0 n (o_body o))) ->
     Q tt (put_plat p' (put_obj o' (put_iv v s)))) ->
  (forall er s' f F', lost (plat s') F' c1 c2 c3 -> F' = F \/ F' = <[fid := f]> F -> E er s') ->
  wp (ps_encrypted_object_write fid) Q E s.
Proof.
  intros o n Hl Ho Hcur Hiv Hlt HQ HE.
  assert (0 <= current_size o) as Hc0 by (apply le_val_range; pose proof (ob_body_b _ Ho); auto with bytes).
  unfold ps_encrypted_object_write. apply wp_bind, wp_gets. fold o. unfold PS_ENCRYPT_SIZE, INFO_SIZE in *. rewrite u32_id by lia.
  replace (current_size o + 16) with n by lia. apply wp_bind.
  eapply wp_auth_encrypt; [exact Ho|exact Hiv|exact Hlt|lia|unfold INFO_SIZE; lia|].
  intros v o' k ct Hv Hv1 Ho' Hoc Hk Hd Hct Hctb Hbody. fold o in Hoc, Hk, Hd. apply wp_bind, wp_gets.
  change (g_ps_object (put_obj o' (put_iv v s))) with o'. unfold STORED_HEADER_DATA_SIZE. rewrite u32_id by lia.
  assert (iv (o_crypto o') = v) as Hov by (by rewrite Hoc).
  assert (sub_bytes 0 (n + 12) (obj_mem o') = v ++ ct) as ->.
  { unfold obj_mem. rewrite Hov. destruct Hv as [Hvz _]. rewrite Z.add_comm, sub_bytes_split by lia.
    rewrite (sub_app_l 12) by done. rewrite (sub_app_r _ _ v) by lia. rewrite Hvz, Z.sub_diag. by rewrite Hbody. }
  eapply wp_set_file; [exact Hl|intros p' Hl'|intros e p' F' Hl' HF'].
  - eapply HQ; [exact Hl'|exact Hv|exact Hv1|exact Ho'|]. intros e Het Heu Hec. exists k.
    destruct Hv as [Hvz Hvb]. rewrite (sub_app_l 12) by done. rewrite zlen_app, Hvz, Hct. rewrite (sub_app_tail 12) by lia.
    split_and!; [|unfold STORED_HEADER_DATA_SIZE; lia|by apply Forall_app_2|by rewrite Het].
    rewrite <- Hk. unfold fill_key_label. cbn [c_client_id c_uid]. by rewrite Heu, Hec.
  - eapply HE; [exact Hl'|exact HF'].
Qed.
End objects.
