(* ===== verification/PsVolume.v ===== *)
(** * Protected storage: the volume

    What is stored between two requests, what a loss of power may leave, and
    the step from one table to the next: saving the changed table and removing
    the old one. *)

From S2P Require Import Prelude Bytes PsTypes PsCrypto PsTable PsObject PsLaws PsRules PsStore.
From stdpp Require Import base list numbers gmap.
From Stdlib Require Import ZArith Lia.

Open Scope Z_scope.
Open Scope tfm_scope.

(** The configuration: a table fits in the data of the object buffer. *)
Record ps_config (TFM_SP_PS : Z) (PS_NUM_ASSETS : nat) (PS_MAX_ASSET_SIZE : Z) : Prop := {
  pc_table : PS_OBJ_TABLE_SIZE PS_NUM_ASSETS <= PS_MAX_ASSET_SIZE;
  pc_max : PS_MAX_ASSET_SIZE < 2147483648;
  pc_client : -2147483648 <= TFM_SP_PS < 2147483648;
}.

Section volume.
Context {P K : Type} `{PsPower P} `{PsCryptoOps K} `{!PsAead K}.
Context (TFM_SP_PS : Z) (PS_NUM_ASSETS : nat) (PS_MAX_ASSET_SIZE : Z).
Context (Hcfg : ps_config TFM_SP_PS PS_NUM_ASSETS PS_MAX_ASSET_SIZE).
Implicit Types (s : ps_st P) (p : P) (F : files) (t : ps_obj_table_t) (o : ps_object_t) (A : assets) (B : Prop).

Abbreviation table_ok := (table_ok TFM_SP_PS PS_NUM_ASSETS).
Abbreviation represents := (represents PS_MAX_ASSET_SIZE).
Abbreviation obj_wf := (obj_wf PS_MAX_ASSET_SIZE).
Abbreviation holds_asset := (holds_asset PS_MAX_ASSET_SIZE).

(** ** File identifiers *)

Lemma max_bounds : 0 <= PS_MAX_ASSET_SIZE < 2147483648.
Proof. destruct Hcfg as [Ht ? _]. unfold PS_OBJ_TABLE_SIZE in Ht. lia. Qed.

Lemma entries_bound (i : nat) : (i < S PS_NUM_ASSETS)%nat -> Z.of_nat i < 67108864.
Proof. destruct Hcfg as [Ht ? _]. unfold PS_OBJ_TABLE_SIZE, PS_OBJ_TABLE_ENTRIES in Ht. lia. Qed.

Lemma object_file_val (i : nat) : (i < S PS_NUM_ASSETS)%nat -> object_file i = Z.of_nat i + 3.
Proof.
  intros Hi. pose proof (entries_bound i Hi). unfold object_file, PS_OBJECT_FS_ID.
  change (PS_TABLE_FS_ID PS_OBJ_TABLE_IDX_1) with 2. rewrite u32_id; lia.
Qed.

Lemma object_idx (i : nat) : (i < S PS_NUM_ASSETS)%nat -> PS_OBJECT_FS_ID_TO_IDX (object_file i) = Z.of_nat i.
Proof.
  intros Hi. pose proof (entries_bound i Hi). rewrite object_file_val by done. unfold PS_OBJECT_FS_ID_TO_IDX.
  change (PS_TABLE_FS_ID PS_OBJ_TABLE_IDX_1) with 2. rewrite u32_id; lia.
Qed.

Lemma object_file_inj (i j : nat) : (i < S PS_NUM_ASSETS)%nat -> (j < S PS_NUM_ASSETS)%nat ->
  object_file i = object_file j -> i = j.
Proof. intros Hi Hj. rewrite !object_file_val by done. lia. Qed.

Definition other_tables (a c : Z) : Prop := a = 0 /\ c = 1 \/ a = 1 /\ c = 0.

Lemma table_not_object a c (i : nat) : other_tables a c -> (i < S PS_NUM_ASSETS)%nat -> PS_TABLE_FS_ID a <> object_file i.
Proof.
  intros Ha Hi. pose proof (entries_bound i Hi). rewrite object_file_val by done.
  destruct Ha as [[-> _]|[-> _]]; change (PS_TABLE_FS_ID 0) with 1; change (PS_TABLE_FS_ID 1) with 2; lia.
Qed.

Lemma tables_ne a c : other_tables a c -> PS_TABLE_FS_ID a <> PS_TABLE_FS_ID c.
Proof. by intros [[-> ->]|[-> ->]]. Qed.

Lemma other_tables_sym a c : other_tables a c -> other_tables c a.
Proof. intros [[-> ->]|[-> ->]]; [by right|by left]. Qed.

(** Files of tables do not matter for the assets of a table. *)
Lemma represents_frame F F' t A : table_ok t ->
  (forall i : nat, (i < S PS_NUM_ASSETS)%nat -> F' !! object_file i = F !! object_file i) ->
  represents F t A -> represents F' t A.
Proof.
  intros [Ht _ _ _] Hf. apply represents_files. intros i e Hi _. apply Hf.
  rewrite <- (tt_len _ _ Ht). by eapply lookup_lt_Some.
Qed.

(** ** On disk *)

Record disk F (v a c : Z) t A : Prop := {
  dk_idx : other_tables a c;
  dk_stored : F !! PS_TABLE_FS_ID a = Some (ser_table t);
  dk_other : F !! PS_TABLE_FS_ID c = None;
  dk_table : table_ok t;
  dk_assets : represents F t A;
  dk_count : 0 < v;
}.

Record ready s F (v : Z) : Prop := {
  rd_live : live (plat s) F v v v;
  rd_iv : iv_ok (ps_crypto_iv_buf s);
  rd_obj : obj_wf (g_ps_object s);
}.

(** The partition between two requests.  [B]: the stored table was saved with
    the present value of the counters, which fails only after a start-up
    that found an interrupted save. *)
Definition volume B s F v A : Prop :=
  disk F v (active_table s) (scratch_table s) (obj_table s) A /\ ready s F v /\ (B -> sealed (obj_table s) v).

(** ** After a loss of power *)

(** Files and counters that start-up accepts: table [t] was saved with counter
    1, and another table that may be there was not; or [t] is alone and was
    saved with counters 2 and 3. *)
Definition bootable F (c1 c2 c3 : Z) A : Prop := exists a c t,
  other_tables a c /\ table_ok t /\ F !! PS_TABLE_FS_ID a = Some (ser_table t) /\ represents F t A /\
  c2 <= c1 /\ c3 <= c1 /\ 0 < c1 /\
  (sealed t c1 /\
     (F !! PS_TABLE_FS_ID c = None \/
      exists t' n, table_ok t' /\ F !! PS_TABLE_FS_ID c = Some (ser_table t') /\ sealed t' n /\ le_bytes 4 n <> le_bytes 4 c1) \/
   F !! PS_TABLE_FS_ID c = None /\ sealed t c3 /\ c2 = c3 /\ c3 <> 0).

Definition recov B s A : Prop :=
  off s /\ (B -> exists F c1 c2 c3, lost (plat s) F c1 c2 c3 /\ bootable F c1 c2 c3 A).

Lemma recov_view B s s' A : recov B s A -> off s' -> kept_view s s' -> recov B s' A.
Proof.
  intros [_ Hr] Ho [Hm Hv]. split; [done|]. intros HB. destruct (Hr HB) as (F & c1 & c2 & c3 & [_ Hl] & Hb).
  exists F, c1, c2, c3. split; [|done]. split; [done|]. intros Hc. rewrite Hm in Hc. destruct (Hv Hc) as [Hf Hctr].
  unfold ctrs in *. rewrite Hf, Hctr. auto.
Qed.

(** Nothing of the volume itself was touched. *)
Lemma recov_disk B s F v a c t A : disk F v a c t A -> (B -> sealed t v) -> lost (plat s) F v v v -> recov B s A.
Proof.
  intros [Hi Hs Ho Ht Ha Hv] HB Hl. split; [apply Hl|]. intros HB'. exists F, v, v, v. split; [done|].
  exists a, c, t. split_and!; try done. left. split; [auto|by left].
Qed.

(** ** Saving a changed table *)

(** The table has been saved; the previous one, [t0], is still there. *)
Record saved B s F (v : Z) t0 A : Prop := {
  sv_idx : other_tables (active_table s) (scratch_table s);
  sv_stored : F !! PS_TABLE_FS_ID (active_table s) = Some (ser_table (obj_table s));
  sv_other : F !! PS_TABLE_FS_ID (scratch_table s) = Some (ser_table t0);
  sv_table : table_ok (obj_table s);
  sv_table0 : table_ok t0;
  sv_sealed : sealed (obj_table s) (v + 1);
  sv_sealed0 : B -> sealed t0 v;
  sv_assets : represents F (obj_table s) A;
  sv_count : 0 < v;
  sv_ready : ready s F (v + 1);
}.

(** What saving a table leaves as it was: the identifier in [g_obj_tbl_info],
    the entries and the files of objects. *)
Definition kept s s' F F' : Prop := g_fid s' = g_fid s /\ obj_db (obj_table s') = obj_db (obj_table s) /\
  forall i, (i < S PS_NUM_ASSETS)%nat -> F' !! object_file i = F !! object_file i.

Lemma kept_trans s1 s2 s3 F1 F2 F3 : kept s1 s2 F1 F2 -> kept s2 s3 F2 F3 -> kept s1 s3 F1 F3.
Proof.
  intros (Hg & Hd & Hf) (Hg' & Hd' & Hf'). split_and!; [congruence|congruence|]. intros i Hi. by rewrite Hf', Hf.
Qed.

(** Cuts during the save. *)
Lemma save_cut_recov B s F v a c t0 t A0 A : disk F v a c t0 A0 -> (B -> sealed t0 v) -> represents F t A ->
  save_cut TFM_SP_PS PS_NUM_ASSETS (plat s) F (PS_TABLE_FS_ID c) t v -> recov B s A0 \/ recov B s A.
Proof.
  intros Hd HB Ha Hc. pose proof Hd as [Hi Hs Ho Ht Ha0 Hv]. destruct Hc as [Hl|[Hl|(t' & x & y & Hn & Hl & Hx & Hy & Hxy)]].
  - left. by eapply recov_disk.
  - left. split; [apply Hl|]. intros HB'. exists F, (v + 1), v, v. split; [done|]. exists a, c, t0.
    split_and!; try done; try lia. right. split_and!; try done; [auto|lia].
  - right. split; [apply Hl|]. intros HB'. eexists _, (v + 1), x, y. split; [exact Hl|].
    destruct Hn as (Ht' & (_ & _ & Hdb & _) & Hseal). pose proof (tables_ne _ _ Hi) as Hne.
    exists c, a, t'. split_and!; try done; try lia; [by apply other_tables_sym|by rewrite lookup_insert_eq| |].
    + apply (represents_frame F); [done| |by eapply represents_same].
      intros i Hlt. rewrite lookup_insert_ne; [done|]. by eapply (table_not_object c a); [apply other_tables_sym|].
    + left. split; [done|]. right. exists t0, v. split_and!; try done; [by rewrite lookup_insert_ne|auto|apply word_succ].
Qed.

Lemma wp_save_disk B Q (E : psa_status_t -> ps_st P -> Prop) s F v t0 A0 A :
  disk F v (active_table s) (scratch_table s) t0 A0 -> (B -> sealed t0 v) -> ready s F v ->
  le_val (ps_crypto_iv_buf s) + 1 < 2 ^ 96 -> table_ok (obj_table s) -> represents F (obj_table s) A ->
  (forall s' F', saved B s' F' v t0 A -> kept s s' F F' -> Q tt s') ->
  (forall e s', recov B s' A0 \/ recov B s' A -> E e s') ->
  wp ps_object_table_save_table Q E s.
Proof.
  intros Hd HB [Hl Hiv Hob] Hlt Ht Ha HQ HE. pose proof Hd as [Hi Hs Ho Ht0 Ha0 Hv].
  eapply wp_save; [exact Hl|exact Ht|exact Hiv|exact Hlt| |].
  - intros p' t' b (Ht' & (_ & _ & Hdb & _) & Hseal) Hb _ _ Hl'. pose proof (tables_ne _ _ Hi) as Hne.
    apply (HQ _ (<[PS_TABLE_FS_ID (scratch_table s) := ser_table t']> F)).
    2:{ split_and!; [done|exact Hdb|]. intros i Hlt'. rewrite lookup_insert_ne; [done|]. by eapply table_not_object; [apply other_tables_sym|]. }
    split; cbn [active_table scratch_table obj_table plat put_tables put_plat put_table put_iv]; try done.
    + by apply other_tables_sym.
    + apply lookup_insert_eq.
    + by rewrite lookup_insert_ne.
    + apply (represents_frame F); [done| |by eapply represents_same].
      intros i Hlt'. rewrite lookup_insert_ne; [done|]. by eapply table_not_object; [apply other_tables_sym|].
  - intros e s' Hcut. apply HE. by eapply save_cut_recov.
Qed.

(** The old table is removed. *)
Lemma wp_delete_old B Q (E : psa_status_t -> ps_st P -> Prop) s F v t0 A :
  saved B s F v t0 A ->
  (forall s' F', volume True s' F' (v + 1) A -> kept s s' F F' -> Q tt s') ->
  (forall e s', recov B s' A -> E e s') ->
  wp ps_object_table_delete_old_table Q E s.
Proof.
  intros [Hi Hs Ho Ht Ht0 Hse Hse0 Ha Hv [Hl Hiv Hob]] HQ HE. unfold ps_object_table_delete_old_table.
  pose proof (tables_ne _ _ Hi) as Hne.
  assert (represents (delete (PS_TABLE_FS_ID (scratch_table s)) F) (obj_table s) A) as Hrep.
  { apply (represents_frame F); [done| |done]. intros i Hlt. rewrite lookup_delete_ne; [done|].
    by eapply table_not_object; [apply other_tables_sym|]. }
  apply wp_bind. change (wp get) with (wp (S := ps_st P) (gets id)). apply wp_gets.
  eapply wp_remove_file; [exact Hl|intros p' _ Hl'|intros HN|intros e p' F' _ Hl' HF].
  - apply (HQ _ (delete (PS_TABLE_FS_ID (scratch_table s)) F)).
    2:{ split_and!; [done|done|]. intros i Hlt. rewrite lookup_delete_ne; [done|]. by eapply table_not_object; [apply other_tables_sym|]. }
    split_and!; [|by split|by intros _].
    split; cbn [active_table scratch_table obj_table put_plat]; try done; [by rewrite lookup_delete_ne|apply lookup_delete_eq|lia].
  - unfold id in HN. congruence.
  - apply HE. split; [apply Hl'|]. intros HB. exists F', (v + 1), (v + 1), (v + 1). split; [exact Hl'|].
    exists (active_table s), (scratch_table s), (obj_table s). destruct HF as [->| ->].
    + split_and!; try done; try lia. left. split; [done|]. right. exists t0, v. split_and!; try done; [auto|apply word_succ].
    + split_and!; try done; try lia; [by rewrite lookup_delete_ne|]. left. split; [done|]. left. apply lookup_delete_eq.
Qed.
End volume.

(** * Protected storage: changing an entry of the table

    [ps_update_table] and [ps_object_table_delete_object] take the volume from
    one map of assets to the next, or leave one of the two after a loss of
    power. *)

Definition uid_ok (uid : Z) : Prop := 0 < uid < 18446744073709551616.
Definition client_ok (client : Z) : Prop := -2147483648 <= client < 2147483648.

Section update.
Context {P K : Type} `{PsPower P} `{PsCryptoOps K} `{!PsAead K}.
Context (TFM_SP_PS : Z) (PS_NUM_ASSETS : nat) (PS_MAX_ASSET_SIZE : Z).
Context (Hcfg : ps_config TFM_SP_PS PS_NUM_ASSETS PS_MAX_ASSET_SIZE).
Implicit Types (s : ps_st P) (p : P) (F : files) (t : ps_obj_table_t) (o : ps_object_t) (A : assets) (B : Prop).

Abbreviation table_ok := (table_ok TFM_SP_PS PS_NUM_ASSETS).
Abbreviation represents := (represents PS_MAX_ASSET_SIZE).
Abbreviation holds_asset := (holds_asset PS_MAX_ASSET_SIZE).
Abbreviation volume := (volume TFM_SP_PS PS_NUM_ASSETS PS_MAX_ASSET_SIZE).
Abbreviation recov := (recov TFM_SP_PS PS_NUM_ASSETS PS_MAX_ASSET_SIZE).

(** ** Entries *)

Lemma entry_zero_wf : entry_wf entry_zero.
Proof. split; cbn [entry_zero e_tag e_uid e_client_id e_pad]; try done; apply Forall_fill; done. Qed.

Lemma entry_zero_free : ~ used entry_zero.
Proof. by intros []. Qed.

Lemma get_entry_wf t i : table_ok t -> entry_wf (get_entry t i).
Proof.
  intros [[_ _ _ _ _ Hd] _ _ _]. unfold get_entry. destruct (nth_in_or_default (Z.to_nat i) (obj_db t) entry_zero) as [Hin| ->].
  - rewrite Forall_forall in Hd. apply Hd. by apply list_elem_of_In.
  - apply entry_zero_wf.
Qed.

Lemma set_entry_ok t i e : table_ok t -> entry_wf e -> table_ok (set_entry i e t).
Proof.
  intros [[] ???] He. split; [|done..]. split; cbn [set_entry t_crypto t_version t_pad obj_db]; try done.
  - by rewrite length_insert.
  - by apply Forall_insert.
Qed.

Lemma get_entry_lookup t (i : nat) e : obj_db t !! i = Some e -> get_entry t (Z.of_nat i) = e.
Proof. intros He. unfold get_entry. rewrite Nat2Z.id. apply (nth_lookup_Some _ _ entry_zero _ He). Qed.

Lemma wp_entry_idx uid client Q (E : psa_status_t -> ps_st P -> Prop) s :
  match entry_idx_loop uid client (obj_db (obj_table s)) 0 with Some i => Q i s | None => E PSA_ERROR_DOES_NOT_EXIST s end ->
  wp (ps_get_object_entry_idx uid client) Q E s.
Proof. intros HQ. unfold ps_get_object_entry_idx. apply wp_bind, wp_gets. by destruct (entry_idx_loop _ _ _ _). Qed.

(** The table after the old entry of the key, if any, has been deleted. *)
Definition without (uid client : Z) t : ps_obj_table_t :=
  match entry_idx_loop uid client (obj_db t) 0 with Some i => set_entry i entry_zero t | None => t end.

Lemma without_ok uid client t : table_ok t -> table_ok (without uid client t).
Proof. intros Ht. unfold without. destruct (entry_idx_loop _ _ _ _); [|done]. apply set_entry_ok; [done|apply entry_zero_wf]. Qed.

Lemma represents_without F t A uid client : uid <> TFM_PS_INVALID_UID -> represents F t A ->
  represents F (without uid client t) (delete (client, uid) A).
Proof.
  intros Hu Ha. unfold without. destruct (entry_idx_loop uid client (obj_db t) 0) as [i|] eqn:Hi.
  - destruct (represents_find _ _ _ _ _ _ _ Ha Hu Hi) as (n & e & a & -> & He & <- & <- & _). by apply represents_delete.
  - rewrite delete_id; [done|]. by eapply represents_absent.
Qed.

(** A new entry for the key in slot [i]: free, or its own. *)
Lemma represents_update F t A uid client (i : nat) e a : table_ok t -> represents F t A -> (i < S PS_NUM_ASSETS)%nat ->
  e_uid e = uid -> e_client_id e = client -> uid <> TFM_PS_INVALID_UID -> holds_asset F i e a ->
  (forall e', obj_db t !! i = Some e' -> used e' -> e_uid e' = uid /\ e_client_id e' = client) ->
  represents F (set_entry (Z.of_nat i) e (without uid client t)) (<[(client, uid) := a]> A).
Proof.
  intros Ht Ha Hi <- <- Hu He Hslot. pose proof (represents_without _ _ _ _ (e_client_id e) Hu Ha) as Hw.
  pose proof (without_ok (e_uid e) (e_client_id e) t Ht) as Hok. rewrite <- insert_delete_eq.
  destruct (obj_db (without (e_uid e) (e_client_id e) t) !! i) as [e0|] eqn:He0.
  2:{ apply lookup_ge_None in He0. rewrite (tt_len _ _ (tk_typed _ _ _ Hok)) in He0. lia. }
  eapply represents_put; [exact Hw|exact He0| |exact Hu|apply lookup_delete_eq|exact He].
  intros Hu0. destruct (rp_entry _ _ _ _ Hw i e0 He0 Hu0) as (a0 & _ & HA0).
  apply lookup_delete_Some in HA0 as [Hne _]. apply Hne. unfold without in He0.
  destruct (entry_idx_loop _ _ _ _) as [j|] eqn:Hj.
  - apply list_lookup_insert_Some in He0 as [(_ & <- & _)|[_ He0]]; [by destruct Hu0|]. by destruct (Hslot e0 He0 Hu0) as [-> ->].
  - by destruct (Hslot e0 He0 Hu0) as [-> ->].
Qed.

(** ** Deleting an entry *)

Lemma volume_with_table B s F v A t2 : volume B s F v A -> let s2 := put_table t2 s in
  disk TFM_SP_PS PS_NUM_ASSETS PS_MAX_ASSET_SIZE F v (active_table s2) (scratch_table s2) (obj_table s) A /\
  (B -> sealed (obj_table s) v) /\ ready PS_MAX_ASSET_SIZE s2 F v.
Proof. intros (Hd & [Hl Hi Ho] & HB). by split_and!. Qed.

Lemma wp_delete_object B Q (E : psa_status_t -> ps_st P -> Prop) s F v A uid client :
  volume B s F v A -> le_val (ps_crypto_iv_buf s) + 1 < 2 ^ 96 -> uid <> TFM_PS_INVALID_UID ->
  A !! (client, uid) <> None ->
  (forall s' F' t0, saved TFM_SP_PS PS_NUM_ASSETS PS_MAX_ASSET_SIZE B s' F' v t0 (delete (client, uid) A) ->
     kept PS_NUM_ASSETS (put_table (without uid client (obj_table s)) s) s' F F' -> Q tt s') ->
  (forall e s', recov B s' A \/ recov B s' (delete (client, uid) A) -> E e s') ->
  wp (ps_object_table_delete_object uid client) Q E s.
Proof.
  intros Hv Hlt Hu HA HQ HE. pose proof Hv as (Hd & _ & _). pose proof (dk_assets _ _ _ _ _ _ _ _ _ Hd) as Ha.
  pose proof (represents_without _ _ _ uid client Hu Ha) as Hw.
  pose proof (without_ok uid client _ (dk_table _ _ _ _ _ _ _ _ _ Hd)) as Hok.
  unfold ps_object_table_delete_object. apply wp_bind, wp_entry_idx.
  unfold without in Hw, Hok, HQ. destruct (entry_idx_loop uid client (obj_db (obj_table s)) 0) as [i|] eqn:Hi.
  2:{ destruct HA. by eapply represents_absent. }
  apply wp_bind, wp_gets, wp_bind. unfold ps_table_delete_entry, put_entry at 1. apply wp_modify, wp_bind, wp_try.
  destruct (volume_with_table _ _ _ _ _ (set_entry i entry_zero (obj_table s)) Hv) as (Hd2 & HB2 & Hr2).
  eapply wp_save_disk; [done|exact Hd2|exact HB2|exact Hr2|exact Hlt|exact Hok|exact Hw|..].
  - intros s' F' Hs Hf. apply wp_ret. by eapply HQ.
  - intros e s' Hs. eapply wp_dead_fails; [unfold put_entry; dead_auto|auto with dead|by destruct Hs as [[]|[]]|].
    intros e' s2 Ho2 Hv2. apply HE. destruct Hs; [left|right]; by eapply recov_view.
Qed.

(** ** Updating an entry *)


Lemma wp_update_table B Q (E : psa_status_t -> ps_st P -> Prop) s F v A uid client (i : nat) a :
  volume B s F v A -> le_val (ps_crypto_iv_buf s) + 1 < 2 ^ 96 -> uid_ok uid -> client_ok client ->
  (i < S PS_NUM_ASSETS)%nat -> g_fid s = object_file i ->
  (forall e, e_tag e = tag (o_crypto (g_ps_object s)) -> e_uid e = uid -> e_client_id e = client -> holds_asset F i e a) ->
  (forall e, obj_db (obj_table s) !! i = Some e -> used e -> e_uid e = uid /\ e_client_id e = client) ->
  (forall s' F' e, volume True s' F' (v + 1) (<[(client, uid) := a]> A) ->
     kept PS_NUM_ASSETS (put_table (set_entry (Z.of_nat i) e (without uid client (obj_table s))) s) s' F F' -> Q tt s') ->
  (forall e s', recov B s' A \/ recov B s' (<[(client, uid) := a]> A) -> E e s') ->
  wp (ps_update_table uid client) Q E s.
Proof.
  intros Hv Hlt Hu Hc Hi Hfid Hh Hslot HQ HE. unfold uid_ok, client_ok in Hu, Hc.
  assert (uid <> TFM_PS_INVALID_UID) as Hu0 by (unfold TFM_PS_INVALID_UID; lia).
  pose proof Hv as (Hd & [Hl Hiv Ho] & HB). pose proof (dk_table _ _ _ _ _ _ _ _ _ Hd) as Ht.
  set (t1 := without uid client (obj_table s)).
  set (e := Entry (tag (o_crypto (g_ps_object s))) uid client (e_pad (get_entry t1 (Z.of_nat i)))).
  assert (entry_wf e) as Hewf.
  { destruct (get_entry_wf t1 (Z.of_nat i)) as [_ _ _ _ Hp Hpb]; [by apply without_ok|].
    destruct Ho as [Hot Hotb _ _ _]. split; cbn [e e_tag e_uid e_client_id e_pad]; done || lia. }
  set (t2 := set_entry (Z.of_nat i) e t1).
  assert (table_ok t2) as Ht2 by (apply set_entry_ok; [by apply without_ok|done]).
  assert (represents F t2 (<[(client, uid) := a]> A)) as Ha2.
  { apply represents_update; try done; [apply Hd|by apply Hh]. }
  assert (wp ps_object_table_save_table
     (fun r s' => exists F', saved TFM_SP_PS PS_NUM_ASSETS PS_MAX_ASSET_SIZE B s' F' v (obj_table s) (<[(client, uid) := a]> A) /\
       kept PS_NUM_ASSETS (put_table t2 s) s' F F')
     (fun _ s' => recov B s' A \/ recov B s' (<[(client, uid) := a]> A)) (put_table t2 s)) as Hsave.
  { destruct (volume_with_table _ _ _ _ _ t2 Hv) as (Hd2 & HB2 & Hr2).
    eapply wp_save_disk; [done|exact Hd2|exact HB2|exact Hr2|exact Hlt|exact Ht2|exact Ha2|eauto|eauto]. }
  unfold ps_update_table, ps_object_table_set_obj_tbl_info.
  apply wp_bind, wp_try, wp_bind, wp_try, wp_entry_idx.
  assert (forall (b : ps_obj_table_entry_t) (bi : Z), wp
     (let* s := get in
      let idx := PS_OBJECT_FS_ID_TO_IDX (g_fid s) in
      let* _ := put_entry idx (Entry (tag (o_crypto (g_ps_object s))) uid client (e_pad (get_entry (obj_table s) idx))) in
      let* r := try ps_object_table_save_table in
      match r with
      | Ok _ => ret tt
      | Err e =>
          let* _ := if negb (e_uid b =? TFM_PS_INVALID_UID) then put_entry bi b else ret tt in
          let* _ := ps_table_delete_entry idx in
          fail e
      end)
     (fun _ s' => exists F', saved TFM_SP_PS PS_NUM_ASSETS PS_MAX_ASSET_SIZE B s' F' v (obj_table s) (<[(client, uid) := a]> A) /\
       kept PS_NUM_ASSETS (put_table t2 s) s' F F')
     (fun _ s' => recov B s' A \/ recov B s' (<[(client, uid) := a]> A)) (put_table t1 s)) as Hrest.
  { intros b bi. apply wp_bind. change (wp get) with (wp (S := ps_st P) (gets id)). apply wp_gets.
    change (g_fid (id (put_table t1 s))) with (g_fid s). rewrite Hfid, (object_idx _ _ _ Hcfg i Hi).
    apply wp_bind. unfold put_entry at 1. apply wp_modify. change (put_table (set_entry _ _ _) _) with (put_table t2 s).
    apply wp_bind, wp_try. eapply wp_mono; [exact Hsave|intros [] s3 Hs'; by apply wp_ret|intros er s3 Hs']. cbv beta.
    assert (off s3) as Hoff by (by destruct Hs' as [[]|[]]).
    eapply wp_dead_fails; [|auto with dead|exact Hoff|].
    + unfold ps_table_delete_entry, put_entry. dead_auto.
    + intros er' s2 Ho2 Hv2. destruct Hs' as [Hs'|Hs']; [left|right]; by eapply recov_view. }
  assert (forall m : M (ps_st P) unit, wp m
     (fun _ s' => exists F', saved TFM_SP_PS PS_NUM_ASSETS PS_MAX_ASSET_SIZE B s' F' v (obj_table s) (<[(client, uid) := a]> A) /\
       kept PS_NUM_ASSETS (put_table t2 s) s' F F')
     (fun _ s' => recov B s' A \/ recov B s' (<[(client, uid) := a]> A)) (put_table t1 s) ->
     wp m (fun r s' => wp (match (Ok r : res unit) with
                         | Ok _ => ps_object_table_delete_old_table
                         | Err e => let* fid := gets g_fid in let* _ := ignore (lift (psa_its_remove fid)) in fail e
                         end) Q E s')
       (fun er s' => wp (match (Err er : res unit) with
                         | Ok _ => ps_object_table_delete_old_table
                         | Err e => let* fid := gets g_fid in let* _ := ignore (lift (psa_its_remove fid)) in fail e
                         end) Q E s') (put_table t1 s)) as Hend.
  { intros m Hm. eapply wp_mono; [exact Hm|intros [] s3 (F' & Hs3 & Hk3)|intros er s3 Hs3]; cbv beta iota.
    - eapply wp_delete_old; [done|exact Hs3| |intros; apply HE; by right].
      intros s4 F4 Hv4 Hk4. eapply HQ; [exact Hv4|by eapply kept_trans].
    - eapply wp_dead_fails; [unfold ignore; dead_auto|auto with dead|by destruct Hs3 as [[]|[]]|].
      intros er' s4 Ho4 Hv4. apply HE. destruct Hs3; [left|right]; by eapply recov_view. }
  unfold t1, without in Hrest, Hend. destruct (entry_idx_loop uid client (obj_db (obj_table s)) 0) as [j|] eqn:Hj.
  - apply wp_bind, wp_gets, wp_bind. unfold ps_table_delete_entry at 1, put_entry at 1. apply wp_modify.
    apply Hend, Hrest.
  - apply wp_bind, wp_gets, wp_bind, wp_ret. replace s with (put_table (obj_table s) s) by (by destruct s).
    apply Hend, Hrest.
Qed.
End update.

(** * Protected storage: storing an object under a fresh identifier

    [ps_object_table_get_free_fid] and the part of the object system that
    stores the object buffer in a new file. *)

Section fresh.
Context {P K : Type} `{PsPower P} `{PsCryptoOps K} `{!PsAead K}.
Context (TFM_SP_PS : Z) (PS_NUM_ASSETS : nat) (PS_MAX_ASSET_SIZE : Z).
Context (Hcfg : ps_config TFM_SP_PS PS_NUM_ASSETS PS_MAX_ASSET_SIZE).
Implicit Types (s : ps_st P) (p : P) (F : files) (t : ps_obj_table_t) (o : ps_object_t) (A : assets) (B : Prop).

Abbreviation volume := (volume TFM_SP_PS PS_NUM_ASSETS PS_MAX_ASSET_SIZE).
Abbreviation recov := (recov TFM_SP_PS PS_NUM_ASSETS PS_MAX_ASSET_SIZE).
Abbreviation disk := (disk TFM_SP_PS PS_NUM_ASSETS PS_MAX_ASSET_SIZE).
Abbreviation obj_wf := (obj_wf PS_MAX_ASSET_SIZE).
Abbreviation holds_asset := (holds_asset PS_MAX_ASSET_SIZE).
Abbreviation body_of := (body_of PS_MAX_ASSET_SIZE).

Definition free_slot t (i : nat) : Prop := forall e, obj_db t !! i = Some e -> ~ used e.

(** ** Files of free slots *)

(** Files that differ in the file of one slot at most. *)
Definition only_file (i : nat) F F' : Prop := forall fid, fid <> object_file i -> F' !! fid = F !! fid.

Lemma only_insert i F f : only_file i F (<[object_file i := f]> F).
Proof. intros fid Hne. by rewrite lookup_insert_ne. Qed.

Lemma only_delete i F : only_file i F (delete (object_file i) F).
Proof. intros fid Hne. by rewrite lookup_delete_ne. Qed.

Lemma only_refl i F : only_file i F F.
Proof. done. Qed.

Lemma disk_free F F' v a c t A i : (i < S PS_NUM_ASSETS)%nat -> free_slot t i -> only_file i F F' ->
  disk F v a c t A -> disk F' v a c t A.
Proof.
  intros Hi Hfree Hf [Hx Hs Ho Ht Ha Hv]. pose proof (table_not_object _ _ _ Hcfg _ _ i Hx Hi).
  pose proof (table_not_object _ _ _ Hcfg _ _ i (other_tables_sym _ _ Hx) Hi).
  split; try done; [by rewrite Hf|by rewrite Hf|].
  eapply represents_files; [|exact Ha]. intros j e Hj Hu. apply Hf. intros Heq.
  apply (object_file_inj _ _ _ Hcfg) in Heq; [subst j; by eapply Hfree| |done].
  rewrite <- (tt_len _ _ (tk_typed _ _ _ Ht)). by eapply lookup_lt_Some.
Qed.

Lemma ready_plat s F v p' F' : ready PS_MAX_ASSET_SIZE s F v -> live p' F' v v v ->
  ready PS_MAX_ASSET_SIZE (put_plat p' s) F' v.
Proof. by intros [_ Hi Ho] Hl. Qed.

(** A free identifier: leftovers of an interrupted operation are removed. *)
Lemma wp_get_free_fid n B Q (E : psa_status_t -> ps_st P -> Prop) s F v A :
  volume B s F v A -> 0 < n ->
  (forall i p' F', (i < S PS_NUM_ASSETS)%nat -> free_slot (obj_table s) i -> volume B (put_plat p' s) F' v A -> only_file i F F' ->
     Q (object_file i) (put_plat p' s)) ->
  (Z.of_nat (S PS_NUM_ASSETS) - Z.of_nat (size A) < n -> E PSA_ERROR_INSUFFICIENT_STORAGE s) ->
  (forall e s', recov B s' A -> E e s') ->
  wp (ps_object_table_get_free_fid n) Q E s.
Proof.
  intros Hv Hn HQ HI HE. pose proof Hv as (Hd & Hr & HB). pose proof (dk_table _ _ _ _ _ _ _ _ _ Hd) as Ht.
  unfold ps_object_table_get_free_fid, ps_table_free_idx. apply wp_bind, wp_bind, wp_check; [intros _|intros Hx; lia].
  apply wp_bind, wp_gets. destruct (free_idx_loop n (obj_db (obj_table s)) 0 0) as [m l] eqn:Hl.
  destruct (free_idx_loop_spec _ _ _ _ _ _ Hl) as [?|[?|(-> & i & e & -> & Hi & He)]]; [lia|lia| |].
  { apply wp_bind, wp_check; [lia|intros _]. apply HI. pose proof (free_idx_loop_count _ _ _ _ _ _ Hl) as Hcnt.
    unfold free_count in Hcnt. rewrite (tt_len _ _ (tk_typed _ _ _ Ht)), (represents_count _ _ _ _ (dk_assets _ _ _ _ _ _ _ _ _ Hd)) in Hcnt.
    pose proof (omap_keys_le (obj_db (obj_table s))) as Hle.
    rewrite (tt_len _ _ (tk_typed _ _ _ Ht)), (represents_count _ _ _ _ (dk_assets _ _ _ _ _ _ _ _ _ Hd)) in Hle. lia. }
  apply wp_bind, wp_check; [intros _|done]. apply wp_ret. rewrite Z.add_0_l. fold (object_file i).
  assert (i < S PS_NUM_ASSETS)%nat as Hlt.
  { rewrite <- (tt_len _ _ (tk_typed _ _ _ Ht)). by eapply lookup_lt_Some. }
  assert (free_slot (obj_table s) i) as Hfree by (intros e' ?; unfold used; naive_solver).
  unfold remove_if_exists. apply wp_bind, wp_bind, wp_try.
  eapply wp_remove_file; [apply Hr|intros p' _ Hl'|intros _|intros er p' F' Hne Hl' HF].
  - apply wp_ret, wp_ret. eapply HQ; [done|done| |apply only_delete]. split_and!; [|by eapply ready_plat|done].
    eapply disk_free; [exact Hlt|exact Hfree|apply only_delete|exact Hd].
  - apply wp_check; [intros _|done]. apply wp_ret. replace (put_plat (plat s) s) with s by (by destruct s).
    replace s with (put_plat (plat s) s) by (by destruct s). eapply HQ; [done|done| |apply only_refl]. replace (put_plat (plat s) s) with s by (by destruct s). exact Hv.
  - apply wp_check; [intros Heq; apply Z.eqb_eq in Heq; done|intros _]. apply HE.
    eapply recov_disk; [|exact HB|exact Hl']. eapply disk_free; [exact Hlt|exact Hfree| |exact Hd].
    destruct HF as [->| ->]; [apply only_refl|apply only_delete].
Qed.

(** ** Storing the buffer *)

(** The body of the buffer, resized, is asset [a]. *)
Record to_store o a : Prop := {
  ts_wf : obj_wf o;
  ts_current : current_size o = zlen a.2;
  ts_body : body_of (sub_bytes 0 (INFO_SIZE + zlen a.2) (o_body o)) a;
}.

Lemma wp_store_new B Q (E : psa_status_t -> ps_st P -> Prop) s F v A reserve old_fid resize a :
  volume B s F v A -> 0 < reserve -> to_store (resize (g_ps_object s)) a ->
  o_crypto (resize (g_ps_object s)) = o_crypto (g_ps_object s) ->
  le_val (ps_crypto_iv_buf s) + 1 < 2 ^ 96 ->
  (forall i s' F', (i < S PS_NUM_ASSETS)%nat -> free_slot (obj_table s') i -> volume B s' F' v A ->
     only_file i F F' -> obj_table s' = obj_table s -> g_fid s' = object_file i -> le_val (ps_crypto_iv_buf s') = le_val (ps_crypto_iv_buf s) + 1 ->
     (forall e, e_tag e = tag (o_crypto (g_ps_object s')) -> e_uid e = c_uid (o_crypto (g_ps_object s)) ->
        e_client_id e = c_client_id (o_crypto (g_ps_object s)) -> holds_asset F' i e a) -> Q tt s') ->
  (Z.of_nat (S PS_NUM_ASSETS) - Z.of_nat (size A) < reserve -> E PSA_ERROR_INSUFFICIENT_STORAGE s) ->
  (forall e s', recov B s' A -> E e s') ->
  wp (store_new reserve old_fid resize) Q E s.
Proof.
  intros Hv Hres [Hwf Hcur Hbody] Hcry Hlt HQ HI HE. unfold store_new. apply wp_bind.
  eapply wp_get_free_fid; [exact Hv|exact Hres| |exact HI|exact HE]. intros i p1 F1 Hi Hfree Hv1 Ho1.
  apply wp_bind, wp_modify, wp_bind, wp_modify, wp_bind, wp_try. unfold ps_store_object. apply wp_bind, wp_gets.
  pose proof Hv1 as (Hd1 & [Hl1 Hiv1 _] & HB). set (o := resize (g_ps_object s)) in *.
  set (s1 := put_obj o (put_fid (object_file i) (put_plat p1 s))).
  change (g_fid (put_obj _ _)) with (object_file i). change (put_obj _ (put_fid _ _)) with s1.
  eapply (wp_object_write _ (max_bounds _ _ _ Hcfg) _ _ s1); [exact Hl1|exact Hwf| |exact Hiv1|exact Hlt| |].
  - change (g_ps_object s1) with o. rewrite Hcur. apply (bo_max _ _ _ Hbody).
  - change (g_ps_object s1) with o. intros p' v' o' f Hl' Hv' Hv1' Ho' Hdec. apply wp_ret. rewrite Hcur in Hdec.
    eapply (HQ i _ (<[object_file i := f]> F1)); [done|done| |intros fid Hne; by rewrite lookup_insert_ne, Ho1|done|done|done|].
    + split_and!; [|by split|done]. eapply disk_free; [exact Hi|exact Hfree|apply only_insert|exact Hd1].
    + intros e He Hu Hc. exists f, (sub_bytes 0 (INFO_SIZE + zlen a.2) (o_body o)).
      split_and!; [apply lookup_insert_eq| |exact Hbody]. rewrite <- Hcry in Hu, Hc. by apply Hdec.
  - intros er s' f F' Hl' HF. eapply wp_dead_fails; [dead_auto|auto with dead|apply Hl'|]. intros er' s2 Ho2 Hv2.
    apply HE. eapply recov_view; [|exact Ho2|exact Hv2]. eapply recov_disk; [|exact HB|exact Hl'].
    eapply disk_free; [exact Hi|exact Hfree| |exact Hd1]. destruct HF as [->| ->]; [apply only_refl|apply only_insert].
Qed.
End fresh.
