(* ===== verification/PsOps.v ===== *)
(** * Protected storage: the operations on objects

    What [ps_object_create], [ps_object_read], [ps_object_get_info] and
    [ps_object_delete] do to the volume. *)

From S2P Require Import Prelude Bytes PsTypes PsCrypto PsTable PsObject PsLaws PsRules PsStore PsVolume.
From stdpp Require Import base list numbers gmap.
From Stdlib Require Import ZArith Lia.

Open Scope Z_scope.
Open Scope tfm_scope.

Section ops.
Context {P K : Type} `{PsPower P} `{PsCryptoOps K} `{!PsAead K}.
Context (TFM_SP_PS : Z) (PS_NUM_ASSETS : nat) (PS_MAX_ASSET_SIZE : Z).
Context (Hcfg : ps_config TFM_SP_PS PS_NUM_ASSETS PS_MAX_ASSET_SIZE).
Implicit Types (s : ps_st P) (p : P) (F : files) (t : ps_obj_table_t) (o : ps_object_t) (A : assets) (B : Prop) (a : asset).

Abbreviation volume := (volume TFM_SP_PS PS_NUM_ASSETS PS_MAX_ASSET_SIZE).
Abbreviation recov := (recov TFM_SP_PS PS_NUM_ASSETS PS_MAX_ASSET_SIZE).
Abbreviation obj_wf := (obj_wf PS_MAX_ASSET_SIZE).
Abbreviation holds_asset := (holds_asset PS_MAX_ASSET_SIZE).
Abbreviation body_of := (body_of PS_MAX_ASSET_SIZE).
Abbreviation object_read := (ps_encrypted_object_read PS_MAX_ASSET_SIZE).

(** ** The object buffer *)

Lemma splice_wf off d o : obj_wf o -> Forall is_byte d -> 0 <= off -> off + zlen d <= INFO_SIZE + PS_MAX_ASSET_SIZE ->
  obj_wf (with_body o (splice off d (o_body o))).
Proof.
  intros [] Hd Ho Hl. unfold INFO_SIZE, PS_TAG_LEN_BYTES in *. split; cbn [o_crypto o_body with_body]; try done.
  - rewrite zlen_splice by lia. done.
  - auto with bytes.
Qed.

Lemma set_word_wf off v o : obj_wf o -> 0 <= off <= 12 -> obj_wf (set_word off v o).
Proof.
  intros Ho Hl. pose proof (max_bounds _ _ _ Hcfg). unfold INFO_SIZE in *.
  apply splice_wf; [done|auto with bytes|lia|unfold INFO_SIZE; rewrite zlen_le_bytes; lia].
Qed.

Lemma object_zero_wf : obj_wf (object_zero PS_MAX_ASSET_SIZE).
Proof.
  pose proof (max_bounds _ _ _ Hcfg). unfold INFO_SIZE, PS_TAG_LEN_BYTES in *.
  split; cbn [object_zero o_crypto o_body crypto_zero tag iv]; try done; try (apply Forall_fill; done).
  - split; [done|]. by apply Forall_fill.
  - rewrite zlen_fill; unfold INFO_SIZE, PS_TAG_LEN_BYTES; lia.
Qed.

Lemma volume_obj B s F v A o : volume B s F v A -> obj_wf o -> volume B (put_obj o s) F v A.
Proof. intros (Hd & [Hl Hi _] & HB) Ho. split_and!; [done|by split|done]. Qed.

Lemma volume_in B s F v A l : volume B s F v A -> volume B (put_in l s) F v A.
Proof. intros (Hd & [Hl Hi Ho] & HB). split_and!; [done|by split|done]. Qed.

Lemma volume_out B s F v A l : volume B s F v A -> volume B (put_out l s) F v A.
Proof. intros (Hd & [Hl Hi Ho] & HB). split_and!; [done|by split|done]. Qed.

Lemma volume_weaken B s F v A : volume True s F v A -> volume B s F v A.
Proof. intros (Hd & Hr & HB). split_and!; [done|done|auto]. Qed.

(** The buffer holds asset [a]. *)
Definition loaded o a : Prop := body_of (sub_bytes 0 (INFO_SIZE + zlen a.2) (o_body o)) a.

Lemma loaded_current o a : loaded o a -> current_size o = zlen a.2.
Proof.
  intros Ha. pose proof (zlen_nonneg a.2). unfold loaded, INFO_SIZE in *. unfold current_size.
  rewrite <- (bo_current _ _ _ Ha), sub_bytes_sub_bytes by lia. done.
Qed.

Lemma loaded_flags o a : loaded o a -> create_flags o = a.1.
Proof.
  intros Ha. pose proof (zlen_nonneg a.2). unfold loaded, INFO_SIZE in *. unfold create_flags.
  rewrite <- (bo_flags _ _ _ Ha), sub_bytes_sub_bytes by lia. done.
Qed.

Lemma loaded_data o a off n : loaded o a -> 0 <= off -> 0 <= n -> off + n <= zlen a.2 ->
  sub_bytes (INFO_SIZE + off) n (o_body o) = sub_bytes off n a.2.
Proof.
  intros Ha Ho Hn Hl. pose proof (zlen_nonneg a.2). pose proof (bo_data _ _ _ Ha) as Hd. unfold loaded, INFO_SIZE in *.
  rewrite <- Hd. rewrite !sub_bytes_sub_bytes by lia. done.
Qed.

(** The new content of an object. *)
Lemma built o flags size d : obj_wf o -> zlen d = size -> size <= PS_MAX_ASSET_SIZE -> Forall is_byte d ->
  0 <= flags < 4294967296 -> sub_bytes 8 4 (o_body o) = le_bytes 4 flags ->
  to_store PS_MAX_ASSET_SIZE (set_word 0 size (with_body o (splice (INFO_SIZE + 0) d (o_body o)))) (flags, d).
Proof.
  intros Ho Hd Hs Hb Hf H8. pose proof (max_bounds _ _ _ Hcfg). pose proof (zlen_nonneg d).
  assert (obj_wf (with_body o (splice (INFO_SIZE + 0) d (o_body o)))) as Hw.
  { apply splice_wf; try done; unfold INFO_SIZE; lia. }
  assert (obj_wf (set_word 0 size (with_body o (splice (INFO_SIZE + 0) d (o_body o))))) as Hw2 by (apply set_word_wf; [done|lia]).
  pose proof (ob_body _ _ Ho) as Hz. pose proof (ob_body _ _ Hw) as Hz1. pose proof (ob_body _ _ Hw2) as Hz2.
  unfold INFO_SIZE, PS_TAG_LEN_BYTES in *. cbn [o_body set_word with_body] in *.
  pose proof (zlen_le_bytes 4 size) as H4. change (Z.of_nat 4) with 4 in H4.
  assert (le_val (le_bytes 4 size) = size) as Hsz by (apply le_val_le_bytes; lia).
  split; cbn [snd].
  - done.
  - unfold current_size. cbn [o_body set_word with_body]. rewrite sub_bytes_splice_eq by lia. lia.
  - rewrite Hd. cbn [o_body set_word with_body]. unfold INFO_SIZE. split; cbn [fst snd]; unfold INFO_SIZE; rewrite ?Hd.
    + rewrite zlen_sub_bytes; lia.
    + lia.
    + rewrite sub_bytes_sub_bytes by lia. rewrite sub_bytes_splice_eq by lia. done.
    + rewrite sub_bytes_sub_bytes by lia. rewrite !sub_bytes_splice_disj by lia. rewrite Z.add_0_l, H8. apply le_val_le_bytes. lia.
    + rewrite sub_bytes_sub_bytes by lia. rewrite sub_bytes_splice_disj by lia. apply sub_bytes_splice_eq; lia.
    + apply Forall_sub_bytes. pose proof (ob_body_b _ _ Hw2). done.
Qed.

(** ** The object of a request *)

(** [g_obj_tbl_info] is that of the entry [e] in slot [i], which holds [a]. *)
Record own B s F v A (i : nat) (e : ps_obj_table_entry_t) a : Prop := {
  ow_volume : volume B s F v A;
  ow_fid : g_fid s = object_file i;
  ow_entry : obj_db (obj_table s) !! i = Some e;
  ow_used : used e;
  ow_tag : tag (o_crypto (g_ps_object s)) = e_tag e;
  ow_holds : holds_asset F i e a;
  ow_asset : A !! (e_client_id e, e_uid e) = Some a;
}.

Lemma own_slot B s F v A i e a : own B s F v A i e a -> (i < S PS_NUM_ASSETS)%nat.
Proof.
  intros Ho. rewrite <- (tt_len _ _ (tk_typed _ _ _ (dk_table _ _ _ _ _ _ _ _ _ (proj1 (ow_volume _ _ _ _ _ _ _ _ Ho))))).
  eapply lookup_lt_Some, Ho.
Qed.

Lemma own_obj B s F v A i e a o : own B s F v A i e a -> obj_wf o -> tag (o_crypto o) = e_tag e -> own B (put_obj o s) F v A i e a.
Proof. intros [] Ho Ht. split; try done. by apply volume_obj. Qed.

Lemma own_in B s F v A i e a l : own B s F v A i e a -> own B (put_in l s) F v A i e a.
Proof. intros []. split; try done. by apply volume_in. Qed.

Lemma own_wf B s F v A i e a : own B s F v A i e a -> obj_wf (g_ps_object s).
Proof. intros []. apply ow_volume0. Qed.

(** Looking up the entry of a request. *)
Lemma wp_find_own B Q (E : psa_status_t -> ps_st P -> Prop) s F v A uid client :
  volume B s F v A -> uid <> TFM_PS_INVALID_UID ->
  (forall s' i e a, own B s' F v A i e a -> e_uid e = uid -> e_client_id e = client ->
     in_vec s' = in_vec s -> out_vec s' = out_vec s -> ps_crypto_iv_buf s' = ps_crypto_iv_buf s -> Q tt s') ->
  (A !! (client, uid) = None -> E PSA_ERROR_DOES_NOT_EXIST s) ->
  wp (ps_object_table_get_obj_tbl_info uid client) Q E s.
Proof.
  intros Hv Hu HQ HE. pose proof Hv as (Hd & [_ _ Ho] & _). pose proof (dk_assets _ _ _ _ _ _ _ _ _ Hd) as Ha.
  unfold ps_object_table_get_obj_tbl_info. apply wp_bind, wp_entry_idx.
  destruct (entry_idx_loop uid client (obj_db (obj_table s)) 0) as [j|] eqn:Hj; [|apply HE; by eapply represents_absent].
  destruct (represents_find _ _ _ _ _ _ _ Ha Hu Hj) as (i & e & a & -> & He & Hue & Hce & Hh & HA).
  apply wp_bind, wp_modify, wp_bind, wp_gets, wp_modify. cbn [obj_table put_fid]. rewrite (get_entry_lookup _ _ _ He).
  pose proof (dk_table _ _ _ _ _ _ _ _ _ Hd) as [[_ _ _ _ _ Hdb] _ _ _].
  assert (entry_wf e) as [Ht Htb _ _ _ _] by (rewrite Forall_forall in Hdb; apply Hdb; by eapply list_elem_of_lookup_2).
  eapply (HQ _ i e a); try done. split; try done.
  - apply volume_obj; [|split; cbn [o_crypto o_body with_crypto set_tag tag iv]; try done; apply Ho].
    destruct Hv as (? & [? ? ?] & ?). by split_and!.
  - unfold used. congruence.
  - by rewrite Hce, Hue.
Qed.

(** Reading it. *)
Lemma wp_read_own B Q (E : psa_status_t -> ps_st P -> Prop) s F v A i e a :
  own B s F v A i e a ->
  (forall o', let s' := put_obj o' s in own B s' F v A i e a -> loaded o' a ->
     c_uid (o_crypto o') = e_uid e -> c_client_id (o_crypto o') = e_client_id e -> Q tt s') ->
  wp (let* _ := set_object_ref (e_uid e) (e_client_id e) in
      let* fid := gets g_fid in
      object_read fid) Q E s.
Proof.
  intros Ho HQ. pose proof Ho as [(Hd & [Hl _ Hwf] & _) Hfid _ _ Htag (f & b & Hf & Hdec & Hb) _].
  apply wp_bind. unfold set_object_ref. apply wp_modify, wp_bind, wp_gets. cbn [g_fid put_obj]. rewrite Hfid.
  eapply (wp_object_read _ (max_bounds _ _ _ Hcfg) _ _ _ _ e); cbn [g_ps_object put_obj plat];
    [exact Hl|by destruct Hwf; split|exact Hf|exact Hdec|exact Hb|exact Htag|done|done|].
  intros o' Hwf' Htag' Hu Hc Hbody. apply (HQ o'); [|unfold loaded; by rewrite <- (bo_len _ _ _ Hb), Hbody|done|done].
  by apply own_obj.
Qed.

(** Saving the table again for an object that stays as it is: what the error
    paths do. *)
Lemma wp_keep {T : Type} B (Q : T -> ps_st P -> Prop) (E : psa_status_t -> ps_st P -> Prop) s F v A i e a er :
  own B s F v A i e a -> le_val (ps_crypto_iv_buf s) + 1 < 2 ^ 96 -> uid_ok (e_uid e) -> client_ok (e_client_id e) ->
  (forall s' F', volume True s' F' (v + 1) A -> E er s') ->
  (forall s', recov B s' A -> E er s') ->
  wp (let* _ := ignore (ps_update_table (e_uid e) (e_client_id e)) in fail er) Q E s.
Proof.
  intros Ho Hlt Hu Hc HV HR. pose proof (own_slot _ _ _ _ _ _ _ _ Ho) as Hi. destruct Ho as [Hv Hfid He Hus Htag Hh HA].
  unfold ignore. apply wp_bind, wp_bind, wp_try.
  eapply wp_update_table; [exact Hcfg|exact Hv|exact Hlt|exact Hu|exact Hc|exact Hi|exact Hfid|..].
  - intros e' Ht' Hu' Hc'. destruct Hh as (f & b & Hf & (k & Hk & Hl & Hfb & Hd) & Hb). exists f, b. split_and!; [done| |done].
    exists k. rewrite Ht', Htag. split_and!; try done. rewrite <- Hk. unfold fill_key_label. cbn [c_client_id c_uid]. by rewrite Hu', Hc'.
  - intros e' He' _. by simplify_eq.
  - intros s' F' e' Hv' _. rewrite insert_id in Hv' by done. apply wp_ret, wp_fail. by eapply HV.
  - intros er' s' Hr. rewrite insert_id in Hr by done. apply wp_ret, wp_fail, HR. by destruct Hr.
Qed.

Lemma wp_then_clear {T : Type} (m : M (ps_st P) T) (Q : T -> ps_st P -> Prop) (E : psa_status_t -> ps_st P -> Prop) s :
  wp m (fun r s' => Q r (put_obj (object_zero PS_MAX_ASSET_SIZE) s')) (fun e s' => E e (put_obj (object_zero PS_MAX_ASSET_SIZE) s')) s ->
  wp (then_clear PS_MAX_ASSET_SIZE m) Q E s.
Proof.
  intros Hm. unfold then_clear, clear_object. apply wp_bind, wp_try.
  eapply wp_mono; [exact Hm|intros r s' HQ|intros e s' HE]; cbv beta; apply wp_bind, wp_modify; [by apply wp_ret|by apply wp_fail].
Qed.
End ops.
