(* ===== verification/PsCreate.v ===== *)
(** * Protected storage: requests on assets

    Reading, creating, replacing and deleting an asset, each on every branch
    and for a loss of power at any point. *)

From S2P Require Import Prelude Bytes PsTypes PsCrypto PsTable PsObject PsLaws PsRules PsStore PsVolume PsOps.
From stdpp Require Import base list numbers gmap.
From Stdlib Require Import ZArith Lia.

Open Scope Z_scope.
Open Scope tfm_scope.

Definition write_once (a : Z * list Z) : bool := negb (Z.land a.1 PS_FLAG_WRITE_ONCE =? 0).

Section create.
Context {P K : Type} `{PsPower P} `{PsCryptoOps K} `{!PsAead K}.
Context (TFM_SP_PS : Z) (PS_NUM_ASSETS : nat) (PS_MAX_ASSET_SIZE : Z).
Context (Hcfg : ps_config TFM_SP_PS PS_NUM_ASSETS PS_MAX_ASSET_SIZE).
Implicit Types (s : ps_st P) (p : P) (F : files) (t : ps_obj_table_t) (o : ps_object_t) (A : assets) (B : Prop) (a : asset).

Abbreviation volume := (volume TFM_SP_PS PS_NUM_ASSETS PS_MAX_ASSET_SIZE).
Abbreviation recov := (recov TFM_SP_PS PS_NUM_ASSETS PS_MAX_ASSET_SIZE).
Abbreviation obj_wf := (obj_wf PS_MAX_ASSET_SIZE).
Abbreviation holds_asset := (holds_asset PS_MAX_ASSET_SIZE).
Abbreviation own := (own TFM_SP_PS PS_NUM_ASSETS PS_MAX_ASSET_SIZE).
Abbreviation loaded := (loaded PS_MAX_ASSET_SIZE).
Abbreviation locate := (wp_find_own TFM_SP_PS PS_NUM_ASSETS PS_MAX_ASSET_SIZE).

Lemma volume_clear B s F v A : volume B s F v A -> volume B (put_obj (object_zero PS_MAX_ASSET_SIZE) s) F v A.
Proof. intros Hv. eapply volume_obj; [exact Hv|by eapply object_zero_wf]. Qed.

Lemma recov_clear B s A : recov B s A -> recov B (put_obj (object_zero PS_MAX_ASSET_SIZE) s) A.
Proof. intros Hr. eapply recov_view; [exact Hr|apply Hr|done]. Qed.

(** ** Reading *)

Lemma bind_assoc {S T U V : Type} (m : M S T) (k : T -> M S U) (h : U -> M S V) (x : S) :
  bind (bind m k) h x = bind m (fun y => bind (k y) h) x.
Proof. unfold bind. by destruct (m x) as [[]]. Qed.

(** Decrypting the asset of the request. *)
Lemma wp_read_then {T : Type} B (k : M (ps_st P) T) Q (E : psa_status_t -> ps_st P -> Prop) s F v A i e a :
  own B s F v A i e a ->
  (forall o', let s' := put_obj o' s in own B s' F v A i e a -> loaded o' a -> c_uid (o_crypto o') = e_uid e ->
     c_client_id (o_crypto o') = e_client_id e -> wp k Q E s') ->
  wp (let* _ := set_object_ref (e_uid e) (e_client_id e) in
      let* fid := gets g_fid in
      let* _ := ps_encrypted_object_read PS_MAX_ASSET_SIZE fid in
      k) Q E s.
Proof.
  intros Ho Hk.
  assert (wp (let* _ := (let* _ := set_object_ref (e_uid e) (e_client_id e) in
      let* fid := gets g_fid in ps_encrypted_object_read PS_MAX_ASSET_SIZE fid) in k) Q E s) as Hw.
  { apply wp_bind. eapply wp_read_own; [exact Hcfg|exact Ho|exact Hk]. }
  unfold wp in *. rewrite bind_assoc in Hw. unfold bind, set_object_ref, modify, gets in *. done.
Qed.

(** Looking up and decrypting an asset, for any use of it. *)
Lemma wp_with_asset {T : Type} B (k : M (ps_st P) T) Q (E : psa_status_t -> ps_st P -> Prop) s F v A uid client :
  volume B s F v A -> uid <> TFM_PS_INVALID_UID ->
  (forall s' i e a, own B s' F v A i e a -> loaded (g_ps_object s') a -> e_uid e = uid -> e_client_id e = client ->
     in_vec s' = in_vec s -> out_vec s' = out_vec s -> ps_crypto_iv_buf s' = ps_crypto_iv_buf s ->
     wp k (fun r s' => Q r (put_obj (object_zero PS_MAX_ASSET_SIZE) s')) (fun e s' => E e (put_obj (object_zero PS_MAX_ASSET_SIZE) s')) s') ->
  (A !! (client, uid) = None -> E PSA_ERROR_DOES_NOT_EXIST s) ->
  wp (let* _ := ps_object_table_get_obj_tbl_info uid client in
      then_clear PS_MAX_ASSET_SIZE (
        let* _ := set_object_ref uid client in
        let* fid := gets g_fid in
        let* _ := ps_encrypted_object_read PS_MAX_ASSET_SIZE fid in
        k)) Q E s.
Proof.
  intros Hv Hu Hk HE. apply wp_bind. eapply locate; [exact Hv|exact Hu| |exact HE].
  intros s1 i e a Ho <- <- Hin Hout Hiv. apply wp_then_clear.
  eapply wp_read_then; [exact Ho|]. intros o' s2 Ho' Hl _ _. by eapply Hk.
Qed.

Lemma wp_object_read_asset B Q (E : psa_status_t -> ps_st P -> Prop) s F v A uid client offset size :
  volume B s F v A -> uid <> TFM_PS_INVALID_UID -> 0 <= offset -> 0 <= size ->
  (forall s' a, A !! (client, uid) = Some a -> offset <= zlen a.2 -> let n := Z.min size (zlen a.2 - offset) in
     volume B s' F v A -> out_vec s' = <[0%nat := nth 0 (out_vec s) [] ++ sub_bytes offset n a.2]> (out_vec s) -> Q n s') ->
  (A !! (client, uid) = None -> E PSA_ERROR_DOES_NOT_EXIST s) ->
  (forall s' a, A !! (client, uid) = Some a -> zlen a.2 < offset -> volume B s' F v A -> E PSA_ERROR_INVALID_ARGUMENT s') ->
  wp (ps_object_read PS_MAX_ASSET_SIZE uid client offset size) Q E s.
Proof.
  intros Hv Hu Hoff Hsz HQ HN HI. unfold ps_object_read. eapply wp_with_asset; [exact Hv|exact Hu| |exact HN].
  intros s1 i e a [Hv1 _ _ _ _ (f & b & _ & _ & Hb) HA] Hl <- <- Hin Hout _.
  apply wp_bind, wp_gets. rewrite (loaded_current _ _ _ Hl). pose proof (max_bounds _ _ _ Hcfg). pose proof (bo_max _ _ _ Hb).
  apply wp_bind, wp_check; intros Hc.
  2:{ apply (HI _ a HA); [destruct (Z.gtb_spec offset (zlen a.2)); done || lia|by apply volume_clear]. }
  assert (offset <= zlen a.2) as Hle by (destruct (Z.gtb_spec offset (zlen a.2)); done || lia).
  assert (PS_UTILS_MIN size (u32 (zlen a.2 - offset)) = Z.min size (zlen a.2 - offset)) as ->.
  { rewrite u32_id by lia. unfold PS_UTILS_MIN. destruct (Z.ltb_spec size (zlen a.2 - offset)); lia. }
  apply wp_bind. unfold ps_req_mngr_write_asset_data. apply wp_modify, wp_ret. apply (HQ _ a HA Hle).
  - apply volume_clear. by apply volume_out.
  - cbn [out_vec put_obj put_out]. rewrite Hout. by rewrite (loaded_data _ _ _ _ _ Hl) by lia.
Qed.

Lemma wp_object_get_info B Q (E : psa_status_t -> ps_st P -> Prop) s F v A uid client :
  volume B s F v A -> uid <> TFM_PS_INVALID_UID ->
  (forall s' a, A !! (client, uid) = Some a -> volume B s' F v A -> out_vec s' = out_vec s -> Q (PsInfo (zlen a.2) a.1) s') ->
  (A !! (client, uid) = None -> E PSA_ERROR_DOES_NOT_EXIST s) ->
  wp (ps_object_get_info PS_MAX_ASSET_SIZE uid client) Q E s.
Proof.
  intros Hv Hu HQ HN. unfold ps_object_get_info. eapply wp_with_asset; [exact Hv|exact Hu| |exact HN].
  intros s1 i e a [Hv1 _ _ _ _ _ HA] Hl <- <- _ Hout _.
  apply wp_bind, wp_gets, wp_ret. rewrite (loaded_current _ _ _ Hl), (loaded_flags _ _ _ Hl).
  by apply (HQ _ a HA); [apply volume_clear|].
Qed.

(** ** Removing a file that no entry uses *)

Lemma wp_remove_unused Q (E : psa_status_t -> ps_st P -> Prop) s F v A i :
  volume True s F v A -> (i < S PS_NUM_ASSETS)%nat -> free_slot (obj_table s) i -> F !! object_file i <> None ->
  (forall p' F', volume True (put_plat p' s) F' v A -> Q tt (put_plat p' s)) ->
  (forall e s', recov True s' A -> E e s') ->
  wp (lift (psa_its_remove (object_file i))) Q E s.
Proof.
  intros (Hd & Hr & HB) Hi Hfree Hf HQ HE.
  eapply wp_remove_file; [apply Hr|intros p' _ Hl'|done|intros er p' F' _ Hl' HF].
  - eapply HQ. split_and!; [|by eapply ready_plat|done].
    eapply disk_free; [exact Hcfg|exact Hi|exact Hfree|apply only_delete|exact Hd].
  - apply HE. eapply recov_disk; [|exact HB|exact Hl'].
    eapply disk_free; [exact Hcfg|exact Hi|exact Hfree| |exact Hd]. destruct HF as [->| ->]; [apply only_refl|apply only_delete].
Qed.

Lemma recov_true B s A : recov True s A -> recov B s A.
Proof. intros [Ho Hr]. split; [done|auto]. Qed.

(** ** Deleting *)

Lemma wp_object_delete B Q (E : psa_status_t -> ps_st P -> Prop) s F v A uid client :
  volume B s F v A -> uid <> TFM_PS_INVALID_UID -> le_val (ps_crypto_iv_buf s) + 1 < 2 ^ 96 ->
  (forall s' F' a, A !! (client, uid) = Some a -> write_once a = false -> volume True s' F' (v + 1) (delete (client, uid) A) -> Q tt s') ->
  (A !! (client, uid) = None -> E PSA_ERROR_DOES_NOT_EXIST s) ->
  (forall s' a, A !! (client, uid) = Some a -> write_once a = true -> volume B s' F v A -> E PSA_ERROR_NOT_PERMITTED s') ->
  (forall e s', recov B s' A \/ recov B s' (delete (client, uid) A) -> E e s') ->
  wp (ps_object_delete PS_MAX_ASSET_SIZE uid client) Q E s.
Proof.
  intros Hv Hu Hlt HQ HN HW HE. unfold ps_object_delete. eapply wp_with_asset; [exact Hv|exact Hu| |exact HN].
  intros s1 i e a Ho Hl <- <- _ _ Hiv. pose proof Ho as [Hv1 Hfid He Hus Htag (f & b & Hf & Hfb) HA].
  pose proof (own_slot _ _ _ _ _ _ _ _ _ _ _ Ho) as Hi. rewrite <- Hiv in Hlt.
  apply wp_bind, wp_gets, wp_bind, wp_check; unfold has_write_once; rewrite (loaded_flags _ _ _ Hl); intros Hw.
  2:{ apply (HW _ a HA); [by destruct (write_once a) eqn:Hwo; unfold write_once in Hwo; rewrite Hwo in Hw|by apply volume_clear]. }
  assert (write_once a = false) as Hwo by (unfold write_once; by destruct (Z.land _ _ =? 0)).
  apply wp_bind. eapply wp_delete_object; [exact Hcfg|exact Hv1|exact Hlt|exact Hus|by rewrite HA| |].
  2:{ intros er s2 Hr. apply HE. destruct Hr; [left|right]; by apply recov_clear. }
  intros s2 F2 t0 Hs2 (Hfid2 & Hdb2 & Hfk2). apply wp_bind. eapply wp_delete_old; [exact Hcfg|exact Hs2| |].
  2:{ intros er s3 Hr. apply HE. right. by apply recov_clear. }
  intros s3 F3 Hv3 (Hfid3 & Hdb3 & Hfk3). apply wp_bind, wp_gets. rewrite Hfid3, Hfid2. cbn [g_fid put_table]. rewrite Hfid.
  eapply wp_remove_unused; [exact Hv3|exact Hi| |rewrite Hfk3, Hfk2 by done; by rewrite Hf| |].
  - intros e' He' Hus'. rewrite Hdb3, Hdb2 in He'. cbn [obj_table put_table] in He'. unfold without in He'.
    destruct (entry_idx_loop (e_uid e) (e_client_id e) (obj_db (obj_table s1)) 0) as [j|] eqn:Hj.
    + destruct Hv1 as (Hd1 & _ & _). pose proof (dk_assets _ _ _ _ _ _ _ _ _ Hd1) as Ha1.
      destruct (represents_find _ _ _ _ _ _ _ Ha1 Hus Hj) as (n & e2 & a2 & -> & He2 & Hu2 & Hc2 & _).
      assert (n = i) as -> by (eapply (rp_unique _ _ _ _ Ha1 n i e2 e); unfold used in *; congruence).
      cbn [set_entry obj_db] in He'. rewrite Nat2Z.id, list_lookup_insert_eq in He' by (by eapply lookup_lt_Some).
      injection He' as <-. by apply entry_zero_free in Hus'.
    + by eapply (entry_idx_loop_None _ _ _ _ Hj i e).
  - intros p' F' Hv'. apply (HQ _ F' a HA Hwo). by apply volume_clear.
  - intros er s4 Hr. apply HE. right. by apply recov_true, recov_clear.
Qed.

(** ** Creating and replacing *)

Lemma wp_read_data Q (E : psa_status_t -> ps_st P -> Prop) s size :
  let v := nth 1 (in_vec s) [] in let o := g_ps_object s in 0 <= size ->
  (forall l, size <= zlen v -> Q tt (put_obj (with_body o (splice (INFO_SIZE + 0) (sub_bytes 0 size v) (o_body o))) (put_in l s))) ->
  (forall l, zlen v < size -> E PSA_ERROR_PROGRAMMER_ERROR (put_obj (with_body o (splice (INFO_SIZE + 0) v (o_body o))) (put_in l s))) ->
  wp (ps_req_mngr_read_asset_data 0 size) Q E s.
Proof.
  intros v o Hs HQ HE. unfold ps_req_mngr_read_asset_data. apply wp_bind. change (wp get) with (wp (S := ps_st P) (gets id)).
  apply wp_gets, wp_bind, wp_modify. change (nth 1 (in_vec (id s)) []) with v. apply wp_check; intros Hc.
  - apply Z.eqb_eq in Hc. rewrite Hc. apply HQ. lia.
  - apply Z.eqb_neq in Hc. assert (zlen v < size) by lia. rewrite Z.min_r by lia.
    replace (sub_bytes 0 (zlen v) v) with v by (by rewrite sub_bytes_all). by apply HE.
Qed.

(** Why a request to create an asset was refused. *)
Definition create_refused A (uid client size : Z) (d : list Z) (e : psa_status_t) : Prop :=
  e = PSA_ERROR_INVALID_ARGUMENT /\ PS_MAX_ASSET_SIZE < size \/
  e = PSA_ERROR_PROGRAMMER_ERROR /\ zlen d < size \/
  e = PSA_ERROR_NOT_PERMITTED /\ (exists a, A !! (client, uid) = Some a /\ write_once a = true) \/
  e = PSA_ERROR_INSUFFICIENT_STORAGE /\
    Z.of_nat PS_NUM_ASSETS < Z.of_nat (base.size A) + match A !! (client, uid) with Some _ => 0 | None => 1 end.

(** The volume after the new content has been stored in slot [i]. *)
Definition stored_new B s F v A uid client a (i : nat) : Prop :=
  (i < S PS_NUM_ASSETS)%nat /\ free_slot (obj_table s) i /\ volume B s F v A /\ g_fid s = object_file i /\
  (forall e, e_tag e = tag (o_crypto (g_ps_object s)) -> e_uid e = uid -> e_client_id e = client -> holds_asset F i e a).

Lemma wp_update_new B Q (E : psa_status_t -> ps_st P -> Prop) s F v A uid client a i :
  stored_new B s F v A uid client a i -> le_val (ps_crypto_iv_buf s) + 1 < 2 ^ 96 -> uid_ok uid -> client_ok client ->
  (forall s' F' e, volume True s' F' (v + 1) (<[(client, uid) := a]> A) ->
     kept PS_NUM_ASSETS (put_table (set_entry (Z.of_nat i) e (without uid client (obj_table s))) s) s' F F' -> Q tt s') ->
  (forall e s', recov B s' A \/ recov B s' (<[(client, uid) := a]> A) -> E e s') ->
  wp (ps_update_table uid client) Q E s.
Proof.
  intros (Hi & Hfree & Hv & Hfid & Hh) Hlt Hu Hc HQ HE.
  eapply wp_update_table; [exact Hcfg|exact Hv|exact Hlt|exact Hu|exact Hc|exact Hi|exact Hfid|exact Hh| |exact HQ|exact HE].
  intros e He Hus. by destruct (Hfree e He).
Qed.

Section branches.
Context (B : Prop) (Q : unit -> ps_st P -> Prop) (E : psa_status_t -> ps_st P -> Prop) (F : files) (v : Z) (A : assets).
Context (uid client flags size : Z) (d : list Z).
Context (Hu : uid_ok uid) (Hc : client_ok client) (Hfl : 0 <= flags < 4294967296) (Hsz : 0 <= size) (Hd : Forall is_byte d).
Context (Hmax : size <= PS_MAX_ASSET_SIZE).
Let a' : asset := (flags, sub_bytes 0 size d).
Context (HQ : forall s' F' v', size <= zlen d -> (forall a, A !! (client, uid) = Some a -> write_once a = false) ->
  volume True s' F' v' (<[(client, uid) := a']> A) -> Q tt s').
Context (HV : forall er s' F' v', create_refused A uid client size d er -> volume B s' F' v' A -> E er s').
Context (HR : forall er s', recov B s' A \/ recov B s' (<[(client, uid) := a']> A) -> E er s').

(** An identifier without an asset. *)
Lemma wp_create_new s :
  volume B s F v A -> nth 1 (in_vec s) [] = d -> le_val (ps_crypto_iv_buf s) + 2 < 2 ^ 96 -> A !! (client, uid) = None ->
  wp (then_clear PS_MAX_ASSET_SIZE (
      let* r := try (
        let* old_fid := (let* _ := ps_init_empty_object PS_MAX_ASSET_SIZE uid client flags size in ret PS_INVALID_FID) in
        let* _ := ps_req_mngr_read_asset_data 0 size in
        let* _ := store_new 2 old_fid (set_word 0 size) in
        ret old_fid) in
      match r with
      | Ok old_fid =>
          let* _ := ps_update_table uid client in
          if negb (old_fid =? PS_INVALID_FID) then lift (psa_its_remove old_fid) else ret tt
      | Err e => let* _ := ret tt in fail e
      end)) Q E s.
Proof.
  intros Hv Hin Hlt HN. pose proof (max_bounds _ _ _ Hcfg) as Hmb. apply wp_then_clear, wp_bind, wp_try.
  unfold ps_init_empty_object. apply wp_bind, wp_bind, wp_modify, wp_ret, wp_bind.
  set (o := set_word 8 flags (set_word 4 size (with_crypto (object_zero PS_MAX_ASSET_SIZE) (set_ref uid client crypto_zero)))).
  set (o0 := set_word 4 size (with_crypto (object_zero PS_MAX_ASSET_SIZE) (set_ref uid client crypto_zero))) in o.
  assert (obj_wf o0) as Ho0 by (eapply set_word_wf; [exact Hcfg|by destruct (object_zero_wf _ _ _ Hcfg)|lia]).
  assert (obj_wf o) as Ho by (eapply set_word_wf; [exact Hcfg|exact Ho0|lia]).
  assert (sub_bytes 8 4 (o_body o) = le_bytes 4 flags) as H8.
  { pose proof (ob_body _ _ Ho0) as Hz. unfold INFO_SIZE, PS_TAG_LEN_BYTES in Hz. pose proof (zlen_le_bytes 4 flags) as H4.
    change (Z.of_nat 4) with 4 in H4. apply sub_bytes_splice_eq; lia. }
  pose proof (volume_obj _ _ _ _ _ _ _ _ _ Hv Ho) as Hv1. change (nth 1 (in_vec s) []) with (nth 1 (in_vec (put_obj o s)) []) in Hin.
  assert (forall d', Forall is_byte d' -> zlen d' <= size -> obj_wf (with_body o (splice (INFO_SIZE + 0) d' (o_body o)))) as Hsp.
  { intros d' Hd' Hl'. apply splice_wf; [done|done|unfold INFO_SIZE; lia|unfold INFO_SIZE; lia]. }
  apply wp_read_data; [done|rewrite Hin; intros l Hl|rewrite Hin; intros l Hl]; cbn [g_ps_object put_obj].
  2:{ apply wp_bind, wp_ret, wp_fail. apply (HV _ _ F v); [right; left; done|]. apply volume_clear, volume_obj; [by apply volume_in|apply Hsp; [done|lia]]. }
  assert (zlen (sub_bytes 0 size d) = size) as Hzd by (apply zlen_sub_bytes; lia).
  assert (to_store PS_MAX_ASSET_SIZE (set_word 0 size (with_body o (splice (INFO_SIZE + 0) (sub_bytes 0 size d) (o_body o)))) a') as Hts.
  { eapply built; [exact Hcfg|exact Ho|exact Hzd|exact Hmax|auto with bytes|exact Hfl|exact H8]. }
  apply wp_bind. set (s1 := put_obj (with_body o _) _).
  assert (volume B s1 F v A) as Hvs1.
  { apply volume_obj; [by apply volume_in|apply Hsp; [auto with bytes|lia]]. }
  eapply (wp_store_new _ _ _ Hcfg B _ _ s1 F v A _ _ _ a'); [exact Hvs1|lia|exact Hts|done|change (ps_crypto_iv_buf s1) with (ps_crypto_iv_buf s); lia| | |].
  - intros i s2 F2 Hi Hfree Hv2 _ Ht2 Hfid Hiv Hh. apply wp_ret, wp_bind.
    eapply (wp_update_new B _ _ s2 F2 v A uid client a' i); [by split_and!| |exact Hu|exact Hc| |].
    + rewrite Hiv. change (ps_crypto_iv_buf s1) with (ps_crypto_iv_buf s). lia.
    + intros s3 F3 e Hv3 _. apply wp_ret. apply (HQ _ F3 (v + 1)); [done|intros a Ha; congruence|by apply volume_clear].
    + intros er s3 Hr. apply HR. destruct Hr; [left|right]; by apply recov_clear.
  - intros Hfull. apply wp_bind, wp_ret, wp_fail. apply (HV _ _ F v); [|by apply volume_clear].
    do 3 right. split; [done|]. rewrite HN. lia.
  - intros er s2 Hr. apply wp_bind, wp_ret, wp_fail, HR. left. by apply recov_clear.
Qed.

(** After the update, the old file of the identifier is removed. *)
Lemma replace_remove_old s2 s3 s4 F3 F4 e4 i j e a :
  own B s2 F v A i e a -> e_uid e = uid -> e_client_id e = client -> write_once a = false -> size <= zlen d ->
  only_file j F F3 -> obj_table s3 = obj_table s2 -> free_slot (obj_table s3) j -> (j < S PS_NUM_ASSETS)%nat ->
  volume True s4 F4 (v + 1) (<[(client, uid) := a']> A) ->
  kept PS_NUM_ASSETS (put_table (set_entry (Z.of_nat j) e4 (without uid client (obj_table s3))) s3) s4 F3 F4 ->
  wp (if negb (object_file i =? PS_INVALID_FID) then lift (psa_its_remove (object_file i)) else ret tt)
    (fun r s' => Q r (put_obj (object_zero PS_MAX_ASSET_SIZE) s')) (fun e s' => E e (put_obj (object_zero PS_MAX_ASSET_SIZE) s')) s4.
Proof.
  intros Ho Hue Hce Hw Hlen Hof Ht3 Hfree Hj Hv4 (_ & Hdb & Hfiles). pose proof (own_slot _ _ _ _ _ _ _ _ _ _ _ Ho) as Hi.
  destruct Ho as [Hv _ He Hus _ (f & b & Hf & _) HA].
  assert (i <> j) as Hij by (intros ->; rewrite Ht3 in Hfree; by destruct (Hfree e He)).
  assert ((object_file i =? PS_INVALID_FID) = false) as ->.
  { apply Z.eqb_neq. rewrite (object_file_val _ _ _ Hcfg) by done. unfold PS_INVALID_FID. lia. }
  cbn [negb]. eapply wp_remove_unused; [exact Hv4|exact Hi| | | |].
  - cbn [obj_table put_table] in Hdb. rewrite Ht3 in Hdb. unfold without in Hdb.
    pose proof (dk_assets _ _ _ _ _ _ _ _ _ (proj1 Hv)) as Ha. rewrite <- Hue, <- Hce in Hdb.
    destruct (entry_idx_loop (e_uid e) (e_client_id e) (obj_db (obj_table s2)) 0) as [n|] eqn:Hn.
    2:{ by destruct (entry_idx_loop_None _ _ _ _ Hn i e). }
    destruct (represents_find _ _ _ _ _ _ _ Ha Hus Hn) as (n' & e' & a2 & -> & He' & Hu' & Hc' & _).
    assert (n' = i) as -> by (eapply (rp_unique _ _ _ _ Ha n' i e' e); unfold used in *; congruence).
    intros e2 He2 Hus2. rewrite Hdb in He2. cbn [set_entry obj_db] in He2. rewrite !Nat2Z.id in He2.
    rewrite list_lookup_insert_ne in He2 by done. rewrite list_lookup_insert_eq in He2 by (by eapply lookup_lt_Some).
    injection He2 as <-. by apply entry_zero_free in Hus2.
  - rewrite Hfiles by done. rewrite Hof; [by rewrite Hf|]. intros Heq. by apply (object_file_inj _ _ _ Hcfg) in Heq.
  - intros p' F' Hv'. apply (HQ _ F' (v + 1)); [done| |by apply volume_clear].
    intros a0 Ha0. rewrite <- Hue, <- Hce in Ha0. congruence.
  - intros er s5 Hr. apply HR. right. by apply recov_true, recov_clear.
Qed.

Lemma wp_create_existing (Q' : Z -> ps_st P -> Prop) (E' : psa_status_t -> ps_st P -> Prop) s i e a :
  own B s F v A i e a -> e_uid e = uid -> e_client_id e = client ->
  (forall o', let s' := put_obj o' s in own B s' F v A i e a -> write_once a = false ->
     sub_bytes 8 4 (o_body o') = le_bytes 4 flags -> c_uid (o_crypto o') = uid -> c_client_id (o_crypto o') = client ->
     Q' (object_file i) s') ->
  (forall s', own B s' F v A i e a -> ps_crypto_iv_buf s' = ps_crypto_iv_buf s -> write_once a = true -> E' PSA_ERROR_NOT_PERMITTED s') ->
  wp (create_existing PS_MAX_ASSET_SIZE uid client flags size) Q' E' s.
Proof.
  intros Ho <- <- HQ' HE'. pose proof (max_bounds _ _ _ Hcfg) as Hmb. unfold create_existing. eapply wp_read_then; [exact Ho|].
  intros o s1 Ho1 Hl Hcu Hcc. apply wp_bind, wp_gets, wp_bind. cbn [g_ps_object put_obj s1].
  unfold has_write_once. rewrite (loaded_flags _ _ _ Hl). fold (write_once a).
  apply wp_check; intros Hw; [apply negb_true_iff in Hw|apply negb_false_iff in Hw; by apply HE'].
  apply wp_bind, wp_modify, wp_gets. cbn [g_ps_object put_obj g_fid s1]. rewrite (ow_fid _ _ _ _ _ _ _ _ _ _ _ Ho).
  pose proof (own_wf _ _ _ _ _ _ _ _ _ _ _ Ho1) as Hwf. cbn [g_ps_object put_obj s1] in Hwf.
  assert (obj_wf (set_word 8 flags o)) as Hwf1 by (eapply set_word_wf; [exact Hcfg|done|lia]).
  apply (HQ' (set_word 4 size (set_word 8 flags o))).
  - apply (own_obj _ _ _ _ _ _ _ _ _ _ _ (set_word 4 size (set_word 8 flags o)) Ho1); [eapply set_word_wf; [exact Hcfg|done|lia]|].
    apply (ow_tag _ _ _ _ _ _ _ _ _ _ _ Ho1).
  - done.
  - pose proof (ob_body _ _ Hwf) as Hz. pose proof (ob_body _ _ Hwf1) as Hz1. unfold INFO_SIZE, PS_TAG_LEN_BYTES in Hz, Hz1.
    pose proof (zlen_le_bytes 4 flags) as H4. pose proof (zlen_le_bytes 4 size) as H4'. change (Z.of_nat 4) with 4 in H4, H4'.
    cbn [o_body set_word with_body] in *. rewrite sub_bytes_splice_disj by lia. apply sub_bytes_splice_eq; lia.
  - done.
  - done.
Qed.

(** The error path of an identifier that has an asset. *)
Lemma wp_create_failed s er i e a (Q' : unit -> ps_st P -> Prop) :
  own B s F v A i e a -> e_uid e = uid -> e_client_id e = client -> le_val (ps_crypto_iv_buf s) + 1 < 2 ^ 96 ->
  create_refused A uid client size d er ->
  wp (let* _ := ignore (ps_update_table uid client) in fail er) Q'
    (fun e s' => E e (put_obj (object_zero PS_MAX_ASSET_SIZE) s')) s.
Proof.
  intros Ho <- <- Hlt Her. eapply wp_keep; [exact Hcfg|exact Ho|exact Hlt|exact Hu|exact Hc| |].
  - intros s' F' Hv'. apply (HV _ _ F' (v + 1) Her). by apply volume_weaken, volume_clear.
  - intros s' Hr. apply HR. left. by apply recov_clear.
Qed.

(** An identifier with asset [a]. *)
Lemma wp_create_replace s i e a :
  own B s F v A i e a -> e_uid e = uid -> e_client_id e = client -> nth 1 (in_vec s) [] = d ->
  le_val (ps_crypto_iv_buf s) + 2 < 2 ^ 96 ->
  wp (then_clear PS_MAX_ASSET_SIZE (
      let* r := try (
        let* old_fid := create_existing PS_MAX_ASSET_SIZE uid client flags size in
        let* _ := ps_req_mngr_read_asset_data 0 size in
        let* _ := store_new 1 old_fid (set_word 0 size) in
        ret old_fid) in
      match r with
      | Ok old_fid =>
          let* _ := ps_update_table uid client in
          if negb (old_fid =? PS_INVALID_FID) then lift (psa_its_remove old_fid) else ret tt
      | Err e => let* _ := ignore (ps_update_table uid client) in fail e
      end)) Q E s.
Proof.
  intros Ho Hue Hce Hin Hlt. pose proof (max_bounds _ _ _ Hcfg) as Hmb. apply wp_then_clear, wp_bind, wp_try, wp_bind.
  eapply wp_create_existing; [exact Ho|exact Hue|exact Hce| |].
  2:{ intros s1 Ho1 Hiv1 Hw. eapply wp_create_failed; [exact Ho1|exact Hue|exact Hce|rewrite Hiv1; lia|].
      right; right; left. split; [done|]. exists a. rewrite <- Hue, <- Hce. split; [apply Ho|done]. }
  intros o s1 Ho1 Hw H8 Hcu Hcc. pose proof (own_wf _ _ _ _ _ _ _ _ _ _ _ Ho1) as Hwf. cbn [g_ps_object put_obj s1] in Hwf.
  assert (forall d' l, Forall is_byte d' -> zlen d' <= size ->
    own B (put_obj (with_body o (splice (INFO_SIZE + 0) d' (o_body o))) (put_in l s1)) F v A i e a) as Hsp.
  { intros d' l Hd' Hl'. apply own_obj; [by apply own_in| |apply (ow_tag _ _ _ _ _ _ _ _ _ _ _ Ho1)].
    apply splice_wf; [done|done|unfold INFO_SIZE; lia|unfold INFO_SIZE; lia]. }
  apply wp_bind. change (in_vec s) with (in_vec s1) in Hin.
  apply wp_read_data; [done|rewrite Hin; intros l Hl|rewrite Hin; intros l Hl]; change (g_ps_object s1) with o.
  2:{ eapply wp_create_failed; [apply Hsp; [exact Hd|lia]|exact Hue|exact Hce|change (le_val (ps_crypto_iv_buf s) + 1 < 2 ^ 96); lia|by right; left]. }
  assert (zlen (sub_bytes 0 size d) = size) as Hzd by (apply zlen_sub_bytes; lia).
  assert (to_store PS_MAX_ASSET_SIZE (set_word 0 size (with_body o (splice (INFO_SIZE + 0) (sub_bytes 0 size d) (o_body o)))) a') as Hts.
  { eapply built; [exact Hcfg|exact Hwf|exact Hzd|exact Hmax|auto with bytes|exact Hfl|exact H8]. }
  specialize (Hsp (sub_bytes 0 size d) l). set (s2 := put_obj (with_body o _) _) in *.
  assert (own B s2 F v A i e a) as Ho2 by (apply Hsp; [auto with bytes|lia]).
  assert (ps_crypto_iv_buf s2 = ps_crypto_iv_buf s) as Hiv2 by done.
  apply wp_bind.
  eapply (wp_store_new _ _ _ Hcfg B _ _ s2 F v A _ _ _ a'); [apply Ho2|lia|exact Hts|done|rewrite Hiv2; lia| | |].
  - intros j s3 F3 Hj Hfree Hv3 Hof Ht3 Hfid3 Hiv3 Hh. apply wp_ret.
    change (c_uid (o_crypto (g_ps_object s2))) with (c_uid (o_crypto o)) in Hh.
    change (c_client_id (o_crypto (g_ps_object s2))) with (c_client_id (o_crypto o)) in Hh. rewrite Hcu, Hcc in Hh.
    apply wp_bind. eapply (wp_update_new B _ _ s3 F3 v A uid client a' j); [by split_and!|rewrite Hiv3, Hiv2; lia|exact Hu|exact Hc| |].
    + intros s4 F4 e4 Hv4 Hk4. pose proof (own_slot _ _ _ _ _ _ _ _ _ _ _ Ho2) as Hi.
      by eapply (replace_remove_old s2 s3 s4 F3 F4 e4 i j e a).
    + intros er s4 Hr. apply HR. destruct Hr; [left|right]; by apply recov_clear.
  - intros Hfull. eapply wp_create_failed; [exact Ho2|exact Hue|exact Hce|rewrite Hiv2; lia|].
    do 3 right. split; [done|]. pose proof (ow_asset _ _ _ _ _ _ _ _ _ _ _ Ho2) as HA. rewrite Hue, Hce in HA. rewrite HA. lia.
  - intros er s3 Hr. eapply wp_dead_fails; [unfold ignore; dead_auto|auto with dead|apply Hr|].
    intros er' s4 Ho4 Hv4. apply HR. left. apply recov_clear. by eapply recov_view.
Qed.
End branches.

Lemma wp_object_create B Q (E : psa_status_t -> ps_st P -> Prop) s F v A uid client flags size :
  let d := nth 1 (in_vec s) [] in let a' := (flags, sub_bytes 0 size d) in
  volume B s F v A -> uid_ok uid -> client_ok client -> 0 <= flags < 4294967296 -> 0 <= size -> Forall is_byte d ->
  le_val (ps_crypto_iv_buf s) + 2 < 2 ^ 96 ->
  (forall s' F' v', size <= zlen d -> (forall a, A !! (client, uid) = Some a -> write_once a = false) ->
     volume True s' F' v' (<[(client, uid) := a']> A) -> Q tt s') ->
  (forall er s' F' v', create_refused A uid client size d er -> volume B s' F' v' A -> E er s') ->
  (forall er s', recov B s' A \/ recov B s' (<[(client, uid) := a']> A) -> E er s') ->
  wp (ps_object_create PS_MAX_ASSET_SIZE uid client flags size) Q E s.
Proof.
  intros d a' Hv Hu Hc Hfl Hsz Hd Hlt HQ HV HR. unfold ps_object_create.
  apply wp_bind, wp_check; intros Hm.
  2:{ apply (HV _ _ F v); [left; split; [done|]|done]. destruct (Z.gtb_spec size PS_MAX_ASSET_SIZE); done || lia. }
  assert (size <= PS_MAX_ASSET_SIZE) by (destruct (Z.gtb_spec size PS_MAX_ASSET_SIZE); done || lia).
  apply wp_bind, wp_try. eapply locate; [exact Hv|destruct Hu; unfold TFM_PS_INVALID_UID; lia| |].
  - intros s1 i e a Ho Hue Hce Hin _ Hiv. apply wp_bind, wp_ret.
    eapply (wp_create_replace B Q E F v A uid client flags size d); try done; [by rewrite Hin|rewrite Hiv; lia].
  - intros HN. apply wp_bind, wp_bind, wp_check; [intros _|done]. apply wp_ret.
    by eapply (wp_create_new B Q E F v A uid client flags size d).
Qed.
End create.
