(* ===== verification/PsBoot.v ===== *)
(** * Protected storage: start-up

    [ps_object_table_init] selects the table that was saved last and mounts
    the volume it describes; [ps_object_table_create] makes an empty one. *)

From S2P Require Import Prelude Bytes PsTypes PsCrypto PsTable PsObject PsLaws PsRules PsStore PsVolume PsOps.
From stdpp Require Import base list numbers gmap.
From Stdlib Require Import ZArith Lia.

Open Scope Z_scope.
Open Scope tfm_scope.

(** ** Any bytes parse to a table *)

Lemma s32_range x : 0 <= x < 4294967296 -> -2147483648 <= s32 x < 2147483648.
Proof. intros Hx. unfold s32. destruct (Z.ltb_spec x 2147483648); lia. Qed.

Lemma le_val_sub_range off n b : Forall is_byte b -> 0 <= off -> 0 <= n -> off + n <= zlen b ->
  0 <= le_val (sub_bytes off n b) < 256 ^ n.
Proof.
  intros Hb Ho Hn Hl. pose proof (le_val_range (sub_bytes off n b) (Forall_sub_bytes _ _ _ _ Hb)) as Hr.
  by rewrite zlen_sub_bytes in Hr by done.
Qed.

Lemma parse_crypto_wf b : zlen b = 40 -> Forall is_byte b -> crypto_wf (parse_crypto b).
Proof.
  intros Hz Hb. pose proof (le_val_sub_range 16 8 b Hb) as Hu. pose proof (le_val_sub_range 24 4 b Hb) as Hc.
  change (256 ^ 8) with 18446744073709551616 in Hu. change (256 ^ 4) with 4294967296 in Hc.
  split; cbn [parse_crypto tag c_uid c_client_id iv]; auto with bytes; try (apply zlen_sub_bytes; lia); [lia|apply s32_range; lia].
Qed.

Lemma parse_entry_wf b : zlen b = 32 -> Forall is_byte b -> entry_wf (parse_entry b).
Proof.
  intros Hz Hb. pose proof (le_val_sub_range 16 8 b Hb) as Hu. pose proof (le_val_sub_range 24 4 b Hb) as Hc.
  change (256 ^ 8) with 18446744073709551616 in Hu. change (256 ^ 4) with 4294967296 in Hc.
  split; cbn [parse_entry e_tag e_uid e_client_id e_pad]; auto with bytes; try (apply zlen_sub_bytes; lia); [lia|apply s32_range; lia].
Qed.

Lemma parse_entries_wf n b : zlen b = 32 * Z.of_nat n -> Forall is_byte b ->
  length (parse_entries n b) = n /\ Forall entry_wf (parse_entries n b).
Proof.
  revert b. induction n as [|n IH]; intros b Hz Hb; [done|]. cbn [parse_entries length].
  destruct (IH (sub_bytes 32 (zlen b - 32) b)) as [Hl Hf]; [rewrite zlen_sub_bytes; lia|auto with bytes|].
  split; [by rewrite Hl|]. constructor; [|done]. apply parse_entry_wf; [rewrite zlen_sub_bytes; lia|auto with bytes].
Qed.

Lemma parse_table_typed n b : zlen b = 48 + 32 * Z.of_nat n -> Forall is_byte b -> table_typed n (parse_table n b).
Proof.
  intros Hz Hb. destruct (parse_entries_wf n (sub_bytes 48 (zlen b - 48) b)) as [Hl Hf]; [rewrite zlen_sub_bytes; lia|auto with bytes|].
  split; cbn [parse_table t_crypto t_version t_pad obj_db]; auto with bytes.
  - apply parse_crypto_wf; [apply zlen_sub_bytes; lia|auto with bytes].
  - destruct (nth_in_or_default 40 b 0) as [Hin| ->]; [|done]. rewrite Forall_forall in Hb. apply Hb. by apply list_elem_of_In.
  - apply zlen_sub_bytes; lia.
Qed.

Section boot.
Context {P K : Type} `{PsPower P} `{PsCryptoOps K} `{!PsAead K}.
Context (TFM_SP_PS : Z) (PS_NUM_ASSETS : nat) (PS_MAX_ASSET_SIZE : Z).
Context (Hcfg : ps_config TFM_SP_PS PS_NUM_ASSETS PS_MAX_ASSET_SIZE).
Implicit Types (s : ps_st P) (p : P) (F : files) (t : ps_obj_table_t) (A : assets) (B : Prop) (ot : option ps_obj_table_t).

Abbreviation volume := (volume TFM_SP_PS PS_NUM_ASSETS PS_MAX_ASSET_SIZE).
Abbreviation bootable := (bootable TFM_SP_PS PS_NUM_ASSETS PS_MAX_ASSET_SIZE).
Abbreviation table_ok := (table_ok TFM_SP_PS PS_NUM_ASSETS).
Abbreviation obj_wf := (obj_wf PS_MAX_ASSET_SIZE).
Abbreviation typed := (table_typed (S PS_NUM_ASSETS)).

(** The variables of the partition after a reset hold a table and an object. *)
Record boot_mem s : Prop := {
  bm_table : typed (obj_table s);
  bm_obj : obj_wf (g_ps_object s);
}.

Lemma table_size t : typed t -> zlen (ser_table t) = PS_OBJ_TABLE_SIZE PS_NUM_ASSETS.
Proof. intros Ht. by rewrite (zlen_ser_table _ _ Ht). Qed.

Lemma table_size_pos : 0 < PS_OBJ_TABLE_SIZE PS_NUM_ASSETS.
Proof. unfold PS_OBJ_TABLE_SIZE. lia. Qed.

Lemma with_ref_typed t : typed t -> typed (with_ref TFM_SP_PS t).
Proof.
  intros [[] ?????]. pose proof (pc_client _ _ _ Hcfg). split; cbn [with_ref with_tcrypto t_crypto t_version t_pad obj_db]; try done.
Qed.

Lemma with_ref_id t : table_ok t -> with_ref TFM_SP_PS t = t.
Proof. intros [_ _ Hu Hc]. destruct t as [[tg u c i] ???]. cbn [t_crypto c_uid c_client_id] in Hu, Hc. by subst u c. Qed.

(** ** Reading the tables *)

Lemma wp_read_table_file Q (E : psa_status_t -> ps_st P -> Prop) s F c1 c2 c3 idx old ot :
  live (plat s) F c1 c2 c3 -> typed old -> F !! PS_TABLE_FS_ID idx = ser_table <$> ot ->
  (forall t, ot = Some t -> table_ok t) ->
  (forall t, ot = Some t -> Q t s) -> (forall e, ot = None -> E e s) ->
  wp (read_table_file PS_NUM_ASSETS idx old) Q E s.
Proof.
  intros Hl Hold HF Hok HQ HE. unfold read_table_file. apply wp_bind. pose proof table_size_pos as Hpos.
  eapply wp_get_file; [exact Hl|intros f Hf _|intros e He]; rewrite HF in *; destruct ot as [t|]; try done.
  - injection Hf as <-. pose proof (Hok t eq_refl) as [Ht _ _ _]. rewrite (table_size t Ht), Z.sub_0_r, Z.min_id.
    rewrite <- (table_size t Ht), sub_bytes_all. apply wp_ret. rewrite splice_all by (by rewrite !table_size).
    unfold PS_OBJ_TABLE_ENTRIES. rewrite parse_ser_table by done. by apply HQ.
  - exfalso. destruct He as [?|(f & Hf & He)]; [done|]. injection Hf as <-. pose proof (Hok t eq_refl) as [Ht _ _ _].
    rewrite (table_size t Ht) in He. lia.
  - by apply HE.
Qed.

(** The state of a table read from a file, or of none. *)
Definition read_state ot : ps_obj_table_state := match ot with Some _ => PS_OBJ_TABLE_VALID | None => PS_OBJ_TABLE_INVALID end.
Definition file_state ot (n1 n3 : Z) : ps_obj_table_state :=
  match ot with Some t => ps_object_table_authenticate t n1 n3 | None => PS_OBJ_TABLE_INVALID end.

Record on_disk F (o0 o1 : option ps_obj_table_t) : Prop := {
  od_0 : F !! PS_TABLE_FS_ID PS_OBJ_TABLE_IDX_0 = ser_table <$> o0;
  od_1 : F !! PS_TABLE_FS_ID PS_OBJ_TABLE_IDX_1 = ser_table <$> o1;
  od_ok0 t : o0 = Some t -> table_ok t;
  od_ok1 t : o1 = Some t -> table_ok t;
}.

Lemma wp_read_tables Q (E : psa_status_t -> ps_st P -> Prop) s F c1 c2 c3 o0 o1 tmp :
  live (plat s) F c1 c2 c3 -> typed (obj_table s) -> typed tmp -> on_disk F o0 o1 ->
  Q (InitCtx (default tmp o1) (read_state o0) (read_state o1) 0 0) (put_table (default (obj_table s) o0) s) ->
  wp (ps_object_table_fs_read_table PS_NUM_ASSETS (InitCtx tmp PS_OBJ_TABLE_VALID PS_OBJ_TABLE_VALID 0 0)) Q E s.
Proof.
  intros Hl Hs Htmp [H0f H1f Hok0 Hok1] HQ. unfold ps_object_table_fs_read_table. apply wp_bind, wp_gets, wp_bind, wp_try.
  assert (forall st0, st0 = read_state o0 ->
    wp (let* r1 := try (read_table_file PS_NUM_ASSETS PS_OBJ_TABLE_IDX_1 tmp) in
        match r1 with
        | Ok t => ret (InitCtx t st0 PS_OBJ_TABLE_VALID 0 0)
        | Err _ => ret (InitCtx tmp st0 PS_OBJ_TABLE_INVALID 0 0)
        end) Q E (put_table (default (obj_table s) o0) s)) as Hrest.
  { intros st0 ->. apply wp_bind, wp_try. eapply wp_read_table_file; [exact Hl|exact Htmp|exact H1f|exact Hok1| |].
    - intros t ->. apply wp_ret. exact HQ.
    - intros e ->. apply wp_ret. exact HQ. }
  eapply wp_read_table_file; [exact Hl|exact Hs|exact H0f|exact Hok0| |].
  - intros t ->. apply wp_bind, wp_bind, wp_modify, wp_ret. by apply Hrest.
  - intros e ->. apply wp_bind, wp_ret. replace s with (put_table (obj_table s) s) at 1 by (by destruct s). by apply Hrest.
Qed.

(** ** Authentication *)

Definition usable_nvc3 (c2 c3 : Z) : Z := if negb (c3 =? c2) then PS_INVALID_NVC_VALUE else c3.

Lemma wp_nvc_authenticate Q (E : psa_status_t -> ps_st P -> Prop) s F c1 c2 c3 o0 o1 t0 t1 :
  live (plat s) F c1 c2 c3 -> (forall t, o0 = Some t -> obj_table s = t) -> (forall t, o1 = Some t -> t1 = t) -> t0 = obj_table s ->
  Q (InitCtx t1 (file_state o0 c1 (usable_nvc3 c2 c3)) (file_state o1 c1 (usable_nvc3 c2 c3)) c1 (usable_nvc3 c2 c3)) s ->
  wp (ps_object_table_nvc_authenticate (InitCtx t1 (read_state o0) (read_state o1) 0 0)) Q E s.
Proof.
  intros (Ho & HF & C1 & C2 & C3) H0t H1t -> HQ. unfold ps_object_table_nvc_authenticate.
  do 3 (apply wp_bind, wp_read_counter; [done|]). rewrite C1, C2, C3. apply wp_bind, wp_gets, wp_ret.
  fold (usable_nvc3 c2 c3). cbn [p_table1 table_state0 table_state1].
  assert (forall ot t, (forall t', ot = Some t' -> t = t') ->
    (if decide (read_state ot = PS_OBJ_TABLE_INVALID) then read_state ot
     else ps_object_table_authenticate t c1 (usable_nvc3 c2 c3)) = file_state ot c1 (usable_nvc3 c2 c3)) as Hst.
  { intros [t'|] t Ht; cbn [read_state file_state]; [|done]. rewrite decide_False by done. by rewrite (Ht t'). }
  rewrite !Hst by auto. exact HQ.
Qed.

Lemma authenticate_sealed t c1 n3 : sealed t c1 -> ps_object_table_authenticate t c1 n3 = PS_OBJ_TABLE_NVC_1_VALID.
Proof. intros Hs. unfold ps_object_table_authenticate. by rewrite (sealed_auth _ _ Hs). Qed.

Lemma authenticate_other t n c1 n3 : sealed t n -> le_bytes 4 n <> le_bytes 4 c1 ->
  ps_object_table_authenticate t c1 n3 <> PS_OBJ_TABLE_NVC_1_VALID.
Proof.
  intros Hs Hne. unfold ps_object_table_authenticate. rewrite (sealed_only _ _ _ Hs Hne).
  destruct (n3 =? PS_INVALID_NVC_VALUE); [done|]. by destruct (authenticates t n3).
Qed.

Lemma authenticate_stale t c1 c2 c3 : sealed t c3 -> c2 = c3 -> c3 <> 0 ->
  ps_object_table_authenticate t c1 (usable_nvc3 c2 c3) <> PS_OBJ_TABLE_INVALID.
Proof.
  intros Hs -> Hne. unfold ps_object_table_authenticate, usable_nvc3. rewrite Z.eqb_refl. cbn [negb].
  destruct (authenticates t c1); [done|]. unfold PS_INVALID_NVC_VALUE. rewrite (proj2 (Z.eqb_neq c3 0)) by done.
  by rewrite (sealed_auth _ _ Hs).
Qed.

(** ** Selecting and mounting *)

(** The states of the tables select the one in file [a]. *)
Definition selects (a : Z) (st0 st1 : ps_obj_table_state) : Prop :=
  a = 0 /\ st0 <> PS_OBJ_TABLE_INVALID /\ st1 <> PS_OBJ_TABLE_NVC_1_VALID \/
  a = 1 /\ st1 <> PS_OBJ_TABLE_INVALID /\ (st0 = PS_OBJ_TABLE_INVALID \/ st1 = PS_OBJ_TABLE_NVC_1_VALID).

Lemma wp_set_active Q (E : psa_status_t -> ps_st P -> Prop) s a c t ctx :
  selects a (table_state0 ctx) (table_state1 ctx) -> other_tables a c ->
  t = (if a =? 0 then obj_table s else p_table1 ctx) ->
  Q tt (put_table t (put_tables a c s)) -> wp (ps_set_active_object_table ctx) Q E s.
Proof.
  intros Hsel Hac -> HQ. unfold ps_set_active_object_table, PS_OBJ_TABLE_IDX_0, PS_OBJ_TABLE_IDX_1.
  destruct Hsel as [(-> & Hs0 & Hs1)|(-> & Hs1 & Hs)]; destruct Hac as [[? ->]|[? ->]]; try done; cbn [Z.eqb] in HQ.
  - rewrite decide_False by done. replace (put_table (obj_table s) (put_tables 0 1 s)) with (put_tables 0 1 s) in HQ by (by destruct s).
    destruct (decide _); [by apply wp_modify|]. rewrite decide_False by done. by apply wp_modify.
  - destruct (decide (table_state0 ctx = _)) as [|Hne].
    + rewrite decide_False by done. by apply wp_bind, wp_modify, wp_modify.
    + destruct Hs as [?|Hs]; [done|]. rewrite decide_False by done. rewrite decide_True by done. by apply wp_bind, wp_modify, wp_modify.
Qed.

(** What start-up knows about the selected table. *)
Record chosen F (c1 c2 c3 a c : Z) t A : Prop := {
  ch_idx : other_tables a c;
  ch_table : table_ok t;
  ch_stored : F !! PS_TABLE_FS_ID a = Some (ser_table t);
  ch_assets : represents PS_MAX_ASSET_SIZE F t A;
  ch_2 : c2 <= c1;
  ch_3 : c3 <= c1;
  ch_1 : 0 < c1;
  ch_sealed : c1 = c3 -> sealed t c1;
}.

Lemma wp_mount Q (E : psa_status_t -> ps_st P -> Prop) s F c1 c2 c3 t A :
  chosen F c1 c2 c3 (active_table s) (scratch_table s) t A -> obj_table s = t -> obj_wf (g_ps_object s) ->
  live (plat s) F c1 c2 c3 ->
  (forall s' F', volume (sealed (obj_table s') c1) s' F' c1 A -> (c1 = c3 -> sealed (obj_table s') c1) -> Q tt s') ->
  (forall e s', off s' -> E e s') ->
  wp (let* s := get in
      let* _ := remove_if_exists (PS_TABLE_FS_ID (scratch_table s)) in
      let* _ := ps_object_table_align_nv_counters c1 in
      let* t := gets obj_table in
      ps_crypto_set_iv (t_crypto t)) Q E s.
Proof.
  intros [Hx Ht Hs Ha H2c H3c H1c Hse] <- Ho Hl HQ HE. pose proof (tables_ne _ _ Hx) as Hne.
  apply wp_bind. change (wp get) with (wp (S := ps_st P) (gets id)). apply wp_gets. unfold id at 1.
  assert (forall p' F', live p' F' c1 c2 c3 -> F' = delete (PS_TABLE_FS_ID (scratch_table s)) F ->
    wp (let* _ := ps_object_table_align_nv_counters c1 in
        let* t := gets obj_table in ps_crypto_set_iv (t_crypto t)) Q E (put_plat p' s)) as Hrest.
  { intros p' F' Hl' ->. apply wp_bind.
    eapply wp_align; [exact Hl'|done|done|intros p2 Hl2|intros e p2 x y Hl2 _ _ _; apply HE, Hl2].
    apply wp_bind, wp_gets. unfold ps_crypto_set_iv. apply wp_modify.
    apply (HQ _ (delete (PS_TABLE_FS_ID (scratch_table s)) F)); [|exact Hse].
    split_and!; [|split; [exact Hl2| |exact Ho]|done].
    - split; cbn [active_table scratch_table obj_table put_iv put_plat]; try done; [by rewrite lookup_delete_ne|apply lookup_delete_eq|].
      eapply represents_frame; [exact Ht| |exact Ha]. intros i Hi. rewrite lookup_delete_ne; [done|].
      by eapply table_not_object; [exact Hcfg|apply other_tables_sym|].
    - pose proof (tk_typed _ _ _ Ht) as [[] _ _ _ _ _]. by split. }
  apply wp_bind. unfold remove_if_exists. apply wp_bind, wp_try.
  eapply wp_remove_file; [exact Hl|intros p' _ Hl'|intros HN|intros e p' F' Hne' Hl' _].
  - apply wp_ret. by apply (Hrest p' _ Hl').
  - apply wp_check; [intros _|done]. apply (Hrest _ F Hl). symmetry. by apply delete_id.
  - apply wp_check; [intros Heq; apply Z.eqb_eq in Heq; done|intros _]. apply HE, Hl'.
Qed.

(** Files and counters that start-up accepts determine the table. *)
Lemma bootable_selects F c1 c2 c3 A : bootable F c1 c2 c3 A -> exists a c t o0 o1,
  chosen F c1 c2 c3 a c t A /\ on_disk F o0 o1 /\ (if a =? 0 then o0 else o1) = Some t /\
  selects a (file_state o0 c1 (usable_nvc3 c2 c3)) (file_state o1 c1 (usable_nvc3 c2 c3)).
Proof.
  intros (a & c & t & Hx & Ht & Hs & Ha & H2c & H3c & H1c & Hcase).
  assert (chosen F c1 c2 c3 a c t A) as Hch.
  { split; try done. intros ->. by destruct Hcase as [[? _]|(_ & ? & _)]. }
  assert (exists oc, F !! PS_TABLE_FS_ID c = ser_table <$> oc /\ (forall t', oc = Some t' -> table_ok t') /\
    file_state (Some t) c1 (usable_nvc3 c2 c3) <> PS_OBJ_TABLE_INVALID /\
    (oc = None \/ file_state (Some t) c1 (usable_nvc3 c2 c3) = PS_OBJ_TABLE_NVC_1_VALID /\
       file_state oc c1 (usable_nvc3 c2 c3) <> PS_OBJ_TABLE_NVC_1_VALID)) as (oc & Hoc & Hok & Hva & Hvc).
  { destruct Hcase as [[Hse [HN|(t' & n & Ht' & Hs' & Hse' & Hne)]]|(HN & Hse & Heq & Hnz)].
    - exists None. split_and!; [done|done| |by left]. cbn [file_state]. by rewrite authenticate_sealed.
    - exists (Some t'). split_and!; [done|by intros ? [= <-]| |right]; cbn [file_state]; rewrite (authenticate_sealed t) by done; [done|].
      split; [done|]. by eapply authenticate_other.
    - exists None. split_and!; [done|done| |by left]. cbn [file_state]. by apply authenticate_stale. }
  assert (forall oc', oc' = None -> file_state oc' c1 (usable_nvc3 c2 c3) = PS_OBJ_TABLE_INVALID) as HNone by (by intros ? ->).
  destruct Hx as [[-> ->]|[-> ->]].
  - exists 0, 1, t, (Some t), oc. split_and!; try done.
    + split; [done|done|by intros ? [= <-]|done].
    + left. split_and!; [done|done|]. destruct Hvc as [->|[_ ?]]; done.
  - exists 1, 0, t, oc, (Some t). split_and!; try done.
    + split; [done|done|done|by intros ? [= <-]].
    + right. split_and!; [done|done|]. destruct Hvc as [->|[? _]]; [by left|by right].
Qed.

(** The second half of [ps_object_table_init]. *)
Definition select_and_mount (c : ps_obj_table_init_ctx_t) : M (ps_st P) unit :=
  let* _ := ps_set_active_object_table c in
  let* s := get in
  let* _ := remove_if_exists (PS_TABLE_FS_ID (scratch_table s)) in
  let* _ := ps_object_table_align_nv_counters (nvc_1 c) in
  let* t := gets obj_table in
  ps_crypto_set_iv (t_crypto t).

(** The first half: reading and judging the tables. *)
Lemma wp_judge Q (E : psa_status_t -> ps_st P -> Prop) s F c1 c2 c3 o0 o1 :
  boot_mem s -> live (plat s) F c1 c2 c3 -> on_disk F o0 o1 ->
  (forall s1 t1, boot_mem s1 -> plat s1 = plat s -> ps_crypto_iv_buf s1 = ps_crypto_iv_buf s ->
     (forall t, o0 = Some t -> obj_table s1 = t) -> (forall t, o1 = Some t -> t1 = t) ->
     wp (select_and_mount (InitCtx t1 (file_state o0 c1 (usable_nvc3 c2 c3)) (file_state o1 c1 (usable_nvc3 c2 c3)) c1 (usable_nvc3 c2 c3))) Q E s1) ->
  wp (ps_object_table_init TFM_SP_PS PS_NUM_ASSETS) Q E s.
Proof.
  intros [Hmt Hmo] Hl Hod HQ.
  pose proof (max_bounds _ _ _ Hcfg) as Hmb. pose proof (pc_table _ _ _ Hcfg) as Hsz. pose proof table_size_pos as Hpos.
  pose proof Hmo as [_ _ _ Hzb Hbb]. unfold INFO_SIZE, PS_TAG_LEN_BYTES in Hzb.
  unfold ps_object_table_init. apply wp_bind, wp_gets.
  set (tmp := parse_table (PS_OBJ_TABLE_ENTRIES PS_NUM_ASSETS) (sub_bytes INFO_SIZE (PS_OBJ_TABLE_SIZE PS_NUM_ASSETS) (o_body (g_ps_object s)))).
  assert (typed tmp) as Htmp.
  { apply parse_table_typed; [rewrite zlen_sub_bytes; unfold INFO_SIZE; done || lia|auto with bytes]. }
  apply wp_bind. eapply wp_read_tables; [exact Hl|exact Hmt|exact Htmp|exact Hod|].
  apply wp_bind, wp_modify. cbn [p_table1 table_state0 table_state1 nvc_1 nvc_3].
  set (t0 := with_ref TFM_SP_PS (default (obj_table s) o0)). set (t1 := with_ref TFM_SP_PS (default tmp o1)).
  pose proof Hod as [_ _ Hok0 Hok1].
  assert (typed t0 /\ typed t1) as [Ht0 Ht1].
  { split; apply with_ref_typed; [destruct o0 as [x|]|destruct o1 as [x|]]; cbn [default]; try done; [by destruct (Hok0 x)|by destruct (Hok1 x)]. }
  assert (forall x, o0 = Some x -> t0 = x) as He0 by (intros x ->; apply with_ref_id; auto).
  assert (forall x, o1 = Some x -> t1 = x) as He1 by (intros x ->; apply with_ref_id; auto).
  apply wp_bind, wp_modify. set (o := with_body (g_ps_object s) _).
  assert (obj_wf o) as Ho.
  { apply splice_wf; [exact Hmo|by eapply ser_table_bytes|unfold INFO_SIZE; lia|]. rewrite table_size by done. unfold INFO_SIZE. lia. }
  set (s1 := put_obj o _). assert (obj_table s1 = t0) as Hs1 by done. clearbody t0 t1 o.
  apply wp_bind. eapply wp_nvc_authenticate; [exact Hl|rewrite Hs1; exact He0|exact He1|done|].
  unfold ps_object_table_validate_version. apply wp_bind, wp_bind, wp_gets, wp_ret.
  cbn [p_table1 table_state0 table_state1 nvc_1 nvc_3]. rewrite Hs1.
  assert (forall ot x, (forall y, ot = Some y -> table_ok y) -> (forall y, ot = Some y -> x = y) ->
    (if t_version x =? PS_OBJECT_SYSTEM_VERSION then file_state ot c1 (usable_nvc3 c2 c3) else PS_OBJ_TABLE_INVALID)
    = file_state ot c1 (usable_nvc3 c2 c3)) as Hver.
  { intros [y|] x Hok Hx; [|cbn [file_state]; by destruct (t_version x =? PS_OBJECT_SYSTEM_VERSION)].
    rewrite (Hx y eq_refl), (tk_version _ _ _ (Hok y eq_refl)). by rewrite Z.eqb_refl. }
  rewrite !Hver by done. apply (HQ s1 t1); [split; [by rewrite Hs1|exact Ho]|done|done|by rewrite Hs1|done].
Qed.

Lemma wp_init Q (E : psa_status_t -> ps_st P -> Prop) s F c1 c2 c3 A :
  boot_mem s -> live (plat s) F c1 c2 c3 -> bootable F c1 c2 c3 A ->
  (forall s' F', volume (sealed (obj_table s') c1) s' F' c1 A -> (c1 = c3 -> sealed (obj_table s') c1) -> Q tt s') ->
  (forall e s', off s' -> E e s') ->
  wp (ps_object_table_init TFM_SP_PS PS_NUM_ASSETS) Q E s.
Proof.
  intros Hm Hl Hb HQ HE. destruct (bootable_selects _ _ _ _ _ Hb) as (a & c & t & o0 & o1 & Hch & Hod & Hta & Hsel).
  eapply wp_judge; [exact Hm|exact Hl|exact Hod|]. intros s1 t1 [_ Hmo] Hp1 _ He0 He1. apply wp_bind.
  assert (t = if a =? 0 then obj_table s1 else t1) as Htt by (destruct (a =? 0); symmetry; auto).
  eapply (wp_set_active _ _ _ a c t); cbn [table_state0 table_state1 p_table1]; [exact Hsel|apply Hch|exact Htt|].
  cbn [nvc_1]. rewrite <- Hp1 in Hl. by eapply wp_mount.
Qed.

(** ** An empty store *)

(** Without a table, start-up fails and leaves the platform as it was. *)
Lemma wp_init_blank Q (E : psa_status_t -> ps_st P -> Prop) s F c1 c2 c3 :
  boot_mem s -> live (plat s) F c1 c2 c3 -> on_disk F None None ->
  (forall s', boot_mem s' -> plat s' = plat s -> ps_crypto_iv_buf s' = ps_crypto_iv_buf s -> E PSA_ERROR_GENERIC_ERROR s') ->
  wp (ps_object_table_init TFM_SP_PS PS_NUM_ASSETS) Q E s.
Proof.
  intros Hm Hl Hod HE. eapply wp_judge; [exact Hm|exact Hl|exact Hod|]. intros s1 t1 Hm1 Hp1 Hi1 _ _.
  apply wp_bind. unfold ps_set_active_object_table. cbn [table_state0 table_state1 file_state].
  rewrite !decide_True by done. by apply wp_fail, HE.
Qed.

Definition empty_table : ps_obj_table_t :=
  Table (set_ref PS_OBJ_TABLE_UID TFM_SP_PS crypto_zero) PS_OBJECT_SYSTEM_VERSION (fill 7 0) (replicate (S PS_NUM_ASSETS) entry_zero).

Lemma empty_table_ok : table_ok empty_table.
Proof.
  pose proof (pc_client _ _ _ Hcfg). split; [|done..]. split; cbn [empty_table t_crypto t_version t_pad obj_db].
  - split; cbn [set_ref crypto_zero tag iv c_uid c_client_id]; try done; by apply Forall_fill.
  - done.
  - done.
  - by apply Forall_fill.
  - apply length_replicate.
  - apply Forall_replicate, entry_zero_wf.
Qed.

Lemma empty_represents F t : obj_db t = obj_db empty_table -> represents PS_MAX_ASSET_SIZE F t ∅.
Proof.
  intros Hdb. assert (forall i e, obj_db t !! i = Some e -> ~ used e) as Hno.
  { intros i e He. rewrite Hdb in He. apply lookup_replicate in He as [-> _]. apply entry_zero_free. }
  split.
  - intros i e He Hu. by destruct (Hno i e He).
  - by intros.
  - intros i j e e' He _ Hu. by destruct (Hno i e He).
Qed.

(** Making an empty store and mounting it. *)
Lemma wp_wipe_and_mount Q (E : psa_status_t -> ps_st P -> Prop) s F v :
  obj_wf (g_ps_object s) -> live (plat s) F v v v -> 0 <= v -> iv_ok (ps_crypto_iv_buf s) -> le_val (ps_crypto_iv_buf s) + 1 < 2 ^ 96 ->
  on_disk F None None ->
  (forall s' F', volume True s' F' (v + 1) ∅ -> Q tt s') -> (forall e s', off s' -> E e s') ->
  wp (let* _ := ps_system_wipe_all TFM_SP_PS PS_NUM_ASSETS in ps_system_prepare TFM_SP_PS PS_NUM_ASSETS) Q E s.
Proof.
  intros Ho Hl Hv Hiv Hlt [H0f H1f _ _] HQ HE. unfold ps_system_wipe_all, ps_object_table_create.
  apply wp_bind, wp_bind, wp_modify, wp_bind, wp_modify. change (Table _ _ _ _) with empty_table.
  eapply wp_save; [exact Hl|exact empty_table_ok|exact Hiv|exact Hlt| |].
  2:{ intros e s' Hcut. apply HE. by destruct Hcut as [[]|[[]|(? & ? & ? & _ & [] & _)]]. }
  cbn [scratch_table active_table put_tables]. intros p' t' b (Ht' & (_ & _ & Hdb & _) & Hse) Hb _ _ Hl'.
  set (s1 := put_tables _ _ _). unfold ps_system_prepare.
  eapply (wp_init _ _ s1 _ _ _ _ ∅); [|exact Hl'| | |exact HE].
  - split; [apply Ht'|exact Ho].
  - exists 0, 1, t'. split_and!; try done; try lia; [by left|apply lookup_insert_eq|by apply empty_represents|].
    left. split; [done|]. left. rewrite lookup_insert_ne by done. exact H1f.
  - intros s' F' Hvol Hse'. apply (HQ s' F'). destruct Hvol as (Hd & Hr & _). split_and!; [done|done|auto].
Qed.
End boot.
