(* ===== verification/PsDemo.v ===== *)
(** * Concrete instances of protected storage

    A platform with a map of files and three counters, which loses power after
    a number of changes and, in one variant, has room for a number of bytes
    only and refuses a file that does not fit; and an AEAD whose tag is a
    polynomial hash of its inputs.  The platform, in all variants, and the AEAD
    satisfy the laws of [PsLaws]. *)

From S2P Require Import Prelude Bytes PsTypes PsCrypto PsTable PsObject PsLaws.
From stdpp Require Import base list numbers gmap.
From Stdlib Require Import ZArith Lia.

Open Scope Z_scope.
Open Scope tfm_scope.

(** [limited]: whether the space is limited to [pr_space] bytes; [mains]:
    whether power is never lost; [pr_full]: whether a file did not fit since
    the last reset. *)
Record ps_ram (limited mains : bool) : Type := PsRam {
  pr_files : gmap Z (list Z);
  pr_1 : Z;
  pr_2 : Z;
  pr_3 : Z;
  pr_left : nat;
  pr_space : Z;
  pr_full : bool;
}.
Arguments PsRam {limited mains}.
Arguments pr_files {limited mains}.
Arguments pr_1 {limited mains}.
Arguments pr_2 {limited mains}.
Arguments pr_3 {limited mains}.
Arguments pr_left {limited mains}.
Arguments pr_space {limited mains}.
Arguments pr_full {limited mains}.

Section ram.
Context {limited mains : bool}.
Abbreviation ram := (ps_ram limited mains).

Definition pr_counter (c : tfm_nv_counter_t) (p : ram) : Z :=
  match c with TFM_PS_NV_COUNTER_1 => pr_1 p | TFM_PS_NV_COUNTER_2 => pr_2 p | TFM_PS_NV_COUNTER_3 => pr_3 p end.

Definition pr_incr (c : tfm_nv_counter_t) (p : ram) : ram :=
  match c with
  | TFM_PS_NV_COUNTER_1 => PsRam (pr_files p) (pr_1 p + 1) (pr_2 p) (pr_3 p) (pr_left p) (pr_space p) (pr_full p)
  | TFM_PS_NV_COUNTER_2 => PsRam (pr_files p) (pr_1 p) (pr_2 p + 1) (pr_3 p) (pr_left p) (pr_space p) (pr_full p)
  | TFM_PS_NV_COUNTER_3 => PsRam (pr_files p) (pr_1 p) (pr_2 p) (pr_3 p + 1) (pr_left p) (pr_space p) (pr_full p)
  end.

Definition pr_put (f : gmap Z (list Z)) (p : ram) : ram := PsRam f (pr_1 p) (pr_2 p) (pr_3 p) (pr_left p) (pr_space p) (pr_full p).
Definition pr_tick (n : nat) (p : ram) : ram := PsRam (pr_files p) (pr_1 p) (pr_2 p) (pr_3 p) n (pr_space p) (pr_full p).

Definition pr_refuse (b : bool) (p : ram) : ram := PsRam (pr_files p) (pr_1 p) (pr_2 p) (pr_3 p) (pr_left p) (pr_space p) b.

(** The bytes in use. *)
Definition pr_used (f : gmap Z (list Z)) : Z := map_fold (fun _ d n => zlen d + n) 0 f.

(** Without mains, [pr_left - 1] changes happen; the next one fails and power
    is off. *)
Definition powered {A} (m : M ram A) : M ram A :=
  fun p => if mains then m p
           else match pr_left p with
                | S (S n) => m (pr_tick (S n) p)
                | _ => (Err PSA_ERROR_HARDWARE_FAILURE, pr_tick 0 p)
                end.

#[export] Instance ps_ram_plat : PsPlat ram := {
  psa_its_set uid d := powered (fun p =>
    let f := <[uid := d]> (pr_files p) in
    if limited && (pr_used f >? pr_space p) then (Err PSA_ERROR_INSUFFICIENT_STORAGE, pr_refuse true p) else (Ok tt, pr_put f p));
  psa_its_get uid off n := fun p =>
    match pr_files p !! uid with
    | None => (Err PSA_ERROR_DOES_NOT_EXIST, p)
    | Some d =>
        if off >? zlen d then (Err PSA_ERROR_INVALID_ARGUMENT, p)
        else (Ok (sub_bytes off (Z.min n (zlen d - off)) d), p)
    end;
  psa_its_remove uid := fun p =>
    match pr_files p !! uid with
    | None => (Err PSA_ERROR_DOES_NOT_EXIST, p)
    | Some _ => powered (fun p => (Ok tt, pr_put (delete uid (pr_files p)) p)) p
    end;
  tfm_platform_nv_counter_read c := fun p => (Ok (pr_counter c p), p);
  tfm_platform_nv_counter_increment c := powered (fun p => (Ok tt, pr_incr c p));
}.
End ram.

Section power.
Context {limited mains : bool}.
Abbreviation ram := (ps_ram limited mains).

Definition pr_mode (p : ram) : ps_mode :=
  if pr_full p then Faulted else if mains then Working else match pr_left p with O => PowerLost | S _ => Working end.

Abbreviation after := (after_failure pr_mode pr_files (fun p c => pr_counter c p)).

(** A change that keeps the number of changes left and, once a file did not
    fit, the note of it. *)
Definition modest {A} (m : M ram A) : Prop :=
  forall p, pr_left (snd (m p)) = pr_left p /\ (pr_full p = true -> pr_full (snd (m p)) = true).

Lemma powered_after {A} (m : M ram A) p : modest m -> after p (snd (powered m p)).
Proof.
  unfold modest, after_failure, pr_mode, powered. intros Hm Ho. destruct (pr_full p) eqn:Hf.
  - destruct mains; [destruct (Hm p) as [_ Hk]; by rewrite (Hk Hf)|].
    destruct (pr_left p) as [|[|n]]; cbn [snd pr_full pr_tick]; [by rewrite Hf..|].
    destruct (Hm (pr_tick (S n) p)) as [_ Hk]. by rewrite (Hk Hf).
  - destruct mains; [done|]. destruct (pr_left p) as [|n]; [|done]. cbn. by rewrite Hf.
Qed.

(** A change while the platform works: power is lost before it, or it is
    made. *)
Lemma powered_run {A} (m : M ram A) p r p' : pr_mode p = Working -> powered m p = (r, p') ->
  r = Err PSA_ERROR_HARDWARE_FAILURE /\ pr_mode p' = PowerLost /\ p' = pr_tick 0 p \/
  exists n, (mains = false -> n <> 0%nat) /\ pr_full (pr_tick n p) = false /\ m (pr_tick n p) = (r, p').
Proof.
  unfold pr_mode, powered. destruct (pr_full p) eqn:Hf; [done|]. intros Ho. destruct mains.
  - intros Hr. right. exists (pr_left p). split; [done|]. split; [done|]. by destruct p.
  - destruct (pr_left p) as [|[|n]]; [done| |]; intros Hr.
    + injection Hr as <- <-. left. split_and!; [done| |done]. cbn. by rewrite Hf.
    + right. by exists (S n).
Qed.

Lemma mode_working (p : ram) : pr_full p = false -> (mains = false -> pr_left p <> 0%nat) -> pr_mode p = Working.
Proof. unfold pr_mode. intros -> Hl. destruct mains; [done|]. destruct (pr_left p); [by destruct Hl|done]. Qed.

Lemma mode_faulted (p : ram) : pr_full p = true -> pr_mode p = Faulted.
Proof. unfold pr_mode. by intros ->. Qed.

#[export] Program Instance ps_ram_power : PsPower ram := {
  pl_files p := pr_files p;
  pl_ctr p := fun c => pr_counter c p;
  pl_mode := pr_mode;
}.
Next Obligation.
  intros uid off n p r p' _. cbn. destruct (pr_files p !! uid) as [d|] eqn:Hf.
  - destruct (Z.gtb_spec off (zlen d)); intros [= <- <-]; (split; [done|]).
    + split; [done|right]. exists d. split; [done|by left].
    + exists d. split; [done|]. split; [lia|done].
  - intros [= <- <-]. split; [done|]. split; [done|by left].
Qed.
Next Obligation.
  intros uid d p r p' Ho Hr. destruct (powered_run _ _ _ _ Ho Hr) as [(-> & Hm & ->)|(n & Hn & Hf & Hr')].
  - right. split; [done|]. split; [done|by left].
  - cbv beta zeta in Hr'. destruct (_ && _); injection Hr' as <- <-.
    + left. by apply mode_faulted.
    + split; [by apply mode_working|done].
Qed.
Next Obligation.
  intros uid p r p' Ho. cbn. destruct (pr_files p !! uid) as [d|] eqn:Hf.
  - intros Hr. destruct (powered_run _ _ _ _ Ho Hr) as [(-> & Hm & ->)|(n & Hn & Hfu & Hr')].
    + right. split; [done|]. right. split; [done|]. split; [done|by left].
    + injection Hr' as <- <-. split; [by eexists|]. split; [by apply mode_working|done].
  - intros [= <- <-]. by left.
Qed.
Next Obligation. done. Qed.
Next Obligation.
  intros c p r p' Ho Hr others. destruct (powered_run _ _ _ _ Ho Hr) as [(-> & Hm & ->)|(n & Hn & Hfu & Hr')].
  - right. split; [done|]. split; [done|by left].
  - injection Hr' as <- <-. split; [apply mode_working; by destruct c|]. destruct c; (split; [split; [done|by intros []]|done]).
Qed.
Next Obligation. intros uid off n p Ho. cbn. destruct (pr_files p !! uid); [|done]. by destruct (_ >? _). Qed.
Next Obligation. intros uid d p. apply powered_after. intros q. cbv beta zeta. by destruct (_ && _). Qed.
Next Obligation. intros uid p. cbn. destruct (pr_files p !! uid); [by apply powered_after|done]. Qed.
Next Obligation. done. Qed.
Next Obligation. intros c p. apply powered_after. intros q. by destruct c. Qed.
End power.

#[export] Instance ps_ram_always : PsAlways (ps_ram false true).
Proof.
  split; intros; cbn; try done.
  - by destruct (pr_files p !! uid).
  - by destruct c.
Qed.

(** A polynomial hash of 16 bytes. *)
Definition toy_hash (l : list Z) : list Z :=
  le_bytes 16 (foldl (fun h b => (h * 65599 + b + 1) mod 2 ^ 128) 7 l).

Definition toy_tag (k iv ad pt : list Z) : list Z := toy_hash (k ++ iv ++ le_bytes 4 (zlen ad) ++ ad ++ pt).

Definition toy_decrypt (k iv ad ct : list Z) : option (list Z) :=
  if zlen ct <? 16 then None
  else
    let pt := sub_bytes 0 (zlen ct - 16) ct in
    if decide (toy_tag k iv ad pt = sub_bytes (zlen ct - 16) 16 ct) then Some pt else None.

#[export] Instance toy_crypto : PsCryptoOps (list Z) := {
  ps_crypto_setkey l := inr l;
  psa_aead_encrypt k iv ad pt := Some (pt ++ toy_tag k iv ad pt);
  psa_aead_decrypt := toy_decrypt;
  psa_destroy_key _ := PSA_SUCCESS;
}.

Definition toy_step (h b : Z) : Z := (h * 65599 + b + 1) mod 2 ^ 128.

Lemma toy_hash_foldl l : toy_hash l = le_bytes 16 (foldl toy_step 7 l).
Proof. done. Qed.

Lemma foldl_step_app h l w : foldl toy_step h (l ++ w) = foldl toy_step (foldl toy_step h l) w.
Proof. apply foldl_app. Qed.

Lemma toy_step_inj (h a0 a1 a2 a3 b0 b1 b2 b3 : Z) :
  is_byte a0 -> is_byte a1 -> is_byte a2 -> is_byte a3 -> is_byte b0 -> is_byte b1 -> is_byte b2 -> is_byte b3 ->
  foldl toy_step h [a0; a1; a2; a3] = foldl toy_step h [b0; b1; b2; b3] -> [a0; a1; a2; a3] = [b0; b1; b2; b3].
Proof.
  unfold is_byte. intros ????????. cbn [foldl]. unfold toy_step. change (2 ^ 128) with 340282366920938463463374607431768211456.
  set (m := 340282366920938463463374607431768211456).
  assert (forall x a : Z, ((x mod m) * 65599 + a + 1) mod m = (x * 65599 + a + 1) mod m) as Hm.
  { intros x a. pose proof (Z.div_mod x m) as Hd. assert (m <> 0) as Hm0 by (unfold m; lia). specialize (Hd Hm0).
    replace (x * 65599 + a + 1) with (x mod m * 65599 + a + 1 + (x / m * 65599) * m) by lia. by rewrite Z.mod_add. }
  rewrite (Hm (h * 65599 + a0 + 1)), (Hm (h * 65599 + b0 + 1)).
  rewrite (Hm ((h * 65599 + a0 + 1) * 65599 + a1 + 1)), (Hm ((h * 65599 + b0 + 1) * 65599 + b1 + 1)).
  rewrite (Hm (((h * 65599 + a0 + 1) * 65599 + a1 + 1) * 65599 + a2 + 1)), (Hm (((h * 65599 + b0 + 1) * 65599 + b1 + 1) * 65599 + b2 + 1)).
  intros Heq.
  pose proof (Z.div_mod ((((h * 65599 + a0 + 1) * 65599 + a1 + 1) * 65599 + a2 + 1) * 65599 + a3 + 1) m) as Ha.
  pose proof (Z.div_mod ((((h * 65599 + b0 + 1) * 65599 + b1 + 1) * 65599 + b2 + 1) * 65599 + b3 + 1) m) as Hb.
  rewrite Heq in Ha. assert (m <> 0) as Hm0 by (unfold m; lia). specialize (Ha Hm0). specialize (Hb Hm0).
  set (qa := _ / m) in Ha. set (qb := _ / m) in Hb. assert (qa = qb) as Hq by (unfold m in *; lia).
  rewrite Hq in Ha. assert (a0 = b0 /\ a1 = b1 /\ a2 = b2 /\ a3 = b3) as (-> & -> & -> & ->) by lia. done.
Qed.

Lemma toy_hash_word x n m : toy_hash (x ++ le_bytes 4 n) = toy_hash (x ++ le_bytes 4 m) -> le_bytes 4 n = le_bytes 4 m.
Proof.
  rewrite !toy_hash_foldl, !foldl_app. set (h := foldl toy_step 7 x). intros Heq. apply (f_equal le_val) in Heq.
  assert (forall h' l, l <> [] -> 0 <= foldl toy_step h' l < 2 ^ 128) as Hr.
  { intros h' l. revert h'. induction l as [|b l IH]; intros h' Hne; [done|]. cbn [foldl]. destruct l as [|c l]; [|by apply IH].
    cbn [foldl]. apply Z.mod_pos_bound. lia. }
  rewrite !le_val_le_bytes in Heq by (by apply Hr).
  pose proof (le_bytes_is_byte 4 n) as Hn. pose proof (le_bytes_is_byte 4 m) as Hm.
  pose proof (length_le_bytes 4 n) as Ln. pose proof (length_le_bytes 4 m) as Lm.
  destruct (le_bytes 4 n) as [|a0 [|a1 [|a2 [|a3 []]]]]; try done. destruct (le_bytes 4 m) as [|b0 [|b1 [|b2 [|b3 []]]]]; try done.
  rewrite !Forall_cons in Hn, Hm.
  destruct Hn as (? & ? & ? & ? & _), Hm as (? & ? & ? & ? & _). by apply (toy_step_inj h).
Qed.

Lemma zlen_toy_tag k iv ad pt : zlen (toy_tag k iv ad pt) = 16.
Proof. apply zlen_le_bytes. Qed.

Lemma toy_decrypt_encrypt k iv ad pt : toy_decrypt k iv ad (pt ++ toy_tag k iv ad pt) = Some pt.
Proof.
  pose proof (zlen_toy_tag k iv ad pt) as Hg. pose proof (zlen_nonneg pt). unfold toy_decrypt. rewrite zlen_app, Hg.
  rewrite (proj2 (Z.ltb_ge _ _)) by lia. replace (zlen pt + 16 - 16) with (zlen pt) by lia.
  rewrite (sub_app_l (zlen pt)), (sub_app_tail (zlen pt) 16) by done. by rewrite decide_True.
Qed.

Lemma toy_decrypt_len k iv ad ct pt : toy_decrypt k iv ad ct = Some pt -> zlen ct = zlen pt + PS_TAG_LEN_BYTES.
Proof.
  unfold toy_decrypt. destruct (Z.ltb_spec (zlen ct) 16); [done|]. destruct (decide _); [|done]. intros [= <-].
  rewrite zlen_sub_bytes by lia. unfold PS_TAG_LEN_BYTES. lia.
Qed.

Lemma toy_decrypt_word k iv ad n m pt : toy_decrypt k iv (ad ++ le_bytes 4 m) (toy_tag k iv (ad ++ le_bytes 4 n) []) = Some pt ->
  le_bytes 4 n = le_bytes 4 m.
Proof.
  pose proof (zlen_toy_tag k iv (ad ++ le_bytes 4 n) []) as Hg. unfold toy_decrypt. rewrite Hg. change (16 <? 16) with false.
  change (16 - 16) with 0. rewrite sub_bytes_0. destruct (decide _) as [Heq|]; [|done]. intros _.
  rewrite <- Hg, sub_bytes_all in Heq. unfold toy_tag in Heq. rewrite !app_nil_r, !zlen_app, !zlen_le_bytes, !app_assoc in Heq.
  symmetry. by eapply toy_hash_word.
Qed.

#[export] Instance toy_aead : PsAead (list Z).
Proof.
  split.
  - intros l. by exists l.
  - done.
  - intros k iv ad pt Hb. exists (pt ++ toy_tag k iv ad pt). split; [done|]. split; [by rewrite zlen_app, zlen_toy_tag|].
    apply Forall_app_2; [done|]. apply le_bytes_is_byte.
  - intros k iv ad pt ct [= <-]. apply toy_decrypt_encrypt.
  - apply toy_decrypt_len.
  - intros k iv ad n m g pt [= <-]. apply toy_decrypt_word.
Qed.

(** Two assets of at most 144 bytes; the partition is client 100. *)
Definition demo_sp : Z := 100.
Definition demo_assets : nat := 2.
Definition demo_max : Z := 144.

Section demo.
Context {limited mains : bool}.
Abbreviation st := (ps_st (ps_ram limited mains)).

Definition ps_off (p : ps_ram limited mains) : st :=
  PsSt p (table_zero 3) 0 0 (object_zero demo_max) 0 (fill 12 0) [] [].

(** A reset: the files and counters survive, power is back. *)
Definition reset (s : st) : st := ps_off (pr_refuse false (pr_tick 1000 (plat s))).

Definition boot (s : st) : res unit * st := tfm_ps_init demo_sp demo_assets true s.
Definition boot_keep (s : st) : res unit * st := tfm_ps_init demo_sp demo_assets false s.

Definition with_vecs (iv : list (list Z)) (s : st) : st := put_out [[]; []; []; []] (put_in iv s).

Definition do_set (client uid : Z) (d : list Z) (fl : Z) (s : st) : res unit * st :=
  tfm_ps_set demo_max client uid (zlen d) fl (with_vecs [[]; d; []; []] s).
Definition do_get (client uid : Z) (s : st) : res (list Z) * st :=
  let '(r, s') := tfm_ps_get demo_max client uid 0 1000 (with_vecs [[]; []; []; []] s) in
  (match r with Ok _ => Ok (nth 0 (out_vec s') []) | Err e => Err e end, s').

(** A store with [n] units of power left. *)
Definition with_power (n : nat) (s : st) : st := put_plat (pr_tick n (plat s)) s.
End demo.

(** A blank platform. *)
Definition demo_blank {mains : bool} : ps_st (ps_ram false mains) := ps_off (PsRam ∅ 0 0 0 1000 10000 false).
Definition demo_cut : ps_st (ps_ram false false) := demo_blank.
Definition demo_mains : ps_st (ps_ram false true) := demo_blank.
