(* ===== verification/PsSpec.v ===== *)
(** * Protected storage: what it promises

    Assets are a finite map from clients and identifiers to flags and data.
    Requests read and change the map as long as no change of a file or a
    counter fails; a loss of power during a request leaves the map before or
    after it; start-up takes no table that was replaced.  After a change that
    failed with power on nothing is promised: the code may then lose assets
    ([PsWitness.failed_set_loses_asset]). *)

From S2P Require Import Prelude Bytes PsTypes PsCrypto PsTable PsObject PsLaws PsRules PsStore PsVolume PsOps PsCreate PsBoot PsDemo.
From stdpp Require Import base list numbers gmap.
From Stdlib Require Import ZArith Lia.

Open Scope Z_scope.
Open Scope tfm_scope.

Section spec.
Context {P K : Type} `{PsPower P} `{PsCryptoOps K} `{!PsAead K}.
Context (TFM_SP_PS : Z) (PS_NUM_ASSETS : nat) (PS_MAX_ASSET_SIZE : Z).
Implicit Types (s : ps_st P) (F : files) (A : assets) (B : Prop) (a : asset).

Abbreviation volume := (volume TFM_SP_PS PS_NUM_ASSETS PS_MAX_ASSET_SIZE).
Abbreviation recov := (recov TFM_SP_PS PS_NUM_ASSETS PS_MAX_ASSET_SIZE).
Abbreviation config := (ps_config TFM_SP_PS PS_NUM_ASSETS PS_MAX_ASSET_SIZE).

(** The partition runs and its assets are [A]; with [B], the stored table
    belongs to the present counters.  [holds True] holds after the first start,
    after a request that set or removed an asset, and after a restart of a
    partition where it held; [holds False] is all there is after a start that
    found an interrupted request ([PsWitness.second_start_after_cut_fails]). *)
Definition holds B s A : Prop := exists F v, volume B s F v A.

(** IVs for one more request. *)
Definition iv_room s : Prop := le_val (ps_crypto_iv_buf s) + 2 < 2 ^ 96.

(** [s0] is a reset of [s]. *)
Definition resets s s0 : Prop := same_view s s0 /\ on s0 /\ boot_mem PS_NUM_ASSETS PS_MAX_ASSET_SIZE s0.

(** After any reset, start-up mounts one of the maps, or a change fails again
    during it. *)
Definition comes_back s (As : assets -> Prop) : Prop := forall s0 create r s1, resets s s0 ->
  tfm_ps_init TFM_SP_PS PS_NUM_ASSETS create s0 = (r, s1) ->
  off s1 \/ r = Ok tt /\ exists A, As A /\ holds False s1 A.

(** ** Start-up *)

Lemma dead_init : dead (P := P) (ps_object_table_init TFM_SP_PS PS_NUM_ASSETS).
Proof.
  unfold ps_object_table_init, ps_object_table_fs_read_table, read_table_file, ps_object_table_nvc_authenticate, ps_read_nv_counter,
    ps_object_table_validate_version, ps_set_active_object_table, remove_if_exists, ps_crypto_set_iv. dead_auto.
Qed.

Lemma dead_wipe_and_mount : dead (P := P) (let* _ := ps_system_wipe_all TFM_SP_PS PS_NUM_ASSETS in ps_system_prepare TFM_SP_PS PS_NUM_ASSETS).
Proof.
  apply dead_bind; [unfold ps_system_wipe_all, ps_object_table_create; dead_auto|intros _; apply dead_init].
Qed.

Lemma wp_tfm_ps_init Q (E : psa_status_t -> ps_st P -> Prop) s F c1 c2 c3 A create :
  config -> boot_mem PS_NUM_ASSETS PS_MAX_ASSET_SIZE s -> live (plat s) F c1 c2 c3 ->
  bootable TFM_SP_PS PS_NUM_ASSETS PS_MAX_ASSET_SIZE F c1 c2 c3 A ->
  (forall s' F', volume (c1 = c3) s' F' c1 A -> Q tt s') -> (forall r s', off s' -> match r with Ok u => Q u s' | Err e => E e s' end) ->
  wp (tfm_ps_init TFM_SP_PS PS_NUM_ASSETS create) Q E s.
Proof.
  intros Hcfg Hm Hl Hb HQ HE. unfold tfm_ps_init, ps_system_prepare. apply wp_bind, wp_try.
  eapply wp_init; [exact Hcfg|exact Hm|exact Hl|exact Hb| |].
  - intros s' F' (Hd & Hr & _) Hse. apply wp_ret, (HQ s' F'). by split_and!.
  - intros e s' Ho. destruct create; [|by apply wp_fail, (HE (Err e))].
    eapply wp_dead; [apply dead_wipe_and_mount|exact Ho|intros []; intros; by apply (HE (Ok tt))|intros; by apply (HE (Err e0))].
Qed.

Lemma recov_comes_back s (As : assets -> Prop) : config -> cut s -> (exists A, As A /\ recov True s A) -> comes_back s As.
Proof.
  intros Hcfg Hcut (A & HA & [_ Hr]) s0 create r s1 [[Hf Hc] [Hon Hm]] Hrun.
  destruct (Hr I) as (F & c1 & c2 & c3 & [_ Hl'] & Hb). destruct (Hl' Hcut) as [HF Hctr].
  assert (live (plat s0) F c1 c2 c3) as Hl by (unfold live, ctrs; rewrite Hf, Hc; done).
  assert (wp (tfm_ps_init TFM_SP_PS PS_NUM_ASSETS create) (fun _ s' => off s' \/ exists A, As A /\ holds False s' A) (fun _ s' => off s') s0) as Hwp.
  { eapply wp_tfm_ps_init; [exact Hcfg|exact Hm|exact Hl|exact Hb| |].
    - intros s' F' (Hd & Hr' & _). right. exists A. split; [done|]. exists F', c1. by split_and!.
    - intros [[]|e] s' Ho; [by left|done]. }
  destruct r as [[]|e].
  - destruct (run_ok _ _ _ _ _ _ Hwp Hrun) as [Ho|HA']; [by left|by right].
  - left. exact (run_err _ _ _ _ _ _ Hwp Hrun).
Qed.

Lemma recov_given B s A : B -> recov B s A -> recov True s A.
Proof. intros HB [Ho Hr]. split; [done|]. intros _. by apply Hr. Qed.

(** A first start: equal counters and no tables. *)
Lemma wp_first_start Q (E : psa_status_t -> ps_st P -> Prop) s F v :
  config -> boot_mem PS_NUM_ASSETS PS_MAX_ASSET_SIZE s -> live (plat s) F v v v -> 0 <= v -> iv_ok (ps_crypto_iv_buf s) ->
  le_val (ps_crypto_iv_buf s) + 1 < 2 ^ 96 -> F !! PS_TABLE_FS_ID PS_OBJ_TABLE_IDX_0 = None -> F !! PS_TABLE_FS_ID PS_OBJ_TABLE_IDX_1 = None ->
  (forall s' F', volume True s' F' (v + 1) ∅ -> Q tt s') -> (forall e s', off s' -> E e s') ->
  wp (tfm_ps_init TFM_SP_PS PS_NUM_ASSETS true) Q E s.
Proof.
  intros Hcfg Hm Hl Hv Hiv Hlt HN0 HN1 HQ HE. unfold tfm_ps_init, ps_system_prepare at 1. apply wp_bind, wp_try.
  assert (on_disk TFM_SP_PS PS_NUM_ASSETS F None None) as Hod by (by split).
  eapply wp_init_blank; [exact Hcfg|exact Hm|exact Hl|exact Hod|]. intros s1 [_ Ho1] Hp1 Hi1.
  eapply wp_wipe_and_mount; [exact Hcfg|exact Ho1|by rewrite Hp1|exact Hv|by rewrite Hi1|by rewrite Hi1|exact Hod|exact HQ|exact HE].
Qed.

(** ** Requests *)

Lemma volume_on B s F v A : volume B s F v A -> on s.
Proof. intros (_ & [[Ho _] _ _] & _). exact Ho. Qed.

Lemma on_off s : on s -> off s -> False.
Proof. unfold on, off. congruence. Qed.

Lemma cut_off s : cut s -> off s.
Proof. unfold cut, off. congruence. Qed.

Lemma on_cut s : on s -> cut s -> False.
Proof. intros Hon Hc. exact (on_off _ Hon (cut_off _ Hc)). Qed.

(** Why [tfm_ps_set] was refused. *)
Definition set_refused A (client uid size flags : Z) (d : list Z) (e : psa_status_t) : Prop :=
  uid = TFM_PS_INVALID_UID /\ e = PSA_ERROR_INVALID_ARGUMENT \/
  Z.land flags (Z.lnot PS_FLAGS_SUPPORTED) <> 0 /\ e = PSA_ERROR_NOT_SUPPORTED \/
  create_refused PS_NUM_ASSETS PS_MAX_ASSET_SIZE A uid client size d e.

Lemma wp_tfm_ps_set B s A client uid size flags :
  let d := nth 1 (in_vec s) [] in let A' := <[(client, uid) := (flags, sub_bytes 0 size d)]> A in
  config -> holds B s A -> client_ok client -> 0 <= uid < 18446744073709551616 -> 0 <= flags < 4294967296 -> 0 <= size ->
  Forall is_byte d -> iv_room s ->
  wp (tfm_ps_set PS_MAX_ASSET_SIZE client uid size flags)
    (fun _ s' => size <= zlen d /\ (forall a, A !! (client, uid) = Some a -> write_once a = false) /\ holds True s' A')
    (fun e s' => holds B s' A /\ set_refused A client uid size flags d e \/ recov B s' A \/ recov B s' A') s.
Proof.
  intros d A' Hcfg (F & v & Hv) Hc Hu Hfl Hsz Hd Hiv. unfold tfm_ps_set.
  assert (forall e, set_refused A client uid size flags d e -> holds B s A /\ set_refused A client uid size flags d e) as Hsame.
  { intros e He. split; [by exists F, v|done]. }
  apply wp_bind, wp_check; intros Huid.
  2:{ left. apply Hsame. left. split; [|done]. by apply negb_false_iff, Z.eqb_eq in Huid. }
  apply negb_true_iff, Z.eqb_neq in Huid. unfold TFM_PS_INVALID_UID in Huid.
  apply wp_bind, wp_check; intros Hsup.
  2:{ left. apply Hsame. right; left. split; [|done]. by apply Z.eqb_neq in Hsup. }
  eapply wp_object_create; [exact Hcfg|exact Hv|unfold uid_ok; lia|exact Hc|exact Hfl|exact Hsz|exact Hd|exact Hiv| | |].
  - intros s' F' v' Hlen Hwo Hv'. split_and!; [done|done|by exists F', v'].
  - intros er s' F' v' Hr Hv'. left. split; [by exists F', v'|by right; right].
  - intros er s' Hr. by right.
Qed.

(** C25: a request to set an asset during which no change of a file or a
    counter fails either stores exactly the new flags and data, and then the
    old asset was not write-once, or is refused for a stated reason and changes
    no asset.  The crypto service works and IVs are left.  When a change fails
    with power on, nothing is stated: the old asset may be lost
    ([PsWitness.failed_set_loses_asset]). *)
Theorem ps_set_spec B s A client uid size flags r s' :
  let d := nth 1 (in_vec s) [] in
  config -> holds B s A -> client_ok client -> 0 <= uid < 18446744073709551616 -> 0 <= flags < 4294967296 -> 0 <= size ->
  Forall is_byte d -> iv_room s ->
  tfm_ps_set PS_MAX_ASSET_SIZE client uid size flags s = (r, s') -> on s' ->
  match r with
  | Ok _ => size <= zlen d /\ (forall a, A !! (client, uid) = Some a -> write_once a = false) /\
            holds True s' (<[(client, uid) := (flags, sub_bytes 0 size d)]> A)
  | Err e => holds B s' A /\ set_refused A client uid size flags d e
  end.
Proof.
  intros d Hcfg Hh Hc Hu Hfl Hsz Hd Hiv Hrun Hon.
  pose proof (wp_run _ _ _ _ _ _ (wp_tfm_ps_set B s A client uid size flags Hcfg Hh Hc Hu Hfl Hsz Hd Hiv) Hrun) as Hr.
  destruct r as [[]|e]; [exact Hr|]. destruct Hr as [Hr|[[Ho _]|[Ho _]]]; [exact Hr| |]; by destruct (on_off _ Hon Ho).
Qed.

(** C26: power may be lost at any change of a file or a counter during a
    request to set an asset, if none has failed before and the stored table
    belonged to the present counters; the next start-up mounts the assets
    before the request or the assets after it, unless a change fails during
    that start-up.  The crypto service works and IVs are left.  After a start
    that found an interrupted request, the stored table may not belong to the
    counters until the next completed request, and a further loss of power may
    lose the store ([PsWitness.second_start_after_cut_fails]). *)
Theorem ps_set_power_loss s A client uid size flags r s' :
  let d := nth 1 (in_vec s) [] in
  config -> holds True s A -> client_ok client -> 0 <= uid < 18446744073709551616 -> 0 <= flags < 4294967296 -> 0 <= size ->
  Forall is_byte d -> iv_room s ->
  tfm_ps_set PS_MAX_ASSET_SIZE client uid size flags s = (r, s') -> cut s' ->
  comes_back s' (fun A' => A' = A \/ A' = <[(client, uid) := (flags, sub_bytes 0 size d)]> A).
Proof.
  intros d Hcfg Hh Hc Hu Hfl Hsz Hd Hiv Hrun Hcut.
  pose proof (wp_run _ _ _ _ _ _ (wp_tfm_ps_set True s A client uid size flags Hcfg Hh Hc Hu Hfl Hsz Hd Hiv) Hrun) as Hr.
  apply recov_comes_back; [exact Hcfg|exact Hcut|]. destruct r as [[]|e].
  - destruct Hr as (_ & _ & F & v & Hv). by destruct (on_cut _ (volume_on _ _ _ _ _ Hv) Hcut).
  - destruct Hr as [[(F & v & Hv) _]|[Hr|Hr]]; [by destruct (on_cut _ (volume_on _ _ _ _ _ Hv) Hcut)| |]; eauto.
Qed.

Lemma holds_uid_0 B s A client : holds B s A -> A !! (client, TFM_PS_INVALID_UID) = None.
Proof.
  intros (F & v & Hd & _). destruct (A !! _) as [a|] eqn:HA; [|done].
  by destruct (rp_asset _ _ _ _ (dk_assets _ _ _ _ _ _ _ _ _ Hd) _ _ _ HA) as (i & e & _ & Hu & _ & He).
Qed.

(** C27: a request to get an asset returns the bytes that were set, from the
    offset and as many as asked for and there are, and changes no asset; it
    fails when there is no such asset or the offset is behind its end. *)
Theorem ps_get_spec B s A client uid offset size r s' :
  config -> holds B s A -> 0 <= offset -> 0 <= size ->
  tfm_ps_get PS_MAX_ASSET_SIZE client uid offset size s = (r, s') ->
  holds B s' A /\
  match r, A !! (client, uid) with
  | Ok n, Some a => offset <= zlen a.2 /\ n = Z.min size (zlen a.2 - offset) /\
                    out_vec s' = <[0%nat := nth 0 (out_vec s) [] ++ sub_bytes offset n a.2]> (out_vec s)
  | Ok _, None => False
  | Err e, Some a => zlen a.2 < offset /\ e = PSA_ERROR_INVALID_ARGUMENT
  | Err e, None => e = PSA_ERROR_DOES_NOT_EXIST \/ uid = TFM_PS_INVALID_UID /\ e = PSA_ERROR_INVALID_ARGUMENT
  end.
Proof.
  intros Hcfg Hh Hoff Hsz Hrun. pose proof Hh as (F & v & Hv). set (goal := holds B s' A /\ _).
  assert (wp (tfm_ps_get PS_MAX_ASSET_SIZE client uid offset size)
    (fun n s' => holds B s' A /\ exists a, A !! (client, uid) = Some a /\ offset <= zlen a.2 /\ n = Z.min size (zlen a.2 - offset) /\
       out_vec s' = <[0%nat := nth 0 (out_vec s) [] ++ sub_bytes offset n a.2]> (out_vec s))
    (fun e s' => holds B s' A /\ match A !! (client, uid) with Some a => zlen a.2 < offset /\ e = PSA_ERROR_INVALID_ARGUMENT
       | None => e = PSA_ERROR_DOES_NOT_EXIST \/ uid = TFM_PS_INVALID_UID /\ e = PSA_ERROR_INVALID_ARGUMENT end) s) as Hw.
  { unfold tfm_ps_get. apply wp_bind, wp_check; intros Hu.
    2:{ apply negb_false_iff, Z.eqb_eq in Hu. subst uid. rewrite (holds_uid_0 _ _ _ _ Hh). split; [done|by right]. }
    apply negb_true_iff, Z.eqb_neq in Hu.
    eapply wp_object_read_asset; [exact Hcfg|exact Hv|exact Hu|exact Hoff|exact Hsz| | |].
    - intros s1 a Ha Hle n Hv1 Hout. split; [by exists F, v|]. by exists a.
    - intros HN. rewrite HN. split; [done|by left].
    - intros s1 a Ha Hlt Hv1. rewrite Ha. split; [by exists F, v|done]. }
  subst goal. destruct r as [n|e].
  - destruct (run_ok _ _ _ _ _ _ Hw Hrun) as [Hh' (a & -> & Hr)]. by split.
  - exact (run_err _ _ _ _ _ _ Hw Hrun).
Qed.

(** ** Removing *)

Definition remove_refused A (client uid : Z) (e : psa_status_t) : Prop :=
  uid = TFM_PS_INVALID_UID /\ e = PSA_ERROR_INVALID_ARGUMENT \/
  A !! (client, uid) = None /\ e = PSA_ERROR_DOES_NOT_EXIST \/
  (exists a, A !! (client, uid) = Some a /\ write_once a = true) /\ e = PSA_ERROR_NOT_PERMITTED.

Lemma wp_tfm_ps_remove B s A client uid : config -> holds B s A -> iv_room s ->
  wp (tfm_ps_remove PS_MAX_ASSET_SIZE client uid)
    (fun _ s' => (exists a, A !! (client, uid) = Some a /\ write_once a = false) /\ holds True s' (delete (client, uid) A))
    (fun e s' => holds B s' A /\ remove_refused A client uid e \/ recov B s' A \/ recov B s' (delete (client, uid) A)) s.
Proof.
  intros Hcfg Hh Hiv. pose proof Hh as (F & v & Hv). unfold tfm_ps_remove. apply wp_bind, wp_check; intros Hu.
  2:{ left. apply negb_false_iff, Z.eqb_eq in Hu. split; [done|by left]. }
  apply negb_true_iff, Z.eqb_neq in Hu. apply wp_bind, wp_try.
  eapply wp_object_delete; [exact Hcfg|exact Hv|exact Hu|unfold iv_room in Hiv; lia| | | |].
  - intros s1 F1 a Ha Hw Hv1. apply wp_ret. split; [by exists a|by exists F1, (v + 1)].
  - intros HN. apply wp_fail. left. split; [done|]. by right; left.
  - intros s1 a Ha Hw Hv1. apply wp_fail. left. split; [by exists F, v|]. right; right. split; [by exists a|done].
  - intros e s1 Hr. apply wp_fail. by right.
Qed.

(** C28: a request to remove an asset during which no change of a file or a
    counter fails removes that asset only, or is refused for a stated reason
    and changes no asset; when power is lost during it, and the stored table
    belonged to the present counters, the next start-up mounts the assets
    before the request or after it, unless a change fails during that
    start-up.  The crypto service works and IVs are left. *)
Theorem ps_remove_spec B s A client uid r s' :
  config -> holds B s A -> iv_room s -> tfm_ps_remove PS_MAX_ASSET_SIZE client uid s = (r, s') ->
  (on s' -> match r with
            | Ok _ => (exists a, A !! (client, uid) = Some a /\ write_once a = false) /\ holds True s' (delete (client, uid) A)
            | Err e => holds B s' A /\ remove_refused A client uid e
            end) /\
  (cut s' -> B -> comes_back s' (fun A' => A' = A \/ A' = delete (client, uid) A)).
Proof.
  intros Hcfg Hh Hiv Hrun. pose proof (wp_run _ _ _ _ _ _ (wp_tfm_ps_remove B s A client uid Hcfg Hh Hiv) Hrun) as Hr. split.
  - intros Hon. destruct r as [[]|e]; [exact Hr|]. destruct Hr as [Hr|[[Ho _]|[Ho _]]]; [exact Hr| |]; by destruct (on_off _ Hon Ho).
  - intros Hcut HB. apply recov_comes_back; [exact Hcfg|exact Hcut|]. destruct r as [[]|e].
    + destruct Hr as (_ & F & v & Hv). by destruct (on_cut _ (volume_on _ _ _ _ _ Hv) Hcut).
    + destruct Hr as [[(F & v & Hv) _]|[Hr|Hr]]; [by destruct (on_cut _ (volume_on _ _ _ _ _ Hv) Hcut)| |];
        apply (recov_given B) in Hr; eauto.
Qed.

(** ** Starting *)

(** A start after a reset of a running partition finds its assets, unless a
    change fails during it. *)
Theorem ps_restart_keeps_assets s A s0 create r s1 :
  config -> holds True s A -> resets s s0 -> tfm_ps_init TFM_SP_PS PS_NUM_ASSETS create s0 = (r, s1) ->
  r = Ok tt /\ holds True s1 A \/ off s1.
Proof.
  intros Hcfg (F & w & Hd & [(Hon & HF & Hctr) _ _] & Hse) [[Hf Hc] [Hon0 Hm0]] Hrun.
  assert (wp (tfm_ps_init TFM_SP_PS PS_NUM_ASSETS create) (fun _ s' => holds True s' A \/ off s') (fun _ s' => off s') s0) as Hw.
  { destruct Hd as [Hx Hs Ho Ht Ha Hw]. eapply (wp_tfm_ps_init _ _ s0 F w w w A); [exact Hcfg|exact Hm0| | | |].
    - unfold live, ctrs. rewrite Hf, Hc. by split.
    - exists (active_table s), (scratch_table s), (obj_table s). split_and!; try done; try lia. left. split; [auto|by left].
    - intros s' F' (Hd' & Hr' & Hse'). left. exists F', w. split_and!; auto.
    - by intros [[]|e] s' Ho'; [right|]. }
  destruct r as [[]|e].
  - destruct (run_ok _ _ _ _ _ _ Hw Hrun) as [?|?]; [by left|by right].
  - right. exact (run_err _ _ _ _ _ _ Hw Hrun).
Qed.

(** The first start, on a platform without tables whose counters are
    equal, makes an empty store, unless a change fails during it. *)
Theorem ps_first_start_empty s r s' v :
  config -> boot_mem PS_NUM_ASSETS PS_MAX_ASSET_SIZE s -> iv_ok (ps_crypto_iv_buf s) -> iv_room s ->
  on s -> ctrs (plat s) v v v -> 0 <= v ->
  pl_files (plat s) !! PS_TABLE_FS_ID PS_OBJ_TABLE_IDX_0 = None -> pl_files (plat s) !! PS_TABLE_FS_ID PS_OBJ_TABLE_IDX_1 = None ->
  tfm_ps_init TFM_SP_PS PS_NUM_ASSETS true s = (r, s') -> r = Ok tt /\ holds True s' ∅ \/ off s'.
Proof.
  intros Hcfg Hm Hi Hlt Hon Hctr Hv HN0 HN1 Hrun. unfold iv_room in Hlt.
  assert (wp (tfm_ps_init TFM_SP_PS PS_NUM_ASSETS true) (fun _ s' => holds True s' ∅) (fun _ s' => off s') s) as Hw.
  { eapply wp_first_start; [exact Hcfg|exact Hm|by split|exact Hv|exact Hi|lia|exact HN0|exact HN1| |done].
    intros s1 F1 Hv1. by exists F1, (v + 1). }
  destruct r as [[]|e]; [left; split; [done|]; exact (run_ok _ _ _ _ _ _ Hw Hrun)|right; exact (run_err _ _ _ _ _ _ Hw Hrun)].
Qed.

(** ** Rollback *)

(** The table stays as it is. *)
Definition keeps {T : Type} (m : M (ps_st P) T) : Prop := forall s, obj_table (snd (m s)) = obj_table s.

Lemma keeps_bind {T U : Type} (m : M (ps_st P) T) (k : T -> M (ps_st P) U) : keeps m -> (forall x, keeps (k x)) -> keeps (bind m k).
Proof.
  intros Hm Hk s. unfold bind. specialize (Hm s). destruct (m s) as [[x|e] s1]; cbn in *; [|done]. by rewrite (Hk x s1).
Qed.

Lemma keeps_try {T : Type} (m : M (ps_st P) T) : keeps m -> keeps (try m).
Proof. intros Hm s. unfold try. specialize (Hm s). by destruct (m s). Qed.

Lemma keeps_or_return {T : Type} (m : M (ps_st P) T) e : keeps m -> keeps (or_return m e).
Proof. intros Hm s. unfold or_return. specialize (Hm s). by destruct (m s) as [[]]. Qed.

Lemma keeps_lift {T : Type} (m : M P T) : keeps (lift m).
Proof. intros s. unfold lift. by destruct (m (plat s)). Qed.

Lemma keeps_increment_loop n c : keeps (increment_loop n c).
Proof. induction n as [|n IH]; [done|]. cbn [increment_loop]. apply keeps_bind; [apply keeps_or_return, keeps_lift|done]. Qed.

Lemma keeps_align n : keeps (ps_object_table_align_nv_counters n).
Proof.
  unfold ps_object_table_align_nv_counters, align_counter, ps_read_nv_counter.
  repeat first [apply keeps_bind; [|intros ?] | apply keeps_or_return | apply keeps_lift | apply keeps_increment_loop].
Qed.

(** What the counters say about the table that start-up mounts. *)
Definition current (c1 c2 c3 : Z) (t : ps_obj_table_t) : Prop :=
  authenticates t c1 = true \/ c2 = c3 /\ c3 <> PS_INVALID_NVC_VALUE /\ authenticates t c3 = true.

Lemma authenticate_current t c1 c2 c3 :
  ps_object_table_authenticate t c1 (usable_nvc3 c2 c3) <> PS_OBJ_TABLE_INVALID -> current c1 c2 c3 t.
Proof.
  unfold ps_object_table_authenticate, usable_nvc3, current. destruct (authenticates t c1); [by left|].
  destruct (Z.eqb_spec c3 c2) as [->|]; cbn [negb]; [|done].
  destruct (Z.eqb_spec c2 PS_INVALID_NVC_VALUE); [done|]. destruct (authenticates t c2); [|done]. by right.
Qed.

Lemma wp_read_any Q (E : psa_status_t -> ps_st P -> Prop) s idx old :
  on s -> (forall t, Q t s) -> (forall e, E e s) -> wp (read_table_file PS_NUM_ASSETS idx old) Q E s.
Proof.
  intros Ho HQ HE. unfold read_table_file. apply wp_bind. unfold wp at 1, lift.
  destruct (psa_its_get _ _ _ (plat s)) as [r p'] eqn:Hr. destruct (pw_get _ _ _ _ _ _ Ho Hr) as [-> _].
  replace (put_plat (plat s) s) with s by (by destruct s). destruct r; [by apply wp_ret|done].
Qed.

Lemma wp_fs_read_any Q (E : psa_status_t -> ps_st P -> Prop) s ctx :
  on s -> (forall t ctx', Q ctx' (put_table t s)) -> wp (ps_object_table_fs_read_table PS_NUM_ASSETS ctx) Q E s.
Proof.
  intros Ho HQ. unfold ps_object_table_fs_read_table. apply wp_bind, wp_gets, wp_bind, wp_try.
  assert (forall t st0, wp
     (let* r1 := try (read_table_file PS_NUM_ASSETS PS_OBJ_TABLE_IDX_1 (p_table1 ctx)) in
      match r1 with
      | Ok t => ret (InitCtx t st0 (table_state1 ctx) (nvc_1 ctx) (nvc_3 ctx))
      | Err _ => ret (InitCtx (p_table1 ctx) st0 PS_OBJ_TABLE_INVALID (nvc_1 ctx) (nvc_3 ctx))
      end) Q E (put_table t s)) as Hrest.
  { intros t st0. apply wp_bind, wp_try. apply wp_read_any; [exact Ho|intros t1|intros e]; apply wp_ret, HQ. }
  apply wp_read_any; [exact Ho|intros t|intros e].
  - apply wp_bind, wp_bind, wp_modify, wp_ret, Hrest.
  - apply wp_bind, wp_ret. replace s with (put_table (obj_table s) s) at 1 by (by destruct s). apply Hrest.
Qed.

Lemma wp_nvc_any Q (E : psa_status_t -> ps_st P -> Prop) s ctx :
  on s -> let c := pl_ctr (plat s) in let n3 := usable_nvc3 (c TFM_PS_NV_COUNTER_2) (c TFM_PS_NV_COUNTER_3) in
  (forall st0 st1,
     (st0 <> PS_OBJ_TABLE_INVALID -> ps_object_table_authenticate (obj_table s) (c TFM_PS_NV_COUNTER_1) n3 <> PS_OBJ_TABLE_INVALID) ->
     (st1 <> PS_OBJ_TABLE_INVALID -> ps_object_table_authenticate (p_table1 ctx) (c TFM_PS_NV_COUNTER_1) n3 <> PS_OBJ_TABLE_INVALID) ->
     Q (InitCtx (p_table1 ctx) st0 st1 (c TFM_PS_NV_COUNTER_1) n3) s) ->
  wp (ps_object_table_nvc_authenticate ctx) Q E s.
Proof.
  intros Ho c n3 HQ. unfold ps_object_table_nvc_authenticate. do 3 (apply wp_bind, wp_read_counter; [done|]).
  apply wp_bind, wp_gets, wp_ret, HQ; destruct (decide _) as [->|]; done.
Qed.

Lemma wp_select_any Q (E : psa_status_t -> ps_st P -> Prop) s ctx (good : ps_obj_table_t -> Prop) :
  (table_state0 ctx <> PS_OBJ_TABLE_INVALID -> good (obj_table s)) -> (table_state1 ctx <> PS_OBJ_TABLE_INVALID -> good (p_table1 ctx)) ->
  (forall s', good (obj_table s') -> Q tt s') -> (forall e s', E e s') -> wp (select_and_mount ctx) Q E s.
Proof.
  intros Hg0 Hg1 HQ HE. unfold select_and_mount. apply wp_bind.
  assert (forall s1, good (obj_table s1) -> wp
     (let* s := get in
      let* _ := remove_if_exists (PS_TABLE_FS_ID (scratch_table s)) in
      let* _ := ps_object_table_align_nv_counters (nvc_1 ctx) in
      let* t := gets obj_table in ps_crypto_set_iv (t_crypto t)) Q E s1) as Hmount.
  { intros s1 Hs1. set (m := bind get _). assert (keeps m) as Hk.
    { unfold m, remove_if_exists, ps_crypto_set_iv.
      repeat first [ apply keeps_align | apply keeps_bind; [|intros ?] | apply keeps_try | apply keeps_lift | by intros []
                   | match goal with |- keeps (match ?x with _ => _ end) => destruct x end
                   | match goal with |- keeps (check ?b _) => by destruct b end ]. }
    specialize (Hk s1). unfold wp. destruct (m s1) as [[[]|e] s2]; [|apply HE]. apply HQ. cbn in Hk. by rewrite Hk. }
  unfold ps_set_active_object_table.
  destruct (decide (table_state0 ctx = PS_OBJ_TABLE_INVALID)), (decide (table_state1 ctx = PS_OBJ_TABLE_INVALID)).
  - apply wp_fail, HE.
  - apply wp_bind, wp_modify, wp_modify, Hmount. auto.
  - apply wp_modify, Hmount. auto.
  - destruct (decide _); [apply wp_bind, wp_modify, wp_modify, Hmount; auto|apply wp_modify, Hmount; auto].
Qed.

(** C31: whatever files start-up finds, it mounts only a table that
    authenticates with counter 1 as it was, or with counter 3 when counters 2
    and 3 agree: no table saved with any other value of the counters. *)
Theorem ps_rollback_protection s s' :
  on s -> tfm_ps_init TFM_SP_PS PS_NUM_ASSETS false s = (Ok tt, s') ->
  let c := pl_ctr (plat s) in
  current (c TFM_PS_NV_COUNTER_1) (c TFM_PS_NV_COUNTER_2) (c TFM_PS_NV_COUNTER_3) (obj_table s') /\
  t_version (obj_table s') = PS_OBJECT_SYSTEM_VERSION /\
  forall n, sealed (obj_table s') n -> le_bytes 4 n = le_bytes 4 (c TFM_PS_NV_COUNTER_1) \/
    c TFM_PS_NV_COUNTER_2 = c TFM_PS_NV_COUNTER_3 /\ le_bytes 4 n = le_bytes 4 (c TFM_PS_NV_COUNTER_3).
Proof.
  intros Ho Hrun c. set (good := fun t => current (c TFM_PS_NV_COUNTER_1) (c TFM_PS_NV_COUNTER_2) (c TFM_PS_NV_COUNTER_3) t /\
    t_version t = PS_OBJECT_SYSTEM_VERSION).
  assert (wp (tfm_ps_init TFM_SP_PS PS_NUM_ASSETS false) (fun _ s' => good (obj_table s')) (fun _ _ => True) s) as Hw.
  { unfold tfm_ps_init, ps_system_prepare, ps_object_table_init. apply wp_bind, wp_try, wp_bind, wp_gets, wp_bind.
    apply wp_fs_read_any; [exact Ho|]. intros t ctx. apply wp_bind, wp_modify, wp_bind, wp_modify, wp_bind.
    set (s1 := put_obj _ _). assert (on s1) as Ho1 by exact Ho. assert (pl_ctr (plat s1) = c) as Hc1 by done. clearbody s1.
    apply wp_nvc_any; [exact Ho1|]. rewrite Hc1. cbn [p_table1]. intros st0 st1 Hst0 Hst1. unfold ps_object_table_validate_version.
    apply wp_bind, wp_bind, wp_gets, wp_ret.
    match goal with |- wp (bind (ps_set_active_object_table ?x) _) _ _ _ => apply (wp_select_any _ _ _ x good) end; cbn [p_table1 table_state0 table_state1]; [| |done|done];
      match goal with |- context [t_version ?x =? _] => destruct (Z.eqb_spec (t_version x) PS_OBJECT_SYSTEM_VERSION) end; try done; intros Hst; (split; [apply authenticate_current; auto|done]). }
  destruct (run_ok _ _ _ _ _ _ Hw Hrun) as [Hcur Hver]. split_and!; [done|done|]. intros n Hn.
  assert (forall m, authenticates (obj_table s') m = true -> le_bytes 4 n = le_bytes 4 m) as Hword.
  { intros m Hm. destruct (decide (le_bytes 4 n = le_bytes 4 m)) as [|Hne]; [done|]. rewrite (sealed_only _ _ _ Hn Hne) in Hm. done. }
  destruct Hcur as [Hc|(Hc23 & _ & Hc)]; [left|right]; auto.
Qed.
(** ** Isolation *)

(** The assets of client [c] are the same. *)
Definition same_for (c : Z) A A' : Prop := forall uid, A' !! (c, uid) = A !! (c, uid).

Definition unchanged_for B (c : Z) A s : Prop :=
  (exists A', holds B s A' /\ same_for c A A') \/ (exists A', recov B s A' /\ same_for c A A').

Lemma unchanged_holds B c A s : holds B s A -> unchanged_for B c A s.
Proof. intros Hh. left. by exists A. Qed.

Lemma holds_forget B s A : holds True s A -> holds B s A.
Proof. intros (F & v & Hv). exists F, v. by apply volume_weaken. Qed.

Lemma unchanged_recov B c A s A' : recov B s A \/ recov B s A' -> same_for c A A' -> unchanged_for B c A s.
Proof. intros [Hr|Hr] Hs; right; [exists A|exists A']; by split. Qed.

Lemma same_insert c A k a : k.1 <> c -> same_for c A (<[k := a]> A).
Proof. intros Hne uid. apply lookup_insert_ne. by intros ->. Qed.

Lemma same_delete c A k : k.1 <> c -> same_for c A (delete k A).
Proof. intros Hne uid. apply lookup_delete_ne. by intros ->. Qed.

Lemma holds_in B s A l : holds B s A -> holds B (put_in l s) A.
Proof. intros (F & v & Hv). exists F, v. by apply volume_in. Qed.

Lemma holds_out B s A l : holds B s A -> holds B (put_out l s) A.
Proof. intros (F & v & Hv). exists F, v. by apply volume_out. Qed.

(** A message of any client, as the framework delivers it. *)
Record message s (msg : ps_msg_t) : Prop := {
  ms_client : client_ok (m_client_id msg);
  ms_bytes : Forall (Forall is_byte) (in_vec s);
  ms_in i : 0 <= nth i (m_in_size msg) 0;
  ms_out i : 0 <= nth i (m_out_size msg) 0;
}.

Lemma nth_vec_bytes i (l : list (list Z)) : Forall (Forall is_byte) l -> Forall is_byte (nth i l []).
Proof.
  intros Hl. destruct (nth_in_or_default i l []) as [Hin| ->]; [|constructor].
  rewrite Forall_forall in Hl. apply Hl. by apply list_elem_of_In.
Qed.

(** Reading an argument. *)
Lemma wp_ps_read_arg i n Q (E : psa_status_t -> ps_st P -> Prop) s :
  Forall (Forall is_byte) (in_vec s) -> 0 <= n ->
  (forall l x, 0 <= x < 256 ^ n -> Forall (Forall is_byte) l -> Q x (put_in l s)) ->
  (forall l, E PSA_ERROR_PROGRAMMER_ERROR (put_in l s)) -> wp (ps_read_arg i n) Q E s.
Proof.
  intros Hb Hn HQ HE. unfold ps_read_arg. apply wp_bind. change (wp get) with (wp (S := ps_st P) (gets id)). apply wp_gets.
  change (id s) with s. pose proof (nth_vec_bytes i _ Hb) as Hv. set (v := nth i (in_vec s) []) in *. pose proof (zlen_nonneg v).
  apply wp_bind, wp_modify, wp_bind, wp_check; intros Hc; [|apply HE]. apply Z.eqb_eq in Hc. apply wp_ret, HQ.
  - rewrite Hc. apply le_val_sub_range; done || lia.
  - apply Forall_insert; [done|auto with bytes].
Qed.

Section isolation.
Context (Hcfg : config) (B : Prop) (c : Z) (A : assets).

Lemma wp_ps_set_req s msg : holds B s A -> message s msg -> iv_room s -> m_client_id msg <> c ->
  wp (tfm_ps_set_req PS_MAX_ASSET_SIZE msg) (fun _ => unchanged_for B c A) (fun _ => unchanged_for B c A) s.
Proof.
  intros Hh [Hcl Hb Hin _] Hiv Hne. unfold tfm_ps_set_req. apply wp_bind, wp_check; intros _; [|by apply unchanged_holds].
  apply wp_bind, wp_ps_read_arg; [done|lia|intros l uid Hu Hl|intros l; by apply unchanged_holds, holds_in].
  apply wp_bind, wp_ps_read_arg; [done|lia|intros l2 fl Hf Hl2|intros l2; by apply unchanged_holds, holds_in, holds_in].
  change (256 ^ 8) with 18446744073709551616 in Hu. change (256 ^ 4) with 4294967296 in Hf.
  eapply wp_mono; [eapply wp_tfm_ps_set; [exact Hcfg|by apply holds_in, holds_in|exact Hcl|exact Hu|exact Hf|apply Hin|by apply nth_vec_bytes|exact Hiv]| |].
  - intros [] s' (_ & _ & Hh'). left. eexists. split; [by apply holds_forget|]. by apply same_insert.
  - intros e s' [[Hh' _]|Hr]; [by apply unchanged_holds|]. eapply unchanged_recov; [exact Hr|]. by apply same_insert.
Qed.

Lemma wp_ps_get_req s msg : holds B s A -> message s msg ->
  wp (tfm_ps_get_req PS_MAX_ASSET_SIZE msg) (fun _ => unchanged_for B c A) (fun _ => unchanged_for B c A) s.
Proof.
  intros Hh [_ Hb _ Hout]. unfold tfm_ps_get_req. apply wp_bind, wp_check; intros _; [|by apply unchanged_holds].
  apply wp_bind, wp_ps_read_arg; [done|lia|intros l uid Hu Hl|intros l; by apply unchanged_holds, holds_in].
  apply wp_bind, wp_ps_read_arg; [done|lia|intros l2 off Ho Hl2|intros l2; by apply unchanged_holds, holds_in, holds_in].
  set (s2 := put_in l2 _). assert (holds B s2 A) as Hh2 by (by apply holds_in, holds_in). clearbody s2. pose proof Hh2 as (F & v & Hv).
  apply wp_bind. unfold tfm_ps_get. apply wp_bind, wp_check; intros Hz; [|by apply unchanged_holds].
  eapply wp_object_read_asset; [exact Hcfg|exact Hv|by apply negb_true_iff, Z.eqb_neq in Hz|lia|apply Hout| | |].
  - intros s' a _ _ n Hv' _. apply wp_ret, unchanged_holds. by exists F, v.
  - intros _. by apply unchanged_holds.
  - intros s' a _ _ Hv'. apply unchanged_holds. by exists F, v.
Qed.

Lemma wp_ps_get_info_req s msg w : holds B s A -> message s msg ->
  wp (tfm_ps_get_info_req PS_MAX_ASSET_SIZE w msg) (fun _ => unchanged_for B c A) (fun _ => unchanged_for B c A) s.
Proof.
  intros Hh [_ Hb _ Hout]. unfold tfm_ps_get_info_req. apply wp_bind, wp_check; intros _; [|by apply unchanged_holds].
  apply wp_bind, wp_ps_read_arg; [done|lia|intros l uid Hu Hl|intros l; by apply unchanged_holds, holds_in].
  set (s1 := put_in l _). assert (holds B s1 A) as Hh1 by (by apply holds_in). clearbody s1. pose proof Hh1 as (F & v & Hv).
  apply wp_bind. unfold tfm_ps_get_info. apply wp_bind, wp_check; intros Hz; [|by apply unchanged_holds].
  eapply wp_object_get_info; [exact Hcfg|exact Hv|by apply negb_true_iff, Z.eqb_neq in Hz| |].
  - intros s' a _ Hv' _. apply wp_modify, unchanged_holds, holds_out. by exists F, v.
  - intros _. by apply unchanged_holds.
Qed.

Lemma wp_ps_remove_req s msg : holds B s A -> message s msg -> iv_room s -> m_client_id msg <> c ->
  wp (tfm_ps_remove_req PS_MAX_ASSET_SIZE msg) (fun _ => unchanged_for B c A) (fun _ => unchanged_for B c A) s.
Proof.
  intros Hh [_ Hb _ _] Hiv Hne. unfold tfm_ps_remove_req. apply wp_bind, wp_check; intros _; [|by apply unchanged_holds].
  apply wp_bind, wp_ps_read_arg; [done|lia|intros l uid Hu Hl|intros l; by apply unchanged_holds, holds_in].
  eapply wp_mono; [eapply wp_tfm_ps_remove; [exact Hcfg|by apply holds_in|exact Hiv]| |].
  - intros [] s' (_ & Hh'). left. eexists. split; [by apply holds_forget|]. by apply same_delete.
  - intros e s' [[Hh' _]|Hr]; [by apply unchanged_holds|]. eapply unchanged_recov; [exact Hr|]. by apply same_delete.
Qed.

Lemma wp_service_sfn s msg w : holds B s A -> message s msg -> iv_room s -> m_client_id msg <> c ->
  wp (tfm_protected_storage_service_sfn PS_MAX_ASSET_SIZE w msg) (fun _ => unchanged_for B c A) (fun _ => unchanged_for B c A) s.
Proof.
  intros Hh Hm Hiv Hne. unfold tfm_protected_storage_service_sfn.
  destruct (_ =? _); [by apply wp_ps_set_req|]. destruct (_ =? _); [by apply wp_ps_get_req|].
  destruct (_ =? _); [by apply wp_ps_get_info_req|]. destruct (_ =? _); [by apply wp_ps_remove_req|].
  destruct (_ =? _); [|apply wp_fail; by apply unchanged_holds].
  unfold tfm_ps_get_support_req. apply wp_bind, wp_check; intros _; [|by apply unchanged_holds].
  by apply wp_modify, unchanged_holds, holds_out.
Qed.
End isolation.

(** C32: a message of one client, well formed or not, during which no change
    of a file or a counter fails leaves the assets of every other client as
    they are; when power is lost while it is served, and the stored table
    belonged to the present counters, the next start-up mounts assets among
    which those of the other clients are as before, unless a change fails
    during that start-up.  The crypto service works and IVs are left.  When a
    change fails with power on, nothing is stated. *)
Theorem ps_client_isolation B s A c msg w r s' :
  config -> holds B s A -> message s msg -> iv_room s -> m_client_id msg <> c ->
  tfm_protected_storage_service_sfn PS_MAX_ASSET_SIZE w msg s = (r, s') ->
  (on s' -> exists A', holds B s' A' /\ same_for c A A') /\ (cut s' -> B -> comes_back s' (same_for c A)).
Proof.
  intros Hcfg Hh Hm Hiv Hne Hrun.
  assert (unchanged_for B c A s') as [(A' & Hh' & Hs)|(A' & Hr & Hs)].
  { pose proof (wp_run _ _ _ _ _ _ (wp_service_sfn Hcfg B c A s msg w Hh Hm Hiv Hne) Hrun) as Hr. by destruct r. }
  - split; [by exists A'|]. intros Hc. destruct Hh' as (F & v & Hv). by destruct (on_cut _ (volume_on _ _ _ _ _ Hv) Hc).
  - split; [intros Ho; by destruct (on_off _ Ho (proj1 Hr))|]. intros Hc HB. apply recov_comes_back; [exact Hcfg|exact Hc|].
    exists A'. split; [done|]. by apply (recov_given B).
Qed.
End spec.

(** ** Success *)

Section alive.
Context {P K : Type} `{PsAlways P} `{PsCryptoOps K} `{!PsAead K}.
Context (TFM_SP_PS : Z) (PS_NUM_ASSETS : nat) (PS_MAX_ASSET_SIZE : Z).
Implicit Types (s : ps_st P).

(** A computation during which no change fails. *)
Definition alive {T : Type} (m : M (ps_st P) T) : Prop := forall s, on s -> on (snd (m s)).

Lemma alive_modify (f : ps_st P -> ps_st P) : (forall s, plat (f s) = plat s) -> alive (modify f).
Proof. intros Hf s Hs. unfold on, modify. cbn [snd]. by rewrite Hf. Qed.
Lemma alive_bind {T U : Type} (m : M (ps_st P) T) (k : T -> M (ps_st P) U) : alive m -> (forall x, alive (k x)) -> alive (bind m k).
Proof. intros Hm Hk s Hs. unfold bind. specialize (Hm s Hs). destruct (m s) as [[x|e] s1]; cbn in *; [by apply Hk|done]. Qed.
Lemma alive_try {T : Type} (m : M (ps_st P) T) : alive m -> alive (try m).
Proof. intros Hm s Hs. specialize (Hm s Hs). unfold try. by destruct (m s). Qed.
Lemma alive_or_return {T : Type} (m : M (ps_st P) T) e : alive m -> alive (or_return m e).
Proof. intros Hm s Hs. specialize (Hm s Hs). unfold or_return. by destruct (m s) as [[]]. Qed.
Lemma alive_check b e : alive (check b e).
Proof. destruct b; intros s Hs; exact Hs. Qed.
Lemma alive_of_status e : alive (of_status e).
Proof. unfold of_status. destruct (_ =? _); intros s Hs; exact Hs. Qed.

Lemma alive_lift {T : Type} (m : M P T) : (forall p, pl_mode p = Working -> pl_mode (snd (m p)) = Working) -> alive (lift m).
Proof. intros Hm s Hs. specialize (Hm (plat s) Hs). unfold lift, on. by destruct (m (plat s)). Qed.

Lemma alive_get uid off n : alive (lift (psa_its_get uid off n)).
Proof.
  apply alive_lift. intros p Hp. destruct (psa_its_get uid off n p) as [r p'] eqn:Hr.
  destruct (pw_get _ _ _ _ _ _ Hp Hr) as [-> _]. exact Hp.
Qed.
Lemma alive_set uid d : alive (lift (psa_its_set uid d)).
Proof. apply alive_lift. intros p. apply pa_set. Qed.
Lemma alive_remove uid : alive (lift (psa_its_remove uid)).
Proof. apply alive_lift. intros p. apply pa_remove. Qed.
Lemma alive_incr c : alive (lift (tfm_platform_nv_counter_increment c)).
Proof. apply alive_lift. intros p. apply pa_incr. Qed.
Lemma alive_read c : alive (lift (tfm_platform_nv_counter_read c)).
Proof. apply alive_lift. intros p Hp. by rewrite pw_read. Qed.

Lemma alive_simple {T : Type} (m : M (ps_st P) T) : (forall s, plat (snd (m s)) = plat s) -> alive m.
Proof. intros Hm s Hs. unfold on. by rewrite Hm. Qed.

#[local] Ltac alive_step :=
  lazymatch goal with
  | |- alive (bind _ _) => apply alive_bind; [|intros ?]
  | |- alive (try _) => apply alive_try
  | |- alive (or_return _ _) => apply alive_or_return
  | |- alive (modify _) => apply alive_modify; intros []; reflexivity
  | |- alive (check _ _) => apply alive_check
  | |- alive (of_status _) => apply alive_of_status
  | |- alive (lift (psa_its_get _ _ _)) => apply alive_get
  | |- alive (lift (psa_its_set _ _)) => apply alive_set
  | |- alive (lift (psa_its_remove _)) => apply alive_remove
  | |- alive (lift (tfm_platform_nv_counter_read _)) => apply alive_read
  | |- alive (lift (tfm_platform_nv_counter_increment _)) => apply alive_incr
  | |- alive (let '(_, _) := ?x in _) => destruct x
  | |- alive (match ?x with _ => _ end) => destruct x
  | |- alive (if ?x then _ else _) => destruct x
  | |- _ => first [solve [auto with alive] | by apply alive_simple]
  end.
#[local] Ltac alive_auto := repeat alive_step.

Lemma alive_increment_loop n c : alive (increment_loop n c).
Proof. induction n as [|n IH]; cbn [increment_loop]; [by apply alive_simple|]. unfold ps_increment_nv_counter. alive_step; [alive_auto|done]. Qed.

Lemma alive_align n : alive (ps_object_table_align_nv_counters n).
Proof.
  unfold ps_object_table_align_nv_counters, align_counter, ps_read_nv_counter.
  repeat first [apply alive_increment_loop | alive_step].
Qed.

Lemma alive_save : alive ps_object_table_save_table.
Proof.
  unfold ps_object_table_save_table, ps_increment_nv_counter, ps_read_nv_counter, ps_object_table_nvc_generate_auth_tag,
    ps_object_table_fs_write_table, ps_crypto_get_iv. repeat first [apply alive_align | alive_step].
Qed.

Lemma alive_update uid client : alive (ps_update_table uid client).
Proof.
  unfold ps_update_table, ps_object_table_set_obj_tbl_info, ps_get_object_entry_idx, ps_table_delete_entry, put_entry,
    ps_object_table_delete_old_table, ignore. repeat first [apply alive_save | alive_step].
Qed.

Lemma alive_set_request client uid size flags : alive (tfm_ps_set PS_MAX_ASSET_SIZE client uid size flags).
Proof.
  unfold tfm_ps_set, ps_object_create, ps_object_table_get_obj_tbl_info, ps_get_object_entry_idx, then_clear, clear_object, create_existing,
    set_object_ref, ps_encrypted_object_read, ps_object_auth_decrypt, ps_init_empty_object, ps_req_mngr_read_asset_data, store_new,
    ps_object_table_get_free_fid, ps_table_free_idx, remove_if_exists, ps_store_object, ps_encrypted_object_write, ps_object_auth_encrypt,
    ps_crypto_get_iv, ignore. repeat first [apply alive_update | alive_step].
Qed.

(** C33: when no change of a file or a counter fails, so that power is kept
    and neither the room of the file system nor a counter runs out, a request
    to set an asset whose data is there and fits succeeds, unless the asset
    exists and is write-once, or is new and as many assets as the table has
    room for are stored.  The crypto service works and IVs are left. *)
Theorem ps_set_succeeds s A client uid size flags :
  let d := nth 1 (in_vec s) [] in
  ps_config TFM_SP_PS PS_NUM_ASSETS PS_MAX_ASSET_SIZE -> holds TFM_SP_PS PS_NUM_ASSETS PS_MAX_ASSET_SIZE True s A -> client_ok client ->
  0 < uid < 18446744073709551616 -> 0 <= flags < 4294967296 -> Z.land flags (Z.lnot PS_FLAGS_SUPPORTED) = 0 ->
  0 <= size <= PS_MAX_ASSET_SIZE -> size <= zlen d -> Forall is_byte d -> iv_room s ->
  (forall a, A !! (client, uid) = Some a -> write_once a = false) ->
  Z.of_nat (base.size A) + match A !! (client, uid) with Some _ => 0 | None => 1 end <= Z.of_nat PS_NUM_ASSETS ->
  exists s', tfm_ps_set PS_MAX_ASSET_SIZE client uid size flags s = (Ok tt, s') /\
    holds TFM_SP_PS PS_NUM_ASSETS PS_MAX_ASSET_SIZE True s' (<[(client, uid) := (flags, sub_bytes 0 size d)]> A).
Proof.
  intros d Hcfg Hh Hc Hu Hfl Hsup Hsz Hlen Hd Hiv Hwo Hroom.
  pose proof (wp_tfm_ps_set TFM_SP_PS PS_NUM_ASSETS PS_MAX_ASSET_SIZE True s A client uid size flags Hcfg Hh Hc) as Hw.
  assert (0 <= uid < 18446744073709551616) as Hu' by lia. assert (0 <= size) as Hsz' by lia. specialize (Hw Hu' Hfl Hsz' Hd Hiv).
  assert (on s) as Hon by (destruct Hh as (F & v & Hv); by eapply volume_on).
  pose proof (alive_set_request client uid size flags s Hon) as Hal. unfold wp in Hw.
  destruct (tfm_ps_set PS_MAX_ASSET_SIZE client uid size flags s) as [[[]|e] s'] eqn:Hrun.
  - exists s'. by split; [|apply Hw].
  - exfalso. cbn in Hal. destruct Hw as [[_ Hr]|[[Ho _]|[Ho _]]]; [|by eapply on_off|by eapply on_off].
    destruct Hr as [[? _]|[[? _]|[[_ ?]|[[_ ?]|[[_ (a & Ha & Hwa)]|[_ ?]]]]]]; try (unfold TFM_PS_INVALID_UID, d in *; lia).
    by rewrite (Hwo a Ha) in Hwa.
Qed.
End alive.
