(* ===== verification/PsWitness.v ===== *)
(** * Protected storage: concrete runs

    The theorems of [PsSpec] at concrete stores: the hypotheses hold there and
    the conclusions say what the runs show. *)

From S2P Require Import Prelude Bytes PsTypes PsCrypto PsTable PsObject PsLaws PsRules PsStore PsVolume PsOps PsCreate PsBoot PsDemo PsSpec.
From stdpp Require Import base list numbers gmap.
From Stdlib Require Import ZArith Lia.

Open Scope Z_scope.
Open Scope tfm_scope.

Lemma demo_config : ps_config demo_sp demo_assets demo_max.
Proof. split; [by vm_compute|done|done]. Qed.

Abbreviation holds := (PsSpec.holds demo_sp demo_assets demo_max).

Lemma object_zero_boot {mains} (p : ps_ram false mains) : boot_mem demo_assets demo_max (ps_off p).
Proof.
  split; [|apply (object_zero_wf _ _ _ demo_config)].
  split; cbn [ps_off obj_table table_zero t_crypto t_version t_pad obj_db]; try done.
  - split; try done; by apply Forall_fill.
  - by apply Forall_fill.
  - apply (Forall_replicate _ 3), entry_zero_wf.
Qed.

(** A blank platform after its first start. *)
Definition fresh {mains : bool} : ps_st (ps_ram false mains) := snd (boot demo_blank).

Lemma blank_live {mains} : live (plat (@demo_blank mains)) ∅ 0 0 0.
Proof. split; [by destruct mains|]. split; [reflexivity|]. split_and!; reflexivity. Qed.

Lemma fresh_holds {mains} : fst (boot (@demo_blank mains)) = Ok tt -> holds True (@fresh mains) ∅.
Proof.
  intros Hok.
  assert (wp (tfm_ps_init demo_sp demo_assets true) (fun _ s' => holds True s' ∅) (fun _ s' => off s') (@demo_blank mains)) as Hw.
  { apply (wp_first_start demo_sp demo_assets demo_max _ _ demo_blank ∅ 0 demo_config (object_zero_boot _) blank_live).
    - lia.
    - split; [done|by apply Forall_fill].
    - by vm_compute.
    - apply lookup_empty.
    - apply lookup_empty.
    - intros s' F' Hv. exists F', (0 + 1). exact Hv.
    - by intros. }
  unfold wp, fresh, boot in *. destruct (tfm_ps_init _ _ _ _) as [[[]|e] s']; done.
Qed.

(** Requests with their vectors. *)
Definition set_vecs {mains} (d : list Z) (s : ps_st (ps_ram false mains)) := with_vecs [[]; d; []; []] s.

Lemma holds_vecs {mains} B (s : ps_st (ps_ram false mains)) A iv : holds B s A -> holds B (with_vecs iv s) A.
Proof. intros Hh. by apply holds_out, holds_in. Qed.

(** A store that lost no power on a set. *)
Lemma do_set_holds {mains} (s : ps_st (ps_ram false mains)) A client uid d flags :
  holds True s A -> client_ok client -> 0 <= uid < 18446744073709551616 -> 0 <= flags < 4294967296 -> Forall is_byte d -> iv_room s ->
  fst (do_set client uid d flags s) = Ok tt -> holds True (snd (do_set client uid d flags s)) (<[(client, uid) := (flags, d)]> A).
Proof.
  intros Hh Hc Hu Hf Hd Hiv Hok.
  pose proof (wp_tfm_ps_set _ _ _ True (set_vecs d s) A client uid (zlen d) flags demo_config (holds_vecs _ _ _ _ Hh) Hc Hu Hf
    (zlen_nonneg d) Hd Hiv) as Hw.
  unfold wp, do_set, set_vecs in *. destruct (tfm_ps_set _ _ _ _ _ _) as [[[]|e] s']; [|done].
  destruct Hw as (_ & _ & Hh'). by rewrite sub_bytes_all in Hh'.
Qed.

(** The store with one asset. *)
Definition one {mains : bool} : ps_st (ps_ram false mains) := snd (do_set 5 7 [1; 2; 3] 0 fresh).
Definition one_assets : gmap (Z * Z) (Z * list Z) := {[ (5, 7) := (0, [1; 2; 3]) ]}.

Ltac small_bytes := repeat constructor; unfold is_byte; lia.

Lemma one_holds_cut : holds True (@one false) one_assets.
Proof.
  apply do_set_holds; [apply fresh_holds; by vm_compute|done|done|done|small_bytes|by vm_compute|by vm_compute].
Qed.

Lemma one_holds_mains : holds True (@one true) one_assets.
Proof.
  apply do_set_holds; [apply fresh_holds; by vm_compute|done|done|done|small_bytes|by vm_compute|by vm_compute].
Qed.

(** A store that has not failed, with another amount of power. *)
Lemma volume_power n (s : ps_st (ps_ram false false)) A B : holds B s A -> holds B (with_power (S n) s) A.
Proof.
  intros (F & v & Hd & [(Ho & HF & Hc) Hi Hx] & HB). exists F, v. split_and!; [done| |done]. split; [|done|done].
  split_and!; [|exact HF|exact Hc]. revert Ho. cbn. unfold pr_mode. cbn [pr_full pr_tick pr_left plat put_plat with_power]. by destruct (pr_full _).
Qed.

Definition run_set {mains} (s : ps_st (ps_ram false mains)) : res unit * ps_st (ps_ram false mains) :=
  tfm_ps_set demo_max 5 7 2 0 s.
Definition two {mains} (s : ps_st (ps_ram false mains)) := set_vecs [9; 9] s.

Lemma resets_off (s : ps_st (ps_ram false false)) : resets demo_assets demo_max s (reset s).
Proof. split; [done|]. split; [done|apply object_zero_boot]. Qed.

Lemma pair_eta {A B : Type} (x : A * B) a : fst x = a -> x = (a, snd x).
Proof. by destruct x; intros <-. Qed.

Lemma two_data {mains} (s : ps_st (ps_ram false mains)) : sub_bytes 0 2 (nth 1 (in_vec (two s)) []) = [9; 9].
Proof. reflexivity. Qed.

Lemma two_bytes {mains} {s : ps_st (ps_ram false mains)} : Forall is_byte (nth 1 (in_vec (two s)) []).
Proof. change (nth 1 (in_vec (two s)) []) with [9; 9]. small_bytes. Qed.

Lemma two_room : iv_room (two (@one true)).
Proof. by vm_compute. Qed.

Lemma two_room_cut : iv_room (two (with_power 4 (@one false))).
Proof. by vm_compute. Qed.

#[local] Opaque one fresh.

Lemma two_holds {mains} (s : ps_st (ps_ram false mains)) A : holds True s A -> holds True (two s) A.
Proof. apply holds_vecs. Qed.

Lemma run_set_pair {mains} (s : ps_st (ps_ram false mains)) : tfm_ps_set demo_max 5 7 2 0 s = (fst (run_set s), snd (run_set s)).
Proof. unfold run_set. apply surjective_pairing. Qed.

Lemma run_set_ok {mains} (s : ps_st (ps_ram false mains)) : fst (run_set s) = Ok tt -> tfm_ps_set demo_max 5 7 2 0 s = (Ok tt, snd (run_set s)).
Proof. intros <-. apply run_set_pair. Qed.

Lemma client5 : client_ok 5.
Proof. done. Qed.
Lemma uid7 : 0 <= 7 < 18446744073709551616.
Proof. done. Qed.
Lemma flags0 : 0 <= 0 < 4294967296.
Proof. done. Qed.
Lemma size2 : 0 <= 2.
Proof. done. Qed.

(** The asset is replaced. *)
Definition replaced : ps_st (ps_ram false true) := snd (run_set (two one)).

Lemma ps_set_spec_witness : on replaced /\ holds True replaced (<[(5, 7) := (0, [9; 9])]> one_assets).
Proof.
  assert (fst (run_set (two (@one true))) = Ok tt) as Hok by (by vm_compute).
  assert (on replaced) as Hon by (by vm_compute). split; [exact Hon|].
  pose proof (ps_set_spec demo_sp demo_assets demo_max True (two (@one true)) one_assets 5 7 2 0 (Ok tt) replaced demo_config
    (two_holds _ _ one_holds_mains) client5 uid7 flags0 size2 two_bytes two_room (run_set_ok _ Hok) Hon)
    as (_ & _ & Hh).
  rewrite two_data in Hh. exact Hh.
Defined.

(** Power is lost right after the table was written. *)
Definition cut_set : ps_st (ps_ram false false) := snd (run_set (two (with_power 4 one))).

Lemma cut_set_cut : cut cut_set.
Proof. by vm_compute. Qed.

Lemma ps_set_power_loss_witness :
  cut cut_set /\ comes_back demo_sp demo_assets demo_max cut_set (fun A' => A' = one_assets \/ A' = <[(5, 7) := (0, [9; 9])]> one_assets).
Proof.
  split; [exact cut_set_cut|].
  pose proof (ps_set_power_loss demo_sp demo_assets demo_max (two (with_power 4 one)) one_assets 5 7 2 0
    (fst (run_set (two (with_power 4 one)))) (snd (run_set (two (with_power 4 one)))) demo_config
    (two_holds _ _ (volume_power 3 _ _ _ one_holds_cut))
    client5 uid7 flags0 size2 two_bytes two_room_cut (run_set_pair _) cut_set_cut) as Hback.
  rewrite two_data in Hback. exact Hback.
Defined.

Definition run_get := tfm_ps_get (K := list Z) demo_max 5 7 1 10 (with_vecs [[]; []; []; []] (@one true)).

Lemma one_get : one_assets !! (5, 7) = Some (0, [1; 2; 3]).
Proof. reflexivity. Qed.

Lemma run_get_ok : fst run_get = Ok 2.
Proof. by vm_compute. Qed.

Lemma offset1 : 0 <= 1.
Proof. done. Qed.
Lemma size10 : 0 <= 10.
Proof. done. Qed.

Lemma ps_get_spec_witness : nth 0 (out_vec (snd run_get)) [] = [2; 3].
Proof.
  pose proof (ps_get_spec demo_sp demo_assets demo_max True (with_vecs [[]; []; []; []] one) one_assets 5 7 1 10 (Ok 2) (snd run_get)
    demo_config (holds_vecs _ _ _ _ one_holds_mains) offset1 size10 (pair_eta _ _ run_get_ok)) as [_ Hg].
  rewrite one_get in Hg. destruct Hg as (_ & _ & Hout). rewrite Hout. reflexivity.
Defined.

Definition run_remove {mains} (s : ps_st (ps_ram false mains)) := tfm_ps_remove demo_max 5 7 s.

Lemma remove_ok : fst (run_remove (@one true)) = Ok tt /\ on (snd (run_remove (@one true))).
Proof. by vm_compute. Qed.

Lemma remove_cut : cut (snd (run_remove (with_power 3 (@one false)))).
Proof. by vm_compute. Qed.

Lemma one_room {mains} : iv_room (@one mains).
Proof. destruct mains; by vm_compute. Qed.

Lemma one_cut_room : iv_room (with_power 3 (@one false)).
Proof. by vm_compute. Qed.

Lemma run_remove_pair {mains} (s : ps_st (ps_ram false mains)) r : fst (run_remove s) = r ->
  tfm_ps_remove demo_max 5 7 s = (r, snd (run_remove s)).
Proof. apply pair_eta. Qed.

Lemma ps_remove_spec_witness :
  holds True (snd (run_remove (@one true))) (delete (5, 7) one_assets) /\
  comes_back demo_sp demo_assets demo_max (snd (run_remove (with_power 3 (@one false)))) (fun A' => A' = one_assets \/ A' = delete (5, 7) one_assets).
Proof.
  split.
  - pose proof (ps_remove_spec demo_sp demo_assets demo_max True (@one true) one_assets 5 7 (Ok tt) (snd (run_remove (@one true)))
      demo_config one_holds_mains one_room (run_remove_pair _ _ (proj1 remove_ok))) as [Hon _].
    exact (proj2 (Hon (proj2 remove_ok))).
  - pose proof (ps_remove_spec demo_sp demo_assets demo_max True (with_power 3 (@one false)) one_assets 5 7 (fst (run_remove (with_power 3 (@one false))))
      (snd (run_remove (with_power 3 (@one false)))) demo_config (volume_power 2 _ _ _ one_holds_cut) one_cut_room (run_remove_pair (with_power 3 (@one false)) _ eq_refl)) as [_ Hoff].
    exact (Hoff remove_cut I).
Defined.

Definition booted : ps_st (ps_ram false false) := snd (boot (reset one)).

Lemma booted_ok : boot (reset one) = (Ok tt, booted).
Proof. unfold booted. apply pair_eta. by vm_compute. Qed.

Lemma booted_on : ~ off booted.
Proof. by vm_compute. Qed.

Lemma ps_restart_keeps_assets_witness : holds True booted one_assets.
Proof.
  destruct (ps_restart_keeps_assets demo_sp demo_assets demo_max one one_assets (reset one) true (Ok tt) booted
    demo_config one_holds_cut (resets_off one) booted_ok) as [[_ Hh]|Hoff]; [exact Hh|].
  destruct (booted_on Hoff).
Defined.

Definition first_started : ps_st (ps_ram false false) := snd (boot demo_blank).

Lemma first_started_ok : tfm_ps_init demo_sp demo_assets true (@demo_blank false) = (Ok tt, first_started).
Proof. unfold first_started, boot. apply pair_eta. by vm_compute. Qed.

Lemma first_started_on : ~ off first_started.
Proof. by vm_compute. Qed.

Lemma blank_iv {mains} : iv_ok (ps_crypto_iv_buf (@demo_blank mains)) /\ iv_room (@demo_blank mains).
Proof. split; [split; [done|by apply Forall_fill]|by vm_compute]. Qed.

Lemma blank_files fid : pl_files (plat (@demo_blank false)) !! fid = None.
Proof. change (pl_files (plat (@demo_blank false))) with (∅ : gmap Z (list Z)). apply lookup_empty. Qed.

Lemma ps_first_start_empty_witness : holds True first_started ∅.
Proof.
  pose proof (@blank_live false) as (Hon & _ & Hctr).
  destruct (ps_first_start_empty demo_sp demo_assets demo_max (@demo_blank false) (Ok tt) first_started 0 demo_config (object_zero_boot _)
    (proj1 blank_iv) (proj2 blank_iv) Hon Hctr (Z.le_refl 0) (blank_files _) (blank_files _) first_started_ok) as [[_ Hh]|Hoff]; [exact Hh|].
  destruct (first_started_on Hoff).
Defined.

(** A start on the files of a running store mounts its table. *)
Definition kept_boot : ps_st (ps_ram false false) := snd (boot_keep (reset one)).

Lemma kept_boot_ok : tfm_ps_init demo_sp demo_assets false (reset (@one false)) = (Ok tt, kept_boot).
Proof. unfold kept_boot, boot_keep. apply pair_eta. by vm_compute. Qed.

Lemma kept_boot_on : on (reset (@one false)) /\ ctrs (plat (reset (@one false))) 2 2 2.
Proof. by vm_compute. Qed.

Lemma ps_rollback_protection_witness : current 2 2 2 (obj_table kept_boot).
Proof.
  destruct kept_boot_on as (Hon & C1 & C2 & C3).
  pose proof (ps_rollback_protection (K := list Z) demo_sp demo_assets (reset (@one false)) kept_boot Hon kept_boot_ok) as (Hc & _). cbv zeta in Hc.
  rewrite C1, C2, C3 in Hc. exact Hc.
Defined.

(** Another client sets an asset with the same identifier. *)
Definition other_msg : ps_msg_t := PsMsg TFM_PS_SET 6 [8; 2; 4] [].
Definition other_vecs {mains} (s : ps_st (ps_ram false mains)) := with_vecs [le_bytes 8 7; [9; 9]; le_bytes 4 0; []] s.
Definition run_other : res unit * ps_st (ps_ram false true) :=
  tfm_protected_storage_service_sfn demo_max 0 other_msg (other_vecs one).

Lemma other_message : message (other_vecs (@one true)) other_msg.
Proof.
  split; [done| | |].
  - cbn [other_vecs with_vecs put_out put_in in_vec]. apply Forall_cons_2; [apply le_bytes_is_byte|].
    apply Forall_cons_2; [small_bytes|]. apply Forall_cons_2; [apply le_bytes_is_byte|]. by repeat constructor.
  - intros [|[|[|[]]]]; cbn; lia.
  - intros []; cbn; lia.
Qed.

Lemma other_holds : holds True (other_vecs (@one true)) one_assets.
Proof. apply holds_vecs, one_holds_mains. Qed.

Lemma other_room : iv_room (other_vecs (@one true)).
Proof. by vm_compute. Qed.

Lemma other_client : m_client_id other_msg <> 5.
Proof. done. Qed.

Lemma other_pair : tfm_protected_storage_service_sfn demo_max 0 other_msg (other_vecs one) = (fst run_other, snd run_other).
Proof. unfold run_other. apply surjective_pairing. Qed.

Lemma other_on : on (snd run_other) /\ fst run_other = Ok tt.
Proof. by vm_compute. Qed.

Lemma ps_client_isolation_witness : fst run_other = Ok tt /\
  exists A', holds True (snd run_other) A' /\ A' !! (5, 7) = Some (0, [1; 2; 3]).
Proof.
  split; [exact (proj2 other_on)|].
  pose proof (ps_client_isolation demo_sp demo_assets demo_max True (other_vecs one) one_assets 5 other_msg 0 (fst run_other) (snd run_other)
    demo_config other_holds other_message other_room other_client other_pair) as [Hon _].
  destruct (Hon (proj1 other_on)) as (A' & Hh & Hs). exists A'. split; [exact Hh|]. rewrite Hs. exact one_get.
Defined.

Lemma uid7_pos : 0 < 7 < 18446744073709551616.
Proof. done. Qed.
Lemma flags0_supported : Z.land 0 (Z.lnot PS_FLAGS_SUPPORTED) = 0.
Proof. done. Qed.
Lemma size2_fits : 0 <= 2 <= demo_max.
Proof. done. Qed.
Lemma two_there {mains} (s : ps_st (ps_ram false mains)) : 2 <= zlen (nth 1 (in_vec (two s)) []).
Proof. done. Qed.
Lemma one_rewritable a : one_assets !! (5, 7) = Some a -> write_once a = false.
Proof. rewrite one_get. by intros [= <-]. Qed.
Lemma one_fits : Z.of_nat (base.size one_assets) + match one_assets !! (5, 7) with Some _ => 0 | None => 1 end <= Z.of_nat demo_assets.
Proof. by vm_compute. Qed.

Lemma ps_set_succeeds_witness : exists s', run_set (two (@one true)) = (Ok tt, s') /\
  holds True s' (<[(5, 7) := (0, [9; 9])]> one_assets).
Proof.
  destruct (ps_set_succeeds demo_sp demo_assets demo_max (two one) one_assets 5 7 2 0 demo_config (two_holds _ _ one_holds_mains)
    client5 uid7_pos flags0 flags0_supported size2_fits (two_there _) two_bytes two_room one_rewritable one_fits) as (s' & Hrun & Hh).
  exists s'. split; [exact Hrun|]. rewrite two_data in Hh. exact Hh.
Defined.

(** * Protected storage: four defects, computed

    Runs of the modelled code that lose assets or reuse an IV. *)

Section runs.
Context {limited mains : bool}.
Abbreviation st := (ps_st (ps_ram limited mains)).

(** A first start, then a set by client 5 of identifier 7. *)
Definition with_asset (flags : Z) (s : st) : st := snd (do_set 5 7 [1; 2; 3] flags (snd (boot s))).
Definition status {A} (r : res A * st) : psa_status_t := status_of (fst r).
End runs.

Definition cut_store : ps_st (ps_ram false false) := with_asset 0 demo_cut.

(** Power is lost when counter 1 has been incremented and the new table has
    not been written.  The first start mounts the old table by counter 3 and
    then aligns counters 2 and 3 with counter 1 without saving the table: the
    second start finds no table for the counters, and with
    [PS_CREATE_FLASH_LAYOUT] it erases the store. *)
Definition cut_save : ps_st (ps_ram false false) := snd (do_set 5 7 [9; 9] 0 (with_power 3 cut_store)).
Definition first_boot := boot_keep (reset cut_save).
Definition second_boot := boot_keep (reset (snd first_boot)).

Theorem second_start_after_cut_fails :
  status first_boot = PSA_SUCCESS /\ fst (do_get 5 7 (snd first_boot)) = Ok [1; 2; 3] /\
  status second_boot = PSA_ERROR_GENERIC_ERROR /\
  status (do_get 5 7 (snd (boot (reset (snd first_boot))))) = PSA_ERROR_DOES_NOT_EXIST.
Proof. by vm_compute. Qed.

(** Power is lost after the new object was written; the next set of the
    identifier encrypts different data with the same key and IV. *)
Definition cut_object : ps_st (ps_ram false false) := snd (do_set 5 7 [9; 9] 0 (with_power 2 cut_store)).
Definition after_cut := do_set 5 7 [8; 8] 0 (snd (boot_keep (reset cut_object))).
Definition new_file (s : ps_st (ps_ram false false)) : list Z := default [] (pr_files (plat s) !! 3).

Theorem iv_used_twice :
  status after_cut = PSA_SUCCESS /\ sub_bytes 0 12 (new_file cut_object) = sub_bytes 0 12 (new_file (snd after_cut)) /\
  sub_bytes 0 12 (new_file cut_object) <> [] /\ new_file cut_object <> new_file (snd after_cut).
Proof. split_and!; by vm_compute. Qed.

(** *** A file system that runs out of space

    The platform refuses a file that does not fit, with power on, as
    [psa_its_set] may; it satisfies the laws of [PsLaws]. *)

Definition limit (space : Z) (s : ps_st (ps_ram true true)) : ps_st (ps_ram true true) :=
  put_plat (let p := plat s in PsRam (pr_files p) (pr_1 p) (pr_2 p) (pr_3 p) (pr_left p) space (pr_full p)) s.

Definition space_store (flags : Z) : ps_st (ps_ram true true) := with_asset flags (ps_off (PsRam ∅ 0 0 0 1000 10000 false)).

(** The new content does not fit.  The old file stays, but the table is saved
    with the tag of the new content, which [g_obj_tbl_info.tag] points to: the
    asset cannot be read any more. *)
Definition too_big := do_set 5 7 (repeat 9 140) 0 (limit 330 (space_store 0)).

Theorem failed_set_loses_asset :
  pl_mode (plat (snd too_big)) = Faulted /\ status too_big = PSA_ERROR_INSUFFICIENT_STORAGE /\ status (do_get 5 7 (snd too_big)) = PSA_ERROR_GENERIC_ERROR.
Proof. by vm_compute. Qed.

(** A set of a write-once asset is refused, and the table is saved again on
    the error path.  When that fails, the entry that was just restored is
    deleted, because it is also the new one, and its file is removed. *)
Definition refused := do_set 5 7 [4] 0 (limit 177 (space_store 1)).

Theorem refused_set_deletes_write_once_asset :
  pl_mode (plat (snd refused)) = Faulted /\ status refused = PSA_ERROR_NOT_PERMITTED /\ status (do_get 5 7 (snd refused)) = PSA_ERROR_DOES_NOT_EXIST /\
  status (do_get 5 7 (snd (boot_keep (reset (snd refused))))) <> PSA_SUCCESS.
Proof. by vm_compute. Qed.
