(* ===== verification/SpmLists.v ===== *)
(** * Linked lists in memory ([spm/include/lists.h])

    The field [link] of the nodes at each address is a function from addresses
    to addresses; 0 is [NULL].  A list hangs off the link field of a head
    node.  [chain l h xs] says which nodes follow [h].  The second part is the
    pool of connections ([spm/core/tfm_pools.c]) over such lists. *)

From S2P Require Import Prelude.
From stdpp Require Import base list numbers functions sets.
From Stdlib Require Import ZArith Lia.

Open Scope Z_scope.

Abbreviation links := (Z -> Z).

Implicit Types (l : links) (xs ys : list Z).

(** ** The macros *)

Definition UNI_LISI_INIT_NODE (head : Z) (l : links) : links := if head =? 0 then l else <[head := 0]> l.

Definition UNI_LIST_INSERT_AFTER (posi node : Z) (l : links) : links :=
  let l := <[node := l posi]> l in <[posi := node]> l.

Definition UNI_LIST_IS_EMPTY (node : Z) (l : links) : bool := (node =? 0) || (l node =? 0).

Definition UNI_LIST_NEXT_NODE (node : Z) (l : links) : Z := l node.

Definition UNI_LIST_REMOVE_NODE (prev node : Z) (l : links) : links :=
  let l := <[prev := l node]> l in <[node := 0]> l.

(** [pnode] points to the link field of the node before. *)
Definition UNI_LIST_REMOVE_NODE_BY_PNODE (pnode : Z) (l : links) : links := <[pnode := l (l pnode)]> l.

Definition UNI_LIST_MOVE_AFTER (posi prev node : Z) (l : links) : links :=
  if prev =? 0 then l
  else
    let l := <[prev := l node]> l in
    let l := <[node := l posi]> l in
    <[posi := node]> l.

(** A loop over the nodes behind [pnode] which threads a value: the body gets
    the node before and the node. *)
Fixpoint UNI_LIST_FOREACH_NODE_PNODE {A} (fuel : nat) (body : Z -> Z -> A -> A) (l : links) (pnode : Z) (acc : A) : A :=
  match fuel with
  | O => acc
  | S fuel =>
      let node := l pnode in
      if node =? 0 then acc else UNI_LIST_FOREACH_NODE_PNODE fuel body l node (body pnode node acc)
  end.

(** ** Chains *)

Fixpoint chain (l : links) (h : Z) (xs : list Z) : Prop :=
  match xs with
  | [] => l h = 0
  | x :: xs => l h = x /\ x <> 0 /\ chain l x xs
  end.

Lemma nodes_chain_ext l l' h xs : (forall x, x ∈ h :: xs -> l' x = l x) -> chain l h xs -> chain l' h xs.
Proof.
  revert h. induction xs as [|x xs IH]; cbn [chain app]; intros h Heq.
  - rewrite Heq; [done|set_solver].
  - rewrite Heq by set_solver. intros (? & ? & Hc). split_and!; [done|done|]. apply IH; [set_solver|done].
Qed.

Lemma chain_other l h xs a v : a ∉ h :: xs -> chain l h xs -> chain (<[a := v]> l) h xs.
Proof. intros Ha. apply nodes_chain_ext. intros x Hx. apply fn_lookup_insert_ne. set_solver. Qed.

Lemma chain_nonzero l h xs x : chain l h xs -> x ∈ xs -> x <> 0.
Proof. revert h. induction xs as [|y xs IH]; cbn [chain app]; intros h; [set_solver|]. intros (? & ? & Hc) [->|]%elem_of_cons; eauto. Qed.

Lemma chain_inj l h xs ys : chain l h xs -> chain l h ys -> xs = ys.
Proof.
  revert h ys. induction xs as [|x xs IH]; intros h [|y ys]; cbn [chain app]; [done|intros ? (?&?&_); congruence|intros (?&?&_) ?; congruence|].
  intros (Hx & _ & Hxs) (Hy & _ & Hys). rewrite <- Hx, <- Hy in *. f_equal. eauto.
Qed.

Lemma chain_empty l h xs : chain l h xs -> (l h =? 0) = match xs with [] => true | _ => false end.
Proof. destruct xs as [|x xs]; cbn [chain app]; [by intros ->|]. intros (-> & Hx & _). by apply Z.eqb_neq. Qed.

Lemma chain_insert l h xs x : h <> x -> x <> 0 -> x ∉ xs -> h ∉ xs -> chain l h xs -> chain (UNI_LIST_INSERT_AFTER h x l) h (x :: xs).
Proof.
  intros Hhx Hx0 Hx Hh Hc. unfold UNI_LIST_INSERT_AFTER; cbv zeta. cbn [chain app]. split_and!; [apply fn_lookup_insert|done|].
  assert (forall y, y ∈ xs -> <[h:=x]> (<[x:=l h]> l) y = l y) as Heq.
  { intros y Hy. rewrite !fn_lookup_insert_ne; [done| |]; intros ->; done. }
  destruct xs as [|y xs]; cbn [chain app] in *.
  - by rewrite fn_lookup_insert_ne, fn_lookup_insert by done.
  - rewrite fn_lookup_insert_ne, fn_lookup_insert by done. destruct Hc as (? & ? & Hc). split_and!; [done|done|].
    eapply nodes_chain_ext; [|exact Hc]. exact Heq.
Qed.

Lemma chain_remove_first l h x xs : NoDup (h :: x :: xs) -> chain l h (x :: xs) -> chain (UNI_LIST_REMOVE_NODE h x l) h xs.
Proof.
  intros [Hh [Hx Hnd]%NoDup_cons]%NoDup_cons (Hl & Hx0 & Hc). unfold UNI_LIST_REMOVE_NODE; cbv zeta.
  assert (h <> x) by set_solver.
  destruct xs as [|y xs]; cbn [chain app] in *.
  - by rewrite fn_lookup_insert_ne, fn_lookup_insert by done.
  - rewrite fn_lookup_insert_ne, fn_lookup_insert by done. destruct Hc as (? & ? & Hc). split_and!; [done|done|].
    eapply nodes_chain_ext; [|exact Hc]. intros z Hz. rewrite !fn_lookup_insert_ne by set_solver. done.
Qed.

(** The node before what follows [xs] in the list of [h]. *)
Definition before (h : Z) (xs : list Z) : Z := List.last xs h.

Lemma before_cons h x xs : before h (x :: xs) = before x xs.
Proof. unfold before. destruct xs as [|y xs]; [done|]. cbn [chain app]. revert y. induction xs as [|z xs IH]; intros y; [done|apply IH]. Qed.

Lemma before_in h xs : before h xs ∈ h :: xs.
Proof.
  revert h. induction xs as [|x xs IH]; intros h; [set_solver|]. rewrite before_cons. specialize (IH x). set_solver.
Qed.

Lemma chain_at l h xs x ys : chain l h (xs ++ x :: ys) -> l (before h xs) = x.
Proof.
  revert h. induction xs as [|y xs IH]; intros h; [by intros [? _]|]. rewrite before_cons. intros (_ & _ & Hc). by apply IH.
Qed.

Lemma chain_remove l h xs x ys :
  NoDup (h :: xs ++ x :: ys) -> chain l h (xs ++ x :: ys) -> chain (UNI_LIST_REMOVE_NODE_BY_PNODE (before h xs) l) h (xs ++ ys).
Proof.
  unfold UNI_LIST_REMOVE_NODE_BY_PNODE. intros Hnd Hc. rewrite (chain_at _ _ _ _ _ Hc). revert h Hnd Hc.
  induction xs as [|y xs IH]; intros h; cbn [app chain].
  - intros [Hh [Hx _]%NoDup_cons]%NoDup_cons (_ & _ & Hc). unfold before. cbn [chain app].
    destruct ys as [|y ys]; cbn [chain app] in *; rewrite fn_lookup_insert; [done|]. destruct Hc as (-> & Hy & Hc).
    split_and!; [done|done|]. apply chain_other; [set_solver|done].
  - intros [Hh Hnd]%NoDup_cons (Hl & Hy & Hc). rewrite before_cons.
    assert (before y xs <> h) as Hne by (intros <-; apply Hh; pose proof (before_in y xs); set_solver).
    rewrite fn_lookup_insert_ne by done. split_and!; [done|done|]. by apply IH.
Qed.

Lemma chain_move l h x xs y ys :
  NoDup (h :: x :: xs ++ y :: ys) -> chain l h (x :: xs ++ y :: ys) ->
  chain (UNI_LIST_MOVE_AFTER h (before h (x :: xs)) y l) h (y :: x :: xs ++ ys).
Proof.
  intros Hnd Hc. pose proof (chain_at l h (x :: xs) y ys Hc) as Hat. pose proof (chain_remove l h (x :: xs) y ys Hnd Hc) as Hrem.
  pose proof (before_in x xs) as Hin. rewrite <- (before_cons h) in Hin. set (p := before h (x :: xs)) in *.
  assert (NoDup (h :: y :: (x :: xs) ++ ys)) as Hnd'.
  { pose proof (Permutation_middle (x :: xs) ys y) as Hp. by rewrite Hp. }
  apply NoDup_cons in Hnd' as [Hh Hnd']. apply NoDup_cons in Hnd' as [Hy _]. rewrite elem_of_cons in Hh.
  assert (y <> 0) as Hy0 by (eapply (chain_nonzero _ _ _ _ Hc); apply elem_of_cons; right; apply elem_of_app; right; left).
  assert (p ∈ x :: xs ++ y :: ys) as Hp by (apply elem_of_cons in Hin as [->|Hin]; [left|right; apply elem_of_app; by left]).
  pose proof (chain_nonzero _ _ _ _ Hc Hp) as Hp0.
  unfold UNI_LIST_MOVE_AFTER. rewrite (proj2 (Z.eqb_neq _ _) Hp0). unfold UNI_LIST_REMOVE_NODE_BY_PNODE in Hrem. rewrite Hat in Hrem.
  apply (chain_insert _ _ _ y); [tauto|done|exact Hy|tauto|exact Hrem].
Qed.

(** ** Loops *)

Fixpoint chain_fold {A} (body : Z -> Z -> A -> A) (h : Z) (xs : list Z) (acc : A) : A :=
  match xs with
  | [] => acc
  | x :: xs => chain_fold body x xs (body h x acc)
  end.

(** The loop visits the nodes of the list, given one unit of fuel more than
    there are nodes. *)
Lemma foreach_chain {A} fuel (body : Z -> Z -> A -> A) l h xs acc :
  chain l h xs -> (length xs < fuel)%nat -> UNI_LIST_FOREACH_NODE_PNODE fuel body l h acc = chain_fold body h xs acc.
Proof.
  revert fuel h acc. induction xs as [|x xs IH]; intros [|fuel] h acc Hc Hlen; cbn in *; try lia.
  - by rewrite Hc.
  - destruct Hc as (-> & Hx & Hc). rewrite (proj2 (Z.eqb_neq _ _) Hx). apply IH; [done|lia].
Qed.

(** The last node that satisfies [P], through the node before it, and how many
    there are. *)
Definition last_found (P : Z -> bool) (pnode node : Z) (acc : option Z * Z) : option Z * Z :=
  if P node then (Some pnode, acc.2 + 1) else acc.

Definition matches (P : Z -> bool) (xs : list Z) : list Z := List.filter P xs.

Lemma last_found_spec P h xs r n :
  match chain_fold (last_found P) h xs (r, n) with
  | (r', n') => n' = n + Z.of_nat (length (matches P xs)) /\ ((matches P xs = [] /\ r' = r) \/
       exists ys x zs, xs = ys ++ x :: zs /\ P x = true /\ matches P zs = [] /\ r' = Some (before h ys))
  end.
Proof.
  revert h r n. induction xs as [|x xs IH]; intros h r n; cbn; [split; [lia|by left]|].
  unfold matches in *. unfold last_found at 2. cbn. destruct (P x) eqn:HP; cbn.
  - specialize (IH x (Some h) (n + 1)). destruct (chain_fold _ _ _ _) as [r' n']. destruct IH as [Hn Hr]. split; [cbn [length]; lia|]. right.
    destruct Hr as [[Hm ->]|(ys & y & zs & -> & Hy & Hz & ->)]; [by exists [], x, xs|].
    exists (x :: ys), y, zs. rewrite before_cons. done.
  - specialize (IH x r n). destruct (chain_fold _ _ _ _) as [r' n']. destruct IH as [Hn Hr]. split; [done|].
    destruct Hr as [[Hm ->]|(ys & y & zs & -> & Hy & Hz & ->)]; [by left|]. right.
    exists (x :: ys), y, zs. rewrite before_cons. done.
Qed.

(** * Memory pools of the SPM ([spm/core/tfm_pools.c])

    A pool is a header and [num] chunks of equal size in one buffer; the free
    chunks are linked from the header.  The two header words of the chunk at
    each address are functions: its link and its magic number. *)

Definition POOL_MAGIC_ALLOCATED : Z := 0xF0F0CCAA.
Definition SPM_ERROR_BAD_PARAMETERS : psa_status_t := -249.

(** [sizeof(struct tfm_pool_chunk_t)], the offset of [data] in it, and
    [sizeof(struct tfm_pool_instance_t)] *)
Definition CHUNK_HEAD : Z := 8.
Definition INSTANCE_HEAD : Z := 12.

(** The pool's own fields, and the fields [next] and [magic] in memory. *)
Record tfm_pool_instance_t : Type := Pool {
  p_next : links;
  p_magic : Z -> Z;
  chunksz : Z;
  pool_sz : Z;
}.

(** [spm_memset(pool, 0, poolsz)], for one of the fields in memory. *)
Definition clear_field (pool poolsz : Z) (f : Z -> Z) : Z -> Z :=
  fun a => if (pool <=? a) && (a <? pool + poolsz) then 0 else f a.

Fixpoint init_chunks (num : nat) (pool pchunk chunksz : Z) (l : links) : links :=
  match num with
  | O => l
  | S num => init_chunks num pool (pchunk + CHUNK_HEAD + chunksz) chunksz (UNI_LIST_INSERT_AFTER pool pchunk l)
  end.

Definition tfm_pool_init (pool poolsz csz : Z) (num : Z) (p : tfm_pool_instance_t) : psa_status_t * tfm_pool_instance_t :=
  if (pool =? 0) || (num =? 0) then (SPM_ERROR_BAD_PARAMETERS, p)
  else if negb (poolsz =? u32 (u32 (u32 (csz + CHUNK_HEAD) * num) + INSTANCE_HEAD)) then (SPM_ERROR_BAD_PARAMETERS, p)
  else
    let l := UNI_LISI_INIT_NODE pool (clear_field pool poolsz (p_next p)) in
    let l := init_chunks (Z.to_nat num) pool (pool + INSTANCE_HEAD) csz l in
    (PSA_SUCCESS, Pool l (clear_field pool poolsz (p_magic p)) csz poolsz).

(** Returns the data of the chunk, or [NULL]. *)
Definition tfm_pool_alloc (pool : Z) (p : tfm_pool_instance_t) : Z * tfm_pool_instance_t :=
  if pool =? 0 then (0, p)
  else if UNI_LIST_IS_EMPTY pool (p_next p) then (0, p)
  else
    let node := UNI_LIST_NEXT_NODE pool (p_next p) in
    let l := UNI_LIST_REMOVE_NODE pool node (p_next p) in
    (node + CHUNK_HEAD, Pool l (<[node := POOL_MAGIC_ALLOCATED]> (p_magic p)) (chunksz p) (pool_sz p)).

(** The build without assertions ([NDEBUG]). *)
Definition tfm_pool_free (pool ptr : Z) (p : tfm_pool_instance_t) : tfm_pool_instance_t :=
  let pchunk := ptr - CHUNK_HEAD in
  Pool (UNI_LIST_INSERT_AFTER pool pchunk (p_next p)) (<[pchunk := 0]> (p_magic p)) (chunksz p) (pool_sz p).

Definition is_valid_chunk_data_in_pool (pool data : Z) (p : tfm_pool_instance_t) : bool :=
  let chunks_start := pool + INSTANCE_HEAD in
  let chunks_offset := u32 (data - chunks_start) in
  if (data <? chunks_start) || (chunks_offset >=? pool_sz p) then false
  else if negb (chunks_offset mod (chunksz p + CHUNK_HEAD) =? CHUNK_HEAD) then false
  else p_magic p (data - CHUNK_HEAD) =? POOL_MAGIC_ALLOCATED.

(** ** A pool at an address *)

Section pool.
Context (pool csz : Z) (num : nat).
Implicit Types (p : tfm_pool_instance_t) (fl : list Z).

Definition stride : Z := csz + CHUNK_HEAD.
Definition size_of_pool : Z := stride * Z.of_nat num + INSTANCE_HEAD.

(** The data of chunk [i]. *)
Definition slot_at (i : Z) : Z := pool + INSTANCE_HEAD + CHUNK_HEAD + i * stride.
Definition slot (d : Z) : Prop := exists i, 0 <= i < Z.of_nat num /\ d = slot_at i.

(** The pool lies in memory. *)
Record pool_fits : Prop := {
  pf_addr : 0 < pool;
  pf_size : 0 < csz;
  pf_end : pool + size_of_pool < 4294967296;
}.

(** The address one chunk behind the last, which the range check lets through. *)
Definition behind : Z := slot_at (Z.of_nat num).

(** The pool with the free chunks [fl]. *)
Record pool_lists p fl : Prop := {
  po_csz : chunksz p = csz;
  po_size : pool_sz p = size_of_pool;
  po_free : chain (p_next p) pool ((fun d => d - CHUNK_HEAD) <$> fl);
  po_nodup : NoDup fl;
  po_slots : Forall slot fl;
  po_magic : forall d, slot d -> p_magic p (d - CHUNK_HEAD) = POOL_MAGIC_ALLOCATED <-> d ∉ fl;
}.

(** The word behind the buffer is not the magic number. *)
Record pool_ok p fl : Prop := {
  po_lists :> pool_lists p fl;
  po_behind : p_magic p (behind - CHUNK_HEAD) <> POOL_MAGIC_ALLOCATED;
}.

Hypothesis Hfit : pool_fits.

Lemma stride_pos : 8 < stride.
Proof. unfold stride, CHUNK_HEAD. pose proof (pf_size Hfit). lia. Qed.

Lemma slot_range d : slot d -> pool + 20 <= d /\ d + csz <= pool + size_of_pool.
Proof.
  intros (i & Hi & ->). unfold slot_at, size_of_pool, INSTANCE_HEAD, CHUNK_HEAD in *. pose proof stride_pos. unfold stride, CHUNK_HEAD in *. nia.
Qed.

Lemma slot_at_inj i j : slot_at i = slot_at j -> i = j.
Proof. unfold slot_at. pose proof stride_pos. nia. Qed.

Lemma slot_pos d : slot d -> 8 < d.
Proof. intros Hd%slot_range. pose proof (pf_addr Hfit). lia. Qed.

Lemma fmap_not_in d fl : d ∉ fl -> d - CHUNK_HEAD ∉ (fun d => d - CHUNK_HEAD) <$> fl.
Proof. intros Hd (e & He & Hin)%list_elem_of_fmap. assert (d = e) as -> by lia. done. Qed.

Lemma pool_not_in fl : Forall slot fl -> pool ∉ (fun d => d - CHUNK_HEAD) <$> fl.
Proof.
  intros Hsl (e & He & Hin)%list_elem_of_fmap. rewrite Forall_forall in Hsl. pose proof (slot_range e (Hsl e Hin)). unfold CHUNK_HEAD in *. lia.
Qed.

(** *** The check of a pointer *)

Lemma offset_chunk off : 0 <= off < size_of_pool -> off mod stride = CHUNK_HEAD -> exists i, 0 <= i <= Z.of_nat num /\ off = i * stride + CHUNK_HEAD.
Proof.
  intros Ho Hm. pose proof stride_pos. exists (off / stride). pose proof (Z.div_mod off stride).
  assert (0 <= off / stride) by (apply Z.div_pos; lia). split; [|lia]. split; [done|].
  unfold size_of_pool, INSTANCE_HEAD, CHUNK_HEAD in *. nia.
Qed.

(** A pointer is accepted exactly when it is an allocated chunk's, or the one
    behind the last chunk and the magic number happens to be there. *)
Lemma is_valid_lists p fl d : pool_lists p fl -> 0 <= d < 4294967296 ->
  is_valid_chunk_data_in_pool pool d p = true <-> slot d /\ d ∉ fl \/ d = behind /\ p_magic p (behind - CHUNK_HEAD) = POOL_MAGIC_ALLOCATED.
Proof.
  intros [Hc Hs _ _ _ Hm] Hd. pose proof stride_pos as Hst. unfold is_valid_chunk_data_in_pool. rewrite Hc, Hs. fold stride.
  pose proof (pf_addr Hfit). pose proof (pf_end Hfit). unfold size_of_pool in *. split.
  - destruct (Z.ltb_spec d (pool + INSTANCE_HEAD)); [done|]. rewrite u32_id by (unfold INSTANCE_HEAD in *; lia). rewrite Z.geb_leb.
    destruct (Z.leb_spec (stride * Z.of_nat num + INSTANCE_HEAD) (d - (pool + INSTANCE_HEAD))); [done|]. cbn [orb].
    destruct (Z.eqb_spec ((d - (pool + INSTANCE_HEAD)) mod stride) CHUNK_HEAD) as [Hmod|]; [|done]. cbn [negb]. intros Hmag%Z.eqb_eq.
    apply offset_chunk in Hmod as (i & Hi & Hoff); [|unfold size_of_pool; lia].
    assert (d = slot_at i) as -> by (unfold slot_at; lia).
    destruct (decide (i = Z.of_nat num)) as [->|Hne]; [by right|left].
    assert (slot (slot_at i)) as Hsl by (exists i; split; [lia|done]). split; [done|]. by apply Hm.
  - intros Hcase. assert (p_magic p (d - CHUNK_HEAD) = POOL_MAGIC_ALLOCATED) as Hmag.
    { destruct Hcase as [[Hsl Hfree]|[-> Hb]]; [exact (proj2 (Hm d Hsl) Hfree)|exact Hb]. }
    assert (exists i, 0 <= i <= Z.of_nat num /\ d = slot_at i) as (i & Hi & ->).
    { destruct Hcase as [[(i & Hi & ->) _]|[-> _]]; [exists i|exists (Z.of_nat num)]; (split; [lia|done]). }
    assert (slot_at i - (pool + INSTANCE_HEAD) = i * stride + CHUNK_HEAD) as Hoff by (unfold slot_at; lia).
    rewrite (proj2 (Z.ltb_ge _ _)) by (unfold slot_at, INSTANCE_HEAD, CHUNK_HEAD; nia). rewrite Hoff.
    assert (0 <= i * stride + CHUNK_HEAD < stride * Z.of_nat num + INSTANCE_HEAD) by (unfold INSTANCE_HEAD, CHUNK_HEAD; nia).
    rewrite u32_id by lia. rewrite Z.geb_leb, (proj2 (Z.leb_gt _ _)) by lia. cbn [orb].
    rewrite Z.add_comm, Z.mod_add, Z.mod_small by (unfold CHUNK_HEAD in *; lia). rewrite Z.eqb_refl. cbn [negb]. by rewrite Hmag.
Qed.

Lemma is_valid_exact p fl d : pool_ok p fl -> 0 <= d < 4294967296 -> is_valid_chunk_data_in_pool pool d p = true <-> slot d /\ d ∉ fl.
Proof. intros [Hp Hb] Hd. rewrite (is_valid_lists p fl d Hp Hd). tauto. Qed.

(** *** Allocation *)

Lemma slot_not_behind d : slot d -> d <> behind.
Proof. intros (i & Hi & ->) ?%slot_at_inj. lia. Qed.

Lemma alloc_empty p : pool_lists p [] -> tfm_pool_alloc pool p = (0, p).
Proof.
  intros Hp. unfold tfm_pool_alloc, UNI_LIST_IS_EMPTY. pose proof (pf_addr Hfit). rewrite (proj2 (Z.eqb_neq pool 0)) by lia.
  by rewrite (chain_empty _ _ _ (po_free _ _ Hp)).
Qed.

Lemma alloc_lists p d fl : pool_lists p (d :: fl) -> exists p', tfm_pool_alloc pool p = (d, p') /\ pool_lists p' fl /\
  p_magic p' (behind - CHUNK_HEAD) = p_magic p (behind - CHUNK_HEAD).
Proof.
  intros [Hc Hs Hf Hnd Hsl Hm]. unfold tfm_pool_alloc, UNI_LIST_IS_EMPTY. pose proof (pf_addr Hfit). rewrite (proj2 (Z.eqb_neq pool 0)) by lia.
  rewrite (chain_empty _ _ _ Hf). cbn [fmap list_fmap orb]. unfold UNI_LIST_NEXT_NODE. pose proof Hf as (Hl & _ & _). rewrite Hl.
  eexists. split; [f_equal; lia|]. pose proof (pool_not_in _ Hsl) as Hni. inversion Hsl as [|? ? Hd Hsl']; subst.
  assert (NoDup ((fun d => d - CHUNK_HEAD) <$> d :: fl)) as Hnd' by (apply NoDup_fmap_2; [intros x y; lia|done]).
  apply NoDup_cons in Hnd as [Hnin Hnd]. split; [split|]; cbn [chunksz pool_sz p_next p_magic]; [done|done| |done|done| |].
  - apply chain_remove_first; [|exact Hf]. apply NoDup_cons. by split.
  - intros e He. destruct (decide (e = d)) as [->|Hne].
    + rewrite fn_lookup_insert. done.
    + rewrite fn_lookup_insert_ne by lia. rewrite Hm by done. rewrite not_elem_of_cons. tauto.
  - pose proof (slot_not_behind d Hd). by rewrite fn_lookup_insert_ne by lia.
Qed.

Lemma alloc_cons p d fl : pool_ok p (d :: fl) -> exists p', tfm_pool_alloc pool p = (d, p') /\ pool_ok p' fl.
Proof. intros [Hp Hb]. destruct (alloc_lists p d fl Hp) as (p' & He & Hp' & Hm). exists p'. split; [done|]. split; [done|by rewrite Hm]. Qed.

Lemma free_lists p d fl : pool_lists p fl -> slot d -> d ∉ fl -> pool_lists (tfm_pool_free pool d p) (d :: fl) /\
  p_magic (tfm_pool_free pool d p) (behind - CHUNK_HEAD) = p_magic p (behind - CHUNK_HEAD).
Proof.
  intros [Hc Hs Hf Hnd Hsl Hm] Hd Hni. unfold tfm_pool_free. pose proof (slot_range d Hd).
  split; [split|]; cbn [chunksz pool_sz p_next p_magic]; [done|done| |by apply NoDup_cons|by apply Forall_cons| |].
  - cbn [fmap list_fmap]. apply chain_insert; [unfold CHUNK_HEAD; lia|pose proof (slot_pos d Hd); unfold CHUNK_HEAD; lia|by apply fmap_not_in|by apply pool_not_in|exact Hf].
  - intros e He. rewrite not_elem_of_cons. destruct (decide (e = d)) as [->|Hne].
    + rewrite fn_lookup_insert. split; [done|tauto].
    + rewrite fn_lookup_insert_ne by lia. rewrite Hm by done. tauto.
  - pose proof (slot_not_behind d Hd). by rewrite fn_lookup_insert_ne by lia.
Qed.

Lemma free_ok p d fl : pool_ok p fl -> slot d -> d ∉ fl -> pool_ok (tfm_pool_free pool d p) (d :: fl).
Proof. intros [Hp Hb] Hd Hni. destruct (free_lists p d fl Hp Hd Hni) as [Hp' Hm]. split; [done|by rewrite Hm]. Qed.

(** *** Initialisation *)

Lemma init_chunks_chain n k l fl :
  chain l pool ((fun d => d - CHUNK_HEAD) <$> fl) -> NoDup fl -> (forall d, d ∈ fl <-> exists i, 0 <= i < k /\ d = slot_at i) -> 0 <= k ->
  exists fl', chain (init_chunks n pool (slot_at k - CHUNK_HEAD) csz l) pool ((fun d => d - CHUNK_HEAD) <$> fl') /\ NoDup fl' /\
    (forall d, d ∈ fl' <-> exists i, 0 <= i < k + Z.of_nat n /\ d = slot_at i).
Proof.
  revert k l fl. induction n as [|n IH]; intros k l fl Hc Hnd Hin Hk; cbn [init_chunks].
  { exists fl. rewrite Z.add_0_r. done. }
  replace (slot_at k - CHUNK_HEAD + CHUNK_HEAD + csz) with (slot_at (k + 1) - CHUNK_HEAD) by (unfold slot_at, stride; lia).
  assert (slot_at k ∉ fl) as Hni by (intros (i & Hi & ?%slot_at_inj)%Hin; lia). pose proof stride_pos. pose proof (pf_addr Hfit).
  destruct (IH (k + 1) (UNI_LIST_INSERT_AFTER pool (slot_at k - CHUNK_HEAD) l) (slot_at k :: fl)) as (fl' & Hc' & Hnd' & Hin').
  - apply chain_insert; [unfold slot_at, INSTANCE_HEAD; nia|unfold slot_at, INSTANCE_HEAD; nia|by apply fmap_not_in| |exact Hc].
    intros (e & He & (i & Hi & ->)%Hin)%list_elem_of_fmap. unfold slot_at, INSTANCE_HEAD in He. nia.
  - by apply NoDup_cons.
  - intros d. rewrite elem_of_cons, Hin. split.
    + intros [->|(i & Hi & ->)]; [exists k|exists i]; split; lia || done.
    + intros (i & Hi & ->). destruct (decide (i = k)) as [->|]; [by left|right]. exists i. split; [lia|done].
  - lia.
  - exists fl'. split_and!; [done|done|]. intros d. rewrite Hin'. by replace (k + 1 + Z.of_nat n) with (k + Z.of_nat (S n)) by lia.
Qed.

Lemma pool_init_lists p : (0 < num)%nat ->
  exists p' fl, tfm_pool_init pool size_of_pool csz (Z.of_nat num) p = (PSA_SUCCESS, p') /\ pool_lists p' fl /\ (forall d, slot d <-> d ∈ fl) /\
    p_magic p' (behind - CHUNK_HEAD) = p_magic p (behind - CHUNK_HEAD).
Proof.
  intros Hn. pose proof stride_pos. pose proof (pf_addr Hfit). pose proof (pf_size Hfit). pose proof (pf_end Hfit). unfold tfm_pool_init.
  rewrite (proj2 (Z.eqb_neq pool 0)), (proj2 (Z.eqb_neq (Z.of_nat num) 0)) by lia. cbn [orb].
  assert (0 <= stride * Z.of_nat num) by nia. unfold size_of_pool, INSTANCE_HEAD in *. fold stride.
  assert (stride <= stride * Z.of_nat num) by nia.
  rewrite (u32_id stride) by lia. rewrite (u32_id (stride * Z.of_nat num)) by lia. rewrite u32_id, Z.eqb_refl by lia. cbn [negb].
  set (l := UNI_LISI_INIT_NODE _ _).
  destruct (init_chunks_chain num 0 l []) as (fl & Hc & Hnd & Hin).
  - subst l. unfold UNI_LISI_INIT_NODE. rewrite (proj2 (Z.eqb_neq pool 0)) by lia. cbn [fmap list_fmap chain]. apply fn_lookup_insert.
  - constructor.
  - intros d. split; [by intros ?%not_elem_of_nil|intros (i & ? & _); lia].
  - lia.
  - replace (slot_at 0 - CHUNK_HEAD) with (pool + 12) in Hc by (unfold slot_at, INSTANCE_HEAD; lia). rewrite Nat2Z.id.
    assert (forall d, slot d <-> d ∈ fl) as Hsl by (intros d; by rewrite Hin).
    eexists _, fl. split; [reflexivity|]. split; [|split; [exact Hsl|]].
    1: split; cbn [chunksz pool_sz p_next p_magic]; [done|done|exact Hc|done|by apply Forall_forall; intros d; rewrite Hsl|].
    + intros d Hd. rewrite <- Hsl. split; [|done]. pose proof (slot_range d Hd). unfold clear_field, size_of_pool, INSTANCE_HEAD, CHUNK_HEAD in *.
      rewrite (proj2 (Z.leb_le _ _)), (proj2 (Z.ltb_lt _ _)) by lia. done.
    + cbn [p_magic]. unfold clear_field, behind. rewrite (proj2 (Z.ltb_ge (slot_at _ - _) _)); [by rewrite andb_false_r|].
      unfold slot_at, INSTANCE_HEAD, CHUNK_HEAD. lia.
Qed.

Lemma pool_init_ok p : (0 < num)%nat -> p_magic p (behind - CHUNK_HEAD) <> POOL_MAGIC_ALLOCATED ->
  exists p' fl, tfm_pool_init pool size_of_pool csz (Z.of_nat num) p = (PSA_SUCCESS, p') /\ pool_ok p' fl /\ (forall d, slot d <-> d ∈ fl).
Proof.
  intros Hn Hb. destruct (pool_init_lists p Hn) as (p' & fl & He & Hp & Hsl & Hm). exists p', fl. split_and!; [done| |done].
  split; [done|by rewrite Hm].
Qed.
End pool.
