(* ===== verification/SpmTypes.v ===== *)
(** * The partition manager: data

    The structures of the SPM ([spm/core/spm.h], [spm/include/load/]), the
    memory it shares with partitions and clients, and its state.  The build
    has the IPC backend, connection-based services, MM-IOVEC, the doorbell and
    the mailbox agent API, and no assertions.

    Pointers are addresses.  A structure of a given type in memory is a
    function from addresses; 0 is [NULL]. *)

From S2P Require Import Prelude Bytes SpmLists.
From stdpp Require Import base list numbers functions.
From Stdlib Require Import ZArith Lia.

Open Scope Z_scope.
Open Scope tfm_scope.

(** ** Constants *)

Definition SPM_ERROR_VERSION : psa_status_t := -251.
Definition SPM_ERROR_GENERIC : psa_status_t := -253.
Definition STATUS_NEED_SCHEDULE : psa_status_t := -254.

Definition TFM_HANDLE_STATUS_IDLE : Z := 0.
Definition TFM_HANDLE_STATUS_ACTIVE : Z := 1.
Definition TFM_HANDLE_STATUS_TO_FREE : Z := 2.

Definition PSA_NULL_HANDLE : Z := 0.
Definition PSA_MAX_IOVEC : Z := 4.
Definition PSA_IPC_CONNECT : Z := -1.
Definition PSA_IPC_DISCONNECT : Z := -2.
Definition PSA_IPC_CALL : Z := 0.
Definition PSA_BLOCK : Z := 0x80000000.
Definition PSA_DOORBELL : Z := 8.
Definition ASYNC_MSG_REPLY : Z := 4.
Definition PSA_VERSION_NONE : Z := 0.

Definition CLIENT_HANDLE_VALUE_MIN : Z := 1.
Definition GET_INDEX_FROM_STATIC_HANDLE (h : Z) : Z := Z.land h 31.
Definition GET_VERSION_FROM_STATIC_HANDLE (h : Z) : Z := Z.land (Z.shiftr h 8) 255.
Definition IS_STATIC_HANDLE (h : Z) : bool := Z.testbit h 30.

Definition TFM_HAL_ACCESS_READABLE : Z := 2.
Definition TFM_HAL_ACCESS_READWRITE : Z := 6.
Definition TFM_HAL_ACCESS_NS : Z := 32.

Definition SERVICE_IS_NS_ACCESSIBLE (flag : Z) : bool := Z.testbit flag 8.
Definition SERVICE_IS_STATELESS (flag : Z) : bool := Z.testbit flag 9.
Definition SERVICE_VERSION_POLICY_RELAXED : Z := 0.
Definition SERVICE_VERSION_POLICY_STRICT : Z := 1024.
Definition SERVICE_GET_VERSION_POLICY (flag : Z) : Z := Z.land flag 1024.
Definition SERVICE_ENABLED_MM_IOVEC (flag : Z) : bool := Z.testbit flag 11.

Definition PARTITION_INFO_VERSION_MASK : Z := 0x0000FFFF.
Definition PARTITION_INFO_MAGIC_MASK : Z := 0xFFFF0000.
Definition PARTITION_INFO_MAGIC : Z := 0x5F5F0000.
Definition PSA_FRAMEWORK_VERSION : Z := 0x0101.
Definition PARTITION_PRIORITY (flag : Z) : Z := Z.land flag 0xFF.
Definition IS_NS_AGENT_MAILBOX (flag : Z) : bool := Z.testbit flag 10.
Definition IS_NS_AGENT_TZ (flag : Z) : bool := Z.testbit flag 11.
Definition IS_NS_AGENT (flag : Z) : bool := IS_NS_AGENT_MAILBOX flag || IS_NS_AGENT_TZ flag.

Definition PARAM_UNPACK_TYPE (c : Z) : Z := let t := Z.land c 0xFFFF in if t <? 32768 then t else t - 65536.
Definition PARAM_UNPACK_IN_LEN (c : Z) : Z := Z.land (Z.shiftr c 24) 7.
Definition PARAM_UNPACK_OUT_LEN (c : Z) : Z := Z.land (Z.shiftr c 16) 7.
Definition PARAM_IS_NS_VEC (c : Z) : bool := Z.testbit c 31.
Definition PARAM_IS_NS_INVEC (c : Z) : bool := Z.testbit c 27.
Definition PARAM_IS_NS_OUTVEC (c : Z) : bool := Z.testbit c 19.
Definition PARAM_HAS_IOVEC (c : Z) : bool := negb (c =? u32 (PARAM_UNPACK_TYPE c)).

Definition IS_ONLY_ONE_BIT_IN_UINT32 (n : Z) : bool := negb (n =? 0) && (Z.land n (n - 1) =? 0).

(** [sizeof(psa_invec)], [sizeof(psa_msg_t)], [sizeof(struct connection_t)] and
    [sizeof(struct client_params_t)] *)
Definition IOVEC_SIZE : Z := 8.
Definition MSG_SIZE : Z := 48.
Definition CONNECTION_SIZE : Z := 144.
Definition CLIENT_PARAMS_SIZE : Z := 12.

(** Thread states *)
Definition THRD_STATE_CREATING : Z := 0.
Definition THRD_STATE_RUNNABLE : Z := 1.
Definition THRD_STATE_BLOCK : Z := 2.
Definition THRD_STATE_RET_VAL_AVAIL : Z := 5.

(** ** Memory *)

Definition memory : Type := Z -> Z.

Definition mem_read (m : memory) (a n : Z) : list Z := (fun i => m (a + i)) <$> seqZ 0 n.
Definition mem_write (a : Z) (d : list Z) (m : memory) : memory :=
  fun x => if (a <=? x) && (x <? a + zlen d) then nth (Z.to_nat (x - a)) d 0 else m x.

Definition rd32 (m : memory) (a : Z) : Z := le_val (mem_read m a 4).
Definition spm_memcpy (dst src n : Z) (m : memory) : memory := mem_write dst (mem_read m src n) m.

(** ** Load information, fixed when the firmware is built *)

Record irq_load_info_t : Type := IrqLd {
  irq_pid : Z;
  irq_source : Z;
  irq_signal : Z;
  irq_has_flih : bool;
  irq_client_id_base : Z;
  irq_client_id_limit : Z;
}.

Record partition_load_info_t : Type := PartLd {
  psa_ff_ver : Z;
  pid : Z;
  pflags : Z;
  deps : list Z;
  irqs : list irq_load_info_t;
  client_id_base : Z;
  client_id_limit : Z;
}.

Record service_load_info_t : Type := ServLd {
  sid : Z;
  sflags : Z;
  sversion : Z;
  ssignal : Z;
}.

(** [struct service_t]; the field [next] is in [svc_next] below. *)
Record service_t : Type := Serv {
  s_ldinf : service_load_info_t;
  s_partition : Z;
}.

(** What the loader leaves behind and nothing changes afterwards: the pool and
    its number of chunks, the load information of the partition and the
    service at each address, the head of the list of services, the services in
    the order of their loading, the table of stateless services, the list of
    partitions, and the range of client identifiers that the TrustZone agent
    registered. *)
Record spm_rom : Type := Rom {
  connection_pool : Z;
  CONN_HANDLE_MAX_NUM : nat;
  ldinf : Z -> partition_load_info_t;
  serv : Z -> service_t;
  services_listhead : Z;
  services : list Z;
  stateless_services_ref_tbl : Z -> Z;
  partition_listhead : list Z;
  region_base : Z;
  region_limit : Z;
}.

(** ** Run-time data *)

(** Arrays of [PSA_MAX_IOVEC] words are functions of the index. *)
Record psa_msg_t : Type := Msg {
  m_type : Z;
  m_handle : Z;
  m_client_id : Z;
  m_rhandle : Z;
  in_size : Z -> Z;
  out_size : Z -> Z;
}.

(** [struct connection_t]; its field [p_handles] is in [p_handles] below. *)
Record connection_t : Type := Conn {
  c_status : Z;
  p_client : Z;
  c_service : Z;
  msg : psa_msg_t;
  invec_base : Z -> Z;
  invec_accessed : Z -> Z;
  outvec_base : Z -> Z;
  outvec_written : Z -> Z;
  caller_outvec : Z;
  client_data : Z;
  iovec_status : Z;
  c_reply_value : Z;
}.

(** [struct partition_t] without its links; [thrd_state] is the state of its
    thread. *)
Record partition_t : Type := Part {
  boundary : Z;
  signals_allowed : Z;
  signals_waiting : Z;
  signals_asserted : Z;
  reply_value : Z;
  thrd_state : Z;
}.

(** The state.  [p_handles] is the link field of that name of partitions and
    connections, [svc_next] the one of services, [t_next] the one of threads;
    a thread is named by its partition.  [ret_code] is the return value that
    the scheduler stored in the context of a partition it resumed, [nsid] the
    identifier of the non-secure client that runs, and [irq_on] says which
    interrupts are enabled. *)
Record spm_t : Type := Spm {
  mem : memory;
  pool : tfm_pool_instance_t;
  conns : Z -> connection_t;
  p_handles : links;
  loop_index : Z;
  parts : Z -> partition_t;
  svc_next : links;
  current : Z;
  t_next : links;
  p_thrd_head : Z;
  p_rnbl_head : Z;
  ret_code : Z -> Z;
  nsid : Z;
  irq_on : Z -> bool;
}.

Abbreviation SPM := (M spm_t).

(** [tfm_core_panic]: the system is reset. *)
Definition PANIC : psa_status_t := -1.
Definition tfm_core_panic {A} : SPM A := fail PANIC.

(** Setters *)

Definition put_mem (m : memory) (s : spm_t) : spm_t :=
  Spm m (pool s) (conns s) (p_handles s) (loop_index s) (parts s) (svc_next s) (current s) (t_next s) (p_thrd_head s) (p_rnbl_head s)
    (ret_code s) (nsid s) (irq_on s).
Definition put_pool (p : tfm_pool_instance_t) (s : spm_t) : spm_t :=
  Spm (mem s) p (conns s) (p_handles s) (loop_index s) (parts s) (svc_next s) (current s) (t_next s) (p_thrd_head s) (p_rnbl_head s)
    (ret_code s) (nsid s) (irq_on s).
Definition put_conns (c : Z -> connection_t) (s : spm_t) : spm_t :=
  Spm (mem s) (pool s) c (p_handles s) (loop_index s) (parts s) (svc_next s) (current s) (t_next s) (p_thrd_head s) (p_rnbl_head s)
    (ret_code s) (nsid s) (irq_on s).
Definition put_handles (l : links) (s : spm_t) : spm_t :=
  Spm (mem s) (pool s) (conns s) l (loop_index s) (parts s) (svc_next s) (current s) (t_next s) (p_thrd_head s) (p_rnbl_head s)
    (ret_code s) (nsid s) (irq_on s).
Definition put_loop_index (i : Z) (s : spm_t) : spm_t :=
  Spm (mem s) (pool s) (conns s) (p_handles s) i (parts s) (svc_next s) (current s) (t_next s) (p_thrd_head s) (p_rnbl_head s)
    (ret_code s) (nsid s) (irq_on s).
Definition put_parts (p : Z -> partition_t) (s : spm_t) : spm_t :=
  Spm (mem s) (pool s) (conns s) (p_handles s) (loop_index s) p (svc_next s) (current s) (t_next s) (p_thrd_head s) (p_rnbl_head s)
    (ret_code s) (nsid s) (irq_on s).
Definition put_svc_next (l : links) (s : spm_t) : spm_t :=
  Spm (mem s) (pool s) (conns s) (p_handles s) (loop_index s) (parts s) l (current s) (t_next s) (p_thrd_head s) (p_rnbl_head s)
    (ret_code s) (nsid s) (irq_on s).
Definition put_current (p : Z) (s : spm_t) : spm_t :=
  Spm (mem s) (pool s) (conns s) (p_handles s) (loop_index s) (parts s) (svc_next s) p (t_next s) (p_thrd_head s) (p_rnbl_head s)
    (ret_code s) (nsid s) (irq_on s).
Definition put_threads (l : links) (h r : Z) (s : spm_t) : spm_t :=
  Spm (mem s) (pool s) (conns s) (p_handles s) (loop_index s) (parts s) (svc_next s) (current s) l h r (ret_code s) (nsid s) (irq_on s).
Definition put_ret_code (r : Z -> Z) (s : spm_t) : spm_t :=
  Spm (mem s) (pool s) (conns s) (p_handles s) (loop_index s) (parts s) (svc_next s) (current s) (t_next s) (p_thrd_head s) (p_rnbl_head s)
    r (nsid s) (irq_on s).
Definition put_nsid (i : Z) (s : spm_t) : spm_t :=
  Spm (mem s) (pool s) (conns s) (p_handles s) (loop_index s) (parts s) (svc_next s) (current s) (t_next s) (p_thrd_head s) (p_rnbl_head s)
    (ret_code s) i (irq_on s).
Definition put_irq_on (f : Z -> bool) (s : spm_t) : spm_t :=
  Spm (mem s) (pool s) (conns s) (p_handles s) (loop_index s) (parts s) (svc_next s) (current s) (t_next s) (p_thrd_head s) (p_rnbl_head s)
    (ret_code s) (nsid s) f.

Definition set_status (v : Z) (c : connection_t) : connection_t :=
  Conn v (p_client c) (c_service c) (msg c) (invec_base c) (invec_accessed c) (outvec_base c) (outvec_written c) (caller_outvec c)
    (client_data c) (iovec_status c) (c_reply_value c).
Definition set_msg (m : psa_msg_t) (c : connection_t) : connection_t :=
  Conn (c_status c) (p_client c) (c_service c) m (invec_base c) (invec_accessed c) (outvec_base c) (outvec_written c) (caller_outvec c)
    (client_data c) (iovec_status c) (c_reply_value c).
Definition set_invec (base accessed : Z -> Z) (c : connection_t) : connection_t :=
  Conn (c_status c) (p_client c) (c_service c) (msg c) base accessed (outvec_base c) (outvec_written c) (caller_outvec c)
    (client_data c) (iovec_status c) (c_reply_value c).
Definition set_outvec (base written : Z -> Z) (c : connection_t) : connection_t :=
  Conn (c_status c) (p_client c) (c_service c) (msg c) (invec_base c) (invec_accessed c) base written (caller_outvec c)
    (client_data c) (iovec_status c) (c_reply_value c).
Definition set_caller_outvec (a : Z) (c : connection_t) : connection_t :=
  Conn (c_status c) (p_client c) (c_service c) (msg c) (invec_base c) (invec_accessed c) (outvec_base c) (outvec_written c) a
    (client_data c) (iovec_status c) (c_reply_value c).
Definition set_client_data (d : Z) (c : connection_t) : connection_t :=
  Conn (c_status c) (p_client c) (c_service c) (msg c) (invec_base c) (invec_accessed c) (outvec_base c) (outvec_written c) (caller_outvec c)
    d (iovec_status c) (c_reply_value c).
Definition set_iovec_status (v : Z) (c : connection_t) : connection_t :=
  Conn (c_status c) (p_client c) (c_service c) (msg c) (invec_base c) (invec_accessed c) (outvec_base c) (outvec_written c) (caller_outvec c)
    (client_data c) v (c_reply_value c).
Definition set_c_reply_value (v : Z) (c : connection_t) : connection_t :=
  Conn (c_status c) (p_client c) (c_service c) (msg c) (invec_base c) (invec_accessed c) (outvec_base c) (outvec_written c) (caller_outvec c)
    (client_data c) (iovec_status c) v.

Definition set_type (t : Z) (c : connection_t) : connection_t :=
  let m := msg c in set_msg (Msg t (m_handle m) (m_client_id m) (m_rhandle m) (in_size m) (out_size m)) c.
Definition set_rhandle (r : Z) (c : connection_t) : connection_t :=
  let m := msg c in set_msg (Msg (m_type m) (m_handle m) (m_client_id m) r (in_size m) (out_size m)) c.
Definition set_sizes (i o : Z -> Z) (c : connection_t) : connection_t :=
  let m := msg c in set_msg (Msg (m_type m) (m_handle m) (m_client_id m) (m_rhandle m) i o) c.

Definition set_waiting (v : Z) (p : partition_t) : partition_t :=
  Part (boundary p) (signals_allowed p) v (signals_asserted p) (reply_value p) (thrd_state p).
Definition set_asserted (v : Z) (p : partition_t) : partition_t :=
  Part (boundary p) (signals_allowed p) (signals_waiting p) v (reply_value p) (thrd_state p).
Definition set_reply_value (v : Z) (p : partition_t) : partition_t :=
  Part (boundary p) (signals_allowed p) (signals_waiting p) (signals_asserted p) v (thrd_state p).
Definition set_thrd_state (v : Z) (p : partition_t) : partition_t :=
  Part (boundary p) (signals_allowed p) (signals_waiting p) (signals_asserted p) (reply_value p) v.

Definition upd_conn (c : Z) (f : connection_t -> connection_t) (s : spm_t) : spm_t := put_conns (alter f c (conns s)) s.
Definition upd_part (p : Z) (f : partition_t -> partition_t) (s : spm_t) : spm_t := put_parts (alter f p (parts s)) s.

(** ** Layout *)

Definition words (f : Z -> Z) : list Z := concat ((fun i => le_bytes 4 (f i)) <$> seqZ 0 4).

(** A [psa_msg_t] in memory. *)
Definition ser_msg (m : psa_msg_t) : list Z :=
  le_bytes 4 (m_type m) ++ le_bytes 4 (m_handle m) ++ le_bytes 4 (m_client_id m) ++ le_bytes 4 (m_rhandle m) ++ words (in_size m) ++ words (out_size m).
