(* ===== verification/SpmIpc.v ===== *)
(** * The partition manager: connections, signals and threads
    ([spm_connection_pool.c], [spm_ipc.c], [backend_ipc.c], [thread.c],
    [tfm_spm_ns_ctx.c]) *)

From S2P Require Import Prelude Bytes SpmLists SpmTypes.
From stdpp Require Import base list numbers functions.
From Stdlib Require Import ZArith Lia.

Open Scope Z_scope.
Open Scope tfm_scope.

(** An early return of a status in the middle of a function that does not
    panic. *)
Notation "'let?' x := m 'in' k" := (bind m (fun r => match r with Ok x => k | Err e => ret (Err e) end))
  (at level 10, x binder, m at level 200, k at level 200) : tfm_scope.

Section ipc.
Context (R : spm_rom).

(** ** Connections ([spm_connection_pool.c]) *)

Definition connection_to_handle (c : Z) : SPM Z :=
  let* s := get in
  let i := (loop_index s + 1) mod 8 in
  let* _ := modify (put_loop_index i) in
  ret (to_s32 (u32 (Z.shiftl (c - connection_pool R) 3) + CLIENT_HANDLE_VALUE_MIN + i)).

Definition handle_to_connection (h : Z) : Z :=
  if h =? PSA_NULL_HANDLE then 0
  else u32 (Z.shiftr (u32 (u32 h - CLIENT_HANDLE_VALUE_MIN)) 3 + connection_pool R).

Definition pool_buffer_size : Z := (CONNECTION_SIZE + CHUNK_HEAD) * Z.of_nat (CONN_HANDLE_MAX_NUM R) + INSTANCE_HEAD.

Definition spm_init_connection_space : SPM unit :=
  let* s := get in
  let '(st, p) := tfm_pool_init (connection_pool R) pool_buffer_size CONNECTION_SIZE (Z.of_nat (CONN_HANDLE_MAX_NUM R)) (pool s) in
  let* _ := modify (put_pool p) in
  if negb (st =? PSA_SUCCESS) then tfm_core_panic else ret tt.

Definition spm_allocate_connection : SPM Z :=
  let* s := get in
  let '(c, p) := tfm_pool_alloc (connection_pool R) (pool s) in
  let* _ := modify (put_pool p) in
  ret c.

Definition spm_validate_connection (c : Z) (s : spm_t) : bool := is_valid_chunk_data_in_pool (connection_pool R) c (pool s).

Definition spm_free_connection (c : Z) : SPM unit :=
  modify (fun s => put_pool (tfm_pool_free (connection_pool R) c (pool s)) s).

(** ** The running partition *)

Definition service_of (s : spm_t) (c : Z) : service_t := serv R (c_service (conns s c)).
Definition sv_ld (s : spm_t) (c : Z) : service_load_info_t := s_ldinf (service_of s c).

Definition tfm_spm_partition_get_running_partition_id (s : spm_t) : Z := pid (ldinf R (current s)).

Definition tfm_spm_is_ns_caller (s : spm_t) : bool := IS_NS_AGENT (pflags (ldinf R (current s))).

(** *** Identifiers of non-secure clients ([tfm_spm_ns_ctx.c]) *)

(** The translated identifier; [None] when the translation fails. *)
Definition tz_ns_agent_client_id_translate (client_id_in : Z) : option Z :=
  if client_id_in >=? 0 then None
  else if client_id_in <? -1 * (region_limit R - region_base R) - 1 then None
  else Some (region_limit R + 1 + client_id_in).

Definition tfm_nspm_get_current_client_id (s : spm_t) : Z := default 0 (tz_ns_agent_client_id_translate (nsid s)).

Definition tfm_spm_get_client_id (ns_caller : bool) : SPM Z :=
  let* s := get in
  let client_id := if ns_caller then tfm_nspm_get_current_client_id s else tfm_spm_partition_get_running_partition_id s in
  if negb (Bool.eqb ns_caller (client_id <? 0)) then tfm_core_panic else ret client_id.

(** ** Services ([spm_ipc.c]) *)

(** [UNI_LIST_FOREACH_NODE_PREV] up to the service with the identifier:
    [p_prev] and [p_curr]. *)
Fixpoint find_service (fuel : nat) (sid_ prev curr : Z) (l : links) : option (Z * Z) :=
  match fuel with
  | O => None
  | S fuel =>
      if curr =? 0 then None
      else if sid (s_ldinf (serv R curr)) =? sid_ then Some (prev, curr)
      else find_service fuel sid_ curr (l curr) l
  end.

(** Returns [NULL] for an unknown service. *)
Definition tfm_spm_get_service_by_sid (sid_ : Z) : SPM Z :=
  let* l := gets svc_next in
  match find_service (S (length (services R))) sid_ 0 (l (services_listhead R)) l with
  | Some (prev, curr) =>
      let* _ := modify (put_svc_next (UNI_LIST_MOVE_AFTER (services_listhead R) prev curr l)) in
      ret curr
  | None => ret 0
  end.

Definition tfm_spm_get_partition_by_id (partition_id : Z) : Z :=
  default 0 (List.find (fun p => pid (ldinf R p) =? partition_id) (partition_listhead R)).

Definition tfm_spm_check_client_version (sv : service_t) (version : Z) : psa_status_t :=
  let policy := SERVICE_GET_VERSION_POLICY (sflags (s_ldinf sv)) in
  if policy =? SERVICE_VERSION_POLICY_RELAXED then
    if version >? sversion (s_ldinf sv) then SPM_ERROR_VERSION else PSA_SUCCESS
  else if policy =? SERVICE_VERSION_POLICY_STRICT then
    if negb (version =? sversion (s_ldinf sv)) then SPM_ERROR_VERSION else PSA_SUCCESS
  else SPM_ERROR_VERSION.

Definition tfm_spm_check_authorization (sid_ : Z) (sv : service_t) (ns_caller : bool) (s : spm_t) : psa_status_t :=
  if ns_caller then
    if negb (SERVICE_IS_NS_ACCESSIBLE (sflags (s_ldinf sv))) then SPM_ERROR_GENERIC else PSA_SUCCESS
  else if existsb (fun d => d =? sid_) (deps (ldinf R (current s))) then PSA_SUCCESS else SPM_ERROR_GENERIC.

(** ** Messages ([spm_ipc.c]) *)

(** The signal of the service of a connection. *)
Definition conn_signal (s : spm_t) (c : Z) : Z := ssignal (sv_ld s c).

(** Returns [NULL] when no message has the signal. *)
Definition spm_get_handle_by_signal (p signal : Z) : SPM Z :=
  let* s := get in
  let '(holder, nr_found_msgs) :=
    UNI_LIST_FOREACH_NODE_PNODE (S (CONN_HANDLE_MAX_NUM R)) (last_found (fun c => conn_signal s c =? signal)) (p_handles s) p (None, 0) in
  match holder with
  | Some pnode =>
      let c := p_handles s pnode in
      let* _ := modify (put_handles (UNI_LIST_REMOVE_NODE_BY_PNODE pnode (p_handles s))) in
      let* _ := if nr_found_msgs =? 1
                then modify (upd_part p (fun q => set_asserted (Z.ldiff (signals_asserted q) signal) q))
                else ret tt in
      ret c
  | None => ret 0
  end.

Definition msg_zero : psa_msg_t := Msg 0 0 0 0 (fun _ => 0) (fun _ => 0).

Definition spm_init_idle_connection (c service client_id : Z) : SPM unit :=
  let* s := get in
  let* h := connection_to_handle c in
  modify (upd_conn c (fun x =>
    Conn TFM_HANDLE_STATUS_IDLE (current s) service (Msg 0 h client_id 0 (fun _ => 0) (fun _ => 0)) (invec_base x) (invec_accessed x)
      (outvec_base x) (outvec_written x) (caller_outvec x) 0 0 (c_reply_value x))).

(** The branch for a static handle: a connection for one call. *)
Definition get_static_connection (handle client_id : Z) : SPM (res Z) :=
  let* s := get in
  let service := stateless_services_ref_tbl R (GET_INDEX_FROM_STATIC_HANDLE handle) in
  if service =? 0 then ret (Err PSA_ERROR_PROGRAMMER_ERROR)
  else
    let sv := serv R service in
    if negb (tfm_spm_check_authorization (sid (s_ldinf sv)) sv (tfm_spm_is_ns_caller s) s =? PSA_SUCCESS)
    then ret (Err PSA_ERROR_CONNECTION_REFUSED)
    else if negb (tfm_spm_check_client_version sv (GET_VERSION_FROM_STATIC_HANDLE handle) =? PSA_SUCCESS)
    then ret (Err PSA_ERROR_PROGRAMMER_ERROR)
    else
      let* c := spm_allocate_connection in
      if c =? 0 then ret (Err PSA_ERROR_CONNECTION_BUSY)
      else
        let* _ := spm_init_idle_connection c service client_id in
        ret (Ok c).

(** The branch for the handle of a connection. *)
Definition get_established_connection (handle client_id : Z) : SPM (res Z) :=
  let* s := get in
  let c := handle_to_connection handle in
  if c =? 0 then ret (Err PSA_ERROR_PROGRAMMER_ERROR)
  else if negb (spm_validate_connection c s) then ret (Err PSA_ERROR_PROGRAMMER_ERROR)
  else if negb (m_client_id (msg (conns s c)) =? client_id) then ret (Err PSA_ERROR_PROGRAMMER_ERROR)
  else if negb (c_status (conns s c) =? TFM_HANDLE_STATUS_IDLE) then ret (Err PSA_ERROR_PROGRAMMER_ERROR)
  else if c_service (conns s c) =? 0 then ret (Err PSA_ERROR_PROGRAMMER_ERROR)
  else ret (Ok c).

Definition spm_get_idle_connection (handle client_id : Z) : SPM (res Z) :=
  if handle =? PSA_NULL_HANDLE then ret (Err PSA_ERROR_PROGRAMMER_ERROR)
  else if IS_STATIC_HANDLE handle then get_static_connection handle client_id
  else get_established_connection handle client_id.

(** Returns [NULL] when the handle is not one of a message to the running
    partition. *)
Definition spm_msg_handle_to_connection (msg_handle : Z) (s : spm_t) : Z :=
  let c := handle_to_connection msg_handle in
  if negb (spm_validate_connection c s) then 0
  else if negb (tfm_spm_partition_get_running_partition_id s =? pid (ldinf R (s_partition (service_of s c)))) then 0
  else c.

Fixpoint update_outvec_loop (x : connection_t) (n : nat) (i : Z) (m : memory) : memory :=
  match n with
  | O => m
  | S n =>
      let m := if out_size (msg x) i =? 0 then m
               else mem_write (caller_outvec x + IOVEC_SIZE * i + 4) (le_bytes 4 (outvec_written x i)) m in
      update_outvec_loop x n (i + 1) m
  end.

Definition update_caller_outvec_len (c : Z) : SPM unit :=
  modify (fun s => put_mem (update_outvec_loop (conns s c) 4 0 (mem s)) s).

Definition spm_handle_programmer_errors (status : psa_status_t) : SPM unit :=
  let* s := get in
  if ((status =? PSA_ERROR_PROGRAMMER_ERROR) || (status =? PSA_ERROR_CONNECTION_REFUSED)) && negb (tfm_spm_is_ns_caller s)
  then tfm_core_panic else ret tt.

(** ** Signals and messages of the IPC backend ([backend_ipc.c]) *)

Definition backend_wait_signals (p signals : Z) : SPM Z :=
  if p =? 0 then tfm_core_panic
  else
    let* s := get in
    let r := Z.land (signals_asserted (parts s p)) signals in
    let* _ := if r =? 0 then modify (upd_part p (set_waiting signals)) else ret tt in
    ret r.

Definition backend_assert_signal (p signal : Z) : SPM psa_status_t :=
  if p =? 0 then tfm_core_panic
  else
    let* _ := modify (upd_part p (fun q => set_asserted (Z.lor (signals_asserted q) signal) q)) in
    let* s := get in
    if negb (Z.land (signals_asserted (parts s p)) (signals_waiting (parts s p)) =? 0)
    then ret STATUS_NEED_SCHEDULE else ret PSA_SUCCESS.

(** A request of a non-secure client that came through the mailbox. *)
Definition tfm_spm_is_rpc_msg (s : spm_t) (c : Z) : bool :=
  negb (c =? 0) && negb (client_data (conns s c) =? 0) && (m_client_id (msg (conns s c)) <? 0).

Definition backend_messaging (c : Z) : SPM psa_status_t :=
  let* s := get in
  if (c =? 0) || (c_service (conns s c) =? 0) || (s_partition (service_of s c) =? 0) then ret PSA_ERROR_PROGRAMMER_ERROR
  else
    let p_owner := s_partition (service_of s c) in
    let signal := conn_signal s c in
    let* _ := modify (put_handles (UNI_LIST_INSERT_AFTER p_owner c (p_handles s))) in
    let* r := backend_assert_signal p_owner signal in
    let* s := get in
    let* r :=
      if tfm_spm_is_rpc_msg s c then ret PSA_SUCCESS
      else
        let* signal := backend_wait_signals (p_client (conns s c)) ASYNC_MSG_REPLY in
        if signal =? 0 then ret STATUS_NEED_SCHEDULE else ret r in
    let* _ := modify (upd_conn c (set_status TFM_HANDLE_STATUS_ACTIVE)) in
    ret r.

Definition backend_replying (c : Z) (status : Z) : SPM psa_status_t :=
  let* s := get in
  let client := p_client (conns s c) in
  if tfm_spm_is_rpc_msg s c then
    let* _ := modify (upd_conn c (fun x => set_rhandle c (set_c_reply_value status x))) in
    let* _ := modify (fun s => put_handles (UNI_LIST_INSERT_AFTER client c (p_handles s)) s) in
    backend_assert_signal client ASYNC_MSG_REPLY
  else
    let* _ := modify (upd_part client (set_reply_value status)) in
    backend_assert_signal client ASYNC_MSG_REPLY.

(** ** Threads ([thread.c]) *)

(** The state of the thread of [p], the value it is to return when that state
    is [THRD_STATE_RET_VAL_AVAIL], and the partition after the query. *)
Definition query_state (q : partition_t) : Z * Z * partition_t :=
  let retval_signals := Z.land (signals_waiting q) (signals_asserted q) in
  if negb (retval_signals =? 0) then
    let '(retval, q) :=
      if (retval_signals =? ASYNC_MSG_REPLY) && negb (Z.land (signals_allowed q) ASYNC_MSG_REPLY =? ASYNC_MSG_REPLY)
      then (u32 (reply_value q), set_asserted (Z.ldiff (signals_asserted q) ASYNC_MSG_REPLY) q)
      else (retval_signals, q) in
    (THRD_STATE_RET_VAL_AVAIL, retval, set_waiting 0 q)
  else if negb (signals_waiting q =? 0) then (THRD_STATE_BLOCK, 0, q)
  else (thrd_state q, 0, q).

(** The loop of [thrd_next]: the first thread of the list from [p] on that is
    runnable, or [NULL]. *)
Fixpoint thrd_next_loop (fuel : nat) (p : Z) : SPM Z :=
  match fuel with
  | O => ret 0
  | S fuel =>
      if p =? 0 then ret 0
      else
        let* s := get in
        let '(state, retval, q) := query_state (parts s p) in
        let* _ := modify (upd_part p (fun _ => q)) in
        let* state :=
          if state =? THRD_STATE_RET_VAL_AVAIL then
            let* _ := modify (fun s => put_ret_code (<[p := retval]> (ret_code s)) s) in
            ret THRD_STATE_RUNNABLE
          else ret state in
        let* _ := modify (upd_part p (set_thrd_state state)) in
        if state =? THRD_STATE_RUNNABLE then ret p else thrd_next_loop fuel (t_next s p)
  end.

Definition thrd_next : SPM Z :=
  let* s := get in
  thrd_next_loop (length (partition_listhead R)) (p_rnbl_head s).

Definition priority (p : Z) : Z := PARTITION_PRIORITY (pflags (ldinf R p)).

(** [while (iter->next && node->priority > iter->next->priority)] *)
Fixpoint insert_place (fuel : nat) (node iter : Z) (l : links) : Z :=
  match fuel with
  | O => iter
  | S fuel => if negb (l iter =? 0) && (priority node >? priority (l iter)) then insert_place fuel node (l iter) l else iter
  end.

(** The links and the head after the insertion. *)
Definition insert_by_prior (head node : Z) (l : links) : links * Z :=
  if (head =? 0) || (priority node <=? priority head) then (<[node := head]> l, node)
  else
    let iter := insert_place (length (partition_listhead R)) node head l in
    (UNI_LIST_INSERT_AFTER iter node l, head).

Definition thrd_set_state (p new_state : Z) : SPM unit :=
  let* _ := modify (upd_part p (set_thrd_state new_state)) in
  let* s := get in
  let runs := (new_state =? THRD_STATE_RUNNABLE) && ((p_rnbl_head s =? 0) || (priority p <? priority (p_rnbl_head s))) in
  modify (put_threads (t_next s) (p_thrd_head s) (if runs then p else p_thrd_head s)).

(** Without the register context of the new thread. *)
Definition thrd_start (p : Z) : SPM unit :=
  let* s := get in
  let '(l, h) := insert_by_prior (p_thrd_head s) p (t_next s) in
  let* _ := modify (put_threads l h (p_rnbl_head s)) in
  thrd_set_state p THRD_STATE_RUNNABLE.

(** *** The scheduler ([backend_ipc.c])

    Without stack pointers, memory protection and metadata of the partition.
    When no thread can run, [thrd_next] returns a null pointer, which the code
    reads through; that is modelled as a panic.  It happens only when no
    partition, the idle one included, is ready
    ([SpmSpec.spm_schedules_highest_priority]). *)
Definition ipc_schedule : SPM unit :=
  let* p := thrd_next in
  if p =? 0 then tfm_core_panic else modify (put_current p).

(** Interrupts during a call into the SPM are taken after it. *)
Definition backend_abi_leaving_spm (result : Z) : SPM Z :=
  let* _ := spm_handle_programmer_errors (to_s32 result) in
  let* _ := if to_s32 result =? STATUS_NEED_SCHEDULE then ipc_schedule else ret tt in
  ret result.
End ipc.
