(* ===== verification/SpmApi.v ===== *)
(** * The partition manager: the PSA API
    ([psa_call_api.c], [psa_connection_api.c], [psa_version_api.c],
    [mailbox_agent_api.c], [tfm_rpc.c], [psa_api.c],
    [psa_read_write_skip_api.c], [psa_mmiovec_api.c], [psa_irq_api.c],
    [interrupt.c])

    [memory_check] is the platform's [tfm_hal_memory_check]: whether code in a
    boundary may access a range of memory in a way. *)

From S2P Require Import Prelude Bytes SpmLists SpmTypes SpmIpc.
From stdpp Require Import base list numbers functions.
From Stdlib Require Import ZArith Lia.

Open Scope Z_scope.
Open Scope tfm_scope.

Section api.
Context (R : spm_rom) (memory_check : Z -> Z -> Z -> Z -> bool).

(** [if (!b) tfm_core_panic();] *)
Definition spm_require (b : bool) : SPM unit := if b then ret tt else tfm_core_panic.

(** The connection of a message to the running partition. *)
Definition msg_connection (msg_handle : Z) : SPM Z :=
  let* s := get in
  let c := spm_msg_handle_to_connection R msg_handle s in
  let* _ := spm_require (negb (c =? 0)) in
  ret c.

Definition my_boundary (s : spm_t) : Z := boundary (parts s (current s)).

(** ** Calls ([psa_call_api.c]) *)

(** Two vectors of a client have a byte in common. *)
Definition overlap (v w : Z * Z) : bool := negb ((u32 (w.1 + w.2) <=? v.1) || (w.1 >=? u32 (v.1 + v.2))).

(** [for (i = 0; i + 1 < n; i++) for (j = i + 1; j < n; j++)] *)
Definition invecs_overlap (n : Z) (v : Z -> Z * Z) : bool :=
  existsb (fun i => existsb (fun j => overlap (v i) (v j)) (seqZ (i + 1) (n - (i + 1)))) (seqZ 0 n).

(** The first [n] vectors of a client, copied from its memory. *)
Definition read_iovecs (m : memory) (ptr n i : Z) : Z * Z :=
  if i <? n then (rd32 m (ptr + IOVEC_SIZE * i), rd32 m (ptr + IOVEC_SIZE * i + 4)) else (0, 0).

Fixpoint associate_invecs (c b attr : Z) (v : Z -> Z * Z) (n : nat) (i : Z) : SPM psa_status_t :=
  match n with
  | O => ret PSA_SUCCESS
  | S n =>
      if negb (memory_check b (v i).1 (v i).2 attr) then ret PSA_ERROR_PROGRAMMER_ERROR
      else
        let* _ := modify (upd_conn c (fun x =>
          set_invec (<[i := (v i).1]> (invec_base x)) (<[i := 0]> (invec_accessed x))
            (set_sizes (<[i := (v i).2]> (in_size (msg x))) (out_size (msg x)) x))) in
        associate_invecs c b attr v n (i + 1)
  end.

Fixpoint associate_outvecs (c b attr : Z) (v : Z -> Z * Z) (n : nat) (i : Z) : SPM psa_status_t :=
  match n with
  | O => ret PSA_SUCCESS
  | S n =>
      if negb (memory_check b (v i).1 (v i).2 attr) then ret PSA_ERROR_PROGRAMMER_ERROR
      else
        let* _ := modify (upd_conn c (fun x =>
          set_outvec (<[i := (v i).1]> (outvec_base x)) (<[i := 0]> (outvec_written x))
            (set_sizes (in_size (msg x)) (<[i := (v i).2]> (out_size (msg x))) x))) in
        associate_outvecs c b attr v n (i + 1)
  end.

Definition spm_associate_call_params (c ctrl_param inptr outptr : Z) : SPM psa_status_t :=
  let* s := get in
  let b := my_boundary s in
  let ivec_num := PARAM_UNPACK_IN_LEN ctrl_param in
  let ovec_num := PARAM_UNPACK_OUT_LEN ctrl_param in
  let type := PARAM_UNPACK_TYPE ctrl_param in
  if type <? 0 then ret PSA_ERROR_PROGRAMMER_ERROR
  else
    let* _ := modify (upd_conn c (set_type type)) in
    if negb (PARAM_HAS_IOVEC ctrl_param) then ret PSA_SUCCESS
    else if ivec_num + ovec_num >? PSA_MAX_IOVEC then ret PSA_ERROR_PROGRAMMER_ERROR
    else
      let ns_access := if PARAM_IS_NS_VEC ctrl_param then TFM_HAL_ACCESS_NS else 0 in
      if negb (memory_check b inptr (ivec_num * IOVEC_SIZE) (Z.lor TFM_HAL_ACCESS_READABLE ns_access))
      then ret PSA_ERROR_PROGRAMMER_ERROR
      else
        let ivecs_local := read_iovecs (mem s) inptr ivec_num in
        if negb (memory_check b outptr (ovec_num * IOVEC_SIZE) (Z.lor TFM_HAL_ACCESS_READWRITE ns_access))
        then ret PSA_ERROR_PROGRAMMER_ERROR
        else
          let ovecs_local := read_iovecs (mem s) outptr ovec_num in
          if invecs_overlap ivec_num ivecs_local then ret PSA_ERROR_PROGRAMMER_ERROR
          else
            let ns_access := if PARAM_IS_NS_INVEC ctrl_param then TFM_HAL_ACCESS_NS else ns_access in
            let* _ := modify (upd_conn c (set_sizes (fun _ => 0) (fun _ => 0))) in
            let* r := associate_invecs c b (Z.lor TFM_HAL_ACCESS_READABLE ns_access) ivecs_local (Z.to_nat ivec_num) 0 in
            if negb (r =? PSA_SUCCESS) then ret r
            else
              let ns_access :=
                if (ns_access =? TFM_HAL_ACCESS_NS) && negb (PARAM_IS_NS_VEC ctrl_param) && negb (PARAM_IS_NS_OUTVEC ctrl_param)
                then 0 else ns_access in
              let* r := associate_outvecs c b (Z.lor TFM_HAL_ACCESS_READWRITE ns_access) ovecs_local (Z.to_nat ovec_num) 0 in
              if negb (r =? PSA_SUCCESS) then ret r
              else
                let* _ := modify (upd_conn c (set_caller_outvec outptr)) in
                ret PSA_SUCCESS.

(** The part after the connection was found; [data] is set by agents only. *)
Definition call_connection (handle c ctrl_param inptr outptr : Z) (data : option Z) : SPM psa_status_t :=
  let* status := spm_associate_call_params c ctrl_param inptr outptr in
  if negb (status =? PSA_SUCCESS) then
    let* _ := if IS_STATIC_HANDLE handle then spm_free_connection R c else ret tt in
    ret status
  else
    let* _ := match data with Some d => modify (upd_conn c (set_client_data d)) | None => ret tt end in
    backend_messaging R c.

Definition tfm_spm_client_psa_call (handle ctrl_param inptr outptr : Z) : SPM psa_status_t :=
  let* s := get in
  let* client_id := tfm_spm_get_client_id R (tfm_spm_is_ns_caller R s) in
  let* r := spm_get_idle_connection R handle client_id in
  match r with
  | Err status => ret status
  | Ok c => call_connection handle c ctrl_param inptr outptr None
  end.

(** ** Connections ([psa_connection_api.c]) *)

Definition spm_psa_connect_client_id_associated (sid_ version client_id : Z) : SPM (res Z) :=
  let ns_caller := client_id <? 0 in
  let* service := tfm_spm_get_service_by_sid R sid_ in
  if service =? 0 then ret (Err PSA_ERROR_CONNECTION_REFUSED)
  else
    let sv := serv R service in
    let* s := get in
    if SERVICE_IS_STATELESS (sflags (s_ldinf sv)) then ret (Err PSA_ERROR_PROGRAMMER_ERROR)
    else if negb (tfm_spm_check_authorization R sid_ sv ns_caller s =? PSA_SUCCESS) then ret (Err PSA_ERROR_CONNECTION_REFUSED)
    else if negb (tfm_spm_check_client_version sv version =? PSA_SUCCESS) then ret (Err PSA_ERROR_CONNECTION_REFUSED)
    else
      let* c := spm_allocate_connection R in
      if c =? 0 then ret (Err PSA_ERROR_CONNECTION_BUSY)
      else
        let* _ := spm_init_idle_connection R c service client_id in
        let* _ := modify (upd_conn c (set_type PSA_IPC_CONNECT)) in
        ret (Ok c).

Definition tfm_spm_client_psa_connect (sid_ version : Z) : SPM psa_status_t :=
  let* s := get in
  let* client_id := tfm_spm_get_client_id R (tfm_spm_is_ns_caller R s) in
  let* r := spm_psa_connect_client_id_associated sid_ version client_id in
  match r with
  | Err status => ret status
  | Ok c => backend_messaging R c
  end.

Definition spm_psa_close_client_id_associated (handle client_id : Z) : SPM psa_status_t :=
  if handle =? PSA_NULL_HANDLE then ret PSA_SUCCESS
  else if IS_STATIC_HANDLE handle then ret PSA_ERROR_PROGRAMMER_ERROR
  else
    let* r := spm_get_idle_connection R handle client_id in
    match r with
    | Err status => ret status
    | Ok c =>
        let* _ := modify (upd_conn c (set_type PSA_IPC_DISCONNECT)) in
        backend_messaging R c
    end.

Definition tfm_spm_client_psa_close (handle : Z) : SPM psa_status_t :=
  let* s := get in
  let* client_id := tfm_spm_get_client_id R (tfm_spm_is_ns_caller R s) in
  spm_psa_close_client_id_associated handle client_id.

Definition tfm_spm_partition_psa_set_rhandle (msg_handle rhandle : Z) : SPM psa_status_t :=
  let* c := msg_connection msg_handle in
  let* s := get in
  let* _ := spm_require (negb (SERVICE_IS_STATELESS (sflags (sv_ld R s c)))) in
  let* _ := modify (upd_conn c (set_rhandle rhandle)) in
  ret PSA_SUCCESS.

Definition tfm_spm_client_psa_version (sid_ : Z) : SPM Z :=
  let* s := get in
  let ns_caller := tfm_spm_is_ns_caller R s in
  let* service := tfm_spm_get_service_by_sid R sid_ in
  if service =? 0 then ret PSA_VERSION_NONE
  else if negb (tfm_spm_check_authorization R sid_ (serv R service) ns_caller s =? PSA_SUCCESS) then ret PSA_VERSION_NONE
  else ret (sversion (s_ldinf (serv R service))).

(** ** Agents of non-secure clients ([mailbox_agent_api.c]) *)

(** [params] points to the client identifier and the two vector pointers. *)
Definition tfm_spm_agent_psa_call (handle control params client_data_stateless : Z) : SPM psa_status_t :=
  let* s := get in
  if negb (memory_check (my_boundary s) params CLIENT_PARAMS_SIZE TFM_HAL_ACCESS_READABLE) then ret PSA_ERROR_PROGRAMMER_ERROR
  else
    let* r := spm_get_idle_connection R handle (to_s32 (rd32 (mem s) params)) in
    match r with
    | Err status => ret status
    | Ok c => call_connection handle c control (rd32 (mem s) (params + 4)) (rd32 (mem s) (params + 8)) (Some client_data_stateless)
    end.

Definition tfm_spm_agent_psa_connect (sid_ version ns_client_id client_data : Z) : SPM psa_status_t :=
  let* s := get in
  let* _ := spm_require (IS_NS_AGENT_MAILBOX (pflags (ldinf R (current s)))) in
  let* _ := spm_require (ns_client_id <? 0) in
  let* r := spm_psa_connect_client_id_associated sid_ version ns_client_id in
  match r with
  | Err status => ret status
  | Ok c =>
      let* _ := modify (upd_conn c (set_client_data client_data)) in
      backend_messaging R c
  end.

Definition tfm_spm_agent_psa_close (handle ns_client_id : Z) : SPM psa_status_t :=
  let* s := get in
  let* _ := spm_require (IS_NS_AGENT_MAILBOX (pflags (ldinf R (current s))) && (ns_client_id <? 0)) in
  spm_psa_close_client_id_associated handle ns_client_id.

(** ** Waiting and receiving ([psa_api.c]) *)

Definition tfm_spm_partition_psa_wait (signal_mask timeout : Z) : SPM Z :=
  let timeout := Z.land timeout PSA_BLOCK in
  let* s := get in
  let p := current s in
  let* _ := spm_require (negb (negb (signals_allowed (parts s p) =? 0) && (Z.land (signals_allowed (parts s p)) signal_mask =? 0))) in
  if timeout =? PSA_BLOCK then
    let* signal := backend_wait_signals p signal_mask in
    ret (if signal =? 0 then u32 STATUS_NEED_SCHEDULE else signal)
  else ret (Z.land (signals_asserted (parts s p)) signal_mask).

(** The connection added first to the list of [p], taken from the list. *)
Definition get_first_reply (p : Z) : SPM Z :=
  let* s := get in
  let* _ := spm_require (negb (p_handles s p =? 0)) in
  let '(prev, _) := UNI_LIST_FOREACH_NODE_PNODE (S (CONN_HANDLE_MAX_NUM R)) (last_found (fun _ => true)) (p_handles s) p (None, 0) in
  let pnode := default p prev in
  let c := p_handles s pnode in
  let* _ := modify (put_handles (UNI_LIST_REMOVE_NODE_BY_PNODE pnode (p_handles s))) in
  ret c.

Definition tfm_spm_partition_psa_get (signal msg_ptr : Z) : SPM psa_status_t :=
  let* _ := spm_require (IS_ONLY_ONE_BIT_IN_UINT32 signal) in
  let* s := get in
  let p := current s in
  let* _ := spm_require (memory_check (my_boundary s) msg_ptr MSG_SIZE TFM_HAL_ACCESS_READWRITE) in
  let* _ := spm_require (negb (signals_asserted (parts s p) =? 0)) in
  let* _ := spm_require (negb (Z.land (signals_asserted (parts s p)) signal =? 0)) in
  let* r :=
    if signal =? ASYNC_MSG_REPLY then
      let* c := get_first_reply p in
      let* s := get in
      let* _ := if p_handles s p =? 0
                then modify (upd_part p (fun q => set_asserted (Z.ldiff (signals_asserted q) ASYNC_MSG_REPLY) q))
                else ret tt in
      ret (Ok (c, c_reply_value (conns s c)))
    else
      let* c := spm_get_handle_by_signal R p signal in
      if negb (c =? 0) then ret (Ok (c, PSA_SUCCESS)) else ret (Err PSA_ERROR_DOES_NOT_EXIST) in
  match r with
  | Err status => ret status
  | Ok (c, status) =>
      let* _ := modify (fun s => put_mem (mem_write msg_ptr (ser_msg (msg (conns s c))) (mem s)) s) in
      ret status
  end.

(** ** Replying ([psa_api.c]) *)

Definition OUTVEC_IDX_BASE : Z := 4.
Definition INVEC_IDX_BASE : Z := 0.
Definition IOVEC_IS_MAPPED (x : connection_t) (i : Z) : bool := Z.testbit (iovec_status x) (i * 4).
Definition IOVEC_IS_UNMAPPED (x : connection_t) (i : Z) : bool := Z.testbit (iovec_status x) (i * 4 + 1).
Definition IOVEC_IS_ACCESSED (x : connection_t) (i : Z) : bool := Z.testbit (iovec_status x) (i * 4 + 2).
Definition SET_IOVEC_MAPPED (i : Z) (x : connection_t) : connection_t := set_iovec_status (Z.setbit (iovec_status x) (i * 4)) x.
Definition SET_IOVEC_UNMAPPED (i : Z) (x : connection_t) : connection_t := set_iovec_status (Z.setbit (iovec_status x) (i * 4 + 1)) x.
Definition SET_IOVEC_ACCESSED (i : Z) (x : connection_t) : connection_t := set_iovec_status (Z.setbit (iovec_status x) (i * 4 + 2)) x.

(** Output vectors that are still mapped report no bytes. *)
Definition forget_mapped (x : connection_t) : connection_t :=
  set_outvec (outvec_base x)
    (fun i => if (0 <=? i) && (i <? PSA_MAX_IOVEC) && IOVEC_IS_MAPPED x (i + OUTVEC_IDX_BASE) && negb (IOVEC_IS_UNMAPPED x (i + OUTVEC_IDX_BASE))
              then 0 else outvec_written x i) x.

(** The part of [psa_reply] before the client is told: its result [ret]. *)
Definition reply_result (c msg_handle : Z) (status : psa_status_t) : SPM psa_status_t :=
  let* s := get in
  let type := m_type (msg (conns s c)) in
  if type =? PSA_IPC_CONNECT then
    if status =? PSA_SUCCESS then ret msg_handle
    else if status =? PSA_ERROR_CONNECTION_REFUSED then
      let* _ := modify (upd_conn c (set_status TFM_HANDLE_STATUS_TO_FREE)) in
      ret PSA_ERROR_CONNECTION_REFUSED
    else if status =? PSA_ERROR_CONNECTION_BUSY then ret PSA_ERROR_CONNECTION_BUSY
    else tfm_core_panic
  else if type =? PSA_IPC_DISCONNECT then
    let* _ := modify (upd_conn c (set_status TFM_HANDLE_STATUS_TO_FREE)) in
    ret PSA_SUCCESS
  else if type >=? PSA_IPC_CALL then
    let* _ := modify (upd_conn c forget_mapped) in
    let* _ := update_caller_outvec_len c in
    let* _ := if SERVICE_IS_STATELESS (sflags (sv_ld R s c)) then modify (upd_conn c (set_status TFM_HANDLE_STATUS_TO_FREE)) else ret tt in
    ret status
  else tfm_core_panic.

Definition tfm_spm_partition_psa_reply (msg_handle : Z) (status : psa_status_t) : SPM psa_status_t :=
  let* c := msg_connection msg_handle in
  let* s := get in
  let* _ := spm_require (negb (c_service (conns s c) =? 0)) in
  let* r := reply_result c msg_handle status in
  let* _ := spm_require (negb ((r =? PSA_ERROR_PROGRAMMER_ERROR) && negb (m_client_id (msg (conns s c)) <? 0))) in
  let* r := backend_replying c r in
  let* s := get in
  if tfm_spm_is_rpc_msg s c then ret r
  else
    let* _ := if c_status (conns s c) =? TFM_HANDLE_STATUS_TO_FREE then spm_free_connection R c
              else modify (upd_conn c (set_status TFM_HANDLE_STATUS_IDLE)) in
    ret r.

(** [tfm_rpc_client_call_reply]: an agent collects a reply; returns the client
    data and the status that it passes on.  [msg_ptr] is the address of its
    local message.  One step: the code leaves the SPM between [psa_get] and the
    release of the connection, and the scheduling that may be due then happens
    here after the release; nothing else touches the connection in between,
    since only its agent collects the reply. *)
Definition tfm_rpc_client_call_reply (msg_ptr : Z) : SPM (Z * psa_status_t) :=
  let* status := tfm_spm_partition_psa_get ASYNC_MSG_REPLY msg_ptr in
  let* s := get in
  let c := rd32 (mem s) (msg_ptr + 12) in
  let data := client_data (conns s c) in
  let* _ := if c_status (conns s c) =? TFM_HANDLE_STATUS_TO_FREE then spm_free_connection R c
            else modify (upd_conn c (set_status TFM_HANDLE_STATUS_IDLE)) in
  ret (data, status).

(** *** Doorbell *)

Definition tfm_spm_partition_psa_notify (partition_id : Z) : SPM psa_status_t :=
  backend_assert_signal (tfm_spm_get_partition_by_id R partition_id) PSA_DOORBELL.

Definition tfm_spm_partition_psa_clear : SPM psa_status_t :=
  let* s := get in
  let p := current s in
  let* _ := spm_require (negb (Z.land (signals_asserted (parts s p)) PSA_DOORBELL =? 0)) in
  let* _ := modify (upd_part p (fun q => set_asserted (Z.ldiff (signals_asserted q) PSA_DOORBELL) q)) in
  ret PSA_SUCCESS.

(** ** Vectors ([psa_read_write_skip_api.c]) *)

Definition is_index (i : Z) : bool := i <? PSA_MAX_IOVEC.

Definition tfm_spm_partition_psa_read (msg_handle invec_idx buffer num_bytes : Z) : SPM Z :=
  let* c := msg_connection msg_handle in
  let* s := get in
  let x := conns s c in
  let* _ := spm_require (m_type (msg x) >=? PSA_IPC_CALL) in
  let* _ := spm_require (is_index invec_idx) in
  let* _ := spm_require (negb (IOVEC_IS_MAPPED x (invec_idx + INVEC_IDX_BASE))) in
  let* _ := modify (upd_conn c (SET_IOVEC_ACCESSED (invec_idx + INVEC_IDX_BASE))) in
  let remaining := u32 (in_size (msg x) invec_idx - invec_accessed x invec_idx) in
  if remaining =? 0 then ret 0
  else
    let* _ := spm_require (memory_check (my_boundary s) buffer num_bytes TFM_HAL_ACCESS_READWRITE) in
    let bytes := if num_bytes <? remaining then num_bytes else remaining in
    let* _ := modify (fun s => put_mem (spm_memcpy buffer (invec_base x invec_idx + invec_accessed x invec_idx) bytes (mem s)) s) in
    let* _ := modify (upd_conn c (fun x => set_invec (invec_base x) (<[invec_idx := u32 (invec_accessed x invec_idx + bytes)]> (invec_accessed x)) x)) in
    ret bytes.

Definition tfm_spm_partition_psa_skip (msg_handle invec_idx num_bytes : Z) : SPM Z :=
  let* c := msg_connection msg_handle in
  let* s := get in
  let x := conns s c in
  let* _ := spm_require (m_type (msg x) >=? PSA_IPC_CALL) in
  let* _ := spm_require (is_index invec_idx) in
  let* _ := spm_require (negb (IOVEC_IS_MAPPED x (invec_idx + INVEC_IDX_BASE))) in
  let* _ := modify (upd_conn c (SET_IOVEC_ACCESSED (invec_idx + INVEC_IDX_BASE))) in
  let remaining := u32 (in_size (msg x) invec_idx - invec_accessed x invec_idx) in
  if remaining =? 0 then ret 0
  else
    let num_bytes := if num_bytes >? remaining then remaining else num_bytes in
    let* _ := modify (upd_conn c (fun x => set_invec (invec_base x) (<[invec_idx := u32 (invec_accessed x invec_idx + num_bytes)]> (invec_accessed x)) x)) in
    ret num_bytes.

Definition tfm_spm_partition_psa_write (msg_handle outvec_idx buffer num_bytes : Z) : SPM psa_status_t :=
  let* c := msg_connection msg_handle in
  let* s := get in
  let x := conns s c in
  let* _ := spm_require (m_type (msg x) >=? PSA_IPC_CALL) in
  let* _ := spm_require (is_index outvec_idx) in
  let* _ := spm_require (negb (num_bytes >? u32 (out_size (msg x) outvec_idx - outvec_written x outvec_idx))) in
  let* _ := spm_require (negb (IOVEC_IS_MAPPED x (outvec_idx + OUTVEC_IDX_BASE))) in
  let* _ := modify (upd_conn c (SET_IOVEC_ACCESSED (outvec_idx + OUTVEC_IDX_BASE))) in
  let* _ := spm_require (memory_check (my_boundary s) buffer num_bytes TFM_HAL_ACCESS_READABLE) in
  let* _ := modify (fun s => put_mem (spm_memcpy (outvec_base x outvec_idx + outvec_written x outvec_idx) buffer num_bytes (mem s)) s) in
  let* _ := modify (upd_conn c (fun x => set_outvec (outvec_base x) (<[outvec_idx := u32 (outvec_written x outvec_idx + num_bytes)]> (outvec_written x)) x)) in
  ret PSA_SUCCESS.

(** ** Mapped vectors ([psa_mmiovec_api.c]) *)

(** The checks the four functions start with; returns the connection. *)
Definition mm_connection (msg_handle idx : Z) : SPM Z :=
  let* c := msg_connection msg_handle in
  let* s := get in
  let* _ := spm_require (SERVICE_ENABLED_MM_IOVEC (sflags (sv_ld R s c))) in
  let* _ := spm_require (m_type (msg (conns s c)) >=? PSA_IPC_CALL) in
  let* _ := spm_require (is_index idx) in
  ret c.

Definition tfm_spm_partition_psa_map_invec (msg_handle invec_idx : Z) : SPM Z :=
  let* c := mm_connection msg_handle invec_idx in
  let* s := get in
  let x := conns s c in
  let* _ := spm_require (negb (in_size (msg x) invec_idx =? 0)) in
  let* _ := spm_require (negb (IOVEC_IS_MAPPED x (invec_idx + INVEC_IDX_BASE))) in
  let* _ := spm_require (negb (IOVEC_IS_ACCESSED x (invec_idx + INVEC_IDX_BASE))) in
  let b := boundary (parts s (s_partition (service_of R s c))) in
  let* _ := spm_require (memory_check b (invec_base x invec_idx) (in_size (msg x) invec_idx) TFM_HAL_ACCESS_READABLE) in
  let* _ := modify (upd_conn c (SET_IOVEC_MAPPED (invec_idx + INVEC_IDX_BASE))) in
  ret (invec_base x invec_idx).

Definition tfm_spm_partition_psa_unmap_invec (msg_handle invec_idx : Z) : SPM unit :=
  let* c := mm_connection msg_handle invec_idx in
  let* s := get in
  let x := conns s c in
  let* _ := spm_require (IOVEC_IS_MAPPED x (invec_idx + INVEC_IDX_BASE)) in
  let* _ := spm_require (negb (IOVEC_IS_UNMAPPED x (invec_idx + INVEC_IDX_BASE))) in
  modify (upd_conn c (SET_IOVEC_UNMAPPED (invec_idx + INVEC_IDX_BASE))).

Definition tfm_spm_partition_psa_map_outvec (msg_handle outvec_idx : Z) : SPM Z :=
  let* c := mm_connection msg_handle outvec_idx in
  let* s := get in
  let x := conns s c in
  let* _ := spm_require (negb (out_size (msg x) outvec_idx =? 0)) in
  let* _ := spm_require (negb (IOVEC_IS_MAPPED x (outvec_idx + OUTVEC_IDX_BASE))) in
  let* _ := spm_require (negb (IOVEC_IS_ACCESSED x (outvec_idx + OUTVEC_IDX_BASE))) in
  let b := boundary (parts s (s_partition (service_of R s c))) in
  let* _ := spm_require (memory_check b (outvec_base x outvec_idx) (out_size (msg x) outvec_idx) TFM_HAL_ACCESS_READWRITE) in
  let* _ := modify (upd_conn c (SET_IOVEC_MAPPED (outvec_idx + OUTVEC_IDX_BASE))) in
  ret (outvec_base x outvec_idx).

Definition tfm_spm_partition_psa_unmap_outvec (msg_handle outvec_idx len : Z) : SPM unit :=
  let* c := mm_connection msg_handle outvec_idx in
  let* s := get in
  let x := conns s c in
  let* _ := spm_require (negb (len >? out_size (msg x) outvec_idx)) in
  let* _ := spm_require (IOVEC_IS_MAPPED x (outvec_idx + OUTVEC_IDX_BASE)) in
  let* _ := spm_require (negb (IOVEC_IS_UNMAPPED x (outvec_idx + OUTVEC_IDX_BASE))) in
  let* _ := modify (upd_conn c (SET_IOVEC_UNMAPPED (outvec_idx + OUTVEC_IDX_BASE))) in
  modify (upd_conn c (fun x => set_outvec (outvec_base x) (<[outvec_idx := len]> (outvec_written x)) x)).

(** ** Interrupts ([psa_irq_api.c], [interrupt.c]) *)

Definition get_irq_info_for_signal (ld : partition_load_info_t) (signal : Z) : option irq_load_info_t :=
  if negb (IS_ONLY_ONE_BIT_IN_UINT32 signal) then None
  else List.find (fun i => irq_signal i =? signal) (irqs ld).

Definition my_irq (irq_signal : Z) : SPM irq_load_info_t :=
  let* s := get in
  match get_irq_info_for_signal (ldinf R (current s)) irq_signal with
  | Some i => ret i
  | None => tfm_core_panic
  end.

Definition tfm_spm_partition_psa_irq_enable (irq_signal : Z) : SPM psa_status_t :=
  let* i := my_irq irq_signal in
  let* _ := modify (fun s => put_irq_on (<[irq_source i := true]> (irq_on s)) s) in
  ret PSA_SUCCESS.

Definition tfm_spm_partition_psa_irq_disable (irq_signal : Z) : SPM Z :=
  let* i := my_irq irq_signal in
  let* _ := modify (fun s => put_irq_on (<[irq_source i := false]> (irq_on s)) s) in
  ret 1.

(** Clears a signal that must be asserted. *)
Definition clear_my_signal (signal : Z) : SPM unit :=
  let* s := get in
  let p := current s in
  let* _ := spm_require (negb (Z.land (signals_asserted (parts s p)) signal =? 0)) in
  modify (upd_part p (fun q => set_asserted (Z.ldiff (signals_asserted q) signal) q)).

Definition tfm_spm_partition_psa_reset_signal (irq_signal : Z) : SPM psa_status_t :=
  let* i := my_irq irq_signal in
  let* _ := spm_require (irq_has_flih i) in
  let* _ := clear_my_signal irq_signal in
  ret PSA_SUCCESS.

Definition tfm_spm_partition_psa_eoi (irq_signal : Z) : SPM psa_status_t :=
  let* i := my_irq irq_signal in
  let* _ := spm_require (negb (irq_has_flih i)) in
  let* _ := clear_my_signal irq_signal in
  let* _ := modify (fun s => put_irq_on (<[irq_source i := true]> (irq_on s)) s) in
  ret PSA_SUCCESS.

(** An interrupt of partition [p]; [flih_signal] is whether its first-level
    handler, if it has one, asks for the signal. *)
Definition spm_handle_interrupt (p : Z) (i : irq_load_info_t) (flih_signal : bool) : SPM unit :=
  let* _ := spm_require (negb (p =? 0)) in
  let* _ := spm_require (irq_pid i =? pid (ldinf R p)) in
  let* _ := if irq_has_flih i then ret tt else modify (fun s => put_irq_on (<[irq_source i := false]> (irq_on s)) s) in
  if negb (irq_has_flih i) || flih_signal then
    let* r := backend_assert_signal p (irq_signal i) in
    if r =? STATUS_NEED_SCHEDULE then ipc_schedule R else ret tt
  else ret tt.
End api.
