(* ===== verification/SpmSystem.v ===== *)
(** * The partition manager: start-up and the running system
    ([spm_ipc.c], [rom_loader.c], [backend_ipc.c])

    The system takes steps: a call of the running partition into the SPM with
    what follows it, an interrupt, a write of running code to its memory. *)

From S2P Require Import Prelude Bytes SpmLists SpmTypes SpmIpc SpmApi.
From stdpp Require Import base list numbers functions.
From Stdlib Require Import ZArith Lia.

Open Scope Z_scope.
Open Scope tfm_scope.

Section system.
Context (R : spm_rom) (memory_check : Z -> Z -> Z -> Z -> bool).

(** ** Start-up *)

(** The services of a partition are linked behind the head one by one; the
    result is the set of their signals.  Load information is as the loader
    checked it. *)
Definition load_services_assuredly (p : Z) : SPM Z :=
  let mine := List.filter (fun v => s_partition (serv R v) =? p) (services R) in
  let* _ := modify (fun s => put_svc_next (fold_left (fun l v => UNI_LIST_INSERT_AFTER (services_listhead R) v l) mine (svc_next s)) s) in
  ret (fold_left (fun set v => Z.lor set (ssignal (s_ldinf (serv R v)))) mine 0).

(** The checks of the load information of the next partition, when
    [loaded] were loaded before. *)
Definition load_a_partition_assuredly (p : Z) (loaded : list Z) : SPM unit :=
  let ld := ldinf R p in
  let* _ := spm_require (Z.land (psa_ff_ver ld) PARTITION_INFO_MAGIC_MASK =? PARTITION_INFO_MAGIC) in
  let* _ := spm_require (negb (Z.land (psa_ff_ver ld) PARTITION_INFO_VERSION_MASK >? PSA_FRAMEWORK_VERSION)) in
  let* _ := spm_require (negb (pid ld <? 0)) in
  let* _ := spm_require (negb (client_id_base ld >? client_id_limit ld)) in
  if IS_NS_AGENT (pflags ld) then
    spm_require (negb (existsb (fun p' =>
      let ld' := ldinf R p' in
      IS_NS_AGENT (pflags ld') && (client_id_limit ld >=? client_id_base ld') && (client_id_base ld <=? client_id_limit ld')) loaded))
  else ret tt.

(** The interrupts of a partition; their [init] functions are the platform's. *)
Fixpoint load_irq_loop (p : Z) (infos : list irq_load_info_t) : SPM unit :=
  match infos with
  | [] => ret tt
  | i :: infos =>
      let ld := ldinf R p in
      let* _ := modify (upd_part p (fun q =>
        Part (boundary q) (Z.lor (signals_allowed q) (irq_signal i)) (signals_waiting q) (signals_asserted q) (reply_value q) (thrd_state q))) in
      let* _ := spm_require (negb (IS_NS_AGENT_MAILBOX (pflags ld) &&
        ((irq_client_id_base i >? irq_client_id_limit i) || (irq_client_id_base i <? client_id_base ld) || (irq_client_id_limit i >? client_id_limit ld)))) in
      let version := Z.land (psa_ff_ver ld) PARTITION_INFO_VERSION_MASK in
      let* _ := if version =? 0x0100 then modify (fun s => put_irq_on (<[irq_source i := true]> (irq_on s)) s)
                else if version =? 0x0101 then modify (fun s => put_irq_on (<[irq_source i := false]> (irq_on s)) s)
                else ret tt in
      load_irq_loop p infos
  end.

Definition load_irqs_assuredly (p : Z) : SPM unit := load_irq_loop p (irqs (ldinf R p)).

(** [partition_init]; the agent of TrustZone has no signals. *)
Definition partition_init (p service_setting : Z) : SPM unit :=
  let* _ := modify (upd_part p (fun q =>
    let allowed := Z.lor (Z.lor (signals_allowed q) PSA_DOORBELL) service_setting in
    let allowed := if IS_NS_AGENT_MAILBOX (pflags (ldinf R p)) then Z.lor allowed ASYNC_MSG_REPLY else allowed in
    Part (boundary q) allowed (signals_waiting q) (signals_asserted q) (reply_value q) (thrd_state q))) in
  modify (fun s => put_handles (UNI_LISI_INIT_NODE p (p_handles s)) s).

Definition backend_init_comp_assuredly (p service_setting : Z) : SPM unit :=
  let* _ := modify (upd_part p (set_thrd_state THRD_STATE_CREATING)) in
  let* _ := if IS_NS_AGENT_TZ (pflags (ldinf R p)) then ret tt else partition_init p service_setting in
  thrd_start R p.

(** The loop of [tfm_spm_init] over the partitions that are left. *)
Fixpoint load_partitions (loaded ps : list Z) : SPM unit :=
  match ps with
  | [] => ret tt
  | p :: ps =>
      let* _ := load_a_partition_assuredly p loaded in
      let* service_setting := load_services_assuredly p in
      let* _ := load_irqs_assuredly p in
      let* _ := backend_init_comp_assuredly p service_setting in
      load_partitions (p :: loaded) ps
  end.

(** Partitions are linked in front of those loaded before. *)
Definition tfm_spm_init : SPM unit :=
  let* _ := spm_init_connection_space R in
  let* _ := modify (fun s => put_svc_next (UNI_LISI_INIT_NODE (services_listhead R) (svc_next s)) s) in
  let* _ := load_partitions [] (rev (partition_listhead R)) in
  ipc_schedule R.

(** ** Steps *)

Inductive event : Type :=
| PsaCall (handle ctrl_param inptr outptr : Z)
| PsaConnect (sid_ version : Z)
| PsaClose (handle : Z)
| PsaVersion (sid_ : Z)
| AgentCall (handle control params client_data : Z)
| AgentConnect (sid_ version ns_client_id client_data : Z)
| AgentClose (handle ns_client_id : Z)
| AgentCollect (msg_ptr : Z)
| PsaWait (signal_mask timeout : Z)
| PsaGet (signal msg_ptr : Z)
| PsaSetRhandle (msg_handle rhandle : Z)
| PsaReply (msg_handle status : Z)
| PsaNotify (partition_id : Z)
| PsaClear
| PsaRead (msg_handle invec_idx buffer num_bytes : Z)
| PsaSkip (msg_handle invec_idx num_bytes : Z)
| PsaWrite (msg_handle outvec_idx buffer num_bytes : Z)
| PsaMapInvec (msg_handle invec_idx : Z)
| PsaUnmapInvec (msg_handle invec_idx : Z)
| PsaMapOutvec (msg_handle outvec_idx : Z)
| PsaUnmapOutvec (msg_handle outvec_idx len : Z)
| PsaIrqEnable (irq_signal : Z)
| PsaIrqDisable (irq_signal : Z)
| PsaResetSignal (irq_signal : Z)
| PsaEoi (irq_signal : Z)
| Interrupt (p : Z) (i : irq_load_info_t) (flih_signal : bool)
| Reschedule
| NsClient (id : Z)
| UserWrite (a : Z) (d : list Z).

Definition returns {A} (m : SPM A) (r : Z) : SPM Z := let* _ := m in ret r.

(** The function behind a call, and its result. *)
Definition api (e : event) : SPM Z :=
  match e with
  | PsaCall h ctrl inp outp => tfm_spm_client_psa_call R memory_check h ctrl inp outp
  | PsaConnect sid_ version => tfm_spm_client_psa_connect R sid_ version
  | PsaClose h => tfm_spm_client_psa_close R h
  | PsaVersion sid_ => tfm_spm_client_psa_version R sid_
  | AgentCall h ctrl params data => tfm_spm_agent_psa_call R memory_check h ctrl params data
  | AgentConnect sid_ version id data => tfm_spm_agent_psa_connect R sid_ version id data
  | AgentClose h id => tfm_spm_agent_psa_close R h id
  | AgentCollect ptr => let* r := tfm_rpc_client_call_reply R memory_check ptr in ret (snd r)
  | PsaWait mask timeout => tfm_spm_partition_psa_wait mask timeout
  | PsaGet signal ptr => tfm_spm_partition_psa_get R memory_check signal ptr
  | PsaSetRhandle h r => tfm_spm_partition_psa_set_rhandle R h r
  | PsaReply h status => tfm_spm_partition_psa_reply R h status
  | PsaNotify id => tfm_spm_partition_psa_notify R id
  | PsaClear => tfm_spm_partition_psa_clear
  | PsaRead h i buffer n => tfm_spm_partition_psa_read R memory_check h i buffer n
  | PsaSkip h i n => tfm_spm_partition_psa_skip R h i n
  | PsaWrite h i buffer n => tfm_spm_partition_psa_write R memory_check h i buffer n
  | PsaMapInvec h i => tfm_spm_partition_psa_map_invec R memory_check h i
  | PsaUnmapInvec h i => returns (tfm_spm_partition_psa_unmap_invec R h i) 0
  | PsaMapOutvec h i => tfm_spm_partition_psa_map_outvec R memory_check h i
  | PsaUnmapOutvec h i len => returns (tfm_spm_partition_psa_unmap_outvec R h i len) 0
  | PsaIrqEnable signal => tfm_spm_partition_psa_irq_enable R signal
  | PsaIrqDisable signal => tfm_spm_partition_psa_irq_disable R signal
  | PsaResetSignal signal => tfm_spm_partition_psa_reset_signal R signal
  | PsaEoi signal => tfm_spm_partition_psa_eoi R signal
  | Interrupt p i flih => returns (spm_handle_interrupt R p i flih) 0
  | Reschedule => returns (ipc_schedule R) 0
  | NsClient id => returns (modify (put_nsid id)) 0
  | UserWrite a d => returns (modify (fun s => put_mem (mem_write a d (mem s)) s)) 0
  end.

Definition is_api_call (e : event) : bool :=
  match e with Interrupt _ _ _ | Reschedule | NsClient _ | UserWrite _ _ => false | _ => true end.

(** A call comes back through [backend_abi_leaving_spm]. *)
Definition step (e : event) : SPM Z :=
  let* r := api e in
  if is_api_call e then backend_abi_leaving_spm R r else ret r.

(** Runs events until the system is reset. *)
Fixpoint run (es : list event) : SPM unit :=
  match es with
  | [] => ret tt
  | e :: es => let* _ := step e in run es
  end.
End system.
