(* ===== verification/SpmDemo.v ===== *)
(** * Concrete instances of the partition manager

    An idle partition, the agent of TrustZone, an agent of a mailbox, a
    service partition with a stateless and a connection-based service, and two
    client partitions. *)

From S2P Require Import Prelude Bytes SpmLists SpmTypes SpmIpc SpmApi SpmSystem.
From stdpp Require Import base list numbers functions.
From Stdlib Require Import ZArith Lia.

Open Scope Z_scope.
Open Scope tfm_scope.

Definition IDLE : Z := 0x8000.
Definition TZ : Z := 0x8100.
Definition MB : Z := 0x8200.
Definition SP : Z := 0x8300.
Definition CA : Z := 0x8400.
Definition CB : Z := 0x8500.

Definition ONE_CALL : Z := 0x9000.
Definition CONNECTED : Z := 0x9010.

Definition demo_ldinf (p : Z) : partition_load_info_t :=
  if p =? TZ then PartLd 0x5F5F0101 0 (0xFE + 2048) [] [] (-100) (-1)
  else if p =? MB then PartLd 0x5F5F0101 7 (0x10 + 1024 + 512) [] [] (-300) (-200)
  else if p =? SP then PartLd 0x5F5F0101 256 (0xF + 512) [] [] 0 0
  else if p =? CA then PartLd 0x5F5F0101 257 (0x1F + 512) [0x70; 0x71] [] 0 0
  else if p =? CB then PartLd 0x5F5F0101 258 (0x1F + 512) [0x70; 0x71] [] 0 0
  else PartLd 0x5F5F0101 63 (0xFF + 512) [] [] 0 0.

Definition demo_serv (v : Z) : service_t :=
  if v =? CONNECTED then Serv (ServLd 0x71 (256 + 2048) 1 32) SP else Serv (ServLd 0x70 (256 + 512 + 0) 1 16) SP.

Definition demo_rom : spm_rom :=
  Rom 0x1000 3 demo_ldinf demo_serv 0x9100 [ONE_CALL; CONNECTED] (fun i => if i =? 0 then ONE_CALL else 0) [CB; CA; SP; MB; TZ; IDLE] (-100) (-1).

(** A partition with boundary [b] has the addresses [65536 * b] to
    [65536 * b + 65535]; above [0x1000000] memory is non-secure and may be
    used as such by everybody.  An empty range is always fine. *)
Definition demo_check (b base size attr : Z) : bool :=
  if size =? 0 then true
  else if Z.testbit attr 5 then (0x1000000 <=? base) && (base + size <=? 0x2000000)
  else (65536 * b <=? base) && (base + size <=? 65536 * (b + 1)).

Definition demo_part (p : Z) : partition_t := Part ((p - 0x8000) / 0x100 + 1) 0 0 0 0 0.
Definition zero_conn : connection_t :=
  Conn 0 0 0 (Msg 0 0 0 0 (fun _ => 0) (fun _ => 0)) (fun _ => 0) (fun _ => 0) (fun _ => 0) (fun _ => 0) 0 0 0 0.

(** Memory when the system starts: each byte of a partition holds the number
    of its boundary. *)
Definition cold : spm_t :=
  Spm (fun a => a / 65536 mod 256) (Pool (fun _ => 0) (fun _ => 0) 0 0) (fun _ => zero_conn) (fun _ => 0) 0 demo_part (fun _ => 0) 0
    (fun _ => 0) 0 0 (fun _ => 0) (-1) (fun _ => false).

Definition spm_step := step demo_rom demo_check.
Definition spm_run (es : list event) (s : spm_t) : res unit * spm_t := run demo_rom demo_check es s.

Definition booted : spm_t := snd (tfm_spm_init demo_rom cold).

(** The memory of a partition. *)
Definition at_part (p off : Z) : Z := 65536 * ((p - 0x8000) / 0x100 + 1) + off.

Definition handle_static (i version : Z) : Z := Z.lor (2 ^ 30) (Z.lor (Z.shiftl version 8) i).
Definition pack (type in_len out_len : Z) : Z := Z.lor type (Z.lor (Z.shiftl in_len 24) (Z.shiftl out_len 16)).
