(* ===== verification/SpmInv.v ===== *)
(** * The partition manager: the invariant

    What holds between two steps of a system whose partitions keep to the
    documented protocol: the pool, the message queues, the signals that stand
    for them, the blocked callers, and the vectors of every message. *)

From S2P Require Import Prelude Bytes SpmLists SpmTypes SpmIpc SpmApi SpmSystem.
From stdpp Require Import base list numbers functions sets sorting.
From Stdlib Require Import ZArith Lia.

Open Scope Z_scope.
Open Scope tfm_scope.

(** ** Signals *)

(** A mask of one bit. *)
Definition one_bit (x : Z) : Prop := exists k, 0 <= k /\ x = 2 ^ k.

Lemma land_bit a k : 0 <= k -> Z.land a (2 ^ k) <> 0 <-> Z.testbit a k = true.
Proof.
  intros Hk. split.
  - intros Hne. destruct (Z.testbit a k) eqn:Hb; [done|]. exfalso. apply Hne. apply Z.bits_inj'. intros n Hn.
    rewrite Z.land_spec, Z.bits_0, Z.pow2_bits_eqb by lia. destruct (Z.eqb_spec k n) as [->|]; [by rewrite Hb|by rewrite andb_false_r].
  - intros Hb Heq. assert (Z.testbit (Z.land a (2 ^ k)) k = true) as Ht by (by rewrite Z.land_spec, Hb, Z.pow2_bits_true).
    by rewrite Heq, Z.bits_0 in Ht.
Qed.

Lemma bit_neq_testbit x y k : one_bit x -> x <> y -> y = 2 ^ k -> 0 <= k -> Z.testbit x k = false.
Proof.
  intros (j & Hj & ->) Hne -> Hk. rewrite Z.pow2_bits_eqb by done. apply Z.eqb_neq. intros ->. done.
Qed.

Lemma land_lor_same a x : one_bit x -> Z.land (Z.lor a x) x <> 0.
Proof. intros (k & Hk & ->). rewrite land_bit, Z.lor_spec, Z.pow2_bits_true by done. apply orb_true_r. Qed.

Lemma land_lor_other a x y : one_bit x -> one_bit y -> x <> y -> Z.land (Z.lor a x) y <> 0 <-> Z.land a y <> 0.
Proof.
  intros Hx (k & Hk & ->) Hne. rewrite !land_bit, Z.lor_spec, (bit_neq_testbit x (2 ^ k) k), orb_false_r by done. done.
Qed.

Lemma land_ldiff_same a x : one_bit x -> Z.land (Z.ldiff a x) x = 0.
Proof.
  intros (k & Hk & ->). destruct (decide (Z.land (Z.ldiff a (2 ^ k)) (2 ^ k) = 0)) as [|Hne]; [done|].
  apply land_bit in Hne; [|done]. by rewrite Z.ldiff_spec, Z.pow2_bits_true, andb_false_r in Hne.
Qed.

Lemma land_ldiff_other a x y : one_bit x -> one_bit y -> x <> y -> Z.land (Z.ldiff a x) y <> 0 <-> Z.land a y <> 0.
Proof.
  intros Hx (k & Hk & ->) Hne. rewrite !land_bit, Z.ldiff_spec, (bit_neq_testbit x (2 ^ k) k), andb_true_r by done. done.
Qed.

Lemma land_bit_val a x : one_bit x -> Z.land a x <> 0 -> Z.land a x = x.
Proof.
  intros (k & Hk & ->) Hne. apply land_bit in Hne; [|done]. apply Z.bits_inj'. intros n Hn.
  rewrite Z.land_spec, Z.pow2_bits_eqb by lia. destruct (Z.eqb_spec k n) as [<-|]; [by rewrite Hne|by rewrite andb_false_r].
Qed.

Lemma async_bit : one_bit ASYNC_MSG_REPLY.
Proof. by exists 2. Qed.
Lemma doorbell_bit : one_bit PSA_DOORBELL.
Proof. by exists 3. Qed.

(** ** Updates *)

Lemma parts_upd p f s x : parts (upd_part p f s) x = if decide (p = x) then f (parts s x) else parts s x.
Proof. unfold upd_part, alter, fn_alter. cbn. by case_decide; subst. Qed.

Lemma conns_upd c f s x : conns (upd_conn c f s) x = if decide (c = x) then f (conns s x) else conns s x.
Proof. unfold upd_conn, alter, fn_alter. cbn. by case_decide; subst. Qed.

(** A list of pointers from [p] on. *)
Fixpoint path (l : links) (p : Z) (xs : list Z) : Prop :=
  match xs with
  | [] => p = 0
  | x :: xs => p = x /\ x <> 0 /\ path l (l x) xs
  end.

Section inv.
Context (R : spm_rom) (memory_check : Z -> Z -> Z -> Z -> bool).
Implicit Types (s : spm_t) (fl : list Z) (q : Z -> list Z) (c p : Z) (x : connection_t).

Abbreviation PL := (partition_listhead R).

Definition mailbox (p : Z) : Prop := IS_NS_AGENT_MAILBOX (pflags (ldinf R p)) = true.
Definition agent (p : Z) : Prop := IS_NS_AGENT (pflags (ldinf R p)) = true.

#[export] Instance mailbox_dec p : Decision (mailbox p) := decide_rel (=) _ _.
#[export] Instance agent_dec p : Decision (agent p) := decide_rel (=) _ _.

(** The identifiers under which a partition calls. *)
Definition client_ok (p id : Z) : Prop :=
  if decide (agent p) then client_id_base (ldinf R p) <= id <= client_id_limit (ldinf R p) else id = pid (ldinf R p).

(** ** What the loader guarantees *)

Record rom_ok : Prop := {
  ro_fit : pool_fits (connection_pool R) CONNECTION_SIZE (CONN_HANDLE_MAX_NUM R);
  ro_handles : 8 * size_of_pool CONNECTION_SIZE (CONN_HANDLE_MAX_NUM R) + 9 < 2 ^ 30;
  ro_num : (0 < CONN_HANDLE_MAX_NUM R)%nat;
  ro_parts : NoDup PL;
  ro_part : forall p, p ∈ PL -> p <> 0 /\ ~ slot (connection_pool R) CONNECTION_SIZE (CONN_HANDLE_MAX_NUM R) p;
  ro_pid : forall p, p ∈ PL -> 0 <= pid (ldinf R p);
  ro_pids : forall p p', p ∈ PL -> p' ∈ PL -> pid (ldinf R p) = pid (ldinf R p') -> p = p';
  ro_services : NoDup (services R);
  ro_head : services_listhead R <> 0 /\ services_listhead R ∉ services R;
  ro_service : forall v, v ∈ services R -> v <> 0 /\ s_partition (serv R v) ∈ PL /\ ~ mailbox (s_partition (serv R v));
  ro_signal : forall v, v ∈ services R -> let sig := ssignal (s_ldinf (serv R v)) in
    one_bit sig /\ sig <> ASYNC_MSG_REPLY /\ sig <> PSA_DOORBELL;
  ro_irq : forall p i, p ∈ PL -> i ∈ irqs (ldinf R p) ->
    one_bit (irq_signal i) /\ irq_signal i <> ASYNC_MSG_REPLY /\ irq_signal i <> PSA_DOORBELL /\
    forall v, v ∈ services R -> s_partition (serv R v) = p -> ssignal (s_ldinf (serv R v)) <> irq_signal i;
  ro_stateless : forall i, let v := stateless_services_ref_tbl R i in v <> 0 -> v ∈ services R /\ SERVICE_IS_STATELESS (sflags (s_ldinf (serv R v))) = true;
  ro_agents : forall p, p ∈ PL -> mailbox p -> IS_NS_AGENT_TZ (pflags (ldinf R p)) = false;
  ro_ids : forall p, p ∈ PL -> agent p -> client_id_limit (ldinf R p) < 0;
  ro_ids_apart : forall p p' id, p ∈ PL -> p' ∈ PL -> agent p -> agent p' -> client_ok p id -> client_ok p' id -> p = p';
  ro_region : forall p, p ∈ PL -> agent p -> ~ mailbox p -> client_id_base (ldinf R p) = region_base R /\ client_id_limit (ldinf R p) = region_limit R;
}.

Lemma client_ok_sign p id : rom_ok -> p ∈ PL -> client_ok p id -> id < 0 <-> agent p.
Proof.
  intros Hrom Hp. unfold client_ok. case_decide as Ha.
  - pose proof (ro_ids Hrom p Hp Ha). split; [done|lia].
  - intros ->. pose proof (ro_pid Hrom p Hp). split; [lia|done].
Qed.

(** An identifier tells the partition that calls. *)
Lemma client_ok_inj p p' id : rom_ok -> p ∈ PL -> p' ∈ PL -> client_ok p id -> client_ok p' id -> p = p'.
Proof.
  clear memory_check. intros Hrom Hp Hp' H1 H2. pose proof (client_ok_sign p id Hrom Hp H1) as S1. pose proof (client_ok_sign p' id Hrom Hp' H2) as S2.
  destruct (decide (agent p)) as [Ha|Ha].
  - apply (ro_ids_apart Hrom p p' id); [done|done|done| |done|done]. tauto.
  - assert (~ agent p') as Ha' by tauto. unfold client_ok in *. rewrite decide_False in H1 by done. rewrite decide_False in H2 by done.
    apply (ro_pids Hrom); [done|done|congruence].
Qed.

(** ** Connections *)

Definition is_conn (c : Z) : Prop := slot (connection_pool R) CONNECTION_SIZE (CONN_HANDLE_MAX_NUM R) c.

(** Allocated, when [fl] is free. *)
Definition live fl c : Prop := is_conn c /\ c ∉ fl.

Definition owner s c : Z := s_partition (service_of R s c).

Definition rpc s c : Prop := tfm_spm_is_rpc_msg s c = true.

#[export] Instance rpc_dec s c : Decision (rpc s c) := decide_rel (=) _ _.

(** A request that a client waits for. *)
Definition outstanding s fl c : Prop := live fl c /\ c_status (conns s c) <> TFM_HANDLE_STATUS_IDLE /\ ~ rpc s c.

Definition readable (attr : Z) : Prop := attr = TFM_HAL_ACCESS_READABLE \/ attr = Z.lor TFM_HAL_ACCESS_READABLE TFM_HAL_ACCESS_NS.
Definition writable (attr : Z) : Prop := attr = TFM_HAL_ACCESS_READWRITE \/ attr = Z.lor TFM_HAL_ACCESS_READWRITE TFM_HAL_ACCESS_NS.

(** The platform allowed code in boundary [b] this access. *)
Definition may_read (b base size : Z) : Prop := exists attr, readable attr /\ memory_check b base size attr = true.
Definition may_write (b base size : Z) : Prop := exists attr, writable attr /\ memory_check b base size attr = true.

(** The client may use the service. *)
Definition authorised (p v : Z) : Prop :=
  if decide (agent p) then SERVICE_IS_NS_ACCESSIBLE (sflags (s_ldinf (serv R v))) = true
  else sid (s_ldinf (serv R v)) ∈ deps (ldinf R p).

Definition index (i : Z) : Prop := 0 <= i < PSA_MAX_IOVEC.

Record conn_ok (bnd : Z -> Z) x : Prop := {
  co_service : c_service x ∈ services R;
  co_client : p_client x ∈ PL;
  co_id : client_ok (p_client x) (m_client_id (msg x));
  co_data : client_data x <> 0 <-> mailbox (p_client x);
  co_auth : authorised (p_client x) (c_service x);
  co_in : forall i, index i -> in_size (msg x) i <> 0 ->
    0 <= invec_accessed x i <= in_size (msg x) i /\ in_size (msg x) i < 4294967296 /\
    may_read (bnd (p_client x)) (invec_base x i) (in_size (msg x) i);
  co_out : forall i, index i -> out_size (msg x) i <> 0 ->
    0 <= outvec_written x i <= out_size (msg x) i /\ out_size (msg x) i < 4294967296 /\
    may_write (bnd (p_client x)) (outvec_base x i) (out_size (msg x) i);
  co_caller : c_status x <> TFM_HANDLE_STATUS_IDLE -> 0 <= m_type (msg x) -> forall i, index i -> out_size (msg x) i <> 0 ->
    exists n, i < n /\ may_write (bnd (p_client x)) (caller_outvec x) (n * IOVEC_SIZE);
}.

(** ** The invariant *)

Definition asserted s p sig : Prop := Z.land (signals_asserted (parts s p)) sig <> 0.
Definition waiting s p : Z := signals_waiting (parts s p).

(** [c] is in the list of [p]: a request for a service of [p], or a reply for
    an agent. *)
Definition queued s p c : Prop :=
  c_status (conns s c) <> TFM_HANDLE_STATUS_IDLE /\
  if decide (mailbox p) then p_client (conns s c) = p /\ rpc s c /\ m_rhandle (msg (conns s c)) = c else owner s c = p.

Definition threads_ok s : Prop :=
  exists ts, path (t_next s) (p_thrd_head s) ts /\ ts ≡ₚ PL /\ StronglySorted (fun a b => priority R a <= priority R b) ts /\ p_rnbl_head s = p_thrd_head s.

Definition services_ok s : Prop := exists vs, chain (svc_next s) (services_listhead R) vs /\ vs ≡ₚ services R.

(** The lists of the partitions are [q]; they share no connection. *)
Record lists_ok (l : links) fl q : Prop := {
  l_chain : forall p, p ∈ PL -> chain l p (q p);
  l_nodup : forall p, p ∈ PL -> NoDup (q p);
  l_disj : forall p p' c, p ∈ PL -> p' ∈ PL -> c ∈ q p -> c ∈ q p' -> p = p';
  l_live : forall p c, p ∈ PL -> c ∈ q p -> live fl c;
}.

Record inv (bnd : Z -> Z) s fl q : Prop := {
  i_bnd : forall p, boundary (parts s p) = bnd p;
  i_mem : forall a, 0 <= mem s a < 256;
  i_pool : pool_ok (connection_pool R) CONNECTION_SIZE (CONN_HANDLE_MAX_NUM R) (pool s) fl;
  i_cur : current s ∈ PL;
  i_lists : lists_ok (p_handles s) fl q;
  i_queued : forall p c, p ∈ PL -> c ∈ q p -> queued s p c;
  i_conn : forall c, live fl c -> conn_ok bnd (conns s c);
  i_calls : forall c, outstanding s fl c -> waiting s (p_client (conns s c)) = ASYNC_MSG_REPLY /\ ~ asserted s (p_client (conns s c)) ASYNC_MSG_REPLY;
  i_one : forall c c', outstanding s fl c -> outstanding s fl c' -> p_client (conns s c) = p_client (conns s c') -> c = c';
  i_sig : forall v, v ∈ services R -> let p := s_partition (serv R v) in let sig := ssignal (s_ldinf (serv R v)) in
    asserted s p sig <-> exists c, c ∈ q p /\ conn_signal R s c = sig;
  i_reply : forall p, p ∈ PL -> mailbox p -> asserted s p ASYNC_MSG_REPLY <-> q p <> [];
  i_async : forall p, p ∈ PL -> ~ mailbox p -> asserted s p ASYNC_MSG_REPLY -> waiting s p = ASYNC_MSG_REPLY;
  i_state : forall p, p ∈ PL -> waiting s p = 0 -> thrd_state (parts s p) = THRD_STATE_RUNNABLE;
  i_allowed : forall p, p ∈ PL -> Z.land (signals_allowed (parts s p)) ASYNC_MSG_REPLY = if decide (mailbox p) then ASYNC_MSG_REPLY else 0;
  i_threads : threads_ok s;
  i_services : services_ok s;
}.

(** The running partition does not wait. *)
Definition running s : Prop := waiting s (current s) = 0.

End inv.

Lemma asserted_lor (s : spm_t) p a sig : one_bit a -> one_bit sig -> Z.land (Z.lor (signals_asserted (parts s p)) a) sig <> 0 <-> asserted s p sig \/ sig = a.
Proof.
  intros Ha Hs. destruct (decide (sig = a)) as [->|Hne]; [split; [by right|intros _; by apply land_lor_same]|].
  rewrite land_lor_other by done. unfold asserted. tauto.
Qed.
