(* ===== verification/SpmRules.v ===== *)
(** * The partition manager: updates that keep the invariant *)

From S2P Require Import Prelude Bytes SpmLists SpmTypes SpmIpc SpmApi SpmSystem SpmInv.
From stdpp Require Import base list numbers functions sets.
From Stdlib Require Import ZArith Lia.

Open Scope Z_scope.
Open Scope tfm_scope.

(** What tells connections apart for the invariant. *)
Definition same_key (x y : connection_t) : Prop :=
  (c_status x = TFM_HANDLE_STATUS_IDLE <-> c_status y = TFM_HANDLE_STATUS_IDLE) /\ p_client x = p_client y /\ c_service x = c_service y /\ client_data x = client_data y /\
  m_client_id (msg x) = m_client_id (msg y).

Section lists.
Context {R : spm_rom} (Hrom : rom_ok R).
Implicit Types (l : links) (fl : list Z) (q : Z -> list Z) (c p : Z).

Abbreviation PL := (partition_listhead R).
Abbreviation live := (live R).

Lemma conn_pos c : is_conn R c -> c <> 0.
Proof. intros Hc. pose proof (slot_pos _ _ _ (ro_fit _ Hrom) c Hc). lia. Qed.

Lemma part_not_conn p c : p ∈ PL -> is_conn R c -> p <> c.
Proof. intros Hp Hc ->. by destruct (ro_part _ Hrom c Hp). Qed.

Lemma conns_bounded fl xs : NoDup xs -> (forall c, c ∈ xs -> live fl c) -> (length xs <= CONN_HANDLE_MAX_NUM R)%nat.
Proof.
  intros Hnd Hl. transitivity (length (slot_at (connection_pool R) CONNECTION_SIZE <$> seqZ 0 (Z.of_nat (CONN_HANDLE_MAX_NUM R)))).
  - apply submseteq_length, NoDup_submseteq; [done|]. intros c Hc. destruct (Hl c Hc) as [(i & Hi & ->) _].
    apply list_elem_of_fmap. exists i. split; [done|]. apply elem_of_seqZ. lia.
  - rewrite length_fmap, length_seqZ. lia.
Qed.

(** ** Lists *)

(** The lists of the other partitions stay when the links of one list and of a
    new node change. *)
Lemma lists_other l l' fl q p a :
  lists_ok R l fl q -> p ∈ PL -> (a ∈ q p \/ is_conn R a /\ forall p', p' ∈ PL -> a ∉ q p') ->
  (forall x, x <> a -> x ∉ p :: q p -> l' x = l x) -> forall p', p' ∈ PL -> p' <> p -> chain l' p' (q p').
Proof.
  intros [Hc Hn Hd Hl] Hp Ha Heq p' Hp' Hne. eapply nodes_chain_ext; [|by apply Hc]. intros x Hx. apply Heq.
  - intros ->. apply elem_of_cons in Hx as [->|Hx].
    + destruct Ha as [Ha|[Ha _]]; [apply Hl in Ha as [Ha _]; [|done]|]; by apply (part_not_conn p' p' Hp' Ha).
    + destruct Ha as [Ha|[_ Ha]]; [by apply Hne, (Hd p' p a)|by eapply Ha].
  - intros [->|Hq]%elem_of_cons; apply elem_of_cons in Hx as [->|Hx]; [done| | |by apply Hne, (Hd p' p x)].
    + destruct (Hl p' p Hp' Hx) as [Hcx _]. by apply (part_not_conn p p Hp Hcx).
    + destruct (Hl p p' Hp Hq) as [Hcx _]. by apply (part_not_conn p' p' Hp' Hcx).
Qed.

Lemma lists_insert l fl q p c :
  lists_ok R l fl q -> p ∈ PL -> live fl c -> (forall p', p' ∈ PL -> c ∉ q p') -> lists_ok R (UNI_LIST_INSERT_AFTER p c l) fl (<[p := c :: q p]> q).
Proof.
  intros Hl Hp Hc Hni. assert (p <> c) as Hpc by (by apply part_not_conn; [|apply Hc]). split.
  - intros p' Hp'. destruct (decide (p' = p)) as [->|Hne].
    + rewrite fn_lookup_insert. apply chain_insert; [done|by apply conn_pos, Hc|by apply Hni| |by apply Hl].
      intros Hin. destruct (l_live _ _ _ _ Hl p p Hp Hin) as [Hcp _]. by apply (part_not_conn p p Hp Hcp).
    + rewrite fn_lookup_insert_ne by done. eapply (lists_other l _ fl q p c); [done|done|by right; split; [apply Hc|]| |done|done].
      intros x Hx Hxp. unfold UNI_LIST_INSERT_AFTER. cbv zeta. rewrite !fn_lookup_insert_ne; [done|congruence|]. intros ->. by apply Hxp; left.
  - intros p' Hp'. destruct (decide (p' = p)) as [->|Hne]; [rewrite fn_lookup_insert|rewrite fn_lookup_insert_ne by done; by apply Hl].
    apply NoDup_cons. split; [by apply Hni|by apply Hl].
  - intros p1 p2 x H1 H2. destruct (decide (p1 = p)) as [->|Hn1], (decide (p2 = p)) as [->|Hn2];
      rewrite ?fn_lookup_insert, ?fn_lookup_insert_ne by done; [done| | |by apply Hl].
    + intros [->|Hx]%elem_of_cons Hx2; [by destruct (Hni p2 H2)|by eapply l_disj].
    + intros Hx1 [->|Hx]%elem_of_cons; [by destruct (Hni p1 H1)|by eapply l_disj].
  - intros p' x Hp'. destruct (decide (p' = p)) as [->|Hne]; [rewrite fn_lookup_insert|rewrite fn_lookup_insert_ne by done; by apply Hl].
    intros [->|Hx]%elem_of_cons; [done|by eapply l_live].
Qed.

Lemma lists_remove l fl q p ys c zs :
  lists_ok R l fl q -> p ∈ PL -> q p = ys ++ c :: zs -> lists_ok R (UNI_LIST_REMOVE_NODE_BY_PNODE (before p ys) l) fl (<[p := ys ++ zs]> q).
Proof.
  intros Hl Hp Hq. pose proof (l_chain _ _ _ _ Hl p Hp) as Hch. rewrite Hq in Hch.
  assert (forall x, x ∈ ys ++ zs -> x ∈ q p) as Hsub.
  { intros x. rewrite Hq, !elem_of_app, elem_of_cons. tauto. }
  assert (NoDup (ys ++ c :: zs)) as Hnd by (rewrite <- Hq; by apply Hl). split.
  - intros p' Hp'. destruct (decide (p' = p)) as [->|Hne].
    + rewrite fn_lookup_insert. eapply chain_remove; [|exact Hch]. apply NoDup_cons. split; [|done]. rewrite <- Hq. intros Hin.
      destruct (l_live _ _ _ _ Hl p p Hp Hin) as [Hcp _]. by apply (part_not_conn p p Hp Hcp).
    + rewrite fn_lookup_insert_ne by done. eapply (lists_other l _ fl q p c); [done|done|left; rewrite Hq; apply elem_of_app; right; left| |done|done].
      intros x Hx Hxp. unfold UNI_LIST_REMOVE_NODE_BY_PNODE. rewrite fn_lookup_insert_ne; [done|]. intros <-. apply Hxp.
      pose proof (before_in p ys) as [->|Hb]%elem_of_cons; [left|right]. rewrite Hq. apply elem_of_app. by left.
  - intros p' Hp'. destruct (decide (p' = p)) as [->|Hne]; [rewrite fn_lookup_insert|rewrite fn_lookup_insert_ne by done; by apply Hl].
    by apply NoDup_app in Hnd as (? & ? & [? ?]%NoDup_cons); apply NoDup_app; split_and!; [|set_solver|].
  - intros p1 p2 x H1 H2. destruct (decide (p1 = p)) as [->|Hn1], (decide (p2 = p)) as [->|Hn2];
      rewrite ?fn_lookup_insert, ?fn_lookup_insert_ne by done; [done| | |by apply Hl].
    + intros Hx%Hsub Hx2. by eapply l_disj.
    + intros Hx1 Hx%Hsub. by eapply l_disj.
  - intros p' x Hp'. destruct (decide (p' = p)) as [->|Hne]; [rewrite fn_lookup_insert|rewrite fn_lookup_insert_ne by done; by apply Hl].
    intros Hx%Hsub. by eapply l_live.
Qed.
End lists.

Section rules.
Context {R : spm_rom} {memory_check : Z -> Z -> Z -> Z -> bool}.
Implicit Types (s : spm_t) (fl : list Z) (q : Z -> list Z) (c p : Z).

Abbreviation PL := (partition_listhead R).
Abbreviation inv := (inv R memory_check).
Abbreviation live := (live R).
Abbreviation conn_ok := (conn_ok R memory_check).
Abbreviation outstanding := (outstanding R).
Abbreviation queued := (queued R).

Context (Hrom : rom_ok R).

(** ** Sizes *)

Lemma queue_bounded bnd s fl q p : inv bnd s fl q -> p ∈ PL -> (length (q p) < S (CONN_HANDLE_MAX_NUM R))%nat.
Proof.
  intros Hi Hp. assert (length (q p) <= CONN_HANDLE_MAX_NUM R)%nat; [|lia].
  pose proof (i_lists _ _ _ _ _ _ Hi) as Hl. eapply conns_bounded; [by eapply l_nodup|]. intros c Hc. by eapply l_live.
Qed.

(** ** Connections *)

Lemma key_rpc s s' c : same_key (conns s' c) (conns s c) -> tfm_spm_is_rpc_msg s' c = tfm_spm_is_rpc_msg s c.
Proof. intros (_ & _ & _ & Hd & Hi). unfold tfm_spm_is_rpc_msg. by rewrite Hd, Hi. Qed.

Lemma key_outstanding s s' fl c : same_key (conns s' c) (conns s c) -> outstanding s' fl c <-> outstanding s fl c.
Proof. intros Hk. unfold SpmInv.outstanding, rpc. rewrite (key_rpc s s' c Hk). by destruct Hk as (-> & _). Qed.

Lemma key_queued s s' p c :
  same_key (conns s' c) (conns s c) -> m_rhandle (msg (conns s' c)) = m_rhandle (msg (conns s c)) -> queued s' p c <-> queued s p c.
Proof.
  intros Hk Hr. unfold SpmInv.queued, rpc, owner, service_of. rewrite (key_rpc s s' c Hk), Hr. by destruct Hk as (-> & -> & -> & _).
Qed.

(** Connections change in what the invariant does not look at, or while they
    are idle. *)
Definition same_call (x y : connection_t) : Prop :=
  c_status x <> TFM_HANDLE_STATUS_IDLE \/ c_status y <> TFM_HANDLE_STATUS_IDLE -> same_key x y.

Lemma inv_put_conns bnd s fl q cs :
  inv bnd s fl q -> (forall c, live fl c -> same_call (cs c) (conns s c)) ->
  (forall p c, p ∈ PL -> c ∈ q p -> m_rhandle (msg (cs c)) = m_rhandle (msg (conns s c))) ->
  (forall c, live fl c -> conn_ok bnd (cs c)) -> inv bnd (put_conns cs s) fl q.
Proof.
  intros Hi Hk Hr Hok.
  assert (forall c, outstanding (put_conns cs s) fl c -> outstanding s fl c /\ p_client (cs c) = p_client (conns s c)) as Ho.
  { intros c Hc. assert (same_key (cs c) (conns s c)) as Hkc by (apply Hk; [apply Hc|left; apply Hc]).
    split; [by apply (key_outstanding s (put_conns cs s))|apply Hkc]. }
  assert (forall p c, p ∈ PL -> c ∈ q p -> same_key (cs c) (conns s c)) as Hkq.
  { intros p c Hp Hc. apply Hk; [by eapply (l_live _ _ _ _ (i_lists _ _ _ _ _ _ Hi))|right]. apply (i_queued _ _ _ _ _ _ Hi p c Hp Hc). }
  destruct Hi. split; try assumption.
  - intros p c Hp Hin. rewrite key_queued; [by apply i_queued|by eapply Hkq|by eapply Hr].
  - intros c Hc. destruct (Ho c Hc) as [Hc0 Hcl]. cbn [conns put_conns]. rewrite Hcl. by apply i_calls.
  - intros c c' [H1 E1]%Ho [H2 E2]%Ho. cbn [conns put_conns]. rewrite E1, E2. by apply i_one.
  - intros v Hv p sig. etransitivity; [exact (i_sig v Hv)|]. apply exist_proper. intros c. unfold conn_signal, sv_ld, service_of. cbn [conns put_conns].
    split; intros [Hin Hs]; (split; [done|]); revert Hs; destruct (Hkq _ _ (proj1 (proj2 (ro_service _ Hrom v Hv))) Hin) as (_ & _ & -> & _); done.
Qed.

Lemma inv_upd_conn bnd s fl q c f :
  inv bnd s fl q -> (live fl c -> same_call (f (conns s c)) (conns s c)) ->
  (m_rhandle (msg (f (conns s c))) = m_rhandle (msg (conns s c)) \/ forall p, p ∈ PL -> c ∉ q p) ->
  (live fl c -> conn_ok bnd (conns s c) -> conn_ok bnd (f (conns s c))) -> inv bnd (upd_conn c f s) fl q.
Proof.
  intros Hi Hk Hr Hok. apply inv_put_conns; [done| | |]; unfold alter, fn_alter.
  - intros c' Hc'. case_decide; [subst; by apply Hk|by intros _].
  - intros p c' Hp Hc'. case_decide; [subst|done]. destruct Hr as [Hr|Hr]; [done|by destruct (Hr p Hp)].
  - intros c' Hl. case_decide; [subst|]; eauto using i_conn.
Qed.

(** ** Signals *)

(** The signals of [p] that the invariant is about. *)
Definition relevant p sig : Prop :=
  sig = ASYNC_MSG_REPLY \/ exists v, v ∈ services R /\ s_partition (serv R v) = p /\ sig = ssignal (s_ldinf (serv R v)).

(** The invariant reads partitions one by one. *)
Lemma inv_parts bnd s fl q ps : (forall p, ps p = parts s p) -> inv bnd s fl q -> inv bnd (put_parts ps s) fl q.
Proof.
  intros Hp Hi. assert (forall p, waiting (put_parts ps s) p = waiting s p) as Hw by (intros p; unfold waiting; cbn [parts put_parts]; by rewrite Hp).
  assert (forall p sig, asserted (put_parts ps s) p sig = asserted s p sig) as Ha by (intros p sig; unfold asserted; cbn [parts put_parts]; by rewrite Hp).
  destruct Hi. split; try assumption.
  - intros p. cbn [parts put_parts]. rewrite Hp. apply i_bnd.
  - intros c Hc. rewrite Hw, Ha. by apply i_calls.
  - intros v Hv p sig. rewrite Ha. by apply i_sig.
  - intros p Hp' Hm. rewrite Ha. by apply i_reply.
  - intros p Hp' Hm. rewrite Ha, Hw. by apply i_async.
  - intros p Hp'. rewrite Hw. cbn [parts put_parts]. rewrite Hp. by apply i_state.
  - intros p Hp'. cbn [parts put_parts]. rewrite Hp. by apply i_allowed.
Qed.

Lemma inv_asserted bnd s fl q p a :
  inv bnd s fl q -> (forall sig, relevant p sig -> Z.land a sig <> 0 <-> asserted s p sig) -> inv bnd (upd_part p (set_asserted a) s) fl q.
Proof.
  intros Hi Hrel. assert (forall p' sig, relevant p' sig -> asserted (upd_part p (set_asserted a) s) p' sig <-> asserted s p' sig) as Hr.
  { intros p' sig Hp'. unfold asserted at 1. rewrite parts_upd. case_decide; [subst; by apply Hrel|done]. }
  assert (forall p', waiting (upd_part p (set_asserted a) s) p' = waiting s p') as Hw.
  { intros p'. unfold waiting. rewrite parts_upd. by case_decide. }
  destruct Hi. split; try assumption.
  - intros p'. rewrite parts_upd. case_decide; apply i_bnd.
  - intros c Hc. rewrite Hw, Hr by (by left). by apply i_calls.
  - intros v Hv p' sig. rewrite Hr by (right; by exists v). by apply i_sig.
  - intros p' Hp' Hm. rewrite Hr by (by left). by apply i_reply.
  - intros p' Hp' Hm. rewrite Hr, Hw by (by left). by apply i_async.
  - intros p' Hp'. rewrite Hw, parts_upd. intros Hz. specialize (i_state p' Hp' Hz). by case_decide.
  - intros p' Hp'. rewrite parts_upd. destruct (decide (p = p')); apply (i_allowed p' Hp').
Qed.

Lemma inv_waiting bnd s fl q p v :
  inv bnd s fl q -> p ∈ PL -> v <> 0 -> (forall c, outstanding s fl c -> p_client (conns s c) <> p) -> (mailbox R p \/ ~ asserted s p ASYNC_MSG_REPLY) ->
  inv bnd (upd_part p (set_waiting v) s) fl q.
Proof.
  intros Hi Hp Hv Hout Ha.
  assert (forall p' sig, asserted (upd_part p (set_waiting v) s) p' sig <-> asserted s p' sig) as Hr.
  { intros p' sig. unfold asserted. rewrite parts_upd. by case_decide. }
  assert (forall p', waiting (upd_part p (set_waiting v) s) p' = if decide (p = p') then v else waiting s p') as Hw.
  { intros p'. unfold waiting. rewrite parts_upd. by case_decide. }
  destruct Hi. split; try assumption.
  - intros p'. rewrite parts_upd. case_decide; apply i_bnd.
  - intros c Hc. rewrite Hw, Hr. rewrite decide_False; [by apply i_calls|]. intros Heq. by eapply Hout.
  - intros w Hw' p' sig. rewrite Hr. by apply i_sig.
  - intros p' Hp' Hm. rewrite Hr. by apply i_reply.
  - intros p' Hp' Hm. rewrite Hr, Hw. intros Has. case_decide; [subst; tauto|by apply i_async].
  - intros p' Hp'. rewrite Hw, parts_upd. case_decide; [done|by apply i_state].
  - intros p' Hp'. rewrite parts_upd. destruct (decide (p = p')); apply (i_allowed p' Hp').
Qed.

(** ** Lists of messages *)

Lemma sig_bit v : v ∈ services R -> one_bit (ssignal (s_ldinf (serv R v))).
Proof. intros Hv. apply (ro_signal _ Hrom v Hv). Qed.
Lemma sig_async v : v ∈ services R -> ssignal (s_ldinf (serv R v)) <> ASYNC_MSG_REPLY.
Proof. intros Hv. apply (ro_signal _ Hrom v Hv). Qed.

Lemma no_mailbox_service v : v ∈ services R -> ~ mailbox R (s_partition (serv R v)).
Proof. intros Hv. apply (ro_service _ Hrom v Hv). Qed.

Lemma idle_not_queued bnd s fl q p c : inv bnd s fl q -> p ∈ PL -> c_status (conns s c) = TFM_HANDLE_STATUS_IDLE -> c ∉ q p.
Proof. intros Hi Hp Hs Hin. by destruct (i_queued _ _ _ _ _ _ Hi p c Hp Hin) as [? _]. Qed.

End rules.
