(* ===== verification/SpmQueues.v ===== *)
(** * The partition manager: messages in and out of the lists *)

From S2P Require Import Prelude Bytes SpmLists SpmTypes SpmIpc SpmApi SpmSystem SpmInv SpmRules.
From stdpp Require Import base list numbers functions sets.
From Stdlib Require Import ZArith Lia.

Open Scope Z_scope.
Open Scope tfm_scope.

Section queues.
Context {R : spm_rom} {memory_check : Z -> Z -> Z -> Z -> bool}.
Implicit Types (s : spm_t) (fl : list Z) (q : Z -> list Z) (c p : Z).

Abbreviation PL := (partition_listhead R).
Abbreviation inv := (inv R memory_check).
Abbreviation live := (live R).
Abbreviation conn_ok := (conn_ok R memory_check).
Abbreviation outstanding := (outstanding R).
Abbreviation queued := (queued R).
Abbreviation sig_of v := (ssignal (s_ldinf (serv R v))).
Abbreviation part_of v := (s_partition (serv R v)).

Context (Hrom : rom_ok R).

Lemma mailbox_agent p : mailbox R p -> agent R p.
Proof. unfold mailbox, agent, IS_NS_AGENT. by intros ->. Qed.

(** Requests through the mailbox are the ones of its agents. *)
Lemma rpc_mailbox bnd s fl q c : inv bnd s fl q -> live fl c -> rpc s c <-> mailbox R (p_client (conns s c)).
Proof.
  intros Hi Hc. pose proof (i_conn _ _ _ _ _ _ Hi c Hc) as [_ Hcl Hid Hd _ _ _ _].
  pose proof (client_ok_sign R _ _ Hrom Hcl Hid) as Hs. rewrite <- Hd.
  unfold rpc, tfm_spm_is_rpc_msg. pose proof (conn_pos Hrom c (proj1 Hc)).
  rewrite !andb_true_iff, !negb_true_iff, !Z.eqb_neq, Z.ltb_lt. split; [tauto|]. intros Hne. split_and!; [done|done|].
  apply Hs, mailbox_agent, Hd, Hne.
Qed.

Lemma outstanding_not_mailbox bnd s fl q c : inv bnd s fl q -> outstanding s fl c -> ~ mailbox R (p_client (conns s c)).
Proof. intros Hi (Hc & _ & Hr). by rewrite <- (rpc_mailbox bnd s fl q c). Qed.

Lemma queue_owner bnd s fl q p c : inv bnd s fl q -> p ∈ PL -> ~ mailbox R p -> c ∈ q p -> owner R s c = p.
Proof. intros Hi Hp Hm Hc. destruct (i_queued _ _ _ _ _ _ Hi p c Hp Hc) as [_ Hq]. by rewrite decide_False in Hq. Qed.

(** ** Taking a message out *)

Lemma inv_dequeue bnd s fl q p ys c zs ps a :
  inv bnd s fl q -> p ∈ PL -> q p = ys ++ c :: zs ->
  (forall p', p' <> p -> ps p' = parts s p') -> ps p = set_asserted a (parts s p) ->
  (forall v, v ∈ services R -> part_of v = p -> Z.land a (sig_of v) <> 0 <-> exists d, d ∈ ys ++ zs /\ conn_signal R s d = sig_of v) ->
  (mailbox R p -> Z.land a ASYNC_MSG_REPLY <> 0 <-> ys ++ zs <> []) -> (~ mailbox R p -> Z.land a ASYNC_MSG_REPLY <> 0 -> asserted s p ASYNC_MSG_REPLY) ->
  inv bnd (put_parts ps (put_handles (UNI_LIST_REMOVE_NODE_BY_PNODE (before p ys) (p_handles s)) s)) fl (<[p := ys ++ zs]> q).
Proof.
  intros Hi Hp Hq Hps Hpp Hsig Hmb Hasy. set (s' := put_parts _ _).
  assert (forall p', waiting s' p' = waiting s p') as Hw.
  { intros p'. unfold waiting, s'. cbn [parts put_parts put_handles]. destruct (decide (p' = p)) as [->|]; [by rewrite Hpp|by rewrite Hps]. }
  assert (forall p' sig, p' <> p -> asserted s' p' sig <-> asserted s p' sig) as Has.
  { intros p' sig Hne. unfold asserted, s'. cbn [parts put_parts put_handles]. by rewrite Hps. }
  assert (forall sig, asserted s' p sig <-> Z.land a sig <> 0) as Hap.
  { intros sig. unfold asserted, s'. cbn [parts put_parts put_handles]. by rewrite Hpp. }
  pose proof (outstanding_not_mailbox bnd s fl q) as Hnm. specialize (fun c => Hnm c Hi).
  destruct Hi. split; try assumption.
  - intros p'. unfold s'. cbn [parts put_parts put_handles]. destruct (decide (p' = p)) as [->|]; [rewrite Hpp|rewrite Hps by done]; apply i_bnd.
  - by apply lists_remove with c.
  - intros p' d Hp'. destruct (decide (p' = p)) as [->|Hne]; [rewrite fn_lookup_insert|rewrite fn_lookup_insert_ne by done; by apply i_queued].
    intros Hd. apply (i_queued p d Hp). rewrite Hq. revert Hd. rewrite !elem_of_app, elem_of_cons. tauto.
  - intros d Hd. rewrite Hw. destruct (i_calls d Hd) as [H1 H2]. split; [exact H1|]. change (conns s' d) with (conns s d).
    destruct (decide (p_client (conns s d) = p)) as [Heq|Hne]; [|by rewrite Has].
    rewrite Heq, Hap. intros Hn%Hasy; [by rewrite Heq in H2|]. rewrite <- Heq. by apply Hnm.
  - intros v Hv p' sig. destruct (decide (p' = p)) as [Heq|Hne].
    + rewrite Heq, Hap, fn_lookup_insert. by apply Hsig.
    + rewrite Has by done. rewrite fn_lookup_insert_ne by done. by apply i_sig.
  - intros p' Hp' Hm. destruct (decide (p' = p)) as [->|Hne].
    + rewrite Hap, fn_lookup_insert. by apply Hmb.
    + rewrite Has by done. rewrite fn_lookup_insert_ne by done. by apply i_reply.
  - intros p' Hp' Hm. rewrite Hw. destruct (decide (p' = p)) as [->|Hne].
    + rewrite Hap. intros Hn. by apply i_async, Hasy.
    + rewrite Has by done. by apply i_async.
  - intros p' Hp'. rewrite Hw. intros Hz. specialize (i_state p' Hp' Hz). unfold s'. cbn [parts put_parts put_handles].
    destruct (decide (p' = p)) as [->|]; [by rewrite Hpp|by rewrite Hps].
  - intros p' Hp'. specialize (i_allowed p' Hp'). unfold s'. cbn [parts put_parts put_handles].
    destruct (decide (p' = p)) as [->|]; [by rewrite Hpp|by rewrite Hps].
Qed.

(** [psa_get] of a request: the oldest message with the signal. *)
Lemma no_matches (P : Z -> bool) xs :
  matches P xs = [] <-> forall x, x ∈ xs -> P x = false.
Proof.
  induction xs as [|x xs IH]; cbn; [split; [set_solver|done]|]. destruct (P x) eqn:HP.
  - split; [done|]. intros Hall. rewrite Hall in HP; [done|left].
  - rewrite IH. split; [intros Hx y [->|Hy]%elem_of_cons; eauto|intros Hx y Hy; apply Hx; by right].
Qed.

Lemma wp_get_handle_by_signal bnd s fl q p sig (Q : Z -> spm_t -> Prop) (E : psa_status_t -> spm_t -> Prop) :
  inv bnd s fl q -> p ∈ PL -> ~ mailbox R p -> one_bit sig -> sig <> ASYNC_MSG_REPLY ->
  ((forall c, c ∈ q p -> conn_signal R s c <> sig) -> Q 0 s) ->
  (forall ys c zs ps a, q p = ys ++ c :: zs -> conn_signal R s c = sig -> (forall z, z ∈ zs -> conn_signal R s z <> sig) ->
    (forall p', p' <> p -> ps p' = parts s p') -> ps p = set_asserted a (parts s p) ->
    let s' := put_parts ps (put_handles (UNI_LIST_REMOVE_NODE_BY_PNODE (before p ys) (p_handles s)) s) in
    inv bnd s' fl (<[p := ys ++ zs]> q) -> Q c s') ->
  wp (spm_get_handle_by_signal R p sig) Q E s.
Proof.
  intros Hi Hp Hm Hbit Hne H0 H1. unfold spm_get_handle_by_signal. apply wp_bind, wp_gets. cbv beta.
  pose proof (l_chain _ _ _ _ (i_lists _ _ _ _ _ _ Hi) p Hp) as Hch. pose proof (queue_bounded _ _ _ _ p Hi Hp) as Hb.
  rewrite (foreach_chain _ _ _ _ _ _ Hch Hb). set (P := fun c => conn_signal R s c =? sig).
  pose proof (last_found_spec P p (q p) None 0) as Hf. fold P. destruct (chain_fold _ _ _ _) as [holder n]. destruct Hf as [Hn [[Hno ->]|(ys & c & zs & Hq & Hc & Hz & ->)]].
  - apply H0. intros c Hc Heq. apply no_matches with (x := c) in Hno; [|done]. unfold P in Hno. by apply Z.eqb_neq in Hno.
  - apply Z.eqb_eq in Hc. assert (forall z, z ∈ zs -> conn_signal R s z <> sig) as Hz'.
    { intros z Hin. apply Z.eqb_neq. exact (proj1 (no_matches P zs) Hz z Hin). }
    pose proof Hch as Hat. rewrite Hq in Hat. apply chain_at in Hat. rewrite Hat.
    assert (owner R s c = p) as How by (eapply queue_owner; [exact Hi|done|done|rewrite Hq; apply elem_of_app; right; left]).
    assert (forall d, d ∈ ys ++ zs -> d ∈ q p) as Hsub by (intros d; rewrite Hq, !elem_of_app, elem_of_cons; tauto).
    assert (forall b v, v ∈ services R -> part_of v = p -> sig_of v <> sig -> (Z.land b (sig_of v) <> 0 <-> asserted s p (sig_of v)) ->
      Z.land b (sig_of v) <> 0 <-> exists d, d ∈ ys ++ zs /\ conn_signal R s d = sig_of v) as Hoth.
    { intros b v Hv Hpv Hsv ->. rewrite <- Hpv at 1. rewrite (i_sig _ _ _ _ _ _ Hi v Hv). rewrite Hpv. split.
      - intros (d & Hd & Hds). exists d. split; [|done]. rewrite Hq, elem_of_app, elem_of_cons in Hd. rewrite elem_of_app.
        destruct Hd as [?|[->|?]]; [by left|congruence|by right].
      - intros (d & Hd & Hds). exists d. split; [by apply Hsub|done]. }
    pose proof (i_conn _ _ _ _ _ _ Hi c (l_live _ _ _ _ (i_lists _ _ _ _ _ _ Hi) p c Hp ltac:(rewrite Hq; apply elem_of_app; right; left))) as Hck.
    pose proof (co_service _ _ _ _ Hck) as Hsv.
    assert (asserted s p sig) as Has.
    { pose proof (i_sig _ _ _ _ _ _ Hi _ Hsv) as Hsg. cbv zeta in Hsg. change (part_of _) with (owner R s c) in Hsg. rewrite How in Hsg.
      change (sig_of _) with (conn_signal R s c) in Hsg. rewrite Hc in Hsg. apply Hsg. exists c. rewrite Hq, elem_of_app. split; [right; left|done]. }
    apply wp_bind, wp_modify. cbv beta. destruct (Z.eqb_spec n 1) as [Hn1|Hn1].
    + apply wp_bind, wp_modify. cbv beta. apply wp_ret. eapply (H1 ys c zs (alter _ p (parts s))); [done|done|done|intros p' Hp'; by apply fn_lookup_alter_ne|by rewrite fn_lookup_alter|].
      eapply inv_dequeue; [exact Hi|done|exact Hq|intros p' Hp'; by apply fn_lookup_alter_ne|by rewrite fn_lookup_alter| | |].
      * intros v Hv Hpv. destruct (decide (sig_of v = sig)) as [Heq|Hsne].
        -- rewrite Heq. rewrite land_ldiff_same by done. split; [done|]. intros (d & Hd & Hds). exfalso.
           assert (matches P (q p) = [] \/ matches P ys = []) as [Hbad|Hys].
           { rewrite Hq in Hn |- *. unfold matches in *. rewrite List.filter_app in Hn |- *. cbn in Hn |- *. unfold P at 2 in Hn. rewrite (proj2 (Z.eqb_eq _ _) Hc) in Hn.
             fold P in Hn. rewrite Hz, length_app in Hn. cbn in Hn. right. apply length_zero_iff_nil. lia. }
           ++ assert (P c = false) as HPc by (eapply no_matches; [exact Hbad|rewrite Hq; apply elem_of_app; right; left]).
              unfold P in HPc. by apply Z.eqb_neq in HPc.
           ++ apply elem_of_app in Hd as [Hd|Hd]; [|by apply (Hz' d)].
              assert (P d = false) as HPd by (by eapply no_matches). unfold P in HPd. by apply Z.eqb_neq in HPd.
        -- apply Hoth; [done|done|done|]. apply land_ldiff_other; [done|by apply sig_bit|congruence].
      * done.
      * intros _ Hl. apply land_ldiff_other in Hl; [done|done|apply async_bit|done].
    + apply wp_bind, wp_ret. cbv beta. apply wp_ret.
      assert (parts s p = set_asserted (signals_asserted (parts s p)) (parts s p)) as Hid by (by destruct (parts s p)).
      eapply (H1 ys c zs (parts s)); [done|done|done|done|exact Hid|].
      eapply inv_dequeue; [exact Hi|done|exact Hq|done|exact Hid| |done|done].
      intros v Hv Hpv. destruct (decide (sig_of v = sig)) as [Heq|Hsne]; [|by apply Hoth].
      split; [intros _|intros _; rewrite Heq; exact Has]. rewrite Heq.
      destruct (matches P ys) as [|d ds] eqn:Hys.
      * exfalso. apply Hn1. rewrite Hn, Hq. unfold matches in *. rewrite List.filter_app. cbn. unfold P at 2. rewrite (proj2 (Z.eqb_eq _ _) Hc). fold P.
        by rewrite Hz, Hys.
      * assert (In d (List.filter P ys)) as Hin by (unfold matches in Hys; rewrite Hys; by left). apply filter_In in Hin as [Hin HPd].
        exists d. rewrite elem_of_app. split; [left; by apply list_elem_of_In|by apply Z.eqb_eq].
Qed.

End queues.

(** * The partition manager: what an operation leaves alone

    [moved] relates the states before and after a part of a step: the
    invariant holds again, calls of clients that wait go on waiting, replies
    that were given are still due, and memory changed only where allowed. *)

Section frame.
Context {R : spm_rom} {memory_check : Z -> Z -> Z -> Z -> bool} (bnd : Z -> Z) (W : Z -> Prop).
Implicit Types (s : spm_t) (fl : list Z) (q : Z -> list Z) (c p : Z) (X : Z -> Prop).

Abbreviation PL := (partition_listhead R).
Abbreviation inv := (inv R memory_check).
Abbreviation live := (live R).
Abbreviation conn_ok := (conn_ok R memory_check).
Abbreviation outstanding := (outstanding R).
Abbreviation queued := (queued R).

(** The thread of [p] returns [v] from its call when it is scheduled. *)
Definition due s p (v : Z) : Prop :=
  asserted s p ASYNC_MSG_REPLY /\ reply_value (parts s p) = v \/ waiting s p = 0 /\ ret_code s p = u32 v.

(** [X] has the connections and partitions about which nothing is said. *)
Record moved X s fl s' fl' q' : Prop := {
  mv_inv : inv bnd s' fl' q';
  mv_calls : forall c, ~ X c -> outstanding s fl c -> outstanding s' fl' c /\ p_client (conns s' c) = p_client (conns s c);
  mv_due : forall p v, p ∈ PL -> ~ mailbox R p -> p <> current s -> due s p v -> due s' p v;
  mv_current : current s' = current s;
  mv_wait : forall p, ~ X p -> waiting s' p = waiting s p;
  mv_mem : forall a, ~ W a -> mem s' a = mem s a;
}.

Definition nothing : Z -> Prop := fun _ => False.

Lemma mv_refl X s fl q : inv bnd s fl q -> moved X s fl s fl q.
Proof. by split. Qed.

Lemma mv_trans X s fl s1 fl1 q1 s2 fl2 q2 : moved X s fl s1 fl1 q1 -> moved X s1 fl1 s2 fl2 q2 -> moved X s fl s2 fl2 q2.
Proof.
  intros [_ C1 D1 U1 W1 M1] [I2 C2 D2 U2 W2 M2]. split; [done| | |congruence| |].
  - intros c Hx [Ho He]%(C1 c Hx). destruct (C2 c Hx Ho) as [? ->]. done.
  - intros p v Hp Hm Hc Hd. apply D2; [done|done|by rewrite U1|]. by apply D1.
  - intros p Hx. by rewrite W2, W1.
  - intros a Ha. by rewrite M2, M1.
Qed.

Lemma mv_weaken (X X' : Z -> Prop) s fl s' fl' q' : (forall x, X x -> X' x) -> moved X s fl s' fl' q' -> moved X' s fl s' fl' q'.
Proof. intros HX [? C ? ? Wt ?]. split; auto. Qed.

(** Nothing about signals and calls changes. *)
Lemma mv_same X s fl q s' :
  inv bnd s fl q -> inv bnd s' fl q -> parts s' = parts s -> ret_code s' = ret_code s -> current s' = current s ->
  (forall c, live fl c -> same_call (conns s' c) (conns s c)) -> (forall a, ~ W a -> mem s' a = mem s a) -> moved X s fl s' fl q.
Proof.
  intros Hi Hi' Hp Hr Hc Hk Hm. split; [done| | |done| |done].
  - intros c _ Ho. assert (same_key (conns s' c) (conns s c)) as Hkc by (apply Hk; [apply Ho|right; apply Ho]). split; [by apply (key_outstanding s)|apply Hkc].
  - intros p v _ _ _. unfold due, asserted, waiting. by rewrite Hp, Hr.
  - intros p _. unfold waiting. by rewrite Hp.
Qed.

Lemma mv_conn s fl q c f :
  rom_ok R -> inv bnd s fl q -> (live fl c -> same_call (f (conns s c)) (conns s c)) ->
  (m_rhandle (msg (f (conns s c))) = m_rhandle (msg (conns s c)) \/ forall p, p ∈ PL -> c ∉ q p) ->
  (live fl c -> conn_ok bnd (conns s c) -> conn_ok bnd (f (conns s c))) -> moved nothing s fl (upd_conn c f s) fl q.
Proof.
  intros Hrom Hi Hk Hr Hok. apply mv_same; [done|by apply inv_upd_conn|done|done|done| |done].
  intros c' Hc'. rewrite conns_upd. case_decide; [subst; by apply Hk|by intros _].
Qed.

Lemma mv_mem_write s fl q m :
  inv bnd s fl q -> (forall a, 0 <= m a < 256) -> (forall a, ~ W a -> m a = mem s a) -> moved nothing s fl (put_mem m s) fl q.
Proof. intros Hi Hm Hw. apply mv_same; try done. destruct Hi. by split. Qed.

Lemma mv_svc_next s fl q l : inv bnd s fl q -> (exists vs, chain l (services_listhead R) vs /\ vs ≡ₚ services R) -> moved nothing s fl (put_svc_next l s) fl q.
Proof. intros Hi Hl. apply mv_same; try done. destruct Hi. by split. Qed.

Lemma mv_irq_on s fl q f : inv bnd s fl q -> moved nothing s fl (put_irq_on f s) fl q.
Proof. intros Hi. apply mv_same; try done. destruct Hi. by split. Qed.

Lemma mv_nsid s fl q i : inv bnd s fl q -> moved nothing s fl (put_nsid i s) fl q.
Proof. intros Hi. apply mv_same; try done. destruct Hi. by split. Qed.

(** Signals that stand for no message. *)
Lemma mv_asserted s fl q p a :
  inv bnd s fl q -> (forall sig, relevant (R := R) p sig -> Z.land a sig <> 0 <-> asserted s p sig) -> moved nothing s fl (upd_part p (set_asserted a) s) fl q.
Proof.
  intros Hi Hrel. split; [by apply inv_asserted| |intros p' v _ _ _|done|intros p' _|done].
  - intros c _ Ho. done.
  - unfold due, asserted, waiting. rewrite !parts_upd. case_decide; [subst|done]. intros [[Ha Hv]|Hd]; [left|by right].
    split; [|done]. apply Hrel; [by left|done].
  - unfold waiting. rewrite parts_upd. by case_decide.
Qed.

Lemma mv_waiting s fl q p v :
  inv bnd s fl q -> p ∈ PL -> p = current s -> v <> 0 -> (forall c, outstanding s fl c -> p_client (conns s c) <> p) ->
  (mailbox R p \/ ~ asserted s p ASYNC_MSG_REPLY) -> moved (eq p) s fl (upd_part p (set_waiting v) s) fl q.
Proof.
  intros Hi Hp Hc Hv Ho Ha. split; [by apply inv_waiting|done| |done| |done].
  - intros p' w Hp' Hm Hne. unfold due, asserted, waiting. rewrite !parts_upd. case_decide; [congruence|done].
  - intros p' Hne. unfold waiting. rewrite parts_upd. case_decide; [by subst|done].
Qed.
Lemma mv_waiting_same s fl q p v : inv bnd s fl q -> waiting s p = v -> moved nothing s fl (upd_part p (set_waiting v) s) fl q.
Proof.
  intros Hi Hw. assert (forall p', parts (upd_part p (set_waiting v) s) p' = parts s p') as Hp.
  { intros p'. rewrite parts_upd. case_decide; [subst|done]. unfold waiting. by destruct (parts s p'). }
  split; [by eapply inv_parts|done| |done| |done].
  - intros p' w _ _ _. unfold due, asserted, waiting. by rewrite Hp.
  - intros p' _. unfold waiting. by rewrite Hp.
Qed.
End frame.
