(* ===== verification/SpmSend.v ===== *)
(** * The partition manager: requests and replies change hands *)

From S2P Require Import Prelude Bytes SpmLists SpmTypes SpmIpc SpmApi SpmSystem SpmInv SpmRules SpmQueues.
From stdpp Require Import base list numbers functions sets.
From Stdlib Require Import ZArith Lia.

Open Scope Z_scope.
Open Scope tfm_scope.

Section send.
Context {R : spm_rom} {memory_check : Z -> Z -> Z -> Z -> bool} (Hrom : rom_ok R) (bnd : Z -> Z) (W : Z -> Prop).
Implicit Types (s : spm_t) (fl : list Z) (q : Z -> list Z) (c p : Z).

Abbreviation PL := (partition_listhead R).
Abbreviation inv := (inv R memory_check).
Abbreviation live := (live R).
Abbreviation conn_ok := (conn_ok R memory_check).
Abbreviation outstanding := (outstanding R).
Abbreviation queued := (queued R).
Abbreviation sig_of v := (ssignal (s_ldinf (serv R v))).
Abbreviation part_of v := (s_partition (serv R v)).
Abbreviation moved := (moved (R := R) (memory_check := memory_check) bnd W).

(** No list has the connection. *)
Definition unlisted q c : Prop := forall p, p ∈ PL -> c ∉ q p.

Definition caller_ok (b : Z) (x : connection_t) : Prop :=
  0 <= m_type (msg x) -> forall i, index i -> out_size (msg x) i <> 0 -> exists n, i < n /\ may_write memory_check b (caller_outvec x) (n * IOVEC_SIZE).

Lemma owner_part s fl q c : inv bnd s fl q -> live fl c -> owner R s c ∈ PL /\ ~ mailbox R (owner R s c).
Proof. intros Hi Hc. apply (ro_service _ Hrom). exact (co_service _ _ _ _ (i_conn _ _ _ _ _ _ Hi c Hc)). Qed.

(** A request is put into the list of the owner of its service. *)
Lemma inv_enqueue s fl q c ps :
  inv bnd s fl q -> live fl c -> c_status (conns s c) = TFM_HANDLE_STATUS_IDLE -> caller_ok (bnd (p_client (conns s c))) (conns s c) ->
  let o := owner R s c in
  (forall p', p' <> o -> ps p' = parts s p') -> ps o = set_asserted (Z.lor (signals_asserted (parts s o)) (conn_signal R s c)) (parts s o) ->
  (~ rpc s c -> waiting s (p_client (conns s c)) = ASYNC_MSG_REPLY /\ ~ asserted s (p_client (conns s c)) ASYNC_MSG_REPLY /\
    forall d, outstanding s fl d -> p_client (conns s d) <> p_client (conns s c)) ->
  inv bnd (upd_conn c (set_status TFM_HANDLE_STATUS_ACTIVE) (put_parts ps (put_handles (UNI_LIST_INSERT_AFTER o c (p_handles s)) s)))
    fl (<[o := c :: q o]> q).
Proof.
  intros Hi Hc Hidle Hcal o Hps Hpo Hcl. set (s' := upd_conn _ _ _).
  pose proof (owner_part s fl q c Hi Hc) as [Ho Hom]. fold o in Ho, Hom.
  pose proof (co_service _ _ _ _ (i_conn _ _ _ _ _ _ Hi c Hc)) as Hsv.
  assert (unlisted q c) as Hun by (intros p Hp; by eapply idle_not_queued).
  assert (forall p, waiting s' p = waiting s p /\ boundary (parts s' p) = boundary (parts s p) /\ thrd_state (parts s' p) = thrd_state (parts s p) /\
    signals_allowed (parts s' p) = signals_allowed (parts s p)) as Hw.
  { intros p. unfold waiting, s'. cbn [parts put_parts put_handles upd_conn put_conns]. destruct (decide (p = o)) as [->|]; [by rewrite Hpo|by rewrite Hps]. }
  assert (forall p sig, one_bit sig -> asserted s' p sig <-> asserted s p sig \/ p = o /\ sig = conn_signal R s c) as Has.
  { intros p sig Hs. unfold asserted at 1, s'. cbn [parts put_parts put_handles upd_conn put_conns]. destruct (decide (p = o)) as [->|].
    - rewrite Hpo. cbn [signals_asserted set_asserted]. rewrite asserted_lor by (done || by apply sig_bit). tauto.
    - rewrite Hps by done. unfold asserted. tauto. }
  assert (forall p, asserted s' p ASYNC_MSG_REPLY <-> asserted s p ASYNC_MSG_REPLY) as Hasy.
  { intros p. rewrite Has by apply async_bit. pose proof (sig_async Hrom _ Hsv) as Hne. unfold conn_signal, sv_ld, service_of. intuition congruence. }
  assert (forall d, conns s' d = if decide (c = d) then set_status TFM_HANDLE_STATUS_ACTIVE (conns s d) else conns s d) as Hcs.
  { intros d. unfold s'. rewrite conns_upd. done. }
  assert (forall d, conn_signal R s' d = conn_signal R s d /\ owner R s' d = owner R s d /\ p_client (conns s' d) = p_client (conns s d) /\ tfm_spm_is_rpc_msg s' d = tfm_spm_is_rpc_msg s d) as Hsg.
  { intros d. unfold conn_signal, sv_ld, owner, service_of, tfm_spm_is_rpc_msg. rewrite Hcs. by case_decide; subst. }
  assert (forall d, outstanding s' fl d -> d = c /\ ~ rpc s c \/ outstanding s fl d) as Hout.
  { intros d (Hl & Hst & Hr). rewrite Hcs in Hst. destruct (Hsg d) as (_ & _ & _ & Hrd). unfold rpc in Hr. rewrite Hrd in Hr.
    destruct (decide (c = d)) as [<-|]; [by left|right; done]. }
  destruct Hi. split; try assumption.
  - intros p. destruct (Hw p) as (_ & -> & _). apply i_bnd.
  - by apply lists_insert.
  - intros p d Hp. unfold SpmInv.queued, rpc. destruct (Hsg d) as (_ & -> & -> & ->). rewrite Hcs.
    destruct (decide (p = o)) as [->|Hne]; [rewrite fn_lookup_insert|rewrite fn_lookup_insert_ne by done].
    + rewrite elem_of_cons. intros [->|Hd].
      * rewrite decide_True by done. split; [done|]. by rewrite decide_False.
      * rewrite decide_False by (intros <-; by apply (Hun o)). by apply i_queued.
    + intros Hd. rewrite decide_False by (intros <-; by apply (Hun p)). by apply i_queued.
  - intros d Hd. rewrite Hcs. case_decide as Heq; [|by apply i_conn]. subst d. destruct (i_conn c Hd). split; try done.
  - intros d Hd. destruct (Hsg d) as (_ & _ & -> & _). rewrite Hasy. destruct (Hw (p_client (conns s d))) as [-> _].
    apply Hout in Hd as [[-> Hr]|Hd]; [|by apply i_calls]. destruct (Hcl Hr) as (? & ? & _). done.
  - intros d d' H1 H2. destruct (Hsg d) as (_ & _ & -> & _), (Hsg d') as (_ & _ & -> & _).
    apply Hout in H1 as [[-> Hr]|H1], H2 as [[-> Hr']|H2]; [done| | |by apply i_one].
    + intros Heq. destruct (Hcl Hr) as (_ & _ & Hn). by destruct (Hn d' H2).
    + intros Heq. destruct (Hcl Hr') as (_ & _ & Hn). by destruct (Hn d H1).
  - intros v Hv p sig. pose proof (i_sig v Hv) as Hg. cbv zeta in Hg. subst p sig. rewrite Has by (by apply sig_bit). rewrite Hg.
    destruct (decide (part_of v = o)) as [->|Hne]; [rewrite fn_lookup_insert|rewrite fn_lookup_insert_ne by done].
    + split.
      * intros [(d & Hd & Hs)|[_ Heq]]; [exists d|exists c]; rewrite elem_of_cons.
        -- destruct (Hsg d) as [-> _]. by split; [right|].
        -- destruct (Hsg c) as [-> _]. by split; [left|].
      * intros (d & Hd & Hs). destruct (Hsg d) as [Hd' _]. rewrite Hd' in Hs. apply elem_of_cons in Hd as [->|Hd]; [by right|left; by exists d].
    + split; [intros [(d & Hd & Hs)|[? _]]; [|done]; exists d|intros (d & Hd & Hs); left; exists d]; destruct (Hsg d) as [Hd' _]; rewrite Hd' in *; done.
  - intros p Hp Hm. rewrite Hasy. rewrite fn_lookup_insert_ne by (intros ->; done). by apply i_reply.
  - intros p Hp Hm. rewrite Hasy. destruct (Hw p) as [-> _]. by apply i_async.
  - intros p Hp. destruct (Hw p) as (-> & _ & -> & _). by apply i_state.
  - intros p Hp. destruct (Hw p) as (_ & _ & _ & ->). by apply i_allowed.
Qed.
(** The client of a request waits for the reply. *)
Lemma mv_enqueue X s fl q c ps :
  inv bnd s fl q -> live fl c -> c_status (conns s c) = TFM_HANDLE_STATUS_IDLE -> caller_ok (bnd (p_client (conns s c))) (conns s c) ->
  let o := owner R s c in
  (forall p', p' <> o -> ps p' = parts s p') -> ps o = set_asserted (Z.lor (signals_asserted (parts s o)) (conn_signal R s c)) (parts s o) ->
  (~ rpc s c -> waiting s (p_client (conns s c)) = ASYNC_MSG_REPLY /\ ~ asserted s (p_client (conns s c)) ASYNC_MSG_REPLY /\
    forall d, outstanding s fl d -> p_client (conns s d) <> p_client (conns s c)) ->
  moved X s fl (upd_conn c (set_status TFM_HANDLE_STATUS_ACTIVE) (put_parts ps (put_handles (UNI_LIST_INSERT_AFTER o c (p_handles s)) s)))
    fl (<[o := c :: q o]> q).
Proof.
  intros Hi Hc Hidle Hcal o Hps Hpo Hcl. set (s' := upd_conn _ _ _).
  assert (forall p, ps p = set_asserted (signals_asserted (ps p)) (parts s p)) as Hpp.
  { intros p. destruct (decide (p = o)) as [->|]; [by rewrite Hpo|rewrite Hps by done; by destruct (parts s p)]. }
  split; [by apply inv_enqueue| | |done| |done].
  - intros d _ (Hl & Hst & Hr). unfold s'. rewrite conns_upd. cbn [conns put_parts put_handles].
    rewrite decide_False by (intros ->; by rewrite Hidle in Hst). split; [|done]. split; [done|]. rewrite conns_upd. cbn [conns put_parts put_handles].
    rewrite decide_False by (intros ->; by rewrite Hidle in Hst). split; [done|]. unfold rpc, tfm_spm_is_rpc_msg. rewrite conns_upd.
    cbn [conns put_parts put_handles]. by rewrite decide_False by (intros ->; by rewrite Hidle in Hst).
  - intros p v _ _ _. unfold due, asserted, waiting. cbn [s' parts ret_code upd_conn put_conns put_parts put_handles].
    rewrite (Hpp p). cbn [signals_waiting signals_asserted reply_value set_asserted]. intros [[Ha Hv]|Hd]; [left|by right]. split; [|done].
    destruct (decide (p = o)) as [->|]; [|by rewrite Hps]. rewrite Hpo. cbn [signals_asserted set_asserted].
    apply asserted_lor; [by apply (sig_bit Hrom), (co_service _ _ _ _ (i_conn _ _ _ _ _ _ Hi c Hc))|apply async_bit|by left].
  - intros p _. unfold waiting. cbn [s' parts upd_conn put_conns put_parts put_handles]. by rewrite (Hpp p).
Qed.

(** ** The end of a request *)

Lemma inv_retire s fl q c :
  inv bnd s fl q -> unlisted q c -> inv bnd (upd_conn c (set_status TFM_HANDLE_STATUS_IDLE) s) fl q.
Proof.
  intros Hi Hun. set (s' := upd_conn _ _ _).
  assert (forall d, conns s' d = if decide (c = d) then set_status TFM_HANDLE_STATUS_IDLE (conns s d) else conns s d) as Hcs.
  { intros d. unfold s'. by rewrite conns_upd. }
  assert (forall d, conn_signal R s' d = conn_signal R s d /\ owner R s' d = owner R s d /\ p_client (conns s' d) = p_client (conns s d) /\
    tfm_spm_is_rpc_msg s' d = tfm_spm_is_rpc_msg s d) as Hsg.
  { intros d. unfold conn_signal, sv_ld, owner, service_of, tfm_spm_is_rpc_msg. rewrite Hcs. by case_decide; subst. }
  assert (forall d, outstanding s' fl d -> outstanding s fl d) as Hout.
  { intros d (Hl & Hst & Hr). rewrite Hcs in Hst. destruct (Hsg d) as (_ & _ & _ & Hrd). unfold rpc in Hr. rewrite Hrd in Hr. by case_decide. }
  destruct Hi. split; try assumption.
  - intros p d Hp Hd. unfold SpmInv.queued, rpc. destruct (Hsg d) as (_ & -> & -> & ->). rewrite Hcs.
    rewrite decide_False by (intros <-; by apply (Hun p)). by apply i_queued.
  - intros d Hd. rewrite Hcs. case_decide as Heq; [|by apply i_conn]. subst d. destruct (i_conn c Hd). by split.
  - intros d Hd%Hout. destruct (Hsg d) as (_ & _ & -> & _). by apply i_calls.
  - intros d d' H1%Hout H2%Hout. destruct (Hsg d) as (_ & _ & -> & _), (Hsg d') as (_ & _ & -> & _). by apply i_one.
  - intros v Hv p sig. etransitivity; [exact (i_sig v Hv)|]. apply exist_proper. intros d. by destruct (Hsg d) as (-> & _).
Qed.

(** Fewer connections are live. *)
Lemma live_cons fl c d : live (c :: fl) d -> live fl d /\ d <> c.
Proof. intros [Hd [Hne Hn]%not_elem_of_cons]. split; [split; [exact Hd|exact Hn]|exact Hne]. Qed.

Lemma inv_free s fl q c :
  inv bnd s fl q -> live fl c -> unlisted q c -> inv bnd (put_pool (tfm_pool_free (connection_pool R) c (pool s)) s) (c :: fl) q.
Proof.
  intros Hi Hc Hun. destruct Hi. split; try assumption.
  - apply (free_ok _ _ _ (ro_fit _ Hrom)); [done|apply Hc|apply Hc].
  - destruct i_lists as [l1 l2 l3 l4]. split; [done|done|done|]. intros p d Hp Hd. destruct (l4 p d Hp Hd) as [Hs Hn]. split; [done|].
    rewrite not_elem_of_cons. split; [|done]. intros ->. by apply (Hun p).
  - intros d [Hd _]%live_cons. by apply i_conn.
  - intros d ([Hd _]%live_cons & Ho). by apply i_calls.
  - intros d d' ([Hd _]%live_cons & Ho) ([Hd' _]%live_cons & Ho'). by apply i_one.
Qed.

Lemma mv_retire (X : Z -> Prop) s fl q c :
  (outstanding s fl c -> X c) -> inv bnd s fl q -> unlisted q c -> moved X s fl (upd_conn c (set_status TFM_HANDLE_STATUS_IDLE) s) fl q.
Proof.
  intros HX Hi Hun. split; [by apply inv_retire| |done|done|done|done].
  intros d Hd Ho. assert (c <> d) by (intros ->; auto). destruct Ho as (Hl & Hst & Hr). unfold SpmInv.outstanding, rpc, tfm_spm_is_rpc_msg. rewrite !conns_upd. rewrite decide_False by done. done.
Qed.

Lemma mv_free (X : Z -> Prop) s fl q c :
  (outstanding s fl c -> X c) -> inv bnd s fl q -> live fl c -> unlisted q c -> moved X s fl (put_pool (tfm_pool_free (connection_pool R) c (pool s)) s) (c :: fl) q.
Proof.
  intros HX Hi Hc Hun. split; [by apply inv_free| |done|done|done|done].
  intros d Hd Ho. assert (c <> d) by (intros ->; auto). destruct Ho as (Hl & Ho). split; [|done]. split; [|done]. split; [apply Hl|]. rewrite not_elem_of_cons. split; [congruence|apply Hl].
Qed.
End send.

(** * The partition manager: how replies reach clients *)

(** A signal is asserted. *)
Definition raise (sig : Z) (x : partition_t) : partition_t := set_asserted (Z.lor (signals_asserted x) sig) x.

Lemma raised (s : spm_t) p sig sig' p' : one_bit sig -> one_bit sig' ->
  asserted (upd_part p (raise sig) s) p' sig' <-> asserted s p' sig' \/ p = p' /\ sig' = sig.
Proof.
  intros H1 H2. unfold asserted at 1. rewrite parts_upd. case_decide as Hp; [subst|unfold asserted; tauto].
  unfold raise. cbn [signals_asserted set_asserted]. rewrite asserted_lor by done. tauto.
Qed.

Section reply.
Context {R : spm_rom} {memory_check : Z -> Z -> Z -> Z -> bool} (Hrom : rom_ok R) (bnd : Z -> Z) (W : Z -> Prop).
Implicit Types (s : spm_t) (fl : list Z) (q : Z -> list Z) (c p : Z) (X : Z -> Prop).

Abbreviation PL := (partition_listhead R).
Abbreviation inv := (inv R memory_check).
Abbreviation live := (live R).
Abbreviation conn_ok := (conn_ok R memory_check).
Abbreviation outstanding := (outstanding R).
Abbreviation queued := (queued R).
Abbreviation sig_of v := (ssignal (s_ldinf (serv R v))).
Abbreviation part_of v := (s_partition (serv R v)).
Abbreviation moved := (moved (R := R) (memory_check := memory_check) bnd W).

(** The reply to a client that waits for it. *)
Lemma inv_answer s fl q p v :
  inv bnd s fl q -> p ∈ PL -> ~ mailbox R p -> waiting s p = ASYNC_MSG_REPLY -> (forall c, outstanding s fl c -> p_client (conns s c) <> p) ->
  inv bnd (upd_part p (raise ASYNC_MSG_REPLY) (upd_part p (set_reply_value v) s)) fl q.
Proof.
  intros Hi Hp Hm Hw Hout. set (s' := upd_part _ _ _).
  assert (forall p', waiting s' p' = waiting s p' /\ boundary (parts s' p') = boundary (parts s p') /\ thrd_state (parts s' p') = thrd_state (parts s p') /\
    signals_allowed (parts s' p') = signals_allowed (parts s p')) as Hsame.
  { intros p'. unfold waiting, s'. rewrite !parts_upd. by case_decide; subst. }
  assert (forall p' sig, one_bit sig -> asserted s' p' sig <-> asserted s p' sig \/ p = p' /\ sig = ASYNC_MSG_REPLY) as Has.
  { intros p' sig Hs. unfold s'. rewrite raised by (done || apply async_bit). unfold asserted at 1. rewrite parts_upd. by case_decide; subst. }
  destruct Hi. split; try assumption.
  - intros p'. destruct (Hsame p') as (_ & -> & _). apply i_bnd.
  - intros c Hc. destruct (Hsame (p_client (conns s' c))) as [-> _]. rewrite Has by apply async_bit. split; [by apply i_calls|].
    intros [Ha|[Ha _]]; [by apply (i_calls c Hc)|by apply (Hout c Hc)].
  - intros w Hw' p' sig. etransitivity; [|exact (i_sig w Hw')]. rewrite Has by (by apply sig_bit). split; [|by left]. intros [?|[_ Hx]]; [done|].
    exfalso. by apply (sig_async Hrom w Hw').
  - intros p' Hp' Hm'. rewrite Has by apply async_bit. rewrite <- (i_reply p' Hp' Hm'). split; [|by left]. by intros [?|[-> _]].
  - intros p' Hp' Hm'. rewrite Has by apply async_bit. destruct (Hsame p') as [-> _]. intros [?|[<- _]]; [by apply i_async|done].
  - intros p' Hp'. destruct (Hsame p') as (-> & _ & -> & _). by apply i_state.
  - intros p' Hp'. destruct (Hsame p') as (_ & _ & _ & ->). by apply i_allowed.
Qed.

Lemma mv_answer X s fl q p v :
  inv bnd s fl q -> p ∈ PL -> ~ mailbox R p -> waiting s p = ASYNC_MSG_REPLY -> (forall c, outstanding s fl c -> p_client (conns s c) <> p) ->
  ~ asserted s p ASYNC_MSG_REPLY -> moved X s fl (upd_part p (raise ASYNC_MSG_REPLY) (upd_part p (set_reply_value v) s)) fl q.
Proof.
  intros Hi Hp Hm Hw Hout Hna. split; [by apply inv_answer|done| |done| |done].
  - intros p' w _ _ _. unfold due. unfold asserted, waiting. rewrite !parts_upd. case_decide; [subst|done].
    intros [[Ha _]|[Hz _]]; [done|]. unfold waiting in Hw. by rewrite Hw in Hz.
  - intros p' _. unfold waiting. rewrite !parts_upd. by case_decide; subst.
Qed.

Lemma due_answer s p v : due (upd_part p (raise ASYNC_MSG_REPLY) (upd_part p (set_reply_value v) s)) p v.
Proof.
  left. split.
  - apply raised; [apply async_bit|apply async_bit|by right].
  - rewrite !parts_upd. by rewrite !decide_True.
Qed.

(** The reply to a request that came through a mailbox is put into the list of
    its agent. *)
Definition rpc_answer (c v : Z) (x : connection_t) : connection_t := set_rhandle c (set_c_reply_value v x).

Lemma inv_enqueue_reply s fl q c v :
  inv bnd s fl q -> live fl c -> c_status (conns s c) <> TFM_HANDLE_STATUS_IDLE -> rpc s c -> unlisted (R := R) q c ->
  let p := p_client (conns s c) in
  inv bnd (upd_part p (raise ASYNC_MSG_REPLY) (put_handles (UNI_LIST_INSERT_AFTER p c (p_handles s)) (upd_conn c (rpc_answer c v) s)))
    fl (<[p := c :: q p]> q).
Proof.
  intros Hi Hc Hst Hr Hun p.
  assert (mailbox R p) as Hm by (by apply (rpc_mailbox (memory_check := memory_check) Hrom bnd s fl q c)).
  assert (p ∈ PL) as Hp by apply (co_client _ _ _ _ (i_conn _ _ _ _ _ _ Hi c Hc)).
  assert (inv bnd (upd_conn c (rpc_answer c v) s) fl q) as Hi'.
  { apply inv_upd_conn; [done|done|done|by right|]. intros _ [? ? ? ? ? ? ? ?]. by split. }
  assert (m_rhandle (msg (conns (upd_conn c (rpc_answer c v) s) c)) = c) as Hrh by (by rewrite conns_upd, decide_True).
  assert (forall d, tfm_spm_is_rpc_msg (upd_conn c (rpc_answer c v) s) d = tfm_spm_is_rpc_msg s d) as Hrpc.
  { intros d. unfold tfm_spm_is_rpc_msg. rewrite conns_upd. by case_decide; subst. }
  assert (c_status (conns (upd_conn c (rpc_answer c v) s) c) <> TFM_HANDLE_STATUS_IDLE) as Hst' by (by rewrite conns_upd, decide_True).
  assert (p_client (conns (upd_conn c (rpc_answer c v) s) c) = p) as Hcl by (by rewrite conns_upd, decide_True).
  assert (rpc (upd_conn c (rpc_answer c v) s) c) as Hr' by (unfold rpc; by rewrite Hrpc).
  clear Hst Hr Hi Hrpc. clearbody p. revert Hi' Hrh Hst' Hcl Hr'. change (p_handles s) with (p_handles (upd_conn c (rpc_answer c v) s)).
  generalize (upd_conn c (rpc_answer c v) s) as t. clear s. intros s Hi Hrh Hst Hcl Hr.
  pose proof (outstanding_not_mailbox (memory_check := memory_check) Hrom bnd s fl q) as Hnm.
  set (s' := upd_part _ _ _).
  assert (forall p', waiting s' p' = waiting s p' /\ boundary (parts s' p') = boundary (parts s p') /\ thrd_state (parts s' p') = thrd_state (parts s p') /\
    signals_allowed (parts s' p') = signals_allowed (parts s p')) as Hsame.
  { intros p'. unfold waiting, s'. rewrite !parts_upd. by case_decide; subst. }
  assert (forall p' sig, one_bit sig -> asserted s' p' sig <-> asserted s p' sig \/ p = p' /\ sig = ASYNC_MSG_REPLY) as Has.
  { intros p' sig Hs. unfold s'. by rewrite raised by (done || apply async_bit). }
  pose proof Hi as Hi0. destruct Hi. split; try assumption.
  - intros p'. destruct (Hsame p') as (_ & -> & _). apply i_bnd.
  - by apply lists_insert.
  - intros p' d Hp'. destruct (decide (p' = p)) as [->|Hne]; [rewrite fn_lookup_insert|rewrite fn_lookup_insert_ne by done; by apply (i_queued p' d)].
    rewrite elem_of_cons. intros [->|Hd]; [|by apply (i_queued p d)]. split; [done|]. by rewrite decide_True.
  - intros d Hd. destruct (Hsame (p_client (conns s' d))) as [-> _]. rewrite Has by apply async_bit. split; [by apply i_calls|].
    intros [Ha|[Ha _]]; [by apply (i_calls d Hd)|]. apply (Hnm d Hi0 Hd). change (conns s' d) with (conns s d) in Ha. by rewrite <- Ha.
  - intros w Hw' p' sig. rewrite Has by (by apply sig_bit). subst p' sig.
    rewrite fn_lookup_insert_ne by (intros Heq; apply (no_mailbox_service Hrom w Hw'); by rewrite <- Heq). etransitivity; [|exact (i_sig w Hw')]. split; [|by left]. intros [?|[_ Hx]]; [done|].
    exfalso. by apply (sig_async Hrom w Hw').
  - intros p' Hp' Hm'. rewrite Has by apply async_bit. destruct (decide (p' = p)) as [->|Hne].
    + rewrite fn_lookup_insert. split; [done|]. intros _. by right.
    + rewrite fn_lookup_insert_ne by done. rewrite <- (i_reply p' Hp' Hm'). split; [|by left]. intros [?|[? _]]; [done|congruence].
  - intros p' Hp' Hm'. rewrite Has by apply async_bit. destruct (Hsame p') as [-> _]. intros [?|[<- _]]; [by apply i_async|done].
  - intros p' Hp'. destruct (Hsame p') as (-> & _ & -> & _). by apply i_state.
  - intros p' Hp'. destruct (Hsame p') as (_ & _ & _ & ->). by apply i_allowed.
Qed.
Lemma mv_enqueue_reply X s fl q c v :
  inv bnd s fl q -> live fl c -> c_status (conns s c) <> TFM_HANDLE_STATUS_IDLE -> rpc s c -> unlisted (R := R) q c ->
  let p := p_client (conns s c) in
  moved X s fl (upd_part p (raise ASYNC_MSG_REPLY) (put_handles (UNI_LIST_INSERT_AFTER p c (p_handles s)) (upd_conn c (rpc_answer c v) s)))
    fl (<[p := c :: q p]> q).
Proof.
  intros Hi Hc Hst Hr Hun p. set (s' := upd_part _ _ _).
  assert (forall d, same_key (conns s' d) (conns s d)) as Hk.
  { intros d. unfold s'. cbn [conns upd_part put_parts put_handles]. rewrite conns_upd. by case_decide; subst. }
  split; [by apply inv_enqueue_reply| | |done| |done].
  - intros d _ Hd. split; [by apply (key_outstanding s s')|apply Hk].
  - intros p' w _ _ _. unfold due. intros [[Ha Hv]|Hd].
    + left. unfold s'. split; [|rewrite parts_upd; by case_decide; subst]. apply raised; [apply async_bit|apply async_bit|by left].
    + right. unfold waiting, s'. rewrite parts_upd. by case_decide; subst.
  - intros p' _. unfold waiting, s'. rewrite parts_upd. by case_decide; subst.
Qed.

(** A message leaves the list of the running partition. *)
Lemma mv_dequeue X s fl q ys c zs ps a :
  let p := current s in
  inv bnd (put_parts ps (put_handles (UNI_LIST_REMOVE_NODE_BY_PNODE (before p ys) (p_handles s)) s)) fl (<[p := ys ++ zs]> q) ->
  (forall p', p' <> p -> ps p' = parts s p') -> ps p = set_asserted a (parts s p) -> q p = ys ++ c :: zs ->
  moved X s fl (put_parts ps (put_handles (UNI_LIST_REMOVE_NODE_BY_PNODE (before p ys) (p_handles s)) s)) fl (<[p := ys ++ zs]> q).
Proof.
  intros p Hi Hps Hp Hq. set (s' := put_parts _ _) in *. split; [done|done| |done| |done].
  - intros p' v _ _ Hne. unfold due, asserted, waiting. cbn [s' parts put_parts put_handles ret_code]. by rewrite Hps.
  - intros p' _. unfold waiting. cbn [s' parts put_parts put_handles]. destruct (decide (p' = p)) as [->|]; [by rewrite Hp|by rewrite Hps].
Qed.
End reply.
