(* ===== verification/SpmVectors.v ===== *)
(** * The partition manager: vectors of messages *)

From S2P Require Import Prelude Bytes SpmLists SpmTypes SpmIpc SpmApi SpmSystem SpmInv SpmRules SpmQueues SpmSend.
From stdpp Require Import base list numbers functions sets.
From Stdlib Require Import ZArith Lia.

Open Scope Z_scope.
Open Scope tfm_scope.

(** ** Memory *)

Lemma mem_read_length m a n : 0 <= n -> zlen (mem_read m a n) = n.
Proof. intros Hn. unfold zlen, mem_read. rewrite length_fmap, length_seqZ. lia. Qed.

Lemma mem_write_other a d m x : ~ (a <= x < a + zlen d) -> mem_write a d m x = m x.
Proof.
  intros Hx. unfold mem_write. destruct (Z.leb_spec a x), (Z.ltb_spec x (a + zlen d)); cbn [andb]; [lia|done..].
Qed.

Lemma mem_write_bytes a d m : Forall is_byte d -> (forall x, 0 <= m x < 256) -> forall x, 0 <= mem_write a d m x < 256.
Proof.
  intros Hd Hm x. unfold mem_write. case_match; [|done]. destruct (nth_in_or_default (Z.to_nat (x - a)) d 0) as [Hin| ->]; [|lia].
  rewrite Forall_forall in Hd. apply Hd, list_elem_of_In, Hin.
Qed.

Lemma mem_read_bytes m a n : (forall x, 0 <= m x < 256) -> Forall is_byte (mem_read m a n).
Proof. intros Hm. unfold mem_read. apply Forall_fmap, Forall_true. intros i. apply Hm. Qed.

Section vectors.
Context {R : spm_rom} {memory_check : Z -> Z -> Z -> Z -> bool} (Hrom : rom_ok R) (bnd : Z -> Z).
Implicit Types (s : spm_t) (fl : list Z) (q : Z -> list Z) (c p : Z) (X W : Z -> Prop).

Abbreviation PL := (partition_listhead R).
Abbreviation inv := (inv R memory_check bnd).
Abbreviation live := (live R).
Abbreviation conn_ok := (conn_ok R memory_check bnd).
Abbreviation moved := (moved (R := R) (memory_check := memory_check) bnd).
Abbreviation may_write := (may_write memory_check).

(** The memory that the SPM may change on behalf of the running partition: its
    own, and that of the clients of its messages, where the platform allows
    them to write. *)
Definition allowed s (a : Z) : Prop :=
  exists b base size, base <= a < base + size /\ may_write (bnd b) base size /\
    (b = current s \/ exists c, spm_validate_connection R c s = true /\ owner R s c = current s /\ p_client (conns s c) = b).

(** ** Rules *)

Lemma wp_require b (Q : unit -> spm_t -> Prop) (E : psa_status_t -> spm_t -> Prop) s : (b = true -> Q tt s) -> E PANIC s -> wp (spm_require b) Q E s.
Proof. destruct b; intros HQ HE; [by apply wp_ret, HQ|by apply wp_fail]. Qed.

Lemma wp_get {A} (f : spm_t -> SPM A) (Q : A -> spm_t -> Prop) (E : psa_status_t -> spm_t -> Prop) s : wp (f s) Q E s -> wp (bind get f) Q E s.
Proof. done. Qed.

Lemma validate_live s fl q c : inv s fl q -> 0 <= c < 4294967296 -> spm_validate_connection R c s = true <-> live fl c.
Proof. intros Hi Hc. exact (is_valid_exact _ _ _ (ro_fit _ Hrom) _ fl c (i_pool _ _ _ _ _ _ Hi) Hc). Qed.

Lemma live_range c : is_conn R c -> 0 < c < 4294967296.
Proof.
  intros Hc. pose proof (slot_range _ _ _ (ro_fit _ Hrom) c Hc) as Hr. pose proof (pf_addr _ _ _ (ro_fit _ Hrom)).
  pose proof (pf_end _ _ _ (ro_fit _ Hrom)). unfold CONNECTION_SIZE in *. lia.
Qed.

Lemma handle_range h : 0 <= handle_to_connection R h < 4294967296.
Proof. unfold handle_to_connection. case_match; [lia|apply u32_range]. Qed.

(** A message handle is one of a message to the running partition. *)
Lemma wp_msg_connection s fl q h (Q : Z -> spm_t -> Prop) (E : psa_status_t -> spm_t -> Prop) :
  inv s fl q -> (forall c, c = handle_to_connection R h -> live fl c -> owner R s c = current s -> Q c s) -> E PANIC s ->
  wp (msg_connection R h) Q E s.
Proof.
  intros Hi HQ HE. unfold msg_connection, spm_msg_handle_to_connection. apply wp_get. cbv zeta.
  set (c := handle_to_connection R h). destruct (spm_validate_connection R c s) eqn:Hv; cbn [negb].
  2: { apply wp_bind, wp_require; [done|exact HE]. }
  apply (validate_live s fl q) in Hv; [|done|apply handle_range].
  destruct (Z.eqb_spec (tfm_spm_partition_get_running_partition_id R s) (pid (ldinf R (s_partition (service_of R s c))))) as [Hp|Hp]; cbn [negb].
  2: { apply wp_bind, wp_require; [done|exact HE]. }
  apply wp_bind, wp_require; [|done]. intros _. apply wp_ret. apply HQ; [done|done|].
  symmetry. apply (ro_pids _ Hrom); [apply Hi| |exact Hp].
  apply (ro_service _ Hrom), (co_service _ _ _ _ (i_conn _ _ _ _ _ _ Hi c Hv)).
Qed.

Lemma allowed_mine s base size a : may_write (bnd (current s)) base size -> base <= a < base + size -> allowed s a.
Proof. intros Hm Ha. exists (current s), base, size. auto. Qed.

Lemma allowed_client s fl q c base size a :
  inv s fl q -> live fl c -> owner R s c = current s -> may_write (bnd (p_client (conns s c))) base size -> base <= a < base + size -> allowed s a.
Proof.
  intros Hi Hc Ho Hm Ha. exists (p_client (conns s c)), base, size. split_and!; [lia|lia|done|]. right. exists c. split; [|done].
  apply (validate_live s fl q); [done|pose proof (live_range c (proj1 Hc)); lia|done].
Qed.

Lemma mv_then W X s fl s1 fl1 q1 s2 fl2 q2 :
  moved W X s fl s1 fl1 q1 -> (inv s1 fl1 q1 -> moved W nothing s1 fl1 s2 fl2 q2) -> moved W X s fl s2 fl2 q2.
Proof. intros H1 H2. eapply mv_trans; [exact H1|]. eapply mv_weaken; [|apply H2, H1]. done. Qed.

(** An update of a connection in fields other than those that identify it. *)
Lemma mv_then_conn W X s fl s1 fl1 q1 c f :
  moved W X s fl s1 fl1 q1 -> (forall x, same_key (f x) x /\ m_rhandle (msg (f x)) = m_rhandle (msg x)) ->
  (conn_ok (conns s1 c) -> conn_ok (f (conns s1 c))) -> moved W X s fl (upd_conn c f s1) fl1 q1.
Proof.
  intros Hm Hk Hok. eapply mv_then; [exact Hm|]. intros Hi. apply mv_conn; [done|done|intros _ _; apply Hk|left; apply Hk|intros _; exact Hok].
Qed.
(** ** The operations *)

Lemma co_in_range s fl q c i :
  inv s fl q -> live fl c -> index i -> in_size (msg (conns s c)) i <> 0 ->
  let x := conns s c in 0 <= invec_accessed x i <= in_size (msg x) i /\ in_size (msg x) i < 4294967296.
Proof. intros Hi Hc Hix Hne x. destruct (co_in _ _ _ _ (i_conn _ _ _ _ _ _ Hi c Hc) i Hix Hne) as (? & ? & _). done. Qed.

Lemma co_out_range s fl q c i :
  inv s fl q -> live fl c -> index i -> out_size (msg (conns s c)) i <> 0 ->
  let x := conns s c in 0 <= outvec_written x i <= out_size (msg x) i /\ out_size (msg x) i < 4294967296.
Proof. intros Hi Hc Hix Hne x. destruct (co_out _ _ _ _ (i_conn _ _ _ _ _ _ Hi c Hc) i Hix Hne) as (? & ? & _). done. Qed.

(** The next byte of an input vector moves. *)
Lemma conn_ok_accessed x i v :
  index i -> in_size (msg x) i <> 0 -> 0 <= v <= in_size (msg x) i -> conn_ok x -> conn_ok (set_invec (invec_base x) (<[i := v]> (invec_accessed x)) x).
Proof.
  intros Hix Hne Hv [? ? ? ? ? Hin ? ?]. split; try done. intros j Hj Hjn. cbn [set_invec invec_accessed msg invec_base] in *.
  destruct (Hin j Hj Hjn) as (? & ? & ?). destruct (decide (i = j)) as [->|Hne']; [by rewrite fn_lookup_insert|by rewrite fn_lookup_insert_ne].
Qed.

Lemma conn_ok_written x i v :
  index i -> (out_size (msg x) i <> 0 -> 0 <= v <= out_size (msg x) i) -> conn_ok x -> conn_ok (set_outvec (outvec_base x) (<[i := v]> (outvec_written x)) x).
Proof.
  intros Hix Hv [? ? ? ? ? ? Hout ?]. split; try done. intros j Hj Hjn. cbn [set_outvec outvec_written msg outvec_base] in *.
  destruct (Hout j Hj Hjn) as (? & ? & ?). destruct (decide (i = j)) as [->|Hne']; [rewrite fn_lookup_insert|by rewrite fn_lookup_insert_ne]. auto.
Qed.

Lemma conn_ok_iovec x v : conn_ok x -> conn_ok (set_iovec_status v x).
Proof. intros [? ? ? ? ? ? ? ?]. by split. Qed.

Lemma index_of i : 0 <= i -> is_index i = true -> index i.
Proof. unfold is_index, index. intros ? ?%Z.ltb_lt. lia. Qed.

Abbreviation panics := (fun (e : psa_status_t) (_ : spm_t) => e = PANIC).

(** What an operation of the running partition that waits for nothing does. *)
Definition does s fl (s' : spm_t) : Prop := exists fl' q', moved (allowed s) nothing s fl s' fl' q'.

Lemma wp_read s fl q h i buffer n :
  inv s fl q -> 0 <= i -> 0 <= n -> (index i -> in_size (msg (conns s (handle_to_connection R h))) i <> 0) ->
  wp (tfm_spm_partition_psa_read R memory_check h i buffer n) (fun _ => does s fl) panics s.
Proof.
  intros Hi Hi0 Hn Hne. unfold tfm_spm_partition_psa_read. apply wp_bind. eapply wp_msg_connection; [exact Hi| |done]. intros c Hh Hc Ho. rewrite <- Hh in Hne. clear Hh.
  apply wp_get. cbv zeta. set (x := conns s c). apply wp_bind, wp_require; [intros _|done]. apply wp_bind, wp_require; [intros Hix%index_of|done]; [|done].
  specialize (Hne Hix). apply wp_bind, wp_require; [intros _|done]. apply wp_bind, wp_modify. cbv beta.
  pose proof (co_in_range s fl q c i Hi Hc Hix Hne) as Hr. cbv zeta in Hr. fold x in Hne, Hr.
  pose proof (mv_refl bnd (allowed s) nothing s fl q Hi) as Hm. eapply (mv_then_conn _ _ _ _ _ _ _ c (SET_IOVEC_ACCESSED (i + INVEC_IDX_BASE))) in Hm;
    [|done|intros ?; by apply conn_ok_iovec].
  rewrite u32_id by lia. destruct (Z.eqb_spec (in_size (msg x) i - invec_accessed x i) 0) as [_|Hrem].
  { apply wp_ret. do 2 eexists. exact Hm. }
  apply wp_bind, wp_require; [intros Hck|done]. apply wp_bind, wp_modify, wp_bind, wp_modify, wp_ret. cbv beta.
  set (k := if n <? _ then n else _). assert (0 <= k <= n /\ k <= in_size (msg x) i - invec_accessed x i) as [Hk1 Hk2].
  { subst k. destruct (Z.ltb_spec n (in_size (msg x) i - invec_accessed x i)); lia. }
  assert (may_write (bnd (current s)) buffer n) as Hmw.
  { exists TFM_HAL_ACCESS_READWRITE. split; [by left|]. rewrite <- (i_bnd _ _ _ _ _ _ Hi). exact Hck. }
  do 2 eexists. eapply mv_then_conn; [eapply mv_then; [exact Hm|]| |].
  - intros Hi1. apply mv_mem_write; [exact Hi1| |].
    + apply mem_write_bytes; [apply mem_read_bytes|]; apply (i_mem _ _ _ _ _ _ Hi).
    + intros a Ha. apply mem_write_other. rewrite mem_read_length by lia. intros Hra. apply Ha. apply (allowed_mine s buffer n); [exact Hmw|lia].
  - done.
  - cbn [conns put_mem]. rewrite conns_upd, decide_True by done. intros Hok. apply conn_ok_accessed; [done|exact Hne| |exact Hok].
    cbn [SET_IOVEC_ACCESSED set_iovec_status invec_accessed msg]. fold x. rewrite u32_id; lia.
Qed.

Lemma wp_skip s fl q h i n :
  inv s fl q -> 0 <= i -> 0 <= n -> (index i -> in_size (msg (conns s (handle_to_connection R h))) i <> 0) ->
  wp (tfm_spm_partition_psa_skip R h i n) (fun _ => does s fl) panics s.
Proof.
  intros Hi Hi0 Hn Hne. unfold tfm_spm_partition_psa_skip. apply wp_bind. eapply wp_msg_connection; [exact Hi| |done]. intros c Hh Hc Ho. rewrite <- Hh in Hne. clear Hh.
  apply wp_get. cbv zeta. set (x := conns s c). apply wp_bind, wp_require; [intros _|done]. apply wp_bind, wp_require; [intros Hix%index_of|done]; [|done].
  specialize (Hne Hix). apply wp_bind, wp_require; [intros _|done]. apply wp_bind, wp_modify. cbv beta.
  pose proof (co_in_range s fl q c i Hi Hc Hix Hne) as Hr. cbv zeta in Hr. fold x in Hne, Hr.
  pose proof (mv_refl bnd (allowed s) nothing s fl q Hi) as Hm. eapply (mv_then_conn _ _ _ _ _ _ _ c (SET_IOVEC_ACCESSED (i + INVEC_IDX_BASE))) in Hm;
    [|done|intros ?; by apply conn_ok_iovec].
  rewrite u32_id by lia. destruct (Z.eqb_spec (in_size (msg x) i - invec_accessed x i) 0) as [_|Hrem].
  { apply wp_ret. do 2 eexists. exact Hm. }
  apply wp_bind, wp_modify, wp_ret. cbv beta. do 2 eexists. eapply mv_then_conn; [exact Hm|done|].
  rewrite conns_upd, decide_True by done. intros Hok. apply conn_ok_accessed; [done|exact Hne| |exact Hok].
  cbn [SET_IOVEC_ACCESSED set_iovec_status invec_accessed msg]. fold x. rewrite Z.gtb_ltb. destruct (Z.ltb_spec (in_size (msg x) i - invec_accessed x i) n); rewrite u32_id; lia.
Qed.

Lemma wp_write s fl q h i buffer n :
  inv s fl q -> 0 <= i -> 0 <= n -> (index i -> out_size (msg (conns s (handle_to_connection R h))) i <> 0) ->
  wp (tfm_spm_partition_psa_write R memory_check h i buffer n) (fun _ => does s fl) panics s.
Proof.
  intros Hi Hi0 Hn Hne. unfold tfm_spm_partition_psa_write. apply wp_bind. eapply wp_msg_connection; [exact Hi| |done]. intros c Hh Hc Ho. rewrite <- Hh in Hne. clear Hh.
  apply wp_get. cbv zeta. set (x := conns s c). apply wp_bind, wp_require; [intros _|done]. apply wp_bind, wp_require; [intros Hix%index_of|done]; [|done].
  specialize (Hne Hix). pose proof (co_out_range s fl q c i Hi Hc Hix Hne) as Hr. cbv zeta in Hr. fold x in Hne, Hr.
  apply wp_bind, wp_require; [intros Hroom|done]. rewrite u32_id in Hroom by lia. rewrite Z.gtb_ltb, negb_true_iff, Z.ltb_ge in Hroom.
  apply wp_bind, wp_require; [intros _|done]. apply wp_bind, wp_modify. cbv beta.
  pose proof (mv_refl bnd (allowed s) nothing s fl q Hi) as Hm. eapply (mv_then_conn _ _ _ _ _ _ _ c (SET_IOVEC_ACCESSED (i + OUTVEC_IDX_BASE))) in Hm;
    [|done|intros ?; by apply conn_ok_iovec].
  apply wp_bind, wp_require; [intros _|done]. apply wp_bind, wp_modify, wp_bind, wp_modify, wp_ret. cbv beta.
  destruct (co_out _ _ _ _ (i_conn _ _ _ _ _ _ Hi c Hc) i Hix Hne) as (_ & _ & Hmw). fold x in Hmw.
  do 2 eexists. eapply mv_then_conn; [eapply mv_then; [exact Hm|]| |].
  - intros Hi1. apply mv_mem_write; [exact Hi1| |].
    + apply mem_write_bytes; [apply mem_read_bytes|]; apply (i_mem _ _ _ _ _ _ Hi).
    + intros a Ha. apply mem_write_other. rewrite mem_read_length by lia. intros Hra. apply Ha. eapply (allowed_client s fl q c); [done|done|done|exact Hmw|lia].
  - done.
  - cbn [conns put_mem]. rewrite conns_upd, decide_True by done. intros Hok. apply conn_ok_written; [done| |exact Hok].
    cbn [SET_IOVEC_ACCESSED set_iovec_status outvec_written msg]. fold x. intros _. rewrite u32_id; lia.
Qed.
End vectors.

(** * The partition manager: mapped vectors, handles and signals *)

Section signals.
Context {R : spm_rom} {memory_check : Z -> Z -> Z -> Z -> bool} (Hrom : rom_ok R) (bnd : Z -> Z).
Implicit Types (s : spm_t) (fl : list Z) (q : Z -> list Z) (c p : Z) (X W : Z -> Prop).

Abbreviation PL := (partition_listhead R).
Abbreviation inv := (inv R memory_check bnd).
Abbreviation live := (live R).
Abbreviation conn_ok := (conn_ok R memory_check bnd).
Abbreviation moved := (moved (R := R) (memory_check := memory_check) bnd).
Abbreviation does := (does (R := R) (memory_check := memory_check) bnd).
Abbreviation panics := (fun (e : psa_status_t) (_ : spm_t) => e = PANIC).

Lemma does_nothing s fl q : inv s fl q -> does s fl s.
Proof. intros Hi. do 2 eexists. by apply mv_refl. Qed.

(** ** Mapped vectors *)

Lemma wp_mm_connection s fl q h i (Q : Z -> spm_t -> Prop) (E : psa_status_t -> spm_t -> Prop) :
  inv s fl q -> 0 <= i -> (forall c, live fl c -> owner R s c = current s -> index i -> Q c s) -> E PANIC s -> wp (mm_connection R h i) Q E s.
Proof.
  intros Hi Hi0 HQ HE. unfold mm_connection. apply wp_bind. eapply (wp_msg_connection Hrom); [exact Hi| |done]. intros c _ Hc Ho.
  apply wp_get. apply wp_bind, wp_require; [intros _|done]. apply wp_bind, wp_require; [intros _|done].
  apply wp_bind, wp_require; [intros Hix%index_of|done]; [|done]. apply wp_ret. by apply HQ.
Qed.

Lemma does_iovec s fl q c v : inv s fl q -> does s fl (upd_conn c (fun x => set_iovec_status (v x) x) s).
Proof. intros Hi. do 2 eexists. eapply (mv_then_conn Hrom); [by apply mv_refl|done|]. apply conn_ok_iovec. Qed.

Lemma wp_map_invec s fl q h i : inv s fl q -> 0 <= i -> wp (tfm_spm_partition_psa_map_invec R memory_check h i) (fun _ => does s fl) panics s.
Proof.
  intros Hi Hi0. unfold tfm_spm_partition_psa_map_invec. apply wp_bind. eapply wp_mm_connection; [exact Hi|done| |done]. intros c Hc Ho Hix.
  apply wp_get. cbv zeta. do 4 (apply wp_bind, wp_require; [intros _|done]). apply wp_bind, wp_modify, wp_ret. by eapply does_iovec.
Qed.

Lemma wp_unmap_invec s fl q h i : inv s fl q -> 0 <= i -> wp (tfm_spm_partition_psa_unmap_invec R h i) (fun _ => does s fl) panics s.
Proof.
  intros Hi Hi0. unfold tfm_spm_partition_psa_unmap_invec. apply wp_bind. eapply wp_mm_connection; [exact Hi|done| |done]. intros c Hc Ho Hix.
  apply wp_get. cbv zeta. do 2 (apply wp_bind, wp_require; [intros _|done]). apply wp_modify. by eapply does_iovec.
Qed.

Lemma wp_map_outvec s fl q h i : inv s fl q -> 0 <= i -> wp (tfm_spm_partition_psa_map_outvec R memory_check h i) (fun _ => does s fl) panics s.
Proof.
  intros Hi Hi0. unfold tfm_spm_partition_psa_map_outvec. apply wp_bind. eapply wp_mm_connection; [exact Hi|done| |done]. intros c Hc Ho Hix.
  apply wp_get. cbv zeta. do 4 (apply wp_bind, wp_require; [intros _|done]). apply wp_bind, wp_modify, wp_ret. by eapply does_iovec.
Qed.

Lemma wp_unmap_outvec s fl q h i len :
  inv s fl q -> 0 <= i -> 0 <= len -> wp (tfm_spm_partition_psa_unmap_outvec R h i len) (fun _ => does s fl) panics s.
Proof.
  intros Hi Hi0 Hlen. unfold tfm_spm_partition_psa_unmap_outvec. apply wp_bind. eapply wp_mm_connection; [exact Hi|done| |done]. intros c Hc Ho Hix.
  apply wp_get. cbv zeta. apply wp_bind, wp_require; [intros Hle|done]. rewrite Z.gtb_ltb, negb_true_iff, Z.ltb_ge in Hle.
  do 2 (apply wp_bind, wp_require; [intros _|done]). apply wp_bind, wp_modify, wp_modify. do 2 eexists.
  eapply (mv_then_conn Hrom); [eapply (mv_then_conn Hrom); [by apply mv_refl|done|apply conn_ok_iovec]|done|].
  rewrite conns_upd, decide_True by done. intros Hok. apply conn_ok_written; [done|intros _; done|exact Hok].
Qed.

(** ** The reverse handle *)

(** A message that the running partition got and has not answered. *)
Definition delivered s q c : Prop := c_status (conns s c) <> TFM_HANDLE_STATUS_IDLE /\ unlisted (R := R) q c.

Lemma wp_set_rhandle s fl q h r :
  inv s fl q -> delivered s q (handle_to_connection R h) -> wp (tfm_spm_partition_psa_set_rhandle R h r) (fun _ => does s fl) panics s.
Proof.
  intros Hi Hd. unfold tfm_spm_partition_psa_set_rhandle. apply wp_bind. eapply (wp_msg_connection Hrom); [exact Hi| |done]. intros c Hh Hc Ho. rewrite <- Hh in Hd.
  apply wp_get. apply wp_bind, wp_require; [intros _|done]. apply wp_bind, wp_modify, wp_ret. do 2 eexists.
  apply mv_conn; [done|exact Hi|done|right; apply Hd|]. intros _ [? ? ? ? ? ? ? ?]. by split.
Qed.

(** ** Signals *)

Lemma running_not_asserted s fl q : inv s fl q -> running s -> ~ mailbox R (current s) -> ~ asserted s (current s) ASYNC_MSG_REPLY.
Proof. intros Hi Hr Hm Ha. pose proof (i_async _ _ _ _ _ _ Hi _ (i_cur _ _ _ _ _ _ Hi) Hm Ha) as Hw. unfold running in Hr. by rewrite Hr in Hw. Qed.

Lemma running_no_call s fl q c : inv s fl q -> running s -> outstanding R s fl c -> p_client (conns s c) <> current s.
Proof. intros Hi Hr Ho Heq. destruct (i_calls _ _ _ _ _ _ Hi c Ho) as [Hw _]. rewrite Heq in Hw. unfold running in Hr. by rewrite Hr in Hw. Qed.

(** The partition goes on, or the scheduler is asked for. *)
Definition goes_on (r : Z) s : Prop := running s \/ to_s32 r = STATUS_NEED_SCHEDULE.

(** What an operation with a result does. *)
Definition did s fl (r : Z) (s' : spm_t) : Prop := exists fl' q', moved (allowed (R := R) (memory_check := memory_check) bnd s) (eq (current s)) s fl s' fl' q' /\ goes_on r s'.

Lemma does_did s fl r s' : running s -> does s fl s' -> did s fl r s'.
Proof.
  intros Hr (fl' & q' & Hm). exists fl', q'. split; [eapply mv_weaken; [|exact Hm]; done|]. left.
  unfold running. rewrite (mv_current _ _ _ _ _ _ _ _ Hm). rewrite (mv_wait _ _ _ _ _ _ _ _ Hm); [exact Hr|]. tauto.
Qed.

Lemma wp_wait s fl q mask timeout : inv s fl q -> running s -> wp (tfm_spm_partition_psa_wait mask timeout) (did s fl) panics s.
Proof.
  intros Hi Hr. unfold tfm_spm_partition_psa_wait. cbv zeta. apply wp_get. apply wp_bind, wp_require; [intros _|done].
  assert (wp (ret (Z.land (signals_asserted (parts s (current s))) mask)) (did s fl) panics s) as Hno.
  { apply wp_ret, does_did; [done|]. by eapply does_nothing. }
  destruct (_ =? _); [|exact Hno]. unfold backend_wait_signals. apply wp_bind.
  destruct (Z.eqb_spec (current s) 0) as [|Hcur]; [by apply wp_fail|]. apply wp_get. cbv zeta. apply wp_bind.
  destruct (Z.eqb_spec (Z.land (signals_asserted (parts s (current s))) mask) 0) as [Hz|Hz].
  2: { apply wp_ret, wp_ret, wp_ret. rewrite (proj2 (Z.eqb_neq _ _) Hz). apply does_did; [done|]. by eapply does_nothing. }
  apply wp_modify, wp_ret, wp_ret. rewrite Hz. cbn [Z.eqb]. destruct (decide (mask = 0)) as [->|Hm0].
  - exists fl, q. split; [|by right]. eapply mv_weaken; [|apply mv_waiting_same; [exact Hi|exact Hr]]. done.
  - exists fl, q. split; [|by right]. apply mv_waiting; [exact Hi|apply Hi|done|done| |].
    + intros c Hc. by apply (running_no_call s fl q).
    + destruct (decide (mailbox R (current s))); [by left|right; by eapply running_not_asserted].
Qed.
(** *** Signals that stand for no message *)

(** A bit that is not one the invariant is about. *)
Definition irrelevant p sig : Prop := one_bit sig /\ forall sig', relevant (R := R) p sig' -> sig' <> sig.

Lemma relevant_bit p sig : relevant (R := R) p sig -> one_bit sig.
Proof. intros [->|(v & Hv & _ & ->)]; [apply async_bit|by apply sig_bit]. Qed.

Lemma doorbell_irrelevant p : irrelevant p PSA_DOORBELL.
Proof. split; [apply doorbell_bit|]. intros sig [->|(v & Hv & _ & ->)]; [done|]. apply (ro_signal _ Hrom v Hv). Qed.

Lemma irq_irrelevant p i : p ∈ PL -> i ∈ irqs (ldinf R p) -> irrelevant p (irq_signal i).
Proof.
  intros Hp Hin. destruct (ro_irq _ Hrom p i Hp Hin) as (Hb & Ha & _ & Hs). split; [done|].
  intros sig [->|(v & Hv & Hpv & ->)]; [congruence|by apply Hs].
Qed.

Lemma mv_raise W s fl q p sig : inv s fl q -> irrelevant p sig -> moved W nothing s fl (upd_part p (raise sig) s) fl q.
Proof.
  intros Hi [Hb Hn]. apply (mv_asserted bnd W s fl q p (Z.lor (signals_asserted (parts s p)) sig) Hi).
  intros sig' Hs. rewrite asserted_lor by (done || by eapply relevant_bit). pose proof (Hn sig' Hs). tauto.
Qed.

Lemma mv_drop W s fl q p sig :
  inv s fl q -> irrelevant p sig -> moved W nothing s fl (upd_part p (fun x => set_asserted (Z.ldiff (signals_asserted x) sig) x) s) fl q.
Proof.
  intros Hi [Hb Hn]. apply (mv_asserted bnd W s fl q p (Z.ldiff (signals_asserted (parts s p)) sig) Hi).
  intros sig' Hs. apply land_ldiff_other; [done|by eapply relevant_bit|]. intros ->. by apply (Hn sig').
Qed.

Lemma wp_assert_signal s p sig (Q : psa_status_t -> spm_t -> Prop) (E : psa_status_t -> spm_t -> Prop) :
  (forall r, r = PSA_SUCCESS \/ r = STATUS_NEED_SCHEDULE -> Q r (upd_part p (raise sig) s)) -> E PANIC s -> wp (backend_assert_signal p sig) Q E s.
Proof.
  intros HQ HE. unfold backend_assert_signal. destruct (Z.eqb_spec p 0); [by apply wp_fail|]. apply wp_bind, wp_modify, wp_get.
  case_match; apply wp_ret, HQ; auto.
Qed.

Lemma wp_notify s fl q id : inv s fl q -> running s -> wp (tfm_spm_partition_psa_notify R id) (did s fl) panics s.
Proof.
  intros Hi Hr. apply wp_assert_signal; [|done]. intros r _. apply does_did; [done|]. do 2 eexists. apply mv_raise; [done|apply doorbell_irrelevant].
Qed.

Lemma wp_clear s fl q : inv s fl q -> wp tfm_spm_partition_psa_clear (fun _ => does s fl) panics s.
Proof.
  intros Hi. apply wp_get. cbv zeta. apply wp_bind, wp_require; [intros _|done]. apply wp_bind, wp_modify, wp_ret.
  do 2 eexists. apply mv_drop; [done|apply doorbell_irrelevant].
Qed.

(** *** Interrupts *)

Lemma wp_my_irq s sig (Q : irq_load_info_t -> spm_t -> Prop) (E : psa_status_t -> spm_t -> Prop) :
  (forall i, i ∈ irqs (ldinf R (current s)) -> irq_signal i = sig -> Q i s) -> E PANIC s -> wp (my_irq R sig) Q E s.
Proof.
  intros HQ HE. apply wp_get. unfold get_irq_info_for_signal. case_match eqn:Hf; [|by apply wp_fail]. apply wp_ret.
  destruct (IS_ONLY_ONE_BIT_IN_UINT32 sig); [|done]. cbn [negb] in Hf. apply List.find_some in Hf as [Hin Heq%Z.eqb_eq]. apply HQ; [by apply list_elem_of_In|done].
Qed.

Lemma does_irq s fl q f : inv s fl q -> does s fl (put_irq_on f s).
Proof. intros Hi. do 2 eexists. by apply mv_irq_on. Qed.

Lemma wp_irq_enable s fl q sig : inv s fl q -> wp (tfm_spm_partition_psa_irq_enable R sig) (fun _ => does s fl) panics s.
Proof. intros Hi. apply wp_bind, wp_my_irq; [|done]. intros i _ _. apply wp_bind, wp_modify, wp_ret. by eapply does_irq. Qed.

Lemma wp_irq_disable s fl q sig : inv s fl q -> wp (tfm_spm_partition_psa_irq_disable R sig) (fun _ => does s fl) panics s.
Proof. intros Hi. apply wp_bind, wp_my_irq; [|done]. intros i _ _. apply wp_bind, wp_modify, wp_ret. by eapply does_irq. Qed.

Lemma wp_clear_my_signal W s fl q sig (Q : unit -> spm_t -> Prop) (E : psa_status_t -> spm_t -> Prop) :
  inv s fl q -> irrelevant (current s) sig -> (forall s', moved W nothing s fl s' fl q -> Q tt s') -> E PANIC s -> wp (clear_my_signal sig) Q E s.
Proof.
  intros Hi Hirr HQ HE. apply wp_get. cbv zeta. apply wp_bind, wp_require; [intros _|done]. apply wp_modify, HQ. by apply mv_drop.
Qed.

Lemma wp_reset_signal s fl q sig : inv s fl q -> wp (tfm_spm_partition_psa_reset_signal R sig) (fun _ => does s fl) panics s.
Proof.
  intros Hi. apply wp_bind, wp_my_irq; [|done]. intros i Hin <-. apply wp_bind, wp_require; [intros _|done].
  apply wp_bind. eapply wp_clear_my_signal; [exact Hi|apply irq_irrelevant; [apply Hi|done]| |done]. intros s' Hm. apply wp_ret. by do 2 eexists.
Qed.

Lemma wp_eoi s fl q sig : inv s fl q -> wp (tfm_spm_partition_psa_eoi R sig) (fun _ => does s fl) panics s.
Proof.
  intros Hi. apply wp_bind, wp_my_irq; [|done]. intros i Hin <-. apply wp_bind, wp_require; [intros _|done].
  apply wp_bind. eapply wp_clear_my_signal; [exact Hi|apply irq_irrelevant; [apply Hi|done]| |done]. intros s' Hm. apply wp_bind, wp_modify, wp_ret.
  do 2 eexists. eapply mv_then; [exact Hm|]. intros Hi'. by apply mv_irq_on.
Qed.
End signals.
