(* ===== verification/SpmSchedule.v ===== *)
(** * The partition manager: the scheduler *)

From S2P Require Import Prelude Bytes SpmLists SpmTypes SpmIpc SpmApi SpmSystem SpmInv SpmRules SpmQueues SpmSend SpmVectors.
From stdpp Require Import base list numbers functions sets sorting.
From Stdlib Require Import ZArith Lia.

Open Scope Z_scope.
Open Scope tfm_scope.

Section schedule.
Context {R : spm_rom} {memory_check : Z -> Z -> Z -> Z -> bool} (Hrom : rom_ok R) (bnd : Z -> Z).
Implicit Types (s : spm_t) (fl : list Z) (q : Z -> list Z) (c p : Z) (X W : Z -> Prop) (y : partition_t).

Abbreviation PL := (partition_listhead R).
Abbreviation inv := (inv R memory_check bnd).
Abbreviation live := (live R).
Abbreviation outstanding := (outstanding R).
Abbreviation sig_of v := (ssignal (s_ldinf (serv R v))).
Abbreviation part_of v := (s_partition (serv R v)).

(** The thread of [p] can run, perhaps because a signal came that it waits
    for. *)
Definition ready s p : Prop := waiting s p = 0 \/ Z.land (waiting s p) (signals_asserted (parts s p)) <> 0.

#[export] Instance ready_dec s p : Decision (ready s p).
Proof. unfold ready. apply _. Defined.

(** What the choice of a thread leaves alone. *)
Record rescheduled s fl s' q : Prop := {
  rs_inv : inv s' fl q;
  rs_calls : forall c, outstanding s fl c -> outstanding s' fl c /\ p_client (conns s' c) = p_client (conns s c);
  rs_due : forall p v, p ∈ PL -> ~ mailbox R p -> due s p v -> due s' p v;
  rs_mem : mem s' = mem s;
  rs_wait : forall p, waiting s p = 0 -> waiting s' p = 0;
}.

Lemma rs_trans s fl s1 s2 q1 q2 : rescheduled s fl s1 q1 -> rescheduled s1 fl s2 q2 -> rescheduled s fl s2 q2.
Proof.
  intros [_ C1 D1 M1 W1] [I2 C2 D2 M2 W2]. split; [done| | |congruence|].
  - intros c [Ho He]%C1. destruct (C2 c Ho) as [? ->]. done.
  - auto.
  - auto.
Qed.

(** A thread that waits for nothing any more. *)
Lemma inv_wake s fl q p y ps :
  inv s fl q -> p ∈ PL -> ps p = y -> (forall p', p' <> p -> ps p' = parts s p') ->
  boundary y = bnd p -> signals_allowed y = signals_allowed (parts s p) -> thrd_state y = THRD_STATE_RUNNABLE -> signals_waiting y = 0 ->
  (forall c, outstanding s fl c -> p_client (conns s c) <> p) ->
  (forall v, v ∈ services R -> part_of v = p -> Z.land (signals_asserted y) (sig_of v) <> 0 <-> asserted s p (sig_of v)) ->
  (mailbox R p -> Z.land (signals_asserted y) ASYNC_MSG_REPLY <> 0 <-> asserted s p ASYNC_MSG_REPLY) ->
  (~ mailbox R p -> Z.land (signals_asserted y) ASYNC_MSG_REPLY = 0) -> inv (put_parts ps s) fl q.
Proof.
  intros Hi Hp Hy Hps Hb Hal Hth Hw Hout Hsig Hmb Hnm.
  assert (forall p', ps p' = if decide (p' = p) then y else parts s p') as Hpp.
  { intros p'. case_decide; [by subst|by apply Hps]. }
  destruct Hi. split; try assumption.
  - intros p'. cbn [parts put_parts]. rewrite Hpp. case_decide; [by subst|apply i_bnd].
  - intros c Hc. unfold waiting, asserted. cbn [parts put_parts]. rewrite Hpp. rewrite decide_False by (by apply Hout). by apply i_calls.
  - intros v Hv p' sig. etransitivity; [|exact (i_sig v Hv)]. unfold asserted. cbn [parts put_parts]. rewrite Hpp. subst p' sig.
    destruct (decide (part_of v = p)) as [Heq|]; [|done]. rewrite (Hsig v Hv Heq), Heq. done.
  - intros p' Hp' Hm. rewrite <- (i_reply p' Hp' Hm). unfold asserted at 1. cbn [parts put_parts]. rewrite Hpp. case_decide; [subst; by apply Hmb|done].
  - intros p' Hp' Hm. unfold asserted, waiting. cbn [parts put_parts]. rewrite Hpp. case_decide; [subst; by rewrite Hnm|by apply i_async].
  - intros p' Hp'. unfold waiting. cbn [parts put_parts]. rewrite Hpp. case_decide; [done|by apply i_state].
  - intros p' Hp'. cbn [parts put_parts]. rewrite Hpp. case_decide as Heq; [rewrite Hal, Heq; by apply i_allowed|by apply i_allowed].
Qed.

Lemma inv_thrd_state s fl q p st : inv s fl q -> (waiting s p = 0 -> st = THRD_STATE_RUNNABLE) -> inv (upd_part p (set_thrd_state st) s) fl q.
Proof.
  intros Hi Hst. set (s' := upd_part _ _ _).
  assert (forall p', parts s' p' = if decide (p = p') then set_thrd_state st (parts s p') else parts s p') as Hp by (intros; apply parts_upd).
  assert (forall p', waiting s' p' = waiting s p') as Hw by (intros p'; unfold waiting; rewrite Hp; by case_decide).
  assert (forall p' sig, asserted s' p' sig = asserted s p' sig) as Ha by (intros p' sig; unfold asserted; rewrite Hp; by case_decide).
  destruct Hi. split; try assumption.
  - intros p'. rewrite Hp. case_decide; apply i_bnd.
  - intros c Hc. rewrite Hw, Ha. by apply i_calls.
  - intros v Hv p' sig. rewrite Ha. by apply i_sig.
  - intros p' Hp' Hm. rewrite Ha. by apply i_reply.
  - intros p' Hp' Hm. rewrite Ha, Hw. by apply i_async.
  - intros p' Hp'. rewrite Hw, Hp. intros Hz. case_decide; [subst; by apply Hst|by apply i_state].
  - intros p' Hp'. rewrite Hp. case_decide; by apply i_allowed.
Qed.

Lemma rs_thrd_state s fl q p st : inv s fl q -> (waiting s p = 0 -> st = THRD_STATE_RUNNABLE) -> rescheduled s fl (upd_part p (set_thrd_state st) s) q.
Proof.
  intros Hi Hst. split; [by apply inv_thrd_state|done| |done|].
  - intros p' v _ _. unfold due, asserted, waiting. rewrite !parts_upd. by case_decide.
  - intros p'. unfold waiting. rewrite parts_upd. by case_decide.
Qed.

(** [query_state] of a thread for which a signal came. *)
Lemma rs_wake s fl q p :
  inv s fl q -> p ∈ PL -> Z.land (waiting s p) (signals_asserted (parts s p)) <> 0 ->
  let '(st, retval, y) := query_state (parts s p) in
  st = THRD_STATE_RET_VAL_AVAIL /\
  let s' := upd_part p (set_thrd_state THRD_STATE_RUNNABLE) (put_ret_code (<[p := retval]> (ret_code s)) (upd_part p (fun _ => y) s)) in
  rescheduled s fl s' q /\ waiting s' p = 0.
Proof.
  intros Hi Hp Hret. unfold query_state. fold (waiting s p). rewrite (proj2 (Z.eqb_neq _ _) Hret). cbn [negb].
  pose proof (i_allowed _ _ _ _ _ _ Hi p Hp) as Hal. pose proof (i_async _ _ _ _ _ _ Hi p Hp) as Hasy.
  assert (forall c, outstanding s fl c -> p_client (conns s c) <> p) as Hout.
  { intros c Hc Heq. destruct (i_calls _ _ _ _ _ _ Hi c Hc) as [Hw Ha]. rewrite Heq in *. apply Ha. unfold asserted. rewrite Hw in Hret. by rewrite Z.land_comm. }
  assert (~ mailbox R p -> asserted s p ASYNC_MSG_REPLY -> Z.land (waiting s p) (signals_asserted (parts s p)) = ASYNC_MSG_REPLY) as Hval.
  { intros Hm Ha. rewrite (Hasy Hm Ha), Z.land_comm. apply land_bit_val; [apply async_bit|exact Ha]. }
  rewrite Hal. assert (forall r y, boundary y = bnd p -> signals_allowed y = signals_allowed (parts s p) -> signals_waiting y = 0 ->
    (forall v, v ∈ services R -> part_of v = p -> Z.land (signals_asserted y) (sig_of v) <> 0 <-> asserted s p (sig_of v)) ->
    (mailbox R p -> Z.land (signals_asserted y) ASYNC_MSG_REPLY <> 0 <-> asserted s p ASYNC_MSG_REPLY) ->
    (~ mailbox R p -> Z.land (signals_asserted y) ASYNC_MSG_REPLY = 0) ->
    (~ mailbox R p -> forall v, due s p v -> r = u32 v) ->
    let s' := upd_part p (set_thrd_state THRD_STATE_RUNNABLE) (put_ret_code (<[p := r]> (ret_code s)) (upd_part p (fun _ => y) s)) in
    rescheduled s fl s' q /\ waiting s' p = 0) as Hgoal.
  { intros r y Hb Hya Hyw Hys Hym Hyn Hdue s'.
    assert (forall p', parts s' p' = if decide (p = p') then set_thrd_state THRD_STATE_RUNNABLE y else parts s p') as Hpp.
    { intros p'. unfold s'. rewrite parts_upd. cbn [parts put_ret_code]. rewrite parts_upd. by destruct (decide (p = p')). }
    split; [|unfold waiting; rewrite Hpp, decide_True by done; exact Hyw]. split; [|done| |done|].
    - assert (inv (put_parts (parts s') s) fl q) as Hi'.
      { eapply (inv_wake s fl q p); [done|done|rewrite Hpp; by rewrite decide_True|intros p' Hne; rewrite Hpp; by rewrite decide_False| | | | |done|exact Hys|exact Hym|exact Hyn]; done. }
      destruct Hi'. by split.
    - intros p' v Hp' Hm Hd. unfold due, asserted, waiting. rewrite Hpp. unfold s'. cbn [ret_code upd_part put_parts put_ret_code].
      destruct (decide (p = p')) as [<-|Hne]; [|by rewrite fn_lookup_insert_ne]. right. rewrite fn_lookup_insert. split; [exact Hyw|]. by apply Hdue.
    - intros p'. unfold waiting. rewrite Hpp. destruct (decide (p = p')) as [<-|]; [intros _; exact Hyw|done]. }
  destruct (Z.eqb_spec (Z.land (waiting s p) (signals_asserted (parts s p))) ASYNC_MSG_REPLY) as [Heq|Hne]; cbn [andb].
  - destruct (decide (mailbox R p)) as [Hm|Hm]; cbn [Z.eqb negb].
    + rewrite Z.eqb_refl. cbn [negb]. split; [done|]. apply Hgoal; try done. apply Hi.
    + change (0 =? ASYNC_MSG_REPLY) with false. cbn [negb]. split; [done|]. apply Hgoal; try done; cbn [signals_asserted set_waiting set_asserted].
      * apply Hi.
      * intros v Hv _. apply land_ldiff_other; [apply async_bit|by apply sig_bit|]. pose proof (sig_async Hrom v Hv). congruence.
      * intros _. apply land_ldiff_same, async_bit.
      * intros _ v [[_ <-]|[Hz _]]; [done|]. by rewrite Hz, Z.land_0_l in Hret.
  - split; [done|]. apply Hgoal; try done; cbn [signals_asserted set_waiting].
    + apply Hi.
    + intros Hm. destruct (decide (Z.land (signals_asserted (parts s p)) ASYNC_MSG_REPLY = 0)) as [|Hna]; [done|]. by destruct Hne; apply Hval.
    + intros Hm v [[Ha _]|[Hz _]]; [by destruct Hne; apply Hval|]. by rewrite Hz, Z.land_0_l in Hret.
Qed.
(** The first thread of a list that can run. *)
Definition first_ready s (ts : list Z) : option Z := List.find (fun p => bool_decide (ready s p)) ts.

Lemma first_ready_ext s s' ts : (forall p, p ∈ ts -> ready s' p <-> ready s p) -> first_ready s' ts = first_ready s ts.
Proof.
  unfold first_ready. induction ts as [|p ts IH]; intros Heq; [done|]. cbn [List.find].
  rewrite (bool_decide_ext (ready s' p) (ready s p)) by (apply Heq; left). case_match; [done|]. apply IH. intros p' Hp'. apply Heq. by right.
Qed.

Lemma first_ready_in s ts p : first_ready s ts = Some p -> p ∈ ts /\ ready s p.
Proof. unfold first_ready. intros [Hin Hr]%List.find_some. split; [by apply list_elem_of_In|by apply bool_decide_eq_true in Hr]. Qed.

Lemma first_ready_none s ts : first_ready s ts = None -> forall p, p ∈ ts -> ~ ready s p.
Proof.
  unfold first_ready. intros Hn p Hp Hr. apply list_elem_of_In in Hp. pose proof (List.find_none _ _ Hn p Hp) as Hb. by apply bool_decide_eq_false in Hb.
Qed.

(** In a sorted list it is one of the highest priority. *)
Lemma first_ready_least s ts p p' :
  StronglySorted (fun a b => priority R a <= priority R b) ts -> first_ready s ts = Some p -> p' ∈ ts -> ready s p' -> priority R p <= priority R p'.
Proof.
  unfold first_ready. induction ts as [|t ts IH]; [done|]. intros [Hs Hall]%StronglySorted_inv. cbn [List.find]. intros Hf Hp' Hr.
  rewrite Forall_forall in Hall. case_bool_decide as Ht.
  - simplify_eq. apply elem_of_cons in Hp' as [->|Hp']; [done|by apply Hall].
  - apply elem_of_cons in Hp' as [->|Hp']; [done|]. by apply IH.
Qed.

Lemma path_inj (l : links) h xs ys : path l h xs -> path l h ys -> xs = ys.
Proof.
  revert h ys. induction xs as [|x xs IH]; intros h [|y ys]; cbn [path]; [done|intros -> (? & ? & _); congruence|intros (-> & ? & _) ?; congruence|].
  intros (-> & _ & Hx) (-> & _ & Hy). f_equal. by eapply IH.
Qed.

Lemma rs_refl s fl q : inv s fl q -> rescheduled s fl s q.
Proof. intros Hi. by split. Qed.

(** The stored state of a thread that [query_state] left as it was. *)
Lemma rs_same s fl q p : inv s fl q -> let s' := upd_part p (fun _ => parts s p) s in rescheduled s fl s' q /\ forall p', parts s' p' = parts s p'.
Proof.
  intros Hi s'. assert (forall p', parts s' p' = parts s p') as Hp by (intros p'; unfold s'; rewrite parts_upd; by case_decide; subst).
  split; [|exact Hp]. split; [by apply inv_parts|done| |done|].
  - intros p' v _ _. unfold due, asserted, waiting. by rewrite Hp.
  - intros p'. unfold waiting. by rewrite Hp.
Qed.

(** A thread that is visited and waits on. *)
Lemma rs_blocked s fl q p :
  inv s fl q -> ~ ready s p ->
  query_state (parts s p) = (THRD_STATE_BLOCK, 0, parts s p) /\
  let s' := upd_part p (set_thrd_state THRD_STATE_BLOCK) (upd_part p (fun _ => parts s p) s) in
  rescheduled s fl s' q /\ (forall p', ready s' p' <-> ready s p').
Proof.
  intros Hi Hn. unfold ready in Hn. assert (waiting s p <> 0) as Hw by tauto. assert (Z.land (waiting s p) (signals_asserted (parts s p)) = 0) as Hz by lia.
  split.
  - unfold query_state. fold (waiting s p). rewrite Hz. cbn [Z.eqb negb]. by rewrite (proj2 (Z.eqb_neq _ _) Hw).
  - destruct (rs_same s fl q p Hi) as [H1 Hp]. set (s1 := upd_part p (fun _ => parts s p) s) in *.
    cbv zeta. split.
    + eapply rs_trans; [exact H1|]. apply rs_thrd_state; [apply H1|]. unfold waiting in *. rewrite Hp. done.
    + intros p'. unfold ready, waiting. rewrite !parts_upd, Hp. by case_decide; subst.
Qed.

Lemma wp_thrd_next_loop s fl q fuel p ts (E : psa_status_t -> spm_t -> Prop) :
  inv s fl q -> path (t_next s) p ts -> (forall x, x ∈ ts -> x ∈ PL) -> (length ts <= fuel)%nat ->
  wp (thrd_next_loop fuel p) (fun r s' => rescheduled s fl s' q /\ r = default 0 (first_ready s ts) /\ (r <> 0 -> waiting s' r = 0)) E s.
Proof.
  revert s p ts. induction fuel as [|fuel IH]; intros s p [|x ts] Hi Hpath Hin Hlen; cbn [thrd_next_loop path length] in *; try lia.
  - apply wp_ret. split; [by apply rs_refl|done].
  - rewrite Hpath. apply wp_ret. split; [by apply rs_refl|done].
  - destruct Hpath as (-> & Hx0 & Hpath). rewrite (proj2 (Z.eqb_neq _ _) Hx0). apply wp_get. cbv zeta.
    unfold first_ready. cbn [List.find]. destruct (decide (ready s x)) as [Hr|Hr].
    + rewrite bool_decide_true by done. destruct (decide (waiting s x = 0)) as [Hw|Hw].
      * assert (query_state (parts s x) = (THRD_STATE_RUNNABLE, 0, parts s x)) as ->.
        { unfold query_state. fold (waiting s x). rewrite Hw, Z.land_0_l. cbn [Z.eqb negb]. f_equal. f_equal. apply (i_state _ _ _ _ _ _ Hi); [apply Hin; left|done]. }
        apply wp_bind, wp_modify, wp_bind, wp_ret, wp_bind, wp_modify. cbn [Z.eqb]. apply wp_ret.
        destruct (rs_same s fl q x Hi) as [H1 Hp]. set (s1 := upd_part x (fun _ => parts s x) s) in *.
        split_and!; [|done|].
        -- eapply rs_trans; [exact H1|]. apply rs_thrd_state; [apply H1|done].
        -- intros _. unfold waiting in *. rewrite parts_upd, decide_True by done. by rewrite Hp.
      * destruct Hr as [|Hr]; [done|]. pose proof (rs_wake s fl q x Hi ltac:(apply Hin; left) Hr) as Hwk. destruct (query_state _) as [[st retval] y].
        destruct Hwk as (-> & Hrs & Hw0). apply wp_bind, wp_modify, wp_bind. cbn [Z.eqb]. change (THRD_STATE_RET_VAL_AVAIL =? _) with true.
        apply wp_bind, wp_modify, wp_ret, wp_bind, wp_modify. cbn [Z.eqb]. change (THRD_STATE_RUNNABLE =? _) with true. apply wp_ret. done.
    + rewrite bool_decide_false by done. destruct (rs_blocked s fl q x Hi Hr) as [-> [Hrs Hrd]].
      apply wp_bind, wp_modify, wp_bind, wp_ret, wp_bind, wp_modify. change (THRD_STATE_BLOCK =? _) with false. cbv iota.
      eapply wp_mono; [apply (IH _ _ ts); [apply Hrs|exact Hpath|intros y Hy; apply Hin; by right|lia]| |done].
      intros r s' (Hrs' & Hr' & Hw'). split_and!; [by eapply rs_trans| |done].
      rewrite Hr'. f_equal. by apply first_ready_ext.
Qed.

(** The threads in the order of their priorities. *)
Lemma wp_schedule s fl q (Q : unit -> spm_t -> Prop) (E : psa_status_t -> spm_t -> Prop) :
  inv s fl q ->
  (forall ts p s', path (t_next s) (p_thrd_head s) ts -> first_ready s ts = Some p -> rescheduled s fl s' q -> current s' = p -> running s' -> Q tt s') ->
  ((forall p, p ∈ PL -> ~ ready s p) -> forall s', E PANIC s') -> wp (ipc_schedule R) Q E s.
Proof.
  intros Hi HQ HE. destruct (i_threads _ _ _ _ _ _ Hi) as (ts & Hpath & Hperm & _ & Hhead).
  unfold ipc_schedule, thrd_next. apply wp_bind. eapply wp_mono; [apply wp_get, (wp_thrd_next_loop s fl q _ _ ts (fun _ _ => False)); [exact Hi|by rewrite Hhead| | ] |cbv beta|].
  - intros x. by rewrite Hperm.
  - by rewrite Hperm.
  - intros r s' (Hrs & Hr & Hw). destruct (first_ready s ts) as [p|] eqn:Hf; cbn in Hr; subst r.
    + pose proof (first_ready_in _ _ _ Hf) as [Hp _]. rewrite Hperm in Hp. destruct (ro_part _ Hrom p Hp) as [Hp0 _].
      rewrite (proj2 (Z.eqb_neq _ _) Hp0). apply wp_modify. eapply HQ; [exact Hpath|exact Hf| |done|by apply Hw].
      destruct Hrs as [Hi' C D Mm Wm]. split; [|exact C|exact D|exact Mm|exact Wm]. destruct Hi'. by split.
    + apply wp_fail, HE. intros p Hp. apply (first_ready_none _ _ Hf). by rewrite Hperm.
  - done.
Qed.
End schedule.
