(* ===== verification/SpmCalls.v ===== *)
(** * The partition manager: the parameters of a call
    ([spm_associate_call_params]) *)

From S2P Require Import Prelude Bytes SpmLists SpmTypes SpmIpc SpmApi SpmSystem SpmInv SpmRules SpmQueues SpmSend SpmVectors.
From stdpp Require Import base list numbers functions sets.
From Stdlib Require Import ZArith Lia.

Open Scope Z_scope.
Open Scope tfm_scope.

Lemma rd32_range m a : (forall x, 0 <= m x < 256) -> 0 <= rd32 m a < 4294967296.
Proof.
  intros Hm. unfold rd32. pose proof (le_val_range _ (mem_read_bytes m a 4 Hm)) as Hr. rewrite mem_read_length in Hr by lia.
  change (256 ^ 4) with 4294967296 in Hr. exact Hr.
Qed.

Lemma read_iovecs_range m ptr n i : (forall x, 0 <= m x < 256) -> 0 <= (read_iovecs m ptr n i).2 < 4294967296.
Proof. intros Hm. unfold read_iovecs. case_match; [by apply rd32_range|cbn; lia]. Qed.

Section associate.
Context {R : spm_rom} {memory_check : Z -> Z -> Z -> Z -> bool} (Hrom : rom_ok R).
Implicit Types (s : spm_t) (c b : Z) (x y : connection_t).

(** The vectors of a connection, as checked for the boundary [b]. *)
Record vec_ok (b : Z) x : Prop := {
  vo_in : forall i, index i -> in_size (msg x) i <> 0 ->
    0 <= invec_accessed x i <= in_size (msg x) i /\ in_size (msg x) i < 4294967296 /\ may_read memory_check b (invec_base x i) (in_size (msg x) i);
  vo_out : forall i, index i -> out_size (msg x) i <> 0 ->
    0 <= outvec_written x i <= out_size (msg x) i /\ out_size (msg x) i < 4294967296 /\ may_write memory_check b (outvec_base x i) (out_size (msg x) i);
}.

(** Only the vectors and the type of connection [c] changed. *)
Record associated (b : Z) c s s' : Prop := {
  as_eq : s' = put_conns (conns s') s;
  as_other : forall d, d <> c -> conns s' d = conns s d;
  as_key : same_key (conns s' c) (conns s c);
  as_status : c_status (conns s' c) = c_status (conns s c);
  as_rhandle : m_rhandle (msg (conns s' c)) = m_rhandle (msg (conns s c));
  as_vec : vec_ok b (conns s c) -> vec_ok b (conns s' c);
}.

Lemma as_refl b c s : associated b c s s.
Proof. by split; [destruct s|..]. Qed.

Lemma as_upd b c s s1 f :
  associated b c s s1 -> (forall x, same_key (f x) x /\ c_status (f x) = c_status x /\ m_rhandle (msg (f x)) = m_rhandle (msg x)) ->
  (vec_ok b (conns s1 c) -> vec_ok b (f (conns s1 c))) -> associated b c s (upd_conn c f s1).
Proof.
  intros [He Ho Hk Hst Hr Hv] Hf Hvf. destruct (Hf (conns s1 c)) as (Fk & Fst & Fr).
  split; [by rewrite He| | | | |]; rewrite ?conns_upd, ?decide_True by done.
  - intros d Hd. rewrite conns_upd, decide_False by done. by apply Ho.
  - unfold same_key in *. intuition congruence.
  - congruence.
  - congruence.
  - auto.
Qed.

(** Output vectors from [n] on are empty. *)
Definition out_below (n : Z) x : Prop := forall i, index i -> out_size (msg x) i <> 0 -> i < n.

Lemma wp_associate_invecs b c attr v n i s s1 k (E : psa_status_t -> spm_t -> Prop) :
  readable attr -> 0 <= i -> i + Z.of_nat n <= PSA_MAX_IOVEC -> (forall j, 0 <= (v j).2 < 4294967296) ->
  associated b c s s1 -> out_below k (conns s1 c) ->
  wp (associate_invecs memory_check c b attr v n i) (fun _ s2 => associated b c s s2 /\ out_below k (conns s2 c)) E s1.
Proof.
  intros Ha. revert i s1. induction n as [|n IH]; intros i s1 Hi Hn Hv Hs Hk; cbn [associate_invecs]; [by apply wp_ret|].
  destruct (memory_check b (v i).1 (v i).2 attr) eqn:Hck; cbn [negb]; [|by apply wp_ret].
  apply wp_bind, wp_modify. apply IH; [lia|lia|done| |by rewrite conns_upd, decide_True].
  apply as_upd; [exact Hs|done|]. intros [Hin Hout]. split; [|exact Hout]. intros j Hj. cbn [msg set_invec set_sizes set_msg in_size invec_accessed invec_base].
  destruct (decide (i = j)) as [->|Hne]; [rewrite !fn_lookup_insert|rewrite !fn_lookup_insert_ne by done; by apply Hin].
  intros _. specialize (Hv j). split_and!; [lia|lia|lia|]. by exists attr.
Qed.

Lemma wp_associate_outvecs b c attr v n i s s1 (E : psa_status_t -> spm_t -> Prop) :
  writable attr -> 0 <= i -> i + Z.of_nat n <= PSA_MAX_IOVEC -> (forall j, 0 <= (v j).2 < 4294967296) ->
  associated b c s s1 -> out_below (i + Z.of_nat n) (conns s1 c) ->
  wp (associate_outvecs memory_check c b attr v n i) (fun _ s2 => associated b c s s2 /\ out_below (i + Z.of_nat n) (conns s2 c)) E s1.
Proof.
  intros Ha. revert i s1. induction n as [|n IH]; intros i s1 Hi Hn Hv Hs Hk; cbn [associate_outvecs]; [by apply wp_ret|].
  destruct (memory_check b (v i).1 (v i).2 attr) eqn:Hck; cbn [negb]; [|by apply wp_ret].
  replace (i + Z.of_nat (S n)) with (i + 1 + Z.of_nat n) in * by lia.
  apply wp_bind, wp_modify. apply IH; [lia|lia|done| |].
  - apply as_upd; [exact Hs|done|]. intros [Hin Hout]. split; [exact Hin|]. intros j Hj. cbn [msg set_outvec set_sizes set_msg out_size outvec_written outvec_base].
    destruct (decide (i = j)) as [->|Hne]; [rewrite !fn_lookup_insert|rewrite !fn_lookup_insert_ne by done; by apply Hout].
    intros _. specialize (Hv j). split_and!; [lia|lia|lia|]. by exists attr.
  - rewrite conns_upd, decide_True by done. intros j Hj. cbn [msg set_outvec set_sizes set_msg out_size].
    destruct (decide (i = j)) as [->|Hne]; [intros _; lia|rewrite fn_lookup_insert_ne by done; by apply Hk].
Qed.

(** The caller's array of output vectors can be written, unless the connection
    was left with output vectors of an earlier call. *)
Lemma wp_associate s c ctrl inp outp (E : psa_status_t -> spm_t -> Prop) :
  (forall a, 0 <= mem s a < 256) -> (PARAM_HAS_IOVEC ctrl = true \/ out_below 0 (conns s c)) ->
  wp (spm_associate_call_params memory_check c ctrl inp outp)
    (fun r s' => associated (my_boundary s) c s s' /\ (r = PSA_SUCCESS -> caller_ok (memory_check := memory_check) (my_boundary s) (conns s' c))) E s.
Proof.
  intros Hmem Hvec. unfold spm_associate_call_params. apply wp_get. cbv zeta. set (b := my_boundary s).
  pose proof (as_refl b c s) as A0.
  assert (forall s1, associated b c s s1 -> wp (ret PSA_ERROR_PROGRAMMER_ERROR) (fun r s' => associated b c s s' /\
    (r = PSA_SUCCESS -> caller_ok (memory_check := memory_check) b (conns s' c))) E s1) as Hfail by (intros s1 Hs1; by apply wp_ret).
  case_match; [by apply Hfail|]. apply wp_bind, wp_modify. set (s1 := upd_conn c (set_type _) s).
  assert (associated b c s s1) as A1 by (apply as_upd; [done|done|]; intros [? ?]; by split).
  destruct (PARAM_HAS_IOVEC ctrl) eqn:Hio; cbn [negb].
  2: { apply wp_ret. split; [done|]. intros _ _ i Hi Hne. destruct Hvec as [|Hvec]; [done|]. unfold s1 in Hne. rewrite conns_upd, decide_True in Hne by done.
       pose proof (Hvec i Hi Hne). unfold index in Hi. lia. }
  destruct (_ >? _) eqn:Hnum; [by apply Hfail|]. rewrite Z.gtb_ltb, Z.ltb_ge in Hnum.
  assert (0 <= PARAM_UNPACK_IN_LEN ctrl) by (apply Z.land_nonneg; by right). assert (0 <= PARAM_UNPACK_OUT_LEN ctrl) by (apply Z.land_nonneg; by right).
  destruct (memory_check b inp _ _); cbn [negb]; [|by apply Hfail].
  destruct (memory_check b outp _ _) eqn:Hout; cbn [negb]; [|by apply Hfail].
  destruct (invecs_overlap _ _); [by apply Hfail|]. apply wp_bind, wp_modify. set (s2 := upd_conn c (set_sizes _ _) s1).
  assert (associated b c s s2) as A2 by (apply as_upd; [exact A1|done|]; intros _; by split).
  assert (forall k, out_below k (conns s2 c)) as Hk by (intros k i _; unfold s2; by rewrite conns_upd, decide_True).
  apply wp_bind. eapply wp_mono; [apply wp_associate_invecs with (k := 0) (s := s); [|lia|lia|intros j; by apply read_iovecs_range|exact A2|apply Hk]| |by intros].
  { destruct (PARAM_IS_NS_INVEC ctrl), (PARAM_IS_NS_VEC ctrl); [by right..|by left]. }
  intros r s3 [A3 Hk3]. destruct (Z.eqb_spec r PSA_SUCCESS) as [_|Hner]; cbn [negb]; [|apply wp_ret; by split].
  apply wp_bind. eapply wp_mono; [apply wp_associate_outvecs with (s := s); [|lia|lia|intros j; by apply read_iovecs_range|exact A3|]| |by intros].
  { destruct (PARAM_IS_NS_INVEC ctrl), (PARAM_IS_NS_VEC ctrl), (PARAM_IS_NS_OUTVEC ctrl); by (left + right). }
  { intros i Hi Hne. pose proof (Hk3 i Hi Hne). lia. }
  intros r' s4 [A4 Hk4]. destruct (Z.eqb_spec r' PSA_SUCCESS) as [_|Hner']; cbn [negb]; [|apply wp_ret; by split].
  apply wp_bind, wp_modify, wp_ret. split.
  - apply as_upd; [exact A4|done|]. intros [? ?]. by split.
  - intros _ _ i Hi Hne. rewrite conns_upd, decide_True in Hne |- * by done. exists (PARAM_UNPACK_OUT_LEN ctrl). split.
    + pose proof (Hk4 i Hi Hne). lia.
    + eexists. split; [|exact Hout]. destruct (PARAM_IS_NS_VEC ctrl); [by right|by left].
Qed.
End associate.

(** * The partition manager: calls of clients
    ([psa_call_api.c], [psa_connection_api.c], [mailbox_agent_api.c]) *)

Section calls.
Context {R : spm_rom} {memory_check : Z -> Z -> Z -> Z -> bool} (Hrom : rom_ok R) (bnd : Z -> Z) (W : Z -> Prop).
Implicit Types (s : spm_t) (fl : list Z) (q : Z -> list Z) (c p : Z) (X : Z -> Prop) (x : connection_t).

Abbreviation PL := (partition_listhead R).
Abbreviation inv := (inv R memory_check bnd).
Abbreviation live := (live R).
Abbreviation conn_ok := (conn_ok R memory_check bnd).
Abbreviation outstanding := (outstanding R).
Abbreviation moved := (moved (R := R) (memory_check := memory_check) bnd W nothing).
Abbreviation vec_ok := (vec_ok (memory_check := memory_check)).
Abbreviation caller_ok := (caller_ok (memory_check := memory_check)).
Abbreviation associated := (associated (memory_check := memory_check)).

(** ** Connections that are set up *)

(** [c] was taken from the pool; nothing else knows of it yet. *)
Record building s0 fl0 s c fl q : Prop := {
  bu_conn : is_conn R c;
  bu_free : c ∉ fl;
  bu_pool : pool_ok (connection_pool R) CONNECTION_SIZE (CONN_HANDLE_MAX_NUM R) (pool s) fl;
  bu_rest : exists P, moved s0 fl0 (put_pool P s) (c :: fl) q;
}.

(** A connection that a client is about to use: a new one, or its own. *)
Definition holding (new : bool) s0 fl0 s c fl q : Prop := if new then building s0 fl0 s c fl q else moved s0 fl0 s fl q /\ live fl c.

(** What is known of it. *)
Record candidate s x : Prop := {
  cd_service : c_service x ∈ services R;
  cd_client : p_client x = current s;
  cd_id : client_ok R (current s) (m_client_id (msg x));
  cd_auth : authorised R (current s) (c_service x);
  cd_idle : c_status x = TFM_HANDLE_STATUS_IDLE;
  cd_vec : vec_ok (bnd (current s)) x;
}.

Lemma holding_put new s0 fl0 s c fl q cs :
  holding new s0 fl0 s c fl q -> (forall d, d <> c -> cs d = conns s d) -> (live fl c -> conn_ok (conns s c) -> same_call (cs c) (conns s c) /\ conn_ok (cs c)) ->
  m_rhandle (msg (cs c)) = m_rhandle (msg (conns s c)) -> holding new s0 fl0 (put_conns cs s) c fl q.
Proof.
  intros Hh Ho Hc Hr.
  assert (forall t fl1, moved s0 fl0 t fl1 q -> conns t = conns s -> (live fl1 c -> same_call (cs c) (conns s c) /\ conn_ok (cs c)) ->
    moved s0 fl0 (put_conns cs t) fl1 q) as Hput.
  { intros t fl1 Hm Ht Hck. eapply mv_then; [exact Hm|]. intros Hi.
    assert (inv (put_conns cs t) fl1 q) as Hi'.
    { apply inv_put_conns; [done|done| | |]; rewrite ?Ht.
      - intros d Hd. destruct (decide (d = c)) as [->|Hne]; [by apply Hck|rewrite Ho by done; by intros _].
      - intros p d Hp Hd. destruct (decide (d = c)) as [->|Hne]; [done|by rewrite Ho].
      - intros d Hd. destruct (decide (d = c)) as [->|Hne]; [by apply Hck|rewrite Ho, <- Ht by done; by apply (i_conn _ _ _ _ _ _ Hi)]. }
    apply mv_same; [done|done|done|done|done| |done]. intros d Hd. cbn [conns put_conns]. rewrite Ht.
    destruct (decide (d = c)) as [->|Hne]; [by apply Hck|rewrite Ho by done; by intros _]. }
  destruct new; [destruct Hh as [H1 H2 H3 [P HP]]|destruct Hh as [Hm Hl]].
  - split; [done|done|done|]. exists P. apply (Hput _ _ HP); [done|]. intros [_ Hn]. exfalso. apply Hn. left.
  - split; [|done]. apply (Hput _ _ Hm); [done|]. intros _. apply Hc; [done|]. apply (i_conn _ _ _ _ _ _ (mv_inv _ _ _ _ _ _ _ _ Hm) c Hl).
Qed.

Lemma holding_upd new s0 fl0 s c fl q f :
  holding new s0 fl0 s c fl q -> (live fl c -> conn_ok (conns s c) -> same_call (f (conns s c)) (conns s c) /\ conn_ok (f (conns s c))) ->
  m_rhandle (msg (f (conns s c))) = m_rhandle (msg (conns s c)) -> holding new s0 fl0 (upd_conn c f s) c fl q.
Proof.
  intros Hh Hf Hr. assert (alter f c (conns s) c = f (conns s c)) as Hc by (unfold alter, fn_alter; by rewrite decide_True).
  apply holding_put; [done| |by rewrite Hc|by rewrite Hc]. intros d Hd. unfold alter, fn_alter. by rewrite decide_False.
Qed.

(** The client's data is set: the connection is one like the others. *)
Lemma holding_done new s0 fl0 s c fl q :
  holding new s0 fl0 s c fl q -> candidate s (conns s c) -> (client_data (conns s c) <> 0 <-> mailbox R (current s)) -> moved s0 fl0 s fl q /\ live fl c.
Proof.
  intros Hh [Ca Cb Cc Cd Ce [Cf Cg]] Hd. destruct new; [|done]. destruct Hh as [H1 H2 H3 [P HP]]. assert (live fl c) as Hl by done. split; [|done].
  pose proof (mv_inv _ _ _ _ _ _ _ _ HP) as Hi.
  assert (forall d, live fl d -> live (c :: fl) d \/ d = c) as Hor.
  { intros d [Hsd Hnd]. destruct (decide (d = c)) as [->|]; [by right|left]. split; [done|]. by rewrite not_elem_of_cons. }
  assert (forall d, live (c :: fl) d -> live fl d) as Hsub.
  { intros d [Hsd Hnd]. split; [done|]. rewrite not_elem_of_cons in Hnd. tauto. }
  assert (forall d, outstanding s fl d -> outstanding (put_pool P s) (c :: fl) d) as Hout.
  { intros d (Hld & Hst & Hr). destruct (Hor d Hld) as [|Heq]; [done|]. by rewrite Heq, Ce in Hst. }
  assert (inv s fl q) as Hi'.
  { destruct Hi. split; try assumption.
    - destruct i_lists as [l1 l2 l3 l4]. split; eauto.
    - intros d Hld. destruct (Hor d Hld) as [Hl'| ->]; [by apply i_conn|]. split; rewrite ?Cb; done.
    - intros d Ho. by apply i_calls, Hout.
    - intros d d' H4 H5. by apply i_one; apply Hout. }
  destruct HP as [_ M2 M3 M4 M5 M6]. split; [done| |exact M3|exact M4|exact M5|exact M6].
  intros d Hx Ho. destruct (M2 d Hx Ho) as [(Hld & Ho') Hcl]. split; [|done]. split; [by apply Hsub|done].
Qed.

Lemma holding_facts new s0 fl0 s c fl q :
  holding new s0 fl0 s c fl q ->
  current s = current s0 /\ (forall p, waiting s p = waiting s0 p) /\ (forall a, 0 <= mem s a < 256) /\ (forall p, boundary (parts s p) = bnd p) /\ current s ∈ PL.
Proof.
  assert (forall t fl1, moved s0 fl0 t fl1 q ->
    current t = current s0 /\ (forall p, waiting t p = waiting s0 p) /\ (forall a, 0 <= mem t a < 256) /\ (forall p, boundary (parts t p) = bnd p) /\ current t ∈ PL) as Ht.
  { intros t fl1 [Hi _ _ Hc Hw _]. split_and!; [done|intros p; apply Hw; by intros []|apply (i_mem _ _ _ _ _ _ Hi)|apply (i_bnd _ _ _ _ _ _ Hi)|apply (i_cur _ _ _ _ _ _ Hi)]. }
  destruct new; [intros [_ _ _ [P HP]]; by apply (Ht _ _ HP)|intros [Hm _]; by apply (Ht _ _ Hm)].
Qed.

(** The call fails: a new connection goes back to the pool. *)
Lemma building_drop s0 fl0 s c fl q : building s0 fl0 s c fl q -> moved s0 fl0 (put_pool (tfm_pool_free (connection_pool R) c (pool s)) s) (c :: fl) q.
Proof.
  intros [H1 H2 H3 [P HP]]. pose proof (free_ok _ _ _ (ro_fit _ Hrom) _ _ _ H3 H1 H2) as Hf.
  destruct HP as [Hi M2 M3 M4 M5 M6]. split; [|exact M2|exact M3|exact M4|exact M5|exact M6]. destruct Hi. by split.
Qed.

Lemma wp_allocate s0 fl0 s fl q (Q : Z -> spm_t -> Prop) (E : psa_status_t -> spm_t -> Prop) :
  moved s0 fl0 s fl q ->
  (forall s', fl = [] -> moved s0 fl0 s' fl q -> conns s' = conns s -> Q 0 s') ->
  (forall c fl' s', fl = c :: fl' -> building s0 fl0 s' c fl' q -> current s' = current s -> parts s' = parts s -> mem s' = mem s -> loop_index s' = loop_index s -> conns s' = conns s -> Q c s') ->
  wp (spm_allocate_connection R) Q E s.
Proof.
  intros Hm H0 H1. unfold spm_allocate_connection. apply wp_get. pose proof (mv_inv _ _ _ _ _ _ _ _ Hm) as Hi. pose proof (i_pool _ _ _ _ _ _ Hi) as Hp.
  destruct fl as [|c fl'].
  - rewrite (alloc_empty _ _ _ (ro_fit _ Hrom) _ Hp). apply wp_bind, wp_modify, wp_ret. apply H0; [done| |done]. by destruct s.
  - destruct (alloc_cons _ _ _ (ro_fit _ Hrom) _ _ _ Hp) as (p' & -> & Hp'). apply wp_bind, wp_modify, wp_ret. eapply H1; [done| |done..].
    destruct Hp as [[_ _ _ Hnd Hsl _] _]. apply NoDup_cons in Hnd as [Hni _]. apply Forall_cons in Hsl as [Hsl _].
    split; [exact Hsl|done|done|]. exists (pool s). by destruct s.
Qed.
End calls.
