(* ===== verification/SpmClient.v ===== *)
(** * The partition manager: identifiers, services and connections of clients *)

From S2P Require Import Prelude Bytes SpmLists SpmTypes SpmIpc SpmApi SpmSystem SpmInv SpmRules SpmQueues SpmSend SpmVectors SpmCalls.
From stdpp Require Import base list numbers functions sets.
From Stdlib Require Import ZArith Lia.

Open Scope Z_scope.
Open Scope tfm_scope.

Section client.
Context {R : spm_rom} {memory_check : Z -> Z -> Z -> Z -> bool} (Hrom : rom_ok R) (bnd : Z -> Z) (W : Z -> Prop).
Implicit Types (s : spm_t) (fl : list Z) (q : Z -> list Z) (c p : Z) (X : Z -> Prop) (x : connection_t).

Abbreviation PL := (partition_listhead R).
Abbreviation inv := (inv R memory_check bnd).
Abbreviation live := (live R).
Abbreviation conn_ok := (conn_ok R memory_check bnd).
Abbreviation moved := (moved (R := R) (memory_check := memory_check) bnd W nothing).
Abbreviation building := (building (R := R) (memory_check := memory_check) bnd W).
Abbreviation holding := (holding (R := R) (memory_check := memory_check) bnd W).
Abbreviation candidate := (candidate (R := R) (memory_check := memory_check) bnd).

(** ** Who calls *)

Lemma ns_caller_agent s : tfm_spm_is_ns_caller R s = true <-> agent R (current s).
Proof. done. Qed.

Lemma wp_client_id s fl q (Q : Z -> spm_t -> Prop) (E : psa_status_t -> spm_t -> Prop) :
  inv s fl q -> ~ mailbox R (current s) -> (forall id, client_ok R (current s) id -> Q id s) -> E PANIC s ->
  wp (tfm_spm_get_client_id R (tfm_spm_is_ns_caller R s)) Q E s.
Proof.
  intros Hi Hm HQ HE. unfold tfm_spm_get_client_id. apply wp_get. cbv zeta. pose proof (i_cur _ _ _ _ _ _ Hi) as Hp.
  destruct (tfm_spm_is_ns_caller R s) eqn:Hns.
  - assert (agent R (current s)) as Ha by done. destruct (ro_region _ Hrom _ Hp Ha Hm) as [Hb Hl].
    unfold tfm_nspm_get_current_client_id, tz_ns_agent_client_id_translate. pose proof (ro_ids _ Hrom _ Hp Ha).
    destruct (Z.geb_spec (nsid s) 0); [by apply wp_fail|]. destruct (Z.ltb_spec (nsid s) (-1 * (region_limit R - region_base R) - 1)); [by apply wp_fail|].
    cbn [default from_option id]. rewrite (proj2 (Z.ltb_lt _ _)) by lia. cbn [Bool.eqb negb]. apply wp_ret, HQ. unfold client_ok. rewrite decide_True by done. lia.
  - assert (~ agent R (current s)) as Ha by (unfold agent; unfold tfm_spm_is_ns_caller in Hns; by rewrite Hns).
    unfold tfm_spm_partition_get_running_partition_id. pose proof (ro_pid _ Hrom _ Hp). rewrite (proj2 (Z.ltb_ge _ _)) by lia.
    cbn [Bool.eqb negb]. apply wp_ret, HQ. unfold client_ok. by rewrite decide_False.
Qed.

(** ** Services *)

Lemma find_service_spec l h vs fuel sid_ :
  chain l h vs -> (length vs < fuel)%nat ->
  match find_service R fuel sid_ 0 (l h) l with
  | Some (prev, curr) => sid (s_ldinf (serv R curr)) = sid_ /\ (prev = 0 /\ curr ∈ vs \/
      exists y xs ys, vs = y :: xs ++ curr :: ys /\ prev = before h (y :: xs))
  | None => True
  end.
Proof.
  intros Hc Hlen.
  assert (forall xs rest fuel g prev, chain l g rest -> (length rest < fuel)%nat -> vs = xs ++ rest -> (xs = [] /\ prev = 0 /\ g = h \/ exists y ys, xs = y :: ys /\ prev = before h xs /\ g = prev) ->
    match find_service R fuel sid_ prev (l g) l with
    | Some (prev, curr) => sid (s_ldinf (serv R curr)) = sid_ /\ (prev = 0 /\ curr ∈ vs \/
        exists y xs ys, vs = y :: xs ++ curr :: ys /\ prev = before h (y :: xs))
    | None => True
    end) as Hgen.
  2: { apply (Hgen [] vs fuel h 0); [done|done|done|by left]. }
  clear Hc Hlen fuel. intros xs rest fuel. revert xs rest. induction fuel as [|fuel IH]; intros xs rest g prev Hc Hlen Hvs Hx; cbn [find_service]; [done|].
  destruct rest as [|z rest]; cbn [chain length] in *; [by rewrite Hc|]. destruct Hc as (-> & Hz & Hc). rewrite (proj2 (Z.eqb_neq _ _) Hz).
  destruct (Z.eqb_spec (sid (s_ldinf (serv R z))) sid_) as [Heq|_].
  - split; [done|]. destruct Hx as [(-> & -> & _)|(y & ys & -> & -> & _)]; [left|right].
    + split; [done|]. rewrite Hvs. left.
    + by exists y, ys, rest.
  - apply (IH (xs ++ [z]) rest); [done|lia|by rewrite <- app_assoc|]. right.
    assert (z = before h (xs ++ [z])) as Hb by (unfold before; by rewrite last_last).
    destruct xs as [|y xs]; [exists z, []|exists y, (xs ++ [z])]; done.
Qed.

Lemma wp_the_service s fl q sid_ (Q : Z -> spm_t -> Prop) (E : psa_status_t -> spm_t -> Prop) :
  inv s fl q -> Q 0 s ->
  (forall v l, v ∈ services R -> v <> 0 -> sid (s_ldinf (serv R v)) = sid_ -> moved s fl (put_svc_next l s) fl q -> Q v (put_svc_next l s)) ->
  wp (tfm_spm_get_service_by_sid R sid_) Q E s.
Proof.
  intros Hi H0 H1. unfold tfm_spm_get_service_by_sid. apply wp_bind, wp_gets. cbv beta.
  destruct (i_services _ _ _ _ _ _ Hi) as (vs & Hc & Hperm). pose proof (find_service_spec _ _ vs (S (length (services R))) sid_ Hc ltac:(rewrite Hperm; lia)) as Hf.
  destruct (find_service _ _ _ _ _ _) as [[prev curr]|]; [|by apply wp_ret]. destruct Hf as [Hsid Hf].
  assert (curr ∈ vs) as Hin.
  { destruct Hf as [[_ ?]|(y & xs & ys & -> & _)]; [done|]. apply elem_of_cons. right. apply elem_of_app. right. left. }
  rewrite Hperm in Hin. apply wp_bind, wp_modify, wp_ret. apply H1; [done|by apply (ro_service _ Hrom)|done|]. apply mv_svc_next; [done|].
  destruct Hf as [[-> _]|(y & xs & ys & -> & ->)]; [by exists vs|]. exists (curr :: y :: xs ++ ys). split.
  - apply chain_move; [|exact Hc]. apply NoDup_cons. destruct (ro_head _ Hrom) as [_ Hh]. split; [by rewrite Hperm|]. rewrite Hperm. apply (ro_services _ Hrom).
  - rewrite <- Hperm. exact (Permutation_middle (y :: xs) ys curr).
Qed.

Lemma authorised_check s v ns :
  (ns = true <-> agent R (current s)) -> tfm_spm_check_authorization R (sid (s_ldinf (serv R v))) (serv R v) ns s = PSA_SUCCESS -> authorised R (current s) v.
Proof.
  intros Hns. unfold tfm_spm_check_authorization, authorised. destruct ns.
  - rewrite decide_True by (by apply Hns). by destruct (SERVICE_IS_NS_ACCESSIBLE _).
  - rewrite decide_False by (intros Ha; by apply Hns in Ha). destruct (existsb _ _) eqn:Hex; [|done]. intros _.
    apply existsb_exists in Hex as (d & Hd & ->%Z.eqb_eq). by apply list_elem_of_In.
Qed.

(** ** New connections *)

Lemma wp_init_idle s c v id (Q : unit -> spm_t -> Prop) (E : psa_status_t -> spm_t -> Prop) :
  (forall h i, let f x := Conn TFM_HANDLE_STATUS_IDLE (current s) v (Msg 0 h id 0 (fun _ => 0) (fun _ => 0)) (invec_base x) (invec_accessed x)
      (outvec_base x) (outvec_written x) (caller_outvec x) 0 0 (c_reply_value x) in
    i = (loop_index s + 1) mod 8 -> h = to_s32 (u32 (Z.shiftl (c - connection_pool R) 3) + CLIENT_HANDLE_VALUE_MIN + i) ->
    Q tt (upd_conn c f (put_loop_index i s))) -> wp (spm_init_idle_connection R c v id) Q E s.
Proof.
  intros HQ. unfold spm_init_idle_connection. apply wp_get. cbv zeta. apply wp_bind. unfold connection_to_handle. apply wp_get. cbv zeta.
  apply wp_bind, wp_modify, wp_ret, wp_modify. by apply HQ.
Qed.

(** A fresh connection for an authorised client. *)
Lemma building_init s0 fl0 s c fl q v id i (f : connection_t -> connection_t) :
  building s0 fl0 s c fl q -> v ∈ services R -> client_ok R (current s) id -> authorised R (current s) v ->
  (forall x, c_status (f x) = TFM_HANDLE_STATUS_IDLE /\ p_client (f x) = current s /\ c_service (f x) = v /\ m_client_id (msg (f x)) = id /\
    (forall j, in_size (msg (f x)) j = 0) /\ (forall j, out_size (msg (f x)) j = 0)) ->
  building s0 fl0 (upd_conn c f (put_loop_index i s)) c fl q /\ candidate (upd_conn c f (put_loop_index i s)) (conns (upd_conn c f (put_loop_index i s)) c) /\
  out_below 0 (conns (upd_conn c f (put_loop_index i s)) c).
Proof.
  intros [H1 H2 H3 [P HP]] Hv Hid Ha Hf. destruct (Hf (conns s c)) as (F1 & F2 & F3 & F4 & F5 & F6). split_and!.
  - split; [done|done|done|]. exists P. assert (moved s0 fl0 (put_loop_index i (put_pool P s)) (c :: fl) q) as HP'.
    { eapply mv_then; [exact HP|]. intros Hi. apply mv_same; try done. destruct Hi. by split. }
    eapply mv_then; [exact HP'|]. intros Hi.
    apply (mv_conn bnd W (put_loop_index i (put_pool P s)) (c :: fl) q c f Hrom Hi); [intros [_ Hn]; exfalso; apply Hn; left| |intros [_ Hn]; exfalso; apply Hn; left].
    right. intros p Hp Hin. destruct (l_live _ _ _ _ (i_lists _ _ _ _ _ _ Hi) p c Hp Hin) as [_ Hn]. apply Hn. left.
  - rewrite conns_upd, decide_True by done. cbn [conns put_loop_index]. split; [by rewrite F3|exact F2| | |exact F1|].
    + change (client_ok R (current s) (m_client_id (msg (f (conns s c))))). by rewrite F4.
    + change (authorised R (current s) (c_service (f (conns s c)))). by rewrite F3.
    + split; [intros j _; by rewrite F5|intros j _; by rewrite F6].
  - rewrite conns_upd, decide_True by done. intros j _. cbn [conns put_loop_index]. by rewrite F6.
Qed.
End client.

(** * The partition manager: requests of clients *)

Section connect.
Context {R : spm_rom} {memory_check : Z -> Z -> Z -> Z -> bool} (Hrom : rom_ok R) (bnd : Z -> Z) (W : Z -> Prop).
Implicit Types (s : spm_t) (fl : list Z) (q : Z -> list Z) (c p : Z) (X : Z -> Prop) (x : connection_t).

Abbreviation PL := (partition_listhead R).
Abbreviation inv := (inv R memory_check bnd).
Abbreviation live := (live R).
Abbreviation conn_ok := (conn_ok R memory_check bnd).
Abbreviation outstanding := (outstanding R).
Abbreviation moved := (moved (R := R) (memory_check := memory_check) bnd W).
Abbreviation building := (building (R := R) (memory_check := memory_check) bnd W).
Abbreviation holding := (holding (R := R) (memory_check := memory_check) bnd W).
Abbreviation candidate := (candidate (R := R) (memory_check := memory_check) bnd).
Abbreviation caller_ok := (caller_ok (memory_check := memory_check)).

(** ** Sending *)

(** The request is with the service; the client of a direct call waits. *)
Definition sent s fl (c r : Z) (s' : spm_t) : Prop :=
  exists q', moved (eq (current s)) s fl s' fl q' /\ live fl c /\ p_client (conns s' c) = current s /\
    if decide (mailbox R (current s)) then r = PSA_SUCCESS /\ waiting s' (current s) = waiting s (current s)
    else r = STATUS_NEED_SCHEDULE /\ outstanding s' fl c.

Lemma wp_messaging s fl q c :
  inv s fl q -> running s -> live fl c -> candidate s (conns s c) -> caller_ok (bnd (current s)) (conns s c) ->
  (client_data (conns s c) <> 0 <-> mailbox R (current s)) -> wp (backend_messaging R c) (sent s fl c) (fun e _ => e = PANIC) s.
Proof.
  intros Hi Hr Hc Hcd Hcal Hd. destruct Hcd as [Cs Ccl Cid Cau Cidle Cv]. pose proof (i_cur _ _ _ _ _ _ Hi) as Hcur.
  destruct (ro_service _ Hrom _ Cs) as (Hs0 & Hop & _). destruct (ro_part _ Hrom _ Hop) as [Ho0 _]. destruct (ro_part _ Hrom _ Hcur) as [Hcur0 _].
  pose proof (conn_pos Hrom c (proj1 Hc)) as Hc0. pose proof (sig_bit Hrom _ Cs) as Hsb. pose proof (sig_async Hrom _ Cs) as Hsa.
  set (o := owner R s c). set (sg := conn_signal R s c).
  assert (rpc s c <-> mailbox R (current s)) as Hrpc.
  { unfold rpc, tfm_spm_is_rpc_msg. rewrite !andb_true_iff, !negb_true_iff, !Z.eqb_neq, Z.ltb_lt, <- Hd. split; [tauto|]. intros Hne. split_and!; [done|done|].
    apply (client_ok_sign R _ _ Hrom Hcur Cid), mailbox_agent, Hd, Hne. }
  unfold backend_messaging. apply wp_get. rewrite (proj2 (Z.eqb_neq _ _) Hc0), (proj2 (Z.eqb_neq _ _) Hs0). unfold service_of.
  rewrite (proj2 (Z.eqb_neq _ _) Ho0). cbn [orb]. fold (service_of R s c). fold (owner R s c). fold o. fold sg. cbv zeta.
  apply wp_bind, wp_modify. apply wp_bind, wp_assert_signal; [|done]. intros r _. apply wp_get.
  set (s1 := upd_part o (raise sg) _). change (tfm_spm_is_rpc_msg s1 c) with (tfm_spm_is_rpc_msg s c). change (p_client (conns s1 c)) with (p_client (conns s c)). rewrite Ccl.
  destruct (decide (mailbox R (current s))) as [Hm|Hm].
  - rewrite (proj2 Hrpc Hm). apply wp_bind, wp_ret, wp_bind, wp_modify, wp_ret.
    assert (moved (eq (current s)) s fl (upd_conn c (set_status TFM_HANDLE_STATUS_ACTIVE) s1) fl (<[o := c :: q o]> q)) as Hmv.
    { apply (mv_enqueue Hrom bnd W (eq (current s)) s fl q c (alter (raise sg) o (parts s))); [done|done|done|by rewrite Ccl| | |].
      - intros p' Hp'. unfold alter, fn_alter. by rewrite decide_False.
      - unfold alter, fn_alter. by rewrite decide_True.
      - intros Hn. by destruct Hn; apply Hrpc. }
    eexists. split; [exact Hmv|]. split; [done|]. rewrite conns_upd, decide_True by done. split; [exact Ccl|]. rewrite decide_True by done. split; [done|].
    unfold waiting, s1. cbn [parts upd_conn put_conns]. rewrite parts_upd. by case_decide; subst.
  - assert (~ rpc s c) as Hnr by (by rewrite Hrpc). unfold rpc in Hnr. apply not_true_is_false in Hnr. rewrite Hnr.
    pose proof (running_not_asserted bnd s fl q Hi Hr Hm) as Hna.
    assert (Z.land (signals_asserted (parts s1 (current s))) ASYNC_MSG_REPLY = 0) as Hz.
    { destruct (decide (Z.land (signals_asserted (parts s1 (current s))) ASYNC_MSG_REPLY = 0)) as [|Hne]; [done|]. exfalso.
      apply raised in Hne; [|done|apply async_bit]. destruct Hne as [?|[_ Heq]]; [done|exact (Hsa (eq_sym Heq))]. }
    unfold backend_wait_signals. rewrite (proj2 (Z.eqb_neq _ _) Hcur0). apply wp_bind, wp_bind, wp_get. cbv zeta. rewrite Hz. cbn [Z.eqb].
    apply wp_bind, wp_modify, wp_ret, wp_ret, wp_bind, wp_modify, wp_ret. set (s2 := upd_conn c _ _).
    pose proof (mv_waiting bnd W s fl q (current s) ASYNC_MSG_REPLY Hi Hcur eq_refl ltac:(done) (fun d => running_no_call bnd s fl q d Hi Hr) (or_intror Hna)) as Hw.
    set (s3 := upd_part (current s) (set_waiting ASYNC_MSG_REPLY) s) in Hw.
    assert (moved (eq (current s)) s fl s2 fl (<[o := c :: q o]> q)) as Hmv.
    { eapply mv_trans; [exact Hw|]. apply (mv_enqueue Hrom bnd W (eq (current s)) s3 fl q c (parts s2)); [apply Hw|done|done| | | |].
      - change (conns s3) with (conns s). by rewrite Ccl.
      - intros p' Hp'. change (owner R s3 c) with o in Hp'. unfold s2, s3. cbn [parts upd_conn put_conns]. rewrite !parts_upd. unfold s1. rewrite parts_upd.
        rewrite (decide_False (P := o = p')) by congruence. done.
      - change (owner R s3 c) with o. change (conn_signal R s3 c) with sg. unfold s2, s3. cbn [parts upd_conn put_conns]. rewrite !parts_upd. unfold s1. rewrite parts_upd.
        rewrite (decide_True (P := o = o)) by done. by case_decide.
      - intros _. change (conns s3) with (conns s). rewrite Ccl. unfold waiting, asserted, s3. rewrite parts_upd, decide_True by done.
        split_and!; [done|exact Hna|]. intros d Hd'. by apply (running_no_call bnd s fl q d Hi Hr). }
    eexists. split; [exact Hmv|]. split; [done|]. assert (conns s2 c = set_status TFM_HANDLE_STATUS_ACTIVE (conns s c)) as Hs2 by (unfold s2; by rewrite conns_upd, decide_True).
    rewrite Hs2. split; [exact Ccl|]. rewrite decide_False by done. split; [done|]. split; [done|]. rewrite Hs2. split; [done|].
    unfold rpc, tfm_spm_is_rpc_msg in *. rewrite Hs2. cbn [client_data msg set_status]. by rewrite Hnr.
Qed.
End connect.
