(* ===== verification/SpmRequests.v ===== *)
(** * The partition manager: the client API *)

From S2P Require Import Prelude Bytes SpmLists SpmTypes SpmIpc SpmApi SpmSystem SpmInv SpmRules SpmQueues SpmSend SpmVectors SpmCalls SpmClient.
From stdpp Require Import base list numbers functions sets.
From Stdlib Require Import ZArith Lia.

Open Scope Z_scope.
Open Scope tfm_scope.

Section requests.
Context {R : spm_rom} {memory_check : Z -> Z -> Z -> Z -> bool} (Hrom : rom_ok R) (bnd : Z -> Z) (W : Z -> Prop).
Implicit Types (s : spm_t) (fl : list Z) (q : Z -> list Z) (c p : Z) (X : Z -> Prop) (x : connection_t).

Abbreviation PL := (partition_listhead R).
Abbreviation inv := (inv R memory_check bnd).
Abbreviation live := (live R).
Abbreviation conn_ok := (conn_ok R memory_check bnd).
Abbreviation outstanding := (outstanding R).
Abbreviation moved := (moved (R := R) (memory_check := memory_check) bnd W).
Abbreviation building := (building (R := R) (memory_check := memory_check) bnd W).
Abbreviation holding := (holding (R := R) (memory_check := memory_check) bnd W).
Abbreviation candidate := (candidate (R := R) (memory_check := memory_check) bnd).
Abbreviation caller_ok := (caller_ok (memory_check := memory_check)).
Abbreviation sent := (sent (R := R) (memory_check := memory_check) bnd W).
Abbreviation panics := (fun (e : psa_status_t) (_ : spm_t) => e = PANIC).

(** A request was made, or refused. *)
Definition asked s fl (r : Z) (s' : spm_t) : Prop :=
  exists fl' q', moved (eq (current s)) s fl s' fl' q' /\
    (running s' \/ r = STATUS_NEED_SCHEDULE /\ exists c, outstanding s' fl' c /\ p_client (conns s' c) = current s).

Lemma asked_refused s fl s' fl' q' r : running s -> moved nothing s fl s' fl' q' -> asked s fl r s'.
Proof.
  intros Hr Hm. exists fl', q'. split; [eapply mv_weaken; [|exact Hm]; done|left].
  unfold running. rewrite (mv_current _ _ _ _ _ _ _ _ Hm), (mv_wait _ _ _ _ _ _ _ _ Hm); [exact Hr|]. by intros [].
Qed.

Lemma asked_sent s fl s1 fl1 q1 c r s' : running s -> moved nothing s fl s1 fl1 q1 -> sent s1 fl1 c r s' -> asked s fl r s'.
Proof.
  intros Hr Hm (q' & Hm' & Hl & Hcl & Hcase). pose proof (mv_current _ _ _ _ _ _ _ _ Hm) as Hcur. exists fl1, q'. split.
  - eapply mv_trans; [eapply mv_weaken; [|exact Hm]; done|]. by rewrite <- Hcur.
  - rewrite Hcur in *. case_decide.
    + left. destruct Hcase as [_ Hw]. unfold running. rewrite (mv_current _ _ _ _ _ _ _ _ Hm'), Hcur, Hw, (mv_wait _ _ _ _ _ _ _ _ Hm); [exact Hr|by intros []].
    + right. destruct Hcase as [-> Ho]. split; [done|]. by exists c.
Qed.

(** What the search for an idle connection gives. *)
Record found (new : bool) s fl s1 c fl1 q : Prop := {
  fd_hold : holding new s fl s1 c fl1 q;
  fd_cand : candidate s1 (conns s1 c);
  fd_new : new = true -> client_data (conns s1 c) = 0 /\ out_below 0 (conns s1 c);
  fd_old : new = false -> s1 = s;
}.

(** A new connection to a service. *)
Lemma wp_new_connection s0 fl0 s fl q v id (k : Z -> SPM (res Z)) (Q : res Z -> spm_t -> Prop) (E : psa_status_t -> spm_t -> Prop) :
  moved nothing s0 fl0 s fl q -> v ∈ services R -> client_ok R (current s) id -> authorised R (current s) v ->
  (forall s', moved nothing s0 fl0 s' fl q -> Q (Err PSA_ERROR_CONNECTION_BUSY) s') ->
  (forall c fl' s', found true s0 fl0 s' c fl' q -> wp (k c) Q E s') ->
  wp (let* c := spm_allocate_connection R in if c =? 0 then ret (Err PSA_ERROR_CONNECTION_BUSY)
      else let* _ := spm_init_idle_connection R c v id in k c) Q E s.
Proof.
  intros Hm Hv Hid Ha H0 H1. apply wp_bind. eapply (wp_allocate Hrom); [exact Hm| |].
  - intros s' _ Hm' _. cbn [Z.eqb]. by apply wp_ret, H0.
  - intros c fl' s' _ Hb Hcur _ _ _ _. pose proof (conn_pos Hrom c (bu_conn _ _ _ _ _ _ _ _ Hb)) as Hc0. rewrite (proj2 (Z.eqb_neq _ _) Hc0).
    apply wp_bind, wp_init_idle. intros h i f Hi Hh. rewrite <- Hcur in Hid, Ha.
    destruct (building_init Hrom bnd W s0 fl0 s' c fl' q v id i f Hb Hv Hid Ha) as (B1 & B2 & B3); [done|].
    apply (H1 c fl'). split; [exact B1|exact B2| |done]. intros _. split; [|exact B3]. by rewrite conns_upd, decide_True.
Qed.

Lemma wp_static_connection s fl q h id (Q : res Z -> spm_t -> Prop) (E : psa_status_t -> spm_t -> Prop) :
  inv s fl q -> client_ok R (current s) id ->
  (forall e s', moved nothing s fl s' fl q -> Q (Err e) s') -> (forall c fl' s', found true s fl s' c fl' q -> Q (Ok c) s') ->
  wp (get_static_connection R h id) Q E s.
Proof.
  intros Hi Hid H0 H1. assert (forall e, wp (ret (Err e)) Q E s) as Hf by (intros e; apply wp_ret, H0; by apply mv_refl).
  unfold get_static_connection. apply wp_get. cbv zeta. set (v := stateless_services_ref_tbl R _).
  destruct (Z.eqb_spec v 0) as [|Hv0]; [apply Hf|]. destruct (ro_stateless _ Hrom _ Hv0) as [Hv _].
  destruct (Z.eqb_spec (tfm_spm_check_authorization R (sid (s_ldinf (serv R v))) (serv R v) (tfm_spm_is_ns_caller R s) s) PSA_SUCCESS) as [Hau|]; cbn [negb]; [|apply Hf].
  destruct (_ =? PSA_SUCCESS); cbn [negb]; [|apply Hf]. apply authorised_check in Hau; [|done].
  eapply wp_new_connection; [by apply mv_refl|done|done|done|intros s' Hm'; by apply H0|]. intros c fl' s' Hf'. by eapply wp_ret, H1.
Qed.

Lemma wp_established_connection s fl q h id (Q : res Z -> spm_t -> Prop) (E : psa_status_t -> spm_t -> Prop) :
  inv s fl q -> client_ok R (current s) id -> (forall e, Q (Err e) s) -> (forall c, c = handle_to_connection R h -> found false s fl s c fl q -> Q (Ok c) s) ->
  wp (get_established_connection R h id) Q E s.
Proof.
  intros Hi Hid H0 H1. unfold get_established_connection. apply wp_get. cbv zeta. set (c := handle_to_connection R h).
  destruct (Z.eqb_spec c 0); [by apply wp_ret|]. destruct (spm_validate_connection R c s) eqn:Hval; cbn [negb]; [|by apply wp_ret].
  apply (validate_live Hrom bnd s fl q c Hi) in Hval; [|apply handle_range].
  destruct (Z.eqb_spec (m_client_id (msg (conns s c))) id) as [Hcid|]; cbn [negb]; [|by apply wp_ret].
  destruct (Z.eqb_spec (c_status (conns s c)) TFM_HANDLE_STATUS_IDLE) as [Hst|]; cbn [negb]; [|by apply wp_ret].
  destruct (_ =? 0); [by apply wp_ret|]. apply wp_ret, H1; [done|].
  destruct (i_conn _ _ _ _ _ _ Hi c Hval) as [Ca Cb Cc Cd Ce Cf Cg _].
  assert (p_client (conns s c) = current s) as Hcl.
  { eapply client_ok_inj; [exact Hrom|done|apply Hi|exact Cc|by rewrite Hcid]. }
  split; [split; [by apply mv_refl|done]| |done|done]. rewrite Hcl in *. split; try done.
Qed.

Lemma wp_idle_connection s fl q h id (Q : res Z -> spm_t -> Prop) (E : psa_status_t -> spm_t -> Prop) :
  inv s fl q -> client_ok R (current s) id ->
  (forall e s', moved nothing s fl s' fl q -> Q (Err e) s') ->
  (forall c fl' s', found (IS_STATIC_HANDLE h) s fl s' c fl' q -> (IS_STATIC_HANDLE h = false -> c = handle_to_connection R h) -> Q (Ok c) s') ->
  wp (spm_get_idle_connection R h id) Q E s.
Proof.
  intros Hi Hid H0 H1. unfold spm_get_idle_connection. destruct (_ =? PSA_NULL_HANDLE); [apply wp_ret, H0; by apply mv_refl|].
  destruct (IS_STATIC_HANDLE h).
  - eapply wp_static_connection; [done|done|done|]. intros c fl' s' Hf. by eapply H1.
  - eapply wp_established_connection; [done|done|intros e; apply H0; by apply mv_refl|]. intros c -> Hf. by eapply H1.
Qed.
(** ** Calls *)

Lemma conn_ok_key x y : same_key y x -> conn_ok x -> vec_ok (memory_check := memory_check) (bnd (p_client x)) y -> c_status y = TFM_HANDLE_STATUS_IDLE -> conn_ok y.
Proof.
  intros (_ & Kc & Ks & Kd & Ki) [Ca Cb Cc Cd Ce _ _ _] [Vi Vo] Hst. split; rewrite ?Kc, ?Ks, ?Kd, ?Ki; try done.
Qed.

Lemma candidate_key s s' x y :
  same_key y x -> current s' = current s -> candidate s x -> vec_ok (memory_check := memory_check) (bnd (current s)) y -> c_status y = TFM_HANDLE_STATUS_IDLE -> candidate s' y.
Proof.
  intros (_ & Kc & Ks & Kd & Ki) Hcur [Ca Cb Cc Cd Ce Cf] Hv Hst. split; rewrite ?Hcur, ?Kc, ?Ks, ?Ki; try done.
Qed.

(** A request is sent once the vectors were accepted. *)
Lemma wp_send new s fl s1 c fl1 q (d : option Z) :
  running s -> holding new s fl s1 c fl1 q -> candidate s1 (conns s1 c) -> caller_ok (bnd (current s1)) (conns s1 c) ->
  match d with Some d => d <> 0 /\ mailbox R (current s) | None => client_data (conns s1 c) <> 0 <-> mailbox R (current s) end ->
  wp (let* _ := match d with Some d => modify (upd_conn c (set_client_data d)) | None => ret tt end in backend_messaging R c) (asked s fl) panics s1.
Proof.
  intros Hr Hh Hcd Hcal Hd. destruct (holding_facts bnd W new s fl s1 c fl1 q Hh) as (Hcur & Hwait & _ & _ & _).
  assert (forall s2, holding new s fl s2 c fl1 q -> candidate s2 (conns s2 c) -> caller_ok (bnd (current s2)) (conns s2 c) ->
    (client_data (conns s2 c) <> 0 <-> mailbox R (current s)) -> wp (backend_messaging R c) (asked s fl) panics s2) as Hgo.
  { intros s2 Hh2 Hcd2 Hcal2 Hd2. destruct (holding_facts bnd W new s fl s2 c fl1 q Hh2) as (Hcur2 & Hwait2 & _). rewrite <- Hcur2 in Hd2.
    destruct (holding_done bnd W new s fl s2 c fl1 q Hh2 Hcd2 Hd2) as [Hm Hl].
    eapply wp_mono; [apply (wp_messaging Hrom bnd W s2 fl1 q c (mv_inv _ _ _ _ _ _ _ _ Hm)); [unfold running; by rewrite Hcur2, Hwait2|done..]| |done].
    intros r s' Hs. by eapply asked_sent. }
  destruct d as [d|].
  - destruct Hd as [Hd0 Hmb]. apply wp_bind, wp_modify, Hgo.
    + apply (holding_upd Hrom); [done| |done]. intros _ [Ca Cb Cc Cd Ce Cf Cg _]. pose proof (cd_idle _ _ _ Hcd) as Hidle. pose proof (cd_client _ _ _ Hcd) as Hcl.
      split; [intros [Hst|Hst]; by destruct Hst|].
      split; [done|done|done| |done|done|done|intros Hst; by destruct Hst]. cbn [p_client client_data set_client_data]. rewrite Hcl, Hcur. by split.
    + rewrite conns_upd, decide_True by done. destruct Hcd as [? ? ? ? ? [? ?]]. by split; [..|split].
    + rewrite conns_upd, decide_True by done. exact Hcal.
    + rewrite conns_upd, decide_True by done. by split.
  - apply wp_bind, wp_ret, Hgo; done.
Qed.

Lemma found_facts new s fl s1 c fl1 q : found new s fl s1 c fl1 q -> current s1 = current s /\ my_boundary s1 = bnd (current s1) /\ forall a, 0 <= mem s1 a < 256.
Proof.
  intros [Hh _ _ _]. destruct (holding_facts bnd W new s fl s1 c fl1 q Hh) as (Hc & _ & Hm & Hb & _). split_and!; [done|apply Hb|done].
Qed.

(** The data of the client: none, unless it is an agent of a mailbox. *)
Lemma found_data new s fl s1 c fl1 q : found new s fl s1 c fl1 q -> ~ mailbox R (current s) -> client_data (conns s1 c) <> 0 <-> mailbox R (current s).
Proof.
  intros Hf Hm. pose proof (found_facts _ _ _ _ _ _ _ Hf) as (Hcur & _). destruct Hf as [Hh Hc Hn _]. destruct new.
  - destruct (Hn eq_refl) as [-> _]. by split.
  - destruct Hh as [Hmv Hl]. pose proof (co_data _ _ _ _ (i_conn _ _ _ _ _ _ (mv_inv _ _ _ _ _ _ _ _ Hmv) c Hl)) as Hd.
    rewrite (cd_client _ _ _ Hc), Hcur in Hd. exact Hd.
Qed.

Lemma wp_call_connection s fl s1 c fl1 q h ctrl inp outp data :
  running s -> found (IS_STATIC_HANDLE h) s fl s1 c fl1 q ->
  (PARAM_HAS_IOVEC ctrl = true \/ IS_STATIC_HANDLE h = true \/ out_below 0 (conns s1 c)) ->
  match data with Some d => d <> 0 /\ mailbox R (current s) | None => ~ mailbox R (current s) end ->
  wp (call_connection R memory_check h c ctrl inp outp data) (asked s fl) panics s1.
Proof.
  intros Hr Hf Hvec Hd. destruct (found_facts _ _ _ _ _ _ _ Hf) as (Hcur & Hb & Hmem). pose proof (fd_cand _ _ _ _ _ _ _ Hf) as Hcd.
  unfold call_connection. apply wp_bind. eapply wp_mono; [apply (wp_associate s1 c ctrl inp outp panics)| |done].
  { exact Hmem. }
  { destruct Hvec as [?|[Hst|?]]; [by left| |by right]. right. by apply (fd_new _ _ _ _ _ _ _ Hf). }
  intros r s2 [[Heq Hoth Hk Hst Hrh Hv] Hcal]. rewrite Hb in Hv, Hcal. specialize (Hv (cd_vec _ _ _ Hcd)).
  assert (c_status (conns s2 c) = TFM_HANDLE_STATUS_IDLE) as Hidle by (rewrite Hst; apply Hcd).
  assert (current s2 = current s1) as Hcur2 by (by rewrite Heq).
  assert (holding (IS_STATIC_HANDLE h) s fl s2 c fl1 q) as Hh.
  { rewrite Heq. apply (holding_put Hrom); [apply Hf|exact Hoth| |exact Hrh]. intros _ Hok. split; [by intros _|].
    apply (conn_ok_key (conns s1 c)); [exact Hk|exact Hok| |exact Hidle]. rewrite (cd_client _ _ _ Hcd). exact Hv. }
  assert (candidate s2 (conns s2 c)) as Hcd2 by (apply (candidate_key s1 s2 (conns s1 c)); done).
  destruct (Z.eqb_spec r PSA_SUCCESS) as [Hok|]; cbn [negb].
  - eapply wp_send; [done|exact Hh|exact Hcd2|rewrite Hcur2; by apply Hcal|]. destruct data as [d|]; [done|].
    destruct Hk as (_ & _ & _ & -> & _). by eapply found_data.
  - destruct (IS_STATIC_HANDLE h).
    + apply wp_bind, wp_modify, wp_ret. eapply asked_refused; [done|]. apply (building_drop Hrom). exact Hh.
    + apply wp_bind, wp_ret, wp_ret. destruct Hh as [Hm _]. by eapply asked_refused.
Qed.

Lemma asked_still s fl q r : inv s fl q -> running s -> asked s fl r s.
Proof. intros Hi Hr. eapply asked_refused; [done|]. by apply mv_refl. Qed.

Lemma wp_psa_call s fl q h ctrl inp outp :
  inv s fl q -> running s -> ~ mailbox R (current s) ->
  (PARAM_HAS_IOVEC ctrl = true \/ IS_STATIC_HANDLE h = true \/ out_below 0 (conns s (handle_to_connection R h))) ->
  wp (tfm_spm_client_psa_call R memory_check h ctrl inp outp) (asked s fl) panics s.
Proof.
  intros Hi Hr Hm Hvec. unfold tfm_spm_client_psa_call. apply wp_get. apply wp_bind. eapply (wp_client_id Hrom bnd); [done|done| |done]. intros id Hid.
  apply wp_bind. eapply wp_idle_connection; [done|done| |].
  - intros e s' Hm'. apply wp_ret. by eapply asked_refused.
  - intros c fl' s' Hf Hh. eapply wp_call_connection; [done|exact Hf| |done].
    destruct Hvec as [?|[?|Hv]]; [by left|by right; left|]. destruct (IS_STATIC_HANDLE h) eqn:Hs; [by right; left|]. right; right.
    rewrite (fd_old _ _ _ _ _ _ _ Hf eq_refl). by rewrite Hh.
Qed.

Lemma wp_agent_call s fl q h ctrl params d :
  inv s fl q -> running s -> mailbox R (current s) -> d <> 0 -> client_ok R (current s) (to_s32 (rd32 (mem s) params)) ->
  (PARAM_HAS_IOVEC ctrl = true \/ IS_STATIC_HANDLE h = true \/ out_below 0 (conns s (handle_to_connection R h))) ->
  wp (tfm_spm_agent_psa_call R memory_check h ctrl params d) (asked s fl) panics s.
Proof.
  intros Hi Hr Hm Hd Hid Hvec. unfold tfm_spm_agent_psa_call. apply wp_get. destruct (memory_check _ _ _ _); cbn [negb]; [|by apply wp_ret; eapply asked_still].
  apply wp_bind. eapply wp_idle_connection; [done|done| |].
  - intros e s' Hm'. apply wp_ret. by eapply asked_refused.
  - intros c fl' s' Hf Hh. eapply wp_call_connection; [done|exact Hf| |done].
    destruct Hvec as [?|[?|Hv]]; [by left|by right; left|]. destruct (IS_STATIC_HANDLE h) eqn:Hs; [by right; left|]. right; right.
    rewrite (fd_old _ _ _ _ _ _ _ Hf eq_refl). by rewrite Hh.
Qed.

(** ** Connections *)

(** A connect or disconnect message has no vectors that are read. *)
Lemma found_type new s fl s1 c fl1 q t : found new s fl s1 c fl1 q -> t < 0 ->
  holding new s fl (upd_conn c (set_type t) s1) c fl1 q /\ candidate (upd_conn c (set_type t) s1) (conns (upd_conn c (set_type t) s1) c) /\
  caller_ok (bnd (current (upd_conn c (set_type t) s1))) (conns (upd_conn c (set_type t) s1) c) /\
  client_data (conns (upd_conn c (set_type t) s1) c) = client_data (conns s1 c).
Proof.
  intros [Hh Hcd _ _] Ht. rewrite conns_upd, decide_True by done.
  assert (vec_ok (memory_check := memory_check) (bnd (current s1)) (set_type t (conns s1 c))) as Hv by (destruct (cd_vec _ _ _ Hcd) as [? ?]; by split).
  split_and!; [|apply (candidate_key s1 _ (conns s1 c)); try done; apply Hcd| |done].
  - apply (holding_upd Hrom); [done| |done]. intros _ Hok. split; [by intros _|]. eapply conn_ok_key; [|exact Hok| |apply Hcd]; [done|].
    by rewrite (cd_client _ _ _ Hcd).
  - intros Hn. cbn [m_type msg set_type set_msg] in Hn. lia.
Qed.

Lemma wp_connect_id s fl q sid_ version id (Q : res Z -> spm_t -> Prop) (E : psa_status_t -> spm_t -> Prop) :
  inv s fl q -> client_ok R (current s) id -> (forall e s', moved nothing s fl s' fl q -> Q (Err e) s') ->
  (forall c fl' s1, found true s fl s1 c fl' q -> Q (Ok c) (upd_conn c (set_type PSA_IPC_CONNECT) s1)) ->
  wp (spm_psa_connect_client_id_associated R sid_ version id) Q E s.
Proof.
  intros Hi Hid H0 H1. unfold spm_psa_connect_client_id_associated. cbv zeta. apply wp_bind. apply (wp_the_service (memory_check := memory_check) Hrom bnd W s fl q); [done| |].
  { cbn [Z.eqb]. apply wp_ret, H0. by apply mv_refl. }
  intros v l Hv Hv0 Hsid Hm. rewrite (proj2 (Z.eqb_neq _ _) Hv0). cbv zeta. apply wp_get.
  assert (forall e, wp (ret (Err e)) Q E (put_svc_next l s)) as Hf by (intros e; by apply wp_ret, H0).
  destruct (SERVICE_IS_STATELESS _); [apply Hf|]. rewrite <- Hsid.
  destruct (Z.eqb_spec (tfm_spm_check_authorization R (sid (s_ldinf (serv R v))) (serv R v) (id <? 0) (put_svc_next l s)) PSA_SUCCESS) as [Hau|]; cbn [negb]; [|apply Hf].
  apply authorised_check in Hau; [|rewrite Z.ltb_lt; by apply (client_ok_sign R _ _ Hrom), Hid; apply Hi].
  destruct (_ =? PSA_SUCCESS); cbn [negb]; [|apply Hf].
  eapply wp_new_connection; [exact Hm|done|exact Hid|exact Hau|intros s' Hm'; by apply H0|].
  intros c fl' s' Hfd. apply wp_bind, wp_modify, wp_ret. by eapply H1.
Qed.

Lemma wp_psa_connect s fl q sid_ version :
  inv s fl q -> running s -> ~ mailbox R (current s) -> wp (tfm_spm_client_psa_connect R sid_ version) (asked s fl) panics s.
Proof.
  intros Hi Hr Hm. unfold tfm_spm_client_psa_connect. apply wp_get. apply wp_bind. eapply (wp_client_id Hrom bnd); [done|done| |done]. intros id Hid.
  apply wp_bind. eapply wp_connect_id; [done|done| |].
  - intros e s' Hm'. apply wp_ret. by eapply asked_refused.
  - intros c fl' s1 Hf. destruct (found_type _ _ _ _ _ _ _ PSA_IPC_CONNECT Hf) as (Hh & Hcd & Hcal & Hdt); [done|].
    apply (wp_send true s fl _ c fl' q None Hr Hh Hcd Hcal). rewrite Hdt. by eapply found_data.
Qed.

Lemma wp_agent_connect s fl q sid_ version id d :
  inv s fl q -> running s -> client_ok R (current s) id -> d <> 0 -> wp (tfm_spm_agent_psa_connect R sid_ version id d) (asked s fl) panics s.
Proof.
  intros Hi Hr Hid Hd. unfold tfm_spm_agent_psa_connect. apply wp_get. apply wp_bind, wp_require; [intros Hm|done]. apply wp_bind, wp_require; [intros _|done].
  apply wp_bind. eapply wp_connect_id; [done|done| |].
  - intros e s' Hm'. apply wp_ret. by eapply asked_refused.
  - intros c fl' s1 Hf. destruct (found_type _ _ _ _ _ _ _ PSA_IPC_CONNECT Hf) as (Hh & Hcd & Hcal & Hdt); [done|].
    by apply (wp_send true s fl _ c fl' q (Some d) Hr Hh Hcd Hcal).
Qed.

Lemma wp_close_id s fl q h id :
  inv s fl q -> running s -> client_ok R (current s) id ->
  wp (spm_psa_close_client_id_associated R h id) (asked s fl) panics s.
Proof.
  intros Hi Hr Hid. unfold spm_psa_close_client_id_associated. destruct (_ =? _); [by apply wp_ret; eapply asked_still|].
  destruct (IS_STATIC_HANDLE h) eqn:Hs; [by apply wp_ret; eapply asked_still|]. apply wp_bind. eapply wp_idle_connection; [done|done| |].
  - intros e s' Hm'. apply wp_ret. by eapply asked_refused.
  - rewrite Hs. intros c fl' s1 Hf _. apply wp_bind, wp_modify. cbv beta. destruct (found_type _ _ _ _ _ _ _ PSA_IPC_DISCONNECT Hf) as (Hh & Hcd & Hcal & Hdt); [done|].
    apply (wp_send false s fl _ c fl' q None Hr Hh Hcd Hcal). destruct Hh as [Hmv Hl]. pose proof (co_data _ _ _ _ (i_conn _ _ _ _ _ _ (mv_inv _ _ _ _ _ _ _ _ Hmv) c Hl)) as Hd.
    rewrite (cd_client _ _ _ Hcd), (mv_current _ _ _ _ _ _ _ _ Hmv) in Hd. exact Hd.
Qed.

Lemma wp_psa_close s fl q h : inv s fl q -> running s -> ~ mailbox R (current s) -> wp (tfm_spm_client_psa_close R h) (asked s fl) panics s.
Proof.
  intros Hi Hr Hm. unfold tfm_spm_client_psa_close. apply wp_get. apply wp_bind. eapply (wp_client_id Hrom bnd); [done|done| |done]. intros id Hid.
  by eapply wp_close_id.
Qed.

Lemma wp_agent_close s fl q h id : inv s fl q -> running s -> client_ok R (current s) id -> wp (tfm_spm_agent_psa_close R h id) (asked s fl) panics s.
Proof.
  intros Hi Hr Hid. unfold tfm_spm_agent_psa_close. apply wp_get. apply wp_bind, wp_require; [intros _|done]. by eapply wp_close_id.
Qed.

Lemma wp_psa_version s fl q sid_ : inv s fl q -> running s -> wp (tfm_spm_client_psa_version R sid_) (fun _ s' => asked s fl 0 s') panics s.
Proof.
  intros Hi Hr. unfold tfm_spm_client_psa_version. apply wp_get. cbv zeta. apply wp_bind. apply (wp_the_service (memory_check := memory_check) Hrom bnd W s fl q); [done| |].
  { cbn [Z.eqb]. apply wp_ret. by eapply asked_still. }
  intros v l Hv Hv0 Hsid Hm. rewrite (proj2 (Z.eqb_neq _ _) Hv0). destruct (negb _); apply wp_ret; (eapply asked_refused; [done|exact Hm]).
Qed.
End requests.
