(* ===== verification/SpmServe.v ===== *)
(** * The partition manager: services get messages and agents get replies
    ([tfm_spm_partition_psa_get], [tfm_rpc_client_call_reply]) *)

From S2P Require Import Prelude Bytes SpmLists SpmTypes SpmIpc SpmApi SpmSystem SpmInv SpmRules SpmQueues SpmSend SpmVectors.
From stdpp Require Import base list numbers functions sets.
From Stdlib Require Import ZArith Lia.

Open Scope Z_scope.
Open Scope tfm_scope.

(** ** Bits and bytes *)

Lemma only_one_bit n : IS_ONLY_ONE_BIT_IN_UINT32 n = true -> one_bit n.
Proof.
  unfold IS_ONLY_ONE_BIT_IN_UINT32. rewrite andb_true_iff, negb_true_iff, Z.eqb_neq, Z.eqb_eq. intros [Hn Hl].
  assert (0 < n) as Hpos.
  { destruct (Z.lt_total n 0) as [Hneg|[?|?]]; [|lia|done]. assert (Z.land n (n - 1) < 0) by (apply Z.land_neg; lia). lia. }
  exists (Z.log2 n). split; [apply Z.log2_nonneg|]. destruct (Z.log2_spec n Hpos) as [Hlo Hhi]. destruct (decide (n = 2 ^ Z.log2 n)) as [|Hne]; [done|]. exfalso.
  assert (Z.log2 (n - 1) = Z.log2 n) as Hlog by (apply Z.log2_unique; [apply Z.log2_nonneg|lia]).
  assert (Z.testbit (Z.land n (n - 1)) (Z.log2 n) = true) as Hb.
  { rewrite Z.land_spec, Z.bit_log2 by done. rewrite <- Hlog at 1. apply Z.bit_log2. pose proof (Z.pow_pos_nonneg 2 (Z.log2 n) ltac:(lia) ltac:(apply Z.log2_nonneg)). lia. }
  by rewrite Hl, Z.bits_0 in Hb.
Qed.

Lemma zlen_words f : zlen (words f) = 16.
Proof. done. Qed.

Lemma zlen_ser_msg m : zlen (ser_msg m) = MSG_SIZE.
Proof. unfold ser_msg. rewrite !zlen_app, !zlen_le_bytes, !zlen_words. done. Qed.

Lemma ser_msg_bytes m : Forall is_byte (ser_msg m).
Proof. unfold ser_msg, words. cbn [seqZ fmap list_fmap concat]. repeat first [apply Forall_app_2|apply le_bytes_is_byte|apply Forall_nil_2]. Qed.

Lemma mem_read_write a d m k n : 0 <= k -> 0 <= n -> k + n <= zlen d -> mem_read (mem_write a d m) (a + k) n = sub_bytes k n d.
Proof.
  intros Hk Hn Hlen. apply list_eq. intros i. unfold mem_read. rewrite list_lookup_fmap.
  destruct (decide (Z.of_nat i < n)) as [Hi|Hi].
  - rewrite lookup_seqZ_lt by lia. cbn [fmap option_fmap option_map]. rewrite sub_bytes_lookup by lia.
    unfold mem_write. rewrite (proj2 (Z.leb_le _ _)), (proj2 (Z.ltb_lt _ _)) by lia. cbn [andb]. symmetry.
    replace (a + k + (0 + Z.of_nat i) - a) with (k + Z.of_nat i) by lia. destruct (lookup_lt_is_Some_2 d (Z.to_nat (k + Z.of_nat i))) as [b Hb]; [unfold zlen in Hlen; lia|].
    rewrite (nth_lookup_Some _ _ _ _ Hb). rewrite <- Hb. f_equal. lia.
  - rewrite lookup_seqZ_ge by lia. rewrite sub_bytes_lookup_ge by lia. done.
Qed.

(** The reverse handle of a message that was just written. *)
Lemma rd32_rhandle m ptr mm : 0 <= m_rhandle m < 4294967296 -> rd32 (mem_write ptr (ser_msg m) mm) (ptr + 12) = m_rhandle m.
Proof.
  intros Hr. unfold rd32. rewrite mem_read_write; [|lia|lia|rewrite zlen_ser_msg; unfold MSG_SIZE; lia].
  change (sub_bytes 12 4 (ser_msg m)) with (le_bytes 4 (m_rhandle m)).
  apply le_val_le_bytes. change (256 ^ Z.of_nat 4) with 4294967296. done.
Qed.

Section serve.
Context {R : spm_rom} {memory_check : Z -> Z -> Z -> Z -> bool} (Hrom : rom_ok R) (bnd : Z -> Z).
Implicit Types (s : spm_t) (fl : list Z) (q : Z -> list Z) (c p : Z) (X W : Z -> Prop) (x : connection_t).

Abbreviation PL := (partition_listhead R).
Abbreviation inv := (inv R memory_check bnd).
Abbreviation live := (live R).
Abbreviation outstanding := (outstanding R).
Abbreviation moved := (moved (R := R) (memory_check := memory_check) bnd).
Abbreviation allowed := (allowed (R := R) (memory_check := memory_check) bnd).
Abbreviation does := (does (R := R) (memory_check := memory_check) bnd).
Abbreviation panics := (fun (e : psa_status_t) (_ : spm_t) => e = PANIC).

Lemma unlisted_removed s fl q p ys c zs : inv s fl q -> p ∈ PL -> q p = ys ++ c :: zs -> unlisted (R := R) (<[p := ys ++ zs]> q) c.
Proof.
  intros Hi Hp Hq p' Hp'. pose proof (i_lists _ _ _ _ _ _ Hi) as Hl. assert (c ∈ q p) as Hc by (rewrite Hq; apply elem_of_app; right; left).
  destruct (decide (p' = p)) as [->|Hne].
  - rewrite fn_lookup_insert. pose proof (l_nodup _ _ _ _ Hl p Hp) as Hnd. rewrite Hq in Hnd.
    rewrite <- (Permutation_middle ys zs c) in Hnd. by apply NoDup_cons in Hnd as [? _].
  - rewrite fn_lookup_insert_ne by done. intros Hin. by apply Hne, (l_disj _ _ _ _ Hl p' p c).
Qed.

(** A message is written where the platform lets the running partition write. *)
Lemma mv_message W s fl s1 q1 ptr (m : psa_msg_t) :
  moved W nothing s fl s1 fl q1 -> (forall a, ptr <= a < ptr + MSG_SIZE -> W a) ->
  moved W nothing s fl (put_mem (mem_write ptr (ser_msg m) (mem s1)) s1) fl q1.
Proof.
  intros Hm Hw. eapply mv_then; [exact Hm|]. intros Hi. apply mv_mem_write; [done| |].
  - apply mem_write_bytes; [apply ser_msg_bytes|apply (i_mem _ _ _ _ _ _ Hi)].
  - intros a Ha. apply mem_write_other. rewrite zlen_ser_msg. intros Hr. by apply Ha, Hw.
Qed.

Lemma wp_get_message s fl q signal ptr :
  inv s fl q -> running s -> ~ mailbox R (current s) -> wp (tfm_spm_partition_psa_get R memory_check signal ptr) (fun _ => does s fl) panics s.
Proof.
  intros Hi Hr Hm. unfold tfm_spm_partition_psa_get. apply wp_bind, wp_require; [intros Hbit%only_one_bit|done]. apply wp_get. cbv zeta.
  apply wp_bind, wp_require; [intros Hck|done]. apply wp_bind, wp_require; [intros _|done].
  apply wp_bind, wp_require; [intros Has%negb_true_iff%Z.eqb_neq|done]. pose proof (i_cur _ _ _ _ _ _ Hi) as Hp.
  assert (signal <> ASYNC_MSG_REPLY) as Hne by (intros ->; exact (running_not_asserted bnd s fl q Hi Hr Hm Has)).
  rewrite (proj2 (Z.eqb_neq _ _) Hne). apply wp_bind, wp_bind. apply (wp_get_handle_by_signal (memory_check := memory_check) Hrom bnd s fl q); [done..| |].
  - intros _. cbn [Z.eqb negb]. apply wp_ret, wp_ret. by eapply does_nothing.
  - intros ys c zs ps a Hq Hc Hz Hps Hpp s' Hi'. assert (c <> 0) as Hc0.
    { apply (conn_pos Hrom), (l_live _ _ _ _ (i_lists _ _ _ _ _ _ Hi) _ c Hp). rewrite Hq. apply elem_of_app. right. left. }
    rewrite (proj2 (Z.eqb_neq _ _) Hc0). cbn [negb]. apply wp_ret. cbv iota beta. apply wp_bind, wp_modify, wp_ret.
    exists fl, (<[current s := ys ++ zs]> q). apply mv_message.
    + by eapply mv_dequeue.
    + intros x Hx. eapply (allowed_mine bnd s ptr MSG_SIZE); [|exact Hx]. exists TFM_HAL_ACCESS_READWRITE. split; [by left|].
      rewrite <- (i_bnd _ _ _ _ _ _ Hi). exact Hck.
Qed.

(** *** Replies for agents *)

Lemma matches_all (xs : list Z) : matches (fun _ => true) xs = xs.
Proof. induction xs as [|x xs IH]; [done|]. cbn. by f_equal. Qed.

(** The agent of a mailbox takes the first reply. *)
Lemma wp_collect s fl q ptr :
  inv s fl q -> mailbox R (current s) -> wp (tfm_rpc_client_call_reply R memory_check ptr) (fun _ => does s fl) panics s.
Proof.
  intros Hi Hm. unfold tfm_rpc_client_call_reply, tfm_spm_partition_psa_get. apply wp_bind, wp_bind, wp_require; [intros _|done]. apply wp_get. cbv zeta.
  apply wp_bind, wp_require; [intros Hck|done]. do 2 (apply wp_bind, wp_require; [intros _|done]). rewrite Z.eqb_refl.
  pose proof (i_cur _ _ _ _ _ _ Hi) as Hp. set (p := current s) in *. pose proof (l_chain _ _ _ _ (i_lists _ _ _ _ _ _ Hi) p Hp) as Hch.
  apply wp_bind, wp_bind. unfold get_first_reply. apply wp_get. apply wp_bind, wp_require; [intros Hne|done].
  rewrite (chain_empty _ _ _ Hch) in Hne. rewrite (foreach_chain _ _ _ _ _ _ Hch (queue_bounded _ _ _ _ p Hi Hp)).
  pose proof (last_found_spec (fun _ => true) p (q p) None 0) as Hf. destruct (chain_fold _ _ _ _) as [prev n].
  destruct Hf as [_ [[Hno _]|(ys & c & zs & Hq & _ & Hz & ->)]]; [rewrite matches_all in Hno; by rewrite Hno in Hne|].
  rewrite matches_all in Hz. subst zs. cbn [default from_option id]. pose proof Hch as Hat. rewrite Hq in Hat. apply chain_at in Hat. rewrite Hat.
  assert (c ∈ q p) as Hcq by (rewrite Hq; apply elem_of_app; right; left).
  pose proof (l_live _ _ _ _ (i_lists _ _ _ _ _ _ Hi) p c Hp Hcq) as Hlive. pose proof (live_range Hrom c (proj1 Hlive)) as Hcr.
  destruct (i_queued _ _ _ _ _ _ Hi p c Hp Hcq) as [Hst Hqd]. rewrite decide_True in Hqd by done. destruct Hqd as (Hcl & Hrpc & Hrh).
  set (s1 := put_handles (UNI_LIST_REMOVE_NODE_BY_PNODE (before p ys) (p_handles s)) s).
  set (a := if bool_decide (ys = []) then Z.ldiff (signals_asserted (parts s p)) ASYNC_MSG_REPLY else signals_asserted (parts s p)).
  assert (forall ps, (forall p', p' <> p -> ps p' = parts s p') -> ps p = set_asserted a (parts s p) -> inv (put_parts ps s1) fl (<[p := ys ++ []]> q)) as Hdq.
  { intros ps Hps Hpp. eapply inv_dequeue; [done|exact Hi|exact Hp|exact Hq|exact Hps|exact Hpp| | |done].
    - intros v Hv Hpv. by destruct (no_mailbox_service Hrom v Hv); rewrite Hpv.
    - intros _. rewrite app_nil_r. unfold a. case_bool_decide as Hys; [rewrite Hys, land_ldiff_same by apply async_bit; done|].
      split; [done|]. intros _. apply (i_reply _ _ _ _ _ _ Hi p Hp Hm). rewrite Hq. by destruct ys. }
  assert (forall ps (v : psa_status_t), (forall p', p' <> p -> ps p' = parts s p') -> ps p = set_asserted a (parts s p) ->
    wp (let* s := get in
        let c := rd32 (mem s) (ptr + 12) in
        let data := client_data (conns s c) in
        let* _ := if c_status (conns s c) =? TFM_HANDLE_STATUS_TO_FREE then spm_free_connection R c else modify (upd_conn c (set_status TFM_HANDLE_STATUS_IDLE)) in
        ret (data, v)) (fun _ => does s fl) panics (put_mem (mem_write ptr (ser_msg (msg (conns s c))) (mem s)) (put_parts ps s1))) as Htail.
  { intros ps v Hps Hpp. specialize (Hdq ps Hps Hpp). apply wp_get. cbv zeta. cbn [mem put_mem]. rewrite rd32_rhandle by (rewrite Hrh; lia). rewrite Hrh.
    set (s2 := put_mem _ _). change (conns s2) with (conns s).
    assert (moved (allowed s) nothing s fl s2 fl (<[p := ys ++ []]> q)) as Hm2.
    { apply (mv_message (allowed s) s fl (put_parts ps s1)); [by eapply mv_dequeue|]. intros x Hx. eapply (allowed_mine bnd s ptr MSG_SIZE); [|exact Hx].
      exists TFM_HAL_ACCESS_READWRITE. split; [by left|]. rewrite <- (i_bnd _ _ _ _ _ _ Hi). exact Hck. }
    assert (unlisted (R := R) (<[p := ys ++ []]> q) c) as Hun by (by apply (unlisted_removed s fl)).
    assert (outstanding s2 fl c -> nothing c) as Hno by (intros (_ & _ & Hr'); by destruct Hr').
    apply wp_bind. destruct (_ =? TFM_HANDLE_STATUS_TO_FREE); apply wp_modify, wp_ret.
    - exists (c :: fl). eexists. eapply mv_then; [exact Hm2|]. intros Hi2. by apply (mv_free Hrom).
    - exists fl. eexists. eapply mv_then; [exact Hm2|]. intros Hi2. by apply mv_retire. }
  apply wp_bind, wp_modify, wp_ret. apply wp_get. fold s1.
  assert ((p_handles s1 p =? 0) = bool_decide (ys = [])) as ->.
  { assert (inv (put_parts (alter (set_asserted a) p (parts s)) s1) fl (<[p := ys ++ []]> q)) as Hi1.
    { apply Hdq; [intros p' Hp'; by apply fn_lookup_alter_ne|by rewrite fn_lookup_alter]. }
    pose proof (l_chain _ _ _ _ (i_lists _ _ _ _ _ _ Hi1) p Hp) as Hch1. rewrite fn_lookup_insert, app_nil_r in Hch1. change (p_handles (put_parts _ s1)) with (p_handles s1) in Hch1.
    rewrite (chain_empty _ _ _ Hch1). by destruct ys. }
  case_bool_decide as Hys.
  - apply wp_bind, wp_modify, wp_ret. cbv iota beta. apply wp_bind, wp_modify, wp_ret. apply (Htail (alter _ p (parts s))).
    + intros p' Hp'. by apply fn_lookup_alter_ne.
    + rewrite fn_lookup_alter. done.
  - apply wp_bind, wp_ret, wp_ret. cbv iota beta. apply wp_bind, wp_modify, wp_ret. apply (Htail (parts s)); [done|]. by destruct (parts s p).
Qed.
End serve.

(** * The partition manager: services answer ([tfm_spm_partition_psa_reply]) *)

Section answer.
Context {R : spm_rom} {memory_check : Z -> Z -> Z -> Z -> bool} (Hrom : rom_ok R) (bnd : Z -> Z).
Implicit Types (s : spm_t) (fl : list Z) (q : Z -> list Z) (c p : Z) (X W : Z -> Prop) (x : connection_t).

Abbreviation PL := (partition_listhead R).
Abbreviation inv := (inv R memory_check bnd).
Abbreviation live := (live R).
Abbreviation conn_ok := (conn_ok R memory_check bnd).
Abbreviation outstanding := (outstanding R).
Abbreviation moved := (moved (R := R) (memory_check := memory_check) bnd).
Abbreviation allowed := (allowed (R := R) (memory_check := memory_check) bnd).
Abbreviation panics := (fun (e : psa_status_t) (_ : spm_t) => e = PANIC).

(** The value that the client's call returns. *)
Definition answer_value (type msg_handle : Z) (status : psa_status_t) : psa_status_t :=
  if type =? PSA_IPC_CONNECT then if status =? PSA_SUCCESS then msg_handle else status
  else if type =? PSA_IPC_DISCONNECT then PSA_SUCCESS
  else status.

(** The connection of a message that is answered, up to what it is for. *)
Record answering s c s' : Prop := {
  an_key : same_key (conns s' c) (conns s c);
  an_list : p_handles s' = p_handles s;
  an_pool : pool s' = pool s;
}.

Lemma conn_ok_forget x : conn_ok x -> conn_ok (forget_mapped x).
Proof.
  intros [? ? ? ? ? ? Hout ?]. split; try done. intros i Hi Hne. destruct (Hout i Hi Hne) as (? & ? & ?).
  cbn [forget_mapped set_outvec outvec_written msg outvec_base]. case_match; [|done]. split_and!; [lia|lia|done|done].
Qed.

Lemma conn_ok_to_free x : c_status x <> TFM_HANDLE_STATUS_IDLE -> conn_ok x -> conn_ok (set_status TFM_HANDLE_STATUS_TO_FREE x).
Proof. intros Hst [? ? ? ? ? ? ? Hc]. split; try done. intros _. exact (Hc Hst). Qed.

(** The lengths of the output vectors are stored in the caller's array. *)
Lemma update_loop_ok W x n i m :
  0 <= i -> i + Z.of_nat n <= PSA_MAX_IOVEC -> (forall a, 0 <= m a < 256) ->
  (forall j, index j -> out_size (msg x) j <> 0 -> forall a, caller_outvec x + IOVEC_SIZE * j <= a < caller_outvec x + IOVEC_SIZE * (j + 1) -> W a) ->
  (forall a, 0 <= update_outvec_loop x n i m a < 256) /\ forall a, ~ W a -> update_outvec_loop x n i m a = m a.
Proof.
  revert i m. induction n as [|n IH]; intros i m Hi Hn Hm HW; cbn [update_outvec_loop]; [done|].
  destruct (Z.eqb_spec (out_size (msg x) i) 0) as [Hz|Hz]; [apply IH; [lia|lia|done|done]|].
  set (m' := mem_write _ _ m). assert (forall a, 0 <= m' a < 256) as Hm' by (apply mem_write_bytes; [apply le_bytes_is_byte|done]).
  destruct (IH (i + 1) m') as [Hb Hw]; [lia|lia|done|done|]. split; [done|]. intros a Ha. rewrite Hw by done.
  apply mem_write_other. rewrite zlen_le_bytes. intros Hr. apply Ha, (HW i); [unfold index, PSA_MAX_IOVEC in *; lia|done|unfold IOVEC_SIZE in *; lia].
Qed.

Lemma mv_to_free W s fl s1 q c :
  moved W nothing s fl s1 fl q -> c_status (conns s1 c) <> TFM_HANDLE_STATUS_IDLE -> moved W nothing s fl (upd_conn c (set_status TFM_HANDLE_STATUS_TO_FREE) s1) fl q.
Proof.
  intros Hm Hst. eapply mv_then; [exact Hm|]. intros Hi. apply mv_conn; [done|done| |by left|].
  - intros _ _. split_and!; [|done..]. cbn. split; [done|]. intros Heq. by rewrite Heq in Hst.
  - intros _. by apply conn_ok_to_free.
Qed.

Lemma wp_reply_result s fl q c h status :
  inv s fl q -> live fl c -> owner R s c = current s -> c_status (conns s c) <> TFM_HANDLE_STATUS_IDLE ->
  wp (reply_result R c h status)
    (fun r s' => moved (allowed s) nothing s fl s' fl q /\ answering s c s' /\ r = answer_value (m_type (msg (conns s c))) h status) panics s.
Proof.
  intros Hi Hc Ho Hst. pose proof (mv_refl bnd (allowed s) nothing s fl q Hi) as H0.
  assert (answering s c s) as A0 by done.
  assert (forall s1, moved (allowed s) nothing s fl s1 fl q -> answering s c s1 -> c_status (conns s1 c) <> TFM_HANDLE_STATUS_IDLE ->
    let s2 := upd_conn c (set_status TFM_HANDLE_STATUS_TO_FREE) s1 in moved (allowed s) nothing s fl s2 fl q /\ answering s c s2) as Hfree.
  { intros s1 Hm1 [K1 K2 K3] Hst1 s2. split; [by apply mv_to_free|]. split; [|done|done]. unfold s2. rewrite conns_upd, decide_True by done.
    destruct K1 as (Ka & Kb). split; [|done]. cbn. split; [done|]. intros Heq. by rewrite Heq in Hst. }
  unfold reply_result. apply wp_get. cbv zeta. unfold answer_value. destruct (Z.eqb_spec (m_type (msg (conns s c))) PSA_IPC_CONNECT).
  { destruct (Z.eqb_spec status PSA_SUCCESS); [by apply wp_ret|]. destruct (Z.eqb_spec status PSA_ERROR_CONNECTION_REFUSED) as [->|].
    { apply wp_bind, wp_modify, wp_ret. destruct (Hfree s H0 A0 Hst). by split_and!. }
    destruct (Z.eqb_spec status PSA_ERROR_CONNECTION_BUSY) as [->|]; [by apply wp_ret|by apply wp_fail]. }
  destruct (Z.eqb_spec (m_type (msg (conns s c))) PSA_IPC_DISCONNECT).
  { apply wp_bind, wp_modify, wp_ret. destruct (Hfree s H0 A0 Hst). by split_and!. }
  destruct (Z.geb_spec (m_type (msg (conns s c))) PSA_IPC_CALL) as [Hty|]; [|by apply wp_fail].
  apply wp_bind, wp_modify, wp_bind, wp_modify. set (s1 := upd_conn c forget_mapped s). set (s2 := put_mem _ _).
  assert (conns s1 c = forget_mapped (conns s c)) as Hx by (unfold s1; by rewrite conns_upd, decide_True).
  assert (moved (allowed s) nothing s fl s1 fl q) as M1.
  { eapply (mv_then_conn Hrom); [exact H0|done|]. apply conn_ok_forget. }
  assert (moved (allowed s) nothing s fl s2 fl q) as M2.
  { destruct (update_loop_ok (allowed s) (conns s1 c) 4 0 (mem s1)) as [Hb Hw]; [lia|done|apply (i_mem _ _ _ _ _ _ Hi)| |].
    - rewrite Hx. cbn [forget_mapped set_outvec msg caller_outvec]. intros j Hj Hne a Ha.
      destruct (co_caller _ _ _ _ (i_conn _ _ _ _ _ _ Hi c Hc) Hst Hty j Hj Hne) as (k & Hk & Hmw).
      eapply (allowed_client Hrom bnd s fl q c); [done|done|done|exact Hmw|]. unfold IOVEC_SIZE, index in *. nia.
    - eapply mv_then; [exact M1|]. intros Hi1. apply mv_mem_write; [exact Hi1|exact Hb|exact Hw]. }
  assert (answering s c s2) as A2 by (split; [change (conns s2 c) with (conns s1 c); by rewrite Hx|done|done]).
  assert (c_status (conns s2 c) <> TFM_HANDLE_STATUS_IDLE) as Hst2 by (change (conns s2 c) with (conns s1 c); by rewrite Hx).
  apply wp_bind. destruct (SERVICE_IS_STATELESS _); [apply wp_modify|apply wp_ret]; apply wp_ret; [|done].
  destruct (Hfree s2 M2 A2 Hst2). by split_and!.
Qed.
(** The client is told, once the request is over. *)
Lemma mv_tell s0 fl0 s fl s1 fl1 q c v :
  inv s fl q -> outstanding s fl c -> moved (allowed s0) (eq c) s0 fl0 s1 fl1 q ->
  (forall d, outstanding s1 fl1 d -> outstanding s fl d /\ d <> c /\ p_client (conns s1 d) = p_client (conns s d)) ->
  let p := p_client (conns s c) in
  (forall p, parts s1 p = parts s p) -> let s2 := upd_part p (raise ASYNC_MSG_REPLY) (upd_part p (set_reply_value v) s1) in
  moved (allowed s0) (eq c) s0 fl0 s2 fl1 q /\ due s2 p v.
Proof.
  intros Hi Ho Hm Hd p Hp s2. destruct (i_calls _ _ _ _ _ _ Hi c Ho) as [Hw Ha]. fold p in Hw, Ha.
  assert (p ∈ PL) as Hpl by apply (co_client _ _ _ _ (i_conn _ _ _ _ _ _ Hi c (proj1 Ho))).
  split; [|apply due_answer]. eapply mv_trans; [exact Hm|]. apply (mv_answer Hrom); [apply Hm|done| | | |].
  - apply (outstanding_not_mailbox (memory_check := memory_check) Hrom bnd s fl q c Hi Ho).
  - unfold waiting in *. by rewrite Hp.
  - intros d Hd' Heq. destruct (Hd d Hd') as (Hdo & Hne & Hcl). apply Hne. apply (i_one _ _ _ _ _ _ Hi d c Hdo Ho). by rewrite <- Hcl.
  - unfold asserted in *. by rewrite Hp.
Qed.

(** What an answer does: the client of a direct call has it. *)
Definition replied s fl (h : Z) (status : psa_status_t) (s' : spm_t) : Prop :=
  let c := handle_to_connection R h in
  exists fl' q', moved (allowed s) (eq c) s fl s' fl' q' /\
    (~ rpc s c -> due s' (p_client (conns s c)) (answer_value (m_type (msg (conns s c))) h status)).

Lemma wp_reply s fl q h status :
  inv s fl q -> delivered (R := R) s q (handle_to_connection R h) ->
  wp (tfm_spm_partition_psa_reply R h status) (fun _ => replied s fl h status) panics s.
Proof.
  intros Hi [Hst Hun]. unfold tfm_spm_partition_psa_reply. apply wp_bind. eapply (wp_msg_connection Hrom); [exact Hi| |done]. intros c Hh Hc Ho.
  unfold replied. rewrite <- Hh in Hst, Hun |- *. apply wp_get. apply wp_bind, wp_require; [intros _|done].
  apply wp_bind. eapply wp_mono; [apply (wp_reply_result s fl q c h status Hi Hc Ho Hst)| |done].
  intros r s2 (M2 & [K2 L2 P2] & Hr). apply wp_bind, wp_require; [intros _|done]. rewrite <- Hr. clear Hr.
  pose proof (mv_inv _ _ _ _ _ _ _ _ M2) as Hi2. pose proof (key_rpc s s2 c K2) as Hrpc.
  assert (c_status (conns s2 c) <> TFM_HANDLE_STATUS_IDLE) as Hst2 by (destruct K2 as [Ka _]; by rewrite Ka).
  assert (p_client (conns s2 c) = p_client (conns s c)) as Hcl by apply K2. rewrite <- Hcl. unfold rpc. rewrite <- Hrpc.
  assert (moved (allowed s) (eq c) s fl s2 fl q) as M2' by (eapply mv_weaken; [|exact M2]; done).
  unfold backend_replying. apply wp_bind, wp_get. cbv zeta. destruct (tfm_spm_is_rpc_msg s2 c) eqn:Hrp.
  - apply wp_bind, wp_modify, wp_bind, wp_modify. apply wp_assert_signal; [|done]. intros r' _. apply wp_get.
    set (s3 := upd_part _ _ _). assert (tfm_spm_is_rpc_msg s3 c = true) as ->.
    { rewrite <- Hrp. unfold tfm_spm_is_rpc_msg, s3. cbn [conns upd_part put_parts put_handles]. by rewrite conns_upd, decide_True. }
    apply wp_ret. exists fl. eexists. split; [|done]. eapply mv_trans; [exact M2'|]. by apply (mv_enqueue_reply Hrom bnd (allowed s) (eq c) s2 fl q c r).
  - assert (~ rpc s2 c) as Hnr by (unfold rpc; by rewrite Hrp). assert (outstanding s2 fl c) as Hout by done.
    apply wp_bind, wp_modify. apply wp_assert_signal; [|done]. intros r' _. apply wp_get.
    set (s3 := upd_part _ _ _). change (tfm_spm_is_rpc_msg s3 c) with (tfm_spm_is_rpc_msg s2 c). rewrite Hrp. change (conns s3 c) with (conns s2 c).
    apply wp_bind. destruct (_ =? TFM_HANDLE_STATUS_TO_FREE); apply wp_modify, wp_ret.
    + destruct (mv_tell s fl s2 fl (put_pool (tfm_pool_free (connection_pool R) c (pool s2)) s2) (c :: fl) q c r Hi2 Hout) as [M3 D3]; [| |done|].
      * eapply mv_trans; [exact M2'|]. by apply (mv_free Hrom).
      * intros d ([Hd Hne]%live_cons & Hd'). by split_and!.
      * exists (c :: fl), q. by split.
    + destruct (mv_tell s fl s2 fl (upd_conn c (set_status TFM_HANDLE_STATUS_IDLE) s2) fl q c r Hi2 Hout) as [M3 D3]; [| |done|].
      * eapply mv_trans; [exact M2'|]. by apply mv_retire.
      * intros d (Hd & Hd1 & Hd2). unfold SpmInv.outstanding, rpc, tfm_spm_is_rpc_msg in *. rewrite conns_upd in *. destruct (decide (c = d)) as [->|Hne]; [done|]. by split_and!.
      * exists fl, q. by split.
Qed.
End answer.
