(* ===== verification/SpmRun.v ===== *)
(** * The partition manager: steps of a system that keeps to the protocol *)

From S2P Require Import Prelude Bytes SpmLists SpmTypes SpmIpc SpmApi SpmSystem SpmInv SpmRules SpmQueues SpmSend SpmVectors SpmSchedule SpmCalls SpmClient SpmRequests SpmServe.
From stdpp Require Import base list numbers functions sets.
From Stdlib Require Import ZArith Lia.

Open Scope Z_scope.
Open Scope tfm_scope.

(** ** The protocol

    What callers of the API are relied on for.  Clients: agents of mailboxes
    use the calls for agents, with identifiers of their own; a call on an open
    connection comes with vectors, unless no output vector is left from an
    earlier call.  Services: they answer messages which they got and have not
    answered, and read, skip and write vectors that are not empty.  Everything
    else, wrong handles and pointers included, is up to the SPM.

    This is less than the code and its documentation allow: reading or skipping
    an empty vector, which returns 0, and a call without vectors on an open
    connection are fine for a caller, but after an earlier use of the
    connection the code then works on what that left behind (the findings on
    [psa_read_write_skip_api.c] and [psa_call_api.c]). *)
Section protocol.
Context (R : spm_rom).

(** The messages in the list of a partition. *)
Definition msgs (s : spm_t) (p : Z) : list Z :=
  UNI_LIST_FOREACH_NODE_PNODE (S (CONN_HANDLE_MAX_NUM R)) (fun _ c acc => acc ++ [c]) (p_handles s) p [].

Definition in_hand (s : spm_t) (h : Z) : bool :=
  let c := handle_to_connection R h in
  (spm_msg_handle_to_connection R h s =? 0) ||
  negb (c_status (conns s c) =? TFM_HANDLE_STATUS_IDLE) && negb (existsb (fun p => existsb (Z.eqb c) (msgs s p)) (partition_listhead R)).

Definition own_id (s : spm_t) (id : Z) : bool :=
  (client_id_base (ldinf R (current s)) <=? id) && (id <=? client_id_limit (ldinf R (current s))).

Definition is_mailbox (s : spm_t) : bool := IS_NS_AGENT_MAILBOX (pflags (ldinf R (current s))).

Definition no_leftovers (s : spm_t) (h ctrl : Z) : bool :=
  PARAM_HAS_IOVEC ctrl || IS_STATIC_HANDLE h ||
  forallb (fun i => out_size (msg (conns s (handle_to_connection R h))) i =? 0) (seqZ 0 PSA_MAX_IOVEC).

Definition has_input (s : spm_t) (h i : Z) : bool := negb (in_size (msg (conns s (handle_to_connection R h))) i =? 0).
Definition has_output (s : spm_t) (h i : Z) : bool := negb (out_size (msg (conns s (handle_to_connection R h))) i =? 0).

Definition polite (s : spm_t) (e : event) : bool :=
  match e with
  | PsaCall h ctrl _ _ => negb (is_mailbox s) && no_leftovers s h ctrl
  | PsaConnect _ _ | PsaClose _ | PsaGet _ _ => negb (is_mailbox s)
  | AgentCall h ctrl params d => is_mailbox s && negb (d =? 0) && own_id s (to_s32 (rd32 (mem s) params)) && no_leftovers s h ctrl
  | AgentConnect _ _ id d => is_mailbox s && negb (d =? 0) && own_id s id
  | AgentClose _ id => is_mailbox s && own_id s id
  | AgentCollect _ => is_mailbox s
  | PsaSetRhandle h _ | PsaReply h _ => in_hand s h
  | PsaRead h i _ n | PsaSkip h i n => (0 <=? i) && (0 <=? n) && (negb (is_index i) || has_input s h i)
  | PsaWrite h i _ n => (0 <=? i) && (0 <=? n) && (negb (is_index i) || has_output s h i)
  | PsaMapInvec _ i | PsaUnmapInvec _ i | PsaMapOutvec _ i => 0 <=? i
  | PsaUnmapOutvec _ i len => (0 <=? i) && (0 <=? len)
  | Interrupt p i _ => existsb (Z.eqb p) (partition_listhead R) && existsb (fun j => irq_signal j =? irq_signal i) (irqs (ldinf R p))
  | UserWrite _ d => forallb (fun b => (0 <=? b) && (b <? 256)) d
  | PsaVersion _ | PsaWait _ _ | PsaNotify _ | PsaClear | PsaIrqEnable _ | PsaIrqDisable _ | PsaResetSignal _ | PsaEoi _ | Reschedule | NsClient _ => true
  end.
End protocol.

Section run.
Context {R : spm_rom} {memory_check : Z -> Z -> Z -> Z -> bool} (Hrom : rom_ok R) (bnd : Z -> Z).
Implicit Types (s : spm_t) (fl : list Z) (q : Z -> list Z) (c p : Z) (e : event).

Abbreviation PL := (partition_listhead R).
Abbreviation inv := (inv R memory_check bnd).
Abbreviation live := (live R).
Abbreviation outstanding := (outstanding R).
Abbreviation moved := (moved (R := R) (memory_check := memory_check) bnd).
Abbreviation allowed := (allowed (R := R) (memory_check := memory_check) bnd).
Abbreviation does := (does (R := R) (memory_check := memory_check) bnd).
Abbreviation did := (did (R := R) (memory_check := memory_check) bnd).
Abbreviation asked W := (asked (R := R) (memory_check := memory_check) bnd W).
Abbreviation rescheduled := (rescheduled (R := R) (memory_check := memory_check) bnd).
Abbreviation panics := (fun (e : psa_status_t) (_ : spm_t) => e = PANIC).

(** ** What the protocol means for the invariant *)

Lemma fold_nodes xs h acc : chain_fold (fun _ (c : Z) acc => acc ++ [c]) h xs acc = acc ++ xs.
Proof. revert h acc. induction xs as [|x xs IH]; intros h acc; cbn; [by rewrite app_nil_r|]. rewrite IH. by rewrite <- app_assoc. Qed.

Lemma msgs_eq s fl q p : inv s fl q -> p ∈ PL -> msgs R s p = q p.
Proof.
  intros Hi Hp. unfold msgs. rewrite (foreach_chain _ _ _ _ _ _ (l_chain _ _ _ _ (i_lists _ _ _ _ _ _ Hi) p Hp) (queue_bounded _ _ _ _ p Hi Hp)).
  by rewrite fold_nodes.
Qed.

Lemma in_hand_delivered s fl q h :
  inv s fl q -> in_hand R s h = true -> spm_msg_handle_to_connection R h s = 0 \/ delivered (R := R) s q (handle_to_connection R h).
Proof.
  intros Hi. unfold in_hand. rewrite orb_true_iff, Z.eqb_eq, andb_true_iff, !negb_true_iff, Z.eqb_neq. intros [?|[Hst Hun]]; [by left|right].
  split; [done|]. intros p Hp Hin. rewrite <- (msgs_eq s fl q p Hi Hp) in Hin. apply not_true_iff_false in Hun. apply Hun, existsb_exists.
  exists p. split; [by apply list_elem_of_In|]. apply existsb_exists. exists (handle_to_connection R h). split; [by apply list_elem_of_In|apply Z.eqb_refl].
Qed.

(** A handle that is none of a message panics. *)
Lemma wp_bad_handle {A} s h (k : Z -> SPM A) (Q : A -> spm_t -> Prop) : spm_msg_handle_to_connection R h s = 0 -> wp (let* c := msg_connection R h in k c) Q panics s.
Proof. intros Hz. apply wp_bind. unfold msg_connection. apply wp_get. rewrite Hz. cbn [Z.eqb negb]. apply wp_bind, wp_require; done. Qed.

Lemma is_mailbox_iff s : is_mailbox R s = true <-> mailbox R (current s).
Proof. done. Qed.

Lemma own_id_ok s id : is_mailbox R s = true -> own_id R s id = true -> client_ok R (current s) id.
Proof.
  unfold own_id. rewrite andb_true_iff, !Z.leb_le. intros Hm Hid. unfold client_ok. rewrite decide_True by (by apply mailbox_agent). done.
Qed.

Lemma no_leftovers_ok s h ctrl : no_leftovers R s h ctrl = true ->
  PARAM_HAS_IOVEC ctrl = true \/ IS_STATIC_HANDLE h = true \/ out_below 0 (conns s (handle_to_connection R h)).
Proof.
  unfold no_leftovers. rewrite !orb_true_iff, forallb_forall. intros [[?|?]|Hall]; [by left|by right; left|right; right].
  intros i Hi Hne. destruct Hne. apply Z.eqb_eq, Hall, list_elem_of_In, elem_of_seqZ. unfold index in Hi. lia.
Qed.

Lemma good_handle s fl q h :
  inv s fl q -> spm_msg_handle_to_connection R h s <> 0 -> live fl (handle_to_connection R h) /\ owner R s (handle_to_connection R h) = current s.
Proof.
  unfold spm_msg_handle_to_connection. cbv zeta. intros Hi Hne. set (c := handle_to_connection R h) in *.
  destruct (spm_validate_connection R c s) eqn:Hv; [|done]. apply (validate_live (memory_check := memory_check) Hrom bnd s fl q) in Hv; [|done|apply handle_range]. split; [done|].
  cbn [negb] in Hne. destruct (Z.eqb_spec (tfm_spm_partition_get_running_partition_id R s) (pid (ldinf R (s_partition (service_of R s c))))) as [Hp|Hp]; [|done].
  symmetry. apply (ro_pids _ Hrom); [apply Hi|apply (owner_part Hrom bnd s fl q c Hi Hv)|exact Hp].
Qed.

(** ** One call *)

Definition writes e : bool := match e with UserWrite _ _ => true | _ => false end.

Definition is_request e : bool := match e with PsaCall _ _ _ _ | PsaConnect _ _ | PsaClose _ => true | _ => false end.

Definition is_reply e : bool := match e with PsaReply _ _ => true | _ => false end.

(** What is left open about a step: the caller, and the message it answers. *)
Definition touched s e : Z -> Prop :=
  fun x => x = current s \/ match e with PsaReply h _ => x = handle_to_connection R h | _ => False end.

(** The caller waits for the answer to a request. *)
Definition waits s s' fl' : Prop := exists c, outstanding s' fl' c /\ p_client (conns s' c) = current s.

(** The request that [e] answers, and the value its client gets. *)
Definition answers s fl e c (v : Z) : Prop :=
  match e with
  | PsaReply h status => c = handle_to_connection R h /\ outstanding s fl c /\ v = answer_value (m_type (msg (conns s c))) h status
  | _ => False
  end.

(** What a call does before the scheduler may run. *)
Record called e s fl (r : Z) (s' : spm_t) fl' q' : Prop := {
  ca_moved : moved (if writes e then fun _ => True else allowed s) (touched s e) s fl s' fl' q';
  ca_next : running s' \/ to_s32 r = STATUS_NEED_SCHEDULE;
  ca_asked : is_request e = true -> running s' \/ waits s s' fl';
  ca_reply : forall c v, answers s fl e c v -> due s' (p_client (conns s c)) v;
}.

Definition calls e s fl (r : Z) s' : Prop := exists fl' q', called e s fl r s' fl' q'.

Lemma calls_did e s fl r s' : writes e = false -> is_request e = false -> is_reply e = false -> did s fl r s' -> calls e s fl r s'.
Proof.
  intros Hw Hq Hr (fl' & q' & Hm & Hg). exists fl', q'. split; [|done|by rewrite Hq|].
  - rewrite Hw. eapply mv_weaken; [|exact Hm]. intros x <-. by left.
  - intros c v. by destruct e.
Qed.

Lemma calls_does e s fl r s' : running s -> writes e = false -> is_request e = false -> is_reply e = false -> does s fl s' -> calls e s fl r s'.
Proof. intros Hrun Hw Hq Hr Hd. apply calls_did; [done|done|done|]. by apply does_did. Qed.

Lemma calls_asked e s fl r s' : writes e = false -> is_reply e = false -> asked (allowed s) s fl r s' -> calls e s fl r s'.
Proof.
  intros Hw Hr (fl' & q' & Hm & Hg). exists fl', q'. split.
  - rewrite Hw. eapply mv_weaken; [|exact Hm]. intros x <-. by left.
  - destruct Hg as [?|[-> _]]; [by left|by right].
  - intros _. destruct Hg as [?|[_ ?]]; [by left|by right].
  - intros c v. by destruct e.
Qed.

Lemma calls_asked_version v s fl r s' : running s -> asked (allowed s) s fl 0 s' -> calls (PsaVersion v) s fl r s'.
Proof.
  intros Hrun (fl' & q' & Hm & Hg). apply calls_did; [done|done|done|]. exists fl', q'. split; [done|]. left. by destruct Hg as [?|[? _]].
Qed.

Lemma calls_replied s fl q h status r s' :
  inv s fl q -> running s -> live fl (handle_to_connection R h) ->
  replied (R := R) (memory_check := memory_check) bnd s fl h status s' -> calls (PsaReply h status) s fl r s'.
Proof.
  intros Hi Hrun Hc (fl' & q' & Hm & Hd). exists fl', q'. split; [| |done|].
  - eapply mv_weaken; [|exact Hm]. intros x <-. by right.
  - left. unfold running. rewrite (mv_current _ _ _ _ _ _ _ _ Hm). rewrite (mv_wait _ _ _ _ _ _ _ _ Hm); [exact Hrun|].
    intros Heq. apply (part_not_conn Hrom (current s) (handle_to_connection R h)); [apply Hi|apply Hc|done].
  - intros c v (-> & Ho & ->). apply Hd, Ho.
Qed.

(** Calls of clients. *)
Lemma client_calls_ok s fl q e :
  inv s fl q -> running s -> polite R s e = true ->
  match e with PsaCall _ _ _ _ | PsaConnect _ _ | PsaClose _ | PsaVersion _ | AgentCall _ _ _ _ | AgentConnect _ _ _ _ | AgentClose _ _ => True | _ => False end ->
  wp (api R memory_check e) (calls e s fl) panics s.
Proof.
  intros Hi Hr Hp He.
  assert (forall m, wp m (asked (allowed s) s fl) panics s -> writes e = false -> is_reply e = false -> wp m (calls e s fl) panics s) as Hasked.
  { intros m Hm Hw Hrep. eapply wp_mono; [exact Hm| |done]. intros r s'. by apply calls_asked. }
  destruct e; try done; cbn [polite api] in *.
  - apply andb_true_iff in Hp as [Hm%negb_true_iff Hl%no_leftovers_ok]. apply Hasked; [|done|done].
    apply (wp_psa_call Hrom bnd (allowed s) s fl q); [done|done| |done]. intros Hm'%is_mailbox_iff. congruence.
  - apply negb_true_iff in Hp. apply Hasked; [|done|done]. apply (wp_psa_connect Hrom bnd (allowed s) s fl q); [done|done|]. intros Hm'%is_mailbox_iff. congruence.
  - apply negb_true_iff in Hp. apply Hasked; [|done|done]. apply (wp_psa_close Hrom bnd (allowed s) s fl q); [done|done|]. intros Hm'%is_mailbox_iff. congruence.
  - eapply wp_mono; [by apply (wp_psa_version (memory_check := memory_check) Hrom bnd (allowed s) s fl q)| |done].
    intros r s'. by apply calls_asked_version.
  - rewrite !andb_true_iff in Hp. destruct Hp as (((Hm & Hd%negb_true_iff%Z.eqb_neq) & Hid) & Hl%no_leftovers_ok). apply Hasked; [|done|done].
    apply (wp_agent_call Hrom bnd (allowed s) s fl q); try done. by apply own_id_ok.
  - rewrite !andb_true_iff in Hp. destruct Hp as [[Hm Hd%negb_true_iff%Z.eqb_neq] Hid]. apply Hasked; [|done|done].
    apply (wp_agent_connect Hrom bnd (allowed s) s fl q); try done. by apply own_id_ok.
  - apply andb_true_iff in Hp as [Hm Hid]. apply Hasked; [|done|done]. apply (wp_agent_close Hrom bnd (allowed s) s fl q); try done. by apply own_id_ok.
Qed.

(** Calls of services, and of agents that collect replies. *)
Lemma service_calls_ok s fl q e :
  inv s fl q -> running s -> polite R s e = true ->
  match e with PsaWait _ _ | PsaGet _ _ | PsaSetRhandle _ _ | PsaReply _ _ | PsaNotify _ | PsaClear | AgentCollect _ => True | _ => False end ->
  wp (api R memory_check e) (calls e s fl) panics s.
Proof.
  intros Hi Hr Hp He.
  assert (forall m, wp m (fun _ => does s fl) panics s -> writes e = false -> is_request e = false -> is_reply e = false -> wp m (calls e s fl) panics s) as Hdoes.
  { intros m Hm Hw Hq Hrep. eapply wp_mono; [exact Hm| |done]. intros r s'. by apply calls_does. }
  assert (forall m, wp m (did s fl) panics s -> writes e = false -> is_request e = false -> is_reply e = false -> wp m (calls e s fl) panics s) as Hdid.
  { intros m Hm Hw Hq Hrep. eapply wp_mono; [exact Hm| |done]. intros r s'. by apply calls_did. }
  destruct e; try done; cbn [polite api] in *.
  - apply Hdoes; try done. apply wp_bind. eapply wp_mono; [by apply (wp_collect Hrom bnd s fl q)| |done]. intros r s' Hd. exact Hd.
  - apply Hdid; try done. by apply (wp_wait bnd s fl q).
  - apply Hdoes; try done. apply (wp_get_message Hrom bnd s fl q); [done|done|]. intros Hm'%is_mailbox_iff. apply negb_true_iff in Hp. congruence.
  - destruct (decide (spm_msg_handle_to_connection R msg_handle s = 0)); [by apply wp_bad_handle|].
    destruct (in_hand_delivered s fl q msg_handle Hi Hp); [done|]. apply Hdoes; try done. by apply (wp_set_rhandle Hrom bnd s fl q).
  - destruct (decide (spm_msg_handle_to_connection R msg_handle s = 0)); [by apply wp_bad_handle|].
    destruct (in_hand_delivered s fl q msg_handle Hi Hp); [done|]. destruct (good_handle s fl q msg_handle Hi) as [Hl _]; [done|].
    eapply wp_mono; [by apply (wp_reply (memory_check := memory_check) Hrom bnd s fl q)| |done]. intros r s'. by apply (calls_replied s fl q).
  - apply Hdid; try done. by apply (wp_notify Hrom bnd s fl q).
  - apply Hdoes; try done. by apply (wp_clear Hrom bnd s fl q).
Qed.

Lemma has_input_ok s h i : negb (is_index i) || has_input R s h i = true -> index i -> in_size (msg (conns s (handle_to_connection R h))) i <> 0.
Proof. unfold has_input, is_index, index. rewrite orb_true_iff, !negb_true_iff, Z.ltb_ge, Z.eqb_neq. intros [?|?]; [lia|done]. Qed.

Lemma has_output_ok s h i : negb (is_index i) || has_output R s h i = true -> index i -> out_size (msg (conns s (handle_to_connection R h))) i <> 0.
Proof. unfold has_output, is_index, index. rewrite orb_true_iff, !negb_true_iff, Z.ltb_ge, Z.eqb_neq. intros [?|?]; [lia|done]. Qed.

(** Vectors, and what waits for no one. *)
Lemma vector_calls_ok s fl q e :
  inv s fl q -> running s -> polite R s e = true ->
  match e with
  | PsaRead _ _ _ _ | PsaSkip _ _ _ | PsaWrite _ _ _ _ | PsaMapInvec _ _ | PsaUnmapInvec _ _ | PsaMapOutvec _ _ | PsaUnmapOutvec _ _ _
  | PsaIrqEnable _ | PsaIrqDisable _ | PsaResetSignal _ | PsaEoi _ => True
  | _ => False
  end -> wp (api R memory_check e) (calls e s fl) panics s.
Proof.
  intros Hi Hr Hp He.
  assert (forall m, wp m (fun _ => does s fl) panics s -> writes e = false -> is_request e = false -> is_reply e = false -> wp m (calls e s fl) panics s) as Hdoes.
  { intros m Hm Hw Hq Hrep. eapply wp_mono; [exact Hm| |done]. intros r s'. by apply calls_does. }
  assert (forall (m : SPM unit), wp m (fun _ => does s fl) panics s -> wp (returns m 0) (fun _ => does s fl) panics s) as Hret.
  { intros m Hm. apply wp_bind. eapply wp_mono; [exact Hm| |done]. intros r s' Hd. exact Hd. }
  destruct e; try done; cbn [polite api] in *; (apply Hdoes; [|done|done|done]); try apply Hret.
  1-3: rewrite !andb_true_iff, !Z.leb_le in Hp; destruct Hp as [[? ?] Hv].
  - apply (wp_read Hrom bnd s fl q); [done|done|done|by apply has_input_ok].
  - apply (wp_skip Hrom bnd s fl q); [done|done|done|by apply has_input_ok].
  - apply (wp_write Hrom bnd s fl q); [done|done|done|by apply has_output_ok].
  - apply (wp_map_invec Hrom bnd s fl q); [done|lia].
  - apply (wp_unmap_invec Hrom bnd s fl q); [done|lia].
  - apply (wp_map_outvec Hrom bnd s fl q); [done|lia].
  - apply (wp_unmap_outvec Hrom bnd s fl q); [done|lia|lia].
  - by apply (wp_irq_enable bnd s fl q).
  - by apply (wp_irq_disable bnd s fl q).
  - by apply (wp_reset_signal Hrom bnd s fl q).
  - by apply (wp_eoi Hrom bnd s fl q).
Qed.

(** Running code: it changes its memory, or the client it runs. *)
Lemma user_ok s fl q e :
  inv s fl q -> running s -> polite R s e = true -> match e with NsClient _ | UserWrite _ _ => True | _ => False end ->
  wp (api R memory_check e) (fun _ => calls e s fl 0) panics s.
Proof.
  intros Hi Hr Hp He. destruct e; try done; cbn [polite api] in *; apply wp_bind, wp_modify, wp_ret.
  - apply calls_does; [done|done|done|done|]. do 2 eexists. by apply mv_nsid.
  - exists fl, q. split; [|by left|done|done]. eapply mv_weaken; [|apply mv_mem_write; [exact Hi| |done]]; [done|].
    apply mem_write_bytes; [|apply Hi]. rewrite List.forallb_forall in Hp. apply Forall_forall. intros b Hb%list_elem_of_In%Hp.
    unfold is_byte. lia.
Qed.

(** ** One step *)

(** What a step of a system that keeps to the protocol leads to. *)
Record after e s fl (s' : spm_t) fl' : Prop := {
  af_inv : exists q', inv s' fl' q';
  af_running : running s';
  af_calls : forall c, outstanding s fl c -> (forall v, ~ answers s fl e c v) -> outstanding s' fl' c /\ p_client (conns s' c) = p_client (conns s c);
  af_due : forall p v, p ∈ PL -> ~ mailbox R p -> p <> current s -> due s p v -> due s' p v;
  af_mem : writes e = false -> forall a, ~ allowed s a -> mem s' a = mem s a;
  af_request : is_request e = true -> waiting s' (current s) = 0 \/ waits s s' fl';
  af_reply : forall c v, answers s fl e c v -> due s' (p_client (conns s c)) v;
}.

Definition steps e s fl s' : Prop := exists fl', after e s fl s' fl'.

Lemma outstanding_client s fl q c : inv s fl q -> outstanding s fl c -> p_client (conns s c) ∈ PL /\ ~ mailbox R (p_client (conns s c)) /\ c ∉ PL.
Proof.
  intros Hi Hc. pose proof (i_conn _ _ _ _ _ _ Hi c (proj1 Hc)) as Hok. split_and!; [by apply Hok|by apply (outstanding_not_mailbox (memory_check := memory_check) Hrom bnd s fl q)|].
  intros Hp. by apply (part_not_conn Hrom c c Hp (proj1 (proj1 Hc))).
Qed.

(** A call that returns to its caller. *)
Lemma after_called e s fl q r s' fl' q' :
  inv s fl q -> called e s fl r s' fl' q' -> running s' -> after e s fl s' fl'.
Proof.
  intros Hi [[I C D U Wt M] _ Ha Hrep] Hrun. split; [by exists q'|done| |done| | |done].
  - intros c Hc Hv. apply C; [|done]. intros [->|Ht]; [by destruct (outstanding_client _ _ _ _ Hi Hc) as (_ & _ & []); apply Hi|].
    destruct e; try done. destruct (Hv (answer_value (m_type (msg (conns s c))) msg_handle status)). by subst c.
  - intros Hw. by rewrite Hw in M.
  - intros [?|?]%Ha; [left|by right]. by rewrite <- U.
Qed.

(** A thread is chosen after the call. *)
Lemma after_scheduled e s fl q r s1 fl1 q1 s' :
  inv s fl q -> called e s fl r s1 fl1 q1 -> rescheduled s1 fl1 s' q1 -> running s' -> after e s fl s' fl1.
Proof.
  intros Hi [[I C D U Wt M] _ Ha Hrep] [I' C' D' M' Wt'] Hrun. split; [by exists q1|done| | | | |].
  - intros c Hc Hv. destruct (C c) as [Ho He]; [|done|].
    { intros [->|Ht]; [by destruct (outstanding_client _ _ _ _ Hi Hc) as (_ & _ & []); apply Hi|].
      destruct e; try done. destruct (Hv (answer_value (m_type (msg (conns s c))) msg_handle status)). by subst c. }
    destruct (C' c Ho) as [? ->]. done.
  - intros p v Hp Hm Hne Hd. apply D'; [done|done|]. by apply D.
  - intros Hw a Ha'. rewrite Hw in M. rewrite M'. by apply M.
  - intros [?|(c & Hc & He)]%Ha; [left; apply Wt'; by rewrite <- U|right]. destruct (C' c Hc) as [? He']. exists c. split; [done|]. by rewrite He'.
  - intros c v Hans. pose proof (Hrep c v Hans) as Hd. destruct e; try done. destruct Hans as (-> & Ho & _).
    destruct (outstanding_client _ _ _ _ Hi Ho) as (Hp & Hm & _). by apply D'.
Qed.

Lemma wp_schedule_after e s fl q r s1 fl1 q1 :
  inv s fl q -> called e s fl r s1 fl1 q1 -> wp (ipc_schedule R) (fun _ => steps e s fl) panics s1.
Proof.
  intros Hi Hc. eapply (wp_schedule Hrom); [apply Hc| |done]. intros ts p s' _ _ Hrs _ Hrun.
  exists fl1. by eapply after_scheduled.
Qed.

(** The end of a call. *)
Lemma wp_leaving e s fl q r s1 :
  inv s fl q -> calls e s fl r s1 -> wp (backend_abi_leaving_spm R r) (fun _ => steps e s fl) panics s1.
Proof.
  intros Hi (fl1 & q1 & Hc). unfold backend_abi_leaving_spm. apply wp_bind. unfold spm_handle_programmer_errors. apply wp_get.
  destruct (_ && _); [by apply wp_fail|]. apply wp_ret, wp_bind. destruct (Z.eqb_spec (to_s32 r) STATUS_NEED_SCHEDULE) as [Hr|Hr].
  - eapply wp_mono; [by eapply wp_schedule_after| |done]. intros u s' Hs. exact Hs.
  - apply wp_ret, wp_ret. exists fl1. eapply after_called; [exact Hi|exact Hc|]. by destruct (ca_next _ _ _ _ _ _ _ Hc).
Qed.

Lemma steps_does e s fl q s' :
  inv s fl q -> running s -> writes e = false -> is_request e = false -> is_reply e = false -> does s fl s' -> steps e s fl s'.
Proof.
  intros Hi Hr Hw Hq Hrep Hd. destruct (calls_does e s fl 0 s' Hr Hw Hq Hrep Hd) as (fl' & q' & Hc). exists fl'.
  eapply after_called; [exact Hi|exact Hc|]. destruct Hd as (fl2 & q2 & Hm). unfold running. rewrite (mv_current _ _ _ _ _ _ _ _ Hm).
  rewrite (mv_wait _ _ _ _ _ _ _ _ Hm); [exact Hr|intros []].
Qed.

(** An interrupt raises the signal of its partition. *)
Lemma wp_interrupt s fl q p i b :
  inv s fl q -> running s -> polite R s (Interrupt p i b) = true -> wp (spm_handle_interrupt R p i b) (fun _ => steps (Interrupt p i b) s fl) panics s.
Proof.
  intros Hi Hr Hp. cbn [polite] in Hp. apply andb_true_iff in Hp as [Hp Hj]. apply existsb_exists in Hp as (p' & Hp%list_elem_of_In & <-%Z.eqb_eq).
  apply existsb_exists in Hj as (j & Hj%list_elem_of_In & Hsig%Z.eqb_eq).
  assert (irrelevant (R := R) p (irq_signal i)) as Hirr by (rewrite <- Hsig; by apply irq_irrelevant).
  assert (forall s', does s fl s' -> steps (Interrupt p i b) s fl s') as Hdone by (intros s'; by apply (steps_does _ s fl q)).
  assert (forall s1, moved (allowed s) nothing s fl s1 fl q -> wp (if negb (irq_has_flih i) || b then
      let* r := backend_assert_signal p (irq_signal i) in if r =? STATUS_NEED_SCHEDULE then ipc_schedule R else ret tt
    else ret tt) (fun _ => steps (Interrupt p i b) s fl) panics s1) as Hsignal.
  { intros s1 Hm. destruct (_ || _); [|apply wp_ret, Hdone; by do 2 eexists]. apply wp_bind, wp_assert_signal; [|done]. intros r _.
    assert (does s fl (upd_part p (raise (irq_signal i)) s1)) as Hd by (exists fl, q; eapply mv_then; [exact Hm|intros Hi1; by apply mv_raise]).
    destruct (_ =? _); [|by apply wp_ret, Hdone]. destruct (calls_does (Interrupt p i b) s fl 0 _ Hr eq_refl eq_refl eq_refl Hd) as (fl1 & q1 & Hc).
    by eapply wp_schedule_after. }
  unfold spm_handle_interrupt. apply wp_bind, wp_require; [intros _|done]. apply wp_bind, wp_require; [intros _|done]. apply wp_bind.
  destruct (irq_has_flih i); [apply wp_ret, Hsignal; by apply mv_refl|]. apply wp_modify, Hsignal. by apply mv_irq_on.
Qed.

Lemma wp_returns {A} (m : SPM A) r (Q : spm_t -> Prop) s : wp m (fun _ => Q) panics s -> wp (returns m r) (fun _ => Q) panics s.
Proof. intros Hm. apply wp_bind. eapply wp_mono; [exact Hm| |done]. intros a s' Hq. exact Hq. Qed.

Lemma wp_user s fl q e :
  inv s fl q -> running s -> polite R s e = true -> match e with NsClient _ | UserWrite _ _ => True | _ => False end ->
  wp (api R memory_check e) (fun _ => steps e s fl) panics s.
Proof.
  intros Hi Hr Hp He. eapply wp_mono; [by apply (user_ok s fl q)| |done]. intros r s' (fl1 & q1 & Hc). exists fl1.
  eapply after_called; [exact Hi|exact Hc|]. by destruct (ca_next _ _ _ _ _ _ _ Hc).
Qed.

(** Every step that keeps to the protocol. *)
Lemma step_ok s fl q e :
  inv s fl q -> running s -> polite R s e = true -> wp (step R memory_check e) (fun _ => steps e s fl) panics s.
Proof.
  intros Hi Hr Hp.
  assert (forall m, is_api_call e = true -> wp m (calls e s fl) panics s ->
    wp (let* r := m in if is_api_call e then backend_abi_leaving_spm R r else ret r) (fun _ => steps e s fl) panics s) as Hcall.
  { intros m -> Hm. apply wp_bind. eapply wp_mono; [exact Hm| |done]. intros r s1. by apply (wp_leaving _ _ _ q). }
  assert (forall m, is_api_call e = false -> wp m (fun _ => steps e s fl) panics s ->
    wp (let* r := m in if is_api_call e then backend_abi_leaving_spm R r else ret r) (fun _ => steps e s fl) panics s) as Huser.
  { intros m -> Hm. apply wp_bind. eapply wp_mono; [exact Hm| |done]. intros r s1 Hs. exact Hs. }
  unfold step. destruct e; try (apply Hcall; [done|]; first [by apply (client_calls_ok s fl q)|by apply (service_calls_ok s fl q)|by apply (vector_calls_ok s fl q)]);
    (apply Huser; [done|]).
  - by apply wp_returns, (wp_interrupt s fl q).
  - apply wp_returns. destruct (calls_does Reschedule s fl 0 s Hr eq_refl eq_refl eq_refl) as (fl1 & q1 & Hc); [by eapply does_nothing|].
    by eapply wp_schedule_after.
  - by apply (wp_user s fl q).
  - by apply (wp_user s fl q).
Qed.
End run.

(** * The partition manager: runs

    A run is a list of steps that all keep to the protocol and that reset
    nothing. *)

Section runs.
Context (R : spm_rom) (memory_check : Z -> Z -> Z -> Z -> bool).

(** The state after a run. *)
Fixpoint polite_run (es : list event) (s : spm_t) : option spm_t :=
  match es with
  | [] => Some s
  | e :: es =>
      if polite R s e then
        match step R memory_check e s with
        | (Ok _, s') => polite_run es s'
        | (Err _, _) => None
        end
      else None
  end.

(** No step of the run is one of the partition [p]. *)
Fixpoint elsewhere (p : Z) (es : list event) (s : spm_t) : bool :=
  match es with
  | [] => true
  | e :: es =>
      negb (current s =? p) &&
      match step R memory_check e s with
      | (Ok _, s') => elsewhere p es s'
      | (Err _, _) => true
      end
  end.

(** No step of the run answers the message of the connection [c]. *)
Definition unanswered (c : Z) (es : list event) : bool :=
  forallb (fun e => match e with PsaReply h _ => negb (handle_to_connection R h =? c) | _ => true end) es.
End runs.

Lemma polite_step R memory_check e s s' :
  polite_run R memory_check [e] s = Some s' -> exists r, polite R s e = true /\ step R memory_check e s = (Ok r, s').
Proof. cbn. destruct (polite R s e); [|done]. destruct (step R memory_check e s) as [[r|] s1]; [|done]. intros [= <-]. by exists r. Qed.

Section facts.
Context {R : spm_rom} {memory_check : Z -> Z -> Z -> Z -> bool} (Hrom : rom_ok R) (bnd : Z -> Z).
Implicit Types (s : spm_t) (fl : list Z) (q : Z -> list Z) (c p : Z) (e : event) (es : list event).

Abbreviation PL := (partition_listhead R).
Abbreviation inv := (inv R memory_check bnd).
Abbreviation outstanding := (outstanding R).
Abbreviation polite_run := (polite_run R memory_check).
Abbreviation elsewhere := (elsewhere R memory_check).
Abbreviation after := (after (R := R) (memory_check := memory_check) bnd).

Lemma step_after s fl q e r s' : inv s fl q -> running s -> polite R s e = true -> step R memory_check e s = (Ok r, s') -> exists fl', after e s fl s' fl'.
Proof. intros Hi Hr Hp Hs. exact (run_ok _ _ _ _ _ _ (step_ok (memory_check := memory_check) Hrom bnd s fl q e Hi Hr Hp) Hs). Qed.

(** Induction along a run. *)
Lemma run_ind (P : list event -> spm_t -> list Z -> Prop) (T : spm_t -> list Z -> Prop) :
  (forall s fl q, inv s fl q -> running s -> P [] s fl -> T s fl) ->
  (forall e es s fl q s' fl' q' r, inv s fl q -> running s -> P (e :: es) s fl -> step R memory_check e s = (Ok r, s') -> after e s fl s' fl' -> inv s' fl' q' -> P es s' fl') ->
  forall es s fl q s', inv s fl q -> running s -> P es s fl -> polite_run es s = Some s' -> exists fl' q', inv s' fl' q' /\ running s' /\ T s' fl'.
Proof.
  intros H0 HS es. induction es as [|e es IH]; intros s fl q s' Hi Hr HP Hrun; cbn in Hrun.
  - simplify_eq. exists fl, q. split_and!; [done|done|by eapply H0].
  - destruct (polite R s e) eqn:Hp; [|done]. destruct (step R memory_check e s) as [[r|] s1] eqn:Hs; [|done].
    destruct (step_after _ _ _ _ _ _ Hi Hr Hp Hs) as (fl1 & Ha). destruct (af_inv _ _ _ _ _ _ Ha) as [q1 Hi1].
    eapply (IH s1 fl1 q1); [exact Hi1|exact (af_running _ _ _ _ _ _ Ha)| |exact Hrun]. exact (HS e es s fl q s1 fl1 q1 r Hi Hr HP Hs Ha Hi1).
Qed.

Lemma run_inv es s fl q s' : inv s fl q -> running s -> polite_run es s = Some s' -> exists fl' q', inv s' fl' q' /\ running s'.
Proof.
  intros Hi Hr Hrun. destruct (run_ind (fun _ _ _ => True) (fun _ _ => True)) with (6 := Hrun) (fl := fl) (q := q) as (fl' & q' & ? & ? & _); eauto.
Qed.

(** A request goes on while nobody answers it. *)
Lemma run_call es s fl q s' c p :
  inv s fl q -> running s -> outstanding s fl c -> p_client (conns s c) = p -> unanswered R c es = true -> polite_run es s = Some s' ->
  exists fl' q', inv s' fl' q' /\ running s' /\ outstanding s' fl' c /\ p_client (conns s' c) = p.
Proof.
  intros Hi Hr Ho Hc Hun Hrun.
  apply (run_ind (fun es s fl => unanswered R c es = true /\ outstanding s fl c /\ p_client (conns s c) = p) (fun s fl => outstanding s fl c /\ p_client (conns s c) = p))
    with (6 := Hrun) (fl := fl) (q := q); [| |done|done|done].
  - intros s1 fl1 q1 _ _ (_ & ? & ?). done.
  - intros e es1 s1 fl1 q1 s2 fl2 q2 r _ _ ([He Hes]%andb_true_iff & Ho1 & Hc1) _ Ha _. destruct (af_calls _ _ _ _ _ _ Ha c Ho1) as [Ho2 Hc2].
    + intros v. destruct e; try by intros []. intros (-> & _). by rewrite Z.eqb_refl in He.
    + split_and!; [done|done|congruence].
Qed.

(** An answer is not lost while its client does not run. *)
Lemma run_due es s fl q s' p v :
  inv s fl q -> running s -> p ∈ PL -> ~ mailbox R p -> due s p v -> elsewhere p es s = true -> polite_run es s = Some s' ->
  exists fl' q', inv s' fl' q' /\ running s' /\ due s' p v.
Proof.
  intros Hi Hr Hp Hm Hd Hel Hrun.
  apply (run_ind (fun es s _ => elsewhere p es s = true /\ due s p v) (fun s _ => due s p v)) with (6 := Hrun) (fl := fl) (q := q); [| |done|done|done].
  - intros s1 fl1 q1 _ _ [_ ?]. done.
  - intros e es1 s1 fl1 q1 s2 fl2 q2 r _ _ [[He Hes]%andb_true_iff Hd1] Hs Ha _. rewrite Hs in Hes. split; [done|].
    apply (af_due _ _ _ _ _ _ Ha); [done|done| |done]. apply negb_true_iff, Z.eqb_neq in He. congruence.
Qed.

(** The running partition has its answer. *)
Lemma due_running s fl q p v : inv s fl q -> running s -> p ∈ PL -> ~ mailbox R p -> current s = p -> due s p v -> ret_code s p = u32 v.
Proof.
  intros Hi Hr Hp Hm Hc [[Ha _]|[_ ?]]; [|done]. pose proof (i_async _ _ _ _ _ _ Hi p Hp Hm Ha) as Hw. unfold running in Hr. rewrite Hc, Hw in Hr. done.
Qed.
End facts.
