(* ===== verification/SpmBoot.v ===== *)
(** * The partition manager: start-up establishes the invariant *)

From S2P Require Import Prelude Bytes SpmLists SpmTypes SpmIpc SpmApi SpmSystem SpmInv SpmRules SpmQueues SpmVectors SpmSchedule.
From stdpp Require Import base list numbers functions sets sorting.
From Stdlib Require Import ZArith Lia.

Open Scope Z_scope.
Open Scope tfm_scope.

(** ** Lists of threads *)

Lemma path_ext (l l' : links) h xs : (forall x, x ∈ xs -> l' x = l x) -> path l h xs -> path l' h xs.
Proof.
  revert h. induction xs as [|x xs IH]; cbn [path]; intros h Heq; [done|]. intros (-> & Hx & Hp). split_and!; [done|done|].
  rewrite Heq by set_solver. apply IH; [set_solver|done].
Qed.

Lemma path_chain (l : links) h xs : path l (l h) xs <-> chain l h xs.
Proof. revert h. induction xs as [|x xs IH]; intros h; cbn [path chain]; [done|]. split; intros (<- & ? & ?); split_and!; try done; by apply IH. Qed.

(** A node is put behind the node [before h ys]. *)
Lemma chain_insert_at (l : links) h ys x zs :
  NoDup (h :: ys ++ zs) -> x ∉ h :: ys ++ zs -> x <> 0 -> chain l h (ys ++ zs) -> chain (UNI_LIST_INSERT_AFTER (before h ys) x l) h (ys ++ x :: zs).
Proof.
  revert h. induction ys as [|y ys IH]; intros h Hnd Hx Hx0 Hc; cbn [app] in *.
  - apply NoDup_cons in Hnd as [Hh _]. apply chain_insert; set_solver.
  - destruct Hc as (Hl & Hy & Hc). apply NoDup_cons in Hnd as [Hh Hnd]. rewrite before_cons. cbn [chain].
    pose proof (before_in y ys) as Hb. unfold UNI_LIST_INSERT_AFTER at 1; cbv zeta.
    assert (before y ys <> h) by (intros Heq; rewrite Heq in Hb; set_solver). assert (x <> h) by set_solver. rewrite !fn_lookup_insert_ne by done.
    split_and!; [done|done|]. apply IH; [done|set_solver|done|done].
Qed.

(** A filter by one of two conditions that exclude each other. *)
Lemma filter_either {A} (f g h : A -> bool) (xs : list A) :
  (forall x, h x = f x || g x) -> (forall x, f x && g x = false) -> List.filter h xs ≡ₚ List.filter f xs ++ List.filter g xs.
Proof.
  intros Hh Hfg. induction xs as [|x xs IH]; [done|]. cbn [List.filter]. rewrite Hh. specialize (Hfg x).
  destruct (f x), (g x); cbn in *; try done; rewrite IH; [done|by rewrite Permutation_middle].
Qed.

Section boot.
Context {R : spm_rom} {memory_check : Z -> Z -> Z -> Z -> bool} (Hrom : rom_ok R) (bnd : Z -> Z).
Implicit Types (s : spm_t) (fl : list Z) (q : Z -> list Z) (c p : Z) (ts loaded served inited : list Z).

Abbreviation PL := (partition_listhead R).
Abbreviation inv := (inv R memory_check bnd).
Abbreviation sorted := (StronglySorted (fun a b => priority R a <= priority R b)).

(** [insert_by_prior] keeps the list in order. *)
Lemma insert_place_spec fuel node iter l ts :
  path l (l iter) ts -> (length ts <= fuel)%nat -> sorted ts ->
  exists ys zs, ts = ys ++ zs /\ insert_place R fuel node iter l = before iter ys /\
    (forall y, y ∈ ys -> priority R y <= priority R node) /\ (forall z, z ∈ zs -> priority R node <= priority R z).
Proof.
  revert iter ts. induction fuel as [|fuel IH]; intros iter ts Hp Hl Hs.
  - destruct ts; [|cbn in Hl; lia]. exists [], []. split_and!; [done|done|set_solver|set_solver].
  - destruct ts as [|t ts]; cbn [path insert_place] in *.
    + rewrite Hp. exists [], []. split_and!; [done|done|set_solver|set_solver].
    + destruct Hp as (Ht & Ht0 & Hp). rewrite Ht, (proj2 (Z.eqb_neq _ _) Ht0). cbn [negb andb].
      apply StronglySorted_inv in Hs as [Hs Hall]. rewrite Z.gtb_ltb. destruct (Z.ltb_spec (priority R t) (priority R node)) as [Hlt|Hge].
      * destruct (IH t ts Hp ltac:(cbn in Hl; lia) Hs) as (ys & zs & -> & Hi & Hy & Hz). exists (t :: ys), zs.
        split_and!; [done|by rewrite before_cons| |done]. intros y [->|Hy']%elem_of_cons; [lia|by apply Hy].
      * exists [], (t :: ts). split_and!; [done|done|set_solver|]. rewrite Forall_forall in Hall.
        intros z [->|Hz]%elem_of_cons; [done|]. specialize (Hall z Hz). lia.
Qed.
Lemma sorted_insert ys zs x :
  sorted (ys ++ zs) -> (forall y, y ∈ ys -> priority R y <= priority R x) -> (forall z, z ∈ zs -> priority R x <= priority R z) -> sorted (ys ++ x :: zs).
Proof.
  induction ys as [|y ys IH]; cbn [app]; intros Hs Hy Hz.
  - constructor; [done|by apply Forall_forall].
  - apply StronglySorted_inv in Hs as [Hs Hall]. constructor; [apply IH; [done|set_solver|done]|]. rewrite Forall_app, Forall_cons in *.
    split_and!; [apply Hall|apply Hy; left|apply Hall].
Qed.

Lemma insert_by_prior_spec l head x ts :
  path l head ts -> NoDup (x :: ts) -> x <> 0 -> sorted ts -> (length ts <= length PL)%nat ->
  let '(l', head') := insert_by_prior R head x l in exists ts', path l' head' ts' /\ ts' ≡ₚ x :: ts /\ sorted ts'.
Proof.
  intros Hp [Hx Hnd]%NoDup_cons Hx0 Hs Hlen. unfold insert_by_prior. destruct ts as [|t ts]; cbn [path] in Hp.
  - rewrite Hp, Z.eqb_refl. cbn [orb]. exists [x]. cbn [path]. rewrite fn_lookup_insert. split_and!; try done. by repeat constructor.
  - destruct Hp as (-> & Ht0 & Hp). rewrite (proj2 (Z.eqb_neq _ _) Ht0). cbn [orb]. destruct (Z.leb_spec (priority R x) (priority R t)) as [Hle|Hgt].
    + exists (x :: t :: ts). split_and!; [|done|].
      * cbn [path]. rewrite fn_lookup_insert. split_and!; try done. rewrite fn_lookup_insert_ne by set_solver.
        eapply path_ext; [|exact Hp]. intros y Hy. rewrite fn_lookup_insert_ne; [done|]. set_solver.
      * apply (sorted_insert []); [done|set_solver|]. apply StronglySorted_inv in Hs as [_ Hall]. rewrite Forall_forall in Hall.
        intros z [->|Hz]%elem_of_cons; [done|]. specialize (Hall z Hz). lia.
    + apply StronglySorted_inv in Hs as [Hs Hall]. destruct (insert_place_spec (length PL) x t l ts Hp ltac:(cbn in Hlen; lia) Hs) as (ys & zs & -> & -> & Hy & Hz).
      exists (t :: ys ++ x :: zs). split_and!.
      * cbn [path]. split_and!; [done|done|]. apply path_chain, chain_insert_at; [done|done|done|]. by apply path_chain.
      * by rewrite <- !Permutation_middle, Permutation_swap.
      * apply (sorted_insert (t :: ys)); [by constructor| |done]. intros y [->|Hy']%elem_of_cons; [lia|by apply Hy].
Qed.

(** ** The loop over the partitions *)

(** What holds before a partition is loaded.  [cd_pool]: the word behind the
    connection pool, in which no code of the partition manager writes, is not
    the magic number of a chunk in use.  Nothing in the code ensures it; if it
    is, the address one chunk behind the last passes for a connection
    ([SpmSpec.connection_handles]). *)
Record at_reset s : Prop := {
  cd_mem : forall a, 0 <= mem s a < 256;
  cd_parts : forall p, boundary (parts s p) = bnd p /\ signals_allowed (parts s p) = 0 /\ signals_waiting (parts s p) = 0 /\ signals_asserted (parts s p) = 0;
  cd_handles : forall p, p ∈ PL -> p_handles s p = 0;
  cd_threads : p_thrd_head s = 0 /\ p_rnbl_head s = 0;
  cd_pool : p_magic (pool s) (behind (connection_pool R) CONNECTION_SIZE (CONN_HANDLE_MAX_NUM R) - CHUNK_HEAD) <> POOL_MAGIC_ALLOCATED;
}.

Definition of_loaded loaded v : bool := bool_decide (s_partition (serv R v) ∈ loaded).

(** What holds when the partitions [loaded] have threads, the services of the
    partitions [served] are linked, and the partitions [inited] have their
    signals. *)
Record loading loaded served inited fl s : Prop := {
  ld_mem : forall a, 0 <= mem s a < 256;
  ld_pool : pool_ok (connection_pool R) CONNECTION_SIZE (CONN_HANDLE_MAX_NUM R) (pool s) fl;
  ld_bnd : forall p, boundary (parts s p) = bnd p;
  ld_quiet : forall p, waiting s p = 0 /\ signals_asserted (parts s p) = 0;
  ld_handles : forall p, p ∈ PL -> p_handles s p = 0;
  ld_state : forall p, p ∈ loaded -> thrd_state (parts s p) = THRD_STATE_RUNNABLE;
  ld_allowed : forall p, Z.land (signals_allowed (parts s p)) ASYNC_MSG_REPLY = if decide (p ∈ inited /\ mailbox R p) then ASYNC_MSG_REPLY else 0;
  ld_threads : exists ts, path (t_next s) (p_thrd_head s) ts /\ ts ≡ₚ loaded /\ sorted ts;
  ld_head : p_rnbl_head s = p_thrd_head s;
  ld_services : exists vs, chain (svc_next s) (services_listhead R) vs /\ vs ≡ₚ List.filter (of_loaded served) (services R);
}.
Abbreviation panics := (fun (e : psa_status_t) (_ : spm_t) => e = PANIC).

(** Changes of a partition that loading allows. *)
Lemma ld_part loaded served inited fl s p f :
  (forall x, boundary (f x) = boundary x /\ signals_waiting (f x) = signals_waiting x /\ signals_asserted (f x) = signals_asserted x /\
    (thrd_state x = THRD_STATE_RUNNABLE -> p ∈ loaded -> thrd_state (f x) = THRD_STATE_RUNNABLE)) ->
  Z.land (signals_allowed (f (parts s p))) ASYNC_MSG_REPLY = Z.land (signals_allowed (parts s p)) ASYNC_MSG_REPLY ->
  loading loaded served inited fl s -> loading loaded served inited fl (upd_part p f s).
Proof.
  intros Hf Hal []. split; try assumption; unfold waiting in *.
  - intros p'. rewrite parts_upd. case_decide; [subst; by rewrite (proj1 (Hf _))|done].
  - intros p'. rewrite parts_upd. case_decide; [subst|done]. destruct (Hf (parts s p')) as (_ & -> & -> & _). apply ld_quiet0.
  - intros p' Hp'. rewrite parts_upd. case_decide; [subst|by apply ld_state0]. apply Hf; [by apply ld_state0|done].
  - intros p'. rewrite parts_upd. case_decide as Heq; [|apply ld_allowed0]. subst p'. by rewrite Hal.
Qed.

Lemma land_lor_irrelevant a x : one_bit x -> x <> ASYNC_MSG_REPLY -> Z.land (Z.lor a x) ASYNC_MSG_REPLY = Z.land a ASYNC_MSG_REPLY.
Proof.
  intros (k & Hk & ->) Hne. rewrite Z.land_lor_distr_l. assert (Z.land (2 ^ k) ASYNC_MSG_REPLY = 0) as ->; [|by rewrite Z.lor_0_r].
  apply Z.bits_inj'. intros n Hn. change ASYNC_MSG_REPLY with (2 ^ 2) in *. rewrite Z.land_spec, !Z.pow2_bits_eqb, Z.bits_0 by lia.
  destruct (Z.eqb_spec k n), (Z.eqb_spec 2 n); try done. congruence.
Qed.

Lemma wp_load_irqs loaded served inited fl p infos s :
  p ∈ PL -> (forall i, i ∈ infos -> i ∈ irqs (ldinf R p)) -> loading loaded served inited fl s ->
  wp (load_irq_loop R p infos) (fun _ => loading loaded served inited fl) panics s.
Proof.
  intros Hp. revert s. induction infos as [|i infos IH]; intros s Hin Hl; cbn [load_irq_loop]; [by apply wp_ret|]. cbv zeta.
  destruct (ro_irq _ Hrom p i Hp (Hin i ltac:(left))) as (Hb & Hne & _). apply wp_bind, wp_modify.
  assert (loading loaded served inited fl (upd_part p (fun x => Part (boundary x) (Z.lor (signals_allowed x) (irq_signal i)) (signals_waiting x) (signals_asserted x) (reply_value x) (thrd_state x)) s)) as Hl1.
  { apply ld_part; [done| |done]. by apply land_lor_irrelevant. }
  apply wp_bind, wp_require; [intros _|done]. apply wp_bind.
  assert (forall f s, loading loaded served inited fl s -> loading loaded served inited fl (put_irq_on f s)) as Hirq by (intros f s1 []; by split).
  destruct (_ =? 0x0100); [|destruct (_ =? 0x0101)]; [apply wp_modify|apply wp_modify|apply wp_ret]; apply IH; auto; intros j Hj; apply Hin; by right.
Qed.
(** The services of a partition are linked in front of those before. *)
Lemma link_services (vs ws : list Z) l h :
  chain l h ws -> NoDup (vs ++ ws) -> h ∉ vs ++ ws -> (forall v, v ∈ vs -> v <> 0) ->
  chain (fold_left (fun l v => UNI_LIST_INSERT_AFTER h v l) vs l) h (rev vs ++ ws).
Proof.
  revert ws l. induction vs as [|v vs IH]; intros ws l Hc Hnd Hh Hv; cbn [fold_left rev app] in *; [done|].
  rewrite <- app_assoc. cbn [app]. rewrite (Permutation_middle vs ws v) in Hnd. apply IH; [|done| |intros x Hx; apply Hv; by right].
  - apply chain_insert; [set_solver|apply Hv; left| |set_solver|done].
    rewrite <- Permutation_middle in Hnd. apply NoDup_cons in Hnd. set_solver.
  - set_solver.
Qed.

Lemma setting_irrelevant (vs : list Z) a :
  (forall v, v ∈ vs -> v ∈ services R) ->
  Z.land (fold_left (fun set v => Z.lor set (ssignal (s_ldinf (serv R v)))) vs a) ASYNC_MSG_REPLY = Z.land a ASYNC_MSG_REPLY.
Proof.
  revert a. induction vs as [|v vs IH]; intros a Hin; [done|]. cbn [fold_left]. rewrite IH by (intros x Hx; apply Hin; by right).
  destruct (ro_signal _ Hrom v (Hin v ltac:(left))) as (? & ? & _). by apply land_lor_irrelevant.
Qed.

Lemma wp_load_services loaded fl p s :
  p ∉ loaded -> loading loaded loaded loaded fl s ->
  wp (load_services_assuredly R p) (fun set s' => loading loaded (p :: loaded) loaded fl s' /\ Z.land set ASYNC_MSG_REPLY = 0) panics s.
Proof.
  intros Hp Hl. unfold load_services_assuredly. cbv zeta. set (mine := List.filter _ (services R)). apply wp_bind, wp_modify, wp_ret.
  assert (forall v, v ∈ mine -> v ∈ services R) as Hmine by (intros v Hv; apply list_elem_of_In, List.filter_In in Hv; apply list_elem_of_In; tauto).
  split; [|rewrite setting_irrelevant; done].
  destruct Hl. destruct ld_services0 as (vs & Hc & Hvs). split; try assumption. exists (rev mine ++ vs).
  assert (List.filter (of_loaded (p :: loaded)) (services R) ≡ₚ mine ++ vs) as Hperm.
  { rewrite Hvs. apply filter_either; intros v; unfold of_loaded.
    - destruct (Z.eqb_spec (s_partition (serv R v)) p) as [->|Hne]; [by rewrite bool_decide_true by left|]. apply bool_decide_ext. set_solver.
    - destruct (Z.eqb_spec (s_partition (serv R v)) p) as [->|Hne]; [by rewrite bool_decide_false by done|done]. }
  split; [|by rewrite Hperm, <- Permutation_rev].
  assert (forall v, v ∈ mine ++ vs -> v ∈ services R) as Hin.
  { intros v. rewrite <- Hperm. intros Hv%list_elem_of_In%List.filter_In. apply list_elem_of_In, Hv. }
  apply link_services; [done| |by intros Hh%Hin; apply (ro_head _ Hrom)|intros v Hv; apply (ro_service _ Hrom); auto].
  rewrite <- Hperm. apply NoDup_ListNoDup, List.NoDup_filter, NoDup_ListNoDup, Hrom.
Qed.

(** The signals of the partition. *)
Lemma wp_partition_init loaded served inited fl p set s :
  p ∈ PL -> p ∉ inited -> Z.land set ASYNC_MSG_REPLY = 0 -> IS_NS_AGENT_TZ (pflags (ldinf R p)) = false -> loading loaded served inited fl s ->
  wp (partition_init R p set) (fun _ => loading loaded served (p :: inited) fl) panics s.
Proof.
  intros Hp Hni Hset Htz []. unfold partition_init. cbv zeta. apply wp_bind, wp_modify, wp_modify. unfold waiting in *.
  set (f := fun x : partition_t => _). set (s1 := upd_part p f s).
  assert (forall p', parts s1 p' = if decide (p = p') then f (parts s p') else parts s p') as Hpp by (intros; apply parts_upd).
  split; try assumption; unfold waiting; cbn [parts put_handles].
  - intros p'. rewrite Hpp. case_decide; [subst|]; apply ld_bnd0.
  - intros p'. rewrite Hpp. case_decide; [subst|]; apply ld_quiet0.
  - intros p' Hp'. cbn [p_handles put_handles upd_part put_parts]. unfold UNI_LISI_INIT_NODE. case_match; [by apply ld_handles0|].
    destruct (decide (p = p')) as [->|Hne]; [apply fn_lookup_insert|rewrite fn_lookup_insert_ne by done; by apply ld_handles0].
  - intros p' Hp'. rewrite Hpp. case_decide; [subst|]; by apply ld_state0.
  - intros p'. rewrite Hpp. destruct (decide (p = p')) as [<-|Hne].
    + specialize (ld_allowed0 p). rewrite decide_False in ld_allowed0 by tauto. subst f. cbn [signals_allowed].
      assert (Z.land (Z.lor (Z.lor (signals_allowed (parts s p)) PSA_DOORBELL) set) ASYNC_MSG_REPLY = 0) as Hz.
      { rewrite Z.land_lor_distr_l, Hset, Z.lor_0_r, land_lor_irrelevant; [done|apply doorbell_bit|done]. }
      destruct (decide (p ∈ p :: inited /\ mailbox R p)) as [[_ Hm]|Hn].
      * rewrite Hm, Z.land_lor_distr_l, Hz. done.
      * destruct (IS_NS_AGENT_MAILBOX _) eqn:Hm; [|done]. destruct Hn. split; [left|exact Hm].
    + rewrite ld_allowed0. destruct (decide (p' ∈ inited /\ mailbox R p')), (decide (p' ∈ p :: inited /\ mailbox R p')); try done; set_solver.
Qed.
(** The thread of the partition. *)
Lemma wp_thrd_start loaded served inited fl p s :
  p ∈ PL -> NoDup (p :: loaded) -> (forall p', p' ∈ loaded -> p' ∈ PL) -> loading loaded served inited fl s ->
  wp (thrd_start R p) (fun _ => loading (p :: loaded) served inited fl) panics s.
Proof.
  intros Hp Hnd Hin []. destruct ld_threads0 as (ts & Hpath & Hts & Hs). destruct (ro_part _ Hrom p Hp) as [Hp0 _].
  assert (length ts <= length PL)%nat as Hlen.
  { rewrite Hts. apply submseteq_length, NoDup_submseteq; [by apply NoDup_cons in Hnd as [_ ?]|done]. }
  assert (NoDup (p :: ts)) as Hnd' by (by rewrite Hts). unfold thrd_start. apply wp_get.
  pose proof (insert_by_prior_spec (t_next s) (p_thrd_head s) p ts Hpath Hnd' Hp0 Hs Hlen) as Hins.
  destruct (insert_by_prior R _ _ _) as [l h] eqn:Hi. destruct Hins as (ts' & Hpath' & Hts' & Hs').
  apply wp_bind, wp_modify. unfold thrd_set_state. apply wp_bind, wp_modify, wp_get. cbv zeta. apply wp_modify.
  set (s1 := upd_part p _ _).
  assert (forall p', parts s1 p' = if decide (p = p') then set_thrd_state THRD_STATE_RUNNABLE (parts s p') else parts s p') as Hpp by (intros p'; unfold s1; by rewrite parts_upd).
  split; try assumption; unfold waiting in *; cbn [parts put_threads].
  - intros p'. rewrite Hpp. case_decide; [subst|]; apply ld_bnd0.
  - intros p'. rewrite Hpp. case_decide; [subst|]; apply ld_quiet0.
  - intros p' Hp'. rewrite Hpp. case_decide; [done|]. apply ld_state0. set_solver.
  - intros p'. rewrite Hpp. case_decide; [subst|]; apply ld_allowed0.
  - exists ts'. split_and!; [done|by rewrite Hts', Hts|done].
  - cbn [p_rnbl_head p_thrd_head put_threads s1 upd_part put_parts]. rewrite ld_head0. rewrite Z.eqb_refl. cbn [andb].
    destruct (_ || _) eqn:Hr; [|done]. unfold insert_by_prior in Hi. apply orb_true_iff in Hr as [Hr|Hr%Z.ltb_lt].
    + rewrite Hr in Hi. cbn [orb] in Hi. congruence.
    + rewrite (proj2 (Z.leb_le _ _)), orb_true_r in Hi by lia. congruence.
Qed.

Lemma wp_backend_init loaded fl p set s :
  p ∈ PL -> NoDup (p :: loaded) -> (forall p', p' ∈ loaded -> p' ∈ PL) -> Z.land set ASYNC_MSG_REPLY = 0 -> loading loaded (p :: loaded) loaded fl s ->
  wp (backend_init_comp_assuredly R p set) (fun _ => loading (p :: loaded) (p :: loaded) (p :: loaded) fl) panics s.
Proof.
  intros Hp Hnd Hin Hset Hl. assert (p ∉ loaded) as Hnl by (by apply NoDup_cons in Hnd as [? _]). unfold backend_init_comp_assuredly. apply wp_bind, wp_modify.
  assert (loading loaded (p :: loaded) loaded fl (upd_part p (set_thrd_state THRD_STATE_CREATING) s)) as Hl1 by (by apply ld_part).
  apply wp_bind. destruct (IS_NS_AGENT_TZ _) eqn:Htz.
  - apply wp_ret, wp_thrd_start; [done|done|done|]. destruct Hl1. split; try assumption. intros p'. rewrite ld_allowed0.
    destruct (decide (p' ∈ loaded /\ mailbox R p')) as [|Hn], (decide (p' ∈ p :: loaded /\ mailbox R p')) as [[Hp' Hm]|]; try done; [set_solver|].
    apply elem_of_cons in Hp' as [->|]; [|by destruct Hn]. by rewrite (ro_agents _ Hrom p Hp Hm) in Htz.
  - eapply wp_mono; [by apply (wp_partition_init loaded (p :: loaded) loaded fl)| |done]. intros u s1 Hl2. by apply wp_thrd_start.
Qed.

Lemma wp_load_partitions loaded ps fl s :
  NoDup (loaded ++ ps) -> (forall p, p ∈ loaded ++ ps -> p ∈ PL) -> loading loaded loaded loaded fl s ->
  wp (load_partitions R loaded ps) (fun _ => let all := rev ps ++ loaded in loading all all all fl) panics s.
Proof.
  revert loaded s. induction ps as [|p ps IH]; intros loaded s Hnd Hin Hl; cbn [load_partitions rev app]; [by apply wp_ret|].
  assert (p ∈ PL) as Hp by (apply Hin, elem_of_app; right; left).
  assert (NoDup ((p :: loaded) ++ ps)) as Hnd' by (cbn [app]; by rewrite Permutation_middle).
  assert (p ∉ loaded) as Hnl by (cbn [app] in Hnd'; apply NoDup_cons in Hnd'; set_solver).
  assert (NoDup (p :: loaded)) as Hnd1 by (apply NoDup_app in Hnd'; tauto).
  assert (forall s1, loading loaded loaded loaded fl s1 -> wp (let* set := load_services_assuredly R p in let* _ := load_irqs_assuredly R p in
      let* _ := backend_init_comp_assuredly R p set in load_partitions R (p :: loaded) ps) (fun _ => let all := (rev ps ++ [p]) ++ loaded in loading all all all fl) panics s1) as Hnext.
  { intros s1 Hl1. apply wp_bind. eapply wp_mono; [by apply wp_load_services| |done]. intros set s2 [Hl2 Hset].
    apply wp_bind. eapply wp_mono; [by apply wp_load_irqs| |done]. intros u s3 Hl3. apply wp_bind.
    eapply wp_mono; [apply (wp_backend_init loaded fl p set); [done|done| |done|done]| |done]; [intros p' Hp'; apply Hin; set_solver|].
    intros u' s4 Hl4. rewrite <- app_assoc. apply (IH (p :: loaded)); [done| |done]. intros p'. cbn [app]. rewrite Permutation_middle. apply Hin. }
  unfold load_a_partition_assuredly. cbv zeta. apply wp_bind, wp_bind, wp_require; [intros _|done]. apply wp_bind, wp_require; [intros _|done].
  apply wp_bind, wp_require; [intros _|done]. apply wp_bind, wp_require; [intros _|done].
  destruct (IS_NS_AGENT _); [apply wp_require; [intros _|done]|apply wp_ret]; by apply Hnext.
Qed.
(** ** The first thread *)

(** The scheduler does not depend on the partition that ran before. *)
Lemma next_loop_current fuel p x s : thrd_next_loop fuel p (put_current x s) = let '(r, s') := thrd_next_loop fuel p s in (r, put_current x s').
Proof.
  revert p s. induction fuel as [|fuel IH]; intros p s; cbn [thrd_next_loop]; [done|]. destruct (p =? 0); [done|].
  unfold bind, get, gets, modify, ret. cbn. destruct (query_state (parts s p)) as [[st retval] y].
  destruct (st =? THRD_STATE_RET_VAL_AVAIL); [done|]. cbn. destruct (st =? THRD_STATE_RUNNABLE); [done|].
  exact (IH _ (upd_part p (set_thrd_state st) (upd_part p (fun _ => y) s))).
Qed.

Lemma schedule_current s x (Q : unit -> spm_t -> Prop) (E : psa_status_t -> Prop) :
  wp (ipc_schedule R) Q (fun e _ => E e) (put_current x s) -> wp (ipc_schedule R) Q (fun e _ => E e) s.
Proof.
  unfold wp, ipc_schedule, thrd_next, bind, get, gets. cbn. rewrite next_loop_current.
  destruct (thrd_next_loop _ _ s) as [[r|] s']; [|done]. by destruct (r =? 0).
Qed.

(** A loaded system is quiet: it has no connections and no messages. *)
Lemma loading_inv fl s p :
  p ∈ PL -> (forall d, is_conn R d -> d ∈ fl) -> loading PL PL PL fl s -> inv (put_current p s) fl (fun _ => []) /\ waiting s p = 0.
Proof.
  intros Hp Hfl []. assert (forall c, ~ live R fl c) as Hno by (intros c [Hc Hn]; by apply Hn, Hfl).
  assert (forall c, ~ outstanding R (put_current p s) fl c) as Hout by (intros c [Hc _]; by apply (Hno c)).
  assert (forall p sig, ~ asserted s p sig) as Hq by (intros p' sig; unfold asserted; rewrite (proj2 (ld_quiet0 p')), Z.land_0_l; by intros []).
  split; [|apply ld_quiet0]. split; cbn [parts put_current mem pool p_handles current conns]; [exact ld_bnd0|exact ld_mem0|exact ld_pool0|exact Hp|..].
  - split; [intros p' Hp'; cbn [chain]; by apply ld_handles0|intros; constructor|intros p1 p2 c _ _ Hc|intros p1 c _ Hc]; by apply not_elem_of_nil in Hc.
  - intros p1 c _ Hc. by apply not_elem_of_nil in Hc.
  - intros c Hc. by destruct (Hno c).
  - intros c Hc. by destruct (Hout c).
  - intros c c' Hc _ _. by destruct (Hout c).
  - intros v Hv. split; [by intros ?%Hq|]. intros (c & Hc & _). by apply not_elem_of_nil in Hc.
  - intros p' Hp' Hm. split; [by intros ?%Hq|by intros []].
  - by intros p' Hp' _ ?%Hq.
  - intros p' Hp' _. by apply ld_state0.
  - intros p' Hp'. rewrite ld_allowed0. destruct (decide (p' ∈ PL /\ mailbox R p')), (decide (mailbox R p')); tauto.
  - destruct ld_threads0 as (ts & ? & ? & ?). by exists ts.
  - destruct ld_services0 as (vs & ? & Hvs). exists vs. split; [done|]. rewrite Hvs.
    assert (forall (xs : list Z), (forall v, v ∈ xs -> v ∈ services R) -> List.filter (of_loaded PL) xs = xs) as ->; [|done|done].
    induction xs as [|v xs IH]; intros Hin; [done|]. cbn [List.filter]. unfold of_loaded at 1.
    rewrite bool_decide_true by (apply (ro_service _ Hrom), Hin; left). f_equal. apply IH. intros w Hw. apply Hin. by right.
Qed.

Lemma not_nil_inhabited (xs : list Z) : xs <> [] -> exists x, x ∈ xs.
Proof. destruct xs as [|x xs]; [done|]. intros _. exists x. left. Qed.

(** Without partitions there is no thread. *)
Lemma wp_no_partitions s (Q : unit -> spm_t -> Prop) : PL = [] -> wp (ipc_schedule R) Q panics s.
Proof. intros HPL. unfold ipc_schedule, thrd_next. rewrite HPL. apply wp_bind, wp_get, wp_ret. by apply wp_fail. Qed.

(** Start-up: the partition of highest priority runs. *)
Lemma wp_spm_init s :
  at_reset s -> wp (tfm_spm_init R) (fun _ s' => exists fl, inv s' fl (fun _ => []) /\ running s') panics s.
Proof.
  intros [Hm Hp Hh Ht Hpool]. unfold tfm_spm_init. apply wp_bind. unfold spm_init_connection_space. apply wp_get.
  destruct (pool_init_ok _ _ _ (ro_fit _ Hrom) (pool s) (ro_num _ Hrom) Hpool) as (p' & fl & Heq & Hok & Hfl).
  change (size_of_pool CONNECTION_SIZE (CONN_HANDLE_MAX_NUM R)) with (pool_buffer_size R) in Heq. rewrite Heq. apply wp_bind, wp_modify, wp_ret.
  apply wp_bind, wp_modify, wp_bind. set (s1 := put_svc_next _ _).
  assert (loading [] [] [] fl s1) as Hl.
  { split; try done; unfold waiting; change (parts s1) with (parts s).
    - intros p. apply Hp.
    - intros p. split; apply Hp.
    - intros p Hp'. by apply not_elem_of_nil in Hp'.
    - intros p. destruct (Hp p) as (_ & -> & _). by case_decide as Hd; [destruct Hd as [Hd _]; apply not_elem_of_nil in Hd|].
    - exists []. cbn [path]. split_and!; [apply Ht|done|constructor].
    - cbn. destruct Ht as [-> ->]. done.
    - exists []. cbn [chain]. split.
      + cbn. unfold UNI_LISI_INIT_NODE. rewrite (proj2 (Z.eqb_neq _ _)) by apply (ro_head _ Hrom). apply fn_lookup_insert.
      + induction (services R) as [|v vs IH]; [done|exact IH]. }
  eapply wp_mono; [apply (wp_load_partitions [] (rev PL) fl s1); [|intros p; cbn [app]; by rewrite <- Permutation_rev|exact Hl]| |done].
  - cbn [app]. rewrite <- Permutation_rev. apply Hrom.
  - cbv zeta. rewrite rev_involutive, app_nil_r. intros u s2 Hl2. destruct (decide (PL = [])) as [Hnil|[p Hp']%not_nil_inhabited]; [by apply wp_no_partitions|].
    destruct (loading_inv fl s2 p Hp') as [Hi Hw]; [intros d; apply Hfl|done|]. apply (schedule_current s2 p).
    eapply (wp_schedule Hrom); [exact Hi| |done]. intros ts p1 s3 _ _ Hrs _ Hrun. exists fl. split; [apply Hrs|exact Hrun].
Qed.
End boot.
