(* ===== verification/SpmStreams.v ===== *)
(** * The partition manager: what services get

    Exact results of [psa_read], [psa_skip], [psa_write] and [psa_get]; the
    connections that the pool hands out and their handles. *)

From S2P Require Import Prelude Bytes SpmLists SpmTypes SpmIpc SpmApi SpmSystem SpmInv SpmRules SpmQueues SpmVectors SpmServe SpmRun.
From stdpp Require Import base list numbers functions sets.
From Stdlib Require Import ZArith Lia.

Open Scope Z_scope.
Open Scope tfm_scope.

Section streams.
Context {R : spm_rom} {memory_check : Z -> Z -> Z -> Z -> bool} (Hrom : rom_ok R) (bnd : Z -> Z).
Implicit Types (s : spm_t) (fl : list Z) (q : Z -> list Z) (c p : Z) (x : connection_t).

Abbreviation inv := (inv R memory_check bnd).

(** A check that does not fail. *)
Lemma wp_require_true b (Q : unit -> spm_t -> Prop) E s : b = true -> Q tt s -> wp (spm_require b) Q E s.
Proof. intros ->. apply wp_ret. Qed.

(** A handle of a message of a call to the running partition, and the index
    of a vector. *)
Record serves s h i : Prop := {
  sv_handle : spm_msg_handle_to_connection R h s <> 0;
  sv_call : PSA_IPC_CALL <= m_type (msg (conns s (handle_to_connection R h)));
  sv_index : index i;
}.

Lemma wp_served s h i {A} (k : Z -> SPM A) Q E :
  serves s h i -> (let c := handle_to_connection R h in (m_type (msg (conns s c)) >=? PSA_IPC_CALL) = true -> is_index i = true -> wp (k c) Q E s) ->
  wp (let* c := msg_connection R h in k c) Q E s.
Proof.
  intros [Hh Hc Hi] Hk. apply wp_bind. unfold msg_connection. apply wp_get. apply wp_bind, wp_require_true; [by rewrite negb_true_iff, Z.eqb_neq|]. apply wp_ret.
  assert (spm_msg_handle_to_connection R h s = handle_to_connection R h) as ->.
  { revert Hh. unfold spm_msg_handle_to_connection. cbv zeta. by repeat case_match. }
  apply Hk; [|unfold is_index, index in *; lia]. rewrite Z.geb_leb. by apply Z.leb_le.
Qed.

Lemma memcpy_none dst src m a : spm_memcpy dst src 0 m a = m a.
Proof. unfold spm_memcpy, mem_write. change (zlen (mem_read m src 0)) with 0. case_match eqn:Hb; [lia|done]. Qed.

Lemma serves_live s fl q h i : inv s fl q -> serves s h i -> live R fl (handle_to_connection R h).
Proof. intros Hi Hs. apply (good_handle Hrom bnd s fl q h Hi), Hs. Qed.

(** [psa_read] copies what is left of the vector, [n] bytes at most, and
    moves on. *)
Lemma wp_read_exact s fl q h i buffer n :
  inv s fl q -> serves s h i -> 0 <= n ->
  let c := handle_to_connection R h in let x := conns s c in
  in_size (msg x) i <> 0 -> IOVEC_IS_MAPPED x (i + INVEC_IDX_BASE) = false ->
  memory_check (my_boundary s) buffer n TFM_HAL_ACCESS_READWRITE = true ->
  let k := Z.min n (in_size (msg x) i - invec_accessed x i) in
  wp (tfm_spm_partition_psa_read R memory_check h i buffer n)
    (fun r s' => r = k /\ (forall a, mem s' a = spm_memcpy buffer (invec_base x i + invec_accessed x i) k (mem s) a) /\
      invec_accessed (conns s' c) i = invec_accessed x i + k /\ invec_base (conns s' c) = invec_base x /\ msg (conns s' c) = msg x)
    (fun _ _ => False) s.
Proof.
  intros Hi Hs Hn c x Hne Hmap Hck k. apply (wp_served s h i); [done|]. intros c' Hcall Hix. apply wp_get. cbv zeta. subst c'. fold c x in Hcall |- *.
  do 2 (apply wp_bind, wp_require_true; [done|]). apply wp_bind, wp_require_true; [by rewrite Hmap|]. apply wp_bind, wp_modify.
  pose proof (co_in_range bnd s fl q c i Hi (serves_live _ _ _ _ _ Hi Hs) (sv_index _ _ _ Hs) Hne) as Hr. cbv zeta in Hr. fold x in Hr.
  rewrite u32_id by lia. destruct (Z.eqb_spec (in_size (msg x) i - invec_accessed x i) 0) as [H0|H0].
  - apply wp_ret. assert (k = 0) as -> by lia. split_and!; [done|intros a; by rewrite memcpy_none| | |]; rewrite conns_upd, decide_True by done; [fold x; cbn [SET_IOVEC_ACCESSED set_iovec_status invec_accessed]; fold x; lia|done|done].
  - apply wp_bind, wp_require_true; [exact Hck|]. apply wp_bind, wp_modify, wp_bind, wp_modify, wp_ret.
    assert ((if n <? in_size (msg x) i - invec_accessed x i then n else in_size (msg x) i - invec_accessed x i) = k) as ->.
    { subst k. destruct (Z.ltb_spec n (in_size (msg x) i - invec_accessed x i)); lia. }
    split_and!; [done|done| | |]; rewrite !conns_upd, decide_True by done; cbn [conns put_mem]; rewrite conns_upd, decide_True by done; [|done|done].
    cbn [set_invec invec_accessed SET_IOVEC_ACCESSED set_iovec_status]. rewrite fn_lookup_insert. fold x. apply u32_id. lia.
Qed.
(** [psa_skip] moves on without copying. *)
Lemma wp_skip_exact s fl q h i n :
  inv s fl q -> serves s h i -> 0 <= n ->
  let c := handle_to_connection R h in let x := conns s c in
  in_size (msg x) i <> 0 -> IOVEC_IS_MAPPED x (i + INVEC_IDX_BASE) = false ->
  let k := Z.min n (in_size (msg x) i - invec_accessed x i) in
  wp (tfm_spm_partition_psa_skip R h i n)
    (fun r s' => r = k /\ mem s' = mem s /\
      invec_accessed (conns s' c) i = invec_accessed x i + k /\ invec_base (conns s' c) = invec_base x /\ msg (conns s' c) = msg x)
    (fun _ _ => False) s.
Proof.
  intros Hi Hs Hn c x Hne Hmap k. apply (wp_served s h i); [done|]. intros c' Hcall Hix. apply wp_get. cbv zeta. subst c'. fold c x in Hcall |- *.
  do 2 (apply wp_bind, wp_require_true; [done|]). apply wp_bind, wp_require_true; [by rewrite Hmap|]. apply wp_bind, wp_modify.
  pose proof (co_in_range bnd s fl q c i Hi (serves_live _ _ _ _ _ Hi Hs) (sv_index _ _ _ Hs) Hne) as Hr. cbv zeta in Hr. fold x in Hr.
  rewrite u32_id by lia. destruct (Z.eqb_spec (in_size (msg x) i - invec_accessed x i) 0) as [H0|H0].
  - apply wp_ret. assert (k = 0) as -> by lia. split_and!; [done|done| | |]; rewrite conns_upd, decide_True by done; [|done|done].
    cbn [SET_IOVEC_ACCESSED set_iovec_status invec_accessed]. fold x. lia.
  - assert ((if n >? in_size (msg x) i - invec_accessed x i then in_size (msg x) i - invec_accessed x i else n) = k) as ->.
    { subst k. rewrite Z.gtb_ltb. destruct (Z.ltb_spec (in_size (msg x) i - invec_accessed x i) n); lia. }
    apply wp_bind, wp_modify, wp_ret. split_and!; [done|done| | |]; rewrite !conns_upd, !(decide_True (P := c = c)) by done; [|done|done].
    cbn [set_invec invec_accessed SET_IOVEC_ACCESSED set_iovec_status]. rewrite fn_lookup_insert. fold x. apply u32_id. lia.
Qed.

(** [psa_write] appends to the vector of the client. *)
Lemma wp_write_exact s fl q h i buffer n :
  inv s fl q -> serves s h i -> 0 <= n ->
  let c := handle_to_connection R h in let x := conns s c in
  out_size (msg x) i <> 0 -> n <= out_size (msg x) i - outvec_written x i -> IOVEC_IS_MAPPED x (i + OUTVEC_IDX_BASE) = false ->
  memory_check (my_boundary s) buffer n TFM_HAL_ACCESS_READABLE = true ->
  wp (tfm_spm_partition_psa_write R memory_check h i buffer n)
    (fun r s' => r = PSA_SUCCESS /\ (forall a, mem s' a = spm_memcpy (outvec_base x i + outvec_written x i) buffer n (mem s) a) /\
      outvec_written (conns s' c) i = outvec_written x i + n /\ outvec_base (conns s' c) = outvec_base x /\ msg (conns s' c) = msg x)
    (fun _ _ => False) s.
Proof.
  intros Hi Hs Hn c x Hne Hroom Hmap Hck. apply (wp_served s h i); [done|]. intros c' Hcall Hix. apply wp_get. cbv zeta. subst c'. fold c x in Hcall |- *.
  pose proof (co_out_range bnd s fl q c i Hi (serves_live _ _ _ _ _ Hi Hs) (sv_index _ _ _ Hs) Hne) as Hr. cbv zeta in Hr. fold x in Hr.
  do 2 (apply wp_bind, wp_require_true; [done|]).
  apply wp_bind, wp_require_true; [rewrite u32_id by lia; rewrite Z.gtb_ltb; apply negb_true_iff, Z.ltb_ge; lia|].
  apply wp_bind, wp_require_true; [by rewrite Hmap|]. apply wp_bind, wp_modify, wp_bind, wp_require_true; [exact Hck|].
  apply wp_bind, wp_modify, wp_bind, wp_modify, wp_ret.
  split_and!; [done|done| | |]; rewrite !conns_upd, decide_True by done; cbn [conns put_mem]; rewrite conns_upd, decide_True by done; [|done|done].
  cbn [set_outvec outvec_written SET_IOVEC_ACCESSED set_iovec_status]. rewrite fn_lookup_insert. fold x. apply u32_id. lia.
Qed.

(** [psa_get] takes the oldest message with the signal; messages are put in
    front of their list. *)
Definition got s (signal ptr : Z) (s' : spm_t) : Prop :=
  let p := current s in
  exists newer c older, msgs R s p = newer ++ c :: older /\ conn_signal R s c = signal /\ (forall d, d ∈ older -> conn_signal R s d <> signal) /\
    msgs R s' p = newer ++ older /\ mem s' = mem_write ptr (ser_msg (msg (conns s c))) (mem s).

Lemma wp_get_exact s fl q signal ptr :
  inv s fl q -> running s -> ~ mailbox R (current s) -> let p := current s in
  IS_ONLY_ONE_BIT_IN_UINT32 signal = true -> memory_check (my_boundary s) ptr MSG_SIZE TFM_HAL_ACCESS_READWRITE = true -> asserted s p signal ->
  wp (tfm_spm_partition_psa_get R memory_check signal ptr)
    (fun r s' => r = PSA_SUCCESS /\ got s signal ptr s' /\ (exists q', inv s' fl q') \/
      r = PSA_ERROR_DOES_NOT_EXIST /\ s' = s /\ forall c, c ∈ msgs R s p -> conn_signal R s c <> signal)
    (fun _ _ => False) s.
Proof.
  intros Hi Hr Hm p Hbit Hck Has. unfold tfm_spm_partition_psa_get. apply wp_bind, wp_require_true; [done|]. apply wp_get. cbv zeta. fold p.
  apply wp_bind, wp_require_true; [exact Hck|]. unfold asserted in Has.
  apply wp_bind, wp_require_true; [apply negb_true_iff, Z.eqb_neq; intros H0; by rewrite H0, Z.land_0_l in Has|].
  apply wp_bind, wp_require_true; [by apply negb_true_iff, Z.eqb_neq|]. pose proof (i_cur _ _ _ _ _ _ Hi) as Hp. fold p in Hp.
  assert (signal <> ASYNC_MSG_REPLY) as Hne by (intros ->; exact (running_not_asserted bnd s fl q Hi Hr Hm Has)).
  rewrite (proj2 (Z.eqb_neq _ _) Hne). apply wp_bind, wp_bind.
  apply (wp_get_handle_by_signal (memory_check := memory_check) Hrom bnd s fl q); [done|done|done|by apply only_one_bit|done| |].
  - intros Hno. cbn [Z.eqb negb]. apply wp_ret, wp_ret. right. split_and!; [done|done|]. by rewrite (msgs_eq bnd s fl q p Hi Hp).
  - intros ys c zs ps a Hq Hc Hz Hps Hpp s' Hi'. assert (c <> 0) as Hc0.
    { apply (conn_pos Hrom), (l_live _ _ _ _ (i_lists _ _ _ _ _ _ Hi) _ c Hp). rewrite Hq. apply elem_of_app. right. left. }
    rewrite (proj2 (Z.eqb_neq _ _) Hc0). cbn [negb]. apply wp_ret. cbv iota beta. apply wp_bind, wp_modify, wp_ret. left.
    set (s2 := put_mem _ s'). assert (inv s2 fl (<[p := ys ++ zs]> q)) as Hi2.
    { destruct Hi'. split; try assumption. apply mem_write_bytes; [apply ser_msg_bytes|done]. }
    split_and!; [done| |by eexists]. unfold got. cbv zeta. fold p. exists ys, c, zs. rewrite (msgs_eq bnd s fl q p Hi Hp), (msgs_eq bnd s2 fl _ p Hi2 Hp), fn_lookup_insert. by split_and!.
Qed.
(** The signal of a message that the running partition had is asserted exactly
    when it has another one. *)
Lemma signal_of_messages s s' fl fl' q q' signal :
  inv s fl q -> ~ mailbox R (current s) -> inv s' fl' q' -> (exists c, c ∈ msgs R s (current s) /\ conn_signal R s c = signal) ->
  asserted s' (current s) signal <-> exists d, d ∈ msgs R s' (current s) /\ conn_signal R s' d = signal.
Proof.
  intros Hi Hm Hi' (c & Hc & Hsig). pose proof (i_cur _ _ _ _ _ _ Hi) as Hp. rewrite (msgs_eq bnd s fl q _ Hi Hp) in Hc. rewrite (msgs_eq bnd s' fl' q' _ Hi' Hp).
  pose proof (l_live _ _ _ _ (i_lists _ _ _ _ _ _ Hi) _ c Hp Hc) as Hl. pose proof (co_service _ _ _ _ (i_conn _ _ _ _ _ _ Hi c Hl)) as Hv.
  pose proof (i_sig _ _ _ _ _ _ Hi' _ Hv) as Hs. cbv zeta in Hs. change (s_partition (serv R (c_service (conns s c)))) with (owner R s c) in Hs.
  rewrite (queue_owner bnd s fl q _ c Hi Hp Hm Hc) in Hs. change (ssignal _) with (conn_signal R s c) in Hs. by rewrite Hsig in Hs.
Qed.

(** The handle of a connection. *)
Lemma handle_of_connection s c :
  is_conn R c -> let h := to_s32 (u32 (Z.shiftl (c - connection_pool R) 3) + CLIENT_HANDLE_VALUE_MIN + (loop_index s + 1) mod 8) in
  handle_to_connection R h = c /\ IS_STATIC_HANDLE h = false /\ h <> PSA_NULL_HANDLE.
Proof.
  intros Hc. pose proof (slot_range _ _ _ (ro_fit _ Hrom) c Hc) as Hr. pose proof (ro_handles _ Hrom) as Hb. pose proof (live_range Hrom c Hc) as Hcr.
  pose proof (pf_addr _ _ _ (ro_fit _ Hrom)) as Hpool. pose proof (Z.mod_pos_bound (loop_index s + 1) 8 ltac:(lia)) as Hi.
  set (off := c - connection_pool R) in *. set (i := (loop_index s + 1) mod 8) in *. assert (Z.shiftl off 3 = 8 * off) as -> by (rewrite Z.shiftl_mul_pow2; lia).
  assert (0 < off /\ 8 * off + 9 < 2 ^ 30) as [Ho1 Ho2] by (unfold CONNECTION_SIZE in *; lia). rewrite (u32_id (8 * off)) by lia.
  set (v := 8 * off + CLIENT_HANDLE_VALUE_MIN + i). assert (0 < v < 2 ^ 30) as Hv by (unfold v, CLIENT_HANDLE_VALUE_MIN; lia).
  assert (to_s32 v = v) as -> by (unfold to_s32; rewrite u32_id by lia; case_match; lia). cbv zeta. split_and!.
  - unfold handle_to_connection. rewrite (proj2 (Z.eqb_neq v PSA_NULL_HANDLE)) by (unfold PSA_NULL_HANDLE; lia).
    rewrite (u32_id v) by lia. rewrite (u32_id (v - _)) by (unfold v, CLIENT_HANDLE_VALUE_MIN in *; lia).
    replace (v - CLIENT_HANDLE_VALUE_MIN) with (i + off * 2 ^ 3) by (unfold v; lia). rewrite Z.shiftr_div_pow2 by lia.
    rewrite Z.div_add by lia. rewrite Z.div_small by lia. replace (0 + off + connection_pool R) with c by (unfold off; lia). apply u32_id. lia.
  - unfold IS_STATIC_HANDLE. apply Z.bits_above_log2; [lia|]. apply Z.log2_lt_pow2; lia.
  - unfold PSA_NULL_HANDLE. lia.
Qed.
End streams.

(** ** The use of the connection pool *)

(** [s] is a state after start-up in which the connections of [l] have been
    handed out and not been freed.  Whatever does not touch the pool may happen
    in between. *)
Inductive pool_use (R : spm_rom) : spm_t -> list Z -> Prop :=
| pu_init s s' : spm_init_connection_space R s = (Ok tt, s') -> pool_use R s' []
| pu_alloc s l c s' : pool_use R s l -> spm_allocate_connection R s = (Ok c, s') -> pool_use R s' (if c =? 0 then l else c :: l)
| pu_free s l c s' : pool_use R s l -> c ∈ l -> spm_free_connection R c s = (Ok tt, s') -> pool_use R s' (base.filter (fun d => d <> c) l)
| pu_other s l s' : pool_use R s l -> pool s' = pool s -> pool_use R s' l.

(** The address one chunk behind the last connection. *)
Definition behind_pool (R : spm_rom) : Z := behind (connection_pool R) CONNECTION_SIZE (CONN_HANDLE_MAX_NUM R).

Section use.
Context {R : spm_rom} (Hrom : rom_ok R).
Implicit Types (s : spm_t) (l fl : list Z) (c : Z).

Abbreviation pool_lists := (pool_lists (connection_pool R) CONNECTION_SIZE (CONN_HANDLE_MAX_NUM R)).

Record split_pool s l fl : Prop := {
  sp_lists : pool_lists (pool s) fl;
  sp_nodup : NoDup l;
  sp_all : forall c, is_conn R c <-> c ∈ l \/ c ∈ fl;
  sp_disjoint : forall c, c ∈ l -> c ∉ fl;
}.

Lemma split_alloc s l fl c s' : split_pool s l fl -> spm_allocate_connection R s = (Ok c, s') ->
  c = 0 /\ fl = [] /\ s' = s \/ exists fl', fl = c :: fl' /\ c <> 0 /\ split_pool s' (c :: l) fl'.
Proof.
  intros [Hp Hnd Hall Hdis]. unfold spm_allocate_connection, bind, get, gets. destruct fl as [|d fl].
  - rewrite (alloc_empty _ _ _ (ro_fit _ Hrom) _ Hp). intros [= <- <-]. left. split_and!; [done|done|by destruct s].
  - destruct (alloc_lists _ _ _ (ro_fit _ Hrom) _ _ _ Hp) as (p' & -> & Hp' & _). intros [= <- <-]. right. exists fl.
    assert (is_conn R d) as Hd by (apply Hall; right; left). pose proof (po_nodup _ _ _ _ _ Hp) as [Hni _]%NoDup_cons.
    split_and!; [done|by pose proof (conn_pos Hrom d Hd)|]. split; [exact Hp'| | |].
    + apply NoDup_cons. split; [|done]. intros Hin. apply (Hdis d Hin). left.
    + intros c. rewrite Hall, !elem_of_cons. tauto.
    + intros c [->|Hc]%elem_of_cons; [done|]. intros Hin. apply (Hdis c Hc). by right.
Qed.

Lemma split_free s l fl c s' : split_pool s l fl -> c ∈ l -> spm_free_connection R c s = (Ok tt, s') ->
  split_pool s' (base.filter (fun d => d <> c) l) (c :: fl).
Proof.
  intros [Hp Hnd Hall Hdis] Hc [= <-]. assert (is_conn R c) as Hconn by (apply Hall; by left).
  destruct (free_lists _ _ _ (ro_fit _ Hrom) _ c _ Hp Hconn (Hdis c Hc)) as [Hp' _]. split; [exact Hp'| | |].
  - by apply NoDup_filter.
  - intros d. rewrite list_elem_of_filter, elem_of_cons, Hall. destruct (decide (d = c)) as [->|]; tauto.
  - intros d [Hne Hd]%list_elem_of_filter [?|Hin]%elem_of_cons; [done|]. by apply (Hdis d).
Qed.

Lemma use_split s l : pool_use R s l -> exists fl, split_pool s l fl.
Proof.
  induction 1 as [s s' He|s l c s' _ [fl IH] He|s l c s' _ [fl IH] Hc He|s l s' _ [fl IH] Heq].
  - revert He. unfold spm_init_connection_space, bind, get, gets.
    destruct (pool_init_lists _ _ _ (ro_fit _ Hrom) (pool s) (ro_num _ Hrom)) as (p' & fl & Hi & Hp & Hsl & _).
    change (size_of_pool CONNECTION_SIZE (CONN_HANDLE_MAX_NUM R)) with (pool_buffer_size R) in Hi. rewrite Hi. cbn. intros [= <-]. exists fl.
    split; [exact Hp|constructor| |].
    + intros c. unfold is_conn. rewrite Hsl, elem_of_nil. tauto.
    + by intros c Hc%not_elem_of_nil.
  - destruct (split_alloc s l fl c s' IH He) as [(-> & -> & ->)|(fl' & -> & Hne & Hs)]; [by exists []|].
    rewrite (proj2 (Z.eqb_neq c 0) Hne). by exists fl'.
  - exists (c :: fl). by eapply split_free.
  - exists fl. destruct IH. split; [by rewrite Heq|done..].
Qed.

(** All connections are in use when none is free. *)
Lemma split_full s l : split_pool s l [] -> length l = CONN_HANDLE_MAX_NUM R.
Proof.
  intros [_ Hnd Hall _]. pose proof (ro_fit _ Hrom) as Hfit.
  set (all := slot_at (connection_pool R) CONNECTION_SIZE <$> seqZ 0 (Z.of_nat (CONN_HANDLE_MAX_NUM R))).
  assert (l ≡ₚ all) as ->.
  { apply NoDup_Permutation; [done| |].
    - apply NoDup_fmap_2; [|apply NoDup_seqZ]. intros i j. by apply (slot_at_inj _ _ _ Hfit).
    - intros c. rewrite <- (or_False (c ∈ l)), <- (elem_of_nil c), <- Hall. unfold all. rewrite list_elem_of_fmap. unfold is_conn, slot.
      split; intros (i & H1 & H2); exists i; rewrite elem_of_seqZ in *; (split; [done || lia|done || lia]). }
  unfold all. rewrite length_fmap, length_seqZ. lia.
Qed.
End use.
