(* ===== verification/SpmSpec.v ===== *)
(** * The partition manager: properties

    All of them but the last are about the states that a system reaches from
    start-up while it keeps to the protocol of [SpmRun.v], when the word behind
    the connection pool is not the magic number of a chunk in use. *)

From S2P Require Import Prelude Bytes SpmLists SpmTypes SpmIpc SpmApi SpmSystem SpmInv SpmRules SpmQueues SpmSend SpmVectors SpmSchedule SpmServe SpmClient SpmRun SpmBoot SpmStreams.
From stdpp Require Import base list numbers functions sets sorting.
From Stdlib Require Import ZArith Lia.

Open Scope Z_scope.
Open Scope tfm_scope.

Section spec.
Context (R : spm_rom) (memory_check : Z -> Z -> Z -> Z -> bool) (bnd : Z -> Z).
Implicit Types (s : spm_t) (fl : list Z) (q : Z -> list Z) (c p : Z) (e : event) (es : list event).

(** The states after start-up and a run. *)
Definition reachable s : Prop :=
  exists s0 u s1 es, at_reset (R := R) bnd s0 /\ tfm_spm_init R s0 = (Ok u, s1) /\ polite_run R memory_check es s1 = Some s.

Context (Hrom : rom_ok R).

Lemma reachable_inv s : reachable s -> exists fl q, inv R memory_check bnd s fl q /\ running s.
Proof.
  intros (s0 & u & s1 & es & Hc & Hi & Hrun).
  destruct (run_ok _ _ _ _ _ _ (wp_spm_init (memory_check := memory_check) Hrom bnd s0 Hc) Hi) as (fl & Hi1 & Hr1).
  by eapply (run_inv Hrom).
Qed.
End spec.

(** C34. The invariant of the partition manager holds after start-up and after
    every step of a system that keeps to the protocol: the connection pool is
    a list of free chunks, the queues of messages are linked lists that share
    no message, a service's signal is asserted exactly when a message for it
    waits, a client that waits has one request, the vectors of every message
    lie where its client may access them, and the running partition waits for
    nothing.  A step fails only by the reset of a caught programmer error. *)
Theorem spm_invariant R memory_check bnd s e :
  rom_ok R -> reachable R memory_check bnd s ->
  (exists fl q, inv R memory_check bnd s fl q /\ running s) /\
  (polite R s e = true ->
    match step R memory_check e s with
    | (Ok _, s') => exists fl q, inv R memory_check bnd s' fl q /\ running s'
    | (Err err, _) => err = PANIC
    end).
Proof.
  intros Hrom Hs. destruct (reachable_inv R memory_check bnd Hrom s Hs) as (fl & q & Hi & Hr). split; [by exists fl, q|]. intros Hp.
  pose proof (step_ok (memory_check := memory_check) Hrom bnd s fl q e Hi Hr Hp) as Hw. unfold wp in Hw.
  destruct (step R memory_check e s) as [[r|err] s']; [|done]. destruct Hw as (fl' & Ha).
  destruct (af_inv _ _ _ _ _ _ Ha) as [q' Hi']. exists fl', q'. split; [exact Hi'|apply Ha].
Qed.

(** C35. Memory safety, in a system that keeps to the protocol ([polite]): a
    call of the API changes memory only where the platform allows the running
    partition to write, or where it allows the client of a message that the
    running partition serves to write.  The protocol matters: a service that
    writes to an output vector which its message does not have changes memory
    of a partition for which it has no message
    ([SpmWitness.write_without_output_vector]). *)
Theorem spm_memory_safety R memory_check bnd s e r s' :
  rom_ok R -> reachable R memory_check bnd s -> polite R s e = true -> (forall a d, e <> UserWrite a d) ->
  step R memory_check e s = (Ok r, s') ->
  forall a, ~ allowed (R := R) (memory_check := memory_check) bnd s a -> mem s' a = mem s a.
Proof.
  intros Hrom Hs Hp He Hst. destruct (reachable_inv R memory_check bnd Hrom s Hs) as (fl & q & Hi & Hr).
  destruct (step_after Hrom bnd s fl q e r s' Hi Hr Hp Hst) as (fl' & Ha). apply (af_mem _ _ _ _ _ _ Ha).
  destruct e; try done. by destruct (He a d).
Qed.

(** C36. The scheduler runs a partition that can go on, one that no partition
    that can go on has priority over, and fails only when no partition can. *)
Theorem spm_schedules_highest_priority R memory_check bnd s :
  rom_ok R -> reachable R memory_check bnd s ->
  match ipc_schedule R s with
  | (Ok _, s') =>
      let p := current s' in
      p ∈ partition_listhead R /\ ready s p /\ waiting s' p = 0 /\ mem s' = mem s /\
      forall p', p' ∈ partition_listhead R -> ready s p' -> priority R p <= priority R p'
  | (Err _, _) => forall p, p ∈ partition_listhead R -> ~ ready s p
  end.
Proof.
  intros Hrom Hs. destruct (reachable_inv R memory_check bnd Hrom s Hs) as (fl & q & Hi & Hr).
  destruct (i_threads _ _ _ _ _ _ Hi) as (ts & Hpath & Hperm & Hsort & _).
  assert (wp (ipc_schedule R) (fun _ s' => first_ready s ts = Some (current s') /\ waiting s' (current s') = 0 /\ mem s' = mem s)
    (fun _ _ => forall p, p ∈ partition_listhead R -> ~ ready s p) s) as Hw.
  { eapply (wp_schedule Hrom); [exact Hi| |done]. intros ts' p s' Hpath' Hf Hrs <- Hrun. split_and!; [|exact Hrun|apply Hrs].
    by rewrite (path_inj _ _ _ _ Hpath Hpath'). }
  unfold wp in Hw. destruct (ipc_schedule R s) as [[u|err] s']; [|exact Hw]. destruct Hw as (Hf & Hw & Hm).
  destruct (first_ready_in _ _ _ Hf) as [Hp Hrd]. cbv zeta. split_and!; [by rewrite <- Hperm|done|done|done|].
  intros p' Hp' Hrd'. rewrite <- Hperm in Hp'. by eapply first_ready_least.
Qed.

(** [psa_get] delivers messages in the order in which they were sent: the
    oldest of those with the signal is copied to the caller and leaves the
    list, and the signal stays asserted exactly when another one waits.  It
    fails only when the signal, asserted for another reason, has no message. *)
Theorem psa_get_takes_oldest R memory_check bnd s signal ptr :
  rom_ok R -> reachable R memory_check bnd s -> is_mailbox R s = false ->
  IS_ONLY_ONE_BIT_IN_UINT32 signal = true -> memory_check (my_boundary s) ptr MSG_SIZE TFM_HAL_ACCESS_READWRITE = true -> asserted s (current s) signal ->
  exists r s', tfm_spm_partition_psa_get R memory_check signal ptr s = (Ok r, s') /\
    (r = PSA_SUCCESS /\ got (R := R) s signal ptr s' /\
      (asserted s' (current s) signal <-> exists d, d ∈ msgs R s' (current s) /\ conn_signal R s' d = signal) \/
     r = PSA_ERROR_DOES_NOT_EXIST /\ s' = s /\ forall c, c ∈ msgs R s (current s) -> conn_signal R s c <> signal).
Proof.
  intros Hrom Hs Hm Hbit Hck Has. destruct (reachable_inv R memory_check bnd Hrom s Hs) as (fl & q & Hi & Hr).
  assert (~ mailbox R (current s)) as Hm' by (intros Hmb; unfold is_mailbox in Hm; by rewrite Hmb in Hm).
  destruct (run_total _ _ _ (wp_get_exact Hrom bnd s fl q signal ptr Hi Hr Hm' Hbit Hck Has)) as (r & s' & He & Hres). exists r, s'. split; [exact He|].
  destruct Hres as [(-> & Hg & q' & Hi')|?]; [left|by right]. split_and!; [done|done|]. apply (signal_of_messages bnd s s' fl fl q q' signal Hi Hm' Hi').
  destruct Hg as (ys & c & zs & Hq & Hc & _). exists c. split; [|exact Hc]. rewrite Hq. apply elem_of_app. right. left.
Qed.

(** C38. A call returns the answer to its own request, in runs in which all
    partitions keep to the protocol ([polite_run]; in particular, services
    answer only messages that they have got and not answered).  When [psa_call]
    makes its caller wait, there is a request of the caller; while no service
    answers that request, the caller goes on waiting for it; and once a service
    answers it, the caller's call returns that status the next time the caller
    runs, whatever happened in between.  A service that does not keep to the
    protocol can break it: it answers an idle connection of the waiting client,
    whose call then returns that status ([SpmWitness.idle_connection_answered]). *)
Theorem psa_call_returns_reply R memory_check bnd s h ctrl inp outp s1 :
  rom_ok R -> reachable R memory_check bnd s -> polite_run R memory_check [PsaCall h ctrl inp outp] s = Some s1 ->
  let p := current s in
  waiting s1 p <> 0 ->
  exists c, p_client (conns s1 c) = p /\ spm_validate_connection R c s1 = true /\
    forall es s2, unanswered R c es = true -> polite_run R memory_check es s1 = Some s2 ->
      waiting s2 p = ASYNC_MSG_REPLY /\ current s2 <> p /\
      forall mh status s3, handle_to_connection R mh = c -> polite_run R memory_check [PsaReply mh status] s2 = Some s3 ->
        forall es' s4, elsewhere R memory_check p es' s3 = true -> polite_run R memory_check es' s3 = Some s4 -> current s4 = p ->
          ret_code s4 p = u32 (answer_value (m_type (msg (conns s2 c))) mh status).
Proof.
  intros Hrom Hs Hcall p Hwait. destruct (reachable_inv R memory_check bnd Hrom s Hs) as (fl & q & Hi & Hr).
  destruct (polite_step R memory_check _ _ _ Hcall) as (r & Hp & Hst).
  destruct (step_after Hrom bnd s fl q _ r s1 Hi Hr Hp Hst) as (fl1 & Ha). destruct (af_inv _ _ _ _ _ _ Ha) as [q1 Hi1].
  destruct (af_request _ _ _ _ _ _ Ha eq_refl) as [?|(c & Ho & Hcl)]; [done|]. fold p in Hcl.
  destruct (outstanding_client Hrom bnd s1 fl1 q1 c Hi1 Ho) as (HpP & Hpm & _). rewrite Hcl in HpP, Hpm.
  exists c. pose proof (live_range Hrom c (proj1 (proj1 Ho))).
  split_and!; [done|by apply (validate_live (memory_check := memory_check) Hrom bnd s1 fl1 q1 c Hi1 ltac:(lia)), Ho|].
  intros es s2 Hun Hrun. destruct (run_call Hrom bnd es s1 fl1 q1 s2 c p Hi1 (af_running _ _ _ _ _ _ Ha) Ho Hcl Hun Hrun) as (fl2 & q2 & Hi2 & Hr2 & Ho2 & Hcl2).
  destruct (i_calls _ _ _ _ _ _ Hi2 c Ho2) as [Hw2 _]. rewrite Hcl2 in Hw2. split_and!; [done|intros Hcur; unfold running in Hr2; rewrite Hcur, Hw2 in Hr2; done|].
  intros mh status s3 Hmh Hrep. destruct (polite_step R memory_check _ _ _ Hrep) as (r3 & Hp3 & Hst3).
  destruct (step_after Hrom bnd s2 fl2 q2 _ r3 s3 Hi2 Hr2 Hp3 Hst3) as (fl3 & Ha3). destruct (af_inv _ _ _ _ _ _ Ha3) as [q3 Hi3].
  pose proof (af_reply _ _ _ _ _ _ Ha3 c (answer_value (m_type (msg (conns s2 c))) mh status) (conj (eq_sym Hmh) (conj Ho2 eq_refl))) as Hd. rewrite Hcl2 in Hd.
  intros es' s4 Hel Hrun' Hcur.
  destruct (run_due Hrom bnd es' s3 fl3 q3 s4 p _ Hi3 (af_running _ _ _ _ _ _ Ha3) HpP Hpm Hd Hel Hrun') as (fl4 & q4 & Hi4 & Hr4 & Hd4).
  by eapply (due_running bnd s4 fl4 q4).
Qed.

(** C39. Vectors are streams.  For a vector that the message has, of a size
    that is not zero, and that is not mapped: [psa_read] copies the next bytes
    of the client's input vector, as many as asked for and left, [psa_skip]
    passes over them, and [psa_write] appends to the output vector, when the
    bytes fit in what is left of it; each moves the position by that many
    bytes.  For a vector that the message does not have, the size left may wrap
    around, and more is moved ([SpmWitness.write_without_output_vector]). *)
Theorem message_vectors_are_streams R memory_check bnd s h i n :
  rom_ok R -> reachable R memory_check bnd s -> serves (R := R) s h i -> 0 <= n ->
  let c := handle_to_connection R h in let x := conns s c in
  let k := Z.min n (in_size (msg x) i - invec_accessed x i) in
  (in_size (msg x) i <> 0 -> IOVEC_IS_MAPPED x (i + INVEC_IDX_BASE) = false ->
    (exists s', tfm_spm_partition_psa_skip R h i n s = (Ok k, s') /\ invec_accessed (conns s' c) i = invec_accessed x i + k /\ mem s' = mem s) /\
    forall buffer, memory_check (my_boundary s) buffer n TFM_HAL_ACCESS_READWRITE = true ->
      exists s', tfm_spm_partition_psa_read R memory_check h i buffer n s = (Ok k, s') /\ invec_accessed (conns s' c) i = invec_accessed x i + k /\
        forall a, mem s' a = mem_write buffer (mem_read (mem s) (invec_base x i + invec_accessed x i) k) (mem s) a) /\
  (out_size (msg x) i <> 0 -> IOVEC_IS_MAPPED x (i + OUTVEC_IDX_BASE) = false -> n <= out_size (msg x) i - outvec_written x i ->
    forall buffer, memory_check (my_boundary s) buffer n TFM_HAL_ACCESS_READABLE = true ->
      exists s', tfm_spm_partition_psa_write R memory_check h i buffer n s = (Ok PSA_SUCCESS, s') /\ outvec_written (conns s' c) i = outvec_written x i + n /\
        forall a, mem s' a = mem_write (outvec_base x i + outvec_written x i) (mem_read (mem s) buffer n) (mem s) a).
Proof.
  intros Hrom Hs Hsv Hn c x k. destruct (reachable_inv R memory_check bnd Hrom s Hs) as (fl & q & Hi & _). split.
  - intros Hne Hmap. split.
    + destruct (run_total _ _ _ (wp_skip_exact (memory_check := memory_check) Hrom bnd s fl q h i n Hi Hsv Hn Hne Hmap)) as (r & s' & He & -> & Hm & Ha & _). by exists s'.
    + intros buffer Hck. destruct (run_total _ _ _ (wp_read_exact Hrom bnd s fl q h i buffer n Hi Hsv Hn Hne Hmap Hck)) as (r & s' & He & -> & Hm & Ha & _).
      by exists s'.
  - intros Hne Hmap Hroom buffer Hck.
    destruct (run_total _ _ _ (wp_write_exact Hrom bnd s fl q h i buffer n Hi Hsv Hn Hne Hroom Hmap Hck)) as (r & s' & He & -> & Hm & Ha & _). by exists s'.
Qed.

(** C40. Handles: whatever allocations and frees follow start-up, the handle of
    a connection leads back to it, is no static handle and not null; the pool
    hands out a connection that is not in use, each once until it is freed, and
    none exactly when all are in use.  A handle is taken for one of a
    connection when it leads to a connection in use, and when it leads one
    chunk behind the last connection while the word in front of that address
    is the magic number, and for no other. *)
Theorem connection_handles R s l :
  rom_ok R -> pool_use R s l ->
  NoDup l /\ (forall c, c ∈ l -> is_conn R c) /\
  (forall c, is_conn R c -> exists h s', connection_to_handle R c s = (Ok h, s') /\
    handle_to_connection R h = c /\ IS_STATIC_HANDLE h = false /\ h <> PSA_NULL_HANDLE) /\
  (forall h, let c := handle_to_connection R h in
    spm_validate_connection R c s = true <-> c ∈ l \/ c = behind_pool R /\ p_magic (pool s) (c - CHUNK_HEAD) = POOL_MAGIC_ALLOCATED) /\
  (exists c s', spm_allocate_connection R s = (Ok c, s') /\
    if c =? 0 then length l = CONN_HANDLE_MAX_NUM R else is_conn R c /\ c ∉ l).
Proof.
  intros Hrom Huse. destruct (use_split Hrom s l Huse) as [fl Hsp]. pose proof Hsp as [Hp Hnd Hall Hdis]. split_and!; [exact Hnd| | | |].
  - intros c Hc. apply Hall. by left.
  - intros c Hc. pose proof (handle_of_connection Hrom s c Hc) as Hh. cbv zeta in Hh.
    eexists _, (put_loop_index ((loop_index s + 1) mod 8) s). split; [|exact Hh]. reflexivity.
  - intros h c. unfold spm_validate_connection. rewrite (is_valid_lists _ _ _ (ro_fit _ Hrom) _ fl c Hp (handle_range h)).
    change (slot _ _ _ c) with (is_conn R c). rewrite Hall. split.
    + intros [[[?|?] ?]|[-> ?]]; [by left|done|by right].
    + intros [Hc|[-> ?]]; [left|by right]. split; [by left|by apply Hdis].
  - destruct (spm_allocate_connection R s) as [[c|e] s'] eqn:He.
    2:{ exfalso. revert He. unfold spm_allocate_connection, bind, get, gets. by destruct (tfm_pool_alloc _ _). }
    exists c, s'. split; [done|]. destruct (split_alloc Hrom s l fl c s' Hsp He) as [(-> & -> & _)|(fl' & -> & Hne & [_ Hnd' _ _])].
    + by apply (split_full Hrom s l).
    + rewrite (proj2 (Z.eqb_neq c 0) Hne). split; [apply Hall; right; left|]. by apply NoDup_cons in Hnd' as [? _].
Qed.

(** In the states of a system that keeps to the protocol, and in which the word
    behind the pool is not the magic number, a handle is taken for one of a
    connection exactly when it leads to one that is not free. *)
Theorem reachable_handles R memory_check bnd s :
  rom_ok R -> reachable R memory_check bnd s ->
  exists fl, NoDup fl /\ (forall c, c ∈ fl -> is_conn R c) /\
    forall h, spm_validate_connection R (handle_to_connection R h) s = true <-> live R fl (handle_to_connection R h).
Proof.
  intros Hrom Hs. destruct (reachable_inv R memory_check bnd Hrom s Hs) as (fl & q & Hi & _). pose proof (i_pool _ _ _ _ _ _ Hi) as Hpool.
  exists fl. split_and!; [apply Hpool| |].
  - intros c Hc. pose proof (po_slots _ _ _ _ _ Hpool) as Hsl. rewrite Forall_forall in Hsl. by apply Hsl.
  - intros h. apply (validate_live Hrom bnd s fl q _ Hi), handle_range.
Qed.
