(* ===== verification/SpmWitness.v ===== *)
(** * The partition manager: the properties at concrete inputs *)

From S2P Require Import Prelude Bytes SpmLists SpmTypes SpmIpc SpmApi SpmSystem SpmDemo SpmInv SpmSchedule SpmVectors SpmRun SpmServe SpmBoot SpmStreams SpmSpec.
From stdpp Require Import base list numbers functions sets sorting.
From Stdlib Require Import ZArith Lia.

Open Scope Z_scope.
Open Scope tfm_scope.

(** ** The platform *)

Ltac each_part H :=
  cbn in H; rewrite !elem_of_cons in H; destruct H as [->|[->|[->|[->|[->|[->|H]]]]]]; [| | | | | |by apply not_elem_of_nil in H].

Ltac each_service H := cbn in H; rewrite !elem_of_cons in H; destruct H as [->|[->|H]]; [| |by apply not_elem_of_nil in H].

Lemma demo_slot p : 0x8000 <= p -> ~ slot (connection_pool demo_rom) CONNECTION_SIZE (CONN_HANDLE_MAX_NUM demo_rom) p.
Proof. intros Hp (i & Hi & ->). unfold slot_at, stride, CONNECTION_SIZE, INSTANCE_HEAD, CHUNK_HEAD in Hp. cbn in Hp, Hi. lia. Qed.

Lemma demo_client_ok p id : p ∈ partition_listhead demo_rom ->
  client_ok demo_rom p id <-> (if IS_NS_AGENT (pflags (ldinf demo_rom p)) then client_id_base (ldinf demo_rom p) <= id <= client_id_limit (ldinf demo_rom p) else id = pid (ldinf demo_rom p)).
Proof. intros _. unfold client_ok, agent. case_decide as Ha; [by rewrite Ha|]. by apply not_true_is_false in Ha as ->. Qed.

Lemma demo_agents p : p ∈ partition_listhead demo_rom -> agent demo_rom p -> p = TZ \/ p = MB.
Proof. intros Hp Ha. each_part Hp; auto; by vm_compute in Ha. Qed.

Lemma demo_rom_ok : rom_ok demo_rom.
Proof.
  split.
  - split; vm_compute; reflexivity.
  - vm_compute; reflexivity.
  - vm_compute; lia.
  - apply (bool_decide_unpack _). vm_compute. exact I.
  - intros p Hp. each_part Hp; (split; [done|by apply demo_slot]).
  - intros p Hp. each_part Hp; vm_compute; done.
  - intros p p' Hp Hp' Heq. each_part Hp; each_part Hp'; vm_compute in Heq; done.
  - apply (bool_decide_unpack _). vm_compute. exact I.
  - split; [done|]. apply (bool_decide_unpack _). vm_compute. exact I.
  - intros v Hv. each_service Hv; (split_and!; [done|apply (bool_decide_unpack _); vm_compute; exact I|by vm_compute]).
  - intros v Hv. each_service Hv; cbv zeta; (split_and!; [|done|done]); [by exists 4|by exists 5].
  - intros p i Hp Hi. each_part Hp; by apply not_elem_of_nil in Hi.
  - intros i v Hv. subst v. revert Hv. cbn. destruct (i =? 0); [|done]. intros _. split; [left|done].
  - intros p Hp Hm. each_part Hp; try done; by vm_compute in Hm.
  - intros p Hp Ha. destruct (demo_agents p Hp Ha) as [-> | ->]; done.
  - intros p p' id Hp Hp' Ha Ha' H1 H2. apply demo_client_ok in H1; [|done]. apply demo_client_ok in H2; [|done].
    destruct (demo_agents p Hp Ha) as [-> | ->], (demo_agents p' Hp' Ha') as [-> | ->]; try done.
    + change (-100 <= id <= -1) in H1. change (-300 <= id <= -200) in H2. lia.
    + change (-300 <= id <= -200) in H1. change (-100 <= id <= -1) in H2. lia.
  - intros p Hp Ha Hm. destruct (demo_agents p Hp Ha) as [-> | ->]; [done|]. by destruct Hm.
Qed.

Definition demo_bnd (p : Z) : Z := boundary (demo_part p).

Lemma demo_cold : at_reset (R := demo_rom) demo_bnd cold.
Proof.
  split; [|done|done|done|by vm_compute]. intros a. cbn [mem cold]. apply Z.mod_pos_bound. lia.
Qed.

Lemma init_pair m (s0 s1 : spm_t) : match m s0 with (Ok tt, _) => true | _ => false end = true -> s1 = snd (m s0) -> m s0 = (Ok tt, s1).
Proof. destruct (m s0) as [[[]|] s']; [|done]. by intros _ ->. Qed.

(** ** A run

    The service and the agent wait; [CB] calls the stateless service with an
    input vector of five bytes and an output vector of six. *)

Definition demo_polite_run (es : list event) : option spm_t := polite_run demo_rom demo_check es booted.

Definition after_run (es : list event) : spm_t := default cold (demo_polite_run es).

Definition is_run (es : list event) : bool := match demo_polite_run es with Some _ => true | None => false end.

Lemma run_reachable es : is_run es = true -> reachable demo_rom demo_check demo_bnd (after_run es).
Proof.
  unfold is_run, after_run, demo_polite_run. intros Hr. exists cold, tt, booted, es. split_and!; [apply demo_cold| |].
  - apply init_pair; [vm_compute; reflexivity|reflexivity].
  - destruct (polite_run _ _ es booted); [done|by vm_compute in Hr].
Qed.

Definition iovec (a n : Z) : list Z := le_bytes 4 a ++ le_bytes 4 n.

Definition prepared : list event :=
  [PsaWait 48 0x80000000; PsaWait 4 0x80000000;
   UserWrite (at_part CB 0x100) (iovec (at_part CB 0x200) 5 ++ iovec (at_part CB 0x300) 6);
   UserWrite (at_part CB 0x200) [1; 2; 3; 4; 5]].

Definition call : event := PsaCall (handle_static 0 1) (pack 0 1 1) (at_part CB 0x100) (at_part CB 0x108).

Definition called_run : list event := prepared ++ [call].

Definition got_run : list event := called_run ++ [PsaGet 16 (at_part SP 0x100)].

Lemma polite_run_app R mc es es' s s1 : polite_run R mc es s = Some s1 -> polite_run R mc (es ++ es') s = polite_run R mc es' s1.
Proof.
  revert s. induction es as [|e es IH]; intros s; cbn; [by intros [= ->]|]. destruct (polite R s e); [|done].
  destruct (step R mc e s) as [[r|err] s']; [|done]. apply IH.
Qed.

Lemma polite_run_none R mc es es' s : polite_run R mc es s = None -> polite_run R mc (es ++ es') s = None.
Proof.
  revert s. induction es as [|e es IH]; intros s; cbn; [done|]. destruct (polite R s e); [|done].
  destruct (step R mc e s) as [[r|err] s']; [|done]. apply IH.
Qed.

Lemma run_on es es' : is_run (es ++ es') = true -> polite_run demo_rom demo_check es' (after_run es) = Some (after_run (es ++ es')).
Proof.
  unfold is_run, after_run, demo_polite_run. destruct (polite_run _ _ es booted) as [s1|] eqn:He.
  - rewrite (polite_run_app _ _ _ _ _ _ He). change (default cold (Some s1)) with s1. by destruct (polite_run _ _ es' s1).
  - intros Hr. exfalso. revert Hr. rewrite polite_run_none; [done|exact He].
Qed.

(** The handle of the message. *)
Definition msg_handle : Z := 2594.


(** ** The properties *)

Lemma spm_invariant_witness :
  (exists fl q, inv demo_rom demo_check demo_bnd (after_run prepared) fl q /\ running (after_run prepared)) /\
  match step demo_rom demo_check call (after_run prepared) with
  | (Ok _, s') => exists fl q, inv demo_rom demo_check demo_bnd s' fl q /\ running s'
  | (Err err, _) => err = PANIC
  end.
Proof.
  destruct (spm_invariant demo_rom demo_check demo_bnd (after_run prepared) call) as [Hi Hs]; [exact demo_rom_ok|apply run_reachable; vm_compute; reflexivity|].
  split; [exact Hi|]. apply Hs. vm_compute. reflexivity.
Defined.

(** The client's message overwrites nothing of the client [CA]. *)
Lemma spm_memory_safety_witness :
  exists r s', step demo_rom demo_check (PsaGet 16 (at_part SP 0x100)) (after_run called_run) = (Ok r, s') /\
    forall a, ~ allowed (R := demo_rom) (memory_check := demo_check) demo_bnd (after_run called_run) a -> mem s' a = mem (after_run called_run) a.
Proof.
  destruct (step demo_rom demo_check (PsaGet 16 (at_part SP 0x100)) (after_run called_run)) as [[r|err] s'] eqn:Hs.
  - exists r, s'. split; [done|]. apply (spm_memory_safety demo_rom demo_check demo_bnd (after_run called_run) (PsaGet 16 (at_part SP 0x100)) r s');
      [exact demo_rom_ok|apply run_reachable; vm_compute; reflexivity|vm_compute; reflexivity|done|exact Hs].
  - exfalso. assert (match step demo_rom demo_check (PsaGet 16 (at_part SP 0x100)) (after_run called_run) with (Ok _, _) => true | _ => false end = true) as Hok
      by (vm_compute; reflexivity). by rewrite Hs in Hok.
Defined.

Lemma spm_schedules_highest_priority_witness :
  exists s', fst (ipc_schedule demo_rom (after_run called_run)) = Ok tt /\ s' = snd (ipc_schedule demo_rom (after_run called_run)) /\
    current s' = SP /\ ready (after_run called_run) SP /\
    forall p, p ∈ partition_listhead demo_rom -> ready (after_run called_run) p -> priority demo_rom SP <= priority demo_rom p.
Proof.
  pose proof (spm_schedules_highest_priority demo_rom demo_check demo_bnd (after_run called_run) demo_rom_ok
    (run_reachable called_run ltac:(vm_compute; reflexivity))) as Hs.
  assert (match ipc_schedule demo_rom (after_run called_run) with (Ok _, s') => current s' =? SP | _ => false end = true) as Hok by (vm_compute; reflexivity).
  destruct (ipc_schedule demo_rom (after_run called_run)) as [[[]|err] s']; [|done]. apply Z.eqb_eq in Hok. rewrite Hok in Hs.
  destruct Hs as (_ & Hr & _ & _ & Hall). by exists s'.
Defined.

Lemma psa_get_takes_oldest_witness :
  exists r s', tfm_spm_partition_psa_get demo_rom demo_check 16 (at_part SP 0x100) (after_run called_run) = (Ok r, s') /\ r = PSA_SUCCESS /\
    got (R := demo_rom) (after_run called_run) 16 (at_part SP 0x100) s'.
Proof.
  destruct (psa_get_takes_oldest demo_rom demo_check demo_bnd (after_run called_run) 16 (at_part SP 0x100)) as (r & s' & He & Hres);
    [exact demo_rom_ok|apply run_reachable; vm_compute; reflexivity|vm_compute; reflexivity|vm_compute; reflexivity|vm_compute; reflexivity|by vm_compute|].
  exists r, s'. split; [exact He|]. destruct Hres as [(Hr & Hg & _)|(Hr & _)]; [exact (conj Hr Hg)|]. exfalso.
  assert (match fst (tfm_spm_partition_psa_get demo_rom demo_check 16 (at_part SP 0x100) (after_run called_run)) with Ok r => r =? PSA_SUCCESS | _ => false end = true) as Hok
    by (vm_compute; reflexivity).
  rewrite He, Hr in Hok. by vm_compute in Hok.
Defined.

(** The client [CB] waits for its request until the service answers it. *)
Lemma psa_call_returns_reply_witness :
  exists c, p_client (conns (after_run called_run) c) = CB /\ spm_validate_connection demo_rom c (after_run called_run) = true /\
    forall es s2, unanswered demo_rom c es = true -> polite_run demo_rom demo_check es (after_run called_run) = Some s2 ->
      waiting s2 CB = ASYNC_MSG_REPLY /\ current s2 <> CB /\
      forall mh status s3, handle_to_connection demo_rom mh = c -> polite_run demo_rom demo_check [PsaReply mh status] s2 = Some s3 ->
        forall es' s4, elsewhere demo_rom demo_check CB es' s3 = true -> polite_run demo_rom demo_check es' s3 = Some s4 -> current s4 = CB ->
          ret_code s4 CB = u32 (answer_value (m_type (msg (conns s2 c))) mh status).
Proof.
  apply (psa_call_returns_reply demo_rom demo_check demo_bnd (after_run prepared) (handle_static 0 1) (pack 0 1 1) (at_part CB 0x100) (at_part CB 0x108) (after_run called_run));
    [exact demo_rom_ok|apply run_reachable; vm_compute; reflexivity|apply run_on; vm_compute; reflexivity|by vm_compute].
Defined.

Lemma message_served : serves (R := demo_rom) (after_run got_run) msg_handle 0.
Proof. split; by vm_compute. Qed.

Lemma message_left :
  let x := conns (after_run got_run) (handle_to_connection demo_rom msg_handle) in Z.min 3 (in_size (msg x) 0 - invec_accessed x 0) = 3.
Proof. by vm_compute. Qed.

Lemma message_place :
  let x := conns (after_run got_run) (handle_to_connection demo_rom msg_handle) in invec_base x 0 + invec_accessed x 0 = at_part CB 0x200.
Proof. by vm_compute. Qed.

Lemma message_vectors_are_streams_witness :
  exists s', tfm_spm_partition_psa_read demo_rom demo_check msg_handle 0 (at_part SP 0x200) 3 (after_run got_run) = (Ok 3, s') /\
    forall a, mem s' a = mem_write (at_part SP 0x200) (mem_read (mem (after_run got_run)) (at_part CB 0x200) 3) (mem (after_run got_run)) a.
Proof.
  pose proof (message_vectors_are_streams demo_rom demo_check demo_bnd (after_run got_run) msg_handle 0 3 demo_rom_ok
    (run_reachable got_run ltac:(vm_compute; reflexivity)) message_served ltac:(lia)) as Hall.
  cbv zeta in Hall. rewrite message_left, message_place in Hall. destruct Hall as [Hin _].
  destruct Hin as [_ Hread]; [by vm_compute|vm_compute; reflexivity|].
  destruct (Hread (at_part SP 0x200)) as (s' & He & _ & Hm); [vm_compute; reflexivity|]. exists s'. exact (conj He Hm).
Defined.

(** The pool of a system that starts, and a connection from it. *)
Definition pooled : spm_t := snd (spm_init_connection_space demo_rom cold).
Definition allocated : res Z * spm_t := spm_allocate_connection demo_rom pooled.

Definition first_conn : Z := match fst allocated with Ok c => c | Err _ => 0 end.

Lemma pooled_use : pool_use demo_rom pooled [].
Proof.
  apply (pu_init _ cold). unfold pooled. generalize (eq_refl : fst (spm_init_connection_space demo_rom cold) = Ok tt).
  destruct (spm_init_connection_space demo_rom cold) as [x s']. by intros [= ->].
Qed.

Lemma allocated_use : pool_use demo_rom (snd allocated) [first_conn].
Proof.
  assert (spm_allocate_connection demo_rom pooled = (Ok first_conn, snd allocated)) as He.
  { unfold first_conn. assert (match fst allocated with Ok _ => true | _ => false end = true) as Hok by (vm_compute; reflexivity).
    unfold allocated in *. by destruct (spm_allocate_connection demo_rom pooled) as [[]]. }
  exact (pu_alloc demo_rom pooled [] first_conn (snd allocated) pooled_use He).
Qed.

Lemma first_is_conn : is_conn demo_rom first_conn.
Proof. exists 2. split; [by vm_compute|vm_compute; reflexivity]. Qed.

(** A handle of the connection is accepted. *)
Lemma connection_handles_witness : exists h, handle_to_connection demo_rom h = first_conn /\
  spm_validate_connection demo_rom (handle_to_connection demo_rom h) (snd allocated) = true.
Proof.
  destruct (connection_handles demo_rom (snd allocated) [first_conn] demo_rom_ok allocated_use) as (_ & _ & Hh & Hv & _).
  destruct (Hh first_conn first_is_conn) as (h & s' & _ & Hc & _). exists h. split; [exact Hc|].
  apply (Hv h). left. rewrite Hc. left.
Defined.

Lemma reachable_handles_witness :
  exists fl, NoDup fl /\ (forall c, c ∈ fl -> is_conn demo_rom c) /\
    forall h, spm_validate_connection demo_rom (handle_to_connection demo_rom h) (after_run called_run) = true <-> live demo_rom fl (handle_to_connection demo_rom h).
Proof. apply (reachable_handles demo_rom demo_check demo_bnd); [exact demo_rom_ok|apply run_reachable; vm_compute; reflexivity]. Defined.

(** * The partition manager: four defects, computed

    Runs of the modelled code in which a service writes where it may not, in
    which it loses the handle it set for a connection, in which it answers a
    client that waits for another answer, and in which no connection passes for
    one. *)

Definition state_after (es : list event) : spm_t := snd (spm_run es booted).
Definition vector_at (a n : Z) : list Z := le_bytes 4 a ++ le_bytes 4 n.

(** Where the service has its messages, and the handle of the last one. *)
Definition inbox : Z := at_part SP 0x100.
Definition last_handle (es : list event) : Z := to_s32 (rd32 (mem (state_after es)) (inbox + 4)).

Definition forever : Z := 0x80000000.

(** [CB] gives ten bytes of room to the service, which writes them. *)
Definition first_call : list event :=
  [PsaWait 48 forever; PsaWait 4 forever; UserWrite (at_part CB 0x100) (vector_at (at_part CB 0x1000) 10);
   PsaCall (handle_static 0 1) (pack 0 0 1) 0 (at_part CB 0x100); PsaGet 16 inbox].
Definition first_answer : list event :=
  first_call ++ [PsaWrite (last_handle first_call) 0 (at_part SP 0x200) 10; PsaReply (last_handle first_call) 0; PsaWait 48 forever].

(** [CA] calls the service with an input vector only.  The connection is taken
    from the pool with the count of the bytes written before. *)
Definition second_call : list event :=
  first_answer ++ [PsaWait 8 forever; UserWrite (at_part CA 0x100) (vector_at (at_part CA 0x200) 4);
   PsaCall (handle_static 0 1) (pack 0 1 0) (at_part CA 0x100) 0; PsaGet 16 inbox].

(** The size left, 0 - 10, wraps around: the service writes into the memory of
    [CB], for which it has no message. *)
Theorem write_without_output_vector :
  let s := state_after second_call in
  let e := PsaWrite (last_handle second_call) 0 (at_part SP 0x200) 6 in
  current s = SP /\ out_size (msg (conns s (handle_to_connection demo_rom (last_handle second_call)))) 0 = 0 /\
  p_client (conns s (handle_to_connection demo_rom (last_handle second_call))) = CA /\
  fst (spm_step e s) = Ok PSA_SUCCESS /\
  mem_read (mem s) (at_part CB 0x100A) 6 = [6; 6; 6; 6; 6; 6] /\ mem_read (mem (snd (spm_step e s))) (at_part CB 0x100A) 6 = [4; 4; 4; 4; 4; 4].
Proof. by vm_compute. Qed.

(** The agent of a mailbox connects to a service, which sets 77 as the handle of
    its own for the connection. *)
Definition connected : list event := [PsaWait 48 forever; AgentConnect 0x71 1 (-250) 7; PsaWait 4 forever; PsaGet 32 inbox].
Definition accepted : list event :=
  connected ++ [PsaSetRhandle (last_handle connected) 77; PsaReply (last_handle connected) 0; PsaWait 48 forever; AgentCollect (at_part MB 0x100)].
Definition called_again : list event :=
  accepted ++ [UserWrite (at_part MB 0x200) (le_bytes 4 (u32 (-250)) ++ le_bytes 4 0 ++ le_bytes 4 0);
   AgentCall (last_handle connected) (pack 0 0 0) (at_part MB 0x200) 7; PsaWait 4 forever; PsaGet 32 inbox].

(** With the next message the service gets the address of the connection
    instead, which the reply to the agent was stored under. *)
Theorem rhandle_of_agent_lost :
  let s := state_after called_again in
  current s = SP /\ fst (spm_run called_again booted) = Ok tt /\
  rd32 (mem s) (inbox + 12) = handle_to_connection demo_rom (last_handle connected) /\ rd32 (mem s) (inbox + 12) <> 77.
Proof. by vm_compute. Qed.

(** [CB] connects to the second service, and then calls the first one. *)
Definition older : list event :=
  [PsaWait 48 forever; PsaWait 4 forever; PsaConnect 0x71 1; PsaGet 32 inbox].
Definition waiting_call : list event :=
  older ++ [PsaReply (last_handle older) 0; PsaWait 48 forever; PsaCall (handle_static 0 1) (pack 0 0 0) 0 0; PsaGet 16 inbox].

(** The service answers the idle connection instead of the message it got: the
    call of [CB] returns that status, and its own message is unanswered. *)
Theorem idle_connection_answered :
  let s := state_after waiting_call in
  let '(r, s') := spm_run [PsaReply (last_handle older) PSA_ERROR_CONNECTION_BUSY; PsaWait 48 forever] s in
  current s = SP /\ waiting s CB <> 0 /\ polite demo_rom s (PsaReply (last_handle older) PSA_ERROR_CONNECTION_BUSY) = false /\
  r = Ok tt /\ current s' = CB /\ ret_code s' CB = u32 PSA_ERROR_CONNECTION_BUSY /\
  c_status (conns s' (handle_to_connection demo_rom (last_handle waiting_call))) = TFM_HANDLE_STATUS_ACTIVE.
Proof. by vm_compute. Qed.

(** The magic number happens to be behind the pool. *)
Definition unlucky : spm_t :=
  put_pool (Pool (fun _ => 0) (fun a => if a =? behind_pool demo_rom - CHUNK_HEAD then POOL_MAGIC_ALLOCATED else 0) 0 0) cold.

Theorem behind_pool_accepted :
  let '(r, s) := spm_init_connection_space demo_rom unlucky in
  r = Ok tt /\ spm_validate_connection demo_rom (behind_pool demo_rom) s = true /\
  spm_validate_connection demo_rom (behind_pool demo_rom) pooled = false.
Proof. by vm_compute. Qed.
