(* ===== verification/CryptoService.v ===== *)
(** * The crypto service ([secure_fw/partitions/crypto])

    Requests of clients to the PSA Crypto API: the table of multi-part
    operations ([crypto_alloc.c]), the scratch memory that holds the vectors of
    a request and the dispatcher ([crypto_init.c]), and the layers between the
    requests and the library that implements PSA Crypto ([crypto_hash.c],
    [crypto_mac.c], [crypto_cipher.c], [crypto_aead.c],
    [crypto_key_derivation.c], [crypto_key_management.c],
    [crypto_asymmetric.c], [crypto_rng.c], [crypto_library.c]).

    The library is third-party code: the class [PsaCrypto] has its functions,
    on its own state and on the contexts of the operations.  The build modelled
    has every module of the service, single-part functions and no MM-IOVEC. *)

From S2P Require Import Prelude Bytes.
From stdpp Require Import base list numbers.
From Stdlib Require Import ZArith Lia.

Open Scope Z_scope.
Open Scope tfm_scope.

(** ** Constants *)

(** [config/config_base.h] *)
Definition CRYPTO_CONC_OPER_NUM : nat := 8.
Definition CRYPTO_IOVEC_BUFFER_SIZE : Z := 5120.

Definition PSA_IPC_CALL : Z := 0.
Definition PSA_MAX_IOVEC : nat := 4.
Definition SIZE_MAX : Z := 4294967295.
Definition TFM_CRYPTO_IOVEC_ALIGNMENT : Z := 4.
Definition TFM_CRYPTO_INVALID_HANDLE : Z := 0.
Definition TFM_CRYPTO_NOT_IN_USE : Z := 0.
Definition TFM_CRYPTO_IN_USE : Z := 1.
Definition TFM_CRYPTO_MAX_NONCE_LENGTH : Z := 16.

(** [BASE__VALUE(group)]; the functions of a group are numbered from it. *)
Definition BASE__VALUE (x : Z) : Z := Z.land (Z.shiftl (u16 x) 8) 65280.
Definition TFM_CRYPTO_GET_GROUP_ID (function_id : Z) : Z := Z.land (Z.shiftr (u16 function_id) 8) 255.

Definition TFM_CRYPTO_GROUP_ID_RANDOM : Z := 1.
Definition TFM_CRYPTO_GROUP_ID_KEY_MANAGEMENT : Z := 2.
Definition TFM_CRYPTO_GROUP_ID_HASH : Z := 3.
Definition TFM_CRYPTO_GROUP_ID_MAC : Z := 4.
Definition TFM_CRYPTO_GROUP_ID_CIPHER : Z := 5.
Definition TFM_CRYPTO_GROUP_ID_AEAD : Z := 6.
Definition TFM_CRYPTO_GROUP_ID_ASYM_SIGN : Z := 7.
Definition TFM_CRYPTO_GROUP_ID_ASYM_ENCRYPT : Z := 8.
Definition TFM_CRYPTO_GROUP_ID_KEY_DERIVATION : Z := 9.

Definition TFM_CRYPTO_GENERATE_RANDOM_SID : Z := BASE__VALUE TFM_CRYPTO_GROUP_ID_RANDOM.

Definition TFM_CRYPTO_GET_KEY_ATTRIBUTES_SID : Z := BASE__VALUE TFM_CRYPTO_GROUP_ID_KEY_MANAGEMENT.
Definition TFM_CRYPTO_OPEN_KEY_SID : Z := TFM_CRYPTO_GET_KEY_ATTRIBUTES_SID + 1.
Definition TFM_CRYPTO_CLOSE_KEY_SID : Z := TFM_CRYPTO_GET_KEY_ATTRIBUTES_SID + 2.
Definition TFM_CRYPTO_IMPORT_KEY_SID : Z := TFM_CRYPTO_GET_KEY_ATTRIBUTES_SID + 3.
Definition TFM_CRYPTO_DESTROY_KEY_SID : Z := TFM_CRYPTO_GET_KEY_ATTRIBUTES_SID + 4.
Definition TFM_CRYPTO_EXPORT_KEY_SID : Z := TFM_CRYPTO_GET_KEY_ATTRIBUTES_SID + 5.
Definition TFM_CRYPTO_EXPORT_PUBLIC_KEY_SID : Z := TFM_CRYPTO_GET_KEY_ATTRIBUTES_SID + 6.
Definition TFM_CRYPTO_PURGE_KEY_SID : Z := TFM_CRYPTO_GET_KEY_ATTRIBUTES_SID + 7.
Definition TFM_CRYPTO_COPY_KEY_SID : Z := TFM_CRYPTO_GET_KEY_ATTRIBUTES_SID + 8.
Definition TFM_CRYPTO_GENERATE_KEY_SID : Z := TFM_CRYPTO_GET_KEY_ATTRIBUTES_SID + 9.

Definition TFM_CRYPTO_HASH_COMPUTE_SID : Z := BASE__VALUE TFM_CRYPTO_GROUP_ID_HASH.
Definition TFM_CRYPTO_HASH_COMPARE_SID : Z := TFM_CRYPTO_HASH_COMPUTE_SID + 1.
Definition TFM_CRYPTO_HASH_SETUP_SID : Z := TFM_CRYPTO_HASH_COMPUTE_SID + 2.
Definition TFM_CRYPTO_HASH_UPDATE_SID : Z := TFM_CRYPTO_HASH_COMPUTE_SID + 3.
Definition TFM_CRYPTO_HASH_CLONE_SID : Z := TFM_CRYPTO_HASH_COMPUTE_SID + 4.
Definition TFM_CRYPTO_HASH_FINISH_SID : Z := TFM_CRYPTO_HASH_COMPUTE_SID + 5.
Definition TFM_CRYPTO_HASH_VERIFY_SID : Z := TFM_CRYPTO_HASH_COMPUTE_SID + 6.
Definition TFM_CRYPTO_HASH_ABORT_SID : Z := TFM_CRYPTO_HASH_COMPUTE_SID + 7.

Definition TFM_CRYPTO_MAC_COMPUTE_SID : Z := BASE__VALUE TFM_CRYPTO_GROUP_ID_MAC.
Definition TFM_CRYPTO_MAC_VERIFY_SID : Z := TFM_CRYPTO_MAC_COMPUTE_SID + 1.
Definition TFM_CRYPTO_MAC_SIGN_SETUP_SID : Z := TFM_CRYPTO_MAC_COMPUTE_SID + 2.
Definition TFM_CRYPTO_MAC_VERIFY_SETUP_SID : Z := TFM_CRYPTO_MAC_COMPUTE_SID + 3.
Definition TFM_CRYPTO_MAC_UPDATE_SID : Z := TFM_CRYPTO_MAC_COMPUTE_SID + 4.
Definition TFM_CRYPTO_MAC_SIGN_FINISH_SID : Z := TFM_CRYPTO_MAC_COMPUTE_SID + 5.
Definition TFM_CRYPTO_MAC_VERIFY_FINISH_SID : Z := TFM_CRYPTO_MAC_COMPUTE_SID + 6.
Definition TFM_CRYPTO_MAC_ABORT_SID : Z := TFM_CRYPTO_MAC_COMPUTE_SID + 7.

Definition TFM_CRYPTO_CIPHER_ENCRYPT_SID : Z := BASE__VALUE TFM_CRYPTO_GROUP_ID_CIPHER.
Definition TFM_CRYPTO_CIPHER_DECRYPT_SID : Z := TFM_CRYPTO_CIPHER_ENCRYPT_SID + 1.
Definition TFM_CRYPTO_CIPHER_ENCRYPT_SETUP_SID : Z := TFM_CRYPTO_CIPHER_ENCRYPT_SID + 2.
Definition TFM_CRYPTO_CIPHER_DECRYPT_SETUP_SID : Z := TFM_CRYPTO_CIPHER_ENCRYPT_SID + 3.
Definition TFM_CRYPTO_CIPHER_GENERATE_IV_SID : Z := TFM_CRYPTO_CIPHER_ENCRYPT_SID + 4.
Definition TFM_CRYPTO_CIPHER_SET_IV_SID : Z := TFM_CRYPTO_CIPHER_ENCRYPT_SID + 5.
Definition TFM_CRYPTO_CIPHER_UPDATE_SID : Z := TFM_CRYPTO_CIPHER_ENCRYPT_SID + 6.
Definition TFM_CRYPTO_CIPHER_FINISH_SID : Z := TFM_CRYPTO_CIPHER_ENCRYPT_SID + 7.
Definition TFM_CRYPTO_CIPHER_ABORT_SID : Z := TFM_CRYPTO_CIPHER_ENCRYPT_SID + 8.

Definition TFM_CRYPTO_AEAD_ENCRYPT_SID : Z := BASE__VALUE TFM_CRYPTO_GROUP_ID_AEAD.
Definition TFM_CRYPTO_AEAD_DECRYPT_SID : Z := TFM_CRYPTO_AEAD_ENCRYPT_SID + 1.
Definition TFM_CRYPTO_AEAD_ENCRYPT_SETUP_SID : Z := TFM_CRYPTO_AEAD_ENCRYPT_SID + 2.
Definition TFM_CRYPTO_AEAD_DECRYPT_SETUP_SID : Z := TFM_CRYPTO_AEAD_ENCRYPT_SID + 3.
Definition TFM_CRYPTO_AEAD_GENERATE_NONCE_SID : Z := TFM_CRYPTO_AEAD_ENCRYPT_SID + 4.
Definition TFM_CRYPTO_AEAD_SET_NONCE_SID : Z := TFM_CRYPTO_AEAD_ENCRYPT_SID + 5.
Definition TFM_CRYPTO_AEAD_SET_LENGTHS_SID : Z := TFM_CRYPTO_AEAD_ENCRYPT_SID + 6.
Definition TFM_CRYPTO_AEAD_UPDATE_AD_SID : Z := TFM_CRYPTO_AEAD_ENCRYPT_SID + 7.
Definition TFM_CRYPTO_AEAD_UPDATE_SID : Z := TFM_CRYPTO_AEAD_ENCRYPT_SID + 8.
Definition TFM_CRYPTO_AEAD_FINISH_SID : Z := TFM_CRYPTO_AEAD_ENCRYPT_SID + 9.
Definition TFM_CRYPTO_AEAD_VERIFY_SID : Z := TFM_CRYPTO_AEAD_ENCRYPT_SID + 10.
Definition TFM_CRYPTO_AEAD_ABORT_SID : Z := TFM_CRYPTO_AEAD_ENCRYPT_SID + 11.

Definition TFM_CRYPTO_ASYMMETRIC_SIGN_MESSAGE_SID : Z := BASE__VALUE TFM_CRYPTO_GROUP_ID_ASYM_SIGN.
Definition TFM_CRYPTO_ASYMMETRIC_VERIFY_MESSAGE_SID : Z := TFM_CRYPTO_ASYMMETRIC_SIGN_MESSAGE_SID + 1.
Definition TFM_CRYPTO_ASYMMETRIC_SIGN_HASH_SID : Z := TFM_CRYPTO_ASYMMETRIC_SIGN_MESSAGE_SID + 2.
Definition TFM_CRYPTO_ASYMMETRIC_VERIFY_HASH_SID : Z := TFM_CRYPTO_ASYMMETRIC_SIGN_MESSAGE_SID + 3.

Definition TFM_CRYPTO_ASYMMETRIC_ENCRYPT_SID : Z := BASE__VALUE TFM_CRYPTO_GROUP_ID_ASYM_ENCRYPT.
Definition TFM_CRYPTO_ASYMMETRIC_DECRYPT_SID : Z := TFM_CRYPTO_ASYMMETRIC_ENCRYPT_SID + 1.

Definition TFM_CRYPTO_RAW_KEY_AGREEMENT_SID : Z := BASE__VALUE TFM_CRYPTO_GROUP_ID_KEY_DERIVATION.
Definition TFM_CRYPTO_KEY_DERIVATION_SETUP_SID : Z := TFM_CRYPTO_RAW_KEY_AGREEMENT_SID + 1.
Definition TFM_CRYPTO_KEY_DERIVATION_GET_CAPACITY_SID : Z := TFM_CRYPTO_RAW_KEY_AGREEMENT_SID + 2.
Definition TFM_CRYPTO_KEY_DERIVATION_SET_CAPACITY_SID : Z := TFM_CRYPTO_RAW_KEY_AGREEMENT_SID + 3.
Definition TFM_CRYPTO_KEY_DERIVATION_INPUT_BYTES_SID : Z := TFM_CRYPTO_RAW_KEY_AGREEMENT_SID + 4.
Definition TFM_CRYPTO_KEY_DERIVATION_INPUT_KEY_SID : Z := TFM_CRYPTO_RAW_KEY_AGREEMENT_SID + 5.
Definition TFM_CRYPTO_KEY_DERIVATION_INPUT_INTEGER_SID : Z := TFM_CRYPTO_RAW_KEY_AGREEMENT_SID + 6.
Definition TFM_CRYPTO_KEY_DERIVATION_KEY_AGREEMENT_SID : Z := TFM_CRYPTO_RAW_KEY_AGREEMENT_SID + 7.
Definition TFM_CRYPTO_KEY_DERIVATION_OUTPUT_BYTES_SID : Z := TFM_CRYPTO_RAW_KEY_AGREEMENT_SID + 8.
Definition TFM_CRYPTO_KEY_DERIVATION_OUTPUT_KEY_SID : Z := TFM_CRYPTO_RAW_KEY_AGREEMENT_SID + 9.
Definition TFM_CRYPTO_KEY_DERIVATION_ABORT_SID : Z := TFM_CRYPTO_RAW_KEY_AGREEMENT_SID + 10.

(** ** Data *)

(** [struct tfm_crypto_pack_iovec]: the parameters of a call that are not
    buffers.  [capacity] and [value] are one union. *)
Record tfm_crypto_aead_pack_input : Type := AeadIn {
  nonce : list Z;
  nonce_length : Z;
}.
Record tfm_crypto_pack_iovec : Type := PackIovec {
  key_id : Z;
  alg : Z;
  op_handle : Z;
  ad_length : Z;
  plaintext_length : Z;
  aead_in : tfm_crypto_aead_pack_input;
  function_id : Z;
  step : Z;
  value : Z;
}.

(** The least significant half of the union. *)
Definition capacity (iov : tfm_crypto_pack_iovec) : Z := u32 (value iov).

(** Its layout for the 32-bit Arm ABI: [value] is aligned to 8 bytes. *)
Definition sizeof_pack_iovec : Z := 56.
Definition bytes_of_iov (i : tfm_crypto_pack_iovec) : list Z :=
  le_bytes 4 (key_id i) ++ le_bytes 4 (alg i) ++ le_bytes 4 (op_handle i) ++
  le_bytes 4 (ad_length i) ++ le_bytes 4 (plaintext_length i) ++
  nonce (aead_in i) ++ le_bytes 4 (nonce_length (aead_in i)) ++
  le_bytes 2 (function_id i) ++ le_bytes 2 (step i) ++ [0; 0; 0; 0] ++ le_bytes 8 (value i).
Definition iov_of_bytes (b : list Z) : tfm_crypto_pack_iovec :=
  let field off n := le_val (sub_bytes off n b) in
  PackIovec (field 0 4) (field 4 4) (field 8 4) (field 12 4) (field 16 4)
    (AeadIn (sub_bytes 20 16 b) (field 36 4)) (field 40 2) (field 42 2) (field 48 8).

Inductive tfm_crypto_operation_type : Type :=
| TFM_CRYPTO_OPERATION_NONE
| TFM_CRYPTO_CIPHER_OPERATION
| TFM_CRYPTO_MAC_OPERATION
| TFM_CRYPTO_HASH_OPERATION
| TFM_CRYPTO_KEY_DERIVATION_OPERATION
| TFM_CRYPTO_AEAD_OPERATION.
#[export] Instance operation_type_eq_dec : EqDecision tfm_crypto_operation_type.
Proof. solve_decision. Defined.

(** [struct tfm_crypto_operation_s]; [operation] is the union of the library's
    contexts. *)
Record tfm_crypto_operation_s (CTX : Type) : Type := Operation {
  in_use : Z;
  owner : Z;
  type : tfm_crypto_operation_type;
  operation : CTX;
}.
Arguments Operation {CTX}.
Arguments in_use {CTX}.
Arguments owner {CTX}.
Arguments type {CTX}.
Arguments operation {CTX}.

(** Addresses: of an object of the caller's frame, with its bytes, or of the
    scratch memory. *)
Inductive ptr : Type :=
| NULL
| Local (bytes : list Z)
| Scratch (off : Z).

Definition is_null (p : ptr) : bool := match p with NULL => true | _ => false end.

(** [psa_invec], [psa_outvec] *)
Record psa_vec : Type := Vec {
  base : ptr;
  len : Z;
}.
Definition no_vec : psa_vec := Vec NULL 0.

(** [psa_msg_t] *)
Record psa_msg_t : Type := Msg {
  msg_type : Z;
  client_id : Z;
  in_size : list Z;
  out_size : list Z;
}.

(** [mbedtls_svc_key_id_t] *)
Record tfm_crypto_library_key_id_t : Type := KeyId {
  key_owner : Z;
  key_number : Z;
}.

(** [psa_key_attributes_t] as the service sees it: the structure of the
    clients, and the owner at its end. *)
Record psa_key_attributes_t : Type := Attr {
  attr_fields : list Z;
  attr_owner : Z;
}.

(** ** The library

    The calls that the service makes, with the buffers they read and the sizes
    of the buffers they write.  A buffer that the caller names by an address
    and a length of its own choice is given by the bytes of the object and
    that length ([AeadEncrypt], [AeadDecrypt]). *)
Inductive psa_call : Type :=
| HashCompute (alg : Z) (input : list Z) (hash_size : Z)
| HashCompare (alg : Z) (input hash : list Z)
| MacCompute (key : tfm_crypto_library_key_id_t) (alg : Z) (input : list Z) (mac_size : Z)
| MacVerify (key : tfm_crypto_library_key_id_t) (alg : Z) (input mac : list Z)
| CipherEncrypt (key : tfm_crypto_library_key_id_t) (alg : Z) (input : list Z) (output_size : Z)
| CipherDecrypt (key : tfm_crypto_library_key_id_t) (alg : Z) (input : list Z) (output_size : Z)
| AeadEncrypt (key : tfm_crypto_library_key_id_t) (alg : Z) (nonce : list Z) (nonce_length : Z)
    (additional_data plaintext : list Z) (ciphertext_size : Z)
| AeadDecrypt (key : tfm_crypto_library_key_id_t) (alg : Z) (nonce : list Z) (nonce_length : Z)
    (additional_data ciphertext : list Z) (plaintext_size : Z)
| SignMessage (key : tfm_crypto_library_key_id_t) (alg : Z) (input : list Z) (signature_size : Z)
| VerifyMessage (key : tfm_crypto_library_key_id_t) (alg : Z) (input signature : list Z)
| SignHash (key : tfm_crypto_library_key_id_t) (alg : Z) (hash : list Z) (signature_size : Z)
| VerifyHash (key : tfm_crypto_library_key_id_t) (alg : Z) (hash signature : list Z)
| AsymmetricEncrypt (key : tfm_crypto_library_key_id_t) (alg : Z) (input salt : list Z) (output_size : Z)
| AsymmetricDecrypt (key : tfm_crypto_library_key_id_t) (alg : Z) (input salt : list Z) (output_size : Z)
| RawKeyAgreement (alg : Z) (key : tfm_crypto_library_key_id_t) (peer_key : list Z) (output_size : Z)
| ImportKey (attributes : psa_key_attributes_t) (data : list Z)
| OpenKey (key : tfm_crypto_library_key_id_t)
| CloseKey (key : tfm_crypto_library_key_id_t)
| DestroyKey (key : tfm_crypto_library_key_id_t)
| GetKeyAttributes (key : tfm_crypto_library_key_id_t)
| ExportKey (key : tfm_crypto_library_key_id_t) (data_size : Z)
| ExportPublicKey (key : tfm_crypto_library_key_id_t) (data_size : Z)
| PurgeKey (key : tfm_crypto_library_key_id_t)
| CopyKey (key : tfm_crypto_library_key_id_t) (attributes : psa_key_attributes_t)
| GenerateKey (attributes : psa_key_attributes_t)
| GenerateRandom (output_size : Z).

(** Calls on the context of a multi-part operation. *)
Inductive op_call : Type :=
| HashSetup (alg : Z)
| HashUpdate (input : list Z)
| HashFinish (hash_size : Z)
| HashVerify (hash : list Z)
| HashAbort
| MacSignSetup (key : tfm_crypto_library_key_id_t) (alg : Z)
| MacVerifySetup (key : tfm_crypto_library_key_id_t) (alg : Z)
| MacUpdate (input : list Z)
| MacSignFinish (mac_size : Z)
| MacVerifyFinish (mac : list Z)
| MacAbort
| CipherEncryptSetup (key : tfm_crypto_library_key_id_t) (alg : Z)
| CipherDecryptSetup (key : tfm_crypto_library_key_id_t) (alg : Z)
| CipherGenerateIv (iv_size : Z)
| CipherSetIv (iv : list Z)
| CipherUpdate (input : list Z) (output_size : Z)
| CipherFinish (output_size : Z)
| CipherAbort
| AeadEncryptSetup (key : tfm_crypto_library_key_id_t) (alg : Z)
| AeadDecryptSetup (key : tfm_crypto_library_key_id_t) (alg : Z)
| AeadGenerateNonce (nonce_size : Z)
| AeadSetNonce (nonce : list Z)
| AeadSetLengths (ad_length plaintext_length : Z)
| AeadUpdateAd (input : list Z)
| AeadUpdate (input : list Z) (output_size : Z)
| AeadFinish (ciphertext_size tag_size : Z)
| AeadVerify (plaintext_size : Z) (tag : list Z)
| AeadAbort
| KeyDerivationSetup (alg : Z)
| KeyDerivationGetCapacity
| KeyDerivationSetCapacity (capacity : Z)
| KeyDerivationInputBytes (step : Z) (data : list Z)
| KeyDerivationInputInteger (step value : Z)
| KeyDerivationInputKey (step : Z) (key : tfm_crypto_library_key_id_t)
| KeyDerivationKeyAgreement (step : Z) (key : tfm_crypto_library_key_id_t) (peer_key : list Z)
| KeyDerivationOutputBytes (output_length : Z)
| KeyDerivationOutputKey (attributes : psa_key_attributes_t)
| KeyDerivationAbort.

(** What a call gives back: its status, what it writes to its output buffers
    and the lengths it reports for them, and the values of its other
    out-parameters. *)
Record psa_result : Type := Result {
  r_status : psa_status_t;
  r_out : list Z;
  r_len : Z;
  r_out2 : list Z;
  r_len2 : Z;
  r_key : tfm_crypto_library_key_id_t;
  r_attr : psa_key_attributes_t;
  r_value : Z;
}.

Class PsaCrypto (CTX LIB : Type) : Type := {
  (** a context that is all zero *)
  ctx_zero : CTX;
  sizeof_client_attributes : Z;
  psa : LIB -> psa_call -> LIB * psa_result;
  psa_op : LIB -> CTX -> op_call -> LIB * CTX * psa_result;
  (** [psa_hash_clone(source, target)]: the target afterwards *)
  psa_clone : LIB -> CTX -> CTX -> LIB * CTX * psa_status_t;
  psa_crypto_init : LIB -> LIB * psa_status_t;
  tfm_plat_crypto_provision_entropy_seed : LIB -> LIB * Z;
}.

(** ** State

    The table of operations, the scratch memory, the library; the array
    [out_vec] of [tfm_crypto_call_srv]; and the vectors of the message being
    served: what is left of the inputs, what was written to the outputs. *)
Record crypto_st (CTX LIB : Type) : Type := Crypto {
  operations : list (tfm_crypto_operation_s CTX);
  scratch_buf : list Z;
  alloc_index : Z;
  scratch_owner : Z;
  lib : LIB;
  out_vec : list psa_vec;
  invec : list (list Z);
  outvec : list (list Z);
}.
Arguments Crypto {CTX LIB}.
Arguments operations {CTX LIB}.
Arguments scratch_buf {CTX LIB}.
Arguments alloc_index {CTX LIB}.
Arguments scratch_owner {CTX LIB}.
Arguments lib {CTX LIB}.
Arguments out_vec {CTX LIB}.
Arguments invec {CTX LIB}.
Arguments outvec {CTX LIB}.

Section service.
Context {CTX LIB : Type} `{PsaCrypto CTX LIB}.

Abbreviation SVC := (M (crypto_st CTX LIB)).

Definition set_operations v : SVC unit :=
  modify (fun s => Crypto v (scratch_buf s) (alloc_index s) (scratch_owner s) (lib s) (out_vec s) (invec s) (outvec s)).
Definition set_buf v : SVC unit :=
  modify (fun s => Crypto (operations s) v (alloc_index s) (scratch_owner s) (lib s) (out_vec s) (invec s) (outvec s)).
Definition set_alloc_index v : SVC unit :=
  modify (fun s => Crypto (operations s) (scratch_buf s) v (scratch_owner s) (lib s) (out_vec s) (invec s) (outvec s)).
Definition set_scratch_owner v : SVC unit :=
  modify (fun s => Crypto (operations s) (scratch_buf s) (alloc_index s) v (lib s) (out_vec s) (invec s) (outvec s)).
Definition set_lib v : SVC unit :=
  modify (fun s => Crypto (operations s) (scratch_buf s) (alloc_index s) (scratch_owner s) v (out_vec s) (invec s) (outvec s)).
Definition set_out_vec v : SVC unit :=
  modify (fun s => Crypto (operations s) (scratch_buf s) (alloc_index s) (scratch_owner s) (lib s) v (invec s) (outvec s)).
Definition set_invec v : SVC unit :=
  modify (fun s => Crypto (operations s) (scratch_buf s) (alloc_index s) (scratch_owner s) (lib s) (out_vec s) v (outvec s)).
Definition set_outvec v : SVC unit :=
  modify (fun s => Crypto (operations s) (scratch_buf s) (alloc_index s) (scratch_owner s) (lib s) (out_vec s) (invec s) v).

(** *** Memory *)

Definition mem_read (p : ptr) (n : Z) : SVC (list Z) :=
  let* buf := gets scratch_buf in
  ret (match p with
       | NULL => []
       | Local b => sub_bytes 0 n b
       | Scratch o => sub_bytes o n buf
       end).

Definition mem_write (p : ptr) (d : list Z) : SVC unit :=
  let* buf := gets scratch_buf in
  match p with
  | Scratch o => set_buf (splice o d buf)
  | _ => ret tt
  end.

Definition read_u32 (p : ptr) : SVC Z :=
  let* d := mem_read p 4 in
  ret (le_val d).
Definition write_u32 (p : ptr) (v : Z) : SVC unit := mem_write p (le_bytes 4 v).

(** [psa_read(handle, i, buf, num)]: the bytes that are read. *)
Definition psa_read (i : nat) (num : Z) : SVC (list Z) :=
  let* vs := gets invec in
  let v := nth i vs [] in
  let n := Z.min num (zlen v) in
  let* _ := set_invec (<[i := sub_bytes n (zlen v - n) v]> vs) in
  ret (sub_bytes 0 n v).

(** [psa_write(handle, i, buf, num)] *)
Definition psa_write (i : nat) (d : list Z) : SVC unit :=
  let* vs := gets outvec in
  set_outvec (<[i := nth i vs [] ++ d]> vs).

(** *** Operations ([crypto_alloc.c]) *)

Definition no_operation : tfm_crypto_operation_s CTX :=
  Operation TFM_CRYPTO_NOT_IN_USE 0 TFM_CRYPTO_OPERATION_NONE ctx_zero.

Definition tfm_crypto_init_alloc : SVC unit :=
  set_operations (replicate CRYPTO_CONC_OPER_NUM no_operation).

Definition tfm_crypto_get_caller_id : SVC Z := gets scratch_owner.

(** The first entry that is not in use. *)
Fixpoint first_free (ops : list (tfm_crypto_operation_s CTX)) : option nat :=
  match ops with
  | [] => None
  | o :: ops => if in_use o =? TFM_CRYPTO_NOT_IN_USE then Some O else S <$> first_free ops
  end.

(** The index of the context is what [*ctx] points to. *)
Definition tfm_crypto_operation_alloc (ty : tfm_crypto_operation_type) (handle : ptr) : SVC nat :=
  let* h := read_u32 handle in
  let* _ := check (h =? TFM_CRYPTO_INVALID_HANDLE) PSA_ERROR_BAD_STATE in
  let* partition_id := tfm_crypto_get_caller_id in
  let* ops := gets operations in
  match first_free ops with
  | None => fail PSA_ERROR_NOT_PERMITTED
  | Some i =>
      let* _ := set_operations (alter (fun o => Operation TFM_CRYPTO_IN_USE partition_id ty (operation o)) i ops) in
      let* _ := write_u32 handle (Z.of_nat i + 1) in
      ret i
  end.

Definition memset_operation_context (o : tfm_crypto_operation_s CTX) : tfm_crypto_operation_s CTX :=
  Operation (in_use o) (owner o) (type o) ctx_zero.

(** [1 <= h <= CRYPTO_CONC_OPER_NUM] *)
Definition valid_handle (h : Z) : bool :=
  negb ((h =? TFM_CRYPTO_INVALID_HANDLE) || (h >? Z.of_nat CRYPTO_CONC_OPER_NUM)).

Definition tfm_crypto_operation_release (handle : ptr) : SVC unit :=
  let* h_val := read_u32 handle in
  let* _ := write_u32 handle TFM_CRYPTO_INVALID_HANDLE in
  let* _ := check (valid_handle h_val) PSA_ERROR_INVALID_ARGUMENT in
  let* partition_id := tfm_crypto_get_caller_id in
  let* ops := gets operations in
  let i := Z.to_nat (h_val - 1) in
  let o := nth i ops no_operation in
  if (in_use o =? TFM_CRYPTO_IN_USE) && (owner o =? partition_id) then
    set_operations (alter (fun o => Operation TFM_CRYPTO_NOT_IN_USE 0 TFM_CRYPTO_OPERATION_NONE
                             (operation (memset_operation_context o))) i ops)
  else fail PSA_ERROR_INVALID_ARGUMENT.

Definition tfm_crypto_operation_lookup (ty : tfm_crypto_operation_type) (handle : Z) : SVC nat :=
  let* _ := check (valid_handle handle) PSA_ERROR_BAD_STATE in
  let* partition_id := tfm_crypto_get_caller_id in
  let* ops := gets operations in
  let i := Z.to_nat (handle - 1) in
  let o := nth i ops no_operation in
  if (in_use o =? TFM_CRYPTO_IN_USE) && bool_decide (type o = ty) && (owner o =? partition_id) then ret i
  else fail PSA_ERROR_BAD_STATE.

(** *** The scratch memory ([crypto_init.c]) *)

Definition ALIGN (x a : Z) : Z := u32 (Z.land (x + (a - 1)) (Z.lnot (a - 1))).

Definition tfm_crypto_alloc_scratch (requested_size : Z) : SVC ptr :=
  let* _ := check (negb (requested_size >? SIZE_MAX - (TFM_CRYPTO_IOVEC_ALIGNMENT - 1)))
              PSA_ERROR_INSUFFICIENT_MEMORY in
  let requested_size := ALIGN requested_size TFM_CRYPTO_IOVEC_ALIGNMENT in
  let* index := gets alloc_index in
  let* _ := check (negb (requested_size >? u32 (CRYPTO_IOVEC_BUFFER_SIZE - index)))
              PSA_ERROR_INSUFFICIENT_MEMORY in
  let* _ := set_alloc_index (u32 (index + requested_size)) in
  ret (Scratch index).

Definition tfm_crypto_clear_scratch : SVC unit :=
  let* _ := set_scratch_owner 0 in
  let* buf := gets scratch_buf in
  let* index := gets alloc_index in
  let* _ := set_buf (splice 0 (fill index 0) buf) in
  set_alloc_index 0.

Definition tfm_crypto_set_caller_id (id : Z) : SVC unit := set_scratch_owner id.

(** The loops of [tfm_crypto_init_iovecs], [n] turns from vector [i]. *)
Fixpoint init_invecs (n i : nat) (msg : psa_msg_t) (in_vec : list psa_vec) : SVC (list psa_vec) :=
  match n with
  | O => ret in_vec
  | S n =>
      let size := nth i (in_size msg) 0 in
      let* r := try (tfm_crypto_alloc_scratch size) in
      match r with
      | Err e => let* _ := tfm_crypto_clear_scratch in fail e
      | Ok alloc_buf_ptr =>
          let* d := psa_read i size in
          let* _ := mem_write alloc_buf_ptr d in
          init_invecs n (S i) msg (<[i := Vec alloc_buf_ptr (zlen d)]> in_vec)
      end
  end.

Fixpoint init_outvecs (n i : nat) (msg : psa_msg_t) : SVC unit :=
  match n with
  | O => ret tt
  | S n =>
      let size := nth i (out_size msg) 0 in
      let* r := try (tfm_crypto_alloc_scratch size) in
      match r with
      | Err e => let* _ := tfm_crypto_clear_scratch in fail e
      | Ok alloc_buf_ptr =>
          let* vs := gets out_vec in
          let* _ := set_out_vec (<[i := Vec alloc_buf_ptr size]> vs) in
          init_outvecs n (S i) msg
      end
  end.

Definition tfm_crypto_init_iovecs (msg : psa_msg_t) (in_vec : list psa_vec) (in_len out_len : nat) :
    SVC (list psa_vec) :=
  let* in_vec := init_invecs (in_len - 1) 1 msg in_vec in
  let* _ := init_outvecs out_len 0 msg in
  ret in_vec.

(** *** Access to the vectors *)

Definition in_data (in_vec : list psa_vec) (i : nat) : SVC (list Z) :=
  let v := nth i in_vec no_vec in
  mem_read (base v) (len v).

Definition out_at (i : nat) : SVC psa_vec := gets (fun s => nth i (out_vec s) no_vec).
Definition out_len (i : nat) : SVC Z := gets (fun s => len (nth i (out_vec s) no_vec)).

(** [out_vec[i].len = n] *)
Definition set_out_len (i : nat) (n : Z) : SVC unit :=
  let* vs := gets out_vec in
  set_out_vec (alter (fun v => Vec (base v) n) i vs).

(** The library fills the buffer of vector [i]: it writes no further than its
    length. *)
Definition fill_out (i : nat) (d : list Z) : SVC unit :=
  let* v := out_at i in
  mem_write (base v) (take (Z.to_nat (len v)) d).

(** [psa_...(..., out, size, &out_vec[i].len)] followed by
    [if (status != PSA_SUCCESS) out_vec[i].len = 0]. *)
Definition put_result (i : nat) (status : psa_status_t) (d : list Z) (n : Z) : SVC unit :=
  let* _ := fill_out i d in
  set_out_len i (if status =? PSA_SUCCESS then n else 0).

(** The check of a vector that receives a value of [n] bytes; its address. *)
Definition out_arg (i : nat) (n : Z) : SVC ptr :=
  let* v := out_at i in
  let* _ := check (negb (is_null (base v) || (len v <? n))) PSA_ERROR_PROGRAMMER_ERROR in
  ret (base v).

(** *** Calls of the library ([crypto_library.c]) *)

Definition tfm_crypto_library_key_id_init (owner key_id : Z) : tfm_crypto_library_key_id_t := KeyId owner key_id.

Definition tfm_crypto_library_get_library_key_id_set_owner (owner : Z) (attr : psa_key_attributes_t) :
    psa_key_attributes_t := Attr (attr_fields attr) owner.

(** The bytes of the attributes as the service sees them. *)
Definition attr_bytes (a : psa_key_attributes_t) : list Z := attr_fields a ++ le_bytes 4 (u32 (attr_owner a)).
Definition sizeof_attributes : Z := sizeof_client_attributes + 4.

Definition call_psa (c : psa_call) : SVC psa_result :=
  let* l := gets lib in
  let* _ := set_lib (fst (psa l c)) in
  ret (snd (psa l c)).

(** A call on the context of operation [i]. *)
Definition call_op (i : nat) (c : op_call) : SVC psa_result :=
  let* l := gets lib in
  let* ops := gets operations in
  let '(l, ctx, r) := psa_op l (operation (nth i ops no_operation)) c in
  let* _ := set_lib l in
  let* _ := set_operations (alter (fun o => Operation (in_use o) (owner o) (type o) ctx) i ops) in
  ret r.

Definition call_clone (i j : nat) : SVC psa_status_t :=
  let* l := gets lib in
  let* ops := gets operations in
  let '(l, ctx, status) := psa_clone l (operation (nth i ops no_operation)) (operation (nth j ops no_operation)) in
  let* _ := set_lib l in
  let* _ := set_operations (alter (fun o => Operation (in_use o) (owner o) (type o) ctx) j ops) in
  ret status.

(** *** The layers over the library *)

(** [in_vec[0].base] as [struct tfm_crypto_pack_iovec *] *)
Definition iov_at (in_vec : list psa_vec) : tfm_crypto_pack_iovec :=
  match base (nth 0 in_vec no_vec) with
  | Local b => iov_of_bytes b
  | _ => iov_of_bytes []
  end.

(** [return status;] *)
Definition ret_status (r : psa_result) : SVC unit := of_status (r_status r).

(** A call with one output buffer, in vector 0. *)
Definition call_with_output (c : psa_call) : SVC unit :=
  let* r := call_psa c in
  let* _ := put_result 0 (r_status r) (r_out r) (r_len r) in
  ret_status r.
Definition call_without_output (c : psa_call) : SVC unit :=
  let* r := call_psa c in
  ret_status r.
Definition op_with_output (i : nat) (c : op_call) : SVC unit :=
  let* r := call_op i c in
  let* _ := put_result 0 (r_status r) (r_out r) (r_len r) in
  ret_status r.
Definition op_without_output (i : nat) (c : op_call) : SVC unit :=
  let* r := call_op i c in
  ret_status r.

(** The beginning of a call on a multi-part operation of the hash, MAC, cipher
    and AEAD layers: a setup allocates it, the other calls look it up, and
    those that end it put the handle into vector 0 whether it was found or
    not.  The result is [p_handle] and the operation or the error. *)
Definition open_operation (ty : tfm_crypto_operation_type) (is_setup is_end : bool) (iov : tfm_crypto_pack_iovec) :
    SVC (ptr * res nat) :=
  if is_setup then
    let* p_handle := out_arg 0 4 in
    let* _ := write_u32 p_handle (op_handle iov) in
    let* r := try (tfm_crypto_operation_alloc ty p_handle) in
    ret (p_handle, r)
  else
    let* r := try (tfm_crypto_operation_lookup ty (op_handle iov)) in
    if is_end then
      let* p_handle := out_arg 0 4 in
      let* _ := write_u32 p_handle (op_handle iov) in
      ret (p_handle, r)
    else ret (NULL, r).

(** [release_operation_and_return:] *)
Definition release_operation_and_return (p_handle : ptr) (status : psa_status_t) : SVC unit :=
  let* _ := try (tfm_crypto_operation_release p_handle) in
  of_status status.

(** [status = psa_..._setup(...); if (status != PSA_SUCCESS) goto release...;] *)
Definition setup_or_release (p_handle : ptr) (i : nat) (c : op_call) : SVC unit :=
  let* r := call_op i c in
  if r_status r =? PSA_SUCCESS then ret tt else release_operation_and_return p_handle (r_status r).

(** [status = psa_..._verify(...); if (status == PSA_SUCCESS) goto release...;] *)
Definition end_operation (p_handle : ptr) (i : nat) (c : op_call) : SVC unit :=
  let* r := call_op i c in
  if r_status r =? PSA_SUCCESS then release_operation_and_return p_handle (r_status r) else ret_status r.

(** The same with an output buffer in vector 1. *)
Definition finish_operation (p_handle : ptr) (i : nat) (c : op_call) : SVC unit :=
  let* r := call_op i c in
  let* _ := put_result 1 (r_status r) (r_out r) (r_len r) in
  if r_status r =? PSA_SUCCESS then release_operation_and_return p_handle (r_status r) else ret_status r.

Definition abort_operation (p_handle : ptr) (i : nat) (c : op_call) : SVC unit :=
  let* r := call_op i c in
  release_operation_and_return p_handle (r_status r).

(** [crypto_hash.c] *)
Definition tfm_crypto_hash_interface (in_vec : list psa_vec) : SVC unit :=
  let iov := iov_at in_vec in
  let sid := function_id iov in
  if sid =? TFM_CRYPTO_HASH_COMPUTE_SID then
    let* input := in_data in_vec 1 in
    let* hash_size := out_len 0 in
    call_with_output (HashCompute (alg iov) input hash_size)
  else if sid =? TFM_CRYPTO_HASH_COMPARE_SID then
    let* input := in_data in_vec 1 in
    let* hash := in_data in_vec 2 in
    call_without_output (HashCompare (alg iov) input hash)
  else
    let is_end := (sid =? TFM_CRYPTO_HASH_FINISH_SID) || (sid =? TFM_CRYPTO_HASH_VERIFY_SID) ||
                  (sid =? TFM_CRYPTO_HASH_ABORT_SID) in
    let* '(p_handle, r) := open_operation TFM_CRYPTO_HASH_OPERATION (sid =? TFM_CRYPTO_HASH_SETUP_SID) is_end iov in
    match r with
    | Err e => if sid =? TFM_CRYPTO_HASH_ABORT_SID then ret tt else fail e
    | Ok operation =>
        if sid =? TFM_CRYPTO_HASH_SETUP_SID then setup_or_release p_handle operation (HashSetup (alg iov))
        else if sid =? TFM_CRYPTO_HASH_UPDATE_SID then
          let* input := in_data in_vec 1 in
          op_without_output operation (HashUpdate input)
        else if sid =? TFM_CRYPTO_HASH_FINISH_SID then
          let* hash_size := out_len 1 in
          finish_operation p_handle operation (HashFinish hash_size)
        else if sid =? TFM_CRYPTO_HASH_VERIFY_SID then
          let* hash := in_data in_vec 1 in
          end_operation p_handle operation (HashVerify hash)
        else if sid =? TFM_CRYPTO_HASH_ABORT_SID then abort_operation p_handle operation HashAbort
        else if sid =? TFM_CRYPTO_HASH_CLONE_SID then
          let* p_handle := out_arg 0 4 in
          let arg := nth 1 in_vec no_vec in
          let* _ := check (negb (is_null (base arg) || (len arg <? 4))) PSA_ERROR_PROGRAMMER_ERROR in
          let* h := read_u32 (base arg) in
          let* _ := write_u32 p_handle h in
          let* target_operation := tfm_crypto_operation_alloc TFM_CRYPTO_HASH_OPERATION p_handle in
          let* status := call_clone operation target_operation in
          if status =? PSA_SUCCESS then ret tt else release_operation_and_return p_handle status
        else fail PSA_ERROR_NOT_SUPPORTED
    end.

(** [crypto_mac.c] *)
Definition tfm_crypto_mac_interface (in_vec : list psa_vec) (encoded_key : tfm_crypto_library_key_id_t) : SVC unit :=
  let iov := iov_at in_vec in
  let sid := function_id iov in
  let library_key := tfm_crypto_library_key_id_init (key_owner encoded_key) (key_number encoded_key) in
  if sid =? TFM_CRYPTO_MAC_COMPUTE_SID then
    let* input := in_data in_vec 1 in
    let* mac_size := out_len 0 in
    call_with_output (MacCompute library_key (alg iov) input mac_size)
  else if sid =? TFM_CRYPTO_MAC_VERIFY_SID then
    let* input := in_data in_vec 1 in
    let* mac := in_data in_vec 2 in
    call_without_output (MacVerify library_key (alg iov) input mac)
  else
    let is_setup := (sid =? TFM_CRYPTO_MAC_SIGN_SETUP_SID) || (sid =? TFM_CRYPTO_MAC_VERIFY_SETUP_SID) in
    let is_end := (sid =? TFM_CRYPTO_MAC_SIGN_FINISH_SID) || (sid =? TFM_CRYPTO_MAC_VERIFY_FINISH_SID) ||
                  (sid =? TFM_CRYPTO_MAC_ABORT_SID) in
    let* '(p_handle, r) := open_operation TFM_CRYPTO_MAC_OPERATION is_setup is_end iov in
    match r with
    | Err e => if sid =? TFM_CRYPTO_MAC_ABORT_SID then ret tt else fail e
    | Ok operation =>
        if sid =? TFM_CRYPTO_MAC_SIGN_SETUP_SID then
          setup_or_release p_handle operation (MacSignSetup library_key (alg iov))
        else if sid =? TFM_CRYPTO_MAC_VERIFY_SETUP_SID then
          setup_or_release p_handle operation (MacVerifySetup library_key (alg iov))
        else if sid =? TFM_CRYPTO_MAC_UPDATE_SID then
          let* input := in_data in_vec 1 in
          op_without_output operation (MacUpdate input)
        else if sid =? TFM_CRYPTO_MAC_SIGN_FINISH_SID then
          let* mac_size := out_len 1 in
          finish_operation p_handle operation (MacSignFinish mac_size)
        else if sid =? TFM_CRYPTO_MAC_VERIFY_FINISH_SID then
          let* mac := in_data in_vec 1 in
          end_operation p_handle operation (MacVerifyFinish mac)
        else if sid =? TFM_CRYPTO_MAC_ABORT_SID then abort_operation p_handle operation MacAbort
        else fail PSA_ERROR_NOT_SUPPORTED
    end.

(** [crypto_cipher.c] *)
Definition tfm_crypto_cipher_interface (in_vec : list psa_vec) (encoded_key : tfm_crypto_library_key_id_t) : SVC unit :=
  let iov := iov_at in_vec in
  let sid := function_id iov in
  let library_key := tfm_crypto_library_key_id_init (key_owner encoded_key) (key_number encoded_key) in
  if sid =? TFM_CRYPTO_CIPHER_ENCRYPT_SID then
    let* input := in_data in_vec 1 in
    let* output_size := out_len 0 in
    call_with_output (CipherEncrypt library_key (alg iov) input output_size)
  else if sid =? TFM_CRYPTO_CIPHER_DECRYPT_SID then
    let* input := in_data in_vec 1 in
    let* output_size := out_len 0 in
    call_with_output (CipherDecrypt library_key (alg iov) input output_size)
  else
    let is_setup := (sid =? TFM_CRYPTO_CIPHER_ENCRYPT_SETUP_SID) || (sid =? TFM_CRYPTO_CIPHER_DECRYPT_SETUP_SID) in
    let is_end := (sid =? TFM_CRYPTO_CIPHER_FINISH_SID) || (sid =? TFM_CRYPTO_CIPHER_ABORT_SID) in
    let* '(p_handle, r) := open_operation TFM_CRYPTO_CIPHER_OPERATION is_setup is_end iov in
    match r with
    | Err e => if sid =? TFM_CRYPTO_CIPHER_ABORT_SID then ret tt else fail e
    | Ok operation =>
        if sid =? TFM_CRYPTO_CIPHER_GENERATE_IV_SID then
          let* iv_size := out_len 0 in
          op_with_output operation (CipherGenerateIv iv_size)
        else if sid =? TFM_CRYPTO_CIPHER_SET_IV_SID then
          let* iv := in_data in_vec 1 in
          op_without_output operation (CipherSetIv iv)
        else if sid =? TFM_CRYPTO_CIPHER_ENCRYPT_SETUP_SID then
          setup_or_release p_handle operation (CipherEncryptSetup library_key (alg iov))
        else if sid =? TFM_CRYPTO_CIPHER_DECRYPT_SETUP_SID then
          setup_or_release p_handle operation (CipherDecryptSetup library_key (alg iov))
        else if sid =? TFM_CRYPTO_CIPHER_UPDATE_SID then
          let* input := in_data in_vec 1 in
          let* output_size := out_len 0 in
          op_with_output operation (CipherUpdate input output_size)
        else if sid =? TFM_CRYPTO_CIPHER_FINISH_SID then
          let* output_size := out_len 1 in
          finish_operation p_handle operation (CipherFinish output_size)
        else if sid =? TFM_CRYPTO_CIPHER_ABORT_SID then abort_operation p_handle operation CipherAbort
        else fail PSA_ERROR_NOT_SUPPORTED
    end.

(** [crypto_aead.c] *)
Definition tfm_crypto_aead_interface (in_vec : list psa_vec) (encoded_key : tfm_crypto_library_key_id_t) : SVC unit :=
  let iov := iov_at in_vec in
  let sid := function_id iov in
  let library_key := tfm_crypto_library_key_id_init (key_owner encoded_key) (key_number encoded_key) in
  if sid =? TFM_CRYPTO_AEAD_ENCRYPT_SID then
    let* plaintext := in_data in_vec 1 in
    let* ciphertext_size := out_len 0 in
    let* additional_data := in_data in_vec 2 in
    call_with_output (AeadEncrypt library_key (alg iov) (nonce (aead_in iov)) (nonce_length (aead_in iov))
                        additional_data plaintext ciphertext_size)
  else if sid =? TFM_CRYPTO_AEAD_DECRYPT_SID then
    let* ciphertext := in_data in_vec 1 in
    let* plaintext_size := out_len 0 in
    let* additional_data := in_data in_vec 2 in
    call_with_output (AeadDecrypt library_key (alg iov) (nonce (aead_in iov)) (nonce_length (aead_in iov))
                        additional_data ciphertext plaintext_size)
  else
    let is_setup := (sid =? TFM_CRYPTO_AEAD_ENCRYPT_SETUP_SID) || (sid =? TFM_CRYPTO_AEAD_DECRYPT_SETUP_SID) in
    let is_end := (sid =? TFM_CRYPTO_AEAD_FINISH_SID) || (sid =? TFM_CRYPTO_AEAD_VERIFY_SID) ||
                  (sid =? TFM_CRYPTO_AEAD_ABORT_SID) in
    let* '(p_handle, r) := open_operation TFM_CRYPTO_AEAD_OPERATION is_setup is_end iov in
    match r with
    | Err e => if sid =? TFM_CRYPTO_AEAD_ABORT_SID then ret tt else fail e
    | Ok operation =>
        if sid =? TFM_CRYPTO_AEAD_ENCRYPT_SETUP_SID then
          setup_or_release p_handle operation (AeadEncryptSetup library_key (alg iov))
        else if sid =? TFM_CRYPTO_AEAD_DECRYPT_SETUP_SID then
          setup_or_release p_handle operation (AeadDecryptSetup library_key (alg iov))
        else if sid =? TFM_CRYPTO_AEAD_FINISH_SID then
          let* ciphertext_size := out_len 2 in
          let* tag_size := out_len 1 in
          let* r := call_op operation (AeadFinish ciphertext_size tag_size) in
          let* _ := put_result 2 (r_status r) (r_out r) (r_len r) in
          let* _ := put_result 1 (r_status r) (r_out2 r) (r_len2 r) in
          if r_status r =? PSA_SUCCESS then release_operation_and_return p_handle (r_status r) else ret_status r
        else if sid =? TFM_CRYPTO_AEAD_ABORT_SID then abort_operation p_handle operation AeadAbort
        else if sid =? TFM_CRYPTO_AEAD_GENERATE_NONCE_SID then
          let* nonce_size := out_len 0 in
          op_with_output operation (AeadGenerateNonce nonce_size)
        else if sid =? TFM_CRYPTO_AEAD_SET_NONCE_SID then
          let* nonce := in_data in_vec 1 in
          op_without_output operation (AeadSetNonce nonce)
        else if sid =? TFM_CRYPTO_AEAD_SET_LENGTHS_SID then
          op_without_output operation (AeadSetLengths (ad_length iov) (plaintext_length iov))
        else if sid =? TFM_CRYPTO_AEAD_UPDATE_SID then
          let* input := in_data in_vec 1 in
          let* output_size := out_len 0 in
          op_with_output operation (AeadUpdate input output_size)
        else if sid =? TFM_CRYPTO_AEAD_UPDATE_AD_SID then
          let* input := in_data in_vec 1 in
          op_without_output operation (AeadUpdateAd input)
        else if sid =? TFM_CRYPTO_AEAD_VERIFY_SID then
          let* tag := in_data in_vec 1 in
          let* plaintext_size := out_len 1 in
          finish_operation p_handle operation (AeadVerify plaintext_size tag)
        else fail PSA_ERROR_NOT_SUPPORTED
    end.

(** The attributes in input vector 1, with the owner set to the caller. *)
Definition in_attributes (in_vec : list psa_vec) (owner : Z) : SVC psa_key_attributes_t :=
  let v := nth 1 in_vec no_vec in
  let* _ := check (negb (is_null (base v) || negb (len v =? sizeof_attributes - 4))) PSA_ERROR_PROGRAMMER_ERROR in
  let* d := in_data in_vec 1 in
  ret (tfm_crypto_library_get_library_key_id_set_owner owner (Attr d 0)).

(** [crypto_key_derivation.c]; here an abort looks the operation up before it
    checks its vector. *)
Definition tfm_crypto_key_derivation_interface (in_vec : list psa_vec) (encoded_key : tfm_crypto_library_key_id_t) :
    SVC unit :=
  let iov := iov_at in_vec in
  let sid := function_id iov in
  let library_key := tfm_crypto_library_key_id_init (key_owner encoded_key) (key_number encoded_key) in
  if sid =? TFM_CRYPTO_RAW_KEY_AGREEMENT_SID then
    let* output_size := out_len 0 in
    let* peer_key := in_data in_vec 1 in
    let* r := call_psa (RawKeyAgreement (alg iov) library_key peer_key output_size) in
    let* _ := fill_out 0 (r_out r) in
    let* _ := set_out_len 0 (r_len r) in
    ret_status r
  else
    let* '(p_handle, r) := open_operation TFM_CRYPTO_KEY_DERIVATION_OPERATION
                             (sid =? TFM_CRYPTO_KEY_DERIVATION_SETUP_SID) false iov in
    if sid =? TFM_CRYPTO_KEY_DERIVATION_ABORT_SID then
      let* p_handle := out_arg 0 4 in
      let* _ := write_u32 p_handle (op_handle iov) in
      match r with
      | Err _ => ret tt
      | Ok operation => abort_operation p_handle operation KeyDerivationAbort
      end
    else
    match r with
    | Err e => fail e
    | Ok operation =>
        if sid =? TFM_CRYPTO_KEY_DERIVATION_SETUP_SID then
          setup_or_release p_handle operation (KeyDerivationSetup (alg iov))
        else if sid =? TFM_CRYPTO_KEY_DERIVATION_GET_CAPACITY_SID then
          let* v := out_at 0 in
          let* _ := check (negb (is_null (base v) || negb (len v =? 4))) PSA_ERROR_PROGRAMMER_ERROR in
          let* r := call_op operation KeyDerivationGetCapacity in
          let* _ := write_u32 (base v) (r_value r) in
          ret_status r
        else if sid =? TFM_CRYPTO_KEY_DERIVATION_SET_CAPACITY_SID then
          op_without_output operation (KeyDerivationSetCapacity (capacity iov))
        else if sid =? TFM_CRYPTO_KEY_DERIVATION_INPUT_BYTES_SID then
          let* data := in_data in_vec 1 in
          op_without_output operation (KeyDerivationInputBytes (step iov) data)
        else if sid =? TFM_CRYPTO_KEY_DERIVATION_INPUT_INTEGER_SID then
          op_without_output operation (KeyDerivationInputInteger (step iov) (value iov))
        else if sid =? TFM_CRYPTO_KEY_DERIVATION_OUTPUT_BYTES_SID then
          let* output_length := out_len 0 in
          let* r := call_op operation (KeyDerivationOutputBytes output_length) in
          let* _ := fill_out 0 (r_out r) in
          ret_status r
        else if sid =? TFM_CRYPTO_KEY_DERIVATION_INPUT_KEY_SID then
          op_without_output operation (KeyDerivationInputKey (step iov) library_key)
        else if sid =? TFM_CRYPTO_KEY_DERIVATION_OUTPUT_KEY_SID then
          let* key_handle := out_arg 0 4 in
          let* srv_key_attr := in_attributes in_vec (key_owner encoded_key) in
          let* r := call_op operation (KeyDerivationOutputKey srv_key_attr) in
          let* _ := write_u32 key_handle (key_number (r_key r)) in
          ret_status r
        else if sid =? TFM_CRYPTO_KEY_DERIVATION_KEY_AGREEMENT_SID then
          let* peer_key := in_data in_vec 1 in
          op_without_output operation (KeyDerivationKeyAgreement (step iov) library_key peer_key)
        else fail PSA_ERROR_NOT_SUPPORTED
    end.

(** [crypto_key_management.c] *)
Definition tfm_crypto_key_management_interface (in_vec : list psa_vec) (encoded_key : tfm_crypto_library_key_id_t) :
    SVC unit :=
  let iov := iov_at in_vec in
  let sid := function_id iov in
  let library_key := tfm_crypto_library_key_id_init (key_owner encoded_key) (key_number encoded_key) in
  let* srv_key_attr :=
    if (sid =? TFM_CRYPTO_IMPORT_KEY_SID) || (sid =? TFM_CRYPTO_COPY_KEY_SID) || (sid =? TFM_CRYPTO_GENERATE_KEY_SID)
    then in_attributes in_vec (key_owner encoded_key) else ret (Attr [] 0) in
  if sid =? TFM_CRYPTO_IMPORT_KEY_SID then
    let* data := in_data in_vec 2 in
    let* key_id := out_arg 0 4 in
    let* r := call_psa (ImportKey srv_key_attr data) in
    let* _ := write_u32 key_id (key_number (r_key r)) in
    ret_status r
  else if sid =? TFM_CRYPTO_OPEN_KEY_SID then
    let* key_id := out_arg 0 4 in
    let* r := call_psa (OpenKey library_key) in
    let* _ := write_u32 key_id (key_number (r_key r)) in
    ret_status r
  else if sid =? TFM_CRYPTO_CLOSE_KEY_SID then call_without_output (CloseKey library_key)
  else if sid =? TFM_CRYPTO_DESTROY_KEY_SID then call_without_output (DestroyKey library_key)
  else if sid =? TFM_CRYPTO_GET_KEY_ATTRIBUTES_SID then
    let* r := call_psa (GetKeyAttributes library_key) in
    let* v := out_at 0 in
    let* _ := check (negb (is_null (base v) || (len v >? sizeof_attributes))) PSA_ERROR_PROGRAMMER_ERROR in
    let* _ := mem_write (base v) (sub_bytes 0 (len v) (attr_bytes (r_attr r))) in
    ret_status r
  else if sid =? TFM_CRYPTO_EXPORT_KEY_SID then
    let* data_size := out_len 0 in
    call_with_output (ExportKey library_key data_size)
  else if sid =? TFM_CRYPTO_EXPORT_PUBLIC_KEY_SID then
    let* data_size := out_len 0 in
    call_with_output (ExportPublicKey library_key data_size)
  else if sid =? TFM_CRYPTO_PURGE_KEY_SID then call_without_output (PurgeKey library_key)
  else if sid =? TFM_CRYPTO_COPY_KEY_SID then
    let* target_key_id := out_arg 0 4 in
    let* r := call_psa (CopyKey library_key srv_key_attr) in
    let* _ := ret_status r in
    write_u32 target_key_id (key_number (r_key r))
  else if sid =? TFM_CRYPTO_GENERATE_KEY_SID then
    let* key_handle := out_arg 0 4 in
    let* r := call_psa (GenerateKey srv_key_attr) in
    let* _ := ret_status r in
    write_u32 key_handle (key_number (r_key r))
  else fail PSA_ERROR_NOT_SUPPORTED.

(** [crypto_asymmetric.c] *)
Definition tfm_crypto_asymmetric_sign_interface (in_vec : list psa_vec) (encoded_key : tfm_crypto_library_key_id_t) :
    SVC unit :=
  let iov := iov_at in_vec in
  let sid := function_id iov in
  let library_key := tfm_crypto_library_key_id_init (key_owner encoded_key) (key_number encoded_key) in
  if sid =? TFM_CRYPTO_ASYMMETRIC_SIGN_MESSAGE_SID then
    let* input := in_data in_vec 1 in
    let* signature_size := out_len 0 in
    call_with_output (SignMessage library_key (alg iov) input signature_size)
  else if sid =? TFM_CRYPTO_ASYMMETRIC_VERIFY_MESSAGE_SID then
    let* input := in_data in_vec 1 in
    let* signature := in_data in_vec 2 in
    call_without_output (VerifyMessage library_key (alg iov) input signature)
  else if sid =? TFM_CRYPTO_ASYMMETRIC_SIGN_HASH_SID then
    let* hash := in_data in_vec 1 in
    let* signature_size := out_len 0 in
    call_with_output (SignHash library_key (alg iov) hash signature_size)
  else if sid =? TFM_CRYPTO_ASYMMETRIC_VERIFY_HASH_SID then
    let* hash := in_data in_vec 1 in
    let* signature := in_data in_vec 2 in
    call_without_output (VerifyHash library_key (alg iov) hash signature)
  else fail PSA_ERROR_NOT_SUPPORTED.

Definition tfm_crypto_asymmetric_encrypt_interface (in_vec : list psa_vec)
    (encoded_key : tfm_crypto_library_key_id_t) : SVC unit :=
  let iov := iov_at in_vec in
  let sid := function_id iov in
  let library_key := tfm_crypto_library_key_id_init (key_owner encoded_key) (key_number encoded_key) in
  if sid =? TFM_CRYPTO_ASYMMETRIC_ENCRYPT_SID then
    let* input := in_data in_vec 1 in
    let* salt := in_data in_vec 2 in
    let* output_size := out_len 0 in
    call_with_output (AsymmetricEncrypt library_key (alg iov) input salt output_size)
  else if sid =? TFM_CRYPTO_ASYMMETRIC_DECRYPT_SID then
    let* input := in_data in_vec 1 in
    let* salt := in_data in_vec 2 in
    let* output_size := out_len 0 in
    call_with_output (AsymmetricDecrypt library_key (alg iov) input salt output_size)
  else fail PSA_ERROR_NOT_SUPPORTED.

(** [crypto_rng.c] *)
Definition tfm_crypto_random_interface : SVC unit :=
  let* output_size := out_len 0 in
  let* r := call_psa (GenerateRandom output_size) in
  let* _ := fill_out 0 (r_out r) in
  ret_status r.

(** *** The dispatcher and the entry points ([crypto_init.c]) *)

Definition tfm_crypto_api_dispatcher (in_vec : list psa_vec) : SVC unit :=
  let* _ := check (len (nth 0 in_vec no_vec) =? sizeof_pack_iovec) PSA_ERROR_PROGRAMMER_ERROR in
  let iov := iov_at in_vec in
  let group_id := TFM_CRYPTO_GET_GROUP_ID (function_id iov) in
  let is_key_required := negb ((group_id =? TFM_CRYPTO_GROUP_ID_HASH) || (group_id =? TFM_CRYPTO_GROUP_ID_RANDOM)) in
  let* encoded_key :=
    if is_key_required then
      let* caller_id := tfm_crypto_get_caller_id in
      ret (KeyId caller_id (key_id iov))
    else ret (KeyId 0 0) in
  if group_id =? TFM_CRYPTO_GROUP_ID_KEY_MANAGEMENT then tfm_crypto_key_management_interface in_vec encoded_key
  else if group_id =? TFM_CRYPTO_GROUP_ID_HASH then tfm_crypto_hash_interface in_vec
  else if group_id =? TFM_CRYPTO_GROUP_ID_MAC then tfm_crypto_mac_interface in_vec encoded_key
  else if group_id =? TFM_CRYPTO_GROUP_ID_CIPHER then tfm_crypto_cipher_interface in_vec encoded_key
  else if group_id =? TFM_CRYPTO_GROUP_ID_AEAD then tfm_crypto_aead_interface in_vec encoded_key
  else if group_id =? TFM_CRYPTO_GROUP_ID_ASYM_SIGN then tfm_crypto_asymmetric_sign_interface in_vec encoded_key
  else if group_id =? TFM_CRYPTO_GROUP_ID_ASYM_ENCRYPT then tfm_crypto_asymmetric_encrypt_interface in_vec encoded_key
  else if group_id =? TFM_CRYPTO_GROUP_ID_KEY_DERIVATION then tfm_crypto_key_derivation_interface in_vec encoded_key
  else if group_id =? TFM_CRYPTO_GROUP_ID_RANDOM then tfm_crypto_random_interface
  else fail PSA_ERROR_NOT_SUPPORTED.

(** [while ((n > 0) && (sizes[n - 1] == 0)) n--;] *)
Fixpoint filled (n : nat) (sizes : list Z) : nat :=
  match n with
  | O => O
  | S k => if nth k sizes 0 =? 0 then filled k sizes else n
  end.

(** [for (i = 0; i < out_len; i++) psa_write(...)], [n] turns from vector [i] *)
Fixpoint write_outvecs (n i : nat) : SVC unit :=
  match n with
  | O => ret tt
  | S n =>
      let* v := out_at i in
      let* d := mem_read (base v) (len v) in
      let* _ := psa_write i d in
      write_outvecs n (S i)
  end.

Definition tfm_crypto_call_srv (msg : psa_msg_t) : SVC unit :=
  let in_len := filled PSA_MAX_IOVEC (in_size msg) in
  let out_len := filled PSA_MAX_IOVEC (out_size msg) in
  let* _ := set_out_vec (replicate PSA_MAX_IOVEC no_vec) in
  let* _ := check (negb (in_len <? 1)%nat) PSA_ERROR_GENERIC_ERROR in
  let* iov := psa_read 0 sizeof_pack_iovec in
  let* _ := check (zlen iov =? sizeof_pack_iovec) PSA_ERROR_GENERIC_ERROR in
  let in_vec := <[0%nat := Vec (Local iov) sizeof_pack_iovec]> (replicate PSA_MAX_IOVEC no_vec) in
  let* in_vec := tfm_crypto_init_iovecs msg in_vec in_len out_len in
  let* _ := tfm_crypto_set_caller_id (client_id msg) in
  let* r := try (tfm_crypto_api_dispatcher in_vec) in
  let* _ := match r with
            | Ok _ => write_outvecs out_len 0
            | Err _ => ret tt
            end in
  let* _ := tfm_crypto_clear_scratch in
  of_status (status_of r).

Definition tfm_crypto_sfn (msg : psa_msg_t) : SVC unit :=
  if msg_type msg =? PSA_IPC_CALL then tfm_crypto_call_srv msg else fail PSA_ERROR_NOT_SUPPORTED.

(** Start-up; [TFM_CRYPTO_NV_SEED_SUCCESS] is 0. *)
Definition tfm_crypto_engine_init : SVC unit :=
  let* l := gets lib in
  let '(l, err) := tfm_plat_crypto_provision_entropy_seed l in
  let* _ := set_lib l in
  let* _ := check (err =? 0) PSA_ERROR_GENERIC_ERROR in
  let '(l, status) := psa_crypto_init l in
  let* _ := set_lib l in
  of_status status.

Definition tfm_crypto_init : SVC unit :=
  let* _ := tfm_crypto_init_alloc in
  tfm_crypto_engine_init.

(** *** A call of a client

    The framework puts the client's vectors into a message; the answer is the
    status and the bytes written to each output vector. *)
Definition serve (c ty : Z) (ins : list (list Z)) (out_sizes : list Z) (s : crypto_st CTX LIB) :
    psa_status_t * list (list Z) * crypto_st CTX LIB :=
  let s := Crypto (operations s) (scratch_buf s) (alloc_index s) (scratch_owner s) (lib s) (out_vec s)
             ins (replicate (length out_sizes) []) in
  let '(r, s) := tfm_crypto_sfn (Msg ty c (map zlen ins) out_sizes) s in
  (status_of r, outvec s, s).
End service.
