(* ===== verification/CryptoClient.v ===== *)
(** * Clients of the crypto service ([interface/src/tfm_crypto_api.c])

    The PSA Crypto API as clients call it: every function packs its arguments
    into vectors, calls the service and unpacks the answer.  The second half
    is the specification: what each function means as a call of the library on
    the operation that the client's handle names. *)

From S2P Require Import Prelude Bytes CryptoService.
From stdpp Require Import base list numbers.
From Stdlib Require Import ZArith Lia.

Open Scope Z_scope.
Open Scope tfm_scope.

(** A buffer that the caller passes by address and length: data, or a null
    pointer with a length. *)
Inductive buffer : Type :=
| Data (d : list Z)
| Null (n : Z).
Definition data_of (b : buffer) : list Z := match b with Data d => d | Null _ => [] end.
Definition length_of (b : buffer) : Z := match b with Data d => zlen d | Null n => n end.
Definition is_NULL (b : buffer) : bool := match b with Null _ => true | Data _ => false end.

(** An output buffer: its size, and whether the pointer is null. *)
Record room : Type := Room {
  room_null : bool;
  room_size : Z;
}.

(** What a function returns: its status, the handle of the operation
    afterwards, and the bytes written to its output buffers; the length it
    reports for an output is the number of these bytes. *)
Record api_ret : Type := Ret {
  a_status : psa_status_t;
  a_handle : Z;
  a_out : list Z;
  a_out2 : list Z;
}.

(** [operation->handle] after the vector of 4 bytes over it was written. *)
Definition handle_after (h : Z) (d : list Z) : Z := le_val (splice 0 d (le_bytes 4 h)).

Section client.
Context {CTX LIB : Type} `{PsaCrypto CTX LIB} (c : Z).

Abbreviation API := (M (crypto_st CTX LIB) api_ret).

(** [API_DISPATCH(in_vec, out_vec)], with [iov] as the first input. *)
Definition API_DISPATCH (iov : tfm_crypto_pack_iovec) (ins : list (list Z)) (outs : list Z) :
    M (crypto_st CTX LIB) (psa_status_t * list (list Z)) :=
  fun s => let '(status, os, s) := serve c PSA_IPC_CALL (bytes_of_iov iov :: ins) outs s in (Ok (status, os), s).

(** The shapes of the functions: without output; with one output; with the
    handle as output; with the handle and another output. *)
Definition no_output (iov : tfm_crypto_pack_iovec) (ins : list (list Z)) (h : Z) : API :=
  let* r := API_DISPATCH iov ins [] in
  ret (Ret (fst r) h [] []).
Definition one_output (iov : tfm_crypto_pack_iovec) (ins : list (list Z)) (h size : Z) : API :=
  let* r := API_DISPATCH iov ins [size] in
  ret (Ret (fst r) h (nth 0 (snd r) []) []).
Definition handle_output (iov : tfm_crypto_pack_iovec) (ins : list (list Z)) (h : Z) : API :=
  let* r := API_DISPATCH iov ins [4] in
  ret (Ret (fst r) (handle_after h (nth 0 (snd r) [])) [] []).
Definition handle_and_output (iov : tfm_crypto_pack_iovec) (ins : list (list Z)) (h size : Z) : API :=
  let* r := API_DISPATCH iov ins [4; size] in
  ret (Ret (fst r) (handle_after h (nth 0 (snd r) [])) (nth 1 (snd r) []) []).

(** [struct tfm_crypto_pack_iovec iov = { .function_id = ..., ... }], the
    members that are not named being zero. *)
Definition iov_init (function_id key alg handle : Z) : tfm_crypto_pack_iovec :=
  PackIovec key alg handle 0 0 (AeadIn (fill 16 0) 0) function_id 0 0.
Definition iov_step (function_id key handle step value : Z) : tfm_crypto_pack_iovec :=
  PackIovec key 0 handle 0 0 (AeadIn (fill 16 0) 0) function_id step value.

(** *** Keys *)

Definition psa_open_key (id : Z) : API := one_output (iov_init TFM_CRYPTO_OPEN_KEY_SID id 0 0) [] 0 4.
Definition psa_close_key (key : Z) : API := no_output (iov_init TFM_CRYPTO_CLOSE_KEY_SID key 0 0) [] 0.
Definition psa_import_key (attributes data : list Z) : API :=
  one_output (iov_init TFM_CRYPTO_IMPORT_KEY_SID 0 0 0) [attributes; data] 0 4.
Definition psa_destroy_key (key : Z) : API := no_output (iov_init TFM_CRYPTO_DESTROY_KEY_SID key 0 0) [] 0.
Definition psa_get_key_attributes (key : Z) : API :=
  one_output (iov_init TFM_CRYPTO_GET_KEY_ATTRIBUTES_SID key 0 0) [] 0 sizeof_client_attributes.
Definition psa_export_key (key data_size : Z) : API :=
  one_output (iov_init TFM_CRYPTO_EXPORT_KEY_SID key 0 0) [] 0 data_size.
Definition psa_export_public_key (key data_size : Z) : API :=
  one_output (iov_init TFM_CRYPTO_EXPORT_PUBLIC_KEY_SID key 0 0) [] 0 data_size.
Definition psa_purge_key (key : Z) : API := no_output (iov_init TFM_CRYPTO_PURGE_KEY_SID key 0 0) [] 0.
Definition psa_copy_key (source_key : Z) (attributes : list Z) : API :=
  one_output (iov_init TFM_CRYPTO_COPY_KEY_SID source_key 0 0) [attributes] 0 4.
Definition psa_generate_key (attributes : list Z) : API :=
  one_output (iov_init TFM_CRYPTO_GENERATE_KEY_SID 0 0 0) [attributes] 0 4.

(** *** Ciphers *)

Definition psa_cipher_generate_iv (operation iv_size : Z) : API :=
  one_output (iov_init TFM_CRYPTO_CIPHER_GENERATE_IV_SID 0 0 operation) [] operation iv_size.
Definition psa_cipher_set_iv (operation : Z) (iv : list Z) : API :=
  no_output (iov_init TFM_CRYPTO_CIPHER_SET_IV_SID 0 0 operation) [iv] operation.
Definition psa_cipher_encrypt_setup (operation key alg : Z) : API :=
  handle_output (iov_init TFM_CRYPTO_CIPHER_ENCRYPT_SETUP_SID key alg operation) [] operation.
Definition psa_cipher_decrypt_setup (operation key alg : Z) : API :=
  handle_output (iov_init TFM_CRYPTO_CIPHER_DECRYPT_SETUP_SID key alg operation) [] operation.
Definition psa_cipher_update (operation : Z) (input : list Z) (output_size : Z) : API :=
  one_output (iov_init TFM_CRYPTO_CIPHER_UPDATE_SID 0 0 operation) [input] operation output_size.
Definition psa_cipher_abort (operation : Z) : API :=
  handle_output (iov_init TFM_CRYPTO_CIPHER_ABORT_SID 0 0 operation) [] operation.
Definition psa_cipher_finish (operation output_size : Z) : API :=
  handle_and_output (iov_init TFM_CRYPTO_CIPHER_FINISH_SID 0 0 operation) [] operation output_size.
Definition psa_cipher_encrypt (key alg : Z) (input : list Z) (output_size : Z) : API :=
  one_output (iov_init TFM_CRYPTO_CIPHER_ENCRYPT_SID key alg 0) [input] 0 output_size.
Definition psa_cipher_decrypt (key alg : Z) (input : list Z) (output_size : Z) : API :=
  one_output (iov_init TFM_CRYPTO_CIPHER_DECRYPT_SID key alg 0) [input] 0 output_size.

(** *** Hashes *)

Definition psa_hash_setup (operation alg : Z) : API :=
  handle_output (iov_init TFM_CRYPTO_HASH_SETUP_SID 0 alg operation) [] operation.
Definition psa_hash_update (operation : Z) (input : list Z) : API :=
  no_output (iov_init TFM_CRYPTO_HASH_UPDATE_SID 0 0 operation) [input] operation.
Definition psa_hash_finish (operation hash_size : Z) : API :=
  handle_and_output (iov_init TFM_CRYPTO_HASH_FINISH_SID 0 0 operation) [] operation hash_size.
Definition psa_hash_verify (operation : Z) (hash : list Z) : API :=
  handle_output (iov_init TFM_CRYPTO_HASH_VERIFY_SID 0 0 operation) [hash] operation.
Definition psa_hash_abort (operation : Z) : API :=
  handle_output (iov_init TFM_CRYPTO_HASH_ABORT_SID 0 0 operation) [] operation.
(** The handle is that of the target. *)
Definition psa_hash_clone (source_operation target_operation : Z) : API :=
  if negb (target_operation =? 0) then ret (Ret PSA_ERROR_BAD_STATE target_operation [] [])
  else handle_output (iov_init TFM_CRYPTO_HASH_CLONE_SID 0 0 source_operation) [le_bytes 4 target_operation]
         target_operation.
Definition psa_hash_compute (alg : Z) (input : list Z) (hash_size : Z) : API :=
  one_output (iov_init TFM_CRYPTO_HASH_COMPUTE_SID 0 alg 0) [input] 0 hash_size.
Definition psa_hash_compare (alg : Z) (input hash : list Z) : API :=
  no_output (iov_init TFM_CRYPTO_HASH_COMPARE_SID 0 alg 0) [input; hash] 0.

(** *** Message authentication codes *)

Definition psa_mac_sign_setup (operation key alg : Z) : API :=
  handle_output (iov_init TFM_CRYPTO_MAC_SIGN_SETUP_SID key alg operation) [] operation.
Definition psa_mac_verify_setup (operation key alg : Z) : API :=
  handle_output (iov_init TFM_CRYPTO_MAC_VERIFY_SETUP_SID key alg operation) [] operation.
Definition psa_mac_update (operation : Z) (input : list Z) : API :=
  no_output (iov_init TFM_CRYPTO_MAC_UPDATE_SID 0 0 operation) [input] operation.
Definition psa_mac_sign_finish (operation mac_size : Z) : API :=
  handle_and_output (iov_init TFM_CRYPTO_MAC_SIGN_FINISH_SID 0 0 operation) [] operation mac_size.
Definition psa_mac_verify_finish (operation : Z) (mac : list Z) : API :=
  handle_output (iov_init TFM_CRYPTO_MAC_VERIFY_FINISH_SID 0 0 operation) [mac] operation.
Definition psa_mac_abort (operation : Z) : API :=
  handle_output (iov_init TFM_CRYPTO_MAC_ABORT_SID 0 0 operation) [] operation.
Definition psa_mac_compute (key alg : Z) (input : list Z) (mac_size : Z) : API :=
  one_output (iov_init TFM_CRYPTO_MAC_COMPUTE_SID key alg 0) [input] 0 mac_size.
Definition psa_mac_verify (key alg : Z) (input mac : list Z) : API :=
  no_output (iov_init TFM_CRYPTO_MAC_VERIFY_SID key alg 0) [input; mac] 0.

(** *** Authenticated encryption *)

(** The loop that copies the nonce into [iov.aead_in]. *)
Definition pack_nonce (n : buffer) : tfm_crypto_aead_pack_input :=
  match n with
  | Null _ => AeadIn (fill 16 0) 0
  | Data d => AeadIn (splice 0 d (fill 16 0)) (zlen d)
  end.
Definition iov_aead (function_id key alg : Z) (nonce : buffer) : tfm_crypto_pack_iovec :=
  PackIovec key alg 0 0 0 (pack_nonce nonce) function_id 0 0.

(** [in_len--] when the optional last input is a null pointer. *)
Definition optional (b : buffer) : list (list Z) := if is_NULL b then [] else [data_of b].
Definition null_with_length (b : buffer) : bool := is_NULL b && negb (length_of b =? 0).

Definition psa_aead_encrypt (key alg : Z) (nonce additional_data : buffer) (plaintext : list Z)
    (ciphertext_size : Z) : API :=
  if null_with_length additional_data then ret (Ret PSA_ERROR_INVALID_ARGUMENT 0 [] [])
  else if length_of nonce >? TFM_CRYPTO_MAX_NONCE_LENGTH then ret (Ret PSA_ERROR_INVALID_ARGUMENT 0 [] [])
  else one_output (iov_aead TFM_CRYPTO_AEAD_ENCRYPT_SID key alg nonce) (plaintext :: optional additional_data)
         0 ciphertext_size.
Definition psa_aead_decrypt (key alg : Z) (nonce additional_data : buffer) (ciphertext : list Z)
    (plaintext_size : Z) : API :=
  if null_with_length additional_data then ret (Ret PSA_ERROR_INVALID_ARGUMENT 0 [] [])
  else if length_of nonce >? TFM_CRYPTO_MAX_NONCE_LENGTH then ret (Ret PSA_ERROR_INVALID_ARGUMENT 0 [] [])
  else one_output (iov_aead TFM_CRYPTO_AEAD_DECRYPT_SID key alg nonce) (ciphertext :: optional additional_data)
         0 plaintext_size.
Definition psa_aead_encrypt_setup (operation key alg : Z) : API :=
  handle_output (iov_init TFM_CRYPTO_AEAD_ENCRYPT_SETUP_SID key alg operation) [] operation.
Definition psa_aead_decrypt_setup (operation key alg : Z) : API :=
  handle_output (iov_init TFM_CRYPTO_AEAD_DECRYPT_SETUP_SID key alg operation) [] operation.
Definition psa_aead_generate_nonce (operation nonce_size : Z) : API :=
  one_output (iov_init TFM_CRYPTO_AEAD_GENERATE_NONCE_SID 0 0 operation) [] operation nonce_size.
Definition psa_aead_set_nonce (operation : Z) (nonce : list Z) : API :=
  no_output (iov_init TFM_CRYPTO_AEAD_SET_NONCE_SID 0 0 operation) [nonce] operation.
Definition psa_aead_set_lengths (operation ad_length plaintext_length : Z) : API :=
  no_output (PackIovec 0 0 operation ad_length plaintext_length (AeadIn (fill 16 0) 0)
               TFM_CRYPTO_AEAD_SET_LENGTHS_SID 0 0) [] operation.
Definition psa_aead_update_ad (operation : Z) (input : buffer) : API :=
  if null_with_length input then ret (Ret PSA_ERROR_INVALID_ARGUMENT operation [] [])
  else no_output (iov_init TFM_CRYPTO_AEAD_UPDATE_AD_SID 0 0 operation) (optional input) operation.
Definition psa_aead_update (operation : Z) (input : buffer) (output_size : Z) : API :=
  if null_with_length input then ret (Ret PSA_ERROR_INVALID_ARGUMENT operation [] [])
  else one_output (iov_init TFM_CRYPTO_AEAD_UPDATE_SID 0 0 operation) (optional input) operation output_size.
(** [a_out] is the ciphertext and [a_out2] the tag. *)
Definition psa_aead_finish (operation : Z) (ciphertext : room) (length_null : bool) (tag_size : Z) : API :=
  if room_null ciphertext && negb (room_size ciphertext =? 0) then ret (Ret PSA_ERROR_INVALID_ARGUMENT operation [] [])
  else
    let iov := iov_init TFM_CRYPTO_AEAD_FINISH_SID 0 0 operation in
    if room_null ciphertext || (room_size ciphertext =? 0) then
      let* r := API_DISPATCH iov [] [4; tag_size] in
      ret (Ret (fst r) (handle_after operation (nth 0 (snd r) [])) [] (nth 1 (snd r) []))
    else if length_null then ret (Ret PSA_ERROR_INVALID_ARGUMENT operation [] [])
    else
      let* r := API_DISPATCH iov [] [4; tag_size; room_size ciphertext] in
      ret (Ret (fst r) (handle_after operation (nth 0 (snd r) [])) (nth 2 (snd r) []) (nth 1 (snd r) [])).
Definition psa_aead_verify (operation : Z) (plaintext : room) (length_null : bool) (tag : list Z) : API :=
  if room_null plaintext && negb (room_size plaintext =? 0) then ret (Ret PSA_ERROR_INVALID_ARGUMENT operation [] [])
  else
    let iov := iov_init TFM_CRYPTO_AEAD_VERIFY_SID 0 0 operation in
    if room_null plaintext || (room_size plaintext =? 0) then handle_output iov [tag] operation
    else if length_null then ret (Ret PSA_ERROR_INVALID_ARGUMENT operation [] [])
    else handle_and_output iov [tag] operation (room_size plaintext).
Definition psa_aead_abort (operation : Z) : API :=
  handle_output (iov_init TFM_CRYPTO_AEAD_ABORT_SID 0 0 operation) [] operation.

(** *** Asymmetric cryptography *)

Definition psa_sign_message (key alg : Z) (input : list Z) (signature_size : Z) : API :=
  one_output (iov_init TFM_CRYPTO_ASYMMETRIC_SIGN_MESSAGE_SID key alg 0) [input] 0 signature_size.
Definition psa_verify_message (key alg : Z) (input signature : list Z) : API :=
  no_output (iov_init TFM_CRYPTO_ASYMMETRIC_VERIFY_MESSAGE_SID key alg 0) [input; signature] 0.
Definition psa_sign_hash (key alg : Z) (hash : list Z) (signature_size : Z) : API :=
  one_output (iov_init TFM_CRYPTO_ASYMMETRIC_SIGN_HASH_SID key alg 0) [hash] 0 signature_size.
Definition psa_verify_hash (key alg : Z) (hash signature : list Z) : API :=
  no_output (iov_init TFM_CRYPTO_ASYMMETRIC_VERIFY_HASH_SID key alg 0) [hash; signature] 0.
Definition psa_asymmetric_encrypt (key alg : Z) (input : list Z) (salt : buffer) (output_size : Z) : API :=
  if null_with_length salt then ret (Ret PSA_ERROR_INVALID_ARGUMENT 0 [] [])
  else one_output (iov_init TFM_CRYPTO_ASYMMETRIC_ENCRYPT_SID key alg 0) (input :: optional salt) 0 output_size.
Definition psa_asymmetric_decrypt (key alg : Z) (input : list Z) (salt : buffer) (output_size : Z) : API :=
  if null_with_length salt then ret (Ret PSA_ERROR_INVALID_ARGUMENT 0 [] [])
  else one_output (iov_init TFM_CRYPTO_ASYMMETRIC_DECRYPT_SID key alg 0) (input :: optional salt) 0 output_size.

(** *** Key derivation *)

Definition psa_key_derivation_get_capacity (operation : Z) : API :=
  one_output (iov_init TFM_CRYPTO_KEY_DERIVATION_GET_CAPACITY_SID 0 0 operation) [] operation 4.
Definition psa_key_derivation_output_bytes (operation output_length : Z) : API :=
  one_output (iov_init TFM_CRYPTO_KEY_DERIVATION_OUTPUT_BYTES_SID 0 0 operation) [] operation output_length.
Definition psa_key_derivation_input_key (operation step key : Z) : API :=
  no_output (iov_step TFM_CRYPTO_KEY_DERIVATION_INPUT_KEY_SID key operation step 0) [] operation.
Definition psa_key_derivation_abort (operation : Z) : API :=
  handle_output (iov_init TFM_CRYPTO_KEY_DERIVATION_ABORT_SID 0 0 operation) [] operation.
Definition psa_key_derivation_key_agreement (operation step private_key : Z) (peer_key : list Z) : API :=
  no_output (iov_step TFM_CRYPTO_KEY_DERIVATION_KEY_AGREEMENT_SID private_key operation step 0) [peer_key] operation.
Definition psa_generate_random (output_size : Z) : API :=
  if output_size =? 0 then ret (Ret PSA_SUCCESS 0 [] [])
  else one_output (iov_init TFM_CRYPTO_GENERATE_RANDOM_SID 0 0 0) [] 0 output_size.
Definition psa_raw_key_agreement (alg private_key : Z) (peer_key : list Z) (output_size : Z) : API :=
  one_output (iov_init TFM_CRYPTO_RAW_KEY_AGREEMENT_SID private_key alg 0) [peer_key] 0 output_size.
Definition psa_key_derivation_setup (operation alg : Z) : API :=
  handle_output (iov_init TFM_CRYPTO_KEY_DERIVATION_SETUP_SID 0 alg operation) [] operation.
Definition psa_key_derivation_set_capacity (operation capacity : Z) : API :=
  no_output (iov_step TFM_CRYPTO_KEY_DERIVATION_SET_CAPACITY_SID 0 operation 0 capacity) [] operation.
Definition psa_key_derivation_input_bytes (operation step : Z) (data : list Z) : API :=
  no_output (iov_step TFM_CRYPTO_KEY_DERIVATION_INPUT_BYTES_SID 0 operation step 0) [data] operation.
Definition psa_key_derivation_output_key (attributes : list Z) (operation : Z) : API :=
  one_output (iov_init TFM_CRYPTO_KEY_DERIVATION_OUTPUT_KEY_SID 0 0 operation) [attributes] operation 4.
Definition psa_key_derivation_input_integer (operation step value : Z) : API :=
  no_output (iov_step TFM_CRYPTO_KEY_DERIVATION_INPUT_INTEGER_SID 0 operation step value) [] operation.
Definition psa_key_derivation_verify_bytes (operation : Z) : API := ret (Ret PSA_ERROR_NOT_SUPPORTED operation [] []).
Definition psa_key_derivation_verify_key (operation : Z) : API := ret (Ret PSA_ERROR_NOT_SUPPORTED operation [] []).
End client.

(** ** The specification

    The service as its clients may think of it: sessions, each one with an
    owner, a type and a context of the library, numbered by the handles. *)
Record session (CTX : Type) : Type := Session {
  s_owner : Z;
  s_type : tfm_crypto_operation_type;
  s_context : CTX;
}.
Arguments Session {CTX}.
Arguments s_owner {CTX}.
Arguments s_type {CTX}.
Arguments s_context {CTX}.

Record vault (CTX LIB : Type) : Type := Vault {
  v_sessions : list (option (session CTX));
  v_lib : LIB;
}.
Arguments Vault {CTX LIB}.
Arguments v_sessions {CTX LIB}.
Arguments v_lib {CTX LIB}.

(** [n] bytes of zeros after the library wrote [d] there, and the part of them
    that a result reports. *)
Definition area (n : Z) (d : list Z) : list Z := splice 0 (take (Z.to_nat n) d) (fill n 0).
Definition reported (n : Z) (d : list Z) (len : Z) : list Z := take (Z.to_nat len) (area n d).

(** How the results of the library are returned. *)
Definition no_bytes (r : psa_result) : list Z := [].
Definition bytes_out (n : Z) (r : psa_result) : list Z := reported n (r_out r) (r_len r).
Definition bytes_out2 (n : Z) (r : psa_result) : list Z := reported n (r_out2 r) (r_len2 r).
Definition whole_out (n : Z) (r : psa_result) : list Z := area n (r_out r).
Definition key_out (r : psa_result) : list Z := le_bytes 4 (key_number (r_key r)).
Definition value_out (r : psa_result) : list Z := le_bytes 4 (r_value r).
Definition attributes_out (r : psa_result) : list Z := attr_fields (r_attr r).

(** What a function of the API means. *)
Inductive meaning : Type :=
| Answer (r : api_ret)
    (** the client library answers itself *)
| Single (k : psa_call) (out : psa_result -> list Z)
| Setup (ty : tfm_crypto_operation_type) (h : Z) (k : op_call)
| Use (ty : tfm_crypto_operation_type) (h : Z) (k : op_call) (out : psa_result -> list Z)
| Finish (ty : tfm_crypto_operation_type) (h : Z) (k : op_call) (out out2 : psa_result -> list Z)
| Abort (ty : tfm_crypto_operation_type) (h : Z) (k : op_call)
| Clone (h target : Z).

Section spec.
Context {CTX LIB : Type} `{PsaCrypto CTX LIB} (c : Z).

Abbreviation VAULT := (vault CTX LIB).

(** The session that handle [h] names for client [c]. *)
Definition find_session (ty : tfm_crypto_operation_type) (h : Z) (v : VAULT) : option (nat * session CTX) :=
  if (1 <=? h) && (h <=? Z.of_nat CRYPTO_CONC_OPER_NUM) then
    match v_sessions v !! Z.to_nat (h - 1) with
    | Some (Some s) => if bool_decide (s_type s = ty /\ s_owner s = c) then Some (Z.to_nat (h - 1), s) else None
    | _ => None
    end
  else None.

Fixpoint free_session (l : list (option (session CTX))) : option nat :=
  match l with
  | [] => None
  | None :: _ => Some O
  | Some _ :: l => S <$> free_session l
  end.

Definition put_session (i : nat) (s : option (session CTX)) (l : LIB) (v : VAULT) : VAULT :=
  Vault (<[i := s]> (v_sessions v)) l.

(** The outputs of a call that succeeds. *)
Definition when_ok (r : psa_result) (d : list Z) : list Z := if r_status r =? PSA_SUCCESS then d else [].

Definition spec_single (k : psa_call) (out : psa_result -> list Z) (v : VAULT) : api_ret * VAULT :=
  let '(l, r) := psa (v_lib v) k in
  (Ret (r_status r) 0 (when_ok r (out r)) [], Vault (v_sessions v) l).

Definition spec_setup (ty : tfm_crypto_operation_type) (h : Z) (k : op_call) (v : VAULT) : api_ret * VAULT :=
  if negb (h =? 0) then (Ret PSA_ERROR_BAD_STATE h [] [], v)
  else match free_session (v_sessions v) with
       | None => (Ret PSA_ERROR_NOT_PERMITTED h [] [], v)
       | Some i =>
           let '(l, x, r) := psa_op (v_lib v) ctx_zero k in
           if r_status r =? PSA_SUCCESS
           then (Ret PSA_SUCCESS (Z.of_nat i + 1) [] [], put_session i (Some (Session c ty x)) l v)
           else (Ret (r_status r) h [] [], Vault (v_sessions v) l)
       end.

Definition spec_use (ty : tfm_crypto_operation_type) (h : Z) (k : op_call) (out : psa_result -> list Z) (v : VAULT) :
    api_ret * VAULT :=
  match find_session ty h v with
  | None => (Ret PSA_ERROR_BAD_STATE h [] [], v)
  | Some (i, s) =>
      let '(l, x, r) := psa_op (v_lib v) (s_context s) k in
      (Ret (r_status r) h (when_ok r (out r)) [], put_session i (Some (Session c ty x)) l v)
  end.

(** The session ends when the call succeeds. *)
Definition spec_finish (ty : tfm_crypto_operation_type) (h : Z) (k : op_call) (out out2 : psa_result -> list Z) (v : VAULT) :
    api_ret * VAULT :=
  match find_session ty h v with
  | None => (Ret PSA_ERROR_BAD_STATE h [] [], v)
  | Some (i, s) =>
      let '(l, x, r) := psa_op (v_lib v) (s_context s) k in
      if r_status r =? PSA_SUCCESS then (Ret PSA_SUCCESS 0 (out r) (out2 r), put_session i None l v)
      else (Ret (r_status r) h [] [], put_session i (Some (Session c ty x)) l v)
  end.

(** The session ends; when there is none, nothing happens. *)
Definition spec_abort (ty : tfm_crypto_operation_type) (h : Z) (k : op_call) (v : VAULT) : api_ret * VAULT :=
  match find_session ty h v with
  | None => (Ret PSA_SUCCESS h [] [], v)
  | Some (i, s) =>
      let '(l, x, r) := psa_op (v_lib v) (s_context s) k in
      (Ret (r_status r) (if r_status r =? PSA_SUCCESS then 0 else h) [] [], put_session i None l v)
  end.

Definition spec_clone (h target : Z) (v : VAULT) : api_ret * VAULT :=
  match find_session TFM_CRYPTO_HASH_OPERATION h v with
  | None => (Ret PSA_ERROR_BAD_STATE target [] [], v)
  | Some (_, s) =>
      match free_session (v_sessions v) with
      | None => (Ret PSA_ERROR_NOT_PERMITTED target [] [], v)
      | Some j =>
          let '(l, x, status) := psa_clone (v_lib v) (s_context s) ctx_zero in
          if status =? PSA_SUCCESS
          then (Ret PSA_SUCCESS (Z.of_nat j + 1) [] [], put_session j (Some (Session c TFM_CRYPTO_HASH_OPERATION x)) l v)
          else (Ret status target [] [], Vault (v_sessions v) l)
      end
  end.

Definition spec (m : meaning) (v : VAULT) : api_ret * VAULT :=
  match m with
  | Answer r => (r, v)
  | Single k out => spec_single k out v
  | Setup ty h k => spec_setup ty h k v
  | Use ty h k out => spec_use ty h k out v
  | Finish ty h k out out2 => spec_finish ty h k out out2 v
  | Abort ty h k => spec_abort ty h k v
  | Clone h target => spec_clone h target v
  end.

(** The scratch memory that buffers of these sizes take: each begins at a
    multiple of 4 bytes. *)
Definition padded (n : Z) : Z := (n + 3) / 4 * 4.
Definition scratch_need (sizes : list Z) : Z := foldr (fun n t => padded n + t) 0 sizes.

(** A call with buffers of these sizes is refused when they do not fit, with
    the handle left as it was. *)
Definition spec_call (sizes : list Z) (h : Z) (m : meaning) (v : VAULT) : api_ret * VAULT :=
  if scratch_need sizes <=? CRYPTO_IOVEC_BUFFER_SIZE then spec m v
  else (Ret PSA_ERROR_INSUFFICIENT_MEMORY h [] [], v).
End spec.

(** *** The meaning of the API

    [means f sizes h m]: the function call [f], with arguments of their C
    types, passes buffers of these [sizes] and means [m]; [h] is the handle of
    its operation, or 0. *)
Definition word (n : Z) : Prop := 0 <= n < 4294967296.
Definition buffer_word (b : buffer) : Prop := word (length_of b).

Section means.
Context {CTX LIB : Type} `{PsaCrypto CTX LIB} (c : Z).

Abbreviation API := (M (crypto_st CTX LIB) api_ret).
Abbreviation KEY := (KeyId c).
Abbreviation refused := (Ret PSA_ERROR_INVALID_ARGUMENT).

Inductive means : API -> list Z -> Z -> meaning -> Prop :=
(* keys *)
| means_open_key id : word id -> means (psa_open_key c id) [4] 0 (Single (OpenKey (KEY id)) key_out)
| means_close_key key : word key -> means (psa_close_key c key) [] 0 (Single (CloseKey (KEY key)) no_bytes)
| means_import_key attributes data : zlen attributes = sizeof_client_attributes -> word (zlen data) ->
    means (psa_import_key c attributes data) [zlen attributes; zlen data; 4] 0
      (Single (ImportKey (Attr attributes c) data) key_out)
| means_destroy_key key : word key -> means (psa_destroy_key c key) [] 0 (Single (DestroyKey (KEY key)) no_bytes)
| means_get_key_attributes key : word key ->
    means (psa_get_key_attributes c key) [sizeof_client_attributes] 0 (Single (GetKeyAttributes (KEY key)) attributes_out)
| means_export_key key n : word key -> word n ->
    means (psa_export_key c key n) [n] 0 (Single (ExportKey (KEY key) n) (bytes_out n))
| means_export_public_key key n : word key -> word n ->
    means (psa_export_public_key c key n) [n] 0 (Single (ExportPublicKey (KEY key) n) (bytes_out n))
| means_purge_key key : word key -> means (psa_purge_key c key) [] 0 (Single (PurgeKey (KEY key)) no_bytes)
| means_copy_key key attributes : word key -> zlen attributes = sizeof_client_attributes ->
    means (psa_copy_key c key attributes) [zlen attributes; 4] 0 (Single (CopyKey (KEY key) (Attr attributes c)) key_out)
| means_generate_key attributes : zlen attributes = sizeof_client_attributes ->
    means (psa_generate_key c attributes) [zlen attributes; 4] 0 (Single (GenerateKey (Attr attributes c)) key_out)
(* hashes *)
| means_hash_setup h alg : word h -> word alg ->
    means (psa_hash_setup c h alg) [4] h (Setup TFM_CRYPTO_HASH_OPERATION h (HashSetup alg))
| means_hash_update h input : word h -> word (zlen input) ->
    means (psa_hash_update c h input) [zlen input] h (Use TFM_CRYPTO_HASH_OPERATION h (HashUpdate input) no_bytes)
| means_hash_finish h n : word h -> word n ->
    means (psa_hash_finish c h n) [4; n] h (Finish TFM_CRYPTO_HASH_OPERATION h (HashFinish n) (bytes_out n) no_bytes)
| means_hash_verify h hash : word h -> word (zlen hash) ->
    means (psa_hash_verify c h hash) [zlen hash; 4] h (Finish TFM_CRYPTO_HASH_OPERATION h (HashVerify hash) no_bytes no_bytes)
| means_hash_abort h : word h -> means (psa_hash_abort c h) [4] h (Abort TFM_CRYPTO_HASH_OPERATION h HashAbort)
| means_hash_clone h : word h -> means (psa_hash_clone c h 0) [4; 4] 0 (Clone h 0)
| means_hash_clone_active h target : word h -> word target -> target <> 0 ->
    means (psa_hash_clone c h target) [] target (Answer (Ret PSA_ERROR_BAD_STATE target [] []))
| means_hash_compute alg input n : word alg -> word (zlen input) -> word n ->
    means (psa_hash_compute c alg input n) [zlen input; n] 0 (Single (HashCompute alg input n) (bytes_out n))
| means_hash_compare alg input hash : word alg -> word (zlen input) -> word (zlen hash) ->
    means (psa_hash_compare c alg input hash) [zlen input; zlen hash] 0 (Single (HashCompare alg input hash) no_bytes)
(* message authentication codes *)
| means_mac_sign_setup h key alg : word h -> word key -> word alg ->
    means (psa_mac_sign_setup c h key alg) [4] h (Setup TFM_CRYPTO_MAC_OPERATION h (MacSignSetup (KEY key) alg))
| means_mac_verify_setup h key alg : word h -> word key -> word alg ->
    means (psa_mac_verify_setup c h key alg) [4] h (Setup TFM_CRYPTO_MAC_OPERATION h (MacVerifySetup (KEY key) alg))
| means_mac_update h input : word h -> word (zlen input) ->
    means (psa_mac_update c h input) [zlen input] h (Use TFM_CRYPTO_MAC_OPERATION h (MacUpdate input) no_bytes)
| means_mac_sign_finish h n : word h -> word n ->
    means (psa_mac_sign_finish c h n) [4; n] h (Finish TFM_CRYPTO_MAC_OPERATION h (MacSignFinish n) (bytes_out n) no_bytes)
| means_mac_verify_finish h mac : word h -> word (zlen mac) ->
    means (psa_mac_verify_finish c h mac) [zlen mac; 4] h (Finish TFM_CRYPTO_MAC_OPERATION h (MacVerifyFinish mac) no_bytes no_bytes)
| means_mac_abort h : word h -> means (psa_mac_abort c h) [4] h (Abort TFM_CRYPTO_MAC_OPERATION h MacAbort)
| means_mac_compute key alg input n : word key -> word alg -> word (zlen input) -> word n ->
    means (psa_mac_compute c key alg input n) [zlen input; n] 0 (Single (MacCompute (KEY key) alg input n) (bytes_out n))
| means_mac_verify key alg input mac : word key -> word alg -> word (zlen input) -> word (zlen mac) ->
    means (psa_mac_verify c key alg input mac) [zlen input; zlen mac] 0 (Single (MacVerify (KEY key) alg input mac) no_bytes)
(* ciphers *)
| means_cipher_encrypt key alg input n : word key -> word alg -> word (zlen input) -> word n ->
    means (psa_cipher_encrypt c key alg input n) [zlen input; n] 0 (Single (CipherEncrypt (KEY key) alg input n) (bytes_out n))
| means_cipher_decrypt key alg input n : word key -> word alg -> word (zlen input) -> word n ->
    means (psa_cipher_decrypt c key alg input n) [zlen input; n] 0 (Single (CipherDecrypt (KEY key) alg input n) (bytes_out n))
| means_cipher_encrypt_setup h key alg : word h -> word key -> word alg ->
    means (psa_cipher_encrypt_setup c h key alg) [4] h (Setup TFM_CRYPTO_CIPHER_OPERATION h (CipherEncryptSetup (KEY key) alg))
| means_cipher_decrypt_setup h key alg : word h -> word key -> word alg ->
    means (psa_cipher_decrypt_setup c h key alg) [4] h (Setup TFM_CRYPTO_CIPHER_OPERATION h (CipherDecryptSetup (KEY key) alg))
| means_cipher_generate_iv h n : word h -> word n ->
    means (psa_cipher_generate_iv c h n) [n] h (Use TFM_CRYPTO_CIPHER_OPERATION h (CipherGenerateIv n) (bytes_out n))
| means_cipher_set_iv h iv : word h -> word (zlen iv) ->
    means (psa_cipher_set_iv c h iv) [zlen iv] h (Use TFM_CRYPTO_CIPHER_OPERATION h (CipherSetIv iv) no_bytes)
| means_cipher_update h input n : word h -> word (zlen input) -> word n ->
    means (psa_cipher_update c h input n) [zlen input; n] h (Use TFM_CRYPTO_CIPHER_OPERATION h (CipherUpdate input n) (bytes_out n))
| means_cipher_finish h n : word h -> word n ->
    means (psa_cipher_finish c h n) [4; n] h (Finish TFM_CRYPTO_CIPHER_OPERATION h (CipherFinish n) (bytes_out n) no_bytes)
| means_cipher_abort h : word h -> means (psa_cipher_abort c h) [4] h (Abort TFM_CRYPTO_CIPHER_OPERATION h CipherAbort)
(* authenticated encryption *)
| means_aead_encrypt key alg n ad plaintext size : word key -> word alg -> length_of n <= 16 -> 0 <= length_of n ->
    null_with_length ad = false -> buffer_word ad -> word (zlen plaintext) -> word size ->
    means (psa_aead_encrypt c key alg n ad plaintext size) [zlen plaintext; length_of ad; size] 0
      (Single (AeadEncrypt (KEY key) alg (nonce (pack_nonce n)) (nonce_length (pack_nonce n)) (data_of ad) plaintext size)
         (bytes_out size))
| means_aead_decrypt key alg n ad ciphertext size : word key -> word alg -> length_of n <= 16 -> 0 <= length_of n ->
    null_with_length ad = false -> buffer_word ad -> word (zlen ciphertext) -> word size ->
    means (psa_aead_decrypt c key alg n ad ciphertext size) [zlen ciphertext; length_of ad; size] 0
      (Single (AeadDecrypt (KEY key) alg (nonce (pack_nonce n)) (nonce_length (pack_nonce n)) (data_of ad) ciphertext size)
         (bytes_out size))
| means_aead_encrypt_refused key alg n ad plaintext size : null_with_length ad = true \/ 16 < length_of n ->
    means (psa_aead_encrypt c key alg n ad plaintext size) [] 0 (Answer (refused 0 [] []))
| means_aead_decrypt_refused key alg n ad ciphertext size : null_with_length ad = true \/ 16 < length_of n ->
    means (psa_aead_decrypt c key alg n ad ciphertext size) [] 0 (Answer (refused 0 [] []))
| means_aead_encrypt_setup h key alg : word h -> word key -> word alg ->
    means (psa_aead_encrypt_setup c h key alg) [4] h (Setup TFM_CRYPTO_AEAD_OPERATION h (AeadEncryptSetup (KEY key) alg))
| means_aead_decrypt_setup h key alg : word h -> word key -> word alg ->
    means (psa_aead_decrypt_setup c h key alg) [4] h (Setup TFM_CRYPTO_AEAD_OPERATION h (AeadDecryptSetup (KEY key) alg))
| means_aead_generate_nonce h n : word h -> word n ->
    means (psa_aead_generate_nonce c h n) [n] h (Use TFM_CRYPTO_AEAD_OPERATION h (AeadGenerateNonce n) (bytes_out n))
| means_aead_set_nonce h d : word h -> word (zlen d) ->
    means (psa_aead_set_nonce c h d) [zlen d] h (Use TFM_CRYPTO_AEAD_OPERATION h (AeadSetNonce d) no_bytes)
| means_aead_set_lengths h ad_length n : word h -> word ad_length -> word n ->
    means (psa_aead_set_lengths c h ad_length n) [] h (Use TFM_CRYPTO_AEAD_OPERATION h (AeadSetLengths ad_length n) no_bytes)
| means_aead_update_ad h input : word h -> buffer_word input -> null_with_length input = false ->
    means (psa_aead_update_ad c h input) [length_of input] h (Use TFM_CRYPTO_AEAD_OPERATION h (AeadUpdateAd (data_of input)) no_bytes)
| means_aead_update_ad_refused h input : null_with_length input = true ->
    means (psa_aead_update_ad c h input) [] h (Answer (refused h [] []))
| means_aead_update h input n : word h -> buffer_word input -> null_with_length input = false -> word n ->
    means (psa_aead_update c h input n) [length_of input; n] h
      (Use TFM_CRYPTO_AEAD_OPERATION h (AeadUpdate (data_of input) n) (bytes_out n))
| means_aead_update_refused h input n : null_with_length input = true ->
    means (psa_aead_update c h input n) [] h (Answer (refused h [] []))
| means_aead_finish h size tag_size : word h -> word size -> size <> 0 -> word tag_size ->
    means (psa_aead_finish c h (Room false size) false tag_size) [4; tag_size; size] h
      (Finish TFM_CRYPTO_AEAD_OPERATION h (AeadFinish size tag_size) (bytes_out size) (bytes_out2 tag_size))
| means_aead_finish_tag h null b tag_size : word h -> word tag_size ->
    means (psa_aead_finish c h (Room null 0) b tag_size) [4; tag_size] h
      (Finish TFM_CRYPTO_AEAD_OPERATION h (AeadFinish 0 tag_size) no_bytes (bytes_out2 tag_size))
| means_aead_finish_refused h size b tag_size : word size -> size <> 0 ->
    means (psa_aead_finish c h (Room b size) (negb b) tag_size) [] h (Answer (refused h [] []))
| means_aead_verify h size tag : word h -> word size -> size <> 0 -> word (zlen tag) ->
    means (psa_aead_verify c h (Room false size) false tag) [zlen tag; 4; size] h
      (Finish TFM_CRYPTO_AEAD_OPERATION h (AeadVerify size tag) (bytes_out size) no_bytes)
| means_aead_verify_tag h null b tag : word h -> word (zlen tag) ->
    means (psa_aead_verify c h (Room null 0) b tag) [zlen tag; 4] h
      (Finish TFM_CRYPTO_AEAD_OPERATION h (AeadVerify 0 tag) no_bytes no_bytes)
| means_aead_verify_refused h size b tag : word size -> size <> 0 ->
    means (psa_aead_verify c h (Room b size) (negb b) tag) [] h (Answer (refused h [] []))
| means_aead_abort h : word h -> means (psa_aead_abort c h) [4] h (Abort TFM_CRYPTO_AEAD_OPERATION h AeadAbort)
(* asymmetric cryptography *)
| means_sign_message key alg input n : word key -> word alg -> word (zlen input) -> word n ->
    means (psa_sign_message c key alg input n) [zlen input; n] 0 (Single (SignMessage (KEY key) alg input n) (bytes_out n))
| means_verify_message key alg input signature : word key -> word alg -> word (zlen input) -> word (zlen signature) ->
    means (psa_verify_message c key alg input signature) [zlen input; zlen signature] 0
      (Single (VerifyMessage (KEY key) alg input signature) no_bytes)
| means_sign_hash key alg hash n : word key -> word alg -> word (zlen hash) -> word n ->
    means (psa_sign_hash c key alg hash n) [zlen hash; n] 0 (Single (SignHash (KEY key) alg hash n) (bytes_out n))
| means_verify_hash key alg hash signature : word key -> word alg -> word (zlen hash) -> word (zlen signature) ->
    means (psa_verify_hash c key alg hash signature) [zlen hash; zlen signature] 0
      (Single (VerifyHash (KEY key) alg hash signature) no_bytes)
| means_asymmetric_encrypt key alg input salt n : word key -> word alg -> word (zlen input) -> buffer_word salt ->
    null_with_length salt = false -> word n ->
    means (psa_asymmetric_encrypt c key alg input salt n) [zlen input; length_of salt; n] 0
      (Single (AsymmetricEncrypt (KEY key) alg input (data_of salt) n) (bytes_out n))
| means_asymmetric_decrypt key alg input salt n : word key -> word alg -> word (zlen input) -> buffer_word salt ->
    null_with_length salt = false -> word n ->
    means (psa_asymmetric_decrypt c key alg input salt n) [zlen input; length_of salt; n] 0
      (Single (AsymmetricDecrypt (KEY key) alg input (data_of salt) n) (bytes_out n))
| means_asymmetric_encrypt_refused key alg input salt n : null_with_length salt = true ->
    means (psa_asymmetric_encrypt c key alg input salt n) [] 0 (Answer (refused 0 [] []))
| means_asymmetric_decrypt_refused key alg input salt n : null_with_length salt = true ->
    means (psa_asymmetric_decrypt c key alg input salt n) [] 0 (Answer (refused 0 [] []))
(* key derivation and random numbers *)
| means_kd_get_capacity h : word h ->
    means (psa_key_derivation_get_capacity c h) [4] h (Use TFM_CRYPTO_KEY_DERIVATION_OPERATION h KeyDerivationGetCapacity value_out)
| means_kd_output_bytes h n : word h -> word n ->
    means (psa_key_derivation_output_bytes c h n) [n] h
      (Use TFM_CRYPTO_KEY_DERIVATION_OPERATION h (KeyDerivationOutputBytes n) (whole_out n))
| means_kd_input_key h step key : word h -> 0 <= step < 65536 -> word key ->
    means (psa_key_derivation_input_key c h step key) [] h
      (Use TFM_CRYPTO_KEY_DERIVATION_OPERATION h (KeyDerivationInputKey step (KEY key)) no_bytes)
| means_kd_abort h : word h ->
    means (psa_key_derivation_abort c h) [4] h (Abort TFM_CRYPTO_KEY_DERIVATION_OPERATION h KeyDerivationAbort)
| means_kd_key_agreement h step key peer : word h -> 0 <= step < 65536 -> word key -> word (zlen peer) ->
    means (psa_key_derivation_key_agreement c h step key peer) [zlen peer] h
      (Use TFM_CRYPTO_KEY_DERIVATION_OPERATION h (KeyDerivationKeyAgreement step (KEY key) peer) no_bytes)
| means_generate_random n : word n -> n <> 0 ->
    means (psa_generate_random c n) [n] 0 (Single (GenerateRandom n) (whole_out n))
| means_generate_random_nothing : means (psa_generate_random c 0) [] 0 (Answer (Ret PSA_SUCCESS 0 [] []))
| means_raw_key_agreement alg key peer n : word alg -> word key -> word (zlen peer) -> word n ->
    means (psa_raw_key_agreement c alg key peer n) [zlen peer; n] 0 (Single (RawKeyAgreement alg (KEY key) peer n) (bytes_out n))
| means_kd_setup h alg : word h -> word alg ->
    means (psa_key_derivation_setup c h alg) [4] h (Setup TFM_CRYPTO_KEY_DERIVATION_OPERATION h (KeyDerivationSetup alg))
| means_kd_set_capacity h n : word h -> word n ->
    means (psa_key_derivation_set_capacity c h n) [] h
      (Use TFM_CRYPTO_KEY_DERIVATION_OPERATION h (KeyDerivationSetCapacity n) no_bytes)
| means_kd_input_bytes h step data : word h -> 0 <= step < 65536 -> word (zlen data) ->
    means (psa_key_derivation_input_bytes c h step data) [zlen data] h
      (Use TFM_CRYPTO_KEY_DERIVATION_OPERATION h (KeyDerivationInputBytes step data) no_bytes)
| means_kd_output_key h attributes : word h -> zlen attributes = sizeof_client_attributes ->
    means (psa_key_derivation_output_key c attributes h) [zlen attributes; 4] h
      (Use TFM_CRYPTO_KEY_DERIVATION_OPERATION h (KeyDerivationOutputKey (Attr attributes c)) key_out)
| means_kd_input_integer h step n : word h -> 0 <= step < 65536 -> 0 <= n < 2 ^ 64 ->
    means (psa_key_derivation_input_integer c h step n) [] h
      (Use TFM_CRYPTO_KEY_DERIVATION_OPERATION h (KeyDerivationInputInteger step n) no_bytes)
| means_kd_verify_bytes h :
    means (psa_key_derivation_verify_bytes h) [] h (Answer (Ret PSA_ERROR_NOT_SUPPORTED h [] []))
| means_kd_verify_key h :
    means (psa_key_derivation_verify_key h) [] h (Answer (Ret PSA_ERROR_NOT_SUPPORTED h [] [])).
End means.
