(* ===== verification/CryptoProof.v ===== *)
(** * Requests to the crypto service keep its invariant

    [settled] is the state of the service between two requests; [busy] is what
    holds while a request of client [c] is served.  Every function of the
    service keeps [busy], whatever the request contains, and ends in a settled
    state; the operations of the other clients are framed, and the library is
    only called with keys of the client. *)

From S2P Require Import Prelude Bytes CryptoService.
From stdpp Require Import base list numbers.
From Stdlib Require Import ZArith Lia.

Open Scope Z_scope.
Open Scope tfm_scope.

(** The owners of the keys that a call of the library names. *)
Definition call_owners (k : psa_call) : list Z :=
  match k with
  | HashCompute _ _ _ | HashCompare _ _ _ | GenerateRandom _ => []
  | MacCompute key _ _ _ | MacVerify key _ _ _ | CipherEncrypt key _ _ _ | CipherDecrypt key _ _ _
  | AeadEncrypt key _ _ _ _ _ _ | AeadDecrypt key _ _ _ _ _ _
  | SignMessage key _ _ _ | VerifyMessage key _ _ _ | SignHash key _ _ _ | VerifyHash key _ _ _
  | AsymmetricEncrypt key _ _ _ _ | AsymmetricDecrypt key _ _ _ _ | RawKeyAgreement _ key _ _
  | OpenKey key | CloseKey key | DestroyKey key | GetKeyAttributes key
  | ExportKey key _ | ExportPublicKey key _ | PurgeKey key => [key_owner key]
  | ImportKey a _ | GenerateKey a => [attr_owner a]
  | CopyKey key a => [key_owner key; attr_owner a]
  end.

Definition op_owners (k : op_call) : list Z :=
  match k with
  | MacSignSetup key _ | MacVerifySetup key _ | CipherEncryptSetup key _ | CipherDecryptSetup key _
  | AeadEncryptSetup key _ | AeadDecryptSetup key _
  | KeyDerivationInputKey _ key | KeyDerivationKeyAgreement _ key _ => [key_owner key]
  | KeyDerivationOutputKey a => [attr_owner a]
  | _ => []
  end.

(** The sizes of the output buffers whose lengths a call reports. *)
Definition call_room (k : psa_call) : Z :=
  match k with
  | HashCompute _ _ n | MacCompute _ _ _ n | CipherEncrypt _ _ _ n | CipherDecrypt _ _ _ n
  | AeadEncrypt _ _ _ _ _ _ n | AeadDecrypt _ _ _ _ _ _ n | SignMessage _ _ _ n | SignHash _ _ _ n
  | AsymmetricEncrypt _ _ _ _ n | AsymmetricDecrypt _ _ _ _ n | RawKeyAgreement _ _ _ n
  | ExportKey _ n | ExportPublicKey _ n | GenerateRandom n => n
  | _ => 0
  end.

Definition op_room (k : op_call) : Z :=
  match k with
  | HashFinish n | MacSignFinish n | CipherGenerateIv n | CipherUpdate _ n | CipherFinish n
  | AeadGenerateNonce n | AeadUpdate _ n | AeadFinish n _ | AeadVerify n _ | KeyDerivationOutputBytes n => n
  | _ => 0
  end.
Definition op_room2 (k : op_call) : Z := match k with AeadFinish _ n => n | _ => 0 end.

(** What the PSA Crypto API promises: a call that succeeds reports no more than
    fits its buffers, and attributes have the size of their structure. *)
Class PsaLaws (CTX LIB : Type) `{PsaCrypto CTX LIB} : Prop := {
  client_attributes_size : 0 < sizeof_client_attributes < 4294967292;
  psa_fits l k : r_status (snd (psa l k)) = PSA_SUCCESS -> 0 <= r_len (snd (psa l k)) <= call_room k;
  psa_op_fits l x k : r_status (snd (psa_op l x k)) = PSA_SUCCESS ->
    0 <= r_len (snd (psa_op l x k)) <= op_room k /\ 0 <= r_len2 (snd (psa_op l x k)) <= op_room2 k;
  psa_attributes l k : zlen (attr_fields (r_attr (snd (psa l (GetKeyAttributes k))))) = sizeof_client_attributes;
}.

(** Symbolic execution, through the assignments of the service as well. *)
Ltac wp_set :=
  lazymatch goal with
  | |- wp (set_operations _) _ _ _ => apply wp_modify
  | |- wp (set_buf _) _ _ _ => apply wp_modify
  | |- wp (set_alloc_index _) _ _ _ => apply wp_modify
  | |- wp (set_scratch_owner _) _ _ _ => apply wp_modify
  | |- wp (set_lib _) _ _ _ => apply wp_modify
  | |- wp (set_out_vec _) _ _ _ => apply wp_modify
  | |- wp (set_invec _) _ _ _ => apply wp_modify
  | |- wp (set_outvec _) _ _ _ => apply wp_modify
  end.
Ltac svc_steps := repeat first [wp_step | wp_set].

Section proofs.
Context {CTX LIB : Type} `{PsaLaws CTX LIB}.

Abbreviation OP := (tfm_crypto_operation_s CTX).
Abbreviation ST := (crypto_st CTX LIB).

(** An entry of the table: in use, or cleared. *)
Definition entry_ok (o : OP) : Prop :=
  in_use o = TFM_CRYPTO_IN_USE \/ o = no_operation.

Record table_ok (ops : list OP) : Prop := TableOk {
  table_length : length ops = CRYPTO_CONC_OPER_NUM;
  table_entries : Forall entry_ok ops;
}.

(** The service between two requests: every operation that is not in use is
    cleared, and nothing is left in the scratch memory. *)
Record settled (s : ST) : Prop := Settled {
  settled_table : table_ok (operations s);
  settled_buf : scratch_buf s = fill CRYPTO_IOVEC_BUFFER_SIZE 0;
  settled_index : alloc_index s = 0;
  settled_owner : scratch_owner s = 0;
}.

(** The operations of the clients other than [c] are the same. *)
Definition others_kept (c : Z) (ops ops' : list OP) : Prop :=
  forall i o, in_use o = TFM_CRYPTO_IN_USE -> owner o <> c -> (ops !! i = Some o <-> ops' !! i = Some o).

Lemma others_kept_refl c ops : others_kept c ops ops.
Proof. done. Qed.

Lemma others_kept_trans c a b d : others_kept c a b -> others_kept c b d -> others_kept c a d.
Proof. intros H1 H2 i o Hu Ho. rewrite (H1 i o Hu Ho). by apply H2. Qed.

(** A change of an entry that the client has, before and after or from a free
    entry, is invisible to the others. *)
Lemma others_kept_alter c ops f i :
  (forall o, ops !! i = Some o -> (in_use o = TFM_CRYPTO_IN_USE -> owner o = c) /\
     (in_use (f o) = TFM_CRYPTO_IN_USE -> owner (f o) = c)) ->
  others_kept c ops (alter f i ops).
Proof.
  intros Hf j o Hu Ho. destruct (decide (i = j)) as [<-|Hn]; [|by rewrite list_lookup_alter_ne].
  rewrite list_lookup_alter_eq. split.
  - intros Hi. by destruct (Hf o Hi) as [H1 _]; elim Ho; apply H1.
  - intros Hi. destruct (ops !! i) as [o'|] eqn:E; [|done]. cbn in Hi. injection Hi as <-.
    destruct (Hf o' eq_refl) as [_ H2]. elim Ho. by apply H2.
Qed.

Lemma table_alter ops f i :
  table_ok ops -> (forall o, ops !! i = Some o -> entry_ok o -> entry_ok (f o)) -> table_ok (alter f i ops).
Proof.
  intros [Hl He] Hf. split; [by rewrite length_alter|].
  apply Forall_alter; eauto.
Qed.

(** *** While a request is served *)
Section busy.
Context (R : LIB -> LIB -> Prop) `{!PreOrder R} (c : Z) (s0 : ST) (idx : Z) (sizes : list Z).
Context (R_psa : forall l k, Forall (eq c) (call_owners k) -> R l (fst (psa l k))).
Context (R_op : forall l x k, Forall (eq c) (op_owners k) -> R l (fst (fst (psa_op l x k)))).
Context (R_clone : forall l x y, R l (fst (fst (psa_clone l x y)))).

(** [n] bytes at [p] lie in what is allocated. *)
Definition ptr_ok (p : ptr) (n : Z) : Prop :=
  match p with
  | Scratch o => 0 <= o /\ o + n <= idx
  | _ => True
  end.

Definition vec_ok (v : psa_vec) : Prop := 0 <= len v /\ ptr_ok (base v) (len v).

(** The part that also holds after an error. *)
Record core (s : ST) : Prop := Core {
  core_size : zlen (scratch_buf s) = CRYPTO_IOVEC_BUFFER_SIZE;
  core_index : alloc_index s = idx;
  core_zero : sub_bytes idx (CRYPTO_IOVEC_BUFFER_SIZE - idx) (scratch_buf s) =
              fill (CRYPTO_IOVEC_BUFFER_SIZE - idx) 0;
  core_owner : scratch_owner s = c;
  core_table : table_ok (operations s);
  core_others : others_kept c (operations s0) (operations s);
  core_lib : R (lib s0) (lib s);
  core_outvec : outvec s = outvec s0;
}.

Record busy (s : ST) : Prop := Busy {
  busy_core :> core s;
  busy_out : forall i, vec_ok (nth i (out_vec s) no_vec) /\ len (nth i (out_vec s) no_vec) <= nth i sizes 0;
}.

Context (Hidx : 0 <= idx <= CRYPTO_IOVEC_BUFFER_SIZE).

(** Operation [i] is in use by the client. *)
Definition has_op (i : nat) (s : ST) : Prop :=
  exists o, operations s !! i = Some o /\ in_use o = TFM_CRYPTO_IN_USE /\ owner o = c.

Abbreviation keeps m Q s := (wp m Q (fun _ => core) s).

Lemma wp_mem_read p n Q E (s : ST) : (forall d, Q d s) -> wp (mem_read p n) Q E s.
Proof. intros HQ. unfold wp, mem_read, bind, gets, ret. apply HQ. Qed.

Lemma wp_in_data iv i Q E (s : ST) : (forall d, Q d s) -> wp (in_data iv i) Q E s.
Proof. apply wp_mem_read. Qed.

Lemma wp_read_u32 p Q E (s : ST) : (forall d, Q d s) -> wp (read_u32 p) Q E s.
Proof. intros HQ. apply wp_bind, wp_mem_read. intros d. apply wp_ret. auto. Qed.

Lemma wp_out_len i Q E (s : ST) : Q (len (nth i (out_vec s) no_vec)) s -> wp (out_len i) Q E s.
Proof. done. Qed.

Lemma wp_out_at i Q E (s : ST) : Q (nth i (out_vec s) no_vec) s -> wp (out_at i) Q E s.
Proof. done. Qed.

(** Writing within the allocated memory. *)
Lemma mem_write_core p d s Q E :
  core s -> ptr_ok p (zlen d) ->
  (forall s', core s' -> operations s' = operations s -> out_vec s' = out_vec s -> Q tt s') ->
  wp (mem_write p d) Q E s.
Proof.
  intros [] Hp HQ. unfold mem_write. svc_steps. destruct p as [| |o]; [by apply HQ..|]. cbn in Hp. svc_steps. apply HQ; [|done..].
  pose proof (zlen_nonneg d).
  split; try done; cbn.
  - by rewrite zlen_splice by lia.
  - rewrite sub_bytes_splice_disj by lia. done.
Qed.

Lemma busy_write p d s Q E :
  busy s -> ptr_ok p (zlen d) ->
  (forall s', busy s' -> operations s' = operations s -> out_vec s' = out_vec s -> Q tt s') ->
  wp (mem_write p d) Q E s.
Proof.
  intros [Hc Ho] Hp HQ. apply mem_write_core; [done..|]. intros s' Hc' Hops Hv. apply HQ; [|done..].
  split; [done|]. by rewrite Hv.
Qed.

Lemma busy_write_u32 p v s Q E :
  busy s -> ptr_ok p 4 ->
  (forall s', busy s' -> operations s' = operations s -> out_vec s' = out_vec s -> Q tt s') ->
  wp (write_u32 p v) Q E s.
Proof. intros Hb Hp HQ. apply busy_write; [done| |done]. by rewrite zlen_le_bytes. Qed.

Lemma busy_fill_out i d s Q :
  busy s ->
  (forall s', busy s' -> operations s' = operations s -> out_vec s' = out_vec s -> Q tt s') ->
  keeps (fill_out i d) Q s.
Proof.
  intros Hb HQ. apply wp_bind, wp_out_at. apply busy_write; [done| |done].
  destruct (busy_out s Hb i) as [[Hl Hp] _].
  destruct (base _); try done. cbn in *. unfold zlen. rewrite length_take. lia.
Qed.

Lemma busy_set_out_len i n s Q :
  busy s -> 0 <= n <= len (nth i (out_vec s) no_vec) ->
  (forall s', busy s' -> operations s' = operations s ->
     (forall j, j <> i -> nth j (out_vec s') no_vec = nth j (out_vec s) no_vec) -> Q tt s') ->
  keeps (set_out_len i n) Q s.
Proof.
  intros [Hc Ho] Hn HQ. unfold set_out_len. svc_steps. apply HQ; [|done|].
  - split; [by destruct Hc; split|]. cbn. intros j. destruct (Ho j) as [[Hl Hp] Hs].
    rewrite !nth_lookup in *. destruct (decide (i = j)) as [<-|Hj].
    + rewrite list_lookup_alter_eq. destruct (out_vec s !! i) as [v|]; cbn in *; [|by split].
      split; [split; cbn; [lia|]|lia]. destruct (base v); cbn in *; [done|done|lia].
    + by rewrite list_lookup_alter_ne.
  - intros j Hj. cbn. rewrite !nth_lookup. by rewrite list_lookup_alter_ne.
Qed.

Lemma put_result_ok i st d n s Q :
  busy s -> (st = PSA_SUCCESS -> 0 <= n <= len (nth i (out_vec s) no_vec)) ->
  (forall s', busy s' -> operations s' = operations s ->
     (forall j, j <> i -> nth j (out_vec s') no_vec = nth j (out_vec s) no_vec) -> Q tt s') ->
  keeps (put_result i st d n) Q s.
Proof.
  intros Hb Hn HQ. apply wp_bind, busy_fill_out; [done|]. intros s1 Hb1 Ho1 Hv1.
  destruct (busy_out s1 Hb1 i) as [[Hl _] _].
  apply busy_set_out_len; [done| |].
  - rewrite Hv1 in *. destruct (Z.eqb_spec st PSA_SUCCESS); [auto|lia].
  - intros s2 Hb2 Ho2 Hv2. apply HQ; [done|congruence|]. intros j Hj. rewrite (Hv2 j Hj). by rewrite Hv1.
Qed.

Lemma out_arg_ok i n s Q :
  busy s ->
  (forall p, ptr_ok p n -> Q p s) ->
  keeps (out_arg i n) Q s.
Proof.
  intros Hb HQ. apply wp_bind, wp_out_at. svc_steps; [|by destruct Hb].
  apply HQ. destruct (busy_out s Hb i) as [[Hl Hp] _]. destruct (base _); try done. cbn in *. lia.
Qed.

(** *** Calls of the library *)

Lemma busy_same s s' :
  busy s -> scratch_buf s' = scratch_buf s -> alloc_index s' = alloc_index s -> scratch_owner s' = scratch_owner s ->
  out_vec s' = out_vec s -> outvec s' = outvec s -> table_ok (operations s') ->
  others_kept c (operations s0) (operations s') -> R (lib s0) (lib s') -> busy s'.
Proof.
  intros [[] Ho] H1 H2 H3 H4 H5 ? ? ?. split; [split; try done; congruence|]. by rewrite H4.
Qed.

Lemma call_psa_ok k s Q :
  busy s -> Forall (eq c) (call_owners k) ->
  (forall r s', busy s' -> out_vec s' = out_vec s ->
     (r_status r = PSA_SUCCESS -> 0 <= r_len r <= call_room k) -> Q r s') ->
  keeps (call_psa k) Q s.
Proof.
  intros Hb Hk HQ. unfold call_psa. svc_steps. apply HQ; [|done|apply psa_fits].
  pose proof Hb as [[] _]. eapply busy_same; try done. cbn. by etransitivity; [|apply R_psa].
Qed.

Lemma has_op_nth i s : has_op i s -> exists o, operations s !! i = Some o /\ in_use o = TFM_CRYPTO_IN_USE /\ owner o = c.
Proof. done. Qed.

(** The context of an operation of the client changes. *)
Lemma busy_context i x l s s' :
  busy s -> has_op i s -> R (lib s) l ->
  scratch_buf s' = scratch_buf s -> alloc_index s' = alloc_index s -> scratch_owner s' = scratch_owner s ->
  out_vec s' = out_vec s -> outvec s' = outvec s -> lib s' = l ->
  operations s' = alter (fun o => Operation (in_use o) (owner o) (type o) x) i (operations s) -> busy s'.
Proof.
  intros Hb (o & Hi & Hu & Ho) HR H1 H2 H3 H4 H5 Hl Hops. pose proof Hb as [[] _]. eapply busy_same; try done; rewrite ?Hops, ?Hl.
  - apply table_alter; [done|]. intros o' Ho' _. left. cbn. congruence.
  - eapply others_kept_trans; [done|]. apply others_kept_alter. cbn. intros o' Ho'. split; intros; congruence.
  - by etransitivity.
Qed.

Lemma call_op_ok i k s Q :
  busy s -> has_op i s -> Forall (eq c) (op_owners k) ->
  (forall r s', busy s' -> out_vec s' = out_vec s ->
     (r_status r = PSA_SUCCESS -> 0 <= r_len r <= op_room k /\ 0 <= r_len2 r <= op_room2 k) -> Q r s') ->
  keeps (call_op i k) Q s.
Proof.
  intros Hb Hi Hk HQ. unfold call_op. svc_steps.
  pose proof (R_op (lib s) (operation (nth i (operations s) no_operation)) k Hk) as HR.
  pose proof (psa_op_fits (lib s) (operation (nth i (operations s) no_operation)) k) as Hf.
  destruct (psa_op _ _ _) as [[l x] r]. cbn in HR, Hf. svc_steps. apply HQ; [|done|done].
  by apply (busy_context i x l s).
Qed.

Lemma call_clone_ok i j s Q :
  busy s -> has_op j s -> (forall st s', busy s' -> Q st s') -> keeps (call_clone i j) Q s.
Proof.
  intros Hb Hj HQ. unfold call_clone. svc_steps.
  pose proof (R_clone (lib s) (operation (nth i (operations s) no_operation)) (operation (nth j (operations s) no_operation))) as HR.
  destruct (psa_clone _ _ _) as [[l x] r]. cbn in HR. svc_steps. apply HQ.
  by apply (busy_context j x l s).
Qed.

(** *** The table of operations *)

Lemma first_free_spec (ops : list OP) i :
  first_free ops = Some i -> exists o, ops !! i = Some o /\ in_use o = TFM_CRYPTO_NOT_IN_USE.
Proof.
  revert i. induction ops as [|o ops IH]; [done|]. intros i. cbn.
  destruct (Z.eqb_spec (in_use o) TFM_CRYPTO_NOT_IN_USE); [intros [= <-]; by exists o|].
  destruct (first_free ops) as [j|]; [|done]. intros [= <-]. by apply IH.
Qed.

Lemma operation_alloc_ok ty p s Q E :
  busy s -> ptr_ok p 4 ->
  (forall i s', busy s' -> has_op i s' -> out_vec s' = out_vec s -> Q i s') ->
  (forall e s', busy s' -> out_vec s' = out_vec s -> E e s') -> wp (tfm_crypto_operation_alloc ty p) Q E s.
Proof.
  intros Hb Hp HQ HE. unfold tfm_crypto_operation_alloc, tfm_crypto_get_caller_id.
  apply wp_bind, wp_read_u32. intros h. svc_steps; [|by apply HE].
  destruct (first_free (operations s)) as [i|] eqn:Hf; [|apply wp_fail; by apply HE].
  apply first_free_spec in Hf as (o & Hi & Hu). svc_steps. pose proof Hb as [[] _].
  apply busy_write_u32; [|done|].
  - eapply busy_same; try done; cbn.
    + apply table_alter; [done|]. intros. by left.
    + eapply others_kept_trans; [done|]. apply others_kept_alter. cbn. intros o' Ho'. split; intros; [|congruence].
      unfold TFM_CRYPTO_IN_USE, TFM_CRYPTO_NOT_IN_USE in *. congruence.
  - intros s' Hb' Ho' Hv'. svc_steps. apply HQ; [done| |done]. cbn in Ho'. unfold has_op.
    rewrite Ho', list_lookup_alter_eq, Hi. by eexists.
Qed.

Lemma nth_has_op i s o :
  o = nth i (operations s) no_operation -> (in_use o =? TFM_CRYPTO_IN_USE) = true -> owner o = c -> has_op i s.
Proof.
  intros -> Hu Ho. rewrite nth_lookup in *. destruct (operations s !! i) as [o|] eqn:E; cbn in *; [|done].
  exists o. rewrite E. apply Z.eqb_eq in Hu. done.
Qed.

Lemma operation_lookup_ok ty h s Q E :
  busy s -> (forall i, has_op i s -> Q i s) -> (forall e, E e s) -> wp (tfm_crypto_operation_lookup ty h) Q E s.
Proof.
  intros Hb HQ HE. unfold tfm_crypto_operation_lookup, tfm_crypto_get_caller_id. svc_steps; [|by apply HE].
  destruct (_ && _) eqn:Hc; [|apply wp_fail; by apply HE]. apply wp_ret, HQ.
  apply andb_true_iff in Hc as [[E1 _]%andb_true_iff E2%Z.eqb_eq].
  eapply nth_has_op; [done|done|]. destruct Hb as [[] _]. congruence.
Qed.

Lemma operation_release_ok p s :
  busy s -> ptr_ok p 4 -> wp (tfm_crypto_operation_release p) (fun _ => busy) (fun _ => busy) s.
Proof.
  intros Hb Hp. unfold tfm_crypto_operation_release, tfm_crypto_get_caller_id.
  apply wp_bind, wp_read_u32. intros h. apply wp_bind, busy_write_u32; [done|done|]. intros s1 Hb1 _ _. svc_steps; [|done].
  destruct (_ && _) eqn:E; [|by apply wp_fail]. svc_steps.
  apply andb_true_iff in E as [E1 E2%Z.eqb_eq]. pose proof Hb1 as [[] _].
  edestruct (nth_has_op _ s1 _ eq_refl E1) as (o & Hi & Hu & Ho); [congruence|].
  eapply busy_same; try done; cbn.
  - apply table_alter; [done|]. intros. by right.
  - eapply others_kept_trans; [done|]. apply others_kept_alter. cbn. intros o' Ho'. split; intros; [congruence|done].
Qed.

(** *** The parts that the layers share *)

Abbreviation ends m s := (wp m (fun _ => busy) (fun _ => core) s).

Lemma ends_status st s : busy s -> ends (of_status st) s.
Proof. intros Hb. apply wp_of_status; intros; [done|by destruct Hb]. Qed.

Lemma call_with_output_ok k s :
  busy s -> Forall (eq c) (call_owners k) -> call_room k = len (nth 0 (out_vec s) no_vec) -> ends (call_with_output k) s.
Proof.
  intros Hb Hk Hr. apply wp_bind, call_psa_ok; [done..|]. intros r s1 Hb1 Hv Hlen.
  apply wp_bind, put_result_ok; [done|rewrite Hv, <- Hr; apply Hlen|]. intros s2 Hb2 _ _. by apply ends_status.
Qed.

Lemma call_without_output_ok k s : busy s -> Forall (eq c) (call_owners k) -> ends (call_without_output k) s.
Proof. intros Hb Hk. apply wp_bind, call_psa_ok; [done..|]. intros r s1 Hb1 _ _. by apply ends_status. Qed.

Lemma op_with_output_ok i k s :
  busy s -> has_op i s -> Forall (eq c) (op_owners k) -> op_room k = len (nth 0 (out_vec s) no_vec) ->
  ends (op_with_output i k) s.
Proof.
  intros Hb Hi Hk Hr. apply wp_bind, call_op_ok; [done..|]. intros r s1 Hb1 Hv Hlen.
  apply wp_bind, put_result_ok; [done|rewrite Hv, <- Hr; apply Hlen|]. intros s2 Hb2 _ _. by apply ends_status.
Qed.

Lemma op_without_output_ok i k s :
  busy s -> has_op i s -> Forall (eq c) (op_owners k) -> ends (op_without_output i k) s.
Proof. intros Hb Hi Hk. apply wp_bind, call_op_ok; [done..|]. intros r s1 Hb1 _ _. by apply ends_status. Qed.

Lemma release_and_return_ok p st s : busy s -> ptr_ok p 4 -> ends (release_operation_and_return p st) s.
Proof.
  intros Hb Hp. apply wp_bind, wp_try. eapply wp_mono; [by apply operation_release_ok|..]; intros; by apply ends_status.
Qed.

Lemma setup_or_release_ok p i k s :
  busy s -> ptr_ok p 4 -> has_op i s -> Forall (eq c) (op_owners k) -> ends (setup_or_release p i k) s.
Proof.
  intros Hb Hp Hi Hk. apply wp_bind, call_op_ok; [done..|]. intros r s1 Hb1 _ _.
  destruct (_ =? _); [by apply wp_ret|by apply release_and_return_ok].
Qed.

Lemma end_operation_ok p i k s :
  busy s -> ptr_ok p 4 -> has_op i s -> Forall (eq c) (op_owners k) -> ends (end_operation p i k) s.
Proof.
  intros Hb Hp Hi Hk. apply wp_bind, call_op_ok; [done..|]. intros r s1 Hb1 _ _.
  destruct (_ =? _); [by apply release_and_return_ok|by apply ends_status].
Qed.

Lemma finish_operation_ok p i k s :
  busy s -> ptr_ok p 4 -> has_op i s -> Forall (eq c) (op_owners k) -> op_room k = len (nth 1 (out_vec s) no_vec) ->
  ends (finish_operation p i k) s.
Proof.
  intros Hb Hp Hi Hk Hr. apply wp_bind, call_op_ok; [done..|]. intros r s1 Hb1 Hv Hlen.
  apply wp_bind, put_result_ok; [done|rewrite Hv, <- Hr; apply Hlen|]. intros s2 Hb2 _ _.
  destruct (_ =? _); [by apply release_and_return_ok|by apply ends_status].
Qed.

Lemma abort_operation_ok p i k s :
  busy s -> ptr_ok p 4 -> has_op i s -> Forall (eq c) (op_owners k) -> ends (abort_operation p i k) s.
Proof. intros Hb Hp Hi Hk. apply wp_bind, call_op_ok; [done..|]. intros r s1 Hb1 _ _. by apply release_and_return_ok. Qed.

(** The beginning of a multi-part call: the pointer can be written, and an
    operation that is found is the client's. *)
Lemma open_operation_ok ty a b iov s Q :
  busy s ->
  (forall p r s', busy s' -> ptr_ok p 4 -> (forall i, r = Ok i -> has_op i s') -> Q (p, r) s') ->
  keeps (open_operation ty a b iov) Q s.
Proof.
  intros Hb HQ. unfold open_operation. destruct a.
  - apply wp_bind, out_arg_ok; [done|]. intros p Hp. apply wp_bind, busy_write_u32; [done..|]. intros s1 Hb1 _ _.
    apply wp_bind, wp_try, operation_alloc_ok; [done|done|..].
    + intros i s2 Hb2 Hi _. apply wp_ret, HQ; [done..|]. by intros ? [= <-].
    + intros e s2 Hb2 _. apply wp_ret, HQ; [done..|]. by intros ? [=].
  - apply wp_bind, wp_try. assert (Hgo : forall r : res nat, (forall i, r = Ok i -> has_op i s) ->
      keeps (if b then let* p_handle := out_arg 0 4 in let* _ := write_u32 p_handle (op_handle iov) in ret (p_handle, r)
             else ret (NULL, r)) Q s).
    { intros r Hr. destruct b; [|apply wp_ret, HQ; done].
      apply wp_bind, out_arg_ok; [done|]. intros p Hp. apply wp_bind, busy_write_u32; [done..|]. intros s1 Hb1 Ho _.
      apply wp_ret, HQ; [done..|]. intros i Hi. unfold has_op. rewrite Ho. by apply Hr. }
    apply operation_lookup_ok; [done|..].
    + intros i Hi. apply Hgo. by intros ? [= <-].
    + intros e. apply Hgo. by intros ? [=].
Qed.

Lemma in_attributes_ok iv s Q :
  busy s -> (forall a, attr_owner a = c -> Q a s) -> keeps (in_attributes iv c) Q s.
Proof.
  intros Hb HQ. unfold in_attributes. svc_steps; [|by destruct Hb]. apply wp_in_data. intros d. svc_steps. by apply HQ.
Qed.

(** *** The layers *)

(** One step through a layer. *)
Ltac layer_step :=
  lazymatch goal with
  | |- wp (let x := ?a in @?b x) _ _ _ => change (wp (let x := a in b x)) with (wp (b a)); cbv beta
  | |- wp (bind (in_data _ _) _) _ _ _ => apply wp_bind, wp_in_data; intros ?
  | |- wp (bind (read_u32 _) _) _ _ _ => apply wp_bind, wp_read_u32; intros ?
  | |- wp (bind (out_len _) _) _ _ _ => apply wp_bind, wp_out_len
  | |- wp (bind (out_at _) _) _ _ _ => apply wp_bind, wp_out_at
  | |- wp (bind (out_arg _ _) _) _ _ _ => apply wp_bind, out_arg_ok; [assumption|intros ? ?]
  | |- wp (bind (check _ _) _) _ _ _ => apply wp_bind, wp_check; intros ?; [|by apply busy_core]
  | |- wp (bind (in_attributes _ _) _) _ _ _ => apply wp_bind, in_attributes_ok; [assumption|intros ? ?]
  | |- wp (bind (open_operation _ _ _ _) _) _ _ _ =>
      apply wp_bind, open_operation_ok; [assumption|intros ? [?|?] ? ? ? ?]; cbv beta iota
  | |- wp (bind (write_u32 _ _) _) _ _ _ => apply wp_bind, busy_write_u32; [assumption|assumption|intros ? ? ? ?]
  | |- wp (bind (fill_out _ _) _) _ _ _ => apply wp_bind, busy_fill_out; [assumption|intros ? ? ? ?]
  | |- wp (bind (call_psa _) _) _ _ _ => apply wp_bind, call_psa_ok; [assumption|repeat constructor; cbn; first [congruence|symmetry; auto]|intros ? ? ? ? ?]
  | |- wp (bind (call_op _ _) _) _ _ _ =>
      apply wp_bind, call_op_ok; [assumption|by auto|repeat constructor; cbn; first [congruence|symmetry; auto]|intros ? ? ? ? ?]
  | |- wp (if _ then _ else _) _ _ _ => case_match
  | |- wp (fail _) _ _ _ => by apply wp_fail, busy_core
  | |- wp (ret tt) _ _ _ => by apply wp_ret
  | |- wp (ret_status _) _ _ _ => by apply ends_status
  | |- wp (call_with_output _) _ _ _ => apply call_with_output_ok; [assumption|repeat constructor; cbn; first [congruence|symmetry; auto]|reflexivity]
  | |- wp (call_without_output _) _ _ _ => apply call_without_output_ok; [assumption|repeat constructor; cbn; first [congruence|symmetry; auto]]
  | |- wp (op_with_output _ _) _ _ _ => apply op_with_output_ok; [assumption|by auto|repeat constructor; cbn; first [congruence|symmetry; auto]|reflexivity]
  | |- wp (op_without_output _ _) _ _ _ => apply op_without_output_ok; [assumption|by auto|repeat constructor; cbn; first [congruence|symmetry; auto]]
  | |- wp (setup_or_release _ _ _) _ _ _ => apply setup_or_release_ok; [assumption|assumption|by auto|repeat constructor; cbn; first [congruence|symmetry; auto]]
  | |- wp (end_operation _ _ _) _ _ _ => apply end_operation_ok; [assumption|assumption|by auto|repeat constructor; cbn; first [congruence|symmetry; auto]]
  | |- wp (finish_operation _ _ _) _ _ _ =>
      apply finish_operation_ok; [assumption|assumption|by auto|repeat constructor; cbn; first [congruence|symmetry; auto]|reflexivity]
  | |- wp (abort_operation _ _ _) _ _ _ => apply abort_operation_ok; [assumption|assumption|by auto|repeat constructor; cbn; first [congruence|symmetry; auto]]
  | |- wp (release_operation_and_return _ _) _ _ _ => by apply release_and_return_ok
  end.
Ltac layer := repeat layer_step.

Lemma hash_ok iv s : busy s -> ends (tfm_crypto_hash_interface iv) s.
Proof.
  intros Hb. unfold tfm_crypto_hash_interface. layer.
  apply wp_bind, operation_alloc_ok; [done|done|..].
  - intros j s2 Hb2 Hj _. apply wp_bind, call_clone_ok; [done|done|]. intros st s3 Hb3. layer.
  - intros e s2 Hb2 _. by apply busy_core.
Qed.

Lemma mac_ok iv k s : busy s -> ends (tfm_crypto_mac_interface iv (KeyId c k)) s.
Proof. intros Hb. unfold tfm_crypto_mac_interface. layer. Qed.

Lemma cipher_ok iv k s : busy s -> ends (tfm_crypto_cipher_interface iv (KeyId c k)) s.
Proof. intros Hb. unfold tfm_crypto_cipher_interface. layer. Qed.

Lemma aead_ok iv k s : busy s -> ends (tfm_crypto_aead_interface iv (KeyId c k)) s.
Proof.
  intros Hb. unfold tfm_crypto_aead_interface. layer.
  rename select (_ -> _ /\ _) into Hlen.
  apply wp_bind, put_result_ok; [done|intros He; rename select (out_vec _ = _) into Hv; rewrite Hv; by apply Hlen|].
  intros s2 Hb2 _ Hv2. apply wp_bind, put_result_ok; [done| |intros s3 Hb3 _ _; layer].
  intros He. rewrite Hv2 by done. rename select (out_vec _ = _) into Hv. rewrite Hv. by apply Hlen.
Qed.

Lemma has_op_same i s s' : operations s' = operations s -> has_op i s -> has_op i s'.
Proof. unfold has_op. by intros ->. Qed.

Lemma vec_ptr_ok i n s : busy s -> n <= len (nth i (out_vec s) no_vec) -> ptr_ok (base (nth i (out_vec s) no_vec)) n.
Proof. intros Hb Hn. destruct (busy_out s Hb i) as [[_ Hp] _]. destruct (base _); try done. cbn in *. lia. Qed.

(** A length that is reported whatever the status. *)
Lemma report_len_ok i r s :
  busy s -> (r_status r = PSA_SUCCESS -> 0 <= r_len r <= len (nth i (out_vec s) no_vec)) ->
  ends (let* _ := set_out_len i (r_len r) in ret_status r) s.
Proof.
  intros Hb Hr. destruct (decide (r_status r = PSA_SUCCESS)) as [He|He].
  - apply wp_bind, busy_set_out_len; [done|by apply Hr|]. intros s1 Hb1 _ _. by apply ends_status.
  - unfold set_out_len, ret_status. svc_steps; [done|]. destruct Hb as [[] _]. by split.
Qed.

Lemma status_then_write r p v s :
  busy s -> ptr_ok p 4 -> ends (let* _ := ret_status r in write_u32 p v) s.
Proof.
  intros Hb Hp. apply wp_bind. apply wp_of_status; intros; [|by apply busy_core].
  by apply busy_write_u32; [done|done|intros s2 Hb2 _ _].
Qed.

Lemma key_derivation_ok iv k s : busy s -> ends (tfm_crypto_key_derivation_interface iv (KeyId c k)) s.
Proof.
  intros Hb. unfold tfm_crypto_key_derivation_interface. layer.
  - apply report_len_ok; [done|]. repeat match goal with Hv : out_vec ?x = _ |- context [out_vec ?x] => rewrite Hv end. done.
  - apply abort_operation_ok; [done|done| |constructor]. eapply has_op_same; [done|]. auto.
  - apply wp_bind, busy_write_u32; [done| |intros s2 Hb2 _ _; layer].
    apply vec_ptr_ok; [done|]. rename select (negb _ = true) into Hn.
    apply negb_true_iff, orb_false_iff in Hn as [_ Hn]. apply negb_false_iff, Z.eqb_eq in Hn. lia.
Qed.

Lemma key_management_ok iv k s : busy s -> ends (tfm_crypto_key_management_interface iv (KeyId c k)) s.
Proof.
  intros Hb. unfold tfm_crypto_key_management_interface. cbn [key_owner key_number].
  set (sid := function_id (iov_at iv)). apply wp_bind.
  apply wp_mono with (E := fun _ => core)
    (Q := fun a s' => s' = s /\ ((sid =? TFM_CRYPTO_IMPORT_KEY_SID) = true -> attr_owner a = c) /\
            ((sid =? TFM_CRYPTO_COPY_KEY_SID) = true -> attr_owner a = c) /\
            ((sid =? TFM_CRYPTO_GENERATE_KEY_SID) = true -> attr_owner a = c)); [| |done].
  - destruct (_ || _) eqn:Hs; [by apply in_attributes_ok|]. apply wp_ret.
    apply orb_false_iff in Hs as [[-> ->]%orb_false_iff ->]. done.
  - intros a s' (-> & H1 & H2 & H3). layer.
    + apply wp_bind, busy_write; [done| |intros s2 Hb2 _ _; layer].
      apply vec_ptr_ok; [done|]. destruct (busy_out _ ltac:(eassumption) 0%nat) as [[Hl _] _].
      unfold zlen, sub_bytes. rewrite length_take. lia.
    + apply status_then_write; done.
    + apply status_then_write; done.
Qed.

Lemma asymmetric_sign_ok iv k s : busy s -> ends (tfm_crypto_asymmetric_sign_interface iv (KeyId c k)) s.
Proof. intros Hb. unfold tfm_crypto_asymmetric_sign_interface. layer. Qed.

Lemma asymmetric_encrypt_ok iv k s : busy s -> ends (tfm_crypto_asymmetric_encrypt_interface iv (KeyId c k)) s.
Proof. intros Hb. unfold tfm_crypto_asymmetric_encrypt_interface. layer. Qed.

Lemma random_ok s : busy s -> ends tfm_crypto_random_interface s.
Proof. intros Hb. unfold tfm_crypto_random_interface. layer. Qed.

Lemma dispatcher_ok iv s : busy s -> ends (tfm_crypto_api_dispatcher iv) s.
Proof.
  intros Hb. unfold tfm_crypto_api_dispatcher. apply wp_bind, wp_check; intros _; [|by apply busy_core]. cbv zeta.
  set (g := TFM_CRYPTO_GET_GROUP_ID _). apply wp_bind.
  apply wp_mono with (E := fun _ => core)
    (Q := fun k s' => s' = s /\ (negb ((g =? TFM_CRYPTO_GROUP_ID_HASH) || (g =? TFM_CRYPTO_GROUP_ID_RANDOM)) = true ->
                                k = KeyId c (key_id (iov_at iv)))); [| |done].
  - unfold tfm_crypto_get_caller_id. destruct (negb _); svc_steps; [|done]. split; [done|]. intros _.
    by rewrite (core_owner s Hb).
  - intros k s' [-> Hk].
    destruct (Z.eqb_spec g TFM_CRYPTO_GROUP_ID_HASH) as [->|Hg1]; [by apply hash_ok|].
    destruct (Z.eqb_spec g TFM_CRYPTO_GROUP_ID_RANDOM) as [->|Hg2]; [by apply random_ok|].
    specialize (Hk eq_refl) as ->.
    repeat case_match; first [by apply key_management_ok|by apply mac_ok|by apply cipher_ok|by apply aead_ok
      |by apply asymmetric_sign_ok|by apply asymmetric_encrypt_ok|by apply key_derivation_ok|by apply wp_fail, busy_core
      |exfalso; lia].
Qed.

(** *** The answer *)

(** The bytes written to each output so far; vectors up to [i] are done. *)
Definition written (i : nat) (s : ST) : Prop :=
  length (outvec s) = length sizes /\
  forall j, zlen (nth j (outvec s) []) <= Z.max 0 (nth j sizes 0) /\ ((i <= j)%nat -> nth j (outvec s) [] = []).

(** Everything of [busy] except the outputs of the message. *)
Definition answering (s : ST) : Prop := busy (Crypto (operations s) (scratch_buf s) (alloc_index s) (scratch_owner s)
  (lib s) (out_vec s) (invec s) (outvec s0)).

Lemma write_outvecs_ok n i s Q E :
  answering s -> written i s -> (i + n <= length sizes)%nat ->
  (forall s', answering s' -> written (i + n) s' -> Q tt s') -> wp (write_outvecs n i) Q E s.
Proof.
  revert i s. induction n as [|n IH]; intros i s Hb Hw Hn HQ; cbn [write_outvecs].
  { apply wp_ret. rewrite Nat.add_0_r in HQ. by apply HQ. }
  apply wp_bind, wp_out_at. apply wp_bind. unfold mem_read. svc_steps. unfold psa_write. svc_steps.
  destruct Hw as [Hl Hw]. pose proof (busy_out _ Hb i) as [[Hv Hp] Hs]. cbn in Hv, Hp, Hs.
  set (v := nth i (out_vec s) no_vec) in *.
  set (d := match base v with NULL => [] | Local b => sub_bytes 0 (len v) b | Scratch o => sub_bytes o (len v) (scratch_buf s) end).
  assert (Hd : zlen d <= Z.max 0 (nth i sizes 0)).
  { assert (zlen d <= len v); [|lia]. unfold d, zlen, sub_bytes. destruct (base v); cbn; rewrite ?length_take; lia. }
  apply IH; [done| |lia|by rewrite Nat.add_succ_comm].
  split; [by cbn; rewrite length_insert|]. intros j. cbn. destruct (decide (j = i)) as [->|Hj].
  - rewrite nth_insert_eq by lia. rewrite (proj2 (Hw i)) by lia. split; [done|lia].
  - rewrite nth_insert_ne by done. split; [apply Hw|]. intros. apply Hw. lia.
Qed.
End busy.

(** *** The scratch memory *)

(** What is not allocated is zero. *)
Record zero_tail (s : ST) : Prop := ZeroTail {
  zt_size : zlen (scratch_buf s) = CRYPTO_IOVEC_BUFFER_SIZE;
  zt_index : 0 <= alloc_index s <= CRYPTO_IOVEC_BUFFER_SIZE;
  zt_zero : sub_bytes (alloc_index s) (CRYPTO_IOVEC_BUFFER_SIZE - alloc_index s) (scratch_buf s) =
            fill (CRYPTO_IOVEC_BUFFER_SIZE - alloc_index s) 0;
}.

Lemma fill_app n m v : 0 <= n -> 0 <= m -> fill n v ++ fill m v = fill (n + m) v.
Proof. intros. unfold fill. rewrite <- replicate_add. f_equal. lia. Qed.

Lemma clear_scratch_ok s Q E :
  zero_tail s ->
  Q tt (Crypto (operations s) (fill CRYPTO_IOVEC_BUFFER_SIZE 0) 0 0 (lib s) (out_vec s) (invec s) (outvec s)) ->
  wp tfm_crypto_clear_scratch Q E s.
Proof.
  intros [Hl Hi Hz] HQ. unfold tfm_crypto_clear_scratch. svc_steps. cbn.
  replace (splice _ _ _) with (fill CRYPTO_IOVEC_BUFFER_SIZE 0); [done|].
  unfold splice. cbn [Z.to_nat take app]. rewrite Nat.add_0_l.
  replace (length (fill (alloc_index s) 0)) with (Z.to_nat (alloc_index s)) by (unfold fill; by rewrite length_replicate).
  replace (drop _ _) with (fill (CRYPTO_IOVEC_BUFFER_SIZE - alloc_index s) 0).
  - change (take (Z.to_nat 0) (scratch_buf s)) with (@nil Z). cbn [app]. rewrite fill_app by lia. f_equal. lia.
  - rewrite <- Hz. unfold sub_bytes. rewrite take_ge; [done|]. rewrite length_drop. unfold zlen in Hl. lia.
Qed.

Lemma ALIGN_4 x : 0 <= x <= 4294967292 -> x <= ALIGN x 4 <= x + 3.
Proof.
  intros Hx. unfold ALIGN. change (4 - 1) with (Z.ones 2). rewrite <- Z.ldiff_land.
  rewrite Z.ldiff_ones_r by lia. rewrite Z.shiftr_div_pow2, Z.shiftl_mul_pow2 by lia. change (2 ^ 2) with 4. change (Z.ones 2) with 3.
  assert (Hd := Z.div_mod (x + 3) 4 ltac:(lia)). pose proof (Z.mod_pos_bound (x + 3) 4 ltac:(lia)).
  rewrite u32_id by lia. lia.
Qed.

Lemma alloc_scratch_ok n s Q E :
  zero_tail s -> 0 <= n < 4294967296 ->
  (forall idx', alloc_index s + n <= idx' <= CRYPTO_IOVEC_BUFFER_SIZE ->
     zero_tail (Crypto (operations s) (scratch_buf s) idx' (scratch_owner s) (lib s) (out_vec s) (invec s) (outvec s)) ->
     Q (Scratch (alloc_index s))
       (Crypto (operations s) (scratch_buf s) idx' (scratch_owner s) (lib s) (out_vec s) (invec s) (outvec s))) ->
  E PSA_ERROR_INSUFFICIENT_MEMORY s ->
  wp (tfm_crypto_alloc_scratch n) Q E s.
Proof.
  intros [Hl Hi Hz] Hn HQ HE. unfold tfm_crypto_alloc_scratch, SIZE_MAX, TFM_CRYPTO_IOVEC_ALIGNMENT.
  apply wp_bind, wp_check; intros Hc; [|done]. svc_steps; [|done].
  apply negb_true_iff in Hc. assert (n <= 4294967292) by lia. pose proof (ALIGN_4 n ltac:(lia)) as Ha.
  rename select (negb (_ >? u32 _) = true) into Hr. unfold CRYPTO_IOVEC_BUFFER_SIZE in *.
  rewrite u32_id in Hr by lia. assert (Hr' : ALIGN n 4 <= 5120 - alloc_index s) by lia.
  rewrite u32_id by lia. apply HQ; [lia|]. unfold CRYPTO_IOVEC_BUFFER_SIZE.
  split; cbn [alloc_index scratch_buf]; unfold CRYPTO_IOVEC_BUFFER_SIZE; [done|lia|].
  rewrite <- (sub_bytes_fill (ALIGN n 4) (5120 - (alloc_index s + ALIGN n 4)) (5120 - alloc_index s)) by lia.
  rewrite <- Hz. rewrite sub_bytes_sub_bytes by lia. done.
Qed.

(** *** Loading the vectors *)

Section loading.
Context (s0 : ST) (sizes : list Z).
Context (Hsizes : Forall (fun n => 0 <= n < 4294967296) sizes).

Record loading (s : ST) : Prop := Loading {
  ld_zero : zero_tail s;
  ld_operations : operations s = operations s0;
  ld_lib : lib s = lib s0;
  ld_outvec : outvec s = outvec s0;
  ld_out : forall i, vec_ok (alloc_index s) (nth i (out_vec s) no_vec) /\ len (nth i (out_vec s) no_vec) <= nth i sizes 0;
}.

(** A request that ends before it reaches the layers. *)
Record dropped (s : ST) : Prop := Dropped {
  dr_buf : scratch_buf s = fill CRYPTO_IOVEC_BUFFER_SIZE 0;
  dr_index : alloc_index s = 0;
  dr_owner : scratch_owner s = 0;
  dr_operations : operations s = operations s0;
  dr_lib : lib s = lib s0;
  dr_outvec : outvec s = outvec s0;
}.

Lemma sizes_bound i : 0 <= nth i sizes 0 < 4294967296.
Proof.
  rewrite nth_lookup. destruct (sizes !! i) as [n|] eqn:E; cbn; [|lia]. by eapply Forall_lookup_1 in Hsizes.
Qed.

Lemma vec_ok_mono a b v : a <= b -> vec_ok a v -> vec_ok b v.
Proof. intros Hab [Hl Hp]. split; [done|]. destruct (base v); cbn in *; [done|done|lia]. Qed.

(** One allocation while vectors are loaded. *)
Lemma loading_alloc n s Q E :
  loading s -> 0 <= n < 4294967296 ->
  (forall o s', loading s' -> 0 <= o -> o + n <= alloc_index s' -> out_vec s' = out_vec s -> Q (Ok (Scratch o)) s') ->
  Q (Err PSA_ERROR_INSUFFICIENT_MEMORY) s ->
  wp (try (tfm_crypto_alloc_scratch n)) Q E s.
Proof.
  intros [Hz Ho Hb Hv Hout] Hn HQ HE. apply wp_try. apply alloc_scratch_ok; [done|done| |done].
  intros idx' Hi Hz'. apply HQ; [|apply Hz|cbn; lia|done]. split; try done. cbn. intros i.
  split; [|apply Hout]. eapply vec_ok_mono; [|apply Hout]. lia.
Qed.

Lemma loading_drop {A} e s (Q : A -> ST -> Prop) :
  loading s -> wp (let* _ := tfm_crypto_clear_scratch in fail e) Q (fun _ => dropped) s.
Proof. intros []. apply wp_bind, clear_scratch_ok; [done|]. by apply wp_fail. Qed.

Lemma loading_same s s' :
  loading s -> scratch_buf s' = scratch_buf s -> alloc_index s' = alloc_index s -> operations s' = operations s ->
  lib s' = lib s -> outvec s' = outvec s -> out_vec s' = out_vec s -> loading s'.
Proof. intros [[] ? ? ? ?] E1 E2 E3 E4 E5 E6. split; [split|..]; rewrite ?E1, ?E2, ?E3, ?E4, ?E5, ?E6; done. Qed.

Lemma loading_write o d s Q E :
  loading s -> 0 <= o -> o + zlen d <= alloc_index s ->
  (forall s', loading s' -> Q tt s') -> wp (mem_write (Scratch o) d) Q E s.
Proof.
  intros [[Hl Hi Hz] Ho Hb Hv Hout] H1 H2 HQ. unfold mem_write. svc_steps. apply HQ. pose proof (zlen_nonneg d).
  split; try done. split; cbn; [by rewrite zlen_splice by lia|done|].
  rewrite sub_bytes_splice_disj by lia. done.
Qed.

Lemma init_invecs_ok msg n i iv s :
  loading s -> (forall j, 0 <= nth j (in_size msg) 0 < 4294967296) ->
  wp (init_invecs n i msg iv) (fun iv' s' => loading s' /\ (0 < i -> nth 0 iv' no_vec = nth 0 iv no_vec)%nat) (fun _ => dropped) s.
Proof.
  intros Hs Hm. revert i iv s Hs. induction n as [|n IH]; intros i iv s Hs; cbn [init_invecs]; [by apply wp_ret|].
  apply wp_bind, loading_alloc; [done|apply Hm| |by apply loading_drop].
  intros o s1 Hs1 H1 H2 _. unfold psa_read. svc_steps.
  set (d := sub_bytes _ _ _). assert (Hd : zlen d <= nth i (in_size msg) 0).
  { unfold d, sub_bytes, zlen. rewrite length_take. specialize (Hm i). lia. }
  apply loading_write; [by eapply loading_same|done|cbn; lia|]. intros s2 Hs2.
  eapply wp_mono; [by apply IH|..]; [|done]. intros iv' s' [? H3]. split; [done|]. intros Hi.
  rewrite H3 by lia. rewrite nth_insert_ne by lia. done.
Qed.

Lemma init_outvecs_ok msg n i s :
  loading s -> out_size msg = sizes ->
  wp (init_outvecs n i msg) (fun _ => loading) (fun _ => dropped) s.
Proof.
  intros Hs Hm. revert i s Hs. induction n as [|n IH]; intros i s Hs; cbn [init_outvecs]; [by apply wp_ret|].
  rewrite Hm. apply wp_bind, loading_alloc; [done|apply sizes_bound| |by apply loading_drop].
  intros o s1 Hs1 H1 H2 Hv. svc_steps. apply IH. destruct Hs1 as [Hz Ho Hb Hov Hout]. split; try done; [by destruct Hz; split|].
  cbn. intros j. rewrite !nth_lookup, list_lookup_insert. pose proof (sizes_bound i).
  case_decide as Hc; [destruct Hc as [-> Hc]; cbn; rewrite <- nth_lookup; split; [split; cbn; lia|lia]|].
  specialize (Hout j). by rewrite !nth_lookup in Hout.
Qed.
End loading.

(** *** A request *)

Lemma filled_length n sizes : (filled n sizes <= length sizes)%nat.
Proof.
  induction n as [|n IH]; cbn [filled]; [lia|]. destruct (Z.eqb_spec (nth n sizes 0) 0) as [|Hn]; [done|].
  destruct (decide (n < length sizes)%nat); [lia|]. by rewrite nth_overflow in Hn by lia.
Qed.

Section request.
Context (R : LIB -> LIB -> Prop) `{!PreOrder R} (c : Z) (sizes : list Z).
Context (R_psa : forall l k, Forall (eq c) (call_owners k) -> R l (fst (psa l k))).
Context (R_op : forall l x k, Forall (eq c) (op_owners k) -> R l (fst (fst (psa_op l x k)))).
Context (R_clone : forall l x y, R l (fst (fst (psa_clone l x y)))).
Context (Hsizes : Forall (fun n => 0 <= n < 4294967296) sizes).

(** What a request leaves, and what it answers with. *)
Record served (s0 s : ST) : Prop := Served {
  sv_settled : settled s;
  sv_others : others_kept c (operations s0) (operations s);
  sv_lib : R (lib s0) (lib s);
  sv_length : length (outvec s) = length sizes;
  sv_fits : forall j, zlen (nth j (outvec s) []) <= nth j sizes 0;
}.

Lemma busy_intro s0 s :
  table_ok (operations s0) -> loading s0 sizes s ->
  busy R c s0 (alloc_index s) sizes
    (Crypto (operations s) (scratch_buf s) (alloc_index s) c (lib s) (out_vec s) (invec s) (outvec s)).
Proof.
  intros Ht [[Hl Hi Hz] Ho Hb Hv Hout]. split; [split|]; cbn; rewrite ?Ho, ?Hb; try done.
Qed.

Lemma core_end s0 idx s Q E :
  core R c s0 idx s -> 0 <= idx <= CRYPTO_IOVEC_BUFFER_SIZE ->
  (forall s', settled s' -> others_kept c (operations s0) (operations s') -> R (lib s0) (lib s') ->
     outvec s' = outvec s -> Q tt s') ->
  wp tfm_crypto_clear_scratch Q E s.
Proof.
  intros [Hl Hi Hz Ho Ht Hot HR Hv] Hb HQ. subst idx. apply clear_scratch_ok; [done|]. by apply HQ.
Qed.

Lemma nth_empty n j : nth j (replicate n (@nil Z)) [] = [].
Proof. rewrite nth_lookup. destruct (_ !! j) eqn:E; [|done]. by apply lookup_replicate in E as [-> _]. Qed.

Lemma served_empty s0 s :
  settled s -> others_kept c (operations s0) (operations s) -> R (lib s0) (lib s) ->
  outvec s = replicate (length sizes) [] -> served s0 s.
Proof.
  intros ? ? ? Hv. split; try done; rewrite Hv; [by rewrite length_replicate|].
  intros j. rewrite nth_empty. by destruct (sizes_bound sizes Hsizes j).
Qed.

Lemma answering_of_busy s0 idx s : busy R c s0 idx sizes s -> answering R c s0 idx sizes s.
Proof. intros [[] Ho]. by split. Qed.

Lemma call_srv_ok msg s :
  settled s -> outvec s = replicate (length sizes) [] -> client_id msg = c -> out_size msg = sizes ->
  (forall j, 0 <= nth j (in_size msg) 0 < 4294967296) ->
  wp (tfm_crypto_call_srv msg) (fun _ => served s) (fun _ s' => served s s' /\ outvec s' = outvec s) s.
Proof.
  intros [Ht Hbuf Hidx How] Hov Hc Hm Hin.
  assert (Hsame : forall s', table_ok (operations s') -> operations s' = operations s -> scratch_buf s' = scratch_buf s ->
    alloc_index s' = alloc_index s -> scratch_owner s' = scratch_owner s -> lib s' = lib s -> outvec s' = outvec s ->
    served s s' /\ outvec s' = outvec s).
  { intros s' H1 H2 H3 H4 H5 H6 H7. split; [|done]. apply served_empty; [split; congruence|by rewrite H2|by rewrite H6|congruence]. }
  unfold tfm_crypto_call_srv. svc_steps; [|by apply Hsame]. unfold psa_read. svc_steps; [|by apply Hsame].
  match goal with |- wp _ _ _ ?t => set (s1 := t) end.
  assert (Hl : loading s sizes s1).
  { split; try done.
    - split; cbn; rewrite ?Hbuf, ?Hidx; done.
    - cbn. intros i. destruct (sizes_bound sizes Hsizes i). do 5 (destruct i as [|i]; [done|]). done. }
  unfold tfm_crypto_init_iovecs. apply wp_bind.
  eapply wp_mono; [by apply init_invecs_ok| |].
  2:{ intros e s' []. apply Hsame; congruence. }
  intros iv s2 [Hs2 _]. apply wp_bind. eapply wp_mono; [by apply (init_outvecs_ok s sizes)| |].
  2:{ intros e s' []. apply Hsame; congruence. }
  intros u s3 Hs3. svc_steps. rewrite Hc.
  pose proof (zt_index _ (ld_zero _ _ _ Hs3)) as Hi3.
  apply wp_bind, wp_try. eapply wp_mono; [eapply (dispatcher_ok R c s (alloc_index s3) sizes); try done; by apply busy_intro|..].
  - intros [] s4 Hb4. cbv beta iota. apply wp_bind.
    eapply (write_outvecs_ok R c s (alloc_index s3) sizes); [by apply answering_of_busy| | |].
    + unfold written. rewrite (core_outvec _ _ _ _ _ (busy_core _ _ _ _ _ _ Hb4)), Hov. split; [by rewrite length_replicate|].
      intros j. rewrite nth_empty. split; [|done]. unfold zlen. cbn [length]. lia.
    + rewrite Hm. apply filled_length.
    + intros s5 Hb5 [Hlen Hw5]. apply wp_bind. unfold answering in Hb5.
      pose proof (busy_core _ _ _ _ _ _ Hb5) as [A1 A2 A3 A4 A5 A6 A7 A8]. cbn in A1, A2, A3, A4, A5, A6, A7.
      apply clear_scratch_ok; [by split; rewrite ?A2|]. apply wp_ret. split; [by split|done..|].
      intros j. destruct (Hw5 j) as [Hj _]. cbn. destruct (sizes_bound sizes Hsizes j). lia.
  - intros e s4 Hc4. cbv beta iota. svc_steps. eapply core_end; [exact Hc4|exact Hi3|]. intros s5 D1 D2 D3 D4.
    assert (served s s5 /\ outvec s5 = outvec s).
    { rewrite D4, (core_outvec _ _ _ _ _ Hc4). split; [|done].
      apply served_empty; [done..|]. by rewrite D4, (core_outvec _ _ _ _ _ Hc4). }
    apply wp_of_status; intros; [naive_solver|done].
Qed.

(** Any message of a client, from a settled state. *)
Lemma serve_ok ty ins s st outs s' :
  settled s -> Forall (fun d => zlen d < 4294967296) ins -> serve c ty ins sizes s = (st, outs, s') ->
  served s s' /\ outs = outvec s' /\ (st <> PSA_SUCCESS -> outs = replicate (length sizes) []).
Proof.
  intros Hs Hins. unfold serve, tfm_crypto_sfn. cbn [msg_type].
  set (s1 := Crypto _ _ _ _ _ _ _ _).
  assert (Hs1 : settled s1) by (destruct Hs; by split).
  assert (Hd : forall s', served s1 s' -> served s s') by (intros s2 []; by split).
  destruct (ty =? PSA_IPC_CALL).
  - destruct (tfm_crypto_call_srv _ s1) as [r s2] eqn:E.
    assert (Hin : forall j, 0 <= nth j (map zlen ins) 0 < 4294967296).
    { intros j. rewrite nth_lookup, list_lookup_fmap. destruct (ins !! j) as [d|] eqn:Ej; cbn; [|lia].
      eapply Forall_lookup_1 in Hins; [|done]. pose proof (zlen_nonneg d). cbn in Hins. lia. }
    pose proof (call_srv_ok (Msg ty c (map zlen ins) sizes) s1 Hs1 eq_refl eq_refl eq_refl Hin) as Hw.
    unfold wp in Hw. rewrite E in Hw. intros [= <- <- <-]. destruct r as [[]|e]; cbn.
    + split; [by apply Hd|]. done.
    + destruct Hw as [Hw Ho]. split; [by apply Hd|]. split; [done|]. by intros _.
  - intros [= <- <- <-]. split; [|split; [done|by intros _]].
    apply served_empty; [done..|]. apply reflexivity.
Qed.
End request.
End proofs.
