(* ===== verification/CryptoExact.v ===== *)
(** * The effect of requests to the crypto service

    [view] says what the memory of a request holds: the data of the input
    vectors, the contents and lengths of the output vectors, the table of
    operations and the library.  The functions of the service are computed on
    views; the allocation of the vectors in the scratch memory is shown to
    keep them apart. *)

From S2P Require Import Prelude Bytes CryptoService CryptoClient CryptoProof.
From stdpp Require Import base list numbers.
From Stdlib Require Import ZArith Lia.

Open Scope Z_scope.
Open Scope tfm_scope.

Abbreviation OV := (list (list Z * Z)).
Definition out_bytes (ov : OV) (i : nat) : list Z := fst (nth i ov ([], 0)).
Definition out_length (ov : OV) (i : nat) : Z := snd (nth i ov ([], 0)).

Section exact.
Context {CTX LIB : Type} `{PsaLaws CTX LIB}.
Abbreviation OP := (tfm_crypto_operation_s CTX).
Abbreviation ST := (crypto_st CTX LIB).

(** *** The memory of a request *)
Section view.
Context (c : Z) (iv : list psa_vec) (ins : list (list Z)) (bs : list ptr) (szs : list Z) (B : Z) (os : list (list Z)).

(** Inputs lie below [B], outputs from there on. *)
Definition in_holds (s : ST) (v : psa_vec) (d : list Z) : Prop :=
  len v = zlen d /\
  match base v with
  | NULL => d = []
  | Local _ => False
  | Scratch o => 0 <= o /\ o + zlen d <= B /\ sub_bytes o (zlen d) (scratch_buf s) = d
  end.

Definition out_holds (s : ST) (p : ptr) (b : list Z) : Prop :=
  match p with
  | NULL => b = []
  | Local _ => False
  | Scratch o => 0 <= o /\ B <= o /\ o + zlen b <= alloc_index s /\ sub_bytes o (zlen b) (scratch_buf s) = b
  end.

Definition apart : Prop :=
  forall i j oi oj, i <> j -> nth i bs NULL = Scratch oi -> nth j bs NULL = Scratch oj ->
    oi + nth i szs 0 <= oj \/ oj + nth j szs 0 <= oi.

Record view (ov : OV) (ops : list OP) (l : LIB) (s : ST) : Prop := View {
  vw_operations : operations s = ops;
  vw_lib : lib s = l;
  vw_owner : scratch_owner s = c;
  vw_outvec : outvec s = os;
  vw_zero : zero_tail s;
  vw_in : forall i, in_holds s (nth (S i) iv no_vec) (nth i ins []);
  vw_count : length ov = 4%nat;
  vw_out : forall i, out_holds s (nth i bs NULL) (out_bytes ov i);
  vw_size : forall i, zlen (out_bytes ov i) = nth i szs 0;
  vw_vecs : out_vec s = zip_with Vec bs (map snd ov);
}.
Context (Hbs : length bs = 4%nat) (Hapart : apart) (HB : 0 <= B).

(** Replacing the contents, or the length, of an output. *)
Definition set_bytes (i : nat) (b : list Z) (ov : OV) : OV := alter (fun e => (b, snd e)) i ov.
Definition set_length (i : nat) (n : Z) (ov : OV) : OV := alter (fun e => (fst e, n)) i ov.

Lemma out_bytes_set i j b ov :
  (i < length ov)%nat -> out_bytes (set_bytes i b ov) j = if decide (i = j) then b else out_bytes ov j.
Proof.
  intros Hi. unfold out_bytes, set_bytes. rewrite !nth_lookup, list_lookup_alter. case_decide as Hd; [|done]. subst.
  destruct (lookup_lt_is_Some_2 ov j Hi) as [e ->]. done.
Qed.

Lemma out_length_set i j b ov : out_length (set_bytes i b ov) j = out_length ov j.
Proof.
  unfold out_length, set_bytes. rewrite !nth_lookup, list_lookup_alter. case_decide as Hd; [|done]. subst.
  by destruct (ov !! j).
Qed.

Lemma out_bytes_set_length i j n ov : out_bytes (set_length i n ov) j = out_bytes ov j.
Proof.
  unfold out_bytes, set_length. rewrite !nth_lookup, list_lookup_alter. case_decide as Hd; [|done]. subst.
  by destruct (ov !! j).
Qed.

Lemma out_length_set_length i j n ov :
  (i < length ov)%nat -> out_length (set_length i n ov) j = if decide (i = j) then n else out_length ov j.
Proof.
  intros Hi. unfold out_length, set_length. rewrite !nth_lookup, list_lookup_alter. case_decide as Hd; [|done]. subst.
  destruct (lookup_lt_is_Some_2 ov j Hi) as [e ->]. done.
Qed.

Lemma map_snd_set_bytes i b ov : map snd (set_bytes i b ov) = map snd ov.
Proof.
  apply list_eq. intros j. unfold set_bytes. rewrite !list_lookup_fmap, list_lookup_alter. case_decide; [|done]. subst.
  by destruct (ov !! j).
Qed.

Lemma view_vec ov ops l s i : view ov ops l s ->
  nth i (out_vec s) no_vec = Vec (nth i bs NULL) (out_length ov i).
Proof.
  intros Hv. rewrite (vw_vecs _ _ _ _ Hv). unfold out_length. pose proof (vw_count _ _ _ _ Hv).
  rewrite !nth_lookup, lookup_zip_with, list_lookup_fmap.
  destruct (decide (i < 4)%nat).
  - destruct (lookup_lt_is_Some_2 bs i ltac:(lia)) as [p ->]. destruct (lookup_lt_is_Some_2 ov i ltac:(lia)) as [e ->]. done.
  - by rewrite !lookup_ge_None_2 by lia.
Qed.

(** *** Reading *)

Lemma view_in_data i ov ops l s Q E :
  view ov ops l s -> Q (nth i ins []) s -> wp (in_data iv (S i)) Q E s.
Proof.
  intros Hv HQ. destruct (vw_in _ _ _ _ Hv i) as [Hl Hb]. unfold in_data, mem_read. svc_steps.
  destruct (base _); [by rewrite <- Hb|done|]. destruct Hb as (_ & _ & Hb). by rewrite Hl, Hb.
Qed.

Lemma view_out_len i ov ops l s Q E : view ov ops l s -> Q (out_length ov i) s -> wp (out_len i) Q E s.
Proof. intros Hv HQ. unfold out_len. svc_steps. by erewrite view_vec. Qed.

Lemma view_out_at i ov ops l s Q E : view ov ops l s -> Q (Vec (nth i bs NULL) (out_length ov i)) s -> wp (out_at i) Q E s.
Proof. intros Hv HQ. unfold out_at. svc_steps. by erewrite view_vec. Qed.

(** *** Writing *)

(** A write at the beginning of output [i]. *)
Lemma view_write i d ov ops l s Q E :
  view ov ops l s -> zlen d <= zlen (out_bytes ov i) ->
  (forall s', view (set_bytes i (splice 0 d (out_bytes ov i)) ov) ops l s' -> Q tt s') ->
  wp (mem_write (nth i bs NULL) d) Q E s.
Proof.
  intros Hv Hd HQ. pose proof Hv as [H1 H2 H3 H4 [Z1 Z2 Z3] H5 H6 H7 H8 H9]. pose proof (zlen_nonneg d).
  unfold mem_write. svc_steps. destruct (decide (i < 4)%nat) as [Hi|Hi].
  2:{ replace (nth i bs NULL) with NULL by (symmetry; apply nth_overflow; lia). svc_steps. apply HQ.
      replace (set_bytes _ _ _) with ov; [done|]. unfold set_bytes. apply list_eq. intros j.
      rewrite list_lookup_alter. case_decide; [|done]. subst. by rewrite lookup_ge_None_2 by lia. }
  pose proof (H7 i) as Ho. destruct (nth i bs NULL) as [| |o] eqn:Ep; cbn [out_holds] in Ho.
  - svc_steps. apply HQ. rewrite Ho in *. assert (d = []) as -> by (destruct d; [done|unfold zlen in Hd; cbn in Hd; lia]).
    rewrite splice_nil. replace (set_bytes _ _ _) with ov; [done|]. apply list_eq. intros j. unfold set_bytes.
    rewrite list_lookup_alter. case_decide; [|done]. subst j. destruct (ov !! i) as [[b n]|] eqn:Eo; [|done].
    unfold out_bytes in Ho. rewrite nth_lookup, Eo in Ho. cbn in Ho. by subst b.
  - done.
  - destruct Ho as (Ho & HBo & Hb & Hs). svc_steps. apply HQ.
    assert (Hlen : zlen (splice 0 d (out_bytes ov i)) = zlen (out_bytes ov i)) by (apply zlen_splice; lia).
    split; try done; cbn [operations lib scratch_owner outvec scratch_buf alloc_index out_vec].
    + split; cbn [scratch_buf alloc_index]; [rewrite zlen_splice; lia|done|].
      rewrite sub_bytes_splice_disj by lia. done.
    + intros j. destruct (H5 j) as [Hl Hj]. split; [done|]. destruct (base _) as [| |o']; [done|done|]. cbn [scratch_buf].
      destruct Hj as (Hj1 & Hj2 & Hj3). split_and!; [done|done|]. rewrite sub_bytes_splice_disj by lia. done.
    + unfold set_bytes. by rewrite length_alter.
    + intros j. rewrite out_bytes_set by lia. case_decide as Hd'.
      * subst j. rewrite Ep. cbn [out_holds scratch_buf alloc_index]. rewrite Hlen. split_and!; [done|done|done|].
        apply list_eq. intros k. destruct (decide (k < length (out_bytes ov i))%nat) as [Hk|Hk].
        2:{ rewrite sub_bytes_lookup_ge by (unfold zlen; lia). symmetry. apply lookup_ge_None_2. unfold zlen in Hlen. lia. }
        rewrite sub_bytes_lookup by (unfold zlen; lia). destruct (decide (k < length d)%nat) as [Hkd|Hkd].
        -- rewrite !splice_lookup_new by (unfold zlen in *; lia). f_equal. lia.
        -- rewrite !splice_lookup_old by (unfold zlen in *; lia).
           rewrite <- (sub_bytes_lookup o (zlen (out_bytes ov i))) by (unfold zlen; lia). by rewrite Hs.
      * specialize (H7 j). destruct (nth j bs NULL) as [| |o'] eqn:Ej; [done|done|]. cbn [out_holds scratch_buf alloc_index] in *.
        destruct H7 as (Hj1 & Hj2 & Hj3 & Hj4). split_and!; [done|done|done|].
        rewrite sub_bytes_splice_disj; [done|lia|lia|lia|]. rewrite H8 in *.
        destruct (Hapart i j o o' Hd' Ep Ej); [right; lia|left; lia].
    + intros j. rewrite out_bytes_set by lia. case_decide; [subst j; by rewrite Hlen|done].
    + by rewrite map_snd_set_bytes.
Qed.

Lemma view_write_u32 i v ov ops l s Q E :
  view ov ops l s -> 4 <= zlen (out_bytes ov i) ->
  (forall s', view (set_bytes i (splice 0 (le_bytes 4 v) (out_bytes ov i)) ov) ops l s' -> Q tt s') ->
  wp (write_u32 (nth i bs NULL) v) Q E s.
Proof. intros Hv Hl HQ. eapply view_write; [done|by rewrite zlen_le_bytes|done]. Qed.

Lemma view_read_u32 i ov ops l s Q E :
  view ov ops l s -> 4 <= zlen (out_bytes ov i) -> Q (le_val (sub_bytes 0 4 (out_bytes ov i))) s ->
  wp (read_u32 (nth i bs NULL)) Q E s.
Proof.
  intros Hv Hl HQ. pose proof (vw_out _ _ _ _ Hv i) as Ho. unfold read_u32, mem_read. svc_steps.
  destruct (nth i bs NULL) as [| |o]; cbn [out_holds] in Ho; [by rewrite Ho in Hl|done|].
  destruct Ho as (Ho & _ & _ & Hb). rewrite <- Hb in HQ. rewrite sub_bytes_sub_bytes in HQ by lia. by rewrite Z.add_0_r in HQ.
Qed.

Lemma view_fill_out i d ov ops l s Q E :
  view ov ops l s -> out_length ov i = zlen (out_bytes ov i) ->
  (forall s', view (set_bytes i (splice 0 (take (Z.to_nat (out_length ov i)) d) (out_bytes ov i)) ov) ops l s' -> Q tt s') ->
  wp (fill_out i d) Q E s.
Proof.
  intros Hv Hl HQ. unfold fill_out. apply wp_bind. eapply view_out_at; [done|]. cbn [base len].
  eapply view_write; [done| |done]. rewrite Hl. unfold zlen. rewrite length_take. lia.
Qed.

Lemma view_set_out_len i n ov ops l s Q E :
  view ov ops l s -> (forall s', view (set_length i n ov) ops l s' -> Q tt s') -> wp (set_out_len i n) Q E s.
Proof.
  intros Hv HQ. pose proof Hv as [H1 H2 H3 H4 [Z1 Z2 Z3] H5 H6 H7 H8 H9]. unfold set_out_len. svc_steps. apply HQ.
  split; try done.
  - unfold set_length. by rewrite length_alter.
  - intros j. rewrite out_bytes_set_length. apply H7.
  - intros j. rewrite out_bytes_set_length. apply H8.
  - cbn [out_vec]. rewrite H9. apply list_eq. intros j. unfold set_length.
    rewrite list_lookup_alter, !lookup_zip_with, !list_lookup_fmap, list_lookup_alter. case_decide; [subst j|done].
    destruct (bs !! i); [|done]. by destruct (ov !! i).
Qed.

Lemma view_out_arg i n ov ops l s Q E :
  view ov ops l s -> 0 < n <= out_length ov i -> out_length ov i = zlen (out_bytes ov i) ->
  Q (nth i bs NULL) s -> wp (out_arg i n) Q E s.
Proof.
  intros Hv Hn Hl HQ. unfold out_arg. apply wp_bind. eapply view_out_at; [done|]. cbn [base len].
  pose proof (vw_out _ _ _ _ Hv i) as Ho.
  apply wp_bind, wp_check; intros Hc; [by apply wp_ret|]. exfalso.
  apply negb_false_iff, orb_true_iff in Hc as [Hc|Hc]; [|lia].
  destruct (nth i bs NULL); [|done|done]. cbn in Ho. rewrite Ho in Hl. unfold zlen in Hl. cbn in Hl. lia.
Qed.

(** *** The library *)

Lemma view_call_psa k ov ops l s Q E :
  view ov ops l s -> (forall s', view ov ops (fst (psa l k)) s' -> Q (snd (psa l k)) s') -> wp (call_psa k) Q E s.
Proof.
  intros Hv HQ. unfold call_psa. svc_steps. rewrite (vw_lib _ _ _ _ Hv). apply HQ.
  destruct Hv as [H1 H2 H3 H4 [Z1 Z2 Z3] H5 H6 H7 H8 H9]. by split.
Qed.

Lemma alter_as_insert {A} (f : A -> A) i (l : list A) x : l !! i = Some x -> alter f i l = <[i := f x]> l.
Proof.
  intros Hx. apply list_eq. intros j. rewrite list_lookup_alter, list_lookup_insert.
  pose proof (lookup_lt_Some _ _ _ Hx). repeat case_decide; subst; rewrite ?Hx; try done; naive_solver.
Qed.

Lemma view_table ov ops ops' l l' s s' :
  view ov ops l s -> operations s' = ops' -> lib s' = l' -> scratch_owner s' = scratch_owner s ->
  scratch_buf s' = scratch_buf s -> alloc_index s' = alloc_index s -> out_vec s' = out_vec s -> outvec s' = outvec s ->
  view ov ops' l' s'.
Proof.
  intros [H1 H2 H3 H4 [Z1 Z2 Z3] H5 H6 H7 H8 H9] E1 E2 E3 E4 E5 E6 E7.
  split; try congruence.
  - split; rewrite ?E4, ?E5; done.
  - intros i. unfold in_holds. rewrite E4. apply H5.
  - intros i. unfold out_holds. rewrite E4, E5. apply H7.
Qed.

Lemma view_call_op i o k ov ops l s Q E :
  view ov ops l s -> ops !! i = Some o ->
  (forall s', view ov (<[i := Operation (in_use o) (owner o) (type o) (snd (fst (psa_op l (operation o) k)))]> ops)
     (fst (fst (psa_op l (operation o) k))) s' -> Q (snd (psa_op l (operation o) k)) s') ->
  wp (call_op i k) Q E s.
Proof.
  intros Hv Hi HQ. unfold call_op. svc_steps. rewrite (vw_lib _ _ _ _ Hv), (vw_operations _ _ _ _ Hv).
  rewrite nth_lookup, Hi. cbn [default]. destruct (psa_op l _ k) as [[l' x] r]. svc_steps. apply HQ. cbn [fst snd].
  eapply view_table; [done|..]; try done. cbn. by erewrite alter_as_insert.
Qed.

Lemma view_call_clone i j o o' ov ops l s Q E :
  view ov ops l s -> ops !! i = Some o -> ops !! j = Some o' ->
  (forall s', view ov (<[j := Operation (in_use o') (owner o') (type o') (snd (fst (psa_clone l (operation o) (operation o'))))]> ops)
     (fst (fst (psa_clone l (operation o) (operation o')))) s' -> Q (snd (psa_clone l (operation o) (operation o'))) s') ->
  wp (call_clone i j) Q E s.
Proof.
  intros Hv Hi Hj HQ. unfold call_clone. svc_steps. rewrite (vw_lib _ _ _ _ Hv), (vw_operations _ _ _ _ Hv).
  rewrite !nth_lookup, Hi, Hj. cbn [default]. destruct (psa_clone l _ _) as [[l' x] r]. svc_steps. apply HQ. cbn [fst snd].
  eapply view_table; [done|..]; try done. cbn. by erewrite alter_as_insert.
Qed.

(** *** The table *)

Lemma free_entry (ops : list OP) j : table_ok ops -> first_free ops = Some j -> ops !! j = Some no_operation.
Proof.
  intros [_ He] Hf. apply first_free_spec in Hf as (o & Hj & Hu). rewrite Hj. f_equal.
  eapply Forall_lookup_1 in He as [He| ->]; [|done|done]. unfold TFM_CRYPTO_IN_USE, TFM_CRYPTO_NOT_IN_USE in *. congruence.
Qed.

Lemma view_alloc i ty ov ops l s Q E :
  view ov ops l s -> table_ok ops -> 4 <= zlen (out_bytes ov i) ->
  (if le_val (sub_bytes 0 4 (out_bytes ov i)) =? 0 then
     match first_free ops with
     | None => E PSA_ERROR_NOT_PERMITTED s
     | Some j => forall s', view (set_bytes i (splice 0 (le_bytes 4 (Z.of_nat j + 1)) (out_bytes ov i)) ov)
                     (<[j := Operation TFM_CRYPTO_IN_USE c ty ctx_zero]> ops) l s' -> Q j s'
     end
   else E PSA_ERROR_BAD_STATE s) ->
  wp (tfm_crypto_operation_alloc ty (nth i bs NULL)) Q E s.
Proof.
  intros Hv Ht Hl HQ. unfold tfm_crypto_operation_alloc, tfm_crypto_get_caller_id. apply wp_bind.
  eapply view_read_u32; [done|done|]. unfold TFM_CRYPTO_INVALID_HANDLE. destruct (_ =? 0); [|by apply wp_bind, wp_fail].
  svc_steps; [|done]. rewrite (vw_operations _ _ _ _ Hv), (vw_owner _ _ _ _ Hv).
  destruct (first_free ops) as [j|] eqn:Hf; [|by apply wp_fail].
  pose proof (free_entry ops j Ht Hf) as Hj. svc_steps.
  eapply (view_write_u32 i _ ov (<[j := Operation TFM_CRYPTO_IN_USE c ty ctx_zero]> ops) l); [|done|].
  - eapply view_table; [done|..]; try done; [|apply Hv]. exact (alter_as_insert _ _ _ _ Hj).
  - intros s' Hv'. svc_steps. by apply HQ.
Qed.

(** The operation that [h] names for the client, if any. *)
Definition find_op (ty : tfm_crypto_operation_type) (h : Z) (ops : list OP) : option nat :=
  if valid_handle h then
    let i := Z.to_nat (h - 1) in
    let o := nth i ops no_operation in
    if (in_use o =? TFM_CRYPTO_IN_USE) && bool_decide (type o = ty) && (owner o =? c) then Some i else None
  else None.

Lemma view_lookup ty h ov ops l s Q E :
  view ov ops l s ->
  (match find_op ty h ops with Some i => Q i s | None => E PSA_ERROR_BAD_STATE s end) ->
  wp (tfm_crypto_operation_lookup ty h) Q E s.
Proof.
  intros Hv HQ. unfold tfm_crypto_operation_lookup, tfm_crypto_get_caller_id, find_op in *.
  destruct (valid_handle h); svc_steps; try done.
  rewrite (vw_operations _ _ _ _ Hv), (vw_owner _ _ _ _ Hv).
  destruct (_ && _); [by apply wp_ret|by apply wp_fail].
Qed.

(** The table after [tfm_crypto_operation_release] of [h]. *)
Definition release_at (h : Z) (ops : list OP) : list OP :=
  if valid_handle h then
    let i := Z.to_nat (h - 1) in
    let o := nth i ops no_operation in
    if (in_use o =? TFM_CRYPTO_IN_USE) && (owner o =? c) then <[i := no_operation]> ops else ops
  else ops.

Lemma view_release i ov ops l s (Q : ST -> Prop) :
  view ov ops l s -> 4 <= zlen (out_bytes ov i) ->
  (forall s', view (set_bytes i (splice 0 (le_bytes 4 0) (out_bytes ov i)) ov)
     (release_at (le_val (sub_bytes 0 4 (out_bytes ov i))) ops) l s' -> Q s') ->
  wp (tfm_crypto_operation_release (nth i bs NULL)) (fun _ => Q) (fun _ => Q) s.
Proof.
  intros Hv Hl HQ. unfold tfm_crypto_operation_release, tfm_crypto_get_caller_id. apply wp_bind.
  eapply view_read_u32; [done|done|]. apply wp_bind. eapply view_write_u32; [done|done|]. intros s1 Hv1.
  set (h := le_val _) in *. unfold release_at in HQ. destruct (valid_handle h); svc_steps; try done; [|by apply HQ].
  rewrite (vw_operations _ _ _ _ Hv1), (vw_owner _ _ _ _ Hv1). cbv zeta in HQ.
  destruct (_ && _) eqn:Hc; [|apply wp_fail; by apply HQ]. svc_steps. apply HQ.
  apply andb_true_iff in Hc as [Hc _]. rewrite nth_lookup in Hc.
  destruct (ops !! Z.to_nat (h - 1)) as [o|] eqn:Eo; [|done].
  eapply view_table; [done|..]; try done; [|apply Hv1]. exact (alter_as_insert _ _ _ _ Eo).
Qed.

(** *** The table as sessions *)

Definition abs_op (o : OP) : option (session CTX) :=
  if in_use o =? TFM_CRYPTO_IN_USE then Some (Session (owner o) (type o) (operation o)) else None.
Definition abs_ops (ops : list OP) : list (option (session CTX)) := map abs_op ops.

Lemma find_session_op ty h ops (l : LIB) :
  0 <= h ->
  match find_op ty h ops with
  | Some i => exists o, ops !! i = Some o /\ in_use o = TFM_CRYPTO_IN_USE /\ owner o = c /\ type o = ty /\
      i = Z.to_nat (h - 1) /\ valid_handle h = true /\
      find_session c ty h (Vault (abs_ops ops) l) = Some (i, Session c ty (operation o))
  | None => find_session c ty h (Vault (abs_ops ops) l) = None
  end.
Proof.
  intros Hp. unfold find_op, find_session, abs_ops, valid_handle, TFM_CRYPTO_INVALID_HANDLE. cbn [v_sessions].
  rewrite list_lookup_fmap, nth_lookup.
  destruct (negb _) eqn:Hh.
  - apply negb_true_iff, orb_false_iff in Hh as [Hh1 Hh2]. destruct (ops !! Z.to_nat (h - 1)) as [o|] eqn:Eo; cbn.
    + unfold abs_op. destruct (Z.eqb_spec (in_use o) TFM_CRYPTO_IN_USE) as [Hu|Hu]; cbn.
      * case_bool_decide as Ht; cbn; [destruct (Z.eqb_spec (owner o) c) as [Ho|Ho]; cbn|].
        -- exists o. subst. repeat split; try done. destruct (_ && _) eqn:Hr; [|lia].
           rewrite bool_decide_true by done. done.
        -- destruct (_ && _); [|done]. by rewrite bool_decide_false by naive_solver.
        -- destruct (_ && _); [|done]. by rewrite bool_decide_false by naive_solver.
      * by destruct (_ && _).
    + by destruct (_ && _).
  - apply negb_false_iff, orb_true_iff in Hh. destruct (_ && _) eqn:Hr; [lia|done].
Qed.

Lemma free_session_op ops : Forall entry_ok ops -> free_session (abs_ops ops) = first_free ops.
Proof.
  induction 1 as [|o ops Ho _ IH]; [done|]. cbn. fold (abs_ops ops). rewrite IH. unfold abs_op.
  destruct Ho as [Ho| ->]; [|done]. by rewrite Ho.
Qed.

Lemma abs_ops_insert i o ops : abs_ops (<[i := o]> ops) = <[i := abs_op o]> (abs_ops ops).
Proof. apply list_fmap_insert. Qed.

Lemma insert_twice {A} (i : nat) (x y : A) (l : list A) : <[i := x]> (<[i := y]> l) = <[i := x]> l.
Proof. apply list_insert_insert_eq. Qed.

(** An entry that is taken and given back. *)
Lemma release_insert i o (ops : list OP) :
  (i < length ops)%nat -> length ops = CRYPTO_CONC_OPER_NUM -> in_use o = TFM_CRYPTO_IN_USE -> owner o = c ->
  release_at (Z.of_nat i + 1) (<[i := o]> ops) = <[i := no_operation]> ops.
Proof.
  intros Hi Hl Hu Ho. unfold release_at, valid_handle, TFM_CRYPTO_INVALID_HANDLE. rewrite Hl in Hi.
  replace (negb _) with true.
  2:{ symmetry. apply negb_true_iff, orb_false_iff. lia. }
  replace (Z.to_nat (Z.of_nat i + 1 - 1)) with i by lia. rewrite nth_lookup, list_lookup_insert_eq by lia. cbn.
  rewrite Hu, Ho, !Z.eqb_refl. apply insert_twice.
Qed.

(** *** What a request answers *)

(** From the view [ov] on, [m] ends with the status of [r] in the sessions and
    the library of [v]; when it succeeds, the outputs are [outs]. *)
Definition answers (ov : OV) (ops : list OP) (l : LIB) (m : M ST unit) (st : psa_status_t) (v : vault CTX LIB)
    (outs : list (list Z)) : Prop :=
  forall s, view ov ops l s ->
  wp m (fun _ s' => st = PSA_SUCCESS /\ exists ov' ops', view ov' ops' (v_lib v) s' /\ abs_ops ops' = v_sessions v /\
          forall i, take (Z.to_nat (out_length ov' i)) (out_bytes ov' i) = nth i outs [])
       (fun e s' => st = e /\ e <> PSA_SUCCESS /\ exists ov' ops', view ov' ops' (v_lib v) s' /\ abs_ops ops' = v_sessions v) s.

Lemma answers_status ov ops l st v outs :
  v_lib v = l -> v_sessions v = abs_ops ops ->
  (st = PSA_SUCCESS -> forall i, take (Z.to_nat (out_length ov i)) (out_bytes ov i) = nth i outs []) ->
  answers ov ops l (of_status st) st v outs.
Proof.
  intros H1 H2 H3 s Hv. apply wp_of_status; intros Hs; (split; [done|]); [|split; [done|]]; exists ov, ops;
    rewrite H1, H2; [|done]. split_and!; [done|done|by apply H3].
Qed.

Lemma answers_fail ov ops l st v outs :
  v_lib v = l -> v_sessions v = abs_ops ops -> st <> PSA_SUCCESS -> answers ov ops l (fail st) st v outs.
Proof. intros H1 H2 H3 s Hv. apply wp_fail. split; [done|]. split; [done|]. exists ov, ops. by rewrite H1, H2. Qed.

Lemma answers_ret ov ops l v outs :
  v_lib v = l -> v_sessions v = abs_ops ops ->
  (forall i, take (Z.to_nat (out_length ov i)) (out_bytes ov i) = nth i outs []) ->
  answers ov ops l (ret tt) PSA_SUCCESS v outs.
Proof. intros H1 H2 H3 s Hv. apply wp_ret. split; [done|]. exists ov, ops. by rewrite H1, H2. Qed.

(** *** The vectors of the API *)

(** Outputs that nothing was written to. *)
Definition blank (ns : list Z) : OV := map (fun n => (fill n 0, n)) ns.

(** The first one holds a word. *)
Definition with_word (h : Z) (ns : list Z) : OV := (le_bytes 4 h, 4) :: blank ns.

Lemma splice_whole d l : length d = length l -> splice 0 d l = d.
Proof. intros Hl. unfold splice. cbn [Z.to_nat take app]. rewrite drop_ge by lia. apply app_nil_r. Qed.

Lemma word_over b v : zlen b = 4 -> splice 0 (le_bytes 4 v) b = le_bytes 4 v.
Proof. intros Hb. apply splice_whole. unfold zlen in Hb. change (length (le_bytes 4 v)) with 4%nat. lia. Qed.

Lemma read_word h : word h -> le_val (sub_bytes 0 4 (le_bytes 4 h)) = h.
Proof. intros Hh. change (sub_bytes 0 4 (le_bytes 4 h)) with (le_bytes 4 h). by apply le_val_le_bytes. Qed.

Lemma fill_length n : 0 <= n -> zlen (fill n 0) = n.
Proof. intros. by apply zlen_fill. Qed.

Lemma take_fill n : 0 <= n -> take (Z.to_nat n) (fill n 0) = fill n 0.
Proof. intros. apply take_ge. unfold fill. rewrite length_replicate. lia. Qed.

(** Evaluating the outputs of an explicit list of vectors. *)
Ltac outs :=
  let i := fresh "i" in
  intros i; do 4 (destruct i as [|i]; [reflexivity|]); destruct i; reflexivity.

Lemma answers_in_data i ov ops l k st v outs :
  answers ov ops l (k (nth i ins [])) st v outs -> answers ov ops l (bind (in_data iv (S i)) k) st v outs.
Proof. intros Hk s Hv. apply wp_bind. eapply view_in_data; [done|]. by apply Hk. Qed.

Lemma answers_out_len i ov ops l k st v outs :
  answers ov ops l (k (out_length ov i)) st v outs -> answers ov ops l (bind (out_len i) k) st v outs.
Proof. intros Hk s Hv. apply wp_bind. eapply view_out_len; [done|]. by apply Hk. Qed.

Lemma answers_out_at i ov ops l k st v outs :
  answers ov ops l (k (Vec (nth i bs NULL) (out_length ov i))) st v outs -> answers ov ops l (bind (out_at i) k) st v outs.
Proof. intros Hk s Hv. apply wp_bind. eapply view_out_at; [done|]. by apply Hk. Qed.

Lemma answers_check b e ov ops l k st v outs :
  b = true -> answers ov ops l (k tt) st v outs -> answers ov ops l (bind (check b e) k) st v outs.
Proof. intros -> Hk s Hv. by apply wp_bind, wp_ret, Hk. Qed.

Lemma answers_out_arg i n ov ops l k st v outs :
  0 < n <= out_length ov i -> out_length ov i = zlen (out_bytes ov i) ->
  answers ov ops l (k (nth i bs NULL)) st v outs -> answers ov ops l (bind (out_arg i n) k) st v outs.
Proof. intros Hn Hl Hk s Hv. apply wp_bind. eapply view_out_arg; [done..|]. by apply Hk. Qed.

Lemma answers_write_u32 i x ov ops l k st v outs :
  4 <= zlen (out_bytes ov i) ->
  answers (set_bytes i (splice 0 (le_bytes 4 x) (out_bytes ov i)) ov) ops l (k tt) st v outs ->
  answers ov ops l (bind (write_u32 (nth i bs NULL) x) k) st v outs.
Proof. intros Hl Hk s Hv. apply wp_bind. eapply view_write_u32; [done|done|]. intros s' Hv'. by apply Hk. Qed.

Lemma answers_fill_out i d ov ops l k st v outs :
  out_length ov i = zlen (out_bytes ov i) ->
  answers (set_bytes i (splice 0 (take (Z.to_nat (out_length ov i)) d) (out_bytes ov i)) ov) ops l (k tt) st v outs ->
  answers ov ops l (bind (fill_out i d) k) st v outs.
Proof. intros Hl Hk s Hv. apply wp_bind. eapply view_fill_out; [done|done|]. intros s' Hv'. by apply Hk. Qed.

Lemma answers_set_out_len i n ov ops l k st v outs :
  answers (set_length i n ov) ops l (k tt) st v outs -> answers ov ops l (bind (set_out_len i n) k) st v outs.
Proof. intros Hk s Hv. apply wp_bind. eapply view_set_out_len; [done|]. intros s' Hv'. by apply Hk. Qed.

Lemma answers_assoc {A B'} ov ops l (m : M ST A) (f : A -> M ST B') k st v outs :
  answers ov ops l (bind m (fun a => bind (f a) k)) st v outs -> answers ov ops l (bind (bind m f) k) st v outs.
Proof.
  intros Hk s Hv. specialize (Hk s Hv). unfold wp, bind in *. by destruct (m s) as [[a|e] s'].
Qed.

Lemma answers_put_result i status d n ov ops l k st v outs :
  out_length ov i = zlen (out_bytes ov i) ->
  answers (set_length i (if status =? PSA_SUCCESS then n else 0)
             (set_bytes i (splice 0 (take (Z.to_nat (out_length ov i)) d) (out_bytes ov i)) ov)) ops l (k tt) st v outs ->
  answers ov ops l (bind (put_result i status d n) k) st v outs.
Proof.
  intros Hl Hk. unfold put_result. apply answers_assoc, answers_fill_out; [done|].
  intros s Hv. apply wp_bind. eapply view_set_out_len; [done|]. intros s' Hv'. by apply Hk.
Qed.

Lemma answers_call_psa c' ov ops l k st v outs :
  answers ov ops (fst (psa l c')) (k (snd (psa l c'))) st v outs -> answers ov ops l (bind (call_psa c') k) st v outs.
Proof. intros Hk s Hv. apply wp_bind. eapply view_call_psa; [done|]. intros s' Hv'. by apply Hk. Qed.

Lemma answers_call_op i o c' ov ops l k st v outs :
  ops !! i = Some o ->
  (forall l' x r, psa_op l (operation o) c' = (l', x, r) ->
     answers ov (<[i := Operation (in_use o) (owner o) (type o) x]> ops) l' (k r) st v outs) ->
  answers ov ops l (bind (call_op i c') k) st v outs.
Proof.
  intros Ho Hk s Hv. apply wp_bind. eapply view_call_op; [done|done|]. intros s' Hv'.
  destruct (psa_op l (operation o) c') as [[l' x] r] eqn:E. by apply (Hk l' x r).
Qed.

(** *** Calls without an operation *)

Lemma single_output k n ops l :
  0 <= n ->
  answers (blank [n; 0; 0; 0]) ops l (call_with_output k) (r_status (snd (psa l k))) (Vault (abs_ops ops) (fst (psa l k)))
    [bytes_out n (snd (psa l k))].
Proof.
  intros Hn. apply answers_call_psa, answers_put_result; [by cbn; rewrite fill_length|].
  apply answers_status; [done..|]. intros ->. outs.
Qed.

Lemma single_plain k ops l outs :
  (forall i, nth i outs [] = []) ->
  answers (blank [0; 0; 0; 0]) ops l (call_without_output k) (r_status (snd (psa l k))) (Vault (abs_ops ops) (fst (psa l k)))
    outs.
Proof. intros Ho. apply answers_call_psa, answers_status; [done..|]. intros _ i. rewrite Ho. revert i. outs. Qed.

Lemma single_key k ops l :
  answers (blank [4; 0; 0; 0]) ops l
    (let* p := out_arg 0 4 in let* r := call_psa k in let* _ := write_u32 p (key_number (r_key r)) in ret_status r)
    (r_status (snd (psa l k))) (Vault (abs_ops ops) (fst (psa l k))) [key_out (snd (psa l k))].
Proof.
  apply answers_out_arg; [done|done|]. apply answers_call_psa, answers_write_u32; [done|].
  apply answers_status; [done..|]. intros _. outs.
Qed.

Lemma single_key_late k ops l :
  answers (blank [4; 0; 0; 0]) ops l
    (let* p := out_arg 0 4 in let* r := call_psa k in let* _ := ret_status r in write_u32 p (key_number (r_key r)))
    (r_status (snd (psa l k))) (Vault (abs_ops ops) (fst (psa l k))) [key_out (snd (psa l k))].
Proof.
  apply answers_out_arg; [done|done|]. apply answers_call_psa. intros s Hv. apply wp_bind.
  apply wp_of_status; intros Hs.
  - eapply view_write_u32; [done|done|]. intros s' Hv'. split; [done|]. eexists _, _. split_and!; [done|done|]. outs.
  - split; [done|]. split; [done|]. by eexists _, _.
Qed.

Lemma single_attributes key ops l :
  answers (blank [sizeof_client_attributes; 0; 0; 0]) ops l
    (let* r := call_psa (GetKeyAttributes key) in
     let* v := out_at 0 in
     let* _ := check (negb (is_null (base v) || (len v >? sizeof_attributes))) PSA_ERROR_PROGRAMMER_ERROR in
     let* _ := mem_write (base v) (sub_bytes 0 (len v) (attr_bytes (r_attr r))) in
     ret_status r)
    (r_status (snd (psa l (GetKeyAttributes key)))) (Vault (abs_ops ops) (fst (psa l (GetKeyAttributes key))))
    [attributes_out (snd (psa l (GetKeyAttributes key)))].
Proof.
  pose proof client_attributes_size as Hsz. pose proof (psa_attributes l key) as Ha.
  apply answers_call_psa. set (r := snd (psa l _)) in *. intros s Hv. apply wp_bind. eapply view_out_at; [done|]. cbn [base len].
  assert (Hnn : is_null (nth 0 bs NULL) = false).
  { pose proof (vw_out _ _ _ _ Hv 0) as Ho. destruct (nth 0 bs NULL); [|done|done]. cbn in Ho.
    assert (Hz : zlen (fill sizeof_client_attributes 0) = 0) by (by rewrite Ho). rewrite fill_length in Hz by lia. lia. }
  apply wp_bind, wp_check; rewrite Hnn; cbn [out_length nth blank map snd orb]; unfold sizeof_attributes; intros Hc; [|lia].
  assert (Hd : sub_bytes 0 sizeof_client_attributes (attr_bytes (r_attr r)) = attr_fields (r_attr r)).
  { unfold attr_bytes. rewrite sub_bytes_app_l by lia. rewrite <- Ha. apply sub_bytes_all. }
  apply wp_bind. change (out_length (blank [sizeof_client_attributes; 0; 0; 0]) 0) with sizeof_client_attributes. rewrite Hd.
  eapply view_write; [done| |].
  { change (out_bytes _ 0) with (fill sizeof_client_attributes 0). rewrite fill_length by lia. lia. }
  intros s' Hv'. refine (answers_status _ _ _ _ (Vault _ _) [attributes_out r] eq_refl eq_refl _ s' Hv'). intros _ i.
  destruct i as [|i]; [|do 3 (destruct i as [|i]; [reflexivity|]); by destruct i].
  change (take (Z.to_nat sizeof_client_attributes) (splice 0 (attr_fields (r_attr r)) (fill sizeof_client_attributes 0)) =
          attr_fields (r_attr r)).
  unfold zlen in Ha. rewrite splice_whole by (unfold fill; rewrite length_replicate; lia). apply take_ge. lia.
Qed.

Lemma single_random n ops l :
  0 <= n ->
  answers (blank [n; 0; 0; 0]) ops l tfm_crypto_random_interface (r_status (snd (psa l (GenerateRandom n))))
    (Vault (abs_ops ops) (fst (psa l (GenerateRandom n)))) [whole_out n (snd (psa l (GenerateRandom n)))].
Proof.
  intros Hn. apply answers_out_len. change (out_length _ 0) with n. apply answers_call_psa, answers_fill_out.
  { cbn. by rewrite fill_length. }
  apply answers_status; [done..|]. intros _ i. destruct i as [|i]; [|do 3 (destruct i as [|i]; [reflexivity|]); by destruct i].
  apply take_ge. cbn. unfold whole_out, area. set (d := take _ _).
  assert (Hd : zlen d <= n) by (unfold d, zlen; rewrite length_take; lia).
  pose proof (zlen_splice 0 d (fill n 0)) as Hz. rewrite fill_length in Hz by lia. unfold zlen in *. lia.
Qed.

Lemma single_raw k n ops l :
  0 <= n ->
  answers (blank [n; 0; 0; 0]) ops l
    (let* r := call_psa k in let* _ := fill_out 0 (r_out r) in let* _ := set_out_len 0 (r_len r) in ret_status r)
    (r_status (snd (psa l k))) (Vault (abs_ops ops) (fst (psa l k))) [bytes_out n (snd (psa l k))].
Proof.
  intros Hn. apply answers_call_psa, answers_fill_out; [by cbn; rewrite fill_length|].
  apply answers_set_out_len, answers_status; [done..|]. intros _. outs.
Qed.

(** *** Calls on an operation *)

(** Entry [i] is an operation of the client with context [x]. *)
Definition entry (ty : tfm_crypto_operation_type) (i : nat) (x : CTX) (ops : list OP) : Prop :=
  ops !! i = Some (Operation TFM_CRYPTO_IN_USE c ty x).

Lemma abs_context ty i x (ops : list OP) :
  abs_ops (<[i := Operation TFM_CRYPTO_IN_USE c ty x]> ops) = <[i := Some (Session c ty x)]> (abs_ops ops).
Proof. by rewrite abs_ops_insert. Qed.

Lemma answers_entry ty i x k ov ops l K st v outs :
  entry ty i x ops ->
  (forall l' y r, psa_op l x k = (l', y, r) ->
     answers ov (<[i := Operation TFM_CRYPTO_IN_USE c ty y]> ops) l' (K r) st v outs) ->
  answers ov ops l (bind (call_op i k) K) st v outs.
Proof. intros Hi HK. eapply answers_call_op; [done|]. intros l' y r E. by apply (HK l' y r). Qed.

(** What [spec_use] says of a session that exists. *)
Definition used (ty : tfm_crypto_operation_type) (i : nat) (x : CTX) (k : op_call) (ops : list OP) (l : LIB) : vault CTX LIB :=
  put_session i (Some (Session c ty (snd (fst (psa_op l x k))))) (fst (fst (psa_op l x k))) (Vault (abs_ops ops) l).
Definition result (x : CTX) (k : op_call) (l : LIB) : psa_result := snd (psa_op l x k).

(** The calls on an operation, by what they put out. *)
Definition does (ns : list Z) (k : op_call) (out : psa_result -> list Z) (K : nat -> M ST unit) : Prop :=
  forall ty i x ops l, entry ty i x ops ->
    answers (blank ns) ops l (K i) (r_status (result x k l)) (used ty i x k ops l) [out (result x k l)].

Lemma does_intro ns k out (K : nat -> M ST unit) :
  (forall ty i x ops l l' y r, entry ty i x ops -> psa_op l x k = (l', y, r) ->
     answers (blank ns) ops l (K i) (r_status r) (Vault (<[i := Some (Session c ty y)]> (abs_ops ops)) l') [out r]) ->
  does ns k out K.
Proof.
  intros HK ty i x ops l Hi. unfold used, result, put_session. specialize (HK ty i x ops l).
  destruct (psa_op l x k) as [[l' y] r]. by apply HK.
Qed.

Lemma does_plain k : does [0; 0; 0; 0] k no_bytes (fun i => op_without_output i k).
Proof.
  apply does_intro. intros ty i x ops l l' y r Hi E. eapply answers_entry; [done|]. intros ? ? ?. rewrite E. intros [= <- <- <-].
  apply answers_status; [done|by rewrite abs_context|]. intros _. outs.
Qed.

Lemma does_output n k : 0 <= n -> does [n; 0; 0; 0] k (bytes_out n) (fun i => op_with_output i k).
Proof.
  intros Hn. apply does_intro. intros ty i x ops l l' y r Hi E. eapply answers_entry; [done|]. intros ? ? ?. rewrite E. intros [= <- <- <-].
  apply answers_put_result; [by cbn; rewrite fill_length|].
  apply answers_status; [done|by rewrite abs_context|]. intros ->. outs.
Qed.

Lemma area_take n d : 0 <= n -> take (Z.to_nat n) (area n d) = area n d.
Proof.
  intros Hn. apply take_ge. unfold area. set (t := take _ _).
  assert (Ht : zlen t <= n) by (unfold t, zlen; rewrite length_take; lia).
  pose proof (zlen_splice 0 t (fill n 0)) as Hz. rewrite fill_length in Hz by lia. unfold zlen in *. lia.
Qed.

Lemma does_area n k :
  0 <= n -> does [n; 0; 0; 0] k (whole_out n) (fun i => let* r := call_op i k in let* _ := fill_out 0 (r_out r) in ret_status r).
Proof.
  intros Hn. apply does_intro. intros ty i x ops l l' y r Hi E. eapply answers_entry; [done|]. intros ? ? ?. rewrite E. intros [= <- <- <-].
  apply answers_fill_out; [by cbn; rewrite fill_length|].
  apply answers_status; [done|by rewrite abs_context|]. intros _ j.
  destruct j as [|j]; [by apply area_take|do 3 (destruct j as [|j]; [reflexivity|]); by destruct j].
Qed.

Lemma does_value k :
  does [4; 0; 0; 0] k value_out (fun i =>
    let* v := out_at 0 in
    let* _ := check (negb (is_null (base v) || negb (len v =? 4))) PSA_ERROR_PROGRAMMER_ERROR in
    let* r := call_op i k in let* _ := write_u32 (base v) (r_value r) in ret_status r).
Proof.
  apply does_intro. intros ty i x ops l l' y r Hi E. apply answers_out_at. cbn [base len].
  intros s Hv. assert (Hn : is_null (nth 0 bs NULL) = false).
  { pose proof (vw_out _ _ _ _ Hv 0) as Ho. by destruct (nth 0 bs NULL). }
  revert s Hv. apply answers_check; [by rewrite Hn|].
  eapply answers_entry; [done|]. intros ? ? ?. rewrite E. intros [= <- <- <-]. apply answers_write_u32; [done|].
  apply answers_status; [done|by rewrite abs_context|]. intros _. outs.
Qed.

Lemma answers_in_attributes owner ov ops l k st v outs :
  zlen (nth 0 ins []) = sizeof_client_attributes ->
  answers ov ops l (k (Attr (nth 0 ins []) owner)) st v outs -> answers ov ops l (bind (in_attributes iv owner) k) st v outs.
Proof.
  intros Hl Hk s Hv. pose proof client_attributes_size as Hsz. destruct (vw_in _ _ _ _ Hv 0) as [Hlen Hb].
  apply wp_bind. unfold in_attributes. cbv zeta. apply wp_bind, wp_check; intros Hc.
  - apply wp_bind. eapply view_in_data; [done|]. apply wp_ret. by apply Hk.
  - exfalso. unfold sizeof_attributes in Hc. rewrite Hlen, Hl in Hc. apply negb_false_iff, orb_true_iff in Hc as [Hc|Hc]; [|lia].
    destruct (base _); [|done|done]. rewrite Hb in Hl. unfold zlen in Hl. cbn in Hl. lia.
Qed.

Lemma answers_ret_bind {A} (a : A) ov ops l k st v outs :
  answers ov ops l (k a) st v outs -> answers ov ops l (bind (ret a) k) st v outs.
Proof. done. Qed.

(** [psa_key_derivation_output_key] *)
Lemma does_key owner k :
  zlen (nth 0 ins []) = sizeof_client_attributes ->
  does [4; 0; 0; 0] (k (Attr (nth 0 ins []) owner)) key_out (fun i =>
    let* p := out_arg 0 4 in let* a := in_attributes iv owner in
    let* r := call_op i (k a) in let* _ := write_u32 p (key_number (r_key r)) in ret_status r).
Proof.
  intros Ha. apply does_intro. intros ty i x ops l l' y r Hi E. apply answers_out_arg; [done|done|].
  apply answers_in_attributes; [done|]. eapply answers_entry; [done|]. intros ? ? ?. rewrite E. intros [= <- <- <-].
  apply answers_write_u32; [done|]. apply answers_status; [done|by rewrite abs_context|]. intros _. outs.
Qed.

Lemma does_in_data i ns k out (K : list Z -> nat -> M ST unit) :
  does ns k out (K (nth i ins [])) -> does ns k out (fun j => let* d := in_data iv (S i) in K d j).
Proof. intros HK ty j x ops l Hj. apply answers_in_data. by apply HK. Qed.

Lemma does_out_len i ns k out (K : Z -> nat -> M ST unit) :
  does ns k out (K (nth i ns 0)) -> does ns k out (fun j => let* n := out_len i in K n j).
Proof.
  intros HK ty j x ops l Hj. apply answers_out_len. replace (out_length (blank ns) i) with (nth i ns 0); [by apply HK|].
  unfold out_length, blank. rewrite !nth_lookup, list_lookup_fmap. by destruct (ns !! i).
Qed.

(** *** The beginning of a call on an operation *)

Lemma answers_open_use ty iov ov ops l k st v outs :
  match find_op ty (op_handle iov) ops with
  | Some i => answers ov ops l (k (NULL, Ok i)) st v outs
  | None => answers ov ops l (k (NULL, Err PSA_ERROR_BAD_STATE)) st v outs
  end ->
  answers ov ops l (bind (open_operation ty false false iov) k) st v outs.
Proof.
  intros Hk s Hv. unfold open_operation. apply wp_bind, wp_bind, wp_try. eapply view_lookup; [done|].
  destruct (find_op _ _ _); apply wp_ret; by apply Hk.
Qed.

Lemma answers_open_end ty iov ns ops l k st v outs :
  match find_op ty (op_handle iov) ops with
  | Some i => answers (with_word (op_handle iov) ns) ops l (k (nth 0 bs NULL, Ok i)) st v outs
  | None => answers (with_word (op_handle iov) ns) ops l (k (nth 0 bs NULL, Err PSA_ERROR_BAD_STATE)) st v outs
  end ->
  answers (blank (4 :: ns)) ops l (bind (open_operation ty false true iov) k) st v outs.
Proof.
  intros Hk s Hv. unfold open_operation. apply wp_bind, wp_bind, wp_try. eapply view_lookup; [done|].
  destruct (find_op _ _ _); (apply wp_bind; eapply view_out_arg; [done|done|done|]; apply wp_bind;
    eapply view_write_u32; [done|done|]; intros s' Hv'; apply wp_ret; by apply Hk).
Qed.

Lemma answers_open_setup ty iov ns ops l k st v outs :
  table_ok ops -> word (op_handle iov) ->
  (if op_handle iov =? 0 then
     match first_free ops with
     | None => answers (with_word 0 ns) ops l (k (nth 0 bs NULL, Err PSA_ERROR_NOT_PERMITTED)) st v outs
     | Some j => answers (with_word (Z.of_nat j + 1) ns) (<[j := Operation TFM_CRYPTO_IN_USE c ty ctx_zero]> ops) l
                   (k (nth 0 bs NULL, Ok j)) st v outs
     end
   else answers (with_word (op_handle iov) ns) ops l (k (nth 0 bs NULL, Err PSA_ERROR_BAD_STATE)) st v outs) ->
  answers (blank (4 :: ns)) ops l (bind (open_operation ty true false iov) k) st v outs.
Proof.
  intros Ht Hh Hk s Hv. unfold open_operation. apply wp_bind, wp_bind. eapply view_out_arg; [done|done|done|]. apply wp_bind.
  eapply view_write_u32; [done|done|]. intros s' Hv'. apply wp_bind, wp_try. eapply view_alloc; [done|done|done|].
  replace (le_val _) with (op_handle iov) by (symmetry; by apply read_word).
  destruct (Z.eqb_spec (op_handle iov) 0) as [E|E]; [rewrite E in *|].
  - destruct (first_free ops) as [j|].
    + intros s2 Hv2. apply wp_ret. by apply Hk.
    + apply wp_ret. by apply Hk.
  - apply wp_ret. by apply Hk.
Qed.

(** *** Kinds of calls *)

Lemma answers_outs ov ops l m st v outs outs' :
  (st = PSA_SUCCESS -> outs = outs') -> answers ov ops l m st v outs -> answers ov ops l m st v outs'.
Proof.
  intros Ho Hm s Hv. eapply wp_mono; [by apply Hm|..]; [|done]. cbn beta. intros a s' [Hs Hx].
  specialize (Ho Hs) as ->. done.
Qed.

Lemma answers_release h t ops l st v outs :
  word h -> v_lib v = l -> v_sessions v = abs_ops (release_at h ops) ->
  (st = PSA_SUCCESS -> forall i, take (Z.to_nat (out_length ((le_bytes 4 0, 4) :: t) i)) (out_bytes ((le_bytes 4 0, 4) :: t) i) = nth i outs []) ->
  answers ((le_bytes 4 h, 4) :: t) ops l (release_operation_and_return (nth 0 bs NULL) st) st v outs.
Proof.
  intros Hh H1 H2 H3 s Hv. unfold release_operation_and_return. apply wp_bind, wp_try.
  assert (Hgo : forall s', view (set_bytes 0 (splice 0 (le_bytes 4 0) (out_bytes ((le_bytes 4 h, 4) :: t) 0)) ((le_bytes 4 h, 4) :: t))
     (release_at (le_val (sub_bytes 0 4 (out_bytes ((le_bytes 4 h, 4) :: t) 0))) ops) l s' ->
     wp (of_status st) (fun _ s' => st = PSA_SUCCESS /\ exists ov' ops', view ov' ops' (v_lib v) s' /\ abs_ops ops' = v_sessions v /\
          forall i, take (Z.to_nat (out_length ov' i)) (out_bytes ov' i) = nth i outs [])
       (fun e s' => st = e /\ e <> PSA_SUCCESS /\ exists ov' ops', view ov' ops' (v_lib v) s' /\ abs_ops ops' = v_sessions v) s').
  { intros s' Hv'. refine (answers_status _ _ _ st v outs H1 _ _ s' Hv').
    - rewrite H2. f_equal. f_equal. symmetry. by apply read_word.
    - intros Hs i. rewrite <- (H3 Hs i). reflexivity. }
  eapply wp_mono; [eapply view_release; [exact Hv|done|exact Hgo]|..]; by intros.
Qed.

Lemma release_entry ty i x h y (ops : list OP) :
  entry ty i x ops -> length ops = CRYPTO_CONC_OPER_NUM -> word h -> valid_handle h = true -> i = Z.to_nat (h - 1) ->
  release_at h (<[i := Operation TFM_CRYPTO_IN_USE c ty y]> ops) = <[i := no_operation]> ops.
Proof.
  intros Hi Hl Hh Hv Hih. pose proof (lookup_lt_Some _ _ _ Hi). unfold valid_handle, TFM_CRYPTO_INVALID_HANDLE in Hv.
  apply negb_true_iff, orb_false_iff in Hv as [Hv _]. unfold word in Hh.
  replace h with (Z.of_nat i + 1) by lia. by apply release_insert.
Qed.

Lemma find_entry ty h ops (l : LIB) :
  0 <= h ->
  match find_op ty h ops with
  | Some i => exists x, entry ty i x ops /\ i = Z.to_nat (h - 1) /\ valid_handle h = true /\
      find_session c ty h (Vault (abs_ops ops) l) = Some (i, Session c ty x)
  | None => find_session c ty h (Vault (abs_ops ops) l) = None
  end.
Proof.
  intros Hh. pose proof (find_session_op ty h ops l Hh) as Hf. destruct (find_op ty h ops) as [i|]; [|done].
  destruct Hf as (o & Ho & Hu & Hc & Ht & Hi & Hv & Hf). exists (operation o). split_and!; [|done..].
  unfold entry. rewrite Ho. f_equal. destruct o; cbn in *. by subst.
Qed.

Abbreviation opened ty a e iov K := (let* '(p, r) := open_operation ty a e iov in K p r).
Abbreviation or_fail K := (fun p r => match r with Err e => fail e | Ok i => K p i end).

Lemma kind_use ns ty iov k out (K : nat -> M ST unit) ops l :
  word (op_handle iov) -> does ns k out K ->
  answers (blank ns) ops l (let* '(_, r) := open_operation ty false false iov in match r with Err e => fail e | Ok i => K i end)
    (a_status (fst (spec_use c ty (op_handle iov) k out (Vault (abs_ops ops) l))))
    (snd (spec_use c ty (op_handle iov) k out (Vault (abs_ops ops) l)))
    [a_out (fst (spec_use c ty (op_handle iov) k out (Vault (abs_ops ops) l)))].
Proof.
  intros Hh HK. apply answers_open_use. unfold spec_use.
  pose proof (find_entry ty (op_handle iov) ops l ltac:(apply Hh)) as Hf. destruct (find_op _ _ _) as [i|].
  - destruct Hf as (x & Hi & _ & _ & ->). cbn [s_context v_lib]. specialize (HK ty i x ops l Hi).
    unfold used, result in HK. destruct (psa_op l x k) as [[l' y] r]. cbn [fst snd] in *.
    eapply answers_outs; [|done]. cbn. unfold when_ok. by intros ->.
  - rewrite Hf. by apply answers_fail.
Qed.

Lemma free_none ops i : table_ok ops -> first_free ops = Some i -> abs_ops ops !! i = Some None.
Proof. intros Ht Hi. unfold abs_ops. rewrite list_lookup_fmap, (free_entry _ _ Ht Hi). done. Qed.

Lemma kind_setup ty iov k ops l :
  table_ok ops -> word (op_handle iov) ->
  answers (blank [4; 0; 0; 0]) ops l
    (let* '(p, r) := open_operation ty true false iov in match r with Err e => fail e | Ok i => setup_or_release p i k end)
    (a_status (fst (spec_setup c ty (op_handle iov) k (Vault (abs_ops ops) l))))
    (snd (spec_setup c ty (op_handle iov) k (Vault (abs_ops ops) l)))
    [le_bytes 4 (a_handle (fst (spec_setup c ty (op_handle iov) k (Vault (abs_ops ops) l))))].
Proof.
  intros Ht Hh. apply answers_open_setup; [done|done|]. unfold spec_setup. cbn [v_sessions v_lib].
  rewrite free_session_op by apply Ht. destruct (op_handle iov =? 0); cbn [negb]; [|by apply answers_fail].
  destruct (first_free ops) as [j|] eqn:Hf; [|by apply answers_fail].
  pose proof (free_entry ops j Ht Hf) as Hj. pose proof (lookup_lt_Some _ _ _ Hj) as Hlt.
  assert (Hent : entry ty j ctx_zero (<[j := Operation TFM_CRYPTO_IN_USE c ty ctx_zero]> ops)).
  { unfold entry. by apply list_lookup_insert_eq. }
  unfold setup_or_release. eapply answers_entry; [done|]. intros l' y r ->. rewrite insert_twice.
  destruct (Z.eqb_spec (r_status r) PSA_SUCCESS) as [E|E]; cbn [fst snd a_status a_handle].
  - apply answers_ret; [done|by rewrite abs_context|]. outs.
  - unfold with_word. apply answers_release; [|done| |done].
    + unfold word. destruct Ht as [Hl _]. rewrite Hl in Hlt. unfold CRYPTO_CONC_OPER_NUM in Hlt. lia.
    + cbn [v_sessions]. rewrite release_insert; [|done|apply Ht|done|done]. rewrite abs_ops_insert. symmetry.
      apply list_insert_id. rewrite (free_none ops j Ht Hf). done.
Qed.

(** What ends an operation when it succeeds; [outs] are the outputs after the
    handle. *)
Definition ends_operation (ns : list Z) (k : op_call) (outs : psa_result -> list (list Z)) (K : ptr -> nat -> M ST unit) : Prop :=
  forall ty i x ops l h l' y r,
    entry ty i x ops -> length ops = CRYPTO_CONC_OPER_NUM -> word h -> valid_handle h = true -> i = Z.to_nat (h - 1) ->
    psa_op l x k = (l', y, r) ->
    answers (with_word h ns) ops l (K (nth 0 bs NULL) i) (r_status r)
      (Vault (<[i := if r_status r =? PSA_SUCCESS then None else Some (Session c ty y)]> (abs_ops ops)) l')
      (le_bytes 4 0 :: outs r).

Lemma ends_plain k : ends_operation [0; 0; 0] k (fun r => [no_bytes r]) (fun p i => end_operation p i k).
Proof.
  intros ty i x ops l h l' y r Hi Hl Hh Hv Hih E. eapply answers_entry; [done|]. intros ? ? ?. rewrite E. intros [= <- <- <-].
  destruct (Z.eqb_spec (r_status r) PSA_SUCCESS) as [Es|Es].
  - apply answers_release; [done|done| |intros _; outs]. cbn [v_sessions]. erewrite release_entry by done. by rewrite abs_ops_insert.
  - apply answers_status; [done|by rewrite abs_context|done].
Qed.

Lemma ends_output n k :
  0 <= n -> ends_operation [n; 0; 0] k (fun r => [bytes_out n r]) (fun p i => finish_operation p i k).
Proof.
  intros Hn ty i x ops l h l' y r Hi Hl Hh Hv Hih E. eapply answers_entry; [done|]. intros ? ? ?. rewrite E. intros [= <- <- <-].
  apply answers_put_result; [by cbn; rewrite fill_length|]. destruct (Z.eqb_spec (r_status r) PSA_SUCCESS) as [Es|Es].
  - apply answers_release; [done|done| |intros _; outs]. cbn [v_sessions]. erewrite release_entry by done. by rewrite abs_ops_insert.
  - apply answers_status; [done|by rewrite abs_context|done].
Qed.

(** The tag is in vector 1 and the ciphertext in vector 2. *)
Lemma ends_aead t n k :
  0 <= t -> 0 <= n ->
  ends_operation [t; n; 0] k (fun r => [bytes_out2 t r; bytes_out n r]) (fun p i =>
    let* r := call_op i k in
    let* _ := put_result 2 (r_status r) (r_out r) (r_len r) in
    let* _ := put_result 1 (r_status r) (r_out2 r) (r_len2 r) in
    if r_status r =? PSA_SUCCESS then release_operation_and_return p (r_status r) else ret_status r).
Proof.
  intros Ht Hn ty i x ops l h l' y r Hi Hl Hh Hv Hih E. eapply answers_entry; [done|]. intros ? ? ?. rewrite E. intros [= <- <- <-].
  apply answers_put_result; [by cbn; rewrite fill_length|]. apply answers_put_result; [by cbn; rewrite fill_length|].
  destruct (Z.eqb_spec (r_status r) PSA_SUCCESS) as [Es|Es].
  - apply answers_release; [done|done| |intros _; outs]. cbn [v_sessions]. erewrite release_entry by done. by rewrite abs_ops_insert.
  - apply answers_status; [done|by rewrite abs_context|done].
Qed.

(** Without room for the output. *)
Lemma bytes_out_none r : bytes_out 0 r = no_bytes r.
Proof. unfold bytes_out, reported, area, no_bytes. cbn [Z.to_nat take]. rewrite splice_nil. apply take_nil. Qed.

Lemma ends_tag t k :
  0 <= t ->
  ends_operation [t; 0; 0] k (fun r => [bytes_out2 t r; no_bytes r]) (fun p i =>
    let* r := call_op i k in
    let* _ := put_result 2 (r_status r) (r_out r) (r_len r) in
    let* _ := put_result 1 (r_status r) (r_out2 r) (r_len2 r) in
    if r_status r =? PSA_SUCCESS then release_operation_and_return p (r_status r) else ret_status r).
Proof.
  intros Ht ty i x ops l h l' y r. intros. rewrite <- bytes_out_none. by apply (ends_aead t 0 k Ht ltac:(lia) ty i x).
Qed.

Lemma ends_nothing k : ends_operation [0; 0; 0] k (fun r => [no_bytes r]) (fun p i => finish_operation p i k).
Proof. intros ty i x ops l h l' y r. intros. rewrite <- bytes_out_none. by apply (ends_output 0 k ltac:(lia) ty i x). Qed.

Lemma ends_in_data i ns k out (K : list Z -> ptr -> nat -> M ST unit) :
  ends_operation ns k out (K (nth i ins [])) -> ends_operation ns k out (fun p j => let* d := in_data iv (S i) in K d p j).
Proof. intros HK ty j x ops l h l' y r ? ? ? ? ? E. apply answers_in_data. by apply (HK ty j x). Qed.

Lemma ends_out_len i ns k out (K : Z -> ptr -> nat -> M ST unit) :
  ends_operation ns k out (K (nth i ns 0)) -> ends_operation ns k out (fun p j => let* n := out_len (S i) in K n p j).
Proof.
  intros HK ty j x ops l h l' y r ? ? ? ? ? E. apply answers_out_len.
  replace (out_length (with_word h ns) (S i)) with (nth i ns 0); [by apply (HK ty j x)|].
  unfold out_length, with_word, blank. cbn [nth]. rewrite !nth_lookup, list_lookup_fmap. by destruct (ns !! i).
Qed.

Lemma kind_finish ns ty iov k out out2 (g : list Z -> list Z -> list (list Z)) (K : ptr -> nat -> M ST unit) ops l :
  table_ok ops -> word (op_handle iov) -> ends_operation ns k (fun r => g (out r) (out2 r)) K ->
  answers (blank (4 :: ns)) ops l
    (let* '(p, r) := open_operation ty false true iov in match r with Err e => fail e | Ok i => K p i end)
    (a_status (fst (spec_finish c ty (op_handle iov) k out out2 (Vault (abs_ops ops) l))))
    (snd (spec_finish c ty (op_handle iov) k out out2 (Vault (abs_ops ops) l)))
    (le_bytes 4 (a_handle (fst (spec_finish c ty (op_handle iov) k out out2 (Vault (abs_ops ops) l)))) ::
     g (a_out (fst (spec_finish c ty (op_handle iov) k out out2 (Vault (abs_ops ops) l))))
       (a_out2 (fst (spec_finish c ty (op_handle iov) k out out2 (Vault (abs_ops ops) l))))).
Proof.
  intros Ht Hh HK. apply answers_open_end. unfold spec_finish.
  pose proof (find_entry ty (op_handle iov) ops l ltac:(apply Hh)) as Hf. destruct (find_op _ _ _) as [i|].
  - destruct Hf as (x & Hi & Hih & Hv & ->). cbn [s_context v_lib].
    destruct (psa_op l x k) as [[l' y] r] eqn:E.
    specialize (HK ty i x ops l _ l' y r Hi (table_length _ Ht) Hh Hv Hih E). unfold put_session. cbn [v_sessions].
    destruct (Z.eqb_spec (r_status r) PSA_SUCCESS) as [Es|Es]; cbn [fst snd a_status a_handle a_out a_out2].
    + rewrite Es in HK. exact HK.
    + eapply answers_outs; [|exact HK]. done.
  - rewrite Hf. by apply answers_fail.
Qed.

(** A release that follows whatever the status is. *)
Lemma answers_abort ty i x h k ops l l' y r :
  entry ty i x ops -> length ops = CRYPTO_CONC_OPER_NUM -> word h -> valid_handle h = true -> i = Z.to_nat (h - 1) ->
  psa_op l x k = (l', y, r) ->
  answers (with_word h [0; 0; 0]) ops l (abort_operation (nth 0 bs NULL) i k) (r_status r)
    (Vault (<[i := None]> (abs_ops ops)) l') [le_bytes 4 0].
Proof.
  intros Hi Hl Hh Hv Hih E. eapply answers_entry; [done|]. intros ? ? ?. rewrite E. intros [= <- <- <-].
  apply answers_release; [done|done| |intros _; outs]. cbn [v_sessions]. erewrite release_entry by done. by rewrite abs_ops_insert.
Qed.

Abbreviation SPEC_ABORT ty iov k ops l := (spec_abort c ty (op_handle iov) k (Vault (abs_ops ops) l)).

Lemma kind_abort ty iov k ops l :
  table_ok ops -> word (op_handle iov) ->
  answers (blank [4; 0; 0; 0]) ops l
    (let* '(p, r) := open_operation ty false true iov in match r with Err e => ret tt | Ok i => abort_operation p i k end)
    (a_status (fst (SPEC_ABORT ty iov k ops l))) (snd (SPEC_ABORT ty iov k ops l))
    [le_bytes 4 (a_handle (fst (SPEC_ABORT ty iov k ops l)))].
Proof.
  intros Ht Hh. apply answers_open_end. unfold spec_abort.
  pose proof (find_entry ty (op_handle iov) ops l ltac:(apply Hh)) as Hf. destruct (find_op _ _ _) as [i|].
  - destruct Hf as (x & Hi & Hih & Hv & ->). cbn [s_context v_lib]. destruct (psa_op l x k) as [[l' y] r] eqn:E.
    eapply answers_outs; [|by eapply (answers_abort ty i x); try done; apply Ht]. cbn. by intros ->.
  - rewrite Hf. apply answers_ret; [done|done|]. outs.
Qed.

Lemma kind_abort_late ty iov k ops l :
  table_ok ops -> word (op_handle iov) ->
  answers (blank [4; 0; 0; 0]) ops l
    (let* '(_, r) := open_operation ty false false iov in
     let* p := out_arg 0 4 in
     let* _ := write_u32 p (op_handle iov) in
     match r with Err _ => ret tt | Ok i => abort_operation p i k end)
    (a_status (fst (SPEC_ABORT ty iov k ops l))) (snd (SPEC_ABORT ty iov k ops l))
    [le_bytes 4 (a_handle (fst (SPEC_ABORT ty iov k ops l)))].
Proof.
  intros Ht Hh. apply answers_open_use. unfold spec_abort.
  pose proof (find_entry ty (op_handle iov) ops l ltac:(apply Hh)) as Hf. destruct (find_op _ _ _) as [i|].
  - destruct Hf as (x & Hi & Hih & Hv & ->). cbn [s_context v_lib]. destruct (psa_op l x k) as [[l' y] r] eqn:E.
    apply answers_out_arg; [done|done|]. apply answers_write_u32; [done|].
    eapply answers_outs; [|by eapply (answers_abort ty i x); try done; apply Ht]. cbn. by intros ->.
  - rewrite Hf. apply answers_out_arg; [done|done|]. apply answers_write_u32; [done|]. apply answers_ret; [done|done|]. outs.
Qed.

Abbreviation SPEC_CLONE iov ops l := (spec_clone c (op_handle iov) 0 (Vault (abs_ops ops) l)).

Lemma kind_clone iov ops l :
  table_ok ops -> word (op_handle iov) -> nth 0 ins [] = le_bytes 4 0 ->
  answers (blank [4; 0; 0; 0]) ops l
    (let* '(_, r) := open_operation TFM_CRYPTO_HASH_OPERATION false false iov in
     match r with
     | Err e => fail e
     | Ok operation =>
         let* p_handle := out_arg 0 4 in
         let arg := nth 1 iv no_vec in
         let* _ := check (negb (is_null (base arg) || (len arg <? 4))) PSA_ERROR_PROGRAMMER_ERROR in
         let* h := read_u32 (base arg) in
         let* _ := write_u32 p_handle h in
         let* target_operation := tfm_crypto_operation_alloc TFM_CRYPTO_HASH_OPERATION p_handle in
         let* status := call_clone operation target_operation in
         if status =? PSA_SUCCESS then ret tt else release_operation_and_return p_handle status
     end)
    (a_status (fst (SPEC_CLONE iov ops l))) (snd (SPEC_CLONE iov ops l)) [le_bytes 4 (a_handle (fst (SPEC_CLONE iov ops l)))].
Proof.
  intros Ht Hh Hins. apply answers_open_use. unfold spec_clone. cbn [v_sessions v_lib].
  pose proof (find_entry TFM_CRYPTO_HASH_OPERATION (op_handle iov) ops l ltac:(apply Hh)) as Hf.
  destruct (find_op _ _ _) as [i|]; [|by rewrite Hf; apply answers_fail].
  destruct Hf as (x & Hi & _ & _ & ->). rewrite free_session_op by apply Ht. cbn [s_context].
  apply answers_out_arg; [done|done|]. cbv zeta. intros s Hv.
  destruct (vw_in _ _ _ _ Hv 0) as [Hlen Hb]. rewrite Hins in *.
  destruct (base (nth 1 iv no_vec)) as [| |o] eqn:Eb; [done|done|]. destruct Hb as (Ho & _ & Hd).
  apply wp_bind, wp_check; intros Hc; [|by rewrite Hlen in Hc].
  apply wp_bind. unfold read_u32, mem_read. svc_steps.
  change (zlen (le_bytes 4 0)) with 4 in Hd. rewrite Hd. change (le_val (le_bytes 4 0)) with 0.
  apply wp_bind. eapply view_write_u32; [done|done|]. intros s1 Hv1. apply wp_bind. eapply view_alloc; [done|done|done|].
  change (le_val _ =? 0) with true. cbv iota. destruct (first_free ops) as [j|] eqn:Hf; cbn [fst snd a_status a_handle].
  2:{ split; [done|]. split; [done|]. by eexists _, _. }
  intros s2 Hv2. pose proof (free_entry ops j Ht Hf) as Hj. pose proof (lookup_lt_Some _ _ _ Hj) as Hlt.
  assert (Hne : j <> i) by (intros ->; unfold entry in Hi; rewrite Hj in Hi; by injection Hi).
  apply wp_bind. eapply view_call_clone; [done| |by apply list_lookup_insert_eq|].
  { rewrite list_lookup_insert_ne by done. exact Hi. }
  cbn [operation in_use owner type]. intros s3 Hv3.
  destruct (psa_clone l x ctx_zero) as [[l' y] st]. cbn [fst snd] in *. rewrite insert_twice in Hv3.
  destruct (Z.eqb_spec st PSA_SUCCESS) as [E|E]; cbn [fst snd a_status a_handle].
  - refine (answers_ret _ _ _ (Vault _ _) [_] eq_refl _ _ s3 Hv3); [by rewrite abs_context|]. outs.
  - refine (answers_release (Z.of_nat j + 1) (blank [0; 0; 0]) _ _ st (Vault _ _) [_] _ eq_refl _ _ s3 Hv3).
    + unfold word. destruct Ht as [Hl _]. rewrite Hl in Hlt. unfold CRYPTO_CONC_OPER_NUM in Hlt. lia.
    + cbn [v_sessions]. rewrite release_insert; [|done|apply Ht|done|done]. rewrite abs_ops_insert. symmetry.
      apply list_insert_id. rewrite (free_none ops j Ht Hf). done.
    + done.
Qed.
End view.

(** *** Loading the vectors *)

(** The scratch memory that [n] vectors from the [j]-th take. *)
Fixpoint need (n j : nat) (sizes : list Z) : Z :=
  match n with
  | O => 0
  | S n => padded (nth j sizes 0) + need n (S j) sizes
  end.

Lemma padded_bound n : 0 <= n -> n <= padded n.
Proof. intros. unfold padded. pose proof (Z.div_mod (n + 3) 4 ltac:(lia)). pose proof (Z.mod_pos_bound (n + 3) 4 ltac:(lia)). lia. Qed.

Lemma ALIGN_padded n : 0 <= n <= 4294967292 -> ALIGN n 4 = padded n.
Proof.
  intros Hn. unfold ALIGN, padded. change (4 - 1) with (Z.ones 2). rewrite <- Z.ldiff_land.
  rewrite Z.ldiff_ones_r by lia. rewrite Z.shiftr_div_pow2, Z.shiftl_mul_pow2 by lia. change (2 ^ 2) with 4. change (Z.ones 2) with 3.
  assert (Hd := Z.div_mod (n + 3) 4 ltac:(lia)). pose proof (Z.mod_pos_bound (n + 3) 4 ltac:(lia)).
  rewrite u32_id by lia. lia.
Qed.

Lemma need_nonneg n j sizes : Forall (fun n => 0 <= n) sizes -> 0 <= need n j sizes.
Proof.
  intros Hs. revert j. induction n as [|n IH]; intros j; cbn [need]; [lia|]. specialize (IH (S j)).
  assert (0 <= nth j sizes 0); [|pose proof (padded_bound (nth j sizes 0)); lia].
  rewrite nth_lookup. destruct (sizes !! j) as [x|] eqn:E; cbn; [|lia]. by eapply Forall_lookup_1 in Hs.
Qed.

Lemma need_split n m j sizes : need (n + m) j sizes = need n j sizes + need m (j + n) sizes.
Proof.
  revert j. induction n as [|n IH]; intros j; cbn [need Nat.add]; [by rewrite Nat.add_0_r|].
  rewrite IH. replace (j + S n)%nat with (S j + n)%nat by lia. lia.
Qed.

Lemma need_zero n j sizes : (forall t, (j <= t)%nat -> nth t sizes 0 = 0) -> need n j sizes = 0.
Proof.
  revert j. induction n as [|n IH]; intros j Ht; cbn [need]; [done|]. rewrite Ht, IH; [done| |lia].
  intros t ?. apply Ht. lia.
Qed.

Lemma need_sum n j sizes : need n j sizes = scratch_need (take n (drop j sizes)).
Proof.
  revert j. induction n as [|n IH]; intros j; cbn [need]; [by rewrite take_0|].
  destruct (sizes !! j) as [x|] eqn:E.
  - rewrite (drop_S _ _ _ E). cbn [take scratch_need foldr]. rewrite nth_lookup, E. cbn [default]. by rewrite IH.
  - apply lookup_ge_None in E. rewrite drop_ge, take_nil by lia. rewrite nth_overflow by lia. rewrite need_zero; [done|].
    intros t ?. apply nth_overflow. lia.
Qed.

Lemma need_all n sizes : (length sizes <= n)%nat -> need n 0 sizes = scratch_need sizes.
Proof. intros Hn. rewrite need_sum. by rewrite drop_0, take_ge by lia. Qed.

(** What a failed allocation says, and what a successful one does. *)
Lemma alloc_exact n (s : ST) Q E :
  zero_tail s -> word n ->
  (if padded n <=? CRYPTO_IOVEC_BUFFER_SIZE - alloc_index s then
     Q (Scratch (alloc_index s))
       (Crypto (operations s) (scratch_buf s) (alloc_index s + padded n) (scratch_owner s) (lib s) (out_vec s) (invec s) (outvec s))
   else E PSA_ERROR_INSUFFICIENT_MEMORY s) ->
  wp (tfm_crypto_alloc_scratch n) Q E s.
Proof.
  intros [Hl Hi Hz] Hn HQ. unfold tfm_crypto_alloc_scratch, SIZE_MAX, TFM_CRYPTO_IOVEC_ALIGNMENT. unfold word in Hn.
  pose proof (padded_bound n ltac:(lia)). unfold CRYPTO_IOVEC_BUFFER_SIZE in *.
  apply wp_bind, wp_check; intros Hc.
  - apply negb_true_iff in Hc. rewrite ALIGN_padded by lia. svc_steps; rewrite u32_id in * by lia.
    + rewrite u32_id by lia. destruct (Z.leb_spec (padded n) (5120 - alloc_index s)); [done|lia].
    + destruct (Z.leb_spec (padded n) (5120 - alloc_index s)); [lia|done].
  - destruct (Z.leb_spec (padded n) (5120 - alloc_index s)); [lia|done].
Qed.

Section load.
Context (s0 : ST) (c : Z) (ins : list (list Z)) (outs : list Z) (msg : psa_msg_t).
Context (Hout : out_size msg = outs) (Hin : forall j, nth (S j) (in_size msg) 0 = zlen (nth j ins [])).
Context (Hinw : Forall (fun d => word (zlen d)) ins) (Houtw : Forall word outs).

Lemma in_word j : word (zlen (nth j ins [])).
Proof.
  rewrite nth_lookup. destruct (ins !! j) as [d|] eqn:E; cbn; [|by unfold word, zlen; cbn]. by eapply Forall_lookup_1 in Hinw.
Qed.

Lemma out_word j : word (nth j outs 0).
Proof. rewrite nth_lookup. destruct (outs !! j) as [d|] eqn:E; cbn; [by eapply Forall_lookup_1 in Houtw|by unfold word]. Qed.

Lemma words_positive : Forall (fun n => 0 <= n) outs.
Proof. eapply Forall_impl; [|exact Houtw]. unfold word. intros; lia. Qed.

(** Nothing but the scratch memory and the vectors has changed. *)
Record begun (s : ST) : Prop := Begun {
  bg_operations : operations s = operations s0;
  bg_lib : lib s = lib s0;
  bg_outvec : outvec s = outvec s0;
  bg_zero : zero_tail s;
}.

Definition refused (s : ST) : Prop :=
  operations s = operations s0 /\ lib s = lib s0 /\ outvec s = outvec s0.

Lemma begun_drop {A} e s (Q : A -> ST -> Prop) :
  begun s -> wp (let* _ := tfm_crypto_clear_scratch in fail e) Q (fun e' s' => e' = e /\ refused s') s.
Proof. intros []. apply wp_bind, clear_scratch_ok; [done|]. apply wp_fail. done. Qed.

Lemma zero_tail_write (s : ST) o d :
  zero_tail s -> 0 <= o -> o + zlen d <= alloc_index s ->
  zero_tail (Crypto (operations s) (splice o d (scratch_buf s)) (alloc_index s) (scratch_owner s) (lib s) (out_vec s) (invec s) (outvec s)).
Proof.
  intros [Hl Hi Hz] H1 H2. pose proof (zlen_nonneg d). split; cbn; [by rewrite zlen_splice by lia|done|].
  rewrite sub_bytes_splice_disj by lia. done.
Qed.

Abbreviation insz := (map zlen ins).

Lemma insz_nth j : nth j insz 0 = zlen (nth j ins []).
Proof. rewrite !nth_lookup, list_lookup_fmap. by destruct (ins !! j). Qed.

Lemma load_in n j iv s :
  begun s -> (forall t, (t < j)%nat -> in_holds (alloc_index s) s (nth (S t) iv no_vec) (nth t ins [])) ->
  (forall t, (j <= t)%nat -> nth (S t) iv no_vec = no_vec /\ nth (S t) (invec s) [] = nth t ins []) ->
  (j + n < length iv)%nat ->
  wp (init_invecs n (S j) msg iv)
    (fun iv' s' => begun s' /\ alloc_index s' = alloc_index s + need n j insz /\ out_vec s' = out_vec s /\
       scratch_owner s' = scratch_owner s /\ nth 0 iv' no_vec = nth 0 iv no_vec /\
       (forall t, (t < j + n)%nat -> in_holds (alloc_index s') s' (nth (S t) iv' no_vec) (nth t ins [])) /\
       (forall t, (j + n <= t)%nat -> nth (S t) iv' no_vec = no_vec))
    (fun e s' => e = PSA_ERROR_INSUFFICIENT_MEMORY /\ refused s' /\ CRYPTO_IOVEC_BUFFER_SIZE < alloc_index s + need n j insz) s.
Proof.
  revert j iv s. induction n as [|n IH]; intros j iv s Hb Hlo Hhi Hlen; cbn [init_invecs need].
  { apply wp_ret. rewrite Nat.add_0_r, Z.add_0_r. split_and!; try done. intros t Ht. by apply Hhi. }
  rewrite Hin. rewrite insz_nth. set (d := nth j ins []) in *. pose proof (in_word j) as Hw. fold d in Hw.
  pose proof (padded_bound (zlen d) ltac:(apply Hw)) as Hp. pose proof Hb as [B1 B2 B3 [Z1 Z2 Z3]].
  pose proof (need_nonneg n (S j) insz ltac:(apply Forall_fmap, Forall_true; intros; apply zlen_nonneg)) as Hnn.
  apply wp_bind, wp_try. apply alloc_exact; [done|done|]. destruct (Z.leb_spec (padded (zlen d)) (CRYPTO_IOVEC_BUFFER_SIZE - alloc_index s)) as [Hf|Hf].
  2:{ cbv beta iota. eapply wp_mono with (Q := fun _ _ => False); [by eapply begun_drop|done|]. cbn. intros e s' [-> ?]. split_and!; [done|done|lia]. }
  unfold psa_read. svc_steps. cbn [invec]. destruct (Hhi j ltac:(lia)) as [_ Hread]. rewrite Hread. fold d.
  rewrite Z.min_id, sub_bytes_all. unfold mem_write. svc_steps.
  cbn [operations scratch_buf alloc_index scratch_owner lib out_vec invec outvec]. pose proof (zlen_nonneg d).
  set (s1 := Crypto _ _ _ _ _ _ _ _).
  assert (Hz1 : zero_tail s1).
  { apply (zero_tail_write (Crypto (operations s) (scratch_buf s) (alloc_index s + padded (zlen d)) (scratch_owner s) (lib s)
      (out_vec s) (<[S j := sub_bytes (zlen d) (zlen d - zlen d) d]> (invec s)) (outvec s)) (alloc_index s) d); cbn; [|lia|lia].
    split; cbn; [done|lia|]. rewrite <- (sub_bytes_fill (padded (zlen d)) (CRYPTO_IOVEC_BUFFER_SIZE - (alloc_index s + padded (zlen d))) (CRYPTO_IOVEC_BUFFER_SIZE - alloc_index s)) by lia.
    rewrite <- Z3. rewrite sub_bytes_sub_bytes by lia. done. }
  eapply wp_mono; [eapply (IH (S j) _ s1)|..].
  - by split.
  - intros t Ht. destruct (decide (t = j)) as [->|Hn].
    + rewrite nth_insert_eq by lia. fold d. split; [done|]. unfold s1. cbn [base alloc_index scratch_buf]. split_and!; [lia|lia|].
      apply sub_bytes_splice_eq; lia.
    + rewrite nth_insert_ne by lia. destruct (Hlo t ltac:(lia)) as [Hl Hx]. split; [done|].
      destruct (base _) as [| |o]; [done|done|]. destruct Hx as (X1 & X2 & X3). unfold s1. cbn [alloc_index scratch_buf]. split_and!; [lia|lia|].
      rewrite sub_bytes_splice_disj by lia. done.
  - intros t Ht. rewrite nth_insert_ne by lia. unfold s1. cbn [invec]. rewrite nth_insert_ne by lia. apply Hhi. lia.
  - rewrite length_insert. lia.
  - unfold s1. cbn [alloc_index out_vec scratch_owner]. intros iv' s' (E1 & E2 & E3 & E4 & E5 & E6 & E7). split_and!; try done.
    + rewrite E2. lia.
    + rewrite E5. by rewrite nth_insert_ne by lia.
    + intros t Ht. apply E6. lia.
    + intros t Ht. apply E7. lia.
  - unfold s1. cbn [alloc_index]. intros e s' (E1 & E2 & E3). split_and!; [done|done|]. lia.
Qed.

Lemma load_out B n j s :
  begun s -> 0 <= B -> alloc_index s = B + need j 0 outs -> length (out_vec s) = 4%nat -> (j + n <= 4)%nat ->
  (forall t, (t < j)%nat -> nth t (out_vec s) no_vec = Vec (Scratch (B + need t 0 outs)) (nth t outs 0)) ->
  (forall t, (j <= t)%nat -> nth t (out_vec s) no_vec = no_vec) ->
  wp (init_outvecs n j msg)
    (fun _ s' => begun s' /\ scratch_buf s' = scratch_buf s /\ scratch_owner s' = scratch_owner s /\
       alloc_index s' = B + need (j + n) 0 outs /\ length (out_vec s') = 4%nat /\
       (forall t, (t < j + n)%nat -> nth t (out_vec s') no_vec = Vec (Scratch (B + need t 0 outs)) (nth t outs 0)) /\
       (forall t, (j + n <= t)%nat -> nth t (out_vec s') no_vec = no_vec))
    (fun e s' => e = PSA_ERROR_INSUFFICIENT_MEMORY /\ refused s' /\ CRYPTO_IOVEC_BUFFER_SIZE < B + need (j + n) 0 outs) s.
Proof.
  revert j s. induction n as [|n IH]; intros j s Hb HB Hi Hl Hn Hlo Hhi; cbn [init_outvecs].
  { apply wp_ret. rewrite Nat.add_0_r. done. }
  rewrite Hout. pose proof (out_word j) as Hw. pose proof (proj1 Hw) as Hw0. pose proof (padded_bound (nth j outs 0) ltac:(apply Hw)) as Hp.
  pose proof words_positive as Hpos.
  pose proof (need_nonneg n (S j) outs Hpos) as Hnn.
  assert (Hs : need (j + S n) 0 outs = need j 0 outs + (padded (nth j outs 0) + need n (S j) outs)) by (rewrite need_split; cbn [need Nat.add]; lia).
  assert (Hs1 : need (S j) 0 outs = need j 0 outs + padded (nth j outs 0)).
  { replace (S j) with (j + 1)%nat by lia. rewrite need_split. cbn. lia. }
  pose proof Hb as [B1 B2 B3 [Z1 Z2 Z3]].
  apply wp_bind, wp_try. apply alloc_exact; [done|done|].
  destruct (Z.leb_spec (padded (nth j outs 0)) (CRYPTO_IOVEC_BUFFER_SIZE - alloc_index s)) as [Hf|Hf].
  2:{ cbv beta iota. eapply wp_mono with (Q := fun _ _ => False); [by eapply begun_drop|done|]. cbn beta. intros e s' [-> ?].
      split_and!; [done|done|lia]. }
  svc_steps. cbn [operations scratch_buf alloc_index scratch_owner lib out_vec invec outvec].
  set (s1 := Crypto _ _ _ _ _ _ _ _).
  assert (Hb1 : begun s1).
  { split; try done. split; unfold s1; cbn [scratch_buf alloc_index]; [done|lia|].
    rewrite <- (sub_bytes_fill (padded (nth j outs 0)) (CRYPTO_IOVEC_BUFFER_SIZE - (alloc_index s + padded (nth j outs 0)))
      (CRYPTO_IOVEC_BUFFER_SIZE - alloc_index s)) by lia.
    rewrite <- Z3. rewrite sub_bytes_sub_bytes by lia. done. }
  eapply wp_mono; [eapply (IH (S j) s1)|..]; try done.
  - unfold s1. cbn [alloc_index]. lia.
  - unfold s1. cbn [out_vec]. by rewrite length_insert.
  - lia.
  - intros t Ht. unfold s1. cbn [out_vec]. destruct (decide (t = j)) as [->|Hne].
    + rewrite nth_insert_eq by lia. by rewrite Hi.
    + rewrite nth_insert_ne by lia. apply Hlo. lia.
  - intros t Ht. unfold s1. cbn [out_vec]. rewrite nth_insert_ne by lia. apply Hhi. lia.
  - cbn beta. rewrite <- Nat.add_succ_comm. done.
  - cbn beta. rewrite <- Nat.add_succ_comm. done.
Qed.

Lemma filled_zero n sizes t : (length sizes <= n)%nat -> (filled n sizes <= t)%nat -> nth t sizes 0 = 0.
Proof.
  intros Hl Ht. destruct (decide (n <= t)%nat); [apply nth_overflow; lia|]. clear Hl.
  induction n as [|n IH]; cbn [filled] in *; [lia|]. destruct (Z.eqb_spec (nth n sizes 0) 0) as [E|E]; [|lia].
  destruct (decide (t = n)) as [->|]; [done|]. apply IH; lia.
Qed.

(** What is loaded, as a view. *)
Lemma loaded_view iv s B :
  begun s -> 0 <= B -> sub_bytes B (CRYPTO_IOVEC_BUFFER_SIZE - B) (scratch_buf s) = fill (CRYPTO_IOVEC_BUFFER_SIZE - B) 0 ->
  (length outs <= 4)%nat -> length (out_vec s) = 4%nat ->
  (forall t, in_holds B s (nth (S t) iv no_vec) (nth t ins [])) ->
  forall n, (n <= 4)%nat -> (forall t, (n <= t)%nat -> nth t outs 0 = 0) -> alloc_index s = B + need n 0 outs ->
  (forall t, (t < n)%nat -> nth t (out_vec s) no_vec = Vec (Scratch (B + need t 0 outs)) (nth t outs 0)) ->
  (forall t, (n <= t)%nat -> nth t (out_vec s) no_vec = no_vec) ->
  apart (map base (out_vec s)) outs /\
  view (scratch_owner s) iv ins (map base (out_vec s)) outs B (outvec s0)
    (blank [nth 0 outs 0; nth 1 outs 0; nth 2 outs 0; nth 3 outs 0]) (operations s0) (lib s0) s.
Proof.
  intros [B1 B2 B3 B4] HB Hz Hlo Hl Hiv n Hn Hzero Hi Hlt Hge.
  assert (Hbase : forall t, nth t (map base (out_vec s)) NULL = if decide (t < n)%nat then Scratch (B + need t 0 outs) else NULL).
  { intros t. change NULL with (base no_vec) at 1. rewrite map_nth. case_decide; [by rewrite Hlt|by rewrite Hge by lia]. }
  pose proof words_positive as Hpos.
  assert (Hmono : forall a b, (a < b)%nat -> need a 0 outs + nth a outs 0 <= need b 0 outs).
  { intros a b Hab. replace b with (a + S (b - S a))%nat by lia. rewrite need_split. cbn [need].
    pose proof (need_nonneg (b - S a) (S (0 + a)) outs Hpos). pose proof (padded_bound (nth a outs 0) ltac:(apply out_word)).
    cbn in *. lia. }
  assert (Hfresh : forall t, out_bytes (blank [nth 0 outs 0; nth 1 outs 0; nth 2 outs 0; nth 3 outs 0]) t = fill (nth t outs 0) 0).
  { intros t. do 4 (destruct t as [|t]; [done|]). rewrite (Hzero (S (S (S (S t))))) by lia. by destruct t. }
  split.
  - intros a b oa ob Hab. rewrite !Hbase. do 2 case_decide; [|done..]. intros [= <-] [= <-].
    destruct (decide (a < b)%nat); [left; specialize (Hmono a b); lia|right; specialize (Hmono b a); lia].
  - split; try done.
    + intros t. rewrite Hbase, Hfresh. case_decide as Ht; cbn [out_holds].
      * rewrite fill_length by apply out_word. pose proof (need_nonneg t 0 outs Hpos). pose proof (Hmono t n Ht).
        pose proof (proj1 (out_word t)). pose proof (zt_index _ B4). split_and!; [lia|lia|lia|].
        replace (B + need t 0 outs) with (B + need t 0 outs) by lia.
        rewrite <- (sub_bytes_fill (need t 0 outs) (nth t outs 0) (CRYPTO_IOVEC_BUFFER_SIZE - B)) by lia.
        rewrite <- Hz. by rewrite sub_bytes_sub_bytes by lia.
      * by rewrite Hzero by lia.
    + intros t. rewrite Hfresh. apply fill_length, out_word.
    + apply list_eq. intros t. rewrite lookup_zip_with, !list_lookup_fmap. destruct (out_vec s !! t) as [v|] eqn:E; [|done].
      pose proof (lookup_lt_Some _ _ _ E). assert (Hv : nth t (out_vec s) no_vec = v) by (by rewrite nth_lookup, E).
      assert (Hlen : len v = nth t outs 0).
      { rewrite <- Hv. destruct (decide (t < n)%nat); [by rewrite Hlt|]. rewrite Hge, Hzero by lia. done. }
      destruct v as [p m]. cbn in Hlen. subst m. cbn. do 4 (destruct t as [|t]; [done|]). lia.
Qed.
End load.
End exact.
