(* ===== verification/CryptoClaims.v ===== *)
(** * What the crypto service promises its clients

    Every function of the PSA Crypto API that a client calls does what the
    specification of [CryptoClient] says; a request of one client, whatever it
    contains, leaves the operations and keys of the others alone; nothing of a
    request stays behind.  [Demo] runs the service with a small library. *)

From S2P Require Import Prelude Bytes CryptoService CryptoClient CryptoProof CryptoExact.
From stdpp Require Import base list numbers.
From Stdlib Require Import ZArith Lia.

Open Scope Z_scope.
Open Scope tfm_scope.

#[local] Instance always {A : Type} : PreOrder (fun _ _ : A => True).
Proof. by split. Qed.

Section claims.
Context {CTX LIB : Type} `{PsaLaws CTX LIB} (c : Z).
Abbreviation OP := (tfm_crypto_operation_s CTX).
Abbreviation ST := (crypto_st CTX LIB).
Abbreviation API := (M ST api_ret).

(** The sessions of a state. *)
Definition abs (s : ST) : vault CTX LIB := Vault (abs_ops (operations s)) (lib s).

(** *** A request and its answer *)

Lemma view_outvec iv ins bs szs B os os' ov ops l (s s' : ST) :
  view c iv ins bs szs B os ov ops l s ->
  s' = Crypto (operations s) (scratch_buf s) (alloc_index s) (scratch_owner s) (lib s) (out_vec s) (invec s) os' ->
  view c iv ins bs szs B os' ov ops l s'.
Proof. intros [H1 H2 H3 H4 [Z1 Z2 Z3] H5 H6 H7 H8 H9] ->. by split. Qed.

Lemma read_output iv ins bs szs B os ov ops l (s : ST) i Q E :
  view c iv ins bs szs B os ov ops l s -> 0 <= out_length ov i <= zlen (out_bytes ov i) ->
  Q (take (Z.to_nat (out_length ov i)) (out_bytes ov i)) s -> wp (mem_read (nth i bs NULL) (out_length ov i)) Q E s.
Proof.
  intros Hv Hl HQ. pose proof (vw_out _ _ _ _ _ _ _ _ _ _ _ Hv i) as Ho. unfold mem_read. svc_steps.
  destruct (nth i bs NULL) as [| |o]; cbn [out_holds] in Ho.
  - rewrite Ho in HQ. by rewrite take_nil in HQ.
  - done.
  - destruct Ho as (H1 & _ & _ & Hb). rewrite <- (Z.add_0_r o).
    rewrite <- (sub_bytes_sub_bytes 0 (out_length ov i) o (zlen (out_bytes ov i))) by lia. rewrite Hb. exact HQ.
Qed.

Lemma write_exact iv ins bs szs B n i os ov ops l (s : ST) Q E :
  length bs = 4%nat -> view c iv ins bs szs B os ov ops l s -> (i + n <= length os)%nat ->
  (forall j, 0 <= out_length ov j <= zlen (out_bytes ov j)) -> (forall j, (i <= j)%nat -> nth j os [] = []) ->
  (forall os' s', view c iv ins bs szs B os' ov ops l s' -> length os' = length os ->
     (forall j, (j < i)%nat -> nth j os' [] = nth j os []) ->
     (forall j, (i <= j < i + n)%nat -> nth j os' [] = take (Z.to_nat (out_length ov j)) (out_bytes ov j)) ->
     (forall j, (i + n <= j)%nat -> nth j os' [] = []) -> Q tt s') ->
  wp (write_outvecs n i) Q E s.
Proof.
  intros Hbs. revert i os s. induction n as [|n IH]; intros i os s Hv Hn Hlen Hos HQ; cbn [write_outvecs].
  { apply wp_ret. apply (HQ os s); [done..| |]; [intros; lia|]. intros j ?. apply Hos. lia. }
  apply wp_bind. eapply view_out_at; [done..|]. cbn [base len]. apply wp_bind. eapply read_output; [done|done|].
  set (d := take _ _). unfold psa_write. svc_steps. rewrite (vw_outvec _ _ _ _ _ _ _ _ _ _ _ Hv), (Hos i ltac:(lia)). cbn [app].
  eapply (IH (S i) (<[i := d]> os)); [by eapply view_outvec|rewrite length_insert; lia|done| |].
  { intros j ?. rewrite nth_insert_ne by lia. apply Hos. lia. }
  intros os' s' Hv' Hl' Hlo Hmid Hhi. rewrite length_insert in Hl'. apply (HQ os' s'); [done|done|..].
  - intros j ?. rewrite Hlo by lia. by rewrite nth_insert_ne by lia.
  - intros j ?. destruct (decide (j = i)) as [->|]; [|apply Hmid; lia]. rewrite Hlo by lia. by rewrite nth_insert_eq by lia.
  - intros j ?. apply Hhi. lia.
Qed.

Lemma wp_both {A} (m : M ST A) Q1 E1 Q2 E2 s :
  wp m Q1 E1 s -> wp m Q2 E2 s -> wp m (fun a s' => Q1 a s' /\ Q2 a s') (fun e s' => E1 e s' /\ E2 e s') s.
Proof. unfold wp. by destruct (m s) as [[a|e] s']. Qed.


(** What the dispatcher answers on any layout of the vectors. *)
Definition dispatched (iov : tfm_crypto_pack_iovec) (ins : list (list Z)) (outs : list Z) (s : ST)
    (st : psa_status_t) (v : vault CTX LIB) (os : list (list Z)) : Prop :=
  forall iv bs B empty, base (nth 0 iv no_vec) = Local (bytes_of_iov iov) -> len (nth 0 iv no_vec) = sizeof_pack_iovec ->
    length bs = 4%nat -> apart bs outs -> 0 <= B ->
    answers c iv ins bs outs B empty (blank [nth 0 outs 0; nth 1 outs 0; nth 2 outs 0; nth 3 outs 0]) (operations s) (lib s)
      (tfm_crypto_api_dispatcher iv) st v os.

Lemma tail_need n (ins : list (list Z)) : (length ins <= n)%nat ->
  need (filled (S n) (sizeof_pack_iovec :: map zlen ins) - 1) 0 (map zlen ins) = scratch_need (map zlen ins).
Proof.
  intros Hn. set (m := (filled (S n) _ - 1)%nat). assert (Hm : (m <= n)%nat).
  { unfold m. assert (forall k l, (filled k l <= k)%nat) as Hf; [|specialize (Hf (S n) (sizeof_pack_iovec :: map zlen ins)); lia].
    induction k as [|k IH]; intros l; cbn [filled]; [lia|]. destruct (_ =? 0); [specialize (IH l)|]; lia. }
  assert (Hz : forall t, (m <= t)%nat -> nth t (map zlen ins) 0 = 0).
  { intros t Ht. change (nth (S t) (sizeof_pack_iovec :: map zlen ins) 0 = 0). apply (filled_zero (S n)); [cbn; rewrite length_map; lia|].
    unfold m in Ht. lia. }
  rewrite <- (need_all n) by (by rewrite length_map). replace n with (m + (n - m))%nat by lia.
  rewrite need_split. rewrite (need_zero (n - m)); [lia|]. intros t Ht. apply Hz. lia.
Qed.

Lemma filled_need n (outs : list Z) : (length outs <= n)%nat -> need (filled n outs) 0 outs = scratch_need outs.
Proof.
  intros Hn. assert (Hm : (filled n outs <= n)%nat).
  { clear Hn. induction n as [|k IH]; cbn [filled]; [lia|]. destruct (_ =? 0); lia. }
  rewrite <- (need_all n) by done. replace n with (filled n outs + (n - filled n outs))%nat at 2 by lia.
  rewrite need_split. rewrite (need_zero (n - filled n outs)); [lia|]. intros t Ht. apply (filled_zero n); [done|lia].
Qed.

Lemma scratch_need_app a b : scratch_need (a ++ b) = scratch_need a + scratch_need b.
Proof. unfold scratch_need. induction a as [|x a IH]; cbn [app foldr]; [done|]. rewrite IH. lia. Qed.

Section call.
Context (iov : tfm_crypto_pack_iovec) (ins : list (list Z)) (outs : list Z) (s : ST).
Context (st : psa_status_t) (v : vault CTX LIB) (os : list (list Z)).
Context (Hs : settled s) (Hiov : zlen (bytes_of_iov iov) = sizeof_pack_iovec).
Context (Hli : (length ins <= 3)%nat) (Hlo : (length outs <= 4)%nat).
Context (Hinw : Forall (fun d => word (zlen d)) ins) (Houtw : Forall word outs).

Abbreviation NEED := (scratch_need (map zlen ins ++ outs)).
Abbreviation MSG := (Msg PSA_IPC_CALL c (map zlen (bytes_of_iov iov :: ins)) outs).
Context (Hd : NEED <= CRYPTO_IOVEC_BUFFER_SIZE -> dispatched iov ins outs s st v os).

(** The state in which the message arrives. *)
Definition arrived : ST :=
  Crypto (operations s) (scratch_buf s) (alloc_index s) (scratch_owner s) (lib s) (out_vec s)
    (bytes_of_iov iov :: ins) (replicate (length outs) []).

Definition outcome (r : psa_status_t) (s' : ST) : Prop :=
  (CRYPTO_IOVEC_BUFFER_SIZE < NEED -> r = PSA_ERROR_INSUFFICIENT_MEMORY /\ abs s' = abs s) /\
  (NEED <= CRYPTO_IOVEC_BUFFER_SIZE -> r = st /\ abs s' = v /\
     (st = PSA_SUCCESS -> forall j, (j < length outs)%nat -> nth j (outvec s') [] = nth j os [])).

Lemma outcome_refused e s' :
  CRYPTO_IOVEC_BUFFER_SIZE < NEED -> e = PSA_ERROR_INSUFFICIENT_MEMORY -> refused arrived s' -> outcome e s'.
Proof. intros Hn -> (H1 & H2 & _). split; [|lia]. intros _. split; [done|]. unfold abs. by rewrite H1, H2. Qed.

Lemma arrived_ok : settled arrived.
Proof. destruct Hs. by split. Qed.

(** From the vectors in place to the answer. *)
Lemma run_exact iv s3 B :
  begun arrived s3 -> loading arrived outs s3 -> NEED <= CRYPTO_IOVEC_BUFFER_SIZE ->
  base (nth 0 iv no_vec) = Local (bytes_of_iov iov) -> len (nth 0 iv no_vec) = sizeof_pack_iovec ->
  length (out_vec s3) = 4%nat -> 0 <= B -> apart (map base (out_vec s3)) outs ->
  view c iv ins (map base (out_vec s3)) outs B (replicate (length outs) [])
    (blank [nth 0 outs 0; nth 1 outs 0; nth 2 outs 0; nth 3 outs 0]) (operations s) (lib s)
    (Crypto (operations s3) (scratch_buf s3) (alloc_index s3) c (lib s3) (out_vec s3) (invec s3) (outvec s3)) ->
  wp (let* r := try (tfm_crypto_api_dispatcher iv) in
       let* _ := match r with Ok _ => write_outvecs (filled PSA_MAX_IOVEC outs) 0 | Err _ => ret tt end in
       let* _ := tfm_crypto_clear_scratch in
       of_status (status_of r))
     (fun _ => outcome PSA_SUCCESS) outcome
     (Crypto (operations s3) (scratch_buf s3) (alloc_index s3) c (lib s3) (out_vec s3) (invec s3) (outvec s3)).
Proof.
  intros Hb Hl Hn Hbase Hlen0 Hbs HB Hap Hv. set (bs := map base (out_vec s3)) in *.
  assert (Hbs' : length bs = 4%nat) by (unfold bs; by rewrite length_map).
  pose proof arrived_ok as [Ht _ _ _].
  pose proof (zt_index _ (bg_zero _ _ Hb)) as Hi3.
  assert (Hbusy := busy_intro (fun _ _ : LIB => True) c outs arrived s3 Ht Hl).
  apply wp_bind, wp_try. eapply wp_mono; [apply wp_both|..].
  - eapply (dispatcher_ok (fun _ _ : LIB => True) c arrived (alloc_index s3) outs); try done.
  - by apply (Hd Hn iv bs B (replicate (length outs) [])).
  - cbn beta. intros [] s4 [Hb4 (-> & ov & ops' & Hv4 & Hops & Hos)]. cbv iota.
    assert (Hlen : forall j, 0 <= out_length ov j <= zlen (out_bytes ov j)).
    { intros j. destruct (busy_out _ _ _ _ _ _ Hb4 j) as [[L1 _] L2].
      erewrite view_vec in L1, L2 by done. cbn in L1, L2. by rewrite (vw_size _ _ _ _ _ _ _ _ _ _ _ Hv4). }
    apply wp_bind. eapply write_exact; [done|done| |done|by intros; apply nth_empty|].
    { rewrite length_replicate. apply filled_length. }
    intros os' s5 Hv5 Hl5 _ Hmid Hhi. apply wp_bind, clear_scratch_ok; [apply Hv5|]. apply wp_ret.
    split; [intros; lia|]. intros _. split; [done|]. split.
    + unfold abs. cbn [operations lib]. rewrite (vw_operations _ _ _ _ _ _ _ _ _ _ _ Hv5), (vw_lib _ _ _ _ _ _ _ _ _ _ _ Hv5), Hops.
      by destruct v.
    + intros _ j Hj. cbn [outvec]. rewrite (vw_outvec _ _ _ _ _ _ _ _ _ _ _ Hv5). rewrite <- Hos.
      destruct (decide (j < filled PSA_MAX_IOVEC outs)%nat) as [Hf|Hf]; [apply Hmid; lia|]. rewrite Hhi by lia.
      assert (Hz : out_bytes ov j = []); [|by rewrite Hz, take_nil].
      apply nil_length_inv. pose proof (vw_size _ _ _ _ _ _ _ _ _ _ _ Hv5 j) as Hsz.
      rewrite (filled_zero PSA_MAX_IOVEC outs j) in Hsz by (try done; lia). unfold zlen in Hsz. lia.
  - cbn beta. intros e s4 [Hc4 (-> & He & ov & ops' & Hv4 & Hops)]. cbv iota. svc_steps.
    apply clear_scratch_ok; [apply Hv4|]. cbn [status_of]. apply wp_of_status; intros; [done|].
    split; [intros; lia|]. intros _. split; [done|]. split; [|intros; congruence].
    unfold abs. cbn [operations lib]. rewrite (vw_operations _ _ _ _ _ _ _ _ _ _ _ Hv4), (vw_lib _ _ _ _ _ _ _ _ _ _ _ Hv4), Hops.
    by destruct v.
Qed.

Lemma in_count_le : (filled PSA_MAX_IOVEC (map zlen (bytes_of_iov iov :: ins)) - 1 <= 3)%nat.
Proof.
  assert (forall k l, (filled k l <= k)%nat) as Hf.
  { induction k as [|k IH]; intros l; cbn [filled]; [lia|]. destruct (_ =? 0); [specialize (IH l)|]; lia. }
  specialize (Hf PSA_MAX_IOVEC (map zlen (bytes_of_iov iov :: ins))). unfold PSA_MAX_IOVEC in *. lia.
Qed.

Lemma in_count_pos : (1 <= filled PSA_MAX_IOVEC (map zlen (bytes_of_iov iov :: ins)))%nat.
Proof.
  cbn [map]. rewrite Hiov. unfold PSA_MAX_IOVEC. cbn [filled nth].
  destruct (_ =? 0); [|lia]. destruct (_ =? 0); [|lia]. destruct (_ =? 0); [|lia]. cbn. lia.
Qed.

Lemma in_rest t : (filled PSA_MAX_IOVEC (map zlen (bytes_of_iov iov :: ins)) - 1 <= t)%nat -> nth t ins [] = [].
Proof.
  intros Ht. assert (Hz : nth (S t) (map zlen (bytes_of_iov iov :: ins)) 0 = 0).
  { apply (filled_zero PSA_MAX_IOVEC); [cbn; rewrite length_map; unfold PSA_MAX_IOVEC; lia|]. pose proof in_count_pos. lia. }
  cbn [map nth] in Hz. rewrite insz_nth in Hz. apply nil_length_inv. unfold zlen in Hz. lia.
Qed.

Lemma in_need :
  need (filled PSA_MAX_IOVEC (map zlen (bytes_of_iov iov :: ins)) - 1) 0 (map zlen ins) = scratch_need (map zlen ins).
Proof. cbn [map]. rewrite Hiov. by apply (tail_need 3). Qed.

(** The message up to the first vector. *)
Definition first_read : ST :=
  Crypto (operations s) (scratch_buf s) (alloc_index s) (scratch_owner s) (lib s) (replicate PSA_MAX_IOVEC no_vec)
    ([] :: ins) (replicate (length outs) []).

Lemma first_begun : begun arrived first_read /\ loading arrived outs first_read.
Proof.
  destruct Hs as [Ht Hbuf Hidx How]. assert (Hz : zero_tail first_read) by (split; cbn; rewrite ?Hbuf, ?Hidx; done).
  split; [by split|]. split; try done. intros i. destruct (sizes_bound outs Houtw i).
  cbn [first_read out_vec]. do 5 (destruct i as [|i]; [done|]). done.
Qed.

(** All vectors are in place. *)
Lemma in_place (iv : list psa_vec) (s2 s3 : ST) :
  begun arrived s2 -> begun arrived s3 -> scratch_buf s3 = scratch_buf s2 -> 0 <= alloc_index s2 ->
  (forall t, in_holds (alloc_index s2) s2 (nth (S t) iv no_vec) (nth t ins [])) ->
  length (out_vec s3) = 4%nat -> alloc_index s3 = alloc_index s2 + need (filled PSA_MAX_IOVEC outs) 0 outs ->
  (forall t, (t < filled PSA_MAX_IOVEC outs)%nat ->
     nth t (out_vec s3) no_vec = Vec (Scratch (alloc_index s2 + need t 0 outs)) (nth t outs 0)) ->
  (forall t, (filled PSA_MAX_IOVEC outs <= t)%nat -> nth t (out_vec s3) no_vec = no_vec) ->
  apart (map base (out_vec s3)) outs /\
  view c iv ins (map base (out_vec s3)) outs (alloc_index s2) (replicate (length outs) [])
    (blank [nth 0 outs 0; nth 1 outs 0; nth 2 outs 0; nth 3 outs 0]) (operations s) (lib s)
    (Crypto (operations s3) (scratch_buf s3) (alloc_index s3) c (lib s3) (out_vec s3) (invec s3) (outvec s3)).
Proof.
  intros [_ _ _ Hz2] [E1 E2 E3 Hz3] Hbuf HB Hin Hlen Hidx Hlt Hge.
  apply (loaded_view arrived ins outs Houtw iv (Crypto (operations s3) (scratch_buf s3) (alloc_index s3) c (lib s3) (out_vec s3)
    (invec s3) (outvec s3)) (alloc_index s2)) with (n := filled PSA_MAX_IOVEC outs); try done.
  - split; try done. by destruct Hz3; split.
  - cbn [scratch_buf]. rewrite Hbuf. apply Hz2.
  - intros t. destruct (Hin t) as [Hl Hb]. split; [done|]. cbn [scratch_buf]. by rewrite Hbuf.
  - pose proof (filled_length PSA_MAX_IOVEC outs). lia.
  - intros t. by apply filled_zero.
Qed.

Lemma load_exact Q :
  (forall iv s3 B, begun arrived s3 -> loading arrived outs s3 -> NEED <= CRYPTO_IOVEC_BUFFER_SIZE ->
     base (nth 0 iv no_vec) = Local (bytes_of_iov iov) -> len (nth 0 iv no_vec) = sizeof_pack_iovec ->
     length (out_vec s3) = 4%nat -> 0 <= B -> apart (map base (out_vec s3)) outs ->
     view c iv ins (map base (out_vec s3)) outs B (replicate (length outs) [])
       (blank [nth 0 outs 0; nth 1 outs 0; nth 2 outs 0; nth 3 outs 0]) (operations s) (lib s)
       (Crypto (operations s3) (scratch_buf s3) (alloc_index s3) c (lib s3) (out_vec s3) (invec s3) (outvec s3)) ->
     Q iv s3) ->
  wp (tfm_crypto_init_iovecs MSG (<[0%nat := Vec (Local (bytes_of_iov iov)) sizeof_pack_iovec]> (replicate PSA_MAX_IOVEC no_vec))
        (filled PSA_MAX_IOVEC (map zlen (bytes_of_iov iov :: ins))) (filled PSA_MAX_IOVEC outs)) Q outcome first_read.
Proof.
  intros HQ. destruct first_begun as [Hb1 Hl1]. pose proof (words_positive outs Houtw) as Hpos.
  assert (Hnn : 0 <= scratch_need outs) by (rewrite <- (need_all 4) by done; by apply need_nonneg).
  assert (Hneed : NEED = scratch_need (map zlen ins) + scratch_need outs) by apply scratch_need_app.
  assert (Hidx : alloc_index first_read = 0) by apply Hs.
  assert (Hin : forall j, nth (S j) (in_size MSG) 0 = zlen (nth j ins [])) by (intros j; cbn [in_size map nth]; apply insz_nth).
  pose proof in_count_le as Hle. set (n := (filled _ _ - 1)%nat) in *.
  unfold tfm_crypto_init_iovecs. fold n. set (iv0 := <[0%nat := _]> _). apply wp_bind.
  assert (Hiv0 : length iv0 = 4%nat) by done.
  eapply wp_mono; [apply wp_both; [eapply (init_invecs_ok arrived outs MSG n 1 iv0); [done|]|
    eapply (load_in arrived ins MSG Hin Hinw n 0 iv0); [done| | |]]|..].
  - intros j. destruct j as [|j]; [cbn [in_size map nth]; rewrite Hiov; done|]. rewrite Hin. by apply in_word.
  - intros; lia.
  - intros t _. split; [|done]. unfold iv0. do 3 (destruct t as [|t]; [done|]). by rewrite nth_overflow by (cbn; lia).
  - lia.
  - cbn beta. rewrite Nat.add_0_l, Hidx, Z.add_0_l. unfold n at 1. rewrite in_need. fold n.
    intros iv s2 [[Hl2 _] (Hb2 & Hi2 & Hv2 & Ho2 & Hz2 & Hlow & Hhigh)]. apply wp_bind.
    eapply wp_mono; [apply wp_both; [eapply (init_outvecs_ok arrived outs Houtw MSG); [done|done]|
      eapply (load_out arrived outs MSG eq_refl Houtw (alloc_index s2) (filled PSA_MAX_IOVEC outs) 0); [done|apply Hb2|..]]|..].
    + cbn [need]. lia.
    + by rewrite Hv2.
    + pose proof (filled_length PSA_MAX_IOVEC outs). lia.
    + intros; lia.
    + intros t _. rewrite Hv2. cbn [first_read out_vec]. do 5 (destruct t as [|t]; [done|]). done.
    + cbn beta. rewrite Nat.add_0_l.
      intros [] s3 [Hl3 (Hb3 & Hbuf3 & Ho3 & Hi3 & Hlen3 & Hlt & Hge)]. apply wp_ret.
      destruct (in_place iv s2 s3) as [Hap Hv]; try done; [apply Hb2| |].
      { intros t. destruct (decide (t < n)%nat); [by apply Hlow|]. rewrite Hhigh by lia. rewrite in_rest by (fold n; lia). done. }
      apply (HQ iv s3 (alloc_index s2)); try done; [|by rewrite Hz2..|apply Hb2].
      rewrite filled_need in Hi3 by done. pose proof (zt_index _ (bg_zero _ _ Hb3)). lia.
    + cbn beta. rewrite Nat.add_0_l, filled_need by done. intros e s' [_ (E1 & E2 & E3)].
      apply outcome_refused; [lia|done|done].
  - cbn beta. rewrite Hidx, Z.add_0_l. unfold n. rewrite in_need. intros e s' [_ (E1 & E2 & E3)].
    apply outcome_refused; [lia|done|done].
Qed.

(** The whole request. *)
Lemma call_exact : wp (tfm_crypto_call_srv MSG) (fun _ => outcome PSA_SUCCESS) outcome arrived.
Proof.
  unfold tfm_crypto_call_srv. cbn [in_size out_size client_id]. svc_steps.
  2:{ exfalso. pose proof in_count_pos. rename select (negb _ = false) into Hc. apply negb_false_iff, Nat.ltb_lt in Hc. lia. }
  unfold psa_read. svc_steps; cbn [arrived invec nth] in *.
  2:{ exfalso. rewrite Hiov, Z.min_id in *. rewrite <- Hiov, sub_bytes_all, Z.eqb_refl in *. done. }
  replace (sub_bytes 0 (sizeof_pack_iovec `min` zlen (bytes_of_iov iov)) (bytes_of_iov iov)) with (bytes_of_iov iov).
  2:{ rewrite Hiov, Z.min_id, <- Hiov. symmetry. apply sub_bytes_all. }
  match goal with |- wp _ _ _ ?t => replace t with first_read end.
  2:{ unfold first_read. cbn [operations scratch_buf alloc_index scratch_owner lib out_vec invec outvec]. f_equal.
      rewrite Hiov, Z.min_id, Z.sub_diag. done. }
  apply load_exact. intros iv s3 B Hb Hl Hn Hb0 Hl0 Hbs HB Hap Hv. svc_steps. by apply (run_exact iv s3 B).
Qed.
End call.
(** The answer of the service: the status and the sessions afterwards are those
    expected, and so are the outputs, of a request that succeeds. *)
Lemma serve_exact iov ins outs s st v os r outv s' :
  settled s -> zlen (bytes_of_iov iov) = sizeof_pack_iovec -> (length ins <= 3)%nat -> (length outs <= 4)%nat ->
  Forall (fun d => word (zlen d)) ins -> Forall word outs ->
  (scratch_need (map zlen ins ++ outs) <= CRYPTO_IOVEC_BUFFER_SIZE -> dispatched iov ins outs s st v os) ->
  serve c PSA_IPC_CALL (bytes_of_iov iov :: ins) outs s = (r, outv, s') ->
  settled s' /\ length outv = length outs /\ (r <> PSA_SUCCESS -> outv = replicate (length outs) []) /\
  if scratch_need (map zlen ins ++ outs) <=? CRYPTO_IOVEC_BUFFER_SIZE
  then r = st /\ abs s' = v /\ (st = PSA_SUCCESS -> forall j, (j < length outs)%nat -> nth j outv [] = nth j os [])
  else r = PSA_ERROR_INSUFFICIENT_MEMORY /\ abs s' = abs s.
Proof.
  intros Hs Hiov Hli Hlo Hinw Houtw Hd E.
  assert (Hok : served (fun _ _ => True) c outs s s' /\ outv = outvec s' /\ (r <> PSA_SUCCESS -> outv = replicate (length outs) [])).
  { refine (serve_ok (fun _ _ : LIB => True) c outs _ _ _ Houtw PSA_IPC_CALL _ s r outv s' Hs _ E); [done..|].
    constructor; [by rewrite Hiov|]. eapply Forall_impl; [|exact Hinw]. intros d [_ ?]. done. }
  destruct Hok as ([Hs' _ _ Hlen _] & Hv & Hfail). split; [done|]. split; [by rewrite Hv|]. split; [done|].
  unfold serve, tfm_crypto_sfn in E. cbn [msg_type] in E. rewrite Z.eqb_refl in E.
  pose proof (call_exact iov ins outs s st v os Hs Hiov Hli Hlo Hinw Houtw Hd) as Hw. unfold wp, arrived in Hw.
  destruct (tfm_crypto_call_srv _ _) as [[[]|e] s2]; injection E as <- <- <-; destruct Hw as [H1 H2];
    (destruct (Z.leb_spec (scratch_need (map zlen ins ++ outs)) CRYPTO_IOVEC_BUFFER_SIZE); [by apply H2|by apply H1]).
Qed.

(** *** Functions of the API *)

(** [f] does what the specification says of [m]. *)
Definition realizes (f : API) (sizes : list Z) (h : Z) (m : meaning) : Prop :=
  forall s, settled s ->
  exists s', f s = (Ok (fst (spec_call c sizes h m (abs s))), s') /\ abs s' = snd (spec_call c sizes h m (abs s)) /\ settled s'.

(** The handle of the operation of a call. *)
Definition handle_of (m : meaning) : Z :=
  match m with
  | Answer r => a_handle r
  | Single _ _ => 0
  | Setup _ h _ | Use _ h _ _ | Finish _ h _ _ _ | Abort _ h _ => h
  | Clone _ target => target
  end.

(** A call that fails leaves the handle and reports nothing. *)
Lemma spec_failed m v :
  (forall r, m <> Answer r) -> a_status (fst (spec c m v)) <> PSA_SUCCESS ->
  fst (spec c m v) = Ret (a_status (fst (spec c m v))) (handle_of m) [] [].
Proof.
  destruct m as [r|k out|ty h k|ty h k out|ty h k out out2|ty h k|h target]; intros Hm; [by elim (Hm r)|..]; clear Hm; cbn [spec handle_of].
  - unfold spec_single, when_ok. destruct (psa _ _) as [l r]. cbn. by destruct (Z.eqb_spec (r_status r) PSA_SUCCESS).
  - unfold spec_setup. destruct (negb _); [done|]. destruct (free_session _); [|done].
    destruct (psa_op _ _ _) as [[l x] r]. by destruct (_ =? _).
  - unfold spec_use, when_ok. destruct (find_session _ _ _ _) as [[i x]|]; [|done].
    destruct (psa_op _ _ _) as [[l y] r]. cbn. by destruct (Z.eqb_spec (r_status r) PSA_SUCCESS).
  - unfold spec_finish. destruct (find_session _ _ _ _) as [[i x]|]; [|done].
    destruct (psa_op _ _ _) as [[l y] r]. by destruct (_ =? _).
  - unfold spec_abort. destruct (find_session _ _ _ _) as [[i x]|]; [|done].
    destruct (psa_op _ _ _) as [[l y] r]. cbn. by destruct (Z.eqb_spec (r_status r) PSA_SUCCESS).
  - unfold spec_clone. destruct (find_session _ _ _ _) as [[i x]|]; [|done]. destruct (free_session _); [|done].
    destruct (psa_clone _ _ _) as [[l y] r]. by destruct (_ =? _).
Qed.

(** The functions, by how they unpack the answer. *)
Lemma realizes_intro iov ins outs (unpack : psa_status_t -> list (list Z) -> api_ret) os sizes h m :
  (forall r, m <> Answer r) -> handle_of m = h ->
  zlen (bytes_of_iov iov) = sizeof_pack_iovec -> (length ins <= 3)%nat -> (length outs <= 4)%nat ->
  Forall (fun d => word (zlen d)) ins -> Forall word outs -> scratch_need sizes = scratch_need (map zlen ins ++ outs) ->
  (forall st, unpack st (replicate (length outs) []) = Ret st h [] []) ->
  (forall s outv, settled s -> length outv = length outs -> a_status (fst (spec c m (abs s))) = PSA_SUCCESS ->
     (forall j, (j < length outs)%nat -> nth j outv [] = nth j (os (fst (spec c m (abs s)))) []) ->
     unpack PSA_SUCCESS outv = fst (spec c m (abs s))) ->
  (forall s, settled s ->
     dispatched iov ins outs s (a_status (fst (spec c m (abs s)))) (snd (spec c m (abs s))) (os (fst (spec c m (abs s))))) ->
  realizes (let* r := API_DISPATCH c iov ins outs in ret (unpack (fst r) (snd r))) sizes h m.
Proof.
  intros Hm Hh Hiov Hli Hlo Hinw Houtw Hsz Hfail Hok Hd s Hs. unfold bind, API_DISPATCH, ret.
  destruct (serve c PSA_IPC_CALL (bytes_of_iov iov :: ins) outs s) as [[r outv] s'] eqn:E. cbn [fst snd].
  pose proof (serve_exact iov ins outs s _ _ _ r outv s' Hs Hiov Hli Hlo Hinw Houtw (fun _ => Hd s Hs) E) as (Hs' & Hl & He & Hx).
  exists s'. unfold spec_call. rewrite Hsz. destruct (_ <=? _); cbn [fst snd].
  - destruct Hx as (-> & Hv & Ho). split; [|done]. f_equal. f_equal.
    destruct (decide (a_status (fst (spec c m (abs s))) = PSA_SUCCESS)) as [Es|Es].
    + rewrite Es. by apply Hok; [..|apply Ho].
    + rewrite (He Es), Hfail. symmetry. rewrite <- Hh. by apply spec_failed.
  - destruct Hx as [-> Hv]. split; [|done]. by rewrite He, Hfail.
Qed.

Lemma realizes_answer r : realizes (ret r) [] (a_handle r) (Answer r).
Proof. intros s Hs. by exists s. Qed.

(** Which meanings leave the handle, and what they put out. *)
Definition keeps_handle (m : meaning) : bool := match m with Single _ _ | Use _ _ _ _ => true | _ => false end.
Definition outs_of (m : meaning) : (psa_result -> list Z) * (psa_result -> list Z) :=
  match m with
  | Single _ out | Use _ _ _ out => (out, no_bytes)
  | Finish _ _ _ out out2 => (out, out2)
  | _ => (no_bytes, no_bytes)
  end.
Definition is_call (m : meaning) : Prop := match m with Answer _ => False | _ => True end.

Ltac spec_cases :=
  repeat match goal with
  | |- context [psa ?l ?k] => destruct (psa l k) as [? ?]
  | |- context [psa_op ?l ?x ?k] => destruct (psa_op l x k) as [[? ?] ?]
  | |- context [psa_clone ?l ?x ?k] => destruct (psa_clone l x k) as [[? ?] ?]
  | |- context [find_session ?c ?ty ?h ?v] => destruct (find_session c ty h v) as [[? ?]|]
  | |- context [free_session ?l] => let E := fresh "Ef" in destruct (free_session l) eqn:E
  | |- context [if ?b then _ else _] => destruct b
  end.

Lemma spec_keeps m v : is_call m -> keeps_handle m = true -> a_handle (fst (spec c m v)) = handle_of m.
Proof.
  destruct m; cbn [is_call keeps_handle spec handle_of]; intros ? Hk; try done; unfold spec_single, spec_use; by spec_cases.
Qed.

Lemma spec_out m v : is_call m -> fst (outs_of m) = no_bytes -> a_out (fst (spec c m v)) = [].
Proof.
  destruct m; cbn [is_call outs_of fst spec]; intros ? Hk; try done; subst;
    unfold spec_single, spec_use, spec_setup, spec_finish, spec_abort, spec_clone, when_ok, no_bytes; by spec_cases.
Qed.

Lemma spec_out2 m v : is_call m -> snd (outs_of m) = no_bytes -> a_out2 (fst (spec c m v)) = [].
Proof.
  destruct m; cbn [is_call outs_of snd spec]; intros ? Hk; try done; subst;
    unfold spec_single, spec_use, spec_setup, spec_finish, spec_abort, spec_clone, no_bytes; by spec_cases.
Qed.

Lemma free_session_bound (l : list (option (session CTX))) i : free_session l = Some i -> (i < length l)%nat.
Proof.
  revert i. induction l as [|[x|] l IH]; intros i; cbn; [done| |intros [= <-]; lia].
  destruct (free_session l); [|done]. intros [= <-]. specialize (IH _ eq_refl). lia.
Qed.

Lemma spec_word m v :
  is_call m -> word (handle_of m) -> length (v_sessions v) = CRYPTO_CONC_OPER_NUM -> word (a_handle (fst (spec c m v))).
Proof.
  intros Hc Hw Hl. assert (Hf : forall i, free_session (v_sessions v) = Some i -> word (Z.of_nat i + 1)).
  { intros i Hi. apply free_session_bound in Hi. unfold word, CRYPTO_CONC_OPER_NUM in *. lia. }
  destruct m; cbn [is_call handle_of spec] in *; try done;
    unfold spec_single, spec_use, spec_setup, spec_finish, spec_abort, spec_clone; spec_cases; cbn; auto; done.
Qed.

Lemma abs_length s : settled s -> length (v_sessions (abs s)) = CRYPTO_CONC_OPER_NUM.
Proof. intros []. unfold abs, abs_ops. cbn. rewrite length_map. by apply table_length. Qed.

Lemma api_ret_eq r st h o o2 : a_status r = st -> a_handle r = h -> a_out r = o -> a_out2 r = o2 -> Ret st h o o2 = r.
Proof. destruct r; cbn. by intros -> -> -> ->. Qed.

Lemma handle_after_none h : word h -> handle_after h [] = h.
Proof. intros Hh. unfold handle_after. rewrite splice_nil. by apply le_val_le_bytes. Qed.

Lemma handle_after_word h h' : word h' -> handle_after h (le_bytes 4 h') = h'.
Proof. intros Hh. transitivity (le_val (le_bytes 4 h')); [reflexivity|]. by apply le_val_le_bytes. Qed.

(** The fields of the parameters are in the ranges of their types. *)
Record iov_ok (i : tfm_crypto_pack_iovec) : Prop := IovOk {
  io_key : word (key_id i);
  io_alg : word (alg i);
  io_handle : word (op_handle i);
  io_ad : word (ad_length i);
  io_plaintext : word (plaintext_length i);
  io_nonce : length (nonce (aead_in i)) = 16%nat;
  io_nonce_length : word (nonce_length (aead_in i));
  io_function : 0 <= function_id i < 65536;
  io_step : 0 <= step i < 65536;
  io_value : 0 <= value i < 2 ^ 64;
}.

Lemma iov_size i : iov_ok i -> zlen (bytes_of_iov i) = sizeof_pack_iovec.
Proof.
  intros [_ _ _ _ _ Hn _ _ _ _]. unfold bytes_of_iov, zlen. rewrite !length_app, !length_le_bytes, Hn. done.
Qed.

Lemma iov_roundtrip i : iov_ok i -> iov_of_bytes (bytes_of_iov i) = i.
Proof.
  destruct i as [key a h ad pt [n nl] f st v]. intros [H1 H2 H3 H4 H5 Hn H6 H7 H8 H9].
  cbn [key_id alg op_handle ad_length plaintext_length aead_in nonce nonce_length function_id step value] in *.
  do 16 (destruct n as [|? n]; [done|]). destruct n; [|done].
  transitivity (PackIovec (le_val (le_bytes 4 key)) (le_val (le_bytes 4 a)) (le_val (le_bytes 4 h)) (le_val (le_bytes 4 ad))
    (le_val (le_bytes 4 pt)) (AeadIn [z; z0; z1; z2; z3; z4; z5; z6; z7; z8; z9; z10; z11; z12; z13; z14] (le_val (le_bytes 4 nl)))
    (le_val (le_bytes 2 f)) (le_val (le_bytes 2 st)) (le_val (le_bytes 8 v))); [reflexivity|].
  by rewrite !le_val_le_bytes.
Qed.

(** *** The dispatcher *)

(** The layer that a group of functions goes to. *)
Definition layer (group_id : Z) (iv : list psa_vec) (key : tfm_crypto_library_key_id_t) : M ST unit :=
  if group_id =? TFM_CRYPTO_GROUP_ID_KEY_MANAGEMENT then tfm_crypto_key_management_interface iv key
  else if group_id =? TFM_CRYPTO_GROUP_ID_HASH then tfm_crypto_hash_interface iv
  else if group_id =? TFM_CRYPTO_GROUP_ID_MAC then tfm_crypto_mac_interface iv key
  else if group_id =? TFM_CRYPTO_GROUP_ID_CIPHER then tfm_crypto_cipher_interface iv key
  else if group_id =? TFM_CRYPTO_GROUP_ID_AEAD then tfm_crypto_aead_interface iv key
  else if group_id =? TFM_CRYPTO_GROUP_ID_ASYM_SIGN then tfm_crypto_asymmetric_sign_interface iv key
  else if group_id =? TFM_CRYPTO_GROUP_ID_ASYM_ENCRYPT then tfm_crypto_asymmetric_encrypt_interface iv key
  else if group_id =? TFM_CRYPTO_GROUP_ID_KEY_DERIVATION then tfm_crypto_key_derivation_interface iv key
  else if group_id =? TFM_CRYPTO_GROUP_ID_RANDOM then tfm_crypto_random_interface
  else fail PSA_ERROR_NOT_SUPPORTED.

(** The key that the dispatcher makes for a group. *)
Definition key_of (group_id : Z) (key : Z) : tfm_crypto_library_key_id_t :=
  if negb ((group_id =? TFM_CRYPTO_GROUP_ID_HASH) || (group_id =? TFM_CRYPTO_GROUP_ID_RANDOM)) then KeyId c key else KeyId 0 0.

(** The layer of [iov] does [m]. *)
Definition layer_does (iov : tfm_crypto_pack_iovec) (ins : list (list Z)) (outs : list Z) (m : meaning)
    (os : api_ret -> list (list Z)) : Prop :=
  forall ops l iv bs B empty, table_ok ops -> iov_at iv = iov -> length bs = 4%nat -> apart bs outs -> 0 <= B ->
    answers c iv ins bs outs B empty (blank [nth 0 outs 0; nth 1 outs 0; nth 2 outs 0; nth 3 outs 0]) ops l
      (layer (TFM_CRYPTO_GET_GROUP_ID (function_id iov)) iv (key_of (TFM_CRYPTO_GET_GROUP_ID (function_id iov)) (key_id iov)))
      (a_status (fst (spec c m (Vault (abs_ops ops) l)))) (snd (spec c m (Vault (abs_ops ops) l)))
      (os (fst (spec c m (Vault (abs_ops ops) l)))).

Lemma dispatch iov ins outs m os s :
  iov_ok iov -> layer_does iov ins outs m os -> settled s ->
  dispatched iov ins outs s (a_status (fst (spec c m (abs s)))) (snd (spec c m (abs s))) (os (fst (spec c m (abs s)))).
Proof.
  intros Hi Hd Hs iv bs B empty Hb Hl Hbs Hap HB. unfold tfm_crypto_api_dispatcher.
  assert (Hat : iov_at iv = iov) by (unfold iov_at; rewrite Hb; by apply iov_roundtrip).
  assert (Ht : table_ok (operations s)) by apply Hs.
  specialize (Hd (operations s) (lib s) iv bs B empty Ht Hat Hbs Hap HB). rewrite Hat.
  intros s' Hv. apply wp_bind, wp_check; intros Hc; [|by rewrite Hl in Hc]. unfold key_of in Hd. cbv zeta.
  specialize (Hd s' Hv). destruct (negb _); apply wp_bind.
  - unfold tfm_crypto_get_caller_id. svc_steps. rewrite (vw_owner _ _ _ _ _ _ _ _ _ _ _ Hv). exact Hd.
  - apply wp_ret. exact Hd.
Qed.

(** *** Shapes *)
Ltac words := repeat (apply List.Forall_cons; [assumption || done || (unfold word; lia)|]); apply List.Forall_nil.

Section shapes.
Context (iov : tfm_crypto_pack_iovec) (ins : list (list Z)) (sizes : list Z) (h : Z) (m : meaning).
Context (Hm : is_call m) (Hh : handle_of m = h) (Hw : word h) (Hi : iov_ok iov).
Context (Hli : (length ins <= 3)%nat) (Hin : Forall (fun d => word (zlen d)) ins).

Lemma no_answer r : m <> Answer r.
Proof. by intros ->. Qed.

Lemma handle_read s d :
  settled s -> d = le_bytes 4 (a_handle (fst (spec c m (abs s)))) -> a_handle (fst (spec c m (abs s))) = handle_after h d.
Proof.
  intros Hs ->. rewrite handle_after_word; [done|]. apply spec_word; [done|by rewrite Hh|by apply abs_length].
Qed.

Lemma realizes_no_output :
  keeps_handle m = true -> outs_of m = (no_bytes, no_bytes) -> scratch_need sizes = scratch_need (map zlen ins) ->
  layer_does iov ins [] m (fun r => [a_out r]) -> realizes (no_output c iov ins h) sizes h m.
Proof.
  intros Hk Ho Hz Hd. apply (realizes_intro iov ins [] (fun st _ => Ret st h [] []) (fun r => [a_out r])); try done.
  - apply no_answer.
  - by apply iov_size.
  - cbn; lia.
  - by rewrite app_nil_r.
  - intros s outv Hs _ Hst _. apply api_ret_eq; [done|by rewrite spec_keeps|..]; [apply spec_out|apply spec_out2]; by rewrite ?Ho.
  - intros s Hs. by apply (dispatch iov ins [] m (fun r => [a_out r])).
Qed.

Lemma realizes_one_output n :
  keeps_handle m = true -> snd (outs_of m) = no_bytes -> scratch_need sizes = scratch_need (map zlen ins ++ [n]) -> word n ->
  layer_does iov ins [n] m (fun r => [a_out r]) -> realizes (one_output c iov ins h n) sizes h m.
Proof.
  intros Hk Ho Hz Hn Hd.
  apply (realizes_intro iov ins [n] (fun st os => Ret st h (nth 0 os []) []) (fun r => [a_out r])); try done.
  - apply no_answer.
  - by apply iov_size.
  - cbn; lia.
  - words.
  - intros s outv Hs _ Hst Hj. apply api_ret_eq; [done|by rewrite spec_keeps|by rewrite (Hj 0%nat) by (cbn; lia)|by apply spec_out2].
  - intros s Hs. by apply (dispatch iov ins [n] m (fun r => [a_out r])).
Qed.

Lemma realizes_handle_output os :
  outs_of m = (no_bytes, no_bytes) -> scratch_need sizes = scratch_need (map zlen ins ++ [4]) ->
  (forall r, nth 0 (os r) [] = le_bytes 4 (a_handle r)) ->
  layer_does iov ins [4] m os -> realizes (handle_output c iov ins h) sizes h m.
Proof.
  intros Ho Hz Hos Hd.
  apply (realizes_intro iov ins [4] (fun st os => Ret st (handle_after h (nth 0 os [])) [] []) os); try done.
  - apply no_answer.
  - by apply iov_size.
  - cbn; lia.
  - words.
  - intros st. cbn [length replicate nth]. by rewrite handle_after_none.
  - intros s outv Hs _ Hst Hj. apply api_ret_eq; [done| |apply spec_out|apply spec_out2]; rewrite ?Ho; try done.
    apply handle_read; [done|]. rewrite (Hj 0%nat) by (cbn; lia). apply Hos.
  - intros s Hs. by apply (dispatch iov ins [4] m os).
Qed.

Lemma realizes_handle_and_output n :
  snd (outs_of m) = no_bytes -> scratch_need sizes = scratch_need (map zlen ins ++ [4; n]) -> word n ->
  layer_does iov ins [4; n] m (fun r => [le_bytes 4 (a_handle r); a_out r]) -> realizes (handle_and_output c iov ins h n) sizes h m.
Proof.
  intros Ho Hz Hn Hd.
  apply (realizes_intro iov ins [4; n] (fun st os => Ret st (handle_after h (nth 0 os [])) (nth 1 os []) [])
    (fun r => [le_bytes 4 (a_handle r); a_out r])); try done.
  - apply no_answer.
  - by apply iov_size.
  - cbn; lia.
  - words.
  - intros st. cbn [length replicate nth]. by rewrite handle_after_none.
  - intros s outv Hs _ Hst Hj. apply api_ret_eq; [done| |by rewrite (Hj 1%nat) by (cbn; lia)|by apply spec_out2].
    apply handle_read; [done|by apply (Hj 0%nat); cbn; lia].
  - intros s Hs. by apply (dispatch iov ins [4; n] m (fun r => [le_bytes 4 (a_handle r); a_out r])).
Qed.

(** [psa_aead_finish] *)
Lemma realizes_tag t :
  fst (outs_of m) = no_bytes -> scratch_need sizes = scratch_need (map zlen ins ++ [4; t]) -> word t ->
  layer_does iov ins [4; t] m (fun r => [le_bytes 4 (a_handle r); a_out2 r; a_out r]) ->
  realizes (let* r := API_DISPATCH c iov ins [4; t] in
            ret (Ret (fst r) (handle_after h (nth 0 (snd r) [])) [] (nth 1 (snd r) []))) sizes h m.
Proof.
  intros Ho Hz Hn Hd.
  apply (realizes_intro iov ins [4; t] (fun st os => Ret st (handle_after h (nth 0 os [])) [] (nth 1 os []))
    (fun r => [le_bytes 4 (a_handle r); a_out2 r; a_out r])); try done.
  - apply no_answer.
  - by apply iov_size.
  - cbn; lia.
  - words.
  - intros st. cbn [length replicate nth]. by rewrite handle_after_none.
  - intros s outv Hs _ Hst Hj. apply api_ret_eq; [done| |by apply spec_out|by rewrite (Hj 1%nat) by (cbn; lia)].
    apply handle_read; [done|by apply (Hj 0%nat); cbn; lia].
  - intros s Hs. by apply (dispatch iov ins [4; t] m (fun r => [le_bytes 4 (a_handle r); a_out2 r; a_out r])).
Qed.

Lemma realizes_tag_and_output t n :
  scratch_need sizes = scratch_need (map zlen ins ++ [4; t; n]) -> word t -> word n ->
  layer_does iov ins [4; t; n] m (fun r => [le_bytes 4 (a_handle r); a_out2 r; a_out r]) ->
  realizes (let* r := API_DISPATCH c iov ins [4; t; n] in
            ret (Ret (fst r) (handle_after h (nth 0 (snd r) [])) (nth 2 (snd r) []) (nth 1 (snd r) []))) sizes h m.
Proof.
  intros Hz Ht Hn Hd.
  apply (realizes_intro iov ins [4; t; n] (fun st os => Ret st (handle_after h (nth 0 os [])) (nth 2 os []) (nth 1 os []))
    (fun r => [le_bytes 4 (a_handle r); a_out2 r; a_out r])); try done.
  - apply no_answer.
  - by apply iov_size.
  - cbn; lia.
  - words.
  - intros st. cbn [length replicate nth]. by rewrite handle_after_none.
  - intros s outv Hs _ Hst Hj. apply api_ret_eq; [done| |by rewrite (Hj 2%nat) by (cbn; lia)|by rewrite (Hj 1%nat) by (cbn; lia)].
    apply handle_read; [done|by apply (Hj 0%nat); cbn; lia].
  - intros s Hs. by apply (dispatch iov ins [4; t; n] m (fun r => [le_bytes 4 (a_handle r); a_out2 r; a_out r])).
Qed.
End shapes.

(** *** The catalogue *)

(** Deciding the function numbers. *)
Ltac decide_sids :=
  repeat match goal with
  | |- context [?a =? ?b] =>
      let v := eval vm_compute in (a =? b) in
      lazymatch v with true => change (a =? b) with true | false => change (a =? b) with false end
  end;
  cbn [negb orb andb]; cbv iota.

Ltac enter :=
  intros ops l vecs bs B empty Ht Hat Hbs Hap HB; unfold layer, key_of;
  cbn [function_id key_id iov_init iov_step iov_aead];
  repeat match goal with
  | |- context [TFM_CRYPTO_GET_GROUP_ID ?x] =>
      let v := eval vm_compute in (TFM_CRYPTO_GET_GROUP_ID x) in change (TFM_CRYPTO_GET_GROUP_ID x) with v
  end;
  decide_sids;
  unfold tfm_crypto_key_management_interface, tfm_crypto_hash_interface, tfm_crypto_mac_interface, tfm_crypto_cipher_interface,
    tfm_crypto_aead_interface, tfm_crypto_asymmetric_sign_interface, tfm_crypto_asymmetric_encrypt_interface,
    tfm_crypto_key_derivation_interface;
  cbv zeta; try rewrite Hat; cbn [function_id iov_init iov_step iov_aead]; decide_sids.

Lemma single_as iv ins bs szs B os ov ops l m k out :
  answers c iv ins bs szs B os ov ops l m (r_status (snd (psa l k))) (Vault (abs_ops ops) (fst (psa l k))) [out (snd (psa l k))] ->
  answers c iv ins bs szs B os ov ops l m (a_status (fst (spec c (Single k out) (Vault (abs_ops ops) l))))
    (snd (spec c (Single k out) (Vault (abs_ops ops) l))) [a_out (fst (spec c (Single k out) (Vault (abs_ops ops) l)))].
Proof.
  cbn [spec]. unfold spec_single, when_ok. cbn [v_lib v_sessions]. destruct (psa l k) as [l' r]. cbn [fst snd a_status a_out].
  apply answers_outs. intros ->. done.
Qed.

Ltac inputs := repeat first [apply answers_in_data | apply answers_out_len; [assumption|]].
Ltac positive := solve [unfold word in *; lia].

Ltac iov_ranges :=
  split; cbn [key_id alg op_handle ad_length plaintext_length aead_in nonce nonce_length function_id step value iov_init iov_step iov_aead];
  first [assumption | done | positive].

Ltac do_single :=
  apply single_as; try apply answers_ret_bind; try (apply answers_in_attributes; [assumption..|]);
  try (lazymatch goal with |- answers _ _ _ _ _ _ _ _ _ _ (bind (in_data _ _) _) _ _ _ => inputs | |- answers _ _ _ _ _ _ _ _ _ _ (bind (out_len _) _) _ _ _ => inputs end);
  lazymatch goal with
  | |- answers _ _ _ _ _ _ _ _ _ _ (call_with_output _) _ _ _ => apply single_output; [assumption..|positive]
  | |- answers _ _ _ _ _ _ _ _ _ _ (call_without_output _) _ _ _ => apply single_plain; by intros [|[|]]
  | |- answers _ _ _ _ _ _ _ _ _ _ tfm_crypto_random_interface _ _ _ => apply single_random; [assumption..|positive]
  | |- _ => first [ apply single_key; assumption | apply single_key_late; assumption
        | apply single_attributes; assumption | apply single_raw; [assumption..|positive] ]
  end.

Ltac with_iov tac :=
  cbn [spec];
  lazymatch goal with |- context [open_operation ?ty _ _ ?iov] => tac ty iov end.

Ltac do_use :=
  with_iov ltac:(fun ty' iov' =>
    lazymatch goal with |- answers ?c' ?iv' ?ins' ?bs' ?szs' ?B' ?os' (blank ?ns') _ _ _ _ _ _ =>
      eapply (kind_use c' iv' ins' bs' szs' B' os') with (ty := ty') (iov := iov') (ns := ns') end); try assumption;
  repeat first [apply does_in_data | apply does_out_len; [assumption|]];
  first [ apply does_plain; assumption | apply does_output; [assumption..|positive] | apply does_area; [assumption..|positive]
        | apply does_value; assumption | apply does_key; assumption ].

Ltac do_setup := with_iov ltac:(fun ty' iov' => apply (kind_setup) with (ty := ty') (iov := iov'); assumption).
Ltac do_abort :=
  with_iov ltac:(fun ty' iov' => first [apply kind_abort with (ty := ty') (iov := iov'); assumption
    | apply kind_abort_late with (ty := ty') (iov := iov'); assumption]).

Ltac do_finish g' :=
  with_iov ltac:(fun ty' iov' =>
    lazymatch goal with |- answers ?c' ?iv' ?ins' ?bs' ?szs' ?B' ?os' (blank (_ :: ?ns')) _ _ _ _ _ _ =>
      eapply (kind_finish c' iv' ins' bs' szs' B' os') with (ty := ty') (iov := iov') (ns := ns') (g := g') end); try assumption;
  repeat first [apply ends_in_data | apply ends_out_len; [assumption|]];
  lazymatch goal with
  | |- ends_operation _ _ _ _ _ _ _ _ _ _ (fun _ _ => end_operation _ _ _) => apply ends_plain; assumption
  | |- ends_operation _ _ _ _ _ _ _ _ _ (fun r => [no_bytes r]) _ => apply ends_nothing; assumption
  | |- ends_operation _ _ _ _ _ _ _ _ _ (fun r => [_ r]) _ => apply ends_output; [assumption..|positive]
  | |- ends_operation _ _ _ _ _ _ _ _ _ (fun r => [_ r; no_bytes r]) _ => apply ends_tag; [assumption..|positive]
  | |- _ => apply ends_aead; [assumption..|positive|positive]
  end.

Ltac side :=
  lazymatch goal with
  | |- layer_does _ _ _ _ _ => idtac
  | |- iov_ok _ => iov_ranges
  | |- Forall _ _ => words
  | |- (_ <= _)%nat => cbn; lia
  | |- word _ => first [assumption | done | positive]
  | |- scratch_need _ = _ => first [done | cbn; lia]
  | |- _ => done
  end.

Ltac shape :=
  lazymatch goal with
  | |- realizes (no_output _ _ _ _) _ _ _ => apply realizes_no_output
  | |- realizes (one_output _ _ _ _ _) _ _ _ => apply realizes_one_output
  | |- realizes (handle_output _ _ _ _) _ _ (Finish _ _ _ _ _) =>
      apply realizes_handle_output with (os := fun r => [le_bytes 4 (a_handle r); a_out r])
  | |- realizes (handle_output _ _ _ _) _ _ _ => apply realizes_handle_output with (os := fun r => [le_bytes 4 (a_handle r)])
  | |- realizes (handle_and_output _ _ _ _ _) _ _ _ => apply realizes_handle_and_output
  | |- realizes (bind (API_DISPATCH _ _ _ [_; _]) _) _ _ _ => apply realizes_tag
  | |- realizes (bind (API_DISPATCH _ _ _ [_; _; _]) _) _ _ _ => apply realizes_tag_and_output
  end; side.

Ltac kind :=
  lazymatch goal with
  | |- layer_does _ _ _ (Single _ _) _ => enter; do_single
  | |- layer_does _ _ _ (Setup _ _ _) _ => enter; do_setup
  | |- layer_does _ _ _ (Use _ _ _ _) _ => enter; do_use
  | |- layer_does _ _ _ (Abort _ _ _) _ => enter; do_abort
  | |- layer_does _ _ _ (Clone _ _) _ => enter; cbn [spec]; apply kind_clone; [assumption..|done]
  | |- layer_does _ _ _ (Finish _ _ _ _ _) (fun r => [_; _]) => enter; do_finish (fun a b : list Z => [a])
  | |- layer_does _ _ _ (Finish _ _ _ _ _) (fun r => [_; _; _]) => enter; do_finish (fun a b : list Z => [b; a])
  end.

Ltac head f := lazymatch f with ?g _ => head g | _ => f end.
Ltac api := lazymatch goal with |- realizes ?f _ _ _ => let g := head f in unfold g end.
Ltac catalogue := api; shape; kind.

(** An input that may be a null pointer. *)
Lemma optional_input b : null_with_length b = false -> buffer_word b -> b = Null 0 \/ exists d, b = Data d /\ word (zlen d).
Proof.
  destruct b as [d|n]; unfold null_with_length; cbn [is_NULL length_of andb]; [by right; exists d|].
  intros Hn _. left. f_equal. lia.
Qed.

Ltac optional :=
  match goal with
  | Hn : null_with_length ?b = false, Hb : buffer_word ?b |- _ =>
      destruct (optional_input b Hn Hb) as [->|(? & -> & ?)]; clear Hn Hb
  end.

(** The nonce fits its array. *)
Lemma pack_nonce_ok n : length_of n <= 16 -> 0 <= length_of n ->
  length (nonce (pack_nonce n)) = 16%nat /\ word (nonce_length (pack_nonce n)).
Proof.
  destruct n as [d|m]; cbn [length_of pack_nonce nonce nonce_length]; intros H1 H2; [|by unfold word; split].
  split; [|unfold word; lia]. pose proof (zlen_splice 0 d (fill 16 0)) as Hz. change (zlen (fill 16 0)) with 16 in Hz.
  unfold zlen in *. lia.
Qed.

(** The guards of the client library. *)
Ltac guards :=
  cbn [room_null room_size];
  repeat match goal with
  | H : null_with_length _ = true |- _ => rewrite H; clear H
  | H : ?n <> 0 |- context [?n =? 0] => rewrite (proj2 (Z.eqb_neq n 0) H)
  | H : length_of ?n <= 16 |- context [length_of ?n >? TFM_CRYPTO_MAX_NONCE_LENGTH] =>
      replace (length_of n >? TFM_CRYPTO_MAX_NONCE_LENGTH) with false by (unfold TFM_CRYPTO_MAX_NONCE_LENGTH; lia)
  end;
  unfold null_with_length, CryptoClient.optional;
  cbn [is_NULL length_of data_of room_null room_size andb orb negb Z.eqb].

Ltac guarded :=
  repeat match goal with b : bool |- _ => destruct b end;
  try match goal with H : length_of ?n <= 16, H' : 0 <= length_of ?n |- _ => destruct (pack_nonce_ok n H H') end;
  try optional; api; guards; lazymatch goal with |- realizes (ret _) _ _ _ => exact (realizes_answer _) | _ => shape; kind end.

Lemma means_realizes f sizes h m : means c f sizes h m -> realizes f sizes h m.
Proof.
  pose proof client_attributes_size.
  intros Hm. destruct Hm.
  all: try solve [catalogue].
  all: try exact (realizes_answer _).
  all: try solve [guarded].
  - destruct H2 as [E|E]; api; [by rewrite E; exact (realizes_answer _)|]. destruct (null_with_length ad); [exact (realizes_answer _)|].
    replace (_ >? _) with true by (unfold TFM_CRYPTO_MAX_NONCE_LENGTH; lia). exact (realizes_answer _).
  - destruct H2 as [E|E]; api; [by rewrite E; exact (realizes_answer _)|]. destruct (null_with_length ad); [exact (realizes_answer _)|].
    replace (_ >? _) with true by (unfold TFM_CRYPTO_MAX_NONCE_LENGTH; lia). exact (realizes_answer _).
  - rename select (word n) into Hn.
    replace (KeyDerivationSetCapacity n)
      with (KeyDerivationSetCapacity (capacity (iov_step TFM_CRYPTO_KEY_DERIVATION_SET_CAPACITY_SID 0 h 0 n)))
      by (f_equal; by apply u32_id). catalogue.
Qed.

(** The length of a nonce is not compared with the array that holds it: for any
    value of [nonce_length] the library is told to read that much. *)
Lemma aead_nonce_length_unchecked iov plaintext ad n s :
  settled s -> iov_ok iov -> function_id iov = TFM_CRYPTO_AEAD_ENCRYPT_SID ->
  word (zlen plaintext) -> word (zlen ad) -> word n -> scratch_need [zlen plaintext; zlen ad; n] <= CRYPTO_IOVEC_BUFFER_SIZE ->
  fst (fst (serve c PSA_IPC_CALL [bytes_of_iov iov; plaintext; ad] [n] s)) =
  r_status (snd (psa (lib s) (AeadEncrypt (KeyId c (key_id iov)) (alg iov) (nonce (aead_in iov)) (nonce_length (aead_in iov))
                                ad plaintext n))).
Proof.
  intros Hs Hi Hf Hp Ha Hn Hfit.
  destruct (serve _ _ _ _ _) as [[r outv] s'] eqn:E.
  set (m := Single (AeadEncrypt (KeyId c (key_id iov)) (alg iov) (nonce (aead_in iov)) (nonce_length (aead_in iov)) ad plaintext n)
              (bytes_out n)).
  assert (Hd : layer_does iov [plaintext; ad] [n] m (fun r => [a_out r])).
  { intros ops l iv bs B empty Ht Hat Hbs Hap HB. rewrite Hf.
    change (layer (TFM_CRYPTO_GET_GROUP_ID TFM_CRYPTO_AEAD_ENCRYPT_SID)) with (tfm_crypto_aead_interface (H := H)).
    unfold tfm_crypto_aead_interface. cbv zeta. rewrite Hat, Hf, Z.eqb_refl. apply single_as.
    apply answers_in_data, answers_out_len; [done|]. apply answers_in_data. apply single_output; [done..|apply Hn]. }
  pose proof (serve_exact iov [plaintext; ad] [n] s _ _ _ r outv s' Hs (iov_size iov Hi) ltac:(cbn; lia) ltac:(cbn; lia) ltac:(words) ltac:(words)
    (fun _ => dispatch iov [plaintext; ad] [n] m (fun r => [a_out r]) s Hi Hd Hs) E) as (_ & _ & _ & Hx).
  cbn [map app] in Hx. rewrite (proj2 (Z.leb_le _ _) Hfit) in Hx. destruct Hx as (-> & _ & _).
  cbn [fst m spec]. unfold spec_single. cbn [abs v_lib]. by destruct (psa _ _).
Qed.
(** *** Start-up *)

(** The scratch memory is zero when the program starts. *)
Record at_reset (s : ST) : Prop := AtReset {
  reset_buf : scratch_buf s = fill CRYPTO_IOVEC_BUFFER_SIZE 0;
  reset_index : alloc_index s = 0;
  reset_owner : scratch_owner s = 0;
}.

Lemma init_settled s s' : at_reset s -> tfm_crypto_init s = (Ok tt, s') -> settled s' /\ v_sessions (abs s') = replicate CRYPTO_CONC_OPER_NUM None.
Proof.
  intros [Hb Hi Ho] E.
  assert (Hw : wp tfm_crypto_init (fun _ s' => settled s' /\ v_sessions (abs s') = replicate CRYPTO_CONC_OPER_NUM None) (fun _ _ => True) s).
  { unfold tfm_crypto_init, tfm_crypto_init_alloc, tfm_crypto_engine_init. svc_steps.
    destruct (tfm_plat_crypto_provision_entropy_seed _) as [l err]. svc_steps; [|done].
    destruct (psa_crypto_init l) as [l2 st]. svc_steps; [|done].
    split; [|reflexivity]. split; cbn; [|done..]. split; cbn; [done|]. unfold CRYPTO_CONC_OPER_NUM. cbn. repeat (constructor; [by right|]). constructor. }
  unfold wp in Hw. by rewrite E in Hw.
Qed.
End claims.

(** ** Calls of any clients *)
Section runs.
Context {CTX LIB : Type} `{PsaLaws CTX LIB}.

Lemma words_below (ins : list (list Z)) : Forall (fun d => word (zlen d)) ins -> Forall (fun d => zlen d < 4294967296) ins.
Proof. intros Hin. eapply Forall_impl; [|exact Hin]. by intros d [_ ?]. Qed.

(** A call: the client, the function with its arguments, and its meaning. *)
Record call : Type := Call {
  c_client : Z;
  c_function : M (crypto_st CTX LIB) api_ret;
  c_sizes : list Z;
  c_handle : Z;
  c_meaning : meaning;
}.

Definition call_ok (k : call) : Prop := means (c_client k) (c_function k) (c_sizes k) (c_handle k) (c_meaning k).

Fixpoint run_calls (ks : list call) (s : crypto_st CTX LIB) : list (res api_ret) * crypto_st CTX LIB :=
  match ks with
  | [] => ([], s)
  | k :: ks =>
      let '(r, s) := c_function k s in
      let '(rs, s) := run_calls ks s in
      (r :: rs, s)
  end.

Fixpoint run_spec (ks : list call) (v : vault CTX LIB) : list api_ret * vault CTX LIB :=
  match ks with
  | [] => ([], v)
  | k :: ks =>
      let '(r, v) := spec_call (c_client k) (c_sizes k) (c_handle k) (c_meaning k) v in
      let '(rs, v) := run_spec ks v in
      (r :: rs, v)
  end.

(** C8: the crypto service refines its specification.  However the clients of
    the service call the functions of the PSA Crypto API, one after the other
    and with any arguments of their types, every call returns the status, the
    handle and the outputs of the specification, in which a handle names a
    session with its owner, type and library context, a request takes the
    scratch memory its buffers need or is refused, and nothing else is shared;
    the sessions and the library go through the same states. *)
Theorem crypto_refines_spec ks s :
  settled s -> Forall call_ok ks ->
  fst (run_calls ks s) = map Ok (fst (run_spec ks (abs s))) /\
  abs (snd (run_calls ks s)) = snd (run_spec ks (abs s)) /\ settled (snd (run_calls ks s)).
Proof.
  intros Hs Hks. revert s Hs. induction Hks as [|k ks Hk _ IH]; intros s Hs; [done|]. cbn [run_calls run_spec].
  destruct (means_realizes _ _ _ _ _ Hk s Hs) as (s1 & -> & Ha & Hs1).
  destruct (spec_call _ _ _ _ _) as [r v]. cbn [fst snd] in *. subst v. destruct (IH s1 Hs1) as (H1 & H2 & H3).
  destruct (run_calls ks s1) as [rs s2], (run_spec ks (abs s1)) as [rs' v']. cbn [fst snd map] in *. by subst.
Qed.

(** C13: a client reaches nothing of the other clients.  Whatever message a
    client sends -- any bytes as parameters, vectors of any number and size,
    the handles of others among them --, the operations of the other clients
    are afterwards the ones they were, with owner, type and context; and the
    library is only called with keys that the service itself marks as the
    sender's, so any relation that such calls keep holds between the library
    before and after. *)
Theorem crypto_client_isolation (R : LIB -> LIB -> Prop) `{!PreOrder R} c ty ins sizes s st outs s' :
  (forall l k, Forall (eq c) (call_owners k) -> R l (fst (psa l k))) ->
  (forall l x k, Forall (eq c) (op_owners k) -> R l (fst (fst (psa_op l x k)))) ->
  (forall l x y, R l (fst (fst (psa_clone l x y)))) ->
  settled s -> Forall word sizes -> Forall (fun d => word (zlen d)) ins ->
  serve c ty ins sizes s = (st, outs, s') ->
  others_kept c (operations s) (operations s') /\ R (lib s) (lib s').
Proof.
  intros R1 R2 R3 Hs Hsz Hin E.
  destruct (serve_ok R c sizes R1 R2 R3 Hsz ty ins s st outs s' Hs (words_below _ Hin) E) as [[] _]. done.
Qed.

(** C37: nothing of a request stays behind.  After any message the service is
    settled again: the scratch memory, which held the inputs and outputs, is
    zero and free, no client is recorded as its owner, and every operation that
    is not in use has a cleared context.  What the client gets back fits the
    vectors that it gave, and a request that fails writes nothing at all. *)
Theorem crypto_leaves_nothing c ty ins sizes s st outs s' :
  settled s -> Forall word sizes -> Forall (fun d => word (zlen d)) ins ->
  serve c ty ins sizes s = (st, outs, s') ->
  settled s' /\ length outs = length sizes /\ (forall j, zlen (nth j outs []) <= nth j sizes 0) /\
  (st <> PSA_SUCCESS -> outs = replicate (length sizes) []).
Proof.
  intros Hs Hsz Hin E.
  destruct (serve_ok (fun _ _ : LIB => True) c sizes (fun _ _ _ => I) (fun _ _ _ _ => I) (fun _ _ _ => I) Hsz ty ins s st outs s' Hs (words_below _ Hin) E)
    as ([] & -> & Hf). done.
Qed.

End runs.

(** ** A small library

    Keys are kept with their owner and number; hashes are sums of bytes. *)
Module Demo.
Definition store : Type := list (Z * Z * list Z).
Definition context : Type := option (list Z).

Definition attributes (owner : Z) : psa_key_attributes_t := Attr (fill 8 1) owner.
Definition answer (st : psa_status_t) (d : list Z) : psa_result :=
  Result st d (zlen d) [] 0 (KeyId 0 0) (attributes 0) 0.
Definition fit (d : list Z) (n : Z) : psa_result :=
  if zlen d <=? n then answer PSA_SUCCESS d else answer PSA_ERROR_BUFFER_TOO_SMALL [].

Definition is_key (key : tfm_crypto_library_key_id_t) (e : Z * Z * list Z) : bool :=
  (fst (fst e) =? key_owner key) && (snd (fst e) =? key_number key).
Definition digest (d : list Z) : list Z := le_bytes 4 (foldr Z.add 0 d).

Definition library (l : store) (k : psa_call) : store * psa_result :=
  match k with
  | ImportKey a d =>
      ((attr_owner a, zlen l + 1, d) :: l,
       Result PSA_SUCCESS [] 0 [] 0 (KeyId (attr_owner a) (zlen l + 1)) (attributes 0) 0)
  | ExportKey key n =>
      (l, match List.find (is_key key) l with Some (_, d) => fit d n | None => answer PSA_ERROR_INVALID_HANDLE [] end)
  | DestroyKey key => (List.filter (fun e => negb (is_key key e)) l, answer PSA_SUCCESS [])
  | HashCompute _ d n => (l, fit (digest d) n)
  | AeadEncrypt _ _ nonce n _ d size => (l, if n >? zlen nonce then answer PSA_ERROR_CORRUPTION_DETECTED [] else fit d size)
  | _ => (l, answer PSA_ERROR_NOT_SUPPORTED [])
  end.

Definition hashing (l : store) (x : context) (k : op_call) : store * context * psa_result :=
  match k, x with
  | HashSetup _, None => (l, Some [], answer PSA_SUCCESS [])
  | HashUpdate d, Some a => (l, Some (a ++ d), answer PSA_SUCCESS [])
  | HashFinish n, Some a => (l, x, fit (digest a) n)
  | HashAbort, _ => (l, None, answer PSA_SUCCESS [])
  | _, _ => (l, x, answer PSA_ERROR_BAD_STATE [])
  end.

#[export] Instance demo_library : PsaCrypto context store := {
  ctx_zero := None;
  sizeof_client_attributes := 8;
  psa := library;
  psa_op := hashing;
  psa_clone l x y := (l, x, PSA_SUCCESS);
  psa_crypto_init l := (l, PSA_SUCCESS);
  tfm_plat_crypto_provision_entropy_seed l := (l, 0);
}.

Lemma fit_laws d n : r_status (fit d n) = PSA_SUCCESS -> 0 <= r_len (fit d n) <= n.
Proof. unfold fit. destruct (Z.leb_spec (zlen d) n); cbn; [|done]. pose proof (zlen_nonneg d). lia. Qed.

Lemma fit_len2 d n : r_len2 (fit d n) = 0.
Proof. unfold fit. by destruct (_ <=? _). Qed.

#[export] Instance demo_laws : PsaLaws context store.
Proof.
  split; [done| | |done].
  - intros l k. destruct k; cbn; try done; try apply fit_laws.
    + destruct (_ >? _); [done|apply fit_laws].
    + destruct (List.find _ _) as [[? ?]|]; [apply fit_laws|done].
  - intros l x k. destruct k, x; cbn; try done. intros Hs. rewrite fit_len2. split; [by apply fit_laws|done].
Qed.

(** The keys of the clients other than [c]. *)
Definition keys_of_others (c : Z) (l : store) : store := List.filter (fun e => negb (fst (fst e) =? c)) l.
Definition others_same (c : Z) (l l' : store) : Prop := keys_of_others c l = keys_of_others c l'.
#[export] Instance others_same_preorder c : PreOrder (others_same c).
Proof. split; [done|]. intros a b d H1 H2. by transitivity (keys_of_others c b). Qed.

Lemma library_keeps_others c l k : Forall (eq c) (call_owners k) -> others_same c l (fst (library l k)).
Proof.
  unfold others_same. destruct k; cbn [library fst call_owners]; try done; intros Hk.
  - unfold keys_of_others. cbn. apply Forall_cons_1 in Hk as [<- _]. by rewrite Z.eqb_refl.
  - apply Forall_cons_1 in Hk as [Hk _]. unfold keys_of_others. induction l as [|e l IH]; [done|]. cbn.
    destruct (is_key key e) eqn:E; cbn; [|destruct (_ =? c); cbn; by rewrite IH].
    unfold is_key in E. apply andb_true_iff in E as [E _]. rewrite <- Hk in E. rewrite E. cbn. exact IH.
Qed.

Lemma hashing_keeps l x k : fst (fst (hashing l x k)) = l.
Proof. by destruct k, x. Qed.

(** The service after start-up. *)
Definition initial : crypto_st context store :=
  Crypto (replicate CRYPTO_CONC_OPER_NUM no_operation) (fill CRYPTO_IOVEC_BUFFER_SIZE 0) 0 0 [] [] [] [].

Lemma initial_settled : settled initial.
Proof.
  split; [split|exact eq_refl..]; [exact eq_refl|]. cbn [initial operations]. apply Forall_replicate. by right.
Qed.

(** Client 5 imports a key and hashes in two steps, and client 6 tries to use
    the key and the operation; then client 5 finishes. *)
Definition session_calls : list (call (CTX := context) (LIB := store)) := [
  Call 5 (psa_import_key 5 (fill 8 1) [1; 2; 3]) [8; 3; 4] 0 (Single (ImportKey (Attr (fill 8 1) 5) [1; 2; 3]) key_out);
  Call 5 (psa_hash_setup 5 0 9) [4] 0 (Setup TFM_CRYPTO_HASH_OPERATION 0 (HashSetup 9));
  Call 5 (psa_hash_update 5 1 [10; 20]) [2] 1 (Use TFM_CRYPTO_HASH_OPERATION 1 (HashUpdate [10; 20]) no_bytes);
  Call 6 (psa_export_key 6 1 16) [16] 0 (Single (ExportKey (KeyId 6 1) 16) (bytes_out 16));
  Call 6 (psa_hash_update 6 1 [30]) [1] 1 (Use TFM_CRYPTO_HASH_OPERATION 1 (HashUpdate [30]) no_bytes);
  Call 5 (psa_export_key 5 1 16) [16] 0 (Single (ExportKey (KeyId 5 1) 16) (bytes_out 16));
  Call 5 (psa_hash_finish 5 1 6000) [4; 6000] 1 (Finish TFM_CRYPTO_HASH_OPERATION 1 (HashFinish 6000) (bytes_out 6000) no_bytes);
  Call 5 (psa_hash_finish 5 1 32) [4; 32] 1 (Finish TFM_CRYPTO_HASH_OPERATION 1 (HashFinish 32) (bytes_out 32) no_bytes)
].

Lemma session_calls_ok : Forall call_ok session_calls.
Proof.
  unfold session_calls. repeat (apply List.Forall_cons); [..|apply List.Forall_nil]; unfold call_ok; cbn [c_client c_function c_sizes c_handle c_meaning].
  - apply (means_import_key 5 (fill 8 1) [1; 2; 3]); [exact eq_refl|unfold word, zlen; cbn; lia].
  - apply means_hash_setup; unfold word; lia.
  - apply (means_hash_update 5 1 [10; 20]); unfold word, zlen; cbn; lia.
  - apply means_export_key; unfold word; lia.
  - apply (means_hash_update 6 1 [30]); unfold word, zlen; cbn; lia.
  - apply means_export_key; unfold word; lia.
  - apply means_hash_finish; unfold word; lia.
  - apply means_hash_finish; unfold word; lia.
Qed.

(** C8: a session of two clients. *)
Lemma crypto_refines_spec_witness :
  fst (run_calls session_calls initial) = map Ok [
    Ret PSA_SUCCESS 0 [1; 0; 0; 0] []; Ret PSA_SUCCESS 1 [] []; Ret PSA_SUCCESS 1 [] [];
    Ret PSA_ERROR_INVALID_HANDLE 0 [] []; Ret PSA_ERROR_BAD_STATE 1 [] []; Ret PSA_SUCCESS 0 [1; 2; 3] [];
    Ret PSA_ERROR_INSUFFICIENT_MEMORY 1 [] []; Ret PSA_SUCCESS 0 [30; 0; 0; 0] [] ] /\
  settled (snd (run_calls session_calls initial)).
Proof.
  destruct (crypto_refines_spec session_calls initial initial_settled session_calls_ok) as (H1 & _ & H3).
  split; [|exact H3]. rewrite H1. vm_compute. reflexivity.
Defined.

(** Client 5 has a key and an operation. *)
Definition in_session : crypto_st context store :=
  Crypto (Operation TFM_CRYPTO_IN_USE 5 TFM_CRYPTO_HASH_OPERATION (Some [10; 20]) ::
          replicate (CRYPTO_CONC_OPER_NUM - 1) no_operation)
    (fill CRYPTO_IOVEC_BUFFER_SIZE 0) 0 0 [(5, 1, [1; 2; 3])] [] [] [].

Lemma in_session_settled : settled in_session.
Proof.
  split; [split|exact eq_refl..]; [exact eq_refl|]. cbn [in_session operations].
  apply List.Forall_cons; [by left|]. apply Forall_replicate. by right.
Qed.

Lemma triple_eta {A B C : Type} (r : A * B * C) : r = (fst (fst r), snd (fst r), snd r).
Proof. by destruct r as [[]]. Qed.

(** Client 6 asks to destroy key 1 and to abort operation 1. *)
Definition destroy_request : list Z := bytes_of_iov (iov_init TFM_CRYPTO_DESTROY_KEY_SID 1 0 0).
Definition abort_request : list Z := bytes_of_iov (iov_init TFM_CRYPTO_HASH_ABORT_SID 0 0 1).
Definition destroyed := serve 6 PSA_IPC_CALL [destroy_request] [] in_session.
Definition aborted := serve 6 PSA_IPC_CALL [abort_request] [4] in_session.

Lemma request_word : Forall (fun d => word (zlen d)) [destroy_request].
Proof. apply List.Forall_cons; [by vm_compute|apply List.Forall_nil]. Qed.

(** C13: the key of client 5 is not destroyed by client 6. *)
Lemma crypto_client_isolation_witness :
  (others_kept 6 (operations in_session) (operations (snd destroyed)) /\
   others_same 6 (lib in_session) (lib (snd destroyed))) /\
  fst (fst destroyed) = PSA_SUCCESS /\ lib (snd destroyed) = [(5, 1, [1; 2; 3])].
Proof.
  split; [|split; vm_compute; reflexivity].
  apply (crypto_client_isolation (others_same 6) 6 PSA_IPC_CALL [destroy_request] [] in_session (fst (fst destroyed)) (snd (fst destroyed))).
  - apply library_keeps_others.
  - intros l x k _. cbn [psa_op demo_library]. by rewrite hashing_keeps.
  - done.
  - apply in_session_settled.
  - apply List.Forall_nil.
  - apply request_word.
  - unfold destroyed. apply triple_eta.
Defined.

(** C37: an abort that finds no operation of the client answers with the
    handle and leaves nothing. *)
Lemma crypto_leaves_nothing_witness :
  (settled (snd aborted) /\ length (snd (fst aborted)) = 1%nat /\
   (forall j, zlen (nth j (snd (fst aborted)) []) <= nth j [4] 0) /\
   (fst (fst aborted) <> PSA_SUCCESS -> snd (fst aborted) = [[]])) /\
  snd (fst aborted) = [[1; 0; 0; 0]].
Proof.
  split; [|vm_compute; reflexivity].
  apply (crypto_leaves_nothing 6 PSA_IPC_CALL [abort_request] [4] in_session (fst (fst aborted)) (snd (fst aborted)) _ in_session_settled).
  - apply List.Forall_cons; [unfold word; lia|apply List.Forall_nil].
  - apply List.Forall_cons; [by vm_compute|apply List.Forall_nil].
  - unfold aborted. apply triple_eta.
Defined.

(** The library is told to read 4096 bytes of a nonce that has 16. *)
Example long_nonce :
  fst (fst (serve 6 PSA_IPC_CALL
    [bytes_of_iov (PackIovec 1 2 0 0 0 (AeadIn (fill 16 0) 4096) TFM_CRYPTO_AEAD_ENCRYPT_SID 0 0); [1]; []] [16] in_session))
  = PSA_ERROR_CORRUPTION_DETECTED.
Proof. vm_compute. reflexivity. Qed.
End Demo.
