(* ===== verification/FwuManager.v ===== *)
(** * The firmware update service ([firmware_update/tfm_fwu_req_mngr.c])

    The states of the components under update, and the requests of
    [psa/update.h].  What the service asks of the bootloader
    ([bootloader/tfm_bootloader_fwu_abstraction.h]) is the class
    [FwuBootloader].  The build modelled reads the caller's vectors with
    [psa_read] and [psa_write]. *)

From S2P Require Import Prelude Bytes ItsUtils ItsFlash ItsMeta ItsMblock ItsFs ItsService.
From stdpp Require Import base list numbers functions.
From Stdlib Require Import ZArith Lia.

Open Scope Z_scope.
Open Scope tfm_scope.

(** ** Constants ([psa/update.h], [tfm_fwu_defs.h]) *)

Definition PSA_ERROR_DEPENDENCY_NEEDED : psa_status_t := -156.
Definition PSA_SUCCESS_REBOOT : psa_status_t := 1.
Definition PSA_SUCCESS_RESTART : psa_status_t := 2.

Definition PSA_FWU_READY : Z := 0.
Definition PSA_FWU_WRITING : Z := 1.
Definition PSA_FWU_CANDIDATE : Z := 2.
Definition PSA_FWU_STAGED : Z := 3.
Definition PSA_FWU_FAILED : Z := 4.
Definition PSA_FWU_TRIAL : Z := 5.
Definition PSA_FWU_REJECTED : Z := 6.
Definition PSA_FWU_UPDATED : Z := 7.

Definition TFM_FWU_START : Z := 1001.
Definition TFM_FWU_WRITE : Z := 1002.
Definition TFM_FWU_FINISH : Z := 1003.
Definition TFM_FWU_CANCEL : Z := 1004.
Definition TFM_FWU_INSTALL : Z := 1005.
Definition TFM_FWU_CLEAN : Z := 1006.
Definition TFM_FWU_REJECT : Z := 1007.
Definition TFM_FWU_REQUEST_REBOOT : Z := 1008.
Definition TFM_FWU_ACCEPT : Z := 1009.
Definition TFM_FWU_QUERY : Z := 1010.

(** [psa_fwu_component_info_t] *)
Record psa_fwu_component_info_t : Type := FwuInfo {
  info_state : Z;
  info_error : psa_status_t;
  ver_major : Z;
  ver_minor : Z;
  ver_patch : Z;
  ver_build : Z;
  info_max_size : Z;
  info_fwu_flags : Z;
  info_location : Z;
  candidate_digest : list Z;
}.

Definition set_info_state (v : Z) (i : psa_fwu_component_info_t) : psa_fwu_component_info_t :=
  FwuInfo v (info_error i) (ver_major i) (ver_minor i) (ver_patch i) (ver_build i) (info_max_size i) (info_fwu_flags i) (info_location i) (candidate_digest i).
Definition set_info_error (v : Z) (i : psa_fwu_component_info_t) : psa_fwu_component_info_t :=
  FwuInfo (info_state i) v (ver_major i) (ver_minor i) (ver_patch i) (ver_build i) (info_max_size i) (info_fwu_flags i) (info_location i) (candidate_digest i).

(** The operations of the bootloader with the state [B]; [get_image_info]
    fills in the record it is given. *)
Class FwuBootloader (B : Type) : Type := {
  fwu_bootloader_init : M B unit;
  fwu_bootloader_staging_area_init : Z -> list Z -> M B unit;
  fwu_bootloader_load_image : Z -> Z -> list Z -> M B unit;
  fwu_bootloader_install_image : list Z -> M B unit;
  fwu_bootloader_mark_image_accepted : list Z -> M B unit;
  fwu_bootloader_reject_staged_image : Z -> M B unit;
  fwu_bootloader_reject_trial_image : Z -> M B unit;
  fwu_bootloader_clean_component : Z -> M B unit;
  fwu_bootloader_get_image_info : Z -> bool -> bool -> psa_fwu_component_info_t -> M B psa_fwu_component_info_t;
}.

(** [tfm_fwu_ctx_t] *)
Record tfm_fwu_ctx_t : Type := FwuCtx {
  fwu_error : psa_status_t;
  component_state : Z;
  in_use : bool;
}.

(** [fwu_ctx], the bootloader, the unread bytes of the input vectors and the
    bytes written to the output vectors. *)
Record fwu_st (B : Type) : Type := Fwu {
  fwu_ctx : Z -> tfm_fwu_ctx_t;
  boot : B;
  fwu_invec : list (list Z);
  fwu_outvec : list (list Z);
}.
Arguments Fwu {B}.
Arguments fwu_ctx {B}.
Arguments boot {B}.
Arguments fwu_invec {B}.
Arguments fwu_outvec {B}.

(** The build. *)
Record fwu_config : Type := FwuConfig {
  FWU_COMPONENT_NUMBER : nat;
  TFM_CONFIG_FWU_MAX_MANIFEST_SIZE : Z;
  PSA_FWU_MAX_WRITE_SIZE : Z;
  TFM_FWU_BUF_SIZE : Z;
  FWU_SUPPORT_TRIAL_STATE : bool;
}.

Section manager.
Context {B : Type} `{FwuBootloader B}.
Context (cfg : fwu_config).

Abbreviation FWU := (M (fwu_st B)).

Definition put_ctx (c : Z) (x : tfm_fwu_ctx_t) : FWU unit :=
  modify (fun s => Fwu (<[c := x]> (fwu_ctx s)) (boot s) (fwu_invec s) (fwu_outvec s)).

Definition get_ctx (c : Z) : FWU tfm_fwu_ctx_t := gets (fun s => fwu_ctx s c).

(** [fwu_ctx[c].component_state = v] *)
Definition set_component_state (c v : Z) : FWU unit :=
  let* x := get_ctx c in put_ctx c (FwuCtx (fwu_error x) v (in_use x)).

(** The same with [fwu_ctx[c].error = e]. *)
Definition set_component_failed (c v : Z) (e : psa_status_t) : FWU unit :=
  let* x := get_ctx c in put_ctx c (FwuCtx e v (in_use x)).

(** A call of the bootloader. *)
Definition on_boot {A} (m : M B A) : FWU A :=
  fun s => let '(r, b) := m (boot s) in (r, Fwu (fwu_ctx s) b (fwu_invec s) (fwu_outvec s)).

Definition fwu_read (i : nat) (num : Z) : FWU (list Z) :=
  let* s := get in
  let v := nth i (fwu_invec s) [] in
  let n := Z.min num (zlen v) in
  let* _ := put (Fwu (fwu_ctx s) (boot s) (<[i := sub_bytes n (zlen v - n) v]> (fwu_invec s)) (fwu_outvec s)) in
  ret (sub_bytes 0 n v).

Definition fwu_reply (i : nat) (d : list Z) : FWU unit :=
  modify (fun s => Fwu (fwu_ctx s) (boot s) (fwu_invec s) (<[i := nth i (fwu_outvec s) [] ++ d]> (fwu_outvec s))).

Definition components : list Z := seqZ 0 (Z.of_nat (FWU_COMPONENT_NUMBER cfg)).

(** Reads the component, a [uint8_t], and checks that there is one. *)
Definition read_component : FWU Z :=
  let* d := fwu_read 0 1 in
  let component := u8 (le_val d) in
  let* _ := check (component <? Z.of_nat (FWU_COMPONENT_NUMBER cfg)) PSA_ERROR_DOES_NOT_EXIST in
  ret component.

(** The state of a component that is not under update, as the bootloader
    reports it; [stack] is what the local variable held. *)
Definition query_boot_state (stack : psa_fwu_component_info_t) (component : Z) : FWU Z :=
  let* info := on_boot (fwu_bootloader_get_image_info component true false stack) in
  ret (info_state info).

Definition tfm_fwu_start (stack : psa_fwu_component_info_t) (msg : psa_msg_t) : FWU unit :=
  let manifest_size := nth 1 (in_size msg) 0 in
  let* _ := check (size_is (in_size msg) 0 1) PSA_ERROR_PROGRAMMER_ERROR in
  let* _ := check (negb (manifest_size >? TFM_CONFIG_FWU_MAX_MANIFEST_SIZE cfg)) PSA_ERROR_NOT_SUPPORTED in
  let* component := read_component in
  let* manifest := if manifest_size >? 0 then fwu_read 1 manifest_size else ret [] in
  let* x := get_ctx component in
  if in_use x then check (component_state x =? PSA_FWU_READY) PSA_ERROR_BAD_STATE
  else
    let* st := query_boot_state stack component in
    let* _ := check (st =? PSA_FWU_READY) PSA_ERROR_BAD_STATE in
    let* _ := on_boot (fwu_bootloader_staging_area_init component manifest) in
    put_ctx component (FwuCtx (fwu_error x) PSA_FWU_WRITING true).

(** [while (block_size > 0)] *)
Fixpoint write_loop (fuel : nat) (component image_offset block_size : Z) : FWU unit :=
  match fuel with
  | O => ret tt
  | S fuel =>
      if block_size >? 0 then
        let write_size := if TFM_FWU_BUF_SIZE cfg <=? block_size then TFM_FWU_BUF_SIZE cfg else block_size in
        let* block := fwu_read 2 write_size in
        let* _ := check (zlen block =? write_size) PSA_ERROR_PROGRAMMER_ERROR in
        let* _ := on_boot (fwu_bootloader_load_image component image_offset block) in
        write_loop fuel component (u32 (image_offset + write_size)) (block_size - write_size)
      else ret tt
  end.

(** A component under update in the state [v]. *)
Definition check_state (component v : Z) : FWU unit :=
  let* x := get_ctx component in
  check (in_use x && (component_state x =? v)) PSA_ERROR_BAD_STATE.

Definition tfm_fwu_write (msg : psa_msg_t) : FWU unit :=
  let block_size := nth 2 (in_size msg) 0 in
  let* _ := check (negb (block_size >? PSA_FWU_MAX_WRITE_SIZE cfg)) PSA_ERROR_INVALID_ARGUMENT in
  let* _ := check (size_is (in_size msg) 0 1 && size_is (in_size msg) 1 4) PSA_ERROR_PROGRAMMER_ERROR in
  let* component := read_component in
  let* d := fwu_read 1 4 in
  let* _ := check_state component PSA_FWU_WRITING in
  write_loop (S (Z.to_nat block_size)) component (u32 (le_val d)) block_size.

Definition tfm_fwu_finish (msg : psa_msg_t) : FWU unit :=
  let* _ := check (size_is (in_size msg) 0 1) PSA_ERROR_PROGRAMMER_ERROR in
  let* component := read_component in
  let* _ := check_state component PSA_FWU_WRITING in
  set_component_state component PSA_FWU_CANDIDATE.

(** The first loop of [tfm_fwu_install]: the candidates. *)
Fixpoint install_candidates (stack : psa_fwu_component_info_t) (cs candidates : list Z) : FWU (list Z) :=
  match cs with
  | [] => ret candidates
  | c :: cs =>
      let* x := get_ctx c in
      if in_use x then
        if (component_state x =? PSA_FWU_STAGED) || (component_state x =? PSA_FWU_REJECTED) then fail PSA_ERROR_BAD_STATE
        else install_candidates stack cs (if component_state x =? PSA_FWU_CANDIDATE then candidates ++ [c] else candidates)
      else
        let* st := query_boot_state stack c in
        let* _ := check (negb (st =? PSA_FWU_TRIAL)) PSA_ERROR_BAD_STATE in
        install_candidates stack cs candidates
  end.

(** The second loop: what becomes of the candidates. *)
Fixpoint install_outcome (status : psa_status_t) (candidates : list Z) : FWU unit :=
  match candidates with
  | [] => ret tt
  | c :: cs =>
      let* _ :=
        if status =? PSA_SUCCESS then
          set_component_state c (if FWU_SUPPORT_TRIAL_STATE cfg then PSA_FWU_TRIAL else PSA_FWU_UPDATED)
        else if negb (status =? PSA_SUCCESS_REBOOT) && negb (status =? PSA_SUCCESS_RESTART) then set_component_failed c PSA_FWU_FAILED status
        else set_component_state c PSA_FWU_STAGED in
      install_outcome status cs
  end.

Definition tfm_fwu_install (stack : psa_fwu_component_info_t) : FWU unit :=
  let* candidates := install_candidates stack components [] in
  let* _ := check (negb (zlen candidates =? 0)) PSA_ERROR_BAD_STATE in
  let* r := try (on_boot (fwu_bootloader_install_image candidates)) in
  let status := status_of r in
  if status =? PSA_ERROR_DEPENDENCY_NEEDED then fail status
  else
    let* _ := install_outcome status candidates in
    of_status status.
(** [psa_fwu_component_info_t] in memory: padding after the state and in
    front of the digest, which fills its array. *)
Definition info_bytes (i : psa_fwu_component_info_t) : list Z :=
  le_bytes 4 (info_state i) ++ le_bytes 4 (info_error i) ++ [u8 (ver_major i); u8 (ver_minor i)] ++ le_bytes 2 (ver_patch i) ++ le_bytes 4 (ver_build i) ++
  le_bytes 4 (info_max_size i) ++ le_bytes 4 (info_fwu_flags i) ++ le_bytes 4 (info_location i) ++ candidate_digest i.

Definition tfm_fwu_query (stack : psa_fwu_component_info_t) (msg : psa_msg_t) : FWU unit :=
  let* _ := check (size_is (in_size msg) 0 1 && size_is (out_size msg) 0 (zlen (info_bytes stack))) PSA_ERROR_PROGRAMMER_ERROR in
  let* component := read_component in
  let* x := get_ctx component in
  let info :=
    if in_use x then
      let info := set_info_state (component_state x) stack in
      if component_state x =? PSA_FWU_CANDIDATE then info
      else if (component_state x =? PSA_FWU_REJECTED) || (component_state x =? PSA_FWU_FAILED) then set_info_error (fwu_error x) info
      else info
    else stack in
  let query_impl_info := in_use x && (component_state x =? PSA_FWU_CANDIDATE) in
  let* info := on_boot (fwu_bootloader_get_image_info component (negb (in_use x)) query_impl_info info) in
  fwu_reply 0 (info_bytes info).

(** [tfm_platform_system_reset] does not come back; the model goes on, as the
    code would. *)
Definition tfm_fwu_request_reboot : FWU unit := ret tt.

(** The first loop of [tfm_fwu_accept]: the components on trial. *)
Fixpoint accept_trials (stack : psa_fwu_component_info_t) (cs trials : list Z) : FWU (list Z) :=
  match cs with
  | [] => ret trials
  | c :: cs =>
      let* x := get_ctx c in
      if in_use x then accept_trials stack cs (if component_state x =? PSA_FWU_TRIAL then trials ++ [c] else trials)
      else
        let* st := query_boot_state stack c in
        if st =? PSA_FWU_TRIAL then
          let* _ := put_ctx c (FwuCtx (fwu_error x) PSA_FWU_TRIAL true) in
          accept_trials stack cs (trials ++ [c])
        else accept_trials stack cs trials
  end.

Fixpoint accept_outcome (trials : list Z) : FWU unit :=
  match trials with
  | [] => ret tt
  | c :: cs => let* _ := set_component_state c PSA_FWU_UPDATED in accept_outcome cs
  end.

Definition tfm_fwu_accept (stack : psa_fwu_component_info_t) : FWU unit :=
  if FWU_SUPPORT_TRIAL_STATE cfg then
    let* trials := accept_trials stack components [] in
    let* _ := check (negb (zlen trials =? 0)) PSA_ERROR_BAD_STATE in
    let* _ := on_boot (fwu_bootloader_mark_image_accepted trials) in
    accept_outcome trials
  else fail PSA_ERROR_NOT_SUPPORTED.

(** Rejects the running image of a component; returns the status of the
    bootloader. *)
Definition reject_trial (c : Z) (error : psa_status_t) : FWU psa_status_t :=
  let* r := try (on_boot (fwu_bootloader_reject_trial_image c)) in
  let status := status_of r in
  if (status =? PSA_SUCCESS_REBOOT) || (status =? PSA_SUCCESS_RESTART) then
    let* _ := set_component_failed c PSA_FWU_REJECTED error in ret status
  else if status =? PSA_SUCCESS then
    let* _ := set_component_failed c PSA_FWU_FAILED error in ret status
  else fail status.

(** The loop of [tfm_fwu_reject] with [staged_trial_component_found] and
    [status]. *)
Fixpoint reject_loop (stack : psa_fwu_component_info_t) (error : psa_status_t) (cs : list Z) (found : bool) (status : psa_status_t) : FWU unit :=
  match cs with
  | [] => if found then of_status status else fail PSA_ERROR_BAD_STATE
  | c :: cs =>
      let* x := get_ctx c in
      if in_use x then
        if component_state x =? PSA_FWU_STAGED then
          let* _ := set_component_failed c PSA_FWU_FAILED error in
          let* _ := on_boot (fwu_bootloader_reject_staged_image c) in
          reject_loop stack error cs true PSA_SUCCESS
        else if component_state x =? PSA_FWU_TRIAL then
          let* status := reject_trial c error in
          reject_loop stack error cs true status
        else reject_loop stack error cs found status
      else
        let* st := query_boot_state stack c in
        if st =? PSA_FWU_TRIAL then
          let* _ := put_ctx c (FwuCtx (fwu_error x) PSA_FWU_TRIAL true) in
          let* status := reject_trial c error in
          reject_loop stack error cs true status
        else reject_loop stack error cs found PSA_SUCCESS
  end.

Definition tfm_fwu_reject (stack : psa_fwu_component_info_t) (msg : psa_msg_t) : FWU unit :=
  let* _ := check (size_is (in_size msg) 0 4) PSA_ERROR_PROGRAMMER_ERROR in
  let* d := fwu_read 0 4 in
  let* _ := check (zlen d =? 4) PSA_ERROR_PROGRAMMER_ERROR in
  reject_loop stack (to_s32 (le_val d)) components false PSA_SUCCESS.

Definition tfm_fwu_cancel (msg : psa_msg_t) : FWU unit :=
  let* _ := check (size_is (in_size msg) 0 1) PSA_ERROR_PROGRAMMER_ERROR in
  let* component := read_component in
  let* x := get_ctx component in
  let* _ := check (in_use x && ((component_state x =? PSA_FWU_WRITING) || (component_state x =? PSA_FWU_CANDIDATE))) PSA_ERROR_BAD_STATE in
  set_component_failed component PSA_FWU_FAILED PSA_SUCCESS.

Definition tfm_fwu_clean (msg : psa_msg_t) : FWU unit :=
  let* _ := check (size_is (in_size msg) 0 1) PSA_ERROR_PROGRAMMER_ERROR in
  let* component := read_component in
  let* x := get_ctx component in
  let* _ := check (in_use x && ((component_state x =? PSA_FWU_FAILED) || (component_state x =? PSA_FWU_UPDATED))) PSA_ERROR_BAD_STATE in
  let* _ := on_boot (fwu_bootloader_clean_component component) in
  put_ctx component (FwuCtx (fwu_error x) PSA_FWU_READY false).

Definition tfm_firmware_update_service_sfn (stack : psa_fwu_component_info_t) (msg : psa_msg_t) : FWU unit :=
  let type := msg_type msg in
  if type =? TFM_FWU_START then tfm_fwu_start stack msg
  else if type =? TFM_FWU_WRITE then tfm_fwu_write msg
  else if type =? TFM_FWU_FINISH then tfm_fwu_finish msg
  else if type =? TFM_FWU_INSTALL then tfm_fwu_install stack
  else if type =? TFM_FWU_CANCEL then tfm_fwu_cancel msg
  else if type =? TFM_FWU_CLEAN then tfm_fwu_clean msg
  else if type =? TFM_FWU_QUERY then tfm_fwu_query stack msg
  else if type =? TFM_FWU_REQUEST_REBOOT then tfm_fwu_request_reboot
  else if type =? TFM_FWU_ACCEPT then tfm_fwu_accept stack
  else if type =? TFM_FWU_REJECT then tfm_fwu_reject stack msg
  else fail PSA_ERROR_NOT_SUPPORTED.

(** [tfm_fwu_entry] *)
Definition tfm_fwu_entry : FWU unit := or_return (on_boot fwu_bootloader_init) PSA_ERROR_GENERIC_ERROR.

(** A call: its message, and its vectors in place of those of the call before;
    [status_of] the result is the reply. *)
Definition fwu_call (stack : psa_fwu_component_info_t) (msg : psa_msg_t) (vecs : list (list Z)) : FWU unit :=
  let* _ := modify (fun s => Fwu (fwu_ctx s) (boot s) vecs [[]]) in
  tfm_firmware_update_service_sfn stack msg.
End manager.
