(* ===== verification/FwuSpec.v ===== *)
(** * The firmware update service: the state machine of its components

    [PSA Firmware Update] gives every component a state and every request the
    moves it makes; the service keeps the state of components under update and
    asks the bootloader for that of the others. *)

From S2P Require Import Prelude Bytes ItsUtils ItsFlash ItsMeta ItsMblock ItsFs ItsService FwuManager.
From stdpp Require Import base list numbers functions sets.
From Stdlib Require Import ZArith Lia.

Open Scope Z_scope.
Open Scope tfm_scope.

(** ** The states and the moves *)

Inductive fwu_move : Z -> Z -> Z -> Prop :=
| move_start : fwu_move TFM_FWU_START PSA_FWU_READY PSA_FWU_WRITING
| move_finish : fwu_move TFM_FWU_FINISH PSA_FWU_WRITING PSA_FWU_CANDIDATE
| move_cancel_writing : fwu_move TFM_FWU_CANCEL PSA_FWU_WRITING PSA_FWU_FAILED
| move_cancel_candidate : fwu_move TFM_FWU_CANCEL PSA_FWU_CANDIDATE PSA_FWU_FAILED
| move_install v : v ∈ [PSA_FWU_STAGED; PSA_FWU_TRIAL; PSA_FWU_UPDATED; PSA_FWU_FAILED] -> fwu_move TFM_FWU_INSTALL PSA_FWU_CANDIDATE v
| move_reject_staged : fwu_move TFM_FWU_REJECT PSA_FWU_STAGED PSA_FWU_FAILED
| move_reject_trial v : v ∈ [PSA_FWU_REJECTED; PSA_FWU_FAILED] -> fwu_move TFM_FWU_REJECT PSA_FWU_TRIAL v
| move_accept : fwu_move TFM_FWU_ACCEPT PSA_FWU_TRIAL PSA_FWU_UPDATED
| move_clean v : v ∈ [PSA_FWU_FAILED; PSA_FWU_UPDATED] -> fwu_move TFM_FWU_CLEAN v PSA_FWU_READY.

(** ** What is relied on of a bootloader

    [reported] is the state of the running image, ready or on trial. *)
Class FwuLaws (B : Type) `{FwuBootloader B} (trial : bool) : Type := {
  reported : B -> Z -> Z;
  reported_domain : forall b c, reported b c = PSA_FWU_READY \/ reported b c = PSA_FWU_TRIAL;
  law_info : forall b c qs qi i,
    wp (fwu_bootloader_get_image_info c qs qi i) (fun i' b' => reported b' = reported b /\ (qs = true -> info_state i' = reported b c) /\ (qs = false -> info_state i' = info_state i))
      (fun _ b' => reported b' = reported b) b;
  law_staging : forall b c m, wp (fwu_bootloader_staging_area_init c m) (fun _ b' => reported b' = reported b) (fun _ b' => reported b' = reported b) b;
  law_load : forall b c o d, wp (fwu_bootloader_load_image c o d) (fun _ b' => reported b' = reported b) (fun _ b' => reported b' = reported b) b;
  law_install : forall b cs, wp (fwu_bootloader_install_image cs)
    (fun _ b' => (forall c, c ∉ cs -> reported b' c = reported b c) /\ (trial = false -> reported b' = reported b)) (fun _ b' => reported b' = reported b) b;
  law_accept : forall b cs, wp (fwu_bootloader_mark_image_accepted cs)
    (fun _ b' => (forall c, c ∉ cs -> reported b' c = reported b c) /\ (forall c, c ∈ cs -> reported b' c = PSA_FWU_READY))
    (fun _ b' => forall c, c ∉ cs -> reported b' c = reported b c) b;
  law_reject_staged : forall b c, wp (fwu_bootloader_reject_staged_image c) (fun _ b' => reported b' = reported b) (fun _ b' => reported b' = reported b) b;
  law_reject_trial : forall b c, wp (fwu_bootloader_reject_trial_image c)
    (fun _ b' => (forall d, d <> c -> reported b' d = reported b d) /\ reported b' c = PSA_FWU_READY) (fun e b' => e <> PSA_SUCCESS /\ reported b' = reported b) b;
  law_clean : forall b c, wp (fwu_bootloader_clean_component c) (fun _ b' => reported b' = reported b) (fun _ b' => reported b' = reported b) b;
}.

Section spec.
Context {B : Type} `{FwuBootloader B} {trial : bool} `{!FwuLaws B trial}.
Context (cfg : fwu_config) (stack : psa_fwu_component_info_t).
Implicit Types (s : fwu_st B) (c : Z) (cs : list Z).

Abbreviation st := (fwu_st B).

(** The state of a component. *)
Definition state_of (s : st) (c : Z) : Z := if in_use (fwu_ctx s c) then component_state (fwu_ctx s c) else reported (boot s) c.

(** The record of a component: under update it is in a state of an update, and
    unless the running image is on trial or rejected, the running image is
    ready. *)
Definition component_ok (s : st) (c : Z) : Prop :=
  in_use (fwu_ctx s c) = true ->
  component_state (fwu_ctx s c) ∈ [PSA_FWU_WRITING; PSA_FWU_CANDIDATE; PSA_FWU_STAGED; PSA_FWU_FAILED; PSA_FWU_TRIAL; PSA_FWU_REJECTED; PSA_FWU_UPDATED] /\
  (component_state (fwu_ctx s c) <> PSA_FWU_TRIAL -> component_state (fwu_ctx s c) <> PSA_FWU_REJECTED -> reported (boot s) c = PSA_FWU_READY).

Definition fwu_inv (s : st) : Prop := forall c, component_ok s c.

(** The components [cs] may have made a move of the request [t]. *)
Record fmoved (t : Z) cs s s' : Prop := {
  fm_inv : fwu_inv s';
  fm_other : forall c, c ∉ cs -> state_of s' c = state_of s c;
  fm_moved : forall c, c ∈ cs -> state_of s' c = state_of s c \/ fwu_move t (state_of s c) (state_of s' c);
}.

Lemma fm_refl t s : fwu_inv s -> fmoved t [] s s.
Proof. intros Hi. split; [done|done|]. intros c Hc. by apply not_elem_of_nil in Hc. Qed.

Lemma fm_weaken t cs cs' s s' : cs ⊆ cs' -> fmoved t cs s s' -> fmoved t cs' s s'.
Proof.
  intros Hs [I O M]. split; [done|intros c Hc; apply O; set_solver|]. intros c _. destruct (decide (c ∈ cs)) as [Hc|Hc]; [by apply M|left; by apply O].
Qed.

Lemma fm_trans t cs1 cs2 s s1 s2 : cs1 ## cs2 -> fmoved t cs1 s s1 -> fmoved t cs2 s1 s2 -> fmoved t (cs1 ++ cs2) s s2.
Proof.
  intros Hd [_ O1 M1] [I2 O2 M2]. split; [done| |].
  - intros c [H1 H2]%not_elem_of_app. by rewrite O2, O1.
  - intros c [Hc|Hc]%elem_of_app; [rewrite O2 by set_solver; by apply M1|]. rewrite <- (O1 c) by set_solver. by apply M2.
Qed.

(** Steps of the service on its records. *)
Lemma fm_same t s s' : fwu_inv s -> fwu_ctx s' = fwu_ctx s -> reported (boot s') = reported (boot s) -> fmoved t [] s s'.
Proof.
  intros Hi Hc Hb. assert (forall c, state_of s' c = state_of s c) as He by (intros c; unfold state_of; by rewrite Hc, Hb).
  split; [intros c; unfold component_ok; rewrite Hc, Hb; apply Hi|intros c _; apply He|intros c; left; apply He].
Qed.

(** One record changes. *)
Lemma fm_put t s s' c x :
  fwu_inv s -> fwu_ctx s' = <[c := x]> (fwu_ctx s) -> (forall d, d <> c -> reported (boot s') d = reported (boot s) d) ->
  component_ok s' c -> (state_of s' c = state_of s c \/ fwu_move t (state_of s c) (state_of s' c)) -> fmoved t [c] s s'.
Proof.
  intros Hi Hc Hb Hok Hm. assert (forall d, d <> c -> fwu_ctx s' d = fwu_ctx s d) as Hne by (intros d Hd; rewrite Hc; by apply fn_lookup_insert_ne).
  split.
  - intros d. destruct (decide (d = c)) as [->|Hd]; [done|]. unfold component_ok. rewrite Hne, Hb by done. apply Hi.
  - intros d Hd%not_elem_of_cons. unfold state_of. by rewrite Hne, Hb by tauto.
  - intros d Hd. apply elem_of_cons in Hd as [->|Hd]; [done|by apply not_elem_of_nil in Hd].
Qed.

(** ** Rules *)

Abbreviation ends m P := (wp m (fun _ => P) (fun _ => P)).

Lemma wp_on_boot {A} (m : M B A) Q E s :
  wp m (fun a b => Q a (Fwu (fwu_ctx s) b (fwu_invec s) (fwu_outvec s))) (fun e b => E e (Fwu (fwu_ctx s) b (fwu_invec s) (fwu_outvec s))) (boot s) ->
  wp (on_boot m) Q E s.
Proof. unfold wp, on_boot. by destruct (m (boot s)) as [[a|e] b]. Qed.

Lemma wp_try_any {A} (m : M st A) Q E s : wp m (fun a => Q (Ok a)) (fun e => Q (Err e)) s -> wp (try m) Q E s.
Proof. unfold wp, try. by destruct (m s) as [[a|e] s']. Qed.

(** The state up to its vectors and what the bootloader does not report. *)
Definition alike s s' : Prop := fwu_ctx s' = fwu_ctx s /\ reported (boot s') = reported (boot s).

Lemma alike_refl s : alike s s.
Proof. done. Qed.

Lemma alike_trans s s1 s2 : alike s s1 -> alike s1 s2 -> alike s s2.
Proof. intros [H1 H2] [H3 H4]. split; congruence. Qed.

Lemma alike_inv s s' : alike s s' -> fwu_inv s -> fwu_inv s'.
Proof. intros [Hc Hb] Hi c. unfold component_ok. rewrite Hc, Hb. apply Hi. Qed.

Lemma alike_state s s' c : alike s s' -> state_of s' c = state_of s c.
Proof. intros [Hc Hb]. unfold state_of. by rewrite Hc, Hb. Qed.

Lemma fm_alike t cs s s1 s2 : alike s s1 -> fmoved t cs s1 s2 -> fmoved t cs s s2.
Proof.
  intros Ha [I O M]. split; [done|intros c Hc; rewrite O by done; by apply alike_state|]. intros c Hc. rewrite <- (alike_state s s1 c Ha). by apply M.
Qed.

Lemma fm_none t cs s s' : fwu_inv s -> alike s s' -> fmoved t cs s s'.
Proof. intros Hi [Hc Hb]. eapply fm_weaken; [|by apply fm_same]. set_solver. Qed.

Lemma wp_fwu_read i n (Q : list Z -> st -> Prop) E s : (forall d s', alike s s' -> Q d s') -> wp (fwu_read i n) Q E s.
Proof. intros HQ. unfold fwu_read. apply wp_bind. unfold wp, get. apply wp_bind. unfold wp, put. by apply HQ. Qed.

Lemma wp_read_component (Q : Z -> st -> Prop) (E : psa_status_t -> st -> Prop) s :
  (forall c s', alike s s' -> c ∈ components cfg -> Q c s') -> (forall s', alike s s' -> E PSA_ERROR_DOES_NOT_EXIST s') ->
  wp (read_component cfg) Q E s.
Proof.
  intros HQ HE. unfold read_component. apply wp_bind, wp_fwu_read. intros d s' Ha. cbv zeta. apply wp_bind, wp_check; [intros Hc|intros _; by apply HE].
  apply wp_ret, HQ; [done|]. unfold components. apply elem_of_seqZ. pose proof (u8_range (le_val d)) as Hb. apply Z.ltb_lt in Hc. lia.
Qed.

(** A call of the bootloader that reports the same afterwards. *)
Lemma wp_boot_quiet {A} (m : M B A) (Q : A -> st -> Prop) (E : psa_status_t -> st -> Prop) s :
  wp m (fun _ b' => reported b' = reported (boot s)) (fun _ b' => reported b' = reported (boot s)) (boot s) ->
  (forall a s', alike s s' -> Q a s') -> (forall e s', alike s s' -> E e s') -> wp (on_boot m) Q E s.
Proof. intros Hm HQ HE. apply wp_on_boot. eapply wp_mono; [exact Hm| |]; intros x b' Hb; [apply HQ|apply HE]; by split. Qed.

(** The bootloader could not tell the state of a component. *)
Definition query_failed (e : psa_status_t) : Prop := exists c b b', fwu_bootloader_get_image_info c true false stack b = (Err e, b').

Lemma wp_query c (Q : Z -> st -> Prop) (E : psa_status_t -> st -> Prop) s :
  (forall s', alike s s' -> Q (reported (boot s) c) s') -> (forall e s', alike s s' -> query_failed e -> E e s') -> wp (query_boot_state stack c) Q E s.
Proof.
  intros HQ HE. unfold query_boot_state. apply wp_bind, wp_on_boot. pose proof (law_info (boot s) c true false stack) as Hl. unfold wp in Hl |- *.
  destruct (fwu_bootloader_get_image_info c true false stack (boot s)) as [[i|e] b'] eqn:Hi.
  - destruct Hl as (Hb & Hs & _). unfold ret. rewrite Hs by done. by apply HQ.
  - apply HE; [done|]. by exists c, (boot s), b'.
Qed.

Lemma wp_get_ctx c (Q : tfm_fwu_ctx_t -> st -> Prop) E s : Q (fwu_ctx s c) s -> wp (get_ctx c) Q E s.
Proof. done. Qed.

Lemma wp_put_ctx c x (Q : unit -> st -> Prop) E s : Q tt (Fwu (<[c := x]> (fwu_ctx s)) (boot s) (fwu_invec s) (fwu_outvec s)) -> wp (put_ctx c x) Q E s.
Proof. done. Qed.

(** A request that moves one component. *)
Lemma fm_one t s s1 s' c x :
  fwu_inv s -> alike s s1 -> c ∈ components cfg -> fwu_ctx s' = <[c := x]> (fwu_ctx s1) -> reported (boot s') = reported (boot s1) ->
  component_ok s' c -> (state_of s' c = state_of s1 c \/ fwu_move t (state_of s1 c) (state_of s' c)) -> fmoved t (components cfg) s s'.
Proof.
  intros Hi Ha Hc Hx Hb Hok Hm. eapply fm_alike; [exact Ha|]. apply (fm_weaken t [c]); [set_solver|]. apply (fm_put t s1 s' c x); [by eapply alike_inv|done| |done|done].
  intros d _. by rewrite Hb.
Qed.

(** The record of [c] after it was put. *)
Lemma put_same s c x : fwu_ctx (Fwu (<[c := x]> (fwu_ctx s)) (boot s) (fwu_invec s) (fwu_outvec s)) c = x.
Proof. apply fn_lookup_insert. Qed.

Lemma put_ok s c x :
  (in_use x = true -> component_state x ∈ [PSA_FWU_WRITING; PSA_FWU_CANDIDATE; PSA_FWU_STAGED; PSA_FWU_FAILED; PSA_FWU_TRIAL; PSA_FWU_REJECTED; PSA_FWU_UPDATED] /\
    (component_state x <> PSA_FWU_TRIAL -> component_state x <> PSA_FWU_REJECTED -> reported (boot s) c = PSA_FWU_READY)) ->
  component_ok (Fwu (<[c := x]> (fwu_ctx s)) (boot s) (fwu_invec s) (fwu_outvec s)) c.
Proof. unfold component_ok. rewrite put_same. done. Qed.

Lemma put_state s c x :
  state_of (Fwu (<[c := x]> (fwu_ctx s)) (boot s) (fwu_invec s) (fwu_outvec s)) c = if in_use x then component_state x else reported (boot s) c.
Proof. unfold state_of. by rewrite put_same. Qed.

Lemma start_ok msg s : fwu_inv s -> ends (tfm_fwu_start cfg stack msg) (fmoved TFM_FWU_START (components cfg) s) s.
Proof.
  intros Hi. unfold tfm_fwu_start. cbv zeta. apply wp_bind, wp_check; [intros _|intros _; by apply fm_none]. apply wp_bind, wp_check; [intros _|intros _; by apply fm_none].
  apply wp_bind, wp_read_component; [|intros s' Ha; by apply fm_none]. intros c s1 Ha1 Hc. apply wp_bind.
  assert (forall m s2, alike s s2 -> wp (let* x := get_ctx c in if in_use x then check (component_state x =? PSA_FWU_READY) PSA_ERROR_BAD_STATE
    else let* st := query_boot_state stack c in let* _ := check (st =? PSA_FWU_READY) PSA_ERROR_BAD_STATE in
      let* _ := on_boot (fwu_bootloader_staging_area_init c m) in put_ctx c (FwuCtx (fwu_error x) PSA_FWU_WRITING true))
    (fun _ => fmoved TFM_FWU_START (components cfg) s) (fun _ => fmoved TFM_FWU_START (components cfg) s) s2) as Hgo.
  { intros m s2 Ha2. apply wp_bind, wp_get_ctx. destruct (in_use (fwu_ctx s2 c)) eqn:Huse; [apply wp_check; intros _; by apply fm_none|].
    apply wp_bind, wp_query; [|intros e s3 Ha3 _; apply fm_none; [done|by eapply alike_trans]]. intros s3 Ha3. assert (alike s s3) as Hs3 by (by eapply alike_trans).
    apply wp_bind, wp_check; [intros Hrep%Z.eqb_eq|intros _; by apply fm_none]. apply wp_bind, wp_boot_quiet; [apply law_staging| |].
    - intros _ s4 Ha4. assert (alike s s4) as Hs4 by (by eapply alike_trans). assert (reported (boot s4) c = PSA_FWU_READY) as Hr4.
      { destruct Ha4 as [_ ->]. destruct Ha3 as [_ ->]. exact Hrep. }
      apply wp_put_ctx. eapply (fm_one _ s s4 _ c); [done|done|done|done|done| |].
      + apply put_ok. intros _. split; [left|done].
      + right. rewrite put_state. cbn [in_use component_state]. assert (state_of s4 c = PSA_FWU_READY) as ->; [|constructor].
        rewrite (alike_state s s4 c Hs4), <- (alike_state s s2 c Ha2). unfold state_of. rewrite Huse. exact Hrep.
    - intros e s4 Ha4. apply fm_none; [done|]. by eapply alike_trans. }
  destruct (_ >? 0).
  - apply wp_fwu_read. intros d s2 Ha2. apply Hgo. by eapply alike_trans.
  - apply wp_ret. by apply Hgo.
Qed.

Lemma write_loop_alike fuel c o n s s1 : alike s s1 -> ends (write_loop cfg fuel c o n) (alike s) s1.
Proof.
  revert o n s1. induction fuel as [|fuel IH]; intros o n s1 Ha; cbn [write_loop]; [by apply wp_ret|]. destruct (n >? 0); [|by apply wp_ret].
  cbv zeta. apply wp_bind, wp_fwu_read. intros d s2 Ha2. assert (alike s s2) as Hs2 by (by eapply alike_trans).
  apply wp_bind, wp_check; [intros _|intros _; done]. apply wp_bind, wp_boot_quiet; [apply law_load| |]; intros a s3 Ha3; [apply IH|]; by eapply alike_trans.
Qed.

(** A request for a component under update in the state [v]. *)
Lemma wp_check_state c v (Q : unit -> st -> Prop) (E : psa_status_t -> st -> Prop) s :
  (in_use (fwu_ctx s c) = true -> component_state (fwu_ctx s c) = v -> Q tt s) -> E PSA_ERROR_BAD_STATE s -> wp (check_state c v) Q E s.
Proof.
  intros HQ HE. unfold check_state. apply wp_bind, wp_get_ctx, wp_check; [|done]. intros [Hu Hs%Z.eqb_eq]%andb_true_iff. by apply HQ.
Qed.

Lemma write_ok msg s : fwu_inv s -> ends (tfm_fwu_write cfg msg) (fmoved TFM_FWU_WRITE (components cfg) s) s.
Proof.
  intros Hi. assert (forall s', alike s s' -> fmoved TFM_FWU_WRITE (components cfg) s s') as Hno by (intros s'; by apply fm_none). unfold tfm_fwu_write. cbv zeta.
  apply wp_bind, wp_check; [intros _|intros _; by apply Hno]. apply wp_bind, wp_check; [intros _|intros _; by apply Hno].
  apply wp_bind, wp_read_component; [|done]. intros c s1 Ha1 Hc. apply wp_bind, wp_fwu_read. intros d s2 Ha2.
  assert (alike s s2) as Hs2 by (by eapply alike_trans). apply wp_bind, wp_check_state; [intros _ _|by apply Hno].
  eapply wp_mono; [by apply (write_loop_alike _ _ _ _ s)| |]; intros x s3 Ha3; by apply Hno.
Qed.

(** A record whose state or error was replaced, by a request of one component. *)
Lemma fm_replace t s s1 c e v :
  fwu_inv s -> alike s s1 -> c ∈ components cfg -> in_use (fwu_ctx s1 c) = true ->
  component_state (fwu_ctx s1 c) <> PSA_FWU_TRIAL -> component_state (fwu_ctx s1 c) <> PSA_FWU_REJECTED ->
  v ∈ [PSA_FWU_WRITING; PSA_FWU_CANDIDATE; PSA_FWU_STAGED; PSA_FWU_FAILED; PSA_FWU_UPDATED] -> fwu_move t (component_state (fwu_ctx s1 c)) v ->
  fmoved t (components cfg) s (Fwu (<[c := FwuCtx e v (in_use (fwu_ctx s1 c))]> (fwu_ctx s1)) (boot s1) (fwu_invec s1) (fwu_outvec s1)).
Proof.
  intros Hi Ha Hc Hu Hnt Hnr Hv Hm. destruct (alike_inv s s1 Ha Hi c Hu) as [_ Hr]. eapply (fm_one _ s s1 _ c); [done|done|done|done|done| |].
  - apply put_ok. intros _. cbn [component_state]. split; [set_solver|]. intros _ _. by apply Hr.
  - right. rewrite put_state. cbn [in_use component_state]. rewrite Hu. unfold state_of. by rewrite Hu.
Qed.

Lemma finish_ok msg s : fwu_inv s -> ends (tfm_fwu_finish cfg msg) (fmoved TFM_FWU_FINISH (components cfg) s) s.
Proof.
  intros Hi. unfold tfm_fwu_finish. apply wp_bind, wp_check; [intros _|intros _; by apply fm_none].
  apply wp_bind, wp_read_component; [|intros s' Ha; by apply fm_none]. intros c s1 Ha Hc.
  apply wp_bind, wp_check_state; [intros Hu Hs|by apply fm_none]. unfold set_component_state. apply wp_bind, wp_get_ctx, wp_put_ctx.
  apply fm_replace; rewrite ?Hs; try done; [set_solver|constructor].
Qed.

Lemma cancel_ok msg s : fwu_inv s -> ends (tfm_fwu_cancel cfg msg) (fmoved TFM_FWU_CANCEL (components cfg) s) s.
Proof.
  intros Hi. unfold tfm_fwu_cancel. apply wp_bind, wp_check; [intros _|intros _; by apply fm_none].
  apply wp_bind, wp_read_component; [|intros s' Ha; by apply fm_none]. intros c s1 Ha Hc.
  apply wp_bind, wp_get_ctx, wp_bind, wp_check; [|intros _; by apply fm_none]. intros [Hu Hs]%andb_true_iff.
  unfold set_component_failed. apply wp_bind, wp_get_ctx, wp_put_ctx.
  apply orb_true_iff in Hs as [Hs%Z.eqb_eq|Hs%Z.eqb_eq]; apply fm_replace; rewrite ?Hs; try done; try set_solver; constructor.
Qed.

Lemma clean_ok msg s : fwu_inv s -> ends (tfm_fwu_clean cfg msg) (fmoved TFM_FWU_CLEAN (components cfg) s) s.
Proof.
  intros Hi. unfold tfm_fwu_clean. apply wp_bind, wp_check; [intros _|intros _; by apply fm_none].
  apply wp_bind, wp_read_component; [|intros s' Ha; by apply fm_none]. intros c s1 Ha Hc.
  apply wp_bind, wp_get_ctx, wp_bind, wp_check; [|intros _; by apply fm_none]. intros [Hu Hs]%andb_true_iff.
  apply wp_bind, wp_boot_quiet; [apply law_clean| |intros e s2 Ha2; apply fm_none; [done|by eapply alike_trans]].
  intros _ s2 Ha2. apply wp_put_ctx. assert (alike s s2) as Hs2 by (by eapply alike_trans). destruct (alike_inv s s1 Ha Hi c Hu) as [_ Hr].
  assert (component_state (fwu_ctx s1 c) ∈ [PSA_FWU_FAILED; PSA_FWU_UPDATED] /\ reported (boot s2) c = PSA_FWU_READY) as [Hst Hr2].
  { destruct Ha2 as [_ ->]. apply orb_true_iff in Hs as [Hs%Z.eqb_eq|Hs%Z.eqb_eq]; rewrite Hs in Hr |- *; (split; [set_solver|by apply Hr]). }
  eapply (fm_one _ s s2 _ c); [done|done|done|done|done|by apply put_ok|]. right. rewrite put_state. cbn [in_use]. rewrite Hr2.
  rewrite (alike_state s1 s2 c Ha2). unfold state_of. rewrite Hu. by constructor.
Qed.

(** *** Acceptance and rejection *)

(** The states of the components are those of [s]. *)
Definition same_states s s' : Prop := fwu_inv s' /\ forall c, state_of s' c = state_of s c.

Lemma same_alike s s1 s' : same_states s s1 -> alike s1 s' -> same_states s s'.
Proof. intros [Hi Hs] Ha. split; [by eapply alike_inv|]. intros c. by rewrite (alike_state s1 s' c Ha). Qed.

Lemma same_refl s : fwu_inv s -> same_states s s.
Proof. done. Qed.

Lemma fm_states t cs s s' : same_states s s' -> fmoved t cs s s'.
Proof. intros [Hi Hs]. split; [done|by intros|]. intros c _. left. apply Hs. Qed.

Lemma fm_before t cs s s1 s2 : same_states s s1 -> fmoved t cs s1 s2 -> fmoved t cs s s2.
Proof.
  intros [_ Hs] [I O M]. split; [done| |]; intros c Hc; rewrite <- (Hs c); [by apply O|by apply M].
Qed.

(** Taking a running image on trial under update moves nothing. *)
Lemma same_claim s c e : fwu_inv s -> in_use (fwu_ctx s c) = false -> reported (boot s) c = PSA_FWU_TRIAL ->
  same_states s (Fwu (<[c := FwuCtx e PSA_FWU_TRIAL true]> (fwu_ctx s)) (boot s) (fwu_invec s) (fwu_outvec s)).
Proof.
  intros Hi Hu Hr. split.
  - intros d. destruct (decide (d = c)) as [->|Hd]; [apply put_ok; intros _; cbn [component_state]; split; [set_solver|done]|].
    unfold component_ok. cbn [fwu_ctx boot]. rewrite fn_lookup_insert_ne by done. apply Hi.
  - intros d. destruct (decide (d = c)) as [->|Hd]; [rewrite put_state; cbn [in_use component_state]; unfold state_of; by rewrite Hu, Hr|].
    unfold state_of. cbn [fwu_ctx boot]. by rewrite fn_lookup_insert_ne.
Qed.

(** On trial, as the service has recorded. *)
Definition on_trial s c : Prop := in_use (fwu_ctx s c) = true /\ component_state (fwu_ctx s c) = PSA_FWU_TRIAL.

Lemma wp_trials s cs trials s1 : same_states s s1 -> (forall c, c ∈ trials -> on_trial s1 c) ->
  wp (accept_trials stack cs trials)
    (fun r s' => same_states s s' /\ (forall c, c ∈ r -> on_trial s' c /\ (c ∈ trials \/ c ∈ cs))) (fun _ s' => same_states s s') s1.
Proof.
  revert trials s1. induction cs as [|c cs IH]; intros trials s1 Hs Ht; cbn [accept_trials].
  - apply wp_ret. split; [done|]. intros c Hc. split; [by apply Ht|by left].
  - assert (forall trials' s2, same_states s s2 -> (forall d, d ∈ trials' -> on_trial s2 d /\ (d ∈ trials \/ d = c)) ->
      wp (accept_trials stack cs trials') (fun r s' => same_states s s' /\ (forall d, d ∈ r -> on_trial s' d /\ (d ∈ trials \/ d ∈ c :: cs))) (fun _ s' => same_states s s') s2) as Hgo.
    { intros trials' s2 Hs2 Ht2. eapply wp_mono; [apply IH; [done|]; intros d Hd; by apply Ht2| |done]. intros r s' [Hs' Hr]. split; [done|]. intros d Hd.
      destruct (Hr d Hd) as [Hon Hin]. split; [done|]. destruct Hin as [Hin|Hin]; [|right; by right]. destruct (Ht2 d Hin) as [_ [?| ->]]; [by left|right; left]. }
    assert (forall s2 d, alike s1 s2 -> on_trial s1 d -> on_trial s2 d) as Hal by (intros s2 d [Hc _]; unfold on_trial; by rewrite Hc).
    apply wp_bind, wp_get_ctx. destruct (in_use (fwu_ctx s1 c)) eqn:Hu.
    + apply Hgo; [done|]. destruct (Z.eqb_spec (component_state (fwu_ctx s1 c)) PSA_FWU_TRIAL) as [Hst|Hst]; intros d Hd; [|split; [by apply Ht|by left]].
      apply elem_of_app in Hd as [Hd|Hd]; [split; [by apply Ht|by left]|]. apply elem_of_cons in Hd as [->|Hd]; [by split; [split|right]|by apply not_elem_of_nil in Hd].
    + apply wp_bind, wp_query; [|intros e s2 Ha2 _; by eapply same_alike]. intros s2 Ha2. assert (same_states s s2) as Hs2 by (by eapply same_alike).
      destruct (Z.eqb_spec (reported (boot s1) c) PSA_FWU_TRIAL) as [Hr|Hr]; [|apply Hgo; [done|]; intros d Hd; split; [by apply Hal, Ht|by left]].
      apply wp_bind, wp_put_ctx, Hgo.
      * destruct Hs2 as [Hi2 Hst2], Ha2 as [Hc2 Hb2]. pose proof (same_claim s2 c (fwu_error (fwu_ctx s1 c)) Hi2) as [Hi3 Hst3]; [by rewrite Hc2|by rewrite Hb2|].
        split; [done|]. intros d. by rewrite Hst3.
      * intros d Hd. apply elem_of_app in Hd as [Hd|Hd].
        -- split; [|by left]. specialize (Hal s2 d Ha2 (Ht d Hd)). unfold on_trial in Hal |- *. cbn [fwu_ctx].
           destruct (decide (d = c)) as [->|Hne]; [by rewrite fn_lookup_insert|by rewrite fn_lookup_insert_ne].
        -- apply elem_of_cons in Hd as [->|Hd]; [|by apply not_elem_of_nil in Hd]. split; [|by right]. unfold on_trial. cbn [fwu_ctx]. by rewrite fn_lookup_insert.
Qed.

Lemma wp_accept_outcome cs (E : psa_status_t -> st -> Prop) s :
  wp (accept_outcome cs) (fun _ s' => boot s' = boot s /\
    forall c, fwu_ctx s' c = if decide (c ∈ cs) then FwuCtx (fwu_error (fwu_ctx s c)) PSA_FWU_UPDATED (in_use (fwu_ctx s c)) else fwu_ctx s c) E s.
Proof.
  revert s. induction cs as [|c cs IH]; intros s; cbn [accept_outcome].
  - apply wp_ret. split; [done|]. intros c. rewrite decide_False; [done|]. apply not_elem_of_nil.
  - apply wp_bind, wp_bind, wp_get_ctx, wp_put_ctx. eapply wp_mono; [apply IH| |done]. intros _ s2 [Hb2 Hc2]. split; [by rewrite Hb2|]. intros d. rewrite Hc2. cbn [fwu_ctx].
    destruct (decide (d = c)) as [->|Hne]; [rewrite fn_lookup_insert|rewrite fn_lookup_insert_ne by done].
    + rewrite (decide_True _ _ (P := c ∈ c :: cs)) by left. by case_decide.
    + destruct (decide (d ∈ cs)), (decide (d ∈ c :: cs)); try done; set_solver.
Qed.

Lemma accept_ok s : fwu_inv s -> ends (tfm_fwu_accept cfg stack) (fmoved TFM_FWU_ACCEPT (components cfg) s) s.
Proof.
  intros Hi. unfold tfm_fwu_accept. destruct (FWU_SUPPORT_TRIAL_STATE cfg); [|by apply wp_fail, fm_none].
  apply wp_bind. eapply wp_mono; [apply (wp_trials s (components cfg) []); [by apply same_refl|]; intros c Hc; by apply not_elem_of_nil in Hc| |intros e s' Hs; by apply fm_states].
  cbv beta. intros trials s1 [Hs1 Ht]. apply wp_bind, wp_check; [intros _|intros _; by apply fm_states]. apply wp_bind, wp_on_boot. pose proof Hs1 as [Hi1 _].
  assert (forall b s2, boot s2 = b -> (forall c, c ∉ trials -> reported b c = reported (boot s1) c) -> (forall c, c ∉ trials -> fwu_ctx s2 c = fwu_ctx s1 c) ->
    (forall c, c ∈ trials -> component_ok s2 c /\ (state_of s2 c = state_of s1 c \/ fwu_move TFM_FWU_ACCEPT (state_of s1 c) (state_of s2 c))) ->
    fmoved TFM_FWU_ACCEPT (components cfg) s s2) as Hend.
  { intros b s2 Hb2 Hr Hc2 Hin. eapply fm_before; [exact Hs1|]. assert (forall c, c ∉ trials -> state_of s2 c = state_of s1 c) as Hno.
    { intros c Hc. unfold state_of. by rewrite Hc2, Hb2, Hr by done. }
    split.
    - intros c. destruct (decide (c ∈ trials)) as [Hc|Hc]; [by apply Hin|]. unfold component_ok. rewrite Hc2, Hb2, Hr by done. apply Hi1.
    - intros c Hc. apply Hno. intros Hct. destruct (Ht c Hct) as [_ [Hn|Hn]]; [by apply not_elem_of_nil in Hn|done].
    - intros c _. destruct (decide (c ∈ trials)) as [Hc|Hc]; [by apply Hin|left; by apply Hno]. }
  eapply wp_mono; [apply law_accept| |].
  - intros _ b [Ho Hr]. eapply wp_mono; [apply (wp_accept_outcome _ (fun _ _ => False))| |done]. cbn [fwu_ctx boot]. intros _ s2 [Hb2 Hc2]. apply (Hend b); [done|done| |].
    + intros c Hc. by rewrite Hc2, decide_False.
    + intros c Hc. destruct (Ht c Hc) as [[Hu Hst] _]. unfold component_ok, state_of. rewrite Hc2, decide_True, Hb2 by done. cbn [in_use component_state]. rewrite Hu, Hst.
      split; [|right; constructor]. intros _. split; [set_solver|]. intros _ _. by apply Hr.
  - intros e b Ho. apply (Hend b); [done|done|done|]. intros c Hc. destruct (Ht c Hc) as [[Hu Hst] _]. unfold component_ok, state_of. cbn [fwu_ctx boot]. rewrite Hu, Hst.
    split; [|by left]. intros _. split; [set_solver|done].
Qed.

Lemma wp_reject_trial c e s : fwu_inv s -> on_trial s c -> ends (reject_trial c e) (fmoved TFM_FWU_REJECT [c] s) s.
Proof.
  intros Hi [Hu Hst]. unfold reject_trial. apply wp_bind, wp_try_any, wp_on_boot.
  assert (forall b v, v ∈ [PSA_FWU_REJECTED; PSA_FWU_FAILED] -> (forall d, d <> c -> reported b d = reported (boot s) d) -> (v = PSA_FWU_REJECTED \/ reported b c = PSA_FWU_READY) ->
    fmoved TFM_FWU_REJECT [c] s (Fwu (<[c := FwuCtx e v (in_use (fwu_ctx s c))]> (fwu_ctx s)) b (fwu_invec s) (fwu_outvec s))) as Hput.
  { intros b v Hv Hb Hr. set (s' := Fwu (fwu_ctx s) b (fwu_invec s) (fwu_outvec s)). eapply (fm_put _ s _ c); [done|done|done|apply (put_ok s')|right; rewrite (put_state s')].
    - intros _. cbn [component_state]. split; [set_solver|]. intros _ Hn. by destruct Hr.
    - cbn [in_use component_state]. unfold state_of. rewrite Hu, Hst. by constructor. }
  eapply wp_mono; [apply law_reject_trial| |].
  - intros u b [Ho Hr]. cbn [status_of]. apply wp_bind. unfold set_component_failed. apply wp_bind, wp_get_ctx, wp_put_ctx, wp_ret, Hput; [set_solver|done|by right].
  - intros r b [Hr Hb]. cbn [status_of]. destruct (_ || _).
    + apply wp_bind. unfold set_component_failed. apply wp_bind, wp_get_ctx, wp_put_ctx, wp_ret, Hput; [set_solver|intros d _; cbn [boot]; by rewrite Hb|by left].
    + rewrite (proj2 (Z.eqb_neq r _) Hr). by apply wp_fail, fm_none.
Qed.

Lemma wp_reject_loop e cs found status s : fwu_inv s -> NoDup cs -> ends (reject_loop stack e cs found status) (fmoved TFM_FWU_REJECT cs s) s.
Proof.
  revert found status s. induction cs as [|c cs IH]; intros found status s Hi Hnd; cbn [reject_loop].
  { case found; [apply wp_of_status|apply wp_fail]; intros; by apply fm_refl. }
  apply NoDup_cons in Hnd as [Hc Hnd].
  assert (forall f v s1, fmoved TFM_FWU_REJECT [c] s s1 -> ends (reject_loop stack e cs f v) (fmoved TFM_FWU_REJECT (c :: cs) s) s1) as Hnext.
  { intros f v s1 Hm. eapply wp_mono; [by apply IH; [apply Hm|]| |]; intros x s2 Hm2; (apply (fm_trans _ [c] cs s s1 s2); [set_solver|done|done]). }
  assert (forall s1, fmoved TFM_FWU_REJECT [c] s s1 -> fmoved TFM_FWU_REJECT (c :: cs) s s1) as Hstop by (intros s1; apply fm_weaken; set_solver).
  assert (forall s1, fwu_inv s1 -> on_trial s1 c -> (forall s2, fmoved TFM_FWU_REJECT [c] s1 s2 -> fmoved TFM_FWU_REJECT [c] s s2) ->
    ends (let* status := reject_trial c e in reject_loop stack e cs true status) (fmoved TFM_FWU_REJECT (c :: cs) s) s1) as Htrial.
  { intros s1 Hi1 Ht Hback. apply wp_bind. eapply wp_mono; [by apply wp_reject_trial| |].
    - intros v s2 Hm. by apply Hnext, Hback.
    - intros r s2 Hm. by apply Hstop, Hback. }
  apply wp_bind, wp_get_ctx. destruct (in_use (fwu_ctx s c)) eqn:Hu.
  - destruct (Z.eqb_spec (component_state (fwu_ctx s c)) PSA_FWU_STAGED) as [Hs|Hs].
    + apply wp_bind. unfold set_component_failed. apply wp_bind, wp_get_ctx, wp_put_ctx. set (s1 := Fwu _ _ _ _).
      assert (fmoved TFM_FWU_REJECT [c] s s1) as Hm.
      { destruct (Hi c Hu) as [_ Hr]. rewrite Hs in Hr. eapply (fm_put _ s s1 c); [done|done|done|apply put_ok; intros _; cbn [component_state]; split; [set_solver|by intros; apply Hr]|].
        right. unfold s1. rewrite put_state. cbn [in_use component_state]. unfold state_of. rewrite Hu, Hs. constructor. }
      apply wp_bind, wp_boot_quiet; [apply law_reject_staged| |]; intros a s2 Ha.
      * apply Hnext. apply (fm_trans _ [c] [] s s1 s2); [set_solver|done|]. apply fm_none; [apply Hm|done].
      * apply Hstop. apply (fm_trans _ [c] [] s s1 s2); [set_solver|done|]. apply fm_none; [apply Hm|done].
    + destruct (Z.eqb_spec (component_state (fwu_ctx s c)) PSA_FWU_TRIAL) as [Ht|Ht]; [by apply Htrial|]. apply Hnext, fm_none; [done|apply alike_refl].
  - apply wp_bind, wp_query; [|intros r s1 Ha _; apply Hstop; by apply fm_none]. intros s1 Ha. destruct (Z.eqb_spec (reported (boot s) c) PSA_FWU_TRIAL) as [Hr|Hr]; [|by apply Hnext, fm_none].
    apply wp_bind, wp_put_ctx. pose proof Ha as [Hc1 Hb1].
    assert (same_states s (Fwu (<[c := FwuCtx (fwu_error (fwu_ctx s c)) PSA_FWU_TRIAL true]> (fwu_ctx s1)) (boot s1) (fwu_invec s1) (fwu_outvec s1))) as Hs2.
    { pose proof (same_claim s1 c (fwu_error (fwu_ctx s c)) (alike_inv s s1 Ha Hi)) as [Hi2 Hst2]; [by rewrite Hc1|by rewrite Hb1|].
      split; [done|]. intros d. rewrite Hst2. by apply alike_state. }
    apply Htrial; [apply Hs2|unfold on_trial; by rewrite put_same|]. intros s2. by apply fm_before.
Qed.

Lemma reject_ok msg s : fwu_inv s -> ends (tfm_fwu_reject cfg stack msg) (fmoved TFM_FWU_REJECT (components cfg) s) s.
Proof.
  intros Hi. unfold tfm_fwu_reject. apply wp_bind, wp_check; [intros _|intros _; by apply fm_none]. apply wp_bind, wp_fwu_read. intros d s1 Ha.
  apply wp_bind, wp_check; [intros _|intros _; by apply fm_none]. eapply wp_mono; [apply wp_reject_loop; [by eapply alike_inv|apply NoDup_seqZ]| |]; intros x s2; by apply fm_alike.
Qed.

(** *** Installation *)

Definition is_candidate s c : bool := in_use (fwu_ctx s c) && (component_state (fwu_ctx s c) =? PSA_FWU_CANDIDATE).

(** Staged or rejected images, or a running image on trial, stand in the way. *)
Definition in_the_way s c : bool :=
  if in_use (fwu_ctx s c) then (component_state (fwu_ctx s c) =? PSA_FWU_STAGED) || (component_state (fwu_ctx s c) =? PSA_FWU_REJECTED)
  else reported (boot s) c =? PSA_FWU_TRIAL.

Lemma wp_candidates s cs cands s1 : alike s s1 ->
  wp (install_candidates stack cs cands)
    (fun r s' => alike s s' /\ r = cands ++ List.filter (is_candidate s) cs /\ (forall c, c ∈ cs -> in_the_way s c = false))
    (fun e s' => alike s s' /\ (e = PSA_ERROR_BAD_STATE /\ (exists c, c ∈ cs /\ in_the_way s c = true) \/ query_failed e)) s1.
Proof.
  revert cands s1. induction cs as [|c cs IH]; intros cands s1 Ha; cbn [install_candidates List.filter].
  { apply wp_ret. rewrite app_nil_r. split_and!; [done|done|]. intros c Hc. by apply not_elem_of_nil in Hc. }
  pose proof Ha as [Hc Hb]. apply wp_bind, wp_get_ctx. rewrite Hc.
  assert (forall cands' s2, in_the_way s c = false -> alike s s2 -> cands' = (if is_candidate s c then cands ++ [c] else cands) ->
    wp (install_candidates stack cs cands')
      (fun r s' => alike s s' /\ r = cands ++ (if is_candidate s c then c :: List.filter (is_candidate s) cs else List.filter (is_candidate s) cs) /\
        forall d, d ∈ c :: cs -> in_the_way s d = false)
      (fun e s' => alike s s' /\ (e = PSA_ERROR_BAD_STATE /\ (exists d, d ∈ c :: cs /\ in_the_way s d = true) \/ query_failed e)) s2) as Hgo.
  { intros cands' s2 Hw Ha2 ->. eapply wp_mono; [by apply IH| |].
    - intros r s3 (Ha3 & -> & Hf). split_and!; [done|by case_match; [rewrite <- app_assoc|]|]. intros d [->|Hd]%elem_of_cons; [done|by apply Hf].
    - intros e s3 (Ha3 & He). split; [done|]. destruct He as [(-> & d & Hd & Hdw)|He]; [left; split; [done|]; exists d; by split; [right|]|by right]. }
  assert (in_the_way s c = true -> exists d, d ∈ c :: cs /\ in_the_way s d = true) as Hstop by (intros Hw; exists c; by split; [left|]).
  unfold in_the_way at 1 in Hgo. unfold in_the_way at 1 in Hstop. unfold is_candidate at 1 in Hgo. destruct (in_use (fwu_ctx s c)); cbn [andb] in Hgo.
  - destruct (_ || _); [apply wp_fail; split; [done|left; split; [done|by apply Hstop]]|by apply Hgo].
  - apply wp_bind, wp_query; [|intros e s2 Ha2 He; split; [by eapply alike_trans|by right]]. intros s2 Ha2. rewrite Hb. assert (alike s s2) as Hs2 by (by eapply alike_trans).
    apply wp_bind, wp_check; [intros Hw%negb_true_iff; by apply Hgo|intros Hw%negb_false_iff; split; [done|left; split; [done|by apply Hstop]]].
Qed.

(** What becomes of a candidate. *)
Definition outcome (status : psa_status_t) (x : tfm_fwu_ctx_t) : tfm_fwu_ctx_t :=
  if status =? PSA_SUCCESS then FwuCtx (fwu_error x) (if FWU_SUPPORT_TRIAL_STATE cfg then PSA_FWU_TRIAL else PSA_FWU_UPDATED) (in_use x)
  else if negb (status =? PSA_SUCCESS_REBOOT) && negb (status =? PSA_SUCCESS_RESTART) then FwuCtx status PSA_FWU_FAILED (in_use x)
  else FwuCtx (fwu_error x) PSA_FWU_STAGED (in_use x).

Lemma outcome_again status x : outcome status (outcome status x) = outcome status x.
Proof. unfold outcome. by repeat case_match. Qed.

Lemma wp_outcome status cs (E : psa_status_t -> st -> Prop) s :
  wp (install_outcome cfg status cs) (fun _ s' => boot s' = boot s /\ forall c, fwu_ctx s' c = if decide (c ∈ cs) then outcome status (fwu_ctx s c) else fwu_ctx s c) E s.
Proof.
  revert s. induction cs as [|c cs IH]; intros s; cbn [install_outcome].
  - apply wp_ret. split; [done|]. intros c. rewrite decide_False; [done|]. apply not_elem_of_nil.
  - assert (forall s', boot s' = boot s -> fwu_ctx s' = <[c := outcome status (fwu_ctx s c)]> (fwu_ctx s) ->
      wp (install_outcome cfg status cs) (fun _ s' => boot s' = boot s /\ forall d, fwu_ctx s' d = if decide (d ∈ c :: cs) then outcome status (fwu_ctx s d) else fwu_ctx s d) E s') as Hnext.
    { intros s' Hb Hx. eapply wp_mono; [apply IH| |done]. intros _ s2 [Hb2 Hc2]. split; [by rewrite Hb2|]. intros d. rewrite Hc2, Hx.
      destruct (decide (d = c)) as [->|Hne]; [rewrite fn_lookup_insert|rewrite fn_lookup_insert_ne by done].
      - rewrite outcome_again. rewrite (decide_True _ _ (P := c ∈ c :: cs)) by left. by case_decide.
      - destruct (decide (d ∈ cs)), (decide (d ∈ c :: cs)); try done; set_solver. }
    apply wp_bind. eapply (wp_mono _ (fun _ s' => boot s' = boot s /\ fwu_ctx s' = <[c := outcome status (fwu_ctx s c)]> (fwu_ctx s)) _ E); [|by intros _ s' [Hb Hx]; apply Hnext|done].
    unfold outcome. destruct (status =? PSA_SUCCESS); [done|]. by destruct (negb (status =? PSA_SUCCESS_REBOOT) && negb (status =? PSA_SUCCESS_RESTART)).
Qed.

Context (the_trial : FWU_SUPPORT_TRIAL_STATE cfg = trial).

Lemma install_ok s : fwu_inv s -> ends (tfm_fwu_install cfg stack) (fmoved TFM_FWU_INSTALL (components cfg) s) s.
Proof.
  intros Hi. unfold tfm_fwu_install. apply wp_bind. eapply wp_mono; [apply (wp_candidates s (components cfg) []), alike_refl| |intros e s' [Ha _]; by apply fm_none].
  cbv beta. intros cands s1 (Ha1 & -> & _). cbn [app]. set (cands := List.filter _ _). apply wp_bind, wp_check; [intros _|intros _; by apply fm_none].
  assert (forall c, c ∈ cands -> c ∈ components cfg /\ in_use (fwu_ctx s c) = true /\ component_state (fwu_ctx s c) = PSA_FWU_CANDIDATE /\ reported (boot s) c = PSA_FWU_READY) as Hcands.
  { intros c [Hc Hf]%list_elem_of_In%List.filter_In. apply list_elem_of_In in Hc. apply andb_true_iff in Hf as [Hu Hst%Z.eqb_eq].
    destruct (Hi c Hu) as [_ Hr]. rewrite Hst in Hr. split_and!; [done|done|done|by apply Hr]. }
  apply wp_bind, wp_try_any, wp_on_boot. destruct Ha1 as [Hc1 Hb1].
  assert (forall (r : res unit) b, (forall c, c ∉ cands -> reported b c = reported (boot s) c) ->
      (~ (status_of r = PSA_SUCCESS /\ FWU_SUPPORT_TRIAL_STATE cfg = true) -> reported b = reported (boot s)) ->
      wp (if status_of r =? PSA_ERROR_DEPENDENCY_NEEDED then fail (status_of r) else let* _ := install_outcome cfg (status_of r) cands in of_status (status_of r))
        (fun _ => fmoved TFM_FWU_INSTALL (components cfg) s) (fun _ => fmoved TFM_FWU_INSTALL (components cfg) s) (Fwu (fwu_ctx s1) b (fwu_invec s1) (fwu_outvec s1))) as Hend.
  { intros r b Hoth Hsame. destruct (Z.eqb_spec (status_of r) PSA_ERROR_DEPENDENCY_NEEDED) as [Hd|Hd].
    { apply wp_fail, fm_none; [done|]. split; [done|]. apply Hsame. intros [Hs _]. rewrite Hs in Hd. done. }
    apply wp_bind. eapply wp_mono; [apply (wp_outcome _ _ (fun _ _ => False))| |done]. cbv beta. cbn [fwu_ctx boot]. rewrite Hc1. intros _ s2 [Hb2 Hc2].
    assert (fmoved TFM_FWU_INSTALL (components cfg) s s2) as Hm; [|apply wp_of_status; done].
    assert (forall c, c ∉ cands -> state_of s2 c = state_of s c) as Hno.
    { intros c Hc. unfold state_of. rewrite Hc2, decide_False, Hb2, Hoth by done. done. }
    split.
    - intros c. unfold component_ok. rewrite Hc2, Hb2. case_decide as Hc; [|rewrite Hoth by done; apply Hi]. destruct (Hcands c Hc) as (_ & Hu & Hst & Hr).
      intros _. unfold outcome. destruct (Z.eqb_spec (status_of r) PSA_SUCCESS) as [Hs|Hs]; cbn [component_state].
      + destruct (FWU_SUPPORT_TRIAL_STATE cfg); [split; [set_solver|done]|]. split; [set_solver|]. intros _ _. rewrite Hsame by (by intros [_ ?]). exact Hr.
      + rewrite Hsame by (by intros [? _]). repeat case_match; cbn [component_state]; (split; [set_solver|done]).
    - intros c Hc. apply Hno. intros Hin. by apply Hc, Hcands.
    - intros c _. destruct (decide (c ∈ cands)) as [Hc|Hc]; [right|left; by apply Hno]. destruct (Hcands c Hc) as (_ & Hu & Hst & _).
      assert (state_of s c = PSA_FWU_CANDIDATE) as -> by (unfold state_of; by rewrite Hu). unfold state_of. rewrite Hc2, decide_True by done.
      unfold outcome. repeat case_match; cbn [in_use component_state] in *; try congruence; constructor; set_solver. }
  rewrite <- Hb1 in Hend. eapply wp_mono; [apply law_install| |].
  - intros u b [Hoth Htr]. apply (Hend (Ok u)); [done|]. intros Hn. apply Htr. rewrite <- the_trial. apply not_true_is_false. intros Ht. by apply Hn.
  - intros e b Hb. apply (Hend (Err e)); [by rewrite Hb|by intros _].
Qed.

(** *** The other requests *)

Lemma query_ok msg s : fwu_inv s -> ends (tfm_fwu_query cfg stack msg) (fmoved TFM_FWU_QUERY [] s) s.
Proof.
  intros Hi. unfold tfm_fwu_query. apply wp_bind, wp_check; [intros _|intros _; by apply fm_none].
  apply wp_bind, wp_read_component; [|intros s' Ha; by apply fm_none]. intros c s1 Ha Hc. apply wp_bind, wp_get_ctx. cbv zeta. apply wp_bind, wp_boot_quiet.
  - eapply wp_mono; [apply law_info| |]; [by intros i b' [Hb _]|done].
  - intros i s2 Ha2. apply fm_none; [done|]. destruct (alike_trans s s1 s2 Ha Ha2). by split.
  - intros e s2 Ha2. apply fm_none; [done|]. by eapply alike_trans.
Qed.

(** A request ends with moves of its own. *)
Lemma request_ok msg s : fwu_inv s -> ends (tfm_firmware_update_service_sfn cfg stack msg) (fmoved (msg_type msg) (components cfg) s) s.
Proof.
  intros Hi. unfold tfm_firmware_update_service_sfn. cbv zeta.
  repeat match goal with |- context [msg_type msg =? ?t] => destruct (Z.eqb_spec (msg_type msg) t) as [->|?] end.
  - by apply start_ok.
  - by apply write_ok.
  - by apply finish_ok.
  - by apply install_ok.
  - by apply cancel_ok.
  - by apply clean_ok.
  - eapply wp_mono; [by apply query_ok| |]; intros x s'; (apply fm_weaken; set_solver).
  - apply wp_ret. by apply fm_none.
  - by apply accept_ok.
  - by apply reject_ok.
  - apply wp_fail. by apply fm_none.
Qed.

Lemma call_ok msg vecs s : fwu_inv s -> ends (fwu_call cfg stack msg vecs) (fmoved (msg_type msg) (components cfg) s) s.
Proof.
  intros Hi. unfold fwu_call. apply wp_bind. unfold wp, modify. eapply wp_mono; [apply request_ok; exact Hi| |]; intros x s'; by apply fm_alike.
Qed.
End spec.
