(* ===== verification/FwuClaims.v ===== *)
(** * The firmware update service: what it does for its clients

    The moves of the components over any run, the requests it refuses, what
    reaches the bootloader of a block and of an installation, each with a run
    of a concrete bootloader. *)

From S2P Require Import Prelude Bytes ItsUtils ItsFlash ItsMeta ItsMblock ItsFs ItsService FwuManager FwuSpec.
From stdpp Require Import base list numbers functions sets.
From Stdlib Require Import ZArith Lia.

Open Scope Z_scope.
Open Scope tfm_scope.

Section claims.
Context {B : Type} `{FwuBootloader B} (cfg : fwu_config).
Implicit Types (s : fwu_st B) (c : Z) (cs : list Z).

(** *** A message that addresses a component *)

(** The sizes the manager asks for before it reads the component. *)
Definition well_sized (msg : psa_msg_t) : Prop :=
  nth 0 (in_size msg) 0 = 1 /\
  (msg_type msg = TFM_FWU_START -> nth 1 (in_size msg) 0 <= TFM_CONFIG_FWU_MAX_MANIFEST_SIZE cfg) /\
  (msg_type msg = TFM_FWU_WRITE -> nth 1 (in_size msg) 0 = 4 /\ nth 2 (in_size msg) 0 <= PSA_FWU_MAX_WRITE_SIZE cfg).

(** The states in which a request is served. *)
Definition served (t v : Z) : bool :=
  if t =? TFM_FWU_START then v =? PSA_FWU_READY
  else if (t =? TFM_FWU_WRITE) || (t =? TFM_FWU_FINISH) then v =? PSA_FWU_WRITING
  else if t =? TFM_FWU_CANCEL then (v =? PSA_FWU_WRITING) || (v =? PSA_FWU_CANDIDATE)
  else (v =? PSA_FWU_FAILED) || (v =? PSA_FWU_UPDATED).

Definition addressing : list Z := [TFM_FWU_START; TFM_FWU_WRITE; TFM_FWU_FINISH; TFM_FWU_CANCEL; TFM_FWU_CLEAN].

(** The call with its vectors in place. *)
Definition called s (vecs : list (list Z)) : fwu_st B := Fwu (fwu_ctx s) (boot s) vecs [[]].

(** The component read. *)
Lemma wp_component c s (Q : Z -> fwu_st B -> Prop) (E : psa_status_t -> fwu_st B -> Prop) :
  nth 0 (fwu_invec s) [] = [c] -> 0 <= c < 256 -> c ∈ components cfg ->
  Q c (Fwu (fwu_ctx s) (boot s) (<[0%nat := []]> (fwu_invec s)) (fwu_outvec s)) -> wp (read_component cfg) Q E s.
Proof.
  intros Hv Hb [Hc1 Hc2]%elem_of_seqZ HQ. unfold read_component, fwu_read. apply wp_bind, wp_bind. unfold wp, get. apply wp_bind. unfold wp, put. rewrite Hv.
  change (sub_bytes 0 (Z.min 1 (zlen [c])) [c]) with [c]. change (sub_bytes (Z.min 1 (zlen [c])) (zlen [c] - Z.min 1 (zlen [c])) [c]) with (@nil Z).
  cbn [ret le_val]. assert (u8 (c + 256 * 0) = c) as -> by (unfold u8; rewrite Z.mod_small; lia). unfold bind, check.
  rewrite (proj2 (Z.ltb_lt _ _)) by lia. exact HQ.
Qed.

(** Pieces of a block, one after the other. *)
Fixpoint load_pieces (c off : Z) (ps : list (list Z)) : M B unit :=
  match ps with
  | [] => ret tt
  | p :: ps => let* _ := fwu_bootloader_load_image c off p in load_pieces c (u32 (off + zlen p)) ps
  end.

(** The block [v] reached the bootloader piece by piece from [off], or as far as
    the bootloader took it. *)
Definition loaded (c off : Z) (v : list Z) s (r : res unit) s' : Prop :=
  fwu_ctx s' = fwu_ctx s /\
  exists ps, concat ps = v /\ Forall (fun p => 0 < zlen p <= TFM_FWU_BUF_SIZE cfg) ps /\ load_pieces c off ps (boot s) = (r, boot s').

(** A read from a vector that has as many bytes. *)
Lemma wp_fwu_read_exact i n s (Q : list Z -> fwu_st B -> Prop) (E : psa_status_t -> fwu_st B -> Prop) :
  n <= zlen (nth i (fwu_invec s) []) ->
  Q (sub_bytes 0 n (nth i (fwu_invec s) []))
    (Fwu (fwu_ctx s) (boot s) (<[i := sub_bytes n (zlen (nth i (fwu_invec s) []) - n) (nth i (fwu_invec s) [])]> (fwu_invec s)) (fwu_outvec s)) ->
  wp (fwu_read i n) Q E s.
Proof. intros Hn HQ. unfold wp, fwu_read, bind, get, put, ret. cbv zeta. by rewrite (Z.min_l n) by done. Qed.

Lemma nth_insert (l : list (list Z)) i w : (i < length l)%nat -> nth i (<[i := w]> l) [] = w.
Proof. intros Hl. rewrite nth_lookup, list_lookup_insert_eq by done. done. Qed.

Lemma singletons (v : list Z) n : 0 < n -> Forall (fun p => 0 < zlen p <= n) (map (fun x => [x]) v) /\ concat (map (fun x => [x]) v) = v.
Proof.
  intros Hn. induction v as [|x v [IH1 IH2]]; [done|]. cbn [map concat app]. split; [constructor; [unfold zlen; cbn [length]; lia|done]|by rewrite IH2].
Qed.

(** The loop loads the whole of the vector, buffer by buffer. *)
Lemma write_loop_loads c fuel off s v :
  0 < TFM_FWU_BUF_SIZE cfg -> nth 2 (fwu_invec s) [] = v -> (2 < length (fwu_invec s))%nat -> (Z.to_nat (zlen v) < fuel)%nat ->
  wp (write_loop cfg fuel c off (zlen v)) (fun a => loaded c off v s (Ok a)) (fun e => loaded c off v s (Err e)) s.
Proof.
  intros Hbuf. revert off s v. induction fuel as [|fuel IH]; intros off s v Hv Hl Hf; [lia|]. cbn [write_loop].
  pose proof (zlen_nonneg v) as Hpos. destruct (zlen v >? 0) eqn:Hn.
  2:{ apply wp_ret. split; [done|]. exists []. assert (v = []) as ->; [|done]. apply nil_length_inv. unfold zlen in *. lia. }
  set (n := if TFM_FWU_BUF_SIZE cfg <=? zlen v then TFM_FWU_BUF_SIZE cfg else zlen v). assert (0 < n <= zlen v /\ n <= TFM_FWU_BUF_SIZE cfg) as [Hn1 Hn2] by (unfold n; case_match; lia).
  cbv zeta. apply wp_bind, wp_fwu_read_exact; [rewrite Hv; lia|]. rewrite Hv. set (p := sub_bytes 0 n v). set (w := sub_bytes n (zlen v - n) v).
  assert (zlen p = n) as Hp by (apply zlen_sub_bytes; lia). assert (zlen w = zlen v - n) as Hw by (apply zlen_sub_bytes; lia). assert (v = p ++ w) as Hpw.
  { rewrite <- (sub_bytes_all v) at 1. replace (zlen v) with (n + (zlen v - n)) at 1 by lia. rewrite sub_bytes_split by lia. by replace (0 + n) with n by lia. }
  apply wp_bind, wp_check; [intros _|by rewrite Hp, Z.eqb_refl]. apply wp_bind, wp_on_boot. cbn [boot fwu_ctx fwu_invec fwu_outvec].
  unfold wp. destruct (fwu_bootloader_load_image c off p (boot s)) as [[u|e] b] eqn:Hload.
  - rewrite <- Hw, <- Hp. set (s2 := Fwu _ b _ _). fold (wp (write_loop cfg fuel c (u32 (off + zlen p)) (zlen w)) (fun a => loaded c off v s (Ok a)) (fun e => loaded c off v s (Err e)) s2).
    assert (forall r s', loaded c (u32 (off + zlen p)) w s2 r s' -> loaded c off v s r s') as Hback.
    { intros r s' (Hc & ps & Hps & Hall & Hrun). split; [done|]. exists (p :: ps). cbn [concat load_pieces]. rewrite Hps, Hpw. split; [done|]. split; [constructor; [lia|done]|].
      unfold bind. by rewrite Hload. }
    eapply wp_mono; [apply IH; [by apply nth_insert|by cbn [s2 fwu_invec]; rewrite length_insert|unfold zlen in *; lia]| |]; intros x s'; apply Hback.
  - split; [done|]. destruct (singletons w _ Hbuf) as [Hall Hcat]. exists (p :: map (fun x => [x]) w). cbn [concat load_pieces]. rewrite Hcat, <- Hpw.
    split; [done|]. split; [constructor; [lia|done]|]. unfold bind. by rewrite Hload.
Qed.

(** ** The state machine *)

Context {trial : bool} `{!FwuLaws B trial}.

(** Calls one after the other; every call has its own stack. *)
Fixpoint fwu_run (calls : list (psa_fwu_component_info_t * psa_msg_t * list (list Z))) s : fwu_st B :=
  match calls with
  | [] => s
  | (stack, msg, vecs) :: calls => fwu_run calls (fwu_call cfg stack msg vecs s).2
  end.

Lemma call_moves stack msg vecs s : FWU_SUPPORT_TRIAL_STATE cfg = trial -> fwu_inv s -> fmoved (msg_type msg) (components cfg) s (fwu_call cfg stack msg vecs s).2.
Proof.
  intros Ht Hi. pose proof (call_ok cfg stack Ht msg vecs s Hi) as Hm. unfold wp in Hm. by destruct (fwu_call cfg stack msg vecs s) as [[]].
Qed.

Lemma fwu_run_inv calls s : FWU_SUPPORT_TRIAL_STATE cfg = trial -> fwu_inv s -> fwu_inv (fwu_run calls s).
Proof.
  intros Ht. revert s. induction calls as [|[[stack msg] vecs] calls IH]; intros s Hi; [done|]. cbn [fwu_run]. apply IH. by apply call_moves.
Qed.

Lemma reset_inv s : (forall c, in_use (fwu_ctx s c) = false) -> fwu_inv s.
Proof. intros Hr c Hu. by rewrite Hr in Hu. Qed.

(** C30: after a reset and any calls, a further call, whatever its message
    holds and however it ends, leaves each component in its state or moves it
    along an arrow of the PSA state machine that belongs to the request, and
    the records of the service stay well formed. *)
Theorem fwu_components_move s0 calls stack msg vecs :
  FWU_SUPPORT_TRIAL_STATE cfg = trial -> (forall c, in_use (fwu_ctx s0 c) = false) ->
  let s := fwu_run calls s0 in
  let s' := (fwu_call cfg stack msg vecs s).2 in
  fwu_inv s' /\ forall c, state_of s' c = state_of s c \/ c ∈ components cfg /\ fwu_move (msg_type msg) (state_of s c) (state_of s' c).
Proof.
  intros Ht Hr s s'. destruct (call_moves stack msg vecs s Ht) as [Hi Ho Hm]; [by apply fwu_run_inv, reset_inv|]. split; [done|].
  intros c. destruct (decide (c ∈ components cfg)) as [Hc|Hc]; [|left; by apply Ho]. destruct (Hm c Hc); [by left|by right].
Qed.

(** ** Refusals *)

(** The bootloader can tell the state of every component. *)
Definition answers (stack : psa_fwu_component_info_t) : Prop :=
  forall b c, exists i b', fwu_bootloader_get_image_info c true false stack b = (Ok i, b').

Lemma answers_not_failed stack e : answers stack -> ~ query_failed stack e.
Proof. intros Ha (c & b & b' & Hq). destruct (Ha b c) as (i & b2 & Hq2). congruence. Qed.

(** The request ends with the error, and nothing moves. *)
Definition refused s (r : res unit) s' : Prop := r = Err PSA_ERROR_BAD_STATE /\ alike s s'.

Lemma wp_refused s s1 b (m : M (fwu_st B) unit) : alike s s1 -> b = false ->
  wp (let* _ := check b PSA_ERROR_BAD_STATE in m) (fun a => refused s (Ok a)) (fun e => refused s (Err e)) s1.
Proof. intros Ha ->. apply wp_bind, wp_check; [done|]. intros _. by split. Qed.

Lemma guard_false t s c : served t (state_of s c) = false -> in_use (fwu_ctx s c) && served t (component_state (fwu_ctx s c)) = false.
Proof. unfold state_of. by destruct (in_use (fwu_ctx s c)). Qed.

Section refusals.
Context (stack : psa_fwu_component_info_t) (msg : psa_msg_t) (s : fwu_st B) (c : Z) (vecs : list (list Z)).
Context (Hsized : well_sized msg) (Hvec : nth 0 vecs [] = [c]) (Hbyte : 0 <= c < 256) (Hc : c ∈ components cfg).

Abbreviation refuses m := (wp m (fun a => refused s (Ok a)) (fun e => refused s (Err e)) (called s vecs)).

Lemma wp_the_component (Q : Z -> fwu_st B -> Prop) E : (forall s1, alike s s1 -> Q c s1) -> wp (read_component cfg) Q E (called s vecs).
Proof. intros HQ. apply (wp_component c); [done|done|done|by apply HQ]. Qed.

Lemma size_checked (Q : unit -> fwu_st B -> Prop) E s1 : Q tt s1 -> wp (check (size_is (in_size msg) 0 1) PSA_ERROR_PROGRAMMER_ERROR) Q E s1.
Proof. intros HQ. destruct Hsized as (H0 & _). apply wp_check; [by intros _|]. unfold size_is. by rewrite H0. Qed.

Lemma start_refused : fwu_inv s -> answers stack -> msg_type msg = TFM_FWU_START -> served TFM_FWU_START (state_of s c) = false -> refuses (tfm_fwu_start cfg stack msg).
Proof.
  intros Hi Hans Ht Hs. destruct Hsized as (_ & Hsm & _). unfold tfm_fwu_start. cbv zeta. apply wp_bind, size_checked.
  apply wp_bind, wp_check; [intros _|intros Hf%negb_false_iff%Z.gtb_lt; specialize (Hsm Ht); lia]. apply wp_bind, wp_the_component. intros s1 Ha1.
  apply wp_bind. eapply (wp_mono _ (fun _ => alike s) _ (fun _ _ => False)); [|intros m s2 Ha2|done].
  - case_match; [apply wp_fwu_read; intros d s2 Ha2; by eapply alike_trans|by apply wp_ret].
  - apply wp_bind, wp_get_ctx. rewrite <- (alike_state s s2 c Ha2) in Hs. pose proof (alike_inv s s2 Ha2 Hi c) as Hok. unfold state_of in Hs.
    destruct (in_use (fwu_ctx s2 c)) eqn:Hu.
    + destruct Hok as [Hst _]; [done|]. apply wp_check; [|intros _; by split]. intros He%Z.eqb_eq. rewrite He in Hst. set_solver.
    + apply wp_bind, wp_query; [intros s3 Ha3|intros e s3 _ He; by destruct (answers_not_failed stack e)]. apply wp_refused; [by eapply alike_trans|exact Hs].
Qed.

Lemma write_refused : msg_type msg = TFM_FWU_WRITE -> served TFM_FWU_WRITE (state_of s c) = false -> refuses (tfm_fwu_write cfg msg).
Proof.
  intros Ht Hs. destruct Hsized as (H0 & _ & Hsw). destruct (Hsw Ht) as [H1 H2]. unfold tfm_fwu_write. cbv zeta.
  apply wp_bind, wp_check; [intros _|intros Hf%negb_false_iff%Z.gtb_lt; lia]. apply wp_bind, wp_check; [intros _|unfold size_is; by rewrite H0, H1].
  apply wp_bind, wp_the_component. intros s1 Ha1. apply wp_bind, wp_fwu_read. intros d s2 Ha2. assert (alike s s2) as Hs2 by (by eapply alike_trans).
  rewrite <- (alike_state s s2 c Hs2) in Hs. apply guard_false in Hs. apply wp_bind. unfold check_state. apply wp_bind, wp_get_ctx, wp_check; [intros Hx; by destruct (eq_true_false_abs _ Hx Hs)|]. intros _. by split.
Qed.

(** A guard on the record of the component, after it was read. *)
Lemma guard_refused t b (m : tfm_fwu_ctx_t -> M (fwu_st B) unit) s1 :
  alike s s1 -> served t (state_of s c) = false -> b = served t (component_state (fwu_ctx s1 c)) ->
  wp (let* _ := check (in_use (fwu_ctx s1 c) && b) PSA_ERROR_BAD_STATE in m (fwu_ctx s1 c)) (fun a => refused s (Ok a)) (fun e => refused s (Err e)) s1.
Proof. intros Ha Hs ->. apply wp_refused; [done|]. apply guard_false. by rewrite (alike_state s s1 c Ha). Qed.

Lemma finish_refused : served TFM_FWU_FINISH (state_of s c) = false -> refuses (tfm_fwu_finish cfg msg).
Proof.
  intros Hs. unfold tfm_fwu_finish. apply wp_bind, size_checked, wp_bind, wp_the_component. intros s1 Ha1.
  apply wp_bind. unfold check_state. apply wp_bind, wp_get_ctx, wp_check; [intros Hx|intros _; by split].
  rewrite <- (alike_state s s1 c Ha1) in Hs. apply guard_false in Hs. by destruct (eq_true_false_abs _ Hx Hs).
Qed.

Lemma cancel_refused : served TFM_FWU_CANCEL (state_of s c) = false -> refuses (tfm_fwu_cancel cfg msg).
Proof.
  intros Hs. unfold tfm_fwu_cancel. apply wp_bind, size_checked, wp_bind, wp_the_component. intros s1 Ha1. apply wp_bind, wp_get_ctx. by apply (guard_refused TFM_FWU_CANCEL _ (fun _ => _)).
Qed.

Lemma clean_refused : served TFM_FWU_CLEAN (state_of s c) = false -> refuses (tfm_fwu_clean cfg msg).
Proof.
  intros Hs. unfold tfm_fwu_clean. apply wp_bind, size_checked, wp_bind, wp_the_component. intros s1 Ha1. apply wp_bind, wp_get_ctx. by apply (guard_refused TFM_FWU_CLEAN _ (fun _ => _)).
Qed.
End refusals.

(** C7: starting, writing, finishing, cancelling and cleaning are refused with
    [PSA_ERROR_BAD_STATE], changing nothing, in every state of the component in
    which the PSA state machine has no such move. *)
Theorem fwu_out_of_order_refused stack msg vecs s c :
  fwu_inv s -> answers stack -> msg_type msg ∈ addressing -> well_sized msg -> nth 0 vecs [] = [c] -> 0 <= c < 256 -> c ∈ components cfg ->
  served (msg_type msg) (state_of s c) = false ->
  let '(r, s') := fwu_call cfg stack msg vecs s in
  r = Err PSA_ERROR_BAD_STATE /\ fwu_ctx s' = fwu_ctx s /\ forall d, state_of s' d = state_of s d.
Proof.
  intros Hi Hans Hin Hsz Hv Hb Hc Hs.
  assert (wp (tfm_firmware_update_service_sfn cfg stack msg) (fun a => refused s (Ok a)) (fun e => refused s (Err e)) (called s vecs)) as Hw.
  { unfold addressing in Hin. unfold tfm_firmware_update_service_sfn. repeat (apply elem_of_cons in Hin as [Ht|Hin]); [..|by apply not_elem_of_nil in Hin]; rewrite Ht in *.
    - by apply (start_refused stack msg s c).
    - by apply (write_refused msg s c).
    - by apply (finish_refused msg s c).
    - by apply (cancel_refused msg s c).
    - by apply (clean_refused msg s c). }
  unfold wp in Hw. change (fwu_call cfg stack msg vecs s) with (tfm_firmware_update_service_sfn cfg stack msg (called s vecs)).
  destruct (tfm_firmware_update_service_sfn cfg stack msg (called s vecs)) as [r s']. assert (refused s r s') as [-> Ha] by (by destruct r).
  split; [done|]. split; [apply Ha|]. intros d. by apply alike_state.
Qed.

(** ** Installation *)

(** What an installation does with the state it is given. *)
Definition installed s (r : res unit) s' : Prop :=
  let cands := List.filter (is_candidate s) (components cfg) in
  (cands = [] \/ (exists c, c ∈ components cfg /\ in_the_way s c = true) -> r = Err PSA_ERROR_BAD_STATE /\ alike s s') /\
  (cands <> [] -> (forall c, c ∈ components cfg -> in_the_way s c = false) ->
   exists b r0, reported b = reported (boot s) /\ fwu_bootloader_install_image cands b = (r0, boot s') /\ status_of r = status_of r0 /\
     forall c, fwu_ctx s' c =
       if bool_decide (c ∈ cands) && negb (status_of r0 =? PSA_ERROR_DEPENDENCY_NEEDED) then outcome cfg (status_of r0) (fwu_ctx s c) else fwu_ctx s c).

Lemma in_way_excl s : (exists c, c ∈ components cfg /\ in_the_way s c = true) -> (forall c, c ∈ components cfg -> in_the_way s c = false) -> False.
Proof. intros (c & Hc & Hw) Hn. rewrite Hn in Hw; done. Qed.

Lemma wp_installed stack s s0 : answers stack -> alike s s0 ->
  wp (tfm_fwu_install cfg stack) (fun a => installed s (Ok a)) (fun e => installed s (Err e)) s0.
Proof.
  intros Hans Ha0. unfold tfm_fwu_install. apply wp_bind. eapply wp_mono; [by apply (wp_candidates stack s (components cfg) [])| |].
  2:{ intros e s1 [Ha1 [[-> Hw]|Hq]]; [|by destruct (answers_not_failed stack e)]. split; [done|]. intros _ Hn. by destruct (in_way_excl s). }
  cbv beta. cbn [app]. intros cands s1 (Ha1 & -> & Hn). destruct (List.filter (is_candidate s) (components cfg)) as [|c0 cs] eqn:Hcs.
  { apply wp_bind, wp_check; [done|]. intros _. split; [done|]. by rewrite Hcs. }
  set (cands := c0 :: cs) in *. apply wp_bind, wp_check; [intros _|done]. apply wp_bind, wp_try_any, wp_on_boot. destruct Ha1 as [Hc1 Hb1].
  assert (forall r s2, (exists r0, fwu_bootloader_install_image cands (boot s1) = (r0, boot s2) /\ status_of r = status_of r0 /\ forall c, fwu_ctx s2 c =
    if bool_decide (c ∈ cands) && negb (status_of r0 =? PSA_ERROR_DEPENDENCY_NEEDED) then outcome cfg (status_of r0) (fwu_ctx s c) else fwu_ctx s c) -> installed s r s2) as Hdone.
  { intros r s2 (r0 & Hr). unfold installed. rewrite Hcs. split; [intros [?|Hw]; [done|by destruct (in_way_excl s)]|]. intros _ _. by exists (boot s1), r0. }
  unfold wp at 1. destruct (fwu_bootloader_install_image cands (boot s1)) as [r0 b] eqn:Hinst.
  assert (wp (if status_of r0 =? PSA_ERROR_DEPENDENCY_NEEDED then fail (status_of r0) else let* _ := install_outcome cfg (status_of r0) cands in of_status (status_of r0))
    (fun a => installed s (Ok a)) (fun e => installed s (Err e)) (Fwu (fwu_ctx s1) b (fwu_invec s1) (fwu_outvec s1))) as Hgo; [|by destruct r0].
  destruct (Z.eqb_spec (status_of r0) PSA_ERROR_DEPENDENCY_NEEDED) as [Hd|Hd].
  - apply wp_fail, Hdone. exists r0. rewrite Hd. split_and!; [done|done|]. intros c. by rewrite andb_false_r, <- Hc1.
  - apply wp_bind. eapply wp_mono; [apply (wp_outcome cfg _ _ (fun _ _ => False))| |done]. cbn [fwu_ctx boot]. intros _ s2 [Hb2 Hc2].
    assert (forall r, status_of r = status_of r0 -> installed s r s2) as Hr.
    { intros r Hr. apply Hdone. exists r0. rewrite Hb2. split_and!; [done|done|]. intros c. rewrite Hc2, Hc1, (proj2 (Z.eqb_neq _ _) Hd), andb_true_r. by case_decide; case_bool_decide. }
    apply wp_of_status; intros Hs; apply Hr; [by rewrite Hs|done].
Qed.

(** C9: an installation, while no component is under update in the state TRIAL,
    hands the bootloader exactly the candidates, all at once and in order, and
    the record of each of them follows from the status it returns; with no
    candidate, while an image is staged or rejected, or while the bootloader
    reports that the running image of a component not under update is on trial,
    it is refused and changes nothing.  (Of a component under update in TRIAL
    the code and its comment say different things:
    [fwu_install_ignores_trial_record].) *)
Theorem fwu_install_candidates stack msg vecs s :
  answers stack -> msg_type msg = TFM_FWU_INSTALL ->
  (forall c, c ∈ components cfg -> in_use (fwu_ctx s c) = true -> component_state (fwu_ctx s c) <> PSA_FWU_TRIAL) ->
  let '(r, s') := fwu_call cfg stack msg vecs s in installed s r s'.
Proof.
  intros Hans Ht _. assert (wp (tfm_fwu_install cfg stack) (fun a => installed s (Ok a)) (fun e => installed s (Err e)) (called s vecs)) as Hw by (by apply wp_installed).
  change (fwu_call cfg stack msg vecs s) with (tfm_firmware_update_service_sfn cfg stack msg (called s vecs)).
  assert (tfm_firmware_update_service_sfn cfg stack msg = tfm_fwu_install cfg stack) as -> by (unfold tfm_firmware_update_service_sfn; by rewrite Ht). unfold wp in Hw.
  destruct (tfm_fwu_install cfg stack (called s vecs)) as [[a|e] s']; exact Hw.
Qed.

(** ** Writing *)

(** C3: a write into a component that is being written hands the bootloader
    every byte of the block exactly once, in order and at its offset, in pieces
    of at most the buffer of the service, until the bootloader reports an
    error, which is the reply. *)
Theorem fwu_write_loads_block stack msg s c off data :
  0 < TFM_FWU_BUF_SIZE cfg -> msg_type msg = TFM_FWU_WRITE -> in_size msg = [1; 4; zlen data] -> zlen data <= PSA_FWU_MAX_WRITE_SIZE cfg ->
  0 <= c < 256 -> c ∈ components cfg -> 0 <= off < 2 ^ 32 -> in_use (fwu_ctx s c) = true -> component_state (fwu_ctx s c) = PSA_FWU_WRITING ->
  let '(r, s') := fwu_call cfg stack msg [[c]; le_bytes 4 off; data] s in
  fwu_ctx s' = fwu_ctx s /\
  exists ps, concat ps = data /\ Forall (fun p => 0 < zlen p <= TFM_FWU_BUF_SIZE cfg) ps /\ load_pieces c off ps (boot s) = (r, boot s').
Proof.
  intros Hbuf Ht Hsz Hmax Hb Hc Hoff Hu Hst. set (s0 := called s [[c]; le_bytes 4 off; data]).
  assert (wp (tfm_fwu_write cfg msg) (fun a => loaded c off data s (Ok a)) (fun e => loaded c off data s (Err e)) s0) as Hw.
  { unfold tfm_fwu_write. rewrite Hsz. cbn [nth]. cbv zeta. apply wp_bind, wp_check; [intros _|intros Hf%negb_false_iff%Z.gtb_lt; lia].
    apply wp_bind, wp_check; [intros _|done]. apply wp_bind, (wp_component c); [done|done|done|]. cbn [s0 called fwu_ctx boot fwu_invec fwu_outvec].
    apply wp_bind, wp_fwu_read_exact; [done|]. change (nth 1 _ []) with (le_bytes 4 off). cbn [fwu_invec fwu_ctx boot fwu_outvec]. apply wp_bind. unfold check_state. apply wp_bind, wp_get_ctx, wp_check.
    - intros _. assert (u32 (le_val (sub_bytes 0 4 (le_bytes 4 off))) = off) as ->.
      { change 4 with (zlen (le_bytes 4 off)) at 1. rewrite sub_bytes_all, le_val_le_bytes by (change (Z.of_nat 4) with 4; lia). unfold u32. rewrite Z.mod_small; lia. }
      eapply wp_mono; [apply (write_loop_loads c _ off _ data); [done|done|cbn; lia|lia]| |]; intros x s' Hl; exact Hl.
    - cbn [fwu_ctx]. rewrite Hu, Hst. done. }
  change (fwu_call cfg stack msg [[c]; le_bytes 4 off; data] s) with (tfm_firmware_update_service_sfn cfg stack msg s0).
  assert (tfm_firmware_update_service_sfn cfg stack msg = tfm_fwu_write cfg msg) as -> by (unfold tfm_firmware_update_service_sfn; by rewrite Ht). unfold wp in Hw.
  destruct (tfm_fwu_write cfg msg s0) as [[a|e] s']; exact Hw.
Qed.
End claims.

(** * The firmware update service on a concrete bootloader

    The bootloader keeps which running images are on trial and logs the blocks
    loaded; an installation and a rejection take a reboot. *)

Record demo_boot : Type := DemoBoot {
  demo_trial : Z -> bool;
  demo_log : list (Z * Z * list Z);
}.

Definition demo_reported (b : demo_boot) (c : Z) : Z := if demo_trial b c then PSA_FWU_TRIAL else PSA_FWU_READY.

#[export] Instance demo_bootloader : FwuBootloader demo_boot := {
  fwu_bootloader_init := ret tt;
  fwu_bootloader_staging_area_init _ _ := ret tt;
  fwu_bootloader_load_image c o d := modify (fun b => DemoBoot (demo_trial b) (demo_log b ++ [(c, o, d)]));
  fwu_bootloader_install_image _ := fail PSA_SUCCESS_REBOOT;
  fwu_bootloader_mark_image_accepted cs := modify (fun b => DemoBoot (fun c => demo_trial b c && negb (existsb (Z.eqb c) cs)) (demo_log b));
  fwu_bootloader_reject_staged_image _ := ret tt;
  fwu_bootloader_reject_trial_image _ := fail PSA_SUCCESS_REBOOT;
  fwu_bootloader_clean_component _ := ret tt;
  fwu_bootloader_get_image_info c qs _ i := let* b := get in ret (if qs then set_info_state (demo_reported b c) i else i);
}.

Lemma existsb_in c cs : existsb (Z.eqb c) cs = true <-> c ∈ cs.
Proof.
  rewrite existsb_exists. split; [intros (d & Hd & He%Z.eqb_eq); subst; by apply list_elem_of_In|intros Hc; exists c; split; [by apply list_elem_of_In|apply Z.eqb_refl]].
Qed.

#[export] Instance demo_laws : FwuLaws demo_boot true.
Proof.
  refine {| reported := demo_reported |}; try done.
  - intros b c. unfold demo_reported. case_match; [by right|by left].
  - intros b c qs qi i. destruct qs; (split; [done|]); by split.
  - intros b cs. unfold wp. cbn. unfold demo_reported. cbn [demo_trial]. split; intros c Hc.
    + destruct (existsb (Z.eqb c) cs) eqn:He; [by apply existsb_in in He|]. cbn. rewrite He. by destruct (demo_trial b c).
    + apply existsb_in in Hc. cbn. rewrite Hc. by destruct (demo_trial b c).
Defined.

(** Two components, the second on trial; blocks go through a buffer of four
    bytes. *)
Definition demo_cfg : fwu_config := FwuConfig 2 0 1024 4 true.

Definition demo_info : psa_fwu_component_info_t := FwuInfo 0 0 0 0 0 0 0 0 0 (fill 32 0).

Definition demo_reset : fwu_st demo_boot := Fwu (fun _ => FwuCtx 0 0 false) (DemoBoot (Z.eqb 1) []) [] [].

Definition demo_call (t : Z) (vecs : list (list Z)) : psa_fwu_component_info_t * psa_msg_t * list (list Z) :=
  (demo_info, Msg t 7 (map zlen vecs) [], vecs).

(** The first component is written; the second is accepted and cleaned. *)
Definition demo_written : list (psa_fwu_component_info_t * psa_msg_t * list (list Z)) :=
  [demo_call TFM_FWU_START [[0]]; demo_call TFM_FWU_WRITE [[0]; [0; 0; 0; 0]; [1; 2; 3; 4; 5; 6]]; demo_call TFM_FWU_ACCEPT []; demo_call TFM_FWU_CLEAN [[1]]].

Definition demo_staged := demo_written ++ [demo_call TFM_FWU_FINISH [[0]]; demo_call TFM_FWU_INSTALL []].

Lemma fwu_demo_in c : 0 <= c < 2 -> c ∈ components demo_cfg.
Proof. intros Hc. by apply elem_of_seqZ. Qed.

Lemma demo_answers : answers (B := demo_boot) demo_info.
Proof. intros b c. by eexists _, _. Qed.

Definition demo_reject : psa_msg_t := Msg TFM_FWU_REJECT 7 [4] [].

Lemma fwu_components_move_witness :
  (let s := fwu_run demo_cfg demo_staged demo_reset in
   let s' := (fwu_call demo_cfg demo_info demo_reject [[156; 255; 255; 255]] s).2 in
   fwu_inv s' /\ forall c, state_of s' c = state_of s c \/ c ∈ components demo_cfg /\ fwu_move (msg_type demo_reject) (state_of s c) (state_of s' c)) /\
  (let s := fwu_run demo_cfg demo_staged demo_reset in
   let s' := (fwu_call demo_cfg demo_info demo_reject [[156; 255; 255; 255]] s).2 in
   (state_of s 0, state_of s' 0, state_of s' 1, fwu_error (fwu_ctx s' 0)) = (PSA_FWU_STAGED, PSA_FWU_FAILED, PSA_FWU_READY, -100)).
Proof.
  split; [|vm_compute; reflexivity]. apply (fwu_components_move demo_cfg demo_reset demo_staged demo_info demo_reject); reflexivity.
Defined.

Definition demo_cancel : psa_msg_t := Msg TFM_FWU_CANCEL 7 [1] [].

Lemma fwu_out_of_order_refused_witness :
  let '(r, s') := fwu_call demo_cfg demo_info demo_cancel [[0]] (fwu_run demo_cfg demo_staged demo_reset) in
  r = Err PSA_ERROR_BAD_STATE /\ fwu_ctx s' = fwu_ctx (fwu_run demo_cfg demo_staged demo_reset) /\
  forall d, state_of s' d = state_of (fwu_run demo_cfg demo_staged demo_reset) d.
Proof.
  apply (fwu_out_of_order_refused demo_cfg demo_info demo_cancel [[0]] (fwu_run demo_cfg demo_staged demo_reset) 0).
  - by apply (fwu_run_inv demo_cfg demo_staged demo_reset eq_refl), reset_inv.
  - exact demo_answers.
  - set_solver.
  - by split.
  - reflexivity.
  - lia.
  - by apply fwu_demo_in.
  - vm_compute. reflexivity.
Defined.

Lemma fwu_install_candidates_witness :
  let s := fwu_run demo_cfg (demo_written ++ [demo_call TFM_FWU_FINISH [[0]]]) demo_reset in
  let '(r, s') := fwu_call demo_cfg demo_info (Msg TFM_FWU_INSTALL 7 [] []) [] s in
  installed demo_cfg s r s' /\ List.filter (is_candidate s) (components demo_cfg) = [0] /\ r = Err PSA_SUCCESS_REBOOT.
Proof.
  intros s. pose proof (fwu_install_candidates demo_cfg demo_info (Msg TFM_FWU_INSTALL 7 [] []) [] s demo_answers eq_refl) as Hw.
  assert (forall c, c ∈ components demo_cfg -> in_use (fwu_ctx s c) = true -> component_state (fwu_ctx s c) <> PSA_FWU_TRIAL) as Hno.
  { intros c Hc%elem_of_seqZ. assert (c = 0 \/ c = 1) as [-> | ->] by (cbn in Hc; lia); vm_compute; discriminate. }
  specialize (Hw Hno). destruct (fwu_call demo_cfg demo_info (Msg TFM_FWU_INSTALL 7 [] []) [] s) as [r s'] eqn:He. split; [exact Hw|]. split; [vm_compute; reflexivity|].
  apply (f_equal fst) in He. cbn [fst] in He. rewrite <- He. vm_compute. reflexivity.
Defined.

(** The second component is under update in TRIAL: the candidate is installed
    all the same, and not refused with [PSA_ERROR_BAD_STATE]. *)
Theorem fwu_install_ignores_trial_record :
  let s := Fwu (fun c => FwuCtx 0 (if c =? 0 then PSA_FWU_CANDIDATE else PSA_FWU_TRIAL) true) (DemoBoot (Z.eqb 1) []) [] [] in
  let '(r, s') := fwu_call demo_cfg demo_info (Msg TFM_FWU_INSTALL 7 [] []) [] s in
  r = Err PSA_SUCCESS_REBOOT /\ state_of s' 0 = PSA_FWU_STAGED /\ state_of s' 1 = PSA_FWU_TRIAL.
Proof. vm_compute. by split_and!. Qed.

Lemma fwu_write_loads_block_witness :
  let s := fwu_run demo_cfg demo_written demo_reset in
  let '(r, s') := fwu_call demo_cfg demo_info (Msg TFM_FWU_WRITE 7 [1; 4; 5] []) [[0]; le_bytes 4 6; [7; 8; 9; 10; 11]] s in
  fwu_ctx s' = fwu_ctx s /\
  exists ps, concat ps = [7; 8; 9; 10; 11] /\ Forall (fun p => 0 < zlen p <= TFM_FWU_BUF_SIZE demo_cfg) ps /\ load_pieces 0 6 ps (boot s) = (r, boot s').
Proof.
  intros s. apply (fwu_write_loads_block demo_cfg demo_info (Msg TFM_FWU_WRITE 7 [1; 4; 5] []) s 0 6 [7; 8; 9; 10; 11]).
  - reflexivity.
  - reflexivity.
  - reflexivity.
  - vm_compute. done.
  - lia.
  - by apply fwu_demo_in.
  - lia.
  - vm_compute. reflexivity.
  - vm_compute. reflexivity.
Defined.

(** The blocks that reached the bootloader. *)
Lemma demo_log_of_writes :
  demo_log (boot (fwu_run demo_cfg demo_written demo_reset)) = [(0, 0, [1; 2; 3; 4]); (0, 4, [5; 6])].
Proof. vm_compute. reflexivity. Qed.
