(* ===== verification/NsMailbox.v ===== *)
(** * The mailbox between the cores: the non-secure side
      ([interface/src/multi_core/])

    The structures of [multi_core/tfm_mailbox.h] that both cores share, the
    queue and the client call of [tfm_ns_mailbox.c], and the PSA client API of
    [tfm_multi_core_psa_ns_api.c] on top of it.  The build has an RTOS with
    several threads and no dedicated mailbox thread; the cache maintenance of
    the shared structures is not modelled.  A thread calls in small steps, one
    for each critical section and each access between them, so that the secure
    core, the interrupt handler and other threads can act in between. *)

From S2P Require Import Prelude Bytes.
From stdpp Require Import base list numbers functions.
From Stdlib Require Import ZArith Lia.

Open Scope Z_scope.
Open Scope tfm_scope.

(** ** The shared structures ([tfm_mailbox.h]) *)

Definition MAILBOX_PSA_FRAMEWORK_VERSION : Z := 1.
Definition MAILBOX_PSA_VERSION : Z := 2.
Definition MAILBOX_PSA_CONNECT : Z := 3.
Definition MAILBOX_PSA_CALL : Z := 4.
Definition MAILBOX_PSA_CLOSE : Z := 5.

Definition INT32_MIN : Z := -2147483648.
Definition MAILBOX_SUCCESS : Z := 0.
Definition MAILBOX_QUEUE_FULL : Z := INT32_MIN + 1.
Definition MAILBOX_INVAL_PARAMS : Z := INT32_MIN + 2.
Definition MAILBOX_NO_PEND_EVENT : Z := INT32_MIN + 4.
Definition MAILBOX_GENERIC_ERROR : Z := INT32_MIN + 8.
Definition PSA_INTER_CORE_COMM_ERR : Z := INT32_MIN + 0xFF.

Definition PSA_MAX_IOVEC : Z := 4.

(** [struct psa_client_params_t].  The members of the union lie over each other:
    its first two words are the handle and the type of a call, the service
    identifier and the version of a connection, the handle to close. *)
Record psa_client_params_t : Type := ClientParams {
  word0 : Z;
  word1 : Z;
  in_vec : list (Z * Z);   (* base, len *)
  in_len : Z;
  out_vec : list (Z * Z);
  out_len : Z;
}.

(** [struct mailbox_msg_t] *)
Record mailbox_msg_t : Type := MailboxMsg {
  call_type : Z;
  params : psa_client_params_t;
  client_id : Z;
}.

(** [struct mailbox_reply_t] *)
Record mailbox_reply_t : Type := MailboxReply {
  return_val : Z;
  out_vec_len : list Z;
}.

(** [struct mailbox_slot_t] *)
Record mailbox_slot_t : Type := MailboxSlot {
  slot_msg : mailbox_msg_t;
  slot_reply : mailbox_reply_t;
}.

(** [struct mailbox_status_t] *)
Record mailbox_status_t : Type := MailboxStatus {
  pend_slots : Z;
  replied_slots : Z;
}.

(** [struct ns_mailbox_slot_t] *)
Record ns_mailbox_slot_t : Type := NsSlot {
  owner : Z;
  is_woken : bool;
}.

(** [struct ns_mailbox_queue_t]; [ns_lock] is the count of the semaphore
    [ns_lock_handle]. *)
Record ns_mailbox_queue_t : Type := NsQueue {
  status : mailbox_status_t;
  slots : Z -> mailbox_slot_t;
  slots_ns : Z -> ns_mailbox_slot_t;
  empty_slots : Z;
  ns_lock : Z;
}.

(** [1 << idx] *)
Definition bit (idx : Z) : Z := Z.shiftl 1 idx.

Definition set_status (v : mailbox_status_t) (q : ns_mailbox_queue_t) : ns_mailbox_queue_t :=
  NsQueue v (slots q) (slots_ns q) (empty_slots q) (ns_lock q).
Definition set_slot (i : Z) (v : mailbox_slot_t) (q : ns_mailbox_queue_t) : ns_mailbox_queue_t :=
  NsQueue (status q) (<[i := v]> (slots q)) (slots_ns q) (empty_slots q) (ns_lock q).
Definition set_slot_ns (i : Z) (v : ns_mailbox_slot_t) (q : ns_mailbox_queue_t) : ns_mailbox_queue_t :=
  NsQueue (status q) (slots q) (<[i := v]> (slots_ns q)) (empty_slots q) (ns_lock q).
Definition set_empty (v : Z) (q : ns_mailbox_queue_t) : ns_mailbox_queue_t :=
  NsQueue (status q) (slots q) (slots_ns q) v (ns_lock q).
Definition set_lock (v : Z) (q : ns_mailbox_queue_t) : ns_mailbox_queue_t :=
  NsQueue (status q) (slots q) (slots_ns q) (empty_slots q) v.

Section ns.
Context (NUM_MAILBOX_QUEUE_SLOT : Z).

Abbreviation NS := (M ns_mailbox_queue_t).

(** ** Flags of the slots *)

Definition in_queue {S} (idx : Z) (f : S -> S) : M S unit := if idx <? NUM_MAILBOX_QUEUE_SLOT then modify f else ret tt.

Definition set_queue_slot_empty (idx : Z) : NS unit := in_queue idx (fun q => set_empty (Z.lor (empty_slots q) (bit idx)) q).

Definition clear_queue_slot_empty (idx : Z) : NS unit := in_queue idx (fun q => set_empty (Z.ldiff (empty_slots q) (bit idx)) q).

Definition set_queue_slot_woken (idx : Z) : NS unit := in_queue idx (fun q => set_slot_ns idx (NsSlot (owner (slots_ns q idx)) true) q).

Definition clear_queue_slot_woken (idx : Z) : NS unit := in_queue idx (fun q => set_slot_ns idx (NsSlot (owner (slots_ns q idx)) false) q).

Definition is_queue_slot_woken (idx : Z) : NS bool :=
  if idx <? NUM_MAILBOX_QUEUE_SLOT then gets (fun q => is_woken (slots_ns q idx)) else ret false.

Definition set_queue_slot_pend (idx : Z) : NS unit :=
  in_queue idx (fun q => set_status (MailboxStatus (Z.lor (pend_slots (status q)) (bit idx)) (replied_slots (status q))) q).

Definition clear_queue_slot_all_replied : NS Z :=
  let* q := get in
  let* _ := put (set_status (MailboxStatus (pend_slots (status q)) 0) q) in
  ret (replied_slots (status q)).

Definition set_msg_owner (idx o : Z) : NS unit := in_queue idx (fun q => set_slot_ns idx (NsSlot o (is_woken (slots_ns q idx))) q).

(** The lowest slot whose bit is set, from [idx] on; the loop of
    [acquire_empty_slot]. *)
Fixpoint first_slot (fuel : nat) (idx st : Z) : Z :=
  match fuel with
  | O => idx
  | S fuel => if negb (Z.land st (bit idx) =? 0) then idx else first_slot fuel (idx + 1) st
  end.

Definition acquire_empty_slot : NS Z :=
  let* st := gets empty_slots in
  if st =? 0 then ret NUM_MAILBOX_QUEUE_SLOT
  else
    let idx := first_slot (Z.to_nat NUM_MAILBOX_QUEUE_SLOT) 0 st in
    let* _ := clear_queue_slot_empty idx in
    ret idx.

(** ** A client call *)

(** The message is written into the slot. *)
Definition fill_msg (idx : Z) (m : mailbox_msg_t) : NS unit := modify (fun q => set_slot idx (MailboxSlot m (slot_reply (slots q idx))) q).

(** [mailbox_tx_client_req]; the status and the slot. *)
Definition mailbox_tx_client_req (m : mailbox_msg_t) (task_handle : Z) : NS (Z * Z) :=
  let* idx := acquire_empty_slot in
  if idx >=? NUM_MAILBOX_QUEUE_SLOT then ret (MAILBOX_QUEUE_FULL, idx)
  else
    let* _ := fill_msg idx m in
    let* _ := set_msg_owner idx task_handle in
    let* _ := set_queue_slot_pend idx in
    ret (MAILBOX_SUCCESS, idx).

Definition mailbox_wait_reply_signal (idx : Z) : NS bool :=
  let* w := is_queue_slot_woken idx in
  if w then
    let* _ := clear_queue_slot_woken idx in
    ret true
  else ret false.

Definition release_slot (idx : Z) : NS unit :=
  let* _ := clear_queue_slot_woken idx in
  set_queue_slot_empty idx.

Definition mailbox_rx_client_reply (idx : Z) : NS mailbox_reply_t :=
  let* r := gets (fun q => slot_reply (slots q idx)) in
  let* _ := set_msg_owner idx 0 in
  let* _ := release_slot idx in
  ret r.

(** Where a thread stands in [tfm_ns_mailbox_client_call]; the reply buffer of
    the caller is [reply]. *)
Inductive ns_pc : Type :=
| NS_idle
| NS_lock (m : mailbox_msg_t)
| NS_acquire (m : mailbox_msg_t)
| NS_fill (idx : Z) (m : mailbox_msg_t)
| NS_owner (idx : Z)
| NS_pend (idx : Z)
| NS_wait (idx : Z)
| NS_read (idx : Z)
| NS_clear_owner (idx : Z) (r : mailbox_reply_t)
| NS_release (idx : Z) (r : mailbox_reply_t)
| NS_unlock (ret : Z) (r : mailbox_reply_t).

Definition no_reply : mailbox_reply_t := MailboxReply MAILBOX_GENERIC_ERROR (replicate (Z.to_nat PSA_MAX_IOVEC) 0).

(** The next step of the thread [task_handle]: where it stands afterwards, or
    what the call returned. *)
Definition client_call_step (task_handle : Z) (pc : ns_pc) : NS (ns_pc + Z * mailbox_reply_t) :=
  match pc with
  | NS_idle => ret (inl NS_idle)
  | NS_lock m =>
      let* n := gets ns_lock in
      if n >? 0 then
        let* _ := modify (set_lock (n - 1)) in
        ret (inl (NS_acquire m))
      else ret (inl (NS_lock m))
  | NS_acquire m =>
      let* idx := acquire_empty_slot in
      ret (inl (if idx >=? NUM_MAILBOX_QUEUE_SLOT then NS_unlock MAILBOX_QUEUE_FULL no_reply else NS_fill idx m))
  | NS_fill idx m =>
      let* _ := fill_msg idx m in
      ret (inl (NS_owner idx))
  | NS_owner idx =>
      let* _ := set_msg_owner idx task_handle in
      ret (inl (NS_pend idx))
  | NS_pend idx =>
      let* _ := set_queue_slot_pend idx in
      ret (inl (NS_wait idx))
  | NS_wait idx =>
      let* w := mailbox_wait_reply_signal idx in
      ret (inl (if w then NS_read idx else NS_wait idx))
  | NS_read idx =>
      let* r := gets (fun q => slot_reply (slots q idx)) in
      ret (inl (NS_clear_owner idx r))
  | NS_clear_owner idx r =>
      let* _ := set_msg_owner idx 0 in
      ret (inl (NS_release idx r))
  | NS_release idx r =>
      let* _ := release_slot idx in
      ret (inl (NS_unlock MAILBOX_SUCCESS r))
  | NS_unlock v r =>
      let* _ := modify (fun q => set_lock (ns_lock q + 1) q) in
      ret (inr (v, r))
  end.

(** ** The interrupt handler *)

(** The loop of [tfm_ns_mailbox_wake_reply_owner_isr] with the replies left;
    returns the tasks woken. *)
Fixpoint wake_loop (fuel : nat) (idx replied_status : Z) : NS (list Z) :=
  match fuel with
  | O => ret []
  | S fuel =>
      if Z.land replied_status (bit idx) =? 0 then wake_loop fuel (idx + 1) replied_status
      else
        let* _ := set_queue_slot_woken idx in
        let* o := gets (fun q => owner (slots_ns q idx)) in
        let replied_status := Z.ldiff replied_status (bit idx) in
        if replied_status =? 0 then ret [o]
        else
          let* os := wake_loop fuel (idx + 1) replied_status in
          ret (o :: os)
  end.

Definition tfm_ns_mailbox_wake_reply_owner_isr : NS (Z * list Z) :=
  let* replied_status := clear_queue_slot_all_replied in
  if replied_status =? 0 then ret (MAILBOX_NO_PEND_EVENT, [])
  else
    let* os := wake_loop (Z.to_nat NUM_MAILBOX_QUEUE_SLOT) 0 replied_status in
    ret (MAILBOX_SUCCESS, os).

(** ** Initialisation *)

(** Every slot is empty; the sum keeps the shift below the width of the type. *)
Definition all_slots_empty : Z := u32 (bit (NUM_MAILBOX_QUEUE_SLOT - 1) - 1 + bit (NUM_MAILBOX_QUEUE_SLOT - 1)).

Definition zero_params : psa_client_params_t :=
  ClientParams 0 0 (replicate (Z.to_nat PSA_MAX_IOVEC) (0, 0)) 0 (replicate (Z.to_nat PSA_MAX_IOVEC) (0, 0)) 0.

Definition zero_slot : mailbox_slot_t := MailboxSlot (MailboxMsg 0 zero_params 0) (MailboxReply 0 (replicate (Z.to_nat PSA_MAX_IOVEC) 0)).

Definition tfm_ns_mailbox_init : ns_mailbox_queue_t :=
  NsQueue (MailboxStatus 0 0) (fun _ => zero_slot) (fun _ => NsSlot 0 false) all_slots_empty NUM_MAILBOX_QUEUE_SLOT.

(** ** The PSA client API ([tfm_multi_core_psa_ns_api.c])

    The message of a call, and what the API makes of the status and the reply
    of [tfm_ns_mailbox_client_call]; all clients have the identifier -1. *)

Definition NON_SECURE_CLIENT_ID : Z := -1.

(** A vector array of which the caller gives the first entries; [l] is what
    the local variable held. *)
Definition fill_vec (v l : list (Z * Z)) : list (Z * Z) := v ++ drop (length v) l.

Definition psa_framework_version_msg : mailbox_msg_t := MailboxMsg MAILBOX_PSA_FRAMEWORK_VERSION zero_params NON_SECURE_CLIENT_ID.

Definition psa_version_msg (stack : psa_client_params_t) (sid : Z) : mailbox_msg_t :=
  MailboxMsg MAILBOX_PSA_VERSION (ClientParams sid (word1 stack) (in_vec stack) (in_len stack) (out_vec stack) (out_len stack)) NON_SECURE_CLIENT_ID.

Definition psa_connect_msg (stack : psa_client_params_t) (sid version : Z) : mailbox_msg_t :=
  MailboxMsg MAILBOX_PSA_CONNECT (ClientParams sid version (in_vec stack) (in_len stack) (out_vec stack) (out_len stack)) NON_SECURE_CLIENT_ID.

(** No message when the vectors are too many; [in_len + out_len] wraps. *)
Definition psa_call_msg (stack : psa_client_params_t) (handle type : Z) (iv : list (Z * Z)) (il : Z) (ov : list (Z * Z)) (ol : Z) : option mailbox_msg_t :=
  if (il >? PSA_MAX_IOVEC) || (ol >? PSA_MAX_IOVEC) || (u32 (il + ol) >? PSA_MAX_IOVEC) then None
  else
    Some (MailboxMsg MAILBOX_PSA_CALL
      (ClientParams handle type (fill_vec (take (Z.to_nat il) iv) (in_vec stack)) il (fill_vec (take (Z.to_nat ol) ov) (out_vec stack)) ol) NON_SECURE_CLIENT_ID).

Definition psa_close_msg (stack : psa_client_params_t) (handle : Z) : mailbox_msg_t :=
  MailboxMsg MAILBOX_PSA_CLOSE (ClientParams handle (word1 stack) (in_vec stack) (in_len stack) (out_vec stack) (out_len stack)) NON_SECURE_CLIENT_ID.

(** [psa_framework_version] and [psa_version] *)
Definition version_result (v : Z * mailbox_reply_t) : Z := if v.1 =? MAILBOX_SUCCESS then u32 (return_val v.2) else 0.

Definition psa_connect_result (v : Z * mailbox_reply_t) : Z := if v.1 =? MAILBOX_SUCCESS then return_val v.2 else 0.

(** The status of a call and the lengths of its output vectors. *)
Definition psa_call_result (ol : Z) (v : Z * mailbox_reply_t) : Z * list Z :=
  (if v.1 =? MAILBOX_SUCCESS then return_val v.2 else PSA_INTER_CORE_COMM_ERR, take (Z.to_nat ol) (out_vec_len v.2)).
End ns.
