(* ===== verification/SpeMailbox.v ===== *)
(** * The mailbox between the cores: the secure side
      ([ns_agent_mailbox/tfm_spe_mailbox.c], [tfm_multi_core_client_id.c])

    The queue of the secure core, the handling of messages and replies, and the
    translation of client identifiers.  The build has the IPC backend and
    connection-based services; the identifiers of non-secure clients are
    not managed by the non-secure side ([TFM_NS_MANAGE_NSID] is off).  What the
    partition manager returns for a request is an argument ([tfm_rpc_ops]); the
    reply to a request that it accepted comes later, through
    [tfm_mailbox_reply_msg].  [psa_panic] is the only [Err]. *)

From S2P Require Import Prelude Bytes NsMailbox.
From stdpp Require Import base list numbers functions.
From Stdlib Require Import ZArith Lia.

Open Scope Z_scope.
Open Scope tfm_scope.

(** ** State *)

(** [struct secure_mailbox_slot_t] *)
Record secure_mailbox_slot_t : Type := SecureSlot {
  msg : mailbox_msg_t;
  ns_slot_idx : Z;
  msg_handle : Z;
}.

(** [struct vectors] *)
Record vectors_t : Type := Vectors {
  v_in_vec : list (Z * Z);
  v_out_vec : list (Z * Z);
  v_out_len : Z;
  in_use : bool;
}.

(** [struct client_id_region_t] *)
Record client_id_region_t : Type := Region {
  base : Z;
  limit : Z;
  r_owner : Z;
}.

(** [spe_mailbox_queue], [vectors] and [client_id_regions], with the queue that
    the non-secure core shares. *)
Record mailboxes : Type := Mailboxes {
  nsq : ns_mailbox_queue_t;
  s_empty_slots : Z;
  queue : Z -> secure_mailbox_slot_t;
  ns_slot_count : Z;
  vectors : Z -> vectors_t;
  client_id_regions : list client_id_region_t;
}.

Definition set_nsq (v : ns_mailbox_queue_t) (s : mailboxes) : mailboxes :=
  Mailboxes v (s_empty_slots s) (queue s) (ns_slot_count s) (vectors s) (client_id_regions s).
Definition set_s_empty (v : Z) (s : mailboxes) : mailboxes :=
  Mailboxes (nsq s) v (queue s) (ns_slot_count s) (vectors s) (client_id_regions s).
Definition set_queue (i : Z) (v : secure_mailbox_slot_t) (s : mailboxes) : mailboxes :=
  Mailboxes (nsq s) (s_empty_slots s) (<[i := v]> (queue s)) (ns_slot_count s) (vectors s) (client_id_regions s).
Definition set_vectors (i : Z) (v : vectors_t) (s : mailboxes) : mailboxes :=
  Mailboxes (nsq s) (s_empty_slots s) (queue s) (ns_slot_count s) (<[i := v]> (vectors s)) (client_id_regions s).
Definition set_regions (v : list client_id_region_t) (s : mailboxes) : mailboxes :=
  Mailboxes (nsq s) (s_empty_slots s) (queue s) (ns_slot_count s) (vectors s) v.

(** A request to the partition manager ([tfm_rpc.h]); [owner] is the slot whose
    [msg_handle] is the client data, [vecs] the slot whose local vectors are
    used. *)
Inductive rpc_request : Type :=
| Rpc_framework_version
| Rpc_version (sid : Z)
| Rpc_call (handle control cid vecs owner : Z)
| Rpc_connect (sid version cid owner : Z)
| Rpc_close (handle cid : Z).

Definition CLIENT_ID_OWNER_MAGIC : Z := 0xFFFFFFFF.
Definition MAX_MAILBOX_NUMBER : nat := 2.
Definition SPM_ERROR_GENERIC : Z := -253.
Definition MAILBOX_MSG_NULL_HANDLE : Z := 0.
Definition PANIC : psa_status_t := -1.

(** [PARAM_PACK], [PARAM_SET_NS_INVEC], [PARAM_SET_NS_OUTVEC]
    ([tfm_psa_call_pack.h]) *)
Definition PARAM_PACK (type il ol : Z) : Z :=
  Z.lor (Z.lor (Z.land (u32 type) 0xFFFF) (Z.land (u32 (Z.shiftl (u32 il) 24)) (Z.shiftl 7 24))) (Z.land (u32 (Z.shiftl (u32 ol) 16)) (Z.shiftl 7 16)).
Definition PARAM_SET_NS_INVEC (c : Z) : Z := Z.lor c (Z.shiftl 1 27).
Definition PARAM_SET_NS_OUTVEC (c : Z) : Z := Z.lor c (Z.shiftl 1 19).

(** ** Client identifiers ([tfm_multi_core_client_id.c]) *)

Fixpoint register_loop (o b l : Z) (rs : list client_id_region_t) : option (list client_id_region_t) :=
  match rs with
  | [] => None
  | r :: rs => if r_owner r =? 0 then Some (Region b l o :: rs) else option_map (cons r) (register_loop o b l rs)
  end.

Definition tfm_multi_core_register_client_id_range (o b l : Z) : M mailboxes Z :=
  if o =? 0 then ret SPM_ERROR_GENERIC
  else
    let* rs := gets client_id_regions in
    match register_loop o b l rs with
    | Some rs => let* _ := modify (set_regions rs) in ret PSA_SUCCESS
    | None => ret SPM_ERROR_GENERIC
    end.

Fixpoint find_region (o : Z) (rs : list client_id_region_t) : option client_id_region_t :=
  match rs with
  | [] => None
  | r :: rs => if r_owner r =? o then Some r else find_region o rs
  end.

(** The arithmetic is that of [int32_t]. *)
Definition tfm_multi_core_hal_client_id_translate (o cid : Z) (rs : list client_id_region_t) : option Z :=
  if (o =? 0) || (cid >=? 0) then None
  else
    match find_region o rs with
    | None => None
    | Some r =>
        let min_client_id := to_s32 (u32 (to_s32 (u32 (- to_s32 (u32 (limit r - base r)))) - 1)) in
        if cid <? min_client_id then None else Some (to_s32 (u32 (to_s32 (u32 (limit r + 1)) + cid)))
    end.

Section spe.
Context (NUM_MAILBOX_QUEUE_SLOT : Z) (rpc : rpc_request -> psa_status_t).

Abbreviation SPE := (M mailboxes).

(** ** Flags and slots *)

Definition set_spe_queue_empty_status (idx : Z) : SPE unit :=
  if idx <? NUM_MAILBOX_QUEUE_SLOT then modify (fun s => set_s_empty (Z.lor (s_empty_slots s) (bit idx)) s) else ret tt.

Definition clear_spe_queue_empty_status (idx : Z) : SPE unit :=
  if idx <? NUM_MAILBOX_QUEUE_SLOT then modify (fun s => set_s_empty (Z.ldiff (s_empty_slots s) (bit idx)) s) else ret tt.

Definition get_spe_queue_empty_status (idx : Z) : SPE bool :=
  gets (fun s => (idx <? NUM_MAILBOX_QUEUE_SLOT) && negb (Z.land (s_empty_slots s) (bit idx) =? 0)).

Definition upd_status (f : mailbox_status_t -> mailbox_status_t) : SPE unit :=
  modify (fun s => set_nsq (set_status (f (status (nsq s))) (nsq s)) s).

Definition get_nspe_queue_pend_status : SPE Z := gets (fun s => pend_slots (status (nsq s))).

Definition set_nspe_queue_replied_status (mask : Z) : SPE unit :=
  upd_status (fun v => MailboxStatus (pend_slots v) (Z.lor (replied_slots v) mask)).

Definition clear_nspe_queue_pend_status (mask : Z) : SPE unit :=
  upd_status (fun v => MailboxStatus (Z.ldiff (pend_slots v) mask) (replied_slots v)).

Definition get_spe_mailbox_msg_handle (idx : Z) : option Z := if idx >=? NUM_MAILBOX_QUEUE_SLOT then None else Some (idx + 1).

Definition get_spe_mailbox_msg_idx (handle : Z) : option Z := if handle =? MAILBOX_MSG_NULL_HANDLE then None else Some (u8 (handle - 1)).

Definition mailbox_clean_queue_slot (idx : Z) : SPE unit :=
  if idx >=? NUM_MAILBOX_QUEUE_SLOT then ret tt
  else
    let* _ := modify (set_queue idx (SecureSlot (MailboxMsg 0 zero_params 0) 0 0)) in
    set_spe_queue_empty_status idx.

(** The non-secure slot the reply of a slot goes to. *)
Definition get_nspe_reply_addr (idx : Z) : SPE Z :=
  let* _ := check (negb (idx >=? NUM_MAILBOX_QUEUE_SLOT)) PANIC in
  let* s := get in
  let n := ns_slot_idx (queue s idx) in
  let* _ := check (negb ((n >=? NUM_MAILBOX_QUEUE_SLOT) || (n >=? ns_slot_count s))) PANIC in
  ret n.

Definition upd_reply (n : Z) (f : mailbox_reply_t -> mailbox_reply_t) : SPE unit :=
  modify (fun s => set_nsq (set_slot n (MailboxSlot (slot_msg (slots (nsq s) n)) (f (slot_reply (slots (nsq s) n)))) (nsq s)) s).

Definition mailbox_direct_reply (idx result : Z) : SPE unit :=
  let* n := get_nspe_reply_addr idx in
  let* _ := upd_reply n (fun r => MailboxReply (to_s32 result) (out_vec_len r)) in
  let* s := get in
  let* _ :=
    if in_use (vectors s idx) then
      let* _ := upd_reply n (fun r => MailboxReply (return_val r) (map snd (v_out_vec (vectors s idx)))) in
      modify (set_vectors idx (Vectors (v_in_vec (vectors s idx)) (v_out_vec (vectors s idx)) (v_out_len (vectors s idx)) false))
    else ret tt in
  mailbox_clean_queue_slot idx.

Definition check_mailbox_msg (m : mailbox_msg_t) : Z := MAILBOX_SUCCESS.

(** The first [n] entries of the vector, and empty ones after it. *)
Definition local_vec (n : Z) (v : list (Z * Z)) : list (Z * Z) :=
  map (fun i => if Z.of_nat i <? n then nth i v (0, 0) else (0, 0)) (seq 0 (Z.to_nat PSA_MAX_IOVEC)).

(** The new control word, unless there are too many vectors. *)
Definition local_copy_vects (p : psa_client_params_t) (idx control : Z) : SPE (option Z) :=
  if (in_len p >? PSA_MAX_IOVEC) || (out_len p >? PSA_MAX_IOVEC) || (u32 (in_len p + out_len p) >? PSA_MAX_IOVEC) then ret None
  else
    let* _ := modify (set_vectors idx (Vectors (local_vec (in_len p) (in_vec p)) (local_vec (out_len p) (out_vec p)) (out_len p) true)) in
    ret (Some (PARAM_SET_NS_OUTVEC (PARAM_SET_NS_INVEC control))).

(** ** Messages *)

Definition translate (cid : Z) : SPE (option Z) := gets (fun s => tfm_multi_core_hal_client_id_translate CLIENT_ID_OWNER_MAGIC cid (client_id_regions s)).

(** The switch of [tfm_mailbox_dispatch]: what the partition manager returned,
    and whether it is the reply ([sync]); [None] for another type of call. *)
Definition dispatch_call (m : mailbox_msg_t) (idx : Z) : SPE (option (psa_status_t * bool)) :=
  let p := params m in
  let control := PARAM_PACK (word1 p) (in_len p) (out_len p) in
  let refused := (PSA_ERROR_INVALID_ARGUMENT, true) in
  let accepted (r : psa_status_t) := (r, negb (r =? PSA_SUCCESS)) in
  if call_type m =? MAILBOX_PSA_FRAMEWORK_VERSION then ret (Some (rpc Rpc_framework_version, true))
  else if call_type m =? MAILBOX_PSA_VERSION then ret (Some (rpc (Rpc_version (word0 p)), true))
  else if call_type m =? MAILBOX_PSA_CALL then
    let* c := local_copy_vects p idx control in
    match c with
    | None => ret (Some refused)
    | Some control =>
        let* t := translate (client_id m) in
        match t with
        | None => ret (Some refused)
        | Some cid => ret (Some (accepted (rpc (Rpc_call (word0 p) control cid idx idx))))
        end
    end
  else if call_type m =? MAILBOX_PSA_CONNECT then
    let* t := translate (client_id m) in
    match t with
    | None => ret (Some refused)
    | Some cid => ret (Some (accepted (rpc (Rpc_connect (word0 p) (word1 p) cid idx))))
    end
  else if call_type m =? MAILBOX_PSA_CLOSE then
    let* t := translate (client_id m) in
    match t with
    | None => ret (Some refused)
    | Some cid => ret (Some (accepted (rpc (Rpc_close (word0 p) cid))))
    end
  else ret None.

(** The status and the slots replied so far. *)
Definition tfm_mailbox_dispatch (m : mailbox_msg_t) (idx reply_slots : Z) : SPE (Z * Z) :=
  let* r := dispatch_call m idx in
  match r with
  | None => ret (MAILBOX_INVAL_PARAMS, reply_slots)
  | Some (psa_ret, sync) =>
      if sync then
        let* _ := mailbox_direct_reply idx (u32 psa_ret) in
        ret (MAILBOX_SUCCESS, Z.lor reply_slots (bit idx))
      else ret (MAILBOX_SUCCESS, reply_slots)
  end.

(** The body of the loop of [tfm_mailbox_handle_msg]. *)
Definition handle_slot (pend idx reply_slots : Z) : SPE Z :=
  if Z.land pend (bit idx) =? 0 then ret reply_slots
  else
    let* _ := clear_spe_queue_empty_status idx in
    let* s := get in
    let m := slot_msg (slots (nsq s) idx) in
    if negb (check_mailbox_msg m =? MAILBOX_SUCCESS) then
      let* _ := modify (set_queue idx (SecureSlot m idx (msg_handle (queue s idx)))) in
      let* _ := mailbox_clean_queue_slot idx in
      ret reply_slots
    else
      let m := MailboxMsg (call_type m) (params m) (-1) in
      let handle := default (msg_handle (queue s idx)) (get_spe_mailbox_msg_handle idx) in
      let* _ := modify (set_queue idx (SecureSlot m idx handle)) in
      let* r := tfm_mailbox_dispatch m idx reply_slots in
      if negb (r.1 =? MAILBOX_SUCCESS) then
        let* _ := mailbox_clean_queue_slot idx in
        ret r.2
      else ret r.2.

Fixpoint handle_loop (fuel : nat) (pend idx reply_slots : Z) : SPE Z :=
  match fuel with
  | O => ret reply_slots
  | S fuel =>
      let* s := get in
      if idx <? ns_slot_count s then
        let* reply_slots := handle_slot pend idx reply_slots in
        handle_loop fuel pend (idx + 1) reply_slots
      else ret reply_slots
  end.

(** The second critical section. *)
Definition handle_finish (pend reply_slots : Z) : SPE unit :=
  let* _ := clear_nspe_queue_pend_status pend in
  set_nspe_queue_replied_status reply_slots.

Definition tfm_mailbox_handle_msg : SPE Z :=
  let* pend := get_nspe_queue_pend_status in
  if pend =? 0 then ret MAILBOX_NO_PEND_EVENT
  else
    let* s := get in
    let* reply_slots := handle_loop (Z.to_nat (ns_slot_count s)) pend 0 0 in
    let* _ := handle_finish pend reply_slots in
    ret MAILBOX_SUCCESS.

(** ** Replies *)

(** [tfm_mailbox_reply_msg] up to its critical section: the slot replied. *)
Definition reply_begin (handle reply : Z) : SPE (Z + Z) :=
  let idx := if handle =? MAILBOX_MSG_NULL_HANDLE then 0 else u8 (handle - 1) in
  let* e := get_spe_queue_empty_status idx in
  if (e : bool) then ret (inl MAILBOX_NO_PEND_EVENT)
  else
    let* _ := mailbox_direct_reply idx (u32 reply) in
    ret (inr idx).

Definition tfm_mailbox_reply_msg (handle reply : Z) : SPE Z :=
  let* r := reply_begin handle reply in
  match r with
  | inl e => ret e
  | inr idx => let* _ := set_nspe_queue_replied_status (bit idx) in ret MAILBOX_SUCCESS
  end.

(** The callback of the RPC layer; the owner is the slot whose handle the client
    data points to. *)
Definition mailbox_reply_handle (o : option Z) : SPE Z := gets (fun s => match o with Some i => msg_handle (queue s i) | None => MAILBOX_MSG_NULL_HANDLE end).

Definition mailbox_reply (o : option Z) (v : Z) : SPE Z :=
  let* h := mailbox_reply_handle o in
  tfm_mailbox_reply_msg h v.
End spe.

(** [tfm_mailbox_init]; the platform learns the queue of the non-secure core,
    of at most [NUM_MAILBOX_QUEUE_SLOT] slots, and registers the identifiers of
    its clients. *)
Definition tfm_mailbox_init (NUM_MAILBOX_QUEUE_SLOT : Z) (ns : ns_mailbox_queue_t) (count : Z) (rs : list client_id_region_t) : mailboxes :=
  Mailboxes ns (all_slots_empty NUM_MAILBOX_QUEUE_SLOT) (fun _ => SecureSlot (MailboxMsg 0 zero_params 0) 0 0) count
    (fun _ => Vectors (replicate (Z.to_nat PSA_MAX_IOVEC) (0, 0)) (replicate (Z.to_nat PSA_MAX_IOVEC) (0, 0)) 0 false) rs.
