(* ===== verification/MailboxSystem.v ===== *)
(** * The mailbox between the cores: the system of both

    Any number of non-secure threads that call ([tfm_ns_mailbox_client_call]),
    the interrupt handler that wakes them, the mailbox agent of the secure core
    ([ns_agent_mailbox.c]), and the partition manager that answers.  Their steps
    interleave in any order.  The specification is a remote procedure call for
    every thread. *)

From S2P Require Import Prelude Bytes NsMailbox SpeMailbox.
From stdpp Require Import base list numbers functions.
From Stdlib Require Import ZArith Lia.

Open Scope Z_scope.
Open Scope tfm_scope.

(** ** What can be seen *)

(** Threads are seen by the handle that the slots keep of them. *)
Inductive label : Type :=
| L_call (t : nat) (m : mailbox_msg_t)
| L_serve (o : Z) (m : mailbox_msg_t)
| L_answer (o : Z) (v : psa_status_t) (lens : list Z) (r : mailbox_reply_t)
| L_refuse (o : Z) (v : psa_status_t) (r : mailbox_reply_t)
| L_return (t : nat) (v : Z) (r : mailbox_reply_t).

Definition task (t : nat) : Z := Z.of_nat t + 1.

(** ** The system *)

(** Where the agent stands: in the loop of [tfm_mailbox_handle_msg] with its
    snapshot, the next slot and the slots replied, or in front of the critical
    section of [tfm_mailbox_reply_msg]. *)
Inductive agent_pc : Type :=
| A_idle
| A_loop (pend idx reply_slots : Z)
| A_replied (idx : Z).

(** [held] are the slots whose requests the partition manager has accepted and
    not answered. *)
Record sys : Type := Sys {
  boxes : mailboxes;
  threads : nat -> ns_pc;
  agent : agent_pc;
  held : list Z;
}.

Section system.
Context (NS_SLOTS NUM_MAILBOX_QUEUE_SLOT : Z).

(** The client data of a connection that is closed: the slot of the request it
    was used for before, if any; a request to close the null handle is accepted
    and never answered. *)
Context (close_owner : Z -> option Z -> Prop).

Definition set_thread (t : nat) (pc : ns_pc) (s : sys) : sys := Sys (boxes s) (<[t := pc]> (threads s)) (agent s) (held s).
Definition set_boxes (b : mailboxes) (s : sys) : sys := Sys b (threads s) (agent s) (held s).
Definition set_agent (p : agent_pc) (s : sys) : sys := Sys (boxes s) (threads s) p (held s).
Definition set_held (l : list Z) (s : sys) : sys := Sys (boxes s) (threads s) (agent s) l.

(** What a slot of the non-secure core holds. *)
Definition owner_of (s : sys) (i : Z) : Z := owner (slots_ns (nsq (boxes s)) i).
Definition reply_of (s : sys) (i : Z) : mailbox_reply_t := slot_reply (slots (nsq (boxes s)) i).

(** The message as the agent takes it. *)
Definition served_msg (m : mailbox_msg_t) : mailbox_msg_t := MailboxMsg (call_type m) (params m) (-1).

(** What the agent's step on the slot [i] does to the requests held, and what is
    seen of it: the dispatch, then the reply if there is one already. *)
Definition accepted (m : mailbox_msg_t) (i : Z) (co : option Z) : list Z :=
  if call_type m =? MAILBOX_PSA_CLOSE then from_option (fun j => [j]) [] co else [i].

Inductive step : sys -> list label -> sys -> Prop :=
| step_call s t m :
    threads s t = NS_idle ->
    step s [L_call t m] (set_thread t (NS_lock m) s)
| step_thread s t pc q :
    threads s t <> NS_idle -> client_call_step NS_SLOTS (task t) (threads s t) (nsq (boxes s)) = (Ok (inl pc), q) ->
    step s [] (set_thread t pc (set_boxes (set_nsq q (boxes s)) s))
| step_return s t v r q :
    threads s t <> NS_idle -> client_call_step NS_SLOTS (task t) (threads s t) (nsq (boxes s)) = (Ok (inr (v, r)), q) ->
    step s [L_return t v r] (set_thread t NS_idle (set_boxes (set_nsq q (boxes s)) s))
| step_isr s o q :
    tfm_ns_mailbox_wake_reply_owner_isr NS_SLOTS (nsq (boxes s)) = (Ok o, q) ->
    step s [] (set_boxes (set_nsq q (boxes s)) s)
| step_handle_begin s :
    agent s = A_idle -> pend_slots (status (nsq (boxes s))) <> 0 ->
    step s [] (set_agent (A_loop (pend_slots (status (nsq (boxes s)))) 0 0) s)
| step_handle_skip s pend idx rs :
    agent s = A_loop pend idx rs -> idx < ns_slot_count (boxes s) -> Z.land pend (bit idx) = 0 ->
    step s [] (set_agent (A_loop pend (idx + 1) rs) s)
| step_handle_drop s rpc pend idx rs rs' b :
    agent s = A_loop pend idx rs -> idx < ns_slot_count (boxes s) -> Z.land pend (bit idx) <> 0 ->
    handle_slot NUM_MAILBOX_QUEUE_SLOT rpc pend idx rs (boxes s) = (Ok rs', b) ->
    fst (dispatch_call rpc (served_msg (slot_msg (slots (nsq (boxes s)) idx))) idx (boxes s)) = Ok None ->
    step s [] (set_agent (A_loop pend (idx + 1) rs') (set_boxes b s))
| step_handle_sync s rpc pend idx rs rs' b v :
    agent s = A_loop pend idx rs -> idx < ns_slot_count (boxes s) -> Z.land pend (bit idx) <> 0 ->
    handle_slot NUM_MAILBOX_QUEUE_SLOT rpc pend idx rs (boxes s) = (Ok rs', b) ->
    fst (dispatch_call rpc (served_msg (slot_msg (slots (nsq (boxes s)) idx))) idx (boxes s)) = Ok (Some (v, true)) ->
    step s [L_serve (owner_of s idx) (served_msg (slot_msg (slots (nsq (boxes s)) idx)));
            L_refuse (owner_of s idx) v (slot_reply (slots (nsq b) idx))]
      (set_agent (A_loop pend (idx + 1) rs') (set_boxes b s))
| step_handle_async s rpc pend idx rs rs' b v co :
    agent s = A_loop pend idx rs -> idx < ns_slot_count (boxes s) -> Z.land pend (bit idx) <> 0 ->
    handle_slot NUM_MAILBOX_QUEUE_SLOT rpc pend idx rs (boxes s) = (Ok rs', b) ->
    fst (dispatch_call rpc (served_msg (slot_msg (slots (nsq (boxes s)) idx))) idx (boxes s)) = Ok (Some (v, false)) ->
    close_owner idx co ->
    step s [L_serve (owner_of s idx) (served_msg (slot_msg (slots (nsq (boxes s)) idx)))]
      (set_held (accepted (slot_msg (slots (nsq (boxes s)) idx)) idx co ++ held s) (set_agent (A_loop pend (idx + 1) rs') (set_boxes b s)))
| step_handle_end s pend idx rs b :
    agent s = A_loop pend idx rs -> ns_slot_count (boxes s) <= idx ->
    handle_finish pend rs (boxes s) = (Ok tt, b) ->
    step s [] (set_agent A_idle (set_boxes b s))
| step_answer s i l1 l2 v lens h idx b :
    agent s = A_idle -> held s = l1 ++ i :: l2 -> length lens = length (v_out_vec (vectors (boxes s) i)) ->
    fst (mailbox_reply_handle (Some i) (boxes s)) = Ok h ->
    reply_begin NUM_MAILBOX_QUEUE_SLOT h v
      (set_vectors i (Vectors (v_in_vec (vectors (boxes s) i)) (zip (map fst (v_out_vec (vectors (boxes s) i))) lens) (v_out_len (vectors (boxes s) i)) (in_use (vectors (boxes s) i))) (boxes s)) = (Ok (inr idx), b) ->
    step s [L_answer (owner_of s (ns_slot_idx (queue (boxes s) idx))) v lens (slot_reply (slots (nsq b) (ns_slot_idx (queue (boxes s) idx))))]
      (set_held (l1 ++ l2) (set_agent (A_replied idx) (set_boxes b s)))
| step_answer_end s idx b :
    agent s = A_replied idx -> set_nspe_queue_replied_status (bit idx) (boxes s) = (Ok tt, b) ->
    step s [] (set_agent A_idle (set_boxes b s)).

Inductive run : sys -> list label -> sys -> Prop :=
| run_nil s : run s [] s
| run_step s l s' ls s'' : run s l s' -> step s' ls s'' -> run s (l ++ ls) s''.
End system.

(** ** The specification *)

Inductive client : Type :=
| C_idle
| C_called (m : mailbox_msg_t)
| C_served (m : mailbox_msg_t)
| C_answered (m : mailbox_msg_t) (r : mailbox_reply_t).

(** A call is served at most once, with the message that the thread sent; it
    returns the answer of the partition manager to this message, or that the
    queue is full, before it is served. *)
Inductive rpc_step : (nat -> client) -> label -> (nat -> client) -> Prop :=
| rpc_call a t m : a t = C_idle -> rpc_step a (L_call t m) (<[t := C_called m]> a)
| rpc_serve a t m : a t = C_called m -> rpc_step a (L_serve (task t) (served_msg m)) (<[t := C_served m]> a)
| rpc_answer a t m v lens r :
    a t = C_served m -> return_val r = to_s32 (u32 v) -> (call_type m = MAILBOX_PSA_CALL -> out_vec_len r = lens) ->
    rpc_step a (L_answer (task t) v lens r) (<[t := C_answered m r]> a)
| rpc_refuse a t m v r :
    a t = C_served m -> return_val r = to_s32 (u32 v) ->
    rpc_step a (L_refuse (task t) v r) (<[t := C_answered m r]> a)
| rpc_return a t m r : a t = C_answered m r -> rpc_step a (L_return t MAILBOX_SUCCESS r) (<[t := C_idle]> a)
| rpc_full a t m : a t = C_called m -> rpc_step a (L_return t MAILBOX_QUEUE_FULL no_reply) (<[t := C_idle]> a).

Inductive rpc_run : (nat -> client) -> list label -> (nat -> client) -> Prop :=
| rpc_nil a : rpc_run a [] a
| rpc_cons a l a' ls a'' : rpc_step a l a' -> rpc_run a' ls a'' -> rpc_run a (l :: ls) a''.

Lemma rpc_run_app a ls a' ls' a'' : rpc_run a ls a' -> rpc_run a' ls' a'' -> rpc_run a (ls ++ ls') a''.
Proof. intros H1 H2. induction H1; [done|]. econstructor; [done|by apply IHrpc_run]. Qed.
