(* ===== verification/MailboxProof.v ===== *)
(** * The mailbox between the cores: the simulation

    Every slot is in one stage at a time; the flags on both sides, the place
    of the thread that holds it and the phase of its call agree with the stage
    ([slot_ok]).  Every step of the system keeps that and is a step of the
    specification or none. *)

From S2P Require Import Prelude Bytes NsMailbox SpeMailbox MailboxSystem.
From stdpp Require Import base list numbers functions sets.
From Stdlib Require Import ZArith Lia.

Open Scope Z_scope.
Open Scope tfm_scope.

(** ** Bits *)

Lemma bit_test i j : 0 <= i -> 0 <= j -> Z.testbit (bit i) j = (i =? j).
Proof.
  intros Hi Hj. unfold bit. rewrite Z.shiftl_spec by done. destruct (Z.eqb_spec i j) as [->|Hne]; [by rewrite Z.sub_diag|].
  destruct (Z.ltb_spec j i); [by rewrite Z.testbit_neg_r by lia|]. replace 1 with (2 ^ 0) by done. rewrite Z.pow2_bits_false by lia. done.
Qed.

Lemma mb_land_bit x i : 0 <= i -> (Z.land x (bit i) =? 0) = negb (Z.testbit x i).
Proof.
  intros Hi. assert (Z.land x (bit i) = if Z.testbit x i then bit i else 0) as ->.
  { apply Z.bits_inj'. intros j Hj. rewrite Z.land_spec, bit_test by done. destruct (Z.eqb_spec i j) as [->|Hne].
    - rewrite andb_true_r. destruct (Z.testbit x j); [by rewrite bit_test, Z.eqb_refl|by rewrite Z.bits_0].
    - rewrite andb_false_r. destruct (Z.testbit x i); [rewrite bit_test by done; by rewrite (proj2 (Z.eqb_neq i j))|by rewrite Z.bits_0]. }
  destruct (Z.testbit x i); [|done]. apply Z.eqb_neq. intros Hz. pose proof (bit_test i i Hi Hi) as Hb. rewrite Hz, Z.bits_0, Z.eqb_refl in Hb. done.
Qed.

Lemma lor_bit x i j : 0 <= i -> 0 <= j -> Z.testbit (Z.lor x (bit i)) j = Z.testbit x j || (i =? j).
Proof. intros Hi Hj. by rewrite Z.lor_spec, bit_test. Qed.

Lemma ldiff_bit x i j : 0 <= i -> 0 <= j -> Z.testbit (Z.ldiff x (bit i)) j = Z.testbit x j && negb (i =? j).
Proof. intros Hi Hj. by rewrite Z.ldiff_spec, bit_test. Qed.

(** The first slot whose bit is set. *)
Lemma first_slot_spec fuel idx st :
  0 <= idx ->
  let r := first_slot fuel idx st in
  idx <= r <= idx + Z.of_nat fuel /\ (r < idx + Z.of_nat fuel -> Z.testbit st r = true).
Proof.
  revert idx. induction fuel as [|fuel IH]; intros idx Hidx; cbn [first_slot]; [split; lia|].
  rewrite mb_land_bit, negb_involutive by done. destruct (Z.testbit st idx) eqn:Hb; [split; [lia|done]|].
  destruct (IH (idx + 1)) as [Hr Ht]; [lia|]. split; [lia|]. intros Hlt. apply Ht. lia.
Qed.

(** ** The relation *)

Section proof.
Context (NS_SLOTS NUM : Z) (close_owner : Z -> option Z -> Prop).
Context (Hslots : 0 < NS_SLOTS <= NUM) (Hnum : NUM <= 32).
Context (Hclose : forall i co, close_owner i co -> co = Some i \/ co = None).

Abbreviation q s := (nsq (boxes s)).
Abbreviation pend s i := (Z.testbit (pend_slots (status (q s))) i).
Abbreviation replied s i := (Z.testbit (replied_slots (status (q s))) i).
Abbreviation woken s i := (is_woken (slots_ns (q s) i)).
Abbreviation empty s i := (Z.testbit (empty_slots (q s)) i).
Abbreviation s_empty s i := (Z.testbit (s_empty_slots (boxes s)) i).
Abbreviation the_msg s i := (slot_msg (slots (q s) i)).

Implicit Types (s : sys) (a : nat -> client) (i : Z) (t : nat).

(** The slot that a thread works on. *)
Definition slot_of (pc : ns_pc) : option Z :=
  match pc with
  | NS_fill i _ | NS_owner i | NS_pend i | NS_wait i | NS_read i | NS_clear_owner i _ | NS_release i _ => Some i
  | _ => None
  end.

(** The agent has taken the slot out of its snapshot; it has a reply that is
    not posted yet. *)
Definition processed s i : bool := match agent s with A_loop p j _ => Z.testbit p i && (i <? j) | _ => false end.
Definition answering s i : bool := match agent s with A_loop _ _ rs => Z.testbit rs i | A_replied k => i =? k | A_idle => false end.

(** Flags: pending, replied, woken, held, answering. *)
Record flags s i (p r w h an : bool) : Prop := {
  fl_pend : p = false -> pend s i = true -> processed s i = true;
  fl_sent : p = true -> pend s i = true /\ processed s i = false;
  fl_replied : replied s i = r;
  fl_woken : woken s i = w;
  fl_held : h = true <-> i ∈ held s;
  fl_once : (count_occ Z.eq_dec (held s) i <= 1)%nat;
  fl_answering : answering s i = an;
}.

(** A request that the partition manager holds. *)
Record serving s i (m : mailbox_msg_t) : Prop := {
  sv_empty : s_empty s i = false;
  sv_idx : ns_slot_idx (queue (boxes s) i) = i;
  sv_handle : msg_handle (queue (boxes s) i) = i + 1;
  sv_use : call_type m = MAILBOX_PSA_CALL -> in_use (vectors (boxes s) i) = true;
}.

(** The stages of a slot, with the thread [t] that holds it. *)
Inductive slot_ok s a i : Prop :=
| ok_free : flags s i false false false false false -> pend s i = false -> empty s i = true -> (forall t, slot_of (threads s t) <> Some i) -> slot_ok s a i
| ok_fill t m : flags s i false false false false false -> pend s i = false -> empty s i = false -> threads s t = NS_fill i m -> a t = C_called m -> slot_ok s a i
| ok_owner t : flags s i false false false false false -> pend s i = false -> empty s i = false -> threads s t = NS_owner i -> a t = C_called (the_msg s i) -> slot_ok s a i
| ok_pend t : flags s i false false false false false -> pend s i = false -> empty s i = false -> threads s t = NS_pend i -> a t = C_called (the_msg s i) ->
    owner_of s i = task t -> slot_ok s a i
| ok_sent t : flags s i true false false false false -> empty s i = false -> threads s t = NS_wait i -> a t = C_called (the_msg s i) -> owner_of s i = task t -> slot_ok s a i
| ok_work t m : flags s i false false false true false -> empty s i = false -> threads s t = NS_wait i -> a t = C_served m -> owner_of s i = task t -> serving s i m -> slot_ok s a i
| ok_lost t : flags s i false false false false false -> empty s i = false -> threads s t = NS_wait i -> owner_of s i = task t -> slot_ok s a i
| ok_answer t m : flags s i false false false false true -> empty s i = false -> threads s t = NS_wait i -> a t = C_answered m (reply_of s i) -> slot_ok s a i
| ok_posted t m : flags s i false true false false false -> pend s i = false -> empty s i = false -> threads s t = NS_wait i -> a t = C_answered m (reply_of s i) -> slot_ok s a i
| ok_woken t m : flags s i false false true false false -> pend s i = false -> empty s i = false -> threads s t = NS_wait i -> a t = C_answered m (reply_of s i) -> slot_ok s a i
| ok_read t m : flags s i false false false false false -> pend s i = false -> empty s i = false -> threads s t = NS_read i -> a t = C_answered m (reply_of s i) -> slot_ok s a i
| ok_clear t m r : flags s i false false false false false -> pend s i = false -> empty s i = false -> threads s t = NS_clear_owner i r -> a t = C_answered m r -> slot_ok s a i
| ok_release t m r : flags s i false false false false false -> pend s i = false -> empty s i = false -> threads s t = NS_release i r -> a t = C_answered m r -> slot_ok s a i.

(** A thread with no slot. *)
Definition thread_ok s a t : Prop :=
  match threads s t with
  | NS_idle => a t = C_idle
  | NS_lock m | NS_acquire m => a t = C_called m
  | NS_unlock v r => (v = MAILBOX_SUCCESS /\ exists m, a t = C_answered m r) \/ (v = MAILBOX_QUEUE_FULL /\ r = no_reply /\ exists m, a t = C_called m)
  | _ => True
  end.

Definition agent_ok s : Prop :=
  match agent s with
  | A_idle => True
  | A_loop p j rs => 0 <= j /\ (forall i, 0 <= i -> Z.testbit p i = true -> pend s i = true) /\ (forall i, NS_SLOTS <= i -> Z.testbit rs i = false)
  | A_replied k => 0 <= k < NS_SLOTS
  end.

Record related s a : Prop := {
  rl_slots : forall i, 0 <= i < NS_SLOTS -> slot_ok s a i;
  rl_range : forall t i, slot_of (threads s t) = Some i -> 0 <= i < NS_SLOTS;
  rl_unique : forall t t' i, slot_of (threads s t) = Some i -> slot_of (threads s t') = Some i -> t = t';
  rl_threads : forall t, thread_ok s a t;
  rl_agent : agent_ok s;
  rl_count : ns_slot_count (boxes s) = NS_SLOTS;
  rl_held : forall i, i ∈ held s -> 0 <= i < NS_SLOTS;
  rl_empty : forall i, NS_SLOTS <= i -> empty s i = false;
}.

(** ** Steps leave the other slots alone *)

Record apart i s a s' a' : Prop := {
  ap_pend : pend s' i = pend s i;
  ap_processed : processed s' i = processed s i;
  ap_replied : replied s' i = replied s i;
  ap_woken : woken s' i = woken s i;
  ap_held : i ∈ held s' <-> i ∈ held s;
  ap_once : count_occ Z.eq_dec (held s') i = count_occ Z.eq_dec (held s) i;
  ap_answering : answering s' i = answering s i;
  ap_empty : empty s' i = empty s i;
  ap_msg : the_msg s' i = the_msg s i;
  ap_reply : reply_of s' i = reply_of s i;
  ap_owner : owner_of s' i = owner_of s i;
  ap_serving : forall m, serving s i m -> serving s' i m;
  ap_thread : forall t, slot_of (threads s t) = Some i -> threads s' t = threads s t /\ a' t = a t;
  ap_back : forall t, slot_of (threads s' t) = Some i -> threads s' t = threads s t;
}.

Lemma flags_apart i s a s' a' p r w h an : apart i s a s' a' -> flags s i p r w h an -> flags s' i p r w h an.
Proof.
  intros [] []. split; [rewrite ap_pend0, ap_processed0; done|rewrite ap_pend0, ap_processed0; done|congruence|congruence|by rewrite ap_held0|by rewrite ap_once0|congruence].
Qed.

Lemma slot_apart i s a s' a' : apart i s a s' a' -> slot_ok s a i -> slot_ok s' a' i.
Proof.
  intros Hap Hok. pose proof (fun p r w h an => flags_apart i s a s' a' p r w h an Hap) as Hfl. pose proof Hap as [].
  assert (forall t pc, threads s t = pc -> slot_of pc = Some i -> threads s' t = pc /\ a' t = a t) as Hth.
  { intros t pc Ht Hs. destruct (ap_thread0 t) as [H1 H2]; [by rewrite Ht|]. split; [by rewrite H1|done]. }
  destruct Hok as [Hf Hp He Hn|t m Hf Hp He Ht Ha|t Hf Hp He Ht Ha|t Hf Hp He Ht Ha Ho|t Hf He Ht Ha Ho|t m Hf He Ht Ha Ho Hs|t Hf He Ht Ho|t m Hf He Ht Ha|t m Hf Hp He Ht Ha|t m Hf Hp He Ht Ha|t m Hf Hp He Ht Ha|t m r Hf Hp He Ht Ha|t m r Hf Hp He Ht Ha];
    try (destruct (Hth t _ Ht eq_refl) as [Ht' Ha']).
  - apply ok_free; [by apply Hfl|congruence|congruence|]. intros t Ht. apply (Hn t). by rewrite <- (ap_back0 t Ht).
  - apply (ok_fill _ _ _ t m); [by apply Hfl|congruence..].
  - apply (ok_owner _ _ _ t); [by apply Hfl|congruence..].
  - apply (ok_pend _ _ _ t); [by apply Hfl|congruence..].
  - apply (ok_sent _ _ _ t); [by apply Hfl|congruence..].
  - apply (ok_work _ _ _ t m); [by apply Hfl|congruence..|by apply ap_serving0].
  - apply (ok_lost _ _ _ t); [by apply Hfl|congruence..].
  - apply (ok_answer _ _ _ t m); [by apply Hfl|congruence..].
  - apply (ok_posted _ _ _ t m); [by apply Hfl|congruence..].
  - apply (ok_woken _ _ _ t m); [by apply Hfl|congruence..].
  - apply (ok_read _ _ _ t m); [by apply Hfl|congruence..].
  - apply (ok_clear _ _ _ t m r); [by apply Hfl|congruence..].
  - apply (ok_release _ _ _ t m r); [by apply Hfl|congruence..].
Qed.

(** ** Steps of threads *)

(** The queue of the non-secure core is the same at a slot. *)
Record same_slot j (x y : ns_mailbox_queue_t) : Prop := {
  ss_pend : Z.testbit (pend_slots (status y)) j = Z.testbit (pend_slots (status x)) j;
  ss_replied : Z.testbit (replied_slots (status y)) j = Z.testbit (replied_slots (status x)) j;
  ss_slots : slots y j = slots x j;
  ss_ns : slots_ns y j = slots_ns x j;
  ss_empty : Z.testbit (empty_slots y) j = Z.testbit (empty_slots x) j;
}.

Lemma mb_same_refl j x : same_slot j x x.
Proof. done. Qed.

(** The system after a step of the thread [t]. *)
Definition after t (pc : ns_pc) (y : ns_mailbox_queue_t) s : sys := set_thread t pc (set_boxes (set_nsq y (boxes s)) s).

Lemma after_thread t pc y s : threads (after t pc y s) t = pc.
Proof. cbn. apply fn_lookup_insert. Qed.

Lemma after_other t t' pc y s : t' <> t -> threads (after t pc y s) t' = threads s t'.
Proof. intros Hne. cbn. by apply fn_lookup_insert_ne. Qed.

(** A step of [t] that touches the slot [o] only. *)
Lemma related_thread s a a' t pc y (o : option Z) :
  related s a -> (forall j, 0 <= j -> o <> Some j -> same_slot j (q s) y) ->
  (forall d, d <> t -> a' d = a d) ->
  (slot_of (threads s t) = None \/ slot_of (threads s t) = o) -> (slot_of pc = None \/ slot_of pc = o) ->
  (forall i d, o = Some i -> slot_of (threads s d) = Some i -> d = t) ->
  (forall i, o = Some i -> 0 <= i < NS_SLOTS /\ (pend s i = true -> Z.testbit (pend_slots (status y)) i = true) /\ slot_ok (after t pc y s) a' i) ->
  thread_ok (after t pc y s) a' t -> related (after t pc y s) a'.
Proof.
  intros [Rs Rr Ru Rt Ra Rc Rh Re] Hy Ha Ho Hpc Hone Hi Ht.
  assert (forall d j, slot_of (threads (after t pc y s) d) = Some j -> (d = t /\ o = Some j) \/ (d <> t /\ slot_of (threads s d) = Some j)) as Hslot.
  { intros d j Hd. destruct (decide (d = t)) as [->|Hne]; [left|right; by rewrite after_other in Hd]. rewrite after_thread in Hd. split; [done|]. destruct Hpc; congruence. }
  split; cbn [boxes held set_thread set_boxes after agent]; try done.
  - intros j Hj. destruct (decide (o = Some j)) as [Hoj|Hoj]; [by apply Hi|]. apply (slot_apart j s a); [|by apply Rs].
    destruct (Hy j) as [H1 H2 H3 H4 H5]; [lia|done|].
    split; cbn [boxes held agent after set_thread set_boxes set_nsq nsq reply_of owner_of]; rewrite ?H1, ?H2, ?H3, ?H4, ?H5; try done.
    + unfold reply_of. cbn [boxes after set_thread set_boxes set_nsq nsq]. by rewrite H3.
    + unfold owner_of. cbn [boxes after set_thread set_boxes set_nsq nsq]. by rewrite H4.
    + by intros m [].
    + intros d Hd. assert (d <> t) as Hne by (intros ->; destruct Ho; congruence). split; [by apply after_other|by apply Ha].
    + intros d Hd. destruct (Hslot d j Hd) as [[_ ?]|[Hne _]]; [done|by apply after_other].
  - intros d j Hd. destruct (Hslot d j Hd) as [[_ Hoj]|[_ Hd']]; [by apply Hi|by apply (Rr d)].
  - intros d d' j Hd Hd'. destruct (Hslot d j Hd) as [[-> Hoj]|[Hne Hs]], (Hslot d' j Hd') as [[-> Hoj']|[Hne' Hs']]; [done|symmetry; by apply (Hone j)|by apply (Hone j)|by apply (Ru d d' j)].
  - intros d. destruct (decide (d = t)) as [->|Hne]; [done|]. specialize (Rt d). unfold thread_ok in *. rewrite after_other by done. by rewrite Ha by done.
  - unfold agent_ok in *. cbn [agent after set_thread set_boxes boxes set_nsq nsq]. destruct (agent s) as [|p j rs|k]; [done| |done]. destruct Ra as (H1 & H2 & H3). split_and!; [done| |done].
    intros d Hd Hp. specialize (H2 d Hd Hp). destruct (decide (o = Some d)) as [Hoj|Hoj]; [by apply (Hi d Hoj)|]. by rewrite (ss_pend _ _ _ (Hy d Hd Hoj)).
  - intros d Hd. cbn [set_nsq nsq]. destruct (decide (o = Some d)) as [Hoj|Hoj]; [destruct (Hi d Hoj); lia|]. rewrite (ss_empty _ _ _ (Hy d ltac:(lia) Hoj)). by apply Re.
Qed.

(** The slot of a thread is in a stage of that thread. *)
Lemma holder s a t i :
  related s a -> slot_of (threads s t) = Some i ->
  (forall t', slot_of (threads s t') = Some i -> t' = t) /\ 0 <= i < NS_SLOTS /\ slot_ok s a i.
Proof.
  intros Hr Hs. pose proof (rl_range s a Hr t i Hs) as Hi. split_and!; [|lia|lia|by apply (rl_slots s a Hr)]. intros t' Ht'. by apply (rl_unique s a Hr t' t i).
Qed.

Ltac at_stage Hr Hpc i :=
  let Hu := fresh "Hu" in let Hi := fresh "Hi" in let Hok := fresh "Hok" in
  match type of Hpc with threads ?s ?t = _ => destruct (holder s _ t i Hr) as (Hu & Hi & Hok); [rewrite Hpc; reflexivity|] end;
  destruct Hok;
  try (match goal with H : forall t, slot_of (threads _ t) <> Some _ |- _ => exfalso; eapply H; rewrite Hpc; reflexivity end);
  try (match goal with H : threads _ ?t0 = _, Hu : forall t', _ -> t' = ?t |- _ =>
    assert (t0 = t) as -> by (apply Hu; rewrite H; reflexivity); rewrite Hpc in H; try discriminate H end).

(** Flags after a step of a thread. *)
Lemma flags_after s i t pc y p r w h an w' :
  flags s i p r w h an -> same_slot i (q s) y \/
    (Z.testbit (pend_slots (status y)) i = pend s i /\ Z.testbit (replied_slots (status y)) i = replied s i) ->
  is_woken (slots_ns y i) = w' -> flags (after t pc y s) i p r w' h an.
Proof.
  intros [] Hy Hw. assert (Z.testbit (pend_slots (status y)) i = pend s i /\ Z.testbit (replied_slots (status y)) i = replied s i) as [Hp Hr].
  { destruct Hy as [[? ? ? ? ?]|Hy]; [done|exact Hy]. }
  split; cbn [boxes held agent after set_thread set_boxes set_nsq nsq]; rewrite ?Hp, ?Hr; done.
Qed.

Lemma not_pending_not_processed s i : agent_ok s -> 0 <= i -> pend s i = false -> processed s i = false.
Proof.
  unfold agent_ok, processed. destruct (agent s) as [|p j rs|k]; [done| |done]. intros (_ & Hp & _) Hi Hf.
  destruct (Z.testbit p i) eqn:Hb; [|done]. rewrite (Hp i Hi Hb) in Hf. done.
Qed.

(** A client waits with its call unanswered or answered. *)
Lemma in_queue_eq (i : Z) (f : ns_mailbox_queue_t -> ns_mailbox_queue_t) x : i < NS_SLOTS -> in_queue NS_SLOTS i f x = (Ok tt, f x).
Proof. intros Hi. unfold in_queue. by rewrite (proj2 (Z.ltb_lt _ _) Hi). Qed.

Lemma fill_related s a t i m :
  related s a -> threads s t = NS_fill i m -> related (after t (NS_owner i) (set_slot i (MailboxSlot m (slot_reply (slots (q s) i))) (q s)) s) a.
Proof.
  intros Hr Hpc. at_stage Hr Hpc i. injection H2 as <-. set (y := set_slot _ _ _).
  apply (related_thread s a a t _ y (Some i)); [done| |done|by right; rewrite Hpc|by right| | |by unfold thread_ok; rewrite after_thread].
  - intros j Hj Hne. split; try done. cbn. apply fn_lookup_insert_ne. congruence.
  - intros j d [= <-]. apply Hu.
  - intros j [= <-]. split_and!; [lia|lia|done|]. apply (ok_owner _ _ _ t); [|done|done|apply after_thread|].
    + eapply flags_after; [done|by right|]. cbn. by destruct H.
    + cbn. rewrite fn_lookup_insert. done.
Qed.

Lemma owner_related s a t i :
  related s a -> threads s t = NS_owner i ->
  related (after t (NS_pend i) (set_slot_ns i (NsSlot (task t) (is_woken (slots_ns (q s) i))) (q s)) s) a.
Proof.
  intros Hr Hpc. at_stage Hr Hpc i. set (y := set_slot_ns _ _ _).
  apply (related_thread s a a t _ y (Some i)); [done| |done|by right; rewrite Hpc|by right| | |by unfold thread_ok; rewrite after_thread].
  - intros j Hj Hne. split; try done. cbn. apply fn_lookup_insert_ne. congruence.
  - intros j d [= <-]. apply Hu.
  - intros j [= <-]. split_and!; [lia|lia|done|]. apply (ok_pend _ _ _ t); [|done|done|apply after_thread|done|].
    + eapply flags_after; [done|by right|]. cbn. rewrite fn_lookup_insert. by destruct H.
    + unfold owner_of. cbn. by rewrite fn_lookup_insert.
Qed.

Lemma pend_related s a t i :
  related s a -> threads s t = NS_pend i ->
  related (after t (NS_wait i) (set_status (MailboxStatus (Z.lor (pend_slots (status (q s))) (bit i)) (replied_slots (status (q s)))) (q s)) s) a.
Proof.
  intros Hr Hpc. at_stage Hr Hpc i. set (y := set_status _ _).
  apply (related_thread s a a t _ y (Some i)); [done| |done|by right; rewrite Hpc|by right| | |by unfold thread_ok; rewrite after_thread].
  - intros j Hj Hne. split; try done. cbn. rewrite lor_bit by lia. rewrite (proj2 (Z.eqb_neq i j)) by congruence. by rewrite orb_false_r.
  - intros j d [= <-]. apply Hu.
  - intros j [= <-]. split_and!; [lia|lia| |].
    + intros _. cbn. rewrite lor_bit by lia. by rewrite Z.eqb_refl, orb_true_r.
    + apply (ok_sent _ _ _ t); [|done|apply after_thread|done|done]. pose proof (not_pending_not_processed s i (rl_agent _ _ Hr) ltac:(lia) H0) as Hnp.
      destruct H. split; [done| |done|done|done|done|done]. intros _. split; [|exact Hnp]. cbn. rewrite lor_bit by lia. by rewrite Z.eqb_refl, orb_true_r.
Qed.

Lemma related_stay s a t y :
  related s a -> (forall j, 0 <= j -> same_slot j (q s) y) -> related (after t (threads s t) y s) a.
Proof.
  intros Hr Hy. assert (forall d, threads (after t (threads s t) y s) d = threads s d) as Hth.
  { intros d. destruct (decide (d = t)) as [->|Hne]; [apply after_thread|by apply after_other]. }
  apply (related_thread s a a t _ y (slot_of (threads s t))); [done|by auto|done|by right|by right| | |].
  - intros i d Hi Hd. by apply (rl_unique _ _ Hr d t i).
  - intros i Hi. pose proof (rl_range _ _ Hr t i Hi) as Hb. destruct (Hy i) as [H1 H2 H3 H4 H5]; [lia|]. split_and!; [lia|lia|by rewrite H1|].
    apply (slot_apart i s a); [|by apply rl_slots].
    split; cbn [boxes held agent after set_thread set_boxes set_nsq nsq reply_of owner_of]; rewrite ?H1, ?H2, ?H3, ?H4, ?H5; try done.
    + unfold reply_of. cbn [boxes after set_thread set_boxes set_nsq nsq]. by rewrite H3.
    + unfold owner_of. cbn [boxes after set_thread set_boxes set_nsq nsq]. by rewrite H4.
    + by intros m [].
  - pose proof (rl_threads _ _ Hr t) as Ht. unfold thread_ok in *. by rewrite Hth.
Qed.

Lemma wait_related s a t i w y :
  related s a -> threads s t = NS_wait i -> mailbox_wait_reply_signal NS_SLOTS i (q s) = (Ok w, y) ->
  related (after t (if w then NS_read i else NS_wait i) y s) a.
Proof.
  intros Hr Hpc. destruct (holder s a t i Hr) as (Hu & Hi & Hok); [by rewrite Hpc|]. unfold mailbox_wait_reply_signal, is_queue_slot_woken.
  rewrite (proj2 (Z.ltb_lt _ _)) by lia. unfold bind at 1, gets. destruct (woken s i) eqn:Hw.
  - unfold bind, clear_queue_slot_woken. rewrite in_queue_eq by lia. intros [= <- <-]. clear Hu Hi Hok. at_stage Hr Hpc i; try (destruct H; congruence). set (y := set_slot_ns _ _ _).
    apply (related_thread s a a t _ y (Some i)); [done| |done|by right; rewrite Hpc|by right| | |by unfold thread_ok; rewrite after_thread].
    + intros j Hj Hne. split; try done. cbn. apply fn_lookup_insert_ne. congruence.
    + intros j d [= <-]. apply Hu.
    + intros j [= <-]. split_and!; [lia|lia|done|]. apply (ok_read _ _ _ t m); [|done|done|apply after_thread|done].
      eapply flags_after; [done|by right|]. cbn. by rewrite fn_lookup_insert.
  - intros [= <- <-]. rewrite <- Hpc. apply related_stay; [done|]. intros j _. apply mb_same_refl.
Qed.

Lemma read_related s a t i :
  related s a -> threads s t = NS_read i -> related (after t (NS_clear_owner i (slot_reply (slots (q s) i))) (q s) s) a.
Proof.
  intros Hr Hpc. at_stage Hr Hpc i.
  apply (related_thread s a a t _ (q s) (Some i)); [done| |done|by right; rewrite Hpc|by right| | |by unfold thread_ok; rewrite after_thread].
  - intros j Hj Hne. apply mb_same_refl.
  - intros j d [= <-]. apply Hu.
  - intros j [= <-]. split_and!; [lia|lia|done|]. apply (ok_clear _ _ _ t m (slot_reply (slots (q s) i))); [|done|done|apply after_thread|done].
    eapply flags_after; [done|by right|]. by destruct H.
Qed.

Lemma clear_related s a t i r :
  related s a -> threads s t = NS_clear_owner i r -> related (after t (NS_release i r) (set_slot_ns i (NsSlot 0 (is_woken (slots_ns (q s) i))) (q s)) s) a.
Proof.
  intros Hr Hpc. at_stage Hr Hpc i. injection H2 as <-. set (y := set_slot_ns _ _ _).
  apply (related_thread s a a t _ y (Some i)); [done| |done|by right; rewrite Hpc|by right| | |by unfold thread_ok; rewrite after_thread].
  - intros j Hj Hne. split; try done. cbn. apply fn_lookup_insert_ne. congruence.
  - intros j d [= <-]. apply Hu.
  - intros j [= <-]. split_and!; [lia|lia|done|]. apply (ok_release _ _ _ t m r); [|done|done|apply after_thread|done].
    eapply flags_after; [done|by right|]. cbn. rewrite fn_lookup_insert. by destruct H.
Qed.

Lemma release_related s a t i r y :
  related s a -> threads s t = NS_release i r -> release_slot NS_SLOTS i (q s) = (Ok tt, y) -> related (after t (NS_unlock MAILBOX_SUCCESS r) y s) a.
Proof.
  intros Hr Hpc. destruct (holder s a t i Hr) as (Hu & Hi & _); [by rewrite Hpc|]. unfold release_slot, bind, clear_queue_slot_woken, set_queue_slot_empty.
  rewrite !in_queue_eq by lia. intros [= <-]. clear Hu Hi. at_stage Hr Hpc i. injection H2 as <-. set (y := set_empty _ _).
  apply (related_thread s a a t _ y (Some i)); [done| |done|by right; rewrite Hpc|by left| | |].
  - intros j Hj Hne. split; try done; cbn; [apply fn_lookup_insert_ne; congruence|]. rewrite lor_bit by lia. rewrite (proj2 (Z.eqb_neq i j)) by congruence. by rewrite orb_false_r.
  - intros j d [= <-]. apply Hu.
  - intros j [= <-]. split_and!; [lia|lia|done|]. apply ok_free; [|done| |].
    + eapply flags_after; [done|by right|]. cbn. by rewrite fn_lookup_insert.
    + cbn. rewrite lor_bit by lia. by rewrite Z.eqb_refl, orb_true_r.
    + intros d Hd. destruct (decide (d = t)) as [->|Hne]; [by rewrite after_thread in Hd|]. rewrite after_other in Hd by done. by apply Hne, Hu.
  - unfold thread_ok. rewrite after_thread. left. split; [done|by exists m].
Qed.

Lemma acquire_related s a t m idx y :
  related s a -> threads s t = NS_acquire m -> acquire_empty_slot NS_SLOTS (q s) = (Ok idx, y) ->
  related (after t (if idx >=? NS_SLOTS then NS_unlock MAILBOX_QUEUE_FULL no_reply else NS_fill idx m) y s) a.
Proof.
  intros Hr Hpc. pose proof (rl_threads _ _ Hr t) as Ht. unfold thread_ok in Ht. rewrite Hpc in Ht. unfold acquire_empty_slot, bind, gets. destruct (empty_slots (q s) =? 0) eqn:H0.
  - intros [= <- <-]. rewrite Z.geb_leb, (proj2 (Z.leb_le _ _)) by lia.
    apply (related_thread s a a t _ (q s) None); [done|intros; apply mb_same_refl|done|left; by rewrite Hpc|by left|done|done|].
    unfold thread_ok. rewrite after_thread. right. split_and!; [done|done|by exists m].
  - destruct (first_slot_spec (Z.to_nat NS_SLOTS) 0 (empty_slots (q s))) as [Hb Ht']; [lia|]. set (k := first_slot _ _ _) in *.
    unfold clear_queue_slot_empty. destruct (decide (k < NS_SLOTS)) as [Hk|Hk]; [rewrite in_queue_eq by lia|].
    + intros [= <- <-]. rewrite Z.geb_leb, (proj2 (Z.leb_gt _ _)) by lia. set (y := set_empty _ _).
      assert (slot_ok s a k) as Hok by (apply rl_slots; [done|lia]). assert (empty s k = true) as He by (apply Ht'; lia).
      destruct Hok as [Hf Hpf _ Hn| | | | | | | | | | | | ]; try congruence.
      apply (related_thread s a a t _ y (Some k)); [done| |done|left; by rewrite Hpc|by right| | |by unfold thread_ok; rewrite after_thread].
      * intros j Hj Hne. split; try done; cbn. rewrite ldiff_bit by lia. rewrite (proj2 (Z.eqb_neq k j)) by congruence. by rewrite andb_true_r.
      * intros j d [= <-] Hd. by destruct (Hn d).
      * intros j [= <-]. split_and!; [lia|lia|done|]. apply (ok_fill _ _ _ t m); [|done| |apply after_thread|done].
        -- eapply flags_after; [done|by right|]. by destruct Hf.
        -- cbn. rewrite ldiff_bit by lia. by rewrite Z.eqb_refl, andb_false_r.
    + unfold in_queue. rewrite (proj2 (Z.ltb_ge _ _)) by lia. intros [= <- <-]. rewrite Z.geb_leb, (proj2 (Z.leb_le _ _)) by lia.
      apply (related_thread s a a t _ (q s) None); [done|intros; apply mb_same_refl|done|left; by rewrite Hpc|by left|done|done|].
      unfold thread_ok. rewrite after_thread. right. split_and!; [done|done|by exists m].
Qed.

(** A step of a thread that does not return. *)
Lemma thread_related s a t pc y :
  related s a -> client_call_step NS_SLOTS (task t) (threads s t) (q s) = (Ok (inl pc), y) -> related (after t pc y s) a.
Proof.
  intros Hr. destruct (threads s t) as [|m|m|i m|i|i|i|i|i r|i r|v r] eqn:Hpc; cbn [client_call_step].
  - intros [= <- <-]. rewrite <- Hpc. apply related_stay; [done|]. intros j _. apply mb_same_refl.
  - unfold bind, gets. destruct (ns_lock (q s) >? 0).
    + intros [= <- <-]. pose proof (rl_threads _ _ Hr t) as Ht. unfold thread_ok in Ht. rewrite Hpc in Ht.
      apply (related_thread s a a t _ _ None); [done|done|done|left; by rewrite Hpc|by left|done|done|]. unfold thread_ok. by rewrite after_thread.
    + intros [= <- <-]. rewrite <- Hpc. apply related_stay; [done|]. intros j _. apply mb_same_refl.
  - unfold bind. destruct (acquire_empty_slot NS_SLOTS (q s)) as [[idx|e] y'] eqn:Ha; [|done]. intros [= <- <-]. by apply acquire_related.
  - intros [= <- <-]. by apply fill_related.
  - destruct (holder s a t i Hr) as (_ & Hi & _); [by rewrite Hpc|]. unfold bind, set_msg_owner. rewrite in_queue_eq by lia. intros [= <- <-]. by apply owner_related.
  - destruct (holder s a t i Hr) as (_ & Hi & _); [by rewrite Hpc|]. unfold bind, set_queue_slot_pend. rewrite in_queue_eq by lia. intros [= <- <-]. by apply pend_related.
  - unfold bind. destruct (mailbox_wait_reply_signal NS_SLOTS i (q s)) as [[w|e] y'] eqn:Hw; [|done]. intros [= <- <-]. by apply wait_related.
  - intros [= <- <-]. by apply read_related.
  - destruct (holder s a t i Hr) as (_ & Hi & _); [by rewrite Hpc|]. unfold bind, set_msg_owner. rewrite in_queue_eq by lia. intros [= <- <-]. by apply clear_related.
  - unfold bind. destruct (release_slot NS_SLOTS i (q s)) as [[[]|e] y'] eqn:Hw; [|done]. intros [= <- <-]. by apply (release_related s a t i).
  - done.
Qed.

(** ** The functions of the secure side *)

(** Only the slot [i] is touched. *)
Record only i (b b' : mailboxes) : Prop := {
  on_status : status (nsq b') = status (nsq b);
  on_ns : slots_ns (nsq b') = slots_ns (nsq b);
  on_empty : empty_slots (nsq b') = empty_slots (nsq b);
  on_slots : forall j, j <> i -> slots (nsq b') j = slots (nsq b) j;
  on_msg : slot_msg (slots (nsq b') i) = slot_msg (slots (nsq b) i);
  on_count : ns_slot_count b' = ns_slot_count b;
  on_queue : forall j, j <> i -> queue b' j = queue b j;
  on_vectors : forall j, j <> i -> vectors b' j = vectors b j;
  on_s_empty : forall j, 0 <= j -> j <> i -> Z.testbit (s_empty_slots b') j = Z.testbit (s_empty_slots b) j;
  on_regions : client_id_regions b' = client_id_regions b;
}.

Lemma mb_only_refl i b : only i b b.
Proof. done. Qed.

Lemma mb_only_trans i b b1 b2 : only i b b1 -> only i b1 b2 -> only i b b2.
Proof.
  intros [] []. split; try congruence; intros j; intros.
  - by rewrite on_slots1, on_slots0.
  - by rewrite on_queue1, on_queue0.
  - by rewrite on_vectors1, on_vectors0.
  - by rewrite on_s_empty1, on_s_empty0.
Qed.

Lemma only_s_empty i b x : 0 <= i -> (x = Z.lor (s_empty_slots b) (bit i) \/ x = Z.ldiff (s_empty_slots b) (bit i)) -> only i b (set_s_empty x b).
Proof.
  intros Hi Hx. split; try done. intros j Hj Hne. cbn. assert ((i =? j) = false) as Hij by (apply Z.eqb_neq; congruence).
  destruct Hx as [-> | ->]; [rewrite lor_bit by done; by rewrite Hij, orb_false_r|rewrite ldiff_bit by done; by rewrite Hij, andb_true_r].
Qed.

Lemma only_queue i b x : only i b (set_queue i x b).
Proof. split; try done. intros j Hj. cbn. by apply fn_lookup_insert_ne. Qed.

Lemma only_vectors i b x : only i b (set_vectors i x b).
Proof. split; try done. intros j Hj. cbn. by apply fn_lookup_insert_ne. Qed.

Lemma only_reply i b r : only i b (set_nsq (set_slot i (MailboxSlot (slot_msg (slots (nsq b) i)) r) (nsq b)) b).
Proof. split; try done; cbn; [intros j Hj; by apply fn_lookup_insert_ne|by rewrite fn_lookup_insert]. Qed.

(** A slot of the secure queue in use belongs to the non-secure slot with the
    same index; one that is not in use is clear. *)
Definition secure_slot_ok (b : mailboxes) (i : Z) : Prop :=
  if Z.testbit (s_empty_slots b) i then msg_handle (queue b i) = 0
  else ns_slot_idx (queue b i) = i /\ msg_handle (queue b i) = i + 1.

Lemma wp_clean i b : 0 <= i < NUM ->
  wp (mailbox_clean_queue_slot NUM i) (fun _ b' => only i b b' /\ secure_slot_ok b' i /\ nsq b' = nsq b) (fun _ _ => False) b.
Proof.
  intros Hi. unfold mailbox_clean_queue_slot. rewrite Z.geb_leb, (proj2 (Z.leb_gt _ _)) by lia. apply wp_bind, wp_modify. unfold set_spe_queue_empty_status.
  rewrite (proj2 (Z.ltb_lt _ _)) by lia. apply wp_modify. split; [eapply mb_only_trans; [apply only_queue|apply only_s_empty; [lia|by left]]|]. split; [|done].
  unfold secure_slot_ok. cbn. rewrite lor_bit by lia. rewrite Z.eqb_refl, orb_true_r. by rewrite fn_lookup_insert.
Qed.

Lemma wp_direct i v b :
  0 <= i < ns_slot_count b -> ns_slot_count b <= NUM -> ns_slot_idx (queue b i) = i ->
  wp (mailbox_direct_reply NUM i v)
    (fun _ b' => only i b b' /\ secure_slot_ok b' i /\ return_val (slot_reply (slots (nsq b') i)) = to_s32 v /\
      (in_use (vectors b i) = true -> out_vec_len (slot_reply (slots (nsq b') i)) = map snd (v_out_vec (vectors b i)))) (fun _ _ => False) b.
Proof.
  intros Hi Hn Hq. unfold mailbox_direct_reply, get_nspe_reply_addr.
  apply wp_bind, wp_bind, wp_check; [intros _|intros Hf%negb_false_iff; rewrite Z.geb_leb in Hf; apply Z.leb_le in Hf; lia].
  apply wp_bind. unfold wp at 1, get. apply wp_bind, wp_check.
  2:{ rewrite Hq. intros Hf%negb_false_iff%orb_true_iff. rewrite !Z.geb_leb, !Z.leb_le in Hf. lia. }
  intros _. apply wp_ret. rewrite Hq. apply wp_bind, wp_modify, wp_bind. unfold wp at 1, get. cbn [vectors set_nsq].
  set (r1 := MailboxReply _ _). set (b1 := set_nsq _ _). assert (only i b b1 /\ slot_reply (slots (nsq b1) i) = r1) as [H1 Hr1] by (split; [apply only_reply|cbn; by rewrite fn_lookup_insert]).
  apply wp_bind. destruct (in_use (vectors b i)).
  - apply wp_bind, wp_modify, wp_modify. set (b2 := set_nsq _ b1). set (b3 := set_vectors _ _ b2).
    assert (only i b b3) as H3 by (eapply mb_only_trans; [exact H1|eapply mb_only_trans; [apply only_reply|apply only_vectors]]).
    eapply wp_mono; [apply wp_clean; lia| |done]. intros _ b' (Ho & Hsc & Hn'). split; [by eapply mb_only_trans|]. split; [done|]. rewrite Hn'. cbn [b3 b2 set_vectors set_nsq nsq slots set_slot]. rewrite fn_lookup_insert. cbn [slot_reply return_val out_vec_len].
    by rewrite Hr1.
  - apply wp_ret. eapply wp_mono; [apply wp_clean; lia| |done]. intros _ b' (Ho & Hsc & Hn'). split; [by eapply mb_only_trans|]. split; [done|]. rewrite Hn', Hr1. done.
Qed.

(** The dispatch reaches only the vectors of the slot, and does not depend on
    the queue. *)
Lemma dispatch_frame rpc m i b :
  exists r b', dispatch_call rpc m i b = (Ok r, b') /\ only i b b' /\ nsq b' = nsq b /\ s_empty_slots b' = s_empty_slots b /\ queue b' = queue b /\
    (forall v, r = Some (v, false) -> call_type m = MAILBOX_PSA_CALL -> in_use (vectors b' i) = true) /\
    (forall b2, client_id_regions b2 = client_id_regions b -> fst (dispatch_call rpc m i b2) = Ok r).
Proof.
  assert (forall r b', dispatch_call rpc m i b = (Ok r, b') ->
    (b' = b /\ (call_type m = MAILBOX_PSA_CALL -> forall v, r <> Some (v, false))) \/ (exists v, b' = set_vectors i v b /\ in_use v = true) ->
    (forall b2, client_id_regions b2 = client_id_regions b -> fst (dispatch_call rpc m i b2) = Ok r) ->
    exists r b', dispatch_call rpc m i b = (Ok r, b') /\ only i b b' /\ nsq b' = nsq b /\ s_empty_slots b' = s_empty_slots b /\ queue b' = queue b /\
    (forall v, r = Some (v, false) -> call_type m = MAILBOX_PSA_CALL -> in_use (vectors b' i) = true) /\
    (forall b2, client_id_regions b2 = client_id_regions b -> fst (dispatch_call rpc m i b2) = Ok r)) as Hdone.
  { intros r b' He Hb Hi. exists r, b'. split; [done|]. destruct Hb as [[-> Hn]|(v & -> & Hv)]; (split_and!; [|done|done|done| |exact Hi]).
    - apply mb_only_refl.
    - intros v Hr Hc. by destruct (Hn Hc v).
    - apply only_vectors.
    - intros _ _ _. cbn. by rewrite fn_lookup_insert. }
  unfold dispatch_call in *. cbv zeta in *.
  destruct (Z.eqb_spec (call_type m) MAILBOX_PSA_FRAMEWORK_VERSION) as [H1|H1]; [eapply Hdone; [reflexivity|left; split; [done|intros Hc; rewrite Hc in H1; done]|done]|].
  destruct (Z.eqb_spec (call_type m) MAILBOX_PSA_VERSION) as [H2|H2]; [eapply Hdone; [reflexivity|left; split; [done|intros Hc; rewrite Hc in H2; done]|done]|].
  destruct (Z.eqb_spec (call_type m) MAILBOX_PSA_CALL) as [H3|H3].
  - unfold local_copy_vects, bind, translate, gets in *. destruct (_ || _ || _).
    + eapply Hdone; [reflexivity|left; split; [done|intros _ v; by intros [= _ ?]]|done].
    + unfold ret, modify in *. cbn [client_id_regions set_vectors] in *.
      destruct (tfm_multi_core_hal_client_id_translate CLIENT_ID_OWNER_MAGIC (client_id m) (client_id_regions b)) as [cid|] eqn:Ht;
        (eapply Hdone; [reflexivity|right; by eexists|intros b2 ->; by rewrite Ht]).
  - unfold bind, translate, gets in *. cbv beta iota in *. destruct (tfm_multi_core_hal_client_id_translate CLIENT_ID_OWNER_MAGIC (client_id m) (client_id_regions b)) as [cid|] eqn:Ht;
      (destruct (Z.eqb_spec (call_type m) MAILBOX_PSA_CONNECT) as [H4|H4]; [|destruct (Z.eqb_spec (call_type m) MAILBOX_PSA_CLOSE) as [H5|H5]]);
      (eapply Hdone; [rewrite ?Ht; reflexivity|by left|intros b2 Hb2; rewrite ?Hb2, ?Ht; done]).
Qed.

(** What the agent does with a pending slot. *)
Definition handled i rs rs' (b' : mailboxes) (m : mailbox_msg_t) (r : res (option (psa_status_t * bool))) : Prop :=
  match r with
  | Ok None => rs' = rs
  | Ok (Some (v, true)) => rs' = Z.lor rs (bit i) /\ return_val (slot_reply (slots (nsq b') i)) = to_s32 (u32 v)
  | Ok (Some (v, false)) =>
      rs' = rs /\ Z.testbit (s_empty_slots b') i = false /\ ns_slot_idx (queue b' i) = i /\ msg_handle (queue b' i) = i + 1 /\
      (call_type m = MAILBOX_PSA_CALL -> in_use (vectors b' i) = true)
  | Err _ => False
  end.

Lemma wp_handle_slot rpc p i rs b :
  0 <= i < ns_slot_count b -> ns_slot_count b <= NUM -> Z.land p (bit i) <> 0 ->
  wp (handle_slot NUM rpc p i rs)
    (fun rs' b' => only i b b' /\ secure_slot_ok b' i /\ handled i rs rs' b' (slot_msg (slots (nsq b) i)) (fst (dispatch_call rpc (served_msg (slot_msg (slots (nsq b) i))) i b)))
    (fun _ _ => False) b.
Proof.
  intros Hi Hn Hp. unfold handle_slot. rewrite (proj2 (Z.eqb_neq _ _) Hp). apply wp_bind. unfold clear_spe_queue_empty_status. rewrite (proj2 (Z.ltb_lt i NUM)) by lia.
  apply wp_modify, wp_bind. unfold wp at 1, get. set (b1 := set_s_empty _ b). cbn [check_mailbox_msg negb Z.eqb MAILBOX_SUCCESS nsq b1 set_s_empty].
  unfold get_spe_mailbox_msg_handle. rewrite Z.geb_leb, (proj2 (Z.leb_gt _ _)) by lia. cbn [default]. fold (served_msg (slot_msg (slots (nsq b) i))). set (m := served_msg _).
  apply wp_bind, wp_modify. set (b2 := set_queue i _ b1). assert (only i b b2) as H2 by (eapply mb_only_trans; [apply only_s_empty; [lia|by right]|apply only_queue]).
  unfold tfm_mailbox_dispatch. apply wp_bind, wp_bind. destruct (dispatch_frame rpc m i b2) as (r & b3 & Hd & H3 & Hns & Hse & Hq & Hu & Hsame).
  assert (fst (dispatch_call rpc m i b) = Ok r) as -> by (by apply Hsame). unfold wp at 1. rewrite Hd. assert (only i b b3) as Hb3 by (by eapply mb_only_trans).
  destruct r as [[v [|]]|].
  - apply wp_bind. assert (ns_slot_idx (queue b3 i) = i) as Hqi by (rewrite Hq; cbn; by rewrite fn_lookup_insert).
    assert (ns_slot_count b3 = ns_slot_count b) as Hcn by (by destruct Hb3).
    eapply wp_mono; [apply (wp_direct i (u32 v) b3); [by rewrite Hcn|by rewrite Hcn|done]| |done]. cbv beta. intros _ b4 (H4 & Hsc & Hv & _). apply wp_ret. cbn [fst snd].
    change (negb (MAILBOX_SUCCESS =? MAILBOX_SUCCESS)) with false. cbv iota. apply wp_ret. split; [by eapply mb_only_trans|]. split; [done|]. by split.
  - apply wp_ret. cbn [fst snd]. change (negb (MAILBOX_SUCCESS =? MAILBOX_SUCCESS)) with false. cbv iota. apply wp_ret. split; [done|]. unfold handled, secure_slot_ok.
    assert (Z.testbit (s_empty_slots b3) i = false) as Hsf by (rewrite Hse; cbn; rewrite ldiff_bit by lia; by rewrite Z.eqb_refl, andb_false_r). rewrite Hsf, Hq. cbn [b2 b1 set_queue set_s_empty s_empty_slots queue]. rewrite fn_lookup_insert. cbn [ns_slot_idx msg_handle]. split; [done|]. split_and!; try done.
    intros Hc. by apply (Hu v).
  - apply wp_ret. cbn [fst snd]. change (negb (MAILBOX_INVAL_PARAMS =? MAILBOX_SUCCESS)) with true. cbv iota. apply wp_bind.
    eapply wp_mono; [apply wp_clean; lia| |done]. intros _ b4 (H4 & Hsc & _). apply wp_ret. split; [by eapply mb_only_trans|]. by split.
Qed.

Lemma wp_reply_begin i h v b :
  0 <= i < ns_slot_count b -> ns_slot_count b <= NUM -> h = i + 1 -> Z.testbit (s_empty_slots b) i = false -> ns_slot_idx (queue b i) = i ->
  wp (reply_begin NUM h v)
    (fun r b' => r = inr i /\ only i b b' /\ secure_slot_ok b' i /\ return_val (slot_reply (slots (nsq b') i)) = to_s32 (u32 v) /\
      (in_use (vectors b i) = true -> out_vec_len (slot_reply (slots (nsq b') i)) = map snd (v_out_vec (vectors b i)))) (fun _ _ => False) b.
Proof.
  intros Hi Hn -> He Hq. unfold reply_begin. unfold MAILBOX_MSG_NULL_HANDLE. rewrite (proj2 (Z.eqb_neq (i + 1) 0)) by lia. replace (i + 1 - 1) with i by lia.
  assert (u8 i = i) as -> by (apply u8_id; lia). cbv zeta. apply wp_bind. unfold get_spe_queue_empty_status. apply wp_gets.
  rewrite mb_land_bit, negb_involutive, He, andb_false_r by lia. cbv iota. apply wp_bind. eapply wp_mono; [by apply (wp_direct i (u32 v) b)| |done].
  intros _ b' (Ho & Hsc & Hv & Hl). by apply wp_ret.
Qed.

(** ** Steps of the agent *)

(** A step of the agent on the slot [i]. *)
Lemma related_agent s s' a a' i :
  related s a -> 0 <= i < NS_SLOTS -> threads s' = threads s -> only i (boxes s) (boxes s') ->
  (forall j, 0 <= j -> j <> i -> processed s' j = processed s j /\ answering s' j = answering s j /\ (j ∈ held s' <-> j ∈ held s) /\
    count_occ Z.eq_dec (held s') j = count_occ Z.eq_dec (held s) j) ->
  (forall t, slot_of (threads s t) <> Some i -> a' t = a t) ->
  slot_ok s' a' i -> agent_ok s' -> (forall j, j ∈ held s' -> 0 <= j < NS_SLOTS) -> related s' a'.
Proof.
  intros [Rs Rr Ru Rt Ra Rc Rh Re] Hi Hth Ho Hj Ha Hok Hag Hh. pose proof Ho as [O1 O2 O3 O4 O5 O6 O7 O8 O9 O10].
  split; rewrite ?Hth; try done.
  - intros j Hjr. destruct (decide (j = i)) as [->|Hne]; [done|]. destruct (Hj j) as (J1 & J2 & J3 & J4); [lia|done|].
    apply (slot_apart j s a); [|by apply Rs]. split; rewrite ?O1, ?O2, ?O3; try done.
    + by rewrite O4.
    + unfold reply_of. by rewrite O4.
    + unfold owner_of. by rewrite O2.
    + intros m [S1 S2 S3 S4]. split; rewrite ?O7, ?O8, ?O9 by (done || lia); done.
    + intros t Ht. rewrite Hth. split; [done|]. apply Ha. rewrite Ht. congruence.
    + intros t _. by rewrite Hth.
  - intros t. specialize (Rt t). unfold thread_ok in *. rewrite Hth. destruct (slot_of (threads s t)) as [j|] eqn:Hs; [by destruct (threads s t)|].
    by rewrite Ha by congruence.
  - congruence.
  - intros j Hjr. rewrite O3. by apply Re.
Qed.

(** The agent is at a slot of its snapshot. *)
Lemma at_slot s a p i rs :
  related s a -> agent s = A_loop p i rs -> i < ns_slot_count (boxes s) -> 0 <= i < NS_SLOTS.
Proof. intros Hr Ha Hi. rewrite (rl_count _ _ Hr) in Hi. pose proof (rl_agent _ _ Hr) as Hg. unfold agent_ok in Hg. rewrite Ha in Hg. lia. Qed.

Lemma processed_next s s' p i rs rs' j :
  agent s = A_loop p i rs -> agent s' = A_loop p (i + 1) rs' -> j <> i -> processed s' j = processed s j.
Proof.
  intros Ha Ha' Hne. unfold processed. rewrite Ha, Ha'. f_equal. destruct (Z.ltb_spec j i), (Z.ltb_spec j (i + 1)); lia || done.
Qed.

(** A pending slot of the snapshot has been sent. *)
Lemma pending_sent s a p i rs :
  related s a -> agent s = A_loop p i rs -> i < ns_slot_count (boxes s) -> Z.testbit p i = true ->
  exists t, threads s t = NS_wait i /\ a t = C_called (the_msg s i) /\ owner_of s i = task t /\ empty s i = false /\
    flags s i true false false false false /\ 0 <= i < NS_SLOTS /\ (forall t', slot_of (threads s t') = Some i -> t' = t).
Proof.
  intros Hr Ha Hi Hp. pose proof (at_slot s a p i rs Hr Ha Hi) as Hir. pose proof (rl_agent _ _ Hr) as Hg. unfold agent_ok in Hg. rewrite Ha in Hg.
  destruct Hg as (_ & Hsub & _). specialize (Hsub i ltac:(lia) Hp). assert (processed s i = false) as Hnp.
  { unfold processed. rewrite Ha, Hp. cbn [andb]. apply Z.ltb_ge. lia. }
  assert (forall r w h an, flags s i false r w h an -> False) as Hno.
  { intros r w h an [Hf _ _ _ _ _ _]. rewrite (Hf eq_refl Hsub) in Hnp. done. }
  destruct (rl_slots _ _ Hr i Hir) as [Hf|? ? Hf|? Hf|? Hf|t Hf He Ht Hat Ho|? ? Hf|? Hf|? ? Hf|? ? Hf|? ? Hf|? ? Hf|? ? ? Hf|? ? ? Hf]; try (exfalso; by eapply Hno).
  exists t. split_and!; try done; try lia. intros t' Ht'. apply (rl_unique _ _ Hr t' t i); [done|by rewrite Ht].
Qed.

Lemma skip_related s a p i rs :
  related s a -> agent s = A_loop p i rs -> i < ns_slot_count (boxes s) -> Z.testbit p i = false -> related (set_agent (A_loop p (i + 1) rs) s) a.
Proof.
  intros Hr Ha Hi Hp. pose proof (at_slot s a p i rs Hr Ha Hi) as Hir. set (s' := set_agent _ s).
  assert (forall j, processed s' j = processed s j /\ answering s' j = answering s j) as Hj.
  { intros j. split; [|unfold answering; by rewrite Ha]. destruct (decide (j = i)) as [->|Hne]; [unfold processed; rewrite Ha; cbn; by rewrite Hp|by eapply processed_next]. }
  apply (related_agent s s' a a i); try done.
  - intros j _ _. by destruct (Hj j).
  - apply (slot_apart i s a); [|by apply rl_slots]. destruct (Hj i). split; try done. by intros m [].
  - pose proof (rl_agent _ _ Hr) as Hg. unfold agent_ok in *. rewrite Ha in Hg. cbn. destruct Hg as (? & ? & ?). split_and!; [lia|done|done].
  - apply (rl_held _ _ Hr).
Qed.

(** The slot after the agent's step on it. *)
Section at_pending.
Context s a (p i rs rs' : Z) (b : mailboxes) t (Hr : related s a) (Ha : agent s = A_loop p i rs) (Hi : i < ns_slot_count (boxes s)) (Hp : Z.testbit p i = true).
Context (Hfl : flags s i true false false false false) (Hir : 0 <= i < NS_SLOTS) (Ht : threads s t = NS_wait i) (Hown : owner_of s i = task t) (He : empty s i = false).
Context (Hu : forall t', slot_of (threads s t') = Some i -> t' = t) (Ho : only i (boxes s) b).
Context (Hrs : forall j, 0 <= j -> j <> i -> Z.testbit rs' j = Z.testbit rs j).

Definition next_state (l : list Z) : sys := set_held (l ++ held s) (set_agent (A_loop p (i + 1) rs') (set_boxes b s)).

Lemma next_flags l h an :
  (forall j, j ∈ l -> j = i) -> (length l <= 1)%nat -> (h = true <-> i ∈ l) -> Z.testbit rs' i = an -> flags (next_state l) i false false false h an.
Proof.
  intros Hl Hlen Hh Han. pose proof Hfl as [F1 F2 F3 F4 F5 F6 F7]. assert (i ∉ held s) as Hnot by (intros Hin; apply F5 in Hin; done).
  assert (count_occ Z.eq_dec (held s) i = 0%nat) as Hz by (apply count_occ_not_In; by rewrite <- list_elem_of_In).
  split; cbn [next_state boxes set_held set_agent set_boxes held].
  - intros _ _. unfold processed. cbn. rewrite Hp. cbn [andb]. apply Z.ltb_lt. lia.
  - done.
  - by rewrite (on_status _ _ _ Ho).
  - by rewrite (on_ns _ _ _ Ho).
  - rewrite Hh, elem_of_app. by split; [left|intros [|]].
  - rewrite count_occ_app, Hz. pose proof (count_occ_bound Z.eq_dec i l). lia.
  - exact Han.
Qed.

Lemma next_related l a' :
  (forall j, j ∈ l -> j = i) -> (length l <= 1)%nat -> (forall d, d <> t -> a' d = a d) ->
  (forall j, NS_SLOTS <= j -> Z.testbit rs' j = false) -> slot_ok (next_state l) a' i -> related (next_state l) a'.
Proof.
  intros Hl Hlen Ha' Hout Hok.
  apply (related_agent s (next_state l) a a' i); try done.
  - intros j Hj Hne. assert (j ∉ l) as Hjl by (intros Hin; by apply Hne, Hl). split_and!.
    + by apply (processed_next s _ p i rs rs').
    + unfold answering. cbn. rewrite Ha. by apply Hrs.
    + cbn. rewrite elem_of_app. naive_solver.
    + cbn. rewrite count_occ_app, (proj1 (count_occ_not_In Z.eq_dec l j)); [done|by rewrite <- list_elem_of_In].
  - intros d Hd. apply Ha'. intros ->. apply Hd. by rewrite Ht.
  - pose proof (rl_agent _ _ Hr) as Hg. unfold agent_ok in *. rewrite Ha in Hg. cbn. destruct Hg as (? & Hsub & ?). rewrite (on_status _ _ _ Ho). split_and!; [lia|done|done].
  - intros j Hj. cbn in Hj. apply elem_of_app in Hj as [Hj|Hj]; [by rewrite (Hl j Hj)|by apply (rl_held _ _ Hr)].
Qed.

Lemma next_same : owner_of (next_state []) i = task t /\ owner_of (next_state [i]) i = task t /\ the_msg (next_state []) i = the_msg s i.
Proof. unfold owner_of. cbn. rewrite (on_ns _ _ _ Ho), (on_msg _ _ _ Ho). done. Qed.
End at_pending.

Lemma nil_only i : forall j : Z, j ∈ @nil Z -> j = i.
Proof. intros j Hj. by apply not_elem_of_nil in Hj. Qed.

Lemma one_only i : forall j : Z, j ∈ [i] -> j = i.
Proof. intros j Hj. apply elem_of_cons in Hj as [->|Hj]; [done|by apply not_elem_of_nil in Hj]. Qed.

(** The agent's step on a pending slot. *)
Lemma pending_step s a rpc p i rs rs' b :
  related s a -> agent s = A_loop p i rs -> i < ns_slot_count (boxes s) -> Z.land p (bit i) <> 0 -> handle_slot NUM rpc p i rs (boxes s) = (Ok rs', b) ->
  Z.testbit p i = true /\ only i (boxes s) b /\ Z.testbit rs i = false /\ (forall j, NS_SLOTS <= j -> Z.testbit rs j = false) /\
  handled i rs rs' b (the_msg s i) (fst (dispatch_call rpc (served_msg (the_msg s i)) i (boxes s))) /\
  exists t, threads s t = NS_wait i /\ a t = C_called (the_msg s i) /\ owner_of s i = task t /\ empty s i = false /\
    flags s i true false false false false /\ 0 <= i < NS_SLOTS /\ (forall t', slot_of (threads s t') = Some i -> t' = t).
Proof.
  intros Hr Ha Hi Hp Hh. pose proof (at_slot s a p i rs Hr Ha Hi) as Hir. assert (Z.testbit p i = true) as Hpb.
  { apply Z.eqb_neq in Hp. rewrite mb_land_bit in Hp by lia. by apply negb_false_iff in Hp. }
  assert (ns_slot_count (boxes s) <= NUM) as Hcn by (rewrite (rl_count _ _ Hr); lia).
  pose proof (run_ok _ _ _ _ _ _ (wp_handle_slot rpc p i rs (boxes s) ltac:(lia) Hcn Hp) Hh) as (Ho & _ & Hhd).
  destruct (pending_sent s a p i rs Hr Ha Hi Hpb) as (t & Ht). split_and!; try done; [| |by exists t].
  - destruct Ht as (_ & _ & _ & _ & [_ _ _ _ _ _ F] & _). unfold answering in F. by rewrite Ha in F.
  - pose proof (rl_agent _ _ Hr) as Hg. unfold agent_ok in Hg. rewrite Ha in Hg. by destruct Hg as (_ & _ & Hg).
Qed.

Lemma drop_related s a rpc p i rs rs' b :
  related s a -> agent s = A_loop p i rs -> i < ns_slot_count (boxes s) -> Z.land p (bit i) <> 0 -> handle_slot NUM rpc p i rs (boxes s) = (Ok rs', b) ->
  fst (dispatch_call rpc (served_msg (the_msg s i)) i (boxes s)) = Ok None -> related (set_agent (A_loop p (i + 1) rs') (set_boxes b s)) a.
Proof.
  intros Hr Ha Hi Hp Hh Hd. destruct (pending_step s a rpc p i rs rs' b Hr Ha Hi Hp Hh) as (Hpb & Ho & Hrs & Hout & Hhd & t & Ht & Hat & Hown & He & Hfl & Hir & Hu).
  rewrite Hd in Hhd. cbn in Hhd. subst rs'. change (related (next_state s p i rs b []) a). apply (next_related s a p i rs rs b t); try done; [apply nil_only|cbn; lia|].
  pose proof (next_same s p i rs b t Hown Ho) as (Hs1 & _ & _).
  apply (ok_lost _ _ _ t); [|cbn; by rewrite (on_empty _ _ _ Ho)|done|done].
  apply (next_flags s p i rs b Hpb Hfl Ho); [apply nil_only|cbn; lia| |done]. split; [done|]. intros Hin. by apply not_elem_of_nil in Hin.
Qed.

Lemma sync_related s a rpc p i rs rs' b v :
  related s a -> agent s = A_loop p i rs -> i < ns_slot_count (boxes s) -> Z.land p (bit i) <> 0 -> handle_slot NUM rpc p i rs (boxes s) = (Ok rs', b) ->
  fst (dispatch_call rpc (served_msg (the_msg s i)) i (boxes s)) = Ok (Some (v, true)) ->
  exists a', rpc_run a [L_serve (owner_of s i) (served_msg (the_msg s i)); L_refuse (owner_of s i) v (slot_reply (slots (nsq b) i))] a' /\
    related (set_agent (A_loop p (i + 1) rs') (set_boxes b s)) a'.
Proof.
  intros Hr Ha Hi Hp Hh Hd. destruct (pending_step s a rpc p i rs rs' b Hr Ha Hi Hp Hh) as (Hpb & Ho & Hrs & Hout & Hhd & t & Ht & Hat & Hown & He & Hfl & Hir & Hu).
  rewrite Hd in Hhd. destruct Hhd as [-> Hv]. set (m := the_msg s i) in *. set (r := slot_reply (slots (nsq b) i)) in *.
  exists (<[t := C_answered m r]> (<[t := C_served m]> a)). rewrite Hown. split.
  - econstructor; [by apply rpc_serve|]. econstructor; [|constructor]. apply rpc_refuse; [apply fn_lookup_insert|done].
  - change (related (next_state s p i (Z.lor rs (bit i)) b []) (<[t := C_answered m r]> (<[t := C_served m]> a))).
    pose proof (next_same s p i (Z.lor rs (bit i)) b t Hown Ho) as (Hs1 & _ & _).
    apply (next_related s a p i rs (Z.lor rs (bit i)) b t); try done.
    + intros j Hj Hne. rewrite lor_bit by lia. rewrite (proj2 (Z.eqb_neq i j)) by congruence. by rewrite orb_false_r.
    + apply nil_only.
    + cbn. lia.
    + intros d Hd'. by rewrite !fn_lookup_insert_ne by done.
    + intros j Hj. rewrite lor_bit by lia. rewrite (proj2 (Z.eqb_neq i j)) by lia. rewrite orb_false_r. by apply Hout.
    + apply (ok_answer _ _ _ t m); [|cbn; by rewrite (on_empty _ _ _ Ho)|done|apply fn_lookup_insert].
      apply (next_flags s p i (Z.lor rs (bit i)) b Hpb Hfl Ho); [apply nil_only|cbn; lia| |rewrite lor_bit by lia; by rewrite Z.eqb_refl, orb_true_r].
      split; [done|]. intros Hin. by apply not_elem_of_nil in Hin.
Qed.

Lemma async_related s a rpc p i rs rs' b v co :
  related s a -> agent s = A_loop p i rs -> i < ns_slot_count (boxes s) -> Z.land p (bit i) <> 0 -> handle_slot NUM rpc p i rs (boxes s) = (Ok rs', b) ->
  fst (dispatch_call rpc (served_msg (the_msg s i)) i (boxes s)) = Ok (Some (v, false)) -> close_owner i co ->
  exists a', rpc_run a [L_serve (owner_of s i) (served_msg (the_msg s i))] a' /\
    related (set_held (accepted (the_msg s i) i co ++ held s) (set_agent (A_loop p (i + 1) rs') (set_boxes b s))) a'.
Proof.
  intros Hr Ha Hi Hp Hh Hd Hco. destruct (pending_step s a rpc p i rs rs' b Hr Ha Hi Hp Hh) as (Hpb & Ho & Hrs & Hout & Hhd & t & Ht & Hat & Hown & He & Hfl & Hir & Hu).
  rewrite Hd in Hhd. destruct Hhd as (-> & Hse & Hqi & Hqh & Hqu). set (m := the_msg s i) in *.
  exists (<[t := C_served m]> a). rewrite Hown. split; [econstructor; [by apply rpc_serve|constructor]|].
  assert (accepted m i co = [i] \/ accepted m i co = []) as Hacc.
  { unfold accepted. destruct (_ =? _); [|by left]. destruct (Hclose i co Hco) as [->| ->]; [by left|by right]. }
  change (related (next_state s p i rs b (accepted m i co)) (<[t := C_served m]> a)). pose proof (next_same s p i rs b t Hown Ho) as (Hs1 & Hs2 & _).
  apply (next_related s a p i rs rs b t); try done.
  - destruct Hacc as [-> | ->]; [apply one_only|apply nil_only].
  - destruct Hacc as [-> | ->]; cbn; lia.
  - intros d Hd'. by rewrite fn_lookup_insert_ne by done.
  - destruct Hacc as [-> | ->].
    + apply (ok_work _ _ _ t m); [|cbn; by rewrite (on_empty _ _ _ Ho)|done|apply fn_lookup_insert|done|by split].
      apply (next_flags s p i rs b Hpb Hfl Ho); [apply one_only|cbn; lia| |done]. split; [left|done].
    + apply (ok_lost _ _ _ t); [|cbn; by rewrite (on_empty _ _ _ Ho)|done|done].
      apply (next_flags s p i rs b Hpb Hfl Ho); [apply nil_only|cbn; lia| |done]. split; [done|]. intros Hin. by apply not_elem_of_nil in Hin.
Qed.

(** *** Critical sections and the interrupt handler *)

Lemma related_all s s' a :
  related s a -> threads s' = threads s -> held s' = held s -> ns_slot_count (boxes s') = ns_slot_count (boxes s) ->
  empty_slots (q s') = empty_slots (q s) -> (forall j, 0 <= j < NS_SLOTS -> slot_ok s' a j) -> agent_ok s' -> related s' a.
Proof.
  intros [Rs Rr Ru Rt Ra Rc Rh Re] Hth Hh Hc He Hok Hag. split; rewrite ?Hth, ?Hh; try done.
  - intros t. specialize (Rt t). unfold thread_ok in *. by rewrite Hth.
  - congruence.
  - intros j Hj. rewrite He. by apply Re.
Qed.

(** The slots keep their contents; the flags of a stage change. *)
Record same_contents j s s' : Prop := {
  sc_threads : threads s' = threads s;
  sc_slots : slots (q s') j = slots (q s) j;
  sc_owner : owner_of s' j = owner_of s j;
  sc_empty : empty_slots (q s') = empty_slots (q s);
  sc_s_empty : s_empty_slots (boxes s') = s_empty_slots (boxes s);
  sc_queue : queue (boxes s') = queue (boxes s);
  sc_vectors : vectors (boxes s') = vectors (boxes s);
}.

(** A change of the flags moves a slot from an answer to a reply posted, and from
    there to a thread woken, at most. *)
Lemma slot_flags s s' a j (post wake : bool) :
  same_contents j s s' -> (pend s j = false -> pend s' j = false) -> (answering s j = true -> post = true -> pend s' j = false) ->
  (forall p r w h an, flags s j p r w h an -> flags s' j p ((r && negb wake) || (an && post)) (w || (r && wake)) h (an && negb post)) ->
  slot_ok s a j -> slot_ok s' a j.
Proof.
  intros [C1 C2 C3 C4 C5 C6 C7] Hp Hpost Hf. assert (reply_of s' j = reply_of s j) as Cr by (unfold reply_of; by rewrite C2).
  assert (forall m, serving s j m -> serving s' j m) as Hsv by (intros m []; split; rewrite ?C5, ?C6, ?C7; done).
  assert (forall h p, flags s j p false false h false -> flags s' j p false false h false) as Hf0 by (intros h p Hfl; apply Hf in Hfl; by destruct wake, post).
  intros [F P E N|t m F P E T A|t F P E T A|t F P E T A O|t F E T A O|t m F E T A O S|t F E T O|t m F E T A|t m F P E T A|t m F P E T A|t m F P E T A|t m r F P E T A|t m r F P E T A].
  - apply ok_free; [by apply Hf0|by apply Hp|by rewrite C4|by rewrite C1].
  - apply (ok_fill _ _ _ t m); [by apply Hf0|by apply Hp|by rewrite C4|by rewrite C1|done].
  - apply (ok_owner _ _ _ t); [by apply Hf0|by apply Hp|by rewrite C4|by rewrite C1|by rewrite C2].
  - apply (ok_pend _ _ _ t); [by apply Hf0|by apply Hp|by rewrite C4|by rewrite C1|by rewrite C2|by rewrite C3].
  - apply (ok_sent _ _ _ t); [by apply Hf0|by rewrite C4|by rewrite C1|by rewrite C2|by rewrite C3].
  - apply (ok_work _ _ _ t m); [by apply Hf0|by rewrite C4|by rewrite C1|done|by rewrite C3|by apply Hsv].
  - apply (ok_lost _ _ _ t); [by apply Hf0|by rewrite C4|by rewrite C1|by rewrite C3].
  - pose proof (Hf _ _ _ _ _ F) as F'. destruct post; cbn in F'.
    + apply (ok_posted _ _ _ t m); [exact F'|apply Hpost; [by destruct F|done]|by rewrite C4|by rewrite C1|by rewrite Cr].
    + apply (ok_answer _ _ _ t m); [exact F'|by rewrite C4|by rewrite C1|by rewrite Cr].
  - pose proof (Hf _ _ _ _ _ F) as F'. destruct wake; cbn in F'.
    + apply (ok_woken _ _ _ t m); [exact F'|by apply Hp|by rewrite C4|by rewrite C1|by rewrite Cr].
    + apply (ok_posted _ _ _ t m); [exact F'|by apply Hp|by rewrite C4|by rewrite C1|by rewrite Cr].
  - pose proof (Hf _ _ _ _ _ F) as F'. cbn in F'. apply (ok_woken _ _ _ t m); [exact F'|by apply Hp|by rewrite C4|by rewrite C1|by rewrite Cr].
  - apply (ok_read _ _ _ t m); [by apply Hf0|by apply Hp|by rewrite C4|by rewrite C1|by rewrite Cr].
  - apply (ok_clear _ _ _ t m r); [by apply Hf0|by apply Hp|by rewrite C4|by rewrite C1|done].
  - apply (ok_release _ _ _ t m r); [by apply Hf0|by apply Hp|by rewrite C4|by rewrite C1|done].
Qed.

Lemma begin_related s a :
  related s a -> agent s = A_idle -> related (set_agent (A_loop (pend_slots (status (q s))) 0 0) s) a.
Proof.
  intros Hr Ha. set (s' := set_agent _ s). apply (related_all s); try done.
  - intros j Hj. apply (slot_flags s s' a j false false); [done|done|done| |by apply rl_slots]. intros p r w h an [F1 F2 F3 F4 F5 F6 F7].
    assert (processed s' j = processed s j) as Hpr.
    { unfold processed. rewrite Ha. cbn. rewrite (proj2 (Z.ltb_ge j 0)) by lia. by rewrite andb_false_r. }
    assert (answering s' j = an) as Han by (rewrite <- F7; unfold answering; rewrite Ha; cbn; apply Z.bits_0).
    rewrite !andb_true_r, !andb_false_r, !orb_false_r. split; rewrite ?Hpr; done.
  - cbn. split_and!; [lia|done|]. intros j _. apply Z.bits_0.
Qed.

Lemma end_related s a p i rs b :
  related s a -> agent s = A_loop p i rs -> ns_slot_count (boxes s) <= i -> handle_finish p rs (boxes s) = (Ok tt, b) -> related (set_agent A_idle (set_boxes b s)) a.
Proof.
  intros Hr Ha Hi. unfold handle_finish, clear_nspe_queue_pend_status, set_nspe_queue_replied_status, upd_status, bind, modify. intros [= <-].
  rewrite (rl_count _ _ Hr) in Hi. set (s' := set_agent _ _). apply (related_all s); try done. intros j Hj.
  assert (processed s j = Z.testbit p j) as Hpr by (unfold processed; rewrite Ha, (proj2 (Z.ltb_lt j i)) by lia; by rewrite andb_true_r).
  assert (answering s j = Z.testbit rs j) as Han by (unfold answering; by rewrite Ha).
  assert (pend s' j = pend s j && negb (Z.testbit p j)) as Hp' by (cbn; by rewrite Z.ldiff_spec).
  assert (replied s' j = replied s j || Z.testbit rs j) as Hr' by (cbn; by rewrite Z.lor_spec).
  apply (slot_flags s s' a j true false); [done|rewrite Hp'; by intros ->| | |by apply rl_slots].
  - intros Hans _. rewrite Hp'. destruct (rl_slots _ _ Hr j Hj) as [F|? ? F|? F|? F|? F|? ? F|? F|? ? F|? ? F|? ? F|? ? F|? ? ? F|? ? ? F]; try (destruct F; congruence).
    destruct F as [F _ _ _ _ _ _]. rewrite Hpr in F. destruct (pend s j); [by rewrite F|done].
  - intros pp r w h an [F1 F2 F3 F4 F5 F6 F7]. rewrite Hpr in F1, F2. rewrite Han in F7. split; rewrite ?Hp', ?Hr'; try done.
    + intros Hpp Hx%andb_true_iff. destruct Hx as [Hx1 Hx2]. rewrite (F1 Hpp Hx1) in Hx2. done.
    + intros Hpp. destruct (F2 Hpp) as [-> ->]. done.
    + rewrite F3, F7. by destruct r, an.
    + cbn. rewrite andb_false_r, orb_false_r. exact F4.
    + by destruct an.
Qed.

Lemma answer_end_related s a k b :
  related s a -> agent s = A_replied k -> set_nspe_queue_replied_status (bit k) (boxes s) = (Ok tt, b) -> related (set_agent A_idle (set_boxes b s)) a.
Proof.
  intros Hr Ha. unfold set_nspe_queue_replied_status, upd_status, modify. intros [= <-]. set (s' := set_agent _ _). pose proof (rl_agent _ _ Hr) as Hk. unfold agent_ok in Hk. rewrite Ha in Hk.
  apply (related_all s); try done. intros j Hj. assert (processed s j = false) as Hpr by (unfold processed; by rewrite Ha).
  assert (answering s j = (j =? k)) as Han by (unfold answering; by rewrite Ha). assert (replied s' j = replied s j || (k =? j)) as Hr' by (cbn; by rewrite lor_bit by lia).
  apply (slot_flags s s' a j true false); [done|done| | |by apply rl_slots].
  - intros Hans _. change (pend s' j) with (pend s j). destruct (rl_slots _ _ Hr j Hj) as [F|? ? F|? F|? F|? F|? ? F|? F|? ? F|? ? F|? ? F|? ? F|? ? ? F|? ? ? F]; try (destruct F; congruence).
    destruct F as [F _ _ _ _ _ _]. rewrite Hpr in F. destruct (pend s j); [by rewrite F|done].
  - intros p r w h an [F1 F2 F3 F4 F5 F6 F7]. rewrite Hpr in F1, F2. rewrite Han in F7. split; rewrite ?Hr'; try done.
    + rewrite F3, <- F7, (Z.eqb_sym k j). by destruct r, (j =? k).
    + cbn. rewrite andb_false_r, orb_false_r. exact F4.
    + by destruct an.
Qed.

(** The interrupt handler sets the flags of the slots replied. *)
Lemma wake_loop_spec fuel idx rs x : 0 <= idx -> idx + Z.of_nat fuel <= NS_SLOTS ->
  exists os y, wake_loop NS_SLOTS fuel idx rs x = (Ok os, y) /\ status y = status x /\ slots y = slots x /\ empty_slots y = empty_slots x /\
    forall j, 0 <= j -> owner (slots_ns y j) = owner (slots_ns x j) /\
      is_woken (slots_ns y j) = is_woken (slots_ns x j) || (Z.testbit rs j && (idx <=? j) && (j <? idx + Z.of_nat fuel)).
Proof.
  revert idx rs x. induction fuel as [|fuel IH]; intros idx rs x Hidx Hn; cbn [wake_loop].
  { exists [], x. split_and!; try done. intros j Hj. split; [done|]. destruct (Z.leb_spec idx j), (Z.ltb_spec j (idx + Z.of_nat 0)); try lia; by rewrite ?andb_false_r, orb_false_r. }
  rewrite mb_land_bit by done. destruct (Z.testbit rs idx) eqn:Hb; cbn [negb].
  - unfold bind at 1, set_queue_slot_woken. rewrite in_queue_eq by lia. set (x1 := set_slot_ns idx _ x). unfold bind at 1, gets.
    assert (forall j, 0 <= j -> owner (slots_ns x1 j) = owner (slots_ns x j) /\ is_woken (slots_ns x1 j) = is_woken (slots_ns x j) || (idx =? j)) as H1.
    { intros j Hj. cbn. destruct (Z.eqb_spec idx j) as [->|Hne]; [rewrite fn_lookup_insert; by rewrite orb_true_r|rewrite fn_lookup_insert_ne by done; by rewrite orb_false_r]. }
    destruct (Z.ldiff rs (bit idx) =? 0) eqn:Hz.
    + apply Z.eqb_eq in Hz. eexists _, x1. split; [done|]. split_and!; try done. intros j Hj. destruct (H1 j Hj) as [-> ->]. split; [done|]. f_equal.
      assert (Z.testbit rs j = (idx =? j)) as ->.
      { pose proof (ldiff_bit rs idx j Hidx Hj) as Hl. rewrite Hz, Z.bits_0 in Hl. destruct (Z.eqb_spec idx j) as [->|Hne]; [done|]. cbn in Hl. by rewrite andb_true_r in Hl. }
      destruct (Z.eqb_spec idx j); [|done]. destruct (Z.leb_spec idx j), (Z.ltb_spec j (idx + Z.of_nat (S fuel))); lia || done.
    + destruct (IH (idx + 1) (Z.ldiff rs (bit idx)) x1) as (os & y & He & H2 & H3 & H4 & H5); [lia|lia|]. unfold bind. rewrite He. eexists _, y. split; [done|]. split_and!; try done.
      intros j Hj. destruct (H5 j Hj) as [H6 H7], (H1 j Hj) as [H8 H9]. rewrite H6, H7, H8, H9, ldiff_bit by done. split; [done|]. rewrite <- orb_assoc. f_equal.
      destruct (Z.eqb_spec idx j) as [->|Hne]; cbn [negb orb].
      * rewrite Hb. destruct (Z.leb_spec j j), (Z.ltb_spec j (j + Z.of_nat (S fuel))); lia || done.
      * rewrite andb_true_r. f_equal; [f_equal|]; [destruct (Z.leb_spec (idx + 1) j), (Z.leb_spec idx j); lia || done|f_equal; lia].
  - destruct (IH (idx + 1) rs x) as (os & y & He & H2 & H3 & H4 & H5); [lia|lia|]. exists os, y. split_and!; try done. intros j Hj. destruct (H5 j Hj) as [H6 H7]. split; [done|].
    rewrite H7. f_equal. destruct (decide (j = idx)) as [->|Hne]; [by rewrite Hb|]. f_equal; [f_equal|]; [destruct (Z.leb_spec (idx + 1) j), (Z.leb_spec idx j); lia || done|f_equal; lia].
Qed.

Lemma isr_related s a o y :
  related s a -> tfm_ns_mailbox_wake_reply_owner_isr NS_SLOTS (q s) = (Ok o, y) -> related (set_boxes (set_nsq y (boxes s)) s) a.
Proof.
  intros Hr. unfold tfm_ns_mailbox_wake_reply_owner_isr, clear_queue_slot_all_replied, bind at 1, bind at 1. unfold get, put, bind at 1, ret at 1.
  set (x := set_status _ (q s)). set (rs := replied_slots (status (q s))).
  assert (forall y, status y = status x -> slots y = slots x -> empty_slots y = empty_slots x ->
    (forall j, 0 <= j < NS_SLOTS -> owner (slots_ns y j) = owner (slots_ns x j) /\ is_woken (slots_ns y j) = is_woken (slots_ns x j) || Z.testbit rs j) ->
    related (set_boxes (set_nsq y (boxes s)) s) a) as Hgo.
  { intros y0 H1 H2 H3 H4. set (s' := set_boxes _ s). apply (related_all s); try done.
    - intros j Hj. destruct (H4 j Hj) as [H5 H6]. assert (pend s' j = pend s j) as Hp by (cbn; by rewrite H1).
      apply (slot_flags s s' a j false true); [split; try done; [cbn; by rewrite H2]|by rewrite Hp|done| |by apply rl_slots].
      intros p r w h an [F1 F2 F3 F4 F5 F6 F7]. change (processed s' j) with (processed s j). split; rewrite ?Hp; try done.
      + cbn. rewrite H1, Z.bits_0. by destruct r, an.
      + cbn. rewrite H6. change (is_woken (slots_ns x j)) with (woken s j). rewrite F4, <- F3, andb_true_r. done.
      + rewrite andb_true_r. exact F7.
    - pose proof (rl_agent _ _ Hr) as Hg. unfold agent_ok in *. cbn. destruct (agent s) as [|p j rs'|k]; [done| |done]. by rewrite H1. }
  destruct (rs =? 0) eqn:Hz.
  - intros [= <- <-]. apply Hgo; try done. intros j Hj. apply Z.eqb_eq in Hz. rewrite Hz, Z.bits_0, orb_false_r. done.
  - destruct (wake_loop_spec (Z.to_nat NS_SLOTS) 0 rs x) as (os & y0 & He & H1 & H2 & H3 & H4); [lia|lia|]. unfold bind. rewrite He. intros [= <- <-].
    apply Hgo; try done. intros j Hj. destruct (H4 j) as [H5 H6]; [lia|]. split; [done|]. rewrite H6. f_equal.
    destruct (Z.leb_spec 0 j), (Z.ltb_spec j (0 + Z.of_nat (Z.to_nat NS_SLOTS))); try lia. by rewrite !andb_true_r.
Qed.

(** A request that the partition manager holds is served. *)
Lemma held_serving s a i :
  related s a -> i ∈ held s ->
  exists t m, 0 <= i < NS_SLOTS /\ threads s t = NS_wait i /\ a t = C_served m /\ owner_of s i = task t /\ serving s i m /\ empty s i = false /\
    flags s i false false false true false /\ (forall t', slot_of (threads s t') = Some i -> t' = t).
Proof.
  intros Hr Hh. pose proof (rl_held _ _ Hr i Hh) as Hi. assert (forall p r w an, flags s i p r w false an -> False) as Hno.
  { intros p r w an [_ _ _ _ F _ _]. by apply F in Hh. }
  destruct (rl_slots _ _ Hr i Hi) as [F|? ? F|? F|? F|? F|t m F E T A O S|? F|? ? F|? ? F|? ? F|? ? F|? ? ? F|? ? ? F]; try (exfalso; by eapply Hno).
  exists t, m. split_and!; try done; try lia. intros t' Ht'. apply (rl_unique _ _ Hr t' t i); [done|by rewrite T].
Qed.

Lemma map_snd_zip (x y : list Z) : length y = length x -> map snd (zip x y) = y.
Proof. revert y. induction x as [|u x IH]; intros [|w y] Hl; try done. cbn. f_equal. apply IH. by injection Hl. Qed.

Lemma answer_related s a i l1 l2 v lens h idx b :
  related s a -> agent s = A_idle -> held s = l1 ++ i :: l2 -> length lens = length (v_out_vec (vectors (boxes s) i)) ->
  fst (mailbox_reply_handle (Some i) (boxes s)) = Ok h ->
  reply_begin NUM h v
    (set_vectors i (Vectors (v_in_vec (vectors (boxes s) i)) (zip (map fst (v_out_vec (vectors (boxes s) i))) lens) (v_out_len (vectors (boxes s) i)) (in_use (vectors (boxes s) i))) (boxes s)) = (Ok (inr idx), b) ->
  exists a', rpc_run a [L_answer (owner_of s (ns_slot_idx (queue (boxes s) idx))) v lens (slot_reply (slots (nsq b) (ns_slot_idx (queue (boxes s) idx))))] a' /\
    related (set_held (l1 ++ l2) (set_agent (A_replied idx) (set_boxes b s))) a'.
Proof.
  intros Hr Ha Hh Hlen [= <-] Hrun. assert (i ∈ held s) as Hin by (rewrite Hh; set_solver).
  destruct (held_serving s a i Hr Hin) as (t & m & Hi & Ht & Hat & Hown & [S1 S2 S3 S4] & He & Hfl & Hu). set (b0 := set_vectors _ _ _) in Hrun.
  assert (only i (boxes s) b0) as H0 by apply only_vectors.
  pose proof (wp_reply_begin i (msg_handle (queue (boxes s) i)) v b0) as Hw. cbn [b0 set_vectors ns_slot_count queue s_empty_slots vectors] in Hw. rewrite fn_lookup_insert in Hw. rewrite (rl_count _ _ Hr) in Hw.
  pose proof (run_ok _ _ _ _ _ _ (Hw Hi ltac:(lia) S3 S1 S2) Hrun) as ([= ->] & Ho & _ & Hv & Hl). cbn [in_use v_out_vec] in Hl.
  assert (only i (boxes s) b) as Hob by (by eapply mb_only_trans). rewrite S2, Hown. set (r := slot_reply (slots (nsq b) i)) in *.
  exists (<[t := C_answered m r]> a). split.
  { econstructor; [|constructor]. apply rpc_answer; [done|done|]. intros Hc. rewrite Hl by (by apply S4). apply map_snd_zip. by rewrite length_map. }
  pose proof Hfl as [F1 F2 F3 F4 F5 F6 F7]. rewrite Hh in F6. rewrite count_occ_app in F6. cbn [count_occ] in F6. destruct (Z.eq_dec i i) as [_|]; [|done].
  assert (i ∉ l1 ++ l2) as Hnot by (rewrite list_elem_of_In, (count_occ_not_In Z.eq_dec), count_occ_app; lia).
  set (s' := set_held _ _). apply (related_agent s s' a _ i); try done.
  - intros j Hj Hne. unfold processed, answering. rewrite Ha. cbn. rewrite (proj2 (Z.eqb_neq j i)) by done. split_and!; try done.
    + rewrite Hh, !elem_of_app, elem_of_cons. naive_solver.
    + rewrite Hh, !count_occ_app. cbn [count_occ]. by destruct (Z.eq_dec i j).
  - intros d Hd. apply fn_lookup_insert_ne. intros <-. apply Hd. by rewrite Ht.
  - apply (ok_answer _ _ _ t m); [|cbn; by rewrite (on_empty _ _ _ Hob)|done|apply fn_lookup_insert].
    split; cbn [s' set_held set_agent set_boxes boxes held]; rewrite ?(on_status _ _ _ Hob), ?(on_ns _ _ _ Hob); try done.
    + intros _ Hp. specialize (F1 eq_refl Hp). unfold processed in F1. by rewrite Ha in F1.
    + rewrite count_occ_app. lia.
    + unfold answering. cbn. apply Z.eqb_refl.
  - intros j Hj. apply (rl_held _ _ Hr). rewrite Hh. set_solver.
Qed.

Lemma after_same t pc s : after t pc (q s) s = set_thread t pc s.
Proof. by destruct s as [[]]. Qed.

Lemma call_related s a t m : related s a -> threads s t = NS_idle -> related (set_thread t (NS_lock m) s) (<[t := C_called m]> a).
Proof.
  intros Hr Hpc. rewrite <- after_same. apply (related_thread s a _ t _ (q s) None); [done|intros; apply mb_same_refl|intros; by apply fn_lookup_insert_ne|left; by rewrite Hpc|by left|done|done|].
  unfold thread_ok. rewrite after_thread. apply fn_lookup_insert.
Qed.

Lemma return_related s a t v r y :
  related s a -> client_call_step NS_SLOTS (task t) (threads s t) (q s) = (Ok (inr (v, r)), y) ->
  exists a', rpc_run a [L_return t v r] a' /\ related (after t NS_idle y s) a'.
Proof.
  intros Hr. pose proof (rl_threads _ _ Hr t) as Ht. unfold thread_ok in Ht.
  destruct (threads s t) as [|m|m|i m|i|i|i|i|i r'|i r'|v' r'] eqn:Hpc; cbn [client_call_step]; unfold bind, gets, modify, ret; try done; [by destruct (_ >? _)| ..];
    repeat match goal with |- context [match ?x with _ => _ end = _] => destruct x; try done end.
  intros [= <- <- <-]. exists (<[t := C_idle]> a). split.
  - econstructor; [|constructor]. destruct Ht as [[-> [m Ha]]|(-> & -> & m & Ha)]; [by apply (rpc_return _ t m)|by apply (rpc_full _ t m)].
  - apply (related_thread s a _ t _ _ None); [done|done|intros; by apply fn_lookup_insert_ne|left; by rewrite Hpc|by left|done|done|].
    unfold thread_ok. rewrite after_thread. apply fn_lookup_insert.
Qed.

(** Every step of the system is a run of the specification. *)
Lemma step_simulated s ls s' a : step NS_SLOTS NUM close_owner s ls s' -> related s a -> exists a', rpc_run a ls a' /\ related s' a'.
Proof.
  intros Hstep Hr. assert (forall s2, related s2 a -> exists a', rpc_run a [] a' /\ related s2 a') as Hsilent by (intros s2 H2; exists a; by split; [constructor|]).
  destruct Hstep as [s t m Ht|s t pc y Ht Hc|s t v r y Ht Hc|s o y Ho|s Ha Hp|s p i rs Ha Hi Hp|s rpc p i rs rs' b Ha Hi Hp Hh Hd|s rpc p i rs rs' b v Ha Hi Hp Hh Hd|s rpc p i rs rs' b v co Ha Hi Hp Hh Hd Hco|s p i rs b Ha Hi Hf|s i l1 l2 v lens h idx b Ha Hh Hl Hm Hb|s k b Ha Hb].
  - exists (<[t := C_called m]> a). split; [|by apply call_related]. econstructor; [|constructor]. apply rpc_call. pose proof (rl_threads _ _ Hr t) as Hok. unfold thread_ok in Hok. by rewrite Ht in Hok.
  - apply Hsilent. by apply thread_related.
  - by apply return_related.
  - apply Hsilent. by apply (isr_related s a o).
  - apply Hsilent. by apply begin_related.
  - apply Hsilent. apply skip_related; try done. pose proof (at_slot s a p i rs Hr Ha Hi) as Hir. apply Z.eqb_eq in Hp. rewrite mb_land_bit in Hp by lia. by apply negb_true_iff in Hp.
  - apply Hsilent. exact (drop_related s a rpc p i rs rs' b Hr Ha Hi Hp Hh Hd).
  - exact (sync_related s a rpc p i rs rs' b v Hr Ha Hi Hp Hh Hd).
  - exact (async_related s a rpc p i rs rs' b v co Hr Ha Hi Hp Hh Hd Hco).
  - apply Hsilent. exact (end_related s a p i rs b Hr Ha Hi Hf).
  - exact (answer_related s a i l1 l2 v lens h idx b Hr Ha Hh Hl Hm Hb).
  - apply Hsilent. exact (answer_end_related s a k b Hr Ha Hb).
Qed.

Lemma run_simulated s ls s' a : run NS_SLOTS NUM close_owner s ls s' -> related s a -> exists a', rpc_run a ls a' /\ related s' a'.
Proof.
  intros Hrun Hr. induction Hrun as [s|s l s1 ls s2 _ IH Hstep]; [exists a; by split; [constructor|]|].
  destruct (IH Hr) as (a1 & Ha1 & Hr1). destruct (step_simulated _ _ _ _ Hstep Hr1) as (a2 & Ha2 & Hr2). exists a2. split; [by eapply rpc_run_app|done].
Qed.

(** *** The initial system *)

Definition initial rs : sys := Sys (tfm_mailbox_init NUM (tfm_ns_mailbox_init NS_SLOTS) NS_SLOTS rs) (fun _ => NS_idle) A_idle [].

Lemma all_empty_bits j : 0 <= j -> Z.testbit (all_slots_empty NS_SLOTS) j = (j <? NS_SLOTS).
Proof.
  intros Hj. unfold all_slots_empty, bit. rewrite !Z.shiftl_1_l. replace (2 ^ (NS_SLOTS - 1) - 1 + 2 ^ (NS_SLOTS - 1)) with (Z.ones NS_SLOTS).
  2:{ rewrite Z.ones_equiv. assert (2 ^ NS_SLOTS = 2 * 2 ^ (NS_SLOTS - 1)) as -> by (rewrite <- Z.pow_succ_r by lia; f_equal; lia). lia. }
  assert (0 <= Z.ones NS_SLOTS < 2 ^ 32) as Hb.
  { rewrite Z.ones_equiv. pose proof (Z.pow_le_mono_r 2 NS_SLOTS 32 ltac:(lia) ltac:(lia)). pose proof (Z.pow_pos_nonneg 2 NS_SLOTS). lia. }
  unfold u32. rewrite Z.mod_small by lia. destruct (Z.ltb_spec j NS_SLOTS); [apply Z.ones_spec_low; lia|apply Z.ones_spec_high; lia].
Qed.

Lemma initial_related rs : related (initial rs) (fun _ => C_idle).
Proof.
  split; try done.
  - intros i Hi. apply ok_free; [|cbn; apply Z.bits_0| |done].
    + split; try done; [by cbn; rewrite Z.bits_0|by cbn; rewrite Z.bits_0|split; [done|intros Hin; by apply not_elem_of_nil in Hin]|cbn; lia].
    + cbn. rewrite all_empty_bits by lia. apply Z.ltb_lt. lia.
  - intros i Hi. by apply not_elem_of_nil in Hi.
  - intros i Hi. cbn. rewrite all_empty_bits by lia. apply Z.ltb_ge. lia.
Qed.
End proof.

(** ** Without requests to close

    Then it does not matter where their answers would go. *)

Section no_close.
Context (NS_SLOTS NUM : Z) (Hslots : 0 < NS_SLOTS <= NUM) (Hnum : NUM <= 32) (close_owner : Z -> option Z -> Prop).

Definition no_psa_close (l : label) : Prop := match l with L_call _ m => call_type m <> MAILBOX_PSA_CLOSE | _ => True end.

(** No request to close waits to be served. *)
Definition none_closing (a : nat -> client) : Prop := forall t m, a t = C_called m -> call_type m <> MAILBOX_PSA_CLOSE.

Lemma none_closing_set a t c : none_closing a -> (forall m, c = C_called m -> call_type m <> MAILBOX_PSA_CLOSE) -> none_closing (<[t := c]> a).
Proof. intros Ha Hc t' m. destruct (decide (t' = t)) as [->|Hne]; [rewrite fn_lookup_insert; apply Hc|rewrite fn_lookup_insert_ne by done; apply Ha]. Qed.

Lemma rpc_run_none_closing a ls a' : rpc_run a ls a' -> Forall no_psa_close ls -> none_closing a -> none_closing a'.
Proof.
  induction 1 as [|a l a1 ls a2 Hst Hrun IH]; [done|]. intros [Hl Hls]%Forall_cons Ha. apply IH; [done|].
  destruct Hst; apply none_closing_set; try done. by intros ? [= <-].
Qed.

Definition own_slot (i : Z) (co : option Z) : Prop := co = Some i.

Lemma step_own_slot s ls s' a :
  step NS_SLOTS NUM close_owner s ls s' -> related NS_SLOTS s a -> none_closing a -> step NS_SLOTS NUM own_slot s ls s'.
Proof.
  intros Hstep Hr Hno.
  destruct Hstep as [| | | | | | | |s rpc p i rs rs' b v co Ha Hi Hp Hh Hd Hco| | |]; try (by econstructor).
  destruct (pending_step NS_SLOTS NUM Hslots s a rpc p i rs rs' b Hr Ha Hi Hp Hh) as (_ & _ & _ & _ & _ & t & _ & Hat & _).
  pose proof (Hno t _ Hat) as Hnc.
  assert (forall co', accepted (slot_msg (slots (nsq (boxes s)) i)) i co' = [i]) as Hacc
    by (intros; unfold accepted; by rewrite (proj2 (Z.eqb_neq _ _) Hnc)).
  rewrite (Hacc co), <- (Hacc (Some i)). by eapply step_handle_async.
Qed.

Lemma run_simulated_no_close s ls s' a :
  run NS_SLOTS NUM close_owner s ls s' -> related NS_SLOTS s a -> none_closing a -> Forall no_psa_close ls ->
  exists a', rpc_run a ls a' /\ related NS_SLOTS s' a'.
Proof.
  intros Hrun Hr Hno. induction Hrun as [s|s l s1 ls s2 _ IH Hstep]; intros Hls; [exists a; by split; [constructor|]|].
  apply Forall_app in Hls as [Hl Hls]. destruct (IH Hr Hl) as (a1 & Ha1 & Hr1).
  pose proof (step_own_slot _ _ _ _ Hstep Hr1 (rpc_run_none_closing _ _ _ Ha1 Hl Hno)) as Hst.
  destruct (step_simulated NS_SLOTS NUM own_slot Hslots Hnum ltac:(by left) _ _ _ _ Hst Hr1) as (a2 & Ha2 & Hr2).
  exists a2. split; [by eapply rpc_run_app|done].
Qed.
End no_close.
