(* ===== verification/MailboxClaims.v ===== *)
(** * The mailbox between the cores: what it promises

    To the threads of the non-secure core, a remote procedure call; to the
    secure core, that nothing in the shared memory makes the agent panic or
    send an ill-formed request; and the range of client identifiers.  Each with
    a concrete run, and two runs that show requests to close a connection go
    wrong. *)

From S2P Require Import Prelude Bytes SpmTypes NsMailbox SpeMailbox MailboxSystem MailboxProof.
From stdpp Require Import base list numbers functions.
From Stdlib Require Import ZArith Lia.

Open Scope Z_scope.
Open Scope tfm_scope.

(** C24: in every interleaving of threads that make no request to close a
    connection, interrupts, the agent and the answers of the partition manager,
    the mailbox behaves as a remote procedure call for every thread: a request
    is served at most once and with the message that was sent, and what the call
    returns is the answer to this request; only a call that is not served
    returns an error of the mailbox.  (The answer to a request to close may go
    to the slot of another thread: [close_answers_other].) *)
Theorem mailbox_refines_rpc NS_SLOTS NUM close_owner regions ls s :
  0 < NS_SLOTS <= NUM -> NUM <= 32 -> Forall no_psa_close ls ->
  run NS_SLOTS NUM close_owner (initial NS_SLOTS NUM regions) ls s -> exists a, rpc_run (fun _ => C_idle) ls a.
Proof.
  intros Hs Hn Hls Hrun.
  destruct (run_simulated_no_close NS_SLOTS NUM Hs Hn close_owner _ _ _ _ Hrun (initial_related NS_SLOTS NUM Hs Hn regions) ltac:(done) Hls)
    as (a & Ha & _). by exists a.
Qed.

(** ** The secure side alone *)

Section secure.
Context (NUM : Z) (Hnum : 0 < NUM <= 32).

Definition secure_ok (b : mailboxes) : Prop := 0 < ns_slot_count b <= NUM /\ forall i, 0 <= i < NUM -> i < ns_slot_count b -> secure_slot_ok b i.

(** What can happen to the mailboxes: the non-secure core writes anything into
    the shared memory, the agent handles the messages (all at once, or one slot
    after the other with writes between) or passes on a reply, for any client
    data that points to a slot, and the partition manager writes vectors. *)
Inductive event : Type :=
| E_ns (x : ns_mailbox_queue_t)
| E_handle (rpc : rpc_request -> psa_status_t)
| E_slot (rpc : rpc_request -> psa_status_t) (p i rs : Z)
| E_finish (p rs : Z)
| E_reply (o : option Z) (v : Z)
| E_vectors (i : Z) (v : vectors_t).

Definition happens (e : event) : M mailboxes unit :=
  match e with
  | E_ns x => modify (set_nsq x)
  | E_handle rpc => let* _ := tfm_mailbox_handle_msg NUM rpc in ret tt
  | E_slot rpc p i rs => let* _ := handle_slot NUM rpc p i rs in ret tt
  | E_finish p rs => handle_finish p rs
  | E_reply o v => let* _ := mailbox_reply NUM o v in ret tt
  | E_vectors i v => modify (set_vectors i v)
  end.

Fixpoint happen (es : list event) : M mailboxes unit :=
  match es with
  | [] => ret tt
  | e :: es => let* _ := happens e in happen es
  end.

(** The slot is one there is. *)
Definition event_ok (b : mailboxes) (e : event) : Prop := match e with E_reply (Some i) _ | E_slot _ _ i _ => 0 <= i < ns_slot_count b | _ => True end.

(** The event is one of the agent. *)
Definition by_agent (e : event) : bool := match e with E_ns _ | E_vectors _ _ => false | _ => true end.

Lemma secure_only i b b' : secure_ok b -> 0 <= i -> only i b b' -> (i < ns_slot_count b -> secure_slot_ok b' i) -> secure_ok b'.
Proof.
  intros [Hc Hok] Hi Ho Hs. split; [by rewrite (on_count _ _ _ Ho)|]. intros j Hj Hjc. rewrite (on_count _ _ _ Ho) in Hjc. destruct (decide (j = i)) as [->|Hne]; [by apply Hs|].
  unfold secure_slot_ok. rewrite (on_s_empty _ _ _ Ho), (on_queue _ _ _ Ho) by (done || lia). by apply Hok.
Qed.


(** Of the shared memory only the status words and replies of the slots change. *)
Record shared_frame (b b' : mailboxes) : Prop := {
  sf_ns : slots_ns (nsq b') = slots_ns (nsq b);
  sf_empty : empty_slots (nsq b') = empty_slots (nsq b);
  sf_msg : forall j, slot_msg (slots (nsq b') j) = slot_msg (slots (nsq b) j);
  sf_beyond : forall j, j < 0 \/ ns_slot_count b <= j -> slots (nsq b') j = slots (nsq b) j;
  sf_count : ns_slot_count b' = ns_slot_count b;
  sf_regions : client_id_regions b' = client_id_regions b;
}.

Lemma frame_refl b : shared_frame b b.
Proof. done. Qed.

Lemma frame_trans b b1 b2 : shared_frame b b1 -> shared_frame b1 b2 -> shared_frame b b2.
Proof.
  intros [A1 A2 A3 A4 A5 A6] [B1 B2 B3 B4 B5 B6]. split; [congruence|congruence|..|congruence|congruence]; intros j.
  - by rewrite B3, A3.
  - intros Hj. rewrite B4 by (rewrite A5; done). by apply A4.
Qed.

Lemma frame_only i b b' : 0 <= i < ns_slot_count b -> only i b b' -> shared_frame b b'.
Proof.
  intros Hi [O1 O2 O3 O4 O5 O6 O7 O8 O9 O10]. split; try done; intros j.
  - destruct (decide (j = i)) as [->|Hne]; [done|]. by rewrite O4.
  - intros Hj. apply O4. lia.
Qed.

Lemma handle_slot_ok rpc p i rs b :
  secure_ok b -> 0 <= i < ns_slot_count b -> wp (handle_slot NUM rpc p i rs) (fun _ b' => secure_ok b' /\ shared_frame b b') (fun _ _ => False) b.
Proof.
  intros Hok Hi. pose proof Hok as [Hc _]. destruct (decide (Z.land p (bit i) = 0)) as [Hz|Hz].
  - unfold handle_slot. rewrite Hz, Z.eqb_refl. apply wp_ret. split; [done|apply frame_refl].
  - eapply wp_mono; [apply (wp_handle_slot NUM rpc p i rs b); [done|lia|done]| |done]. cbv beta. intros rs' b' (Ho & Hs & _).
    split; [apply (secure_only i b); [done|lia|done|done]|by apply (frame_only i)].
Qed.

Lemma handle_loop_ok rpc fuel p i rs b :
  secure_ok b -> 0 <= i -> wp (handle_loop NUM rpc fuel p i rs) (fun _ b' => secure_ok b' /\ shared_frame b b') (fun _ _ => False) b.
Proof.
  revert i rs b. induction fuel as [|fuel IH]; intros i rs b Hok Hi; cbn [handle_loop]; [apply wp_ret; split; [done|apply frame_refl]|].
  apply wp_bind. unfold wp at 1, get. destruct (Z.ltb_spec i (ns_slot_count b)); [|apply wp_ret; split; [done|apply frame_refl]].
  apply wp_bind. eapply wp_mono; [by apply handle_slot_ok| |done]. cbv beta. intros rs' b1 [H1 F1]. eapply wp_mono; [apply IH; [done|lia]| |done].
  intros x b2 [H2 F2]. split; [done|by eapply frame_trans].
Qed.

Lemma status_ok b f : secure_ok b -> wp (upd_status f) (fun _ b' => secure_ok b' /\ shared_frame b b') (fun _ _ => False) b.
Proof. intros Hok. apply wp_modify. by split. Qed.

Lemma mb_finish_ok p rs b : secure_ok b -> wp (handle_finish p rs) (fun _ b' => secure_ok b' /\ shared_frame b b') (fun _ _ => False) b.
Proof.
  intros Hok. unfold handle_finish. apply wp_bind. eapply wp_mono; [by apply status_ok| |done]. cbv beta. intros _ b2 [H2 F2].
  eapply wp_mono; [by apply status_ok| |done]. cbv beta. intros _ b3 [H3 F3]. split; [done|by eapply frame_trans].
Qed.

Lemma handle_msg_ok rpc b : secure_ok b -> wp (tfm_mailbox_handle_msg NUM rpc) (fun _ b' => secure_ok b' /\ shared_frame b b') (fun _ _ => False) b.
Proof.
  intros Hok. unfold tfm_mailbox_handle_msg. apply wp_bind, wp_gets. destruct (_ =? 0); [apply wp_ret; split; [done|apply frame_refl]|].
  apply wp_bind. unfold wp at 1, get. apply wp_bind. eapply wp_mono; [by apply handle_loop_ok| |done]. cbv beta. intros rs b1 [H1 F1].
  apply wp_bind. eapply wp_mono; [by apply mb_finish_ok| |done]. cbv beta. intros _ b2 [H2 F2]. apply wp_ret. split; [done|by eapply frame_trans].
Qed.

Lemma reply_ok o v b : secure_ok b -> event_ok b (E_reply o v) -> wp (mailbox_reply NUM o v) (fun _ b' => secure_ok b' /\ shared_frame b b') (fun _ _ => False) b.
Proof.
  intros Hok Ho. pose proof Hok as [Hc Hsl]. unfold mailbox_reply, mailbox_reply_handle. apply wp_bind, wp_gets.
  set (h := match o with Some i => _ | None => _ end). unfold tfm_mailbox_reply_msg, reply_begin.
  assert (0 <= (if h =? MAILBOX_MSG_NULL_HANDLE then 0 else u8 (h - 1)) < ns_slot_count b) as Hk.
  { unfold MAILBOX_MSG_NULL_HANDLE. destruct (Z.eqb_spec h 0) as [Hz|Hz]; [lia|]. destruct o as [i|]; [|by destruct Hz]. cbn in Ho. specialize (Hsl i ltac:(lia) ltac:(lia)).
    unfold secure_slot_ok in Hsl. destruct (Z.testbit (s_empty_slots b) i); [by destruct Hz|]. destruct Hsl as [_ Hh]. subst h. rewrite Hh. replace (i + 1 - 1) with i by lia. rewrite u8_id; lia. }
  set (k := if h =? MAILBOX_MSG_NULL_HANDLE then 0 else u8 (h - 1)) in *. cbv zeta. apply wp_bind, wp_bind. unfold get_spe_queue_empty_status. apply wp_gets.
  rewrite (proj2 (Z.ltb_lt k NUM)) by lia. rewrite mb_land_bit, negb_involutive by lia. cbn [andb]. specialize (Hsl k ltac:(lia) ltac:(lia)). unfold secure_slot_ok in Hsl.
  destruct (Z.testbit (s_empty_slots b) k); [apply wp_ret, wp_ret; split; [done|apply frame_refl]|]. destruct Hsl as [Hidx _].
  apply wp_bind. eapply wp_mono; [apply (wp_direct NUM); [lia|lia|done]| |done]. cbv beta. intros _ b1 (H1 & Hs & _). apply wp_ret.
  assert (secure_ok b1) as Hok1 by (apply (secure_only k b); [done|lia|done|done]). apply wp_bind. eapply wp_mono; [by apply status_ok| |done]. cbv beta. intros _ b2 [H2 F2]. apply wp_ret.
  split; [done|]. eapply frame_trans; [by apply (frame_only k)|done].
Qed.

(** The client data of every answer is that of a slot. *)
Definition answers_ok (b : mailboxes) (es : list event) : Prop := Forall (event_ok b) es.

Lemma agent_event_ok e b : secure_ok b -> event_ok b e -> by_agent e = true -> wp (happens e) (fun _ b' => secure_ok b' /\ shared_frame b b') (fun _ _ => False) b.
Proof.
  intros Hok He. destruct e as [x|rpc|rpc p i rs|p rs|o v|i v]; try done; intros _; cbn [happens]; apply wp_bind.
  - eapply wp_mono; [by apply handle_msg_ok|by intros|done].
  - eapply wp_mono; [by apply handle_slot_ok|by intros|done].
  - eapply wp_mono; [by apply reply_ok|by intros|done].
Qed.

Lemma event_total e b : secure_ok b -> event_ok b e -> wp (happens e) (fun _ b' => secure_ok b' /\ ns_slot_count b' = ns_slot_count b) (fun _ _ => False) b.
Proof.
  intros Hok He. destruct (by_agent e) eqn:Ha.
  - eapply wp_mono; [by apply agent_event_ok| |done]. intros _ b' [H1 F]. split; [done|by apply sf_count].
  - destruct e; try done; by apply wp_modify.
Qed.

Lemma happen_ok es b : secure_ok b -> answers_ok b es -> wp (happen es) (fun _ b' => secure_ok b' /\ ns_slot_count b' = ns_slot_count b) (fun _ _ => False) b.
Proof.
  revert b. induction es as [|e es IH]; intros b Hok Hes; cbn [happen]; [by apply wp_ret|]. unfold answers_ok in Hes. apply Forall_cons_1 in Hes as [He Hes].
  apply wp_bind. eapply wp_mono; [by apply event_total| |done]. cbv beta. intros _ b1 [H1 H2]. eapply wp_mono; [apply IH; [done|]| |done].
  - revert Hes. unfold answers_ok. apply Forall_impl. intros [|?|? ? ? ?|? ?|[?|] ?|? ?]; cbn; try done; by rewrite H2.
  - cbv beta. intros x b2 [H3 H4]. split; [done|congruence].
Qed.

(** C12: whatever the non-secure core writes into the shared memory, between any
    two slots that the agent handles, and whatever the partition manager
    answers, the agent never panics; it changes only the status words and the
    replies of the slots there are. *)
Theorem mailbox_agent_robust b es :
  secure_ok b -> answers_ok b es ->
  exists b', happen es b = (Ok tt, b') /\
  forall e, event_ok b e -> exists b2, happens e b' = (Ok tt, b2) /\ (by_agent e = true -> shared_frame b' b2).
Proof.
  intros Hok Hes. destruct (run_total _ _ _ (happen_ok es b Hok Hes)) as ([] & b' & Hrun & Hok' & Hc). exists b'. split; [done|]. intros e He.
  assert (event_ok b' e) as He' by (destruct e as [| | | |[?|] ?|]; cbn in *; by rewrite ?Hc). destruct (by_agent e) eqn:Ha.
  - destruct (run_total _ _ _ (agent_event_ok e b' Hok' He' Ha)) as ([] & b2 & Hx & _ & F). by exists b2.
  - destruct (run_total _ _ _ (event_total e b' Hok' He')) as ([] & b2 & Hx & _). by exists b2.
Qed.

(** ** Requests to the partition manager *)

(** The region of the owner holds negative numbers of 32 bits. *)
Definition region_ok (r : client_id_region_t) : Prop := -2147483648 <= base r <= limit r /\ limit r < 0.

(** An identifier of the region that the platform registered. *)
Definition cid_ok (rs : list client_id_region_t) (cid : Z) : Prop :=
  exists r, find_region CLIENT_ID_OWNER_MAGIC rs = Some r /\ base r <= cid <= limit r.

(** What the partition manager relies on: as many vectors as it takes, all of
    them marked as those of the non-secure core, and an identifier of a
    non-secure client. *)
Definition request_ok (rs : list client_id_region_t) (q : rpc_request) : Prop :=
  match q with
  | Rpc_framework_version | Rpc_version _ => True
  | Rpc_call _ control cid vecs owner =>
      PARAM_UNPACK_IN_LEN control + PARAM_UNPACK_OUT_LEN control <= PSA_MAX_IOVEC /\ PARAM_IS_NS_INVEC control = true /\
      PARAM_IS_NS_OUTVEC control = true /\ PARAM_IS_NS_VEC control = false /\ cid_ok rs cid /\ vecs = owner
  | Rpc_connect _ _ cid _ | Rpc_close _ cid => cid_ok rs cid
  end.

(** The members of a message have their widths. *)
Definition msg_typed (m : mailbox_msg_t) : Prop :=
  0 <= in_len (params m) < 2 ^ 32 /\ 0 <= out_len (params m) < 2 ^ 32.

Lemma to_s32_wrap x : -2147483648 <= x < 2147483648 -> to_s32 (u32 x) = x.
Proof.
  intros Hx. unfold to_s32. assert (u32 (u32 x) = u32 x) as -> by (apply u32_id, u32_range). unfold u32. destruct (Z.ltb_spec x 0).
  - rewrite <- (Z.mod_add x 1) by lia. rewrite Z.mod_small by lia. destruct (Z.ltb_spec (x + 1 * 2 ^ 32) 2147483648); lia.
  - rewrite Z.mod_small by lia. destruct (Z.ltb_spec x 2147483648); lia.
Qed.

(** The translation without wrap-around. *)
Lemma translate_region o cid rs r :
  o <> 0 -> find_region o rs = Some r -> region_ok r -> -2147483648 <= cid < 2147483648 ->
  tfm_multi_core_hal_client_id_translate o cid rs = if (cid <? 0) && (- (limit r - base r + 1) <=? cid) then Some (limit r + 1 + cid) else None.
Proof.
  intros Ho Hf [Hr Hl] Hc. unfold tfm_multi_core_hal_client_id_translate. rewrite (proj2 (Z.eqb_neq _ _) Ho), Hf, Z.geb_leb. cbn [orb].
  destruct (Z.leb_spec 0 cid), (Z.ltb_spec cid 0); try lia; [done|]. cbn [andb].
  rewrite (to_s32_wrap (limit r - base r)), (to_s32_wrap (- (limit r - base r))), (to_s32_wrap (- (limit r - base r) - 1)), (to_s32_wrap (limit r + 1)) by lia.
  destruct (Z.ltb_spec cid (- (limit r - base r) - 1)), (Z.leb_spec (- (limit r - base r + 1)) cid); try lia; [done|]. by rewrite to_s32_wrap by lia.
Qed.

Lemma translate_ok cid rs c :
  Forall region_ok rs -> -2147483648 <= cid < 2147483648 -> tfm_multi_core_hal_client_id_translate CLIENT_ID_OWNER_MAGIC cid rs = Some c -> cid_ok rs c.
Proof.
  intros Hrs Hc Ht. destruct (find_region CLIENT_ID_OWNER_MAGIC rs) as [r|] eqn:Hf.
  - assert (region_ok r) as Hr.
    { clear Ht. induction Hrs as [|r' rs Hr' _ IH]; [done|]. cbn [find_region] in Hf. destruct (r_owner r' =? CLIENT_ID_OWNER_MAGIC); [by simplify_eq|by apply IH]. }
    exists r. split; [done|]. rewrite (translate_region _ _ _ r) in Ht by done. destruct Hr. destruct (Z.ltb_spec cid 0), (Z.leb_spec (- (limit r - base r + 1)) cid); cbn in Ht; simplify_eq. lia.
  - unfold tfm_multi_core_hal_client_id_translate in Ht. rewrite Hf in Ht. by destruct (_ || _).
Qed.

Lemma control_ok type il ol :
  0 <= il -> 0 <= ol -> il + ol <= PSA_MAX_IOVEC ->
  let c := PARAM_SET_NS_OUTVEC (PARAM_SET_NS_INVEC (PARAM_PACK type il ol)) in
  PARAM_UNPACK_IN_LEN c = il /\ PARAM_UNPACK_OUT_LEN c = ol /\ PARAM_IS_NS_INVEC c = true /\ PARAM_IS_NS_OUTVEC c = true /\ PARAM_IS_NS_VEC c = false.
Proof.
  unfold NsMailbox.PSA_MAX_IOVEC. intros Hi Ho Hs.
  assert (il = 0 \/ il = 1 \/ il = 2 \/ il = 3 \/ il = 4) as Hil by lia. assert (ol = 0 \/ ol = 1 \/ ol = 2 \/ ol = 3 \/ ol = 4) as Hol by lia.
  unfold PARAM_UNPACK_IN_LEN, PARAM_UNPACK_OUT_LEN, PARAM_IS_NS_INVEC, PARAM_IS_NS_OUTVEC, PARAM_IS_NS_VEC, PARAM_SET_NS_OUTVEC, PARAM_SET_NS_INVEC, PARAM_PACK.
  cbv zeta. rewrite !Z.shiftr_lor, !Z.land_lor_distr_l, !(Z.shiftr_land (u32 type)), <- !(Z.land_assoc (Z.shiftr (u32 type) _)), !Z.lor_spec, !(Z.land_spec (u32 type)).
  destruct Hil as [-> | [-> | [-> | [-> | ->]]]], Hol as [-> | [-> | [-> | [-> | ->]]]]; try lia; cbn -[u32 Z.shiftr]; rewrite ?Z.land_0_r, ?andb_false_r; done.
Qed.

(** Two partition managers that answer alike to the requests they rely on. *)
Definition answer_alike (rs : list client_id_region_t) (rpc rpc' : rpc_request -> psa_status_t) : Prop := forall q, request_ok rs q -> rpc q = rpc' q.

Lemma in_lens_fit a b : 0 <= a < 2 ^ 32 -> 0 <= b < 2 ^ 32 -> (a >? PSA_MAX_IOVEC) || (b >? PSA_MAX_IOVEC) || (u32 (a + b) >? PSA_MAX_IOVEC) = false -> a + b <= PSA_MAX_IOVEC.
Proof.
  unfold NsMailbox.PSA_MAX_IOVEC. intros Ha Hb. rewrite !Z.gtb_ltb. intros [[H1 H2]%orb_false_iff H3]%orb_false_iff. apply Z.ltb_ge in H1, H2, H3. by rewrite u32_id in H3 by lia.
Qed.

Lemma dispatch_alike rpc rpc' m i b :
  answer_alike (client_id_regions b) rpc rpc' -> Forall region_ok (client_id_regions b) -> msg_typed m -> client_id m = -1 ->
  dispatch_call rpc m i b = dispatch_call rpc' m i b.
Proof.
  intros Ha Hr [Hi Ho] Hcid. unfold dispatch_call. cbv zeta. rewrite Hcid. destruct (_ =? _); [by rewrite Ha|]. destruct (_ =? _); [by rewrite Ha|].
  assert (forall c, tfm_multi_core_hal_client_id_translate CLIENT_ID_OWNER_MAGIC (-1) (client_id_regions b) = Some c -> cid_ok (client_id_regions b) c) as Hok by (intros c; by apply translate_ok).
  destruct (_ =? _).
  - unfold bind, local_copy_vects. destruct (_ || _) eqn:Hl; [done|]. pose proof (in_lens_fit _ _ Hi Ho Hl) as Hsum. unfold bind, modify, ret, translate, gets. cbv beta iota zeta. cbn [client_id_regions set_vectors].
    destruct (tfm_multi_core_hal_client_id_translate _ _ _) as [c|] eqn:Ht; [|done]. rewrite Ha; [done|]. unfold request_ok.
    destruct (control_ok (word1 (params m)) (in_len (params m)) (out_len (params m))) as (-> & -> & -> & -> & ->); [lia|lia|done|]. by split_and!; [|..|apply Hok|].
  - unfold bind, ret, translate, gets. destruct (_ =? _); [|destruct (_ =? _)]; try done; cbv beta iota;
      (destruct (tfm_multi_core_hal_client_id_translate _ _ _) as [c|] eqn:Ht; [|done]); by rewrite Ha by (by apply Hok).
Qed.

Lemma handle_slot_alike rpc rpc' p i rs b :
  answer_alike (client_id_regions b) rpc rpc' -> Forall region_ok (client_id_regions b) -> msg_typed (slot_msg (slots (nsq b) i)) ->
  handle_slot NUM rpc p i rs b = handle_slot NUM rpc' p i rs b.
Proof.
  intros Ha Hr Hm. unfold handle_slot. destruct (_ =? 0); [done|]. unfold clear_spe_queue_empty_status, tfm_mailbox_dispatch.
  destruct (i <? NUM); unfold bind, modify, ret, get; cbn; by rewrite (dispatch_alike rpc rpc') by (done || by destruct Hm).
Qed.

Lemma handle_loop_alike rpc rpc' fuel p i rs b :
  secure_ok b -> 0 <= i -> answer_alike (client_id_regions b) rpc rpc' -> Forall region_ok (client_id_regions b) -> (forall j, msg_typed (slot_msg (slots (nsq b) j))) ->
  handle_loop NUM rpc fuel p i rs b = handle_loop NUM rpc' fuel p i rs b.
Proof.
  revert i rs b. induction fuel as [|fuel IH]; intros i rs b Hok Hi Ha Hr Hm; cbn [handle_loop]; [done|]. unfold bind, get. destruct (Z.ltb_spec i (ns_slot_count b)) as [Hlt|]; [|done].
  pose proof (handle_slot_ok rpc' p i rs b Hok ltac:(lia)) as Hw. rewrite (handle_slot_alike rpc rpc') by done. unfold wp in Hw.
  destruct (handle_slot NUM rpc' p i rs b) as [[rs1|e] b1]; [|done]. destruct Hw as [Hok1 []]. apply IH; [done|lia|by rewrite sf_regions0..|]. intros j. by rewrite sf_msg0.
Qed.

(** C14: all requests that the agent makes of the partition manager are ones it
    can rely on: whatever the messages in the shared memory say, a call has at
    most four vectors, all marked as vectors of the non-secure core, and the
    identifier of its client is in the range that the platform registered for
    the non-secure clients, computed without overflow.  The agent's behaviour
    does not depend on what the partition manager would answer to any other
    request. *)
Theorem mailbox_requests_typed rpc rpc' b :
  secure_ok b -> Forall region_ok (client_id_regions b) -> (forall j, msg_typed (slot_msg (slots (nsq b) j))) ->
  answer_alike (client_id_regions b) rpc rpc' ->
  tfm_mailbox_handle_msg NUM rpc b = tfm_mailbox_handle_msg NUM rpc' b /\
  forall p i rs, handle_slot NUM rpc p i rs b = handle_slot NUM rpc' p i rs b.
Proof.
  intros Hok Hr Hm Ha. split; [|intros p i rs; by apply handle_slot_alike]. unfold tfm_mailbox_handle_msg, get_nspe_queue_pend_status, bind, gets, get. destruct (_ =? 0); [done|].
  by rewrite (handle_loop_alike rpc rpc').
Qed.
End secure.

(** ** Concrete runs *)

Definition region : client_id_region_t := Region (-60) (-1) CLIENT_ID_OWNER_MAGIC.

(** One slot, and a call with one input vector pending in it. *)
Definition demo_msg : mailbox_msg_t :=
  MailboxMsg MAILBOX_PSA_CALL (ClientParams 0x40001001 7 [(0x20000000, 16); (0, 0); (0, 0); (0, 0)] 1 (replicate 4 (0, 0)) 0) (-1).
Definition demo_ns : ns_mailbox_queue_t :=
  NsQueue (MailboxStatus 1 0) (fun _ => MailboxSlot demo_msg no_reply) (fun _ => NsSlot 1 false) 0 0.
Definition demo_boxes : mailboxes := tfm_mailbox_init 1 demo_ns 1 [region].

(** A partition manager that accepts every request, and one that panics about
    identifiers of secure clients. *)
Definition demo_rpc (q : rpc_request) : psa_status_t := PSA_SUCCESS.
Definition picky_rpc (q : rpc_request) : psa_status_t :=
  match q with
  | Rpc_call _ _ cid _ _ | Rpc_connect _ _ cid _ | Rpc_close _ cid => if cid <? 0 then PSA_SUCCESS else PANIC
  | _ => PSA_SUCCESS
  end.

Lemma demo_ok : secure_ok 1 demo_boxes.
Proof. split; [by cbn|]. intros i Hi _. by assert (i = 0) as -> by lia. Qed.

Lemma demo_regions : Forall region_ok [region].
Proof. by repeat constructor. Qed.

(** The message is handled, then the slot is answered twice, the second time
    after the non-secure core has flooded the shared memory. *)
Definition demo_events : list event :=
  [E_handle demo_rpc; E_reply (Some 0) 5; E_ns (NsQueue (MailboxStatus 0xFFFFFFFF 0xFFFFFFFF) (fun _ => zero_slot) (fun _ => NsSlot 9 true) 77 0);
   E_slot demo_rpc 0xFFFFFFFF 0 0; E_handle picky_rpc; E_reply (Some 0) 6].

Lemma mailbox_agent_robust_witness :
  exists b', happen 1 demo_events demo_boxes = (Ok tt, b') /\
  forall e, event_ok demo_boxes e -> exists b2, happens 1 e b' = (Ok tt, b2) /\ (by_agent e = true -> shared_frame b' b2).
Proof.
  apply (mailbox_agent_robust 1); [by lia|apply demo_ok|]. unfold answers_ok, demo_events. repeat (constructor; [cbn; (done || lia)|]). constructor.
Defined.

Lemma mailbox_requests_typed_witness :
  tfm_mailbox_handle_msg 1 demo_rpc demo_boxes = tfm_mailbox_handle_msg 1 picky_rpc demo_boxes /\
  forall p i rs, handle_slot 1 demo_rpc p i rs demo_boxes = handle_slot 1 picky_rpc p i rs demo_boxes.
Proof.
  apply (mailbox_requests_typed 1); [apply demo_ok|apply demo_regions|intros j; by cbn|].
  assert (forall cid, cid_ok [region] cid -> (cid <? 0) = true) as Hneg by (intros cid (r & [= <-] & Hc); cbn in Hc; apply Z.ltb_lt; lia).
  intros [|sid|h c cid v o|sid v cid o|h cid]; cbn [request_ok]; try done.
  - intros (_ & _ & _ & _ & Hc & _). unfold picky_rpc. by rewrite Hneg.
  - intros Hc. unfold picky_rpc. by rewrite Hneg.
  - intros Hc. unfold picky_rpc. by rewrite Hneg.
Defined.

(** ** Schedules

    A list of moves that says who acts next; executing it gives a run. *)

Inductive move : Type :=
| M_call (t : nat) (m : mailbox_msg_t)
| M_thread (t : nat)
| M_isr
| M_agent (rpc : rpc_request -> psa_status_t) (co : option Z)
| M_answer (v : psa_status_t) (lens : list Z).

Section schedule.
Context (NS NUM : Z) (close_owner : Z -> option Z -> Prop).

Definition agent_move rpc co (s : sys) : option (list label * sys) :=
  match agent s with
  | A_idle => if pend_slots (status (nsq (boxes s))) =? 0 then None else Some ([], set_agent (A_loop (pend_slots (status (nsq (boxes s)))) 0 0) s)
  | A_loop p i rs =>
      if i <? ns_slot_count (boxes s) then
        if Z.land p (bit i) =? 0 then Some ([], set_agent (A_loop p (i + 1) rs) s)
        else
          let m := slot_msg (slots (nsq (boxes s)) i) in
          match handle_slot NUM rpc p i rs (boxes s), fst (dispatch_call rpc (served_msg m) i (boxes s)) with
          | (Ok rs', b), Ok None => Some ([], set_agent (A_loop p (i + 1) rs') (set_boxes b s))
          | (Ok rs', b), Ok (Some (v, true)) =>
              Some ([L_serve (owner_of s i) (served_msg m); L_refuse (owner_of s i) v (slot_reply (slots (nsq b) i))], set_agent (A_loop p (i + 1) rs') (set_boxes b s))
          | (Ok rs', b), Ok (Some (v, false)) =>
              Some ([L_serve (owner_of s i) (served_msg m)], set_held (accepted m i co ++ held s) (set_agent (A_loop p (i + 1) rs') (set_boxes b s)))
          | _, _ => None
          end
      else match handle_finish p rs (boxes s) with (Ok _, b) => Some ([], set_agent A_idle (set_boxes b s)) | _ => None end
  | A_replied i => match set_nspe_queue_replied_status (bit i) (boxes s) with (Ok _, b) => Some ([], set_agent A_idle (set_boxes b s)) | _ => None end
  end.

(** The partition manager answers the request that it accepted last. *)
Definition answer_move v lens (s : sys) : option (list label * sys) :=
  match agent s, held s with
  | A_idle, i :: l =>
      let vs := vectors (boxes s) i in
      let b0 := set_vectors i (Vectors (v_in_vec vs) (zip (map fst (v_out_vec vs)) lens) (v_out_len vs) (in_use vs)) (boxes s) in
      if Nat.eqb (length lens) (length (v_out_vec vs)) then
        match reply_begin NUM (msg_handle (queue (boxes s) i)) v b0 with
        | (Ok (inr idx), b) =>
            Some ([L_answer (owner_of s (ns_slot_idx (queue (boxes s) idx))) v lens (slot_reply (slots (nsq b) (ns_slot_idx (queue (boxes s) idx))))],
                  set_held l (set_agent (A_replied idx) (set_boxes b s)))
        | _ => None
        end
      else None
  | _, _ => None
  end.

Definition thread_move t (s : sys) : option (list label * sys) :=
  match threads s t with
  | NS_idle => None
  | pc =>
      match client_call_step NS (task t) pc (nsq (boxes s)) with
      | (Ok (inl pc'), q) => Some ([], set_thread t pc' (set_boxes (set_nsq q (boxes s)) s))
      | (Ok (inr (v, r)), q) => Some ([L_return t v r], set_thread t NS_idle (set_boxes (set_nsq q (boxes s)) s))
      | _ => None
      end
  end.

Definition moved (mv : move) (s : sys) : option (list label * sys) :=
  match mv with
  | M_call t m => match threads s t with NS_idle => Some ([L_call t m], set_thread t (NS_lock m) s) | _ => None end
  | M_thread t => thread_move t s
  | M_isr => match tfm_ns_mailbox_wake_reply_owner_isr NS (nsq (boxes s)) with (Ok _, q) => Some ([], set_boxes (set_nsq q (boxes s)) s) | _ => None end
  | M_agent rpc co => agent_move rpc co s
  | M_answer v lens => answer_move v lens s
  end.

Fixpoint schedule (mvs : list move) (s : sys) : option (list label * sys) :=
  match mvs with
  | [] => Some ([], s)
  | mv :: mvs =>
      match moved mv s with
      | Some (l, s') => match schedule mvs s' with Some (ls, s'') => Some (l ++ ls, s'') | None => None end
      | None => None
      end
  end.

(** The owner of a connection that is closed is as the system has it. *)
Definition move_ok (mv : move) : Prop := match mv with M_agent _ co => forall i, close_owner i co | _ => True end.

Lemma agent_move_step rpc co s l s' : (forall i, close_owner i co) -> agent_move rpc co s = Some (l, s') -> step NS NUM close_owner s l s'.
Proof.
  intros Hco. unfold agent_move. destruct (agent s) as [|p i rs|i] eqn:Ha.
  - destruct (Z.eqb_spec (pend_slots (status (nsq (boxes s)))) 0); [done|]. intros [= <- <-]. by apply step_handle_begin.
  - destruct (Z.ltb_spec i (ns_slot_count (boxes s))).
    + destruct (Z.eqb_spec (Z.land p (bit i)) 0); [intros [= <- <-]; by apply step_handle_skip|]. cbv zeta.
      destruct (handle_slot NUM rpc p i rs (boxes s)) as [[rs'|e] b] eqn:Hh; [|done]. destruct (fst (dispatch_call _ _ _ _)) as [[[v [|]]|]|e] eqn:Hd; [..|done]; intros [= <- <-].
      * by apply (step_handle_sync _ _ _ s rpc p i rs).
      * by apply (step_handle_async _ _ _ s rpc p i rs rs' b v).
      * by apply (step_handle_drop _ _ _ s rpc p i rs).
    + destruct (handle_finish p rs (boxes s)) as [[[]|e] b] eqn:Hf; [|done]. intros [= <- <-]. by apply (step_handle_end _ _ _ s p i rs).
  - destruct (set_nspe_queue_replied_status (bit i) (boxes s)) as [[[]|e] b] eqn:Hf; [|done]. intros [= <- <-]. by apply (step_answer_end _ _ _ s i).
Qed.

Lemma answer_move_step v lens s l s' : answer_move v lens s = Some (l, s') -> step NS NUM close_owner s l s'.
Proof.
  unfold answer_move. destruct (agent s) eqn:Ha; [|done..]. destruct (held s) as [|i l2] eqn:Hh; [done|]. cbv zeta. destruct (Nat.eqb_spec (length lens) (length (v_out_vec (vectors (boxes s) i)))); [|done].
  destruct (reply_begin _ _ _ _) as [[[?|idx]|?] b] eqn:Hr; [done| |done]. intros [= <- <-]. by apply (step_answer _ _ _ s i [] l2 v lens (msg_handle (queue (boxes s) i)) idx b).
Qed.

Lemma thread_move_step t s l s' : thread_move t s = Some (l, s') -> step NS NUM close_owner s l s'.
Proof.
  unfold thread_move. intros H. assert (threads s t <> NS_idle) as Hpc by (intros Hpc; by rewrite Hpc in H).
  assert (match client_call_step NS (task t) (threads s t) (nsq (boxes s)) with
    | (Ok (inl pc'), q) => Some ([], set_thread t pc' (set_boxes (set_nsq q (boxes s)) s))
    | (Ok (inr (v, r)), q) => Some ([L_return t v r], set_thread t NS_idle (set_boxes (set_nsq q (boxes s)) s))
    | _ => None end = Some (l, s')) as H' by (by destruct (threads s t)).
  destruct (client_call_step NS (task t) (threads s t) (nsq (boxes s))) as [[[pc|[v r]]|e] q] eqn:Hc; [..|done]; injection H' as <- <-; [by apply step_thread|by apply step_return].
Qed.

Lemma moved_step mv s l s' : move_ok mv -> moved mv s = Some (l, s') -> step NS NUM close_owner s l s'.
Proof.
  destruct mv as [t m|t| |rpc co|v lens]; cbn [moved move_ok]; intros Hok.
  - destruct (threads s t) eqn:Ht; try done. intros [= <- <-]. by apply step_call.
  - apply thread_move_step.
  - destruct (tfm_ns_mailbox_wake_reply_owner_isr NS (nsq (boxes s))) as [[o|e] q] eqn:Hi; [|done]. intros [= <- <-]. by apply (step_isr _ _ _ s o).
  - by apply agent_move_step.
  - apply answer_move_step.
Qed.

(** Runs from their first step on. *)
Lemma run_app s s' s'' l ls : run NS NUM close_owner s l s' -> run NS NUM close_owner s' ls s'' -> run NS NUM close_owner s (l ++ ls) s''.
Proof. intros H1 H2. induction H2; [by rewrite app_nil_r|]. rewrite app_assoc. by econstructor; [apply IHrun|]. Qed.

Lemma schedule_run mvs s ls s' : Forall move_ok mvs -> schedule mvs s = Some (ls, s') -> run NS NUM close_owner s ls s'.
Proof.
  revert s ls. induction mvs as [|mv mvs IH]; intros s ls Hok; cbn [schedule]; [intros [= <- <-]; constructor|]. apply Forall_cons_1 in Hok as [Hmv Hok].
  destruct (moved mv s) as [[l s1]|] eqn:Hm; [|done]. destruct (schedule mvs s1) as [[ls' s2]|] eqn:Hs; [|done]. intros [= <- <-].
  apply (run_app _ s1); [|by apply IH]. apply (run_step _ _ _ s [] s); [constructor|by apply (moved_step mv)].
Qed.
End schedule.

(** Two threads, one slot: the first is answered and the second called in vain
    until the interrupt has woken the first. *)
Definition no_close (i : Z) (co : option Z) : Prop := co = None.
Definition answered : mailbox_reply_t := MailboxReply 42 (replicate 4 0).
Definition busy_rpc (q : rpc_request) : psa_status_t := -149.
Definition demo_moves : list move :=
  [M_call 0 demo_msg] ++ replicate 5 (M_thread 0) ++ [M_call 1 demo_msg; M_thread 1] ++ replicate 3 (M_agent demo_rpc None) ++
  [M_answer 42 (replicate 4 0); M_agent demo_rpc None; M_isr] ++ replicate 5 (M_thread 0) ++ replicate 5 (M_thread 1) ++
  replicate 3 (M_agent busy_rpc None) ++ [M_isr] ++ replicate 5 (M_thread 1).
Definition demo_labels : list label :=
  [L_call 0 demo_msg; L_call 1 demo_msg; L_serve 1 demo_msg; L_answer 1 42 (replicate 4 0) answered; L_return 0 MAILBOX_SUCCESS answered;
   L_serve 2 demo_msg; L_refuse 2 (-149) (MailboxReply (-149) (replicate 4 0)); L_return 1 MAILBOX_SUCCESS (MailboxReply (-149) (replicate 4 0))].

Lemma demo_run : option_map fst (schedule 1 1 demo_moves (initial 1 1 [region])) = Some demo_labels.
Proof. vm_compute. reflexivity. Qed.

Lemma mailbox_refines_rpc_witness : exists a, rpc_run (fun _ => C_idle) demo_labels a.
Proof.
  destruct (schedule 1 1 demo_moves (initial 1 1 [region])) as [[ls s]|] eqn:Hs; pose proof demo_run as Hd; rewrite Hs in Hd; [injection Hd as ->|done].
  apply (mailbox_refines_rpc 1 1 no_close [region] _ s); [by lia|by lia|by repeat constructor|]. apply (schedule_run 1 1 no_close demo_moves); [|exact Hs].
  by repeat constructor.
Defined.

(** A request to close the null handle is accepted without a message to a
    partition: nobody answers it, its thread waits and its slot stays in use. *)
Definition close_msg : mailbox_msg_t := psa_close_msg zero_params 0.

Example close_null_unanswered :
  option_map (fun r => (r.1, held r.2, agent r.2, threads r.2 0%nat, Z.testbit (empty_slots (nsq (boxes r.2))) 0))
    (schedule 1 1 ([M_call 0 close_msg] ++ replicate 5 (M_thread 0) ++ replicate 3 (M_agent demo_rpc None)) (initial 1 1 [region])) =
  Some ([L_call 0 close_msg; L_serve 1 close_msg], [], A_idle, NS_wait 0, false).
Proof. vm_compute. reflexivity. Qed.

(** The connection of the request to close was used for a request in slot 0, and
    slot 0 now has a request of another thread: this thread gets the answer to
    the request to close, and the request in slot 1 keeps waiting. *)
Definition close_conn_msg : mailbox_msg_t := psa_close_msg zero_params 0x40001001.
Definition wrong_moves : list move :=
  [M_call 1 demo_msg] ++ replicate 5 (M_thread 1) ++ [M_call 0 close_conn_msg] ++ replicate 5 (M_thread 0) ++ replicate 4 (M_agent demo_rpc (Some 0)) ++
  [M_answer 0 (replicate 4 0); M_agent demo_rpc None; M_isr] ++ replicate 5 (M_thread 1).

Example close_answers_other :
  option_map (fun r => (r.1, threads r.2 0%nat))
    (schedule 2 2 wrong_moves (initial 2 2 [region])) =
  Some ([L_call 1 demo_msg; L_call 0 close_conn_msg; L_serve 2 demo_msg; L_serve 1 close_conn_msg;
    L_answer 2 0 (replicate 4 0) (MailboxReply 0 (replicate 4 0)); L_return 1 MAILBOX_SUCCESS (MailboxReply 0 (replicate 4 0))], NS_wait 1).
Proof. vm_compute. reflexivity. Qed.
