(* ===== verification/IfxHal.v ===== *)
(** * The isolation of partitions on Infineon devices: the code
      ([platform/ext/target/infineon/common/spe/protection/])

    The platform side of the partition manager's isolation: the MPU regions
    ([protection_mpu.c]), the peripheral protection ([protection_ppc.c]), the
    memory check ([protection_tz.c], [protection_mpc_sw_policy.c]) and the
    boundaries of partitions ([tfm_hal_isolation.c]).  The build has the memory
    protection controllers configured by a policy of the boot stages, one
    protection context, privileged PSA RoT partitions, shared partition
    metadata and assertions; the isolation level (2 or 3) is a parameter.
    Fault injection is not modelled: [FIH_RET] returns and [FIH_CALL] calls.

    A status other than [TFM_HAL_SUCCESS] is an [Err], and so is
    [tfm_core_panic], with a value of its own.  The registers of the MPU are
    modelled by their fields; an address is cut to the granule of 32 bytes
    where the code masks it. *)

From S2P Require Import Prelude Bytes SpmTypes.
From stdpp Require Import base list numbers functions.
From Stdlib Require Import ZArith Lia.

Open Scope Z_scope.
Open Scope tfm_scope.

(** ** Status codes ([tfm_hal_defs.h]) *)

Definition TFM_HAL_ERROR_MEM_FAULT : psa_status_t := -128.
Definition TFM_HAL_ERROR_BAD_STATE : psa_status_t := -128 + 0x55A3.
Definition TFM_HAL_ERROR_NOT_SUPPORTED : psa_status_t := -128 + 0xA3C5.
Definition TFM_HAL_ERROR_INVALID_INPUT : psa_status_t := -128 + 0xC35A.
Definition TFM_HAL_ERROR_GENERIC : psa_status_t := -128 + 0x3C5A.

(** [tfm_core_panic] and a failed assertion: no status of the HAL. *)
Definition TFM_PANIC : psa_status_t := -1.

(** ** Data ([asset_defs.h], [protection_types.h], [protection_ppc.h]) *)

Definition ASSET_ATTR_READ_ONLY : Z := 1.
Definition ASSET_ATTR_READ_WRITE : Z := 2.
Definition ASSET_ATTR_NAMED_MMIO : Z := 8.
Definition ASSET_ATTR_NUMBERED_MMIO : Z := 16.
Definition IFX_UNUSED_MMIO : Z := 0xFFFFFFFF.

(** [a_start] is also the reference of a device. *)
Record asset_desc_t : Type := Asset {
  a_start : Z;
  a_limit : Z;
  a_attr : Z;
}.

Definition has_attr (a : asset_desc_t) (bits : Z) : bool := negb (Z.land (a_attr a) bits =? 0).

Inductive cy_en_ppc_sec_attribute_t : Type := CY_PPC_SECURE | CY_PPC_NON_SECURE.
#[global] Instance sec_attribute_eq_dec : EqDecision cy_en_ppc_sec_attribute_t.
Proof. solve_decision. Defined.

(** [secPrivAttribute] and [nsPrivAttribute] are [true] for [..._NONPRIV]. *)
Record cy_stc_ppc_attribute_t : Type := PpcAttr {
  secAttribute : cy_en_ppc_sec_attribute_t;
  secPrivAttribute : bool;
  nsPrivAttribute : bool;
}.
#[global] Instance ppc_attribute_eq_dec : EqDecision cy_stc_ppc_attribute_t.
Proof. solve_decision. Defined.

Record ifx_ppc_named_mmio_config_t : Type := PpcCfg {
  sec_attr : cy_en_ppc_sec_attribute_t;
  allow_unpriv : bool;
  pc_mask : Z;
}.

Record ifx_protection_region_config_t : Type := RegionCfg {
  ppc_cfg : ifx_ppc_named_mmio_config_t;
  mpu_regions_enable : bool;
  ppc_dynamic : bool;
}.

Record ifx_partition_load_info_t : Type := IfxLd {
  privileged : bool;
  protect_cfg_enabled : ifx_protection_region_config_t;
  protect_cfg_disabled : ifx_protection_region_config_t;
}.

(** [ld_assets] are those behind the load information ([LOAD_INFO_ASSET]). *)
Record ifx_partition_info_t : Type := IfxInfo {
  p_ldinfo : partition_load_info_t;
  ld_assets : list asset_desc_t;
  ifx_ldinfo : ifx_partition_load_info_t;
  ifx_domain : Z;
  p_assets : list asset_desc_t;
}.

Definition IFX_IS_PARTITION_PRIVILEGED (p : ifx_partition_info_t) : bool := privileged (ifx_ldinfo p).

Inductive ifx_asset_protection_type_t : Type :=
| IFX_ASSET_PROTECTION_STATIC
| IFX_ASSET_PROTECTION_PARTITION_STATIC
| IFX_ASSET_PROTECTION_PARTITION_DYNAMIC.
#[global] Instance protection_type_eq_dec : EqDecision ifx_asset_protection_type_t.
Proof. solve_decision. Defined.

Definition IFX_SPM_BOUNDARY : Z := 0.
Definition IFX_PROTECT_SPM_DOMAIN : Z := 0xC273706D.
Definition IFX_PC_TFM_ID : Z := 2.
Definition IFX_PC_TFM_SPM : Z := Z.shiftl 1 2.
Definition IFX_PC_DEFAULT : Z := IFX_PC_TFM_SPM.

(** ** The MPU ([mpu_armv8m_drv.h]) *)

Inductive mpu_armv8m_attr_access_t : Type :=
| MPU_ARMV8M_AP_RW_PRIV_ONLY
| MPU_ARMV8M_AP_RW_PRIV_UNPRIV
| MPU_ARMV8M_AP_RO_PRIV_ONLY
| MPU_ARMV8M_AP_RO_PRIV_UNPRIV.
#[global] Instance access_eq_dec : EqDecision mpu_armv8m_attr_access_t.
Proof. solve_decision. Defined.

Definition MPU_ARMV8M_MAIR_ATTR_DEVICE_IDX : Z := 0.
Definition MPU_ARMV8M_MAIR_ATTR_CODE_IDX : Z := 1.
Definition MPU_ARMV8M_MAIR_ATTR_DATA_IDX : Z := 2.
Definition MPU_ARMV8M_MAIR_ATTR_DEVICE_VAL : Z := 0x04.
Definition MPU_ARMV8M_MAIR_ATTR_CODE_VAL : Z := 0xAA.
Definition MPU_ARMV8M_MAIR_ATTR_DATA_VAL : Z := 0xFF.

(** [attr_exec] is [true] for [..._EXEC_NEVER]; [attr_sh] is always
    [MPU_ARMV8M_SH_NONE]. *)
Record mpu_armv8m_region_cfg_t : Type := MpuCfg {
  region_base : Z;
  region_limit : Z;
  region_attridx : Z;
  attr_exec : bool;
  attr_access : mpu_armv8m_attr_access_t;
}.

(** A region's registers [RBAR] and [RLAR]. *)
Record mpu_region : Type := MpuRegion {
  r_base : Z;
  r_xn : bool;
  r_ap : mpu_armv8m_attr_access_t;
  r_limit : Z;
  r_attridx : Z;
  r_en : bool;
}.

(** [CTRL]: [PRIVDEFENA], [HFNMIENA] and [ENABLE]. *)
Record mpu_t : Type := Mpu {
  rnr : Z;
  regions : Z -> mpu_region;
  mair0 : Z * Z * Z;
  ctrl : bool * bool * bool;
}.

(** ** The peripheral protection controllers *)

(** The registers of a controller that the code reads. *)
Record PPC_Type : Type := Ppc {
  NS_ATT : Z -> Z;
  S_P_ATT : Z -> Z;
  NS_P_ATT : Z -> Z;
  PC_MASK : Z -> Z;
  resp_cfg : bool;
}.

(** The functions of the vendor's driver: the registers afterwards, and whether
    the driver succeeded. *)
Class PpcDriver : Type := {
  Cy_Ppc_InitPpc : PPC_Type -> PPC_Type * bool;
  Cy_Ppc_ConfigAttrib : PPC_Type -> Z -> cy_stc_ppc_attribute_t -> PPC_Type * bool;
  Cy_Ppc_SetPcMask : PPC_Type -> Z -> Z -> PPC_Type * bool;
  Cy_Ppc_GetLockMask : PPC_Type -> Z;
}.

(** ** State *)

Record hal : Type := Hal {
  mpu : mpu_t;
  ifx_mpu_used_regions_count : Z;
  ppcs : Z -> PPC_Type;
  active_boundary : Z;
  ifx_asset_protection_type : ifx_asset_protection_type_t;
  npriv : bool;
  spm_running : bool;
}.

Definition set_mpu (v : mpu_t) (s : hal) : hal := Hal v (ifx_mpu_used_regions_count s) (ppcs s) (active_boundary s) (ifx_asset_protection_type s) (npriv s) (spm_running s).
Definition set_used (v : Z) (s : hal) : hal := Hal (mpu s) v (ppcs s) (active_boundary s) (ifx_asset_protection_type s) (npriv s) (spm_running s).
Definition set_ppcs (v : Z -> PPC_Type) (s : hal) : hal := Hal (mpu s) (ifx_mpu_used_regions_count s) v (active_boundary s) (ifx_asset_protection_type s) (npriv s) (spm_running s).
Definition set_active (v : Z) (s : hal) : hal := Hal (mpu s) (ifx_mpu_used_regions_count s) (ppcs s) v (ifx_asset_protection_type s) (npriv s) (spm_running s).
Definition set_protection (v : ifx_asset_protection_type_t) (s : hal) : hal := Hal (mpu s) (ifx_mpu_used_regions_count s) (ppcs s) (active_boundary s) v (npriv s) (spm_running s).
Definition set_npriv (v : bool) (s : hal) : hal := Hal (mpu s) (ifx_mpu_used_regions_count s) (ppcs s) (active_boundary s) (ifx_asset_protection_type s) v (spm_running s).

Definition set_running (s : hal) : hal := Hal (mpu s) (ifx_mpu_used_regions_count s) (ppcs s) (active_boundary s) (ifx_asset_protection_type s) (npriv s) true.

Definition set_rnr (v : Z) (m : mpu_t) : mpu_t := Mpu v (regions m) (mair0 m) (ctrl m).
Definition set_region (r : mpu_region) (m : mpu_t) : mpu_t := Mpu (rnr m) (<[rnr m := r]> (regions m)) (mair0 m) (ctrl m).
Definition set_mair0 (v : Z * Z * Z) (m : mpu_t) : mpu_t := Mpu (rnr m) (regions m) v (ctrl m).
Definition set_ctrl (v : bool * bool * bool) (m : mpu_t) : mpu_t := Mpu (rnr m) (regions m) (mair0 m) v.

(** The current region with its enable bit cleared. *)
Definition disable_region (m : mpu_t) : mpu_t :=
  let r := regions m (rnr m) in set_region (MpuRegion (r_base r) (r_xn r) (r_ap r) (r_limit r) (r_attridx r) false) m.

Abbreviation HAL := (M hal).
Definition upd_mpu (f : mpu_t -> mpu_t) : HAL unit := modify (fun s => set_mpu (f (mpu s)) s).
Definition SPM_ASSERT (b : bool) : HAL unit := check b TFM_PANIC.
Definition tfm_core_panic {A} : HAL A := fail TFM_PANIC.

(** ** Addresses that the linker places *)

Record linker_t : Type := Linker {
  TFM_SPM_RW_OTHER_RO_START : Z;
  TFM_SPM_RW_OTHER_RO_END : Z;
  PT_RO_START : Z;
  PT_RO_END : Z;
  MPU_PERIPHERAL_REGION_START : Z;
  MPU_PERIPHERAL_REGION_LIMIT : Z;
  TFM_APP_RW_STACK_START : Z;
  TFM_APP_RW_STACK_END : Z;
}.

Section ifx.
Context (TFM_ISOLATION_LEVEL CPUSS_CM33_0_MPU_S_REGION_NR : Z) (L : linker_t) (CUSTOM_PLATFORM_REGION : list mpu_armv8m_region_cfg_t).

(** *** Static regions ([protection_mpu.c]) *)

Definition shared_region_config : list mpu_armv8m_region_cfg_t :=
  [MpuCfg (TFM_SPM_RW_OTHER_RO_START L) (TFM_SPM_RW_OTHER_RO_END L - 1) MPU_ARMV8M_MAIR_ATTR_DATA_IDX true MPU_ARMV8M_AP_RO_PRIV_UNPRIV;
   MpuCfg (PT_RO_START L) (PT_RO_END L - 1) MPU_ARMV8M_MAIR_ATTR_CODE_IDX false MPU_ARMV8M_AP_RO_PRIV_UNPRIV;
   MpuCfg (MPU_PERIPHERAL_REGION_START L) (MPU_PERIPHERAL_REGION_LIMIT L) MPU_ARMV8M_MAIR_ATTR_DEVICE_IDX true MPU_ARMV8M_AP_RW_PRIV_UNPRIV].

Definition ifx_mpu_static_config : list mpu_armv8m_region_cfg_t :=
  (if TFM_ISOLATION_LEVEL =? 3 then shared_region_config
   else if TFM_ISOLATION_LEVEL =? 2 then
     shared_region_config ++
     [MpuCfg (TFM_APP_RW_STACK_START L) (TFM_APP_RW_STACK_END L - 1) MPU_ARMV8M_MAIR_ATTR_DATA_IDX true MPU_ARMV8M_AP_RW_PRIV_UNPRIV]
   else []) ++ CUSTOM_PLATFORM_REGION.

Definition ifx_mpu_static_config_count : Z := Z.of_nat (length ifx_mpu_static_config).

(** Cut to the granule of the MPU. *)
Definition mpu_granule (x : Z) : Z := x - x mod 32.

Definition ifx_mpu_config_enable_region (idx : Z) (c : mpu_armv8m_region_cfg_t) : HAL unit :=
  let* _ := SPM_ASSERT (region_base c mod 32 =? 0) in
  let* _ := SPM_ASSERT (u32 (region_limit c + 1) mod 32 =? 0) in
  let* _ := SPM_ASSERT (region_base c <? region_limit c) in
  let* _ := upd_mpu (set_rnr idx) in
  let* _ := upd_mpu disable_region in
  let* _ := upd_mpu (fun m => let r := regions m (rnr m) in set_region (MpuRegion (region_base c) (attr_exec c) (attr_access c) (r_limit r) (r_attridx r) (r_en r)) m) in
  upd_mpu (fun m => let r := regions m (rnr m) in set_region (MpuRegion (r_base r) (r_xn r) (r_ap r) (mpu_granule (region_limit c)) (region_attridx c) true) m).

Fixpoint disable_loop (n : nat) (idx : Z) : HAL unit :=
  match n with
  | O => ret tt
  | S n =>
      let* _ := upd_mpu (set_rnr idx) in
      let* _ := upd_mpu disable_region in
      disable_loop n (idx + 1)
  end.

Definition ifx_mpu_disable_asset_regions : HAL unit :=
  let* _ := disable_loop (Z.to_nat (CPUSS_CM33_0_MPU_S_REGION_NR - ifx_mpu_static_config_count)) ifx_mpu_static_config_count in
  modify (set_used ifx_mpu_static_config_count).

Fixpoint config_loop (idx : Z) (cs : list mpu_armv8m_region_cfg_t) : HAL unit :=
  match cs with
  | [] => ret tt
  | c :: cs =>
      let* _ := ifx_mpu_config_enable_region idx c in
      config_loop (idx + 1) cs
  end.

Definition mair_value : Z * Z * Z := (MPU_ARMV8M_MAIR_ATTR_DEVICE_VAL, MPU_ARMV8M_MAIR_ATTR_CODE_VAL, MPU_ARMV8M_MAIR_ATTR_DATA_VAL).

Definition ifx_mpu_init_cfg : HAL unit :=
  let* _ := check (negb (ifx_mpu_static_config_count >? CPUSS_CM33_0_MPU_S_REGION_NR)) TFM_HAL_ERROR_INVALID_INPUT in
  let* _ := upd_mpu (fun m => set_ctrl (fst (fst (ctrl m)), snd (fst (ctrl m)), false) m) in
  let* _ := config_loop 0 ifx_mpu_static_config in
  let* _ := ifx_mpu_disable_asset_regions in
  let* _ := upd_mpu (set_mair0 mair_value) in
  upd_mpu (set_ctrl (true, true, true)).

(** The registers hold the configuration. *)
Definition region_matches (r : mpu_region) (c : mpu_armv8m_region_cfg_t) : bool :=
  (r_base r =? region_base c) && Bool.eqb (r_xn r) (attr_exec c) && bool_decide (r_ap r = attr_access c) &&
  (r_limit r =? mpu_granule (region_limit c)) && (r_attridx r =? region_attridx c) && r_en r.

Fixpoint verify_static (idx : Z) (cs : list mpu_armv8m_region_cfg_t) : HAL unit :=
  match cs with
  | [] => ret tt
  | c :: cs =>
      let* _ := upd_mpu (set_rnr idx) in
      let* m := gets mpu in
      let* _ := check (region_matches (regions m (rnr m)) c) TFM_HAL_ERROR_GENERIC in
      verify_static (idx + 1) cs
  end.

Fixpoint verify_disabled (n : nat) (idx : Z) : HAL unit :=
  match n with
  | O => ret tt
  | S n =>
      let* _ := upd_mpu (set_rnr idx) in
      let* m := gets mpu in
      let* _ := check (negb (r_en (regions m (rnr m)))) TFM_HAL_ERROR_GENERIC in
      verify_disabled n (idx + 1)
  end.

Definition ifx_mpu_verify_static_boundaries : HAL unit :=
  let* _ := verify_static 0 ifx_mpu_static_config in
  let* _ := verify_disabled (Z.to_nat (CPUSS_CM33_0_MPU_S_REGION_NR - ifx_mpu_static_config_count)) ifx_mpu_static_config_count in
  let* m := gets mpu in
  let* _ := check (bool_decide (mair0 m = mair_value)) TFM_HAL_ERROR_GENERIC in
  check (bool_decide (ctrl m = (true, true, true))) TFM_HAL_ERROR_GENERIC.

(** The region of a memory asset. *)
Definition asset_region (a : asset_desc_t) : mpu_armv8m_region_cfg_t :=
  if has_attr a ASSET_ATTR_READ_WRITE then MpuCfg (a_start a) (u32 (a_limit a - 1)) MPU_ARMV8M_MAIR_ATTR_DATA_IDX true MPU_ARMV8M_AP_RW_PRIV_UNPRIV
  else MpuCfg (a_start a) (u32 (a_limit a - 1)) MPU_ARMV8M_MAIR_ATTR_CODE_IDX true MPU_ARMV8M_AP_RO_PRIV_UNPRIV.

Definition ifx_mpu_isolate_numbered_mmio (p : ifx_partition_info_t) (a : asset_desc_t) : HAL unit :=
  let* s := get in
  if (TFM_ISOLATION_LEVEL =? 3) && negb (bool_decide (ifx_asset_protection_type s = IFX_ASSET_PROTECTION_PARTITION_DYNAMIC)) then ret tt
  else if IFX_IS_PARTITION_PRIVILEGED p then ret tt
  else
    let* _ := check (negb (ifx_mpu_used_regions_count s >=? CPUSS_CM33_0_MPU_S_REGION_NR)) TFM_HAL_ERROR_BAD_STATE in
    let* _ := ifx_mpu_config_enable_region (ifx_mpu_used_regions_count s) (asset_region a) in
    modify (set_used (ifx_mpu_used_regions_count s + 1)).

(** The shared metadata are in the first region. *)
Definition ifx_mpu_shared_metadata_rw_enable (enable : bool) : HAL unit :=
  let* _ := upd_mpu (set_rnr 0) in
  let* m := gets mpu in
  let* _ := SPM_ASSERT (mpu_granule (r_base (regions m (rnr m))) =? mpu_granule (TFM_SPM_RW_OTHER_RO_START L)) in
  let* _ := SPM_ASSERT (mpu_granule (r_limit (regions m (rnr m))) =? mpu_granule (TFM_SPM_RW_OTHER_RO_END L - 1)) in
  upd_mpu (fun m => let r := regions m (rnr m) in
    set_region (MpuRegion (r_base r) (r_xn r) (if enable then MPU_ARMV8M_AP_RW_PRIV_ONLY else MPU_ARMV8M_AP_RO_PRIV_UNPRIV) (r_limit r) (r_attridx r) (r_en r)) m).
End ifx.
