(* ===== verification/IfxIsolation.v ===== *)
(** * The isolation of partitions on Infineon devices: peripherals, memory
      check and boundaries
      ([protection_ppc.c], [protection_tz.c], [protection_mpc_sw_policy.c],
      [tfm_hal_isolation.c])

    The vendor's driver of the peripheral protection controllers and the test
    target instruction of the processor are parameters ([PpcDriver],
    [CmseTT]); so are the policy of the memory protection controllers, which
    the boot stages have written, and the memory map of the device. *)

From S2P Require Import Prelude Bytes SpmTypes IfxHal.
From stdpp Require Import base list numbers functions.
From Stdlib Require Import ZArith Lia.

Open Scope Z_scope.
Open Scope tfm_scope.

(** ** Data *)

(** [ifx_ppcx_config_t]; a region is a value of [cy_en_prot_region_fix_t]. *)
Record ifx_ppcx_config_t : Type := PpcxCfg {
  x_cfg : ifx_ppc_named_mmio_config_t;
  x_regions : list Z;
}.

(** What the test target instruction says of an address ([cmse_address_info_t]). *)
Record cmse_address_info_t : Type := AddressInfo {
  tt_value : Z;
  tt_secure : bool;
  read_ok : bool;
  readwrite_ok : bool;
  nonsecure_read_ok : bool;
  nonsecure_readwrite_ok : bool;
}.

(** [cmse_TT], [cmse_TTT], [cmse_TTA] and [cmse_TTAT]: for unprivileged code,
    for the non-secure state. *)
Class CmseTT : Type := cmse_TT : bool -> bool -> hal -> Z -> cmse_address_info_t.

(** The flags of [cmse_check_address_range]; [CMSE_NONSECURE] is [f_mpu_ns]
    with [f_au_ns]. *)
Record cmse_flags : Type := CmseFlags {
  f_unpriv : bool;
  f_mpu_ns : bool;
  f_au_ns : bool;
  f_readwrite : bool;
  f_read : bool;
}.

(** [ifx_mpc_cfg_t], [ifx_mpc_policy_t] *)
Record ifx_mpc_cfg_t : Type := MpcCfg {
  mem_offset : Z;
  mem_size : Z;
  mpc_attr : Z;
}.

Record ifx_mpc_policy_t : Type := MpcPolicy {
  n_ram_mpc : Z;
  n_flash_mpc : Z;
  mpc_struct : Z -> ifx_mpc_cfg_t;
}.

Definition TFM_HAL_ACCESS_WRITABLE : Z := 4.
Definition IFX_MPC_BLOCK_SIZE : Z := 0x800.
Definition IFX_MPC_PC_ATTR_NS_MSK : Z := 1.
Definition IFX_MPC_PC_ATTR_W_MSK : Z := 2.
Definition IFX_MPC_PC_ATTR_R_MSK : Z := 4.
Definition IFX_MPC_GET_PC_ATTR (attr pc : Z) : Z := Z.land (Z.shiftr attr (pc * 4)) 0xF.
Definition IFX_IDAU_SECURE_ADDRESS_MASK : Z := 0x10000000.
Definition IFX_S_ADDRESS_ALIAS (x : Z) : Z := Z.lor x IFX_IDAU_SECURE_ADDRESS_MASK.
Definition UINTPTR_MAX : Z := 0xFFFFFFFF.

(** [ifx_is_region_inside_other] ([utils/ifx_regions.c]) *)
Definition ifx_is_region_inside_other (s1 l1 s2 l2 : Z) : bool :=
  if s1 >? l1 then false
  else if s2 >? l2 then false
  else (s1 >=? s2) && (l1 <=? l2).

(** The memory map of the device. *)
Record device_t : Type := Device {
  CY_SRAM0_BASE : Z;
  CY_SRAM0_SIZE : Z;
  CY_FLASH_BASE : Z;
  CY_FLASH_SIZE : Z;
}.

Section isolation.
Context `{!PpcDriver} `{!CmseTT}.
Context (TFM_ISOLATION_LEVEL CPUSS_CM33_0_MPU_S_REGION_NR : Z) (L : linker_t) (CUSTOM_PLATFORM_REGION : list mpu_armv8m_region_cfg_t).
Context (D : device_t) (policy : ifx_mpc_policy_t) (ifx_ppcx_region_ptrs_count : Z) (ifx_ppcx_static_config : list ifx_ppcx_config_t).

(** The structures that boundaries point to. *)
Context (info : Z -> ifx_partition_info_t).

Abbreviation HAL := (M hal).

(** ** Peripherals ([protection_ppc.c]) *)

Definition IFX_GET_PPC_GROUP_REGION (x : Z) : Z := Z.land x 0x3FFFFFF.
Definition IFX_GET_PPC_GROUP_ID (x : Z) : Z := Z.shiftr x 28.

Definition Cy_Ppc_GetPointerForRegion (x : Z) : HAL Z :=
  if IFX_GET_PPC_GROUP_ID x <? ifx_ppcx_region_ptrs_count then ret (IFX_GET_PPC_GROUP_ID x) else tfm_core_panic.

Definition Cy_Ppc_GetAttrib (p : PPC_Type) (region : Z) : cy_stc_ppc_attribute_t :=
  let bit f := Z.testbit (f p (region / 32)) (region mod 32) in
  PpcAttr (if bit NS_ATT then CY_PPC_NON_SECURE else CY_PPC_SECURE) (bit S_P_ATT) (bit NS_P_ATT).

Definition ifx_check_config_validity (p : PPC_Type) (region : Z) (attr : cy_stc_ppc_attribute_t) (mask : Z) : HAL unit :=
  let lock_mask := Cy_Ppc_GetLockMask p in
  let pc_mask := PC_MASK p region in
  let old := Cy_Ppc_GetAttrib p region in
  let* _ :=
    if negb (Z.land pc_mask lock_mask =? 0) then
      let* _ := check (bool_decide (secAttribute old = secAttribute attr)) TFM_PANIC in
      check (Bool.eqb (secPrivAttribute old) (secPrivAttribute attr)) TFM_PANIC
    else ret tt in
  let* _ := check (Z.land (Z.lxor pc_mask mask) lock_mask =? 0) TFM_PANIC in
  check (negb (negb (Z.land pc_mask lock_mask =? 0) && negb (Z.land (Z.lxor pc_mask mask) mask =? 0))) TFM_PANIC.

Definition to_s_priv_attr (unpriv : bool) (sec : cy_en_ppc_sec_attribute_t) : bool := unpriv && bool_decide (sec = CY_PPC_SECURE).
Definition to_ns_priv_attr (unpriv : bool) (sec : cy_en_ppc_sec_attribute_t) : bool := unpriv && bool_decide (sec = CY_PPC_NON_SECURE).

(** The attributes that a configuration asks for. *)
Definition cfg_attr (c : ifx_ppc_named_mmio_config_t) : cy_stc_ppc_attribute_t :=
  PpcAttr (sec_attr c) (to_s_priv_attr (allow_unpriv c) (sec_attr c)) (to_ns_priv_attr (allow_unpriv c) (sec_attr c)).

(** A call of the driver on the controller [k]. *)
Definition ppc_call (k : Z) (f : PPC_Type -> PPC_Type * bool) : HAL unit :=
  let* s := get in
  let* _ := put (set_ppcs (<[k := (f (ppcs s k)).1]> (ppcs s)) s) in
  check (f (ppcs s k)).2 TFM_HAL_ERROR_GENERIC.

Fixpoint ppcx_regions (c : ifx_ppc_named_mmio_config_t) (xs : list Z) : HAL unit :=
  match xs with
  | [] => ret tt
  | x :: xs =>
      let* k := Cy_Ppc_GetPointerForRegion x in
      let r := IFX_GET_PPC_GROUP_REGION x in
      let* s := get in
      let* _ := ifx_check_config_validity (ppcs s k) r (cfg_attr c) (pc_mask c) in
      let* _ := ppc_call k (fun p => Cy_Ppc_ConfigAttrib p r (cfg_attr c)) in
      let* _ := ppc_call k (fun p => Cy_Ppc_SetPcMask p r (pc_mask c)) in
      ppcx_regions c xs
  end.

Definition ifx_ppcx_init_cfg (c : ifx_ppcx_config_t) : HAL unit := ppcx_regions (x_cfg c) (x_regions c).

Fixpoint ppc_init_loop (n : nat) (k : Z) : HAL unit :=
  match n with
  | O => ret tt
  | S n =>
      let* _ := ppc_call k Cy_Ppc_InitPpc in
      ppc_init_loop n (k + 1)
  end.

Fixpoint ppcx_configs (cs : list ifx_ppcx_config_t) : HAL unit :=
  match cs with
  | [] => ret tt
  | c :: cs =>
      let* _ := ifx_ppcx_init_cfg c in
      ppcx_configs cs
  end.

Definition ifx_ppc_init_cfg : HAL unit :=
  let* _ := ppc_init_loop (Z.to_nat ifx_ppcx_region_ptrs_count) 0 in
  ppcx_configs ifx_ppcx_static_config.

(** The registers hold the static configuration. *)
Fixpoint verify_resp (n : nat) (k : Z) : HAL unit :=
  match n with
  | O => ret tt
  | S n =>
      let* s := get in
      let* _ := check (resp_cfg (ppcs s k)) TFM_HAL_ERROR_GENERIC in
      verify_resp n (k + 1)
  end.

Fixpoint verify_regions (c : ifx_ppc_named_mmio_config_t) (xs : list Z) : HAL unit :=
  match xs with
  | [] => ret tt
  | x :: xs =>
      let* k := Cy_Ppc_GetPointerForRegion x in
      let r := IFX_GET_PPC_GROUP_REGION x in
      let* s := get in
      let* _ := check (bool_decide (Cy_Ppc_GetAttrib (ppcs s k) r = cfg_attr c)) TFM_HAL_ERROR_GENERIC in
      let* _ := check (PC_MASK (ppcs s k) r =? pc_mask c) TFM_HAL_ERROR_GENERIC in
      verify_regions c xs
  end.

Fixpoint verify_configs (cs : list ifx_ppcx_config_t) : HAL unit :=
  match cs with
  | [] => ret tt
  | c :: cs =>
      let* _ := verify_regions (x_cfg c) (x_regions c) in
      verify_configs cs
  end.

Definition ifx_ppc_verify_static_boundaries : HAL unit :=
  let* _ := verify_resp (Z.to_nat ifx_ppcx_region_ptrs_count) 0 in
  verify_configs ifx_ppcx_static_config.

Definition ifx_ppc_isolate_named_mmio (c : ifx_ppc_named_mmio_config_t) (a : asset_desc_t) : HAL unit :=
  let* _ := check (has_attr a ASSET_ATTR_READ_WRITE) TFM_HAL_ERROR_NOT_SUPPORTED in
  let* k := Cy_Ppc_GetPointerForRegion (a_start a) in
  let r := IFX_GET_PPC_GROUP_REGION (a_start a) in
  let mask := Z.lor (pc_mask c) IFX_PC_TFM_SPM in
  let* s := get in
  let* _ := ifx_check_config_validity (ppcs s k) r (cfg_attr c) mask in
  let* _ := ppc_call k (fun p => Cy_Ppc_SetPcMask p r mask) in
  let* _ := ppc_call k (fun p => Cy_Ppc_ConfigAttrib p r (cfg_attr c)) in
  if Z.land (pc_mask c) IFX_PC_TFM_SPM =? 0 then ppc_call k (fun p => Cy_Ppc_SetPcMask p r (pc_mask c)) else ret tt.

(** ** Assets ([tfm_hal_isolation.c]) *)

Fixpoint ifx_apply_assets (p : ifx_partition_info_t) (cfg : ifx_protection_region_config_t) (assets : list asset_desc_t) : HAL unit :=
  match assets with
  | [] => ret tt
  | a :: assets =>
      let* _ :=
        if has_attr a ASSET_ATTR_NAMED_MMIO then
          if a_start a =? IFX_UNUSED_MMIO then ret tt
          else
            let* s := get in
            let ppc_isolation :=
              if TFM_ISOLATION_LEVEL =? 3 then negb (bool_decide (ifx_asset_protection_type s = IFX_ASSET_PROTECTION_PARTITION_DYNAMIC)) || ppc_dynamic cfg
              else true in
            if ppc_isolation then ifx_ppc_isolate_named_mmio (ppc_cfg cfg) a else ret tt
        else
          let* _ := check (negb (Bool.eqb (has_attr a ASSET_ATTR_READ_ONLY) (has_attr a ASSET_ATTR_READ_WRITE))) TFM_HAL_ERROR_INVALID_INPUT in
          if mpu_regions_enable cfg then ifx_mpu_isolate_numbered_mmio TFM_ISOLATION_LEVEL CPUSS_CM33_0_MPU_S_REGION_NR p a else ret tt in
      ifx_apply_assets p cfg assets
  end.

Definition ifx_protect_partition_assets (p : ifx_partition_info_t) (cfg : ifx_protection_region_config_t) : HAL unit :=
  let* _ := ifx_apply_assets p cfg (ld_assets p) in
  ifx_apply_assets p cfg (p_assets p).

(** ** Boundaries *)

Definition IFX_GET_BOUNDARY_DOMAIN (b : Z) : Z := if b =? IFX_SPM_BOUNDARY then IFX_PROTECT_SPM_DOMAIN else ifx_domain (info b).

(** [b] is the address of the information about the partition. *)
Definition tfm_hal_bind_boundary (b : Z) : HAL unit :=
  let p := info b in
  if TFM_ISOLATION_LEVEL =? 3 then
    if ifx_domain p =? IFX_PROTECT_SPM_DOMAIN then
      let* _ := modify (set_protection IFX_ASSET_PROTECTION_STATIC) in
      ifx_protect_partition_assets p (protect_cfg_enabled (ifx_ldinfo p))
    else
      let* _ := modify (set_protection IFX_ASSET_PROTECTION_PARTITION_STATIC) in
      let* _ := ifx_protect_partition_assets p (protect_cfg_enabled (ifx_ldinfo p)) in
      let* _ := modify (set_protection IFX_ASSET_PROTECTION_PARTITION_DYNAMIC) in
      ifx_protect_partition_assets p (protect_cfg_disabled (ifx_ldinfo p))
  else ifx_protect_partition_assets p (protect_cfg_enabled (ifx_ldinfo p)).

Definition tfm_hal_finish_boot : HAL unit :=
  let* _ := ifx_mpu_shared_metadata_rw_enable L true in
  let* _ := modify set_running in
  let* _ := ifx_mpu_shared_metadata_rw_enable L false in
  if TFM_ISOLATION_LEVEL =? 3 then modify (set_protection IFX_ASSET_PROTECTION_PARTITION_DYNAMIC) else ret tt.

Definition tfm_hal_boundary_need_switch (from to : Z) : bool :=
  if TFM_ISOLATION_LEVEL >? 1 then negb (IFX_GET_BOUNDARY_DOMAIN from =? IFX_GET_BOUNDARY_DOMAIN to) else false.

Definition activate_assets (b : Z) : HAL unit :=
  let p := info b in
  let* s := get in
  let* _ :=
    if negb (IFX_PROTECT_SPM_DOMAIN =? IFX_GET_BOUNDARY_DOMAIN (active_boundary s)) then
      ifx_protect_partition_assets (info (active_boundary s)) (protect_cfg_disabled (ifx_ldinfo (info (active_boundary s))))
    else ret tt in
  let* _ := ifx_mpu_disable_asset_regions TFM_ISOLATION_LEVEL CPUSS_CM33_0_MPU_S_REGION_NR L CUSTOM_PLATFORM_REGION in
  let* _ := if negb (IFX_PROTECT_SPM_DOMAIN =? ifx_domain p) then ifx_protect_partition_assets p (protect_cfg_enabled (ifx_ldinfo p)) else ret tt in
  modify (set_active b).

(** The privilege of the thread mode is set in any case; when the assets could
    not be switched the status is returned before. *)
Definition tfm_hal_activate_boundary (b : Z) : HAL unit :=
  let* s := get in
  let* _ :=
    if TFM_ISOLATION_LEVEL =? 3 then
      if negb (b =? IFX_SPM_BOUNDARY) && negb (b =? active_boundary s) then activate_assets b else ret tt
    else if TFM_ISOLATION_LEVEL =? 2 then
      if negb (b =? IFX_SPM_BOUNDARY) then modify (set_active b) else ret tt
    else ret tt in
  modify (set_npriv (negb (b =? IFX_SPM_BOUNDARY) && negb (IFX_IS_PARTITION_PRIVILEGED (info b)))).

(** ** The memory check *)

Definition ifx_cmse_check_address_range (p size : Z) (f : cmse_flags) : HAL unit :=
  let* _ := check (negb (UINTPTR_MAX - p <? size)) TFM_HAL_ERROR_INVALID_INPUT in
  let pe := p + size - 1 in
  let singleCheck := Z.lxor p pe <? 32 in
  let* s := get in
  let permb := cmse_TT (f_unpriv f) (f_mpu_ns f) s p in
  let perme := if singleCheck then permb else cmse_TT (f_unpriv f) (f_mpu_ns f) s pe in
  let* _ := check (tt_value permb =? tt_value perme) TFM_HAL_ERROR_MEM_FAULT in
  check (if f_au_ns f then
           if f_readwrite f then nonsecure_readwrite_ok permb
           else if f_read f then nonsecure_read_ok permb
           else negb (tt_secure permb)
         else if f_readwrite f then readwrite_ok permb
         else if f_read f then read_ok permb
         else false) TFM_HAL_ERROR_MEM_FAULT.

(** [control_ns] is [nPRIV] of the non-secure state ([__TZ_get_CONTROL_NS]). *)
Definition ifx_tz_memory_check (control_ns : bool) (p : ifx_partition_info_t) (base size access_type : Z) : HAL unit :=
  let is_non_secure := negb (Z.land access_type TFM_HAL_ACCESS_NS =? 0) in
  if IS_NS_AGENT_MAILBOX (pflags (p_ldinfo p)) && is_non_secure then ret tt
  else
    let readwrite := Z.land access_type TFM_HAL_ACCESS_READWRITE =? TFM_HAL_ACCESS_READWRITE in
    let read := negb readwrite && negb (Z.land access_type TFM_HAL_ACCESS_READABLE =? 0) in
    let* _ := check (readwrite || read) TFM_HAL_ERROR_INVALID_INPUT in
    let flags :=
      if IS_NS_AGENT_TZ (pflags (p_ldinfo p)) then CmseFlags control_ns true true readwrite read
      else CmseFlags (negb (IFX_IS_PARTITION_PRIVILEGED p)) false false readwrite read in
    or_return (ifx_cmse_check_address_range base size flags) TFM_HAL_ERROR_MEM_FAULT.

Definition ifx_mpc_check_access_rights (c : ifx_mpc_cfg_t) (access_type : Z) : HAL unit :=
  let is_secure := Z.land access_type TFM_HAL_ACCESS_NS =? 0 in
  let attr := IFX_MPC_GET_PC_ATTR (mpc_attr c) IFX_PC_TFM_ID in
  let* _ := check (negb ((Z.land access_type TFM_HAL_ACCESS_READABLE =? TFM_HAL_ACCESS_READABLE) && negb (Z.land attr IFX_MPC_PC_ATTR_R_MSK =? IFX_MPC_PC_ATTR_R_MSK))) TFM_HAL_ERROR_MEM_FAULT in
  let* _ := check (negb ((Z.land access_type TFM_HAL_ACCESS_WRITABLE =? TFM_HAL_ACCESS_WRITABLE) && negb (Z.land attr IFX_MPC_PC_ATTR_W_MSK =? IFX_MPC_PC_ATTR_W_MSK))) TFM_HAL_ERROR_MEM_FAULT in
  check (negb (Bool.eqb (negb (Z.land attr IFX_MPC_PC_ATTR_NS_MSK =? 0)) is_secure)) TFM_HAL_ERROR_MEM_FAULT.

Fixpoint mpc_loop (n : nat) (idx base_addr base_s size access_type : Z) : HAL unit :=
  match n with
  | O => fail TFM_HAL_ERROR_MEM_FAULT
  | S n =>
      let c := mpc_struct policy idx in
      let start := u32 (base_addr + mem_offset c * IFX_MPC_BLOCK_SIZE) in
      let limit := u32 (start + mem_size c * IFX_MPC_BLOCK_SIZE) in
      if ifx_is_region_inside_other base_s (u32 (base_s + size)) start limit then ifx_mpc_check_access_rights c access_type
      else mpc_loop n (idx + 1) base_addr base_s size access_type
  end.

Definition ifx_mpc_memory_check (base size access_type : Z) : HAL unit :=
  let base_s := IFX_S_ADDRESS_ALIAS base in
  let sram := IFX_S_ADDRESS_ALIAS (CY_SRAM0_BASE D) in
  let flash := IFX_S_ADDRESS_ALIAS (CY_FLASH_BASE D) in
  if ifx_is_region_inside_other base_s (u32 (base_s + size)) sram (u32 (sram + CY_SRAM0_SIZE D)) then
    mpc_loop (Z.to_nat (n_ram_mpc policy)) 0 sram base_s size access_type
  else if ifx_is_region_inside_other base_s (u32 (base_s + size)) flash (u32 (flash + CY_FLASH_SIZE D)) then
    mpc_loop (Z.to_nat (n_flash_mpc policy)) (n_ram_mpc policy) flash base_s size access_type
  else fail TFM_HAL_ERROR_INVALID_INPUT.

Definition tfm_hal_memory_check (control_ns : bool) (boundary base size access_type : Z) : HAL unit :=
  let p := info boundary in
  let* s := get in
  let* _ := if TFM_ISOLATION_LEVEL >? 1 then check (ifx_domain p =? IFX_GET_BOUNDARY_DOMAIN (active_boundary s)) TFM_PANIC else ret tt in
  if size =? 0 then ret tt
  else
    let* _ := check (negb (base =? 0)) TFM_HAL_ERROR_INVALID_INPUT in
    let* _ := check (negb (base >? UINTPTR_MAX - size)) TFM_HAL_ERROR_INVALID_INPUT in
    let* _ := check (Z.ldiff access_type (Z.lor (Z.lor TFM_HAL_ACCESS_READABLE TFM_HAL_ACCESS_WRITABLE) TFM_HAL_ACCESS_NS) =? 0) TFM_PANIC in
    let* _ := ifx_tz_memory_check control_ns p base size access_type in
    ifx_mpc_memory_check base size access_type.

(** Another status for any error but a panic. *)
Definition or_status (m : HAL unit) (e : psa_status_t) : HAL unit :=
  fun s => match m s with
           | (Err e', s') => (Err (if e' =? TFM_PANIC then TFM_PANIC else e), s')
           | r => r
           end.

(** [tfm_hal_set_up_static_boundaries]: the MPU and the peripherals; the boot
    stages have set up the memory protection controllers. *)
Definition set_up_static_boundaries : HAL unit :=
  let* _ := or_status (ifx_mpu_init_cfg TFM_ISOLATION_LEVEL CPUSS_CM33_0_MPU_S_REGION_NR L CUSTOM_PLATFORM_REGION) TFM_HAL_ERROR_GENERIC in
  or_status ifx_ppc_init_cfg TFM_HAL_ERROR_GENERIC.
End isolation.
