(* ===== verification/IfxSwitch.v ===== *)
(** * The isolation of partitions on Infineon devices: changes of the boundary

    What the partition manager does to the platform's boundaries while the
    system runs ([tfm_spm_init], [backend_system_run], [ipc_schedule],
    [tfm_svcalls.c], [interrupt.c]): the scheduler gives the processor to
    another partition, the API of an unprivileged partition runs in the thread
    mode of the partition manager, and a first-level interrupt handler runs in
    the boundary of its partition.

    A partition is identified by its boundary, and the stacks, the masks of
    interrupts and the saved contexts are left out.  Handlers do not interrupt
    each other. *)

From S2P Require Import Prelude Bytes SpmTypes IfxHal IfxIsolation.
From stdpp Require Import base list numbers functions.
From Stdlib Require Import ZArith Lia.

Open Scope Z_scope.
Open Scope tfm_scope.

(** ** State *)

(** [saved] is whether [saved_psp] is valid
    ([tfm_svc_thread_mode_spm_active]); [prev] is the partition that a handler
    has interrupted. *)
Record exec : Type := Exec {
  hw : hal;
  cur : Z;
  saved : bool;
  prev : option Z;
}.

Definition set_hw (v : hal) (x : exec) : exec := Exec v (cur x) (saved x) (prev x).
Definition set_cur (v : Z) (x : exec) : exec := Exec (hw x) v (saved x) (prev x).
Definition set_saved (v : bool) (x : exec) : exec := Exec (hw x) (cur x) v (prev x).
Definition set_prev (v : option Z) (x : exec) : exec := Exec (hw x) (cur x) (saved x) v.

Definition on_hal {A} (m : M hal A) : M exec A :=
  fun x => match m (hw x) with
           | (Ok a, s) => (Ok a, set_hw s x)
           | (Err e, s) => (Err e, set_hw s x)
           end.

Inductive event : Type :=
| Schedule (next : Z)
| SpmEnter
| SpmReturn
| Flih (owner : Z)
| FlihReturn.

Section switch.
Context `{!PpcDriver}.
Context (TFM_ISOLATION_LEVEL CPUSS_CM33_0_MPU_S_REGION_NR : Z) (L : linker_t) (CUSTOM_PLATFORM_REGION : list mpu_armv8m_region_cfg_t).
Context (ifx_ppcx_region_ptrs_count : Z) (ifx_ppcx_static_config : list ifx_ppcx_config_t).
Context (info : Z -> ifx_partition_info_t).

Abbreviation need_switch := (tfm_hal_boundary_need_switch TFM_ISOLATION_LEVEL info).
Abbreviation activate := (tfm_hal_activate_boundary TFM_ISOLATION_LEVEL CPUSS_CM33_0_MPU_S_REGION_NR L CUSTOM_PLATFORM_REGION ifx_ppcx_region_ptrs_count info).

Definition spm_boundary : Z := IFX_SPM_BOUNDARY.

(** The end of [tfm_spm_init]: the boundaries of the partitions. *)
Fixpoint bind_all (bs : list Z) : M hal unit :=
  match bs with
  | [] => ret tt
  | b :: bs =>
      let* _ := or_return (tfm_hal_bind_boundary TFM_ISOLATION_LEVEL CPUSS_CM33_0_MPU_S_REGION_NR ifx_ppcx_region_ptrs_count info b) TFM_PANIC in
      bind_all bs
  end.

(** [backend_system_run] *)
Definition backend_system_run (first : Z) : M hal unit := or_return (activate first) TFM_PANIC.

Definition boot (bs : list Z) (first : Z) : M hal unit :=
  let* _ := set_up_static_boundaries TFM_ISOLATION_LEVEL CPUSS_CM33_0_MPU_S_REGION_NR L CUSTOM_PLATFORM_REGION ifx_ppcx_region_ptrs_count ifx_ppcx_static_config in
  let* _ := bind_all bs in
  let* _ := or_return (tfm_hal_finish_boot TFM_ISOLATION_LEVEL L) TFM_PANIC in
  backend_system_run first.

(** The boundary is changed where the platform says so. *)
Definition change_boundary (from to : Z) : M hal unit := if need_switch from to then or_return (activate to) TFM_PANIC else ret tt.

Definition ipc_schedule (next : Z) : M exec unit :=
  let* x := get in
  let* _ :=
    if negb (cur x =? next) then
      let* _ := on_hal (change_boundary (cur x) next) in
      modify (set_cur next)
    else ret tt in
  let* _ := on_hal (ifx_mpu_shared_metadata_rw_enable L true) in
  on_hal (ifx_mpu_shared_metadata_rw_enable L false).

Definition prepare_to_thread_mode_spm : M exec unit :=
  let* x := get in
  let* _ := on_hal (change_boundary (cur x) spm_boundary) in
  modify (set_saved true).

Definition thread_mode_spm_return : M exec unit :=
  let* x := get in
  let* _ := on_hal (change_boundary spm_boundary (cur x)) in
  modify (set_saved false).

Definition tfm_flih_prepare_depriv_flih (owner : Z) : M exec unit :=
  let* x := get in
  let* _ := on_hal (change_boundary (cur x) owner) in
  modify (fun y => set_cur owner (set_prev (Some (cur x)) y)).

Definition tfm_flih_return_to_isr : M exec unit :=
  let* x := get in
  match prev x with
  | None => ret tt
  | Some p =>
      let* _ := on_hal (change_boundary (cur x) p) in
      let* _ := if saved x then on_hal (modify (set_npriv false)) else ret tt in
      modify (fun y => set_cur p (set_prev None y))
  end.

(** The scheduler is locked while the partition manager runs in thread mode,
    and handlers have the higher priority; the handler of a partition that
    shares the partition manager's domain is called by the interrupt itself. *)
Definition enabled (x : exec) (e : event) : bool :=
  match e with
  | Schedule _ | SpmEnter => negb (saved x) && bool_decide (prev x = None)
  | SpmReturn => saved x && bool_decide (prev x = None)
  | Flih owner => bool_decide (prev x = None) && need_switch spm_boundary owner
  | FlihReturn => negb (bool_decide (prev x = None))
  end.

Definition handle (e : event) : M exec unit :=
  match e with
  | Schedule next => ipc_schedule next
  | SpmEnter => prepare_to_thread_mode_spm
  | SpmReturn => thread_mode_spm_return
  | Flih owner => tfm_flih_prepare_depriv_flih owner
  | FlihReturn => tfm_flih_return_to_isr
  end.

Definition event_of (bs : list Z) (e : event) : Prop :=
  match e with
  | Schedule b | Flih b => b ∈ bs
  | _ => True
  end.

(** The states that the partitions [bs] reach, by the events that [P] lets
    happen. *)
Inductive reached (P : exec -> event -> Prop) (bs : list Z) : exec -> Prop :=
| reached_boot s0 first s : active_boundary s0 = IFX_SPM_BOUNDARY -> first ∈ bs -> boot bs first s0 = (Ok tt, s) -> reached P bs (Exec s first false None)
| reached_event x e x' : reached P bs x -> enabled x e = true -> event_of bs e -> P x e -> handle e x = (Ok tt, x') -> reached P bs x'.
End switch.
