(* ===== verification/IfxProof.v ===== *)
(** * The isolation of partitions on Infineon devices: rules

    What the operations do to the table of MPU regions and to the peripherals,
    and the invariant of the boundaries. *)

From S2P Require Import Prelude Bytes SpmTypes IfxHal IfxIsolation IfxSwitch.
From stdpp Require Import base list numbers functions.
From Stdlib Require Import ZArith Lia.

Open Scope Z_scope.
Open Scope tfm_scope.

(** ** The table of MPU regions *)

(** A configuration that passes the assertions. *)
Definition region_aligned (c : mpu_armv8m_region_cfg_t) : Prop :=
  region_base c mod 32 = 0 /\ u32 (region_limit c + 1) mod 32 = 0 /\ region_base c < region_limit c.

(** Only the MPU differs, and in it only the regions from [i] on. *)
Record mpu_from (i : Z) (s s' : hal) : Prop := {
  mf_ppcs : ppcs s' = ppcs s;
  mf_active : active_boundary s' = active_boundary s;
  mf_type : ifx_asset_protection_type s' = ifx_asset_protection_type s;
  mf_npriv : npriv s' = npriv s;
  mf_running : spm_running s' = spm_running s;
  mf_mair : mair0 (mpu s') = mair0 (mpu s);
  mf_ctrl : ctrl (mpu s') = ctrl (mpu s);
  mf_below : forall j, j < i -> regions (mpu s') j = regions (mpu s) j;
}.

Lemma mpu_from_refl i s : mpu_from i s s.
Proof. done. Qed.

Lemma mpu_from_trans i s s1 s2 : mpu_from i s s1 -> mpu_from i s1 s2 -> mpu_from i s s2.
Proof. intros [] []. split; try congruence. intros j Hj. by rewrite mf_below1, mf_below0. Qed.

Lemma mpu_from_le i j s s' : j <= i -> mpu_from i s s' -> mpu_from j s s'.
Proof. intros Hj []. split; try done. intros k Hk. apply mf_below0. lia. Qed.

Lemma mpu_from_used i s s' v : mpu_from i s s' -> mpu_from i s (set_used v s').
Proof. intros []. by split. Qed.

(** The registers of the region [i]. *)
Definition region_at (s : hal) (i : Z) : mpu_region := regions (mpu s) i.

(** No rule needs to say what happens after an error. *)
Abbreviation success m Q s := (wp m Q (fun _ _ => True) s).

Lemma wp_enable_region i c s :
  success (ifx_mpu_config_enable_region i c) (fun _ s' => region_aligned c /\ mpu_from i s s' /\
    region_matches (region_at s' i) c = true /\ (forall j, j <> i -> region_at s' j = region_at s j) /\
    ifx_mpu_used_regions_count s' = ifx_mpu_used_regions_count s) s.
Proof.
  unfold ifx_mpu_config_enable_region, SPM_ASSERT. apply wp_bind, wp_check; [intros H1|done]. apply wp_bind, wp_check; [intros H2|done]. apply wp_bind, wp_check; [intros H3|done].
  apply wp_bind, wp_modify, wp_bind, wp_modify, wp_bind, wp_modify, wp_modify. cbn.
  apply Z.eqb_eq in H1, H2. apply Z.ltb_lt in H3. split; [done|]. unfold region_at. cbn. split_and!; [split; try done| | |done]; cbn.
  - intros j Hj. by rewrite !fn_lookup_insert_ne by lia.
  - rewrite !fn_lookup_insert. unfold region_matches. cbn. rewrite !Z.eqb_refl, eqb_reflx, bool_decide_true by done. done.
  - intros j Hj. by rewrite !fn_lookup_insert_ne by lia.
Qed.

(** The regions from [i] on hold these configurations. *)
Fixpoint holds (s : hal) (i : Z) (cs : list mpu_armv8m_region_cfg_t) : Prop :=
  match cs with
  | [] => True
  | c :: cs => region_aligned c /\ region_matches (region_at s i) c = true /\ holds s (i + 1) cs
  end.

Lemma holds_app s i cs cs' : holds s i (cs ++ cs') <-> holds s i cs /\ holds s (i + Z.of_nat (length cs)) cs'.
Proof.
  revert i. induction cs as [|c cs IH]; intros i; cbn [app holds length]; [rewrite Z.add_0_r; tauto|].
  rewrite IH. replace (i + 1 + Z.of_nat (length cs)) with (i + Z.of_nat (Datatypes.S (length cs))) by lia. tauto.
Qed.

Lemma holds_same s s' i cs : (forall j, i <= j < i + Z.of_nat (length cs) -> region_at s' j = region_at s j) -> holds s i cs -> holds s' i cs.
Proof.
  revert i. induction cs as [|c cs IH]; intros i Hs; cbn [holds length]; [done|]. intros (H1 & H2 & H3). cbn [length] in Hs. split_and!; [done|rewrite Hs by lia; done|].
  apply IH; [intros j Hj; apply Hs; lia|done].
Qed.

(** Each configuration is in its region. *)
Lemma holds_region s i cs j : holds s i cs -> i <= j < i + Z.of_nat (length cs) -> exists c, c ∈ cs /\ region_aligned c /\ region_matches (region_at s j) c = true.
Proof.
  revert i. induction cs as [|c cs IH]; intros i; cbn [holds length]; [lia|]. intros (H1 & H2 & H3) Hj. destruct (decide (j = i)) as [->|Hne].
  - exists c. split; [left|done].
  - destruct (IH (i + 1) H3) as (c' & Hc & ?); [lia|]. exists c'. split; [by right|done].
Qed.

Section proof.
Context (LEVEL N : Z) (L : linker_t) (CUSTOM : list mpu_armv8m_region_cfg_t).

Abbreviation static := (ifx_mpu_static_config LEVEL L CUSTOM).
Abbreviation n_static := (ifx_mpu_static_config_count LEVEL L CUSTOM).

(** The table holds exactly these regions; the others are disabled. *)
Record mpu_table (s : hal) (cs : list mpu_armv8m_region_cfg_t) : Prop := {
  mt_fit : Z.of_nat (length cs) <= N;
  mt_used : ifx_mpu_used_regions_count s = Z.of_nat (length cs);
  mt_holds : holds s 0 cs;
  mt_rest : forall j, Z.of_nat (length cs) <= j < N -> r_en (region_at s j) = false;
  mt_mair : mair0 (mpu s) = mair_value;
  mt_ctrl : ctrl (mpu s) = (true, true, true);
}.

Lemma wp_disable_loop n i s :
  success (disable_loop n i) (fun _ s' => mpu_from i s s' /\ ifx_mpu_used_regions_count s' = ifx_mpu_used_regions_count s /\
    forall j, i <= j < i + Z.of_nat n -> r_en (region_at s' j) = false) s.
Proof.
  revert i s. induction n as [|n IH]; intros i s; cbn [disable_loop]; [apply wp_ret; split_and!; [done|done|lia]|].
  apply wp_bind, wp_modify, wp_bind, wp_modify. set (s1 := set_mpu _ _).
  assert (mpu_from i s s1) as F1.
  { split; try done. intros j Hj. cbn. by rewrite fn_lookup_insert_ne by lia. }
  assert (r_en (region_at s1 i) = false) as E1 by (unfold region_at; cbn; by rewrite fn_lookup_insert).
  eapply wp_mono; [apply IH| |done]. cbv beta. intros _ s' (F2 & U2 & E2). split_and!; [by eapply mpu_from_trans; [|apply (mpu_from_le (i + 1)); [lia|]]|done|].
  intros j Hj. destruct (decide (j = i)) as [->|Hne]; [|apply E2; lia]. unfold region_at. rewrite (mf_below _ _ _ F2) by lia. exact E1.
Qed.

Lemma wp_disable_asset_regions s :
  success (ifx_mpu_disable_asset_regions LEVEL N L CUSTOM) (fun _ s' => mpu_from n_static s s' /\ ifx_mpu_used_regions_count s' = n_static /\
    forall j, n_static <= j < N -> r_en (region_at s' j) = false) s.
Proof.
  apply wp_bind. eapply wp_mono; [apply wp_disable_loop| |done]. cbv beta. intros _ s' (F & U & E). apply wp_modify. split_and!; [by apply mpu_from_used|done|].
  intros j Hj. apply (E j). lia.
Qed.

Lemma wp_config_loop i cs s :
  success (config_loop i cs) (fun _ s' => mpu_from i s s' /\ holds s' i cs) s.
Proof.
  revert i s. induction cs as [|c cs IH]; intros i s; cbn [config_loop]; [by apply wp_ret|].
  apply wp_bind. eapply wp_mono; [apply wp_enable_region| |done]. cbv beta. intros _ s1 (H1 & F1 & M1 & O1 & _). eapply wp_mono; [apply IH| |done]. cbv beta.
  intros _ s2 (F2 & Hh). cbn [holds]. split_and!; [by eapply mpu_from_trans; [|apply (mpu_from_le (i + 1)); [lia|]]|done| |done]. unfold region_at. rewrite (mf_below _ _ _ F2) by lia. exact M1.
Qed.

Lemma wp_mpu_init s :
  success (ifx_mpu_init_cfg LEVEL N L CUSTOM) (fun _ s' => mpu_table s' static /\ active_boundary s' = active_boundary s /\ ppcs s' = ppcs s /\
    ifx_asset_protection_type s' = ifx_asset_protection_type s) s.
Proof.
  unfold ifx_mpu_init_cfg. apply wp_bind, wp_check; [intros Hn|done]. apply negb_true_iff in Hn. rewrite Z.gtb_ltb in Hn. apply Z.ltb_ge in Hn. apply wp_bind, wp_modify. set (s0 := set_mpu _ s).
  apply wp_bind. eapply wp_mono; [apply wp_config_loop| |done]. cbv beta. intros _ s1 (F1 & H1). apply wp_bind. eapply wp_mono; [apply wp_disable_asset_regions| |done]. cbv beta. intros _ s2 (F2 & U2 & E2).
  apply wp_bind, wp_modify, wp_modify. split_and!.
  - split; try done. apply (holds_same s1); [|exact H1]. intros j Hj. unfold region_at. cbn. apply (mf_below _ _ _ F2). unfold ifx_mpu_static_config_count. lia.
  - cbn. rewrite (mf_active _ _ _ F2), (mf_active _ _ _ F1). done.
  - cbn. rewrite (mf_ppcs _ _ _ F2), (mf_ppcs _ _ _ F1). done.
  - cbn. rewrite (mf_type _ _ _ F2), (mf_type _ _ _ F1). done.
Qed.

(** Only the region selected differs. *)
Definition rnr_only (s s' : hal) : Prop := exists v, s' = set_mpu (set_rnr v (mpu s)) s.

Lemma rnr_only_trans s s1 s2 : rnr_only s s1 -> rnr_only s1 s2 -> rnr_only s s2.
Proof. intros [v ->] [w ->]. by exists w. Qed.

Lemma rnr_same s s' : rnr_only s s' -> regions (mpu s') = regions (mpu s) /\ mair0 (mpu s') = mair0 (mpu s) /\ ctrl (mpu s') = ctrl (mpu s).
Proof. by intros [v ->]. Qed.

Lemma verify_static_ok i cs s : holds s i cs -> exists s', verify_static i cs s = (Ok tt, s') /\ (cs = [] /\ s' = s \/ rnr_only s s').
Proof.
  revert i s. induction cs as [|c cs IH]; intros i s; cbn [holds verify_static]; [intros _; exists s; split; [done|by left]|]. intros (_ & H1 & H2).
  unfold bind, upd_mpu, modify, gets. cbn. unfold region_at in H1. rewrite H1. unfold check, ret. cbn.
  destruct (IH (i + 1) (set_mpu (set_rnr i (mpu s)) s)) as (s' & -> & Hs'); [by apply (holds_same s)|]. exists s'. split; [done|]. right.
  assert (rnr_only s (set_mpu (set_rnr i (mpu s)) s)) as H0 by (by exists i). destruct Hs' as [[_ ->]|Hs']; [done|by eapply rnr_only_trans].
Qed.

Lemma verify_disabled_ok n i s :
  (forall j, i <= j < i + Z.of_nat n -> r_en (region_at s j) = false) -> exists s', verify_disabled n i s = (Ok tt, s') /\ (s' = s \/ rnr_only s s').
Proof.
  revert i s. induction n as [|n IH]; intros i s Hd; cbn [verify_disabled]; [exists s; split; [done|by left]|].
  unfold bind, upd_mpu, modify, gets. cbn. pose proof (Hd i ltac:(lia)) as H1. unfold region_at in H1. rewrite H1. unfold check, ret. cbn.
  destruct (IH (i + 1) (set_mpu (set_rnr i (mpu s)) s)) as (s' & -> & Hs'); [intros j Hj; apply (Hd j); lia|]. exists s'. split; [done|]. right.
  assert (rnr_only s (set_mpu (set_rnr i (mpu s)) s)) as H0 by (by exists i). destruct Hs' as [->|Hs']; [done|by eapply rnr_only_trans].
Qed.
End proof.

(** ** What is relied on *)

(** The vendor's driver sets what it is asked to, and nothing else. *)
Class PpcLaws `{!PpcDriver} : Prop := {
  ppc_config_attr p r a p' : Cy_Ppc_ConfigAttrib p r a = (p', true) -> forall r', 0 <= r' -> Cy_Ppc_GetAttrib p' r' = if decide (r' = r) then a else Cy_Ppc_GetAttrib p r';
  ppc_config_mask p r a p' : Cy_Ppc_ConfigAttrib p r a = (p', true) -> forall r', PC_MASK p' r' = PC_MASK p r';
  ppc_mask_attr p r m p' : Cy_Ppc_SetPcMask p r m = (p', true) -> forall r', Cy_Ppc_GetAttrib p' r' = Cy_Ppc_GetAttrib p r';
  ppc_mask_mask p r m p' : Cy_Ppc_SetPcMask p r m = (p', true) -> forall r', PC_MASK p' r' = if decide (r' = r) then m else PC_MASK p r';
}.

(** The address is in the enabled region [i]. *)
Definition hit (s : hal) (i a : Z) : Prop := r_en (region_at s i) = true /\ r_base (region_at s i) <= a < r_limit (region_at s i) + 32.

Definition unpriv_read (p : mpu_armv8m_attr_access_t) : Prop := p = MPU_ARMV8M_AP_RW_PRIV_UNPRIV \/ p = MPU_ARMV8M_AP_RO_PRIV_UNPRIV.

(** The test target instruction for unprivileged secure code: without a region
    there is no access, the permissions are those of the region, and the
    number of the region is part of the value. *)
Class TTLaws `{!CmseTT} (N : Z) : Prop := {
  tt_read s a : ctrl (mpu s) = (true, true, true) -> read_ok (cmse_TT true false s a) = true -> exists i, 0 <= i < N /\ hit s i a /\ unpriv_read (r_ap (region_at s i));
  tt_readwrite s a : ctrl (mpu s) = (true, true, true) -> readwrite_ok (cmse_TT true false s a) = true ->
    exists i, 0 <= i < N /\ hit s i a /\ r_ap (region_at s i) = MPU_ARMV8M_AP_RW_PRIV_UNPRIV;
  tt_region s a b i : ctrl (mpu s) = (true, true, true) -> read_ok (cmse_TT true false s a) = true \/ readwrite_ok (cmse_TT true false s a) = true ->
    tt_value (cmse_TT true false s a) = tt_value (cmse_TT true false s b) -> 0 <= i < N -> hit s i a -> hit s i b;
}.

(** ** Peripherals *)

Section peripherals.
Context `{!PpcDriver, !PpcLaws}.
Context (COUNT : Z).

(** The region of a controller that a device is. *)
Definition ppc_key (x : Z) : Z * Z := (IFX_GET_PPC_GROUP_ID x, IFX_GET_PPC_GROUP_REGION x).

Definition ppc_at (s : hal) (y : Z * Z) : cy_stc_ppc_attribute_t * Z := (Cy_Ppc_GetAttrib (ppcs s y.1) y.2, PC_MASK (ppcs s y.1) y.2).

(** Only the registers of the controllers differ, at most at the key [y]. *)
Definition ppc_only (y : Z * Z) (s s' : hal) : Prop := (exists v, s' = set_ppcs v s) /\ forall y', y' <> y -> 0 <= y'.2 -> ppc_at s' y' = ppc_at s y'.

Lemma ppc_only_trans y s s1 s2 : ppc_only y s s1 -> ppc_only y s1 s2 -> ppc_only y s s2.
Proof. intros [[v ->] H1] [[w ->] H2]. split; [by exists w|]. intros y' Hy Hr. by rewrite H2, H1. Qed.

Lemma wp_set_mask k r m s : success (ppc_call k (fun p => Cy_Ppc_SetPcMask p r m)) (fun _ s' => ppc_only (k, r) s s' /\ ppc_at s' (k, r) = (Cy_Ppc_GetAttrib (ppcs s k) r, m)) s.
Proof.
  unfold ppc_call. apply wp_bind. unfold wp at 1, get. apply wp_bind. unfold wp at 1, put. apply wp_check; [|done]. intros Ht.
  destruct (Cy_Ppc_SetPcMask (ppcs s k) r m) as [p' b] eqn:Hp. cbn in Ht |- *. subst b.
  split; [split; [by eexists|]|unfold ppc_at; cbn; rewrite fn_lookup_insert, (ppc_mask_attr _ _ _ _ Hp), (ppc_mask_mask _ _ _ _ Hp); by rewrite decide_True].
  intros [k' r'] Hy Hr. unfold ppc_at. cbn. destruct (decide (k' = k)) as [->|Hk]; [|by rewrite fn_lookup_insert_ne]. rewrite fn_lookup_insert, (ppc_mask_attr _ _ _ _ Hp), (ppc_mask_mask _ _ _ _ Hp).
  rewrite decide_False; [done|]. intros ->. done.
Qed.

Lemma wp_config_attr k r a s : 0 <= r -> success (ppc_call k (fun p => Cy_Ppc_ConfigAttrib p r a)) (fun _ s' => ppc_only (k, r) s s' /\ ppc_at s' (k, r) = (a, PC_MASK (ppcs s k) r)) s.
Proof.
  intros Hr0. unfold ppc_call. apply wp_bind. unfold wp at 1, get. apply wp_bind. unfold wp at 1, put. apply wp_check; [|done]. intros Ht.
  destruct (Cy_Ppc_ConfigAttrib (ppcs s k) r a) as [p' b] eqn:Hp. cbn in Ht |- *. subst b.
  split; [split; [by eexists|]|unfold ppc_at; cbn; rewrite fn_lookup_insert, (ppc_config_attr _ _ _ _ Hp), (ppc_config_mask _ _ _ _ Hp) by done; by rewrite decide_True].
  intros [k' r'] Hy Hr. unfold ppc_at. cbn in Hr |- *. destruct (decide (k' = k)) as [->|Hk]; [|by rewrite fn_lookup_insert_ne]. rewrite fn_lookup_insert, (ppc_config_attr _ _ _ _ Hp), (ppc_config_mask _ _ _ _ Hp) by done.
  rewrite decide_False; [done|]. intros ->. done.
Qed.

Lemma wp_pure_check {m : M hal unit} (Q : unit -> hal -> Prop) s : (forall r s', m s = (r, s') -> s' = s) -> Q tt s -> success m Q s.
Proof. intros Hm HQ. unfold wp. specialize (Hm (m s).1 (m s).2 (surjective_pairing _)). destruct (m s) as [[[]|e] s']; [|done]. cbn in Hm. by subst. Qed.

Lemma validity_pure p r a m s x s' : ifx_check_config_validity p r a m s = (x, s') -> s' = s.
Proof.
  unfold ifx_check_config_validity, bind, check. cbv zeta. unfold ret, fail.
  repeat (match goal with |- context [if ?b then _ else _] => destruct b; cbv beta iota end); by intros [= <- <-].
Qed.

(** The protection of a peripheral is the one configured. *)
Definition want (c : ifx_ppc_named_mmio_config_t) : cy_stc_ppc_attribute_t * Z := (cfg_attr c, pc_mask c).

Lemma mask_with_spm m : Z.land m IFX_PC_TFM_SPM <> 0 -> Z.lor m IFX_PC_TFM_SPM = m.
Proof.
  intros Hm. apply Z.bits_inj'. intros n Hn. rewrite Z.lor_spec. change IFX_PC_TFM_SPM with (2 ^ 2) in *. rewrite Z.pow2_bits_eqb by lia. destruct (Z.eqb_spec 2 n) as [<-|]; [|by rewrite orb_false_r].
  rewrite orb_true_r. destruct (Z.testbit m 2) eqn:Hb; [done|]. destruct Hm. apply Z.bits_inj'. intros j Hj. rewrite Z.land_spec, Z.pow2_bits_eqb, Z.bits_0 by lia.
  destruct (Z.eqb_spec 2 j) as [<-|]; [by rewrite Hb|by rewrite andb_false_r].
Qed.

Lemma wp_isolate_named c a s :
  success (ifx_ppc_isolate_named_mmio COUNT c a) (fun _ s' => ppc_only (ppc_key (a_start a)) s s' /\ ppc_at s' (ppc_key (a_start a)) = want c) s.
Proof.
  unfold ifx_ppc_isolate_named_mmio. apply wp_bind, wp_check; [intros _|done]. apply wp_bind. unfold Cy_Ppc_GetPointerForRegion. destruct (_ <? _); [|done]. apply wp_ret. cbv zeta.
  set (k := IFX_GET_PPC_GROUP_ID _). set (r := IFX_GET_PPC_GROUP_REGION _). assert (0 <= r) as Hr by (apply Z.land_nonneg; right; lia).
  apply wp_bind. unfold wp at 1, get. apply wp_bind, wp_pure_check; [apply validity_pure|]. apply wp_bind. eapply wp_mono; [apply wp_set_mask| |done]. cbv beta. intros _ s1 [H1 E1].
  apply wp_bind. eapply wp_mono; [by apply wp_config_attr| |done]. cbv beta. intros _ s2 [H2 E2]. change (ppc_key (a_start a)) with (k, r).
  assert (PC_MASK (ppcs s1 k) r = Z.lor (pc_mask c) IFX_PC_TFM_SPM) as Hm by (unfold ppc_at in E1; cbn in E1; congruence).
  destruct (Z.eqb_spec (Z.land (pc_mask c) IFX_PC_TFM_SPM) 0).
  - eapply wp_mono; [apply wp_set_mask| |done]. cbv beta. intros _ s3 [H3 E3]. split; [by eapply ppc_only_trans; [eapply ppc_only_trans|]|]. rewrite E3. unfold want. f_equal. unfold ppc_at in E2. cbn in E2. congruence.
  - apply wp_ret. split; [by eapply ppc_only_trans|]. rewrite E2, Hm, mask_with_spm by done. done.
Qed.
End peripherals.

(** ** Assets *)

Section assets.
Context `{!PpcDriver, !PpcLaws}.
Context (LEVEL N COUNT : Z) (L : linker_t) (CUSTOM : list mpu_armv8m_region_cfg_t).

Definition memory_assets (assets : list asset_desc_t) : list asset_desc_t := List.filter (fun a => negb (has_attr a ASSET_ATTR_NAMED_MMIO)) assets.
Definition devices (assets : list asset_desc_t) : list asset_desc_t := List.filter (fun a => has_attr a ASSET_ATTR_NAMED_MMIO && negb (a_start a =? IFX_UNUSED_MMIO)) assets.
Definition device_keys (assets : list asset_desc_t) : list (Z * Z) := map (fun a => ppc_key (a_start a)) (devices assets).

(** Whether a configuration reaches the MPU, and the peripherals. *)
Definition maps_memory (t : ifx_asset_protection_type_t) (p : ifx_partition_info_t) (cfg : ifx_protection_region_config_t) : bool :=
  mpu_regions_enable cfg && negb ((LEVEL =? 3) && negb (bool_decide (t = IFX_ASSET_PROTECTION_PARTITION_DYNAMIC))) && negb (privileged (ifx_ldinfo p)).
Definition sets_devices (t : ifx_asset_protection_type_t) (cfg : ifx_protection_region_config_t) : bool :=
  if LEVEL =? 3 then negb (bool_decide (t = IFX_ASSET_PROTECTION_PARTITION_DYNAMIC)) || ppc_dynamic cfg else true.

(** What is left alone by everything that protects assets. *)
Record kept (s s' : hal) : Prop := {
  k_active : active_boundary s' = active_boundary s;
  k_type : ifx_asset_protection_type s' = ifx_asset_protection_type s;
  k_npriv : npriv s' = npriv s;
}.

Lemma hal_kept_trans s s1 s2 : kept s s1 -> kept s1 s2 -> kept s s2.
Proof. intros [] []. split; congruence. Qed.

(** The peripherals [ks] have the protection [v]; the others are as before. *)
Definition protected (ks : list (Z * Z)) (v : cy_stc_ppc_attribute_t * Z) (s s' : hal) : Prop :=
  forall y, 0 <= y.2 -> ppc_at s' y = if decide (y ∈ ks) then v else ppc_at s y.

Lemma protected_refl v s s' : ppcs s' = ppcs s -> protected [] v s s'.
Proof. intros He y _. unfold ppc_at. by rewrite He, decide_False by apply not_elem_of_nil. Qed.

Lemma protected_trans ks ks' v s s1 s2 : protected ks v s s1 -> protected ks' v s1 s2 -> protected (ks ++ ks') v s s2.
Proof.
  intros H1 H2 y Hy. rewrite H2, H1 by done. destruct (decide (y ∈ ks')), (decide (y ∈ ks)), (decide (y ∈ ks ++ ks')) as [Hin|Hin]; try done; rewrite elem_of_app in Hin; tauto.
Qed.

Lemma mpu_table_same s s' cs : mpu s' = mpu s -> ifx_mpu_used_regions_count s' = ifx_mpu_used_regions_count s -> mpu_table N s cs -> mpu_table N s' cs.
Proof.
  intros Hm Hu []. assert (forall i, region_at s' i = region_at s i) as Hr by (intros i; unfold region_at; by rewrite Hm).
  split; [done|congruence|by apply (holds_same s)| |congruence..]. intros j Hj. rewrite Hr. by apply mt_rest0.
Qed.

Lemma wp_isolate_numbered p a s cs :
  mpu_table N s cs ->
  success (ifx_mpu_isolate_numbered_mmio LEVEL N p a) (fun _ s' => kept s s' /\ ppcs s' = ppcs s /\
    mpu_table N s' (cs ++ (if (LEVEL =? 3) && negb (bool_decide (ifx_asset_protection_type s = IFX_ASSET_PROTECTION_PARTITION_DYNAMIC)) || privileged (ifx_ldinfo p) then [] else [asset_region a]))) s.
Proof.
  intros Ht. unfold ifx_mpu_isolate_numbered_mmio. apply wp_bind. unfold wp at 1, get. destruct (_ && _); [apply wp_ret; by rewrite app_nil_r|]. cbn [orb]. unfold IFX_IS_PARTITION_PRIVILEGED.
  destruct (privileged _); [apply wp_ret; by rewrite app_nil_r|]. apply wp_bind, wp_check; [intros Hc|done]. apply negb_true_iff in Hc. rewrite Z.geb_leb in Hc. apply Z.leb_gt in Hc.
  apply wp_bind. eapply wp_mono; [apply wp_enable_region| |done]. cbv beta. intros _ s1 (Ha & F & Hm & Ho & Hu). apply wp_modify. destruct F, Ht. rewrite mt_used0 in *.
  split_and!; [by split|done|]. split; try done; cbn [ifx_mpu_used_regions_count mpu set_used]; try congruence.
  - rewrite length_app. cbn. lia.
  - rewrite length_app. cbn. lia.
  - apply holds_app. split; [apply (holds_same s); [intros j Hj; apply Ho; lia|done]|]. cbn. done.
  - rewrite length_app. cbn [length]. intros j Hj. change (region_at (set_used _ s1) j) with (region_at s1 j). rewrite Ho by lia. apply mt_rest0. lia.
Qed.

(** The regions that are mapped. *)
Definition mapped (t : ifx_asset_protection_type_t) (p : ifx_partition_info_t) (cfg : ifx_protection_region_config_t) (assets : list asset_desc_t) : list mpu_armv8m_region_cfg_t :=
  if maps_memory t p cfg then map asset_region (memory_assets assets) else [].

(** What the configuration does to these assets. *)
Definition assets_applied (p : ifx_partition_info_t) (cfg : ifx_protection_region_config_t) (assets : list asset_desc_t) (cs : list mpu_armv8m_region_cfg_t) (s s' : hal) : Prop :=
  kept s s' /\
  mpu_table N s' (cs ++ mapped (ifx_asset_protection_type s) p cfg assets) /\
  protected (if sets_devices (ifx_asset_protection_type s) cfg then device_keys assets else []) (want (ppc_cfg cfg)) s s'.

Lemma apply_assets_app p cfg a b s :
  ifx_apply_assets LEVEL N COUNT p cfg (a ++ b) s = bind (ifx_apply_assets LEVEL N COUNT p cfg a) (fun _ => ifx_apply_assets LEVEL N COUNT p cfg b) s.
Proof.
  revert s. induction a as [|x a IH]; intros s; [done|]. cbn [app ifx_apply_assets]. match goal with |- bind ?m _ _ = _ => generalize m end. intros m.
  unfold bind at 1 2 3. destruct (m s) as [[[]|e] s']; [apply IH|done].
Qed.

Lemma wp_apply_one p cfg a s cs : mpu_table N s cs -> success (ifx_apply_assets LEVEL N COUNT p cfg [a]) (fun _ s' => assets_applied p cfg [a] cs s s') s.
Proof.
  intros Ht. cbn [ifx_apply_assets]. apply wp_bind. unfold assets_applied, mapped, memory_assets, device_keys, devices. cbn [List.filter]. destruct (has_attr a ASSET_ATTR_NAMED_MMIO); cbn [negb andb map].
  - assert (forall b : bool, cs ++ (if b then [] else []) = cs) as Hnil by (intros []; apply app_nil_r). destruct (Z.eqb_spec (a_start a) IFX_UNUSED_MMIO); cbn [negb map].
    + apply wp_ret, wp_ret. rewrite Hnil. split_and!; [done..|destruct (sets_devices _ _); by apply protected_refl].
    + apply wp_bind. unfold wp at 1, get. cbv zeta. fold (sets_devices (ifx_asset_protection_type s) cfg). destruct (sets_devices _ _).
      * eapply wp_mono; [apply wp_isolate_named| |done]. cbv beta. intros _ s1 [[[v ->] Ho] Hw]. apply wp_ret. rewrite Hnil. split_and!; [done|by apply (mpu_table_same s)|].
        intros y Hy. destruct (decide (y ∈ _)) as [->%list_elem_of_singleton|Hn]; [done|]. apply Ho; [|done]. intros ->. destruct Hn. by apply list_elem_of_singleton.
      * apply wp_ret, wp_ret. rewrite Hnil. split_and!; [done..|by apply protected_refl].
  - apply wp_bind, wp_check; [intros _|done]. assert (forall b : bool, (if b then [] else []) = @nil (Z * Z)) as -> by (by intros []). unfold maps_memory. destruct (mpu_regions_enable cfg); cbn [andb].
    + eapply wp_mono; [by apply wp_isolate_numbered| |done]. cbv beta. intros _ s1 (Hk & Hp & Ht1). apply wp_ret. split_and!; [done| |by apply protected_refl].
      destruct (_ && _) eqn:Hb in Ht1 |- *; cbn [orb negb andb] in Ht1 |- *; [done|]. by destruct (privileged _).
    + apply wp_ret, wp_ret. rewrite app_nil_r. split_and!; [done..|by apply protected_refl].
Qed.
Lemma assets_applied_app p cfg a b cs s s1 s2 :
  assets_applied p cfg a cs s s1 -> assets_applied p cfg b (cs ++ mapped (ifx_asset_protection_type s) p cfg a) s1 s2 -> assets_applied p cfg (a ++ b) cs s s2.
Proof.
  intros (K1 & T1 & P1) (K2 & T2 & P2). rewrite (k_type _ _ K1) in T2, P2. split_and!; [by eapply hal_kept_trans| |].
  - rewrite <- app_assoc in T2. unfold mapped in *. destruct (maps_memory _ _ _); [|exact T2]. unfold memory_assets in *. by rewrite List.filter_app, map_app.
  - pose proof (protected_trans _ _ _ _ _ _ P1 P2) as P. destruct (sets_devices _ _); [|exact P]. unfold device_keys, devices in *. by rewrite List.filter_app, map_app.
Qed.

Lemma wp_apply_assets p cfg assets s cs : mpu_table N s cs -> success (ifx_apply_assets LEVEL N COUNT p cfg assets) (fun _ s' => assets_applied p cfg assets cs s s') s.
Proof.
  revert s cs. induction assets as [|a assets IH]; intros s cs Ht.
  - apply wp_ret. split_and!; [done| |]; [unfold mapped; destruct (maps_memory _ _ _); cbn; by rewrite app_nil_r|destruct (sets_devices _ _); by apply protected_refl].
  - unfold wp. rewrite (apply_assets_app p cfg [a] assets). apply wp_bind. eapply wp_mono; [by apply wp_apply_one| |done]. cbv beta. intros _ s1 H1. pose proof H1 as (_ & T1 & _).
    eapply wp_mono; [by eapply IH| |done]. cbv beta. intros _ s2 H2. by apply (assets_applied_app p cfg [a] assets cs s s1 s2).
Qed.

(** The assets of a partition. *)
Definition assets (p : ifx_partition_info_t) : list asset_desc_t := ld_assets p ++ p_assets p.

Lemma wp_protect p cfg s cs : mpu_table N s cs -> success (ifx_protect_partition_assets LEVEL N COUNT p cfg) (fun _ s' => assets_applied p cfg (assets p) cs s s') s.
Proof.
  intros Ht. apply wp_bind. eapply wp_mono; [by apply wp_apply_assets| |done]. cbv beta. intros _ s1 H1. pose proof H1 as (_ & T1 & _). eapply wp_mono; [by eapply wp_apply_assets| |done]. cbv beta.
  intros _ s2 H2. by eapply assets_applied_app.
Qed.
End assets.

(** ** Boundaries *)

Section boundaries.
Context `{!PpcDriver, !PpcLaws}.
Context (LEVEL N COUNT : Z) (L : linker_t) (CUSTOM : list mpu_armv8m_region_cfg_t) (info : Z -> ifx_partition_info_t).
Context (Hlevel : LEVEL = 2 \/ LEVEL = 3).

Abbreviation static := (ifx_mpu_static_config LEVEL L CUSTOM).
Abbreviation domain b := (ifx_domain (info b)).
Abbreviation cfg_enabled b := (protect_cfg_enabled (ifx_ldinfo (info b))).
Abbreviation cfg_disabled b := (protect_cfg_disabled (ifx_ldinfo (info b))).

(** The first region, with these permissions. *)
Definition metadata_region (ap : mpu_armv8m_attr_access_t) : mpu_armv8m_region_cfg_t :=
  MpuCfg (TFM_SPM_RW_OTHER_RO_START L) (TFM_SPM_RW_OTHER_RO_END L - 1) MPU_ARMV8M_MAIR_ATTR_DATA_IDX true ap.

Lemma static_metadata : exists rest, static = metadata_region MPU_ARMV8M_AP_RO_PRIV_UNPRIV :: rest.
Proof. unfold ifx_mpu_static_config. destruct Hlevel as [-> | ->]; by eexists. Qed.

Lemma wp_metadata e ap s cs :
  mpu_table N s (metadata_region ap :: cs) ->
  success (ifx_mpu_shared_metadata_rw_enable L e) (fun _ s' => kept s s' /\ ppcs s' = ppcs s /\
    mpu_table N s' (metadata_region (if e then MPU_ARMV8M_AP_RW_PRIV_ONLY else MPU_ARMV8M_AP_RO_PRIV_UNPRIV) :: cs)) s.
Proof.
  intros []. unfold ifx_mpu_shared_metadata_rw_enable, SPM_ASSERT. apply wp_bind, wp_modify, wp_bind, wp_gets, wp_bind, wp_check; [intros _|done]. apply wp_bind, wp_check; [intros _|done]. apply wp_modify.
  split_and!; [by split|done|]. cbn [holds] in mt_holds0. destruct mt_holds0 as (Ha & Hm & Hh). split; try done.
  - cbn [holds]. split_and!; [done| |].
    + unfold region_at. cbn. rewrite fn_lookup_insert. unfold region_at, region_matches in *. cbn in *.
      destruct (_ =? _); [|done]. destruct (Bool.eqb _ _); [|done]. cbn in Hm |- *. rewrite bool_decide_true by done. by destruct (bool_decide _).
    + apply (holds_same s); [|done]. intros j Hj. unfold region_at. cbn. by rewrite fn_lookup_insert_ne by lia.
  - intros j Hj. unfold region_at. cbn in *. rewrite fn_lookup_insert_ne by lia. apply mt_rest0. cbn. lia.
Qed.
(** The regions of a partition's assets, and its peripherals. *)
Definition own (b : Z) : list mpu_armv8m_region_cfg_t := mapped LEVEL IFX_ASSET_PROTECTION_PARTITION_DYNAMIC (info b) (cfg_enabled b) (assets (info b)).
Definition keys (b : Z) : list (Z * Z) := device_keys (assets (info b)).

(** The protection of a partition's peripherals while [act] is active.  A
    partition whose peripherals are not switched ([ppc_dynamic] is false) keeps
    the configuration for its own access while others run. *)
Definition device_cfg (b act : Z) : ifx_ppc_named_mmio_config_t :=
  ppc_cfg (if ppc_dynamic (cfg_disabled b) && negb (act =? b) then cfg_disabled b else cfg_enabled b).

(** What the tool that generates the partitions' information guarantees. *)
Record partitions_ok (bs : list Z) : Prop := {
  po_nodup : NoDup bs;
  po_bound : IFX_SPM_BOUNDARY ∉ bs;
  po_disabled : LEVEL = 3 -> forall b, b ∈ bs -> mpu_regions_enable (cfg_disabled b) = false;
  po_dynamic : forall b, b ∈ bs -> ppc_dynamic (cfg_enabled b) = ppc_dynamic (cfg_disabled b);
  po_exclusive : forall b b' y, b ∈ bs -> b' ∈ bs -> y ∈ keys b -> y ∈ keys b' -> b = b';
}.

Lemma keys_region b y : y ∈ keys b -> 0 <= y.2.
Proof. unfold keys, device_keys. intros (a & <- & _)%list_elem_of_In%List.in_map_iff. apply Z.land_nonneg. right. lia. Qed.

Lemma mapped_disabled t p cfg l : mpu_regions_enable cfg = false -> mapped LEVEL t p cfg l = [].
Proof. unfold mapped, maps_memory. by intros ->. Qed.

(** Peripherals other than [ks] are as before. *)
Definition others_kept (ks : list (Z * Z)) (s s' : hal) : Prop := forall y, 0 <= y.2 -> y ∉ ks -> ppc_at s' y = ppc_at s y.

Lemma protected_others b v ks s s' : (ks = keys b \/ ks = []) -> protected ks v s s' -> others_kept (keys b) s s'.
Proof. intros Hk Hp y Hy Hn. rewrite Hp by done. destruct (decide _) as [Hin|]; [|done]. destruct Hk as [-> | ->]; [done|by apply not_elem_of_nil in Hin]. Qed.

Lemma sets_devices_keys t cfg b : (if sets_devices LEVEL t cfg then keys b else []) = keys b \/ (if sets_devices LEVEL t cfg then keys b else []) = [].
Proof. destruct (sets_devices _ _ _); auto. Qed.

Lemma others_trans ks s s1 s2 : others_kept ks s s1 -> others_kept ks s1 s2 -> others_kept ks s s2.
Proof. intros H1 H2 y Hy Hn. by rewrite H2, H1. Qed.

Lemma wp_bind_boundary b s cs :
  mpu_table N s cs -> (LEVEL = 3 -> mpu_regions_enable (cfg_disabled b) = false) -> ppc_dynamic (cfg_enabled b) = ppc_dynamic (cfg_disabled b) -> b <> IFX_SPM_BOUNDARY ->
  success (tfm_hal_bind_boundary LEVEL N COUNT info b) (fun _ s' => active_boundary s' = active_boundary s /\
    mpu_table N s' (cs ++ (if LEVEL =? 3 then [] else own b)) /\ others_kept (keys b) s s' /\
    (LEVEL = 3 -> domain b <> IFX_PROTECT_SPM_DOMAIN -> forall y, y ∈ keys b -> ppc_at s' y = want (device_cfg b IFX_SPM_BOUNDARY))) s.
Proof.
  intros Ht Hd Hdyn Hb. unfold tfm_hal_bind_boundary. destruct Hlevel as [HL|HL]; rewrite HL at 1; cbn [Z.eqb Pos.eqb].
  - eapply wp_mono; [by apply wp_protect| |done]. cbv beta. intros _ s' (K & T & P). assert ((LEVEL =? 3) = false) as H3 by lia. rewrite H3. split_and!; [apply K| | |lia].
    + unfold own, mapped, maps_memory in *. by rewrite H3 in *.
    + eapply protected_others; [apply sets_devices_keys|exact P].
  - assert ((LEVEL =? 3) = true) as H3 by lia. rewrite H3, app_nil_r. destruct (Z.eqb_spec (domain b) IFX_PROTECT_SPM_DOMAIN) as [HD|HD].
    + apply wp_bind, wp_modify. set (s0 := set_protection _ s). assert (mpu_table N s0 cs) as T0 by by apply (mpu_table_same N s). eapply wp_mono; [by apply wp_protect| |done]. cbv beta. intros _ s' (K & T & P).
      unfold mapped, maps_memory in T. rewrite H3 in T. cbn in T. rewrite andb_false_r, app_nil_r in T. split_and!; [apply K|done| |done]. eapply protected_others; [apply sets_devices_keys|exact P].
    + apply wp_bind, wp_modify. set (s0 := set_protection _ s). assert (mpu_table N s0 cs) as T0 by by apply (mpu_table_same N s). apply wp_bind. eapply wp_mono; [by apply wp_protect| |done]. cbv beta. intros _ s1 (K1 & T1 & P1).
      unfold mapped, maps_memory in T1. rewrite H3 in T1. cbn in T1. rewrite andb_false_r, app_nil_r in T1.
      apply wp_bind, wp_modify. set (s2 := set_protection _ s1). assert (mpu_table N s2 cs) as T2 by by apply (mpu_table_same N s1). eapply wp_mono; [by apply wp_protect| |done]. cbv beta. intros _ s3 (K3 & T3 & P3).
      rewrite mapped_disabled, app_nil_r in T3 by auto. split_and!; [rewrite (k_active _ _ K3); apply K1|done| |].
      * apply (others_trans _ s0 s1); eapply protected_others; [apply sets_devices_keys|exact P1|apply sets_devices_keys|exact P3].
      * intros _ _ y Hy. rewrite P3 by by eapply keys_region. unfold sets_devices. rewrite H3. cbn. unfold device_cfg. assert ((IFX_SPM_BOUNDARY =? b) = false) as -> by (apply Z.eqb_neq; congruence).
        destruct (ppc_dynamic (cfg_disabled b)); cbn [andb negb]; [by rewrite decide_True|]. rewrite decide_False by apply not_elem_of_nil.
        change (ppc_at s2 y) with (ppc_at s1 y). rewrite P1 by by eapply keys_region. unfold sets_devices. rewrite H3. cbn. by rewrite decide_True.
Qed.
(** The peripherals of these partitions are those of the active one, or closed. *)
Definition devices_held (bs : list Z) (s : hal) : Prop :=
  LEVEL = 3 -> forall b y, b ∈ bs -> domain b <> IFX_PROTECT_SPM_DOMAIN -> y ∈ keys b -> ppc_at s y = want (device_cfg b (active_boundary s)).

(** After [bs] have been bound. *)
Record bound (bs : list Z) (s : hal) : Prop := {
  bd_active : active_boundary s = IFX_SPM_BOUNDARY;
  bd_table : mpu_table N s (static ++ (if LEVEL =? 3 then [] else concat (map own bs)));
  bd_devices : devices_held bs s;
}.

Lemma wp_bind_all todo : forall bs s, partitions_ok (bs ++ todo) -> bound bs s -> success (bind_all LEVEL N COUNT info todo) (fun _ s' => bound (bs ++ todo) s') s.
Proof.
  induction todo as [|b todo IH]; intros bs s Hok Hb; cbn [bind_all]; [apply wp_ret; by rewrite app_nil_r|].
  assert (b ∈ bs ++ b :: todo) as Hin by (apply elem_of_app; right; left). destruct Hb. apply wp_bind, wp_or_return. eapply wp_mono; [apply (wp_bind_boundary b s); [done|intros; by apply (po_disabled _ Hok)|by apply (po_dynamic _ Hok)|]| |done].
  { intros ->. by apply (po_bound _ Hok). }
  cbv beta. intros _ s1 (A1 & T1 & O1 & D1). replace (bs ++ b :: todo) with ((bs ++ [b]) ++ todo) in * by (by rewrite <- app_assoc). apply (IH (bs ++ [b]) s1); [done|]. split.
  - congruence.
  - rewrite <- app_assoc in T1. destruct (LEVEL =? 3); [done|]. by rewrite map_app, concat_app, (app_nil_r (own b) : concat (map own [b]) = own b).
  - intros H3 b' y Hb' Hdom Hy. apply elem_of_app in Hb'. rewrite A1, bd_active0. destruct (decide (b' = b)) as [->|Hne]; [by apply D1|].
    destruct Hb' as [Hb'|Hb'%list_elem_of_singleton]; [|done]. rewrite O1; [by rewrite (bd_devices0 H3 b' y), bd_active0|by eapply keys_region|].
    intros Hy'. destruct Hne. apply (po_exclusive _ Hok b' b y); [apply elem_of_app; left; apply elem_of_app; by left|done..].
Qed.

(** The regions of assets that are mapped. *)
Definition granted (bs : list Z) (s : hal) : list mpu_armv8m_region_cfg_t :=
  if LEVEL =? 3 then if IFX_GET_BOUNDARY_DOMAIN info (active_boundary s) =? IFX_PROTECT_SPM_DOMAIN then [] else own (active_boundary s)
  else concat (map own bs).

Lemma granted_dynamic bs s : LEVEL = 3 -> granted bs s = if IFX_GET_BOUNDARY_DOMAIN info (active_boundary s) =? IFX_PROTECT_SPM_DOMAIN then [] else own (active_boundary s).
Proof. intros H3. unfold granted. by rewrite (proj2 (Z.eqb_eq _ _) H3). Qed.

(** The invariant of the platform, while the system runs. *)
Record hal_inv (bs : list Z) (s : hal) : Prop := {
  hi_active : active_boundary s = IFX_SPM_BOUNDARY \/ active_boundary s ∈ bs;
  hi_type : LEVEL = 3 -> ifx_asset_protection_type s = IFX_ASSET_PROTECTION_PARTITION_DYNAMIC;
  hi_table : mpu_table N s (static ++ granted bs s);
  hi_devices : devices_held bs s;
}.

Lemma wp_finish_boot bs s : bound bs s -> success (tfm_hal_finish_boot LEVEL L) (fun _ s' => hal_inv bs s' /\ active_boundary s' = IFX_SPM_BOUNDARY) s.
Proof.
  intros []. unfold tfm_hal_finish_boot. destruct static_metadata as [rest Hst]. rewrite Hst in bd_table0. cbn [app] in bd_table0.
  apply wp_bind. eapply wp_mono; [by eapply wp_metadata| |done]. cbv beta. intros _ s1 (K1 & P1 & T1). apply wp_bind, wp_modify.
  apply wp_bind. eapply wp_mono; [eapply (wp_metadata false); by apply (mpu_table_same N s1)| |done]. cbv beta. intros _ s2 (K2 & P2 & T2).
  assert (active_boundary s2 = IFX_SPM_BOUNDARY) as A2 by (rewrite (k_active _ _ K2); cbn; rewrite (k_active _ _ K1); done).
  assert (forall s', active_boundary s' = active_boundary s2 -> ppcs s' = ppcs s2 -> devices_held bs s') as Hd.
  { intros s' Ha Hp H3 b y Hb Hdom Hy. unfold ppc_at. rewrite Ha, A2, Hp, P2. cbn. rewrite P1. rewrite <- bd_active0. by apply bd_devices0. }
  assert (forall s', active_boundary s' = active_boundary s2 -> static ++ granted bs s' = metadata_region MPU_ARMV8M_AP_RO_PRIV_UNPRIV :: rest ++ (if LEVEL =? 3 then [] else concat (map own bs))) as Hg.
  { intros s' Ha. rewrite Hst. cbn [app]. unfold granted. by rewrite Ha, A2. }
  destruct (Z.eqb_spec LEVEL 3) as [H3|H3].
  - apply wp_modify. split; [|done]. split; [by left|done| |by apply Hd]. rewrite Hg by done. by apply (mpu_table_same N s2).
  - apply wp_ret. split; [|done]. split; [by left|done| |by apply Hd]. by rewrite Hg.
Qed.
(** The peripherals of each partition have the protection [f]. *)
Definition devices_as (bs : list Z) (f : Z -> ifx_ppc_named_mmio_config_t) (s : hal) : Prop :=
  forall b y, b ∈ bs -> domain b <> IFX_PROTECT_SPM_DOMAIN -> y ∈ keys b -> ppc_at s y = want (f b).

Lemma devices_as_eq bs f g s : (forall b, b ∈ bs -> domain b <> IFX_PROTECT_SPM_DOMAIN -> f b = g b) -> devices_as bs f s -> devices_as bs g s.
Proof. intros He Hf b y Hb Hd Hy. rewrite <- He by done. by apply Hf. Qed.

Lemma devices_change bs f a cfg s s' :
  LEVEL = 3 -> partitions_ok bs -> a ∈ bs -> devices_as bs f s ->
  protected (if sets_devices LEVEL IFX_ASSET_PROTECTION_PARTITION_DYNAMIC cfg then keys a else []) (want (ppc_cfg cfg)) s s' ->
  devices_as bs (<[a := if ppc_dynamic cfg then ppc_cfg cfg else f a]> f) s'.
Proof.
  intros H3 Hok Ha Hf Hp b y Hb Hd Hy. rewrite Hp by by eapply keys_region. unfold sets_devices. rewrite H3. cbn. destruct (decide (b = a)) as [->|Hne].
  - rewrite fn_lookup_insert. destruct (ppc_dynamic cfg); [by rewrite decide_True|]. rewrite decide_False by apply not_elem_of_nil. by apply Hf.
  - rewrite fn_lookup_insert_ne by done. rewrite decide_False; [by apply Hf|]. destruct (ppc_dynamic cfg); [|apply not_elem_of_nil]. intros Hy'. destruct Hne. by apply (po_exclusive _ Hok b a y).
Qed.

(** Without the regions of assets. *)
Lemma wp_disable_table s cs :
  mpu_table N s (static ++ cs) -> success (ifx_mpu_disable_asset_regions LEVEL N L CUSTOM) (fun _ s' => kept s s' /\ ppcs s' = ppcs s /\ mpu_table N s' static) s.
Proof.
  intros []. eapply wp_mono; [apply wp_disable_asset_regions| |done]. cbv beta. intros _ s' (F & U & E). destruct F. unfold ifx_mpu_static_config_count in *. rewrite length_app in *.
  split_and!; [by split|done|]. split; [lia|done| |done|congruence..]. apply holds_app in mt_holds0 as [Hh _]. apply (holds_same s); [|done]. intros j Hj. unfold region_at. rewrite mf_below0; [done|lia].
Qed.

Lemma spm_domain a : IFX_GET_BOUNDARY_DOMAIN info a <> IFX_PROTECT_SPM_DOMAIN -> a <> IFX_SPM_BOUNDARY /\ IFX_GET_BOUNDARY_DOMAIN info a = domain a.
Proof. unfold IFX_GET_BOUNDARY_DOMAIN. destruct (Z.eqb_spec a IFX_SPM_BOUNDARY); [done|by split]. Qed.

(** The assets of the active partition are closed. *)
Lemma wp_close bs s :
  LEVEL = 3 -> partitions_ok bs -> hal_inv bs s ->
  success (if negb (IFX_PROTECT_SPM_DOMAIN =? IFX_GET_BOUNDARY_DOMAIN info (active_boundary s)) then
      ifx_protect_partition_assets LEVEL N COUNT (info (active_boundary s)) (cfg_disabled (active_boundary s)) else ret tt)
    (fun _ s' => kept s s' /\ mpu_table N s' (static ++ granted bs s) /\ devices_as bs (fun b => device_cfg b IFX_SPM_BOUNDARY) s') s.
Proof.
  intros H3 Hok []. specialize (hi_devices0 H3). specialize (hi_type0 H3). set (a := active_boundary s) in *. destruct (Z.eqb_spec IFX_PROTECT_SPM_DOMAIN (IFX_GET_BOUNDARY_DOMAIN info a)) as [Hd|Hd]; cbn [negb].
  - apply wp_ret. split_and!; [done..|]. eapply devices_as_eq; [|exact hi_devices0]. intros b Hb Hdb. cbv beta. unfold device_cfg.
    assert ((IFX_SPM_BOUNDARY =? b) = false) as -> by (apply Z.eqb_neq; intros <-; by apply (po_bound _ Hok)). destruct (Z.eqb_spec a b) as [<-|]; [|done].
    destruct Hdb. rewrite Hd. unfold IFX_GET_BOUNDARY_DOMAIN. destruct (Z.eqb_spec a IFX_SPM_BOUNDARY) as [He|]; [|done]. rewrite He in Hb. by apply (po_bound _ Hok) in Hb.
  - destruct (spm_domain a) as [Ha Hda]; [congruence|]. assert (a ∈ bs) as Hin by by destruct hi_active0. eapply wp_mono; [by apply wp_protect| |done]. cbv beta. intros _ s' (K & T & P).
    rewrite mapped_disabled, app_nil_r in T by by apply (po_disabled _ Hok). split_and!; [done..|]. rewrite hi_type0 in P.
    eapply devices_as_eq; [|apply (devices_change bs (fun b => device_cfg b a) a (cfg_disabled a) s); [done..|exact P]]. intros b Hb Hdb. cbv beta. assert ((IFX_SPM_BOUNDARY =? b) = false) as E0 by (apply Z.eqb_neq; intros <-; by apply (po_bound _ Hok)). unfold device_cfg. rewrite E0.
    destruct (decide (b = a)) as [->|Hne]; [rewrite fn_lookup_insert, Z.eqb_refl|rewrite fn_lookup_insert_ne by done].
    + destruct (ppc_dynamic (cfg_disabled a)); done.
    + by assert ((a =? b) = false) as -> by (apply Z.eqb_neq; congruence).
Qed.
Lemma wp_activate_assets bs b s :
  LEVEL = 3 -> partitions_ok bs -> hal_inv bs s -> b ∈ bs ->
  success (activate_assets LEVEL N L CUSTOM COUNT info b) (fun _ s' => hal_inv bs s' /\ active_boundary s' = b) s.
Proof.
  intros H3 Hok Hi Hb. unfold activate_assets. apply wp_bind. unfold wp at 1, get. apply wp_bind. eapply wp_mono; [by apply wp_close| |done]. cbv beta. intros _ s1 (K1 & T1 & D1).
  apply wp_bind. eapply wp_mono; [by eapply wp_disable_table| |done]. cbv beta. intros _ s2 (K2 & P2 & T2).
  assert (devices_as bs (fun b => device_cfg b IFX_SPM_BOUNDARY) s2) as D2 by (intros c y ???; unfold ppc_at; rewrite P2; by apply D1).
  assert (ifx_asset_protection_type s2 = IFX_ASSET_PROTECTION_PARTITION_DYNAMIC) as Y2 by (rewrite (k_type _ _ K2), (k_type _ _ K1); by apply (hi_type _ _ Hi)).
  assert (b <> IFX_SPM_BOUNDARY) as Hn by (intros ->; by apply (po_bound _ Hok)). assert (IFX_GET_BOUNDARY_DOMAIN info b = domain b) as Hdb by (unfold IFX_GET_BOUNDARY_DOMAIN; by destruct (Z.eqb_spec b IFX_SPM_BOUNDARY)).
  assert (forall c, c ∈ bs -> (IFX_SPM_BOUNDARY =? c) = false) as E0 by (intros c Hc; apply Z.eqb_neq; intros <-; by apply (po_bound _ Hok)).
  apply wp_bind. destruct (Z.eqb_spec IFX_PROTECT_SPM_DOMAIN (domain b)) as [Hd|Hd]; cbn [negb].
  - apply wp_ret, wp_modify. split; [|done]. split; [by right|done| |].
    + apply (mpu_table_same N s2); [done..|]. rewrite granted_dynamic by done. cbn [active_boundary set_active]. by rewrite Hdb, <- Hd, Z.eqb_refl, app_nil_r.
    + intros _. eapply devices_as_eq; [|exact D2]. intros c Hc Hdc. cbv beta. unfold device_cfg. rewrite E0 by done. cbn. by destruct (Z.eqb_spec b c) as [->|].
  - eapply wp_mono; [by apply wp_protect| |done]. cbv beta. intros _ s3 (K3 & T3 & P3). apply wp_modify. split; [|done]. rewrite Y2 in *. split; [by right| | |].
    + intros _. cbn. by rewrite (k_type _ _ K3).
    + apply (mpu_table_same N s3); [done..|]. rewrite granted_dynamic by done. cbn [active_boundary set_active]. rewrite Hdb. by destruct (Z.eqb_spec (domain b) IFX_PROTECT_SPM_DOMAIN).
    + intros _. eapply devices_as_eq; [|apply (devices_change bs (fun c => device_cfg c IFX_SPM_BOUNDARY) b (cfg_enabled b) s2 s3); done]. intros c Hc Hdc. cbv beta. cbn. unfold device_cfg. rewrite E0 by done.
      destruct (decide (c = b)) as [->|Hne]; [rewrite fn_lookup_insert, Z.eqb_refl, (po_dynamic _ Hok b Hb); by destruct (ppc_dynamic _)|rewrite fn_lookup_insert_ne by done].
      rewrite E0 by done. by assert ((b =? c) = false) as -> by (apply Z.eqb_neq; congruence).
Qed.

Lemma hal_inv_npriv bs v s : hal_inv bs s -> hal_inv bs (set_npriv v s).
Proof. intros []. split; try done. by apply (mpu_table_same N s). Qed.

(** The boundary [b] is active, unless it is that of the partition manager. *)
Definition activated (b : Z) (s s' : hal) : Prop :=
  active_boundary s' = (if b =? IFX_SPM_BOUNDARY then active_boundary s else b) /\
  npriv s' = negb (b =? IFX_SPM_BOUNDARY) && negb (privileged (ifx_ldinfo (info b))).

Lemma wp_activate bs b s :
  partitions_ok bs -> hal_inv bs s -> b = IFX_SPM_BOUNDARY \/ b ∈ bs ->
  success (tfm_hal_activate_boundary LEVEL N L CUSTOM COUNT info b) (fun _ s' => hal_inv bs s' /\ activated b s s') s.
Proof.
  intros Hok Hi Hb. unfold tfm_hal_activate_boundary, activated. apply wp_bind. unfold wp at 1, get. apply wp_bind.
  apply (wp_mono _ (fun _ s1 => hal_inv bs s1 /\ active_boundary s1 = if b =? IFX_SPM_BOUNDARY then active_boundary s else b) _ (fun _ _ => True)); [|intros _ s1 [H1 A1]; apply wp_modify; split; [by apply hal_inv_npriv|done]|done].
  destruct (Z.eqb_spec b IFX_SPM_BOUNDARY) as [He|He]; cbn [negb andb]; [destruct (LEVEL =? 3), (LEVEL =? 2); apply wp_ret; by split|]. assert (b ∈ bs) as Hin by tauto.
  destruct (Z.eqb_spec LEVEL 3) as [H3|H3].
  - destruct (Z.eqb_spec b (active_boundary s)) as [Ha|Ha]; cbn [negb]; [by apply wp_ret|by apply wp_activate_assets].
  - assert ((LEVEL =? 2) = true) as -> by (apply Z.eqb_eq; lia). apply wp_modify. destruct Hi. split; [|done]. split; [by right|done| |by intros ?]. apply (mpu_table_same N s); [done..|].
    unfold granted in *. by rewrite (proj2 (Z.eqb_neq LEVEL 3) H3) in *.
Qed.
End boundaries.
