(* ===== verification/IfxClaims.v ===== *)
(** * The isolation of partitions on Infineon devices: the theorems

    The invariant of the platform and of the partition manager's changes of
    the boundary, and what the memory check, the peripherals and the privilege
    of the processor are worth in every state that is reached. *)

From S2P Require Import Prelude Bytes SpmTypes IfxHal IfxIsolation IfxSwitch IfxProof.
From stdpp Require Import base list numbers functions.
From Stdlib Require Import ZArith Lia.

Open Scope Z_scope.
Open Scope tfm_scope.

Section claims.
Context `{!PpcDriver, !PpcLaws}.
Context (LEVEL N COUNT : Z) (L : linker_t) (CUSTOM : list mpu_armv8m_region_cfg_t) (ppcx : list ifx_ppcx_config_t) (info : Z -> ifx_partition_info_t).
Context (Hlevel : LEVEL = 2 \/ LEVEL = 3).

Abbreviation static := (ifx_mpu_static_config LEVEL L CUSTOM).
Abbreviation domain := (IFX_GET_BOUNDARY_DOMAIN info).
Abbreviation inv := (hal_inv LEVEL N L CUSTOM info).
Abbreviation parts := (partitions_ok LEVEL info).
Abbreviation priv b := (privileged (ifx_ldinfo (info b))).
Abbreviation Handle := (handle LEVEL N L CUSTOM COUNT info).

(** ** Start-up *)

Lemma wp_or_status m e Q s : success m Q s -> success (or_status m e) Q s.
Proof. unfold wp, or_status. by destruct (m s) as [[a|e'] s']. Qed.

(** Only the peripherals' registers differ. *)
Definition ppcs_only (s s' : hal) : Prop := exists v, s' = set_ppcs v s.

Lemma ppcs_only_refl s : ppcs_only s s.
Proof. exists (ppcs s). by destruct s. Qed.

Lemma ppcs_only_trans s s1 s2 : ppcs_only s s1 -> ppcs_only s1 s2 -> ppcs_only s s2.
Proof. intros [v ->] [w ->]. by exists w. Qed.

Lemma wp_ppc_call k f s : success (ppc_call k f) (fun _ s' => ppcs_only s s') s.
Proof. unfold ppc_call. apply wp_bind. unfold wp at 1, get. apply wp_bind. unfold wp at 1, put. apply wp_check; [|done]. intros _. by eexists. Qed.

Lemma wp_ppc_regions c xs s : success (ppcx_regions COUNT c xs) (fun _ s' => ppcs_only s s') s.
Proof.
  revert s. induction xs as [|x xs IH]; intros s; cbn [ppcx_regions]; [apply wp_ret, ppcs_only_refl|]. apply wp_bind. unfold Cy_Ppc_GetPointerForRegion. destruct (_ <? _); [|done]. apply wp_ret. cbv zeta.
  apply wp_bind. unfold wp at 1, get. apply wp_bind, wp_pure_check; [apply validity_pure|]. apply wp_bind. eapply wp_mono; [apply wp_ppc_call| |done]. cbv beta. intros _ s1 H1.
  apply wp_bind. eapply wp_mono; [apply wp_ppc_call| |done]. cbv beta. intros _ s2 H2. eapply wp_mono; [apply IH| |done]. cbv beta. intros _ s3 H3. by eapply ppcs_only_trans; [eapply ppcs_only_trans|].
Qed.

Lemma wp_ppc_configs cs s : success (ppcx_configs COUNT cs) (fun _ s' => ppcs_only s s') s.
Proof.
  revert s. induction cs as [|c cs IH]; intros s; cbn [ppcx_configs]; [apply wp_ret, ppcs_only_refl|]. apply wp_bind. eapply wp_mono; [apply wp_ppc_regions| |done]. cbv beta. intros _ s1 H1.
  eapply wp_mono; [apply IH| |done]. cbv beta. intros _ s2 H2. by eapply ppcs_only_trans.
Qed.

Lemma wp_ppc_init s : success (ifx_ppc_init_cfg COUNT ppcx) (fun _ s' => ppcs_only s s') s.
Proof.
  apply wp_bind. assert (forall n k t, success (ppc_init_loop n k) (fun _ s' => ppcs_only t s') t) as Hloop.
  { intros n. induction n as [|n IH]; intros k t; cbn [ppc_init_loop]; [apply wp_ret, ppcs_only_refl|]. apply wp_bind. eapply wp_mono; [apply wp_ppc_call| |done]. cbv beta. intros _ t1 H1.
    eapply wp_mono; [apply IH| |done]. cbv beta. intros _ t2 H2. by eapply ppcs_only_trans. }
  eapply wp_mono; [apply Hloop| |done]. cbv beta. intros _ s1 H1. eapply wp_mono; [apply wp_ppc_configs| |done]. cbv beta. intros _ s2 H2. by eapply ppcs_only_trans.
Qed.

Lemma wp_boot bs first s :
  parts bs -> first ∈ bs -> active_boundary s = IFX_SPM_BOUNDARY ->
  success (boot LEVEL N L CUSTOM COUNT ppcx info bs first) (fun _ s' => inv bs s' /\ active_boundary s' = first /\ npriv s' = negb (priv first)) s.
Proof.
  intros Hok Hf Ha. unfold boot, set_up_static_boundaries. apply wp_bind, wp_bind, wp_or_status. eapply wp_mono; [apply wp_mpu_init| |done]. cbv beta. intros _ s1 (T1 & A1 & _).
  apply wp_or_status. eapply wp_mono; [apply wp_ppc_init| |done]. cbv beta. intros _ s2 [v ->]. apply wp_bind.
  eapply wp_mono; [apply (wp_bind_all LEVEL N COUNT L CUSTOM info Hlevel bs []); [done|]| |done].
  { split; [cbn; congruence| |]; [destruct (LEVEL =? 3); cbn [map concat]; rewrite app_nil_r; by apply (mpu_table_same N s1)|]. intros _ b y Hb. by apply not_elem_of_nil in Hb. }
  cbv beta. intros _ s3 H3. apply wp_bind, wp_or_return. eapply wp_mono; [by eapply wp_finish_boot| |done]. cbv beta. intros _ s4 (H4 & A4).
  apply wp_or_return. eapply wp_mono; [eapply wp_activate; [done..|by right]| |done]. cbv beta. intros _ s5 (H5 & A5 & P5).
  assert ((first =? IFX_SPM_BOUNDARY) = false) as E by (apply Z.eqb_neq; intros ->; by apply (po_bound _ _ _ Hok)). by rewrite E in *.
Qed.
(** ** Changes of the boundary *)

Lemma wp_on_hal {A} (m : M hal A) Q x : success m (fun a s' => Q a (set_hw s' x)) (hw x) -> success (on_hal m) Q x.
Proof. unfold wp, on_hal. by destruct (m (hw x)) as [[a|e] s']. Qed.

(** Whether a change has been made. *)
Definition changed (from to : Z) (s s' : hal) : Prop := domain from = domain to /\ s' = s \/ domain from <> domain to /\ activated info to s s'.

Lemma need_switch_domain from to : tfm_hal_boundary_need_switch LEVEL info from to = negb (domain from =? domain to).
Proof. unfold tfm_hal_boundary_need_switch. by destruct Hlevel as [-> | ->]. Qed.

Lemma wp_change bs from to s :
  parts bs -> inv bs s -> to = IFX_SPM_BOUNDARY \/ to ∈ bs -> success (change_boundary LEVEL N L CUSTOM COUNT info from to) (fun _ s' => inv bs s' /\ changed from to s s') s.
Proof.
  intros Hok Hi Hto. unfold change_boundary, changed. rewrite need_switch_domain. destruct (Z.eqb_spec (domain from) (domain to)) as [Hd|Hd]; cbn [negb]; [apply wp_ret; split; [done|by left]|].
  apply wp_or_return. eapply wp_mono; [by eapply wp_activate| |done]. cbv beta. intros _ s' [H1 H2]. split; [done|by right].
Qed.

(** The scheduler opens and closes the shared metadata. *)
Lemma wp_metadata_twice bs s : inv bs s ->
  success (let* _ := ifx_mpu_shared_metadata_rw_enable L true in ifx_mpu_shared_metadata_rw_enable L false) (fun _ s' => inv bs s' /\ active_boundary s' = active_boundary s /\ npriv s' = npriv s) s.
Proof.
  intros []. destruct (static_metadata LEVEL L CUSTOM Hlevel) as [rest Hst]. rewrite Hst in hi_table. cbn [app] in hi_table.
  apply wp_bind. eapply wp_mono; [by eapply wp_metadata| |done]. cbv beta. intros _ s1 (K1 & P1 & T1). eapply wp_mono; [by eapply (wp_metadata _ _ false)| |done]. cbv beta. intros _ s2 (K2 & P2 & T2).
  destruct (hal_kept_trans _ _ _ K1 K2) as [KA KT KN]. split_and!; [|done..]. split; [by rewrite KA|by rewrite KT| |].
  - unfold granted in *. by rewrite Hst, KA.
  - intros H3 b y Hb Hd Hy. unfold ppc_at. rewrite P2, P1, KA. by apply hi_devices.
Qed.

(** Where the processor is. *)
Definition in_spm (x : exec) : bool := saved x && bool_decide (prev x = None).

(** The invariant of the execution. *)
Record exec_inv (bs : list Z) (x : exec) : Prop := {
  ei_hal : inv bs (hw x);
  ei_cur : cur x ∈ bs;
  ei_prev : forall p, prev x = Some p -> p ∈ bs;
  ei_domain : domain (active_boundary (hw x)) = domain (cur x);
}.

Lemma changed_domain from to s s' :
  changed from to s s' -> to <> IFX_SPM_BOUNDARY -> (domain from = domain to -> domain (active_boundary s) = domain to) -> domain (active_boundary s') = domain to.
Proof. intros [[He ->]|[_ [Ha _]]] Hn Hs; [by apply Hs|]. rewrite Ha. by destruct (Z.eqb_spec to IFX_SPM_BOUNDARY). Qed.
(** Partitions of a domain agree on their privilege. *)
Record privileges_ok (bs : list Z) : Prop := {
  pr_spm : forall b, b ∈ bs -> domain b = IFX_PROTECT_SPM_DOMAIN -> priv b = true;
  pr_domain : forall b b', b ∈ bs -> b' ∈ bs -> domain b = domain b' -> priv b = priv b';
}.

(** The processor has the privilege of what it runs. *)
Definition priv_ok (x : exec) : Prop := npriv (hw x) = negb (in_spm x || priv (cur x)).

(** No handler of the current partition's own domain interrupts the partition
    manager. *)
Definition quiet (x : exec) (e : event) : Prop :=
  match e with
  | Flih owner => saved x = true -> domain (cur x) <> domain owner
  | _ => True
  end.

Lemma wp_on_hal_twice (m k : M hal unit) Q x :
  success (let* _ := m in k) (fun a s' => Q a (set_hw s' x)) (hw x) -> success (let* _ := on_hal m in on_hal k) Q x.
Proof. unfold wp, bind, on_hal. destruct (m (hw x)) as [[a|e] s1]; [|done]. cbn. by destruct (k s1) as [[b|e] s2]. Qed.

Lemma bound_not_spm bs b : parts bs -> b ∈ bs -> b <> IFX_SPM_BOUNDARY.
Proof. intros Hok Hb ->. by apply (po_bound _ _ _ Hok). Qed.

(** After a change to a partition, from a privilege that was right. *)
Lemma changed_priv bs from to s s' :
  parts bs -> privileges_ok bs -> to ∈ bs -> changed from to s s' ->
  (domain from = domain to -> npriv s = negb (priv to)) -> npriv s' = negb (priv to).
Proof.
  intros Hok Hp Hto [[He ->]|[_ [_ Hn]]] Hs; [by apply Hs|]. rewrite Hn. by rewrite (proj2 (Z.eqb_neq _ _) (bound_not_spm _ _ Hok Hto)).
Qed.

(** After a change to the partition manager. *)
Lemma changed_spm from s s' : changed from IFX_SPM_BOUNDARY s s' -> active_boundary s' = active_boundary s /\ (domain from <> IFX_PROTECT_SPM_DOMAIN -> npriv s' = false) /\ (domain from = IFX_PROTECT_SPM_DOMAIN -> npriv s' = npriv s).
Proof. intros [[He ->]|[Hn [Ha Hp]]]; split_and!; try done. Qed.

Lemma wp_schedule_event bs b x :
  parts bs -> exec_inv bs x -> enabled LEVEL info x (Schedule b) = true -> b ∈ bs ->
  success (Handle (Schedule b)) (fun _ x' => exec_inv bs x' /\ (privileges_ok bs -> priv_ok x -> priv_ok x')) x.
Proof.
  intros Hok [Hi Hc Hp Hd] [Hs%negb_true_iff Hv]%andb_prop Hb. cbn [handle]. unfold ipc_schedule. apply wp_bind. unfold wp at 1, get. apply wp_bind.
  apply (wp_mono _ (fun _ x1 => exec_inv bs x1 /\ (privileges_ok bs -> priv_ok x -> priv_ok x1)) _ (fun _ _ => True)); [|intros _ x1 [[Hi1 ? ? Hd1] Hp1]|done].
  - destruct (Z.eqb_spec (cur x) b) as [->|Hne]; cbn [negb]; [by apply wp_ret|]. apply wp_bind, wp_on_hal. eapply wp_mono; [eapply wp_change; [done..|by right]| |done]. cbv beta. intros _ s1 [H1 C1]. apply wp_modify.
    split; [split; try done; eapply changed_domain; [exact C1|by eapply bound_not_spm|]; cbn; congruence|]. intros Hpr Ho. unfold priv_ok, in_spm in *. cbn. rewrite Hs in *. cbn in *.
    eapply changed_priv; [done..|]. intros He. rewrite Ho. f_equal. by apply (pr_domain _ Hpr).
  - apply wp_on_hal_twice. eapply wp_mono; [by apply wp_metadata_twice| |done]. cbv beta. intros _ s2 (H2 & A2 & P2). split; [split; try done; cbn; congruence|]. intros Hpr Ho. unfold priv_ok in *. cbn. rewrite P2. by apply Hp1.
Qed.

Lemma wp_enter bs x :
  parts bs -> exec_inv bs x -> enabled LEVEL info x SpmEnter = true ->
  success (Handle SpmEnter) (fun _ x' => exec_inv bs x' /\ (privileges_ok bs -> priv_ok x -> priv_ok x')) x.
Proof.
  intros Hok [Hi Hc Hp Hd] [Hs%negb_true_iff Hv]%andb_prop. cbn [handle]. unfold prepare_to_thread_mode_spm. apply wp_bind. unfold wp at 1, get. apply wp_bind, wp_on_hal.
  eapply wp_mono; [eapply wp_change; [done..|by left]| |done]. cbv beta. intros _ s1 [H1 C1]. apply wp_modify. destruct (changed_spm _ _ _ C1) as (A1 & P1 & Q1).
  split; [split; try done; cbn; congruence|]. intros Hpr Ho. unfold priv_ok, in_spm in *. cbn. rewrite Hv. cbn. destruct (decide (domain (cur x) = IFX_PROTECT_SPM_DOMAIN)) as [He|He]; [|by apply P1].
  rewrite Q1, Ho by done. rewrite (pr_spm _ Hpr (cur x)) by done. by rewrite orb_true_r.
Qed.

Lemma wp_return bs x :
  parts bs -> exec_inv bs x -> enabled LEVEL info x SpmReturn = true ->
  success (Handle SpmReturn) (fun _ x' => exec_inv bs x' /\ (privileges_ok bs -> priv_ok x -> priv_ok x')) x.
Proof.
  intros Hok [Hi Hc Hp Hd] [Hs Hv]%andb_prop. cbn [handle]. unfold thread_mode_spm_return. apply wp_bind. unfold wp at 1, get. apply wp_bind, wp_on_hal.
  eapply wp_mono; [eapply wp_change; [done..|by right]| |done]. cbv beta. intros _ s1 [H1 C1]. apply wp_modify.
  split; [split; try done; eapply changed_domain; [exact C1|by eapply bound_not_spm|done]|]. intros Hpr Ho. unfold priv_ok, in_spm in *. cbn. rewrite Hs, Hv in Ho. cbn in Ho.
  eapply changed_priv; [done..|]. intros He. rewrite Ho. rewrite (pr_spm _ Hpr (cur x)); [done..|]. by rewrite <- He.
Qed.

Lemma wp_flih bs b x :
  parts bs -> exec_inv bs x -> enabled LEVEL info x (Flih b) = true -> b ∈ bs ->
  success (Handle (Flih b)) (fun _ x' => exec_inv bs x' /\ (privileges_ok bs -> priv_ok x -> quiet x (Flih b) -> priv_ok x')) x.
Proof.
  intros Hok [Hi Hc Hp Hd] [Hv Hn]%andb_prop Hb. cbn [handle]. unfold tfm_flih_prepare_depriv_flih. apply wp_bind. unfold wp at 1, get. apply wp_bind, wp_on_hal.
  eapply wp_mono; [eapply wp_change; [done..|by right]| |done]. cbv beta. intros _ s1 [H1 C1]. apply wp_modify.
  split; [split; try done; [by intros ? [= <-]|eapply changed_domain; [exact C1|by eapply bound_not_spm|cbn; congruence]]|]. intros Hpr Ho Hq. unfold priv_ok, in_spm in *. cbn. rewrite andb_false_r. cbn.
  eapply changed_priv; [done..|]. intros He. rewrite Ho. cbn in Hq. destruct (saved x); [by destruct Hq|]. cbn. f_equal. by apply (pr_domain _ Hpr).
Qed.

Lemma wp_flih_return bs x :
  parts bs -> exec_inv bs x -> enabled LEVEL info x FlihReturn = true ->
  success (Handle FlihReturn) (fun _ x' => exec_inv bs x' /\ (privileges_ok bs -> priv_ok x -> priv_ok x')) x.
Proof.
  intros Hok [Hi Hc Hp Hd] Hv%negb_true_iff. cbn [handle]. unfold tfm_flih_return_to_isr. apply wp_bind. unfold wp at 1, get. destruct (prev x) as [p|] eqn:Hx; [|done]. specialize (Hp p eq_refl).
  apply wp_bind, wp_on_hal. eapply wp_mono; [eapply wp_change; [done..|by right]| |done]. cbv beta. intros _ s1 [H1 C1].
  assert (domain (active_boundary s1) = domain p) as Hd1 by (eapply changed_domain; [exact C1|by eapply bound_not_spm|congruence]).
  apply wp_bind. destruct (saved x) eqn:Hs.
  - apply wp_on_hal, wp_modify, wp_modify. split; [split; try done; by apply hal_inv_npriv|]. intros _ _. unfold priv_ok, in_spm. cbn. by rewrite Hs.
  - apply wp_ret, wp_modify. split; [by split|]. intros Hpr Ho. unfold priv_ok, in_spm in *. cbn. rewrite Hs, Hx in *. cbn in *. eapply changed_priv; [done..|]. intros He. rewrite Ho. f_equal. by apply (pr_domain _ Hpr).
Qed.
(** Every state that is reached is in the invariant. *)
Lemma reached_inv P bs x :
  parts bs -> reached LEVEL N L CUSTOM COUNT ppcx info P bs x -> exec_inv bs x /\ (privileges_ok bs -> (forall y e, P y e -> quiet y e) -> priv_ok x).
Proof.
  intros Hok. induction 1 as [s0 first s Ha Hf Hb|x e x' _ [Hi Hpi] Hen He HP Hh].
  - pose proof (run_ok _ _ _ _ _ _ (wp_boot bs first s0 Hok Hf Ha) Hb) as (H1 & H2 & H3). split; [split; try done; cbn; congruence|]. intros _ _. unfold priv_ok. cbn. by rewrite H3.
  - assert (success (Handle e) (fun _ x' => exec_inv bs x' /\ (privileges_ok bs -> priv_ok x -> quiet x e -> priv_ok x')) x) as Hw.
    { destruct e as [b| | |b|]; [eapply wp_mono; [by apply wp_schedule_event| |done]|eapply wp_mono; [by apply wp_enter| |done]|eapply wp_mono; [by apply wp_return| |done]|by apply wp_flih|eapply wp_mono; [by apply wp_flih_return| |done]];
        cbv beta; intros _ y [Hy Hpy]; (split; [done|]); intros; by apply Hpy. }
    destruct (run_ok _ _ _ _ _ _ Hw Hh) as [H1 H2]. split; [done|]. intros Hpr Hq. apply H2; [done|by apply Hpi|by apply Hq].
Qed.

(** ** The memory check *)

Section check.
Context `{!CmseTT, !TTLaws N}.
Context (D : device_t) (policy : ifx_mpc_policy_t).













(** No check of the caller's own boundary panics. *)
Lemma wp_check_no_panic ctl b base size access s :
  domain b = ifx_domain (info b) -> domain (active_boundary s) = domain b -> Z.ldiff access 38 = 0 ->
  wp (tfm_hal_memory_check LEVEL D policy info ctl b base size access) (fun _ _ => True) (fun e _ => e <> TFM_PANIC) s.
Proof.
  intros Hb Hd Ha. assert (forall n idx memory, wp (mpc_loop policy n idx memory (IFX_S_ADDRESS_ALIAS base) size access) (fun _ _ => True) (fun e _ => e <> TFM_PANIC) s) as Hloop.
  { intros n. induction n as [|n IH]; intros idx memory; cbn [mpc_loop]; [done|]. cbv zeta. destruct (ifx_is_region_inside_other _ _ _ _); [|apply IH]. unfold ifx_mpc_check_access_rights. cbv zeta. by repeat (apply wp_bind || (apply wp_check; intros _)). }
  unfold tfm_hal_memory_check. cbv zeta. apply wp_bind. unfold wp at 1, get. apply wp_bind. rewrite <- Hb, Hd, Z.eqb_refl.
  apply (wp_mono _ (fun _ s' => s' = s) _ (fun _ _ => False)); [by destruct (_ >? _)| |done]. intros _ _ ->. destruct (size =? 0); [done|]. apply wp_bind, wp_check; [intros _|done]. apply wp_bind, wp_check; [intros _|done].
  apply wp_bind. change (Z.lor (Z.lor TFM_HAL_ACCESS_READABLE TFM_HAL_ACCESS_WRITABLE) TFM_HAL_ACCESS_NS) with 38. rewrite Ha. apply wp_ret, wp_bind.
  apply (wp_mono _ (fun _ s' => s' = s) _ (fun e _ => e <> TFM_PANIC)); [| |done].
  - unfold ifx_tz_memory_check. destruct (_ && _); [done|]. cbv zeta. apply wp_bind, wp_check; [intros _|done]. apply wp_or_return. unfold ifx_cmse_check_address_range. apply wp_bind, wp_check; [intros _|done]. apply wp_bind. unfold wp at 1, get.
    apply wp_bind, wp_check; [intros _|done]. by apply wp_check.
  - intros _ _ ->. unfold ifx_mpc_memory_check. cbv zeta. destruct (ifx_is_region_inside_other _ _ _ _); [apply Hloop|]. by destruct (ifx_is_region_inside_other _ _ _ _); [apply Hloop|].
Qed.

Lemma own_domain bs b : parts bs -> b ∈ bs -> domain b = ifx_domain (info b).
Proof. intros Hok Hb. unfold IFX_GET_BOUNDARY_DOMAIN. by rewrite (proj2 (Z.eqb_neq _ _) (bound_not_spm _ _ Hok Hb)). Qed.

End check.

(** C15: at level 3, in every state that a system reaches whose partitions share
    no peripheral and are otherwise as the tools generate them, take a partition
    that is alone in its protection domain, which is not the partition
    manager's.  If its boundary switches its peripherals ([ppc_dynamic]), each
    of them has the protection of the enabled configuration while the partition
    is the one that runs and that of the disabled configuration while another
    runs; if it does not, they keep the enabled one. *)
Theorem ifx_peripheral_isolation P bs x b y :
  LEVEL = 3 -> parts bs -> reached LEVEL N L CUSTOM COUNT ppcx info P bs x ->
  b ∈ bs -> domain b <> IFX_PROTECT_SPM_DOMAIN -> (forall b', b' ∈ bs -> domain b' = domain b -> b' = b) -> y ∈ keys info b ->
  (ppc_dynamic (protect_cfg_disabled (ifx_ldinfo (info b))) = true -> cur x = b -> ppc_at (hw x) y = want (ppc_cfg (protect_cfg_enabled (ifx_ldinfo (info b))))) /\
  (ppc_dynamic (protect_cfg_disabled (ifx_ldinfo (info b))) = true -> cur x <> b -> ppc_at (hw x) y = want (ppc_cfg (protect_cfg_disabled (ifx_ldinfo (info b))))) /\
  (ppc_dynamic (protect_cfg_disabled (ifx_ldinfo (info b))) = false -> ppc_at (hw x) y = want (ppc_cfg (protect_cfg_enabled (ifx_ldinfo (info b))))).
Proof.
  intros H3 Hok Hr Hb Hd Hu Hy. assert (ppc_at (hw x) y = want (device_cfg info b (cur x))) as Hat.
  { destruct (reached_inv P bs x Hok Hr) as [[Hi Hc _ Hcd] _]. rewrite (hi_devices _ _ _ _ _ _ _ Hi H3 b y) by (by rewrite <- ?(own_domain _ _ Hok Hb)). f_equal. unfold device_cfg.
    assert ((active_boundary (hw x) =? b) = (cur x =? b)) as ->; [|done]. destruct (hi_active _ _ _ _ _ _ _ Hi) as [Ha|Ha].
    - rewrite Ha in Hcd |- *. rewrite (proj2 (Z.eqb_neq IFX_SPM_BOUNDARY b)) by (intros He; by apply (bound_not_spm bs b Hok)). symmetry. apply Z.eqb_neq. intros He. by rewrite He in Hcd.
    - destruct (Z.eqb_spec (cur x) b) as [He|He]; [apply Z.eqb_eq, Hu; [done|congruence]|]. apply Z.eqb_neq. intros He'. rewrite He' in Hcd. destruct He. by apply Hu. }
  rewrite Hat. unfold device_cfg. split_and!; intros ->; [intros ->; by rewrite Z.eqb_refl|intros Hne; by rewrite (proj2 (Z.eqb_neq _ _) Hne)|done].
Qed.

(** C29: while no handler of the current partition's own domain interrupts the
    partition manager, the processor is unprivileged exactly when it runs code
    of an unprivileged partition, thread or handler; and the boundary that is
    active is one of the current partition's domain, so its memory check does
    not panic. *)
Theorem ifx_privilege_confined `{!CmseTT} (D : device_t) (policy : ifx_mpc_policy_t) bs x :
  parts bs -> privileges_ok bs -> reached LEVEL N L CUSTOM COUNT ppcx info quiet bs x ->
  npriv (hw x) = negb (in_spm x || priv (cur x)) /\
  domain (active_boundary (hw x)) = domain (cur x) /\
  forall ctl base size access, Z.ldiff access 38 = 0 -> (tfm_hal_memory_check LEVEL D policy info ctl (cur x) base size access (hw x)).1 <> Err TFM_PANIC.
Proof.
  intros Hok Hpr Hr. destruct (reached_inv quiet bs x Hok Hr) as [[Hi Hc Hp Hd] Ho]. split_and!; [by apply Ho|done|]. intros ctl base size access Ha.
  pose proof (wp_check_no_panic D policy ctl (cur x) base size access (hw x) (own_domain _ _ Hok Hc) Hd Ha) as Hw. unfold wp in Hw. destruct (tfm_hal_memory_check _ _ _ _ _ _ _ _ _ _) as [[a|e] s']; [done|]. cbn. congruence.
Qed.

(** C16: a handler of the current partition's own domain that interrupts the
    partition manager in thread mode is started without a change of the
    boundary, and runs the code of an unprivileged partition privileged. *)
Theorem flih_runs_privileged bs x b :
  parts bs -> privileges_ok bs -> reached LEVEL N L CUSTOM COUNT ppcx info quiet bs x ->
  b ∈ bs -> priv b = false -> prev x = None -> saved x = true -> domain b = domain (cur x) -> domain b <> IFX_PROTECT_SPM_DOMAIN ->
  enabled LEVEL info x (Flih b) = true /\
  exists x', Handle (Flih b) x = (Ok tt, x') /\ cur x' = b /\ in_spm x' = false /\ npriv (hw x') = false.
Proof.
  intros Hok Hpr Hr Hb Hp Hv Hs Hd Hn. destruct (reached_inv quiet bs x Hok Hr) as [Hi Ho]. split.
  - cbn [enabled]. rewrite Hv, need_switch_domain, bool_decide_true by done. apply negb_true_iff, Z.eqb_neq. by intros He; apply Hn.
  - cbn [handle]. unfold tfm_flih_prepare_depriv_flih, change_boundary, on_hal, bind, get. cbv beta iota zeta. rewrite need_switch_domain, Hd, Z.eqb_refl. eexists. split_and!; [done..| |].
    + unfold in_spm. cbn. apply andb_false_r.
    + specialize (Ho Hpr (fun _ _ H => H)). unfold priv_ok, in_spm in Ho. rewrite Hs, Hv in Ho. exact Ho.
Qed.

(** What the start-up writes into the MPU passes the verification. *)
Theorem ifx_mpu_init_verifies s s' :
  ifx_mpu_init_cfg LEVEL N L CUSTOM s = (Ok tt, s') -> exists s'', ifx_mpu_verify_static_boundaries LEVEL N L CUSTOM s' = (Ok tt, s'').
Proof.
  intros Hi. pose proof (run_ok _ _ _ _ _ _ (wp_mpu_init LEVEL N L CUSTOM s) Hi) as [[] _]. unfold ifx_mpu_verify_static_boundaries.
  destruct (verify_static_ok 0 static s' mt_holds) as (s1 & H1 & Hs1). assert (regions (mpu s1) = regions (mpu s') /\ mair0 (mpu s1) = mair0 (mpu s') /\ ctrl (mpu s1) = ctrl (mpu s')) as (R1 & M1 & C1) by (destruct Hs1 as [[_ ->]|Hs1]; [done|by apply rnr_same]).
  destruct (verify_disabled_ok (Z.to_nat (N - ifx_mpu_static_config_count LEVEL L CUSTOM)) (ifx_mpu_static_config_count LEVEL L CUSTOM) s1) as (s2 & H2 & Hs2).
  { intros j Hj. unfold region_at. rewrite R1. apply mt_rest. unfold ifx_mpu_static_config_count in *. lia. }
  assert (mair0 (mpu s2) = mair0 (mpu s1) /\ ctrl (mpu s2) = ctrl (mpu s1)) as (M2 & C2) by (destruct Hs2 as [->|Hs2]; [done|destruct (rnr_same _ _ Hs2) as (_ & ? & ?); done]).
  exists s2. unfold bind, gets. rewrite H1, H2, M2, C2, M1, C1, mt_mair, mt_ctrl. by rewrite !bool_decide_true.
Qed.
(** Peripherals that pass the verification are protected as configured. *)
Lemma wp_verify_regions c xs s :
  success (verify_regions COUNT c xs) (fun _ s' => s' = s /\ forall x, x ∈ xs -> ppc_at s (ppc_key x) = want c) s.
Proof.
  induction xs as [|x xs IH]; cbn [verify_regions]; [apply wp_ret; split; [done|intros x Hx; by apply not_elem_of_nil in Hx]|]. apply wp_bind. unfold Cy_Ppc_GetPointerForRegion. destruct (_ <? _); [|done]. apply wp_ret. cbv zeta.
  apply wp_bind. unfold wp at 1, get. apply wp_bind, wp_check; [intros Ha%bool_decide_eq_true|done]. apply wp_bind, wp_check; [intros Hm%Z.eqb_eq|done]. eapply wp_mono; [apply IH| |done]. cbv beta. intros _ s' [-> Hx]. split; [done|].
  intros y [->|Hy]%elem_of_cons; [|by apply Hx]. unfold ppc_at, want, ppc_key. cbn [fst snd]. by rewrite Ha, Hm.
Qed.

Theorem ifx_ppc_verify_sound s s' :
  ifx_ppc_verify_static_boundaries COUNT ppcx s = (Ok tt, s') -> forall c x, c ∈ ppcx -> x ∈ x_regions c -> ppc_at s (ppc_key x) = want (x_cfg c).
Proof.
  intros Hv. match goal with |- ?G => refine (run_ok _ (fun _ _ => G) (fun _ _ => True) _ _ _ _ Hv) end. clear Hv. unfold ifx_ppc_verify_static_boundaries. apply wp_bind.
  assert (forall n k, success (verify_resp n k) (fun _ t => t = s) s) as Hr.
  { intros n. induction n as [|n IH]; intros k; cbn [verify_resp]; [done|]. apply wp_bind. unfold wp at 1, get. apply wp_bind, wp_check; [intros _; apply IH|done]. }
  eapply wp_mono; [apply Hr| |done]. intros _ _ ->. induction ppcx as [|c cs IH]; cbn [verify_configs]; [apply wp_ret; intros c x Hc; by apply not_elem_of_nil in Hc|].
  apply wp_bind. eapply wp_mono; [apply wp_verify_regions| |done]. cbv beta. intros _ _ [-> Hx]. eapply wp_mono; [exact IH| |done]. cbv beta. intros _ _ Hall c' x [->|Hc]%elem_of_cons Hin; [by apply Hx|by apply (Hall c')].
Qed.
End claims.

(** ** A device *)

Module Demo.

(** A driver that sets the bits that it is asked to. *)
Definition put_bit (f : Z -> Z) (r : Z) (v : bool) : Z -> Z := <[r / 32 := if v then Z.setbit (f (r / 32)) (r mod 32) else Z.clearbit (f (r / 32)) (r mod 32)]> f.

#[global] Instance driver : PpcDriver := {
  Cy_Ppc_InitPpc p := (p, true);
  Cy_Ppc_ConfigAttrib p r a :=
    (Ppc (put_bit (NS_ATT p) r (bool_decide (secAttribute a = CY_PPC_NON_SECURE))) (put_bit (S_P_ATT p) r (secPrivAttribute a)) (put_bit (NS_P_ATT p) r (nsPrivAttribute a)) (PC_MASK p) (resp_cfg p), true);
  Cy_Ppc_SetPcMask p r m := (Ppc (NS_ATT p) (S_P_ATT p) (NS_P_ATT p) (<[r := m]> (PC_MASK p)) (resp_cfg p), true);
  Cy_Ppc_GetLockMask _ := 0;
}.

Lemma put_bit_get f r v r' : Z.testbit (put_bit f r v (r' / 32)) (r' mod 32) = if decide (r' = r) then v else Z.testbit (f (r' / 32)) (r' mod 32).
Proof.
  unfold put_bit. pose proof (Z.div_mod r 32 ltac:(lia)). pose proof (Z.div_mod r' 32 ltac:(lia)). pose proof (Z.mod_pos_bound r 32 ltac:(lia)). pose proof (Z.mod_pos_bound r' 32 ltac:(lia)).
  destruct (decide (r' = r)) as [->|Hr]; [rewrite fn_lookup_insert; destruct v; [by rewrite Z.setbit_eq by lia|by rewrite Z.clearbit_eq by lia]|].
  destruct (decide (r' / 32 = r / 32)) as [He|He]; [|by rewrite fn_lookup_insert_ne]. rewrite He, fn_lookup_insert. destruct v; [rewrite Z.setbit_neq by lia|rewrite Z.clearbit_neq by lia]; done.
Qed.

#[global] Instance driver_laws : PpcLaws.
Proof.
  split; cbn; intros p r a p' [= <-] r'; try done.
  - intros _. unfold Cy_Ppc_GetAttrib. cbn. rewrite !put_bit_get. destruct (decide (r' = r)); [|done]. by destruct a as [[] ? ?].
  - cbn. destruct (decide (r' = r)) as [->|Hr]; [by rewrite fn_lookup_insert|by rewrite fn_lookup_insert_ne].
Qed.

(** The regions of eight that hold an address; two are a fault. *)
Definition hits (s : hal) (a : Z) : list Z := List.filter (fun i => r_en (region_at s i) && (r_base (region_at s i) <=? a) && (a <? r_limit (region_at s i) + 32)) (seqZ 0 8).

#[global] Instance demo_tt : CmseTT := fun _ _ s a =>
  match hits s a with
  | [i] =>
      let ap := r_ap (region_at s i) in
      AddressInfo (i + 1) true (bool_decide (ap = MPU_ARMV8M_AP_RW_PRIV_UNPRIV \/ ap = MPU_ARMV8M_AP_RO_PRIV_UNPRIV)) (bool_decide (ap = MPU_ARMV8M_AP_RW_PRIV_UNPRIV)) false false
  | _ => AddressInfo 0 true false false false false
  end.

Lemma hits_in s a i : hits s a = [i] -> 0 <= i < 8 /\ hit s i a.
Proof.
  intros Hh. assert (In i (hits s a)) as Hi by (rewrite Hh; by left). apply List.filter_In in Hi as [Hi Hb]. apply list_elem_of_In, elem_of_seqZ in Hi. apply andb_prop in Hb as [[He Hl%Z.leb_le]%andb_prop Hr%Z.ltb_lt]. unfold hit. split; [lia|split; [done|lia]].
Qed.

#[global] Instance tt_laws : TTLaws 8.
Proof.
  split; intros s a; unfold cmse_TT, demo_tt.
  - intros _. destruct (hits s a) as [|i [|]] eqn:Hh; cbn; [done| |done]. intros Hr%bool_decide_eq_true. destruct (hits_in _ _ _ Hh). by exists i.
  - intros _. destruct (hits s a) as [|i [|]] eqn:Hh; cbn; [done| |done]. intros Hr%bool_decide_eq_true. destruct (hits_in _ _ _ Hh). by exists i.
  - intros b i _ Hr Hv Hn Hi. destruct (hits s a) as [|j [|]] eqn:Hh; cbn in Hr, Hv; [by destruct Hr| |by destruct Hr].
    destruct (hits_in _ _ _ Hh) as [Hj _]. assert (j = i) as ->.
    { assert (In i (hits s a)) as Hin; [|rewrite Hh in Hin; by destruct Hin]. apply List.filter_In. split; [apply list_elem_of_In, elem_of_seqZ; lia|]. destruct Hi as [-> [Hl Hu]]. cbn [andb]. by rewrite (proj2 (Z.leb_le _ _) Hl), (proj2 (Z.ltb_lt _ _) Hu). }
    destruct (hits s b) as [|k [|]] eqn:Hk; cbn in Hv; [lia| |lia]. assert (k = i) as -> by lia. by apply hits_in.
Qed.
(** Two unprivileged partitions and a privileged one, at level 3. *)
Definition demo_cfg (enabled : bool) : ifx_protection_region_config_t := RegionCfg (PpcCfg CY_PPC_SECURE enabled 4) enabled true.
Definition demo_part (privileged : bool) (domain memory device : Z) : ifx_partition_info_t :=
  IfxInfo (PartLd 0 domain 0 [] [] 0 0) [Asset memory (memory + 0x1000) 2] (IfxLd privileged (demo_cfg true) (demo_cfg false)) domain [Asset device 0 10].
Definition demo_info (b : Z) : ifx_partition_info_t :=
  if b =? 1 then demo_part false 101 0x34002000 5 else if b =? 2 then demo_part false 102 0x34004000 7 else demo_part true IFX_PROTECT_SPM_DOMAIN 0x34006000 9.
Definition demo_linker : linker_t := Linker 0x34000000 0x34000400 0x12000000 0x12000400 0x52000000 0x5200FFFF 0x34008000 0x34009000.
Definition demo_device : device_t := Device 0x24000000 0x100000 0x02000000 0x200000.
Definition demo_policy : ifx_mpc_policy_t := MpcPolicy 1 0 (fun _ => MpcCfg 0 512 1536).
Definition demo_ppc : PPC_Type := Ppc (fun _ => 0) (fun _ => 0) (fun _ => 0) (fun _ => 0) false.
Definition demo_reset : hal := Hal (Mpu 0 (fun _ => MpuRegion 0 false MPU_ARMV8M_AP_RW_PRIV_ONLY 0 0 true) (0, 0, 0) (false, false, false)) 0 (fun _ => demo_ppc) IFX_SPM_BOUNDARY IFX_ASSET_PROTECTION_STATIC false false.
Definition demo_parts : list Z := [1; 2; 3].

Abbreviation demo_boot := (boot 3 8 demo_linker [] 1 [] demo_info demo_parts 1 demo_reset).
Definition demo_start : exec := Exec demo_boot.2 1 false None.

(** A run of events that satisfy [ok]. *)
Fixpoint runs (ok : exec -> event -> bool) (es : list event) (x : exec) : option exec :=
  match es with
  | [] => Some x
  | e :: es =>
      if ok x e && enabled 3 demo_info x e then
        match handle 3 8 demo_linker [] 1 demo_info e x with
        | (Ok _, x') => runs ok es x'
        | _ => None
        end
      else None
  end.

Definition demo_ok (x : exec) (e : event) : bool :=
  match e with
  | Schedule b => bool_decide (b ∈ demo_parts)
  | Flih b => bool_decide (b ∈ demo_parts) && (negb (saved x) || negb (IFX_GET_BOUNDARY_DOMAIN demo_info (cur x) =? IFX_GET_BOUNDARY_DOMAIN demo_info b))
  | _ => true
  end.

Abbreviation demo_reached := (reached 3 8 demo_linker [] 1 [] demo_info (quiet demo_info) demo_parts).

Lemma demo_started : demo_reached demo_start.
Proof.
  assert (demo_boot.1 = Ok tt) as He by (vm_compute; reflexivity). unfold demo_start. apply (reached_boot 3 8 demo_linker [] 1 [] demo_info (quiet demo_info) demo_parts demo_reset 1 demo_boot.2); [reflexivity|by left|].
  by rewrite (surjective_pairing demo_boot) at 1; rewrite He.
Qed.

Lemma demo_ok_event x e : demo_ok x e = true -> event_of demo_parts e /\ quiet demo_info x e.
Proof.
  destruct e as [b| | |b|]; cbn; try done; [intros Hb%bool_decide_eq_true; done|]. intros [Hb%bool_decide_eq_true Hq]%andb_prop. split; [done|]. intros Hs. rewrite Hs in Hq. by apply negb_true_iff, Z.eqb_neq in Hq.
Qed.

Lemma runs_reached es : forall x x', demo_reached x -> runs demo_ok es x = Some x' -> demo_reached x'.
Proof.
  induction es as [|e es IH]; intros x x' Hr; cbn [runs]; [by intros [= <-]|]. destruct (_ && _) eqn:Hb; [|done]. apply andb_prop in Hb as [[He Hq]%demo_ok_event Hen].
  destruct (handle _ _ _ _ _ _ _ _) as [[[]|e'] x1] eqn:Hh; [|done]. apply IH. by apply (reached_event _ _ _ _ _ _ _ _ _ x e).
Qed.

(** The state after these events. *)
Definition demo_after (es : list event) : exec := match runs demo_ok es demo_start with Some x => x | None => demo_start end.

Lemma demo_after_reached es : demo_reached (demo_after es).
Proof. unfold demo_after. destruct (runs _ _ _) as [x|] eqn:Hr; [|apply demo_started]. by eapply runs_reached, Hr; apply demo_started. Qed.

Lemma demo_partitions : partitions_ok 3 demo_info demo_parts.
Proof.
  split; [by apply (bool_decide_unpack _); vm_compute|by apply (bool_decide_unpack _); vm_compute| | |].
  - intros _ b Hb. unfold demo_parts in Hb. rewrite !elem_of_cons, elem_of_nil in Hb. by destruct Hb as [-> |[-> |[-> |[]]]].
  - intros b Hb. unfold demo_parts in Hb. rewrite !elem_of_cons, elem_of_nil in Hb. by destruct Hb as [-> |[-> |[-> |[]]]].
  - intros b b' y Hb Hb'. unfold demo_parts in Hb, Hb'. rewrite !elem_of_cons, elem_of_nil in Hb, Hb'. destruct Hb as [-> |[-> |[-> |[]]]], Hb' as [-> |[-> |[-> |[]]]]; try done;
      intros Hy%list_elem_of_singleton Hy'%list_elem_of_singleton; rewrite Hy in Hy'; done.
Qed.

Lemma demo_privileges : privileges_ok demo_info demo_parts.
Proof.
  split.
  - intros b Hb. unfold demo_parts in Hb. rewrite !elem_of_cons, elem_of_nil in Hb. by destruct Hb as [-> |[-> |[-> |[]]]].
  - intros b b' Hb Hb'. unfold demo_parts in Hb, Hb'. rewrite !elem_of_cons, elem_of_nil in Hb, Hb'. by destruct Hb as [-> |[-> |[-> |[]]]], Hb' as [-> |[-> |[-> |[]]]].
Qed.
(** Partition 1 has entered the partition manager. *)
Definition in_call : exec := demo_after [SpmEnter].

(** Partition 2 runs, after a handler of its own and calls of the others. *)
Definition switched : exec := demo_after [SpmEnter; Flih 2; FlihReturn; SpmReturn; Schedule 3; SpmEnter; SpmReturn; Schedule 2].


Lemma ifx_peripheral_isolation_witness :
  ppc_dynamic (protect_cfg_disabled (ifx_ldinfo (demo_info 1))) = true /\ cur switched <> 1 /\
  ppc_at (hw switched) (ppc_key 5) = want (ppc_cfg (demo_cfg false)).
Proof.
  assert (ppc_dynamic (protect_cfg_disabled (ifx_ldinfo (demo_info 1))) = true) as Hd by (vm_compute; reflexivity).
  assert (cur switched <> 1) as Hc by (vm_compute; discriminate). split_and!; [exact Hd|exact Hc|].
  destruct (ifx_peripheral_isolation 3 8 1 demo_linker [] [] demo_info (or_intror eq_refl) (quiet demo_info) demo_parts switched 1 (ppc_key 5))
    as (_ & Hclosed & _); [reflexivity|exact demo_partitions|apply demo_after_reached|by left|vm_compute; discriminate| |by left|].
  - intros b Hb. unfold demo_parts in Hb. rewrite !elem_of_cons, elem_of_nil in Hb. by destruct Hb as [-> |[-> |[-> |[]]]].
  - rewrite (Hclosed Hd Hc). vm_compute. reflexivity.
Defined.

Lemma ifx_privilege_confined_witness : npriv (hw switched) = true /\ active_boundary (hw switched) = 2.
Proof.
  destruct (ifx_privilege_confined 3 8 1 demo_linker [] [] demo_info (or_intror eq_refl) demo_device demo_policy demo_parts switched demo_partitions demo_privileges (demo_after_reached _)) as (Hn & _ & _).
  split; [by rewrite Hn; vm_compute|vm_compute; reflexivity].
Defined.

Lemma flih_runs_privileged_witness : exists x', handle 3 8 demo_linker [] 1 demo_info (Flih 1) in_call = (Ok tt, x') /\ cur x' = 1 /\ in_spm x' = false /\ npriv (hw x') = false.
Proof.
  apply (flih_runs_privileged 3 8 1 demo_linker [] [] demo_info (or_intror eq_refl) demo_parts in_call 1);
    [exact demo_partitions|exact demo_privileges|apply demo_after_reached|by left|reflexivity|vm_compute; reflexivity|vm_compute; reflexivity|vm_compute; reflexivity|vm_compute; discriminate].
Defined.
End Demo.
